(* ===== verification/_CoqProject ===== *)
-Q . S2P
Prelude.v
Os.v
Parse.v
Eui64Set.v
Mrp.v
MrpProps.v
Attr.v
AttrProps.v
AppProps.v
AppCmd.v
Mvrp.v
MvrpEmit.v
MvrpRecv.v
MvrpProps.v
MvrpTheorems.v
MvrpCmd.v
Mmrp.v
MmrpList.v
MmrpRecv.v
MmrpEmit.v
MmrpProps.v
MmrpTheorems.v
MmrpCmd.v
Msrp.v
MsrpOps.v
MsrpList.v
MsrpRecv.v
MsrpEmit.v
MsrpWire.v
MsrpDeliver.v
MsrpProps.v
MsrpCmd.v
MsrpTheorems.v
Daemon.v
Maap.v
MaapProps.v
MaapThreads.v
AvtpTime.v
MediaQ.v
MediaQProps.v
MediaQTheorems.v
AvtpMap.v
MapPipe.v
Rawsock.v
Avtp.v
AvtpProps.v
AvtpTheorems.v
RingSock.v
RingSockProps.v
RingTheorems.v
AudioMap.v
MapAaf.v
MapAafProps.v
MapAafTheorems.v
UtilQueue.v
UtilArray.v
UtilList.v
Qmgr.v
Endpoint.v
EndpointProps.v
EndpointTheorems.v
MrpClient.v
MrpText.v
MrpClientTheorems.v
SrpPath.v
Igb.v
IgbProps.v
IgbTheorems.v
MapMpeg2ts.v
MapMpeg2tsProps.v
MapMpeg2tsTheorems.v
ItemMap.v
MapVideo.v
MapCtrl.v
MapVideoProps.v
MapVideoTheorems.v
MapCtrlTheorems.v
MapUncmp.v
MapUncmpProps.v
MapUncmpTheorems.v
