(* ===== verification/Prelude.v ===== *)
(** * Verification of Open-AVB

    This library models the Multiple Registration Protocol daemon [mrpd]
    (src/daemons/mrpd), the two helpers it shares with other daemons
    (src/daemons/common), the MAC Address Acquisition Protocol daemon
    (src/daemons/maap), the core of the AVTP pipeline (src/lib/avtp_pipeline),
    the client side of [mrpd] and the transmit library of the I210 controller
    (src/lib/igb), and proves what makes them correct.

    ** The program

    [mrpd] keeps, per application (MVRP for VLANs, MMRP for MAC addresses and
    service requirements, MSRP for streams), a sorted list of attributes.  Each
    attribute has an Applicant (what this station declares) and a Registrar
    (what the network declares), finite state machines of mrp.c.  Events reach
    an application from four sides: received PDUs ([mvrp_recv_msg]), commands of
    local clients ([mvrp_recv_cmd]), timer expiries, and the client that leaves
    ([mvrp_bye]).  All of them go through one event function ([mvrp_event]),
    which steps the machines, may transmit a PDU ([mvrp_txpdu]), rearms timers
    and notifies the clients over a UDP socket.  Attributes that nobody declares
    are collected by [mvrp_reclaim].  The MAAP daemon is a second, independent
    program: a main thread that probes for, announces and defends a multicast
    address, and a thread that repeats the announcement.

    The AVTP pipeline carries media.  On a talker an interface module fills the
    items of a media queue (openavb_mediaq.c), a mapping module packs them into
    AVTP payloads, and openavb_avtp.c puts a header with stream identifier,
    sequence number and presentation time before them and hands the frame to a
    raw socket; on a listener the same layers run backwards.  Mapping and
    interface modules are tables of callbacks.  The endpoint process
    (endpoint/) serves the talkers and listeners of a host: it registers their
    streams with SRP (through [mrpd]), gets multicast addresses from MAAP and
    has the queue manager (qmgr/) reserve the bandwidth of a class.  It talks to
    [mrpd] in text: commands one way, notifications the other.  Programs that
    time their packets use lib/igb, which gives descriptors with launch times to
    the rings of the controller and collects them again.

    ** Files

    - Prelude: the result type [res] of code that may access memory out of
      bounds ([Ret] or [Fault]) with its total-correctness triple [returns],
      machine integers, byte buffers with checked reads and writes, shared list
      lemmas, tactics and hints.
    - Os: the world around the daemon.  The class [OS] supplies what system
      calls answer (timer creation, sockets, [rand]); the [world] record keeps
      what the daemon did (frames and datagrams sent, timers armed).
    - Parse: common/parse.c and the part of [sscanf], [strstr] and [strlen] it
      uses; strings are bounded buffers, so an unterminated one is a fault.
    - Eui64Set: common/eui64set.c.  [qsort] and [bsearch] are behind the class
      [SortLib] with the laws of the C standard [SortLibOk], discharged by the
      instance [std_sort].
    - Mrp, MrpProps: mrp.c and mrp.h, and the timer wrappers of mrpd.c.
      [mrp_applicant_fsm] and [mrp_registrar_fsm] are total functions on states
      and events.
    - Attr, AttrProps, AppProps, AppCmd: what mvrp.c, mmrp.c and msrp.c have in
      common, stated once for any attribute key: the database, loops over the
      list, the event handlers, the notification loop, client commands, the
      table dump and start-up.  The
      class [EventSink] is the interface between a receiver, which only parses,
      and an event function; [EventSinkOk] is the contract it relies on, and
      each application's event function discharges it.  The class [ListInv] is
      what the shared handlers ask of an application's list invariant, the class
      [ForcedTx] says which attributes an emitter marks for transmission on its
      own (the listeners of MSRP).
    - Mvrp, MvrpEmit, MvrpRecv, MvrpProps, MvrpTheorems, MvrpCmd: mvrp.c.
    - Mmrp, MmrpList, MmrpRecv, MmrpEmit, MmrpProps, MmrpTheorems, MmrpCmd:
      mmrp.c.
    - Msrp, MsrpOps: msrp.c, its data, list, merging and emission, and its
      reception, notifications, events and pruning.  MsrpList, MsrpRecv,
      MsrpEmit, MsrpProps: the identity of attributes and the list invariant,
      the safety of reception and emission, and of events.  MsrpWire: the
      specification of an MSRP frame and the proof that emission writes it.
      MsrpDeliver: the proof that reception reads such a frame back.  MsrpCmd:
      commands, the set of interesting streams, start and stop.  MsrpTheorems:
      the properties.
    - Daemon: mrpd.c above the applications: the command dispatcher
      [process_ctl_msg], the event loop [process_events] and the initialisation
      of [main].  The loop is written against the class [MrpApp]; [MrpAppOk] is
      its contract, discharged by MVRP, MMRP and MSRP.
    - Maap, MaapProps, MaapThreads: maap_protocol.c and the thread and mutex
      functions of maap_linux.c; Maap is the sequential program, MaapThreads
      the same program with the announce thread interleaved.

    - AvtpTime: avtp_time and the clock conversions of openavb_time_osal.c.
    - MediaQ, MediaQProps, MediaQTheorems: the ring of items with its mutex
      discipline, taking and giving back items, purging.
    - AvtpMap: the callback tables of mapping and interface modules as records of
      functions over a private state, the header layout and [strtol].  The
      classes [TxModule] and [RxModule] of AvtpProps are the contracts that the
      stream functions ask of a mapping module.
    - MapPipe: map_pipe.  AudioMap, MapAaf, MapAafProps, MapAafTheorems:
      map_aaf_audio with the audio parameters of its public headers.
      MapMpeg2ts, MapMpeg2tsProps, MapMpeg2tsTheorems: map_mpeg2ts.  MapUncmp,
      MapUncmpProps, MapUncmpTheorems: map_uncmp_audio.
    - ItemMap: the class [ItemMap], the contract between a talker and a listener
      whose mapping module sends one item per frame, and what it implies for
      any number of frames.  MapVideo, MapVideoProps, MapVideoTheorems: map_h264
      and map_mjpeg; MapCtrl, MapCtrlTheorems: map_ctrl and map_null; all four
      are instances.
    - Rawsock: the base raw socket, its header functions; the frame I/O of a
      socket is the class [SockIO].  RingSock, RingSockProps, RingTheorems: the
      Linux sockets below it, the copying one and the ring of slots shared with
      the kernel, whose work is a list of actions.
    - Avtp, AvtpProps, AvtpTheorems: openavb_avtp.c and openavb_timestamp.c,
      over any mapping module, interface module and socket.
    - UtilQueue, UtilArray, UtilList: the containers of util/, the latter two
      over a heap of numbered allocations.
    - Qmgr: openavb_qmgr.c.  Endpoint, EndpointProps, EndpointTheorems: the
      endpoint process with the SRP and MAAP proxies and the event loop; records
      are values at numbered addresses, so a dangling pointer is a fault.
    - MrpClient, MrpText, MrpClientTheorems: the endpoint's client of [mrpd], its
      commands and the parsing of notifications, against the texts that msrp.c
      prints and parses.  SrpPath: the client and the endpoint composed.
    - Igb, IgbProps, IgbTheorems: the transmit rings of lib/igb with the registers
      behind them and a model of what the controller does between calls.

    Names are those of the C code.  A long C function is split at its loops and
    switch cases ([mvrp_event_tx] is the [MRP_EVENT_TX] case of [mvrp_event]).
    The state of an application ([ast]) is its database, with the MRP timers and
    clients, and the world; the functions pass it explicitly.

    ** What the theorems show

    - State machines (MrpProps): the Applicant refines a one-bit declaration
      machine, what it transmits is true of that bit, at most three transmissions
      drain it and re-declaration sends two Joins; the Registrar's leave
      protocol, exact for every sequence of events, and its notifications;
      timers and the client list.  For MVRP the join timer runs while a message
      is owed, except after the LeaveAll expiry, and three transmissions leave
      none ([mvrp_join_timer_drains]).
    - Database invariants (MvrpTheorems, MmrpTheorems, MsrpTheorems and the Cmd
      files): every step of a daemon run (event, PDU, timer, command, departure,
      reclaim) keeps the list sorted (MVRP, MMRP) and free of duplicates, the
      machine states and the timer flags in range; the list implements a finite
      map; an event for one key leaves the others alone.
    - Streams (MsrpTheorems): merging of repeated declarations as an update of a
      map on identities, pruning ignores exactly the talkers nobody asked for,
      and stream identifiers count as 56-bit numbers.
    - Typing: what the command parser stores has the width of its field
      ([parse_values_typed]), and the fields of every reachable MSRP attribute
      that of their C types.
    - Wire format (MvrpEmit, MvrpRecv, MvrpTheorems, MsrpWire, MsrpDeliver):
      emission writes exactly the vectors a specification computes from the
      list (for MVRP a prefix of them when they do not fit the frame), and
      reception of them yields the same events ([mvrp_txpdu_roundtrip],
      [msrp_txpdu_roundtrip], the latter with all fields and the substates of
      listeners); for MVRP the two composed with the state machines register at
      the receiver what the sender declared ([mvrp_end_to_end]).
    - Memory safety and termination: reception returns without a fault on every
      byte string, emission on every database within the stated bounds,
      commands on every datagram shorter than the buffer; [returns] is total
      correctness, so running out of fuel is excluded.
    - The daemon (Daemon): after a successful start the loop is entered, and any
      sequence of [select] returns, commands, frames and timer expiries keeps
      the three databases and runs without a fault.
    - MAAP: frames and published addresses, acquisition, defence, whole frames
      under every interleaving.
    - The media path: the media queue is a bounded FIFO with purging
      ([mediaq_refines_fifo]); through talker, Ethernet frame and listener an
      item arrives with its bytes and time ([avtp_pipe_end_to_end]); an audio
      item is rebuilt from its packets ([aaf_item_reassembled]); a transport
      stream cut anywhere arrives whole ([ts_stream_carried]), and so do audio
      samples of 16 bits ([uncmp_stream_carried]), with a talker whose loop ends
      however they are cut into items ([uncmp_tx_ends]); pictures have one
      time for all their fragments ([mjpeg_pictures_carried]); the H.264
      listener is safe on every frame with a header ([h264_rx_exact]); frames
      are numbered without gaps and losses counted exactly.
    - Containers (UtilQueue, UtilArray, UtilList): refinement of a bounded
      list, a finite map and a sequence.
    - Reservation: the queue manager implements a finite map of reservations
      ([qmgr_refines_reservations], for all marks but sixteen that the code
      mistakes), and for every sequence of requests for class A and B and of
      reports the endpoint owns exactly what its streams need, as long as
      messages are written and advertised streams accepted
      ([endpoint_owns_exactly]).  Five of the six commands of the client mean to
      the daemon what was asked, and the client understands notifications of
      listeners and of talkers whose VLAN prints without letters
      ([commands_understood], [notification_understood]); a listener that
      reports ready makes the endpoint reserve its bandwidth
      ([listener_ready_reserves]).
    - Transmission: the rings of the I210 library are first-in first-out queues
      whatever the controller does between calls ([igb_refines_queues], for queue
      indices other than the number of queues), and a refused packet leaves no
      trace ([igb_xmit_refused]); the memory-mapped rings of Linux carry frames
      whole and in order in both directions ([ring_tx_fifo], [ring_rx_fifo]), and
      the packet filter accepts the frames of its stream only
      ([mcast_filter_exact]).
    - Defects: theorems that exhibit, by evaluation, where the code leaves its
      buffers or its protocol (MVRP and MMRP table dumps, the vector length
      check, MMRP LeaveAll and service vectors, MSRP frames that are nearly
      full, the deadlock of MAAP, items given back to a full media queue, the
      overread of a short pipe frame, dangling streams of the endpoint, a
      transport stream that is out of step, lengths in video, audio and control
      frames that are not checked, 24-bit samples and unaligned packets of the
      uncompressed audio mapping, the ring past the last one, a stale [errno]
      and a spurious poll on a ring, a reply cut by the parser).

    ** Bounds and fuel

    Loops over the attribute list are structural or take the length of the list
    as fuel; loops over a PDU take the frame size, and every round consumes at
    least one byte.  The receivers' read bound is the 2000-byte receive buffer:
    the length checks of the code are a few bytes short, so safety is proved for
    frames of at most 1996 (MVRP), 1992 (MMRP) and 1960 (MSRP) bytes, well above
    an Ethernet frame, and for MVRP the bound is shown to be needed.  The
    emitters are safe for up to 394 VLANs, 219 MMRP attributes and 49 MSRP
    attributes, which fill a frame; the table dumps for 49 VLANs, 44 MMRP
    attributes and 11 MSRP attributes, each bound by the 1500-byte buffers of
    the code.  In the pipeline, loops around the ring of a media queue take two
    rounds of the ring as fuel, the purge one round per item, the conversion of
    samples and the tick loop of the AAF listener one round per sample or frame
    plus one, walks over a list the size of the heap and over an array its
    slots; the transport stream talker the packets of a frame plus the items
    queued, the uncompressed audio talker the items queued, the search for its
    frame rate 302 turns (at most seven packets in each of 24 frames are
    needed), the reclaiming of descriptors the size of the ring, and the
    search in a text the length of the buffer.  The theorems show that the fuel
    is never used up, except for the counting loop of the media queue, which
    diverges ([mediaq_count_diverges]), and a transport stream of 192-byte
    packets that is out of step ([ts_loop_hangs]).  The host is little-endian.

    ** Not modelled

    Next come the round trip of MMRP MAC vectors, the end-to-end registration of
    MSRP and the [prev] pointers of the attribute lists.  The compile-time options of msrp.c
    are as the makefiles leave them (no merged latency or domain priority, no
    aggregated domains).  Command line handling and log output of mrpd.c are
    left out.  Of the pipeline, the clock reference mapping,
    the interface modules (files, ALSA, GStreamer), the talker and listener
    threads, the client side of the endpoint, the PCAP and IGB sockets and
    media clock recovery are not modelled; of lib/igb, attaching to the device,
    its memory, its clock and the shaper registers.  The MRP callbacks of the endpoint run in
    a thread of their own without a lock; here they are atomic between
    requests.  The Windows port (mrpw.c), the client tools, the C++ gPTP
    daemon and the kernel driver are outside the scope.
    System calls are parameters ([OS]); their failure is modelled where the code
    checks for it. *)

From Stdlib Require Import ZArith Lia Sorted.
From stdpp Require Import base tactics list strings option.

Open Scope Z_scope.

(** ** Faults and results *)

(** What a C statement can do besides returning: read or write outside the
    buffer it indexes, follow a pointer to memory that was freed, divide by zero, fail
    an assertion, or
    (in the model only) exhaust the fuel of a loop. *)
Inductive fault :=
| OobRead (off : Z)
| OobWrite (off : Z)
| UseAfterFree (p : Z)
| DivByZero
| IntOverflow
| AssertFailed
| OutOfFuel.

Inductive res (A : Type) :=
| Ret (a : A)
| Fault (f : fault).
Arguments Ret {A} a.
Arguments Fault {A} f.

#[export] Instance res_ret : MRet res := fun A a => Ret a.
#[export] Instance res_bind : MBind res := fun A B f m =>
  match m with Ret a => f a | Fault e => Fault e end.

(** [returns m Q]: [m] terminates without a fault and its result satisfies
    [Q] (total correctness). *)
Definition returns {A} (m : res A) (Q : A -> Prop) : Prop :=
  match m with Ret a => Q a | Fault _ => False end.

(** ** Machine integers *)

Definition u8 (z : Z) : Z := z mod 256.
Definition u16 (z : Z) : Z := z mod 65536.

(** ** Byte buffers *)

(** [rd buf i] is the C read [buf[i]], [wr buf i b] the C store
    [buf[i] = (uint8_t) b]; both fault outside the allocation. *)
Definition rd (buf : list Z) (i : Z) : res Z :=
  if i <? 0 then Fault (OobRead i)
  else match buf !! Z.to_nat i with
       | Some b => Ret b
       | None => Fault (OobRead i)
       end.

Definition wr (buf : list Z) (i b : Z) : res (list Z) :=
  if (0 <=? i) && (i <? Z.of_nat (length buf))
  then Ret (<[Z.to_nat i := u8 b]> buf)
  else Fault (OobWrite i).

(** [memcpy(buf + i, bs, length bs)]. *)
Fixpoint wr_list (buf : list Z) (i : Z) (bs : list Z) : res (list Z) :=
  match bs with
  | [] => Ret buf
  | b :: bs' => buf' ← wr buf i b; wr_list buf' (i + 1) bs'
  end.

(** [memcpy(dst, buf + i, n)]. *)
Fixpoint rd_list (buf : list Z) (i : Z) (n : nat) : res (list Z) :=
  match n with
  | O => Ret []
  | S n' => b ← rd buf i; bs ← rd_list buf (i + 1) n'; Ret (b :: bs)
  end.

(** Sign of the first difference, as [memcmp] on equally long arrays. *)
Fixpoint memcmp (a b : list Z) : Z :=
  match a, b with
  | x :: a', y :: b' =>
      if x <? y then -1 else if y <? x then 1 else memcmp a' b'
  | _, _ => 0
  end.

(** ** Loops over a list that thread a state *)

(** [while (x) { f(x, s); x = x->next; }] where [f] updates the element in
    place and the shared state. *)
Fixpoint each {A S} (f : A -> S -> A * S) (l : list A) (s : S) : list A * S :=
  match l with
  | [] => ([], s)
  | x :: r => let '(x', s1) := f x s in
              let '(r', s2) := each f r s1 in (x' :: r', s2)
  end.

(** The same loop when an element can be unlinked ([None]). *)
Fixpoint each_opt {A S} (f : A -> S -> option A * S) (l : list A) (s : S)
  : list A * S :=
  match l with
  | [] => ([], s)
  | x :: r => let '(o, s1) := f x s in
              let '(r', s2) := each_opt f r s1 in
              (match o with Some x' => x' :: r' | None => r' end, s2)
  end.

(** ** Lemmas on results *)

Create HintDb res.

Section Returns.
Context {A B : Type}.

Lemma returns_ret (a : A) (Q : A -> Prop) : Q a -> returns (Ret a) Q.
Proof. done. Qed.

Lemma returns_bind (m : res A) (f : A -> res B) (P : A -> Prop) (Q : B -> Prop) :
  returns m P -> (forall a, P a -> returns (f a) Q) -> returns (m ≫= f) Q.
Proof. destruct m; cbn; [auto | done]. Qed.

Lemma returns_and (m : res A) (P Q : A -> Prop) :
  returns m P -> returns m Q -> returns m (fun a => P a /\ Q a).
Proof. by destruct m. Qed.

Lemma returns_mono (m : res A) (P Q : A -> Prop) :
  returns m P -> (forall a, P a -> Q a) -> returns m Q.
Proof. destruct m; cbn; auto. Qed.

Lemma returns_inv (m : res A) (Q : A -> Prop) :
  returns m Q -> exists a, m = Ret a /\ Q a.
Proof. destruct m; cbn; [eauto | done]. Qed.

Lemma res_bind_ret (a : A) (f : A -> res B) : (Ret a ≫= f) = f a.
Proof. done. Qed.

End Returns.

Lemma res_bind_assoc {A B C} (m : res A) (f : A -> res B) (g : B -> res C) :
  ((m ≫= f) ≫= g) = (m ≫= fun a => f a ≫= g).
Proof. by destruct m. Qed.

Lemma res_bind_ext {A B} (m : res A) (f g : A -> res B) :
  (forall a, f a = g a) -> (m ≫= f) = (m ≫= g).
Proof. destruct m; cbn; auto. Qed.

(** ** Lemmas on buffers *)

Abbreviation Zlen l := (Z.of_nat (length l)).

(** Every element is a byte. *)
Definition bytes_ok (l : list Z) : Prop := Forall (fun b => 0 <= b < 256) l.

Lemma u8_id z : 0 <= z < 256 -> u8 z = z.
Proof. apply Z.mod_small. Qed.
Lemma u16_id z : 0 <= z < 65536 -> u16 z = z.
Proof. apply Z.mod_small. Qed.
Lemma u8_range z : 0 <= u8 z < 256.
Proof. by apply Z.mod_pos_bound. Qed.
Lemma u16_range z : 0 <= u16 z < 65536.
Proof. by apply Z.mod_pos_bound. Qed.

Lemma rd_lookup buf i b :
  0 <= i -> buf !! Z.to_nat i = Some b -> rd buf i = Ret b.
Proof. intros Hi Hb. unfold rd. by rewrite (proj2 (Z.ltb_ge _ _) Hi), Hb. Qed.

Lemma rd_ok buf i :
  0 <= i < Zlen buf -> returns (rd buf i) (fun b => buf !! Z.to_nat i = Some b).
Proof.
  intros Hi. destruct (lookup_lt_is_Some_2 buf (Z.to_nat i)) as [b Hb]; [lia|].
  rewrite (rd_lookup _ _ b); [done | lia | done].
Qed.

Lemma rd_byte buf i :
  bytes_ok buf -> 0 <= i < Zlen buf -> returns (rd buf i) (fun b => 0 <= b < 256).
Proof.
  intros Hb Hi. eapply returns_mono; [by apply rd_ok|].
  intros b Hl. unfold bytes_ok in Hb. rewrite Forall_lookup in Hb.
  by apply (Hb _ _ Hl).
Qed.

Lemma wr_ok buf i b :
  0 <= i < Zlen buf -> wr buf i b = Ret (<[Z.to_nat i := u8 b]> buf).
Proof.
  intros Hi. unfold wr.
  by rewrite (proj2 (Z.leb_le _ _) (proj1 Hi)), (proj2 (Z.ltb_lt _ _) (proj2 Hi)).
Qed.

Lemma wr_len buf i b :
  0 <= i < Zlen buf -> returns (wr buf i b) (fun buf' => length buf' = length buf).
Proof. intros Hi. rewrite wr_ok by done. apply length_insert. Qed.

(** Reading and writing at the end of a known prefix. *)
Lemma rd_app pre b rest i : i = Zlen pre -> rd (pre ++ b :: rest) i = Ret b.
Proof.
  intros ->. apply rd_lookup; [lia|].
  rewrite Nat2Z.id. by apply list_lookup_middle.
Qed.

Lemma wr_app pre b0 rest i b :
  i = Zlen pre -> wr (pre ++ b0 :: rest) i b = Ret (pre ++ u8 b :: rest).
Proof.
  intros ->. rewrite wr_ok by (rewrite length_app; cbn; lia).
  rewrite Nat2Z.id. f_equal.
  rewrite insert_app_r_alt, Nat.sub_diag by done. done.
Qed.

Lemma wr_list_len bs buf i :
  0 <= i -> i + Zlen bs <= Zlen buf ->
  returns (wr_list buf i bs) (fun buf' => length buf' = length buf).
Proof.
  revert buf i; induction bs as [|b bs IH]; intros buf i Hi Hlen; [done|].
  cbn [length] in Hlen. cbn [wr_list].
  eapply returns_bind; [apply wr_len; lia|]. intros buf' Hb. cbn beta in Hb.
  eapply returns_mono; [apply IH; lia|]. cbn. congruence.
Qed.

Lemma wr_list_snoc bs buf i b :
  wr_list buf i (bs ++ [b]) = (buf' ← wr_list buf i bs; wr buf' (i + Zlen bs) b).
Proof.
  revert buf i; induction bs as [|x bs IH]; intros buf i; cbn [app wr_list].
  - rewrite Z.add_0_r. change (wr_list ?b ?i []) with (Ret b). rewrite res_bind_ret.
    by destruct (wr buf i b).
  - destruct (wr buf i x) as [buf1|]; [|done]. rewrite !res_bind_ret, IH.
    destruct (wr_list buf1 (i + 1) bs); [|done]. rewrite !res_bind_ret. f_equal.
    cbn [length]. lia.
Qed.

Lemma wr_list_u8 pre old rest i bs :
  i = Zlen pre -> length old = length bs ->
  wr_list (pre ++ old ++ rest) i bs = Ret (pre ++ (u8 <$> bs) ++ rest).
Proof.
  revert pre old i; induction bs as [|b bs IH]; intros pre old i -> Hl.
  - by destruct old.
  - destruct old as [|o old]; [done|]. cbn [wr_list app]. rewrite wr_app by done.
    rewrite res_bind_ret, (cons_middle (u8 b)), app_assoc, (IH _ old).
    + by rewrite <- app_assoc.
    + rewrite length_app; cbn; lia.
    + by injection Hl.
Qed.

Lemma u8_bytes bs : bytes_ok bs -> u8 <$> bs = bs.
Proof. induction 1; [done|]. rewrite fmap_cons, u8_id by done. by f_equal. Qed.

Lemma wr_list_app pre old rest i bs :
  i = Zlen pre -> length old = length bs -> bytes_ok bs ->
  wr_list (pre ++ old ++ rest) i bs = Ret (pre ++ bs ++ rest).
Proof. intros Hi Hl Hb. by rewrite wr_list_u8, u8_bytes. Qed.

Lemma rd_list_app pre bs rest i :
  i = Zlen pre -> rd_list (pre ++ bs ++ rest) i (length bs) = Ret bs.
Proof.
  revert pre i; induction bs as [|b bs IH]; intros pre i ->; [done|].
  cbn [rd_list length app]. rewrite rd_app by done. rewrite res_bind_ret.
  rewrite (cons_middle b), (app_assoc pre [b]), (IH (pre ++ [b])); [done|].
  rewrite length_app; cbn; lia.
Qed.

Lemma rd_list_ok buf i n :
  0 <= i -> i + Z.of_nat n <= Zlen buf ->
  returns (rd_list buf i n) (fun bs => length bs = n).
Proof.
  revert i; induction n as [|n IH]; intros i Hi Hn; [done|]. cbn [rd_list].
  eapply returns_bind; [apply rd_ok; lia|]. intros b _.
  eapply returns_bind; [apply (IH (i + 1)); lia|]. cbn. congruence.
Qed.

Lemma replicate_cons_Z {A} (x : A) k :
  0 < k -> replicate (Z.to_nat k) x = x :: replicate (Z.to_nat (k - 1)) x.
Proof. intros Hk. by replace (Z.to_nat k) with (S (Z.to_nat (k - 1))) by lia. Qed.

Lemma memcmp_refl l : memcmp l l = 0.
Proof. induction l; cbn; [done|]. by rewrite Z.ltb_irrefl. Qed.

(** ** Automation *)

(** Case analysis on the boolean tests of the goal, with arithmetic
    hypotheses. *)
Ltac btest :=
  match goal with
  | |- context [?a <? ?b] => destruct (Z.ltb_spec a b)
  | |- context [?a <=? ?b] => destruct (Z.leb_spec a b)
  | |- context [?a =? ?b] => destruct (Z.eqb_spec a b)
  end.

(** [Forall] of a concrete list. *)
Ltac forall_done := repeat first [apply Forall_nil_2 | apply Forall_cons_2; [done|]].

(** [lia] after eliminating [/] and [mod]. *)
Ltac zdm := Z.div_mod_to_equations; lia.

Lemma sublist_Forall {A} (P : A -> Prop) (k' k : list A) :
  sublist k' k -> Forall P k -> Forall P k'.
Proof. induction 1; intros Hf; [done| |]; inversion_clear Hf; auto. Qed.
Lemma sublist_elem {A} (x : A) l k : l `sublist_of` k -> x ∈ l -> x ∈ k.
Proof. induction 1; rewrite ?elem_of_cons; naive_solver. Qed.

Lemma memcmp_eq a b : length a = length b -> memcmp a b = 0 -> a = b.
Proof.
  revert b; induction a as [|x a IH]; intros [|y b] Hl; try done. cbn in *.
  btest; [done|]. btest; [done|]. intros H1. f_equal; [lia|]. apply IH; [lia | done].
Qed.

Lemma memcmp_zero a b : length a = length b -> memcmp a b = 0 <-> a = b.
Proof. intros H. split; [by apply memcmp_eq | intros ->; apply memcmp_refl]. Qed.

#[export] Hint Resolve returns_ret rd_ok wr_len : res.
