(* ===== verification/Os.v ===== *)
(** * The operating system as the daemon sees it, and the thin layer of
    [mrpd.c] over it

    The kernel and libc are an interface: a class [OS] whose fields answer the
    n-th external call of the run.  Every external call is recorded in the
    [world]'s trace, so theorems can speak of what the daemon does. *)

From S2P Require Import Prelude.
From Stdlib Require Import ZArith Lia.
From stdpp Require Import base tactics list strings option.
Open Scope Z_scope.

(** ** Data *)

Record sockaddr_in := SockAddr {
  sin_family : Z;
  sin_port : Z;
  sin_addr : Z;
  sin_zero : Z
}.

#[export] Instance sockaddr_in_eq_dec : EqDecision sockaddr_in.
Proof. solve_decision. Defined.

Record itimerspec := Itimerspec {
  it_interval_sec : Z;
  it_interval_nsec : Z;
  it_value_sec : Z;
  it_value_nsec : Z
}.

(** The externally visible actions of the daemon. *)
Inductive action :=
| ASettime (fd : Z) (it : itimerspec)
| ASend (sock : Z) (frame : list Z)
| ASendto (dst : sockaddr_in) (msg : string) (len : Z)
| AClose (fd : Z).

(** The globals the protocol code shares ([p2pmac] of mrp.c, [control_socket]
    and [STATION_ADDR] of mrpd.c) and the history of external calls. *)
Record world := World {
  w_tick : nat;
  w_trace : list action;
  p2pmac : Z;
  control_socket : Z;
  STATION_ADDR : list Z
}.

(** Answers of the environment, by the index of the call. *)
Class OS := {
  os_malloc : nat -> bool;     (* false: malloc returned NULL *)
  os_settime : nat -> Z;       (* timerfd_settime *)
  os_timerfd : nat -> Z;       (* timerfd_create *)
  os_random : nat -> Z;        (* random *)
  os_send : nat -> Z;          (* send, sendto *)
  os_syscall : nat -> Z;       (* socket, ioctl, bind, setsockopt *)
  os_hwaddr : list Z           (* the interface's address, SIOCGIFHWADDR *)
}.

Definition step_tick (w : world) : world :=
  World (S (w_tick w)) (w_trace w) (p2pmac w) (control_socket w) (STATION_ADDR w).

Definition log (a : action) (w : world) : world :=
  World (S (w_tick w)) (w_trace w ++ [a]) (p2pmac w) (control_socket w)
        (STATION_ADDR w).

(** What a received datagram or frame can be: the error return of [recvmsg]
    (with whether errno is EAGAIN), or bytes. *)
Inductive recv_result :=
| RecvError (eagain : bool)
| RecvBytes (data : list Z).

Definition MAX_FRAME_SIZE : Z := 2000.
Definition MAX_MRPD_CMDSZ : Z := 1500.

(** ** External calls *)
Section Calls.
Context {os : OS}.

Definition malloc (w : world) : bool * world :=
  (os_malloc (w_tick w), step_tick w).

Definition random (w : world) : Z * world :=
  (os_random (w_tick w), step_tick w).

Definition timerfd_settime (fd : Z) (it : itimerspec) (w : world) : Z * world :=
  (os_settime (w_tick w), log (ASettime fd it) w).

Definition mrpd_send (sock : Z) (frame : list Z) (w : world) : Z * world :=
  (os_send (w_tick w), log (ASend sock frame) w).

(** ** The timer layer of mrpd.c *)

Definition mrpd_timer_create (w : world) : Z * world :=
  (os_timerfd (w_tick w), step_tick w).

Definition mrpd_timer_close (t : Z) (w : world) : world :=
  if -1 =? t then w else log (AClose t) w.

Definition mrpd_timer_start_interval (timerfd value_ms interval_ms : Z)
    (w : world) : Z * world :=
  let ns_per_ms := 1000000 in
  let '(isec, insec) :=
    if interval_ms =? 0 then (0, 0)
    else (interval_ms / 1000, (interval_ms mod 1000) * ns_per_ms) in
  timerfd_settime timerfd
    (Itimerspec isec insec (value_ms / 1000) ((value_ms mod 1000) * ns_per_ms)) w.

Definition mrpd_timer_start (timerfd value_ms : Z) (w : world) : Z * world :=
  mrpd_timer_start_interval timerfd value_ms 0 w.

Definition mrpd_timer_stop (timerfd : Z) (w : world) : Z * world :=
  timerfd_settime timerfd (Itimerspec 0 0 0 0) w.

Definition syscall (w : world) : Z * world :=
  (os_syscall (w_tick w), step_tick w).

(** ** Sockets *)

Definition mrpd_close_socket (sock : Z) (w : world) : world := log (AClose sock) w.

Definition set_station (a : list Z) (w : world) : world :=
  World (w_tick w) (w_trace w) (p2pmac w) (control_socket w) a.

(** [mrpd_init_protocol_socket]: returns rc, [*sock] and the world; the
    interface address becomes [STATION_ADDR] on the way. *)
Definition mrpd_init_protocol_socket (w : world) : Z * Z * world :=
  let '(lsock, w) := syscall w in
  if lsock <? 0 then (-1, -1, w)
  else
    let fail (w : world) := (-1, -1, log (AClose lsock) w) in
    let '(rc, w) := syscall w in
    if rc <? 0 then fail w
    else
      let w := set_station os_hwaddr w in
      let '(rc, w) := syscall w in
      if rc <? 0 then fail w
      else
        let '(rc, w) := syscall w in
        if negb (0 =? rc) then fail w
        else
          let '(rc, w) := syscall w in
          if negb (0 =? rc) then fail w
          else
            let '(rc, w) := syscall w in
            if negb (0 =? rc) then fail w else (0, lsock, w).

(** ** Control messages and frame reception *)

Definition mrpd_send_ctl_msg (client_addr : sockaddr_in) (notify_data : string)
    (notify_len : Z) (w : world) : Z * world :=
  if -1 =? control_socket w then (0, w)
  else (os_send (w_tick w), log (ASendto client_addr notify_data notify_len) w).

(** [mrpd_recvmsgbuf]: the buffer is [MAX_FRAME_SIZE] zeroed bytes that
    [recvmsg] overwrites with at most that many bytes of the frame.  Returns
    the byte count and the buffer ([None] when malloc failed). *)
Definition mrpd_recvmsgbuf (r : recv_result) (w : world)
  : Z * option (list Z) * world :=
  let '(ok, w) := malloc w in
  if negb ok then (-1, None, w)
  else
    let zeroed := replicate (Z.to_nat MAX_FRAME_SIZE) 0 in
    match r with
    | RecvError eagain => (-1, Some zeroed, w)
    | RecvBytes data =>
        let got := take (Z.to_nat MAX_FRAME_SIZE) data in
        let bytes := Z.of_nat (length got) in
        if bytes =? 0 then (-1, Some zeroed, w)
        else (bytes, Some (got ++ drop (length got) zeroed), w)
    end.

End Calls.

(** ** C string formatting *)

(** [snprintf(buf, n, ...)] keeps at most [n - 1] characters. *)
Definition snprintf (n : nat) (s : string) : string := String.substring 0 (n - 1) s.

Definition hex_digit (z : Z) : string :=
  match String.get (Z.to_nat (z mod 16)) "0123456789abcdef" with
  | Some c => String c EmptyString
  | None => EmptyString
  end.

(** The [%02x] and [%04x] conversions of a value of 8 or 16 bits. *)
Definition fmt_02x (z : Z) : string := hex_digit (z / 16) +:+ hex_digit z.
Definition fmt_04x (z : Z) : string := fmt_02x (z / 256) +:+ fmt_02x (z mod 256).

(** [%02x] repeated over the bytes of an address. *)
Definition fmt_mac (mac : list Z) : string := String.concat "" (fmt_02x <$> mac).

(** ** Environments *)

(** Every [timerfd_settime] succeeds, every [malloc] succeeds. *)
Definition timers_ok (os : OS) : Prop := forall n, 0 <= @os_settime os n.
Definition mallocs_ok (os : OS) : Prop := forall n, @os_malloc os n = true.

(** A concrete environment in which every call succeeds. *)
Definition calm_os : OS := {|
  os_malloc := fun _ => true;
  os_settime := fun _ => 0;
  os_timerfd := fun n => 10 + Z.of_nat n;
  os_random := fun _ => 0;
  os_send := fun _ => 1;
  os_syscall := fun _ => 0;
  os_hwaddr := [0; 136; 119; 102; 85; 68]
|}.

(** A run only appends to the trace and keeps the process globals. *)
Record w_extends (w w' : world) : Prop := {
  we_trace : exists t, w_trace w' = w_trace w ++ t;
  we_p2p : p2pmac w' = p2pmac w;
  we_ctl : control_socket w' = control_socket w;
  we_sta : STATION_ADDR w' = STATION_ADDR w
}.

#[export] Instance w_extends_preorder : PreOrder w_extends.
Proof.
  split.
  - intros w. split; try done. exists []. by rewrite app_nil_r.
  - intros w1 w2 w3 [[t1 H1] ???] [[t2 H2] ???].
    split; [exists (t1 ++ t2) | congruence..].
    by rewrite H2, H1, app_assoc.
Qed.

Lemma w_extends_tick w : w_extends w (step_tick w).
Proof. split; try done. exists []. cbn. by rewrite app_nil_r. Qed.
Lemma w_extends_log a w : w_extends w (log a w).
Proof. split; try done. by exists [a]. Qed.

Create HintDb avb.
#[export] Hint Resolve w_extends_tick w_extends_log : avb.
#[export] Hint Extern 0 (w_extends ?w ?w) => reflexivity : avb.
