(* ===== verification/Parse.v ===== *)
(** * common/parse.c: the parameter parser of the control protocol

    C strings in byte buffers, the integer conversions of [sscanf], and
    [parse] with its memory safety. *)

From S2P Require Import Prelude Os.
From Stdlib Require Import ZArith Lia Ascii.
From stdpp Require Import base tactics list strings option.
Open Scope Z_scope.

(** ** Bytes and C strings *)

Definition bytes_of (s : string) : list Z :=
  (fun c => Z.of_N (N_of_ascii c)) <$> String.list_ascii_of_string s.

Definition text_of (l : list Z) : string :=
  String.string_of_list_ascii ((fun z => ascii_of_N (Z.to_N z)) <$> l).

(** The bytes before the first NUL; [None] when there is none. *)
Fixpoint until_nul (l : list Z) : option (list Z) :=
  match l with
  | [] => None
  | b :: r => if b =? 0 then Some [] else (b ::.) <$> until_nul r
  end.

(** The C string at [buf + off], as [strlen], [strstr] or a [%s] conversion
    read it; without a NUL they run past the buffer. *)
Definition cstr (buf : list Z) (off : Z) : res (list Z) :=
  if off <? 0 then Fault (OobRead off)
  else match until_nul (drop (Z.to_nat off) buf) with
       | Some s => Ret s
       | None => Fault (OobRead (Z.max off (Zlen buf)))
       end.

(** [strncmp(s, lit, strlen(lit)) == 0] on the bytes of a buffer. *)
Fixpoint has_prefix (lit s : list Z) : bool :=
  match lit, s with
  | [], _ => true
  | x :: lit, y :: s => (x =? y) && has_prefix lit s
  | _ :: _, [] => false
  end.

(** [strstr(s, name)]: what follows the first occurrence of [name]. *)
Fixpoint after_name (name s : list Z) : option (list Z) :=
  if has_prefix name s then Some (drop (length name) s)
  else match s with
       | [] => None
       | _ :: s' => after_name name s'
       end.

(** ** [sscanf] of one integer *)

Definition isspace (c : Z) : bool := (c =? 32) || ((9 <=? c) && (c <=? 13)).

Definition digit_value (base c : Z) : option Z :=
  let d := if (48 <=? c) && (c <=? 57) then c - 48
           else if (97 <=? c) && (c <=? 102) then c - 87
           else if (65 <=? c) && (c <=? 70) then c - 55
           else 99 in
  if d <? base then Some d else None.

Fixpoint skip_space (l : list Z) : list Z :=
  match l with
  | c :: r => if isspace c then skip_space r else l
  | [] => []
  end.

(** The value of the leading digits, [None] if there is none. *)
Fixpoint scan_digits (base : Z) (acc : option Z) (l : list Z) : option Z :=
  match l with
  | [] => acc
  | c :: r => match digit_value base c with
              | Some d => scan_digits base (Some (default 0 acc * base + d)) r
              | None => acc
              end
  end.

(** The subject sequence of [strtoul] after an optional sign: for base 16 an
    optional 0x. *)
Definition scan_number (base : Z) (l : list Z) : option Z :=
  match l with
  | z :: x :: r => if (base =? 16) && (z =? 48) && ((x =? 120) || (x =? 88))
                   then scan_digits base None r else scan_digits base None l
  | _ => scan_digits base None l
  end.

Definition ULONG_MAX : Z := 2 ^ 64 - 1.

(** The conversions [%u], [%x] (with a maximum field width) and their 64-bit
    forms: white space is skipped, a value that does not fit saturates, a minus
    sign negates modulo 2^64. *)
Definition sscanf_uint (base : Z) (width : option nat) (l : list Z) : option Z :=
  let l := skip_space l in
  let l := match width with Some w => take w l | None => l end in
  match l with
  | [] => None
  | c :: r =>
      if c =? 45 then (fun v => if ULONG_MAX <? v then ULONG_MAX else (- v) mod 2 ^ 64)
                      <$> scan_number base r
      else Z.min ULONG_MAX <$> scan_number base (if c =? 43 then r else l)
  end.

(** ** parse *)

Inductive parse_type :=
| parse_null | parse_u8 | parse_u16 | parse_u16_04x | parse_u32 | parse_u64
| parse_h64 | parse_c64 | parse_mac.

(** What a conversion stores through its [void *]. *)
Inductive parse_value := PInt (z : Z) | PBytes (l : list Z).

(** Big-endian unpacking into [n] bytes. *)
Fixpoint unpack_bytes (n : nat) (v : Z) : list Z :=
  match n with
  | O => []
  | S n => u8 (Z.shiftr v (Z.of_nat n * 8)) :: unpack_bytes n v
  end.

(** The [switch (specs->type)] on the text of one field; [None]: the
    conversion failed.  [parse_null] leaves [result] from the field before
    ([prev] tells whether it was 1). *)
Definition parse_field (ty : parse_type) (prev : bool) (data : list Z)
  : option (option parse_value) :=
  let dec := sscanf_uint 10 None data in
  let hex := sscanf_uint 16 None data in
  match ty with
  | parse_null => if prev then Some None else None
  | parse_u8 => (fun v => Some (PInt (u8 v))) <$> dec
  | parse_u16_04x => (fun v => Some (PInt (u16 v))) <$> sscanf_uint 16 (Some 4%nat) data
  | parse_u16 => (fun v => Some (PInt (u16 v))) <$> dec
  | parse_u32 => (fun v => Some (PInt (v mod 2 ^ 32))) <$> dec
  | parse_u64 => (fun v => Some (PInt v)) <$> dec
  | parse_h64 => (fun v => Some (PInt v)) <$> hex
  | parse_c64 => (fun v => Some (PBytes (unpack_bytes 8 v))) <$> hex
  | parse_mac => (fun v => Some (PBytes (unpack_bytes 6 v))) <$> hex
  end.

Definition PARSE_DELIMITER : Z := 44.

(** The text before the next delimiter, and what follows it if there is one. *)
Fixpoint split_field (l : list Z) : list Z * option (list Z) :=
  match l with
  | [] => ([], None)
  | c :: r => if c =? PARSE_DELIMITER then ([], Some r)
              else let '(f, rest) := split_field r in (c :: f, rest)
  end.

(** [inl err_index] on failure, the stored values in order on success. *)
Fixpoint parse_specs (s : list Z) (specs : list (list Z * parse_type)) (prev : bool)
    (count : Z) : Z + list parse_value :=
  match specs with
  | [] => inr []
  | (name, ty) :: specs =>
      match after_name name s with
      | None => inl (count + 1)
      | Some data =>
          let '(field, rest) := split_field data in
          match parse_field ty prev field with
          | None => inl (count + 1)
          | Some v =>
              match parse_specs (default s rest) specs true (count + 1) with
              | inl e => inl e
              | inr vs => inr (option_list v ++ vs)
              end
          end
      end
  end.

(** [for (i = len - 1; s[i] != 0 && i >= 0; --i) {}]: the index where the scan
    stops; note that [s[-1]] is read before [i] is tested. *)
Fixpoint nul_scan (buf : list Z) (off : Z) (n : nat) : res Z :=
  let i := Z.of_nat n - 1 in
  b ← rd buf (off + i);
  if (b =? 0) || (i <? 0) then Ret i
  else match n with
       | O => Ret i
       | S n' => nul_scan buf off n'
       end.

(** [parse(buf + off, len, specs, &err_index)]: [None] stands for the failure
    that leaves [err_index] unset. *)
Definition parse (buf : list Z) (off len : Z) (specs : list (list Z * parse_type))
  : res (option (Z + list parse_value)) :=
  i ← (if len <? 0 then b ← rd buf (off + len - 1); Ret (len - 1)
       else nul_scan buf off (Z.to_nat len));
  if i <? 0 then Ret None
  else s ← cstr buf off; Ret (Some (parse_specs s specs false 0)).

(** The offset in [s] of the delimiter that a failed conversion leaves
    overwritten with a NUL: [parse] returns before it puts the comma back.  The
    delimiters of the fields before are restored, and a field that ends with the
    string or is not found overwrites nothing. *)
Fixpoint parse_cut (s : list Z) (specs : list (list Z * parse_type)) (prev : bool)
  : option nat :=
  match specs with
  | [] => None
  | (name, ty) :: specs =>
      match after_name name s with
      | None => None
      | Some data =>
          let '(field, rest) := split_field data in
          let delimiter := (length s - length data + length field)%nat in
          match parse_field ty prev field, rest with
          | None, Some _ => Some delimiter
          | None, None => None
          | Some _, Some r => (fun n => delimiter + 1 + n)%nat <$> parse_cut r specs true
          | Some _, None => parse_cut s specs true
          end
      end
  end.

(** The buffer as [parse] leaves it. *)
Definition parse_left (buf : list Z) (off len : Z) (specs : list (list Z * parse_type))
  : list Z :=
  match parse buf off len specs, cstr buf off with
  | Ret (Some (inl _)), Ret s =>
      match parse_cut s specs false with
      | Some n => <[(Z.to_nat off + n)%nat := 0]> buf
      | None => buf
      end
  | _, _ => buf
  end.

(** ** Memory safety *)

(** A terminated buffer stays terminated. *)
Lemma parse_left_keeps buf off len specs i :
  length (parse_left buf off len specs) = length buf
  /\ (buf !! i = Some 0 -> parse_left buf off len specs !! i = Some 0).
Proof.
  unfold parse_left. repeat case_match; try done. rewrite length_insert. split; [done|].
  intros Hi. destruct (decide (i = Z.to_nat off + n)%nat) as [->|Hne].
  - rewrite list_lookup_insert_eq; [done|]. by eapply lookup_lt_Some.
  - by rewrite list_lookup_insert_ne by done.
Qed.

Lemma until_nul_some l : 0 ∈ l -> exists s, until_nul l = Some s.
Proof.
  induction l as [|b r IH]; intros Hin; [by apply elem_of_nil in Hin|]. cbn.
  destruct (Z.eqb_spec b 0); [eauto|].
  apply elem_of_cons in Hin as [?|Hin]; [congruence|].
  destruct (IH Hin) as [s ->]. cbn. eauto.
Qed.

(** Scanning stops inside the string at a NUL, or before its start. *)
Lemma nul_scan_spec buf off n :
  1 <= off -> off + Z.of_nat n <= Zlen buf ->
  returns (nul_scan buf off n) (fun i => 0 <= i ->
    i < Z.of_nat n /\ buf !! Z.to_nat (off + i) = Some 0).
Proof.
  intros Ho. induction n as [|n IH]; intros Hl.
  - cbn [nul_scan]. eapply returns_bind; [apply rd_ok; lia|]. intros b _.
    destruct (_ || _); cbn [returns]; intros Hc; lia.
  - cbn [nul_scan]. eapply returns_bind; [apply rd_ok; lia|]. intros b Hb.
    destruct (Z.eqb_spec b 0) as [->|]; cbn [orb].
    + cbn [returns]. intros _. split; [lia | done].
    + destruct (Z.ltb_spec (Z.of_nat (S n) - 1) 0); [lia|].
      eapply returns_mono; [apply IH; lia|]. intros i Hi H0. destruct (Hi H0). split; [lia|done].
Qed.

Lemma cstr_ok buf off i :
  0 <= off -> 0 <= i -> buf !! Z.to_nat (off + i) = Some 0 ->
  returns (cstr buf off) (fun _ => True).
Proof.
  intros Ho Hi Hz. unfold cstr. rewrite (proj2 (Z.ltb_ge _ _)) by lia.
  destruct (until_nul_some (drop (Z.to_nat off) buf)) as [s ->]; [|done].
  apply list_elem_of_lookup. exists (Z.to_nat i). rewrite lookup_drop.
  replace (Z.to_nat off + Z.to_nat i)%nat with (Z.to_nat (off + i)) by lia. done.
Qed.

Lemma parse_safe buf off len specs :
  1 <= off -> 0 <= len -> off + len <= Zlen buf ->
  returns (parse buf off len specs) (fun _ => True).
Proof.
  intros Ho H0 Hl. unfold parse. rewrite (proj2 (Z.ltb_ge _ _)) by lia.
  eapply returns_bind; [apply nul_scan_spec; lia|]. intros i Hi.
  destruct (Z.ltb_spec i 0) as [|Hge]; [done|]. destruct (Hi Hge) as [_ Hz].
  eapply returns_bind; [apply (cstr_ok buf off i); [lia|lia|done]|]. done.
Qed.

(** A buffer that ends in a NUL holds a C string at every offset. *)
Lemma cstr_nul_end buf off :
  0 <= off < Zlen buf -> buf !! (length buf - 1)%nat = Some 0 ->
  returns (cstr buf off) (fun _ => True).
Proof.
  intros Ho Hl. apply (cstr_ok buf off (Zlen buf - 1 - off)); [lia | lia |].
  rewrite <- Hl. f_equal. lia.
Qed.

(** ** The types of the stored values *)

Lemma unpack_bytes_ok n v : length (unpack_bytes n v) = n /\ bytes_ok (unpack_bytes n v).
Proof.
  induction n as [|n [IH1 IH2]]; cbn; [by split; [|constructor]|].
  split; [congruence|]. constructor; [apply u8_range | done].
Qed.

Lemma scan_digits_nonneg base l : forall acc v,
  0 <= base -> (forall a, acc = Some a -> 0 <= a) -> scan_digits base acc l = Some v -> 0 <= v.
Proof.
  induction l as [|c l IH]; intros acc v Hb Ha; cbn; [apply Ha|].
  destruct (digit_value base c) as [d|] eqn:Ed; [|apply Ha].
  assert (Hd : 0 <= d). { unfold digit_value in Ed. repeat case_match; simplify_eq; lia. }
  apply IH; [done|]. intros a [= <-].
  assert (0 <= default 0 acc) by (destruct acc; cbn; [by apply Ha | lia]). nia.
Qed.

Lemma scan_number_nonneg base l v : 0 <= base -> scan_number base l = Some v -> 0 <= v.
Proof.
  intros Hb. unfold scan_number. repeat case_match; apply scan_digits_nonneg; done.
Qed.

Lemma sscanf_uint_range base width l v :
  0 <= base -> sscanf_uint base width l = Some v -> 0 <= v < 2 ^ 64.
Proof.
  intros Hb. unfold sscanf_uint, ULONG_MAX. destruct (match width with Some _ => _ | None => _ end)
    as [|c r]; [done|]. destruct (c =? 45); intros (x & Hx & Hv)%fmap_Some;
    apply scan_number_nonneg in Hx; auto; subst v.
  - destruct (_ <? x); [lia|]. apply Z.mod_pos_bound. lia.
  - lia.
Qed.

(** A value of the type its conversion stores. *)
Definition value_ok (ty : parse_type) (v : parse_value) : Prop :=
  match ty, v with
  | parse_u8, PInt z => 0 <= z < 256
  | (parse_u16 | parse_u16_04x), PInt z => 0 <= z < 65536
  | parse_u32, PInt z => 0 <= z < 2 ^ 32
  | (parse_u64 | parse_h64), PInt z => 0 <= z < 2 ^ 64
  | parse_c64, PBytes l => length l = 8%nat /\ bytes_ok l
  | parse_mac, PBytes l => length l = 6%nat /\ bytes_ok l
  | _, _ => False
  end.

Lemma parse_field_typed ty prev f o :
  ty <> parse_null -> parse_field ty prev f = Some o -> exists v, o = Some v /\ value_ok ty v.
Proof.
  intros Hn. destruct ty; cbn [parse_field]; try done;
    intros (z & Hz & ->)%fmap_Some; eexists; (split; [done|]); cbn [value_ok];
    auto using u8_range, u16_range, unpack_bytes_ok;
    try (by apply Z.mod_pos_bound; lia); by apply sscanf_uint_range in Hz.
Qed.

Lemma parse_specs_typed specs : forall s prev c vs,
  Forall (fun sp => sp.2 <> parse_null) specs -> parse_specs s specs prev c = inr vs ->
  Forall2 (fun sp v => value_ok sp.2 v) specs vs.
Proof.
  induction specs as [|[name ty] specs IH]; intros s prev c vs Hn; cbn [parse_specs].
  { intros [= <-]. constructor. }
  apply Forall_cons_iff in Hn as [Hty Hn].
  destruct (after_name name s) as [data|]; [|done]. destruct (split_field data) as [f rest].
  destruct (parse_field ty prev f) as [o|] eqn:Ef; [|done].
  destruct (parse_specs _ specs true _) as [e|vs'] eqn:Es; [done|]. intros [= <-].
  apply parse_field_typed in Ef as (v & -> & Hv); [|done]. constructor; [done|]. by eapply IH.
Qed.

Lemma parse_typed buf off len specs :
  1 <= off -> 0 <= len -> off + len <= Zlen buf ->
  Forall (fun sp => sp.2 <> parse_null) specs ->
  returns (parse buf off len specs) (fun r => forall vs, r = Some (inr vs) ->
    Forall2 (fun sp v => value_ok sp.2 v) specs vs).
Proof.
  intros Ho H0 Hl Hn. pose proof (parse_safe buf off len specs Ho H0 Hl) as Hs.
  unfold parse in *. rewrite (proj2 (Z.ltb_ge len 0)) in * by lia.
  destruct (nul_scan _ _ _) as [i|]; [|done]. rewrite res_bind_ret in *.
  destruct (i <? 0); [done|]. destruct (cstr buf off) as [s|]; [|done].
  rewrite !res_bind_ret. cbn [returns]. intros vs [= E]. by eapply parse_specs_typed.
Qed.

(** C35: what [parse] stores has the type its field asks for: when it succeeds
    there is exactly one value per field of the specification, in order, an
    integer within the width of the field's C type, or the eight or six bytes of
    an identifier or address. *)
Theorem parse_values_typed buf off len specs vs :
  1 <= off -> 0 <= len -> off + len <= Zlen buf ->
  Forall (fun sp => sp.2 <> parse_null) specs ->
  parse buf off len specs = Ret (Some (inr vs)) ->
  Forall2 (fun sp v => value_ok sp.2 v) specs vs.
Proof.
  intros Ho H0 Hl Hn E. pose proof (parse_typed buf off len specs Ho H0 Hl Hn) as H.
  rewrite E in H. by apply H.
Qed.

Lemma parse_values_typed_witness :
  let specs := [(bytes_of "C=", parse_u8); (bytes_of "S=", parse_c64)] in
  Forall2 (fun sp v => value_ok sp.2 v) specs
    [PInt 6; PBytes [0; 136; 119; 102; 85; 68; 0; 2]].
Proof.
  apply (parse_values_typed (bytes_of "S+D:C=262,S=0088776655440002" ++ [0]) 4 25).
  - lia.
  - lia.
  - vm_compute. discriminate.
  - repeat constructor; discriminate.
  - vm_compute. reflexivity.
Defined.

(** ** Round trip with the printed form *)

Lemma hex_digit_scan d acc l :
  0 <= d < 16 ->
  scan_digits 16 acc (bytes_of (hex_digit d) ++ l)
  = scan_digits 16 (Some (default 0 acc * 16 + d)) l.
Proof.
  intros Hd.
  assert (d = 0 \/ d = 1 \/ d = 2 \/ d = 3 \/ d = 4 \/ d = 5 \/ d = 6 \/ d = 7 \/ d = 8
    \/ d = 9 \/ d = 10 \/ d = 11 \/ d = 12 \/ d = 13 \/ d = 14 \/ d = 15) as Hc by lia.
  destruct_or? Hc; subst; reflexivity.
Qed.

(** The character of a hexadecimal digit. *)
Definition hex_char (d : Z) : Z := if d <? 10 then 48 + d else 87 + d.

Lemma hex_digit_bytes d : bytes_of (hex_digit d) = [hex_char (d mod 16)].
Proof.
  unfold hex_digit. pose proof (Z.mod_pos_bound d 16 eq_refl) as Hd.
  revert Hd. generalize (d mod 16). clear d. intros d Hd.
  assert (d = 0 \/ d = 1 \/ d = 2 \/ d = 3 \/ d = 4 \/ d = 5 \/ d = 6 \/ d = 7 \/ d = 8
    \/ d = 9 \/ d = 10 \/ d = 11 \/ d = 12 \/ d = 13 \/ d = 14 \/ d = 15) as Hc by lia.
  destruct_or? Hc; subst; reflexivity.
Qed.

Lemma bytes_of_app s t : bytes_of (s +:+ t) = bytes_of s ++ bytes_of t.
Proof.
  unfold bytes_of. rewrite <- fmap_app. f_equal.
  induction s as [|c s IH]; [done|].
  change (String c s +:+ t) with (String c (s +:+ t)). cbn. by rewrite IH.
Qed.

Lemma fmt_04x_bytes v : 0 <= v < 65536 ->
  bytes_of (fmt_04x v) = [hex_char (v / 4096); hex_char (v / 256 mod 16);
                          hex_char (v / 16 mod 16); hex_char (v mod 16)].
Proof.
  intros Hv. unfold fmt_04x, fmt_02x. rewrite !bytes_of_app, !hex_digit_bytes.
  cbn [app]. replace (v / 256 / 16 mod 16) with (v / 4096) by zdm.
  replace (v mod 256 / 16 mod 16) with (v / 16 mod 16) by zdm.
  by replace ((v mod 256) mod 16) with (v mod 16) by zdm.
Qed.

Lemma hex_char_range d : 0 <= d < 16 ->
  48 <= hex_char d <= 57 \/ 97 <= hex_char d <= 102.
Proof. intros Hd. unfold hex_char. btest; lia. Qed.

Lemma hex_char_value d : 0 <= d < 16 -> digit_value 16 (hex_char d) = Some d.
Proof.
  intros Hd. unfold digit_value, hex_char. destruct (Z.ltb_spec d 10).
  - rewrite (proj2 (Z.leb_le _ _)), (proj2 (Z.leb_le _ _)) by lia. cbn [andb].
    rewrite (proj2 (Z.ltb_lt _ _)) by lia. f_equal. lia.
  - rewrite (proj2 (Z.leb_le 48 _)), (proj2 (Z.leb_gt (87 + d) 57)) by lia. cbn [andb].
    rewrite (proj2 (Z.leb_le 97 _)), (proj2 (Z.leb_le (87 + d) 102)) by lia. cbn [andb].
    rewrite (proj2 (Z.ltb_lt _ _)) by lia. f_equal. lia.
Qed.

(** Reading four printed digits gives the number back. *)
Lemma sscanf_hex4 a b c d :
  0 <= a < 16 -> 0 <= b < 16 -> 0 <= c < 16 -> 0 <= d < 16 ->
  sscanf_uint 16 (Some 4%nat) [hex_char a; hex_char b; hex_char c; hex_char d]
  = Some (((a * 16 + b) * 16 + c) * 16 + d).
Proof.
  intros Ha Hb Hc Hd. unfold sscanf_uint.
  pose proof (hex_char_range a Ha) as Ra. pose proof (hex_char_range b Hb) as Rb.
  assert (Hs : isspace (hex_char a) = false).
  { unfold isspace. apply orb_false_iff. rewrite andb_false_iff, Z.eqb_neq, !Z.leb_gt. lia. }
  assert (Hn : scan_number 16 [hex_char a; hex_char b; hex_char c; hex_char d]
    = Some (((a * 16 + b) * 16 + c) * 16 + d)).
  { assert (Hd4 : scan_digits 16 None [hex_char a; hex_char b; hex_char c; hex_char d]
      = Some (((a * 16 + b) * 16 + c) * 16 + d)).
    { cbn [scan_digits]. by rewrite !hex_char_value by done. }
    assert (Hx : (hex_char b =? 120) || (hex_char b =? 88) = false)
      by (apply orb_false_iff; rewrite !Z.eqb_neq; lia).
    unfold scan_number. by rewrite Hx, andb_false_r. }
  cbn [skip_space]. rewrite Hs. cbn [take].
  rewrite (proj2 (Z.eqb_neq (hex_char a) 45)), (proj2 (Z.eqb_neq (hex_char a) 43)) by lia.
  rewrite Hn. cbn [fmap option_fmap option_map]. f_equal. unfold ULONG_MAX. lia.
Qed.
