(* ===== verification/Eui64Set.v ===== *)
(** * common/eui64set.c: the set of 64-bit stream identifiers

    A sorted array searched by [bsearch] and kept in order by [qsort].  The two
    library functions are behind the interface [SortLib], whose laws are what
    the C standard says of them; a merge sort and a binary search discharge
    it.  The operations implement insertion, removal and lookup of a finite
    set. *)

From S2P Require Import Prelude.
From Stdlib Require Import ZArith Lia Sorted.
From stdpp Require Import base tactics sets list option gmap sorting.
Open Scope Z_scope.

(** ** Data *)

(** The entry's pointer is 0 for NULL. *)
Record eui64set_entry := Entry { eui64 : Z; entry_p : Z }.

Record eui64set := Eui64Set {
  storage : option (list eui64set_entry);
  num_entries : Z;
  max_entries : Z
}.

Definition eui64set_compare (lhs rhs : eui64set_entry) : Z :=
  if eui64 lhs <? eui64 rhs then -1 else if eui64 rhs <? eui64 lhs then 1 else 0.

Definition entry_le (a b : eui64set_entry) : Prop := eui64set_compare a b <= 0.

(** [qsort] and [bsearch] with [eui64set_compare]: [bsearch] gives the index of
    an element that compares equal to the key. *)
Class SortLib := {
  qsort : list eui64set_entry -> list eui64set_entry;
  bsearch : eui64set_entry -> list eui64set_entry -> option nat
}.

Class SortLibOk `{SortLib} : Prop := {
  qsort_perm : forall l, qsort l ≡ₚ l;
  qsort_sorted : forall l, StronglySorted entry_le (qsort l);
  bsearch_hit : forall k l i, bsearch k l = Some i ->
    exists e, l !! i = Some e /\ eui64set_compare k e = 0;
  bsearch_miss : forall k l, StronglySorted entry_le l -> bsearch k l = None ->
    Forall (fun e => eui64set_compare k e <> 0) l
}.

(** ** Network byte order *)

Definition eui64_read (network_order_buf : list Z) : Z :=
  let b i := network_order_buf !!! i in
  (Z.shiftl (b 0%nat) 56 + Z.shiftl (b 1%nat) 48 + Z.shiftl (b 2%nat) 40
   + Z.shiftl (b 3%nat) 32 + Z.shiftl (b 4%nat) 24 + Z.shiftl (b 5%nat) 16
   + Z.shiftl (b 6%nat) 8 + Z.shiftl (b 7%nat) 0) mod 2 ^ 64.

Definition eui64_write (v : Z) : list Z :=
  (fun s => u8 (Z.land (Z.shiftr v s) 0xff)) <$> [56; 48; 40; 32; 24; 16; 8; 0].

(** ** Operations *)
Section Ops.
Context `{SortLib}.

(** [calloc_ok]: does [calloc] succeed? *)
Definition eui64set_init (calloc_ok : bool) (max : Z) : Z * eui64set :=
  if 0 <? max then
    if calloc_ok then (0, Eui64Set (Some (replicate (Z.to_nat max) (Entry 0 0))) 0 max)
    else (-1, Eui64Set None 0 max)
  else (0, Eui64Set None 0 max).

(** [free(self->storage)], for a non-NULL set with storage: what was freed. *)
Definition eui64set_free (self : option eui64set) : option (list eui64set_entry) :=
  s ← self; storage s.

Definition eui64set_clear (self : eui64set) : eui64set :=
  Eui64Set (storage self) 0 (max_entries self).

Definition eui64set_num_entries (self : eui64set) : Z := num_entries self.

Definition eui64set_is_full (self : eui64set) : bool :=
  max_entries self <=? num_entries self.

(** [self->storage[i] = e], which faults on NULL and outside the array. *)
Definition storage_set (self : eui64set) (i : Z) (e : eui64set_entry)
  : res (list eui64set_entry) :=
  match storage self with
  | None => Fault (OobWrite i)
  | Some l => if (0 <=? i) && (i <? Zlen l) then Ret (<[Z.to_nat i := e]> l)
              else Fault (OobWrite i)
  end.

Definition eui64set_insert (self : eui64set) (value ptr : Z) : res (Z * eui64set) :=
  if num_entries self <? max_entries self then
    l ← storage_set self (num_entries self) (Entry value ptr);
    Ret (1, Eui64Set (Some l) (num_entries self + 1) (max_entries self))
  else Ret (0, self).

(** The entries in use. *)
Definition entries (self : eui64set) : list eui64set_entry :=
  take (Z.to_nat (num_entries self)) (default [] (storage self)).

Definition eui64set_sort (self : eui64set) : eui64set :=
  Eui64Set ((fun l => qsort (entries self) ++ drop (Z.to_nat (num_entries self)) l)
              <$> storage self) (num_entries self) (max_entries self).

Definition eui64set_insert_and_sort (self : eui64set) (value ptr : Z)
  : res (Z * eui64set) :=
  '(r, self) ← eui64set_insert self value ptr;
  Ret (r, if r =? 1 then eui64set_sort self else self).

Definition eui64set_find (self : eui64set) (value : Z) : option eui64set_entry :=
  i ← bsearch (Entry value 0) (entries self); entries self !! i.

(** The freed pointer of the removed entry, if any, is the third component. *)
Definition eui64set_remove_and_sort (self : eui64set) (value : Z)
  : res (Z * eui64set * option Z) :=
  match bsearch (Entry value 0) (entries self) with
  | None => Ret (0, self, None)
  | Some i =>
      let item := default (Entry 0 0) (entries self !! i) in
      l ← storage_set self (Z.of_nat i) (Entry (2 ^ 64 - 1) (entry_p item));
      let freed := if entry_p item =? 0 then None else Some (entry_p item) in
      let self := eui64set_sort (Eui64Set (Some l) (num_entries self) (max_entries self)) in
      Ret (1, Eui64Set (storage self) (num_entries self - 1) (max_entries self), freed)
  end.

End Ops.

(** ** The library functions *)

#[export] Instance entry_le_dec a b : Decision (entry_le a b).
Proof. unfold entry_le. apply _. Defined.

(** Binary search between [lo] and [hi]. *)
Fixpoint bisect (fuel : nat) (k : eui64set_entry) (l : list eui64set_entry) (lo hi : nat)
  : option nat :=
  match fuel with
  | O => None
  | S fuel =>
      if (hi <=? lo)%nat then None
      else
        let mid := ((lo + hi) / 2)%nat in
        match l !! mid with
        | None => None
        | Some e =>
            let c := eui64set_compare k e in
            if c =? 0 then Some mid
            else if c <? 0 then bisect fuel k l lo mid
            else bisect fuel k l (S mid) hi
        end
  end.

#[export] Instance std_sort : SortLib := {|
  qsort := merge_sort entry_le;
  bsearch := fun k l => bisect (S (length l)) k l 0 (length l)
|}.

Lemma compare_spec a b :
  (eui64set_compare a b = 0 <-> eui64 a = eui64 b)
  /\ (eui64set_compare a b < 0 <-> eui64 a < eui64 b).
Proof. unfold eui64set_compare. repeat btest; lia. Qed.

Lemma entry_le_spec a b : entry_le a b <-> eui64 a <= eui64 b.
Proof. unfold entry_le, eui64set_compare. repeat btest; lia. Qed.

Lemma sorted_lookup (l : list eui64set_entry) i j a b :
  StronglySorted entry_le l -> l !! i = Some a -> l !! j = Some b -> (i < j)%nat ->
  entry_le a b.
Proof.
  intros Hs Ha Hb Hij. rewrite <- (take_drop j l) in Hs.
  eapply StronglySorted_app_1_elem_of; [done | |].
  - apply list_elem_of_lookup. exists i. by rewrite lookup_take_lt.
  - apply list_elem_of_lookup. exists 0%nat. by rewrite lookup_drop, Nat.add_0_r.
Qed.

Lemma bisect_hit fuel k l : forall lo hi i,
  bisect fuel k l lo hi = Some i -> exists e, l !! i = Some e /\ eui64set_compare k e = 0.
Proof.
  induction fuel as [|fuel IH]; intros lo hi i; cbn [bisect]; [done|].
  destruct (hi <=? lo)%nat; [done|]. destruct (l !! _) as [e|] eqn:E; [|done].
  destruct (Z.eqb_spec (eui64set_compare k e) 0) as [Hc|Hc].
  - intros [= <-]. eauto.
  - destruct (_ <? 0); apply IH.
Qed.

(** Everything outside the window compares away from the key. *)
Lemma bisect_miss fuel k l : forall lo hi,
  StronglySorted entry_le l -> (hi - lo < fuel)%nat -> (hi <= length l)%nat ->
  (forall i e, l !! i = Some e -> (i < lo)%nat -> eui64 e < eui64 k) ->
  (forall i e, l !! i = Some e -> (hi <= i)%nat -> eui64 k < eui64 e) ->
  bisect fuel k l lo hi = None -> Forall (fun e => eui64set_compare k e <> 0) l.
Proof.
  intros lo hi Hs. revert lo hi. induction fuel as [|fuel IH]; intros lo hi Hf Hl Hlo Hhi; [lia|].
  cbn [bisect]. destruct (Nat.leb_spec hi lo) as [Hle|Hlt].
  { intros _. rewrite Forall_lookup. intros i e Hi.
    destruct (compare_spec k e) as [-> _].
    destruct (decide (i < lo)%nat); [specialize (Hlo i e Hi ltac:(done)); lia|].
    specialize (Hhi i e Hi ltac:(lia)). lia. }
  pose proof (Nat.div_lt_upper_bound (lo + hi) 2 hi ltac:(done) ltac:(lia)) as Hm1.
  pose proof (Nat.div_le_lower_bound (lo + hi) 2 lo ltac:(done) ltac:(lia)) as Hm2.
  set (mid := ((lo + hi) / 2)%nat) in *.
  destruct (lookup_lt_is_Some_2 l mid) as [e He]; [lia|]. rewrite He.
  destruct (compare_spec k e) as [H0 Hneg].
  assert (Hmono : forall i x, l !! i = Some x ->
    ((i <= mid)%nat -> eui64 x <= eui64 e) /\ ((mid <= i)%nat -> eui64 e <= eui64 x)).
  { intros i x Hx. rewrite <- !entry_le_spec. split; intros Hi.
    - destruct (decide (i = mid)) as [->|]; [simplify_eq; apply entry_le_spec; lia|].
      eapply (sorted_lookup l i mid); eauto. lia.
    - destruct (decide (i = mid)) as [->|]; [simplify_eq; apply entry_le_spec; lia|].
      eapply (sorted_lookup l mid i); eauto. lia. }
  destruct (Z.eqb_spec (eui64set_compare k e) 0) as [Hc|Hc]; [done|].
  destruct (Z.ltb_spec (eui64set_compare k e) 0) as [Hc2|Hc2].
  - apply IH; [lia | lia | done |]. intros i x Hx Hi. destruct (Hmono i x Hx) as [_ Hge].
    specialize (Hge ltac:(lia)). apply Hneg in Hc2. lia.
  - apply IH; [lia | done | | done]. intros i x Hx Hi. destruct (Hmono i x Hx) as [Hle _].
    specialize (Hle ltac:(lia)).
    assert (~ eui64 k < eui64 e) by (intros ?%Hneg; lia).
    assert (eui64 k <> eui64 e) by (intros ?%H0; lia). lia.
Qed.

#[export] Instance std_sort_ok : SortLibOk.
Proof.
  assert (Htr : Transitive entry_le) by (intros a b c; rewrite !entry_le_spec; lia).
  assert (Htot : Total entry_le) by (intros a b; rewrite !entry_le_spec; lia).
  split.
  - intros l. apply merge_sort_Permutation.
  - intros l. apply (StronglySorted_merge_sort entry_le).
  - intros k l i. apply bisect_hit.
  - intros k l Hs. apply bisect_miss; [done | lia | lia | lia |].
    intros i e Hi. apply lookup_lt_Some in Hi. lia.
Qed.

(** ** Correctness *)
Section Correct.
Context `{Hok : SortLibOk}.

(** The array has the room [init] asked for, the entries in use are sorted and
    their keys are 64-bit. *)
Record set_wf (s : eui64set) : Prop := {
  wf_room : Zlen (default [] (storage s)) = Z.max 0 (max_entries s);
  wf_num : 0 <= num_entries s <= Zlen (default [] (storage s));
  wf_sorted : StronglySorted entry_le (entries s);
  wf_keys : Forall (fun e => 0 <= eui64 e < 2 ^ 64) (entries s)
}.

Definition keys (s : eui64set) : list Z := eui64 <$> entries s.

(** The set the array stands for. *)
Definition set_of (s : eui64set) : gset Z := list_to_set (keys s).

Lemma entries_length s : set_wf s -> length (entries s) = Z.to_nat (num_entries s).
Proof. intros [_ Hn _ _]. unfold entries. rewrite length_take. lia. Qed.

(** Sorting an array whose entries in use are [l]. *)
Lemma sort_entries l rest n max :
  Zlen l = n ->
  let s := eui64set_sort (Eui64Set (Some (l ++ rest)) n max) in
  entries s = qsort l /\ storage s = Some (qsort l ++ rest).
Proof.
  intros Hn s. assert (Hl : Z.to_nat n = length l) by lia.
  assert (Hq : length (qsort l) = length l) by (by rewrite qsort_perm).
  unfold s, eui64set_sort, entries. cbn. rewrite Hl, take_app_length, drop_app_length.
  by rewrite <- Hq, take_app_length.
Qed.

Lemma find_spec s v :
  set_wf s ->
  match eui64set_find s v with
  | Some e => e ∈ entries s /\ eui64 e = v
  | None => v ∉ set_of s
  end.
Proof.
  intros [_ _ Hs _]. unfold eui64set_find.
  destruct (bsearch (Entry v 0) (entries s)) as [i|] eqn:E; cbn.
  - apply bsearch_hit in E as (e & He & Hc). rewrite He.
    split; [by eapply list_elem_of_lookup_2|].
    apply compare_spec in Hc. by cbn in Hc.
  - apply bsearch_miss in E; [|done]. unfold set_of, keys. rewrite elem_of_list_to_set.
    intros (e & -> & He)%list_elem_of_fmap. rewrite Forall_forall in E.
    apply (E e He). by apply compare_spec.
Qed.

Lemma sorted_wf l rest n max :
  Zlen l = n -> Zlen (l ++ rest) = Z.max 0 max ->
  Forall (fun e => 0 <= eui64 e < 2 ^ 64) l ->
  set_wf (eui64set_sort (Eui64Set (Some (l ++ rest)) n max)).
Proof.
  intros Hn Hr Hk. destruct (sort_entries l rest n max Hn) as [He Hst].
  assert (Hq : length (qsort l) = length l) by (by rewrite qsort_perm).
  rewrite length_app in Hr.
  split; rewrite ?He, ?Hst; cbn [default from_option id]; rewrite ?length_app, ?Hq.
  - exact Hr.
  - change (num_entries _) with n. lia.
  - apply qsort_sorted.
  - by rewrite qsort_perm.
Qed.

Lemma insert_and_sort_spec s v ptr :
  set_wf s -> 0 <= v < 2 ^ 64 ->
  returns (eui64set_insert_and_sort s v ptr) (fun '(r, s') => set_wf s' /\
    if eui64set_is_full s then r = 0 /\ s' = s
    else r = 1 /\ entries s' ≡ₚ Entry v ptr :: entries s).
Proof.
  intros Hwf Hv. pose proof (entries_length s Hwf) as Hel.
  pose proof Hwf as [Hr Hn Hs Hk].
  unfold eui64set_insert_and_sort, eui64set_insert, eui64set_is_full.
  destruct (Z.ltb_spec (num_entries s) (max_entries s)) as [Hlt|Hge].
  2: { rewrite (proj2 (Z.leb_le _ _)) by done. cbn. done. }
  rewrite (proj2 (Z.leb_gt _ _)) by done. unfold storage_set.
  set (n := Z.to_nat (num_entries s)) in *.
  assert (Hen : entries s = take n (default [] (storage s))) by done.
  destruct (storage s) as [l|]; cbn [default from_option id length] in *; [|lia].
  rewrite (proj2 (Z.leb_le _ _)), (proj2 (Z.ltb_lt _ _)) by lia. cbn [andb].
  rewrite !res_bind_ret. cbn [Z.eqb Pos.eqb returns]. fold n.
  assert (Hins : <[n := Entry v ptr]> l = (entries s ++ [Entry v ptr]) ++ drop (S n) l).
  { rewrite Hen, insert_take_drop by lia. by rewrite <- app_assoc. }
  rewrite Hins.
  assert (Hlen : Zlen (entries s ++ [Entry v ptr]) = num_entries s + 1)
    by (rewrite length_app, Hel; cbn; lia).
  split.
  - apply sorted_wf; [done | |].
    + rewrite <- Hins, length_insert. lia.
    + apply Forall_app. split; [done|]. by constructor.
  - split; [done|]. destruct (sort_entries (entries s ++ [Entry v ptr]) (drop (S n) l)
      (num_entries s + 1) (max_entries s) Hlen) as [He _].
    rewrite He, qsort_perm. by rewrite Permutation_app_comm.
Qed.

(** Dropping the last entry of a sorted array that holds the largest key drops
    that key. *)
Lemma sorted_drop_max (l : list eui64set_entry) m :
  StronglySorted entry_le l -> Forall (fun e => eui64 e <= m) l ->
  m ∈ (eui64 <$> l) ->
  eui64 <$> l = (eui64 <$> take (length l - 1) l) ++ [m].
Proof.
  intros Hs Hm Hin. destruct l as [|x l _] using rev_ind; [set_solver|].
  rewrite length_app, Nat.add_sub, take_app_length, fmap_app. cbn. do 2 f_equal.
  rewrite Forall_app, Forall_singleton in Hm. destruct Hm as [_ Hx].
  rewrite fmap_app in Hin. apply elem_of_app in Hin as [Hin|Hin]; [|cbn in Hin; set_solver].
  apply list_elem_of_fmap in Hin as (e & -> & He).
  assert (entry_le e x) as Hle%entry_le_spec; [|lia].
  eapply StronglySorted_app_1_elem_of; [done | done | set_solver].
Qed.

Lemma remove_spec s v :
  set_wf s ->
  returns (eui64set_remove_and_sort s v) (fun '(r, s', _) => set_wf s' /\
    (r = 0 /\ s' = s /\ v ∉ set_of s \/ r = 1 /\ keys s ≡ₚ v :: keys s')).
Proof.
  intros Hwf. pose proof (entries_length s Hwf) as Hel. pose proof Hwf as [Hr Hn Hs Hk].
  unfold eui64set_remove_and_sort.
  destruct (bsearch (Entry v 0) (entries s)) as [i|] eqn:E.
  2: { apply bsearch_miss in E; [|done]. split; [done|]. left. split_and!; auto.
       unfold set_of, keys. rewrite elem_of_list_to_set.
       intros (e & -> & He)%list_elem_of_fmap. rewrite Forall_forall in E.
       apply (E e He). by apply compare_spec. }
  apply bsearch_hit in E as (e & He & Hc). apply compare_spec in Hc. cbn in Hc.
  pose proof (lookup_lt_Some _ _ _ He) as Hi. assert (Hpos : 1 <= num_entries s) by lia.
  rewrite He. cbn [default from_option id].
  set (e' := Entry (2 ^ 64 - 1) (entry_p e)).
  unfold storage_set. destruct (storage s) as [l|] eqn:Est.
  2: { unfold entries in Hi. rewrite Est in Hi. cbn in Hi. rewrite take_nil in Hi. cbn in Hi. lia. }
  cbn [default from_option id] in *.
  assert (Hen : entries s = take (Z.to_nat (num_entries s)) l) by (unfold entries; by rewrite Est).
  set (n := Z.to_nat (num_entries s)) in *.
  rewrite (proj2 (Z.leb_le _ _)), (proj2 (Z.ltb_lt _ _)) by lia. cbn [andb].
  rewrite res_bind_ret, Nat2Z.id. cbn [returns].
  assert (Hins : <[i := e']> l = <[i := e']> (entries s) ++ drop n l).
  { rewrite <- (take_drop n l) at 1. rewrite Hen. apply insert_app_l. rewrite <- Hen. lia. }
  set (l' := <[i := e']> (entries s)) in *.
  assert (Hlen : Zlen l' = num_entries s) by (unfold l'; rewrite length_insert; lia).
  rewrite Hins. destruct (sort_entries l' (drop n l) (num_entries s) (max_entries s) Hlen)
    as [Hq Hst].
  assert (Hkl : Forall (fun e => 0 <= eui64 e < 2 ^ 64) l')
    by (apply Forall_insert; [done | cbn; lia]).
  set (s1 := eui64set_sort _) in *.
  assert (Hwf1 : set_wf s1).
  { apply sorted_wf; [done | rewrite <- Hins, length_insert; lia | done]. }
  set (s2 := Eui64Set (storage s1) (num_entries s - 1) (max_entries s)).
  assert (Hql : length (qsort l') = n) by (rewrite qsort_perm; unfold l'; rewrite length_insert; lia).
  assert (He2 : entries s2 = take (n - 1) (qsort l')).
  { unfold entries, s2. cbn [storage num_entries]. rewrite Hst. cbn [default from_option id].
    rewrite take_app_le by lia. f_equal. lia. }
  assert (Hmax : eui64 <$> qsort l' = keys s2 ++ [2 ^ 64 - 1]).
  { unfold keys. rewrite He2, <- Hql. apply sorted_drop_max; [apply qsort_sorted | |].
    - rewrite qsort_perm. eapply Forall_impl; [apply Hkl|]. cbn. lia.
    - rewrite qsort_perm. apply list_elem_of_fmap. exists e'. split; [done|].
      apply list_elem_of_lookup. exists i. apply list_lookup_insert_eq. lia. }
  change (Eui64Set (storage s1) (num_entries s1 - 1) (max_entries s1)) with s2. split.
  - destruct Hwf1 as [H1 H2 H3 H4]. split; unfold s2; cbn [storage num_entries max_entries].
    + done.
    + change (num_entries s1) with (num_entries s) in *. lia.
    + fold s2. rewrite He2. rewrite Hq in H3. rewrite <- (take_drop (n - 1) (qsort l')) in H3.
      by eapply StronglySorted_app_1_l.
    + fold s2. rewrite He2. rewrite Hq in H4. by apply Forall_take.
  - right. split; [done|].
    assert (Hp : 2 ^ 64 - 1 :: keys s2 ≡ₚ eui64 <$> l').
    { rewrite <- qsort_perm, Hmax. by rewrite Permutation_cons_append. }
    unfold l' in Hp. rewrite insert_take_drop, fmap_app, fmap_cons in Hp by done.
    rewrite <- Permutation_middle in Hp. apply Permutation_cons_inv in Hp.
    rewrite Hp. unfold keys. rewrite <- (take_drop_middle _ _ _ He) at 1.
    rewrite fmap_app, fmap_cons, <- Hc. by rewrite <- Permutation_middle.
Qed.

(** The empty sets. *)
Lemma init_wf ok max : 0 < max -> (eui64set_init ok max).1 = 0 ->
  set_wf (eui64set_init ok max).2 /\ keys (eui64set_init ok max).2 = [].
Proof.
  intros Hm. unfold eui64set_init. rewrite (proj2 (Z.ltb_lt _ _)) by done.
  destruct ok; [|done]. intros _. split; [|done].
  split; cbn; [rewrite length_replicate; lia | lia | constructor..].
Qed.

Lemma clear_wf s : set_wf s -> set_wf (eui64set_clear s) /\ keys (eui64set_clear s) = [].
Proof. intros [H1 H2 _ _]. split; [|done]. split; cbn; [done | lia | constructor..]. Qed.

Lemma eui64_read_range b : 0 <= eui64_read b < 2 ^ 64.
Proof. apply Z.mod_pos_bound. lia. Qed.

Lemma find_iff s v : set_wf s -> is_Some (eui64set_find s v) <-> v ∈ set_of s.
Proof.
  intros Hwf. pose proof (find_spec s v Hwf) as Hf. destruct (eui64set_find s v) as [e|].
  - destruct Hf as [He <-]. split; [intros _|by eauto]. unfold set_of, keys.
    rewrite elem_of_list_to_set. by apply list_elem_of_fmap_2.
  - split; [by intros [? ?]|done].
Qed.

Lemma insert_set s v ptr :
  set_wf s -> NoDup (keys s) -> 0 <= v < 2 ^ 64 ->
  returns (eui64set_insert_and_sort s v ptr) (fun '(r, s') => set_wf s'
    /\ (v ∉ set_of s -> NoDup (keys s'))
    /\ if eui64set_is_full s then r = 0 /\ s' = s
       else r = 1 /\ set_of s' = {[v]} ∪ set_of s).
Proof.
  intros Hwf Hnd Hv.
  eapply returns_mono; [by apply insert_and_sort_spec|]. intros [r s'] [Hwf' Hc].
  split; [done|]. destruct (eui64set_is_full s); [destruct Hc as [-> ->]; auto|].
  destruct Hc as [-> Hp]. assert (Hk : keys s' ≡ₚ v :: keys s) by (unfold keys; by rewrite Hp).
  split; [|split; [done|]].
  - intros Hni. rewrite Hk. constructor; [|done]. unfold set_of in Hni. set_solver.
  - unfold set_of. rewrite Hk. done.
Qed.

Lemma remove_set s v :
  set_wf s -> NoDup (keys s) ->
  returns (eui64set_remove_and_sort s v) (fun '(r, s', _) => set_wf s'
    /\ NoDup (keys s') /\ set_of s' = set_of s ∖ {[v]}
    /\ (r = 1 /\ v ∈ set_of s \/ r = 0 /\ v ∉ set_of s)).
Proof.
  intros Hwf Hnd. eapply returns_mono; [by apply remove_spec|]. intros [[r s'] fr] [Hwf' Hc].
  split; [done|]. destruct Hc as [(-> & -> & Hni)|(-> & Hp)].
  - split_and!; [done | set_solver | auto].
  - assert (Hnd' := Hnd). rewrite Hp in Hnd'. apply NoDup_cons in Hnd' as [Hni Hnd'].
    split; [done|]. unfold set_of. rewrite Hp. cbn.
    split; [set_solver|]. left. set_solver.
Qed.

(** C32: the array implements a finite set of 64-bit identifiers, whatever
    conforming [qsort] and [bsearch] it is linked with: [eui64set_find] decides
    membership, [eui64set_insert_and_sort] adds an absent element unless the set
    is full, [eui64set_remove_and_sort] removes exactly the given element, the
    identifier of all ones included; all three keep the array well-formed and
    free of duplicates. *)
Theorem eui64set_refines_set s v ptr :
  set_wf s -> NoDup (keys s) -> 0 <= v < 2 ^ 64 ->
  (is_Some (eui64set_find s v) <-> v ∈ set_of s)
  /\ returns (eui64set_insert_and_sort s v ptr) (fun '(r, s') => set_wf s'
       /\ (v ∉ set_of s -> NoDup (keys s'))
       /\ if eui64set_is_full s then r = 0 /\ s' = s
          else r = 1 /\ set_of s' = {[v]} ∪ set_of s)
  /\ returns (eui64set_remove_and_sort s v) (fun '(r, s', _) => set_wf s'
       /\ NoDup (keys s') /\ set_of s' = set_of s ∖ {[v]}
       /\ (r = 1 <-> v ∈ set_of s)).
Proof.
  intros Hwf Hnd Hv. split; [by apply find_iff|]. split; [by apply insert_set|].
  eapply returns_mono; [by apply remove_set|]. intros [[r s'] fr] (H1 & H2 & H3 & H4).
  split_and!; auto. destruct H4 as [[-> ?]|[-> ?]]; naive_solver.
Qed.

End Correct.

(** ** Byte order and start *)

Lemma write_bytes v :
  eui64_write v = (fun s => (v / 2 ^ s) mod 256) <$> [56; 48; 40; 32; 24; 16; 8; 0].
Proof.
  unfold eui64_write. apply list_fmap_ext. intros i s Hs.
  assert (0 <= s).
  { assert (Hall : Forall (fun s => 0 <= s) [56; 48; 40; 32; 24; 16; 8; 0])
      by (repeat constructor; lia).
    rewrite Forall_lookup in Hall. by eapply Hall. }
  change 0xff with (Z.ones 8). rewrite Z.land_ones, Z.shiftr_div_pow2 by lia.
  unfold u8. change (2 ^ 8) with 256. by rewrite Z.mod_mod by lia.
Qed.

(** [eui64_read] and [eui64_write] are inverse on 8-byte arrays and 64-bit
    numbers. *)
Theorem eui64_read_write v b :
  0 <= v < 2 ^ 64 -> length b = 8%nat -> bytes_ok b ->
  eui64_read (eui64_write v) = v /\ eui64_write (eui64_read b) = b.
Proof.
  intros Hv Hl Hb. rewrite !write_bytes. unfold eui64_read.
  rewrite !Z.shiftl_mul_pow2 by lia. cbn [fmap list_fmap].
  change (2 ^ 0) with 1. change (2 ^ 8) with 256. change (2 ^ 16) with 65536.
  change (2 ^ 24) with 16777216. change (2 ^ 32) with 4294967296.
  change (2 ^ 40) with 1099511627776. change (2 ^ 48) with 281474976710656.
  change (2 ^ 56) with 72057594037927936.
  change (2 ^ 64) with 18446744073709551616 in *. split.
  - cbn -[Z.mul Z.add Z.modulo Z.div]. rewrite Z.mod_small; zdm.
  - destruct b as [|b0 [|b1 [|b2 [|b3 [|b4 [|b5 [|b6 [|b7 [|? ?]]]]]]]]]; try discriminate Hl.
    clear Hl. unfold bytes_ok in Hb.
    repeat (apply Forall_cons_iff in Hb as [? Hb]). cbn -[Z.mul Z.add Z.modulo Z.div].
    rewrite (Z.mod_small (_ + b7 * 1)) by lia. repeat (apply (f_equal2 cons); [zdm|]). done.
Qed.

Lemma eui64_read_write_witness :
  eui64_read (eui64_write 0x91e0f000fe010203) = 0x91e0f000fe010203
  /\ eui64_write (eui64_read [1; 2; 3; 4; 5; 6; 7; 255]) = [1; 2; 3; 4; 5; 6; 7; 255].
Proof.
  apply eui64_read_write; [split; [discriminate | reflexivity] | reflexivity
    | unfold bytes_ok; repeat constructor; lia].
Defined.

(** A set of three stream identifiers with room for four. *)
Definition demo_set : eui64set :=
  Eui64Set (Some [Entry 3 0; Entry 7 0; Entry (2 ^ 64 - 1) 0; Entry 0 0]) 3 4.

Lemma demo_set_wf : set_wf demo_set /\ NoDup (keys demo_set).
Proof.
  split; [split|].
  - done.
  - cbn. lia.
  - cbn. repeat constructor; apply entry_le_spec; cbn; lia.
  - cbn. repeat constructor; cbn; lia.
  - apply (bool_decide_unpack _). vm_compute. exact I.
Qed.

Lemma eui64set_refines_set_witness :
  returns (eui64set_remove_and_sort demo_set 7) (fun '(r, s', _) => set_wf s'
    /\ NoDup (keys s') /\ set_of s' = set_of demo_set ∖ {[7]}
    /\ (r = 1 <-> 7 ∈ set_of demo_set)).
Proof.
  apply (eui64set_refines_set demo_set 7 0); [apply demo_set_wf | apply demo_set_wf | lia].
Defined.
