(* ===== verification/Mrp.v ===== *)
(** * mrp.h and mrp.c: the MRP state machines, timers and client list

    Per-attribute Applicant and Registrar state machines, the LeaveAll and
    periodic-transmission state machines, the timer wrappers and the list of
    control clients, as executable definitions. *)

From S2P Require Import Prelude Os.
From Stdlib Require Import ZArith Lia.
From stdpp Require Import base tactics list strings option pretty.
Open Scope Z_scope.

(** ** States, events and messages (mrp.h) *)

Inductive applicant_state :=
| MRP_VO_STATE | MRP_VP_STATE | MRP_VN_STATE | MRP_AN_STATE
| MRP_AA_STATE | MRP_QA_STATE | MRP_LA_STATE | MRP_AO_STATE
| MRP_QO_STATE | MRP_AP_STATE | MRP_QP_STATE | MRP_LO_STATE.

Inductive registrar_state := MRP_IN_STATE | MRP_LV_STATE | MRP_MT_STATE.

Inductive mrp_event :=
| MRP_EVENT_BEGIN | MRP_EVENT_NEW | MRP_EVENT_JOIN | MRP_EVENT_LV
| MRP_EVENT_TX | MRP_EVENT_TXLA | MRP_EVENT_TXLAF | MRP_EVENT_RNEW
| MRP_EVENT_RJOININ | MRP_EVENT_RIN | MRP_EVENT_RJOINMT | MRP_EVENT_RMT
| MRP_EVENT_RLV | MRP_EVENT_RLA | MRP_EVENT_FLUSH | MRP_EVENT_REDECLARE
| MRP_EVENT_PERIODIC | MRP_EVENT_PERIODIC_ENABLE
| MRP_EVENT_PERIODIC_DISABLE | MRP_EVENT_LVTIMER | MRP_EVENT_LVATIMER.

Inductive mrp_notify :=
| MRP_NOTIFY_NONE | MRP_NOTIFY_NEW | MRP_NOTIFY_JOIN | MRP_NOTIFY_LV.

Inductive mrp_snd :=
| MRP_SND_NEW | MRP_SND_JOIN | MRP_SND_IN | MRP_SND_LV | MRP_SND_LVA
| MRP_SND_NULL | MRP_SND_NONE.

Inductive mrp_encode := MRP_ENCODE_YES | MRP_ENCODE_OPTIONAL.

Inductive timer_state := MRP_TIMER_PASSIVE | MRP_TIMER_ACTIVE.

#[export] Instance applicant_state_eq_dec : EqDecision applicant_state.
Proof. solve_decision. Defined.
#[export] Instance registrar_state_eq_dec : EqDecision registrar_state.
Proof. solve_decision. Defined.
#[export] Instance mrp_event_eq_dec : EqDecision mrp_event.
Proof. solve_decision. Defined.
#[export] Instance mrp_notify_eq_dec : EqDecision mrp_notify.
Proof. solve_decision. Defined.
#[export] Instance mrp_snd_eq_dec : EqDecision mrp_snd.
Proof. solve_decision. Defined.
#[export] Instance mrp_encode_eq_dec : EqDecision mrp_encode.
Proof. solve_decision. Defined.
#[export] Instance timer_state_eq_dec : EqDecision timer_state.
Proof. solve_decision. Defined.

Definition MRP_JOINTIMER_VAL : Z := 100.
Definition MRP_LVTIMER_VAL : Z := 1000.
Definition MRP_LVATIMER_VAL : Z := 10000.
Definition MRP_DEFAULT_POINT_TO_POINT_MAC : Z := 1.

(** [mrp_previous_state] is -1 on a fresh attribute: [None]. *)
Record mrp_applicant_attribute := Applicant {
  app_mrp_state : applicant_state;
  app_tx : bool;
  app_sndmsg : mrp_snd;
  app_encode : mrp_encode;
  app_mrp_previous_state : option applicant_state
}.

(** The registrar's own [mrp_previous_state] is written only under
    [#if LOG_MRP], which is 0. *)
Record mrp_registrar_attribute := Registrar {
  reg_mrp_state : registrar_state;
  reg_notify : mrp_notify;
  reg_macaddr : list Z
}.

Record mrp_timer := Timer {
  lva_state : timer_state;
  lva_tx : bool;
  lva_sndmsg : mrp_snd
}.

Inductive registrar_ctl :=
| MRP_REGISTRAR_CTL_NORMAL | MRP_REGISTRAR_CTL_FIXED
| MRP_REGISTRAR_CTL_FORBIDDEN.
Inductive applicant_ctl := MRP_APPLICANT_CTL_NORMAL | MRP_APPLICANT_CTL_SILENT.

Record mrp_database := MrpDb {
  lva : mrp_timer;
  join_timer : Z;
  join_timer_running : bool;
  lv_timer : Z;
  lv_timer_running : bool;
  lva_timer : Z;
  lva_timer_running : bool;
  clients : list sockaddr_in;
  registration : registrar_ctl;
  participant : applicant_ctl
}.

(** Field updates of [struct mrp_database]. *)
Definition set_lva (t : mrp_timer) (d : mrp_database) : mrp_database :=
  MrpDb t (join_timer d) (join_timer_running d) (lv_timer d)
    (lv_timer_running d) (lva_timer d) (lva_timer_running d) (clients d)
    (registration d) (participant d).
Definition set_join_running (b : bool) (d : mrp_database) : mrp_database :=
  MrpDb (lva d) (join_timer d) b (lv_timer d)
    (lv_timer_running d) (lva_timer d) (lva_timer_running d) (clients d)
    (registration d) (participant d).
Definition set_lv_running (b : bool) (d : mrp_database) : mrp_database :=
  MrpDb (lva d) (join_timer d) (join_timer_running d) (lv_timer d)
    b (lva_timer d) (lva_timer_running d) (clients d)
    (registration d) (participant d).
Definition set_lva_running (b : bool) (d : mrp_database) : mrp_database :=
  MrpDb (lva d) (join_timer d) (join_timer_running d) (lv_timer d)
    (lv_timer_running d) (lva_timer d) b (clients d)
    (registration d) (participant d).
Definition set_clients (c : list sockaddr_in) (d : mrp_database) : mrp_database :=
  MrpDb (lva d) (join_timer d) (join_timer_running d) (lv_timer d)
    (lv_timer_running d) (lva_timer d) (lva_timer_running d) c
    (registration d) (participant d).

(** A participant's database together with the world it runs in. *)
Record mst := Mst { m_db : mrp_database; m_w : world }.

(** ** Printable names *)

Definition mrp_event_string (e : mrp_event) : string :=
  match e with
  | MRP_EVENT_BEGIN => "Begin!"
  | MRP_EVENT_NEW => "New!"
  | MRP_EVENT_JOIN => "Join!"
  | MRP_EVENT_LV => "Lv!"
  | MRP_EVENT_TX => "tx!"
  | MRP_EVENT_TXLA => "txLA!"
  | MRP_EVENT_TXLAF => "txLAF!"
  | MRP_EVENT_RNEW => "rNew!"
  | MRP_EVENT_RJOININ => "rJoinIn!"
  | MRP_EVENT_RIN => "rIn!"
  | MRP_EVENT_RJOINMT => "rJoinMt!"
  | MRP_EVENT_RMT => "rMt!"
  | MRP_EVENT_RLV => "rLv!"
  | MRP_EVENT_RLA => "rLA!"
  | MRP_EVENT_FLUSH => "Flush!"
  | MRP_EVENT_REDECLARE => "Re-Declare!"
  | MRP_EVENT_PERIODIC => "periodic!"
  | MRP_EVENT_PERIODIC_ENABLE => "ENABLE"
  | MRP_EVENT_PERIODIC_DISABLE => "DISABLE"
  | MRP_EVENT_LVTIMER => "leavetimer!"
  | MRP_EVENT_LVATIMER => "leavealltimer!"
  end.

Definition app_state_string (s : applicant_state) : string :=
  match s with
  | MRP_VO_STATE => "VO" | MRP_VP_STATE => "VP" | MRP_VN_STATE => "VN"
  | MRP_AN_STATE => "AN" | MRP_AA_STATE => "AA" | MRP_QA_STATE => "QA"
  | MRP_LA_STATE => "LA" | MRP_AO_STATE => "AO" | MRP_QO_STATE => "QO"
  | MRP_AP_STATE => "AP" | MRP_QP_STATE => "QP" | MRP_LO_STATE => "LO"
  end.

Definition reg_state_string (s : registrar_state) : string :=
  match s with
  | MRP_IN_STATE => "IN" | MRP_LV_STATE => "LV" | MRP_MT_STATE => "MT"
  end.

(** [mrp_decode_state]: "XX/YY" truncated to the caller's buffer size. *)
Definition mrp_decode_state (rattrib : mrp_registrar_attribute)
    (aattrib : mrp_applicant_attribute) (strlen : nat) : string :=
  let reg_stat := snprintf (8 - 1) (reg_state_string (reg_mrp_state rattrib)) in
  snprintf (strlen - 1)
    (app_state_string (app_mrp_state aattrib) +:+ "/" +:+ reg_stat).

(** ** The control clients *)

Definition client_lookup (clist : list sockaddr_in)
    (newclient : option sockaddr_in) : bool :=
  match newclient with
  | None => false
  | Some c => existsb (fun item => sin_port item =? sin_port c) clist
  end.

Definition mrp_client_count (clist : list sockaddr_in) : Z :=
  Z.of_nat (length clist).

Section WithOS.
Context {os : OS}.

Definition mrp_client_add (clist : list sockaddr_in)
    (newclient : option sockaddr_in) (w : world) : Z * list sockaddr_in * world :=
  match newclient with
  | None => (-1, clist, w)
  | Some c =>
      if client_lookup clist newclient then (0, clist, w)
      else let '(ok, w) := malloc w in
           if negb ok then (-1, clist, w) else (0, clist ++ [c], w)
  end.

(** Unlinks the first entry equal in all bytes to [newclient]. *)
Fixpoint client_unlink (clist : list sockaddr_in) (c : sockaddr_in)
  : list sockaddr_in :=
  match clist with
  | [] => []
  | item :: rest =>
      if decide (c = item) then rest else item :: client_unlink rest c
  end.

Definition mrp_client_delete (clist : list sockaddr_in)
    (newclient : option sockaddr_in) : Z * list sockaddr_in :=
  match newclient with
  | None => (0, clist)
  | Some c => (0, client_unlink clist c)
  end.

(** ** Timers *)

Definition mrp_jointimer_start (s : mst) : Z * mst :=
  let d := m_db s in
  let '(ret, w) := if join_timer_running d then (0, m_w s)
                   else mrpd_timer_start (join_timer d) MRP_JOINTIMER_VAL (m_w s) in
  (ret, Mst (if 0 <=? ret then set_join_running true d else d) w).

Definition mrp_jointimer_stop (s : mst) : Z * mst :=
  let d := set_join_running false (m_db s) in
  let '(ret, w) := mrpd_timer_stop (join_timer d) (m_w s) in
  (ret, Mst d w).

Definition mrp_lvtimer_start (s : mst) : Z * mst :=
  let d := m_db s in
  let '(ret, w) := mrpd_timer_start (lv_timer d) MRP_LVTIMER_VAL (m_w s) in
  (ret, Mst (if 0 <=? ret then set_lv_running true d else d) w).

Definition mrp_lvtimer_stop (s : mst) : Z * mst :=
  let d := set_lv_running false (m_db s) in
  let '(ret, w) := mrpd_timer_stop (lv_timer d) (m_w s) in
  (ret, Mst d w).

Definition mrp_lvatimer_start (s : mst) : Z * mst :=
  let d := m_db s in
  let '(r, w) := random (m_w s) in
  let timeout := MRP_LVATIMER_VAL + Z.rem r (MRP_LVATIMER_VAL / 2) in
  let '(ret, w) := if lva_timer_running d then (0, w)
                   else mrpd_timer_start (lva_timer d) timeout w in
  (ret, Mst (if 0 <=? ret then set_lva_running true d else d) w).

Definition mrp_lvatimer_stop (s : mst) : Z * mst :=
  let d := set_lva_running false (m_db s) in
  let '(ret, w) := mrpd_timer_stop (lva_timer d) (m_w s) in
  (ret, Mst d w).

(** ** The LeaveAll state machine *)

Definition mrp_lvatimer_fsm (event : mrp_event) (s : mst) : Z * mst :=
  let la_state := lva_state (lva (m_db s)) in
  let finish (la_state : timer_state) (tx : bool) (sndmsg : mrp_snd) (s : mst) :=
    (0, Mst (set_lva (Timer la_state tx sndmsg) (m_db s)) (m_w s)) in
  match event with
  | MRP_EVENT_BEGIN =>
      let '(_, s) := mrp_lvatimer_start s in
      finish MRP_TIMER_PASSIVE false MRP_SND_NONE s
  | MRP_EVENT_TX =>
      match la_state with
      | MRP_TIMER_ACTIVE => finish MRP_TIMER_PASSIVE true MRP_SND_LVA s
      | MRP_TIMER_PASSIVE => finish la_state false MRP_SND_NONE s
      end
  | MRP_EVENT_RLA =>
      let '(_, s) := mrp_lvatimer_stop s in
      let '(_, s) := mrp_lvatimer_start s in
      finish MRP_TIMER_PASSIVE false MRP_SND_NONE s
  | MRP_EVENT_LVATIMER =>
      let '(_, s) := mrp_lvatimer_stop s in
      let '(_, s) := mrp_lvatimer_start s in
      finish MRP_TIMER_ACTIVE false MRP_SND_NONE s
  | _ => (-1, s)
  end.

(** ** The periodic-transmission state machine ([None] is the initial -1) *)

Definition mrp_periodictimer_start (periodic_timer : Z) (w : world) : Z * world :=
  mrpd_timer_start_interval periodic_timer 1000 1000 w.

Definition mrp_periodictimer_stop (periodic_timer : Z) (w : world) : Z * world :=
  mrpd_timer_stop periodic_timer w.

Definition mrp_periodictimer_fsm (periodic_timer : Z)
    (p_state : option timer_state) (event : mrp_event) (w : world)
  : Z * option timer_state * world :=
  match event with
  | MRP_EVENT_BEGIN =>
      let '(_, w) := mrp_periodictimer_start periodic_timer w in
      (0, Some MRP_TIMER_ACTIVE, w)
  | MRP_EVENT_PERIODIC =>
      match p_state with
      | Some MRP_TIMER_ACTIVE =>
          let '(_, w) := mrp_periodictimer_start periodic_timer w in
          (0, p_state, w)
      | _ => (0, p_state, w)
      end
  | MRP_EVENT_PERIODIC_DISABLE => (0, Some MRP_TIMER_PASSIVE, w)
  | MRP_EVENT_PERIODIC_ENABLE =>
      match p_state with
      | Some MRP_TIMER_PASSIVE =>
          let '(_, w) := mrp_periodictimer_start periodic_timer w in
          (0, Some MRP_TIMER_ACTIVE, w)
      | _ => (0, p_state, w)
      end
  | _ => (-1, p_state, w)
  end.

End WithOS.

(** ** The per-attribute Applicant state machine

    One definition per event of the outer [switch]; each inner [switch] on the
    state returns the new state and, for the transmit events, the message. *)

(** Outcome of a step: new state, [tx], [optional], [sndmsg]. *)
Record app_step := AppStep {
  st_state : applicant_state;
  st_tx : bool;
  st_optional : bool;
  st_sndmsg : mrp_snd
}.

(** [tx = 0; optional = 0; sndmsg = MRP_SND_NULL] *)
Definition app_quiet (s : applicant_state) : app_step :=
  AppStep s false false MRP_SND_NULL.
Definition app_send (s : applicant_state) (m : mrp_snd) : app_step :=
  AppStep s true false m.
Definition app_send_opt (s : applicant_state) (m : mrp_snd) : app_step :=
  AppStep s true true m.

Definition applicant_new (s : applicant_state) : applicant_state :=
  match s with
  | MRP_VN_STATE | MRP_AN_STATE => s
  | _ => MRP_VN_STATE
  end.

Definition applicant_join (s : applicant_state) : applicant_state :=
  match s with
  | MRP_LO_STATE | MRP_VO_STATE => MRP_VP_STATE
  | MRP_LA_STATE => MRP_AA_STATE
  | MRP_AO_STATE => MRP_AP_STATE
  | MRP_QO_STATE => MRP_QP_STATE
  | _ => s
  end.

Definition applicant_lv (s : applicant_state) : applicant_state :=
  match s with
  | MRP_VN_STATE | MRP_AN_STATE | MRP_AA_STATE | MRP_QA_STATE => MRP_LA_STATE
  | MRP_VP_STATE => MRP_VO_STATE
  | MRP_AP_STATE => MRP_AO_STATE
  | MRP_QP_STATE => MRP_QO_STATE
  | _ => s
  end.

Definition applicant_txla (s : applicant_state) : app_step :=
  match s with
  | MRP_VO_STATE => app_send_opt MRP_LO_STATE MRP_SND_IN
  | MRP_VP_STATE => app_send MRP_AA_STATE MRP_SND_IN
  | MRP_VN_STATE => app_send MRP_AN_STATE MRP_SND_NEW
  | MRP_AN_STATE => app_send MRP_QA_STATE MRP_SND_NEW
  | MRP_QP_STATE | MRP_AP_STATE | MRP_AA_STATE => app_send MRP_QA_STATE MRP_SND_JOIN
  | MRP_QA_STATE => app_send s MRP_SND_JOIN
  | MRP_LA_STATE | MRP_AO_STATE | MRP_QO_STATE => app_send_opt MRP_LO_STATE MRP_SND_IN
  | MRP_LO_STATE => app_send_opt MRP_VO_STATE MRP_SND_IN
  end.

Definition applicant_txlaf (s : applicant_state) : applicant_state :=
  match s with
  | MRP_VO_STATE => MRP_LO_STATE
  | MRP_LO_STATE | MRP_VP_STATE | MRP_VN_STATE => s
  | MRP_AN_STATE => MRP_VN_STATE
  | MRP_QP_STATE | MRP_AP_STATE | MRP_AA_STATE | MRP_QA_STATE => MRP_VP_STATE
  | MRP_QO_STATE | MRP_AO_STATE | MRP_LA_STATE => MRP_LO_STATE
  end.

Definition applicant_tx (s : applicant_state) (registrar_is_IN : bool) : app_step :=
  match s with
  | MRP_VO_STATE => app_send_opt s MRP_SND_IN
  | MRP_VP_STATE => app_send MRP_AA_STATE MRP_SND_JOIN
  | MRP_VN_STATE => app_send MRP_AN_STATE MRP_SND_NEW
  | MRP_AN_STATE =>
      app_send (if registrar_is_IN then MRP_QA_STATE else MRP_AA_STATE) MRP_SND_NEW
  | MRP_AP_STATE | MRP_AA_STATE => app_send MRP_QA_STATE MRP_SND_JOIN
  | MRP_QA_STATE => app_send_opt s MRP_SND_JOIN
  | MRP_LA_STATE => app_send MRP_VO_STATE MRP_SND_LV
  | MRP_AO_STATE | MRP_QO_STATE | MRP_QP_STATE => app_send_opt s MRP_SND_IN
  | MRP_LO_STATE => app_send MRP_VO_STATE MRP_SND_IN
  end.

Definition applicant_rjoinin (p2pmac : Z) (s : applicant_state) : applicant_state :=
  match s with
  | MRP_VO_STATE => if 0 =? p2pmac then MRP_AO_STATE else s
  | MRP_VP_STATE => if 0 =? p2pmac then MRP_AP_STATE else s
  | MRP_AA_STATE => MRP_QA_STATE
  | MRP_AO_STATE => MRP_QO_STATE
  | MRP_AP_STATE => MRP_QP_STATE
  | _ => s
  end.

Definition applicant_rin (p2pmac : Z) (s : applicant_state) : applicant_state :=
  match s with
  | MRP_AA_STATE => if 1 =? p2pmac then MRP_QA_STATE else s
  | _ => s
  end.

Definition applicant_rmt (s : applicant_state) : applicant_state :=
  match s with
  | MRP_QA_STATE => MRP_AA_STATE
  | MRP_QO_STATE => MRP_AO_STATE
  | MRP_QP_STATE => MRP_AP_STATE
  | MRP_LO_STATE => MRP_VO_STATE
  | _ => s
  end.

Definition applicant_rlv (s : applicant_state) : applicant_state :=
  match s with
  | MRP_VO_STATE => MRP_LO_STATE
  | MRP_AN_STATE => MRP_VN_STATE
  | MRP_QA_STATE | MRP_AA_STATE => MRP_VP_STATE
  | MRP_AO_STATE | MRP_QO_STATE => MRP_LO_STATE
  | MRP_AP_STATE | MRP_QP_STATE => MRP_VP_STATE
  | _ => s
  end.

Definition applicant_periodic (s : applicant_state) : applicant_state :=
  match s with
  | MRP_QA_STATE => MRP_AA_STATE
  | MRP_QP_STATE => MRP_AP_STATE
  | _ => s
  end.

(** The outer [switch (event)]; [None] is the [default] branch. *)
Definition applicant_dispatch (p2pmac : Z) (event : mrp_event)
    (s : applicant_state) (registrar_is_IN : bool) : option app_step :=
  match event with
  | MRP_EVENT_BEGIN => Some (app_quiet MRP_VO_STATE)
  | MRP_EVENT_NEW => Some (app_quiet (applicant_new s))
  | MRP_EVENT_JOIN => Some (app_quiet (applicant_join s))
  | MRP_EVENT_LV => Some (app_quiet (applicant_lv s))
  | MRP_EVENT_TXLA => Some (applicant_txla s)
  | MRP_EVENT_TXLAF => Some (app_quiet (applicant_txlaf s))
  | MRP_EVENT_TX => Some (applicant_tx s registrar_is_IN)
  | MRP_EVENT_RNEW => Some (app_quiet s)
  | MRP_EVENT_RJOININ => Some (app_quiet (applicant_rjoinin p2pmac s))
  | MRP_EVENT_RIN => Some (app_quiet (applicant_rin p2pmac s))
  | MRP_EVENT_RJOINMT | MRP_EVENT_RMT => Some (app_quiet (applicant_rmt s))
  | MRP_EVENT_RLV | MRP_EVENT_RLA | MRP_EVENT_REDECLARE =>
      Some (app_quiet (applicant_rlv s))
  | MRP_EVENT_PERIODIC => Some (app_quiet (applicant_periodic s))
  | MRP_EVENT_FLUSH | MRP_EVENT_PERIODIC_ENABLE | MRP_EVENT_PERIODIC_DISABLE
  | MRP_EVENT_LVTIMER | MRP_EVENT_LVATIMER => None
  end.

Definition mrp_applicant_fsm (p2pmac : Z) (attrib : mrp_applicant_attribute)
    (event : mrp_event) (registrar_is_IN : bool) : Z * mrp_applicant_attribute :=
  match applicant_dispatch p2pmac event (app_mrp_state attrib) registrar_is_IN with
  | None => (-1, attrib)
  | Some r =>
      (0, Applicant (st_state r) (st_tx r) (st_sndmsg r)
            (if st_optional r then MRP_ENCODE_OPTIONAL else MRP_ENCODE_YES)
            (Some (app_mrp_state attrib)))
  end.

Definition mrp_applicant_state_transition_implies_tx
    (attrib : mrp_applicant_attribute) : Z :=
  if decide (app_mrp_previous_state attrib = Some (app_mrp_state attrib)) then 0
  else match app_mrp_state attrib with
       | MRP_VP_STATE | MRP_VN_STATE | MRP_AN_STATE | MRP_AA_STATE
       | MRP_LA_STATE => 1
       | _ => 0
       end.

(** ** The per-attribute Registrar state machine *)
Section Registrar.
Context {os : OS}.

(** The case shared by rLv!, txLA!, rLA! and Re-Declare!: an IN registrar
    starts the leave timer and goes to LV. *)
Definition registrar_leave (st : registrar_state) (s : mst)
  : registrar_state * mst :=
  match st with
  | MRP_IN_STATE => let '(_, s) := mrp_lvtimer_start s in (MRP_LV_STATE, s)
  | _ => (st, s)
  end.

Definition mrp_registrar_fsm (attrib : mrp_registrar_attribute)
    (event : mrp_event) (s : mst) : Z * mrp_registrar_attribute * mst :=
  let st := reg_mrp_state attrib in
  let finish (st : registrar_state) (n : mrp_notify) (s : mst) :=
    (0, Registrar st n (reg_macaddr attrib), s) in
  match event with
  | MRP_EVENT_BEGIN => finish MRP_MT_STATE MRP_NOTIFY_NONE s
  | MRP_EVENT_RLV =>
      let '(st, s) := registrar_leave st s in finish st MRP_NOTIFY_LV s
  | MRP_EVENT_TXLA | MRP_EVENT_RLA | MRP_EVENT_REDECLARE =>
      let '(st, s) := registrar_leave st s in finish st MRP_NOTIFY_NONE s
  | MRP_EVENT_RNEW => finish MRP_IN_STATE MRP_NOTIFY_NEW s
  | MRP_EVENT_RJOININ | MRP_EVENT_RJOINMT =>
      match st with
      | MRP_MT_STATE => finish MRP_IN_STATE MRP_NOTIFY_JOIN s
      | MRP_IN_STATE => finish MRP_IN_STATE MRP_NOTIFY_NONE s
      | MRP_LV_STATE => finish MRP_IN_STATE MRP_NOTIFY_JOIN s
      end
  | MRP_EVENT_LVTIMER =>
      match st with
      | MRP_LV_STATE => finish MRP_MT_STATE MRP_NOTIFY_LV s
      | MRP_MT_STATE => finish MRP_MT_STATE MRP_NOTIFY_NONE s
      | MRP_IN_STATE => finish st MRP_NOTIFY_NONE s
      end
  | MRP_EVENT_FLUSH => finish MRP_MT_STATE MRP_NOTIFY_LV s
  | MRP_EVENT_RMT => finish st MRP_NOTIFY_NONE s
  | MRP_EVENT_RIN => finish st MRP_NOTIFY_NONE s
  | _ => (-1, attrib, s)
  end.

Definition mrp_registrar_in (attrib : mrp_registrar_attribute) : bool :=
  bool_decide (reg_mrp_state attrib = MRP_IN_STATE).

(** Sets [p2pmac]; the file-static [lva_next] it also sets is never read. *)
Definition mrp_init (w : world) : Z * world :=
  (0, World (w_tick w) (w_trace w) MRP_DEFAULT_POINT_TO_POINT_MAC
        (control_socket w) (STATION_ADDR w)).

End Registrar.
