(* ===== verification/MrpProps.v ===== *)
(** * Correctness of the MRP state machines (mrp.c)

    The Applicant refines a one-bit declaration machine, its transmissions are
    truthful and drain, the Registrar's notifications are exact, and the timer
    and client operations keep their contracts. *)

From S2P Require Import Prelude Os Mrp.
From Stdlib Require Import ZArith Lia.
From stdpp Require Import base tactics sets list strings option.
Open Scope Z_scope.

(** ** The abstract applicant: does this station declare the attribute? *)

Definition declares (s : applicant_state) : bool :=
  match s with
  | MRP_VP_STATE | MRP_VN_STATE | MRP_AN_STATE | MRP_AA_STATE | MRP_QA_STATE
  | MRP_AP_STATE | MRP_QP_STATE => true
  | MRP_VO_STATE | MRP_LA_STATE | MRP_AO_STATE | MRP_QO_STATE
  | MRP_LO_STATE => false
  end.

(** Only local requests change the declaration; network and timer events do
    not. *)
Definition declaration_step (e : mrp_event) (d : bool) : bool :=
  match e with
  | MRP_EVENT_NEW | MRP_EVENT_JOIN => true
  | MRP_EVENT_LV | MRP_EVENT_BEGIN => false
  | _ => d
  end.

(** A run of the Applicant over events, each with the registrar flag it is
    given. *)
Definition applicant_run (p2pmac : Z) (a : mrp_applicant_attribute)
    (evs : list (mrp_event * bool)) : mrp_applicant_attribute :=
  fold_left (fun a ev => snd (mrp_applicant_fsm p2pmac a ev.1 ev.2)) evs a.

(** States in which the applicant still owes the network a message. *)
Definition needs_tx (s : applicant_state) : bool :=
  match s with
  | MRP_VP_STATE | MRP_VN_STATE | MRP_AN_STATE | MRP_AA_STATE
  | MRP_LA_STATE => true
  | _ => false
  end.

(** The transmissions it takes until nothing is owed. *)
Definition backlog (s : applicant_state) : nat :=
  match s with
  | MRP_VN_STATE => 3
  | MRP_VP_STATE | MRP_AN_STATE => 2
  | MRP_AA_STATE | MRP_LA_STATE => 1
  | _ => 0
  end.

(** Is the pending message a mandatory declaration (New or Join)? *)
Definition declares_msg (a : mrp_applicant_attribute) : bool :=
  app_tx a && bool_decide (app_encode a = MRP_ENCODE_YES)
  && match app_sndmsg a with MRP_SND_NEW | MRP_SND_JOIN => true | _ => false end.

Ltac applicant_cases :=
  repeat match goal with
  | a : mrp_applicant_attribute |- _ => destruct a as [[] ? ? ? ?]
  | e : mrp_event |- _ => destruct e
  | b : bool |- _ => destruct b
  end.

Lemma applicant_fsm_declares p a e b :
  declares (app_mrp_state (snd (mrp_applicant_fsm p a e b)))
  = declaration_step e (declares (app_mrp_state a)).
Proof.
  destruct a as [s ? ? ? ?]; destruct e, s, b; try reflexivity; cbn;
    repeat match goal with |- context [if ?c then _ else _] => destruct c end;
    reflexivity.
Qed.

(** C9: the Applicant state machine refines the abstract declaration machine:
    over any sequence of events, the station declares the attribute exactly
    when the last local request was New or Join and not Leave (or Begin);
    received messages, transmissions and timers never change it. *)
Theorem applicant_refines_declaration p a evs :
  declares (app_mrp_state (applicant_run p a evs))
  = fold_left (fun d ev => declaration_step ev.1 d) evs
      (declares (app_mrp_state a)).
Proof.
  revert a; induction evs as [|[e b] evs IH]; intros a; [done|].
  unfold applicant_run in *. cbn [fold_left]. by rewrite IH, applicant_fsm_declares.
Qed.

(** An Applicant only announces what it declares: after any event the
    pending message is New or Join only in a declaring state, and Leave is
    sent exactly by the tx! event that ends a withdrawal. *)
Theorem applicant_messages_truthful p a e b :
  fst (mrp_applicant_fsm p a e b) = 0 ->
  let a' := snd (mrp_applicant_fsm p a e b) in
  (app_sndmsg a' = MRP_SND_NEW \/ app_sndmsg a' = MRP_SND_JOIN ->
     app_tx a' = true /\ declares (app_mrp_state a') = true)
  /\ (app_sndmsg a' = MRP_SND_LV <->
      e = MRP_EVENT_TX /\ app_mrp_state a = MRP_LA_STATE).
Proof.
  destruct a as [s ? ? ? ?]; intros H; destruct e, s, b; cbn in *; try done;
    repeat split; intros; destruct_or?; destruct_and?; try done; naive_solver.
Qed.

Lemma applicant_messages_truthful_witness :
  fst (mrp_applicant_fsm 1 (Applicant MRP_LA_STATE false MRP_SND_NULL
         MRP_ENCODE_YES None) MRP_EVENT_TX false) = 0
  /\ app_sndmsg (snd (mrp_applicant_fsm 1 (Applicant MRP_LA_STATE false
         MRP_SND_NULL MRP_ENCODE_YES None) MRP_EVENT_TX false)) = MRP_SND_LV.
Proof.
  split; [reflexivity|].
  apply (applicant_messages_truthful 1 (Applicant MRP_LA_STATE false
    MRP_SND_NULL MRP_ENCODE_YES None) MRP_EVENT_TX false eq_refl).
  split; reflexivity.
Defined.

(** After a tx! event, [mrp_applicant_state_transition_implies_tx] is 1
    precisely when the applicant still owes a message, and three transmit
    opportunities without other events always leave it owing none. *)
Theorem applicant_tx_drains p a (f : nat -> bool) :
  (forall b, mrp_applicant_state_transition_implies_tx
       (snd (mrp_applicant_fsm p a MRP_EVENT_TX b))
     = if needs_tx (app_mrp_state (snd (mrp_applicant_fsm p a MRP_EVENT_TX b)))
       then 1 else 0)
  /\ needs_tx (app_mrp_state (applicant_run p a
       [(MRP_EVENT_TX, f 0%nat); (MRP_EVENT_TX, f 1%nat); (MRP_EVENT_TX, f 2%nat)]))
     = false.
Proof.
  split; [intros b|]; destruct a as [[] ? ? ? ?]; cbn;
    try destruct b; try destruct (f 0%nat); try destruct (f 1%nat); reflexivity.
Qed.

Lemma needs_tx_backlog s : needs_tx s = false <-> backlog s = 0%nat.
Proof. by destruct s. Qed.

Lemma backlog_tx p a b :
  (backlog (app_mrp_state (snd (mrp_applicant_fsm p a MRP_EVENT_TX b)))
   <= pred (backlog (app_mrp_state a)))%nat.
Proof. destruct a as [[] ? ? ? ?], b; cbn; lia. Qed.

(** The two-message guarantee of mrp.h: after a LeaveAll (or Leave, or
    Re-Declare) is received, an attribute this station declares is announced
    by a mandatory New or Join in each of the next two transmissions. *)
Theorem applicant_redeclares_twice p a e b b1 b2 :
  e ∈ [MRP_EVENT_RLA; MRP_EVENT_RLV; MRP_EVENT_REDECLARE] ->
  declares (app_mrp_state a) = true ->
  declares_msg (applicant_run p a [(e, b); (MRP_EVENT_TX, b1)]) = true
  /\ declares_msg (applicant_run p a
       [(e, b); (MRP_EVENT_TX, b1); (MRP_EVENT_TX, b2)]) = true.
Proof.
  intros He Hd; destruct a as [s ? ? ? ?].
  rewrite !elem_of_cons, elem_of_nil in He.
  destruct_or?; subst; try done; destruct s; try done;
    destruct b1, b2; split; reflexivity.
Qed.

Lemma applicant_redeclares_twice_witness :
  declares_msg (applicant_run 1 (Applicant MRP_QA_STATE false MRP_SND_NULL
     MRP_ENCODE_YES None) [(MRP_EVENT_RLA, true); (MRP_EVENT_TX, true)]) = true.
Proof.
  apply (applicant_redeclares_twice 1 (Applicant MRP_QA_STATE false MRP_SND_NULL
    MRP_ENCODE_YES None) MRP_EVENT_RLA true true true);
    [left | reflexivity].
Defined.

(** ** Registrar *)
Section RegistrarProps.
Context {os : OS}.

(** A run of the Registrar over a sequence of events. *)
Definition registrar_run (r : mrp_registrar_attribute) (evs : list mrp_event)
    (s : mst) : mrp_registrar_attribute * mst :=
  fold_left (fun rs e => let '(_, r', s') := mrp_registrar_fsm rs.1 e rs.2 in (r', s'))
    evs (r, s).

(** Events that end a registration: leave timer, flush and initialisation. *)
Definition deregisters (e : mrp_event) : bool :=
  match e with
  | MRP_EVENT_LVTIMER | MRP_EVENT_FLUSH | MRP_EVENT_BEGIN => true
  | _ => false
  end.

(** The Registrar touches nothing but the leave timer. *)
Lemma registrar_fsm_frame r e s rc r' s' :
  mrp_registrar_fsm r e s = (rc, r', s') ->
  (m_db s' = m_db s \/ m_db s' = set_lv_running true (m_db s))
  /\ w_extends (m_w s) (m_w s') /\ reg_macaddr r' = reg_macaddr r.
Proof.
  destruct r as [st n mac]; intros H; destruct e, st; cbn in H; simplify_eq;
    cbn; try (case_match; cbn); auto with avb.
Qed.

Lemma registrar_fsm_lv r e s rc r' s' :
  timers_ok os ->
  mrp_registrar_fsm r e s = (rc, r', s') ->
  reg_mrp_state r' = MRP_LV_STATE ->
  reg_mrp_state r = MRP_LV_STATE \/ lv_timer_running (m_db s') = true.
Proof.
  intros Hok. destruct r as [st n mac]; intros H Hlv; destruct e, st; cbn in *;
    simplify_eq; cbn in *; try discriminate; auto;
    right; by rewrite (proj2 (Z.leb_le _ _) (Hok _)).
Qed.

(** Notifications are exact: whatever the state, a Registrar step reports
    Join exactly when a Join registers an attribute that was not IN, New
    exactly on rNew!, and Leave exactly on rLv!, Flush! or when the leave
    timer expires in the LV state. *)
Theorem registrar_notify_exact r e s :
  reg_notify r = MRP_NOTIFY_NONE ->
  let r' := (mrp_registrar_fsm r e s).1.2 in
  (reg_notify r' = MRP_NOTIFY_JOIN <->
     (e = MRP_EVENT_RJOININ \/ e = MRP_EVENT_RJOINMT)
     /\ reg_mrp_state r <> MRP_IN_STATE)
  /\ (reg_notify r' = MRP_NOTIFY_NEW <-> e = MRP_EVENT_RNEW)
  /\ (reg_notify r' = MRP_NOTIFY_LV <->
        e = MRP_EVENT_RLV \/ e = MRP_EVENT_FLUSH
        \/ (e = MRP_EVENT_LVTIMER /\ reg_mrp_state r = MRP_LV_STATE)).
Proof.
  destruct r as [st n mac]; cbn; intros ->; destruct e, st; cbn;
    intuition congruence.
Qed.

Lemma registrar_fsm_stays r e s :
  deregisters e = false -> reg_mrp_state r <> MRP_MT_STATE ->
  reg_mrp_state (mrp_registrar_fsm r e s).1.2 <> MRP_MT_STATE.
Proof. destruct r as [[] ? ?]; destruct e; cbn; intros; congruence. Qed.

Lemma registrar_run_stays evs r s :
  Forall (fun e => deregisters e = false) evs -> reg_mrp_state r <> MRP_MT_STATE ->
  reg_mrp_state (registrar_run r evs s).1 <> MRP_MT_STATE.
Proof.
  unfold registrar_run. revert r s.
  induction evs as [|e evs IH]; intros r s Hf Hr; [done|].
  inversion_clear Hf. cbn [fold_left fst snd].
  pose proof (registrar_fsm_stays r e s) as Hs.
  destruct (mrp_registrar_fsm r e s) as [[rc r'] s']. cbn in Hs.
  apply IH; auto.
Qed.

Lemma registrar_run_app r evs1 evs2 s :
  registrar_run r (evs1 ++ evs2) s
  = let '(r1, s1) := registrar_run r evs1 s in registrar_run r1 evs2 s1.
Proof.
  unfold registrar_run. rewrite fold_left_app.
  by destruct (fold_left _ evs1 (r, s)).
Qed.

(** Events that confirm a registration, and events that start its leave. *)
Definition joins (e : mrp_event) : bool :=
  match e with
  | MRP_EVENT_RJOININ | MRP_EVENT_RJOINMT | MRP_EVENT_RNEW => true
  | _ => false
  end.
Definition leaves (e : mrp_event) : bool :=
  match e with
  | MRP_EVENT_RLV | MRP_EVENT_RLA | MRP_EVENT_TXLA | MRP_EVENT_REDECLARE => true
  | _ => false
  end.

(** After [evs] a leave is pending: some leaving event was not followed by a
    Join or New. *)
Definition leave_pending (st : registrar_state) (evs : list mrp_event) : Prop :=
  (exists before e after, evs = before ++ e :: after /\ leaves e = true
     /\ Forall (fun e => joins e = false) after)
  \/ st = MRP_LV_STATE /\ Forall (fun e => joins e = false) evs.

Lemma leave_pending_snoc st evs e :
  leave_pending st (evs ++ [e]) <->
  leaves e = true \/ joins e = false /\ leave_pending st evs.
Proof.
  unfold leave_pending. rewrite Forall_app, Forall_singleton. split.
  - intros [(b & x & a & E & Hx & Ha)|(Hst & H1 & H2)]; [|auto].
    destruct a as [|y a _] using rev_ind.
    + apply app_inj_tail in E as [_ ->]. auto.
    + rewrite app_comm_cons, app_assoc in E. apply app_inj_tail in E as [-> ->].
      rewrite Forall_app, Forall_singleton in Ha. destruct Ha. right. split; [done|].
      left. by exists b, x, a.
  - intros [He|(Hj & [(b & x & a & -> & Hx & Ha)|[Hst Ha]])].
    + left. by exists evs, e, [].
    + left. exists b, x, (a ++ [e]). rewrite <- app_assoc. split_and!; auto.
      by apply Forall_app; split; [|apply Forall_singleton].
    + auto.
Qed.

Lemma registrar_run_snoc r evs e s :
  exists s', (registrar_run r (evs ++ [e]) s).1
             = (mrp_registrar_fsm (registrar_run r evs s).1 e s').1.2.
Proof.
  exists (registrar_run r evs s).2. rewrite registrar_run_app.
  destruct (registrar_run r evs s) as [r1 s1]. unfold registrar_run. cbn.
  by destruct (mrp_registrar_fsm r1 e s1) as [[??]?].
Qed.

(** The state of a registered attribute is IN or LV, and LV exactly while a
    leave is pending. *)
Lemma registrar_run_lv evs r s :
  reg_mrp_state r <> MRP_MT_STATE -> Forall (fun e => deregisters e = false) evs ->
  reg_mrp_state (registrar_run r evs s).1 = MRP_LV_STATE
  <-> leave_pending (reg_mrp_state r) evs.
Proof.
  intros Hr. induction evs as [|e evs IH] using rev_ind; intros Hf.
  - cbn. split; [intros H; right; by split|].
    intros [(b & x & a & E & _)|[H _]]; [|done]. by destruct b.
  - rewrite Forall_app, Forall_singleton in Hf. destruct Hf as [Hf He].
    pose proof (registrar_run_stays evs r s Hf Hr) as Hs. specialize (IH Hf).
    rewrite leave_pending_snoc, <- IH. clear IH.
    destruct (registrar_run_snoc r evs e s) as [s1 ->].
    destruct (registrar_run r evs s).1 as [st n mac]. cbn in Hs |- *.
    destruct e, st; try discriminate; try done; cbn; intuition congruence.
Qed.

(** C29: the leave protocol: a registered attribute stays registered (in IN or
    LV) through any sequence of events without a leave-timer expiry, flush or
    initialisation.  It is in LV exactly when a leave is pending: a Leave,
    LeaveAll (received or sent) or Re-Declare that no Join or New followed,
    whatever other events came after it.  When the leave timer then expires, the
    attribute is deregistered with a Leave notification exactly when a leave is
    pending, and stays IN with no notification otherwise. *)
Theorem registrar_leave_protocol r evs s :
  reg_mrp_state r <> MRP_MT_STATE ->
  Forall (fun e => deregisters e = false) evs ->
  let r1 := (registrar_run r evs s).1 in
  let r2 := (registrar_run r (evs ++ [MRP_EVENT_LVTIMER]) s).1 in
  reg_mrp_state r1 <> MRP_MT_STATE
  /\ (reg_mrp_state r1 = MRP_LV_STATE <-> leave_pending (reg_mrp_state r) evs)
  /\ (reg_mrp_state r2 = MRP_MT_STATE <-> leave_pending (reg_mrp_state r) evs)
  /\ (leave_pending (reg_mrp_state r) evs -> reg_notify r2 = MRP_NOTIFY_LV)
  /\ (~ leave_pending (reg_mrp_state r) evs ->
       reg_mrp_state r2 = MRP_IN_STATE /\ reg_notify r2 = MRP_NOTIFY_NONE).
Proof.
  intros Hr Hf r1 r2. pose proof (registrar_run_stays evs r s Hf Hr) as Hs.
  rewrite <- (registrar_run_lv evs r s Hr Hf). fold r1 in Hs |- *.
  assert (exists s', r2 = (mrp_registrar_fsm r1 MRP_EVENT_LVTIMER s').1.2) as [s' ->]
    by apply registrar_run_snoc.
  destruct r1 as [[] n mac]; cbn in *; intuition congruence.
Qed.

(** ** Timers *)

(** [mrpd_timer_start_interval] converts milliseconds exactly: the
    itimerspec it arms denotes the requested value and interval and its
    nanosecond fields are within the bounds the kernel accepts. *)
Theorem timer_start_exact fd value interval w :
  0 <= value -> 0 <= interval ->
  exists it, w_trace (snd (mrpd_timer_start_interval fd value interval w))
             = w_trace w ++ [ASettime fd it]
  /\ it_value_sec it * 1000000000 + it_value_nsec it = value * 1000000
  /\ it_interval_sec it * 1000000000 + it_interval_nsec it = interval * 1000000
  /\ 0 <= it_value_nsec it < 1000000000 /\ 0 <= it_interval_nsec it < 1000000000.
Proof.
  intros Hv Hi. unfold mrpd_timer_start_interval.
  destruct (Z.eqb_spec interval 0) as [->|Hne]; cbn -[Z.div Z.modulo Z.mul];
    eexists; (split; [reflexivity|]); cbn -[Z.div Z.modulo Z.mul];
    Z.div_mod_to_equations; lia.
Qed.

(** The LeaveAll timer is armed for a random time in
    [LeaveAllTime, 1.5 LeaveAllTime), i.e. at least 10 s and under 15 s,
    when it is not already running. *)
Theorem lvatimer_start_range s :
  (forall n, 0 <= os_random n) ->
  lva_timer_running (m_db s) = false ->
  exists it, w_trace (m_w (snd (mrp_lvatimer_start s)))
             = w_trace (m_w s) ++ [ASettime (lva_timer (m_db s)) it]
  /\ 10000 * 1000000
     <= it_value_sec it * 1000000000 + it_value_nsec it < 15000 * 1000000.
Proof.
  intros Hr Hrun. unfold mrp_lvatimer_start. rewrite Hrun.
  eexists; split; [reflexivity|].
  cbn -[Z.div Z.modulo Z.mul Z.rem Z.add].
  unfold MRP_LVATIMER_VAL. change (10000 / 2) with 5000.
  pose proof (Z.rem_bound_pos _ 5000 (Hr (w_tick (m_w s))) eq_refl) as Hrem.
  revert Hrem. generalize (Z.rem (os_random (w_tick (m_w s))) 5000). intros m Hm.
  Z.div_mod_to_equations. lia.
Qed.

(** One LeaveAll per expiry: after the LeaveAll timer expires, exactly the
    next transmit opportunity carries a LeaveAll message, the following one
    does not, and receiving a LeaveAll cancels a pending one. *)
Theorem lvatimer_fsm_one_leaveall s :
  let s1 := snd (mrp_lvatimer_fsm MRP_EVENT_LVATIMER s) in
  let s2 := snd (mrp_lvatimer_fsm MRP_EVENT_TX s1) in
  let s3 := snd (mrp_lvatimer_fsm MRP_EVENT_TX s2) in
  let s4 := snd (mrp_lvatimer_fsm MRP_EVENT_TX
                   (snd (mrp_lvatimer_fsm MRP_EVENT_RLA s1))) in
  lva_tx (lva (m_db s1)) = false
  /\ lva (m_db s2) = Timer MRP_TIMER_PASSIVE true MRP_SND_LVA
  /\ lva_tx (lva (m_db s3)) = false /\ lva_tx (lva (m_db s4)) = false.
Proof. cbn. repeat (case_match; cbn); auto. Qed.

End RegistrarProps.

Lemma registrar_notify_exact_witness :
  reg_notify (mrp_registrar_fsm (os := calm_os)
    (Registrar MRP_LV_STATE MRP_NOTIFY_NONE []) MRP_EVENT_LVTIMER
    (Mst (MrpDb (Timer MRP_TIMER_PASSIVE false MRP_SND_NONE) 3 false 4 true 5 true
       [] MRP_REGISTRAR_CTL_NORMAL MRP_APPLICANT_CTL_NORMAL)
       (World 0 [] 1 7 []))).1.2 = MRP_NOTIFY_LV.
Proof.
  apply (registrar_notify_exact (os := calm_os)
    (Registrar MRP_LV_STATE MRP_NOTIFY_NONE []) MRP_EVENT_LVTIMER); auto.
Defined.

(** A database and world for the examples. *)
Definition demo_mst : mst :=
  Mst (MrpDb (Timer MRP_TIMER_PASSIVE false MRP_SND_NONE) 3 false 4 false 5 false
         [] MRP_REGISTRAR_CTL_NORMAL MRP_APPLICANT_CTL_NORMAL)
      (World 0 [] 1 7 [0; 136; 119; 102; 85; 68]).

(** A LeaveAll followed by an In: the leave is still pending, and the expiry
    deregisters; a Join in between cancels it. *)
Lemma registrar_leave_protocol_witness :
  let run evs := (registrar_run (os := calm_os) (Registrar MRP_IN_STATE MRP_NOTIFY_NONE [])
                    (evs ++ [MRP_EVENT_LVTIMER]) demo_mst).1 in
  (reg_mrp_state (run [MRP_EVENT_RLA; MRP_EVENT_RIN]) = MRP_MT_STATE
   /\ reg_notify (run [MRP_EVENT_RLA; MRP_EVENT_RIN]) = MRP_NOTIFY_LV)
  /\ reg_mrp_state (run [MRP_EVENT_RLA; MRP_EVENT_RJOINMT; MRP_EVENT_RIN]) = MRP_IN_STATE.
Proof.
  assert (Hp : leave_pending MRP_IN_STATE [MRP_EVENT_RLA; MRP_EVENT_RIN])
    by (left; exists [], MRP_EVENT_RLA, [MRP_EVENT_RIN]; repeat constructor).
  pose proof (fun evs => registrar_leave_protocol (os := calm_os)
    (Registrar MRP_IN_STATE MRP_NOTIFY_NONE []) evs demo_mst ltac:(discriminate)) as H.
  split.
  - destruct (H [MRP_EVENT_RLA; MRP_EVENT_RIN]) as (_ & _ & H1 & H2 & _); [repeat constructor|].
    split; [by apply H1 | by apply H2].
  - destruct (H [MRP_EVENT_RLA; MRP_EVENT_RJOINMT; MRP_EVENT_RIN]) as (_ & H0 & _ & _ & H1);
      [repeat constructor|]. apply H1. intros E. apply H0 in E. discriminate.
Defined.

Lemma timer_start_exact_witness :
  exists it, w_trace (snd (mrpd_timer_start_interval (os := calm_os) 9 1500 1000
    (m_w demo_mst))) = [ASettime 9 it] /\ it_value_sec it * 1000000000
    + it_value_nsec it = 1500 * 1000000.
Proof.
  destruct (timer_start_exact (os := calm_os) 9 1500 1000 (m_w demo_mst))
    as (it & H1 & H2 & _); [lia | lia |].
  exists it. split; [exact H1 | exact H2].
Defined.

Lemma lvatimer_start_range_witness :
  exists it, w_trace (m_w (snd (mrp_lvatimer_start (os := calm_os) demo_mst)))
             = [ASettime 5 it]
  /\ 10000 * 1000000
     <= it_value_sec it * 1000000000 + it_value_nsec it < 15000 * 1000000.
Proof.
  apply (lvatimer_start_range (os := calm_os) demo_mst);
    [intros; cbn; lia | reflexivity].
Defined.

(** ** Control clients *)
Section Clients.
Context {os : OS}.

Lemma client_lookup_ports cl c :
  client_lookup cl (Some c) = true <-> sin_port c ∈ sin_port <$> cl.
Proof.
  cbn. rewrite existsb_exists, list_elem_of_fmap. split.
  - intros (x & Hin & Heq%Z.eqb_eq). exists x. by rewrite list_elem_of_In.
  - intros (x & Heq & Hin%list_elem_of_In). exists x. by rewrite Z.eqb_eq.
Qed.

Lemma client_add_spec cl c w rc cl' w' :
  mrp_client_add cl (Some c) w = (rc, cl', w') ->
  NoDup (sin_port <$> cl) ->
  NoDup (sin_port <$> cl') /\ w_extends w w'
  /\ (rc = 0 <-> sin_port c ∈ sin_port <$> cl')
  /\ (forall x, x ∈ cl -> x ∈ cl').
Proof.
  unfold mrp_client_add. destruct (client_lookup cl (Some c)) eqn:Hl.
  - intros ? Hnd; simplify_eq. apply client_lookup_ports in Hl.
    split_and!; auto with avb; done.
  - assert (Hni : sin_port c ∉ sin_port <$> cl)
      by (rewrite <- client_lookup_ports, Hl; discriminate).
    unfold malloc. destruct (os_malloc (w_tick w)); cbn [negb];
      intros ? Hnd; simplify_eq;
      (split_and!; [| auto with avb | |]); try done.
    + rewrite fmap_app. apply list.NoDup_app. split_and!; [done | set_solver |].
      apply NoDup_singleton.
    + rewrite fmap_app. set_solver.
    + set_solver.
Qed.

Lemma client_unlink_sub cl c x : x ∈ client_unlink cl c -> x ∈ cl.
Proof. induction cl; cbn; [done|]. case_decide; set_solver. Qed.

Lemma client_unlink_ports cl c :
  NoDup (sin_port <$> cl) -> NoDup (sin_port <$> client_unlink cl c).
Proof.
  induction cl as [|x cl IH]; cbn; [done|]. rewrite list.NoDup_cons. intros [Hx Hnd].
  case_decide; [done|]. cbn. rewrite list.NoDup_cons. split; [|auto].
  rewrite list_elem_of_fmap. intros (y & Hy & Hin%client_unlink_sub).
  apply Hx, list_elem_of_fmap. eauto.
Qed.

(** Attaching and detaching control clients: [mrp_client_add] keeps client
    ports unique and registers the caller (return 0) unless malloc fails, and
    after [mrp_client_delete] of a registered client no client with its port
    is left while every other client is kept. *)
Theorem client_attach_detach cl c w rc cl' w' :
  NoDup (sin_port <$> cl) -> mrp_client_add cl (Some c) w = (rc, cl', w') ->
  NoDup (sin_port <$> cl')
  /\ (rc = 0 <-> sin_port c ∈ sin_port <$> cl')
  /\ (c ∈ cl' ->
      forall x, x ∈ snd (mrp_client_delete cl' (Some c))
                <-> x ∈ cl' /\ sin_port x <> sin_port c).
Proof.
  intros Hnd Hadd. destruct (client_add_spec _ _ _ _ _ _ Hadd Hnd) as (Hnd' & _ & Hrc & _).
  split_and!; [done..|]. clear -Hnd'. cbn.
  induction cl' as [|y l IH]; cbn; [set_solver|].
  cbn in Hnd'. apply list.NoDup_cons in Hnd' as [Hy Hnd]. specialize (IH Hnd).
  rewrite list_elem_of_fmap in Hy.
  case_decide; subst; set_solver.
Qed.

End Clients.

Lemma client_attach_detach_witness :
  NoDup (sin_port <$> [SockAddr 2 80 1 0; SockAddr 2 81 1 0]).
Proof.
  apply (client_attach_detach (os := calm_os) [SockAddr 2 80 1 0]
    (SockAddr 2 81 1 0) (m_w demo_mst) 0 [SockAddr 2 80 1 0; SockAddr 2 81 1 0]
    (step_tick (m_w demo_mst))); [apply NoDup_singleton | reflexivity].
Defined.
