(* ===== verification/Attr.v ===== *)
(** * What the three MRP applications share

    [struct mvrp_attribute], [struct mmrp_attribute] and [struct msrp_attribute]
    are a key, an applicant and a registrar in a list; [struct mvrp_database]
    and its siblings are an MRP database, that list and the empty-LeaveAll
    flag.  The list is the [next] chain; the [prev] pointers are not
    modelled. *)

From S2P Require Import Prelude Os Mrp.
From Stdlib Require Import ZArith Lia.
From stdpp Require Import base tactics list strings option.
Open Scope Z_scope.

(** ** Data *)

Record attribute (K : Type) := Attr {
  key : K;
  applicant : mrp_applicant_attribute;
  registrar : mrp_registrar_attribute
}.
Arguments Attr {K} _ _ _.
Arguments key {K} _.
Arguments applicant {K} _.
Arguments registrar {K} _.

Record app_database (K : Type) := AppDb {
  mrp_db : mrp_database;
  attrib_list : list (attribute K);
  send_empty_LeaveAll_flag : bool
}.
Arguments AppDb {K} _ _ _.
Arguments mrp_db {K} _.
Arguments attrib_list {K} _.
Arguments send_empty_LeaveAll_flag {K} _.

(** A database in its world. *)
Record ast (K : Type) := Ast { db : app_database K; wld : world }.
Arguments Ast {K} _ _.
Arguments db {K} _.
Arguments wld {K} _.

Definition get_mst {K} (s : ast K) : mst := Mst (mrp_db (db s)) (wld s).

Definition put_mst {K} (m : mst) (s : ast K) : ast K :=
  Ast (AppDb (m_db m) (attrib_list (db s)) (send_empty_LeaveAll_flag (db s))) (m_w m).

Definition put_list {K} (l : list (attribute K)) (s : ast K) : ast K :=
  Ast (AppDb (mrp_db (db s)) l (send_empty_LeaveAll_flag (db s))) (wld s).

Definition put_flag {K} (b : bool) (s : ast K) : ast K :=
  Ast (AppDb (mrp_db (db s)) (attrib_list (db s)) b) (wld s).

Definition set_applicant {K} (x : mrp_applicant_attribute) (a : attribute K) :=
  Attr (key a) x (registrar a).
Definition set_registrar {K} (x : mrp_registrar_attribute) (a : attribute K) :=
  Attr (key a) (applicant a) x.

(** [attrib->applicant.tx = 0] *)
Definition clear_tx {K} (a : attribute K) : attribute K :=
  let p := applicant a in
  set_applicant (Applicant (app_mrp_state p) false (app_sndmsg p) (app_encode p)
                   (app_mrp_previous_state p)) a.

(** [attrib->registrar.notify = n] *)
Definition set_notify {K} (n : mrp_notify) (a : attribute K) : attribute K :=
  let r := registrar a in
  set_registrar (Registrar (reg_mrp_state r) n (reg_macaddr r)) a.

(** [memcpy(attrib->registrar.macaddr, mac, 6)] *)
Definition set_macaddr {K} (mac : list Z) (a : attribute K) : attribute K :=
  let r := registrar a in
  set_registrar (Registrar (reg_mrp_state r) (reg_notify r) mac) a.

(** The zeroed and initialised node that the [*_alloc] functions return. *)
Definition fresh_applicant : mrp_applicant_attribute :=
  Applicant MRP_VO_STATE false MRP_SND_NULL MRP_ENCODE_OPTIONAL None.
Definition fresh_registrar : mrp_registrar_attribute :=
  Registrar MRP_MT_STATE MRP_NOTIFY_NONE [0; 0; 0; 0; 0; 0].

(** ** Encodings of mrp.h *)

Definition MRPDU_NEW : Z := 0.
Definition MRPDU_JOININ : Z := 1.
Definition MRPDU_IN : Z := 2.
Definition MRPDU_JOINMT : Z := 3.
Definition MRPDU_MT : Z := 4.
Definition MRPDU_LV : Z := 5.

Definition MRPDU_3PACK_ENCODE (x y z : Z) : Z := ((x * 6) + y) * 6 + z.
Definition MRPDU_VECT_NUMVALUES (x : Z) : Z := Z.land x (Z.shiftl 1 13 - 1).
Definition MRPDU_VECT_LVA (x : Z) : bool :=
  Z.land x (Z.shiftl 7 13) =? Z.shiftl 1 13.
Definition MRPDU_VECT_LVA_FLAG : Z := Z.shiftl 1 13.

(** The decoding of a three-packed byte in the receive loops. *)
Definition vect_3pack_decode (vect_3pack : Z) : Z * Z * Z :=
  let e0 := vect_3pack / 36 in
  let e1 := (vect_3pack - e0 * 36) / 6 in
  (e0, e1, vect_3pack - 36 * e0 - 6 * e1).

(** [switch (vectevt[vectevt_idx])] of the receive loops; [None] is the
    [default] branch, which frees the attribute. *)
Definition mrpdu_event (e : Z) : option mrp_event :=
  if e =? MRPDU_NEW then Some MRP_EVENT_RNEW
  else if e =? MRPDU_JOININ then Some MRP_EVENT_RJOININ
  else if e =? MRPDU_IN then Some MRP_EVENT_RIN
  else if e =? MRPDU_JOINMT then Some MRP_EVENT_RJOINMT
  else if e =? MRPDU_MT then Some MRP_EVENT_RMT
  else if e =? MRPDU_LV then Some MRP_EVENT_RLV
  else None.

(** [switch (attrib->applicant.sndmsg)] of the emit loops: the PDU event, with
    In and Join resolved by the registrar state; [None] is [goto oops]. *)
Definition pdu_event (sndmsg : mrp_snd) (reg : registrar_state) : option Z :=
  match sndmsg with
  | MRP_SND_IN => Some (if decide (reg = MRP_IN_STATE) then MRPDU_IN else MRPDU_MT)
  | MRP_SND_NEW => Some MRPDU_NEW
  | MRP_SND_LV => Some MRPDU_LV
  | MRP_SND_JOIN =>
      Some (if decide (reg = MRP_IN_STATE) then MRPDU_JOININ else MRPDU_JOINMT)
  | _ => None
  end.

(** [vectevt[i] = x] on the three-element array. *)
Definition vect_set (v : Z * Z * Z) (i x : Z) : Z * Z * Z :=
  let '(a, b, c) := v in
  if i =? 0 then (x, b, c) else if i =? 1 then (a, x, c) else (a, b, x).

Definition vect_pack (v : Z * Z * Z) : Z :=
  let '(a, b, c) := v in MRPDU_3PACK_ENCODE a b c.

(** Number of three-packed bytes for [numvalues] events. *)
Definition num_3pack_bytes (numvalues : Z) : Z :=
  if numvalues =? (numvalues / 3) * 3 then numvalues / 3 else numvalues / 3 + 1.

(** A 16-bit store in network byte order, and the matching load. *)
Definition wr16 (buf : list Z) (i v : Z) : res (list Z) :=
  buf ← wr buf i (v / 256); wr buf (i + 1) (v mod 256).
Definition rd16 (buf : list Z) (i : Z) : res Z :=
  hi ← rd buf i; lo ← rd buf (i + 1); Ret (hi * 256 + lo).

(** Layout of a frame: Ethernet header, then the protocol version byte. *)
Definition ETH_HDR_SZ : Z := 14.
Definition MSG_LIST_OFF : Z := 15.
Definition MRPDU_ENDMARK_SZ : Z := 2.

(** The two ways out of a parsing step. *)
Inductive flow := Continue | GotoOut.

(** ** Steps on attributes *)
Section Steps.
Context {os : OS} {K : Type}.

(** [mrp_applicant_fsm(.., event, mrp_registrar_in(..))]. *)
Definition attr_applicant_fsm (p2p : Z) (event : mrp_event) (a : attribute K)
  : attribute K :=
  set_applicant
    (snd (mrp_applicant_fsm p2p (applicant a) event (mrp_registrar_in (registrar a)))) a.

(** [mrp_registrar_fsm(.., event)]. *)
Definition attr_registrar_fsm (event : mrp_event) (a : attribute K) (m : mst)
  : attribute K * mst :=
  let '(_, r, m) := mrp_registrar_fsm (registrar a) event m in
  (set_registrar r a, m).

(** Applicant then registrar, the body of the LeaveAll loops. *)
Definition attr_both_fsm (event : mrp_event) (a : attribute K) (m : mst)
  : attribute K * mst :=
  attr_registrar_fsm event (attr_applicant_fsm (p2pmac (m_w m)) event a) m.

(** The tx! loop: step every applicant, counting the transitions that call for
    another transmit opportunity. *)
Fixpoint tx_loop (p2p : Z) (l : list (attribute K)) : list (attribute K) * Z :=
  match l with
  | [] => ([], 0)
  | a :: r =>
      let a' := attr_applicant_fsm p2p MRP_EVENT_TX a in
      let '(r', count) := tx_loop p2p r in
      (a' :: r', mrp_applicant_state_transition_implies_tx (applicant a') + count)
  end.

(** The remapping of local requests into registrar events that ends the
    attribute events of [*_event]. *)
Definition attr_request_registrar (event : mrp_event) (a : attribute K) (m : mst)
  : attribute K * mst :=
  match event with
  | MRP_EVENT_NEW =>
      let '(a, m) := attr_registrar_fsm MRP_EVENT_BEGIN a m in
      (set_notify MRP_NOTIFY_NEW a, m)
  | MRP_EVENT_JOIN =>
      if decide (reg_mrp_state (registrar a) = MRP_IN_STATE)
      then attr_registrar_fsm MRP_EVENT_RJOININ a m
      else attr_registrar_fsm MRP_EVENT_RJOINMT a m
  | MRP_EVENT_LV => attr_registrar_fsm MRP_EVENT_RLV a m
  | _ => attr_registrar_fsm event a m
  end.

(** Applicant step and remapped registrar step of one attribute. *)
Definition attr_event (event : mrp_event) (a : attribute K) (m : mst)
  : attribute K * mst :=
  attr_request_registrar event (attr_applicant_fsm (p2pmac (m_w m)) event a) m.

(** Registered by nobody and declared by nobody: the garbage condition of the
    reclaim functions. *)
Definition reclaimable (a : attribute K) : bool :=
  bool_decide (reg_mrp_state (registrar a) = MRP_MT_STATE) &&
  match app_mrp_state (applicant a) with
  | MRP_VO_STATE | MRP_AO_STATE | MRP_QO_STATE => true
  | _ => false
  end.

(** The local notification loop at the end of [*_event]. *)
Definition notify_step (send : attribute K -> mrp_notify -> mst -> mst)
    (a : attribute K) (m : mst) : attribute K * mst :=
  match reg_notify (registrar a) with
  | MRP_NOTIFY_NONE => (a, m)
  | n => let m := send a n m in (set_notify MRP_NOTIFY_NONE a, m)
  end.

(** Send [msg] to every client. *)
Fixpoint send_all (cl : list sockaddr_in) (msg : string) (w : world) : world :=
  match cl with
  | [] => w
  | c :: cl' => let '(_, w) := mrpd_send_ctl_msg c msg MAX_MRPD_CMDSZ w in
                send_all cl' msg w
  end.

(** Apply a step to the first element whose key satisfies [p]; the step can
    unlink the element. *)
Fixpoint upd_first (p : K -> bool) (f : attribute K -> mst -> option (attribute K) * mst)
    (l : list (attribute K)) (m : mst) : list (attribute K) * mst :=
  match l with
  | [] => ([], m)
  | a :: r =>
      if p (key a) then
        let '(o, m) := f a m in
        (match o with Some a' => a' :: r | None => r end, m)
      else let '(r', m) := upd_first p f r m in (a :: r', m)
  end.

End Steps.

(** ** The interface between the PDU parsers and the databases *)

(** What a receive function needs of its application: node allocation and the
    event function ([rattrib] is [None] for a NULL attribute). *)
Class EventSink (K S : Type) := {
  sink_malloc : S -> bool * S;
  sink_event : mrp_event -> option (attribute K) -> S -> res S
}.

(** Keys whose attributes an emitter marks for transmission whatever the
    applicant asked for (the MSRP listeners). *)
Class ForcedTx (K : Type) := forced_tx : K -> bool.

(** An attribute with [tx] set by its applicant has a message the emitters
    know. *)
Definition tx_wf {K} `{!ForcedTx K} (a : attribute K) : Prop :=
  forced_tx (key a) = false -> app_tx (applicant a) = true ->
  pdu_event (app_sndmsg (applicant a)) (reg_mrp_state (registrar a)) <> None.

(** Well-formed attributes: a known message and a 6-byte source address. *)
Definition attr_wf {K} `{!ForcedTx K} (a : attribute K) : Prop :=
  tx_wf a /\ length (reg_macaddr (registrar a)) = 6%nat.

(** What the parsers and the command handlers pass on: a new attribute. *)
Definition attr_fresh {K} `{!ForcedTx K} (a : attribute K) : Prop :=
  attr_wf a /\ applicant a = fresh_applicant
  /\ reg_mrp_state (registrar a) = MRP_MT_STATE.

(** The events a parser can raise. *)
Definition received_event (e : mrp_event) : bool :=
  match e with
  | MRP_EVENT_RLA | MRP_EVENT_RNEW | MRP_EVENT_RJOININ | MRP_EVENT_RIN
  | MRP_EVENT_RJOINMT | MRP_EVENT_RMT | MRP_EVENT_RLV => true
  | _ => false
  end.

Lemma mrpdu_event_received e ev : mrpdu_event e = Some ev -> received_event ev = true.
Proof. unfold mrpdu_event. repeat case_match; intros [= <-]; done. Qed.

(** What the application promises: its event function returns and keeps the
    invariant [I], for received events and new attributes whose key is
    admissible. *)
Class EventSinkOk (K S : Type) `{!ForcedTx K, !EventSink K S} (okey : K -> Prop) (I : S -> Prop)
  : Prop := {
  sink_malloc_ok : forall s, I s -> I (snd (sink_malloc s));
  sink_event_ok : forall e a s, I s -> received_event e = true ->
    (forall x, a = Some x -> okey (key x) /\ attr_fresh x) ->
    returns (sink_event e a s) I
}.

(** ** Lemmas on the encodings *)

Lemma wr16_app pre a b rest i v :
  i = Zlen pre -> 0 <= v < 65536 ->
  wr16 (pre ++ a :: b :: rest) i v = Ret (pre ++ v / 256 :: v mod 256 :: rest).
Proof.
  intros -> Hv. unfold wr16. rewrite wr_app by done. rewrite res_bind_ret.
  rewrite (cons_middle (u8 _)), app_assoc, wr_app
    by (rewrite length_app; cbn; lia).
  rewrite !u8_id by zdm. by rewrite <- app_assoc.
Qed.

Lemma rd16_app pre a b rest i :
  i = Zlen pre -> rd16 (pre ++ a :: b :: rest) i = Ret (a * 256 + b).
Proof.
  intros ->. unfold rd16. rewrite (rd_app pre a _ (Zlen pre)) by done.
  rewrite res_bind_ret, (cons_middle a), app_assoc, rd_app
    by (rewrite length_app; cbn; lia).
  done.
Qed.

Lemma numvalues_id n : 0 <= n < 8192 -> MRPDU_VECT_NUMVALUES n = n.
Proof.
  intros Hn. unfold MRPDU_VECT_NUMVALUES. change (Z.shiftl 1 13 - 1) with (Z.ones 13).
  rewrite Z.land_ones by lia. by apply Z.mod_small.
Qed.

Lemma land_disjoint n k : 0 <= n < 8192 -> Z.land (Z.ones 13) k = 0 -> Z.land n k = 0.
Proof.
  intros Hn Hk. rewrite <- (Z.mod_small n (2 ^ 13)) by lia.
  by rewrite <- Z.land_ones, <- Z.land_assoc, Hk, Z.land_0_r by lia.
Qed.

Lemma lva_flag_or n : 0 <= n < 8192 -> Z.lor n MRPDU_VECT_LVA_FLAG = n + 8192.
Proof.
  intros Hn. pose proof (Z.add_lor_land n 8192) as H.
  rewrite (land_disjoint n 8192) in H by done.
  change MRPDU_VECT_LVA_FLAG with 8192. lia.
Qed.

(** Header fields of an emitted vector. *)
Lemma vect_header (n : Z) (lva : bool) :
  0 <= n < 8192 ->
  MRPDU_VECT_NUMVALUES (n + (if lva then 8192 else 0)) = n
  /\ MRPDU_VECT_LVA (n + (if lva then 8192 else 0)) = lva.
Proof.
  intros Hn. unfold MRPDU_VECT_LVA. destruct lva.
  - rewrite <- lva_flag_or by done. split.
    + unfold MRPDU_VECT_NUMVALUES. rewrite Z.land_lor_distr_l.
      change (Z.land MRPDU_VECT_LVA_FLAG (Z.shiftl 1 13 - 1)) with 0.
      rewrite Z.lor_0_r. by apply numvalues_id.
    + rewrite Z.land_lor_distr_l, (land_disjoint n) by done. done.
  - rewrite Z.add_0_r. split; [by apply numvalues_id|].
    by rewrite (land_disjoint n) by done.
Qed.
