(* ===== verification/AttrProps.v ===== *)
(** * Lemmas shared by the MRP applications

    Which steps preserve attribute well-formedness, what each step may change
    of the shared database, and the induction over the attribute loops. *)

From S2P Require Import Prelude Os Mrp MrpProps Attr.
From Stdlib Require Import ZArith Lia Sorted.
From stdpp Require Import base tactics sets list strings option.
Open Scope Z_scope.

(** ** What steps may change of the database *)

(** Timers may be armed and stopped, but the descriptors, the clients and the
    process globals stay, and the trace only grows. *)
Record m_extends (m m' : mst) : Prop := {
  mx_w : w_extends (m_w m) (m_w m');
  mx_clients : clients (m_db m') = clients (m_db m);
  mx_join : join_timer (m_db m') = join_timer (m_db m);
  mx_lv : lv_timer (m_db m') = lv_timer (m_db m);
  mx_lva : lva_timer (m_db m') = lva_timer (m_db m)
}.

#[export] Instance m_extends_preorder : PreOrder m_extends.
Proof.
  split; [by split|].
  intros m1 m2 m3 [] []. split; [by etransitivity | congruence..].
Qed.

(** Steps that moreover leave the LeaveAll machine and the join timer alone
    and never stop the leave timer: the Registrar and the notifications. *)
Record m_quiet (m m' : mst) : Prop := {
  mq_ext : m_extends m m';
  mq_lva : lva (m_db m') = lva (m_db m);
  mq_join : join_timer_running (m_db m') = join_timer_running (m_db m);
  mq_lvar : lva_timer_running (m_db m') = lva_timer_running (m_db m);
  mq_lv : lv_timer_running (m_db m) = true -> lv_timer_running (m_db m') = true
}.

#[export] Instance m_quiet_preorder : PreOrder m_quiet.
Proof.
  split; [by split|].
  intros m1 m2 m3 [] []. split; [by etransitivity | congruence.. | auto].
Qed.

#[export] Hint Extern 0 (m_extends ?m ?m) => reflexivity : avb.
#[export] Hint Extern 0 (m_quiet ?m ?m) => reflexivity : avb.
#[export] Hint Resolve mq_ext mx_w : avb.

Section Steps.
Context {os : OS}.

Lemma m_quiet_world d w w' : w_extends w w' -> m_quiet (Mst d w) (Mst d w').
Proof. by split. Qed.

Lemma registrar_fsm_quiet r e m :
  let '(_, r', m') := mrp_registrar_fsm r e m in
  m_quiet m m' /\ reg_macaddr r' = reg_macaddr r
  /\ (timers_ok os -> reg_mrp_state r' = MRP_LV_STATE ->
        reg_mrp_state r = MRP_LV_STATE \/ lv_timer_running (m_db m') = true).
Proof.
  destruct (mrp_registrar_fsm r e m) as [[rc r'] m'] eqn:E.
  destruct (registrar_fsm_frame _ _ _ _ _ _ E) as (Hd & Hw & Hm).
  split_and!; [|done|intros; by eapply registrar_fsm_lv].
  destruct Hd as [Hd | Hd]; split; rewrite ?Hd; auto; split; by rewrite ?Hd.
Qed.

Lemma send_all_extends cl msg w : w_extends w (send_all cl msg w).
Proof.
  revert w; induction cl as [|c cl IH]; intros w; cbn [send_all]; [done|].
  unfold mrpd_send_ctl_msg. destruct (_ =? _); [apply IH|].
  etransitivity; [|apply IH]. auto with avb.
Qed.

Lemma jointimer_start_spec m :
  m_extends m (mrp_jointimer_start m).2
  /\ lva (m_db (mrp_jointimer_start m).2) = lva (m_db m)
  /\ lva_timer_running (m_db (mrp_jointimer_start m).2) = lva_timer_running (m_db m)
  /\ lv_timer_running (m_db (mrp_jointimer_start m).2) = lv_timer_running (m_db m)
  /\ (timers_ok os -> join_timer_running (m_db (mrp_jointimer_start m).2) = true).
Proof.
  unfold mrp_jointimer_start. destruct (join_timer_running (m_db m)) eqn:Hj; cbn.
  - split_and!; auto. by split.
  - split_and!; try (by case_match).
    + split; try (by case_match). apply w_extends_log.
    + intros Ht. by rewrite (proj2 (Z.leb_le _ _) (Ht _)).
Qed.

Lemma jointimer_stop_spec m :
  m_extends m (mrp_jointimer_stop m).2
  /\ m_db (mrp_jointimer_stop m).2 = set_join_running false (m_db m).
Proof. cbn. split; [|done]. split; [apply w_extends_log | done..]. Qed.

Lemma lvtimer_stop_spec m :
  m_extends m (mrp_lvtimer_stop m).2
  /\ m_db (mrp_lvtimer_stop m).2 = set_lv_running false (m_db m).
Proof. cbn. split; [|done]. split; [apply w_extends_log | done..]. Qed.

Lemma lvatimer_stop_spec m :
  m_extends m (mrp_lvatimer_stop m).2
  /\ m_db (mrp_lvatimer_stop m).2 = set_lva_running false (m_db m).
Proof. cbn. split; [|done]. split; [apply w_extends_log | done..]. Qed.

Lemma lvatimer_start_spec m :
  m_extends m (mrp_lvatimer_start m).2
  /\ join_timer_running (m_db (mrp_lvatimer_start m).2) = join_timer_running (m_db m)
  /\ lv_timer_running (m_db (mrp_lvatimer_start m).2) = lv_timer_running (m_db m)
  /\ (timers_ok os -> lva_timer_running (m_db (mrp_lvatimer_start m).2) = true).
Proof.
  unfold mrp_lvatimer_start. destruct (lva_timer_running (m_db m)) eqn:Hj; cbn.
  - split_and!; auto. split; [apply w_extends_tick | done..].
  - split_and!; try (by case_match).
    + split; try (by case_match). etransitivity; [apply w_extends_tick | apply w_extends_log].
    + intros Ht. by rewrite (proj2 (Z.leb_le _ _) (Ht _)).
Qed.

(** Stopping and starting again arms the timer whatever its state. *)
Lemma lvatimer_restart_spec m :
  let m' := (mrp_lvatimer_start (mrp_lvatimer_stop m).2).2 in
  m_extends m m'
  /\ join_timer_running (m_db m') = join_timer_running (m_db m)
  /\ lv_timer_running (m_db m') = lv_timer_running (m_db m)
  /\ (timers_ok os -> lva_timer_running (m_db m') = true).
Proof.
  pose proof (lvatimer_stop_spec m) as (Hs1 & Hs2).
  pose proof (lvatimer_start_spec (mrp_lvatimer_stop m).2) as (Ht1 & Ht2 & Ht3 & Ht4).
  rewrite Hs2 in *. split_and!; auto. by etransitivity.
Qed.

(** The state with its LeaveAll record replaced, the end of each branch. *)
Definition with_lva (t : mrp_timer) (m : mst) : mst := Mst (set_lva t (m_db m)) (m_w m).

Lemma lvatimer_fsm_eq e m :
  (mrp_lvatimer_fsm e m).2 =
  match e with
  | MRP_EVENT_BEGIN =>
      with_lva (Timer MRP_TIMER_PASSIVE false MRP_SND_NONE) (mrp_lvatimer_start m).2
  | MRP_EVENT_TX =>
      with_lva (if decide (lva_state (lva (m_db m)) = MRP_TIMER_ACTIVE)
                then Timer MRP_TIMER_PASSIVE true MRP_SND_LVA
                else Timer MRP_TIMER_PASSIVE false MRP_SND_NONE) m
  | MRP_EVENT_RLA =>
      with_lva (Timer MRP_TIMER_PASSIVE false MRP_SND_NONE)
        (mrp_lvatimer_start (mrp_lvatimer_stop m).2).2
  | MRP_EVENT_LVATIMER =>
      with_lva (Timer MRP_TIMER_ACTIVE false MRP_SND_NONE)
        (mrp_lvatimer_start (mrp_lvatimer_stop m).2).2
  | _ => m
  end.
Proof.
  destruct e; try done; cbn [mrp_lvatimer_fsm].
  - by destruct (mrp_lvatimer_start m).
  - by destruct (lva_state (lva (m_db m))).
Qed.

(** The LeaveAll machine: after rLA!, an expiry or Begin! its timer runs. *)
Lemma lvatimer_fsm_spec e m :
  let m' := (mrp_lvatimer_fsm e m).2 in
  m_extends m m'
  /\ join_timer_running (m_db m') = join_timer_running (m_db m)
  /\ lv_timer_running (m_db m') = lv_timer_running (m_db m)
  /\ (timers_ok os -> lva_timer_running (m_db m) = true
      \/ e ∈ [MRP_EVENT_RLA; MRP_EVENT_LVATIMER; MRP_EVENT_BEGIN] ->
      lva_timer_running (m_db m') = true).
Proof.
  assert (Hset : forall t m0, m_extends m m0 -> m_extends m (with_lva t m0))
    by (intros t m0 []; by split).
  pose proof (lvatimer_start_spec m) as (H1 & H2 & H3 & H4).
  pose proof (lvatimer_restart_spec m) as (Ht1 & Ht2 & Ht3 & Ht4).
  cbn zeta. rewrite lvatimer_fsm_eq.
  destruct e; (split_and!; cbn [with_lva m_db set_lva lva_timer_running join_timer_running
    lv_timer_running]; auto; try done; set_solver).
Qed.

End Steps.

(** ** Induction over the attribute loops *)
Section Loops.
Context {A S : Type} (R : S -> S -> Prop) `{!PreOrder R}.

Lemma each_spec (f : A -> S -> A * S) (Q : A -> A -> S -> Prop) :
  (forall a s, R s (f a s).2 /\ Q a (f a s).1 (f a s).2) ->
  (forall a a' s s', R s s' -> Q a a' s -> Q a a' s') ->
  forall l s, R s (each f l s).2
    /\ Forall2 (fun a a' => Q a a' (each f l s).2) l (each f l s).1.
Proof.
  intros Hf Hmono. induction l as [|a l IH]; intros s; cbn [each]; [done|].
  destruct (Hf a s) as [HR HQ]. destruct (f a s) as [a' s1]. cbn in HR, HQ.
  destruct (IH s1) as [HR1 HQ1]. destruct (each f l s1) as [l' s2]. cbn in *.
  split; [by etransitivity|]. constructor; eauto.
Qed.

Lemma each_opt_spec (f : A -> S -> option A * S) (Q : A -> option A -> S -> Prop) :
  (forall a s, R s (f a s).2 /\ Q a (f a s).1 (f a s).2) ->
  (forall a o s s', R s s' -> Q a o s -> Q a o s') ->
  forall l s, R s (each_opt f l s).2
    /\ exists os, Forall2 (fun a o => Q a o (each_opt f l s).2) l os
                  /\ (each_opt f l s).1 = omap id os.
Proof.
  intros Hf Hmono. induction l as [|a l IH]; intros s; cbn [each_opt].
  { split; [done|]. by exists []. }
  destruct (Hf a s) as [HR HQ]. destruct (f a s) as [o s1]. cbn in HR, HQ.
  destruct (IH s1) as (HR1 & os & HQ1 & Hl). destruct (each_opt f l s1) as [l' s2].
  cbn in *. split; [by etransitivity|]. exists (o :: os).
  split; [constructor; eauto|]. subst l'. by destruct o.
Qed.

End Loops.

Section Attributes.
Context {os : OS} {K : Type} `{!ForcedTx K}.
Implicit Types a : attribute K.

(** [upd_first] acts on the first element with the key, and only there. *)
Lemma upd_first_split (p : K -> bool) f l1 a l2 (m : mst) :
  Forall (fun x => p (key x) = false) l1 -> p (key a) = true ->
  upd_first p f (l1 ++ a :: l2) m
  = (l1 ++ option_list (f a m).1 ++ l2, (f a m).2).
Proof.
  intros Hl Ha. induction Hl as [|x l1 Hx _ IH]; cbn [app upd_first].
  - rewrite Ha. by destruct (f a m) as [[] ?].
  - by rewrite Hx, IH.
Qed.

Lemma app_fsm_tx_wf p (x : mrp_applicant_attribute) e b (st : registrar_state) :
  (app_tx x = true -> pdu_event (app_sndmsg x) st <> None) ->
  let x' := snd (mrp_applicant_fsm p x e b) in
  app_tx x' = true -> pdu_event (app_sndmsg x') st <> None.
Proof.
  intros Hx. destruct x as [s tx msg enc prev].
  destruct e; cbn in *; try done; destruct s; cbn; done.
Qed.

Lemma applicant_step_wf p e a : attr_wf a -> attr_wf (attr_applicant_fsm p e a).
Proof.
  intros [Ht Hm]. split; [|done]. intros Hn. exact (app_fsm_tx_wf p _ e _ _ (Ht Hn)).
Qed.

Lemma pdu_event_defined msg st st' : pdu_event msg st <> None -> pdu_event msg st' <> None.
Proof. by destruct msg. Qed.

Lemma set_registrar_wf r a :
  length (reg_macaddr r) = 6%nat -> attr_wf a -> attr_wf (set_registrar r a).
Proof.
  intros Hr [Ht _]. split; [|done]. intros Hn Htx. eapply pdu_event_defined, Ht, Htx. exact Hn.
Qed.

(** Is the attribute's registrar waiting for the leave timer? *)
Definition leaving a : Prop := reg_mrp_state (registrar a) = MRP_LV_STATE.

(** What a step on an attribute keeps: its key and well-formedness; and it
    enters the LV state only with the leave timer running. *)
Definition attr_kept a a' (m' : mst) : Prop :=
  key a' = key a /\ (attr_wf a -> attr_wf a')
  /\ (timers_ok os -> leaving a' -> leaving a \/ lv_timer_running (m_db m') = true).

Lemma attr_kept_mono a a' m m' : m_quiet m m' -> attr_kept a a' m -> attr_kept a a' m'.
Proof.
  intros [_ _ _ _ Hl] (Hk & Hw & Hr). split_and!; auto.
  intros Ht Hlv. destruct (Hr Ht Hlv); auto.
Qed.

Lemma attr_kept_refl a m : attr_kept a a m.
Proof. split_and!; auto. Qed.

Lemma attr_kept_trans a1 a2 a3 m m' :
  m_quiet m m' -> attr_kept a1 a2 m -> attr_kept a2 a3 m' -> attr_kept a1 a3 m'.
Proof.
  intros Hq (Hk1 & Hw1 & Hr1)%(attr_kept_mono _ _ _ _ Hq) (Hk2 & Hw2 & Hr2).
  split_and!; [congruence | auto |].
  intros Ht Hlv. destruct (Hr2 Ht Hlv); auto.
Qed.

Lemma attr_registrar_kept e a m :
  m_quiet m (attr_registrar_fsm e a m).2
  /\ attr_kept a (attr_registrar_fsm e a m).1 (attr_registrar_fsm e a m).2
  /\ applicant (attr_registrar_fsm e a m).1 = applicant a.
Proof.
  unfold attr_registrar_fsm. pose proof (registrar_fsm_quiet (registrar a) e m) as H.
  destruct (mrp_registrar_fsm _ e m) as [[rc r] m']. destruct H as (Hq & Hm & Hlv).
  cbn. split; [done|]. split; [|done]. split_and!; [done | | done]. intros Hw.
  apply set_registrar_wf; [|done].
  rewrite Hm. apply Hw.
Qed.

Lemma attr_applicant_kept p e a m : attr_kept a (attr_applicant_fsm p e a) m.
Proof. split_and!; auto using applicant_step_wf. Qed.

Lemma attr_both_kept e a m :
  m_quiet m (attr_both_fsm e a m).2
  /\ attr_kept a (attr_both_fsm e a m).1 (attr_both_fsm e a m).2.
Proof.
  unfold attr_both_fsm.
  destruct (attr_registrar_kept e (attr_applicant_fsm (p2pmac (m_w m)) e a) m)
    as (Hq & Hk & _).
  split; [done|]. eapply attr_kept_trans; [done | apply attr_applicant_kept | done].
Qed.

Lemma set_notify_kept n a m : attr_kept a (set_notify n a) m.
Proof.
  split_and!; [done | | by auto]. intros Hw. apply set_registrar_wf; [|done]. apply Hw.
Qed.

Lemma attr_event_kept e a m :
  m_quiet m (attr_event e a m).2
  /\ attr_kept a (attr_event e a m).1 (attr_event e a m).2.
Proof.
  unfold attr_event. set (a1 := attr_applicant_fsm _ e a).
  assert (H1 : forall e', m_quiet m (attr_registrar_fsm e' a1 m).2
    /\ attr_kept a (attr_registrar_fsm e' a1 m).1 (attr_registrar_fsm e' a1 m).2).
  { intros e'. destruct (attr_registrar_kept e' a1 m) as (Hq & Hk & _).
    split; [done|]. eapply attr_kept_trans; [done | apply attr_applicant_kept | done]. }
  destruct e; cbn [attr_request_registrar]; auto.
  - destruct (H1 MRP_EVENT_BEGIN) as [Hq Hk].
    destruct (attr_registrar_fsm MRP_EVENT_BEGIN a1 m) as [a2 m2]. cbn in *.
    split; [done|]. eapply attr_kept_trans; [reflexivity | done | apply set_notify_kept].
  - case_decide; auto.
Qed.

Lemma notify_step_kept send a m :
  (forall a n m, m_quiet m (send a n m)) ->
  m_quiet m (notify_step send a m).2
  /\ attr_kept a (notify_step send a m).1 (notify_step send a m).2
  /\ (notify_step send a m).1 = set_notify MRP_NOTIFY_NONE a.
Proof.
  intros Hs. unfold notify_step. destruct (reg_notify (registrar a)) eqn:E; cbn.
  1: { split_and!; [done | apply attr_kept_refl |].
       destruct a as [? ? []]; cbn in *; by subst. }
  all: split_and!; auto using set_notify_kept.
Qed.

(** Local notifications clear every [notify] field and change nothing else of
    the list. *)
Lemma notify_all_spec send l m :
  (forall a n m, m_quiet m (send a n m)) ->
  m_quiet m (each (notify_step send) l m).2
  /\ (each (notify_step send) l m).1 = set_notify MRP_NOTIFY_NONE <$> l.
Proof.
  intros Hs.
  destruct (each_spec m_quiet (notify_step send)
    (fun a a' _ => a' = set_notify MRP_NOTIFY_NONE a)) with (l := l) (s := m) as [HR HQ].
  - intros a m'. destruct (notify_step_kept send a m' Hs) as (? & ? & ?). auto.
  - auto.
  - split; [done|]. clear HR. induction HQ; cbn; congruence.
Qed.

End Attributes.

(** ** The invariant of an application database *)

Definition station_ok (w : world) : Prop :=
  length (STATION_ADDR w) = 6%nat /\ bytes_ok (STATION_ADDR w).

Lemma station_extends w w' : w_extends w w' -> station_ok w -> station_ok w'.
Proof. intros [_ _ _ Hs] [??]. unfold station_ok. rewrite Hs. by split. Qed.

Section Invariant.
Context {os : OS} {K : Type} `{!ForcedTx K} (lt : K -> K -> Prop) (okkey : K -> Prop).
Implicit Types l : list (attribute K).

(** The list is strictly sorted by key, its keys and attributes are
    well-formed. *)
Record list_ok l : Prop := {
  lo_sorted : StronglySorted lt (key <$> l);
  lo_keys : Forall okkey (key <$> l);
  lo_wf : Forall attr_wf l
}.

(** A step on the list keeps each attribute. *)
Definition kept l l' (m' : mst) : Prop := Forall2 (fun a a' => attr_kept a a' m') l l'.

(** Every attribute in the LV state has the leave timer running. *)
Definition lv_covered l (m : mst) : Prop :=
  Forall (fun a => leaving a -> lv_timer_running (m_db m) = true) l.

(** Every attribute that owes a message has the join timer running. *)
Definition join_covered l (m : mst) : Prop :=
  Forall (fun a => needs_tx (app_mrp_state (applicant a)) = true ->
                   join_timer_running (m_db m) = true) l.

Lemma kept_refl l m : kept l l m.
Proof. induction l; constructor; auto using attr_kept_refl. Qed.

Lemma kept_keys l l' m : kept l l' m -> key <$> l' = key <$> l.
Proof. induction 1 as [|a a' l l' (Hk & _) _ IH]; cbn; congruence. Qed.

Lemma kept_wf l l' m : kept l l' m -> Forall attr_wf l -> Forall attr_wf l'.
Proof.
  induction 1 as [|a a' l l' (_ & Hw & _) _ IH]; intros Hf; [done|].
  inversion_clear Hf. constructor; auto.
Qed.

Lemma list_ok_kept l l' m : kept l l' m -> list_ok l -> list_ok l'.
Proof.
  intros Hk [Hs Hkeys Hw]. pose proof (kept_keys _ _ _ Hk) as He.
  split; rewrite ?He; eauto using kept_wf.
Qed.

Lemma lv_covered_kept l l' m m' :
  timers_ok os ->
  (lv_timer_running (m_db m) = true -> lv_timer_running (m_db m') = true) ->
  kept l l' m' -> lv_covered l m -> lv_covered l' m'.
Proof.
  unfold lv_covered. intros Ht Hq.
  induction 1 as [|a a' l l' (_ & _ & Hr) _ IH]; intros Hf; [done|].
  inversion_clear Hf. constructor; [|auto].
  intros Hlv. destruct (Hr Ht Hlv); [|done]. auto.
Qed.

Lemma lv_covered_running l m m' :
  lv_timer_running (m_db m') = lv_timer_running (m_db m) -> lv_covered l m -> lv_covered l m'.
Proof. intros H. unfold lv_covered. by rewrite H. Qed.

(** Unlinking attributes keeps the invariant. *)
Lemma list_ok_sublist l l' : sublist l' l -> list_ok l -> list_ok l'.
Proof.
  intros Hsub [Hs Hk Hw].
  assert (Hsub' : sublist (key <$> l') (key <$> l)) by (by apply fmap_sublist).
  split; [|by eapply sublist_Forall..].
  clear -Hs Hsub'. induction Hsub' as [|x k' k Hsub IH|x k' k Hsub IH]; [done| |];
    apply StronglySorted_inv in Hs as [Hs Hx]; auto.
  constructor; auto. by eapply sublist_Forall.
Qed.

Lemma each_kept (f : attribute K -> mst -> attribute K * mst) l m :
  (forall a m, m_quiet m (f a m).2 /\ attr_kept a (f a m).1 (f a m).2) ->
  m_quiet m (each f l m).2 /\ kept l (each f l m).1 (each f l m).2.
Proof.
  intros Hf. apply (each_spec m_quiet f (fun a a' m => attr_kept a a' m)); auto.
  intros a a' m1 m2. apply attr_kept_mono.
Qed.

Lemma tx_loop_kept p l m : kept l (tx_loop p l).1 m.
Proof.
  induction l as [|a l IH]; cbn [tx_loop]; [constructor|].
  destruct (tx_loop p l) as [l' c]. cbn in *. constructor; [apply attr_applicant_kept | done].
Qed.

(** After tx!, the count is zero exactly when nobody owes a message. *)
Lemma tx_loop_count p l :
  0 <= (tx_loop p l).2
  /\ ((tx_loop p l).2 = 0 <->
      Forall (fun a => needs_tx (app_mrp_state (applicant a)) = false) (tx_loop p l).1).
Proof.
  induction l as [|a l [IH0 IH]]; cbn [tx_loop]; [done|].
  destruct (tx_loop p l) as [l' c]. cbn [fst snd] in *.
  assert (Ha : mrp_applicant_state_transition_implies_tx
      (applicant (attr_applicant_fsm p MRP_EVENT_TX a))
    = if needs_tx (app_mrp_state (applicant (attr_applicant_fsm p MRP_EVENT_TX a)))
      then 1 else 0).
  { destruct a as [k [[] ? ? ? ?] r]; cbn; try done; by destruct (mrp_registrar_in r). }
  rewrite Ha, Forall_cons_iff. destruct (needs_tx _) eqn:Hn; (split; [lia|]); rewrite <- IH;
    intuition (lia || done).
Qed.

End Invariant.

(** ** Emission only clears [tx] flags *)
Section Cleared.
Context {os : OS} {K : Type} `{!ForcedTx K}.
Implicit Types l : list (attribute K).

Definition tx_cleared (a a' : attribute K) : Prop := a' = a \/ a' = clear_tx a.

Lemma tx_cleared_refl l : Forall2 tx_cleared l l.
Proof. induction l; constructor; [by left | done]. Qed.

Lemma tx_cleared_trans l1 l2 l3 :
  Forall2 tx_cleared l1 l2 -> Forall2 tx_cleared l2 l3 -> Forall2 tx_cleared l1 l3.
Proof.
  intros H12. revert l3. induction H12 as [|a b l1 l2 Hab H12 IH]; intros l3 H23;
    inversion_clear H23 as [|? c ? l3' Hbc H23']; constructor; auto.
  destruct Hab as [-> | ->], Hbc as [-> | ->]; unfold tx_cleared; auto.
Qed.

Lemma tx_cleared_kept l l' m : Forall2 tx_cleared l l' -> kept l l' m.
Proof.
  induction 1 as [|a a' l l' [-> | ->] _ IH]; constructor; auto using attr_kept_refl.
  split_and!; [done | by intros [_ ?] | by auto].
Qed.

Lemma tx_cleared_keys l l' : Forall2 tx_cleared l l' -> key <$> l' = key <$> l.
Proof. induction 1 as [|a a' l l' [-> | ->] _ IH]; cbn; congruence. Qed.

Lemma tx_cleared_states l l' : Forall2 tx_cleared l l' ->
  app_mrp_state ∘ applicant <$> l' = app_mrp_state ∘ applicant <$> l.
Proof. induction 1 as [|a a' l l' [-> | ->] _ IH]; cbn; congruence. Qed.

End Cleared.
