(* ===== verification/AppProps.v ===== *)
(** * The shared skeleton of the application event handlers

    [mvrp_event] and [mmrp_event] have the same handlers up to the transmit
    function and the list operations.  Their common postcondition, for any list
    invariant that key-preserving steps and unlinking respect, is proved here
    once. *)

From S2P Require Import Prelude Os Mrp MrpProps Attr AttrProps.
From Stdlib Require Import ZArith Lia Sorted.
From stdpp Require Import base tactics sets list strings option gmap.
Open Scope Z_scope.

(** What an application's list invariant must be stable under. *)
Class ListInv {K} `{!ForcedTx K} (LI : list (attribute K) -> Prop) : Prop := {
  li_same : forall l l', key <$> l' = key <$> l ->
    (Forall attr_wf l -> Forall attr_wf l') -> LI l -> LI l';
  li_sublist : forall l l', sublist l' l -> LI l -> LI l'
}.

#[export] Instance list_ok_inv {K} `{!ForcedTx K} (lt : K -> K -> Prop) okkey :
  ListInv (list_ok lt okkey).
Proof.
  split; [|apply list_ok_sublist].
  intros l l' Hk Hw [H1 H2 H3]. split; rewrite ?Hk; auto.
Qed.

Lemma sublist_filter {A} (P : A -> Prop) `{!forall x, Decision (P x)} (l : list A) :
  sublist (filter P l) l.
Proof.
  induction l as [|x l IH]; [done|]. rewrite filter_cons. case_decide; by constructor.
Qed.

Section Handlers.
Context {os : OS} {K : Type} `{!ForcedTx K} (LI : list (attribute K) -> Prop) `{!ListInv LI}.
Implicit Types (s : ast K) (l : list (attribute K)).

(** ** Invariant and postcondition *)

Definition app_ok s : Prop :=
  LI (attrib_list (db s)) /\ station_ok (wld s)
  /\ send_empty_LeaveAll_flag (db s) = false.

(** The LeaveAll timer runs, and the leave timer whenever it is needed. *)
Definition timers_inv s : Prop :=
  lva_timer_running (mrp_db (db s)) = true
  /\ lv_covered (attrib_list (db s)) (get_mst s).

Definition app_post s s' : Prop :=
  app_ok s' /\ m_extends (get_mst s) (get_mst s')
  /\ (timers_ok os -> timers_inv s -> timers_inv s').

Lemma li_kept l l' m : kept l l' m -> LI l -> LI l'.
Proof. intros Hk. eapply li_same; eauto using kept_keys, kept_wf. Qed.

Lemma app_post_refl s : app_ok s -> app_post s s.
Proof. intros H. split; [done|]. split; [done | auto]. Qed.

Lemma app_post_trans s1 s2 s3 : app_post s1 s2 -> app_post s2 s3 -> app_post s1 s3.
Proof.
  intros (H1 & H2 & H3) (H4 & H5 & H6). split; [done|].
  split; [by etransitivity | auto].
Qed.

Lemma kept_trans l1 l2 l3 m m' :
  (lv_timer_running (m_db m) = true -> lv_timer_running (m_db m') = true) ->
  kept l1 l2 m -> kept l2 l3 m' -> kept l1 l3 m'.
Proof.
  intros Hq H12. revert l3. induction H12 as [|a b l1 l2 (Hk1 & Hw1 & Hr1) _ IH];
    intros l3 H23; inversion_clear H23 as [|? c ? l3' (Hk2 & Hw2 & Hr2) H];
    constructor; [|by apply IH].
  split_and!; [congruence | auto |].
  intros Ht Hlv. destruct (Hr2 Ht Hlv) as [H2|]; [|by right].
  destruct (Hr1 Ht H2); auto.
Qed.

(** The end of a handler: a list step that keeps the attributes, with a quiet
    step of the rest, establishes the postcondition. *)
Lemma app_post_sublist s m l l0 :
  app_ok s -> m_extends (get_mst s) m -> sublist l0 (attrib_list (db s)) -> kept l0 l m ->
  (timers_ok os -> timers_inv s -> lva_timer_running (m_db m) = true /\ lv_covered l m) ->
  app_post s (put_list l (put_mst m s)).
Proof.
  intros (Hl & Hst & Hf) Hm Hs Hk Ht.
  split; [|split; [by destruct m | intros ??; destruct m; by apply Ht]].
  split; [|split]; cbn; [|by eapply station_extends; [apply Hm|]|done].
  eapply li_kept; [done|]. by eapply li_sublist.
Qed.

Lemma app_post_kept s m l :
  app_ok s -> m_extends (get_mst s) m -> kept (attrib_list (db s)) l m ->
  (timers_ok os -> timers_inv s -> lva_timer_running (m_db m) = true /\ lv_covered l m) ->
  app_post s (put_list l (put_mst m s)).
Proof. intros. by eapply app_post_sublist. Qed.

Lemma app_post_intro s s' :
  app_ok s -> kept (attrib_list (db s)) (attrib_list (db s')) (get_mst s') ->
  m_extends (get_mst s) (get_mst s') -> send_empty_LeaveAll_flag (db s') = false ->
  (timers_ok os -> timers_inv s -> timers_inv s') -> app_post s s'.
Proof.
  intros (Hl & Hst & _) Hk Hm Hf Ht. split; [|by split].
  split; [|split]; [by eapply li_kept | | done].
  eapply (station_extends (wld s)); [apply Hm | done].
Qed.

(** Arming the join timer is always allowed. *)
Lemma app_post_join s s' :
  app_post s s' -> app_post s (put_mst (mrp_jointimer_start (get_mst s')).2 s').
Proof.
  intros ((Hl & Hst & Hf) & Hm & Ht).
  destruct (jointimer_start_spec (get_mst s')) as (Hj1 & _ & Hj2 & Hj3 & _).
  destruct (mrp_jointimer_start (get_mst s')) as [rc m]. cbn [snd] in *.
  split; [|split].
  - split; [|split]; cbn; auto. eapply station_extends, Hst. apply Hj1.
  - etransitivity; [apply Hm|]. by destruct m.
  - intros Hto Hti. destruct (Ht Hto Hti) as [Hr Hlv]. split; cbn; [by rewrite Hj2|].
    apply (lv_covered_running _ (get_mst s')); [done|]. by destruct m.
Qed.

(** ** Local notifications *)
Section Notify.
Context (send : attribute K -> mrp_notify -> mst -> mst)
        (Hsend : forall a n m, m_quiet m (send a n m)).

Definition notify_handler s : ast K :=
  let '(l, m) := each (notify_step send) (attrib_list (db s)) (get_mst s) in
  put_list l (put_mst m s).

Lemma notify_handler_spec s :
  m_quiet (get_mst s) (get_mst (notify_handler s))
  /\ attrib_list (db (notify_handler s))
     = set_notify MRP_NOTIFY_NONE <$> attrib_list (db s)
  /\ send_empty_LeaveAll_flag (db (notify_handler s)) = send_empty_LeaveAll_flag (db s).
Proof.
  unfold notify_handler.
  destruct (notify_all_spec send (attrib_list (db s)) (get_mst s) Hsend) as [Hq Hl].
  destruct (each _ _ _) as [l m]. cbn in *. by destruct m.
Qed.

Lemma app_post_notify s s' : app_post s s' -> app_post s (notify_handler s').
Proof.
  intros ((Hl & Hst & Hf) & Hm & Ht).
  destruct (notify_handler_spec s') as (Hq & Hlist & Hflag).
  assert (Hkept : kept (attrib_list (db s')) (attrib_list (db (notify_handler s')))
    (get_mst (notify_handler s'))).
  { rewrite Hlist. clear. induction (attrib_list (db s')); constructor;
      auto using set_notify_kept. }
  split; [|split].
  - split; [|split]; [by eapply li_kept | | congruence].
    eapply (station_extends (wld s')); [apply Hq | done].
  - etransitivity; [done | apply Hq].
  - intros Hto Hti. destruct (Ht Hto Hti) as [H1 H2]. split.
    + pose proof (mq_lvar _ _ Hq) as Hr. cbn in Hr. congruence.
    + eapply lv_covered_kept; [done | apply Hq | done | done].
Qed.

End Notify.

(** ** Handlers that only step the attributes *)

Definition rla_handler (f : attribute K -> mst -> attribute K * mst) s : ast K :=
  let '(_, m) := mrp_jointimer_start (get_mst s) in
  let '(l, m) := each f (attrib_list (db s)) m in
  let '(_, m) := mrp_lvatimer_fsm MRP_EVENT_RLA m in
  put_list l (put_mst m s).

Lemma rla_handler_post f s :
  (forall a m, m_quiet m (f a m).2 /\ attr_kept a (f a m).1 (f a m).2) ->
  app_ok s -> app_post s (rla_handler f s).
Proof.
  intros Hfk Hok. unfold rla_handler.
  destruct (jointimer_start_spec (get_mst s)) as (Hj1 & _ & Hj2 & Hj3 & _).
  destruct (mrp_jointimer_start (get_mst s)) as [rc m1]. cbn [snd] in *.
  destruct (each_kept f (attrib_list (db s)) m1 Hfk) as [Hq Hk].
  destruct (each _ _ m1) as [l m2]. cbn [fst snd] in *.
  destruct (lvatimer_fsm_spec MRP_EVENT_RLA m2) as (Hf1 & _ & Hf2 & Hf3).
  destruct (mrp_lvatimer_fsm MRP_EVENT_RLA m2) as [rc2 m3]. cbn [snd] in *.
  apply app_post_kept; auto.
  - etransitivity; [done|]. etransitivity; [apply Hq | done].
  - eapply Forall2_impl; [apply Hk|]. intros a a' (H1 & H2 & H3).
    split_and!; auto. by rewrite Hf2.
  - intros Ht [Hr Hlv]. split; [apply Hf3; [done|right; set_solver]|].
    eapply lv_covered_running; [apply Hf2|].
    eapply lv_covered_kept; [done | apply Hq | apply Hk |].
    by apply (lv_covered_running _ (get_mst s)).
Qed.

Definition periodic_handler s : ast K :=
  let m := get_mst s in
  let '(_, m) := match attrib_list (db s) with
                 | [] => (0, m)
                 | _ :: _ => mrp_jointimer_start m
                 end in
  let l := attr_applicant_fsm (p2pmac (m_w m)) MRP_EVENT_PERIODIC
           <$> attrib_list (db s) in
  put_list l (put_mst m s).

Lemma periodic_handler_post s : app_ok s -> app_post s (periodic_handler s).
Proof.
  intros Hok. unfold periodic_handler.
  set (jt := match attrib_list (db s) with [] => _ | _ => _ end).
  assert (Hj : m_extends (get_mst s) jt.2
    /\ lva_timer_running (m_db jt.2) = lva_timer_running (mrp_db (db s))
    /\ lv_timer_running (m_db jt.2) = lv_timer_running (mrp_db (db s))).
  { unfold jt. destruct (attrib_list (db s)); [by split|].
    destruct (jointimer_start_spec (get_mst s)) as (? & _ & ? & ? & _). auto. }
  destruct jt as [rc m]. cbn [snd] in Hj. destruct Hj as (H1 & H2 & H3).
  assert (Hk : kept (attrib_list (db s))
    (attr_applicant_fsm (p2pmac (m_w m)) MRP_EVENT_PERIODIC <$> attrib_list (db s)) m).
  { induction (attrib_list (db s)); constructor; auto using attr_applicant_kept. }
  apply app_post_kept; auto.
  intros Ht [Hr Hlv]. split; [congruence|].
  apply (lv_covered_kept (attrib_list (db s)) _ m); [done | auto | done |].
  by apply (lv_covered_running _ (get_mst s)).
Qed.

(** After the leave timer no attribute is left in the LV state. *)
Lemma lvtimer_none_leaving (a : attribute K) m :
  ~ leaving (attr_registrar_fsm MRP_EVENT_LVTIMER a m).1.
Proof. unfold leaving. by destruct a as [k ap [[] ? ?]]. Qed.

(** Unlinking: [each_opt] with steps that keep what they do not unlink. *)
Lemma omap_kept l ol m :
  Forall2 (fun a o => match o with None => True | Some a' => attr_kept a a' m end) l ol ->
  exists l0, sublist l0 l /\ kept l0 (omap id ol) m.
Proof.
  induction 1 as [|a o l ol Ho _ (l0 & Hs & Hk)];
    [exists []; split; constructor|].
  destruct o as [a'|].
  - exists (a :: l0). split; [by constructor | by constructor].
  - exists l0. split; [by constructor | done].
Qed.

Lemma each_opt_kept f l m :
  (forall a m, m_quiet m (f a m).2
     /\ match (f a m).1 with None => True | Some a' => attr_kept a a' (f a m).2 end) ->
  m_quiet m (each_opt f l m).2
  /\ exists l0, sublist l0 l /\ kept l0 (each_opt f l m).1 (each_opt f l m).2.
Proof.
  intros Hf.
  destruct (each_opt_spec m_quiet f (fun a o m => match o with None => True
    | Some a' => attr_kept a a' m end)) with (l := l) (s := m) as (Hq & ol & Ho & ->); auto.
  { intros a [a'|] m1 m2; [apply attr_kept_mono | done]. }
  split; [done|]. by apply omap_kept.
Qed.

Definition lvtimer_handler (f : attribute K -> mst -> option (attribute K) * mst) s : ast K :=
  let '(_, m) := mrp_lvtimer_stop (get_mst s) in
  let '(l, m) := each_opt f (attrib_list (db s)) m in
  put_list l (put_mst m s).

Lemma lvtimer_handler_post f s :
  (forall a m, m_quiet m (f a m).2 /\
    match (f a m).1 with
    | None => True
    | Some a' => attr_kept a a' (f a m).2 /\ ~ leaving a'
    end) ->
  app_ok s -> app_post s (lvtimer_handler f s).
Proof.
  intros Hf Hok. unfold lvtimer_handler.
  destruct (lvtimer_stop_spec (get_mst s)) as (Hs1 & Hs2).
  destruct (mrp_lvtimer_stop (get_mst s)) as [rc m1]. cbn [snd] in *.
  destruct (each_opt_kept f (attrib_list (db s)) m1) as (Hq & l0 & Hsub & Hk).
  { intros a m. destruct (Hf a m) as [? Hm]. split; [done|].
    destruct (f a m) as [[a'|] m']; [apply Hm | done]. }
  destruct (each_opt_spec m_quiet f (fun a o m => match o with None => True
    | Some a' => ~ leaving a' end)) with (l := attrib_list (db s)) (s := m1)
    as (_ & ol & Ho & Hl); [|auto|].
  { intros a m. destruct (Hf a m) as [? Hm]. split; [done|].
    destruct (f a m) as [[a'|] m']; [apply Hm | done]. }
  destruct (each_opt f _ m1) as [l m2]. cbn [fst snd] in *.
  apply (app_post_sublist _ _ _ l0); auto; [by etransitivity; [|apply Hq]|].
  intros _ [Hr _]. split.
  - rewrite (mq_lvar _ _ Hq), Hs2. done.
  - subst l. clear -Ho. unfold lv_covered.
    induction Ho as [|a [a'|] l ol Hn _ IH]; cbn; [done| |done]. by constructor.
Qed.

(** The same loop when nothing is unlinked. *)
Lemma each_as_opt (f : attribute K -> mst -> attribute K * mst) l m :
  each f l m = each_opt (fun a m => let '(a', m') := f a m in (Some a', m')) l m.
Proof.
  revert m; induction l as [|a l IH]; intros m; cbn; [done|].
  destruct (f a m) as [a' m1]. rewrite IH. by destruct (each_opt _ l m1).
Qed.

(** ** Handlers that transmit *)

(** What a transmit function keeps: the attributes (it may clear [tx]), the
    timers and the applicant states. *)
Definition tx_keeps s s' : Prop :=
  kept (attrib_list (db s)) (attrib_list (db s')) (get_mst s')
  /\ m_extends (get_mst s) (get_mst s')
  /\ send_empty_LeaveAll_flag (db s') = send_empty_LeaveAll_flag (db s)
  /\ join_timer_running (mrp_db (db s')) = join_timer_running (mrp_db (db s))
  /\ lv_timer_running (mrp_db (db s')) = lv_timer_running (mrp_db (db s))
  /\ lva_timer_running (mrp_db (db s')) = lva_timer_running (mrp_db (db s))
  /\ app_mrp_state ∘ applicant <$> attrib_list (db s')
     = app_mrp_state ∘ applicant <$> attrib_list (db s).

Section Transmit.
Context (txpdu : ast K -> res (Z * ast K)).

(** The transmit function is safe with the empty-LeaveAll flag at [flag]. *)
Definition tx_safe (flag : bool) : Prop :=
  forall s, send_empty_LeaveAll_flag (db s) = flag ->
    LI (attrib_list (db s)) -> station_ok (wld s) ->
    returns (txpdu s) (fun '(_, s') => tx_keeps s s').

Definition tx_handler s : res (ast K) :=
  let '(_, m) := mrp_jointimer_stop (get_mst s) in
  let '(l, count) := tx_loop (p2pmac (m_w m)) (attrib_list (db s)) in
  '(_, s) ← txpdu (put_list l (put_mst m s));
  Ret (if count =? 0 then s
       else let '(_, m) := mrp_jointimer_start (get_mst s) in put_mst m s).

Lemma tx_handler_post s :
  tx_safe false -> app_ok s -> returns (tx_handler s) (app_post s).
Proof.
  intros Htx (Hl & Hst & Hf). unfold tx_handler.
  destruct (jointimer_stop_spec (get_mst s)) as (Hs1 & Hs2).
  destruct (mrp_jointimer_stop (get_mst s)) as [rc m1]. cbn [snd] in *.
  pose proof (fun m => tx_loop_kept (p2pmac (m_w m1)) (attrib_list (db s)) m) as Hk.
  destruct (tx_loop _ _) as [l count]. cbn [fst] in Hk.
  eapply returns_bind; [apply Htx; [done|cbn..]|].
  { eapply li_kept, Hl. apply (Hk m1). }
  { eapply station_extends, Hst. apply Hs1. }
  intros [rc1 s1] (Hk1 & He1 & Hf1 & _ & Hlv1 & Hlva1 & _). cbn [returns].
  cbn in Hk1, Hf1, Hlv1, Hlva1. rewrite Hs2 in Hlv1, Hlva1. cbn in Hlv1, Hlva1.
  assert (He : m_extends (get_mst s) (get_mst s1)).
  { etransitivity; [apply Hs1|]. by destruct m1. }
  assert (Hp : app_post s s1).
  { apply app_post_intro; auto; [by split | | congruence |].
    - eapply kept_trans; [|apply (Hk (get_mst s1)) | done]. auto.
    - intros Ht [Hr Hlv]. split; [congruence|].
      apply (lv_covered_kept (attrib_list (db s)) _ (get_mst s1)); [done | auto | |].
      + eapply kept_trans; [|apply (Hk (get_mst s1)) | done]. auto.
      + by apply (lv_covered_running _ (get_mst s)). }
  destruct (count =? 0); [done|]. pose proof (app_post_join _ _ Hp) as Hj.
  by destruct (mrp_jointimer_start (get_mst s1)).
Qed.

Definition lvatimer_handler s : res (ast K) :=
  let '(_, m) := mrp_lvatimer_stop (get_mst s) in
  let '(_, m) := mrp_jointimer_stop m in
  let '(l, m) := each (attr_both_fsm MRP_EVENT_TXLA) (attrib_list (db s)) m in
  let '(_, m) := mrp_lvatimer_fsm MRP_EVENT_LVATIMER m in
  let '(_, m) := mrp_lvatimer_fsm MRP_EVENT_TX m in
  '(_, s) ← txpdu (Ast (AppDb (m_db m) l true) (m_w m));
  Ret (put_flag false s).

Lemma lvatimer_handler_post s :
  tx_safe true -> app_ok s -> returns (lvatimer_handler s) (app_post s).
Proof.
  intros Htx (Hl & Hst & Hf). unfold lvatimer_handler.
  destruct (lvatimer_stop_spec (get_mst s)) as (Hs1 & Hs2).
  destruct (mrp_lvatimer_stop (get_mst s)) as [rc m1]. cbn [snd] in *.
  destruct (jointimer_stop_spec m1) as (Hs3 & Hs4).
  destruct (mrp_jointimer_stop m1) as [rc2 m2]. cbn [snd] in *.
  destruct (each_kept (attr_both_fsm MRP_EVENT_TXLA) (attrib_list (db s)) m2
    (attr_both_kept _)) as [Hq Hk].
  destruct (each _ _ m2) as [l m3]. cbn [fst snd] in *.
  destruct (lvatimer_fsm_spec MRP_EVENT_LVATIMER m3) as (Ha1 & _ & Ha2 & Ha3).
  destruct (mrp_lvatimer_fsm MRP_EVENT_LVATIMER m3) as [rc4 m4]. cbn [snd] in *.
  destruct (lvatimer_fsm_spec MRP_EVENT_TX m4) as (Hb1 & _ & Hb2 & Hb3).
  destruct (mrp_lvatimer_fsm MRP_EVENT_TX m4) as [rc5 m5]. cbn [snd] in *.
  assert (He5 : m_extends (get_mst s) m5).
  { do 4 (etransitivity; [eassumption || apply Hq|]). done. }
  assert (Hk5 : kept (attrib_list (db s)) l m5).
  { eapply Forall2_impl; [apply Hk|]. intros a a' (H1 & H2 & H3).
    split_and!; auto. by rewrite Hb2, Ha2. }
  eapply returns_bind; [apply Htx; [done|cbn..]|].
  { by eapply li_kept, Hl. }
  { eapply station_extends, Hst. apply He5. }
  intros [rc1 s1] (Hk1 & He1 & Hf1 & _ & Hlv1 & Hlva1 & _). cbn [returns].
  cbn in Hk1, Hf1, Hlv1, Hlva1.
  assert (Hk6 : kept (attrib_list (db s)) (attrib_list (db s1)) (get_mst s1)).
  { eapply kept_trans; [|done | done]. cbn. by rewrite Hlv1. }
  apply app_post_intro; auto; [by split | |].
  - etransitivity; [apply He5|]. by destruct m5.
  - intros Ht [Hr Hlv]. split; cbn.
    + rewrite Hlva1. apply Hb3; [done|]. left. apply Ha3; [done|]. right. set_solver.
    + apply (lv_covered_running _ (get_mst s1)); [done|].
      eapply (lv_covered_kept _ _ m2); [done | | apply Hk6 |].
      * cbn. rewrite Hlv1, Hb2, Ha2. apply Hq.
      * apply (lv_covered_running _ (get_mst s)); [by rewrite Hs4, Hs2 | done].
Qed.

End Transmit.

(** ** Attribute events *)

(** The postcondition of an attribute event, from where the attribute is in the
    list before ([old]) and after ([new]). *)
Lemma app_post_attribute s s' l1 l2 (old new : option (attribute K)) :
  app_ok s -> attrib_list (db s) = l1 ++ option_list old ++ l2 ->
  attrib_list (db s') = l1 ++ option_list new ++ l2 ->
  LI (attrib_list (db s')) ->
  m_quiet (mrp_jointimer_start (get_mst s)).2 (get_mst s') ->
  send_empty_LeaveAll_flag (db s') = send_empty_LeaveAll_flag (db s) ->
  (timers_ok os -> forall a, new = Some a -> leaving a ->
     (exists x, old = Some x /\ leaving x) \/ lv_timer_running (mrp_db (db s')) = true) ->
  app_post s s'.
Proof.
  intros (Hl & Hst & Hfl) Hold Hnew Hok Hq Hf' Hk.
  destruct (jointimer_start_spec (get_mst s)) as (Hj1 & _ & Hj2 & Hj3 & _).
  set (m1 := (mrp_jointimer_start (get_mst s)).2) in *.
  assert (Hm : m_extends (get_mst s) (get_mst s')) by (etransitivity; [done | apply Hq]).
  split; [|split; [done|]].
  { split; [|split]; [done | | congruence]. eapply station_extends, Hst. apply Hm. }
  intros Ht [Hr1 Hlv]. split.
  { pose proof (mq_lvar _ _ Hq) as E. cbn in E, Hj2. congruence. }
  assert (Hrun : lv_timer_running (mrp_db (db s)) = true ->
                 lv_timer_running (m_db (get_mst s')) = true).
  { intros E. apply Hq. by rewrite Hj3. }
  unfold lv_covered in *. rewrite Hnew. rewrite Hold, !Forall_app in Hlv.
  destruct Hlv as (Hv1 & Hv & Hv2). rewrite !Forall_app. split_and!.
  - eapply Forall_impl; [apply Hv1|]. cbn. auto.
  - destruct new as [a|]; cbn; [|done]. constructor; [|done]. intros Ha.
    destruct (Hk Ht a eq_refl Ha) as [(x & -> & Hx)|]; [|done].
    apply Hrun. cbn in Hv. inversion_clear Hv. auto.
  - eapply Forall_impl; [apply Hv2|]. cbn. auto.
Qed.

(** A NULL attribute only starts the join timer. *)
Lemma null_post s : app_ok s -> app_post s (put_mst (mrp_jointimer_start (get_mst s)).2 s).
Proof. intros H. by apply app_post_join, app_post_refl. Qed.

(** Advancing the world (an allocation, a log entry) keeps everything. *)
Lemma app_post_world s w' :
  w_extends (wld s) w' -> app_ok s -> app_post s (put_mst (Mst (mrp_db (db s)) w') s).
Proof.
  intros Hw (Hl & Hst & Hf). split; [|split].
  - split; [done|]. split; [by eapply station_extends | done].
  - split; done.
  - done.
Qed.

(** Garbage collection: the attributes nobody declares are unlinked. *)
Lemma app_post_reclaim s s' :
  app_ok s ->
  attrib_list (db s') = filter (fun a => reclaimable a = false) (attrib_list (db s)) ->
  m_quiet (get_mst s) (get_mst s') ->
  send_empty_LeaveAll_flag (db s') = send_empty_LeaveAll_flag (db s) -> app_post s s'.
Proof.
  intros (Hl & Hst & Hf) Hlist Hq Hfl. split; [|split; [apply Hq|]].
  - split; [|split; [|congruence]].
    + rewrite Hlist. eapply li_sublist; [apply sublist_filter | done].
    + eapply (station_extends (wld s)); [apply Hq | done].
  - intros Ht [Hr Hlv]. split; [pose proof (mq_lvar _ _ Hq) as E; cbn in E; congruence|].
    unfold lv_covered. rewrite Hlist. eapply sublist_Forall; [apply sublist_filter|].
    eapply Forall_impl; [apply Hlv|]. cbn. intros a Ha Hla. apply Hq, Ha, Hla.
Qed.

End Handlers.
