(* ===== verification/AppCmd.v ===== *)
(** * The control side the applications share

    Start-up of an application database, the table dump loop, error replies and
    client registration, with their safety; the command handlers of mvrp.c and
    mmrp.c are built from them. *)

From S2P Require Import Prelude Os Parse Mrp MrpProps Attr AttrProps AppProps.
From Stdlib Require Import ZArith Lia Sorted.
From stdpp Require Import base tactics sets list strings option gmap.
Open Scope Z_scope.

(** ** Definitions *)
Section Ops.
Context {os : OS} {K : Type}.

(** [mrpd_init_timers] on the zeroed [mrp_db] (its timers and running flags). *)
Definition mrpd_init_timers (d : mrp_database) (w : world) : Z * mrp_database * world :=
  let '(j, w) := mrpd_timer_create w in
  let '(l, w) := mrpd_timer_create w in
  let '(la, w) := mrpd_timer_create w in
  let d := MrpDb (lva d) j false l false la false (clients d) (registration d)
             (participant d) in
  if (-1 =? j) || (-1 =? l) || (-1 =? la)
  then (-1, d, mrpd_timer_close la (mrpd_timer_close l (mrpd_timer_close j w)))
  else (0, d, w).

(** The zeroed database with its default controls. *)
Definition mrp_zero_db : mrp_database :=
  MrpDb (Timer MRP_TIMER_PASSIVE false MRP_SND_NEW) 0 false 0 false 0 false []
    MRP_REGISTRAR_CTL_NORMAL MRP_APPLICANT_CTL_NORMAL.

(** [mvrp_init] and [mmrp_init], which differ in the EtherType and address they
    pass to the socket calls: returns rc, the socket, the database and the
    world. *)
Definition app_init (enable : bool) (w : world)
  : Z * Z * option (app_database K) * world :=
  if negb enable then (0, -1, None, w)
  else
    let '(rc, sock, w) := mrpd_init_protocol_socket w in
    if rc <? 0 then (-1, sock, None, w)
    else
      let '(ok, w) := malloc w in
      if negb ok then (-1, -1, None, mrpd_close_socket sock w)
      else
        let '(rc, d, w) := mrpd_init_timers mrp_zero_db w in
        if rc <? 0 then (-1, -1, None, mrpd_close_socket sock w)
        else
          let '(_, m) := mrp_lvatimer_fsm MRP_EVENT_BEGIN (Mst d w) in
          (0, sock, Some (AppDb (m_db m) [] false), m_w m).

(** The loop of the dump functions that appends lines at [msgbuf_wrptr];
    [snprintf] writes the line and its NUL. *)
Fixpoint dump_lines (line : attribute K -> string) (l : list (attribute K))
    (msgbuf : list Z) (wrptr : Z) : res (list Z) :=
  match l with
  | [] => Ret msgbuf
  | a :: r =>
      let stage := bytes_of (line a) in
      buf ← wr_list msgbuf wrptr (stage ++ [0]);
      dump_lines line r buf (wrptr + Zlen stage)
  end.

(** The dump functions: [empty] is the text for an empty list. *)
Definition app_dumptable (empty : string) (line : attribute K -> string)
    (client : sockaddr_in) (l : list (attribute K)) (w : world) : res (Z * world) :=
  let '(ok, w) := malloc w in
  if negb ok then Ret (-1, w)
  else
    let '(ok1, w) := malloc w in
    let '(ok2, w) := malloc w in
    let '(ok3, w) := malloc w in
    if negb (ok1 && ok2 && ok3) then Ret (0, w)
    else
      let zeroed := replicate (Z.to_nat MAX_MRPD_CMDSZ) 0 in
      buf ← match l with
            | [] => wr_list zeroed 0 (bytes_of empty ++ [0])
            | _ :: _ => dump_lines line l zeroed 0
            end;
      s ← cstr buf 0;
      let '(_, w) := mrpd_send_ctl_msg client (text_of s) MAX_MRPD_CMDSZ w in
      Ret (0, w).

(** An error response: the prefix and the offending command, truncated to a
    [respbuf] of [sz] bytes. *)
Definition cmd_error_sz (sz : nat) (prefix : string) (buf : list Z) (client : sockaddr_in)
    (s : ast K) : res (Z * ast K) :=
  text ← cstr buf 0;
  let respbuf := snprintf (sz - 1) (prefix +:+ text_of text) in
  let '(_, w) := mrpd_send_ctl_msg client respbuf (Z.of_nat sz) (wld s) in
  Ret (-1, put_mst (Mst (mrp_db (db s)) w) s).

(** The command buffer as the parameter parser leaves it; commands shorter than
    [min] are not parsed. *)
Definition cmd_left (min : Z) (specs : list (list Z * parse_type)) (buf : list Z) (buflen : Z)
  : list Z :=
  if buflen <? min then buf else parse_left buf 4 (buflen - 4) specs.

(** MVRP and MMRP reply from 12 bytes. *)
Definition cmd_error : string -> list Z -> sockaddr_in -> ast K -> res (Z * ast K) :=
  cmd_error_sz 12.

(** The reply when the application is disabled (its database is NULL). *)
Definition cmd_disabled_sz (sz : nat) (prefix : string) (buf : list Z)
    (client : sockaddr_in) (w : world) : res (Z * world) :=
  text ← cstr buf 0;
  let respbuf := snprintf (sz - 1) (prefix +:+ text_of text +:+ "
") in
  let '(_, w) := mrpd_send_ctl_msg client respbuf (Z.of_nat sz) w in
  Ret (-1, w).

Definition cmd_disabled : string -> list Z -> sockaddr_in -> world -> res (Z * world) :=
  cmd_disabled_sz 12.

End Ops.

(** ** Start *)
Section Init.
Context {os : OS} {K : Type} `{!ForcedTx K} (LI : list (attribute K) -> Prop).

Lemma init_socket_spec w :
  let '(rc, sock, w') := mrpd_init_protocol_socket w in
  (rc = 0 -> STATION_ADDR w' = os_hwaddr) /\ (rc = 0 \/ rc = -1).
Proof.
  unfold mrpd_init_protocol_socket, syscall. cbn.
  repeat case_match; simplify_eq; (split; [done|]); auto.
Qed.

Lemma init_timers_spec d w :
  let '(rc, d', w') := mrpd_init_timers d w in
  (rc = 0 \/ rc = -1) /\ STATION_ADDR w' = STATION_ADDR w.
Proof.
  unfold mrpd_init_timers, mrpd_timer_create, mrpd_timer_close. cbn.
  repeat case_match; simplify_eq; cbn; auto.
Qed.

Lemma init_socket_failed w :
  let '(rc, sock, _) := mrpd_init_protocol_socket w in rc <> 0 -> sock = -1.
Proof.
  unfold mrpd_init_protocol_socket, syscall. cbn. repeat case_match; simplify_eq; done.
Qed.

(** The empty database once its timers exist and the LeaveAll machine begins. *)
Lemma begin_spec d w :
  LI [] -> STATION_ADDR w = os_hwaddr -> length os_hwaddr = 6%nat -> bytes_ok os_hwaddr ->
  let '(_, m) := mrp_lvatimer_fsm MRP_EVENT_BEGIN (Mst d w) in
  app_ok LI (Ast (AppDb (m_db m) [] false) (m_w m))
  /\ (timers_ok os -> timers_inv (Ast (AppDb (m_db m) ([] : list (attribute K)) false) (m_w m))).
Proof.
  intros Hnil Hst Hl Hb.
  destruct (lvatimer_fsm_spec MRP_EVENT_BEGIN (Mst d w)) as (Hx & _ & _ & Hrun).
  destruct (mrp_lvatimer_fsm MRP_EVENT_BEGIN (Mst d w)) as [rc4 m]. cbn [snd] in *. split.
  - split; [done|]. split; [|done].
    destruct Hx as [[_ _ _ Hsx] _ _ _ _]. cbn in *. unfold station_ok. by rewrite Hsx, Hst.
  - intros Hto. split; cbn; [|constructor]. apply Hrun; [done|]. right. set_solver.
Qed.

Lemma app_init_spec w :
  LI [] -> length os_hwaddr = 6%nat -> bytes_ok os_hwaddr ->
  let '(rc, sock, d, w') := app_init (K := K) true w in
  match d with
  | Some d => rc = 0 /\ attrib_list d = [] /\ app_ok LI (Ast d w')
              /\ (timers_ok os -> timers_inv (Ast d w'))
  | None => rc = -1 /\ sock = -1
  end.
Proof.
  intros Hnil Hl Hb. unfold app_init. cbn [negb].
  pose proof (init_socket_spec w) as Hs. pose proof (init_socket_failed w) as Hsock.
  destruct (mrpd_init_protocol_socket w) as [[rc sock] w1]. destruct Hs as [Hst Hrc].
  destruct (Z.ltb_spec rc 0); [split; [done|]; apply Hsock; lia|].
  unfold malloc. destruct (os_malloc _); cbn [negb]; [|done].
  pose proof (init_timers_spec mrp_zero_db (step_tick w1)) as Ht.
  destruct (mrpd_init_timers mrp_zero_db (step_tick w1)) as [[rc2 d] w3].
  destruct Ht as [Hrc2 Hst2]. destruct (Z.ltb_spec rc2 0); [done|].
  pose proof (begin_spec d w3 Hnil) as Hbg. destruct (mrp_lvatimer_fsm _ _) as [rc4 m].
  split_and!; [done | done | apply Hbg..]; auto; rewrite Hst2; apply Hst; lia.
Qed.

End Init.

(** ** Printed lengths *)

Lemma bytes_of_length s : length (bytes_of s) = String.length s.
Proof. unfold bytes_of. rewrite length_fmap. induction s; cbn; congruence. Qed.

Lemma length_append s t : String.length (s +:+ t) = (String.length s + String.length t)%nat.
Proof. rewrite <- !bytes_of_length, bytes_of_app, length_app. done. Qed.

Lemma snprintf_fits n s : (String.length s < n)%nat -> snprintf n s = s.
Proof.
  intros Hn. unfold snprintf. assert (Hl : (String.length s <= n - 1)%nat) by lia.
  clear Hn. revert Hl. generalize (n - 1)%nat. clear n.
  induction s as [|c s IH]; intros [|n] Hl; cbn in *; try lia; try done.
  f_equal. apply IH. lia.
Qed.

Lemma snprintf_length n s : (0 < n)%nat -> (String.length (snprintf n s) < n)%nat.
Proof.
  intros Hn. unfold snprintf. enough (String.length (String.substring 0 (n - 1) s) <= n - 1)%nat
    by lia. generalize (n - 1)%nat. clear Hn.
  induction s as [|c s IH]; intros [|m]; cbn; [lia..|]. specialize (IH m). lia.
Qed.

Lemma hex_digit_length d : String.length (hex_digit d) = 1%nat.
Proof. rewrite <- bytes_of_length, hex_digit_bytes. done. Qed.

Lemma fmt_04x_length v : String.length (fmt_04x v) = 4%nat.
Proof. unfold fmt_04x, fmt_02x. by rewrite !length_append, !hex_digit_length. Qed.

Lemma fmt_mac_length mac : length mac = 6%nat -> String.length (fmt_mac mac) = 12%nat.
Proof.
  intros H. do 7 (destruct mac as [|? mac]; try discriminate H).
  unfold fmt_mac, fmt_02x. cbn -[String.append].
  repeat rewrite length_append || rewrite hex_digit_length. done.
Qed.

Lemma decode_state_length r a : String.length (mrp_decode_state r a 8) = 5%nat.
Proof. by destruct r as [[] ? ?], a as [[] ? ? ? ?]. Qed.

(** ** The dump loop *)

(** Lines of at most [n] bytes that fit keep the text terminated. *)
Lemma dump_lines_safe {K} (line : attribute K -> string) n l : forall buf p,
  0 <= n -> Forall (fun a => Zlen (bytes_of (line a)) <= n) l -> 0 <= p ->
  p + n * Zlen l < Zlen buf -> buf !! Z.to_nat p = Some 0 ->
  returns (dump_lines line l buf p) (fun buf' => length buf' = length buf
    /\ exists i, 0 <= i /\ buf' !! Z.to_nat i = Some 0).
Proof.
  induction l as [|a l IH]; intros buf p Hn Hw Hp Hb Hz; cbn [dump_lines].
  { split; [done|]. by exists p. }
  apply Forall_cons_iff in Hw as [Hd Hw].
  cbn [length] in Hb |- *. rewrite wr_list_snoc, res_bind_assoc.
  eapply returns_bind; [apply wr_list_len; lia|]. intros buf1 Hb1. cbn beta in Hb1.
  rewrite wr_ok, res_bind_ret by lia.
  eapply returns_mono; [apply IH; rewrite ?length_insert; auto; try lia|].
  { apply list_lookup_insert_eq. lia. }
  cbn beta. intros buf2 [H1 H2]. rewrite length_insert in H1. split; [congruence | done].
Qed.

(** A table of lines of at most [n] bytes that fit the message is sent. *)
Lemma app_dumptable_safe {os : OS} {K} empty (line : attribute K -> string) n client l w :
  0 <= n -> Forall (fun a => Zlen (bytes_of (line a)) <= n) l ->
  n * Zlen l < MAX_MRPD_CMDSZ -> Zlen (bytes_of empty) < MAX_MRPD_CMDSZ ->
  returns (app_dumptable empty line client l w) (fun '(_, w') => w_extends w w').
Proof.
  intros Hn Hw Hl He. unfold app_dumptable, malloc. unfold MAX_MRPD_CMDSZ in *.
  assert (H4 : w_extends w (step_tick (step_tick (step_tick (step_tick w))))).
  { do 3 (etransitivity; [apply w_extends_tick|]). apply w_extends_tick. }
  destruct (os_malloc _); cbn [negb]; [|apply w_extends_tick].
  destruct (negb _); [done|].
  apply returns_bind with (fun b => returns (cstr b 0) (fun _ => True)).
  { destruct l as [|a l].
    - rewrite wr_list_snoc. eapply returns_bind; [apply wr_list_len; rewrite ?length_replicate; lia|].
      intros b Hb. cbn beta in Hb. rewrite length_replicate in Hb.
      rewrite wr_ok by lia. cbn [returns].
      apply (cstr_ok _ 0 (Zlen (bytes_of empty))); rewrite ?length_insert; [lia..|].
      apply list_lookup_insert_eq. lia.
    - eapply returns_mono; [apply (dump_lines_safe _ n); auto; rewrite ?length_replicate;
        try lia; done|].
      intros buf [_ (i & Hi & Hz)]. by apply (cstr_ok buf 0 i). }
  intros buf Hs. cbn beta in Hs.
  eapply returns_bind; [apply Hs|]. intros s _. unfold mrpd_send_ctl_msg.
  destruct (_ =? _); cbn; [done|]. etransitivity; [apply H4 | apply w_extends_log].
Qed.

(** ** Replies and clients *)

(** The text of a control datagram is terminated in its 1500-byte buffer. *)
Definition cmd_buf_ok (buf : list Z) : Prop :=
  length buf = Z.to_nat MAX_MRPD_CMDSZ /\ buf !! 1499%nat = Some 0.

Lemma cmd_left_keeps min specs buf buflen i :
  length (cmd_left min specs buf buflen) = length buf
  /\ (buf !! i = Some 0 -> cmd_left min specs buf buflen !! i = Some 0).
Proof. unfold cmd_left. destruct (_ <? _); [done | apply parse_left_keeps]. Qed.

Lemma cmd_left_ok min specs buf buflen :
  cmd_buf_ok buf -> cmd_buf_ok (cmd_left min specs buf buflen).
Proof.
  intros [Hl Hz]. destruct (cmd_left_keeps min specs buf buflen 1499) as [H1 H2].
  split; [congruence | auto].
Qed.

Section Replies.
Context {os : OS} {K : Type} `{!ForcedTx K} (LI : list (attribute K) -> Prop) `{!ListInv LI}.
Implicit Types s : ast K.

(** What a command handler keeps: unlike an event it may change the clients. *)
Definition client_ok s s' : Prop :=
  app_ok LI s' /\ w_extends (wld s) (wld s') /\ (timers_ok os -> timers_inv s -> timers_inv s').

Lemma client_ok_ev s s1 s2 : client_ok s s1 -> app_post LI s1 s2 -> client_ok s s2.
Proof.
  intros (_ & Hw & H1) (H2 & Hm & H3). split; [done|].
  split; [etransitivity; [apply Hw | apply Hm] | auto].
Qed.

Lemma error_sz_ok sz prefix buf client s s0 :
  0 < Zlen buf -> buf !! (length buf - 1)%nat = Some 0 -> client_ok s0 s ->
  returns (cmd_error_sz sz prefix buf client s)
    (fun '(rc, s') => (rc = 0 \/ rc = -1) /\ client_ok s0 s').
Proof.
  intros Hl Hz Hok. unfold cmd_error_sz.
  eapply returns_bind; [apply cstr_nul_end; [lia | done]|]. intros t _.
  unfold mrpd_send_ctl_msg. destruct (_ =? _); cbn; (split; [by right|]).
  - by destruct s as [[? ? ?] ?].
  - eapply client_ok_ev; [done|]. apply app_post_world; [apply w_extends_log | apply Hok].
Qed.

Lemma error_ok prefix buf client s s0 :
  0 < Zlen buf -> buf !! (length buf - 1)%nat = Some 0 -> client_ok s0 s ->
  returns (cmd_error prefix buf client s)
    (fun '(rc, s') => (rc = 0 \/ rc = -1) /\ client_ok s0 s').
Proof. apply (error_sz_ok 12). Qed.

(** Changing the clients, and dropping attributes. *)
Lemma client_ok_clients cl s s0 :
  client_ok s0 s -> client_ok s0 (put_mst (Mst (set_clients cl (mrp_db (db s))) (wld s)) s).
Proof.
  intros ((Hl & Hst & Hf) & Hw & Ht). split; [done|]. split; [done|].
  intros Hto Hi. by destruct (Ht Hto Hi).
Qed.

Lemma client_ok_sublist l s s0 :
  sublist l (attrib_list (db s)) -> client_ok s0 s -> client_ok s0 (put_list l s).
Proof.
  intros Hs ((Hl & Hst & Hf) & Hw & Ht).
  split; [split; [by eapply li_sublist | done]|]. split; [done|].
  intros Hto Hi. destruct (Ht Hto Hi) as [H1 H2]. split; [done|]. by eapply sublist_Forall.
Qed.

Lemma client_add_ok client s :
  app_ok LI s ->
  let '(_, cl, w) := mrp_client_add (clients (mrp_db (db s))) (Some client) (wld s) in
  client_ok s (put_mst (Mst (set_clients cl (mrp_db (db s))) w) s).
Proof.
  intros (Hl & Hst & Hf). unfold mrp_client_add.
  destruct (client_lookup _ _); [|unfold malloc; destruct (negb _)];
    (split; [split; [|split]; done|]); (split; [|by intros _ [??]]);
    [reflexivity | apply w_extends_tick..].
Qed.

(** The events of a command: the attribute is freshly allocated. *)
Lemma event_ok (event : ast K -> res (Z * ast K)) s s0 :
  (forall s, app_ok LI s -> returns (event s) (fun '(_, s') => app_post LI s s')) ->
  client_ok s0 s ->
  returns (let '(ok, w) := malloc (wld s) in
           let s := put_mst (Mst (mrp_db (db s)) w) s in
           if negb ok then Ret (-1, s) else '(_, s) ← event s; Ret (0, s))
    (fun '(rc, s') => (rc = 0 \/ rc = -1) /\ client_ok s0 s').
Proof.
  intros Hev Hok. unfold malloc.
  assert (Hp : client_ok s0 (put_mst (Mst (mrp_db (db s)) (step_tick (wld s))) s)).
  { eapply client_ok_ev; [done|]. apply app_post_world; [apply w_extends_tick | apply Hok]. }
  destruct (os_malloc _); cbn [negb]; [|cbn; auto].
  eapply returns_bind; [apply Hev, Hp|].
  intros [rc s'] He. cbn. split; [auto|]. by eapply client_ok_ev.
Qed.

End Replies.
