(* ===== verification/Mvrp.v ===== *)
(** * mvrp.c: the Multiple VLAN Registration Protocol application

    The VLAN database and every operation on it: lookup, sorted insertion, the
    event function, PDU emission and reception, notifications, the control
    commands and garbage collection. *)

From S2P Require Import Prelude Os Mrp Attr.
From Stdlib Require Import ZArith Lia.
From stdpp Require Import base tactics list strings option.
Open Scope Z_scope.

(** [struct mvrp_attribute]: the key is the VID (a [uint16_t]). *)
Abbreviation mvrp_attribute := (attribute Z).
Abbreviation mvrp_ast := (ast Z).

#[export] Instance mvrp_forced_tx : ForcedTx Z := fun _ => false.

Definition MVRP_ETYPE : Z := 0x88F5.
Definition MVRP_PROT_VER : Z := 0.
Definition MVRP_VID_TYPE : Z := 1.
Definition MVRP_CUSTOMER_BRIDGE_ADDR : list Z := [0x01; 0x80; 0xC2; 0x00; 0x00; 0x21].
Definition BUFSIZE : nat := 128.

(** ** The attribute list *)

Fixpoint mvrp_lookup (l : list mvrp_attribute) (vid : Z) : option mvrp_attribute :=
  match l with
  | [] => None
  | a :: r => if key a =? vid then Some a else mvrp_lookup r vid
  end.

Fixpoint mvrp_add (rattrib : mvrp_attribute) (l : list mvrp_attribute)
  : list mvrp_attribute :=
  match l with
  | [] => [rattrib]
  | a :: r =>
      if key a <? key rattrib then
        match r with
        | [] => [a; rattrib]
        | _ :: _ => a :: mvrp_add rattrib r
        end
      else rattrib :: a :: r
  end.

(** [mvrp_merge]: copy the source address into the looked-up attribute. *)
Fixpoint mvrp_merge (rattrib : mvrp_attribute) (l : list mvrp_attribute)
  : list mvrp_attribute :=
  match l with
  | [] => []
  | a :: r => if key a =? key rattrib
              then set_macaddr (reg_macaddr (registrar rattrib)) a :: r
              else a :: mvrp_merge rattrib r
  end.

(** ** PDU emission *)

(** State of the vectorising loop: buffer, three-event array, its fill index,
    the index of the next vector byte, the number of values. *)
Record vec_st := VecSt {
  v_buf : list Z;
  v_evt : Z * Z * Z;
  v_evt_idx : Z;
  v_idx : Z;
  v_num : Z
}.

(** One event appended to the vector at offset [vp]: [vectevt[idx++] = e],
    flushing a full triple to the frame. *)
Definition vec_push (vp : Z) (e : Z) (v : vec_st) : res vec_st :=
  let evt := vect_set (v_evt v) (v_evt_idx v) e in
  let idx := v_evt_idx v + 1 in
  let num := u16 (v_num v + 1) in
  if 2 <? idx then
    buf ← wr (v_buf v) (vp + 2 + v_idx v) (vect_pack evt);
    Ret (VecSt buf (0, 0, 0) 0 (v_idx v + 1) num)
  else Ret (VecSt (v_buf v) evt idx (v_idx v) num).

(** The inner loop of [mvrp_emit_vidvectors]: coalesce the following
    attributes as long as they are to be transmitted and contiguous.  The flag
    is [true] for [goto oops]. *)
Fixpoint mvrp_vectorize (vp eof vid : Z) (l : list mvrp_attribute) (v : vec_st)
  : res (bool * list mvrp_attribute * vec_st) :=
  match l with
  | [] => Ret (false, [], v)
  | a :: r =>
      if negb (app_tx (applicant a)) then Ret (false, l, v)
      else
        let vid := u16 (vid + 1) in
        if negb (key a =? vid) then Ret (false, l, v)
        else
          let a' := clear_tx a in
          match pdu_event (app_sndmsg (applicant a)) (reg_mrp_state (registrar a)) with
          | None => Ret (true, a' :: r, v)
          | Some e =>
              v ← vec_push vp e v;
              if eof - MRPDU_ENDMARK_SZ <? vp + 2 + v_idx v
              then Ret (true, a' :: r, v)
              else '(oops, r', v) ← mvrp_vectorize vp eof vid r v;
                   Ret (oops, a' :: r', v)
          end
  end.

(** State of the outer loop: frame buffer, write pointer, vector pointer,
    pending LeaveAll flag, [attrib_found_flag]. *)
Record emit_st := EmitSt {
  e_buf : list Z;
  e_ptr : Z;
  e_vp : Z;
  e_lva : bool;
  e_found : bool
}.

(** The body of the outer loop for an attribute [a] that must be announced,
    with the attributes [r] that follow it. *)
Definition mvrp_emit_vector (eof : Z) (a : mvrp_attribute)
    (r : list mvrp_attribute) (e : emit_st)
  : res (bool * list mvrp_attribute * emit_st) :=
  let vp := e_vp e in
  buf ← wr (e_buf e) (vp + 2) (Z.shiftr (key a) 8);
  buf ← wr buf (vp + 3) (key a);
  match pdu_event (app_sndmsg (applicant a)) (reg_mrp_state (registrar a)) with
  | None => Ret (true, r, EmitSt buf (e_ptr e) vp (e_lva e) true)
  | Some ev =>
      '(oops, r', v) ← mvrp_vectorize vp eof (key a) r (VecSt buf (ev, 0, 0) 1 2 1);
      if oops : bool then Ret (true, r', EmitSt (v_buf v) (e_ptr e) vp (e_lva e) true)
      else
        '(buf, vectidx) ←
          (if 0 <? v_evt_idx v then
             buf ← wr (v_buf v) (vp + 2 + v_idx v) (vect_pack (v_evt v));
             Ret (buf, v_idx v + 1)
           else Ret (v_buf v, v_idx v));
        if eof - MRPDU_ENDMARK_SZ <? vp + 2 + vectidx
        then Ret (true, r', EmitSt buf (e_ptr e) vp (e_lva e) true)
        else
          let hdr := MRPDU_VECT_NUMVALUES (v_num v) in
          let hdr := if e_lva e then Z.lor hdr MRPDU_VECT_LVA_FLAG else hdr in
          buf ← wr16 buf vp hdr;
          let ptr := vp + 2 + vectidx in
          Ret (false, r', EmitSt buf ptr ptr false true)
  end.

(** The outer loop; the fuel is the number of attributes left. *)
Fixpoint mvrp_emit_loop (fuel : nat) (eof : Z) (l : list mvrp_attribute) (e : emit_st)
  : res (bool * list mvrp_attribute * emit_st) :=
  if negb (e_ptr e <? eof - 6 - MRPDU_ENDMARK_SZ) then Ret (false, l, e)
  else match l with
  | [] => Ret (false, [], e)
  | a :: r =>
      match fuel with
      | O => Fault OutOfFuel
      | S fuel =>
          if negb (app_tx (applicant a)) then
            '(oops, r', e) ← mvrp_emit_loop fuel eof r e; Ret (oops, a :: r', e)
          else
            let a' := clear_tx a in
            if decide (app_encode (applicant a) = MRP_ENCODE_OPTIONAL) then
              '(oops, r', e) ← mvrp_emit_loop fuel eof r e; Ret (oops, a' :: r', e)
            else
              '(oops, r', e) ← mvrp_emit_vector eof a r e;
              if oops : bool then Ret (true, a' :: r', e)
              else '(oops, r', e) ← mvrp_emit_loop fuel eof r' e;
                   Ret (oops, a' :: r', e)
      end
  end.

(** [mvrp_emit_vidvectors]: returns rc, bytes used, the attributes with their
    [tx] flags updated, and the frame. *)
Definition mvrp_emit_vidvectors (msgbuf : list Z) (base eof : Z) (lva flag : bool)
    (l : list mvrp_attribute) : res (Z * Z * list mvrp_attribute * list Z) :=
  if eof - 6 <? base then Ret (-1, 0, l, msgbuf)
  else
    buf ← wr msgbuf base MVRP_VID_TYPE;
    buf ← wr buf (base + 1) 2;
    '(oops, l', e) ←
      mvrp_emit_loop (length l) eof l (EmitSt buf base (base + 2) lva false);
    if oops : bool then Ret (-1, 0, l', e_buf e)
    else
      e ← (if negb (e_found e) && flag then
             buf ← wr16 (e_buf e) (e_vp e)
                     (Z.lor (MRPDU_VECT_NUMVALUES 0) MRPDU_VECT_LVA_FLAG);
             len ← rd buf (base + 1);
             let ptr := e_vp e + 2 + len in
             Ret (EmitSt buf ptr ptr (e_lva e) (e_found e))
           else Ret e);
      if e_vp e =? base + 2 then Ret (0, 0, l', e_buf e)
      else
        buf ← wr (e_buf e) (e_ptr e) 0;
        buf ← wr buf (e_ptr e + 1) 0;
        Ret (0, e_ptr e + 2 - base, l', buf).

(** ** Reception *)
Section Recv.
Context {S : Type} {sink : EventSink Z S}.

(** The loop over the (at most three) events of a vector byte. *)
Fixpoint mvrp_recv_values (src : list Z) (evts : list Z) (vid : Z) (s : S)
  : res (flow * Z * S) :=
  match evts with
  | [] => Ret (Continue, vid, s)
  | e :: evts =>
      if 0xFFF <? vid then mvrp_recv_values src evts vid s
      else
        let '(ok, s) := sink_malloc s in
        if negb ok then Ret (GotoOut, vid, s)
        else
          let attrib := set_macaddr src (Attr vid fresh_applicant fresh_registrar) in
          s ← match mrpdu_event e with
              | Some ev => sink_event ev (Some attrib) s
              | None => Ret s
              end;
          mvrp_recv_values src evts (u16 (vid + 1)) s
  end.

(** The loop [vectidx <= numvectorbytes + 2], [n] iterations left. *)
Fixpoint mvrp_recv_bytes (n : nat) (buf : list Z) (src : list Z)
    (vp vectidx vid numvalues : Z) (s : S) : res (flow * S) :=
  match n with
  | O => Ret (Continue, s)
  | Datatypes.S n =>
      b ← rd buf (vp + 2 + vectidx);
      let '(e0, e1, e2) := vect_3pack_decode b in
      let processed := if 3 <? numvalues then 3 else numvalues in
      '(f, vid, s) ← mvrp_recv_values src (take (Z.to_nat processed) [e0; e1; e2]) vid s;
      match f with
      | GotoOut => Ret (GotoOut, s)
      | Continue =>
          mvrp_recv_bytes n buf src vp (vectidx + 1) vid (u16 (numvalues - processed)) s
      end
  end.

(** [while (!((mrpdu_msg_ptr[0] == 0) && (mrpdu_msg_ptr[1] == 0)))]: the
    vectors of one message.  Returns the pointer past them and
    [saw_vlan_lva]. *)
Fixpoint mvrp_recv_vectors (fuel : nat) (buf : list Z) (src : list Z)
    (eof ptr : Z) (saw_lva : bool) (s : S) : res (flow * Z * bool * S) :=
  match fuel with
  | O => Fault OutOfFuel
  | Datatypes.S fuel =>
      b0 ← rd buf ptr;
      b1 ← rd buf (ptr + 1);
      if (b0 =? 0) && (b1 =? 0) then Ret (Continue, ptr, saw_lva, s)
      else
        hdr ← rd16 buf ptr;
        let numvalues := MRPDU_VECT_NUMVALUES hdr in
        '(saw_lva, s) ←
          (if MRPDU_VECT_LVA hdr && negb saw_lva
           then s ← sink_event MRP_EVENT_RLA None s; Ret (true, s)
           else Ret (saw_lva, s));
        if numvalues =? 0 then Ret (GotoOut, ptr, saw_lva, s)
        else if eof <=? ptr + 2 + numvalues / 3 then Ret (GotoOut, ptr, saw_lva, s)
        else
          hi ← rd buf (ptr + 2);
          lo ← rd buf (ptr + 3);
          let vid := Z.lor (Z.shiftl hi 8) lo in
          let numvectorbytes := num_3pack_bytes numvalues in
          '(f, s) ← mvrp_recv_bytes (Z.to_nat (numvectorbytes + 1)) buf src ptr 2 vid
                      numvalues s;
          match f with
          | GotoOut => Ret (GotoOut, ptr, saw_lva, s)
          | Continue =>
              mvrp_recv_vectors fuel buf src eof (ptr + 4 + numvectorbytes) saw_lva s
          end
  end.

(** The outer loop over messages, with the end-mark counter. *)
Fixpoint mvrp_recv_messages (fuel : nat) (buf : list Z) (src : list Z)
    (eof ptr endmarks : Z) (saw_lva : bool) (s : S) : res (flow * S) :=
  if negb (ptr <? eof - MRPDU_ENDMARK_SZ) then Ret (Continue, s)
  else match fuel with
  | O => Fault OutOfFuel
  | Datatypes.S fuel =>
      ty ← rd buf ptr;
      len ← rd buf (ptr + 1);
      if (ty =? 0) && (len =? 0) then
        if endmarks + 1 <? 2
        then mvrp_recv_messages fuel buf src eof (ptr + 2) (endmarks + 1) saw_lva s
        else Ret (Continue, s)
      else if ty =? MVRP_VID_TYPE then
        if negb (len =? 2) then Ret (GotoOut, s)
        else
          '(f, ptr, saw_lva, s) ←
            mvrp_recv_vectors (Z.to_nat MAX_FRAME_SIZE) buf src eof (ptr + 2) saw_lva s;
          match f with
          | GotoOut => Ret (GotoOut, s)
          | Continue => mvrp_recv_messages fuel buf src eof ptr 0 saw_lva s
          end
      else
        ver ← rd buf ETH_HDR_SZ;
        if MVRP_PROT_VER =? ver then Ret (GotoOut, s)
        else
          hdr ← rd16 buf (ptr + 2);
          let numvalues := MRPDU_VECT_NUMVALUES hdr in
          mvrp_recv_messages fuel buf src eof
            (ptr + 2 + (2 + len + (numvalues + 2) / 3)) 0 saw_lva s
  end.

(** [mvrp_recv_msg] on the buffer [mrpd_recvmsgbuf] filled with [bytes]
    bytes. *)
Definition mvrp_recv_frame (bytes : Z) (msgbuf : list Z) (s : S) : res (Z * S) :=
  if bytes <=? 0 then Ret (-1, s)
  else if bytes <? ETH_HDR_SZ + 1 + 2 then Ret (-1, s)
  else
    typelen ← rd16 msgbuf 12;
    if negb (MVRP_ETYPE =? typelen) then Ret (-1, s)
    else
      dest ← rd_list msgbuf 0 6;
      if negb (memcmp dest MVRP_CUSTOMER_BRIDGE_ADDR =? 0) then Ret (-1, s)
      else
        src ← rd_list msgbuf 6 6;
        let eof := MSG_LIST_OFF + bytes - ETH_HDR_SZ - 1 in
        '(f, s) ← mvrp_recv_messages (Z.to_nat MAX_FRAME_SIZE) msgbuf src eof
                    MSG_LIST_OFF 0 false s;
        match f with
        | Continue => Ret (0, s)
        | GotoOut => Ret (-1, s)
        end.

End Recv.

(** ** Transmission, notification, events *)
Section Ops.
Context {os : OS}.

(** The Ethernet header and protocol version [mvrp_txpdu] writes into the
    zeroed buffer. *)
Definition mvrp_frame_header (station : list Z) : res (list Z) :=
  let msgbuf := replicate (Z.to_nat MAX_FRAME_SIZE) 0 in
  buf ← wr16 msgbuf 12 MVRP_ETYPE;
  buf ← wr_list buf 0 MVRP_CUSTOMER_BRIDGE_ADDR;
  buf ← wr_list buf 6 station;
  wr buf ETH_HDR_SZ MVRP_PROT_VER.

Definition mvrp_txpdu (mvrp_socket : Z) (s : mvrp_ast) : res (Z * mvrp_ast) :=
  let '(ok, w) := malloc (wld s) in
  let s := put_mst (Mst (mrp_db (db s)) w) s in
  if negb ok then Ret (-1, s)
  else
    msgbuf ← mvrp_frame_header (STATION_ADDR w);
    let d := mrp_db (db s) in
    let lva_flag := lva_tx (lva d) in
    let d := if lva_flag
             then set_lva (Timer (lva_state (lva d)) false (lva_sndmsg (lva d))) d
             else d in
    let eof := MAX_FRAME_SIZE in
    '(rc, bytes, l, buf) ←
      mvrp_emit_vidvectors msgbuf MSG_LIST_OFF eof lva_flag
        (send_empty_LeaveAll_flag (db s)) (attrib_list (db s));
    let s := put_list l (put_mst (Mst d w) s) in
    if rc =? -1 then Ret (-1, s)
    else
      let ptr := MSG_LIST_OFF + bytes in
      if ptr =? MSG_LIST_OFF then Ret (-1, s)
      else if negb (ptr <? eof - MRPDU_ENDMARK_SZ) then Ret (-1, s)
      else
        buf ← wr buf ptr 0;
        buf ← wr buf (ptr + 1) 0;
        let '(sent, w) := mrpd_send mvrp_socket (take (Z.to_nat (ptr + 2)) buf) (wld s) in
        let s := put_mst (Mst (mrp_db (db s)) w) s in
        if sent <=? 0 then Ret (-1, s) else Ret (0, s).

Definition mvrp_notify_text (attrib : mvrp_attribute) (notify : mrp_notify)
  : option string :=
  let variant := snprintf BUFSIZE (fmt_04x (key attrib)) in
  let regsrc := snprintf BUFSIZE ("R=" +:+ fmt_mac (reg_macaddr (registrar attrib))) in
  let mrp_state := mrp_decode_state (registrar attrib) (applicant attrib) 8 in
  let line cmd := snprintf (Z.to_nat MAX_MRPD_CMDSZ - 1)
    (cmd +:+ " " +:+ variant +:+ " " +:+ regsrc +:+ " " +:+ mrp_state +:+ "
") in
  match notify with
  | MRP_NOTIFY_NEW => Some (line "VNE")
  | MRP_NOTIFY_JOIN => Some (line "VJO")
  | MRP_NOTIFY_LV => Some (line "VLE")
  | MRP_NOTIFY_NONE => None
  end.

Definition mvrp_send_notifications (attrib : mvrp_attribute) (notify : mrp_notify)
    (m : mst) : mst :=
  let '(ok, w) := malloc (m_w m) in
  if negb ok then Mst (m_db m) w
  else
    let '(ok1, w) := malloc w in
    let '(ok2, w) := malloc w in
    if negb (ok1 && ok2) then Mst (m_db m) w
    else match mvrp_notify_text attrib notify with
         | None => Mst (m_db m) w
         | Some msgbuf => Mst (m_db m) (send_all (clients (m_db m)) msgbuf w)
         end.

(** [mvrp_conditional_reclaim]: [None] when the node was unlinked. *)
Definition mvrp_conditional_reclaim (a : mvrp_attribute) (m : mst)
  : option mvrp_attribute * mst :=
  if reclaimable a then (None, mvrp_send_notifications a MRP_NOTIFY_LV m)
  else (Some a, m).

(** [mvrp_event], one definition per case of its [switch]. *)
Definition mvrp_event_lvatimer (mvrp_socket : Z) (s : mvrp_ast) : res mvrp_ast :=
  let '(_, m) := mrp_lvatimer_stop (get_mst s) in
  let '(_, m) := mrp_jointimer_stop m in
  let '(l, m) := each (attr_both_fsm MRP_EVENT_TXLA) (attrib_list (db s)) m in
  let '(_, m) := mrp_lvatimer_fsm MRP_EVENT_LVATIMER m in
  let '(_, m) := mrp_lvatimer_fsm MRP_EVENT_TX m in
  '(_, s) ← mvrp_txpdu mvrp_socket (Ast (AppDb (m_db m) l true) (m_w m));
  Ret (put_flag false s).

Definition mvrp_event_rla (s : mvrp_ast) : mvrp_ast :=
  let '(_, m) := mrp_jointimer_start (get_mst s) in
  let '(l, m) := each (attr_both_fsm MRP_EVENT_RLA) (attrib_list (db s)) m in
  let '(_, m) := mrp_lvatimer_fsm MRP_EVENT_RLA m in
  put_list l (put_mst m s).

Definition mvrp_event_tx (mvrp_socket : Z) (s : mvrp_ast) : res mvrp_ast :=
  let '(_, m) := mrp_jointimer_stop (get_mst s) in
  let '(l, count) := tx_loop (p2pmac (m_w m)) (attrib_list (db s)) in
  '(_, s) ← mvrp_txpdu mvrp_socket (put_list l (put_mst m s));
  Ret (if count =? 0 then s
       else let '(_, m) := mrp_jointimer_start (get_mst s) in put_mst m s).

Definition mvrp_event_lvtimer (s : mvrp_ast) : mvrp_ast :=
  let '(_, m) := mrp_lvtimer_stop (get_mst s) in
  let '(l, m) := each_opt (fun a m =>
      let '(a, m) := attr_registrar_fsm MRP_EVENT_LVTIMER a m in
      mvrp_conditional_reclaim a m) (attrib_list (db s)) m in
  put_list l (put_mst m s).

Definition mvrp_event_periodic (s : mvrp_ast) : mvrp_ast :=
  let m := get_mst s in
  let '(_, m) := match attrib_list (db s) with
                 | [] => (0, m)
                 | _ :: _ => mrp_jointimer_start m
                 end in
  let l := attr_applicant_fsm (p2pmac (m_w m)) MRP_EVENT_PERIODIC
           <$> attrib_list (db s) in
  put_list l (put_mst m s).

Definition mvrp_event_attribute (event : mrp_event) (rattrib : option mvrp_attribute)
    (s : mvrp_ast) : Z * mvrp_ast :=
  let '(_, m) := mrp_jointimer_start (get_mst s) in
  match rattrib with
  | None => (-1, put_mst m s)
  | Some r =>
      let l := match mvrp_lookup (attrib_list (db s)) (key r) with
               | None => mvrp_add r (attrib_list (db s))
               | Some _ => mvrp_merge r (attrib_list (db s))
               end in
      let '(l, m) := upd_first (Z.eqb (key r)) (fun a m =>
          let '(a, m) := attr_event event a m in
          mvrp_conditional_reclaim a m) l m in
      (0, put_list l (put_mst m s))
  end.

(** The local notifications that end [mvrp_event]. *)
Definition mvrp_notify_all (s : mvrp_ast) : mvrp_ast :=
  let '(l, m) := each (notify_step mvrp_send_notifications)
                      (attrib_list (db s)) (get_mst s) in
  put_list l (put_mst m s).

Definition mvrp_event (mvrp_socket : Z) (event : mrp_event)
    (rattrib : option mvrp_attribute) (s : mvrp_ast) : res (Z * mvrp_ast) :=
  match event with
  | MRP_EVENT_LVATIMER =>
      s ← mvrp_event_lvatimer mvrp_socket s; Ret (0, mvrp_notify_all s)
  | MRP_EVENT_RLA => Ret (0, mvrp_notify_all (mvrp_event_rla s))
  | MRP_EVENT_TX =>
      s ← mvrp_event_tx mvrp_socket s; Ret (0, mvrp_notify_all s)
  | MRP_EVENT_LVTIMER => Ret (0, mvrp_notify_all (mvrp_event_lvtimer s))
  | MRP_EVENT_PERIODIC => Ret (0, mvrp_notify_all (mvrp_event_periodic s))
  | MRP_EVENT_NEW | MRP_EVENT_JOIN | MRP_EVENT_RNEW | MRP_EVENT_RJOININ
  | MRP_EVENT_RJOINMT | MRP_EVENT_LV | MRP_EVENT_RIN | MRP_EVENT_RMT
  | MRP_EVENT_RLV =>
      let '(rc, s) := mvrp_event_attribute event rattrib s in
      if rc =? -1 then Ret (-1, s) else Ret (0, mvrp_notify_all s)
  | _ => Ret (0, mvrp_notify_all s)
  end.

(** The database as the sink of its own parser. *)
Definition mvrp_sink (mvrp_socket : Z) : EventSink Z mvrp_ast := {|
  sink_malloc := fun s => let '(ok, w) := malloc (wld s) in
                          (ok, put_mst (Mst (mrp_db (db s)) w) s);
  sink_event := fun e a s => '(_, s) ← mvrp_event mvrp_socket e a s; Ret s
|}.

Definition mvrp_recv_msg (mvrp_socket : Z) (r : recv_result) (s : mvrp_ast)
  : res (Z * mvrp_ast) :=
  let '(bytes, buf, w) := mrpd_recvmsgbuf r (wld s) in
  let s := put_mst (Mst (mrp_db (db s)) w) s in
  match buf with
  | None => Ret (-1, s)
  | Some msgbuf => mvrp_recv_frame (sink := mvrp_sink mvrp_socket) bytes msgbuf s
  end.

(** ** Garbage collection and clients *)

Definition mvrp_reclaim (s : option mvrp_ast) : Z * option mvrp_ast :=
  match s with
  | None => (0, None)
  | Some s =>
      let '(l, m) := each_opt mvrp_conditional_reclaim (attrib_list (db s)) (get_mst s) in
      (0, Some (put_list l (put_mst m s)))
  end.

Definition mvrp_bye (client : sockaddr_in) (s : option mvrp_ast) : option mvrp_ast :=
  match s with
  | None => None
  | Some s =>
      let d := mrp_db (db s) in
      let '(_, cl) := mrp_client_delete (clients d) (Some client) in
      Some (put_mst (Mst (set_clients cl d) (wld s)) s)
  end.

End Ops.
