(* ===== verification/MvrpEmit.v ===== *)
(** * What [mvrp_emit_vidvectors] writes

    A specification of the vectors an MVRP frame must carry, computed from the
    attribute list alone, and the proof that the emission loops never write
    outside the frame and produce exactly those bytes. *)

From S2P Require Import Prelude Os Mrp Attr AttrProps Mvrp.
From Stdlib Require Import ZArith Lia Sorted.
From stdpp Require Import base tactics list strings option.
Open Scope Z_scope.

(** ** Three-packed events *)

Fixpoint pack_full (es : list Z) : list Z :=
  match es with
  | a :: b :: c :: r => MRPDU_3PACK_ENCODE a b c :: pack_full r
  | _ => []
  end.

Fixpoint pack_rest (es : list Z) : list Z :=
  match es with
  | a :: b :: c :: r => pack_rest r
  | _ => es
  end.

Definition pad3 (r : list Z) : Z * Z * Z :=
  match r with
  | [] => (0, 0, 0)
  | [a] => (a, 0, 0)
  | a :: b :: _ => (a, b, 0)
  end.

(** The vector bytes of a sequence of events. *)
Definition pack_events (es : list Z) : list Z :=
  pack_full es ++ match pack_rest es with
                  | [] => []
                  | r => [vect_pack (pad3 r)]
                  end.

(** The bytes of one vector attribute: header, first value, vector. *)
Definition vector_bytes (lva : bool) (vid : Z) (es : list Z) : list Z :=
  let hdr := Zlen es + (if lva then 8192 else 0) in
  [hdr / 256; hdr mod 256; vid / 256; vid mod 256] ++ pack_events es.

(** ** The vectors an attribute list calls for *)

(** The event an attribute's message stands for. *)
Definition attr_pdu_event {K} (a : attribute K) : Z :=
  default 0 (pdu_event (app_sndmsg (applicant a)) (reg_mrp_state (registrar a))).

(** The maximal run of attributes to transmit that continues at [vid + 1]:
    their events, and the list with their [tx] flags cleared. *)
Fixpoint vid_run (vid : Z) (l : list mvrp_attribute) : list Z * list mvrp_attribute :=
  match l with
  | [] => ([], [])
  | a :: r =>
      if app_tx (applicant a) && (key a =? u16 (vid + 1)) then
        let '(es, r') := vid_run (key a) r in (attr_pdu_event a :: es, clear_tx a :: r')
      else ([], l)
  end.

(** All vectors of the list: each attribute that must be announced and is not
    part of an earlier run starts one. *)
Fixpoint vid_vectors (fuel : nat) (l : list mvrp_attribute) : list (Z * list Z) :=
  match fuel, l with
  | S fuel, a :: r =>
      if app_tx (applicant a) && bool_decide (app_encode (applicant a) = MRP_ENCODE_YES)
      then let '(es, r') := vid_run (key a) r in
           (key a, attr_pdu_event a :: es) :: vid_vectors fuel r'
      else vid_vectors fuel r
  | _, _ => []
  end.

(** The bytes of a list of vectors; the LeaveAll flag goes on the first. *)
Fixpoint vectors_bytes (lva : bool) (vs : list (Z * list Z)) : list Z :=
  match vs with
  | [] => []
  | (vid, es) :: vs => vector_bytes lva vid es ++ vectors_bytes false vs
  end.

(** ** Lemmas on packing *)

Lemma list_ind3 {A} (P : list A -> Prop) :
  P [] -> (forall a, P [a]) -> (forall a b, P [a; b]) ->
  (forall a b c l, P l -> P (a :: b :: c :: l)) -> forall l, P l.
Proof.
  intros H0 H1 H2 H3.
  fix IH 1. intros [|a [|b [|c l]]]; [done | done | done | apply H3, IH].
Qed.

Lemma pack_rest_short es : (length (pack_rest es) < 3)%nat.
Proof. induction es using list_ind3; cbn; lia. Qed.

Lemma pack_snoc es e :
  match pack_rest es with
  | [a; b] => pack_full (es ++ [e]) = pack_full es ++ [MRPDU_3PACK_ENCODE a b e]
              /\ pack_rest (es ++ [e]) = []
  | r => pack_full (es ++ [e]) = pack_full es /\ pack_rest (es ++ [e]) = r ++ [e]
  end.
Proof.
  induction es as [| | |a b c l IH] using list_ind3; cbn; try done.
  destruct (pack_rest l) as [|x [|y [|z r]]]; destruct IH as [-> ->]; done.
Qed.

Lemma pack_lengths es : Zlen es = 3 * Zlen (pack_full es) + Zlen (pack_rest es).
Proof. induction es using list_ind3; cbn [pack_full pack_rest length] in *; lia. Qed.

Lemma attr_pdu_event_range {K} (a : attribute K) :
  0 <= attr_pdu_event a <= 5.
Proof.
  unfold attr_pdu_event, pdu_event.
  destruct (app_sndmsg _); cbn; try case_decide; cbv; lia || done.
Qed.

Lemma pdu_event_attr (a : mvrp_attribute) :
  tx_wf a -> app_tx (applicant a) = true ->
  pdu_event (app_sndmsg (applicant a)) (reg_mrp_state (registrar a))
  = Some (attr_pdu_event a).
Proof.
  intros Hw Ht. specialize (Hw eq_refl Ht). unfold attr_pdu_event.
  by destruct (pdu_event _ _).
Qed.

(** ** The vectorising loop *)

(** [v] holds the events [es] of the vector at [vp], behind the bytes [pre]
    (which end with the first value) and over the bytes [rest]. *)
Definition vec_inv (pre rest : list Z) (vp : Z) (es : list Z) (v : vec_st) : Prop :=
  v_buf v = pre ++ pack_full es ++ drop (length (pack_full es)) rest
  /\ Zlen (pack_full es) <= Zlen rest
  /\ v_evt v = pad3 (pack_rest es)
  /\ v_evt_idx v = Zlen (pack_rest es)
  /\ vp + 2 + v_idx v = Zlen pre + Zlen (pack_full es)
  /\ v_num v = u16 (Zlen es)
  /\ Forall (fun e => 0 <= e <= 5) es.

Lemma pack_code_range a b c :
  0 <= a <= 5 -> 0 <= b <= 5 -> 0 <= c <= 5 -> 0 <= MRPDU_3PACK_ENCODE a b c < 256.
Proof. unfold MRPDU_3PACK_ENCODE. lia. Qed.

Lemma pack_rest_Forall (P : Z -> Prop) es : Forall P es -> Forall P (pack_rest es).
Proof.
  induction es as [| | |a b c l IH] using list_ind3; cbn; try done.
  intros Hf. inversion_clear Hf as [|?? ? Hf1]. inversion_clear Hf1 as [|?? ? Hf2].
  inversion_clear Hf2. auto.
Qed.

(** One byte of [rest] gives way to a byte written behind [l]. *)
Lemma wr_over pre l rest i b :
  i = Zlen pre + Zlen l -> Zlen l < Zlen rest ->
  wr (pre ++ l ++ drop (length l) rest) i b
  = Ret (pre ++ (l ++ [u8 b]) ++ drop (length (l ++ [u8 b])) rest).
Proof.
  intros -> Hl. destruct (drop (length l) rest) as [|x r] eqn:E.
  { apply (f_equal length) in E. rewrite length_drop in E. cbn in E. lia. }
  rewrite app_assoc, wr_app by (rewrite length_app; lia).
  rewrite length_app, <- drop_drop, E. by rewrite <- !app_assoc.
Qed.

Lemma vec_push_spec pre rest vp es v e :
  vec_inv pre rest vp es v -> Zlen (pack_full es) < Zlen rest -> 0 <= e <= 5 ->
  returns (vec_push vp e v) (vec_inv pre rest vp (es ++ [e])).
Proof.
  intros (Hb & Hf & He & Hi & Hx & Hn & Hes) Hfit Hev.
  pose proof (pack_snoc es e) as Hs. pose proof (pack_rest_short es) as Hr.
  pose proof (pack_rest_Forall _ _ Hes) as Hrf.
  assert (Hnum : u16 (v_num v + 1) = u16 (Zlen (es ++ [e])))
    by (rewrite Hn, length_app, Nat2Z.inj_add; unfold u16; by rewrite Zplus_mod_idemp_l).
  unfold vec_push. rewrite He, Hi, Hnum.
  destruct (pack_rest es) as [|a [|b [|c r]]] eqn:Hpr; cbn [length] in *; [| | |lia];
    destruct Hs as [Hs1 Hs2]; cbn [Z.of_nat pad3] in *; cbn -[wr u16 app length Z.of_nat].
  1,2: (split_and!; cbn [v_buf v_evt v_evt_idx v_idx v_num];
        rewrite ?Hs1, ?Hs2; auto; apply Forall_app; auto).
  inversion_clear Hrf as [|?? Ha Hrf']. inversion_clear Hrf' as [|?? Hb' _].
  rewrite Hb, wr_over by lia.
  rewrite u8_id by (by apply pack_code_range). cbn -[app length Z.of_nat u16].
  split_and!; cbn [v_buf v_evt v_evt_idx v_idx v_num];
    rewrite ?Hs1, ?Hs2, ?length_app; cbn [length pad3]; auto; try lia;
    apply Forall_app; auto.
Qed.

Lemma pack_full_mono es es' : Zlen (pack_full es) <= Zlen (pack_full (es ++ es')).
Proof.
  induction es as [| | |a b c l IH] using list_ind3; cbn [app pack_full length] in *; lia.
Qed.

(** Outcome of the inner loop: flags cleared, frame length kept, and unless it
    gave up ([oops]), the events of the run [vid_run] appended.  It gives up
    only when the vector does not fit. *)
Definition vectorize_post pre rest vp eof vid l es (bl : nat)
    (out : bool * list mvrp_attribute * vec_st) : Prop :=
  let '(oops, l', v') := out in
  Forall2 tx_cleared l l' /\ length (v_buf v') = bl
  /\ (oops = false ->
        exists es2, vid_run vid l = (es2, l') /\ vec_inv pre rest vp (es ++ es2) v'
                    /\ vp + 2 + v_idx v' <= eof - 2)
  /\ (Zlen pre + Zlen (pack_full (es ++ (vid_run vid l).1)) <= eof - 2 -> oops = false).

Lemma vec_inv_buf_len pre rest vp es v :
  vec_inv pre rest vp es v -> Zlen (v_buf v) = Zlen pre + Zlen rest.
Proof. intros (Hb & Hf & _). rewrite Hb, !length_app, length_drop. lia. Qed.

Lemma vectorize_spec pre rest vp eof l : forall vid v es,
  eof = Zlen pre + Zlen rest ->
  vec_inv pre rest vp es v -> vp + 2 + v_idx v <= eof - 2 -> Forall tx_wf l ->
  returns (mvrp_vectorize vp eof vid l v)
    (vectorize_post pre rest vp eof vid l es (length (v_buf v))).
Proof.
  induction l as [|a r IH]; intros vid v es Heof Hv Hfit Hwf; cbn [mvrp_vectorize].
  - split_and!; auto. exists []. by rewrite app_nil_r.
  - inversion_clear Hwf as [|?? Ha Hr].
    destruct (app_tx (applicant a)) eqn:Htx; cbn [negb andb].
    2: { split_and!; [apply tx_cleared_refl | done | intros _ | done].
         exists []. cbn [vid_run]. rewrite Htx, app_nil_r. auto. }
    destruct (Z.eqb_spec (key a) (u16 (vid + 1))) as [Hk|Hk]; cbn [negb].
    2: { split_and!; [apply tx_cleared_refl | done | intros _ | done].
         exists []. cbn [vid_run].
         rewrite Htx, (proj2 (Z.eqb_neq _ _) Hk), app_nil_r. auto. }
    rewrite (pdu_event_attr a Ha Htx).
    pose proof (vec_inv_buf_len _ _ _ _ _ Hv) as Hlen.
    pose proof Hv as (_ & _ & _ & _ & Hx & _).
    eapply returns_bind; [apply (vec_push_spec pre rest vp es); [done | lia |
      apply attr_pdu_event_range]|].
    intros v1 Hv1. pose proof (vec_inv_buf_len _ _ _ _ _ Hv1) as Hlen1.
    unfold MRPDU_ENDMARK_SZ. destruct (Z.ltb_spec (eof - 2) (vp + 2 + v_idx v1)) as [Hbig|Hok].
    + split_and!; [constructor; [by right | apply tx_cleared_refl] | lia | done |].
      destruct Hv1 as (_ & _ & _ & _ & Hx1 & _). cbn [vid_run].
      rewrite Htx, (proj2 (Z.eqb_eq _ _) Hk). cbn [andb].
      destruct (vid_run (key a) r) as [es2 r2]. cbn [fst].
      rewrite (cons_middle (attr_pdu_event a)), app_assoc.
      pose proof (pack_full_mono (es ++ [attr_pdu_event a]) es2). lia.
    + eapply returns_bind; [apply (IH (u16 (vid + 1)) v1 _ Heof Hv1 Hok Hr)|].
      intros [[oops r'] v'] (Hcl & Hl & Hrun & Hno). cbn [returns].
      unfold vectorize_post. cbn [vid_run]. rewrite <- Hk in *.
      rewrite Htx, Z.eqb_refl. cbn [andb].
      destruct (vid_run (key a) r) as [es2 r2] eqn:Er. cbn [fst] in *.
      split_and!; [constructor; [by right | done] | lia | |].
      * intros ->. destruct (Hrun eq_refl) as (es3 & Heq & Hinv & Hb). simplify_eq.
        eexists. split; [done|]. rewrite cons_middle, app_assoc. auto.
      * rewrite (cons_middle (attr_pdu_event a)), app_assoc. done.
Qed.

(** ** The outer loop *)

(** The frame holds the bytes [pre] up to the vector pointer, and zeros. *)
Definition emit_inv (pre : list Z) (eof : Z) (e : emit_st) : Prop :=
  Zlen pre = e_vp e
  /\ e_buf e = pre ++ replicate (Z.to_nat (eof - e_vp e)) 0
  /\ e_ptr e <= e_vp e <= e_ptr e + 2 /\ e_vp e <= eof - 2.

Definition emit_vector_post pre eof (a : mvrp_attribute) r (e : emit_st)
    (out : bool * list mvrp_attribute * emit_st) : Prop :=
  let '(oops, r', e') := out in
  let es := attr_pdu_event a :: (vid_run (key a) r).1 in
  Forall2 tx_cleared r r' /\ length (e_buf e') = length (e_buf e)
  /\ (oops = false ->
        r' = (vid_run (key a) r).2
        /\ emit_inv (pre ++ vector_bytes (e_lva e) (key a) es) eof e'
        /\ e_ptr e' = e_vp e' /\ e_lva e' = false /\ e_found e' = true
        /\ Zlen es < 8192)
  /\ (e_vp e + 4 + Zlen (pack_events es) <= eof - 2 -> oops = false).

Lemma pack_events_lengths es :
  Zlen (pack_events es)
  = Zlen (pack_full es) + (if decide (pack_rest es = []) then 0 else 1).
Proof.
  unfold pack_events. rewrite length_app.
  destruct (pack_rest es); case_decide; cbn; (lia || done).
Qed.

(** The trailer: a partly filled triple goes to the next byte. *)
Lemma vec_trailer pre rest vp es v :
  vec_inv pre rest vp es v -> Zlen (pack_full es) < Zlen rest ->
  returns (if 0 <? v_evt_idx v then
             buf ← wr (v_buf v) (vp + 2 + v_idx v) (vect_pack (v_evt v));
             Ret (buf, v_idx v + 1)
           else Ret (v_buf v, v_idx v))
    (fun '(buf, idx) =>
       buf = pre ++ pack_events es ++ drop (length (pack_events es)) rest
       /\ vp + 2 + idx = Zlen pre + Zlen (pack_events es)).
Proof.
  intros (Hb & Hf & He & Hi & Hx & Hn & Hes) Hfit.
  pose proof (pack_rest_Forall _ _ Hes) as Hrf.
  pose proof (pack_events_lengths es) as Hpl. unfold pack_events in *. rewrite He, Hi.
  destruct (pack_rest es) as [|a r] eqn:Hr; case_decide; try done.
  - cbn [length Z.of_nat Z.ltb Z.compare returns]. rewrite app_nil_r in *. split; [done | lia].
  - rewrite (proj2 (Z.ltb_lt _ _)) by (cbn [length]; lia).
    rewrite Hb, wr_over by lia. cbn [returns res_bind].
    inversion_clear Hrf as [|?? Ha Hrf'].
    rewrite u8_id; [split; [done | lia]|].
    destruct r as [|b r]; cbn [pad3 vect_pack].
    + apply pack_code_range; lia.
    + inversion_clear Hrf'. apply pack_code_range; lia.
Qed.

Lemma emit_vector_spec pre eof a r e :
  emit_inv pre eof e -> e_ptr e < eof - 8 -> eof <= MAX_FRAME_SIZE ->
  tx_wf a -> app_tx (applicant a) = true -> 0 <= key a < 65536 -> Forall tx_wf r ->
  returns (mvrp_emit_vector eof a r e) (emit_vector_post pre eof a r e).
Proof.
  intros (Hp & Hb & Hpv & Hve) Hroom Heof Ha Htx Hk Hr. unfold MAX_FRAME_SIZE in Heof.
  unfold mvrp_emit_vector. rewrite Hb, (pdu_event_attr a Ha Htx).
  assert (Hlen0 : Zlen (e_buf e) = eof)
    by (rewrite Hb, length_app, length_replicate; lia).
  assert (Hz : pre ++ replicate (Z.to_nat (eof - e_vp e)) 0
    = (pre ++ [0; 0]) ++ 0 :: 0 :: replicate (Z.to_nat (eof - e_vp e - 4)) 0).
  { rewrite <- app_assoc. do 4 rewrite replicate_cons_Z by lia. cbn [app].
    do 6 f_equal. lia. }
  rewrite Hz, wr_app by (rewrite length_app; cbn; lia). rewrite res_bind_ret.
  rewrite (cons_middle (u8 _)), app_assoc, wr_app
    by (rewrite !length_app; cbn; lia). rewrite res_bind_ret.
  rewrite Z.shiftr_div_pow2 by lia. change (2 ^ 8) with 256.
  rewrite (u8_id (key a / 256)) by zdm. unfold u8.
  set (pre4 := ((pre ++ [0; 0]) ++ [key a / 256]) ++ [key a mod 256]).
  set (zeros := replicate (Z.to_nat (eof - e_vp e - 4)) 0).
  assert (Hp4l : Zlen pre4 = e_vp e + 4)
    by (unfold pre4; rewrite !length_app; cbn [length]; lia).
  assert (Hzl : Zlen zeros = eof - e_vp e - 4) by (unfold zeros; rewrite length_replicate; lia).
  assert (Hv0 : vec_inv pre4 zeros (e_vp e) [attr_pdu_event a]
    (VecSt (((pre ++ [0; 0]) ++ [key a / 256]) ++ key a mod 256
              :: zeros) (attr_pdu_event a, 0, 0) 1 2 1)).
  { split_and!; cbn [v_buf v_evt v_evt_idx v_idx v_num pack_full pack_rest pad3 length app drop];
      try done; try lia.
    - unfold pre4. by rewrite <- !app_assoc.
    - repeat constructor; apply attr_pdu_event_range. }
  eapply returns_bind;
    [apply (vectorize_spec pre4 zeros _ eof _ _ _ _ ltac:(lia) Hv0); [cbn; lia | done]|].
  intros [[oops r'] v] (Hcl & Hl & Hrun & Hno).
  assert (Hl' : length (v_buf v) = length (e_buf e)).
  { rewrite Hl. pose proof (vec_inv_buf_len _ _ _ _ _ Hv0). lia. }
  cbn [app] in *. pose proof (pack_events_lengths
    (attr_pdu_event a :: (vid_run (key a) r).1)) as Hpl.
  destruct oops; cbn beta iota.
  { split_and!; auto; [done|]. intros Hfit. apply Hno.
    destruct (decide _) in Hpl; lia. }
  destruct (Hrun eq_refl) as (es2 & Heq & Hinv & Hbound).
  rewrite Heq in Hpl, Hno. cbn [fst] in *.
  pose proof (vec_inv_buf_len _ _ _ _ _ Hinv) as Hbl.
  pose proof Hinv as (_ & Hpf & _ & _ & Hx & Hn & Hes).
  eapply returns_bind; [apply (vec_trailer _ _ _ _ _ Hinv); lia|].
  intros [buf idx] [-> Hidx].
  set (es := attr_pdu_event a :: es2) in *.
  pose proof (pack_lengths es) as Hpk. pose proof (pack_rest_short es) as Hsh.
  assert (Hes8 : 0 <= Zlen es < 8192) by lia.
  assert (Hd : drop (length (pack_events es)) zeros
    = replicate (Z.to_nat (eof - e_vp e - 4 - Zlen (pack_events es))) 0)
    by (unfold zeros; rewrite drop_replicate; f_equal; lia).
  rewrite Hd. clear Hd.
  assert (Hlb : length (pre4 ++ pack_events es ++ replicate
      (Z.to_nat (eof - e_vp e - 4 - Zlen (pack_events es))) 0) = length (e_buf e)).
  { rewrite !length_app, length_replicate. destruct (decide _) in Hpl; lia. }
  unfold MRPDU_ENDMARK_SZ. destruct (Z.ltb_spec (eof - 2) (e_vp e + 2 + idx)).
  { unfold emit_vector_post. rewrite Heq. cbn [fst snd e_buf]. fold es.
    split_and!; auto; [done | lia]. }
  rewrite Hn, u16_id, numvalues_id by lia.
  replace (if e_lva e then Z.lor (Zlen es) MRPDU_VECT_LVA_FLAG else Zlen es)
    with (Zlen es + (if e_lva e then 8192 else 0))
    by (destruct (e_lva e); rewrite ?lva_flag_or; lia).
  assert (Hp4' : pre4 = pre ++ 0 :: 0 :: [key a / 256; key a mod 256])
    by (unfold pre4; by rewrite <- !app_assoc).
  rewrite Hp4', <- app_assoc. cbn [app].
  rewrite wr16_app by (destruct (e_lva e); lia). rewrite res_bind_ret.
  unfold emit_vector_post, emit_inv. rewrite Heq. fold es. cbn [returns fst snd e_buf e_vp e_ptr e_lva e_found].
  unfold vector_bytes. rewrite Hp4', <- app_assoc in Hlb. cbn [app] in *.
  split_and!; auto.
  - rewrite <- Hlb, !length_app. done.
  - intros _. split_and!; auto; try lia.
    + rewrite !length_app. cbn [length]. fold es. lia.
    + rewrite Hidx. fold es. rewrite <- !app_assoc. cbn [app]. do 7 f_equal. lia.
    + fold es. lia.
Qed.

(** Well-formed attribute lists, as far as emission is concerned. *)
Definition emit_wf (a : mvrp_attribute) : Prop := tx_wf a /\ 0 <= key a < 65536.

Lemma tx_cleared_wf l l' :
  Forall2 tx_cleared l l' -> Forall emit_wf l -> Forall emit_wf l'.
Proof.
  induction 1 as [|a b l l' [-> | ->] _ IH]; intros Hf; [done| |];
    inversion_clear Hf as [|?? [Ha Hk] Hl]; constructor; auto; by split.
Qed.

Lemma vector_bytes_len lva vid es :
  Zlen (vector_bytes lva vid es) = 4 + Zlen (pack_events es).
Proof. unfold vector_bytes. rewrite length_app. cbn [length]. lia. Qed.

Lemma vectors_bytes_len lva lva' vs :
  length (vectors_bytes lva vs) = length (vectors_bytes lva' vs).
Proof.
  destruct vs as [|[vid es] vs]; [done|].
  cbn [vectors_bytes]. by rewrite !length_app.
Qed.

(** Outcome of the outer loop: the frame holds the bytes of a prefix [vs] of
    the vectors the list calls for; if the frame is not full, it holds all of
    them and no [tx] flag is left set.  The loop gives up ([oops]) only when
    the vectors do not fit. *)
Definition emit_loop_post (n : nat) pre eof (l : list mvrp_attribute) (e : emit_st)
    (out : bool * list mvrp_attribute * emit_st) : Prop :=
  let '(oops, l', e') := out in
  Forall2 tx_cleared l l' /\ length (e_buf e') = length (e_buf e)
  /\ (oops = false -> exists vs rest,
        vid_vectors n l = vs ++ rest
        /\ Forall (fun v => Zlen v.2 < 8192) vs
        /\ emit_inv (pre ++ vectors_bytes (e_lva e) vs) eof e'
        /\ (if decide (vs = []) then e' = e
            else e_ptr e' = e_vp e' /\ e_found e' = true)
        /\ (e_ptr e' < eof - 8 ->
             rest = [] /\ Forall (fun a => app_tx (applicant a) = false) l'))
  /\ (e_vp e + Zlen (vectors_bytes false (vid_vectors n l)) <= eof - 2 -> oops = false).

(** Stopping at once: the list is exhausted or the frame is full. *)
Lemma emit_loop_stop n pre eof l e :
  emit_inv pre eof e -> (e_ptr e < eof - 8 -> l = []) ->
  emit_loop_post n pre eof l e (false, l, e).
Proof.
  intros Hi Hfull. split_and!; auto using tx_cleared_refl. intros _.
  exists [], (vid_vectors n l). cbn [vectors_bytes]. rewrite app_nil_r.
  split_and!; auto; [by case_decide|].
  intros Hp. rewrite (Hfull Hp). split; [by destruct n | done].
Qed.

Lemma emit_loop_spec eof n : forall pre l e,
  (length l <= n)%nat -> emit_inv pre eof e -> eof <= MAX_FRAME_SIZE ->
  Forall emit_wf l ->
  returns (mvrp_emit_loop n eof l e) (emit_loop_post n pre eof l e).
Proof.
  induction n as [|n IH]; intros pre l e Hn Hinv Heof Hwf.
  - destruct l; [|cbn in Hn; lia]. cbn [mvrp_emit_loop].
    destruct (negb _); by apply emit_loop_stop.
  - cbn [mvrp_emit_loop]. unfold MRPDU_ENDMARK_SZ.
    destruct (Z.ltb_spec (e_ptr e) (eof - 6 - 2)) as [Hroom|Hfull]; cbn [negb].
    2: { apply emit_loop_stop; [done | lia]. }
    destruct l as [|a r]; [by apply emit_loop_stop|].
    inversion_clear Hwf as [|?? [Ha Hk] Hr]. cbn [length] in Hn.
    assert (Hskip : forall a', tx_cleared a a' -> app_tx (applicant a') = false ->
      vid_vectors (S n) (a :: r) = vid_vectors n r ->
      returns ('(oops, r', e0) ← mvrp_emit_loop n eof r e; Ret (oops, a' :: r', e0))
        (emit_loop_post (S n) pre eof (a :: r) e)).
    { intros a' Hc Ht' Hv. eapply returns_bind; [apply (IH pre); auto; lia|].
      intros [[oops r'] e'] (Hcl & Hl & Hs & Hno).
      unfold emit_loop_post. rewrite Hv. split_and!; auto.
      intros Ho. destruct (Hs Ho) as (vs & rest & Hvs & H8 & Hi & He & Hall).
      exists vs, rest. split_and!; auto.
      intros Hp. destruct (Hall Hp). auto. }
    destruct (app_tx (applicant a)) eqn:Htx; cbn [negb].
    2: { apply Hskip; [by left | done |]. cbn. by rewrite Htx. }
    destruct (decide (app_encode (applicant a) = MRP_ENCODE_OPTIONAL)) as [Hen|Hen].
    { apply Hskip; [by right | done |]. cbn. by rewrite Htx, Hen. }
    assert (Hyes : app_encode (applicant a) = MRP_ENCODE_YES)
      by (by destruct (app_encode (applicant a))).
    eapply returns_bind; [apply (emit_vector_spec pre); auto; [lia|]|].
    { eapply Forall_impl; [|apply Hr]. intros y Hy. apply Hy. }
    intros [[oops r'] e1] (Hcl & Hl & Hok & Hno).
    assert (Hvv : vid_vectors (S n) (a :: r)
      = (key a, attr_pdu_event a :: (vid_run (key a) r).1)
        :: vid_vectors n (vid_run (key a) r).2).
    { cbn [vid_vectors]. rewrite Htx, Hyes, bool_decide_eq_true_2 by done.
      by destruct (vid_run (key a) r). }
    unfold emit_loop_post. rewrite Hvv. cbn [vectors_bytes].
    rewrite length_app, Nat2Z.inj_add, vector_bytes_len.
    destruct oops.
    { split_and!; auto; [|done|]; [constructor; [by right | done]|].
      intros Hfit. apply Hno. lia. }
    destruct (Hok eq_refl) as (Hr' & Hinv1 & Hpv & Hlva & Hfound & H8).
    pose proof (tx_cleared_wf _ _ Hcl Hr) as Hwf'.
    pose proof (Forall2_length Hcl) as Hlr.
    eapply returns_bind; [apply (IH _ r' e1 ltac:(lia) Hinv1 Heof Hwf')|].
    intros [[oops r''] e2] (Hcl2 & Hl2 & Hs & Hno2). cbn [returns]. rewrite <- Hr'.
    split_and!; [constructor; [by right | by eapply tx_cleared_trans] | congruence | |].
    2: { intros Hfit. apply Hno2. destruct Hinv as (Hp0 & _), Hinv1 as (Hp1 & _).
         rewrite length_app, Nat2Z.inj_add, vector_bytes_len in Hp1. lia. }
    intros Ho. destruct (Hs Ho) as (vs & rest & Hvs & H8s & Hi & He & Hall).
    exists ((key a, attr_pdu_event a :: (vid_run (key a) r).1) :: vs), rest.
    split_and!; [by rewrite Hvs | by constructor | | |].
    + cbn [vectors_bytes]. rewrite app_assoc. by rewrite Hlva in Hi.
    + rewrite decide_False by done. case_decide; [by subst | done].
    + intros Hp. destruct (Hall Hp). auto.
Qed.

(** ** The message and the frame *)

(** The VID message for the vectors [vs]: an empty LeaveAll vector stands in
    when there is none and one is asked for. *)
Definition vid_message (lva flag : bool) (vs : list (Z * list Z)) : list Z :=
  match vs with
  | [] => if flag then [1; 2; 32; 0; 0; 0; 0; 0] else []
  | _ :: _ => [1; 2] ++ vectors_bytes lva vs ++ [0; 0]
  end.

Definition vidvectors_post (pre : list Z) (base eof : Z) (lva flag : bool)
    (l : list mvrp_attribute) (out : Z * Z * list mvrp_attribute * list Z) : Prop :=
  let '(rc, bytes, l', buf) := out in
  Forall2 tx_cleared l l' /\ Zlen buf = eof
  /\ (rc = -1 \/ rc = 0 /\ exists vs rest,
        vid_vectors (length l) l = vs ++ rest
        /\ Forall (fun v => Zlen v.2 < 8192) vs
        /\ bytes = Zlen (vid_message lva flag vs) /\ base + bytes <= eof
        /\ (bytes <> 0 -> buf = pre ++ vid_message lva flag vs
                               ++ replicate (Z.to_nat (eof - base - bytes)) 0)
        /\ (base + bytes < eof - 6 ->
             rest = [] /\ Forall (fun a => app_tx (applicant a) = false) l'))
  /\ (base + 4 + Zlen (vectors_bytes false (vid_vectors (length l) l)) <= eof -> rc = 0).

Lemma emit_inv_type pre base eof :
  Zlen pre = base -> 0 <= base -> base + 8 < eof -> forall lva,
  exists buf, (buf ← wr (pre ++ replicate (Z.to_nat (eof - base)) 0) base MVRP_VID_TYPE;
               wr buf (base + 1) 2) = Ret buf
  /\ emit_inv (pre ++ [1; 2]) eof (EmitSt buf base (base + 2) lva false).
Proof.
  intros Hp Hb Hroom lva. do 2 rewrite replicate_cons_Z by lia.
  rewrite wr_app by lia. rewrite res_bind_ret.
  rewrite (cons_middle (u8 _)), app_assoc, wr_app by (rewrite length_app; cbn; lia).
  eexists. split; [done|].
  split_and!; cbn [e_vp e_buf e_ptr]; try lia; [rewrite length_app; cbn; lia|].
  rewrite <- !app_assoc. cbn [app]. change (u8 MVRP_VID_TYPE) with 1.
  change (u8 2) with 2. do 4 f_equal. lia.
Qed.

(** The empty LeaveAll vector: a header with no value, then the zero first
    value. *)
Lemma emit_empty_lva pre eof e len :
  emit_inv (pre ++ [1; 2]) eof e -> e_vp e + 8 < eof -> len = Zlen pre + 1 ->
  returns (buf ← wr16 (e_buf e) (e_vp e)
                   (Z.lor (MRPDU_VECT_NUMVALUES 0) MRPDU_VECT_LVA_FLAG);
           len ← rd buf len;
           let ptr := e_vp e + 2 + len in
           Ret (EmitSt buf ptr ptr (e_lva e) (e_found e)))
    (fun e' => e_ptr e' = e_vp e' /\ e_vp e' = e_vp e + 4
               /\ emit_inv (pre ++ [1; 2] ++ [32; 0; 0; 0]) eof e').
Proof.
  intros (Hp & Hb & Hpv & Hve) Hroom ->.
  change (Z.lor _ _) with 8192. rewrite Hb. do 2 rewrite replicate_cons_Z by lia.
  rewrite wr16_app by lia. rewrite res_bind_ret.
  replace ((pre ++ [1; 2]) ++ 8192 / 256 :: 8192 mod 256
      :: replicate (Z.to_nat (eof - e_vp e - 1 - 1)) 0)
    with ((pre ++ [1]) ++ 2 :: 32 :: 0 :: replicate (Z.to_nat (eof - e_vp e - 1 - 1)) 0)
    by (by rewrite <- !app_assoc).
  rewrite rd_app by (rewrite length_app; cbn; lia). rewrite res_bind_ret.
  rewrite length_app in Hp. cbn in Hp.
  cbn [returns]. split; [done|]. split; [cbn; lia|].
  split_and!; cbn [e_ptr e_vp e_buf]; try lia;
    [rewrite length_app; cbn [length app]; lia|].
  do 2 rewrite replicate_cons_Z by lia.
  rewrite <- !app_assoc. cbn [app]. do 8 f_equal. lia.
Qed.

Lemma emit_vidvectors_spec pre base eof lva flag l :
  Zlen pre = base -> 0 <= base -> base + 16 < eof -> eof <= MAX_FRAME_SIZE ->
  Forall emit_wf l ->
  returns (mvrp_emit_vidvectors (pre ++ replicate (Z.to_nat (eof - base)) 0)
             base eof lva flag l)
    (vidvectors_post pre base eof lva flag l).
Proof.
  intros Hp Hb Hroom Heof Hwf. unfold mvrp_emit_vidvectors.
  destruct (Z.ltb_spec (eof - 6) base); [lia|].
  destruct (emit_inv_type pre base eof Hp Hb ltac:(lia) lva) as (buf & Hw & Hinv).
  destruct (wr _ base MVRP_VID_TYPE) as [buf0|] eqn:Hw0; [|done].
  rewrite res_bind_ret. change (wr buf0 (base + 1) 2 = Ret buf) in Hw.
  rewrite Hw, res_bind_ret.
  eapply returns_bind; [by apply (emit_loop_spec eof (length l) (pre ++ [1; 2]))|].
  intros [[oops l'] e] (Hcl & Hl & Hs & Hno).
  cbn [e_vp] in Hno.
  assert (Hbl : Zlen (e_buf e) = eof).
  { rewrite Hl. destruct Hinv as (Hip & Hib & _ & Hiv). cbn [e_buf e_vp] in *.
    rewrite Hib, length_app, length_replicate. lia. }
  destruct oops.
  { split_and!; auto. intros Hfit. discriminate Hno. lia. }
  destruct (Hs eq_refl) as (vs & rest & Hvs & H8 & Hi & He & Hall). clear Hs.
  case_decide as Hnil.
  - subst vs e. cbn [e_found negb andb e_vp e_buf e_ptr vectors_bytes e_lva] in *.
    rewrite app_nil_r in Hi. destruct (Hall ltac:(lia)) as [-> Htx].
    destruct flag; cbn [andb].
    + eapply returns_bind; [apply (emit_empty_lva pre eof (EmitSt buf base (base + 2) lva false)
        (base + 1)); cbn [e_vp]; [done | lia | lia]|].
      intros e (Hpv & Hv & Hip & Hib & _ & _). cbn [e_vp] in Hv.
      rewrite (proj2 (Z.eqb_neq _ _)) by lia. rewrite Hpv, Hib.
      do 2 rewrite replicate_cons_Z by lia. rewrite wr_app by lia. rewrite res_bind_ret.
      rewrite (cons_middle (u8 _)), app_assoc, wr_app
        by (rewrite length_app; cbn [length]; lia). rewrite res_bind_ret.
      rewrite <- !app_assoc. cbn [app returns].
      split_and!; auto.
      * rewrite !length_app in *. cbn [length] in *. rewrite length_replicate. lia.
      * right. split; [done|]. exists [], []. cbn [vid_message length].
        split_and!; auto; try lia. intros _. cbn [app]. do 10 f_equal. lia.
    + rewrite res_bind_ret. cbn [e_vp e_buf]. rewrite Z.eqb_refl. cbn [returns]. split_and!; auto. right. split; [done|].
      exists [], []. cbn. split_and!; auto; lia.
  - destruct He as [Hpv ->]. cbn [negb andb]. rewrite res_bind_ret.
    destruct Hi as (Hip & Hib & _ & Hve). cbn [e_lva] in *.
    assert (Hvl : 0 < Zlen (vectors_bytes lva vs))
      by (destruct vs as [|[v es] vs]; [done|]; cbn [vectors_bytes vector_bytes app length]; lia).
    rewrite !length_app in Hip. cbn [length] in Hip.
    rewrite (proj2 (Z.eqb_neq _ _)) by lia. rewrite Hpv, Hib.
    do 2 rewrite replicate_cons_Z by lia.
    rewrite wr_app by (rewrite !length_app; cbn [length]; lia). rewrite res_bind_ret.
    rewrite (cons_middle (u8 _)), app_assoc, wr_app
      by (rewrite !length_app; cbn [length]; lia). rewrite res_bind_ret. cbn [returns].
    assert (Hm : vid_message lva flag vs = [1; 2] ++ vectors_bytes lva vs ++ [0; 0])
      by (by destruct vs).
    split_and!; auto; [rewrite !length_app; cbn [length];
      rewrite length_replicate; lia|].
    right. split; [done|]. exists vs, rest. rewrite Hm, !length_app. cbn [length].
    split_and!; auto; try lia.
    + intros _. rewrite <- !app_assoc. cbn [app]. do 4 f_equal.
      change (u8 0) with 0. do 3 f_equal. lia.
    + intros. apply Hall. lia.
Qed.

(** ** The frame [mvrp_txpdu] sends *)

Definition mvrp_header (station : list Z) : list Z :=
  MVRP_CUSTOMER_BRIDGE_ADDR ++ station ++ [136; 245; 0].

Definition mvrp_frame (station : list Z) (lva flag : bool) (vs : list (Z * list Z))
  : list Z :=
  mvrp_header station ++ vid_message lva flag vs ++ [0; 0].

Lemma mvrp_header_len station :
  length station = 6%nat -> Zlen (mvrp_header station) = 15.
Proof. intros H. unfold mvrp_header. rewrite !length_app, H. done. Qed.

(** The Ethernet header and the protocol version, as the three applications
    write them into a zeroed frame. *)
Definition eth_header (addr station : list Z) (etype : Z) : list Z :=
  addr ++ station ++ [etype / 256; etype mod 256; 0].

Lemma eth_header_spec addr station etype :
  length addr = 6%nat -> bytes_ok addr -> length station = 6%nat -> bytes_ok station ->
  0 <= etype < 65536 ->
  (buf ← wr16 (replicate (Z.to_nat MAX_FRAME_SIZE) 0) 12 etype;
   buf ← wr_list buf 0 addr;
   buf ← wr_list buf 6 station;
   wr buf ETH_HDR_SZ 0)
  = Ret (eth_header addr station etype ++ replicate (Z.to_nat (MAX_FRAME_SIZE - 15)) 0).
Proof.
  intros Ha Hab Hl Hb He.
  change (Z.to_nat MAX_FRAME_SIZE) with (12 + (3 + Z.to_nat (MAX_FRAME_SIZE - 15)))%nat.
  rewrite !replicate_add. set (rest := replicate (Z.to_nat _) 0).
  change (replicate 3 0 ++ rest) with (0 :: 0 :: 0 :: rest).
  rewrite (wr16_app (replicate 12 0)) by done. rewrite res_bind_ret.
  change (replicate 12 0 ++ ?l) with (replicate 6 0 ++ replicate 6 0 ++ l).
  pose proof (fun r => wr_list_app [] (replicate 6 0) r 0 addr eq_refl (eq_sym Ha) Hab) as Hw.
  cbn [app] in Hw. rewrite Hw, res_bind_ret.
  rewrite (wr_list_app addr (replicate 6 0)) by (auto; rewrite ?Ha, ?Hl; done).
  rewrite res_bind_ret. unfold eth_header.
  change (?a :: ?b :: 0 :: rest) with ([a; b] ++ 0 :: rest).
  rewrite (app_assoc station), (app_assoc addr), wr_app.
  - by rewrite <- !app_assoc.
  - rewrite !length_app, Ha, Hl. done.
Qed.

Lemma frame_header_spec station :
  length station = 6%nat -> bytes_ok station ->
  mvrp_frame_header station
  = Ret (mvrp_header station ++ replicate (Z.to_nat (MAX_FRAME_SIZE - 15)) 0).
Proof.
  intros Hl Hb. apply (eth_header_spec MVRP_CUSTOMER_BRIDGE_ADDR station MVRP_ETYPE); try done.
  repeat constructor; done.
Qed.

(** [database->lva.tx = 0] *)
Definition lva_sent (d : mrp_database) : mrp_database :=
  set_lva (Timer (lva_state (lva d)) false (lva_sndmsg (lva d))) d.

Lemma lva_sent_if d :
  (if lva_tx (lva d) then set_lva (Timer (lva_state (lva d)) false (lva_sndmsg (lva d))) d
   else d) = lva_sent d.
Proof.
  destruct (lva_tx (lva d)) eqn:H; [done|]. unfold lva_sent. rewrite <- H.
  by destruct d as [[] ?????????].
Qed.

Lemma vid_message_len lva flag vs :
  vs <> [] -> Zlen (vid_message lva flag vs) = 4 + Zlen (vectors_bytes false vs).
Proof.
  intros Hne. rewrite (vectors_bytes_len false lva). destruct vs; [done|].
  unfold vid_message. rewrite !length_app. cbn [length]. lia.
Qed.

Lemma vectors_bytes_app vs rest b :
  (length (vectors_bytes b vs) <= length (vectors_bytes b (vs ++ rest)))%nat.
Proof.
  revert b; induction vs as [|[v' es'] vs IH]; intros b; cbn [app vectors_bytes length];
    [lia|].
  rewrite !length_app. specialize (IH false). lia.
Qed.

(** A message of a prefix of the vectors is no longer than the whole. *)
Lemma vid_message_mono lva flag vs rest :
  Zlen (vid_message lva flag vs) <= Zlen (vid_message lva flag (vs ++ rest)).
Proof.
  destruct vs as [|x vs].
  - cbn [app]. destruct rest as [|[v es] rest]; [done|].
    rewrite (vid_message_len _ _ (_ :: _)) by done. cbn [vectors_bytes].
    rewrite length_app. pose proof (vector_bytes_len false v es).
    destruct flag; cbn [vid_message length]; lia.
  - rewrite !vid_message_len by done. pose proof (vectors_bytes_app (x :: vs) rest false).
    lia.
Qed.

(** The frame leaves room for all vectors the list calls for. *)
Definition mvrp_fits (s : mvrp_ast) : Prop :=
  let l := attrib_list (db s) in
  Zlen (mvrp_frame (STATION_ADDR (wld s)) false (send_empty_LeaveAll_flag (db s))
          (vid_vectors (length l) l)) < MAX_FRAME_SIZE - 4.

Section Txpdu.
Context {os : OS}.

Definition txpdu_post (sock : Z) (s : mvrp_ast) (out : Z * mvrp_ast) : Prop :=
  let '(rc, s') := out in
  let d := mrp_db (db s) in
  let l := attrib_list (db s) in
  let flag := send_empty_LeaveAll_flag (db s) in
  let frame vs := mvrp_frame (STATION_ADDR (wld s)) (lva_tx (lva d)) flag vs in
  let ok := os_malloc (w_tick (wld s)) in
  Forall2 tx_cleared l (attrib_list (db s'))
  /\ send_empty_LeaveAll_flag (db s') = flag
  /\ mrp_db (db s') = (if ok then lva_sent d else d)
  /\ w_extends (wld s) (wld s')
  /\ exists frames, w_trace (wld s') = w_trace (wld s) ++ frames
     /\ (frames = [] \/ exists vs rest,
           vid_vectors (length l) l = vs ++ rest /\ frames = [ASend sock (frame vs)]
           /\ Forall (fun v => Zlen v.2 < 8192) vs
           /\ vid_message (lva_tx (lva d)) flag vs <> []
           /\ Zlen (frame vs) < MAX_FRAME_SIZE
           /\ (rest = [] \/ MAX_FRAME_SIZE - 4 <= Zlen (frame vs)))
     /\ (ok = true -> mvrp_fits s ->
           Forall (fun a => app_tx (applicant a) = false) (attrib_list (db s'))
           /\ let vs := vid_vectors (length l) l in
              frames = match vid_message (lva_tx (lva d)) flag vs with
                       | [] => []
                       | _ => [ASend sock (frame vs)]
                       end).

Lemma mvrp_frame_len station lva flag vs :
  length station = 6%nat ->
  Zlen (mvrp_frame station lva flag vs) = 17 + Zlen (vid_message lva flag vs).
Proof.
  intros H. unfold mvrp_frame. rewrite !length_app.
  pose proof (mvrp_header_len _ H). cbn [length]. lia.
Qed.

Lemma vid_message_lva_len lva lva' flag vs :
  length (vid_message lva flag vs) = length (vid_message lva' flag vs).
Proof.
  destruct vs; [done|]. unfold vid_message. rewrite !length_app.
  by rewrite (vectors_bytes_len lva lva').
Qed.

(** The room condition in terms of the message. *)
Lemma mvrp_fits_len s lv :
  length (STATION_ADDR (wld s)) = 6%nat ->
  mvrp_fits s <->
  Zlen (vid_message lv (send_empty_LeaveAll_flag (db s))
          (vid_vectors (length (attrib_list (db s))) (attrib_list (db s)))) < 1979.
Proof.
  intros Hsl. unfold mvrp_fits, MAX_FRAME_SIZE.
  rewrite mvrp_frame_len, (vid_message_lva_len false lv) by done. lia.
Qed.

(** The two ends of [mvrp_txpdu]: nothing sent, one frame sent. *)
Lemma txpdu_silent sock s l' rc :
  os_malloc (w_tick (wld s)) = true -> Forall2 tx_cleared (attrib_list (db s)) l' ->
  (mvrp_fits s -> Forall (fun a => app_tx (applicant a) = false) l'
     /\ vid_message (lva_tx (lva (mrp_db (db s)))) (send_empty_LeaveAll_flag (db s))
          (vid_vectors (length (attrib_list (db s))) (attrib_list (db s))) = []) ->
  txpdu_post sock s
    (rc, put_list l' (put_mst (Mst (lva_sent (mrp_db (db s))) (step_tick (wld s))) s)).
Proof.
  intros Hok Hcl Hfit. unfold txpdu_post. rewrite Hok.
  cbn [put_mst put_list db wld mrp_db attrib_list send_empty_LeaveAll_flag m_db m_w].
  split_and!; auto with avb. exists []. split_and!; auto.
  - by rewrite app_nil_r.
  - intros _ Hf. destruct (Hfit Hf) as [Ht ->]. done.
Qed.

Lemma txpdu_sent sock s l' rc vs rest :
  let l := attrib_list (db s) in
  let lv := lva_tx (lva (mrp_db (db s))) in
  let flag := send_empty_LeaveAll_flag (db s) in
  os_malloc (w_tick (wld s)) = true -> length (STATION_ADDR (wld s)) = 6%nat ->
  Forall2 tx_cleared l l' ->
  vid_vectors (length l) l = vs ++ rest -> Forall (fun v => Zlen v.2 < 8192) vs ->
  0 < Zlen (vid_message lv flag vs) < 1983 ->
  rest = [] \/ 1979 <= Zlen (vid_message lv flag vs) ->
  (mvrp_fits s -> Forall (fun a => app_tx (applicant a) = false) l' /\ rest = []) ->
  txpdu_post sock s
    (rc, put_list l' (put_mst (Mst (lva_sent (mrp_db (db s)))
       (log (ASend sock (mvrp_frame (STATION_ADDR (wld s)) lv flag vs))
          (step_tick (wld s)))) s)).
Proof.
  intros l lv flag Hok Hsl Hcl Hvs H8 Hlen Hcut Hfit. unfold txpdu_post. rewrite Hok.
  cbn [put_mst put_list db wld mrp_db attrib_list send_empty_LeaveAll_flag m_db m_w].
  assert (Hne : vid_message lv flag vs <> []) by (intros E; rewrite E in Hlen; cbn in Hlen; lia).
  split_and!; auto.
  - etransitivity; [apply w_extends_tick | apply w_extends_log].
  - eexists. split; [done|]. split.
    + right. exists vs, rest. rewrite mvrp_frame_len by done.
      split_and!; auto; fold lv flag; unfold MAX_FRAME_SIZE; [lia|].
      destruct Hcut as [->|Hcut]; [by left | right; lia].
    + intros _ Hf. destruct (Hfit Hf) as [Ht ->]. split; [done|]. fold l lv flag.
      rewrite Hvs, app_nil_r. by destruct (vid_message lv flag vs).
Qed.

Lemma txpdu_spec sock s :
  Forall emit_wf (attrib_list (db s)) -> station_ok (wld s) ->
  returns (mvrp_txpdu sock s) (txpdu_post sock s).
Proof.
  intros Hwf [Hsl Hsb]. unfold mvrp_txpdu, malloc.
  destruct (os_malloc _) eqn:Hok; cbn [negb].
  2: { cbn. rewrite Hok. split_and!; auto using tx_cleared_refl with avb.
       exists []. split_and!; auto; [by rewrite app_nil_r | done]. }
  cbn [put_mst db wld mrp_db attrib_list send_empty_LeaveAll_flag m_db m_w
       STATION_ADDR step_tick].
  rewrite frame_header_spec, res_bind_ret, lva_sent_if by done.
  set (lv := lva_tx _). set (flag := send_empty_LeaveAll_flag _).
  set (l := attrib_list (db s)) in *. set (hdr := mvrp_header _).
  assert (Hh : Zlen hdr = 15) by (by apply mvrp_header_len).
  pose proof (mvrp_fits_len s lv Hsl) as Hfits. fold l flag in Hfits.
  eapply returns_bind;
    [apply (emit_vidvectors_spec hdr MSG_LIST_OFF MAX_FRAME_SIZE lv flag l);
       auto; unfold MSG_LIST_OFF, MAX_FRAME_SIZE; lia|].
  intros [[[rc bytes] l'] buf] (Hcl & Hbl & Hrc & Hno).
  unfold MSG_LIST_OFF, MAX_FRAME_SIZE, MRPDU_ENDMARK_SZ in *.
  destruct Hrc as [-> | (-> & vs & rest & Hvs & H8 & Hbytes & Hend & Hbuf & Hfull)].
  { apply (txpdu_silent sock s l' (-1)); auto. intros Hfit%Hfits. discriminate Hno.
    destruct (decide (vid_vectors (length l) l = [])) as [->|Hne]; [done|].
    rewrite vid_message_len in Hfit by done. lia. }
  pose proof (vid_message_mono lv flag vs rest) as Hmono. rewrite Hvs in Hfits.
  cbn [Z.eqb]. destruct (Z.eqb_spec (15 + bytes) 15) as [H0|H0].
  { apply (txpdu_silent sock s l' (-1)); auto. intros Hfit%Hfits. destruct (Hfull ltac:(lia)) as [-> Ht].
    fold l lv flag. rewrite Hvs, app_nil_r. split; [done|].
    apply length_zero_iff_nil. lia. }
  destruct (Z.ltb_spec (15 + bytes) (2000 - 2)) as [Hroom|Hroom]; cbn [negb].
  2: { apply (txpdu_silent sock s l' (-1)); auto. intros Hfit%Hfits. lia. }
  rewrite Hbuf by lia. do 2 rewrite replicate_cons_Z by lia.
  rewrite (app_assoc hdr), wr_app by (rewrite length_app; lia). rewrite res_bind_ret.
  rewrite (cons_middle (u8 _)), app_assoc, wr_app
    by (rewrite !length_app; cbn [length]; lia). rewrite res_bind_ret.
  change (u8 0) with 0. rewrite <- (app_assoc _ [0]). cbn [app].
  replace (take _ _) with (mvrp_frame (STATION_ADDR (wld s)) lv flag vs).
  2: { unfold mvrp_frame. rewrite (app_assoc (mvrp_header _)).
       change (0 :: 0 :: replicate ?k 0) with ([0; 0] ++ replicate k 0).
       rewrite (app_assoc _ [0; 0]). symmetry.
       apply take_app_length'. rewrite !length_app. cbn [length]. fold hdr. lia. }
  assert (Hgoal : forall rc', txpdu_post sock s (rc', put_list l'
    (put_mst (Mst (lva_sent (mrp_db (db s))) (log (ASend sock
       (mvrp_frame (STATION_ADDR (wld s)) lv flag vs)) (step_tick (wld s)))) s))).
  { intros rc'. apply (txpdu_sent _ _ _ _ vs rest); auto.
    - fold lv flag. lia.
    - fold lv flag. destruct (Z.ltb_spec bytes 1979); [left; apply Hfull; lia | right; lia].
    - intros Hfit%Hfits. destruct (Hfull ltac:(lia)) as [-> Ht]. auto. }
  cbn [mrpd_send]. destruct (_ <=? 0); apply Hgoal.
Qed.

End Txpdu.
