(* ===== verification/MvrpRecv.v ===== *)
(** * The MVRP receiver

    Memory safety and termination of [mvrp_recv_frame] on arbitrary input,
    for every application behind the [EventSink] interface, and its agreement
    with the emitter: parsing a frame the emitter builds delivers the events of
    its vectors, in order. *)

From S2P Require Import Prelude Os Mrp Attr AttrProps Mvrp MvrpEmit.
From Stdlib Require Import ZArith Lia.
From stdpp Require Import base tactics list strings option.
Open Scope Z_scope.

(** VIDs the receiver lets through. *)
Definition vid_ok (vid : Z) : Prop := 0 <= vid <= 0xFFF.

(** ** Safety and termination *)
Section Safety.
Context {S : Type} `{sink : !EventSink Z S} {I : S -> Prop}
        {ok : EventSinkOk Z S vid_ok I}.

Lemma recv_values_safe src evts : forall vid s,
  length src = 6%nat -> 0 <= vid < 65536 -> I s ->
  returns (mvrp_recv_values src evts vid s)
    (fun '(_, vid', s') => 0 <= vid' < 65536 /\ I s').
Proof.
  induction evts as [|e evts IH]; intros vid s Hs Hv HI; cbn [mvrp_recv_values]; [done|].
  destruct (Z.ltb_spec 0xFFF vid); [by apply IH|].
  pose proof (sink_malloc_ok s HI) as Hm. destruct (sink_malloc s) as [[] s1]; [|done].
  cbn [negb snd] in *.
  apply returns_bind with I.
  - destruct (mrpdu_event e) as [ev|] eqn:Ev; [|done].
    apply sink_event_ok; [done | by eapply mrpdu_event_received|].
    intros x [= <-]. split; [split; cbn; lia | done].
  - intros s2 H2. apply IH; auto. apply u16_range.
Qed.

Lemma recv_bytes_safe buf src vp n : forall vectidx vid numvalues s,
  length src = 6%nat -> 0 <= vp + 2 + vectidx ->
  vp + 2 + vectidx + Z.of_nat n <= Zlen buf -> 0 <= vid < 65536 -> I s ->
  returns (mvrp_recv_bytes n buf src vp vectidx vid numvalues s) (fun '(_, s') => I s').
Proof.
  induction n as [|n IH]; intros vectidx vid nv s Hs Hlo Hhi Hv HI;
    cbn [mvrp_recv_bytes]; [done|].
  eapply returns_bind; [apply rd_ok; lia|]. intros b _.
  destruct (vect_3pack_decode b) as [[e0 e1] e2].
  eapply returns_bind; [by apply recv_values_safe|].
  intros [[[] vid'] s'] [Hv' HI']; [|done]. apply IH; auto; lia.
Qed.

Lemma num_3pack_bound nv :
  0 <= nv -> nv / 3 <= num_3pack_bytes nv <= nv / 3 + 1 /\ (0 < nv -> 0 < num_3pack_bytes nv).
Proof. intros H. unfold num_3pack_bytes. btest; zdm. Qed.

Lemma byte_pair hi lo :
  0 <= hi < 256 -> 0 <= lo < 256 -> 0 <= Z.lor (Z.shiftl hi 8) lo < 65536.
Proof.
  intros Hh Hl. rewrite Z.shiftl_mul_pow2 by lia. change (2 ^ 8) with 256.
  assert (Hd : Z.land (hi * 256) lo = 0).
  { replace lo with (lo mod 2 ^ 8) by (apply Z.mod_small; done).
    rewrite <- Z.land_ones by lia. rewrite (Z.land_comm lo), Z.land_assoc.
    replace (hi * 256) with (Z.shiftl hi 8) by (by rewrite Z.shiftl_mul_pow2).
    by rewrite Z.land_ones, Z.shiftl_mul_pow2, Z.mod_mul by lia. }
  pose proof (Z.add_lor_land (hi * 256) lo). lia.
Qed.

Lemma numvalues_range hdr : 0 <= MRPDU_VECT_NUMVALUES hdr < 8192.
Proof.
  unfold MRPDU_VECT_NUMVALUES. change (Z.shiftl 1 13 - 1) with (Z.ones 13).
  rewrite Z.land_ones by lia. by apply Z.mod_pos_bound.
Qed.

Lemma recv_vectors_safe buf src eof fuel : forall ptr saw s,
  length src = 6%nat -> bytes_ok buf -> eof + 4 <= Zlen buf ->
  0 <= ptr <= eof + 2 -> eof + 2 - ptr < Z.of_nat fuel -> I s ->
  returns (mvrp_recv_vectors fuel buf src eof ptr saw s)
    (fun '(_, ptr', _, s') => ptr <= ptr' /\ I s').
Proof.
  induction fuel as [|fuel IH]; intros ptr saw s Hs Hb Hl Hp Hf HI; [lia|].
  cbn [mvrp_recv_vectors].
  eapply returns_bind; [apply rd_ok; lia|]. intros b0 _.
  eapply returns_bind; [apply rd_ok; lia|]. intros b1 _.
  destruct (_ && _); [cbn; split; [lia | done]|].
  apply returns_bind with (fun _ => True).
  { unfold rd16. eapply returns_bind; [apply rd_ok; lia|]. intros ? _.
    eapply returns_bind; [apply rd_ok; lia|]. done. }
  intros hdr _. pose proof (numvalues_range hdr) as Hnv.
  apply returns_bind with (fun '(_, s') => I s').
  { destruct (_ && _); [|done].
    eapply returns_bind; [apply sink_event_ok; [done | done|]|]; [done|]. done. }
  intros [saw1 s1] HI1. destruct (Z.eqb_spec (MRPDU_VECT_NUMVALUES hdr) 0);
    [cbn; split; [lia | done]|].
  destruct (num_3pack_bound (MRPDU_VECT_NUMVALUES hdr)) as [Hn1 Hn2]; [lia|].
  assert (0 <= MRPDU_VECT_NUMVALUES hdr / 3) by (apply Z.div_pos; lia).
  destruct (Z.leb_spec eof (ptr + 2 + MRPDU_VECT_NUMVALUES hdr / 3));
    [cbn; split; [lia | done]|].
  eapply returns_bind; [apply rd_byte; [done|lia]|]. intros hi Hhi.
  eapply returns_bind; [apply rd_byte; [done|lia]|]. intros lo Hlo.
  eapply returns_bind; [apply recv_bytes_safe; auto; [lia|lia|by apply byte_pair]|].
  intros [[] s2] HI2; [|cbn; split; [lia | done]].
  eapply returns_mono; [apply IH; auto; lia|].
  intros [[[??]?]?] [??]. split; [lia | done].
Qed.

Lemma recv_messages_safe buf src eof fuel : forall ptr endmarks saw s,
  length src = 6%nat -> bytes_ok buf -> 15 <= eof -> eof + 4 <= Zlen buf ->
  eof <= MAX_FRAME_SIZE - 4 -> 0 <= ptr -> eof - ptr <= Z.of_nat fuel -> I s ->
  returns (mvrp_recv_messages fuel buf src eof ptr endmarks saw s) (fun '(_, s') => I s').
Proof.
  unfold MAX_FRAME_SIZE.
  induction fuel as [|fuel IH]; intros ptr em saw s Hs Hb He Hl Hm Hp Hf HI;
    cbn [mvrp_recv_messages]; unfold MRPDU_ENDMARK_SZ;
    (destruct (Z.ltb_spec ptr (eof - 2)) as [Hlt|]; cbn [negb]; [|done]); [lia|].
  eapply returns_bind; [apply rd_byte; [done|lia]|]. intros ty Hty.
  eapply returns_bind; [apply rd_byte; [done|lia]|]. intros len Hlen.
  destruct (_ && _); [destruct (_ <? 2); [apply IH; auto; lia | done]|].
  destruct (ty =? MVRP_VID_TYPE).
  - destruct (len =? 2); cbn [negb]; [|done].
    eapply returns_bind; [apply (recv_vectors_safe buf src eof); auto;
      unfold MAX_FRAME_SIZE; lia|].
    intros [[[[] ptr'] saw'] s'] [Hge HI']; [|done]. apply IH; auto; lia.
  - eapply returns_bind; [apply rd_ok; unfold ETH_HDR_SZ; lia|]. intros ver _.
    destruct (_ =? ver); [done|].
    apply returns_bind with (fun _ => True).
    { unfold rd16. eapply returns_bind; [apply rd_ok; lia|]. intros ? _.
      eapply returns_bind; [apply rd_ok; lia|]. done. }
    intros hdr _. pose proof (numvalues_range hdr).
    assert (0 <= (MRPDU_VECT_NUMVALUES hdr + 2) / 3) by (apply Z.div_pos; lia).
    cbn beta in Hlen. apply IH; auto; lia.
Qed.

Lemma recv_frame_safe bytes buf s :
  length buf = Z.to_nat MAX_FRAME_SIZE -> bytes_ok buf ->
  bytes <= MAX_FRAME_SIZE - 4 -> I s ->
  returns (mvrp_recv_frame bytes buf s) (fun '(rc, s') => (rc = 0 \/ rc = -1) /\ I s').
Proof.
  unfold MAX_FRAME_SIZE. intros Hl Hb Hn HI. unfold mvrp_recv_frame, ETH_HDR_SZ.
  destruct (Z.leb_spec bytes 0); [cbn; auto|].
  destruct (Z.ltb_spec bytes (14 + 1 + 2)); [cbn; auto|].
  apply returns_bind with (fun _ => True).
  { unfold rd16. eapply returns_bind; [apply rd_ok; lia|]. intros ? _.
    eapply returns_bind; [apply rd_ok; lia|]. done. }
  intros tl _. destruct (_ =? tl); cbn [negb]; [|cbn; auto].
  eapply returns_bind; [apply rd_list_ok; lia|]. intros dest _.
  destruct (_ =? 0); cbn [negb]; [|cbn; auto].
  eapply returns_bind; [apply rd_list_ok; lia|]. intros src Hsrc.
  eapply returns_bind; [apply recv_messages_safe; auto; unfold MSG_LIST_OFF, MAX_FRAME_SIZE; lia|].
  intros [[] s'] HI'; cbn; auto.
Qed.

End Safety.

(** ** Agreement with the emitter *)
Section Agree.
Context {S : Type} `{sink : !EventSink Z S}.
Hypothesis malloc_ok : forall s, (sink_malloc s).1 = true.

(** The reference: the events of a vector go to the application one by one,
    each with its VID and the sender's address. *)
Definition deliver_one (src : list Z) (vid e : Z) (s : S) : res S :=
  let s := (sink_malloc s).2 in
  match mrpdu_event e with
  | Some ev => sink_event ev
      (Some (set_macaddr src (Attr vid fresh_applicant fresh_registrar))) s
  | None => Ret s
  end.

Fixpoint deliver (src : list Z) (vid : Z) (es : list Z) (s : S) : res S :=
  match es with
  | [] => Ret s
  | e :: es => s ← deliver_one src vid e s; deliver src (vid + 1) es s
  end.

(** A message: a LeaveAll first when the flag is set, then the vectors. *)
Fixpoint deliver_vectors (lva : bool) (src : list Z) (vs : list (Z * list Z)) (s : S)
  : res S :=
  match vs with
  | [] => Ret s
  | (vid, es) :: vs =>
      s ← (if lva then sink_event MRP_EVENT_RLA None s else Ret s);
      s ← deliver src vid es s;
      deliver_vectors false src vs s
  end.

(** A vector with at least one event whose VIDs are legal. *)
Definition vector_ok (v : Z * list Z) : Prop :=
  v.2 <> [] /\ 0 <= v.1 /\ v.1 + Zlen v.2 <= 4096 /\ Forall (fun e => 0 <= e <= 5) v.2.

Lemma recv_values_deliver src es : forall vid s,
  0 <= vid -> vid + Zlen es <= 4096 ->
  mvrp_recv_values src es vid s
  = (s ← deliver src vid es s; Ret (Continue, vid + Zlen es, s)).
Proof.
  induction es as [|e es IH]; intros vid s H0 Hv.
  - cbn. by rewrite Z.add_0_r.
  - cbn [length] in Hv. cbn [mvrp_recv_values deliver].
    destruct (Z.ltb_spec 0xFFF vid); [lia|].
    rewrite res_bind_assoc. unfold deliver_one.
    pose proof (malloc_ok s) as Hm. destruct (sink_malloc s) as [[] s1]; [|done].
    cbn [negb snd]. apply res_bind_ext. intros s2.
    rewrite u16_id, IH by lia. apply res_bind_ext. intros s3. do 3 f_equal.
    cbn [length]. lia.
Qed.

Lemma unpack_3 a b c :
  0 <= a <= 5 -> 0 <= b <= 5 -> 0 <= c <= 5 ->
  vect_3pack_decode (MRPDU_3PACK_ENCODE a b c) = (a, b, c).
Proof.
  intros Ha Hb Hc. unfold vect_3pack_decode, MRPDU_3PACK_ENCODE.
  assert (H1 : ((a * 6 + b) * 6 + c) / 36 = a) by zdm. rewrite H1.
  assert (H2 : ((a * 6 + b) * 6 + c - a * 36) / 6 = b) by zdm. rewrite H2.
  f_equal. lia.
Qed.

Lemma pack_events_cons a b c l :
  pack_events (a :: b :: c :: l) = MRPDU_3PACK_ENCODE a b c :: pack_events l.
Proof. done. Qed.

Lemma deliver_app src es1 : forall vid es2 s,
  deliver src vid (es1 ++ es2) s
  = (s ← deliver src vid es1 s; deliver src (vid + Zlen es1) es2 s).
Proof.
  induction es1 as [|e es1 IH]; intros vid es2 s; cbn [app deliver].
  - by rewrite Z.add_0_r.
  - rewrite res_bind_assoc. apply res_bind_ext. intros s1. rewrite IH.
    apply res_bind_ext. intros s2. f_equal. cbn [length]. lia.
Qed.

(** One vector byte: the events [ch] it holds are delivered. *)
Lemma recv_bytes_step n buf src vp vectidx vid nv s a b c ch :
  rd buf (vp + 2 + vectidx) = Ret (MRPDU_3PACK_ENCODE a b c) ->
  0 <= a <= 5 -> 0 <= b <= 5 -> 0 <= c <= 5 -> 0 <= nv < 8192 ->
  take (Z.to_nat nv) [a; b; c] = ch -> 0 <= vid -> vid + Zlen ch <= 4096 ->
  mvrp_recv_bytes (Datatypes.S n) buf src vp vectidx vid nv s
  = (s ← deliver src vid ch s;
     mvrp_recv_bytes n buf src vp (vectidx + 1) (vid + Zlen ch) (nv - Zlen ch) s).
Proof.
  intros Hrd Ha Hb Hc Hnv Hch H0 Hv. cbn [mvrp_recv_bytes].
  rewrite Hrd, res_bind_ret, unpack_3 by done.
  assert (Ht : take (Z.to_nat (if 3 <? nv then 3 else nv)) [a; b; c] = ch).
  { destruct (Z.ltb_spec 3 nv); [|done]. rewrite <- Hch.
    by rewrite !take_ge by (cbn; lia). }
  assert (Hl : (if 3 <? nv then 3 else nv) = Zlen ch).
  { rewrite <- Ht, length_take. cbn [length]. destruct (Z.ltb_spec 3 nv); lia. }
  rewrite Ht, Hl, recv_values_deliver by done. rewrite res_bind_assoc.
  apply res_bind_ext. intros s1. rewrite res_bind_ret. cbn beta iota.
  rewrite u16_id; [done|]. destruct (Z.ltb_spec 3 nv); lia.
Qed.

(** The extra iteration at the end of the vector reads a byte and delivers
    nothing. *)
Lemma recv_bytes_last buf src vp vectidx vid x s :
  rd buf (vp + 2 + vectidx) = Ret x ->
  mvrp_recv_bytes 1 buf src vp vectidx vid 0 s = Ret (Continue, s).
Proof.
  intros Hrd. cbn [mvrp_recv_bytes]. rewrite Hrd, res_bind_ret.
  by destruct (vect_3pack_decode x) as [[??]?].
Qed.

Lemma recv_bytes_deliver src vp es : forall buf pre x rest vectidx vid s,
  buf = pre ++ pack_events es ++ x :: rest -> Zlen pre = vp + 2 + vectidx ->
  0 <= vid -> vid + Zlen es <= 4096 -> Forall (fun e => 0 <= e <= 5) es ->
  mvrp_recv_bytes (Datatypes.S (length (pack_events es))) buf src vp vectidx vid (Zlen es) s
  = (s ← deliver src vid es s; Ret (Continue, s)).
Proof.
  induction es as [|a|a b|a b c l IH] using list_ind3;
    intros buf pre x rest vectidx vid s Hbuf Hp H0 Hv Hes.
  - change (pack_events []) with (@nil Z) in *. cbn [length Z.of_nat deliver].
    rewrite res_bind_ret. apply (recv_bytes_last _ _ _ _ _ x). rewrite Hbuf. by apply rd_app.
  - apply Forall_cons_iff in Hes as [Ha _].
    change (pack_events [a]) with [MRPDU_3PACK_ENCODE a 0 0] in *.
    rewrite (recv_bytes_step _ _ _ _ _ _ _ _ a 0 0 [a]); auto; try lia.
    2: { rewrite Hbuf. by apply rd_app. }
    apply res_bind_ext. intros s1. apply (recv_bytes_last _ _ _ _ _ x).
    rewrite Hbuf, app_assoc, rd_app by (rewrite length_app; cbn; lia). done.
  - apply Forall_cons_iff in Hes as [Ha Hes]. apply Forall_cons_iff in Hes as [Hb _].
    change (pack_events [a; b]) with [MRPDU_3PACK_ENCODE a b 0] in *.
    rewrite (recv_bytes_step _ _ _ _ _ _ _ _ a b 0 [a; b]); auto; try lia.
    2: { rewrite Hbuf. by apply rd_app. }
    apply res_bind_ext. intros s1. apply (recv_bytes_last _ _ _ _ _ x).
    rewrite Hbuf, app_assoc, rd_app by (rewrite length_app; cbn; lia). done.
  - apply Forall_cons_iff in Hes as [Ha Hes]. apply Forall_cons_iff in Hes as [Hb Hes].
    apply Forall_cons_iff in Hes as [Hc Hes]. rewrite pack_events_cons in *.
    cbn [app] in Hbuf. cbn [length] in Hv |- *.
    rewrite (recv_bytes_step _ _ _ _ _ _ _ _ a b c [a; b; c]); auto; try lia.
    2: { rewrite Hbuf. by apply rd_app. }
    2: { apply take_ge. cbn [length]. lia. }
    2: { cbn [length]. lia. }
    change (a :: b :: c :: l) with ([a; b; c] ++ l).
    rewrite deliver_app, res_bind_assoc. apply res_bind_ext. intros s1.
    cbn [length]. replace (Z.of_nat _ - 3) with (Zlen l) by lia.
    apply (IH buf (pre ++ [MRPDU_3PACK_ENCODE a b c]) x rest); auto; try lia.
    + by rewrite Hbuf, <- app_assoc.
    + rewrite length_app. cbn [length]. lia.
Qed.

Lemma num_3pack_events es : num_3pack_bytes (Zlen es) = Zlen (pack_events es).
Proof.
  pose proof (pack_lengths es) as Hl. pose proof (pack_rest_short es) as Hs.
  rewrite pack_events_lengths. unfold num_3pack_bytes.
  destruct (decide (pack_rest es = [])) as [E|E].
  - rewrite E in Hl. cbn [length] in Hl. btest; zdm.
  - destruct (pack_rest es); [done|]. cbn [length] in *. btest; zdm.
Qed.

Lemma vid_bytes vid : 0 <= vid < 65536 ->
  Z.lor (Z.shiftl (vid / 256) 8) (vid mod 256) = vid.
Proof.
  intros Hv. rewrite Z.shiftl_mul_pow2 by lia.
  change 256 with (2 ^ 8) at 1. rewrite <- Z.shiftr_div_pow2, <- Z.shiftl_mul_pow2 by lia.
  change 256 with (2 ^ 8). rewrite <- Z.land_ones by lia.
  apply Z.bits_inj'. intros n Hn. rewrite Z.lor_spec, Z.land_spec.
  destruct (Z.ltb_spec n 8).
  - rewrite Z.shiftl_spec_low, Z.ones_spec_low by lia. by rewrite andb_true_r.
  - rewrite Z.shiftl_spec_high, Z.shiftr_spec, Z.ones_spec_high by lia.
    rewrite andb_false_r, orb_false_r. f_equal. lia.
Qed.

Definition saw_after (saw lva : bool) (vs : list (Z * list Z)) : bool :=
  match vs with [] => saw | _ => saw || lva end.

(** One vector: header, LeaveAll, values. *)
Lemma recv_vectors_step src eof fuel buf pre lva vid es x rest ptr saw s :
  buf = pre ++ vector_bytes lva vid es ++ x :: rest -> Zlen pre = ptr ->
  vector_ok (vid, es) -> ptr + Zlen (vector_bytes lva vid es) < eof ->
  (lva = true -> saw = false) ->
  mvrp_recv_vectors (Datatypes.S fuel) buf src eof ptr saw s
  = (s ← (if lva then sink_event MRP_EVENT_RLA None s else Ret s);
     s ← deliver src vid es s;
     mvrp_recv_vectors fuel buf src eof (ptr + Zlen (vector_bytes lva vid es))
       (saw || lva) s).
Proof.
  intros Hbuf Hp (Hne & H0 & Hv & Hes) Hend Hsaw. cbn [fst snd] in *.
  rewrite vector_bytes_len in *. unfold vector_bytes in Hbuf. cbn [app] in Hbuf.
  set (hdr := Zlen es + (if lva then 8192 else 0)) in *.
  assert (Hn : 0 < Zlen es) by (destruct es; [done | cbn [length]; lia]).
  destruct (vect_header (Zlen es) lva) as [Hnum Hlva]; [lia|]. fold hdr in Hnum, Hlva.
  assert (Hh : 0 < hdr < 65536) by (unfold hdr; destruct lva; lia).
  assert (Hr16 : rd16 buf ptr = Ret hdr).
  { rewrite Hbuf, rd16_app by done. f_equal. zdm. }
  assert (Hrd : rd buf ptr = Ret (hdr / 256)) by (rewrite Hbuf; by apply rd_app).
  assert (Hrd1 : rd buf (ptr + 1) = Ret (hdr mod 256)).
  { rewrite Hbuf, cons_middle, app_assoc. apply rd_app. rewrite length_app. cbn. lia. }
  assert (Hpre4 : buf = (pre ++ [hdr / 256; hdr mod 256]) ++ vid / 256 :: vid mod 256
                          :: pack_events es ++ x :: rest)
    by (by rewrite Hbuf, <- app_assoc).
  assert (Hv0 : rd buf (ptr + 2) = Ret (vid / 256)).
  { rewrite Hpre4. apply rd_app. rewrite length_app. cbn. lia. }
  assert (Hv1 : rd buf (ptr + 3) = Ret (vid mod 256)).
  { rewrite Hpre4, (cons_middle (vid / 256)), app_assoc. apply rd_app.
    rewrite !length_app. cbn. lia. }
  cbn [mvrp_recv_vectors]. rewrite Hrd, Hrd1, !res_bind_ret.
  replace ((hdr / 256 =? 0) && (hdr mod 256 =? 0)) with false
    by (symmetry; apply andb_false_iff; rewrite !Z.eqb_neq; zdm).
  rewrite Hr16, res_bind_ret, Hnum, Hlva.
  assert (Hif : forall (k : bool * S -> res (flow * Z * bool * S)),
    ((if lva && negb saw then s ← sink_event MRP_EVENT_RLA None s; Ret (true, s)
      else Ret (saw, s)) ≫= k)
    = (s ← (if lva then sink_event MRP_EVENT_RLA None s else Ret s); k (saw || lva, s))).
  { intros k. destruct lva; [|by rewrite orb_false_r].
    rewrite (Hsaw eq_refl). cbn [andb negb orb]. by rewrite res_bind_assoc. }
  rewrite Hif. apply res_bind_ext. intros s1. cbn beta iota.
  rewrite (proj2 (Z.eqb_neq _ _)) by lia.
  pose proof (pack_lengths es) as Hpl. pose proof (pack_rest_short es) as Hps.
  pose proof (pack_events_lengths es) as Hpe.
  rewrite (proj2 (Z.leb_gt _ _)) by (destruct (decide _) in Hpe; zdm).
  rewrite Hv0, Hv1, !res_bind_ret, vid_bytes by lia. rewrite num_3pack_events.
  replace (Z.to_nat (Zlen (pack_events es) + 1)) with (Datatypes.S (length (pack_events es)))
    by lia.
  rewrite (recv_bytes_deliver src ptr es buf (pre ++ [hdr / 256; hdr mod 256; vid / 256;
    vid mod 256]) x rest); auto.
  - rewrite res_bind_assoc. apply res_bind_ext. intros s2. rewrite res_bind_ret.
    by rewrite Z.add_assoc.
  - by rewrite Hbuf, <- app_assoc.
  - rewrite length_app. cbn. lia.
Qed.

Lemma recv_vectors_deliver src eof vs : forall fuel buf pre lva rest ptr saw s,
  buf = pre ++ vectors_bytes lva vs ++ 0 :: 0 :: rest -> Zlen pre = ptr ->
  Forall vector_ok vs -> ptr + Zlen (vectors_bytes lva vs) < eof ->
  (lva = true -> saw = false) -> (length vs < fuel)%nat ->
  mvrp_recv_vectors fuel buf src eof ptr saw s
  = (s ← deliver_vectors lva src vs s;
     Ret (Continue, ptr + Zlen (vectors_bytes lva vs), saw_after saw lva vs, s)).
Proof.
  induction vs as [|[vid es] vs IH]; intros fuel buf pre lva rest ptr saw s Hbuf Hp Hok
    Hend Hsaw Hf; (destruct fuel as [|fuel]; [cbn in Hf; lia|]).
  - cbn [vectors_bytes app] in Hbuf. cbn [mvrp_recv_vectors].
    assert (Hr : rd buf ptr = Ret 0) by (rewrite Hbuf; by apply rd_app).
    assert (Hr1 : rd buf (ptr + 1) = Ret 0).
    { rewrite Hbuf, cons_middle, app_assoc. apply rd_app. rewrite length_app. cbn. lia. }
    rewrite Hr, Hr1. cbn. by rewrite Z.add_0_r.
  - apply Forall_cons_iff in Hok as [Hv Hok]. cbn [vectors_bytes] in *.
    rewrite length_app, Nat2Z.inj_add in *. rewrite <- app_assoc in Hbuf.
    destruct (vectors_bytes false vs ++ 0 :: 0 :: rest) as [|x rest'] eqn:Htl.
    { by destruct (vectors_bytes false vs). }
    rewrite (recv_vectors_step src eof fuel buf pre lva vid es x rest'); auto; [|lia].
    cbn [deliver_vectors]. rewrite res_bind_assoc. apply res_bind_ext. intros s1.
    rewrite res_bind_assoc. apply res_bind_ext. intros s2.
    rewrite (IH fuel buf (pre ++ vector_bytes lva vid es) false rest); auto; try done.
    + apply res_bind_ext. intros s3. rewrite Z.add_assoc. do 3 f_equal.
      destruct vs; cbn [saw_after]; by rewrite ?orb_false_r.
    + by rewrite Hbuf, <- Htl, <- app_assoc.
    + rewrite length_app. lia.
    + lia.
    + cbn in Hf. lia.
Qed.

(** The message list of an emitted frame: one VID message, two end marks. *)
Lemma recv_messages_deliver src eof vs fuel buf pre lva flag ptr rest s :
  buf = pre ++ vid_message lva flag vs ++ 0 :: 0 :: rest -> Zlen pre = ptr ->
  vs <> [] -> Forall vector_ok vs -> eof = ptr + Zlen (vid_message lva flag vs) + 2 ->
  (2 <= fuel)%nat -> (length vs < Z.to_nat MAX_FRAME_SIZE)%nat ->
  mvrp_recv_messages fuel buf src eof ptr 0 false s
  = (s ← deliver_vectors lva src vs s; Ret (Continue, s)).
Proof.
  intros Hbuf Hp Hne Hok -> Hf Hl. rewrite vid_message_len by done.
  rewrite (vectors_bytes_len false lva).
  assert (Hm : vid_message lva flag vs = [1; 2] ++ vectors_bytes lva vs ++ [0; 0])
    by (by destruct vs).
  rewrite Hm in Hbuf. rewrite <- !app_assoc in Hbuf. cbn [app] in Hbuf.
  destruct fuel as [|[|fuel]]; [lia.. |].
  cbn [mvrp_recv_messages]. unfold MRPDU_ENDMARK_SZ.
  rewrite (proj2 (Z.ltb_lt _ _)) by lia. cbn [negb].
  assert (Hr : rd buf ptr = Ret 1) by (rewrite Hbuf; by apply rd_app).
  assert (Hr1 : rd buf (ptr + 1) = Ret 2).
  { rewrite Hbuf, cons_middle, app_assoc. apply rd_app. rewrite length_app. cbn. lia. }
  rewrite Hr, Hr1, !res_bind_ret. cbn [andb Z.eqb MVRP_VID_TYPE Pos.eqb negb].
  rewrite (recv_vectors_deliver src _ vs _ buf (pre ++ [1; 2]) lva (0 :: 0 :: rest));
    auto; try done.
  - rewrite res_bind_assoc. apply res_bind_ext. intros s1. rewrite res_bind_ret.
    cbn beta iota. rewrite (proj2 (Z.ltb_lt _ _)) by lia. cbn [negb].
    set (q := ptr + 2 + Zlen (vectors_bytes lva vs)).
    assert (Hz : buf = (pre ++ [1; 2] ++ vectors_bytes lva vs) ++ 0 :: 0 :: 0 :: 0 :: rest)
      by (by rewrite Hbuf, <- !app_assoc).
    assert (Hr2 : rd buf q = Ret 0).
    { rewrite Hz. apply rd_app. rewrite !length_app. cbn [length]. lia. }
    assert (Hr3 : rd buf (q + 1) = Ret 0).
    { rewrite Hz, (cons_middle 0), app_assoc. apply rd_app.
      rewrite !length_app. cbn [length]. lia. }
    rewrite Hr2, Hr3, !res_bind_ret. cbn [andb Z.eqb].
    change (0 + 1 <? 2) with true. cbn iota.
    destruct fuel; cbn [mvrp_recv_messages]; unfold MRPDU_ENDMARK_SZ;
      by rewrite (proj2 (Z.ltb_ge _ _)) by (unfold q; lia).
  - by rewrite Hbuf, <- app_assoc.
  - rewrite length_app. cbn. lia.
  - lia.
Qed.

(** The header of an emitted frame is accepted, and its messages are parsed with
    the sender's address. *)
Lemma recv_header station lva flag vs tl s :
  length station = 6%nat ->
  let frame := mvrp_frame station lva flag vs in
  mvrp_recv_frame (Zlen frame) (frame ++ tl) s
  = ('(f, s) ← mvrp_recv_messages (Z.to_nat MAX_FRAME_SIZE) (frame ++ tl) station
                (MSG_LIST_OFF + Zlen frame - ETH_HDR_SZ - 1) MSG_LIST_OFF 0 false s;
     match f with
     | Continue => Ret (0, s)
     | GotoOut => Ret (-1, s)
     end).
Proof.
  intros Hs frame. unfold mvrp_recv_frame, ETH_HDR_SZ, MSG_LIST_OFF.
  pose proof (mvrp_frame_len station lva flag vs Hs) as Hfl. fold frame in Hfl.
  set (buf := frame ++ tl).
  assert (Hbuf : buf = mvrp_header station ++ vid_message lva flag vs ++ 0 :: 0 :: tl)
    by (unfold buf, frame, mvrp_frame; by rewrite <- !app_assoc).
  assert (Hh : mvrp_header station = (MVRP_CUSTOMER_BRIDGE_ADDR ++ station) ++ [136; 245; 0])
    by (unfold mvrp_header; by rewrite app_assoc).
  rewrite (proj2 (Z.leb_gt _ _)), (proj2 (Z.ltb_ge _ _)) by lia.
  assert (Ht : rd16 buf 12 = Ret MVRP_ETYPE).
  { rewrite Hbuf, Hh, <- app_assoc. cbn [app]. apply rd16_app.
    rewrite length_app, Hs. done. }
  assert (Hd : rd_list buf 0 6 = Ret MVRP_CUSTOMER_BRIDGE_ADDR).
  { rewrite Hbuf. unfold mvrp_header. rewrite <- app_assoc.
    by apply (rd_list_app [] MVRP_CUSTOMER_BRIDGE_ADDR). }
  assert (Hsr : rd_list buf 6 6 = Ret station).
  { rewrite Hbuf. unfold mvrp_header. rewrite <- !app_assoc, <- Hs at 1.
    by apply (rd_list_app MVRP_CUSTOMER_BRIDGE_ADDR). }
  rewrite Ht, res_bind_ret, Z.eqb_refl. cbn [negb].
  rewrite Hd, res_bind_ret, memcmp_refl. cbn [negb Z.eqb].
  by rewrite Hsr, res_bind_ret.
Qed.

(** Parsing an emitted frame in the receive buffer delivers its vectors. *)
Lemma recv_frame_deliver station lva flag vs s :
  length station = 6%nat -> vs <> [] -> Forall vector_ok vs ->
  let frame := mvrp_frame station lva flag vs in
  Zlen frame <= MAX_FRAME_SIZE ->
  mvrp_recv_frame (Zlen frame)
    (frame ++ replicate (Z.to_nat (MAX_FRAME_SIZE - Zlen frame)) 0) s
  = (s ← deliver_vectors lva station vs s; Ret (0, s)).
Proof.
  intros Hs Hne Hok frame Hlen. unfold frame. rewrite recv_header by done. fold frame.
  pose proof (mvrp_frame_len station lva flag vs Hs) as Hfl. fold frame in Hfl.
  pose proof (vid_message_len lva flag vs Hne) as Hml.
  set (tl := replicate _ 0). set (buf := frame ++ tl).
  assert (Hbuf : buf = mvrp_header station ++ vid_message lva flag vs ++ 0 :: 0 :: tl)
    by (unfold buf, frame, mvrp_frame; by rewrite <- !app_assoc).
  assert (Hcount : Zlen vs <= Zlen (vectors_bytes false vs)).
  { clear. generalize false. induction vs as [|[v es] vs IH]; intros b;
      cbn [vectors_bytes length]; [lia|].
    rewrite length_app. pose proof (vector_bytes_len b v es). specialize (IH false). lia. }
  unfold ETH_HDR_SZ, MSG_LIST_OFF.
  rewrite (recv_messages_deliver station _ vs _ buf (mvrp_header station) lva flag 15 tl);
    auto; unfold MAX_FRAME_SIZE in *; try lia.
  - rewrite res_bind_assoc. apply res_bind_ext. done.
  - by apply mvrp_header_len.
Qed.

(** An emitted frame that carries no vector is an empty LeaveAll: it is
    delivered, and parsing ends at its zero number of values. *)
Lemma recv_empty_deliver station lva tl s :
  length station = 6%nat ->
  let frame := mvrp_frame station lva true [] in
  mvrp_recv_frame (Zlen frame) (frame ++ tl) s
  = (s ← sink_event MRP_EVENT_RLA None s; Ret (-1, s)).
Proof.
  intros Hs frame. unfold frame. rewrite recv_header by done.
  destruct station as [|a [|b [|c [|d [|e [|f [|]]]]]]]; try done.
  set (buf := mvrp_frame _ _ _ _ ++ tl).
  assert (rd buf 15 = Ret 1 /\ rd buf 16 = Ret 2 /\ rd buf 17 = Ret 32 /\ rd buf 18 = Ret 0)
    as (H15 & H16 & H17 & H18) by done.
  assert (Hh : rd16 buf 17 = Ret 8192) by done.
  destruct (Z.to_nat MAX_FRAME_SIZE) as [|n] eqn:Hn; [done|].
  cbn [mvrp_recv_messages].
  change (MSG_LIST_OFF <? _ - MRPDU_ENDMARK_SZ) with true. cbn [negb].
  change (MSG_LIST_OFF + 1) with 16. change MSG_LIST_OFF with 15.
  rewrite H15, res_bind_ret, H16, res_bind_ret. cbn [Z.eqb andb negb Pos.eqb MVRP_VID_TYPE].
  rewrite Hn. cbn [mvrp_recv_vectors]. change (15 + 2) with 17. change (17 + 1) with 18.
  rewrite H17, res_bind_ret, H18, res_bind_ret. cbn [Z.eqb andb].
  rewrite Hh, res_bind_ret. change (MRPDU_VECT_LVA 8192) with true.
  change (MRPDU_VECT_NUMVALUES 8192) with 0. cbn [andb negb].
  destruct (sink_event _ _ _); reflexivity.
Qed.

(** What the application behind the parser sees of a frame. *)
Definition deliver_pdu (lva : bool) (src : list Z) (vs : list (Z * list Z)) (s : S)
  : res (Z * S) :=
  match vs with
  | [] => s ← sink_event MRP_EVENT_RLA None s; Ret (-1, s)
  | _ :: _ => s ← deliver_vectors lva src vs s; Ret (0, s)
  end.

Lemma recv_pdu_deliver station lva flag vs s :
  length station = 6%nat -> Forall vector_ok vs -> vid_message lva flag vs <> [] ->
  let frame := mvrp_frame station lva flag vs in
  Zlen frame <= MAX_FRAME_SIZE ->
  mvrp_recv_frame (Zlen frame)
    (frame ++ replicate (Z.to_nat (MAX_FRAME_SIZE - Zlen frame)) 0) s
  = deliver_pdu lva station vs s.
Proof.
  intros Hs Hok Hm frame Hlen. destruct vs as [|v vs]; [|by apply recv_frame_deliver].
  destruct flag; [by apply recv_empty_deliver | done].
Qed.

End Agree.
