(* ===== verification/MvrpProps.v ===== *)
(** * Correctness of the MVRP database

    The attribute list implements a finite map sorted by VID; every operation
    keeps the database invariant and the timer invariants; received and local
    events act on one VID only; transmissions announce what is due. *)

From S2P Require Import Prelude Os Mrp MrpProps Attr AttrProps AppProps Mvrp MvrpEmit MvrpRecv.
From Stdlib Require Import ZArith Lia Sorted.
From stdpp Require Import base tactics sets list strings option gmap.
Open Scope Z_scope.

Definition vid_range (vid : Z) : Prop := 0 <= vid < 65536.

Abbreviation vlist_ok := (list_ok Z.lt vid_range).
Abbreviation db_ok := (app_ok vlist_ok).
Abbreviation ev_post := (app_post vlist_ok).

(** ** The list as a sorted map *)

Lemma mvrp_lookup_split l vid :
  match mvrp_lookup l vid with
  | None => Forall (fun a => key a <> vid) l
  | Some a => key a = vid /\ exists l1 l2, l = l1 ++ a :: l2
                /\ Forall (fun x => key x <> vid) l1
  end.
Proof.
  induction l as [|b l IH]; cbn; [done|].
  destruct (Z.eqb_spec (key b) vid) as [E|E].
  - split; [done|]. by exists [], l.
  - destruct (mvrp_lookup l vid) as [a|]; [|by constructor].
    destruct IH as (Hk & l1 & l2 & -> & Hl1). split; [done|].
    exists (b :: l1), l2. split; [done|]. by constructor.
Qed.

Lemma mvrp_add_split r l :
  Forall (fun a => key a <> key r) l -> StronglySorted Z.lt (key <$> l) ->
  exists l1 l2, l = l1 ++ l2 /\ mvrp_add r l = l1 ++ r :: l2
    /\ Forall (fun a => key a < key r) l1 /\ Forall (fun a => key r < key a) l2.
Proof.
  induction l as [|a l IH]; intros Hne Hs; [by exists [], []|].
  apply Forall_cons_iff in Hne as [Ha Hne].
  cbn in Hs. apply StronglySorted_inv in Hs as [Hs Hlt].
  cbn [mvrp_add]. destruct (Z.ltb_spec (key a) (key r)).
  - destruct l as [|b l].
    + exists [a], []. split_and!; auto.
    + destruct (IH Hne Hs) as (l1 & l2 & -> & -> & H1 & H2).
      exists (a :: l1), l2. split_and!; auto.
  - exists [], (a :: l). split_and!; auto. constructor; [lia|].
    rewrite Forall_fmap in Hlt. eapply Forall_impl; [apply Hlt|]. cbn. intros; lia.
Qed.

Lemma mvrp_merge_split r l1 a l2 :
  Forall (fun x => key x <> key r) l1 -> key a = key r ->
  mvrp_merge r (l1 ++ a :: l2)
  = l1 ++ set_macaddr (reg_macaddr (registrar r)) a :: l2.
Proof.
  intros Hl Ha. induction Hl as [|x l1 Hx _ IH]; cbn [app mvrp_merge].
  - by rewrite Ha, Z.eqb_refl.
  - by rewrite (proj2 (Z.eqb_neq _ _) Hx), IH.
Qed.

Lemma sorted_insert (l1 l2 : list Z) (k : Z) :
  StronglySorted Z.lt (l1 ++ l2) -> Forall (fun x => x < k) l1 ->
  Forall (fun x => k < x) l2 -> StronglySorted Z.lt (l1 ++ k :: l2).
Proof.
  induction l1 as [|x l1 IH]; cbn; intros Hs H1 H2.
  - by constructor.
  - apply StronglySorted_inv in Hs as [Hs Hx]. inversion_clear H1 as [|?? Hxk Hr].
    constructor; auto. rewrite Forall_app in *. destruct Hx as [Hx1 Hx2].
    split; [done|]. by constructor.
Qed.

(** The attribute [mvrp_event] works on after add or merge: its place in the
    list, and how the list relates to the old one. *)
Definition target (r : mvrp_attribute) (l : list mvrp_attribute) : mvrp_attribute :=
  match mvrp_lookup l (key r) with
  | None => r
  | Some a => set_macaddr (reg_macaddr (registrar r)) a
  end.

Lemma target_split r l :
  vlist_ok l -> vid_range (key r) -> attr_fresh r ->
  exists l1 l2,
    match mvrp_lookup l (key r) with
    | None => mvrp_add r l
    | Some _ => mvrp_merge r l
    end = l1 ++ target r l :: l2
    /\ l = l1 ++ option_list (mvrp_lookup l (key r)) ++ l2
    /\ key (target r l) = key r
    /\ Forall (fun x => key x < key r) l1 /\ Forall (fun x => key r < key x) l2
    /\ vlist_ok (l1 ++ target r l :: l2).
Proof.
  intros [Hs Hk Hw] Hr (Hwr & _ & _). unfold target.
  pose proof (mvrp_lookup_split l (key r)) as Hl.
  destruct (mvrp_lookup l (key r)) as [a|].
  - destruct Hl as (Ha & l1 & l2 & -> & Hl1). exists l1, l2.
    rewrite fmap_app, fmap_cons in Hs, Hk.
    assert (Hs12 : Forall (fun x => x < key r) (key <$> l1)
                   /\ Forall (fun x => key r < x) (key <$> l2)).
    { rewrite <- Ha. clear -Hs. induction l1 as [|x l1 IH]; cbn in *.
      - apply StronglySorted_inv in Hs as [_ Hlt]. by split.
      - apply StronglySorted_inv in Hs as [Hs Hx]. destruct (IH Hs) as [H1 H2].
        split; [|done]. constructor; [|done]. rewrite Forall_app in Hx.
        destruct Hx as [_ Hx]. by inversion_clear Hx. }
    destruct Hs12 as [H1 H2]. rewrite Forall_fmap in H1, H2.
    split_and!; auto; [by apply mvrp_merge_split|].
    rewrite Forall_app, Forall_cons_iff in Hw. destruct Hw as (Hw1 & Hwa & Hw2).
    split; rewrite ?fmap_app, ?fmap_cons; auto.
    rewrite Forall_app, Forall_cons_iff. split_and!; auto.
    apply set_registrar_wf; [apply Hwr | done].
  - destruct (mvrp_add_split r l Hl Hs) as (l1 & l2 & -> & -> & H1 & H2).
    exists l1, l2. rewrite Forall_app in Hw. destruct Hw as [Hw1 Hw2].
    rewrite fmap_app in Hs, Hk. rewrite Forall_app in Hk. destruct Hk as [Hk1 Hk2].
    split_and!; auto. split; rewrite ?fmap_app, ?fmap_cons.
    + apply sorted_insert; [done | by rewrite Forall_fmap..].
    + rewrite Forall_app, Forall_cons_iff. auto.
    + rewrite Forall_app, Forall_cons_iff. auto.
Qed.

(** The finite map the list stands for. *)
Definition vid_map (l : list mvrp_attribute) : gmap Z mvrp_attribute :=
  list_to_map ((fun a => (key a, a)) <$> l).

Lemma vid_map_lookup l vid : vid_map l !! vid = mvrp_lookup l vid.
Proof.
  induction l as [|a l IH]; [done|]. unfold vid_map in *. cbn.
  destruct (Z.eqb_spec (key a) vid) as [<-|Hne].
  - by rewrite lookup_insert_eq.
  - by rewrite lookup_insert_ne.
Qed.

(** ** The event handlers *)
Section Events.
Context {os : OS}.

Lemma mvrp_send_quiet a n m : m_quiet m (mvrp_send_notifications a n m).
Proof.
  destruct m as [d w]. unfold mvrp_send_notifications, malloc. cbn [m_w m_db].
  assert (H3 : w_extends w (step_tick (step_tick (step_tick w)))).
  { do 2 (etransitivity; [apply w_extends_tick|]). apply w_extends_tick. }
  destruct (os_malloc _); cbn [negb]; [|apply m_quiet_world, w_extends_tick].
  destruct (negb _); [by apply m_quiet_world|].
  destruct (mvrp_notify_text a n); apply m_quiet_world; [|done].
  etransitivity; [done | apply send_all_extends].
Qed.

Lemma mvrp_reclaim_spec a m :
  m_quiet m (mvrp_conditional_reclaim a m).2
  /\ (mvrp_conditional_reclaim a m).1 = if reclaimable a then None else Some a.
Proof.
  unfold mvrp_conditional_reclaim.
  destruct (reclaimable a); cbn [fst snd]; (split; [|done]); [apply mvrp_send_quiet | reflexivity].
Qed.

(** Local notifications: nothing changes but the [notify] fields. *)
Lemma mvrp_notify_all_spec s :
  m_quiet (get_mst s) (get_mst (mvrp_notify_all s))
  /\ attrib_list (db (mvrp_notify_all s))
     = set_notify MRP_NOTIFY_NONE <$> attrib_list (db s)
  /\ send_empty_LeaveAll_flag (db (mvrp_notify_all s)) = send_empty_LeaveAll_flag (db s).
Proof. apply (notify_handler_spec mvrp_send_notifications mvrp_send_quiet). Qed.

Lemma ev_post_notify s s' : ev_post s s' -> ev_post s (mvrp_notify_all s').
Proof. apply (app_post_notify vlist_ok mvrp_send_notifications mvrp_send_quiet). Qed.

Lemma mvrp_event_rla_post s : db_ok s -> ev_post s (mvrp_event_rla s).
Proof. apply (rla_handler_post vlist_ok (attr_both_fsm MRP_EVENT_RLA)), attr_both_kept. Qed.

Lemma mvrp_event_periodic_post s : db_ok s -> ev_post s (mvrp_event_periodic s).
Proof. apply (periodic_handler_post vlist_ok). Qed.

Lemma mvrp_event_lvtimer_post s : db_ok s -> ev_post s (mvrp_event_lvtimer s).
Proof.
  apply (lvtimer_handler_post vlist_ok). intros a m.
  destruct (attr_registrar_kept MRP_EVENT_LVTIMER a m) as (Hq & Hk & _).
  pose proof (lvtimer_none_leaving a m) as Hn.
  destruct (attr_registrar_fsm _ a m) as [a' m']. cbn [fst snd] in *.
  destruct (mvrp_reclaim_spec a' m') as [Hq2 Ho].
  split; [by etransitivity|]. rewrite Ho. destruct (reclaimable a'); [done|].
  split; [by eapply attr_kept_mono | done].
Qed.

Lemma vlist_emit_wf l : vlist_ok l -> Forall emit_wf l.
Proof.
  intros [_ Hk Hw]. rewrite Forall_fmap in Hk.
  induction l; [done|]. inversion_clear Hk. inversion_clear Hw as [|?? [??] ?].
  constructor; [by split | auto].
Qed.

Lemma txpdu_kept sock s :
  vlist_ok (attrib_list (db s)) -> station_ok (wld s) ->
  returns (mvrp_txpdu sock s) (fun '(_, s') => tx_keeps s s').
Proof.
  intros Hl Hst. eapply returns_mono; [apply txpdu_spec; auto using vlist_emit_wf|].
  intros [rc s'] (Hcl & Hf & Hd & Hw & _). split_and!; auto using tx_cleared_kept.
  1: split; cbn; auto; rewrite Hd; by destruct (os_malloc _).
  1-3: rewrite Hd; by destruct (os_malloc _).
  clear -Hcl. induction Hcl as [|a a' l l' [-> | ->] _ IH]; cbn; congruence.
Qed.

Lemma mvrp_event_tx_post sock s :
  db_ok s -> returns (mvrp_event_tx sock s) (ev_post s).
Proof. apply (tx_handler_post vlist_ok (mvrp_txpdu sock)). intros s0 _. apply txpdu_kept. Qed.

Lemma mvrp_event_lvatimer_post sock s :
  db_ok s -> returns (mvrp_event_lvatimer sock s) (ev_post s).
Proof. apply (lvatimer_handler_post vlist_ok (mvrp_txpdu sock)). intros s0 _. apply txpdu_kept. Qed.

(** The attribute an event leaves behind: [None] when it is reclaimed. *)
Definition event_result (event : mrp_event) (r : mvrp_attribute)
    (l : list mvrp_attribute) (m : mst) : option mvrp_attribute :=
  let a' := (attr_event event (target r l) m).1 in
  if reclaimable a' then None else Some a'.

Lemma event_attribute_spec event r s :
  vlist_ok (attrib_list (db s)) -> vid_range (key r) -> attr_fresh r ->
  let l := attrib_list (db s) in
  let m1 := (mrp_jointimer_start (get_mst s)).2 in
  let a' := (attr_event event (target r l) m1).1 in
  exists s' l1 l2, mvrp_event_attribute event (Some r) s = (0, s')
    /\ l = l1 ++ option_list (mvrp_lookup l (key r)) ++ l2
    /\ attrib_list (db s') = l1 ++ option_list (event_result event r l m1) ++ l2
    /\ Forall (fun x => key x < key r) l1 /\ Forall (fun x => key r < key x) l2
    /\ m_quiet m1 (get_mst s')
    /\ send_empty_LeaveAll_flag (db s') = send_empty_LeaveAll_flag (db s)
    /\ attr_kept (target r l) a' (get_mst s') /\ key (target r l) = key r
    /\ vlist_ok (l1 ++ target r l :: l2).
Proof.
  intros Hl Hr Hf l m1 a'.
  destruct (target_split r l Hl Hr Hf) as (l1 & l2 & Hadd & Hold & Hk & H1 & H2 & Hok).
  unfold mvrp_event_attribute. subst m1.
  destruct (mrp_jointimer_start (get_mst s)) as [rc m1]. cbn [snd] in *.
  fold l. rewrite Hadd.
  rewrite (upd_first_split (Z.eqb (key r))).
  2: { eapply Forall_impl; [apply H1|]. cbn. intros x Hx. apply Z.eqb_neq. lia. }
  2: { rewrite Hk. apply Z.eqb_refl. }
  destruct (attr_event_kept event (target r l) m1) as [Hq Hkept]. unfold a' in *.
  unfold event_result. destruct (attr_event event (target r l) m1) as [a m2].
  cbn [fst snd] in *. destruct (mvrp_reclaim_spec a m2) as [Hq2 ->].
  eexists _, l1, l2. split; [done|]. cbn.
  assert (Hm : forall m, Mst (m_db m) (m_w m) = m) by (by intros []).
  unfold get_mst. cbn. rewrite Hm.
  split_and!; auto; [by etransitivity | by eapply attr_kept_mono..].
Qed.

Lemma target_not_leaving r l :
  attr_fresh r -> leaving (target r l) ->
  exists x, mvrp_lookup l (key r) = Some x /\ leaving x.
Proof.
  intros (_ & _ & Hmt). unfold target, leaving.
  destruct (mvrp_lookup l (key r)) as [a|]; [by eauto|]. rewrite Hmt. done.
Qed.

Lemma mvrp_event_attribute_post event r s :
  db_ok s -> vid_range (key r) -> attr_fresh r ->
  ev_post s (mvrp_event_attribute event (Some r) s).2.
Proof.
  intros Hok Hr Hf.
  destruct (event_attribute_spec event r s (proj1 Hok) Hr Hf)
    as (s' & l1 & l2 & -> & Hold & Hnew & H1 & H2 & Hq & Hf' & Hk & _ & Hli). cbn [snd].
  eapply app_post_attribute; eauto.
  - set (a' := (attr_event event _ _).1) in *.
    apply (list_ok_sublist _ _ (l1 ++ a' :: l2)).
    + rewrite Hnew. unfold event_result. fold a'.
      destruct (reclaimable a'); cbn [option_list app]; [|done].
      apply sublist_app; [done|]. by constructor.
    + eapply list_ok_kept, Hli. apply Forall2_app; [apply kept_refl|].
      constructor; [done | apply kept_refl].
  - unfold event_result. intros Ht a. destruct (reclaimable _); [done|]. intros [= <-] Ha.
    destruct Hk as (_ & _ & Hk). destruct (Hk Ht Ha) as [Hl|]; [|by right].
    left. by apply target_not_leaving.
Qed.

(** A NULL attribute only starts the join timer. *)
Lemma mvrp_event_null_post event s :
  db_ok s -> ev_post s (mvrp_event_attribute event None s).2.
Proof.
  intros Hok%(null_post vlist_ok). unfold mvrp_event_attribute.
  by destruct (mrp_jointimer_start (get_mst s)).
Qed.

(** Every event keeps the invariants. *)
Lemma mvrp_event_post sock event rattrib s :
  db_ok s -> (forall r, rattrib = Some r -> vid_range (key r) /\ attr_fresh r) ->
  returns (mvrp_event sock event rattrib s) (fun '(_, s') => ev_post s s').
Proof.
  intros Hok Hra.
  assert (Hid : ev_post s s) by (split; [done|]; split; [done | auto]).
  assert (Hat : ev_post s (mvrp_event_attribute event rattrib s).2).
  { destruct rattrib as [r|]; [|by apply mvrp_event_null_post].
    destruct (Hra r eq_refl). by apply mvrp_event_attribute_post. }
  assert (Hatt : returns (let '(rc, s') := mvrp_event_attribute event rattrib s in
    if rc =? -1 then Ret (-1, s') else Ret (0, mvrp_notify_all s'))
    (fun '(_, s') => ev_post s s')).
  { destruct (mvrp_event_attribute event rattrib s) as [rc s']. cbn [snd] in Hat.
    destruct (rc =? -1); cbn; auto using ev_post_notify. }
  destruct event; cbn [mvrp_event]; auto using ev_post_notify;
    try (apply ev_post_notify; auto using mvrp_event_rla_post, mvrp_event_lvtimer_post,
         mvrp_event_periodic_post).
  - eapply returns_bind; [by apply mvrp_event_tx_post|]. intros s'. apply ev_post_notify.
  - eapply returns_bind; [by apply mvrp_event_lvatimer_post|]. intros s'.
    apply ev_post_notify.
Qed.

(** ** The effect of an event on the map *)

Lemma vid_map_middle l1 o l2 vid :
  Forall (fun x => key x < vid) l1 -> Forall (fun x => vid < key x) l2 ->
  (forall a, o = Some a -> key a = vid) ->
  vid_map (l1 ++ option_list o ++ l2) !! vid = o
  /\ forall k, k <> vid -> vid_map (l1 ++ option_list o ++ l2) !! k = vid_map (l1 ++ l2) !! k.
Proof.
  intros H1 H2 Ho. split.
  - rewrite vid_map_lookup. induction H1 as [|x l1 Hx _ IH]; cbn.
    + destruct o as [a|]; cbn.
      * by rewrite (Ho a eq_refl), Z.eqb_refl.
      * induction H2 as [|x l2 Hx _ IH]; cbn; [done|].
        by rewrite (proj2 (Z.eqb_neq _ _)) by lia.
    + by rewrite (proj2 (Z.eqb_neq _ _)) by lia.
  - intros k Hk. rewrite !vid_map_lookup. induction l1 as [|x l1 IH]; cbn.
    + destruct o as [a|]; [|done]. cbn.
      by rewrite (proj2 (Z.eqb_neq _ _)) by (rewrite (Ho a eq_refl); done).
    + inversion_clear H1. by rewrite IH.
Qed.

Lemma vid_map_notify l vid :
  vid_map (set_notify MRP_NOTIFY_NONE <$> l) !! vid
  = set_notify MRP_NOTIFY_NONE <$> vid_map l !! vid.
Proof.
  rewrite !vid_map_lookup. induction l as [|a l IH]; [done|]. cbn.
  by destruct (key a =? vid).
Qed.

Definition attribute_event (e : mrp_event) : bool :=
  match e with
  | MRP_EVENT_NEW | MRP_EVENT_JOIN | MRP_EVENT_RNEW | MRP_EVENT_RJOININ
  | MRP_EVENT_RJOINMT | MRP_EVENT_LV | MRP_EVENT_RIN | MRP_EVENT_RMT
  | MRP_EVENT_RLV => true
  | _ => false
  end.

(** An attribute event changes the map at its VID, to what the attribute state
    machines compute, and nowhere else. *)
Lemma event_map_effect sock event r s :
  attribute_event event = true -> vlist_ok (attrib_list (db s)) ->
  vid_range (key r) -> attr_fresh r ->
  let m1 := (mrp_jointimer_start (get_mst s)).2 in
  returns (mvrp_event sock event (Some r) s) (fun '(rc, s') =>
    rc = 0 /\ m_extends (get_mst s) (get_mst s') /\
    forall vid, vid_map (attrib_list (db s')) !! vid
      = set_notify MRP_NOTIFY_NONE <$>
          (if decide (vid = key r) then event_result event r (attrib_list (db s)) m1
           else vid_map (attrib_list (db s)) !! vid)).
Proof.
  intros He Hl Hr Hf m1.
  destruct (event_attribute_spec event r s Hl Hr Hf)
    as (s' & l1 & l2 & Heq & Hold & Hnew & H1 & H2 & Hq & _ & Hk & Hkey & _).
  fold m1 in Hnew, Hk, Hq.
  assert (Hev : mvrp_event sock event (Some r) s = Ret (0, mvrp_notify_all s')).
  { destruct event; try done; cbn [mvrp_event]; by rewrite Heq. }
  rewrite Hev. cbn [returns]. destruct (mvrp_notify_all_spec s') as (Hq' & Hlist & _).
  split; [done|]. split.
  { etransitivity; [apply (jointimer_start_spec (get_mst s))|]. fold m1.
    etransitivity; [apply Hq | apply Hq']. }
  intros vid. rewrite Hlist, vid_map_notify, Hnew. f_equal.
  destruct (vid_map_middle l1 (event_result event r (attrib_list (db s)) m1) l2 (key r))
    as [Hat Hne]; auto.
  { unfold event_result. intros a. destruct (reclaimable _); [done|]. intros [= <-].
    destruct Hk as (Hk & _). congruence. }
  case_decide as Hd; [by subst vid|]. rewrite (Hne _ Hd).
  destruct (vid_map_middle l1 (mvrp_lookup (attrib_list (db s)) (key r)) l2 (key r))
    as [_ Hne2]; auto.
  { intros a Ha. pose proof (mvrp_lookup_split (attrib_list (db s)) (key r)) as Hs.
    rewrite Ha in Hs. apply Hs. }
  by rewrite <- (Hne2 _ Hd), <- Hold.
Qed.

(** A received New or Join registers the VID for its sender. *)
Lemma join_result event r l m :
  event = MRP_EVENT_RNEW \/ event = MRP_EVENT_RJOININ \/ event = MRP_EVENT_RJOINMT ->
  exists a, event_result event r l m = Some a
    /\ reg_mrp_state (registrar a) = MRP_IN_STATE
    /\ reg_macaddr (registrar a) = reg_macaddr (registrar r).
Proof.
  intros He. unfold event_result, attr_event. set (a1 := attr_applicant_fsm _ _ _).
  assert (Hm : reg_macaddr (registrar a1) = reg_macaddr (registrar r)).
  { unfold a1, target. cbn. by destruct (mvrp_lookup l (key r)). }
  assert (Hreq : attr_request_registrar event a1 m = attr_registrar_fsm event a1 m)
    by (by destruct He as [-> | [-> | ->]]).
  rewrite Hreq. unfold attr_registrar_fsm.
  assert (Hin : reg_mrp_state (mrp_registrar_fsm (registrar a1) event m).1.2 = MRP_IN_STATE
    /\ reg_macaddr (mrp_registrar_fsm (registrar a1) event m).1.2
       = reg_macaddr (registrar a1)).
  { destruct (registrar a1) as [[] ? ?]; destruct He as [-> | [-> | ->]]; done. }
  destruct (mrp_registrar_fsm (registrar a1) event m) as [[rc r'] m'].
  cbn in Hin. destruct Hin as [Hin Hmac]. cbn [fst].
  unfold reclaimable. cbn. rewrite Hin. cbn. eexists. split; [done|].
  split; [exact Hin | exact (eq_trans Hmac Hm)].
Qed.

End Events.
