(* ===== verification/MvrpTheorems.v ===== *)
(** * The theorems on MVRP

    What the daemon promises about VLAN registration, from the attribute list
    up to two stations exchanging a frame. *)

From S2P Require Import Prelude Os Mrp MrpProps Attr AttrProps AppProps Mvrp MvrpEmit MvrpRecv MvrpProps.
From Stdlib Require Import ZArith Lia Sorted.
From stdpp Require Import base tactics sets list strings option gmap.
Open Scope Z_scope.

(** ** Which vectors a list calls for *)

(** Vectors in increasing, disjoint VID ranges from [lo] on. *)
Fixpoint vectors_from (lo : Z) (vs : list (Z * list Z)) : Prop :=
  match vs with
  | [] => True
  | v :: vs => lo <= v.1 /\ vector_ok v /\ vectors_from (v.1 + Zlen v.2) vs
  end.

(** Attributes still to transmit have VIDs from [lo] on. *)
Definition tx_above (lo : Z) (l : list mvrp_attribute) : Prop :=
  Forall (fun a => app_tx (applicant a) = true -> lo <= key a) l.

Definition legal_vids (l : list mvrp_attribute) : Prop := Forall vid_ok (key <$> l).

Lemma vid_run_spec l : forall vid,
  StronglySorted Z.lt (key <$> l) -> legal_vids l -> 0 <= vid <= 4095 ->
  Forall (fun k => vid < k) (key <$> l) ->
  let '(es, l') := vid_run vid l in
  key <$> l' = key <$> l /\ vid + Zlen es <= 4095
  /\ Forall (fun e => 0 <= e <= 5) es /\ tx_above (vid + 1 + Zlen es) l'
  /\ forall a, a ∈ l -> app_tx (applicant a) = true ->
       a ∈ l' \/ exists i : nat, es !! i = Some (attr_pdu_event a) /\ key a = vid + 1 + Z.of_nat i.
Proof.
  induction l as [|a l IH]; intros vid Hs Hv Hr Hlo; cbn [vid_run].
  { split_and!; auto; [cbn; lia | by apply Forall_nil]. }
  cbn in Hs. apply StronglySorted_inv in Hs as [Hs Hlt].
  unfold legal_vids in *. cbn in Hv, Hlo. apply Forall_cons_iff in Hv as [Hva Hv].
  apply Forall_cons_iff in Hlo as [Hla Hlo].
  rewrite u16_id by (unfold vid_ok in Hva; lia).
  destruct (app_tx (applicant a)) eqn:Htx; cbn [andb].
  2: { split_and!; auto; [cbn; lia|]. cbn [length].
       constructor; [congruence|]. rewrite Forall_fmap in Hlo.
       eapply Forall_impl; [apply Hlo|]. cbn. intros; lia. }
  destruct (Z.eqb_spec (key a) (vid + 1)) as [Hk|Hk].
  2: { split_and!; auto; [cbn; lia|]. cbn [length].
       constructor; [lia|]. rewrite Forall_fmap in Hlo.
       eapply Forall_impl; [apply Hlo|]. cbn. intros; lia. }
  specialize (IH (key a) Hs Hv Hva Hlt).
  destruct (vid_run (key a) l) as [es l']. destruct IH as (IH1 & IH2 & IH3 & IH4 & IH5).
  cbn [length]. split_and!.
  - cbn. by rewrite IH1.
  - lia.
  - constructor; [apply attr_pdu_event_range | done].
  - constructor; [done|]. eapply Forall_impl; [apply IH4|].
    cbn beta. intros x Hx Ht. specialize (Hx Ht). lia.
  - intros b [->|Hb]%elem_of_cons Htb.
    + right. exists 0%nat. cbn. split; [done | lia].
    + destruct (IH5 b Hb Htb) as [|(i & Hi & Hki)]; [left; set_solver|].
      right. exists (S i). cbn. split; [done | lia].
Qed.

Lemma vid_vectors_from n : forall l lo,
  StronglySorted Z.lt (key <$> l) -> legal_vids l -> tx_above lo l ->
  vectors_from lo (vid_vectors n l).
Proof.
  induction n as [|n IH]; intros l lo Hs Hv Hlo; [by destruct l|].
  destruct l as [|a l]; [done|]. cbn [vid_vectors].
  cbn in Hs. apply StronglySorted_inv in Hs as [Hs Hlt].
  unfold legal_vids in *. cbn in Hv. apply Forall_cons_iff in Hv as [Hva Hv].
  apply Forall_cons_iff in Hlo as [Hla Hlo].
  destruct (_ && _) eqn:Hsel; [|by apply IH].
  apply andb_true_iff in Hsel as [Htx _].
  pose proof (vid_run_spec l (key a) Hs Hv Hva Hlt) as Hrun.
  destruct (vid_run (key a) l) as [es l']. destruct Hrun as (Hk & Hb & He & Hab & _).
  cbn [vectors_from fst snd]. split; [auto|]. split.
  - split_and!; cbn [fst snd length]; [done | apply Hva | lia |].
    constructor; [apply attr_pdu_event_range | done].
  - apply IH; rewrite ?Hk; auto. cbn [length].
    eapply Forall_impl; [apply Hab|].
    cbn beta. intros x Hx Ht. specialize (Hx Ht). lia.
Qed.

(** Every mandatory announcement is in a vector, at its VID. *)
Lemma vid_vectors_complete n : forall l a,
  (length l <= n)%nat -> StronglySorted Z.lt (key <$> l) -> legal_vids l ->
  a ∈ l -> app_tx (applicant a) = true -> app_encode (applicant a) = MRP_ENCODE_YES ->
  exists v i, v ∈ vid_vectors n l /\ v.2 !! i = Some (attr_pdu_event a)
              /\ key a = v.1 + Z.of_nat i.
Proof.
  induction n as [|n IH]; intros l a Hn Hs Hv Ha Htx Hen;
    (destruct l as [|b l]; [set_solver|]); cbn [length] in Hn; [lia|]. cbn [vid_vectors].
  cbn in Hs. apply StronglySorted_inv in Hs as [Hs Hlt].
  unfold legal_vids in *. cbn in Hv. apply Forall_cons_iff in Hv as [Hva Hv].
  destruct (_ && _) eqn:Hsel.
  - pose proof (vid_run_spec l (key b) Hs Hv Hva Hlt) as Hrun.
    destruct (vid_run (key b) l) as [es l']. destruct Hrun as (Hk & _ & _ & _ & Hm).
    apply elem_of_cons in Ha as [->|Ha].
    { exists (key b, attr_pdu_event b :: es), 0%nat. cbn. split_and!; [set_solver | done | lia]. }
    destruct (Hm a Ha Htx) as [Hl'|(i & Hi & Hki)].
    + destruct (IH l' a) as (v & i & Hin & Hvi & Hki); rewrite ?Hk; auto.
      { assert (length (key <$> l') = length (key <$> l)) as Hlen by (by rewrite Hk).
        rewrite !length_fmap in Hlen. lia. }
      exists v, i. split_and!; [set_solver | done | done].
    + exists (key b, attr_pdu_event b :: es), (S i). cbn.
      split_and!; [set_solver | done | lia].
  - apply elem_of_cons in Ha as [->|Ha]; [|apply IH; auto; lia].
    by rewrite Htx, Hen in Hsel.
Qed.

Lemma vid_run_keys l : forall vid, key <$> (vid_run vid l).2 = key <$> l.
Proof.
  induction l as [|a l IH]; intros vid; cbn [vid_run]; [done|].
  destruct (_ && _); [|done]. specialize (IH (key a)).
  destruct (vid_run (key a) l). cbn in *. by rewrite IH.
Qed.

(** Every announcement in a vector is that of an attribute marked for
    transmission, at its VID. *)
Lemma vid_run_sound l : forall vid,
  legal_vids l -> 0 <= vid <= 4095 ->
  (forall (i : nat) e, (vid_run vid l).1 !! i = Some e -> exists a, a ∈ l
     /\ app_tx (applicant a) = true /\ attr_pdu_event a = e
     /\ key a = vid + 1 + Z.of_nat i)
  /\ forall a, a ∈ (vid_run vid l).2 -> app_tx (applicant a) = true -> a ∈ l.
Proof.
  unfold legal_vids. induction l as [|a l IH]; intros vid Hv Hr; cbn [vid_run]; [done|].
  cbn in Hv. apply Forall_cons_iff in Hv as [Hva Hv]. rewrite u16_id by lia.
  destruct (app_tx (applicant a)) eqn:Htx; cbn [andb]; [|done].
  destruct (Z.eqb_spec (key a) (vid + 1)) as [Hk|Hk]; [|done].
  destruct (IH (key a) Hv) as [IH1 IH2]; [unfold vid_ok in Hva; lia|].
  destruct (vid_run (key a) l) as [es l']. cbn [fst snd] in *. split.
  - intros [|i] e; cbn.
    + intros [= <-]. exists a. split_and!; [set_solver | done | done | lia].
    + intros Hi. destruct (IH1 i e Hi) as (b & Hb & Htb & He & Hkb).
      exists b. split_and!; [set_solver | done | done | lia].
  - intros b [->|Hb]%elem_of_cons Htb; [done | set_solver].
Qed.

Lemma vid_vectors_sound n : forall l v (i : nat) e,
  legal_vids l -> v ∈ vid_vectors n l -> v.2 !! i = Some e ->
  exists a, a ∈ l /\ app_tx (applicant a) = true /\ attr_pdu_event a = e
            /\ key a = v.1 + Z.of_nat i.
Proof.
  unfold legal_vids.
  induction n as [|n IH]; intros l v i e Hl Hv Hi; (destruct l as [|a l]; [set_solver|]);
    cbn [vid_vectors] in Hv; [set_solver|]. cbn in Hl. apply Forall_cons_iff in Hl as [Hva Hl].
  destruct (app_tx (applicant a)) eqn:Htx; cbn [andb] in Hv.
  2: { destruct (IH l v i e Hl Hv Hi) as (b & Hb & Hrest). exists b. set_solver. }
  destruct (bool_decide _).
  2: { destruct (IH l v i e Hl Hv Hi) as (b & Hb & Hrest). exists b. set_solver. }
  destruct (vid_run_sound l (key a) Hl Hva) as [H1 H2].
  pose proof (vid_run_keys l (key a)) as Hk.
  destruct (vid_run (key a) l) as [es l']. cbn [fst snd] in *.
  apply elem_of_cons in Hv as [->|Hv].
  - destruct i as [|i]; cbn in Hi.
    + injection Hi as <-. exists a. cbn. split_and!; [set_solver | done | done | lia].
    + destruct (H1 i e Hi) as (b & Hb & Htb & He & Hkb). exists b. cbn.
      split_and!; [set_solver | done | done | lia].
  - destruct (IH l' v i e) as (b & Hb & Htb & Hrest); [by rewrite Hk | done | done |].
    exists b. specialize (H2 b Hb Htb). set_solver.
Qed.

(** Five bytes per attribute always suffice. *)
Lemma vid_run_size l : forall vid,
  let '(es, l') := vid_run vid l in
  length l' = length l
  /\ (length es + length (filter (fun a => app_tx (applicant a) = true) l')
      <= length (filter (fun a => app_tx (applicant a) = true) l))%nat.
Proof.
  induction l as [|a l IH]; intros vid; cbn [vid_run]; [done|].
  destruct (app_tx (applicant a)) eqn:Htx; cbn [andb]; [|by split].
  destruct (_ =? _); [|by split].
  specialize (IH (key a)). destruct (vid_run (key a) l) as [es l'].
  destruct IH as [IH1 IH2]. split; [cbn; congruence|].
  rewrite !filter_cons. rewrite decide_False by done. rewrite decide_True by done.
  cbn. lia.
Qed.

Lemma vid_vectors_size n : forall l b,
  Zlen (vectors_bytes b (vid_vectors n l))
  <= 5 * Zlen (filter (fun a => app_tx (applicant a) = true) l).
Proof.
  induction n as [|n IH]; intros l b; [destruct l; cbn; lia|].
  destruct l as [|a l]; [cbn; lia|]. cbn [vid_vectors].
  destruct (app_tx (applicant a)) eqn:Htx; cbn [andb].
  - rewrite filter_cons_True by done. cbn [length].
    destruct (bool_decide _); [|specialize (IH l b); lia].
    pose proof (vid_run_size l (key a)) as Hr. destruct (vid_run (key a) l) as [es l'].
    cbn [vectors_bytes]. rewrite length_app, Nat2Z.inj_add, vector_bytes_len.
    specialize (IH l' false). pose proof (pack_lengths (attr_pdu_event a :: es)) as Hp.
    rewrite pack_events_lengths. cbn [length] in Hp. destruct (decide _); lia.
  - rewrite filter_cons_False by congruence. apply IH.
Qed.

(** ** The database behind the parser *)
Section Sink.
Context {os : OS}.

Lemma ev_post_refl s : db_ok s -> ev_post s s.
Proof. apply app_post_refl. Qed.

Lemma ev_post_trans s1 s2 s3 : ev_post s1 s2 -> ev_post s2 s3 -> ev_post s1 s3.
Proof. apply app_post_trans. Qed.

Lemma ev_post_world s w :
  w_extends (wld s) w -> db_ok s -> ev_post s (put_mst (Mst (mrp_db (db s)) w) s).
Proof. apply app_post_world. Qed.

(** The database discharges the promise of the parser interface, with its
    invariant relative to the state [s0] before the frame. *)
Lemma mvrp_sink_ok sock s0 :
  @EventSinkOk Z mvrp_ast _ (mvrp_sink sock) vid_ok (ev_post s0).
Proof.
  split.
  - intros s Hs. cbn. eapply ev_post_trans; [done|].
    apply ev_post_world; [apply w_extends_tick | apply Hs].
  - intros e a s Hs _ Ha. cbn [sink_event mvrp_sink].
    eapply returns_bind; [apply mvrp_event_post; [apply Hs|]|].
    { intros r ->. destruct (Ha r eq_refl) as [Hk Hf]. split; [|done].
      unfold vid_range, vid_ok in *. lia. }
    intros [rc s'] Hp. cbn. by eapply ev_post_trans.
Qed.

Lemma recvmsgbuf_spec r w :
  (forall data, r = RecvBytes data -> bytes_ok data) ->
  let '(bytes, buf, w') := mrpd_recvmsgbuf r w in
  w' = step_tick w /\ match buf with
  | None => True
  | Some b => length b = Z.to_nat MAX_FRAME_SIZE /\ bytes_ok b
  end /\ (forall data, r = RecvBytes data -> bytes <= Zlen data) /\ bytes <= MAX_FRAME_SIZE.
Proof.
  intros Hr. unfold mrpd_recvmsgbuf, malloc.
  destruct (os_malloc _); cbn [negb]; [|split_and!; auto; [intros; lia | done]].
  assert (Hz : bytes_ok (replicate (Z.to_nat MAX_FRAME_SIZE) 0)).
  { apply Forall_replicate. lia. }
  destruct r as [|data].
  - split_and!; auto using length_replicate; [done | done].
  - destruct (_ =? 0).
    + split_and!; auto using length_replicate; [intros; lia | done].
    + split_and!; auto.
      * rewrite length_app, length_drop, length_take, length_replicate. lia.
      * unfold bytes_ok. apply Forall_app. split; [by apply Forall_take, Hr|].
        by apply Forall_drop.
      * intros ? [= <-]. rewrite length_take. lia.
      * rewrite length_take. unfold MAX_FRAME_SIZE. lia.
Qed.

Lemma recvmsgbuf_bound r w n :
  0 <= n -> (forall data, r = RecvBytes data -> Zlen data <= n) ->
  (mrpd_recvmsgbuf r w).1.1 <= n.
Proof.
  intros Hn Hr. unfold mrpd_recvmsgbuf, malloc. destruct (negb _); [cbn; lia|].
  destruct r as [e|data]; [cbn; lia|]. specialize (Hr data eq_refl).
  destruct (_ =? 0); cbn [fst]; [lia|]. rewrite length_take. lia.
Qed.

Lemma recv_msg_safe sock r s :
  db_ok s ->
  (forall data, r = RecvBytes data -> bytes_ok data /\ Zlen data <= MAX_FRAME_SIZE - 4) ->
  returns (mvrp_recv_msg sock r s)
    (fun '(rc, s') => (rc = 0 \/ rc = -1) /\ ev_post s s').
Proof.
  intros Hs Hr. unfold mvrp_recv_msg.
  pose proof (recvmsgbuf_spec r (wld s) (fun d E => proj1 (Hr d E))) as Hb.
  assert (Hbytes : (mrpd_recvmsgbuf r (wld s)).1.1 <= MAX_FRAME_SIZE - 4).
  { apply recvmsgbuf_bound; [done|]. intros d E. apply (Hr d E). }
  destruct (mrpd_recvmsgbuf r (wld s)) as [[bytes buf] w]. destruct Hb as (-> & Hb & _).
  cbn [fst] in Hbytes.
  assert (Hp : ev_post s (put_mst (Mst (mrp_db (db s)) (step_tick (wld s))) s))
    by (apply ev_post_world; [apply w_extends_tick | done]).
  destruct buf as [b|]; [|cbn; auto]. destruct Hb as [Hlen Hbo].
  exact (recv_frame_safe (ok := mvrp_sink_ok sock s) bytes b _ Hlen Hbo Hbytes Hp).
Qed.

(** ** What a received vector does to the database *)

(** VID [vid] is registered, with the sender's address [src]. *)
Definition registered_by (s : mvrp_ast) (vid : Z) (src : list Z) : Prop :=
  exists a, vid_map (attrib_list (db s)) !! vid = Some a
    /\ reg_mrp_state (registrar a) = MRP_IN_STATE /\ reg_macaddr (registrar a) = src.

(** The codes of New, JoinIn and JoinMt. *)
Definition declares_code (e : Z) : Prop := e = 0 \/ e = 1 \/ e = 3.

Lemma code_event e : 0 <= e <= 5 ->
  exists ev, mrpdu_event e = Some ev /\ attribute_event ev = true
  /\ (declares_code e -> ev = MRP_EVENT_RNEW \/ ev = MRP_EVENT_RJOININ
                         \/ ev = MRP_EVENT_RJOINMT).
Proof.
  intros He. assert (e = 0 \/ e = 1 \/ e = 2 \/ e = 3 \/ e = 4 \/ e = 5) as Hc by lia.
  unfold declares_code. destruct_or? Hc; subst; eexists; cbn; (split; [done|]);
    (split; [done|]); lia || auto.
Qed.

Lemma deliver_one_effect sock src vid e s :
  db_ok s -> vid_ok vid -> 0 <= e <= 5 -> length src = 6%nat ->
  returns (deliver_one (sink := mvrp_sink sock) src vid e s) (fun s' =>
    db_ok s' /\ (declares_code e -> registered_by s' vid src)
    /\ forall v, v <> vid -> registered_by s v src -> registered_by s' v src).
Proof.
  intros Hs Hv He Hl. unfold deliver_one.
  destruct (code_event e He) as (ev & -> & Hat & Hdecl).
  set (s1 := (sink_malloc s).2). set (r := set_macaddr src _).
  assert (Hp1 : ev_post s s1) by (apply ev_post_world; [apply w_extends_tick | done]).
  assert (Hlist : attrib_list (db s1) = attrib_list (db s)) by done.
  destruct Hp1 as (Hok1 & _ & _). cbn [sink_event mvrp_sink].
  assert (Hrange : vid_range (key r)) by (unfold vid_range, vid_ok in *; cbn; lia).
  assert (Hfr : attr_fresh r) by done.
  pose proof (mvrp_event_post sock ev (Some r) s1 Hok1) as Hpost.
  pose proof (event_map_effect sock ev r s1 Hat (proj1 Hok1) Hrange Hfr) as Hmap.
  destruct (mvrp_event sock ev (Some r) s1) as [[rc s2]|].
  2: { destruct Hmap. }
  cbn [returns] in Hpost, Hmap. destruct Hmap as (_ & _ & Hmap).
  rewrite res_bind_ret. cbn [returns].
  split; [|split].
  - apply Hpost. by intros ? [= <-].
  - intros Hd. unfold registered_by. rewrite Hmap, decide_True by done.
    destruct (join_result ev r (attrib_list (db s1)) (mrp_jointimer_start (get_mst s1)).2
      (Hdecl Hd)) as (a & -> & Hin & Hmac).
    exists (set_notify MRP_NOTIFY_NONE a). split_and!; [done | done | exact Hmac].
  - intros v Hne (a & Ha & Hin & Hmac). unfold registered_by.
    rewrite Hmap, decide_False, Hlist, Ha by done.
    exists (set_notify MRP_NOTIFY_NONE a). split_and!; done.
Qed.

Lemma deliver_effect sock src es : forall vid s,
  db_ok s -> 0 <= vid -> vid + Zlen es <= 4096 -> Forall (fun e => 0 <= e <= 5) es ->
  length src = 6%nat ->
  returns (deliver (sink := mvrp_sink sock) src vid es s) (fun s' =>
    db_ok s'
    /\ (forall i e, es !! i = Some e -> declares_code e ->
          registered_by s' (vid + Z.of_nat i) src)
    /\ forall v, v < vid \/ vid + Zlen es <= v ->
         registered_by s v src -> registered_by s' v src).
Proof.
  induction es as [|e es IH]; intros vid s Hs H0 Hv He Hl; cbn [deliver].
  { split_and!; auto. by intros i e Hi. }
  cbn [length] in Hv |- *. apply Forall_cons_iff in He as [He Hes].
  eapply returns_bind; [apply (deliver_one_effect sock src vid e s); auto;
    unfold vid_ok; lia|].
  intros s1 (Hs1 & Hd & Hkeep).
  eapply returns_mono; [apply IH; auto; lia|].
  intros s2 (Hs2 & Hd2 & Hkeep2). split_and!; auto.
  - intros [|i] e' Hi Hdc; cbn in Hi.
    + simplify_eq. apply Hkeep2; [left; lia|]. rewrite Z.add_0_r. auto.
    + replace (vid + Z.of_nat (S i)) with (vid + 1 + Z.of_nat i) by lia. eauto.
  - intros v Hr Hreg. apply Hkeep2; [lia|]. apply Hkeep; [lia | done].
Qed.

Lemma deliver_vectors_effect sock src vs : forall lo s,
  db_ok s -> vectors_from lo vs -> length src = 6%nat ->
  returns (deliver_vectors (sink := mvrp_sink sock) false src vs s) (fun s' =>
    db_ok s'
    /\ (forall v i e, v ∈ vs -> v.2 !! i = Some e -> declares_code e ->
          registered_by s' (v.1 + Z.of_nat i) src)
    /\ forall v, v < lo -> registered_by s v src -> registered_by s' v src).
Proof.
  induction vs as [|[vid es] vs IH]; intros lo s Hs Hf Hl; cbn [deliver_vectors].
  { cbn. split_and!; auto. set_solver. }
  destruct Hf as (Hlo & (Hne & H0 & Hb & He) & Hf). cbn [fst snd] in *.
  rewrite res_bind_ret.
  eapply returns_bind; [by apply (deliver_effect sock src es)|].
  intros s1 (Hs1 & Hd1 & Hk1).
  eapply returns_mono; [by apply (IH (vid + Zlen es))|].
  intros s2 (Hs2 & Hd2 & Hk2). split_and!; auto.
  - intros v i e [->|Hin]%elem_of_cons Hi Hdc; [|by eapply Hd2].
    cbn [fst snd] in *. apply Hk2; [|by eapply Hd1].
    apply lookup_lt_Some in Hi. lia.
  - intros v Hv Hreg. apply Hk2; [lia|]. apply Hk1; [lia | done].
Qed.

End Sink.

(** ** Transmission *)
Section Transmit.
Context {os : OS}.

Definition frames_sent (t : list action) : list (list Z) :=
  omap (fun a => match a with ASend _ f => Some f | _ => None end) t.

Definition notify_clear (l : list mvrp_attribute) : Prop :=
  Forall (fun a => reg_notify (registrar a) = MRP_NOTIFY_NONE) l.

Lemma notify_clear_id send l m :
  notify_clear l -> each (notify_step send) l m = (l, m).
Proof.
  induction 1 as [|a l Ha _ IH]; cbn [each]; [done|].
  assert (Hs : notify_step send a m = (a, m)) by (unfold notify_step; by rewrite Ha).
  by rewrite Hs, IH.
Qed.

Lemma tx_loop_fmap p (l : list mvrp_attribute) :
  (tx_loop p l).1 = attr_applicant_fsm p MRP_EVENT_TX <$> l.
Proof.
  induction l as [|a l IH]; cbn; [done|]. destruct (tx_loop p l). cbn in *. congruence.
Qed.

(** The attributes as tx! leaves them for the emitter, and their vectors. *)
Definition due (s : mvrp_ast) : list mvrp_attribute :=
  attr_applicant_fsm (p2pmac (wld s)) MRP_EVENT_TX <$> attrib_list (db s).
Definition due_vectors (s : mvrp_ast) : list (Z * list Z) :=
  vid_vectors (length (due s)) (due s).

Lemma fits_small (s : mvrp_ast) :
  (length (attrib_list (db s)) <= 394)%nat -> length (STATION_ADDR (wld s)) = 6%nat ->
  mvrp_fits s.
Proof.
  intros Hl Hst. apply (mvrp_fits_len s false Hst).
  set (l := attrib_list (db s)) in *.
  pose proof (vid_vectors_size (length l) l false) as Hv.
  pose proof (length_filter (fun a : mvrp_attribute => app_tx (applicant a) = true) l) as Hf.
  destruct (decide (vid_vectors (length l) l = [])) as [->|Hne].
  - destruct (send_empty_LeaveAll_flag (db s)); cbn; lia.
  - rewrite vid_message_len by done. lia.
Qed.

Lemma tx_event_frame sock rattrib s :
  db_ok s -> notify_clear (attrib_list (db s)) -> mallocs_ok os ->
  (length (attrib_list (db s)) <= 394)%nat ->
  returns (mvrp_event sock MRP_EVENT_TX rattrib s) (fun '(rc, s') => rc = 0
    /\ Forall (fun a => app_tx (applicant a) = false) (attrib_list (db s'))
    /\ frames_sent (w_trace (wld s')) = frames_sent (w_trace (wld s))
       ++ match due_vectors s with
          | [] => []
          | vs => [mvrp_frame (STATION_ADDR (wld s)) (lva_tx (lva (mrp_db (db s)))) false vs]
          end).
Proof.
  intros (Hl & Hst & Hfl) Hn Hmal Hlen. cbn [mvrp_event]. unfold mvrp_event_tx.
  destruct (jointimer_stop_spec (get_mst s)) as (Hs1 & Hs2).
  assert (Htr : w_trace (m_w (mrp_jointimer_stop (get_mst s)).2)
    = w_trace (wld s) ++ [ASettime (join_timer (mrp_db (db s))) (Itimerspec 0 0 0 0)]) by done.
  destruct (mrp_jointimer_stop (get_mst s)) as [rc m1]. cbn [snd] in *.
  destruct Hs1 as [[_ Hp2p _ Hsta] _ _ _ _]. cbn in Hp2p, Hsta.
  pose proof (tx_loop_kept (p2pmac (m_w m1)) (attrib_list (db s)) m1) as Hk.
  pose proof (tx_loop_fmap (p2pmac (m_w m1)) (attrib_list (db s))) as Hdue.
  destruct (tx_loop _ _) as [l count]. cbn [fst] in *. rewrite Hp2p in Hdue.
  change (l = due s) in Hdue. subst l.
  set (s1 := put_list (due s) (put_mst m1 s)).
  assert (Hst1 : station_ok (wld s1)) by (unfold station_ok; cbn; rewrite Hsta; done).
  rewrite res_bind_assoc.
  eapply returns_bind; [apply (txpdu_spec sock s1); [|done]|].
  { apply vlist_emit_wf. eapply list_ok_kept, Hl. apply Hk. }
  intros [rc1 s2] (Hcl & _ & _ & _ & frames & Htr2 & _ & Hall).
  destruct Hall as [Htx Hfr]; [apply Hmal | |].
  { apply fits_small; [|apply Hst1]. cbn. unfold due. by rewrite length_fmap. }
  cbn in Hfr, Htr2. rewrite Hfl, Hsta, Hs2 in Hfr. cbn [set_join_running lva] in Hfr.
  fold (due_vectors s) in Hfr. rewrite Htr in Htr2.
  assert (Hn2 : notify_clear (attrib_list (db s2))).
  { clear -Hn Hcl. cbn in Hcl. unfold due in Hcl. unfold notify_clear in *.
    revert Hcl. generalize (attrib_list (db s2)).
    induction Hn as [|a l Ha _ IH]; intros l2 Hcl; inversion_clear Hcl as [|? b ? ? Hab Hr];
      [done|]. constructor; [|by apply IH]. by destruct Hab as [-> | ->]. }
  assert (Hfs : frames_sent (w_trace (wld s2)) = frames_sent (w_trace (wld s))
    ++ match due_vectors s with
       | [] => []
       | vs => [mvrp_frame (STATION_ADDR (wld s)) (lva_tx (lva (mrp_db (db s)))) false vs]
       end).
  { rewrite Htr2. unfold frames_sent. rewrite !omap_app. cbn [omap list_omap].
    rewrite app_nil_r. f_equal. rewrite Hfr. by destruct (due_vectors s). }
  cbn [returns]. rewrite res_bind_ret. cbn [returns].
  set (s3 := if count =? 0 then s2 else _).
  assert (H3 : attrib_list (db s3) = attrib_list (db s2)
    /\ frames_sent (w_trace (wld s3)) = frames_sent (w_trace (wld s2))).
  { unfold s3. destruct (count =? 0); [done|]. unfold mrp_jointimer_start. cbn.
    destruct (join_timer_running _); cbn; [done|]. split; [done|].
    unfold frames_sent. by rewrite omap_app, app_nil_r. }
  destruct H3 as [H3a H3b]. unfold mvrp_notify_all. rewrite H3a, notify_clear_id by done.
  cbn. split_and!; auto. by rewrite H3b.
Qed.

End Transmit.

(** ** The join timer *)
Section JoinTimer.
Context {os : OS}.

Lemma join_covered_running (l : list mvrp_attribute) m :
  join_timer_running (m_db m) = true -> join_covered l m.
Proof. intros H. unfold join_covered. apply Forall_forall. auto. Qed.

Lemma join_covered_states (l l' : list mvrp_attribute) m m' :
  app_mrp_state ∘ applicant <$> l' = app_mrp_state ∘ applicant <$> l ->
  join_timer_running (m_db m') = join_timer_running (m_db m) ->
  join_covered l m -> join_covered l' m'.
Proof.
  unfold join_covered. intros Hst ->.
  rewrite <- (Forall_fmap (app_mrp_state ∘ applicant)
    (fun st => needs_tx st = true -> join_timer_running (m_db m) = true) l).
  rewrite <- (Forall_fmap (app_mrp_state ∘ applicant)
    (fun st => needs_tx st = true -> join_timer_running (m_db m) = true) l').
  by rewrite Hst.
Qed.

Lemma join_covered_notify s :
  join_covered (attrib_list (db s)) (get_mst s) ->
  join_covered (attrib_list (db (mvrp_notify_all s))) (get_mst (mvrp_notify_all s)).
Proof.
  destruct (mvrp_notify_all_spec s) as (Hq & Hl & _).
  apply join_covered_states; [|apply Hq]. rewrite Hl, <- list_fmap_compose. done.
Qed.

(** An attribute's applicant owes the network a message. *)
Definition owes (s : mvrp_ast) : Prop :=
  Exists (fun a => needs_tx (app_mrp_state (applicant a)) = true) (attrib_list (db s)).

(** Nobody needs more than [n] transmissions. *)
Definition backlog_le (n : nat) (s : mvrp_ast) : Prop :=
  Forall (fun st => (backlog st <= n)%nat) (app_mrp_state ∘ applicant <$> attrib_list (db s)).

Lemma owes_backlog s : ~ owes s <-> backlog_le 0 s.
Proof.
  unfold owes, backlog_le. rewrite <- Forall_Exists_neg, Forall_fmap.
  apply Forall_iff. intros a. rewrite not_true_iff_false, needs_tx_backlog. cbn. lia.
Qed.

(** A transmission takes one from everybody's backlog, and leaves the join timer
    running exactly when somebody still owes a message. *)
Lemma tx_event_backlog sock n s :
  timers_ok os -> db_ok s -> backlog_le n s ->
  returns (mvrp_event_tx sock s) (fun s' => backlog_le (pred n) s'
    /\ (join_timer_running (mrp_db (db s')) = true <-> owes s')).
Proof.
  intros Ht (Hl & Hst & _) Hb. unfold mvrp_event_tx.
  destruct (jointimer_stop_spec (get_mst s)) as (Hs1 & Hs2).
  destruct (mrp_jointimer_stop (get_mst s)) as [rc m1]. cbn [snd] in *.
  pose proof (tx_loop_kept (p2pmac (m_w m1)) (attrib_list (db s)) m1) as Hk.
  pose proof (tx_loop_fmap (p2pmac (m_w m1)) (attrib_list (db s))) as Hmap.
  pose proof (tx_loop_count (p2pmac (m_w m1)) (attrib_list (db s))) as [_ Hc].
  destruct (tx_loop _ _) as [l count]. cbn [fst snd] in *.
  eapply returns_bind; [apply txpdu_kept; cbn|].
  { by eapply list_ok_kept, Hl. }
  { eapply station_extends, Hst. apply Hs1. }
  intros [rc1 s1] (_ & _ & _ & Hj1 & _ & _ & Hstates). cbn in Hstates, Hj1. cbn [returns].
  assert (Hb1 : backlog_le (pred n) s1).
  { unfold backlog_le in *. rewrite Hstates, Hmap, <- list_fmap_compose.
    rewrite Forall_fmap in Hb |- *. eapply Forall_impl; [apply Hb|]. intros a Ha. unfold compose in *.
    pose proof (backlog_tx (p2pmac (m_w m1)) (applicant a) (mrp_registrar_in (registrar a))).
    etransitivity; [eassumption | lia]. }
  assert (Hcount : count = 0 <-> ~ owes s1).
  { rewrite owes_backlog, Hc. unfold backlog_le. rewrite Hstates, Forall_fmap.
    apply Forall_iff. intros a. cbn. rewrite needs_tx_backlog. lia. }
  destruct (Z.eqb_spec count 0) as [E|E].
  - split; [done|]. rewrite Hj1, Hs2. cbn. split; [done|]. intros H. by apply Hcount in E.
  - destruct (jointimer_start_spec (get_mst s1)) as (_ & _ & _ & _ & Hj).
    destruct (mrp_jointimer_start (get_mst s1)) as [rc2 m2]. cbn in *.
    split; [exact Hb1|]. split; [|auto]. intros _.
    unfold owes in *. cbn. destruct (decide (Exists (fun a : mvrp_attribute =>
      needs_tx (app_mrp_state (applicant a)) = true) (attrib_list (db s1)))); [done | tauto].
Qed.

Lemma tx_event_join sock s :
  timers_ok os -> db_ok s ->
  returns (mvrp_event_tx sock s) (fun s' => join_covered (attrib_list (db s')) (get_mst s')).
Proof.
  intros Ht Hok. eapply returns_mono; [apply (tx_event_backlog sock 3); auto|].
  - apply Forall_forall. intros [] _; cbn; lia.
  - intros s' [_ H]. apply Forall_forall. intros a Ha Hn. apply H, Exists_exists. eauto.
Qed.

Lemma lvtimer_event_join s :
  join_covered (attrib_list (db s)) (get_mst s) ->
  join_covered (attrib_list (db (mvrp_event_lvtimer s))) (get_mst (mvrp_event_lvtimer s)).
Proof.
  intros Hjc. unfold mvrp_event_lvtimer.
  destruct (lvtimer_stop_spec (get_mst s)) as (_ & Hs2).
  destruct (mrp_lvtimer_stop (get_mst s)) as [rc m1]. cbn [snd] in *.
  set (f := fun a m => _).
  destruct (each_opt_spec m_quiet f (fun a o m => match o with None => True
    | Some a' => applicant a' = applicant a end)) with (l := attrib_list (db s)) (s := m1)
    as (Hq & ol & Ho & Hl).
  { intros a m. unfold f.
    destruct (attr_registrar_kept MRP_EVENT_LVTIMER a m) as (Hq & _ & Ha).
    destruct (attr_registrar_fsm _ a m) as [a' m']. cbn [fst snd] in *.
    destruct (mvrp_reclaim_spec a' m') as [Hq2 Ho].
    split; [by etransitivity|]. rewrite Ho. by destruct (reclaimable a'). }
  { auto. }
  destruct (each_opt f _ m1) as [l m2]. cbn [fst snd] in *. subst l.
  pose proof (mq_join _ _ Hq) as Hj. rewrite Hs2 in Hj. cbn in Hj.
  unfold join_covered in *. cbn. cbn in Hjc. rewrite Hj.
  clear -Ho Hjc. induction Ho as [|a [a'|] l ol Ha _ IH]; cbn; [done| |];
    inversion_clear Hjc; [constructor|]; auto. by rewrite Ha.
Qed.

(** Nothing owed is forgotten: in an environment whose timer calls succeed,
    every event of MVRP other than the LeaveAll expiry keeps the invariant that
    an attribute whose applicant owes the network a message (states VP, VN, AA,
    AN, LA) has the join timer running, so that a transmit opportunity
    follows. *)
Theorem mvrp_join_timer_armed sock event rattrib s :
  timers_ok os -> db_ok s -> event <> MRP_EVENT_LVATIMER ->
  (forall r, rattrib = Some r -> vid_range (key r) /\ attr_fresh r) ->
  join_covered (attrib_list (db s)) (get_mst s) ->
  returns (mvrp_event sock event rattrib s)
    (fun '(_, s') => join_covered (attrib_list (db s')) (get_mst s')).
Proof.
  intros Ht Hok Hne Hra Hjc.
  destruct (jointimer_start_spec (get_mst s)) as (_ & _ & _ & _ & Hj).
  specialize (Hj Ht).
  assert (Hat : returns (let '(rc, s') := mvrp_event_attribute event rattrib s in
    if rc =? -1 then Ret (-1, s') else Ret (0, mvrp_notify_all s'))
    (fun '(_, s') => join_covered (attrib_list (db s')) (get_mst s'))).
  { destruct rattrib as [r|].
    - destruct (Hra r eq_refl) as [Hr Hf].
      destruct (event_attribute_spec event r s (proj1 Hok) Hr Hf)
        as (s' & l1 & l2 & -> & _ & _ & _ & _ & Hq & _).
      cbn [Z.eqb returns]. apply join_covered_notify, join_covered_running.
      rewrite (mq_join _ _ Hq). done.
    - unfold mvrp_event_attribute. destruct (mrp_jointimer_start (get_mst s)) as [rc m1].
      cbn in *. by apply join_covered_running. }
  destruct event; cbn [mvrp_event]; try done; cbn [returns]; auto using join_covered_notify.
  - eapply returns_bind; [by apply tx_event_join|]. intros s'. apply join_covered_notify.
  - apply join_covered_notify, join_covered_running. unfold mvrp_event_rla.
    destruct (mrp_jointimer_start (get_mst s)) as [rc m1]. cbn [snd] in Hj.
    destruct (each_kept (attr_both_fsm MRP_EVENT_RLA) (attrib_list (db s)) m1
      (attr_both_kept _)) as [Hq _].
    destruct (each _ _ m1) as [l m2]. cbn [snd] in Hq.
    destruct (lvatimer_fsm_spec MRP_EVENT_RLA m2) as (_ & Hf & _).
    destruct (mrp_lvatimer_fsm MRP_EVENT_RLA m2) as [rc2 m3]. cbn in *.
    rewrite Hf. pose proof (mq_join _ _ Hq). congruence.
  - apply join_covered_notify. unfold mvrp_event_periodic.
    destruct (attrib_list (db s)) eqn:El; [by cbn|].
    destruct (mrp_jointimer_start (get_mst s)) as [rc m1]. cbn in *.
    by apply join_covered_running.
  - apply join_covered_notify, lvtimer_event_join, Hjc.
Qed.

End JoinTimer.

(** ** The main properties *)
Section Main.
Context {os : OS}.

(** A run of the daemon's MVRP half over a sequence of events. *)
Fixpoint mvrp_run (sock : Z) (evs : list (mrp_event * option mvrp_attribute))
    (s : mvrp_ast) : res mvrp_ast :=
  match evs with
  | [] => Ret s
  | (e, r) :: evs => '(_, s) ← mvrp_event sock e r s; mvrp_run sock evs s
  end.

Definition input_ok (x : mrp_event * option mvrp_attribute) : Prop :=
  forall r, x.2 = Some r -> vid_range (key r) /\ attr_fresh r.

(** C2: any sequence of MVRP events terminates without a memory fault and keeps
    the database invariant: the attribute list strictly sorted by VID (so at
    most one attribute per VID), VIDs in 16 bits, 6-byte source addresses, and
    only known messages pending; when the timer calls succeed, the LeaveAll
    timer is always running and the leave timer runs whenever some attribute
    is in the LV state. *)
Theorem mvrp_run_invariant sock evs s :
  db_ok s -> Forall input_ok evs ->
  returns (mvrp_run sock evs s)
    (fun s' => db_ok s' /\ (timers_ok os -> timers_inv s -> timers_inv s')).
Proof.
  intros Hs Hevs. enough (Hp : returns (mvrp_run sock evs s) (ev_post s)).
  { eapply returns_mono; [done|]. intros s' (H1 & _ & H2). auto. }
  revert s Hs. induction Hevs as [|[e r] evs He _ IH]; intros s Hs; cbn [mvrp_run];
    [by apply ev_post_refl|].
  eapply returns_bind; [by apply mvrp_event_post|]. intros [rc s1] Hp1.
  eapply returns_mono; [apply IH, Hp1|]. intros s2. by apply ev_post_trans.
Qed.

(** [k] transmit opportunities in a row. *)
Definition tx_rounds (k : nat) : list (mrp_event * option mvrp_attribute) :=
  replicate k (MRP_EVENT_TX, None).

Lemma backlog_le_any n s : (3 <= n)%nat -> backlog_le n s.
Proof. intros Hn. apply Forall_forall. intros [] _; cbn; lia. Qed.

(** Notifications change neither the applicants nor the join timer. *)
Lemma notify_backlog n s :
  backlog_le n s /\ (join_timer_running (mrp_db (db s)) = true <-> owes s) ->
  let s' := mvrp_notify_all s in
  backlog_le n s' /\ (join_timer_running (mrp_db (db s')) = true <-> owes s').
Proof.
  intros [Hb Hj] s'. destruct (mvrp_notify_all_spec s) as (Hq & Hl & _).
  pose proof (mq_join _ _ Hq) as Hjn. cbn in Hjn. unfold s', backlog_le, owes in *.
  rewrite Hl, Hjn, Hj, <- list_fmap_compose, Exists_fmap. by split.
Qed.

Lemma tx_rounds_backlog sock k : forall n s,
  timers_ok os -> db_ok s -> backlog_le (n + k) s ->
  returns (mvrp_run sock (tx_rounds k) s) (fun s' => backlog_le n s'
    /\ (k <> 0%nat -> join_timer_running (mrp_db (db s')) = true <-> owes s')).
Proof.
  induction k as [|k IH]; intros n s Ht Hok Hb; cbn [tx_rounds replicate mvrp_run].
  { cbn. rewrite Nat.add_0_r in Hb. by split_and!. }
  eapply returns_bind; [apply returns_and; [by apply (mvrp_event_post sock MRP_EVENT_TX None)|]|].
  { cbn [mvrp_event].
    apply (returns_bind _ _ _ (fun '(_, s1) => backlog_le (n + k) s1
      /\ (join_timer_running (mrp_db (db s1)) = true <-> owes s1))
      (tx_event_backlog sock (n + S k) s Ht Hok Hb)).
    intros s1 H1. rewrite Nat.add_succ_r in H1. exact (notify_backlog (n + k) s1 H1). }
  intros [rc s1] ((Hok1 & _ & _) & Hb1 & Hj1).
  destruct k as [|k]; [cbn; rewrite Nat.add_0_r in Hb1; by split|].
  eapply returns_mono; [by apply (IH n s1)|]. intros s2 (H1 & H2). split; auto.
Qed.

Lemma run_join_covered sock evs : forall s,
  timers_ok os -> db_ok s -> join_covered (attrib_list (db s)) (get_mst s) ->
  Forall input_ok evs -> Forall (fun x => x.1 <> MRP_EVENT_LVATIMER) evs ->
  returns (mvrp_run sock evs s) (fun s' =>
    db_ok s' /\ join_covered (attrib_list (db s')) (get_mst s')).
Proof.
  induction evs as [|[e r] evs IH]; intros s Ht Hok Hj Hin Hev; cbn [mvrp_run]; [by split|].
  inversion_clear Hin. inversion_clear Hev.
  eapply returns_bind; [apply returns_and; [by apply mvrp_event_post |
    by apply mvrp_join_timer_armed]|].
  intros [rc s1] ((Hok1 & _ & _) & Hj1). by apply IH.
Qed.

(** C40: what is owed is sent.  In an environment whose timer calls succeed, over
    any sequence of MVRP events other than the LeaveAll expiry, from a state
    where it holds, whenever an applicant owes the network a message (states VP,
    VN, AA, AN, LA) the join timer is running, so that a transmit opportunity
    follows.  A transmission then re-arms the join timer exactly when somebody
    still owes a message, and three transmissions in a row leave nobody owing one
    and the join timer stopped. *)
Theorem mvrp_join_timer_drains sock evs s :
  timers_ok os -> db_ok s -> join_covered (attrib_list (db s)) (get_mst s) ->
  Forall input_ok evs -> Forall (fun x => x.1 <> MRP_EVENT_LVATIMER) evs ->
  returns (mvrp_run sock evs s) (fun s1 =>
    join_covered (attrib_list (db s1)) (get_mst s1)
    /\ returns (mvrp_run sock (tx_rounds 1) s1) (fun s2 =>
         join_timer_running (mrp_db (db s2)) = true <-> owes s2)
    /\ returns (mvrp_run sock (tx_rounds 3) s1) (fun s2 =>
         ~ owes s2 /\ join_timer_running (mrp_db (db s2)) = false)).
Proof.
  intros Ht Hok Hj Hin Hev.
  eapply returns_mono; [apply (run_join_covered sock evs s); auto|].
  intros s1 [Hok1 Hj1]. split; [done|]. split.
  - eapply returns_mono; [apply (tx_rounds_backlog sock 1 3 s1); auto; apply backlog_le_any; lia|].
    intros s2 (_ & H). by apply H.
  - eapply returns_mono; [apply (tx_rounds_backlog sock 3 0 s1); auto; apply backlog_le_any; lia|].
    intros s2 (Hb & H). rewrite <- owes_backlog in Hb. split; [done|].
    apply not_true_iff_false. rewrite H by done. done.
Qed.

(** The sorted attribute list implements a finite map from VIDs:
    [mvrp_lookup] is map lookup, [mvrp_add] of an absent VID is map insertion
    and keeps the list sorted, and [mvrp_merge] updates the source address of
    the one entry it is given and nothing else. *)
Theorem mvrp_list_refines_map l r vid :
  StronglySorted Z.lt (key <$> l) ->
  mvrp_lookup l vid = vid_map l !! vid
  /\ (vid_map l !! key r = None ->
        vid_map (mvrp_add r l) = <[key r := r]> (vid_map l)
        /\ StronglySorted Z.lt (key <$> mvrp_add r l))
  /\ vid_map (mvrp_merge r l)
     = alter (set_macaddr (reg_macaddr (registrar r))) (key r) (vid_map l).
Proof.
  intros Hs. split; [by rewrite vid_map_lookup|]. split.
  - rewrite vid_map_lookup. intros Hnone.
    pose proof (mvrp_lookup_split l (key r)) as Hl. rewrite Hnone in Hl.
    destruct (mvrp_add_split r l Hl Hs) as (l1 & l2 & -> & -> & H1 & H2). split.
    + apply map_eq. intros k.
      destruct (vid_map_middle l1 (Some r) l2 (key r) H1 H2) as [Ha Hb];
        [by intros ? [= <-]|].
      change (r :: l2) with (option_list (Some r) ++ l2).
      destruct (decide (k = key r)) as [->|Hne].
      * by rewrite Ha, lookup_insert_eq.
      * by rewrite (Hb _ Hne), lookup_insert_ne.
    + rewrite fmap_app, fmap_cons in *.
      apply sorted_insert; [done | by rewrite Forall_fmap..].
  - apply map_eq. intros k. rewrite lookup_alter, !vid_map_lookup. clear Hs.
    induction l as [|a l IH]; [by destruct (decide _)|]. cbn [mvrp_merge mvrp_lookup].
    destruct (Z.eqb_spec (key a) (key r)) as [E|E]; cbn [mvrp_lookup].
    + cbn. rewrite E. destruct (Z.eqb_spec (key r) k) as [->|Hne].
      * by rewrite decide_True.
      * by rewrite decide_False by done.
    + destruct (Z.eqb_spec (key a) k) as [<-|Hne]; [|done].
      by rewrite decide_False by congruence.
Qed.

(** An attribute event (New, Join, Leave or a received New, JoinIn, JoinMt,
    In, Mt, Leave) changes the registration of the VID it names to what the
    applicant and registrar machines compute, reclaiming an attribute nobody
    declares or registers, and leaves every other VID untouched. *)
Theorem mvrp_event_one_vid sock event r s :
  attribute_event event = true -> vlist_ok (attrib_list (db s)) ->
  vid_range (key r) -> attr_fresh r ->
  returns (mvrp_event sock event (Some r) s) (fun '(rc, s') => rc = 0 /\
    forall vid, vid_map (attrib_list (db s')) !! vid
      = set_notify MRP_NOTIFY_NONE <$>
          (if decide (vid = key r)
           then event_result event r (attrib_list (db s))
                  (mrp_jointimer_start (get_mst s)).2
           else vid_map (attrib_list (db s)) !! vid)).
Proof.
  intros He Hl Hr Hf. eapply returns_mono; [by apply event_map_effect|].
  intros [rc s'] (H1 & _ & H2). auto.
Qed.

(** C12: receiving is memory safe and total: for every frame of at most 1996
    bytes (and for failed reads), [mvrp_recv_msg] returns 0 or -1, reads only
    inside its 2000-byte buffer and keeps the database invariant, whatever the
    frame contains. *)
Theorem mvrp_recv_msg_safe sock r s :
  db_ok s ->
  (forall data, r = RecvBytes data -> bytes_ok data /\ Zlen data <= MAX_FRAME_SIZE - 4) ->
  returns (mvrp_recv_msg sock r s) (fun '(rc, s') => (rc = 0 \/ rc = -1) /\ db_ok s').
Proof.
  intros Hs Hr. eapply returns_mono; [by apply recv_msg_safe|].
  intros [rc s'] (H1 & H2 & _). auto.
Qed.

(** C13: a transmit opportunity sends everything that is due: with at most 394
    VLANs and memory available, tx! sends one frame holding exactly the vectors
    the attribute list calls for (none if nothing is due), and leaves no
    transmit flag set. *)
Theorem mvrp_tx_sends_all sock rattrib s :
  db_ok s -> notify_clear (attrib_list (db s)) -> mallocs_ok os ->
  (length (attrib_list (db s)) <= 394)%nat ->
  returns (mvrp_event sock MRP_EVENT_TX rattrib s) (fun '(rc, s') => rc = 0
    /\ Forall (fun a => app_tx (applicant a) = false) (attrib_list (db s'))
    /\ frames_sent (w_trace (wld s')) = frames_sent (w_trace (wld s))
       ++ match due_vectors s with
          | [] => []
          | vs => [mvrp_frame (STATION_ADDR (wld s)) (lva_tx (lva (mrp_db (db s)))) false vs]
          end).
Proof. apply tx_event_frame. Qed.

Lemma mvrp_reclaim_filter s :
  exists s', mvrp_reclaim (Some s) = (0, Some s')
    /\ attrib_list (db s') = filter (fun a => reclaimable a = false) (attrib_list (db s))
    /\ m_quiet (get_mst s) (get_mst s')
    /\ send_empty_LeaveAll_flag (db s') = send_empty_LeaveAll_flag (db s).
Proof.
  unfold mvrp_reclaim.
  destruct (each_opt_spec m_quiet mvrp_conditional_reclaim
    (fun a o _ => o = if reclaimable a then None else Some a))
    with (l := attrib_list (db s)) (s := get_mst s) as (Hq & ol & Ho & Hl); auto.
  { intros a m. apply mvrp_reclaim_spec. }
  destruct (each_opt _ _ _) as [l m]. cbn in *. eexists. split; [done|]. cbn.
  split; [|split; [by destruct m | done]]. subst l. clear -Ho.
  induction Ho as [|a o l ol -> _ IH]; [done|]. cbn [omap list_omap].
  rewrite filter_cons. destruct (reclaimable a) eqn:E; cbn [id].
  - rewrite decide_False by congruence. done.
  - rewrite decide_True by done. by f_equal.
Qed.

(** Garbage collection: [mvrp_reclaim] unlinks exactly the attributes whose
    registrar is MT and whose applicant is VO, AO or QO, keeps all others
    unchanged and in order. *)
Theorem mvrp_reclaim_exact s :
  exists s', mvrp_reclaim (Some s) = (0, Some s')
    /\ attrib_list (db s') = filter (fun a => reclaimable a = false) (attrib_list (db s))
    /\ m_quiet (get_mst s) (get_mst s').
Proof. destruct (mvrp_reclaim_filter s) as (s' & H1 & H2 & H3 & _). eauto. Qed.

Lemma send_all_trace cl msg w :
  control_socket w <> -1 ->
  w_trace (send_all cl msg w)
  = w_trace w ++ ((fun c => ASendto c msg MAX_MRPD_CMDSZ) <$> cl).
Proof.
  revert w; induction cl as [|c cl IH]; intros w Hc; cbn [send_all]; [by rewrite app_nil_r|].
  unfold mrpd_send_ctl_msg. rewrite (proj2 (Z.eqb_neq _ _)) by congruence.
  rewrite IH by done. cbn. by rewrite <- app_assoc.
Qed.

(** Notifications reach everybody: when memory is available, a notification
    other than NONE sends the same line to every attached client, once each, in
    the order they attached, and changes nothing else. *)
Theorem mvrp_notifies_all_clients attrib notify m :
  mallocs_ok os -> control_socket (m_w m) <> -1 -> notify <> MRP_NOTIFY_NONE ->
  exists msg, mvrp_notify_text attrib notify = Some msg
    /\ m_db (mvrp_send_notifications attrib notify m) = m_db m
    /\ w_trace (m_w (mvrp_send_notifications attrib notify m))
       = w_trace (m_w m) ++ ((fun c => ASendto c msg MAX_MRPD_CMDSZ) <$> clients (m_db m)).
Proof.
  intros Hm Hc Hn. unfold mvrp_send_notifications, malloc.
  rewrite !Hm. cbn [negb andb].
  destruct (mvrp_notify_text attrib notify) as [msg|] eqn:E; [|by destruct notify].
  exists msg. split_and!; [done | done |]. cbn [m_w]. by rewrite send_all_trace.
Qed.

End Main.

(** ** Two stations *)

Lemma vectors_from_ok lo vs rest : vectors_from lo (vs ++ rest) -> Forall vector_ok vs.
Proof.
  revert lo; induction vs as [|v vs IH]; intros lo; cbn [app vectors_from]; [done|].
  intros (_ & Hv & Hr). constructor; eauto.
Qed.

Lemma tx_above_0 l : legal_vids l -> tx_above 0 l.
Proof.
  unfold legal_vids, tx_above. rewrite Forall_fmap.
  intros H. eapply Forall_impl; [apply H|]. cbn. unfold vid_ok. intros; lia.
Qed.

(** The receive buffer [mrpd_recvmsgbuf] fills from a frame. *)
Definition rx_buffer (f : list Z) : list Z :=
  f ++ replicate (Z.to_nat (MAX_FRAME_SIZE - Zlen f)) 0.

Lemma vid_message_news lv flag vs :
  vid_message lv flag vs <> [] <-> vs <> [] \/ flag = true.
Proof. destruct vs, flag; cbn; split; auto; intros [H|H]; done. Qed.

(** The frame that fits carries every vector. *)
Lemma fits_not_cut (s : mvrp_ast) lv vs rest :
  let l := attrib_list (db s) in
  let flag := send_empty_LeaveAll_flag (db s) in
  length (STATION_ADDR (wld s)) = 6%nat -> mvrp_fits s ->
  vid_vectors (length l) l = vs ++ rest ->
  rest = [] \/ MAX_FRAME_SIZE - 4 <= Zlen (mvrp_frame (STATION_ADDR (wld s)) lv flag vs) ->
  rest = [].
Proof.
  intros l flag Hst Hfit Hvs [|Hcut]; [done|]. exfalso.
  apply (mvrp_fits_len s lv Hst) in Hfit. fold l flag in Hfit. rewrite Hvs in Hfit.
  pose proof (vid_message_mono lv flag vs rest) as Hm.
  rewrite mvrp_frame_len in Hcut by done. unfold MAX_FRAME_SIZE in Hcut. lia.
Qed.

(** C7: what is sent is what is received.  [mvrp_txpdu] sends at most one frame,
    the frame of a prefix [vs] of the vectors its attribute list calls for, cut
    only when the frame has at least 1996 of its 2000 bytes; [mvrp_recv_frame] of
    any application behind the parser interface, run on that frame with memory
    available, delivers exactly the sender's LeaveAll (if flagged) and then, in
    VID order and with the sender's address, the event of each value of these
    vectors, or the empty LeaveAll when there is none.  Every attribute marked
    for transmission whose message is not optional is in a vector at its VID with
    its event, and every value of a vector is that of an attribute marked for
    transmission.  With memory available and at most 394 VLANs nothing is cut, the
    frame is sent exactly when there is a vector or a LeaveAll to send, and no
    transmit flag is left.  The list is well-formed and its VIDs have 12 bits. *)
Theorem mvrp_txpdu_roundtrip {os : OS} sock s :
  let l := attrib_list (db s) in
  let lv := lva_tx (lva (mrp_db (db s))) in
  let flag := send_empty_LeaveAll_flag (db s) in
  let src := STATION_ADDR (wld s) in
  let vectors := vid_vectors (length l) l in
  vlist_ok l -> legal_vids l -> station_ok (wld s) ->
  returns (mvrp_txpdu sock s) (fun '(_, s') => exists vs rest (sent : bool),
    let f := mvrp_frame src lv flag vs in
    vectors = vs ++ rest
    /\ w_trace (wld s') = w_trace (wld s) ++ (if sent then [ASend sock f] else [])
    /\ (sent = true ->
         (rest = [] \/ MAX_FRAME_SIZE - 4 <= Zlen f)
         /\ forall S (sink : EventSink Z S) (x : S),
              (forall y, (sink_malloc y).1 = true) ->
              mvrp_recv_frame (Zlen f) (rx_buffer f) x = deliver_pdu lv src vs x)
    /\ (os_malloc (w_tick (wld s)) = true -> (length l <= 394)%nat ->
         rest = [] /\ (sent = true <-> vectors <> [] \/ flag = true)
         /\ Forall (fun a => app_tx (applicant a) = false) (attrib_list (db s')))
    /\ (forall a, a ∈ l -> app_tx (applicant a) = true ->
         app_encode (applicant a) = MRP_ENCODE_YES ->
         exists v i, v ∈ vectors /\ v.2 !! i = Some (attr_pdu_event a)
                     /\ key a = v.1 + Z.of_nat i)
    /\ (forall v (i : nat) e, v ∈ vectors -> v.2 !! i = Some e ->
         exists a, a ∈ l /\ app_tx (applicant a) = true /\ attr_pdu_event a = e
                   /\ key a = v.1 + Z.of_nat i)).
Proof.
  intros l lv flag src vectors Hl Hlv Hst.
  eapply returns_mono; [apply txpdu_spec; auto using vlist_emit_wf|].
  intros [rc s'] (_ & _ & _ & _ & frames & Htr & Hfr & Hall). fold l lv flag src vectors in Hfr, Hall.
  assert (Hcover := fun a => vid_vectors_complete (length l) l a (le_n _)
    ltac:(apply Hl) Hlv).
  assert (Hsound := fun v i e => vid_vectors_sound (length l) l v i e Hlv).
  assert (Hfit : (length l <= 394)%nat -> mvrp_fits s) by (intros; apply fits_small; [done|apply Hst]).
  pose proof (vid_message_news lv flag vectors) as Hnews.
  destruct Hfr as [->|(vs & rest & Hvs & -> & _ & Hne & Hlen & Hcut)].
  - exists vectors, [], false. rewrite app_nil_r. split_and!; auto; [done|].
    intros Hm Hn. destruct (Hall Hm (Hfit Hn)) as [Htx Hf]. split_and!; [done | | done].
    rewrite <- Hnews. cbn zeta in Hf. split; [done|].
    by destruct (vid_message lv flag vectors).
  - exists vs, rest, true. split_and!; auto.
    + intros _. split; [done|]. intros S sink x Hm. apply recv_pdu_deliver; auto; [apply Hst | |lia].
      eapply (vectors_from_ok 0 vs rest). rewrite <- Hvs.
      apply vid_vectors_from; [apply Hl | done | by apply tx_above_0].
    + intros Hm Hn. destruct (Hall Hm (Hfit Hn)) as [Htx Hf]. split_and!; [| | done].
      * eapply fits_not_cut; [apply Hst | by apply Hfit | exact Hvs | exact Hcut].
      * rewrite <- Hnews. split; [|done]. intros _ E. cbn zeta in Hf. by rewrite E in Hf.
Qed.

Lemma due_message p a :
  needs_tx (app_mrp_state (applicant a)) = true ->
  declares (app_mrp_state (applicant a)) = true ->
  let a' := attr_applicant_fsm (K := Z) p MRP_EVENT_TX a in
  app_tx (applicant a') = true /\ app_encode (applicant a') = MRP_ENCODE_YES
  /\ declares_code (attr_pdu_event a').
Proof.
  destruct a as [k [[] ? ? ? ?] [st ? ?]]; cbn; intros Hn Hd; try done;
    unfold declares_code, attr_pdu_event; cbn; (split; [done|]); (split; [done|]);
    destruct st; cbn; auto.
Qed.

Lemma due_legal {os : OS} s : db_ok s -> legal_vids (attrib_list (db s)) ->
  StronglySorted Z.lt (key <$> due s) /\ legal_vids (due s).
Proof.
  intros (Hl & _) Hv. unfold legal_vids, due in *.
  rewrite <- list_fmap_compose. split; [apply Hl | done].
Qed.

(** A frame read by the daemon, when memory is available. *)
Lemma recv_msg_frame {os : OS} sock f s :
  mallocs_ok os -> 0 < Zlen f -> Zlen f <= MAX_FRAME_SIZE ->
  mvrp_recv_msg sock (RecvBytes f) s
  = mvrp_recv_frame (sink := mvrp_sink sock) (Zlen f) (rx_buffer f)
      (put_mst (Mst (mrp_db (db s)) (step_tick (wld s))) s).
Proof.
  intros Hm H0 Hl. unfold mvrp_recv_msg, mrpd_recvmsgbuf, malloc. rewrite Hm. cbn [negb].
  rewrite take_ge by (unfold MAX_FRAME_SIZE in *; lia).
  rewrite (proj2 (Z.eqb_neq _ _)) by lia. unfold rx_buffer.
  rewrite drop_replicate.
  replace (Z.to_nat MAX_FRAME_SIZE - length f)%nat
    with (Z.to_nat (MAX_FRAME_SIZE - Zlen f)) by (unfold MAX_FRAME_SIZE; lia).
  reflexivity.
Qed.

(** C1: end to end: if station A declares a VLAN and still owes its
    announcement (applicant in VP, VN, AN or AA), then its next transmit
    opportunity sends a frame which, received by station B's daemon, leaves B
    with that VLAN registered (registrar IN) and A's address as its source. *)
Theorem mvrp_end_to_end (osA osB : OS) sockA sockB rattrib sA sB a :
  db_ok sA -> notify_clear (attrib_list (db sA)) -> mallocs_ok osA ->
  (length (attrib_list (db sA)) <= 394)%nat -> legal_vids (attrib_list (db sA)) ->
  lva_tx (lva (mrp_db (db sA))) = false ->
  a ∈ attrib_list (db sA) -> needs_tx (app_mrp_state (applicant a)) = true ->
  declares (app_mrp_state (applicant a)) = true ->
  db_ok sB -> mallocs_ok osB ->
  exists sA' f sB',
    mvrp_event (os := osA) sockA MRP_EVENT_TX rattrib sA = Ret (0, sA')
    /\ frames_sent (w_trace (wld sA')) = frames_sent (w_trace (wld sA)) ++ [f]
    /\ mvrp_recv_msg (os := osB) sockB (RecvBytes f) sB = Ret (0, sB')
    /\ db_ok sB' /\ registered_by sB' (key a) (STATION_ADDR (wld sA)).
Proof.
  intros HA Hn HmA Hlen Hlv Hlva Ha Hneed Hdecl HB HmB.
  destruct (due_legal sA HA Hlv) as [Hds Hdv].
  destruct (due_message (p2pmac (wld sA)) a Hneed Hdecl) as (Htx & Hen & Hcode).
  set (a' := attr_applicant_fsm (p2pmac (wld sA)) MRP_EVENT_TX a) in *.
  assert (Ha' : a' ∈ due sA) by (apply list_elem_of_fmap; eauto).
  destruct (vid_vectors_complete (length (due sA)) (due sA) a')
    as (v & i & Hv & Hvi & Hki); auto.
  fold (due_vectors sA) in Hv.
  pose proof (vid_vectors_from (length (due sA)) (due sA) 0 Hds Hdv (tx_above_0 _ Hdv)) as Hvf.
  fold (due_vectors sA) in Hvf.
  destruct (returns_inv _ _ (tx_event_frame (os := osA) sockA rattrib sA HA Hn HmA Hlen))
    as ([rc sA'] & HevA & -> & _ & Hfr).
  assert (Hne : due_vectors sA <> []) by (intros E; rewrite E in Hv; set_solver).
  set (f := mvrp_frame (STATION_ADDR (wld sA)) false false (due_vectors sA)).
  assert (Hfr' : frames_sent (w_trace (wld sA')) = frames_sent (w_trace (wld sA)) ++ [f]).
  { rewrite Hfr, Hlva. unfold f. by destruct (due_vectors sA). }
  destruct HA as (HlA & HstA & HflA).
  assert (Hflen : Zlen f <= MAX_FRAME_SIZE).
  { unfold f. rewrite mvrp_frame_len by apply HstA. rewrite vid_message_len by done.
    pose proof (vid_vectors_size (length (due sA)) (due sA) false) as Hsz.
    pose proof (length_filter (fun a : mvrp_attribute => app_tx (applicant a) = true)
      (due sA)) as Hfl. unfold due in Hfl at 2. rewrite length_fmap in Hfl.
    unfold MAX_FRAME_SIZE, due_vectors. lia. }
  pose proof (ev_post_world (os := osB) sB (step_tick (wld sB)) (w_extends_tick _) HB)
    as (HB1 & _ & _).
  destruct (returns_inv _ _ (deliver_vectors_effect (os := osB) sockB
    (STATION_ADDR (wld sA)) (due_vectors sA) 0 _ HB1 Hvf (proj1 HstA)))
    as (sB' & Hdel & HB' & Hreg & _).
  exists sA', f, sB'. split_and!; auto.
  - rewrite recv_msg_frame; [|done | unfold f; rewrite mvrp_frame_len by apply HstA; lia|done].
    unfold f. rewrite (recv_frame_deliver (sink := mvrp_sink (os := osB) sockB)); auto.
    + rewrite Hdel. done.
    + intros y. apply HmB.
    + apply HstA.
    + apply (vectors_from_ok 0 _ []). by rewrite app_nil_r.
  - change (key a) with (key a'). rewrite Hki. by eapply Hreg.
Qed.

(** ** Witnesses *)

(** A database with the given attributes, timers idle but the LeaveAll one, and
    one attached client. *)
Definition demo_ast (l : list mvrp_attribute) : mvrp_ast :=
  Ast (AppDb (MrpDb (Timer MRP_TIMER_PASSIVE false MRP_SND_NONE) 3 true 4 true 5 true
                [SockAddr 2 5555 1 0] MRP_REGISTRAR_CTL_NORMAL MRP_APPLICANT_CTL_NORMAL)
         l false)
      (World 0 [] 1 7 [0; 136; 119; 102; 85; 68]).

Definition demo_vlan (vid : Z) (st : applicant_state) : mvrp_attribute :=
  Attr vid (Applicant st false MRP_SND_NULL MRP_ENCODE_YES None) fresh_registrar.

Definition demo_vlans : list mvrp_attribute :=
  [demo_vlan 2 MRP_VP_STATE; demo_vlan 3 MRP_VN_STATE; demo_vlan 10 MRP_QA_STATE].

Lemma demo_db_ok : db_ok (demo_ast demo_vlans).
Proof.
  split; [|split; [split; [done|]; repeat constructor; lia | done]].
  split; cbn; repeat constructor; unfold vid_range; try lia; done.
Qed.

Lemma demo_timers_inv : timers_inv (demo_ast demo_vlans).
Proof. split; [done|]. by repeat constructor. Qed.

Lemma demo_timers_ok : timers_ok calm_os.
Proof. intros n. cbn. lia. Qed.

Lemma demo_input : input_ok (MRP_EVENT_RJOININ, Some (Attr 7 fresh_applicant fresh_registrar)).
Proof. intros r [= <-]. split; [unfold vid_range; cbn; lia | done]. Qed.

Lemma mvrp_run_invariant_witness :
  returns (mvrp_run (os := calm_os) 9 [(MRP_EVENT_LVATIMER, None); (MRP_EVENT_RJOININ,
      Some (Attr 7 fresh_applicant fresh_registrar)); (MRP_EVENT_TX, None)]
      (demo_ast demo_vlans))
    (fun s' => db_ok s' /\ timers_inv s').
Proof.
  eapply returns_mono.
  - apply (mvrp_run_invariant (os := calm_os)); [exact demo_db_ok|].
    repeat (apply Forall_cons; split; [exact demo_input || (intros r; discriminate)|]).
    by apply Forall_nil.
  - intros s' [H1 H2]. split; [exact H1|].
    exact (H2 demo_timers_ok demo_timers_inv).
Defined.

Lemma mvrp_join_timer_armed_witness :
  returns (mvrp_event (os := calm_os) 9 MRP_EVENT_TX None (demo_ast demo_vlans))
    (fun '(_, s') => join_covered (attrib_list (db s')) (get_mst s')).
Proof.
  apply (mvrp_join_timer_armed (os := calm_os)); [exact demo_timers_ok | exact demo_db_ok
    | discriminate | discriminate | by repeat constructor].
Defined.

(** A received LeaveAll, and then three transmissions. *)
Lemma mvrp_join_timer_drains_witness :
  returns (mvrp_run (os := calm_os) 9 [(MRP_EVENT_RLA, None)] (demo_ast demo_vlans))
    (fun s1 => join_timer_running (mrp_db (db s1)) = true /\ owes s1
       /\ returns (mvrp_run (os := calm_os) 9 (tx_rounds 3) s1) (fun s2 =>
            ~ owes s2 /\ join_timer_running (mrp_db (db s2)) = false)).
Proof.
  pose proof (mvrp_join_timer_drains (os := calm_os) 9 [(MRP_EVENT_RLA, None)]
    (demo_ast demo_vlans) demo_timers_ok demo_db_ok ltac:(by repeat constructor)
    ltac:(by repeat constructor) ltac:(by repeat constructor)) as H.
  destruct (returns_inv _ _ H) as (s1 & E & _ & _ & H3). clear H. rewrite E. cbn [returns].
  vm_compute in E. injection E as <-. split_and!; [reflexivity | by left | exact H3].
Defined.

Lemma mvrp_list_refines_map_witness :
  mvrp_lookup demo_vlans 3 = vid_map demo_vlans !! 3.
Proof.
  apply (mvrp_list_refines_map demo_vlans (demo_vlan 5 MRP_VO_STATE) 3), demo_db_ok.
Defined.

Lemma mvrp_event_one_vid_witness :
  returns (mvrp_event (os := calm_os) 9 MRP_EVENT_RJOININ
      (Some (Attr 7 fresh_applicant fresh_registrar)) (demo_ast demo_vlans))
    (fun '(rc, s') => rc = 0 /\ vid_map (attrib_list (db s')) !! 2
                                = Some (demo_vlan 2 MRP_VP_STATE)).
Proof.
  eapply returns_mono.
  - apply (mvrp_event_one_vid (os := calm_os)); [reflexivity | apply demo_db_ok
      | split; cbn; lia | done].
  - intros [rc s'] [-> H]. split; [reflexivity|]. by rewrite (H 2).
Defined.

Lemma mvrp_recv_msg_safe_witness :
  returns (mvrp_recv_msg (os := calm_os) 9 (RecvBytes [1; 128; 194; 0; 0; 33; 1; 2; 3; 4; 5;
      6; 136; 245; 0; 1; 2; 0; 5; 15; 255; 255; 255; 0; 0]) (demo_ast demo_vlans))
    (fun '(rc, s') => (rc = 0 \/ rc = -1) /\ db_ok s').
Proof.
  apply (mvrp_recv_msg_safe (os := calm_os)); [exact demo_db_ok|].
  intros data [= <-]. split; [repeat constructor; lia | vm_compute; discriminate].
Defined.

Lemma mvrp_tx_sends_all_witness :
  returns (mvrp_event (os := calm_os) 9 MRP_EVENT_TX None (demo_ast demo_vlans))
    (fun '(rc, s') => rc = 0 /\ frames_sent (w_trace (wld s'))
       = [[1; 128; 194; 0; 0; 33; 0; 136; 119; 102; 85; 68; 136; 245; 0;
           1; 2; 0; 2; 0; 2; 108; 0; 0; 0; 0]]).
Proof.
  eapply returns_mono.
  - apply (mvrp_tx_sends_all (os := calm_os)); [exact demo_db_ok | by repeat constructor
      | done | cbn; lia].
  - intros [rc s'] (-> & _ & H). split; [reflexivity|]. rewrite H. vm_compute. reflexivity.
Defined.

Lemma mvrp_notifies_all_clients_witness :
  exists msg, mvrp_notify_text (demo_vlan 2 MRP_VP_STATE) MRP_NOTIFY_JOIN = Some msg
    /\ w_trace (m_w (mvrp_send_notifications (os := calm_os) (demo_vlan 2 MRP_VP_STATE)
         MRP_NOTIFY_JOIN (get_mst (demo_ast demo_vlans))))
       = [ASendto (SockAddr 2 5555 1 0) msg 1500].
Proof.
  destruct (mvrp_notifies_all_clients (os := calm_os) (demo_vlan 2 MRP_VP_STATE)
    MRP_NOTIFY_JOIN (get_mst (demo_ast demo_vlans))) as (msg & H1 & _ & H2);
    [done | discriminate | discriminate|].
  exists msg. split; [exact H1 | exact H2].
Defined.

(** An application that records what it is told. *)
#[local] Instance log_sink : EventSink Z (list (mrp_event * option Z)) := {
  sink_malloc s := (true, s);
  sink_event e a s := Ret (s ++ [(e, key <$> a)])
}.

(** VLANs 2 and 3 go out in one vector and 10 in another, and are received as a
    Join and a New with the VIDs 2 and 3 and a Join with VID 10. *)
Lemma mvrp_txpdu_roundtrip_witness :
  let vlans := [demo_vlan 2 MRP_VP_STATE; demo_vlan 3 MRP_VN_STATE; demo_vlan 10 MRP_VP_STATE] in
  let s := demo_ast (attr_applicant_fsm 1 MRP_EVENT_TX <$> vlans) in
  exists rc s' f, mvrp_txpdu (os := calm_os) 9 s = Ret (rc, s')
    /\ w_trace (wld s') = [ASend 9 f]
    /\ mvrp_recv_frame (Zlen f) (rx_buffer f) []
       = Ret (0, [(MRP_EVENT_RJOINMT, Some 2); (MRP_EVENT_RNEW, Some 3);
                  (MRP_EVENT_RJOINMT, Some 10)]).
Proof.
  intros vlans s.
  destruct (returns_inv _ _ (mvrp_txpdu_roundtrip (os := calm_os) 9 s
    ltac:(split; cbn; repeat constructor; unfold vid_range; try lia; done)
    ltac:(repeat constructor; cbn; lia) ltac:(split; [done|]; repeat constructor; lia)))
    as ([rc s'] & E & vs & rest & sent & Hv & Htr & Hs & Hm & _).
  destruct (Hm eq_refl ltac:(cbn; lia)) as (-> & Hsent & _).
  rewrite app_nil_r in Hv.
  assert (sent = true) as -> by (apply Hsent; left; discriminate).
  destruct (Hs eq_refl) as [_ Hr]. exists rc, s'. eexists. split_and!; [exact E | exact Htr |].
  rewrite (Hr _ log_sink [] (fun _ => eq_refl)), <- Hv. reflexivity.
Defined.

Lemma mvrp_end_to_end_witness :
  exists sA' f sB',
    mvrp_event (os := calm_os) 9 MRP_EVENT_TX None (demo_ast demo_vlans) = Ret (0, sA')
    /\ frames_sent (w_trace (wld sA')) = [] ++ [f]
    /\ mvrp_recv_msg (os := calm_os) 9 (RecvBytes f) (demo_ast demo_vlans) = Ret (0, sB')
    /\ db_ok sB' /\ registered_by sB' 3 [0; 136; 119; 102; 85; 68].
Proof.
  apply (mvrp_end_to_end calm_os calm_os 9 9 None (demo_ast demo_vlans) (demo_ast demo_vlans)
    (demo_vlan 3 MRP_VN_STATE)); auto using demo_db_ok.
  - by repeat constructor.
  - done.
  - cbn. lia.
  - repeat constructor; cbn; lia.
  - right. left.
  - done.
Defined.

(** ** Two defects the model exhibits *)

(** The smallest sink: it counts events. *)
Definition count_sink : EventSink Z nat := {|
  sink_malloc := fun n => (true, n);
  sink_event := fun _ _ n => Ret (S n)
|}.

(** A 2000-byte frame whose only vector claims 5942 values. *)
Definition long_frame : list Z :=
  mvrp_header [0; 1; 2; 3; 4; 5] ++ [1; 2; 23; 54] ++ replicate 1981 255.

(** The bound of the safety theorem is needed: the length check of the
    vector loop ignores the two bytes of FirstValue and the partly filled last
    byte, so a full-size frame makes the receiver read past its buffer. *)
Theorem mvrp_recv_overread :
  length long_frame = 2000%nat
  /\ mvrp_recv_frame (sink := count_sink) 2000 long_frame 0%nat = Fault (OobRead 2000).
Proof. split; vm_compute; reflexivity. Qed.

(** The LeaveAll expiry is the exception to the join-timer invariant: it
    stops the join timer and does not start it again, although the applicants
    it moved to AA or AN still owe their second announcement. *)
Theorem mvrp_lvatimer_drops_join :
  returns (mvrp_event (os := calm_os) 9 MRP_EVENT_LVATIMER None (demo_ast demo_vlans))
    (fun '(_, s') => join_timer_running (mrp_db (db s')) = false
       /\ app_mrp_state ∘ applicant <$> attrib_list (db s')
          = [MRP_AA_STATE; MRP_AN_STATE; MRP_QA_STATE]).
Proof. vm_compute. split; reflexivity. Qed.
