(* ===== verification/MvrpCmd.v ===== *)
(** * The control side of mvrp.c: commands, table dump, start and stop *)

From S2P Require Import Prelude Os Parse Mrp MrpProps Attr AttrProps AppProps AppCmd Mvrp MvrpEmit.
From S2P Require Import MvrpRecv MvrpProps MvrpTheorems.
From Stdlib Require Import ZArith Lia Sorted.
From stdpp Require Import base tactics sets list strings option gmap.
Open Scope Z_scope.

(** ** Definitions *)
Section Ops.
Context {os : OS}.

(** [mvrp_init]: returns rc, [mvrp_socket], [MVRP_db] and the world. *)
Definition mvrp_init : bool -> world -> Z * Z * option (app_database Z) * world := app_init.

(** One line of the table, as staged by [mvrp_dumptable]. *)
Definition mvrp_dump_line (a : mvrp_attribute) : string :=
  let variant := snprintf BUFSIZE ("V:I=" +:+ fmt_04x (key a)) in
  let mrp_state := mrp_decode_state (registrar a) (applicant a) 8 in
  let regsrc := snprintf BUFSIZE
    ("R=" +:+ fmt_mac (reg_macaddr (registrar a)) +:+ " " +:+ mrp_state) in
  snprintf BUFSIZE (variant +:+ " " +:+ regsrc +:+ "
").

Definition mvrp_dumptable : sockaddr_in -> list mvrp_attribute -> world -> res (Z * world) :=
  app_dumptable "MVRP:Empty
" mvrp_dump_line.

Definition vid_specs : list (list Z * parse_type) := [(bytes_of "I=", parse_u16_04x)].

(** [mvrp_cmd_parse_vid]: the VID, or [None]. *)
Definition mvrp_cmd_parse_vid (buf : list Z) (buflen : Z) : res (option Z) :=
  if buflen <? 9 then Ret None
  else
    r ← parse buf 4 (buflen - 4) vid_specs;
    Ret (match r with
         | Some (inr [PInt vid]) => Some vid
         | _ => None
         end).

Definition mvrp_cmd_vid (sock attribute : Z) (event : mrp_event) (s : mvrp_ast)
  : res (Z * mvrp_ast) :=
  let '(ok, w) := malloc (wld s) in
  let s := put_mst (Mst (mrp_db (db s)) w) s in
  if negb ok then Ret (-1, s)
  else
    '(_, s) ← mvrp_event sock event (Some (Attr attribute fresh_applicant fresh_registrar)) s;
    Ret (0, s).

(** A command with a VID parameter. *)
Definition mvrp_vid_command (sock : Z) (event : mrp_event) (buf : list Z) (buflen : Z)
    (client : sockaddr_in) (s : mvrp_ast) : res (Z * mvrp_ast) :=
  vid ← mvrp_cmd_parse_vid buf buflen;
  match vid with
  | None => cmd_error "ERP " (cmd_left 9 vid_specs buf buflen) client s
  | Some vid =>
      '(rc, s) ← mvrp_cmd_vid sock vid event s;
      if rc =? 0 then Ret (0, s) else cmd_error "ERI " buf client s
  end.

Definition mvrp_recv_cmd (sock : Z) (buf : list Z) (buflen : Z) (client : sockaddr_in)
    (s : mvrp_ast) : res (Z * mvrp_ast) :=
  let d := mrp_db (db s) in
  let '(_, cl, w) := mrp_client_add (clients d) (Some client) (wld s) in
  let s := put_mst (Mst (set_clients cl d) w) s in
  if buflen <? 3 then Ret (-1, s)
  else
    b0 ← rd buf 0;
    if negb (b0 =? 86) then Ret (-1, s)
    else
      b1 ← rd buf 1;
      b2 ← rd buf 2;
      if (b1 =? 63) && (b2 =? 63) then
        '(_, w) ← mvrp_dumptable client (attrib_list (db s)) (wld s);
        Ret (0, put_mst (Mst (mrp_db (db s)) w) s)
      else if (b1 =? 45) && (b2 =? 45) then
        mvrp_vid_command sock MRP_EVENT_LV buf buflen client s
      else if (b1 =? 43) && ((b2 =? 43) || (b2 =? 63)) then
        mvrp_vid_command sock (if b2 =? 63 then MRP_EVENT_JOIN else MRP_EVENT_NEW)
          buf buflen client s
      else cmd_error "ERC MVRP " buf client s.

(** The command entry point when MVRP is disabled ([MVRP_db] is NULL). *)
Definition mvrp_recv_cmd_disabled : list Z -> sockaddr_in -> world -> res (Z * world) :=
  cmd_disabled "ERC MVRP_db ".

End Ops.

(** ** Start *)
Section Init.
Context {os : OS}.

(** [mvrp_init] establishes the invariant: when it returns 0 with MVRP
    enabled there is a database, it is empty and satisfies the database
    invariant, and when the timer calls succeed the LeaveAll timer is running;
    when it fails there is no database and no socket. *)
Theorem mvrp_init_establishes w :
  length os_hwaddr = 6%nat -> bytes_ok os_hwaddr ->
  let '(rc, sock, d, w') := mvrp_init true w in
  match d with
  | Some d => rc = 0 /\ attrib_list d = [] /\ db_ok (Ast d w')
              /\ (timers_ok os -> timers_inv (Ast d w'))
  | None => rc = -1 /\ sock = -1
  end.
Proof.
  intros Hl Hb. apply (app_init_spec vlist_ok); [split; constructor | done..].
Qed.

End Init.

Lemma mvrp_init_establishes_witness :
  let '(rc, sock, d, w') := mvrp_init (os := calm_os) true (m_w demo_mst) in
  match d with
  | Some d => rc = 0 /\ attrib_list d = [] /\ db_ok (Ast d w')
              /\ (timers_ok calm_os -> timers_inv (Ast d w'))
  | None => rc = -1 /\ sock = -1
  end.
Proof.
  apply (mvrp_init_establishes (os := calm_os)); [reflexivity | repeat constructor; lia].
Defined.

(** ** The VID command *)

(** The command line a client sends, NUL included, in the daemon's buffer. *)
Definition vid_command (op : string) (vid : Z) : list Z :=
  bytes_of (op +:+ ":I=" +:+ fmt_04x vid).

Definition cmd_buffer (cmd : list Z) : list Z :=
  cmd ++ replicate (Z.to_nat MAX_MRPD_CMDSZ - length cmd) 0.

Lemma hex_field a b c d :
  0 <= a < 16 -> 0 <= b < 16 -> 0 <= c < 16 -> 0 <= d < 16 ->
  let l := [hex_char a; hex_char b; hex_char c; hex_char d] in
  (forall rest, until_nul (l ++ 0 :: rest) = Some l) /\ split_field l = (l, None).
Proof.
  intros Ha Hb Hc Hd l.
  assert (Hr : Forall (fun x => x <> 0 /\ x <> PARSE_DELIMITER) l).
  { unfold PARSE_DELIMITER. repeat constructor;
      match goal with |- hex_char ?x <> _ => pose proof (hex_char_range x ltac:(done)); lia end. }
  clearbody l. split.
  - intros rest. induction Hr as [|x l [Hx _] _ IH]; cbn; [done|].
    rewrite (proj2 (Z.eqb_neq _ _) Hx), IH. done.
  - induction Hr as [|x l [_ Hx] _ IH]; cbn; [done|].
    rewrite (proj2 (Z.eqb_neq _ _) Hx), IH. done.
Qed.

Lemma vid_command_bytes op vid :
  vid_range vid ->
  vid_command op vid = bytes_of op ++ [58; 73; 61] ++
    [hex_char (vid / 4096); hex_char (vid / 256 mod 16);
     hex_char (vid / 16 mod 16); hex_char (vid mod 16)].
Proof.
  intros Hv. unfold vid_command. rewrite !bytes_of_app, fmt_04x_bytes by done. done.
Qed.

Lemma vid_command_parses op vid buflen :
  length (bytes_of op) = 3%nat -> vid_range vid -> 11 <= buflen <= MAX_MRPD_CMDSZ ->
  mvrp_cmd_parse_vid (cmd_buffer (vid_command op vid)) buflen = Ret (Some vid).
Proof.
  intros Hop Hv Hl. unfold vid_range, MAX_MRPD_CMDSZ in *.
  set (h := [hex_char (vid / 4096); hex_char (vid / 256 mod 16);
             hex_char (vid / 16 mod 16); hex_char (vid mod 16)]).
  destruct (hex_field (vid / 4096) (vid / 256 mod 16) (vid / 16 mod 16) (vid mod 16))
    as [Hun Hsp]; [zdm..|]. fold h in Hun, Hsp.
  assert (Hh : length h = 4%nat) by done.
  set (zs := replicate (Z.to_nat 1500 - 10) 0).
  assert (Hbuf : cmd_buffer (vid_command op vid)
    = (bytes_of op ++ [58]) ++ [73; 61] ++ h ++ zs).
  { unfold cmd_buffer. rewrite vid_command_bytes by done. fold h.
    rewrite !length_app, Hop, Hh. cbn [length]. rewrite <- !app_assoc. done. }
  unfold mvrp_cmd_parse_vid. rewrite (proj2 (Z.ltb_ge _ _)) by lia.
  unfold parse. rewrite (proj2 (Z.ltb_ge _ _)) by lia.
  assert (Hz : rd (cmd_buffer (vid_command op vid)) (buflen - 1) = Ret 0).
  { apply rd_lookup; [lia|]. rewrite Hbuf, !app_assoc.
    rewrite lookup_app_r by (rewrite !length_app, Hop, Hh; cbn [length]; lia).
    apply lookup_replicate. split; [done|]. rewrite !length_app, Hop, Hh. cbn [length]. lia. }
  assert (Hscan : nul_scan (cmd_buffer (vid_command op vid)) 4 (Z.to_nat (buflen - 4))
    = Ret (buflen - 5)).
  { destruct (Z.to_nat (buflen - 4)) as [|n] eqn:En; [lia|]. cbn [nul_scan].
    replace (4 + (Z.of_nat (S n) - 1)) with (buflen - 1) by lia.
    rewrite Hz, res_bind_ret. cbn [Z.eqb orb]. f_equal. lia. }
  rewrite Hscan, res_bind_ret, (proj2 (Z.ltb_ge _ _)) by lia.
  unfold cstr. cbn [Z.ltb Z.compare]. rewrite Hbuf.
  rewrite drop_app_length' by (rewrite length_app, Hop; done).
  assert (Hcs : until_nul ([73; 61] ++ h ++ zs) = Some ([73; 61] ++ h)).
  { change zs with (0 :: replicate (Z.to_nat 1500 - 11) 0).
    change ([73; 61] ++ ?l) with (73 :: 61 :: l). cbn [until_nul Z.eqb].
    by rewrite Hun. }
  rewrite Hcs, !res_bind_ret. cbn [parse_specs vid_specs].
  change (after_name (bytes_of "I=") ([73; 61] ++ h)) with (Some h).
  cbv beta iota. rewrite Hsp. cbv beta iota.
  cbn [parse_field]. unfold h. rewrite sscanf_hex4 by zdm.
  cbn [fmap option_fmap option_map default option_list app]. do 3 f_equal.
  rewrite u16_id by zdm. zdm.
Qed.

(** The VID survives the control protocol: whatever 16-bit VID a client
    prints into its command, in the daemon's own %04x format and with the
    terminating NUL in the datagram, [mvrp_cmd_parse_vid] reads back. *)
Theorem mvrp_cmd_vid_roundtrip op vid buflen :
  length (bytes_of op) = 3%nat -> vid_range vid -> 11 <= buflen <= MAX_MRPD_CMDSZ ->
  mvrp_cmd_parse_vid (cmd_buffer (vid_command op vid)) buflen = Ret (Some vid).
Proof. apply vid_command_parses. Qed.

Lemma mvrp_cmd_vid_roundtrip_witness :
  mvrp_cmd_parse_vid (cmd_buffer (bytes_of "V++:I=1f0a")) 11 = Ret (Some 7946).
Proof.
  apply (mvrp_cmd_vid_roundtrip "V++" 7946 11); [reflexivity | split; lia
    | unfold MAX_MRPD_CMDSZ; lia].
Defined.

(** ** The table dump *)

Lemma dump_line_length a :
  length (reg_macaddr (registrar a)) = 6%nat -> Zlen (bytes_of (mvrp_dump_line a)) = 30.
Proof.
  intros Hm. rewrite bytes_of_length. unfold mvrp_dump_line, BUFSIZE.
  assert (Hl : forall v r, String.length v = 8%nat -> String.length r = 20%nat ->
    String.length (snprintf 128 (v +:+ " " +:+ r +:+ "
")) = 30%nat).
  { intros v r Hv Hr. rewrite snprintf_fits; rewrite !length_append, Hv, Hr; cbn; lia. }
  rewrite Hl; [done| |].
  - rewrite snprintf_fits; rewrite !length_append, fmt_04x_length; cbn; lia.
  - rewrite snprintf_fits; rewrite !length_append, fmt_mac_length, decode_state_length
      by done; cbn; lia.
Qed.

Lemma dumptable_safe {os : OS} client l w :
  Forall attr_wf l -> (length l <= 49)%nat ->
  returns (mvrp_dumptable client l w) (fun '(_, w') => w_extends w w').
Proof.
  intros Hw Hl. apply (app_dumptable_safe _ _ 30); unfold MAX_MRPD_CMDSZ; try lia; [|done].
  eapply Forall_impl; [apply Hw|]. intros x [_ Hx]. by rewrite dump_line_length.
Qed.

(** ** Command handling *)
Section Commands.
Context {os : OS}.

Lemma parse_u16_range s name vid c :
  parse_specs s [(name, parse_u16_04x)] false c = inr [PInt vid] -> vid_range vid.
Proof.
  cbn [parse_specs]. destruct (after_name name s); [|done].
  destruct (split_field _) as [f rest]. cbn [parse_field].
  destruct (sscanf_uint 16 (Some 4%nat) f); cbn; [|done].
  intros [= <-]. apply u16_range.
Qed.

Lemma cmd_parse_safe buf buflen :
  buflen <= Zlen buf -> returns (mvrp_cmd_parse_vid buf buflen)
    (fun o => forall vid, o = Some vid -> vid_range vid).
Proof.
  intros Hl. unfold mvrp_cmd_parse_vid. destruct (Z.ltb_spec buflen 9); [done|].
  pose proof (parse_safe buf 4 (buflen - 4) [(bytes_of "I=", parse_u16_04x)]
    ltac:(lia) ltac:(lia) ltac:(lia)) as Hs.
  unfold parse in *. rewrite (proj2 (Z.ltb_ge (buflen - 4) 0)) in * by lia.
  destruct (nul_scan _ _ _) as [i|]; [|done]. rewrite res_bind_ret in *. destruct (i <? 0); [done|].
  destruct (cstr buf 4) as [s|]; [|done]. rewrite !res_bind_ret. cbn [returns].
  intros vid. destruct (parse_specs s _ false 0) as [e|vs] eqn:E; [done|].
  destruct vs as [|[z|] [|]]; try done. intros [= <-]. by eapply parse_u16_range.
Qed.

Lemma cmd_vid_post sock vid event s s0 :
  vid_range vid -> client_ok vlist_ok s0 s ->
  returns (mvrp_cmd_vid sock vid event s)
    (fun '(rc, s') => (rc = 0 \/ rc = -1) /\ client_ok vlist_ok s0 s').
Proof.
  intros Hv Hok. apply (event_ok vlist_ok (mvrp_event sock event (Some _))); [|done].
  intros s1 H1. apply mvrp_event_post; [done|]. intros r [= <-]. done.
Qed.

Lemma vid_command_post sock event buf buflen client s s0 :
  0 < Zlen buf -> buf !! (length buf - 1)%nat = Some 0 -> buflen <= Zlen buf ->
  client_ok vlist_ok s0 s ->
  returns (mvrp_vid_command sock event buf buflen client s)
    (fun '(rc, s') => (rc = 0 \/ rc = -1) /\ client_ok vlist_ok s0 s').
Proof.
  intros Hl Hz Hb Hok. unfold mvrp_vid_command.
  assert (Herr : forall p s1, client_ok vlist_ok s0 s1 -> returns (cmd_error p buf client s1)
    (fun '(rc, s') => (rc = 0 \/ rc = -1) /\ client_ok vlist_ok s0 s')).
  { intros p s1 H1. by apply error_ok. }
  destruct (cmd_left_keeps 9 vid_specs buf buflen (length buf - 1)) as [Hll Hlz].
  eapply returns_bind; [by apply cmd_parse_safe|].
  intros [vid|] Hv; [|by apply error_ok; rewrite ?Hll; auto].
  eapply returns_bind; [apply cmd_vid_post; [by apply Hv | done]|].
  intros [rc s1] [Hrc H1]. destruct (rc =? 0); [cbn; auto | by apply Herr].
Qed.

Lemma mvrp_recv_cmd_post sock buf buflen client s :
  db_ok s -> length buf = Z.to_nat MAX_MRPD_CMDSZ -> buf !! 1499%nat = Some 0 ->
  buflen <= MAX_MRPD_CMDSZ -> (length (attrib_list (db s)) <= 49)%nat ->
  returns (mvrp_recv_cmd sock buf buflen client s)
    (fun '(rc, s') => (rc = 0 \/ rc = -1) /\ client_ok vlist_ok s s').
Proof.
  intros Hok Hbuf Hz Hb Hn. unfold MAX_MRPD_CMDSZ in *.
  unfold mvrp_recv_cmd. pose proof (client_add_ok vlist_ok client s Hok) as Hc.
  destruct (mrp_client_add _ _ _) as [[rc cl] w].
  set (s1 := put_mst _ s) in *.
  assert (Hl1 : attrib_list (db s1) = attrib_list (db s)) by done. clearbody s1.
  assert (Hz' : buf !! (length buf - 1)%nat = Some 0) by (by rewrite Hbuf).
  destruct (Z.ltb_spec buflen 3); [cbn; auto|].
  eapply returns_bind; [apply rd_ok; lia|]. intros b0 _.
  destruct (negb _); [cbn; auto|].
  eapply returns_bind; [apply rd_ok; lia|]. intros b1 _.
  eapply returns_bind; [apply rd_ok; lia|]. intros b2 _.
  destruct (_ && _).
  { eapply returns_bind; [apply dumptable_safe; [apply Hc | by rewrite Hl1]|].
    intros [rc2 w2] Hw. cbn. split; [auto|]. eapply client_ok_ev; [apply Hc|].
    apply ev_post_world; [done | apply Hc]. }
  destruct (_ && _); [apply vid_command_post; auto; lia|].
  destruct (_ && _); [apply vid_command_post; auto; lia|].
  apply (error_ok vlist_ok); auto; lia.
Qed.

(** Command handling is memory safe: whatever a client sends, as long as
    the datagram is shorter than the 1500-byte buffer (so that the text is
    terminated) and there are at most 49 VLANs (so that the table dump fits),
    [mvrp_recv_cmd] returns 0 or -1 and keeps the database and timer
    invariants. *)
Theorem mvrp_recv_cmd_safe sock buf buflen client s :
  db_ok s -> length buf = Z.to_nat MAX_MRPD_CMDSZ -> buf !! 1499%nat = Some 0 ->
  buflen <= MAX_MRPD_CMDSZ -> (length (attrib_list (db s)) <= 49)%nat ->
  returns (mvrp_recv_cmd sock buf buflen client s) (fun '(rc, s') =>
    (rc = 0 \/ rc = -1) /\ db_ok s' /\ (timers_ok os -> timers_inv s -> timers_inv s')).
Proof.
  intros Hok Hbuf Hz Hb Hn. eapply returns_mono; [by apply mvrp_recv_cmd_post|].
  intros [rc s'] (H1 & H2 & _ & H3). auto.
Qed.

End Commands.

Lemma mvrp_recv_cmd_safe_witness :
  returns (mvrp_recv_cmd (os := calm_os) 9 (cmd_buffer (bytes_of "V??")) 4
      (SockAddr 2 5556 1 0) (demo_ast demo_vlans))
    (fun '(rc, s') => (rc = 0 \/ rc = -1) /\ db_ok s'
       /\ (timers_ok calm_os -> timers_inv (demo_ast demo_vlans) -> timers_inv s')).
Proof.
  apply (mvrp_recv_cmd_safe (os := calm_os)); [exact demo_db_ok | reflexivity | reflexivity
    | unfold MAX_MRPD_CMDSZ; lia | cbn; lia].
Defined.

(** Consecutive VLANs from 1 on. *)
Definition many_vlans (n : nat) : list mvrp_attribute :=
  (fun i => demo_vlan (Z.of_nat i) MRP_VP_STATE) <$> seq 1 n.

(** The dump bound is exact: with 49 VLANs the table fits the 1500-byte
    message, with 50 [mvrp_dumptable] writes one byte past it, because every
    line is written with the size of the whole buffer as its limit. *)
Theorem mvrp_dumptable_overflow :
  returns (mvrp_dumptable (os := calm_os) (SockAddr 2 5555 1 0) (many_vlans 49)
    (m_w demo_mst)) (fun '(rc, _) => rc = 0)
  /\ mvrp_dumptable (os := calm_os) (SockAddr 2 5555 1 0) (many_vlans 50) (m_w demo_mst)
     = Fault (OobWrite 1500).
Proof. split; vm_compute; reflexivity. Qed.

(** A command that fills the whole receive buffer leaves it without a
    terminating NUL, and the error response then reads past the buffer. *)
Theorem mvrp_recv_cmd_overread :
  mvrp_recv_cmd (os := calm_os) 9 (bytes_of "V++" ++ replicate 1497 65) 1500
    (SockAddr 2 5556 1 0) (demo_ast []) = Fault (OobRead 1500).
Proof. vm_compute. reflexivity. Qed.
