(* ===== verification/Mmrp.v ===== *)
(** * mmrp.c: the Multiple MAC Registration Protocol application

    Two kinds of attributes, service requirements and MAC addresses, in one
    list grouped by kind and sorted within each: list operations, PDU emission
    and reception, events, notifications and garbage collection. *)

From S2P Require Import Prelude Os Mrp Attr Mvrp.
From Stdlib Require Import ZArith Lia.
From stdpp Require Import base tactics list strings option pretty.
Open Scope Z_scope.

(** ** Data *)

Inductive mmrp_type := MMRP_SVCREQ_TYPE | MMRP_MACVEC_TYPE.

#[export] Instance mmrp_type_eq_dec : EqDecision mmrp_type.
Proof. solve_decision. Defined.

(** The tagged union of [struct mmrp_attribute]. *)
Inductive mmrp_key := Svcreq (svcreq : Z) | Macvec (macaddr : list Z).

Definition type_of (k : mmrp_key) : mmrp_type :=
  match k with Svcreq _ => MMRP_SVCREQ_TYPE | Macvec _ => MMRP_MACVEC_TYPE end.

Abbreviation mmrp_attribute := (attribute mmrp_key).
Abbreviation mmrp_ast := (ast mmrp_key).

#[export] Instance mmrp_forced_tx : ForcedTx mmrp_key := fun _ => false.

Definition MMRP_ETYPE : Z := 0x88F6.
Definition MMRP_PROT_VER : Z := 0.
Definition MMRP_ADDR : list Z := [0x01; 0x80; 0xC2; 0x00; 0x00; 0x20].

Definition type_code (t : mmrp_type) : Z :=
  match t with MMRP_SVCREQ_TYPE => 1 | MMRP_MACVEC_TYPE => 2 end.

(** [mmrp_increment_macaddr]: big-endian increment of the bytes 5 to 1; byte 0
    never changes. *)
Fixpoint increment_from (i : nat) (macaddr : list Z) : list Z :=
  match i with
  | O => macaddr
  | S i' =>
      let b := macaddr !!! i in
      if negb (255 =? b) then <[i := u8 (b + 1)]> macaddr
      else increment_from i' (<[i := 0]> macaddr)
  end.
Definition mmrp_increment_macaddr (macaddr : list Z) : list Z := increment_from 5 macaddr.

(** ** The attribute list *)

(** The comparison of [mmrp_lookup]. *)
Definition same_key (k r : mmrp_key) : bool :=
  match k, r with
  | Svcreq a, Svcreq b => a =? b
  | Macvec a, Macvec b => memcmp a b =? 0
  | _, _ => false
  end.

Fixpoint mmrp_lookup (l : list mmrp_attribute) (r : mmrp_key) : option mmrp_attribute :=
  match l with
  | [] => None
  | a :: l => if same_key (key a) r then Some a else mmrp_lookup l r
  end.

(** Of two keys of one kind, does the first come before? *)
Definition key_before (k r : mmrp_key) : bool :=
  match k, r with
  | Svcreq a, Svcreq b => a <? b
  | Macvec a, Macvec b => memcmp a b <? 0
  | _, _ => false
  end.

Fixpoint mmrp_add (rattrib : mmrp_attribute) (l : list mmrp_attribute)
  : list mmrp_attribute :=
  match l with
  | [] => [rattrib]
  | a :: r =>
      if decide (type_of (key rattrib) = type_of (key a)) then
        if key_before (key a) (key rattrib) then
          match r with
          | b :: _ => if decide (type_of (key b) = type_of (key a))
                      then a :: mmrp_add rattrib r
                      else a :: rattrib :: r
          | [] => [a; rattrib]
          end
        else rattrib :: a :: r
      else a :: mmrp_add rattrib r
  end.

Fixpoint mmrp_merge (rattrib : mmrp_attribute) (l : list mmrp_attribute)
  : list mmrp_attribute :=
  match l with
  | [] => []
  | a :: r => if same_key (key a) (key rattrib)
              then set_macaddr (reg_macaddr (registrar rattrib)) a :: r
              else a :: mmrp_merge rattrib r
  end.

(** ** Emission of service requirements *)

(** The inner loop of [mmrp_emit_svcvectors]. *)
Fixpoint svc_vectorize (vp eof firstval : Z) (l : list mmrp_attribute) (v : vec_st)
  : res (bool * list mmrp_attribute * vec_st) :=
  match l with
  | [] => Ret (false, [], v)
  | a :: r =>
      match key a with
      | Macvec _ => Ret (false, l, v)
      | Svcreq svcreq =>
          if negb (app_tx (applicant a)) then Ret (false, l, v)
          else
            let firstval := u8 (firstval + 1) in
            if negb (svcreq =? firstval) then Ret (false, l, v)
            else
              let a' := clear_tx a in
              match pdu_event (app_sndmsg (applicant a)) (reg_mrp_state (registrar a)) with
              | None => Ret (true, a' :: r, v)
              | Some e =>
                  v ← vec_push vp e v;
                  if eof - MRPDU_ENDMARK_SZ <? vp + 2 + v_idx v
                  then Ret (true, a' :: r, v)
                  else '(oops, r', v) ← svc_vectorize vp eof firstval r v;
                       Ret (oops, a' :: r', v)
              end
      end
  end.

(** Outer-loop state: that of MVRP and the [vectevt] array, which this function
    never initialises and reuses from one vector to the next. *)
Record svc_st := SvcSt { s_emit : emit_st; s_evt : Z * Z * Z }.

Definition svc_emit_vector (eof : Z) (a : mmrp_attribute) (svcreq : Z)
    (r : list mmrp_attribute) (st : svc_st)
  : res (bool * list mmrp_attribute * svc_st) :=
  let e := s_emit st in
  let vp := e_vp e in
  buf ← wr (e_buf e) (vp + 2) svcreq;
  match pdu_event (app_sndmsg (applicant a)) (reg_mrp_state (registrar a)) with
  | None => Ret (true, r, SvcSt (EmitSt buf (e_ptr e) vp (e_lva e) true) (s_evt st))
  | Some ev =>
      '(oops, r', v) ←
        svc_vectorize vp eof svcreq r (VecSt buf (vect_set (s_evt st) 0 ev) 1 2 1);
      if oops : bool
      then Ret (true, r', SvcSt (EmitSt (v_buf v) (e_ptr e) vp (e_lva e) true) (v_evt v))
      else
        '(buf, vectidx) ←
          (if 0 <? v_evt_idx v then
             buf ← wr (v_buf v) (vp + 2 + v_idx v) (vect_pack (v_evt v));
             Ret (buf, v_idx v + 1)
           else Ret (v_buf v, v_idx v));
        if eof - MRPDU_ENDMARK_SZ <? vp + 2 + vectidx
        then Ret (true, r', SvcSt (EmitSt buf (e_ptr e) vp (e_lva e) true) (v_evt v))
        else
          let hdr := MRPDU_VECT_NUMVALUES (v_num v) in
          let hdr := if e_lva e then Z.lor hdr MRPDU_VECT_LVA_FLAG else hdr in
          buf ← wr16 buf vp hdr;
          let ptr := vp + 2 + vectidx in
          Ret (false, r', SvcSt (EmitSt buf ptr ptr false true) (v_evt v))
  end.

Fixpoint svc_emit_loop (fuel : nat) (eof : Z) (l : list mmrp_attribute) (st : svc_st)
  : res (bool * list mmrp_attribute * svc_st) :=
  if negb (e_ptr (s_emit st) <? eof - 6 - MRPDU_ENDMARK_SZ) then Ret (false, l, st)
  else match l with
  | [] => Ret (false, [], st)
  | a :: r =>
      match fuel with
      | O => Fault OutOfFuel
      | S fuel =>
          let skip (a' : mmrp_attribute) :=
            '(oops, r', st) ← svc_emit_loop fuel eof r st; Ret (oops, a' :: r', st) in
          match key a with
          | Macvec _ => skip a
          | Svcreq svcreq =>
              if negb (app_tx (applicant a)) then skip a
              else if decide (app_encode (applicant a) = MRP_ENCODE_OPTIONAL)
              then skip (clear_tx a)
              else
                '(oops, r', st) ← svc_emit_vector eof a svcreq r st;
                if oops : bool then Ret (true, clear_tx a :: r', st)
                else '(oops, r', st) ← svc_emit_loop fuel eof r' st;
                     Ret (oops, clear_tx a :: r', st)
          end
      end
  end.

(** [mmrp_emit_svcvectors]; [junk] is the initial content of the uninitialised
    [vectevt]. *)
Definition mmrp_emit_svcvectors (junk : Z * Z * Z) (msgbuf : list Z) (base eof : Z)
    (lva flag : bool) (l : list mmrp_attribute)
  : res (Z * Z * list mmrp_attribute * list Z) :=
  if eof - 6 <? base then Ret (-1, 0, l, msgbuf)
  else
    buf ← wr msgbuf base (type_code MMRP_SVCREQ_TYPE);
    buf ← wr buf (base + 1) 1;
    '(oops, l', st) ←
      svc_emit_loop (length l) eof l (SvcSt (EmitSt buf base (base + 2) lva false) junk);
    let e := s_emit st in
    if oops : bool then Ret (-1, 0, l', e_buf e)
    else
      e ← (if negb (e_found e) && flag then
             buf ← wr16 (e_buf e) (e_vp e)
                     (Z.lor (MRPDU_VECT_NUMVALUES 0) MRPDU_VECT_LVA_FLAG);
             len ← rd buf (base + 1);
             let ptr := e_vp e + 2 + len in
             Ret (EmitSt buf ptr ptr (e_lva e) (e_found e))
           else Ret e);
      if e_vp e =? base + 2 then Ret (0, 0, l', e_buf e)
      else
        buf ← wr (e_buf e) (e_ptr e) 0;
        buf ← wr buf (e_ptr e + 1) 0;
        Ret (0, e_ptr e + 2 - base, l', buf).

(** ** Emission of MAC addresses *)

(** The PDU event of a follower: its Join is resolved by the registrar [reg0]
    of the vector's first attribute, as the code has it. *)
Definition mac_pdu_event (sndmsg : mrp_snd) (reg0 reg : registrar_state) : option Z :=
  match sndmsg with
  | MRP_SND_JOIN => pdu_event sndmsg reg0
  | _ => pdu_event sndmsg reg
  end.

Fixpoint mac_vectorize (reg0 : registrar_state) (vp eof : Z) (firstval : list Z)
    (l : list mmrp_attribute) (v : vec_st) : res (bool * list mmrp_attribute * vec_st) :=
  match l with
  | [] => Ret (false, [], v)
  | a :: r =>
      match key a with
      | Svcreq _ => Ret (false, l, v)
      | Macvec macaddr =>
          if negb (app_tx (applicant a)) then Ret (false, l, v)
          else
            let firstval := mmrp_increment_macaddr firstval in
            if negb (memcmp macaddr firstval =? 0) then Ret (false, l, v)
            else
              let a' := clear_tx a in
              match mac_pdu_event (app_sndmsg (applicant a)) reg0
                      (reg_mrp_state (registrar a)) with
              | None => Ret (true, a' :: r, v)
              | Some e =>
                  v ← vec_push vp e v;
                  if eof - 11 <? vp + 2 + v_idx v
                  then Ret (true, a' :: r, v)
                  else '(oops, r', v) ← mac_vectorize reg0 vp eof firstval r v;
                       Ret (oops, a' :: r', v)
              end
      end
  end.

Definition mac_emit_vector (eof : Z) (a : mmrp_attribute) (macaddr : list Z)
    (r : list mmrp_attribute) (e : emit_st)
  : res (bool * list mmrp_attribute * emit_st) :=
  let vp := e_vp e in
  buf ← wr_list (e_buf e) (vp + 2) macaddr;
  match pdu_event (app_sndmsg (applicant a)) (reg_mrp_state (registrar a)) with
  | None => Ret (true, r, EmitSt buf (e_ptr e) vp (e_lva e) (e_found e))
  | Some ev =>
      '(oops, r', v) ← mac_vectorize (reg_mrp_state (registrar a)) vp eof macaddr r
                         (VecSt buf (ev, 0, 0) 1 6 1);
      if oops : bool
      then Ret (true, r', EmitSt (v_buf v) (e_ptr e) vp (e_lva e) (e_found e))
      else
        '(buf, vectidx) ←
          (if 0 <? v_evt_idx v then
             buf ← wr (v_buf v) (vp + 2 + v_idx v) (vect_pack (v_evt v));
             Ret (buf, v_idx v + 1)
           else Ret (v_buf v, v_idx v));
        if eof - MRPDU_ENDMARK_SZ <? vp + 2 + vectidx
        then Ret (true, r', EmitSt buf (e_ptr e) vp (e_lva e) (e_found e))
        else
          let hdr := MRPDU_VECT_NUMVALUES (v_num v) in
          let hdr := if e_lva e then Z.lor hdr MRPDU_VECT_LVA_FLAG else hdr in
          buf ← wr16 buf vp hdr;
          let ptr := vp + 2 + vectidx in
          Ret (false, r', EmitSt buf ptr ptr (e_lva e) (e_found e))
  end.

Fixpoint mac_emit_loop (fuel : nat) (eof : Z) (l : list mmrp_attribute) (e : emit_st)
  : res (bool * list mmrp_attribute * emit_st) :=
  if negb (e_ptr e <? eof - 11 - MRPDU_ENDMARK_SZ) then Ret (false, l, e)
  else match l with
  | [] => Ret (false, [], e)
  | a :: r =>
      match fuel with
      | O => Fault OutOfFuel
      | S fuel =>
          let skip (a' : mmrp_attribute) :=
            '(oops, r', e) ← mac_emit_loop fuel eof r e; Ret (oops, a' :: r', e) in
          match key a with
          | Svcreq _ => skip a
          | Macvec macaddr =>
              if negb (app_tx (applicant a)) then skip a
              else if decide (app_encode (applicant a) = MRP_ENCODE_OPTIONAL)
              then skip (clear_tx a)
              else
                '(oops, r', e) ← mac_emit_vector eof a macaddr r e;
                if oops : bool then Ret (true, clear_tx a :: r', e)
                else '(oops, r', e) ← mac_emit_loop fuel eof r' e;
                     Ret (oops, clear_tx a :: r', e)
          end
      end
  end.

Definition mmrp_emit_macvectors (msgbuf : list Z) (base eof : Z) (lva : bool)
    (l : list mmrp_attribute) : res (Z * Z * list mmrp_attribute * list Z) :=
  if eof - 11 <? base then Ret (-1, 0, l, msgbuf)
  else
    buf ← wr msgbuf base (type_code MMRP_MACVEC_TYPE);
    buf ← wr buf (base + 1) 6;
    '(oops, l', e) ←
      mac_emit_loop (length l) eof l (EmitSt buf base (base + 2) lva false);
    if oops : bool then Ret (-1, 0, l', e_buf e)
    else if e_vp e =? base + 2 then Ret (0, 0, l', e_buf e)
    else
      buf ← wr (e_buf e) (e_ptr e) 0;
      buf ← wr buf (e_ptr e + 1) 0;
      Ret (0, e_ptr e + 2 - base, l', buf).

(** ** Reception

    The two branches of [mmrp_recv_msg] differ in the length of FirstValue, in
    the values they accept and in the LeaveAll guard; the parsing functions
    take the kind as a parameter. *)
Section Recv.
Context {S : Type} {sink : EventSink mmrp_key S}.

Definition first_len (t : mmrp_type) : Z :=
  match t with MMRP_SVCREQ_TYPE => 1 | MMRP_MACVEC_TYPE => 6 end.

(** The running first value, [svcreq_firstval] or [macvec_firstval]. *)
Definition read_first (t : mmrp_type) (buf : list Z) (ptr : Z) : res mmrp_key :=
  match t with
  | MMRP_SVCREQ_TYPE => b ← rd buf ptr; Ret (Svcreq b)
  | MMRP_MACVEC_TYPE => m ← rd_list buf ptr 6; Ret (Macvec m)
  end.

(** The junk test of service requirements. *)
Definition acceptable (k : mmrp_key) : bool :=
  match k with Svcreq v => negb (1 <? v) | Macvec _ => true end.

Definition next_key (k : mmrp_key) : mmrp_key :=
  match k with
  | Svcreq v => Svcreq (u8 (v + 1))
  | Macvec m => Macvec (mmrp_increment_macaddr m)
  end.

Fixpoint mmrp_recv_values (src : list Z) (evts : list Z) (k : mmrp_key) (s : S)
  : res (flow * mmrp_key * S) :=
  match evts with
  | [] => Ret (Continue, k, s)
  | e :: evts =>
      if negb (acceptable k) then mmrp_recv_values src evts k s
      else
        let '(ok, s) := sink_malloc s in
        if negb ok then Ret (GotoOut, k, s)
        else
          let attrib := set_macaddr src (Attr k fresh_applicant fresh_registrar) in
          s ← match mrpdu_event e with
              | Some ev => sink_event ev (Some attrib) s
              | None => Ret s
              end;
          mmrp_recv_values src evts (next_key k) s
  end.

(** The loop over the vector bytes, [n] iterations left. *)
Fixpoint mmrp_recv_bytes (n : nat) (buf : list Z) (src : list Z)
    (vp vectidx : Z) (k : mmrp_key) (numvalues : Z) (s : S) : res (flow * S) :=
  match n with
  | O => Ret (Continue, s)
  | Datatypes.S n =>
      b ← rd buf (vp + 2 + vectidx);
      let '(e0, e1, e2) := vect_3pack_decode b in
      let processed := if 3 <? numvalues then 3 else numvalues in
      '(f, k, s) ← mmrp_recv_values src (take (Z.to_nat processed) [e0; e1; e2]) k s;
      match f with
      | GotoOut => Ret (GotoOut, s)
      | Continue =>
          mmrp_recv_bytes n buf src vp (vectidx + 1) k (u16 (numvalues - processed)) s
      end
  end.

(** The template attribute of a received LeaveAll. *)
Definition lva_attribute (t : mmrp_type) : mmrp_attribute :=
  Attr match t with
       | MMRP_SVCREQ_TYPE => Svcreq 0
       | MMRP_MACVEC_TYPE => Macvec [0; 0; 0; 0; 0; 0]
       end fresh_applicant fresh_registrar.

(** A LeaveAll flag: [None] when malloc fails.  Only service requirements look
    at [saw_lva]. *)
Definition mmrp_recv_lva (t : mmrp_type) (lva saw_lva : bool) (s : S)
  : res (option bool * S) :=
  if lva && match t with MMRP_SVCREQ_TYPE => negb saw_lva | MMRP_MACVEC_TYPE => true end
  then
    let saw := match t with MMRP_SVCREQ_TYPE => true | MMRP_MACVEC_TYPE => saw_lva end in
    let '(ok, s) := sink_malloc s in
    if negb ok then Ret (None, s)
    else s ← sink_event MRP_EVENT_RLA (Some (lva_attribute t)) s; Ret (Some saw, s)
  else Ret (Some saw_lva, s).

Fixpoint mmrp_recv_vectors (fuel : nat) (t : mmrp_type) (buf : list Z) (src : list Z)
    (eof ptr : Z) (saw_lva : bool) (s : S) : res (flow * Z * bool * S) :=
  match fuel with
  | O => Fault OutOfFuel
  | Datatypes.S fuel =>
      b0 ← rd buf ptr;
      b1 ← rd buf (ptr + 1);
      if (b0 =? 0) && (b1 =? 0) then Ret (Continue, ptr, saw_lva, s)
      else
        hdr ← rd16 buf ptr;
        let numvalues := MRPDU_VECT_NUMVALUES hdr in
        '(o, s) ← mmrp_recv_lva t (MRPDU_VECT_LVA hdr) saw_lva s;
        match o with
        | None => Ret (GotoOut, ptr, true, s)
        | Some saw_lva =>
            if numvalues =? 0 then Ret (GotoOut, ptr, saw_lva, s)
            else if eof <=? ptr + 2 + numvalues / 3 then Ret (GotoOut, ptr, saw_lva, s)
            else
              k ← read_first t buf (ptr + 2);
              let numvectorbytes := num_3pack_bytes numvalues in
              '(f, s) ← mmrp_recv_bytes (Z.to_nat (numvectorbytes + 1)) buf src ptr
                          (first_len t) k numvalues s;
              match f with
              | GotoOut => Ret (GotoOut, ptr, saw_lva, s)
              | Continue =>
                  mmrp_recv_vectors fuel t buf src eof
                    (ptr + 2 + first_len t + numvectorbytes) saw_lva s
              end
        end
  end.

Fixpoint mmrp_recv_messages (fuel : nat) (buf : list Z) (src : list Z)
    (eof ptr endmarks : Z) (saw_lva : bool) (s : S) : res (flow * S) :=
  if negb (ptr <? eof - MRPDU_ENDMARK_SZ) then Ret (Continue, s)
  else match fuel with
  | O => Fault OutOfFuel
  | Datatypes.S fuel =>
      ty ← rd buf ptr;
      len ← rd buf (ptr + 1);
      if (ty =? 0) && (len =? 0) then
        if endmarks + 1 <? 2
        then mmrp_recv_messages fuel buf src eof (ptr + 2) (endmarks + 1) saw_lva s
        else Ret (Continue, s)
      else
        let vectors t :=
          if negb (len =? first_len t) then Ret (GotoOut, s)
          else
            '(f, ptr, saw_lva, s) ←
              mmrp_recv_vectors (Z.to_nat MAX_FRAME_SIZE) t buf src eof (ptr + 2) saw_lva s;
            match f with
            | GotoOut => Ret (GotoOut, s)
            | Continue => mmrp_recv_messages fuel buf src eof ptr 0 saw_lva s
            end in
        if ty =? type_code MMRP_SVCREQ_TYPE then vectors MMRP_SVCREQ_TYPE
        else if ty =? type_code MMRP_MACVEC_TYPE then vectors MMRP_MACVEC_TYPE
        else Ret (GotoOut, s)
  end.

Definition mmrp_recv_frame (bytes : Z) (msgbuf : list Z) (s : S) : res (Z * S) :=
  if bytes <=? 0 then Ret (-1, s)
  else if bytes <? ETH_HDR_SZ + 1 + 2 then Ret (-1, s)
  else
    typelen ← rd16 msgbuf 12;
    if negb (MMRP_ETYPE =? typelen) then Ret (-1, s)
    else
      dest ← rd_list msgbuf 0 6;
      if negb (memcmp dest MMRP_ADDR =? 0) then Ret (-1, s)
      else
        src ← rd_list msgbuf 6 6;
        let eof := MSG_LIST_OFF + bytes - ETH_HDR_SZ - 1 in
        '(f, s) ← mmrp_recv_messages (Z.to_nat MAX_FRAME_SIZE) msgbuf src eof
                    MSG_LIST_OFF 0 false s;
        match f with
        | Continue => Ret (0, s)
        | GotoOut => Ret (-1, s)
        end.

End Recv.

(** ** Transmission, notification, events *)
Section Ops.
Context {os : OS}.

Definition mmrp_frame_header (station : list Z) : res (list Z) :=
  let msgbuf := replicate (Z.to_nat MAX_FRAME_SIZE) 0 in
  buf ← wr16 msgbuf 12 MMRP_ETYPE;
  buf ← wr_list buf 0 MMRP_ADDR;
  buf ← wr_list buf 6 station;
  wr buf ETH_HDR_SZ MMRP_PROT_VER.

Definition mmrp_txpdu (junk : Z * Z * Z) (mmrp_socket : Z) (s : mmrp_ast)
  : res (Z * mmrp_ast) :=
  let '(ok, w) := malloc (wld s) in
  let s := put_mst (Mst (mrp_db (db s)) w) s in
  if negb ok then Ret (-1, s)
  else
    msgbuf ← mmrp_frame_header (STATION_ADDR w);
    let d := mrp_db (db s) in
    let lva_flag := lva_tx (lva d) in
    let d := if lva_flag
             then set_lva (Timer (lva_state (lva d)) false (lva_sndmsg (lva d))) d
             else d in
    let eof := MAX_FRAME_SIZE in
    '(rc, bytes, l, buf) ←
      mmrp_emit_macvectors msgbuf MSG_LIST_OFF eof lva_flag (attrib_list (db s));
    let s := put_list l (put_mst (Mst d w) s) in
    if rc =? -1 then Ret (-1, s)
    else
      let ptr := MSG_LIST_OFF + bytes in
      if eof - MRPDU_ENDMARK_SZ <=? ptr then Ret (-1, s)
      else
        '(rc, bytes, l, buf) ←
          mmrp_emit_svcvectors junk buf ptr eof lva_flag
            (send_empty_LeaveAll_flag (db s)) (attrib_list (db s));
        let s := put_list l s in
        if rc =? -1 then Ret (-1, s)
        else
          let ptr := ptr + bytes in
          if ptr =? MSG_LIST_OFF then Ret (0, s)
          else if negb (ptr <? eof - MRPDU_ENDMARK_SZ) then Ret (-1, s)
          else
            buf ← wr buf ptr 0;
            buf ← wr buf (ptr + 1) 0;
            let '(sent, w) :=
              mrpd_send mmrp_socket (take (Z.to_nat (ptr + 2)) buf) (wld s) in
            let s := put_mst (Mst (mrp_db (db s)) w) s in
            if sent <=? 0 then Ret (-1, s) else Ret (0, s).

(** The printed form of a key: [%d] of a service requirement is a number below
    256. *)
Definition mmrp_variant (k : mmrp_key) : string :=
  match k with
  | Svcreq v => snprintf BUFSIZE ("S=" +:+ pretty.pretty v)
  | Macvec m => snprintf BUFSIZE ("M=" +:+ fmt_mac m)
  end.

Definition mmrp_notify_text (attrib : mmrp_attribute) (notify : mrp_notify)
  : option string :=
  let variant := mmrp_variant (key attrib) in
  let regsrc := snprintf BUFSIZE ("R=" +:+ fmt_mac (reg_macaddr (registrar attrib))) in
  let mrp_state := mrp_decode_state (registrar attrib) (applicant attrib) 8 in
  let line cmd := snprintf (Z.to_nat MAX_MRPD_CMDSZ - 1)
    (cmd +:+ " " +:+ variant +:+ " " +:+ regsrc +:+ " " +:+ mrp_state +:+ "
") in
  match notify with
  | MRP_NOTIFY_NEW => Some (line "MNE")
  | MRP_NOTIFY_JOIN => Some (line "MJO")
  | MRP_NOTIFY_LV => Some (line "MLE")
  | MRP_NOTIFY_NONE => None
  end.

Definition mmrp_send_notifications (attrib : mmrp_attribute) (notify : mrp_notify)
    (m : mst) : mst :=
  let '(ok, w) := malloc (m_w m) in
  if negb ok then Mst (m_db m) w
  else
    let '(ok1, w) := malloc w in
    let '(ok2, w) := malloc w in
    if negb (ok1 && ok2) then Mst (m_db m) w
    else match mmrp_notify_text attrib notify with
         | None => Mst (m_db m) w
         | Some msgbuf => Mst (m_db m) (send_all (clients (m_db m)) msgbuf w)
         end.

(** [mmrp_event], one definition per case of its [switch]. *)
Definition mmrp_event_lvatimer (junk : Z * Z * Z) (mmrp_socket : Z) (s : mmrp_ast)
  : res mmrp_ast :=
  let '(_, m) := mrp_lvatimer_stop (get_mst s) in
  let '(_, m) := mrp_jointimer_stop m in
  let '(l, m) := each (attr_both_fsm MRP_EVENT_TXLA) (attrib_list (db s)) m in
  let '(_, m) := mrp_lvatimer_fsm MRP_EVENT_LVATIMER m in
  let '(_, m) := mrp_lvatimer_fsm MRP_EVENT_TX m in
  '(_, s) ← mmrp_txpdu junk mmrp_socket (Ast (AppDb (m_db m) l true) (m_w m));
  Ret (put_flag false s).

(** Received LeaveAll: only attributes of the kind it names. *)
Definition rla_step (t : mmrp_type) (a : mmrp_attribute) (m : mst) : mmrp_attribute * mst :=
  if decide (type_of (key a) = t) then attr_both_fsm MRP_EVENT_RLA a m else (a, m).

Definition mmrp_event_rla (rattrib : option mmrp_attribute) (s : mmrp_ast)
  : Z * mmrp_ast :=
  let '(_, m) := mrp_jointimer_start (get_mst s) in
  match rattrib with
  | None => (-1, put_mst m s)
  | Some r =>
      let '(l, m) := each (rla_step (type_of (key r))) (attrib_list (db s)) m in
      let '(_, m) := mrp_lvatimer_fsm MRP_EVENT_RLA m in
      (0, put_list l (put_mst m s))
  end.

Definition mmrp_event_tx (junk : Z * Z * Z) (mmrp_socket : Z) (s : mmrp_ast)
  : res mmrp_ast :=
  let '(_, m) := mrp_jointimer_stop (get_mst s) in
  let '(l, count) := tx_loop (p2pmac (m_w m)) (attrib_list (db s)) in
  '(_, s) ← mmrp_txpdu junk mmrp_socket (put_list l (put_mst m s));
  Ret (if count =? 0 then s
       else let '(_, m) := mrp_jointimer_start (get_mst s) in put_mst m s).

Definition mmrp_event_lvtimer (s : mmrp_ast) : mmrp_ast :=
  let '(_, m) := mrp_lvtimer_stop (get_mst s) in
  let '(l, m) := each (attr_registrar_fsm MRP_EVENT_LVTIMER) (attrib_list (db s)) m in
  put_list l (put_mst m s).

Definition mmrp_event_periodic (s : mmrp_ast) : mmrp_ast :=
  let m := get_mst s in
  let '(_, m) := match attrib_list (db s) with
                 | [] => (0, m)
                 | _ :: _ => mrp_jointimer_start m
                 end in
  let l := attr_applicant_fsm (p2pmac (m_w m)) MRP_EVENT_PERIODIC
           <$> attrib_list (db s) in
  put_list l (put_mst m s).

Definition mmrp_event_attribute (event : mrp_event) (rattrib : option mmrp_attribute)
    (s : mmrp_ast) : Z * mmrp_ast :=
  let '(_, m) := mrp_jointimer_start (get_mst s) in
  match rattrib with
  | None => (-1, put_mst m s)
  | Some r =>
      let l := match mmrp_lookup (attrib_list (db s)) (key r) with
               | None => mmrp_add r (attrib_list (db s))
               | Some _ => mmrp_merge r (attrib_list (db s))
               end in
      let '(l, m) := upd_first (fun k => same_key k (key r)) (fun a m =>
          let '(a, m) := attr_event event a m in (Some a, m)) l m in
      (0, put_list l (put_mst m s))
  end.

Definition mmrp_notify_all (s : mmrp_ast) : mmrp_ast :=
  let '(l, m) := each (notify_step mmrp_send_notifications)
                      (attrib_list (db s)) (get_mst s) in
  put_list l (put_mst m s).

(** The end of a case that can return -1 early. *)
Definition mmrp_finish (r : Z * mmrp_ast) : Z * mmrp_ast :=
  let '(rc, s) := r in if rc =? -1 then (-1, s) else (0, mmrp_notify_all s).

Definition mmrp_event (junk : Z * Z * Z) (mmrp_socket : Z) (event : mrp_event)
    (rattrib : option mmrp_attribute) (s : mmrp_ast) : res (Z * mmrp_ast) :=
  match event with
  | MRP_EVENT_LVATIMER =>
      s ← mmrp_event_lvatimer junk mmrp_socket s; Ret (0, mmrp_notify_all s)
  | MRP_EVENT_RLA => Ret (mmrp_finish (mmrp_event_rla rattrib s))
  | MRP_EVENT_TX =>
      s ← mmrp_event_tx junk mmrp_socket s; Ret (0, mmrp_notify_all s)
  | MRP_EVENT_LVTIMER => Ret (0, mmrp_notify_all (mmrp_event_lvtimer s))
  | MRP_EVENT_PERIODIC => Ret (0, mmrp_notify_all (mmrp_event_periodic s))
  | MRP_EVENT_NEW | MRP_EVENT_JOIN | MRP_EVENT_RNEW | MRP_EVENT_RJOININ
  | MRP_EVENT_RJOINMT | MRP_EVENT_LV | MRP_EVENT_RIN | MRP_EVENT_RMT
  | MRP_EVENT_RLV => Ret (mmrp_finish (mmrp_event_attribute event rattrib s))
  | _ => Ret (0, mmrp_notify_all s)
  end.

Definition mmrp_sink (junk : Z * Z * Z) (mmrp_socket : Z) : EventSink mmrp_key mmrp_ast := {|
  sink_malloc := fun s => let '(ok, w) := malloc (wld s) in
                          (ok, put_mst (Mst (mrp_db (db s)) w) s);
  sink_event := fun e a s => '(_, s) ← mmrp_event junk mmrp_socket e a s; Ret s
|}.

Definition mmrp_recv_msg (junk : Z * Z * Z) (mmrp_socket : Z) (r : recv_result)
    (s : mmrp_ast) : res (Z * mmrp_ast) :=
  let '(bytes, buf, w) := mrpd_recvmsgbuf r (wld s) in
  let s := put_mst (Mst (mrp_db (db s)) w) s in
  match buf with
  | None => Ret (-1, s)
  | Some msgbuf => mmrp_recv_frame (sink := mmrp_sink junk mmrp_socket) bytes msgbuf s
  end.

(** ** Garbage collection and clients *)

Definition mmrp_reclaim (s : option mmrp_ast) : Z * option mmrp_ast :=
  match s with
  | None => (0, None)
  | Some s =>
      let '(l, m) := each_opt (fun a m =>
          if reclaimable a then (None, mmrp_send_notifications a MRP_NOTIFY_LV m)
          else (Some a, m)) (attrib_list (db s)) (get_mst s) in
      (0, Some (put_list l (put_mst m s)))
  end.

Definition mmrp_bye (client : sockaddr_in) (s : option mmrp_ast) : option mmrp_ast :=
  match s with
  | None => None
  | Some s =>
      let d := mrp_db (db s) in
      let '(_, cl) := mrp_client_delete (clients d) (Some client) in
      Some (put_mst (Mst (set_clients cl d) (wld s)) s)
  end.

End Ops.
