(* ===== verification/MmrpList.v ===== *)
(** * The MMRP attribute list

    Keys are ordered within their kind; the list holds one kind, then the
    other, each strictly sorted, whichever kind came first.  [mmrp_add] keeps
    that shape and the list implements a map from keys to attributes. *)

From S2P Require Import Prelude Os Mrp MrpProps Attr AttrProps AppProps Mvrp Mmrp.
From Stdlib Require Import ZArith Lia Sorted.
From stdpp Require Import base tactics sets list strings option gmap.
Open Scope Z_scope.

(** ** memcmp is a strict total order on arrays of one length *)

Lemma memcmp_range a b : memcmp a b = -1 \/ memcmp a b = 0 \/ memcmp a b = 1.
Proof.
  revert b; induction a as [|x a IH]; intros [|y b]; cbn; auto.
  btest; auto. btest; auto.
Qed.

Lemma memcmp_total a b :
  length a = length b -> a <> b -> memcmp a b < 0 \/ memcmp b a < 0.
Proof.
  revert b; induction a as [|x a IH]; intros [|y b] Hl Hne; try done. cbn in *.
  destruct (Z.ltb_spec x y); [lia|]. destruct (Z.ltb_spec y x); [lia|].
  assert (x = y) as -> by lia. apply IH; [lia | congruence].
Qed.

Lemma memcmp_trans a b c :
  length a = length b -> length b = length c ->
  memcmp a b < 0 -> memcmp b c < 0 -> memcmp a c < 0.
Proof.
  revert b c; induction a as [|x a IH]; intros [|y b] [|z c] H1 H2; try done. cbn in *.
  destruct (Z.ltb_spec x y), (Z.ltb_spec y z), (Z.ltb_spec x z); try lia;
    repeat btest; try lia.
  intros. eapply (IH b); [lia | lia | done..].
Qed.

(** ** Keys *)

Definition key_ok (k : mmrp_key) : Prop :=
  match k with
  | Svcreq v => 0 <= v < 256
  | Macvec m => length m = 6%nat /\ bytes_ok m
  end.

#[export] Instance mmrp_key_eq_dec : EqDecision mmrp_key.
Proof. solve_decision. Defined.

Lemma same_key_true k r : key_ok k -> key_ok r -> same_key k r = true <-> k = r.
Proof.
  destruct k as [v|m], r as [v'|m']; cbn; intros Hk Hr; try done.
  - rewrite Z.eqb_eq. split; congruence.
  - rewrite Z.eqb_eq. split; [|intros [= ->]; apply memcmp_refl].
    intros H. f_equal. apply memcmp_eq; [|done]. destruct Hk, Hr. congruence.
Qed.

Lemma same_key_false k r : key_ok k -> key_ok r -> same_key k r = false <-> k <> r.
Proof.
  intros Hk Hr. rewrite <- not_true_iff_false. by rewrite same_key_true.
Qed.

(** The order of the list when kind [t] comes first. *)
Definition key_lt (t : mmrp_type) (k r : mmrp_key) : Prop :=
  if decide (type_of k = type_of r) then key_before k r = true else type_of k = t.

Lemma key_lt_same t k r :
  type_of k = type_of r -> key_lt t k r <-> key_before k r = true.
Proof. intros H. unfold key_lt. by rewrite decide_True. Qed.

Lemma key_lt_other t k r : type_of k <> type_of r -> key_lt t k r <-> type_of k = t.
Proof. intros H. unfold key_lt. by rewrite decide_False. Qed.

Lemma before_total k r :
  key_ok k -> key_ok r -> type_of k = type_of r -> k <> r ->
  key_before k r = false -> key_before r k = true.
Proof.
  destruct k as [v|m], r as [v'|m']; cbn; try done; intros Hk Hr _ Hne.
  - rewrite Z.ltb_ge, Z.ltb_lt. assert (v <> v') by congruence. lia.
  - rewrite Z.ltb_ge, Z.ltb_lt. destruct Hk, Hr.
    destruct (memcmp_total m m'); [congruence | congruence | lia | done].
Qed.

Lemma before_trans k1 k2 k3 :
  key_ok k1 -> key_ok k2 -> key_ok k3 ->
  key_before k1 k2 = true -> key_before k2 k3 = true -> key_before k1 k3 = true.
Proof.
  destruct k1 as [v1|m1], k2 as [v2|m2], k3 as [v3|m3]; cbn; try done; intros H1 H2 H3;
    rewrite !Z.ltb_lt; [lia|].
  destruct H1, H2, H3. apply memcmp_trans; congruence.
Qed.

Lemma before_irrefl k : key_before k k = false.
Proof. destruct k; cbn; [apply Z.ltb_irrefl | by rewrite memcmp_refl]. Qed.

Lemma key_lt_irrefl t k : ~ key_lt t k k.
Proof. rewrite key_lt_same by done. by rewrite before_irrefl. Qed.

(** The list invariant: for one of the two orders the list is sorted. *)
Definition klist_ok (l : list mmrp_attribute) : Prop :=
  exists t, list_ok (key_lt t) key_ok l.

#[export] Instance klist_ok_inv : ListInv klist_ok.
Proof.
  split; intros l l'.
  - intros Hk Hw [t Ht]. exists t. revert Ht. by apply li_same.
  - intros Hs [t Ht]. exists t. revert Ht. by apply li_sublist.
Qed.

(** ** Lookup *)

Lemma mmrp_lookup_split l r :
  Forall key_ok (key <$> l) -> key_ok r ->
  match mmrp_lookup l r with
  | None => Forall (fun a => key a <> r) l
  | Some a => key a = r /\ exists l1 l2, l = l1 ++ a :: l2
                /\ Forall (fun x => key x <> r) l1
  end.
Proof.
  intros Hl Hr. induction l as [|b l IH]; cbn; [done|]. cbn in Hl.
  apply Forall_cons_iff in Hl as [Hb Hl]. destruct (same_key (key b) r) eqn:E.
  - apply same_key_true in E; auto. split; [done|]. by exists [], l.
  - apply same_key_false in E; auto.
    specialize (IH Hl). destruct (mmrp_lookup l r) as [a|]; [|by constructor].
    destruct IH as (Hk & l1 & l2 & -> & Hl1). split; [done|].
    exists (b :: l1), l2. split; [done|]. by constructor.
Qed.

Lemma mmrp_merge_split r l1 a l2 :
  Forall key_ok (key <$> (l1 ++ a :: l2)) -> key_ok (key r) ->
  Forall (fun x => key x <> key r) l1 -> key a = key r ->
  mmrp_merge r (l1 ++ a :: l2)
  = l1 ++ set_macaddr (reg_macaddr (registrar r)) a :: l2.
Proof.
  intros Hok Hr Hl Ha. induction Hl as [|x l1 Hx _ IH]; cbn [app mmrp_merge].
  - rewrite Ha, (proj2 (same_key_true (key r) (key r) Hr Hr)); done.
  - cbn in Hok. apply Forall_cons_iff in Hok as [Hxk Hok].
    rewrite (proj2 (same_key_false (key x) (key r) Hxk Hr)) by done. by rewrite IH.
Qed.

(** ** Insertion *)

Lemma other_type t t' u : t <> u -> t' <> u -> t = t' :> mmrp_type.
Proof. by destruct t, t', u. Qed.

(** A kind not present goes to the end of the list. *)
Lemma mmrp_add_new_kind r l :
  Forall (fun a => type_of (key a) <> type_of (key r)) l -> mmrp_add r l = l ++ [r].
Proof.
  induction 1 as [|a l Ha _ IH]; cbn; [done|]. rewrite decide_False by done. by rewrite IH.
Qed.

(** Otherwise the attribute goes to its place in its group. *)
Lemma mmrp_add_place t r l :
  key_ok (key r) -> Forall key_ok (key <$> l) ->
  Forall (fun a => key a <> key r) l -> StronglySorted (key_lt t) (key <$> l) ->
  Exists (fun a => type_of (key a) = type_of (key r)) l ->
  exists l1 l2, l = l1 ++ l2 /\ mmrp_add r l = l1 ++ r :: l2
    /\ Forall (fun a => key_lt t (key a) (key r)) l1
    /\ Forall (fun a => key_lt t (key r) (key a)) l2.
Proof.
  intros Hr. induction l as [|a l IH]; intros Hok Hne Hs Hex; [by inversion Hex|].
  cbn in Hok, Hs. apply Forall_cons_iff in Hok as [Ha Hok].
  apply Forall_cons_iff in Hne as [Hna Hne]. apply StronglySorted_inv in Hs as [Hs Hlt].
  rewrite Forall_fmap in Hlt. cbn [mmrp_add].
  assert (Hgo : key_lt t (key a) (key r) ->
    Exists (fun a => type_of (key a) = type_of (key r)) l ->
    exists l1 l2, a :: l = l1 ++ l2 /\ a :: mmrp_add r l = l1 ++ r :: l2
      /\ Forall (fun a => key_lt t (key a) (key r)) l1
      /\ Forall (fun a => key_lt t (key r) (key a)) l2).
  { intros Har Hx. destruct (IH Hok Hne Hs Hx) as (l1 & l2 & -> & -> & H1 & H2).
    exists (a :: l1), l2. split_and!; auto. }
  case_decide as Ht.
  - destruct (key_before (key a) (key r)) eqn:Eb.
    + assert (Har : key_lt t (key a) (key r)) by (by rewrite key_lt_same).
      destruct l as [|b l]; [by exists [a], []; repeat split; repeat constructor|].
      case_decide as Htb; [apply Hgo; [done | left; congruence]|].
      exists [a], (b :: l). split; [done|]. split; [done|]. split; [by repeat constructor|].
      apply Forall_cons_iff in Hlt as [Hab Hlt]. cbn in Hab, Hs.
      rewrite key_lt_other in Hab by congruence.
      apply StronglySorted_inv in Hs as [_ Hbl]. rewrite Forall_fmap in Hbl.
      constructor; [rewrite key_lt_other; congruence|].
      eapply Forall_impl; [apply Hbl|]. cbn. intros x Hx.
      rewrite key_lt_other; [congruence|]. intros Hrx.
      rewrite key_lt_other in Hx; congruence.
    + pose proof (before_total _ _ Ha Hr (eq_sym Ht) Hna Eb) as Hra.
      exists [], (a :: l). split; [done|]. split; [done|]. split; [constructor|].
      constructor; [by rewrite key_lt_same|]. rewrite Forall_fmap in Hok.
      rewrite Forall_forall in *. intros x Hx. specialize (Hok x Hx). specialize (Hlt x Hx).
      cbn in Hok, Hlt. destruct (decide (type_of (key r) = type_of (key x))) as [Hrx|Hrx].
      * rewrite key_lt_same in * by congruence. by eapply (before_trans _ (key a)).
      * rewrite key_lt_other in * by congruence. congruence.
  - apply Exists_cons in Hex as [?|Hex]; [congruence|]. apply Hgo; [|done].
    rewrite key_lt_other by congruence.
    apply Exists_exists in Hex as (x & Hx & Htx). rewrite Forall_forall in Hlt.
    specialize (Hlt x Hx). cbn in Hlt. rewrite key_lt_other in Hlt by congruence. done.
Qed.

Lemma sorted_insert_gen {A} (R : A -> A -> Prop) l1 x l2 :
  StronglySorted R (l1 ++ l2) -> Forall (fun y => R y x) l1 -> Forall (R x) l2 ->
  StronglySorted R (l1 ++ x :: l2).
Proof.
  induction l1 as [|y l1 IH]; cbn; intros Hs H1 H2; [by constructor|].
  apply StronglySorted_inv in Hs as [Hs Hy]. apply Forall_cons_iff in H1 as [Hyx H1].
  constructor; auto. rewrite Forall_app in *. destruct Hy. split; [done|]. by constructor.
Qed.

Lemma mmrp_add_split r l :
  klist_ok l -> key_ok (key r) -> attr_wf r -> Forall (fun a => key a <> key r) l ->
  exists l1 l2, l = l1 ++ l2 /\ mmrp_add r l = l1 ++ r :: l2 /\ klist_ok (l1 ++ r :: l2).
Proof.
  intros [t [Hs Hk Hw]] Hr Hwr Hne.
  assert (Hgo : forall l1 l2 t', l = l1 ++ l2 ->
    StronglySorted (key_lt t') (key <$> (l1 ++ l2)) ->
    Forall (fun a => key_lt t' (key a) (key r)) l1 ->
    Forall (fun a => key_lt t' (key r) (key a)) l2 -> klist_ok (l1 ++ r :: l2)).
  { intros l1 l2 t' -> Hs' H1 H2. exists t'. rewrite fmap_app, Forall_app in Hk.
    rewrite Forall_app in Hw. destruct Hk, Hw.
    split; rewrite ?fmap_app, ?fmap_cons, ?Forall_app, ?Forall_cons_iff; auto.
    apply sorted_insert_gen; [by rewrite <- fmap_app | by rewrite Forall_fmap..]. }
  destruct (decide (Exists (fun a => type_of (key a) = type_of (key r)) l)) as [He|He].
  - destruct (mmrp_add_place t r l) as (l1 & l2 & E & Ea & H1 & H2); auto.
    exists l1, l2. split_and!; auto. eapply Hgo; eauto. by rewrite <- E.
  - apply not_Exists_Forall in He; [|intros x; apply _].
    exists l, []. rewrite app_nil_r. split_and!; auto; [by apply mmrp_add_new_kind|].
    set (u := match type_of (key r) with MMRP_SVCREQ_TYPE => MMRP_MACVEC_TYPE
              | MMRP_MACVEC_TYPE => MMRP_SVCREQ_TYPE end).
    assert (Hu : Forall (fun a => type_of (key a) = u) l).
    { eapply Forall_impl; [apply He|]. unfold u. intros a. cbn.
      by destruct (type_of (key a)), (type_of (key r)). }
    apply (Hgo l [] u); rewrite ?app_nil_r; auto.
    + clear -Hs Hu. induction Hu as [|a l Ha Hu IH]; cbn in *; [constructor|].
      apply StronglySorted_inv in Hs as [Hs Hlt]. constructor; [auto|].
      rewrite Forall_fmap in *. clear -Ha Hu Hlt.
      induction Hu as [|x l Hx _ IH]; [done|]. apply Forall_cons_iff in Hlt as [Hax Hlt].
      constructor; [|auto]. cbn in *. rewrite key_lt_same in * by congruence. done.
    + eapply Forall_impl; [apply Hu|]. cbn. intros a Ha.
      apply key_lt_other; [|done]. rewrite Ha. unfold u. by destruct (type_of (key r)).
Qed.

(** ** The attribute an event works on *)

Definition ktarget (r : mmrp_attribute) (l : list mmrp_attribute) : mmrp_attribute :=
  match mmrp_lookup l (key r) with
  | None => r
  | Some a => set_macaddr (reg_macaddr (registrar r)) a
  end.

Lemma klist_keys l : klist_ok l -> Forall key_ok (key <$> l).
Proof. by intros [t [_ H _]]. Qed.

(** After add or merge the target is in the list, in the place of the old
    attribute if there was one; no attribute before it has its key. *)
Lemma ktarget_split r l :
  klist_ok l -> key_ok (key r) -> attr_fresh r ->
  exists l1 l2,
    match mmrp_lookup l (key r) with
    | None => mmrp_add r l
    | Some _ => mmrp_merge r l
    end = l1 ++ ktarget r l :: l2
    /\ l = l1 ++ option_list (mmrp_lookup l (key r)) ++ l2
    /\ key (ktarget r l) = key r
    /\ Forall (fun x => key x <> key r) l1
    /\ klist_ok (l1 ++ ktarget r l :: l2).
Proof.
  intros Hl Hr (Hwr & _ & _). unfold ktarget. pose proof (klist_keys l Hl) as Hk.
  pose proof (mmrp_lookup_split l (key r) Hk Hr) as Hs.
  destruct (mmrp_lookup l (key r)) as [a|].
  - destruct Hs as (Ha & l1 & l2 & -> & Hl1). exists l1, l2.
    split_and!; auto; [by apply mmrp_merge_split|].
    revert Hl. apply li_same.
    + by rewrite !fmap_app.
    + rewrite !Forall_app, !Forall_cons_iff. intros (H1 & H2 & H3). split_and!; auto.
      apply set_registrar_wf; [apply Hwr | done].
  - destruct (mmrp_add_split r l Hl Hr Hwr Hs) as (l1 & l2 & -> & -> & Hok).
    exists l1, l2. rewrite Forall_app in Hs. destruct Hs. split_and!; auto.
Qed.
