(* ===== verification/MmrpRecv.v ===== *)
(** * The MMRP receiver

    Memory safety and termination of [mmrp_recv_frame] on arbitrary input, for
    every application behind the [EventSink] interface, and the arithmetic of
    [mmrp_increment_macaddr]. *)

From S2P Require Import Prelude Os Mrp Attr AttrProps Mvrp MvrpRecv Mmrp MmrpList.
From Stdlib Require Import ZArith Lia.
From stdpp Require Import base tactics list strings option.
Open Scope Z_scope.

(** ** Address increment *)

(** The big-endian value of an array. *)
Definition be_value (l : list Z) : Z := fold_left (fun v b => v * 256 + b) l 0.

Lemma fold_be l v : fold_left (fun v b => v * 256 + b) l v = v * 256 ^ Zlen l + be_value l.
Proof.
  unfold be_value. revert v; induction l as [|b l IH]; intros v; cbn [fold_left length].
  { lia. }
  rewrite IH, (IH (0 * 256 + b)), Nat2Z.inj_succ, Z.pow_succ_r by lia. ring.
Qed.

Lemma be_value_app l1 l2 : be_value (l1 ++ l2) = be_value l1 * 256 ^ Zlen l2 + be_value l2.
Proof. unfold be_value. rewrite fold_left_app. apply fold_be. Qed.

Lemma be_value_range l : bytes_ok l -> 0 <= be_value l < 256 ^ Zlen l.
Proof.
  induction l as [|b l IH] using rev_ind; intros H; [done|].
  unfold bytes_ok in H. rewrite Forall_app, Forall_singleton in H. destruct H as [Hl Hb].
  rewrite be_value_app, length_app, Nat2Z.inj_add, Z.pow_add_r by lia.
  specialize (IH Hl). unfold be_value at 2 4. cbn -[Z.mul Z.add Z.pow].
  change (256 ^ Z.of_nat 1) with 256. lia.
Qed.

(** Carrying from position [i] down to 1 adds one to the bytes 1 to [i]. *)
Lemma increment_from_spec i b0 l rest :
  length l = i -> bytes_ok l ->
  exists l', increment_from i (b0 :: l ++ rest) = b0 :: l' ++ rest
    /\ length l' = i /\ bytes_ok l'
    /\ be_value l' = (be_value l + 1) mod 256 ^ Z.of_nat i.
Proof.
  revert l rest; induction i as [|i IH]; intros l rest Hl Hb.
  { destruct l; [|done]. exists []. cbn. done. }
  destruct l as [|x l _] using rev_ind; [done|].
  rewrite length_app in Hl. cbn in Hl. assert (Hi : length l = i) by lia.
  unfold bytes_ok in Hb. rewrite Forall_app, Forall_singleton in Hb. destruct Hb as [Hb Hx].
  rewrite <- app_assoc. cbn [app increment_from].
  assert (Hlk : (b0 :: l ++ x :: rest) !!! S i = x).
  { apply list_lookup_total_correct. cbn. rewrite <- Hi. by apply list_lookup_middle. }
  assert (Hins : forall y, <[S i := y]> (b0 :: l ++ x :: rest) = b0 :: l ++ y :: rest).
  { intros y. change (<[S i := y]> (b0 :: ?t)) with (b0 :: <[i := y]> t). f_equal.
    rewrite <- Hi. rewrite insert_app_r_alt, Nat.sub_diag by done. done. }
  assert (Hp : 256 ^ Z.of_nat (S i) = 256 ^ Z.of_nat i * 256)
    by (rewrite Nat2Z.inj_succ, Z.pow_succ_r by lia; ring).
  assert (Hp0 : 0 < 256 ^ Z.of_nat i) by (apply Z.pow_pos_nonneg; lia).
  pose proof (be_value_range l Hb) as Hv. rewrite Hi in Hv.
  assert (Hsn : forall y, be_value (l ++ [y]) = be_value l * 256 + y)
    by (intros y; rewrite be_value_app; reflexivity).
  rewrite Hlk, !Hins. destruct (Z.eqb_spec 255 x) as [<-|Hne]; cbn [negb].
  - destruct (IH l (0 :: rest) Hi Hb) as (l' & -> & Hl' & Hb' & He).
    exists (l' ++ [0]). rewrite <- app_assoc. split; [done|].
    rewrite length_app. split; [cbn; lia|].
    split; [apply Forall_app; split; [done | by constructor]|].
    rewrite be_value_app, Hsn, He, Hp. change (be_value [0]) with 0.
    change (256 ^ Zlen [0]) with 256.
    replace (be_value l * 256 + 255 + 1) with ((be_value l + 1) * 256) by lia.
    rewrite Z.mul_mod_distr_r by lia. lia.
  - exists (l ++ [u8 (x + 1)]). rewrite <- app_assoc. split; [done|].
    rewrite length_app. split; [cbn; lia|].
    split; [apply Forall_app; split; [done | constructor; [apply u8_range | done]]|].
    rewrite !Hsn, u8_id, Hp by lia. rewrite Z.mod_small; lia.
Qed.

Lemma increment_spec m :
  length m = 6%nat -> bytes_ok m ->
  exists b0 l l', m = b0 :: l /\ mmrp_increment_macaddr m = b0 :: l'
    /\ length l' = 5%nat /\ bytes_ok (b0 :: l')
    /\ be_value l' = (be_value l + 1) mod 2 ^ 40.
Proof.
  intros Hl Hb. destruct m as [|b0 l]; [done|]. apply Forall_cons_iff in Hb as [H0 Hb].
  destruct (increment_from_spec 5 b0 l []) as (l' & E & Hl' & Hb' & He); [by injection Hl | done|].
  rewrite !app_nil_r in E. exists b0, l, l'. split_and!; auto. by constructor.
Qed.

Lemma increment_ok m : key_ok (Macvec m) -> key_ok (Macvec (mmrp_increment_macaddr m)).
Proof.
  intros [Hl Hb]. destruct (increment_spec m Hl Hb) as (b0 & l & l' & _ & -> & Hl' & Hb' & _).
  split; [cbn; lia | done].
Qed.

(** ** Safety and termination *)
Section Safety.
Context {S : Type} `{sink : !EventSink mmrp_key S} {I : S -> Prop}
        {ok : EventSinkOk mmrp_key S key_ok I}.

Lemma next_key_ok k : key_ok k -> key_ok (next_key k).
Proof. destruct k; [intros _; apply u8_range | apply increment_ok]. Qed.

Lemma mmrp_values_safe src evts : forall k s,
  length src = 6%nat -> key_ok k -> I s ->
  returns (mmrp_recv_values src evts k s) (fun '(_, k', s') => key_ok k' /\ I s').
Proof.
  induction evts as [|e evts IH]; intros k s Hs Hk HI; cbn [mmrp_recv_values]; [done|].
  destruct (negb (acceptable k)); [by apply IH|].
  pose proof (sink_malloc_ok s HI) as Hm. destruct (sink_malloc s) as [[] s1]; [|done].
  cbn [negb snd] in *. apply returns_bind with I.
  - destruct (mrpdu_event e) as [ev|] eqn:Ev; [|done].
    apply sink_event_ok; [done | by eapply mrpdu_event_received|].
    intros x [= <-]. done.
  - intros s2 H2. apply IH; auto using next_key_ok.
Qed.

Lemma mmrp_bytes_safe buf src vp n : forall vectidx k numvalues s,
  length src = 6%nat -> 0 <= vp + 2 + vectidx ->
  vp + 2 + vectidx + Z.of_nat n <= Zlen buf -> key_ok k -> I s ->
  returns (mmrp_recv_bytes n buf src vp vectidx k numvalues s) (fun '(_, s') => I s').
Proof.
  induction n as [|n IH]; intros vectidx k nv s Hs Hlo Hhi Hk HI;
    cbn [mmrp_recv_bytes]; [done|].
  eapply returns_bind; [apply rd_ok; lia|]. intros b _.
  destruct (vect_3pack_decode b) as [[e0 e1] e2].
  eapply returns_bind; [by apply mmrp_values_safe|].
  intros [[[] k'] s'] [Hk' HI']; [|done]. apply IH; auto; lia.
Qed.

Lemma rd_list_bytes buf n : forall i,
  bytes_ok buf -> 0 <= i -> i + Z.of_nat n <= Zlen buf ->
  returns (rd_list buf i n) (fun bs => length bs = n /\ bytes_ok bs).
Proof.
  induction n as [|n IH]; intros i Hb Hi Hn; cbn [rd_list]; [split; [done | constructor]|].
  eapply returns_bind; [apply rd_byte; [done | lia]|]. intros b Hbb.
  eapply returns_bind; [apply (IH (i + 1)); [done | lia | lia]|]. cbn.
  intros bs [Hl Hbs]. split; [congruence | by constructor].
Qed.

Lemma read_first_ok t buf ptr :
  bytes_ok buf -> 0 <= ptr -> ptr + 6 <= Zlen buf -> returns (read_first t buf ptr) key_ok.
Proof.
  intros Hb Hp Hl. destruct t; cbn [read_first].
  - eapply returns_bind; [apply rd_byte; [done | lia]|]. auto.
  - eapply returns_bind; [apply rd_list_bytes; [done | lia | lia]|]. auto.
Qed.

Lemma mmrp_lva_safe t lva saw s :
  I s -> returns (mmrp_recv_lva t lva saw s) (fun '(_, s') => I s').
Proof.
  intros HI. unfold mmrp_recv_lva. destruct (lva && _); [|done].
  pose proof (sink_malloc_ok s HI) as Hm. destruct (sink_malloc s) as [[] s1]; [|done].
  cbn [negb snd] in *. eapply returns_bind; [|intros s2 H2; exact H2].
  apply sink_event_ok; [done | done|]. intros x [= <-].
  destruct t; (split; [|done]); cbn; [lia|]. split; [done | by repeat constructor].
Qed.

Lemma first_len_range t : 1 <= first_len t <= 6.
Proof. destruct t; cbn; lia. Qed.

Lemma rd16_safe buf i : 0 <= i -> i + 1 < Zlen buf -> returns (rd16 buf i) (fun _ => True).
Proof.
  intros H1 H2. unfold rd16. eapply returns_bind; [apply rd_ok; lia|]. intros ? _.
  eapply returns_bind; [apply rd_ok; lia|]. done.
Qed.

Lemma mmrp_vectors_safe t buf src eof fuel : forall ptr saw s,
  length src = 6%nat -> bytes_ok buf -> eof + 8 <= Zlen buf ->
  0 <= ptr <= eof + 6 -> eof + 6 - ptr < Z.of_nat fuel -> I s ->
  returns (mmrp_recv_vectors fuel t buf src eof ptr saw s)
    (fun '(_, ptr', _, s') => ptr <= ptr' /\ I s').
Proof.
  pose proof (first_len_range t) as Ht.
  induction fuel as [|fuel IH]; intros ptr saw s Hs Hb Hl Hp Hf HI; [lia|].
  cbn [mmrp_recv_vectors].
  eapply returns_bind; [apply rd_ok; lia|]. intros b0 _.
  eapply returns_bind; [apply rd_ok; lia|]. intros b1 _.
  destruct (_ && _); [cbn; split; [lia | done]|].
  eapply returns_bind; [apply rd16_safe; lia|].
  intros hdr _. pose proof (numvalues_range hdr) as Hnv.
  eapply returns_bind; [by apply mmrp_lva_safe|].
  intros [[saw1|] s1] HI1; [|cbn; split; [lia | done]].
  destruct (Z.eqb_spec (MRPDU_VECT_NUMVALUES hdr) 0); [cbn; split; [lia | done]|].
  destruct (num_3pack_bound (MRPDU_VECT_NUMVALUES hdr)) as [Hn1 Hn2]; [lia|].
  assert (0 <= MRPDU_VECT_NUMVALUES hdr / 3) by (apply Z.div_pos; lia).
  destruct (Z.leb_spec eof (ptr + 2 + MRPDU_VECT_NUMVALUES hdr / 3));
    [cbn; split; [lia | done]|].
  eapply returns_bind; [apply read_first_ok; [done | lia | lia]|]. intros k Hk.
  eapply returns_bind; [apply mmrp_bytes_safe; auto; lia|].
  intros [[] s2] HI2; [|cbn; split; [lia | done]].
  eapply returns_mono; [apply IH; auto; lia|].
  intros [[[??]?]?] [??]. split; [lia | done].
Qed.

Lemma mmrp_messages_safe buf src eof fuel : forall ptr endmarks saw s,
  length src = 6%nat -> bytes_ok buf -> 15 <= eof -> eof + 8 <= Zlen buf ->
  eof <= MAX_FRAME_SIZE - 8 -> 0 <= ptr -> eof - ptr <= Z.of_nat fuel -> I s ->
  returns (mmrp_recv_messages fuel buf src eof ptr endmarks saw s) (fun '(_, s') => I s').
Proof.
  unfold MAX_FRAME_SIZE.
  induction fuel as [|fuel IH]; intros ptr em saw s Hs Hb He Hl Hm Hp Hf HI;
    cbn [mmrp_recv_messages]; unfold MRPDU_ENDMARK_SZ;
    (destruct (Z.ltb_spec ptr (eof - 2)) as [Hlt|]; cbn [negb]; [|done]); [lia|].
  eapply returns_bind; [apply rd_ok; lia|]. intros ty _.
  eapply returns_bind; [apply rd_ok; lia|]. intros len _.
  destruct (_ && _); [destruct (_ <? 2); [apply IH; auto; lia | done]|].
  assert (Hv : forall t, returns (if negb (len =? first_len t) then Ret (GotoOut, s)
    else '(f, ptr, saw_lva, s) ←
           mmrp_recv_vectors (Z.to_nat MAX_FRAME_SIZE) t buf src eof (ptr + 2) saw s;
         match f with
         | GotoOut => Ret (GotoOut, s)
         | Continue => mmrp_recv_messages fuel buf src eof ptr 0 saw_lva s
         end) (fun '(_, s') => I s')).
  { intros t. destruct (negb _); [done|].
    eapply returns_bind; [apply (mmrp_vectors_safe t buf src eof); auto;
      unfold MAX_FRAME_SIZE; lia|].
    intros [[[[] ptr'] saw'] s'] [Hge HI']; [|done]. apply IH; auto; lia. }
  destruct (ty =? _); [apply Hv|]. destruct (ty =? _); [apply Hv | done].
Qed.

Lemma mmrp_frame_safe bytes buf s :
  length buf = Z.to_nat MAX_FRAME_SIZE -> bytes_ok buf ->
  bytes <= MAX_FRAME_SIZE - 8 -> I s ->
  returns (mmrp_recv_frame bytes buf s) (fun '(rc, s') => (rc = 0 \/ rc = -1) /\ I s').
Proof.
  unfold MAX_FRAME_SIZE. intros Hl Hb Hn HI. unfold mmrp_recv_frame, ETH_HDR_SZ.
  destruct (Z.leb_spec bytes 0); [cbn; auto|].
  destruct (Z.ltb_spec bytes (14 + 1 + 2)); [cbn; auto|].
  eapply returns_bind; [apply rd16_safe; lia|]. intros tl _.
  destruct (negb _); [cbn; auto|].
  eapply returns_bind; [apply rd_list_ok; lia|]. intros dest _.
  destruct (negb _); [cbn; auto|].
  eapply returns_bind; [apply rd_list_ok; lia|]. intros src Hsrc. cbn beta in Hsrc.
  unfold MSG_LIST_OFF.
  eapply returns_bind; [apply mmrp_messages_safe; auto; unfold MAX_FRAME_SIZE; lia|].
  intros [[] s'] HI'; cbn; auto.
Qed.

End Safety.
