(* ===== verification/MmrpEmit.v ===== *)
(** * MMRP emission is memory safe

    The two emission functions never write outside the frame and only clear
    [tx] flags; the MAC message grows by at most nine bytes per transmitted
    address, which bounds where the service message starts. *)

From S2P Require Import Prelude Os Mrp Attr AttrProps AppProps Mvrp MvrpEmit Mmrp MmrpList.
From Stdlib Require Import ZArith Lia.
From stdpp Require Import base tactics list strings option.
Open Scope Z_scope.

(** ** One event *)

(** The vector bytes in use, a partly filled triple included. *)
Definition v_used (v : vec_st) : Z := v_idx v + (if 0 <? v_evt_idx v then 1 else 0).

Definition push_post (v v' : vec_st) : Prop :=
  length (v_buf v') = length (v_buf v) /\ v_idx v <= v_idx v'
  /\ 0 <= v_evt_idx v' <= 2 /\ v_used v' <= v_used v + 1.

Lemma vec_push_safe vp e v :
  0 <= vp + 2 + v_idx v < Zlen (v_buf v) -> 0 <= v_evt_idx v <= 2 ->
  returns (vec_push vp e v) (push_post v).
Proof.
  intros Hb Hi. unfold vec_push, push_post, v_used.
  destruct (Z.ltb_spec 2 (v_evt_idx v + 1)).
  - eapply returns_bind; [by apply wr_len|]. intros buf Hl. cbn in *.
    split_and!; auto; try lia. destruct (0 <? v_evt_idx v); lia.
  - cbn. split_and!; auto; try lia. destruct (0 <? v_evt_idx v), (0 <? v_evt_idx v + 1); lia.
Qed.

(** Attributes that still have [tx] set. *)
Definition txcount (l : list mmrp_attribute) : Z :=
  Zlen (filter (fun a => app_tx (applicant a) = true) l).

Lemma txcount_cons a l :
  txcount (a :: l) = (if app_tx (applicant a) then 1 else 0) + txcount l.
Proof.
  unfold txcount. rewrite filter_cons. case_decide as H.
  - rewrite H. cbn [length]. lia.
  - destruct (app_tx (applicant a)); [done | lia].
Qed.

Lemma txcount_clear a l : txcount (clear_tx a :: l) = txcount l.
Proof. by rewrite txcount_cons. Qed.

Lemma txcount_range l : 0 <= txcount l <= Zlen l.
Proof. unfold txcount. pose proof (length_filter (fun a => app_tx (applicant a) = true) l). lia. Qed.

Lemma txcount_cleared l l' : Forall2 tx_cleared l l' -> txcount l' <= txcount l.
Proof.
  induction 1 as [|a a' l l' [-> | ->] _ IH]; rewrite ?txcount_clear, ?txcount_cons;
    [done | lia |]. destruct (app_tx _); lia.
Qed.

(** ** The vectorising loops *)

(** Outcome of an inner loop that must stay below [lim]. *)
Definition mmrp_vec_post (vp lim : Z) (l : list mmrp_attribute) (v : vec_st)
    (out : bool * list mmrp_attribute * vec_st) : Prop :=
  let '(oops, l', v') := out in
  Forall2 tx_cleared l l' /\ length (v_buf v') = length (v_buf v)
  /\ v_idx v <= v_idx v' /\ 0 <= v_evt_idx v' <= 2
  /\ (oops = false -> vp + 2 + v_idx v' <= lim
                      /\ v_used v' + txcount l' <= v_used v + txcount l).

Lemma vec_post_stop vp lim l v :
  vp + 2 + v_idx v <= lim -> 0 <= v_evt_idx v <= 2 ->
  mmrp_vec_post vp lim l v (false, l, v).
Proof. intros H1 H2. split_and!; auto using tx_cleared_refl; lia. Qed.

Lemma vec_post_oops vp lim a l v v' :
  push_post v v' -> mmrp_vec_post vp lim (a :: l) v (true, clear_tx a :: l, v').
Proof.
  intros (H1 & H2 & H3 & H4). split_and!; try lia; try done.
  constructor; [by right | apply tx_cleared_refl].
Qed.

Lemma vec_post_step vp lim a l v v1 oops l' v' :
  app_tx (applicant a) = true -> push_post v v1 ->
  mmrp_vec_post vp lim l v1 (oops, l', v') ->
  mmrp_vec_post vp lim (a :: l) v (oops, clear_tx a :: l', v').
Proof.
  intros Ht (H1 & H2 & H3 & H4) (P1 & P2 & P3 & P4 & P5).
  split_and!; try lia; [constructor; [by right | done]|].
  intros Ho. destruct (P5 Ho). rewrite txcount_clear, txcount_cons, Ht. lia.
Qed.

Lemma push_post_refl v : 0 <= v_evt_idx v <= 2 -> push_post v v.
Proof. unfold push_post. lia. Qed.

Lemma svc_vectorize_safe vp eof l : forall firstval v,
  0 <= vp -> 0 <= v_idx v -> vp + 2 + v_idx v <= eof - 2 -> Zlen (v_buf v) = eof ->
  0 <= v_evt_idx v <= 2 ->
  returns (svc_vectorize vp eof firstval l v) (mmrp_vec_post vp (eof - 2) l v).
Proof.
  induction l as [|a l IH]; intros fv v Hvp Hi0 Hfit Hb Hi; cbn [svc_vectorize].
  { by apply vec_post_stop. }
  destruct (key a) as [svc|]; [|by apply vec_post_stop].
  destruct (app_tx (applicant a)) eqn:Ht; cbn [negb]; [|by apply vec_post_stop].
  destruct (negb _); [by apply vec_post_stop|].
  destruct (pdu_event _ _) as [e|]; [|by apply vec_post_oops, push_post_refl].
  eapply returns_bind; [apply vec_push_safe; [lia | done]|]. intros v1 Hp.
  unfold MRPDU_ENDMARK_SZ. destruct (Z.ltb_spec (eof - 2) (vp + 2 + v_idx v1));
    [by apply vec_post_oops|].
  pose proof Hp as (P1 & P2 & P3 & P4).
  eapply returns_bind; [apply IH; lia|]. intros [[oops l'] v'] Hpost.
  by eapply vec_post_step.
Qed.

Lemma mac_vectorize_safe reg0 vp eof l : forall firstval v,
  0 <= vp -> 0 <= v_idx v -> vp + 2 + v_idx v <= eof - 3 -> Zlen (v_buf v) = eof ->
  0 <= v_evt_idx v <= 2 ->
  returns (mac_vectorize reg0 vp eof firstval l v) (mmrp_vec_post vp (eof - 3) l v).
Proof.
  induction l as [|a l IH]; intros fv v Hvp Hi0 Hfit Hb Hi; cbn [mac_vectorize].
  { by apply vec_post_stop. }
  destruct (key a) as [|mac]; [by apply vec_post_stop|].
  destruct (app_tx (applicant a)) eqn:Ht; cbn [negb]; [|by apply vec_post_stop].
  destruct (negb _); [by apply vec_post_stop|].
  destruct (mac_pdu_event _ _ _) as [e|]; [|by apply vec_post_oops, push_post_refl].
  eapply returns_bind; [apply vec_push_safe; [lia | done]|]. intros v1 Hp.
  destruct (Z.ltb_spec (eof - 11) (vp + 2 + v_idx v1)); [by apply vec_post_oops|].
  pose proof Hp as (P1 & P2 & P3 & P4).
  eapply returns_bind; [apply IH; lia|]. intros [[oops l'] v'] Hpost.
  by eapply vec_post_step.
Qed.

(** The trailer byte of a partly filled triple. *)
Lemma trailer_safe vp v :
  0 <= vp + 2 + v_idx v < Zlen (v_buf v) ->
  returns (if 0 <? v_evt_idx v then
             buf ← wr (v_buf v) (vp + 2 + v_idx v) (vect_pack (v_evt v));
             Ret (buf, v_idx v + 1)
           else Ret (v_buf v, v_idx v))
    (fun '(buf, idx) => length buf = length (v_buf v) /\ idx = v_used v).
Proof.
  intros H. unfold v_used. destruct (0 <? v_evt_idx v).
  - eapply returns_bind; [by apply wr_len|]. done.
  - cbn. split; [done | lia].
Qed.

Lemma wr16_len buf i v :
  0 <= i -> i + 1 < Zlen buf -> returns (wr16 buf i v) (fun b => length b = length buf).
Proof.
  intros H1 H2. unfold wr16. eapply returns_bind; [apply wr_len; lia|]. intros b Hb.
  cbn beta in Hb. eapply returns_mono; [apply wr_len; lia|]. cbn. congruence.
Qed.

(** ** The outer loops *)

(** Where the pointers stand: at the start of the message, or behind a
    vector. *)
Definition emit_at (base eof : Z) (e : emit_st) : Prop :=
  Zlen (e_buf e) = eof
  /\ (e_ptr e = base /\ e_vp e = base + 2
      \/ e_ptr e = e_vp e /\ base + 2 < e_vp e <= eof - 2).

(** One MAC vector. *)
Lemma mac_emit_vector_safe base eof a mac r e :
  0 <= base -> emit_at base eof e -> e_ptr e < eof - 13 ->
  length mac = 6%nat ->
  returns (mac_emit_vector eof a mac r e) (fun '(oops, r', e') =>
    Forall2 tx_cleared r r' /\ Zlen (e_buf e') = eof
    /\ (oops = false -> emit_at base eof e'
          /\ e_vp e' + 9 * txcount r' <= e_vp e + 9 + 9 * txcount r)).
Proof.
  intros Hb (Hlen & Hat) Hroom Hmac. unfold mac_emit_vector.
  eapply returns_bind; [apply wr_list_len; lia|]. intros buf Hbuf. cbn beta in Hbuf.
  destruct (pdu_event _ _) as [ev|];
    [|cbn; split_and!; [apply tx_cleared_refl | lia | done]].
  eapply returns_bind; [apply mac_vectorize_safe; cbn [v_buf v_idx v_evt_idx]; lia|].
  intros [[oops r'] v] (Hcl & Hl & Hi & He & Hno). cbn [v_buf v_idx] in *.
  destruct oops; [cbn; split_and!; [done | lia | done]|].
  destruct (Hno eq_refl) as [Hf Hu]. clear Hno.
  eapply returns_bind; [apply trailer_safe; lia|]. intros [buf2 idx] [Hb2 ->].
  unfold MRPDU_ENDMARK_SZ. destruct (Z.ltb_spec (eof - 2) (e_vp e + 2 + v_used v));
    [cbn; split_and!; [done | lia | done]|].
  eapply returns_bind; [apply wr16_len; lia|]. intros buf3 Hb3. cbn in Hb3 |- *.
  assert (v_idx v <= v_used v) by (unfold v_used; destruct (0 <? _); lia).
  assert (Hu0 : v_used (VecSt buf (ev, 0, 0) 1 6 1) = 7) by done. rewrite Hu0 in Hu.
  pose proof (txcount_cleared _ _ Hcl).
  split_and!; [done | lia|]. intros _. split; [|lia]. split; [cbn; lia|].
  right. cbn. lia.
Qed.

Lemma cleared_key_ok l l' :
  Forall2 tx_cleared l l' -> Forall key_ok (key <$> l) -> Forall key_ok (key <$> l').
Proof. intros H. by rewrite (tx_cleared_keys _ _ H). Qed.

Definition mac_loop_post (base eof : Z) (l : list mmrp_attribute) (e : emit_st)
    (out : bool * list mmrp_attribute * emit_st) : Prop :=
  let '(oops, l', e') := out in
  Forall2 tx_cleared l l' /\ Zlen (e_buf e') = eof
  /\ (oops = false -> emit_at base eof e'
        /\ e_vp e' + 9 * txcount l' <= e_vp e + 9 * txcount l).

Lemma mac_emit_loop_safe base eof fuel : forall l e,
  0 <= base -> emit_at base eof e -> Forall key_ok (key <$> l) -> (length l <= fuel)%nat ->
  returns (mac_emit_loop fuel eof l e) (mac_loop_post base eof l e).
Proof.
  assert (Hstop : forall l e, emit_at base eof e -> mac_loop_post base eof l e (false, l, e)).
  { intros l e He. pose proof He as [? _]. split_and!; auto using tx_cleared_refl.
    intros _. split; [done | lia]. }
  induction fuel as [|fuel IH]; intros l e Hb He Hk Hl.
  { destruct l; [|cbn in Hl; lia]. cbn. destruct (negb _); by apply Hstop. }
  destruct l as [|a l]; cbn [mac_emit_loop]; [destruct (negb _); by apply Hstop|].
  destruct (negb _) eqn:Hroom; [by apply Hstop|].
  apply negb_false_iff, Z.ltb_lt in Hroom. unfold MRPDU_ENDMARK_SZ in Hroom.
  cbn in Hk. apply Forall_cons_iff in Hk as [Hka Hk]. cbn [length] in Hl.
  assert (Hskip : forall a', a' = a \/ a' = clear_tx a ->
    returns ('(oops, r', e) ← mac_emit_loop fuel eof l e; Ret (oops, a' :: r', e))
      (mac_loop_post base eof (a :: l) e)).
  { intros a' Ha'. eapply returns_bind; [apply IH; auto; lia|].
    intros [[oops l'] e'] (H1 & H2 & H3). cbn.
    split_and!; [by constructor | done|]. intros Ho. destruct (H3 Ho) as [H4 H5].
    split; [done|]. destruct Ha' as [-> | ->]; rewrite ?txcount_clear, ?txcount_cons;
      [lia|]. destruct (app_tx _); lia. }
  destruct (key a) as [|mac] eqn:Eka; [apply Hskip; by left|].
  destruct (app_tx (applicant a)) eqn:Htx; cbn [negb]; [|apply Hskip; by left].
  case_decide; [apply Hskip; by right|]. destruct Hka as [Hm _].
  eapply returns_bind; [apply (mac_emit_vector_safe base); auto; lia|].
  intros [[oops r'] e1] (Hcl & Hlen & Hno).
  destruct oops; [cbn; split_and!; [constructor; [by right | done] | done | done]|].
  destruct (Hno eq_refl) as [He1 Hc].
  eapply returns_bind; [apply IH; auto;
    [by eapply cleared_key_ok | rewrite <- (Forall2_length Hcl); lia]|].
  intros [[oops l'] e'] (H1 & H2 & H3). cbn.
  split_and!; [constructor; [by right | by eapply tx_cleared_trans] | done|].
  intros Ho. destruct (H3 Ho) as [H4 H5]. split; [done|].
  rewrite txcount_clear, txcount_cons, Htx. lia.
Qed.

(** The MAC message: how far it reaches. *)
Lemma emit_macvectors_safe msgbuf base eof lva l :
  0 <= base -> base + 17 < eof -> Zlen msgbuf = eof -> Forall key_ok (key <$> l) ->
  returns (mmrp_emit_macvectors msgbuf base eof lva l) (fun '(rc, bytes, l', buf) =>
    Forall2 tx_cleared l l' /\ Zlen buf = eof
    /\ (rc = -1 \/ rc = 0 /\ 0 <= bytes <= 4 + 9 * Zlen l /\ base + bytes <= eof)).
Proof.
  intros Hb Hroom Hlen Hk. unfold mmrp_emit_macvectors.
  destruct (Z.ltb_spec (eof - 11) base); [lia|].
  eapply returns_bind; [apply wr_len; lia|]. intros b1 Hb1. cbn beta in Hb1.
  eapply returns_bind; [apply wr_len; lia|]. intros b2 Hb2. cbn beta in Hb2.
  eapply returns_bind; [apply (mac_emit_loop_safe base); auto; split; [cbn; lia | by left]|].
  intros [[oops l'] e] (Hcl & Hbl & Hno).
  destruct oops; [cbn; split_and!; auto|].
  destruct (Hno eq_refl) as [[_ Hat] Hc]. clear Hno. cbn [e_vp] in Hc.
  destruct (Z.eqb_spec (e_vp e) (base + 2)); [cbn; split_and!; auto; right; lia|].
  eapply returns_bind; [apply wr_len; lia|]. intros b3 Hb3. cbn beta in Hb3.
  eapply returns_bind; [apply wr_len; lia|]. intros b4 Hb4. cbn in Hb4 |- *.
  pose proof (txcount_range l). pose proof (txcount_range l').
  split_and!; [done | lia|]. right. lia.
Qed.

(** ** The service requirement message *)

(** As [emit_at]; while [attrib_found_flag] is 0 the message is still as it was,
    [buf0]. *)
Definition svc_at (base eof : Z) (buf0 : list Z) (st : svc_st) : Prop :=
  emit_at base eof (s_emit st)
  /\ (e_found (s_emit st) = false ->
        e_vp (s_emit st) = base + 2 /\ e_buf (s_emit st) = buf0).

Lemma svc_emit_vector_safe base eof buf0 a svc r st :
  0 <= base -> svc_at base eof buf0 st -> e_ptr (s_emit st) < eof - 8 ->
  returns (svc_emit_vector eof a svc r st) (fun '(oops, r', st') =>
    Forall2 tx_cleared r r' /\ Zlen (e_buf (s_emit st')) = eof
    /\ (oops = false -> svc_at base eof buf0 st')).
Proof.
  intros Hb ((Hlen & Hat) & _) Hroom. unfold svc_emit_vector.
  eapply returns_bind; [apply wr_len; lia|]. intros buf Hbuf. cbn beta in Hbuf.
  destruct (pdu_event _ _) as [ev|];
    [|cbn; split_and!; [apply tx_cleared_refl | lia | done]].
  eapply returns_bind; [apply svc_vectorize_safe; cbn [v_buf v_idx v_evt_idx]; lia|].
  intros [[oops r'] v] (Hcl & Hl & Hi & He & Hno). cbn [v_buf v_idx] in *.
  destruct oops; [cbn; split_and!; [done | lia | done]|].
  destruct (Hno eq_refl) as [Hf _]. clear Hno.
  eapply returns_bind; [apply trailer_safe; lia|]. intros [buf2 idx] [Hb2 ->].
  assert (v_idx v <= v_used v) by (unfold v_used; destruct (0 <? _); lia).
  unfold MRPDU_ENDMARK_SZ.
  destruct (Z.ltb_spec (eof - 2) (e_vp (s_emit st) + 2 + v_used v));
    [cbn; split_and!; [done | lia | done]|].
  eapply returns_bind; [apply wr16_len; lia|]. intros buf3 Hb3. cbn in Hb3 |- *.
  split_and!; [done | lia|]. intros _. split; [|done]. split; [cbn; lia|].
  right. cbn. lia.
Qed.

Definition svc_loop_post (base eof : Z) (buf0 : list Z) (l : list mmrp_attribute)
    (out : bool * list mmrp_attribute * svc_st) : Prop :=
  let '(oops, l', st') := out in
  Forall2 tx_cleared l l' /\ Zlen (e_buf (s_emit st')) = eof
  /\ (oops = false -> svc_at base eof buf0 st').

Lemma svc_emit_loop_safe base eof buf0 fuel : forall l st,
  0 <= base -> svc_at base eof buf0 st -> (length l <= fuel)%nat ->
  returns (svc_emit_loop fuel eof l st) (svc_loop_post base eof buf0 l).
Proof.
  assert (Hstop : forall l st, svc_at base eof buf0 st -> svc_loop_post base eof buf0 l (false, l, st)).
  { intros l st Hs. pose proof Hs as [[? _] _]. split_and!; auto using tx_cleared_refl. }
  induction fuel as [|fuel IH]; intros l st Hb He Hl.
  { destruct l; [|cbn in Hl; lia]. cbn. destruct (negb _); by apply Hstop. }
  destruct l as [|a l]; cbn [svc_emit_loop]; [destruct (negb _); by apply Hstop|].
  destruct (negb _) eqn:Hroom; [by apply Hstop|].
  apply negb_false_iff, Z.ltb_lt in Hroom. unfold MRPDU_ENDMARK_SZ in Hroom.
  cbn [length] in Hl.
  assert (Hskip : forall a', tx_cleared a a' ->
    returns ('(oops, r', st) ← svc_emit_loop fuel eof l st; Ret (oops, a' :: r', st))
      (svc_loop_post base eof buf0 (a :: l))).
  { intros a' Ha'. eapply returns_bind; [apply IH; auto; lia|].
    intros [[oops l'] st'] (H1 & H2 & H3). cbn. split_and!; auto. }
  destruct (key a) as [svc|]; [|apply Hskip; by left].
  destruct (app_tx (applicant a)); cbn [negb]; [|apply Hskip; by left].
  case_decide; [apply Hskip; by right|].
  eapply returns_bind; [apply (svc_emit_vector_safe base _ buf0); auto; lia|].
  intros [[oops r'] st1] (Hcl & Hlen & Hno).
  destruct oops; [cbn; split_and!; [constructor; [by right | done] | done | done]|].
  eapply returns_bind; [apply IH; auto; rewrite <- (Forall2_length Hcl); lia|].
  intros [[oops l'] st'] (H1 & H2 & H3). cbn. split_and!; auto.
  constructor; [by right | by eapply tx_cleared_trans].
Qed.

(** The empty LeaveAll vector needs seven bytes behind [base], one more than
    the entry test asks for. *)
Lemma emit_svcvectors_safe junk msgbuf base eof lva flag l :
  0 <= base -> Zlen msgbuf = eof -> (flag = true -> base <> eof - 6) ->
  returns (mmrp_emit_svcvectors junk msgbuf base eof lva flag l)
    (fun '(rc, bytes, l', buf) =>
       Forall2 tx_cleared l l' /\ Zlen buf = eof
       /\ (rc = -1 \/ rc = 0 /\ 0 <= bytes /\ base + bytes <= eof)).
Proof.
  intros Hb Hlen Hflag. unfold mmrp_emit_svcvectors.
  destruct (Z.ltb_spec (eof - 6) base); [cbn; auto using tx_cleared_refl|].
  rewrite (wr_ok msgbuf) by lia. rewrite res_bind_ret.
  rewrite wr_ok by (rewrite length_insert; lia). rewrite res_bind_ret.
  set (buf := <[Z.to_nat (base + 1) := u8 1]> _).
  assert (Hbuf : Zlen buf = eof) by (unfold buf; rewrite !length_insert; lia).
  eapply returns_bind; [apply (svc_emit_loop_safe base _ buf); auto; split;
    [split; [done | by left] | done]|].
  intros [[oops l'] st] (Hcl & Hbl & Hno).
  destruct oops; [cbn; split_and!; auto|].
  destruct (Hno eq_refl) as [[_ Hat] Hf]. clear Hno. set (e := s_emit st) in *.
  apply returns_bind with (fun e' => Zlen (e_buf e') = eof
    /\ (e_vp e' = base + 2 \/ e_ptr e' = e_vp e' /\ base + 2 < e_vp e' <= eof - 2)).
  - destruct (negb (e_found e) && flag) eqn:Ee; [|cbn; split; [done | lia]].
    apply andb_true_iff in Ee as [Hfn ->]. apply negb_true_iff in Hfn.
    destruct (Hf Hfn) as [Hv Hbe]. specialize (Hflag eq_refl). rewrite Hv, Hbe.
    unfold wr16. rewrite (wr_ok buf) by lia. rewrite res_bind_ret.
    rewrite wr_ok by (rewrite length_insert; lia). rewrite res_bind_ret.
    rewrite (rd_lookup _ _ 1), res_bind_ret; [|lia|].
    + cbn. rewrite !length_insert. split; [done|]. right. lia.
    + rewrite !list_lookup_insert_ne by lia. unfold buf.
      by rewrite list_lookup_insert_eq by (rewrite length_insert; lia).
  - intros e' [Hl' Hp]. destruct (Z.eqb_spec (e_vp e') (base + 2));
      [cbn; split_and!; auto; right; lia|].
    eapply returns_bind; [apply wr_len; lia|]. intros b3 Hb3. cbn beta in Hb3.
    eapply returns_bind; [apply wr_len; lia|]. intros b4 Hb4. cbn in Hb4 |- *.
    split_and!; [done | lia|]. right. lia.
Qed.

(** ** The frame *)

(** Addresses the frame of a LeaveAll may have to carry. *)
Definition MMRP_MAX_ATTRS : nat := 219.

Section Txpdu.
Context {os : OS}.

Lemma mmrp_header_safe station :
  length station = 6%nat ->
  returns (mmrp_frame_header station) (fun b => Zlen b = MAX_FRAME_SIZE).
Proof.
  intros Hs. unfold mmrp_frame_header, MAX_FRAME_SIZE, ETH_HDR_SZ.
  eapply returns_bind; [apply wr16_len; rewrite ?length_replicate; lia|].
  intros b1 H1. cbn beta in H1. rewrite length_replicate in H1.
  eapply returns_bind; [apply wr_list_len; cbn [length MMRP_ADDR]; lia|].
  intros b2 H2. cbn beta in H2.
  eapply returns_bind; [apply wr_list_len; lia|]. intros b3 H3. cbn beta in H3.
  eapply returns_mono; [apply wr_len; lia|]. cbn. lia.
Qed.

Lemma mmrp_tx_keeps (s : mmrp_ast) l d w :
  Forall2 tx_cleared (attrib_list (db s)) l -> d = mrp_db (db s) \/ d = lva_sent (mrp_db (db s)) ->
  w_extends (wld s) w -> tx_keeps s (put_list l (put_mst (Mst d w) s)).
Proof.
  intros Hcl Hd Hw. split_and!; cbn; auto using tx_cleared_kept, tx_cleared_states;
    try (by destruct Hd as [-> | ->]).
Qed.

Lemma mmrp_txpdu_keeps junk sock s :
  Forall key_ok (key <$> attrib_list (db s)) -> station_ok (wld s) ->
  (send_empty_LeaveAll_flag (db s) = true ->
     (length (attrib_list (db s)) <= MMRP_MAX_ATTRS)%nat) ->
  returns (mmrp_txpdu junk sock s) (fun '(_, s') => tx_keeps s s').
Proof.
  intros Hk [Hsl _] Hmax. unfold mmrp_txpdu, malloc.
  set (s0 := put_mst _ s).
  assert (Hs0 : s0 = put_list (attrib_list (db s)) (put_mst (Mst (mrp_db (db s))
    (step_tick (wld s))) s)) by done.
  destruct (os_malloc _); cbn [negb].
  2: { cbn [returns]. rewrite Hs0. apply mmrp_tx_keeps; auto using tx_cleared_refl with avb. }
  eapply returns_bind; [by apply mmrp_header_safe|]. intros buf Hbuf. cbn beta in Hbuf.
  unfold s0. cbn [put_mst db mrp_db attrib_list m_db send_empty_LeaveAll_flag].
  rewrite lva_sent_if. unfold MSG_LIST_OFF, MRPDU_ENDMARK_SZ, MAX_FRAME_SIZE in *.
  eapply returns_bind; [apply emit_macvectors_safe; auto; lia|].
  intros [[[rc bytes] l1] buf1] (Hc1 & Hb1 & Hrc).
  set (lv := lva_tx _). set (s1 := put_list l1 _).
  assert (Hgoal : forall l w, Forall2 tx_cleared l1 l -> w_extends (wld s) w ->
    tx_keeps s (put_list l (put_mst (Mst (lva_sent (mrp_db (db s))) w) s))).
  { intros l w Hl Hw. apply mmrp_tx_keeps; auto. by eapply tx_cleared_trans. }
  assert (Hs1 : tx_keeps s s1) by (apply Hgoal; auto using tx_cleared_refl with avb).
  destruct (Z.eqb_spec rc (-1)); [done|].
  destruct (Z.leb_spec (2000 - 2) (15 + bytes)); [done|].
  assert (Hbytes : 0 <= bytes <= 4 + 9 * Zlen (attrib_list (db s))) by lia.
  cbn [put_list put_mst db attrib_list send_empty_LeaveAll_flag s1].
  eapply returns_bind; [apply emit_svcvectors_safe; [lia | done |]|].
  { intros Hf. specialize (Hmax Hf). unfold MMRP_MAX_ATTRS in Hmax. lia. }
  intros [[[rc2 bytes2] l2] buf2] (Hc2 & Hb2 & Hrc2).
  assert (Hs2 : forall w, w_extends (wld s) w -> tx_keeps s (put_list l2 (put_mst
    (Mst (lva_sent (mrp_db (db s))) w) s))) by (intros; by apply Hgoal).
  assert (Hw : w_extends (wld s) (step_tick (wld s))) by auto with avb.
  destruct (Z.eqb_spec rc2 (-1)); [by apply Hs2|].
  destruct (_ =? 15); [by apply Hs2|].
  destruct (Z.ltb_spec (15 + bytes + bytes2) (2000 - 2)); cbn [negb]; [|by apply Hs2].
  eapply returns_bind; [apply wr_len; lia|]. intros b3 Hb3. cbn beta in Hb3.
  eapply returns_bind; [apply wr_len; lia|]. intros b4 _.
  assert (Hs3 : forall act, tx_keeps s (put_list l2 (put_mst
    (Mst (lva_sent (mrp_db (db s))) (log act (step_tick (wld s)))) s))).
  { intros act. apply Hs2. etransitivity; [apply Hw | apply w_extends_log]. }
  cbn [mrpd_send]. destruct (_ <=? 0); apply Hs3.
Qed.

End Txpdu.
