(* ===== verification/MmrpProps.v ===== *)
(** * Correctness of the MMRP database

    Every operation keeps the database and timer invariants; reception is
    memory safe; an attribute event acts on one key only; and the limits of the
    emitter, by evaluation. *)

From S2P Require Import Prelude Os Mrp MrpProps Attr AttrProps AppProps Mvrp MvrpEmit.
From S2P Require Import MvrpProps MvrpTheorems Mmrp MmrpList MmrpRecv MmrpEmit.
From Stdlib Require Import ZArith Lia Sorted.
From stdpp Require Import base tactics sets list strings option gmap.
Open Scope Z_scope.

Abbreviation mdb_ok := (app_ok klist_ok).
Abbreviation mev_post := (app_post klist_ok).

(** The invariant with the bound the LeaveAll frame needs. *)
Definition bounded (l : list mmrp_attribute) : Prop :=
  klist_ok l /\ (length l <= MMRP_MAX_ATTRS)%nat.

#[export] Instance bounded_inv : ListInv bounded.
Proof.
  split; intros l l'.
  - intros Hk Hw [H1 H2]. split; [by eapply li_same|].
    rewrite <- (length_fmap key), Hk, length_fmap. done.
  - intros Hs [H1 H2]. split; [by eapply li_sublist|]. apply sublist_length in Hs. lia.
Qed.

Section Events.
Context {os : OS}.

Lemma mmrp_send_quiet a n m : m_quiet m (mmrp_send_notifications a n m).
Proof.
  destruct m as [d w]. unfold mmrp_send_notifications, malloc. cbn [m_w m_db].
  assert (H3 : w_extends w (step_tick (step_tick (step_tick w)))).
  { do 2 (etransitivity; [apply w_extends_tick|]). apply w_extends_tick. }
  destruct (os_malloc _); cbn [negb]; [|apply m_quiet_world, w_extends_tick].
  destruct (negb _); [by apply m_quiet_world|].
  destruct (mmrp_notify_text a n); apply m_quiet_world; [|done].
  etransitivity; [done | apply send_all_extends].
Qed.

Lemma mev_post_notify s s' : mev_post s s' -> mev_post s (mmrp_notify_all s').
Proof. apply (app_post_notify klist_ok mmrp_send_notifications mmrp_send_quiet). Qed.

(** ** The handlers *)

Lemma rla_step_kept t a m :
  m_quiet m (rla_step t a m).2 /\ attr_kept a (rla_step t a m).1 (rla_step t a m).2.
Proof.
  unfold rla_step. case_decide; [apply attr_both_kept|]. split; [done | apply attr_kept_refl].
Qed.

Lemma mmrp_event_rla_post rattrib s :
  mdb_ok s -> mev_post s (mmrp_event_rla rattrib s).2.
Proof.
  intros Hok. unfold mmrp_event_rla. destruct rattrib as [r|].
  - pose proof (rla_handler_post klist_ok _ s (rla_step_kept (type_of (key r))) Hok) as H.
    unfold rla_handler in H. destruct (mrp_jointimer_start _) as [rc m].
    destruct (each _ _ m) as [l m2]. by destruct (mrp_lvatimer_fsm _ m2).
  - pose proof (null_post klist_ok s Hok) as H. by destruct (mrp_jointimer_start _).
Qed.

Lemma mmrp_event_periodic_post s : mdb_ok s -> mev_post s (mmrp_event_periodic s).
Proof. apply (periodic_handler_post klist_ok). Qed.

Lemma mmrp_event_lvtimer_post s : mdb_ok s -> mev_post s (mmrp_event_lvtimer s).
Proof.
  intros Hok. unfold mmrp_event_lvtimer.
  pose proof (fun f => lvtimer_handler_post klist_ok f s) as H. unfold lvtimer_handler in H.
  destruct (mrp_lvtimer_stop (get_mst s)) as [rc m]. rewrite each_as_opt.
  apply H; [|done]. clear. intros a m.
  destruct (attr_registrar_kept MRP_EVENT_LVTIMER a m) as (Hq & Hk & _).
  pose proof (lvtimer_none_leaving a m) as Hn.
  by destruct (attr_registrar_fsm _ a m) as [a' m'].
Qed.

Lemma mmrp_event_tx_post junk sock s :
  mdb_ok s -> returns (mmrp_event_tx junk sock s) (mev_post s).
Proof.
  apply (tx_handler_post klist_ok (mmrp_txpdu junk sock)). intros s0 Hf Hl Hst.
  apply mmrp_txpdu_keeps; [by apply klist_keys | done | congruence].
Qed.

Lemma bounded_post s s' : app_post bounded s s' -> mev_post s s'.
Proof. intros (((H1 & _) & H2) & H3). by split. Qed.

Lemma mmrp_event_lvatimer_post junk sock s :
  mdb_ok s -> (length (attrib_list (db s)) <= MMRP_MAX_ATTRS)%nat ->
  returns (mmrp_event_lvatimer junk sock s) (mev_post s).
Proof.
  intros (H1 & H2) Hm. eapply returns_mono; [|intros s'; apply bounded_post].
  apply (lvatimer_handler_post bounded (mmrp_txpdu junk sock)); [|by split].
  intros s0 Hf [Hl Hlen] Hst. apply mmrp_txpdu_keeps; [by apply klist_keys | done | done].
Qed.

(** ** Attribute events *)

(** What the event leaves at its key. *)
Definition kevent_result (event : mrp_event) (r : mmrp_attribute)
    (l : list mmrp_attribute) (m : mst) : mmrp_attribute :=
  (attr_event event (ktarget r l) m).1.

Lemma mmrp_attribute_spec event r s :
  klist_ok (attrib_list (db s)) -> key_ok (key r) -> attr_fresh r ->
  let l := attrib_list (db s) in
  let m1 := (mrp_jointimer_start (get_mst s)).2 in
  let a' := kevent_result event r l m1 in
  exists s' l1 l2, mmrp_event_attribute event (Some r) s = (0, s')
    /\ l = l1 ++ option_list (mmrp_lookup l (key r)) ++ l2
    /\ attrib_list (db s') = l1 ++ a' :: l2
    /\ Forall (fun x => key x <> key r) l1
    /\ m_quiet m1 (get_mst s')
    /\ send_empty_LeaveAll_flag (db s') = send_empty_LeaveAll_flag (db s)
    /\ attr_kept (ktarget r l) a' (get_mst s') /\ key (ktarget r l) = key r
    /\ klist_ok (l1 ++ ktarget r l :: l2).
Proof.
  intros Hl Hr Hf l m1 a'.
  destruct (ktarget_split r l Hl Hr Hf) as (l1 & l2 & Hadd & Hold & Hk & H1 & Hok).
  pose proof (klist_keys _ Hok) as Hkeys. rewrite fmap_app, Forall_app, Forall_fmap in Hkeys.
  unfold mmrp_event_attribute. subst m1 a'. unfold kevent_result.
  destruct (mrp_jointimer_start (get_mst s)) as [rc m1]. cbn [snd] in *.
  fold l. rewrite Hadd. rewrite (upd_first_split (fun k => same_key k (key r))).
  2: { destruct Hkeys as [Hk1 _]. rewrite Forall_forall in *. intros x Hx.
       apply same_key_false; auto. by apply Hk1. }
  2: { rewrite Hk. by apply same_key_true. }
  destruct (attr_event_kept event (ktarget r l) m1) as [Hq Hkept].
  destruct (attr_event event (ktarget r l) m1) as [a m2]. cbn [fst snd] in *.
  eexists _, l1, l2. split; [done|]. cbn.
  assert (Hm : Mst (m_db m2) (m_w m2) = m2) by (by destruct m2).
  unfold get_mst. cbn. rewrite Hm. split_and!; auto.
  all: by destruct Hkept as (? & ? & ?).
Qed.

Lemma ktarget_leaving r l :
  attr_fresh r -> leaving (ktarget r l) ->
  exists x, mmrp_lookup l (key r) = Some x /\ leaving x.
Proof.
  intros (_ & _ & Hmt). unfold ktarget, leaving.
  destruct (mmrp_lookup l (key r)) as [a|]; [by eauto|]. rewrite Hmt. done.
Qed.

Lemma mmrp_event_attribute_post event rattrib s :
  mdb_ok s -> (forall r, rattrib = Some r -> key_ok (key r) /\ attr_fresh r) ->
  mev_post s (mmrp_event_attribute event rattrib s).2.
Proof.
  intros Hok Hra. destruct rattrib as [r|].
  2: { pose proof (null_post klist_ok s Hok) as H. unfold mmrp_event_attribute.
       by destruct (mrp_jointimer_start _). }
  destruct (Hra r eq_refl) as [Hr Hf].
  destruct (mmrp_attribute_spec event r s (proj1 Hok) Hr Hf)
    as (s' & l1 & l2 & -> & Hold & Hnew & H1 & Hq & Hf' & Hk & _ & Hli). cbn [snd].
  set (a' := kevent_result _ _ _ _) in *.
  apply (app_post_attribute klist_ok s s' l1 l2 _ (Some a') Hok Hold Hnew); auto.
  - rewrite Hnew. eapply (li_kept klist_ok _ _ (get_mst s')), Hli. apply Forall2_app; [apply kept_refl|].
    constructor; [done | apply kept_refl].
  - intros Ht a [= <-] Ha. destruct Hk as (_ & _ & Hk).
    destruct (Hk Ht Ha) as [Hl|]; [|by right]. left. by apply ktarget_leaving.
Qed.

Lemma mmrp_event_post junk sock event rattrib s :
  mdb_ok s -> (forall r, rattrib = Some r -> key_ok (key r) /\ attr_fresh r) ->
  (event = MRP_EVENT_LVATIMER -> (length (attrib_list (db s)) <= MMRP_MAX_ATTRS)%nat) ->
  returns (mmrp_event junk sock event rattrib s) (fun '(_, s') => mev_post s s').
Proof.
  intros Hok Hra Hlen. pose proof (app_post_refl klist_ok s Hok) as Hid.
  assert (Hfin : forall p, mev_post s p.2 ->
    returns (Ret (mmrp_finish p)) (fun '(_, s') => mev_post s s')).
  { intros [rc s'] Hp. cbn [snd] in Hp. unfold mmrp_finish.
    destruct (rc =? -1); cbn; auto using mev_post_notify. }
  pose proof (mmrp_event_attribute_post event rattrib s Hok Hra) as Hat.
  pose proof (mmrp_event_rla_post rattrib s Hok) as Hrla.
  destruct event; cbn [mmrp_event]; auto using mev_post_notify;
    try (apply mev_post_notify; auto using mmrp_event_lvtimer_post,
         mmrp_event_periodic_post).
  - eapply returns_bind; [by apply mmrp_event_tx_post|]. intros s'. apply mev_post_notify.
  - eapply returns_bind; [apply mmrp_event_lvatimer_post; auto|]. intros s'.
    apply mev_post_notify.
Qed.

End Events.
