(* ===== verification/MmrpTheorems.v ===== *)
(** * The properties of MMRP

    Reachable states, memory safety of reception, the list as a map, one-key
    events, address arithmetic, and the defects of the emitter by evaluation. *)

From S2P Require Import Prelude Os Mrp MrpProps Attr AttrProps AppProps Mvrp MvrpEmit.
From S2P Require Import MvrpProps MvrpTheorems Mmrp MmrpList MmrpRecv MmrpEmit MmrpProps.
From Stdlib Require Import ZArith Lia Sorted.
From stdpp Require Import base tactics sets list strings option gmap relations.
Open Scope Z_scope.

(** ** Reachable states *)
Section Reach.
Context {os : OS} (junk : Z * Z * Z) (sock : Z).

Definition minput_ok (r : option mmrp_attribute) : Prop :=
  forall a, r = Some a -> key_ok (key a) /\ attr_fresh a.

(** Frames short enough for the parser's length check. *)
Definition mframe_ok (r : recv_result) : Prop :=
  forall data, r = RecvBytes data -> bytes_ok data /\ Zlen data <= MAX_FRAME_SIZE - 8.

(** What can happen to the MMRP database between start and stop. *)
Inductive mmrp_step : mmrp_ast -> mmrp_ast -> Prop :=
| mstep_event e r s rc s' :
    minput_ok r ->
    (e = MRP_EVENT_LVATIMER -> (length (attrib_list (db s)) <= MMRP_MAX_ATTRS)%nat) ->
    mmrp_event junk sock e r s = Ret (rc, s') -> mmrp_step s s'
| mstep_recv r s rc s' :
    mframe_ok r -> mmrp_recv_msg junk sock r s = Ret (rc, s') -> mmrp_step s s'
| mstep_reclaim s rc s' : mmrp_reclaim (Some s) = (rc, Some s') -> mmrp_step s s'
| mstep_bye c s s' : mmrp_bye c (Some s) = Some s' -> mmrp_step s s'.

Lemma mmrp_sink_ok s0 :
  @EventSinkOk mmrp_key mmrp_ast _ (mmrp_sink junk sock) key_ok (mev_post s0).
Proof.
  split.
  - intros s Hs. cbn. eapply app_post_trans; [done|].
    apply app_post_world; [apply w_extends_tick | apply Hs].
  - intros e a s Hs He Ha. cbn [sink_event mmrp_sink].
    eapply returns_bind; [apply mmrp_event_post; [apply Hs | done | by intros ->]|].
    intros [rc s'] Hp. cbn. by eapply app_post_trans.
Qed.

Lemma mmrp_recv_post r s :
  mdb_ok s -> mframe_ok r ->
  returns (mmrp_recv_msg junk sock r s)
    (fun '(rc, s') => (rc = 0 \/ rc = -1) /\ mev_post s s').
Proof.
  intros Hs Hr. unfold mmrp_recv_msg.
  pose proof (recvmsgbuf_spec r (wld s) (fun d E => proj1 (Hr d E))) as Hb.
  assert (Hbytes : (mrpd_recvmsgbuf r (wld s)).1.1 <= MAX_FRAME_SIZE - 8).
  { apply recvmsgbuf_bound; [done|]. intros d E. apply (Hr d E). }
  destruct (mrpd_recvmsgbuf r (wld s)) as [[bytes buf] w]. destruct Hb as (-> & Hb & _).
  cbn [fst] in Hbytes.
  assert (Hp : mev_post s (put_mst (Mst (mrp_db (db s)) (step_tick (wld s))) s))
    by (apply app_post_world; [apply w_extends_tick | done]).
  destruct buf as [b|]; [|cbn; auto]. destruct Hb as [Hlen Hbo].
  exact (mmrp_frame_safe (ok := mmrp_sink_ok s) bytes b _ Hlen Hbo Hbytes Hp).
Qed.

Lemma mmrp_reclaim_spec s :
  exists s', mmrp_reclaim (Some s) = (0, Some s')
    /\ attrib_list (db s') = filter (fun a => reclaimable a = false) (attrib_list (db s))
    /\ m_quiet (get_mst s) (get_mst s')
    /\ send_empty_LeaveAll_flag (db s') = send_empty_LeaveAll_flag (db s).
Proof.
  unfold mmrp_reclaim. set (f := fun a m => _).
  destruct (each_opt_spec m_quiet f
    (fun a o _ => o = if reclaimable a then None else Some a))
    with (l := attrib_list (db s)) (s := get_mst s) as (Hq & ol & Ho & Hl); auto.
  { intros a m. unfold f. destruct (reclaimable a); (split; [|done]);
      [apply mmrp_send_quiet | done]. }
  destruct (each_opt _ _ _) as [l m]. cbn in *. eexists. split; [done|]. cbn.
  split; [|split; [by destruct m | done]]. subst l. clear -Ho.
  induction Ho as [|a o l ol -> _ IH]; [done|]. cbn [omap list_omap].
  rewrite filter_cons. destruct (reclaimable a) eqn:E; cbn [id].
  - by rewrite decide_False by congruence.
  - by rewrite decide_True, IH by done.
Qed.

Lemma mmrp_reclaim_post s s' rc :
  mdb_ok s -> mmrp_reclaim (Some s) = (rc, Some s') -> mev_post s s'.
Proof.
  intros Hok E. destruct (mmrp_reclaim_spec s) as (s1 & E1 & Hlist & Hq & Hfl).
  rewrite E1 in E. simplify_eq. by apply (app_post_reclaim klist_ok).
Qed.

Lemma mmrp_step_inv s s' :
  mmrp_step s s' -> mdb_ok s ->
  mdb_ok s' /\ (timers_ok os -> timers_inv s -> timers_inv s').
Proof.
  assert (Hp : forall s s', mev_post s s' ->
    mdb_ok s' /\ (timers_ok os -> timers_inv s -> timers_inv s'))
    by (intros ?? (? & _ & ?); auto).
  destruct 1 as [e r s rc s' Hr Hlen E | r s rc s' Hr E | s rc s' E | c s s' E]; intros Hok.
  - pose proof (mmrp_event_post junk sock e r s Hok Hr Hlen) as H. rewrite E in H. auto.
  - pose proof (mmrp_recv_post r s Hok Hr) as H. rewrite E in H. destruct H. auto.
  - apply Hp. by eapply mmrp_reclaim_post.
  - cbn in E. injection E as <-.
    destruct Hok as (H1 & H2 & H3). split; [by split|]. by intros _ [??].
Qed.

(** C26: every state the MMRP database can reach from a well-formed one, by any
    sequence of local and timer events, received frames (of at most 1992
    bytes), garbage collections and client departures, is well-formed: one
    group of sorted service requirements and one of sorted MAC addresses, no
    key twice, known messages only; the LeaveAll timer runs, and the leave
    timer whenever an attribute is leaving. *)
Theorem mmrp_reachable_ok s s' :
  mdb_ok s -> rtc mmrp_step s s' ->
  mdb_ok s' /\ (timers_ok os -> timers_inv s -> timers_inv s').
Proof.
  intros Hs Hr. induction Hr as [s|s s1 s' H1 _ IH]; [auto|].
  destruct (mmrp_step_inv s s1 H1 Hs) as [Hs1 Ht1]. destruct (IH Hs1) as [Hs' Ht']. auto.
Qed.

(** No operation gets stuck: on a well-formed database every event returns
    (the LeaveAll expiry with at most 219 attributes), without touching memory
    outside the frame it builds. *)
Theorem mmrp_event_total e r s :
  mdb_ok s -> minput_ok r ->
  (e = MRP_EVENT_LVATIMER -> (length (attrib_list (db s)) <= MMRP_MAX_ATTRS)%nat) ->
  exists rc s', mmrp_event junk sock e r s = Ret (rc, s') /\ mmrp_step s s'.
Proof.
  intros Hs Hr Hl. pose proof (mmrp_event_post junk sock e r s Hs Hr Hl) as H.
  apply returns_inv in H as ([rc s'] & E & _). exists rc, s'. split; [done|].
  by econstructor.
Qed.

(** Reception is memory safe and total: for every frame of at most 1992
    bytes (and for failed reads) [mmrp_recv_msg] returns 0 or -1 and keeps the
    database invariant. *)
Theorem mmrp_recv_msg_safe r s :
  mdb_ok s -> mframe_ok r ->
  returns (mmrp_recv_msg junk sock r s) (fun '(rc, s') => (rc = 0 \/ rc = -1) /\ mdb_ok s').
Proof.
  intros Hs Hr. eapply returns_mono; [by apply mmrp_recv_post|].
  intros [rc s'] (H1 & H2 & _). auto.
Qed.

End Reach.

(** ** The list as a map *)

Lemma mmrp_lookup_app l1 l2 k :
  mmrp_lookup (l1 ++ l2) k
  = match mmrp_lookup l1 k with Some a => Some a | None => mmrp_lookup l2 k end.
Proof. induction l1 as [|a l1 IH]; cbn; [done|]. by destruct (same_key _ _). Qed.

Lemma mmrp_lookup_none l k :
  Forall key_ok (key <$> l) -> key_ok k -> Forall (fun a => key a <> k) l ->
  mmrp_lookup l k = None.
Proof.
  intros Hl Hk. induction 1 as [|a l Ha _ IH]; cbn in *; [done|].
  apply Forall_cons_iff in Hl as [Hka Hl].
  by rewrite (proj2 (same_key_false _ _ Hka Hk)), IH.
Qed.

(** Replacing the attribute at a key changes the map there only. *)
Lemma lookup_middle l1 o l2 a k k' :
  Forall key_ok (key <$> (l1 ++ a :: l2)) -> key_ok k' -> key a = k ->
  (forall x, o = Some x -> key x = k) -> Forall (fun x => key x <> k) l1 ->
  mmrp_lookup (l1 ++ a :: l2) k'
  = if decide (k' = k) then Some a else mmrp_lookup (l1 ++ option_list o ++ l2) k'.
Proof.
  intros Hok Hk' Ha Ho H1. rewrite fmap_app, fmap_cons, Forall_app, Forall_cons_iff in Hok.
  destruct Hok as (Hok1 & Hka & Hok2). rewrite !mmrp_lookup_app. cbn [mmrp_lookup].
  case_decide as Hd.
  - subst k' k. rewrite (mmrp_lookup_none l1) by done.
    by rewrite (proj2 (same_key_true (key a) (key a) Hka Hka)).
  - rewrite (proj2 (same_key_false (key a) k' Hka Hk')) by congruence.
    destruct (mmrp_lookup l1 k'); [done|]. destruct o as [x|]; [|done]. cbn.
    by rewrite (proj2 (same_key_false (key x) k' ltac:(by rewrite (Ho x eq_refl), <- Ha) Hk'))
      by (rewrite (Ho x eq_refl); done).
Qed.

(** The two-group list implements a map: [mmrp_add] of an absent key inserts
    it, [mmrp_merge] of a present one replaces its source address, every other
    key keeps its attribute, and the list stays well-formed. *)
Theorem mmrp_list_refines_map l r k :
  klist_ok l -> key_ok (key r) -> key_ok k -> attr_fresh r ->
  let l' := match mmrp_lookup l (key r) with
            | None => mmrp_add r l
            | Some _ => mmrp_merge r l
            end in
  klist_ok l'
  /\ mmrp_lookup l' k =
     if decide (k = key r)
     then Some match mmrp_lookup l (key r) with
               | None => r
               | Some a => set_macaddr (reg_macaddr (registrar r)) a
               end
     else mmrp_lookup l k.
Proof.
  intros Hl Hr Hk Hf l'. unfold l'.
  destruct (ktarget_split r l Hl Hr Hf) as (l1 & l2 & -> & Hold & Hkey & H1 & Hok).
  split; [done|].
  rewrite (lookup_middle l1 (mmrp_lookup l (key r)) l2 (ktarget r l) (key r)); auto.
  - by rewrite <- Hold.
  - by apply klist_keys.
  - intros x Hx. pose proof (mmrp_lookup_split l (key r) (klist_keys l Hl) Hr) as Hs.
    rewrite Hx in Hs. apply Hs.
Qed.

Lemma mmrp_lookup_notify l k :
  mmrp_lookup (set_notify MRP_NOTIFY_NONE <$> l) k
  = set_notify MRP_NOTIFY_NONE <$> mmrp_lookup l k.
Proof. induction l as [|a l IH]; [done|]. cbn. by destruct (same_key (key a) k). Qed.

(** An attribute event changes the attribute of its own key, to what the
    applicant and registrar machines compute, and no other. *)
Theorem mmrp_event_one_key {os : OS} junk sock event r s k :
  attribute_event event = true -> klist_ok (attrib_list (db s)) ->
  key_ok (key r) -> attr_fresh r -> key_ok k ->
  returns (mmrp_event junk sock event (Some r) s) (fun '(rc, s') => rc = 0 /\
    mmrp_lookup (attrib_list (db s')) k
    = set_notify MRP_NOTIFY_NONE <$>
        (if decide (k = key r)
         then Some (kevent_result event r (attrib_list (db s))
                      (mrp_jointimer_start (get_mst s)).2)
         else mmrp_lookup (attrib_list (db s)) k)).
Proof.
  intros He Hl Hr Hf Hk.
  destruct (mmrp_attribute_spec event r s Hl Hr Hf)
    as (s' & l1 & l2 & Heq & Hold & Hnew & H1 & _ & _ & Hkept & Hkey & Hok).
  assert (Hev : mmrp_event junk sock event (Some r) s = Ret (0, mmrp_notify_all s')).
  { destruct event; try done; cbn [mmrp_event]; by rewrite Heq. }
  rewrite Hev. cbn [returns]. split; [done|].
  destruct (notify_handler_spec mmrp_send_notifications mmrp_send_quiet s') as (_ & Hlist & _).
  change (attrib_list (db (mmrp_notify_all s')))
    with (attrib_list (db (notify_handler mmrp_send_notifications s'))).
  rewrite Hlist, mmrp_lookup_notify, Hnew. f_equal.
  set (a' := kevent_result _ _ _ _) in *.
  assert (Ha' : key a' = key r) by (destruct Hkept as (-> & _); done).
  rewrite (lookup_middle l1 (mmrp_lookup (attrib_list (db s)) (key r)) l2 a' (key r)); auto.
  - by rewrite <- Hold.
  - pose proof (klist_keys _ Hok) as Hks. rewrite fmap_app, fmap_cons in *.
    by rewrite Ha', <- Hkey.
  - intros x Hx. pose proof (mmrp_lookup_split _ (key r) (klist_keys _ Hl) Hr) as Hs.
    rewrite Hx in Hs. apply Hs.
Qed.

(** [mmrp_increment_macaddr] counts: it adds one, modulo 2^40, to the number
    in bytes 1 to 5 of the address and never touches byte 0. *)
Theorem mmrp_increment_counts m :
  length m = 6%nat -> bytes_ok m ->
  exists b0 l l', m = b0 :: l /\ mmrp_increment_macaddr m = b0 :: l'
    /\ length l' = 5%nat /\ bytes_ok (b0 :: l')
    /\ be_value l' = (be_value l + 1) mod 2 ^ 40.
Proof. apply increment_spec. Qed.

(** ** Concrete databases *)

Definition demo_mac (x y z : Z) : mmrp_key := Macvec [0x01; 0x00; 0x5e; x; y; z].

Definition demo_mattr (k : mmrp_key) (st : applicant_state) (reg : registrar_state)
  : mmrp_attribute :=
  Attr k (Applicant st false MRP_SND_NULL MRP_ENCODE_YES None)
    (Registrar reg MRP_NOTIFY_NONE [0; 0; 0; 0; 0; 0]).

Definition demo_mast (l : list mmrp_attribute) : mmrp_ast :=
  Ast (AppDb (mrp_db (db (demo_ast []))) l false) (wld (demo_ast [])).

Definition demo_macs : list mmrp_attribute :=
  [demo_mattr (demo_mac 0 0 1) MRP_VP_STATE MRP_MT_STATE;
   demo_mattr (demo_mac 0 0 7) MRP_VN_STATE MRP_MT_STATE;
   demo_mattr (Svcreq 0) MRP_QA_STATE MRP_LV_STATE].

Lemma demo_klist_ok : klist_ok demo_macs.
Proof.
  exists MMRP_MACVEC_TYPE. split; cbn.
  - repeat constructor.
  - repeat constructor; unfold bytes_ok; repeat constructor; lia.
  - by repeat constructor.
Qed.

Lemma demo_mdb_ok : mdb_ok (demo_mast demo_macs).
Proof.
  split; [apply demo_klist_ok|]. split; [|done]. split; [done|]. repeat constructor; lia.
Qed.

Lemma demo_minput : minput_ok (Some (Attr (Svcreq 1) fresh_applicant fresh_registrar)).
Proof. intros a [= <-]. split; [cbn; lia | done]. Qed.

(** The state after a tx! event. *)
Definition demo_sent : mmrp_ast :=
  match mmrp_event (os := calm_os) (0, 0, 0) 9 MRP_EVENT_TX None (demo_mast demo_macs) with
  | Ret (_, s') => s'
  | Fault _ => demo_mast demo_macs
  end.

Lemma mmrp_reachable_ok_witness : mdb_ok demo_sent /\ timers_inv demo_sent.
Proof.
  destruct (mmrp_reachable_ok (os := calm_os) (0, 0, 0) 9 (demo_mast demo_macs) demo_sent)
    as [H1 H2].
  - exact demo_mdb_ok.
  - apply rtc_once, (mstep_event (os := calm_os) _ _ MRP_EVENT_TX None _ 0);
      [discriminate | discriminate | vm_compute; reflexivity].
  - split; [exact H1|]. apply H2; [exact demo_timers_ok|].
    split; [reflexivity|]. by repeat constructor.
Defined.

Lemma mmrp_event_total_witness :
  exists rc s', mmrp_event (os := calm_os) (0, 0, 0) 9 MRP_EVENT_JOIN
    (Some (Attr (Svcreq 1) fresh_applicant fresh_registrar)) (demo_mast demo_macs)
    = Ret (rc, s') /\ mmrp_step (os := calm_os) (0, 0, 0) 9 (demo_mast demo_macs) s'.
Proof.
  apply (mmrp_event_total (os := calm_os)); [exact demo_mdb_ok | exact demo_minput
    | discriminate].
Defined.

Lemma mmrp_recv_msg_safe_witness :
  returns (mmrp_recv_msg (os := calm_os) (0, 0, 0) 9
      (RecvBytes (MMRP_ADDR ++ [0; 1; 2; 3; 4; 5; 0x88; 0xF6; 0; 1; 1; 0; 1; 1; 36; 0; 0]))
      (demo_mast demo_macs))
    (fun '(rc, s') => (rc = 0 \/ rc = -1) /\ mdb_ok s').
Proof.
  apply (mmrp_recv_msg_safe (os := calm_os)); [exact demo_mdb_ok|].
  intros data [= <-]. split; [unfold bytes_ok; repeat constructor; lia | vm_compute; discriminate].
Defined.

Lemma mmrp_list_refines_map_witness :
  mmrp_lookup (mmrp_add (Attr (Svcreq 1) fresh_applicant fresh_registrar) demo_macs)
    (demo_mac 0 0 7) = mmrp_lookup demo_macs (demo_mac 0 0 7).
Proof.
  apply (mmrp_list_refines_map demo_macs (Attr (Svcreq 1) fresh_applicant fresh_registrar)
    (demo_mac 0 0 7)); [exact demo_klist_ok | cbn; lia
    | split; [reflexivity | unfold bytes_ok; repeat constructor; lia] | done].
Defined.

Lemma mmrp_event_one_key_witness :
  returns (mmrp_event (os := calm_os) (0, 0, 0) 9 MRP_EVENT_RJOININ
      (Some (Attr (Svcreq 1) fresh_applicant fresh_registrar)) (demo_mast demo_macs))
    (fun '(rc, s') => rc = 0 /\ mmrp_lookup (attrib_list (db s')) (Svcreq 0)
       = Some (demo_mattr (Svcreq 0) MRP_QA_STATE MRP_LV_STATE)).
Proof.
  apply (mmrp_event_one_key (os := calm_os) (0, 0, 0) 9 MRP_EVENT_RJOININ
    (Attr (Svcreq 1) fresh_applicant fresh_registrar) (demo_mast demo_macs) (Svcreq 0));
    [reflexivity | exact demo_klist_ok | cbn; lia | done | cbn; lia].
Defined.

Lemma mmrp_increment_counts_witness :
  exists b0 l l', [1; 0; 94; 0; 255; 255] = b0 :: l
    /\ mmrp_increment_macaddr [1; 0; 94; 0; 255; 255] = b0 :: l' /\ length l' = 5%nat
    /\ bytes_ok (b0 :: l') /\ be_value l' = (be_value l + 1) mod 2 ^ 40.
Proof.
  apply mmrp_increment_counts; [reflexivity | unfold bytes_ok; repeat constructor; lia].
Defined.

(** ** Defects of the emitter and the parser, by evaluation *)

(** 14 consecutive addresses and 218 isolated ones, all to be announced. *)
Definition crowded_macs : list mmrp_attribute :=
  ((fun i => demo_mattr (demo_mac 0 0 (Z.of_nat i)) MRP_VP_STATE MRP_MT_STATE) <$> seq 1 14)
  ++ ((fun i => demo_mattr (demo_mac 1 (Z.of_nat i) 0) MRP_VP_STATE MRP_MT_STATE)
       <$> seq 0 218).

(** The bound on the LeaveAll frame is needed: the entry test of
    [mmrp_emit_svcvectors] asks for six bytes but the empty LeaveAll vector and
    its end mark take seven, so that a LeaveAll expiry with MAC addresses that
    fill the frame up to six bytes writes past it. *)
Theorem mmrp_leaveall_overflow :
  mmrp_event (os := calm_os) (0, 0, 0) 9 MRP_EVENT_LVATIMER None (demo_mast crowded_macs)
  = Fault (OobWrite 2000).
Proof. vm_compute. reflexivity. Qed.

(** A sink that records the events it is given. *)
Definition trace_sink : EventSink mmrp_key (list (mrp_event * option mmrp_key)) := {|
  sink_malloc := fun t => (true, t);
  sink_event := fun e a t => Ret (t ++ [(e, key <$> a)])
|}.

(** What a station that receives the frame a tx! event sends gets to see. *)
Definition heard (r : res (Z * mmrp_ast)) : option (res (Z * list (mrp_event * option mmrp_key))) :=
  match r with
  | Ret (_, s') => match frames_sent (w_trace (wld s')) with
                   | f :: _ => Some (mmrp_recv_frame (sink := trace_sink) (Zlen f)
                                       (rx_buffer f) [])
                   | [] => None
                   end
  | Fault _ => None
  end.

(** Service requirements do not survive the wire: the emitter leaves a gap
    byte between FirstValue and the vector that the receiver does not expect, so
    a JoinMt of service requirement 1 is received as New, and the frame is then
    rejected. *)
Theorem mmrp_service_garbled :
  heard (mmrp_event (os := calm_os) (0, 0, 0) 9 MRP_EVENT_TX None
           (demo_mast [demo_mattr (Svcreq 1) MRP_VP_STATE MRP_MT_STATE]))
  = Some (Ret (-1, [(MRP_EVENT_RNEW, Some (Svcreq 1))])).
Proof. vm_compute. reflexivity. Qed.

(** Two addresses that end in 1 and [z]. *)
Definition two_macs (st : applicant_state) (reg1 reg2 : registrar_state) (z : Z)
  : list mmrp_attribute :=
  [demo_mattr (demo_mac 0 0 1) st reg1; demo_mattr (demo_mac 0 0 z) st reg2].

(** MAC addresses on the wire.  A transmission of two addresses is received
    as sent.  A LeaveAll is repeated in every MAC vector, and the receiver
    applies it each time, so that the second puts the first vector's address,
    just joined, back to leaving.  And a follower's Join is resolved by the
    first address's registrar: address 2, which nobody registered, is announced
    as JoinIn. *)
Theorem mmrp_mac_wire :
  let tx l e := heard (mmrp_event (os := calm_os) (0, 0, 0) 9 e None (demo_mast l)) in
  let lva := (MRP_EVENT_RLA, Some (Macvec [0; 0; 0; 0; 0; 0])) in
  tx demo_macs MRP_EVENT_TX
    = Some (Ret (0, [(MRP_EVENT_RJOINMT, Some (demo_mac 0 0 1));
                     (MRP_EVENT_RNEW, Some (demo_mac 0 0 7))]))
  /\ tx (two_macs MRP_QA_STATE MRP_MT_STATE MRP_MT_STATE 7) MRP_EVENT_LVATIMER
    = Some (Ret (-1, [lva; (MRP_EVENT_RJOINMT, Some (demo_mac 0 0 1));
                      lva; (MRP_EVENT_RJOINMT, Some (demo_mac 0 0 7));
                      (MRP_EVENT_RLA, Some (Svcreq 0))]))
  /\ tx (two_macs MRP_VP_STATE MRP_IN_STATE MRP_MT_STATE 2) MRP_EVENT_TX
    = Some (Ret (0, [(MRP_EVENT_RJOININ, Some (demo_mac 0 0 1));
                     (MRP_EVENT_RJOININ, Some (demo_mac 0 0 2))])).
Proof. split; [|split]; vm_compute; reflexivity. Qed.
