(* ===== verification/MmrpCmd.v ===== *)
(** * The control side of mmrp.c: commands, table dump and start *)

From S2P Require Import Prelude Os Parse Mrp MrpProps Attr AttrProps AppProps AppCmd Mvrp.
From S2P Require Import MvrpTheorems Mmrp MmrpList MmrpRecv MmrpEmit MmrpProps MmrpTheorems.
From Stdlib Require Import ZArith Lia Sorted.
From stdpp Require Import base tactics sets list strings option gmap pretty.
Open Scope Z_scope.

(** ** Definitions *)
Section Ops.
Context {os : OS}.

(** [mmrp_init]: returns rc, [mmrp_socket], [MMRP_db] and the world. *)
Definition mmrp_init : bool -> world -> Z * Z * option (app_database mmrp_key) * world :=
  app_init.

(** One line of the table, as staged by [mmrp_dumptable]. *)
Definition mmrp_dump_line (a : mmrp_attribute) : string :=
  let regsrc := snprintf BUFSIZE ("R=" +:+ fmt_mac (reg_macaddr (registrar a))) in
  let cmd := match reg_mrp_state (registrar a) with
             | MRP_IN_STATE => "MIN "
             | MRP_LV_STATE => "MLV "
             | MRP_MT_STATE => "MMT "
             end in
  snprintf BUFSIZE (cmd +:+ mmrp_variant (key a) +:+ " " +:+ regsrc +:+ "
").

Definition mmrp_dumptable : sockaddr_in -> list mmrp_attribute -> world -> res (Z * world) :=
  app_dumptable "MMRP:Empty
" mmrp_dump_line.

Definition mac_specs : list (list Z * parse_type) := [(bytes_of "M=", parse_mac)].
Definition service_specs : list (list Z * parse_type) := [(bytes_of "S=", parse_u8)].

(** [mmrp_cmd_parse_mac]: the address, or [None]. *)
Definition mmrp_cmd_parse_mac (buf : list Z) (buflen : Z) : res (option mmrp_key) :=
  if buflen <? 17 then Ret None
  else
    r ← parse buf 4 (buflen - 4) mac_specs;
    Ret (match r with
         | Some (inr [PBytes mac]) => Some (Macvec mac)
         | _ => None
         end).

Definition mmrp_cmd_parse_service (buf : list Z) (buflen : Z) : res (option mmrp_key) :=
  if buflen <? 5 then Ret None
  else
    r ← parse buf 4 (buflen - 4) service_specs;
    Ret (match r with
         | Some (inr [PInt service]) => Some (Svcreq service)
         | _ => None
         end).

(** [mmrp_cmd_mac] and [mmrp_cmd_service]: an event for a new attribute with
    the key [k]. *)
Definition mmrp_cmd_attribute (junk : Z * Z * Z) (sock : Z) (k : mmrp_key)
    (event : mrp_event) (s : mmrp_ast) : res (Z * mmrp_ast) :=
  let '(ok, w) := malloc (wld s) in
  let s := put_mst (Mst (mrp_db (db s)) w) s in
  if negb ok then Ret (-1, s)
  else
    '(_, s) ← mmrp_event junk sock event (Some (Attr k fresh_applicant fresh_registrar)) s;
    Ret (0, s).

(** A command with a parameter; [left] is the buffer as the parser leaves it. *)
Definition mmrp_attr_command (junk : Z * Z * Z) (sock : Z) (event : mrp_event)
    (parsed : res (option mmrp_key)) (left buf : list Z) (client : sockaddr_in) (s : mmrp_ast)
  : res (Z * mmrp_ast) :=
  k ← parsed;
  match k with
  | None => cmd_error "ERP " left client s
  | Some k =>
      '(rc, s) ← mmrp_cmd_attribute junk sock k event s;
      if rc =? 0 then Ret (0, s) else cmd_error "ERI " buf client s
  end.

Definition mmrp_recv_cmd (junk : Z * Z * Z) (sock : Z) (buf : list Z) (buflen : Z)
    (client : sockaddr_in) (s : mmrp_ast) : res (Z * mmrp_ast) :=
  let d := mrp_db (db s) in
  let '(_, cl, w) := mrp_client_add (clients d) (Some client) (wld s) in
  let s := put_mst (Mst (set_clients cl d) w) s in
  let starts lit := has_prefix (bytes_of lit) buf in
  if buflen <? 3 then Ret (-1, s)
  else
    b0 ← rd buf 0;
    if negb (b0 =? 77) then Ret (-1, s)
    else if starts "M??" then
      '(_, w) ← mmrp_dumptable client (attrib_list (db s)) (wld s);
      Ret (0, put_mst (Mst (mrp_db (db s)) w) s)
    else if starts "M--:S" then
      mmrp_attr_command junk sock MRP_EVENT_LV (mmrp_cmd_parse_service buf buflen)
        (cmd_left 5 service_specs buf buflen) buf client s
    else if starts "M--:M" then
      mmrp_attr_command junk sock MRP_EVENT_LV (mmrp_cmd_parse_mac buf buflen)
        (cmd_left 17 mac_specs buf buflen) buf client s
    else if starts "M++:S" || starts "M+?:S" then
      mmrp_attr_command junk sock (if starts "M+?" then MRP_EVENT_JOIN else MRP_EVENT_NEW)
        (mmrp_cmd_parse_service buf buflen) (cmd_left 5 service_specs buf buflen) buf client s
    else if starts "M++:M" || starts "M+?:M" then
      mmrp_attr_command junk sock (if starts "M+?" then MRP_EVENT_JOIN else MRP_EVENT_NEW)
        (mmrp_cmd_parse_mac buf buflen) (cmd_left 17 mac_specs buf buflen) buf client s
    else cmd_error "ERC MMRP " buf client s.

(** The command entry point when MMRP is disabled ([MMRP_db] is NULL). *)
Definition mmrp_recv_cmd_disabled : list Z -> sockaddr_in -> world -> res (Z * world) :=
  cmd_disabled "ERC MMRP_db ".

End Ops.

(** ** The table dump *)

(** A byte prints as at most three digits. *)
Lemma pretty_byte v : 0 <= v < 256 -> (String.length (pretty v) <= 3)%nat.
Proof.
  intros Hv.
  assert (Hall : Forall (fun n => (String.length (pretty (Z.of_nat n)) <= 3)%nat) (seq 0 256)).
  { apply (bool_decide_unpack _). vm_compute. exact I. }
  rewrite Forall_forall in Hall. specialize (Hall (Z.to_nat v)).
  rewrite Z2Nat.id in Hall by lia. apply Hall, elem_of_seq. lia.
Qed.

Lemma mmrp_variant_length k : key_ok k -> (String.length (mmrp_variant k) <= 14)%nat.
Proof.
  destruct k as [v|m]; cbn [key_ok mmrp_variant]; intros Hk; unfold BUFSIZE.
  - pose proof (pretty_byte v Hk). rewrite snprintf_fits; rewrite length_append; cbn; lia.
  - destruct Hk as [Hl _]. rewrite snprintf_fits; rewrite length_append, fmt_mac_length
      by done; cbn; lia.
Qed.

Lemma mmrp_dump_line_length a :
  key_ok (key a) -> attr_wf a -> Zlen (bytes_of (mmrp_dump_line a)) <= 34.
Proof.
  intros Hk [_ Hm]. rewrite bytes_of_length. unfold mmrp_dump_line.
  pose proof (mmrp_variant_length _ Hk) as Hv.
  set (r := snprintf BUFSIZE ("R=" +:+ _)).
  assert (Hr : String.length r = 14%nat).
  { unfold r, BUFSIZE. rewrite snprintf_fits; rewrite length_append, fmt_mac_length by done;
      cbn; lia. }
  rewrite snprintf_fits; rewrite !length_append, Hr; unfold BUFSIZE;
    destruct (reg_mrp_state _); cbn; lia.
Qed.

Lemma mmrp_dumptable_safe {os : OS} client l w :
  klist_ok l -> (length l <= 44)%nat ->
  returns (mmrp_dumptable client l w) (fun '(_, w') => w_extends w w').
Proof.
  intros [t [_ Hk Hw]] Hl.
  apply (app_dumptable_safe _ _ 34); unfold MAX_MRPD_CMDSZ; try lia; [|done].
  rewrite Forall_fmap in Hk. rewrite Forall_forall in *. intros x Hx.
  apply mmrp_dump_line_length; [by apply Hk | by apply Hw].
Qed.

(** ** Commands *)

Lemma parse_service_ok buf buflen :
  buflen <= Zlen buf -> returns (mmrp_cmd_parse_service buf buflen)
    (fun o => forall k, o = Some k -> key_ok k).
Proof.
  intros Hl. unfold mmrp_cmd_parse_service. destruct (Z.ltb_spec buflen 5); [done|].
  eapply returns_bind; [by apply parse_typed; [lia..|unfold mac_specs, service_specs; repeat constructor]|].
  intros r Hr. cbn [returns]. intros k.
  destruct r as [[e|[|[z|bs] [|]]]|]; try done. intros [= <-].
  specialize (Hr _ eq_refl). unfold mac_specs, service_specs in Hr. by decompose_Forall_hyps.
Qed.

Lemma parse_mac_ok buf buflen :
  buflen <= Zlen buf -> returns (mmrp_cmd_parse_mac buf buflen)
    (fun o => forall k, o = Some k -> key_ok k).
Proof.
  intros Hl. unfold mmrp_cmd_parse_mac. destruct (Z.ltb_spec buflen 17); [done|].
  eapply returns_bind; [by apply parse_typed; [lia..|unfold mac_specs, service_specs; repeat constructor]|].
  intros r Hr. cbn [returns]. intros k.
  destruct r as [[e|[|[z|bs] [|]]]|]; try done. intros [= <-].
  specialize (Hr _ eq_refl). unfold mac_specs, service_specs in Hr. by decompose_Forall_hyps.
Qed.

Section Commands.
Context {os : OS} (junk : Z * Z * Z) (sock : Z).

Lemma attr_command_post event parsed min specs buf buflen client s s0 :
  0 < Zlen buf -> buf !! (length buf - 1)%nat = Some 0 ->
  event <> MRP_EVENT_LVATIMER ->
  returns parsed (fun o => forall k, o = Some k -> key_ok k) ->
  client_ok klist_ok s0 s ->
  returns (mmrp_attr_command junk sock event parsed (cmd_left min specs buf buflen) buf client s)
    (fun '(rc, s') => (rc = 0 \/ rc = -1) /\ client_ok klist_ok s0 s').
Proof.
  intros Hl Hz Hev Hp Hok. unfold mmrp_attr_command.
  destruct (cmd_left_keeps min specs buf buflen (length buf - 1)) as [Hll Hlz].
  eapply returns_bind; [apply Hp|].
  intros [k|] Hk; [|by apply (error_ok klist_ok); rewrite ?Hll; auto].
  eapply returns_bind.
  - apply (event_ok klist_ok (mmrp_event junk sock event (Some _))); [|done].
    intros s1 H1. apply mmrp_event_post; [done | | done]. intros r [= <-].
    split; [by apply Hk | done].
  - intros [rc s1] [Hrc H1]. destruct (rc =? 0); [cbn; auto | by apply (error_ok klist_ok)].
Qed.

Lemma mmrp_recv_cmd_post buf buflen client s :
  mdb_ok s -> length buf = Z.to_nat MAX_MRPD_CMDSZ -> buf !! 1499%nat = Some 0 ->
  buflen <= MAX_MRPD_CMDSZ -> (length (attrib_list (db s)) <= 44)%nat ->
  returns (mmrp_recv_cmd junk sock buf buflen client s)
    (fun '(rc, s') => (rc = 0 \/ rc = -1) /\ client_ok klist_ok s s').
Proof.
  intros Hok Hbuf Hz Hb Hn. unfold MAX_MRPD_CMDSZ in *.
  unfold mmrp_recv_cmd. pose proof (client_add_ok klist_ok client s Hok) as Hc.
  destruct (mrp_client_add _ _ _) as [[rc cl] w].
  set (s1 := put_mst _ s) in *.
  assert (Hl1 : attrib_list (db s1) = attrib_list (db s)) by done. clearbody s1.
  assert (Hz' : buf !! (length buf - 1)%nat = Some 0) by (by rewrite Hbuf).
  assert (Hsv : returns (mmrp_cmd_parse_service buf buflen)
    (fun o => forall k, o = Some k -> key_ok k)) by (apply parse_service_ok; lia).
  assert (Hmc : returns (mmrp_cmd_parse_mac buf buflen)
    (fun o => forall k, o = Some k -> key_ok k)) by (apply parse_mac_ok; lia).
  destruct (Z.ltb_spec buflen 3); [cbn; auto|].
  eapply returns_bind; [apply rd_ok; lia|]. intros b0 _.
  destruct (negb _); [cbn; auto|].
  destruct (has_prefix _ _).
  { eapply returns_bind; [apply mmrp_dumptable_safe; [apply Hc | by rewrite Hl1]|].
    intros [rc2 w2] Hw. cbn. split; [auto|]. eapply client_ok_ev; [apply Hc|].
    apply app_post_world; [done | apply Hc]. }
  destruct (has_prefix _ _); [apply attr_command_post; auto; lia|].
  destruct (has_prefix _ _); [apply attr_command_post; auto; lia|].
  destruct (_ || _); [apply attr_command_post; auto; [lia | by destruct (has_prefix _ _)]|].
  destruct (_ || _); [apply attr_command_post; auto; [lia | by destruct (has_prefix _ _)]|].
  apply (error_ok klist_ok); auto; lia.
Qed.

(** MMRP command handling is memory safe: whatever a client sends, as long
    as the datagram is shorter than the 1500-byte buffer and at most 44
    attributes are registered (so that the table dump fits), [mmrp_recv_cmd]
    returns 0 or -1 and keeps the database and timer invariants. *)
Theorem mmrp_recv_cmd_safe buf buflen client s :
  mdb_ok s -> length buf = Z.to_nat MAX_MRPD_CMDSZ -> buf !! 1499%nat = Some 0 ->
  buflen <= MAX_MRPD_CMDSZ -> (length (attrib_list (db s)) <= 44)%nat ->
  returns (mmrp_recv_cmd junk sock buf buflen client s) (fun '(rc, s') =>
    (rc = 0 \/ rc = -1) /\ mdb_ok s' /\ (timers_ok os -> timers_inv s -> timers_inv s')).
Proof.
  intros Hok Hbuf Hz Hb Hn. eapply returns_mono; [by apply mmrp_recv_cmd_post|].
  intros [rc s'] (H1 & H2 & _ & H3). auto.
Qed.

(** [mmrp_init] establishes the invariant of an empty MMRP database with the
    LeaveAll timer running, or fails and leaves neither database nor socket. *)
Theorem mmrp_init_establishes w :
  length os_hwaddr = 6%nat -> bytes_ok os_hwaddr ->
  let '(rc, sock, d, w') := mmrp_init true w in
  match d with
  | Some d => rc = 0 /\ attrib_list d = [] /\ mdb_ok (Ast d w')
              /\ (timers_ok os -> timers_inv (Ast d w'))
  | None => rc = -1 /\ sock = -1
  end.
Proof.
  intros Hl Hb. apply (app_init_spec klist_ok); [|done..].
  exists MMRP_SVCREQ_TYPE. split; constructor.
Qed.

End Commands.

Lemma mmrp_recv_cmd_safe_witness :
  returns (mmrp_recv_cmd (os := calm_os) (0, 0, 0) 9
      (bytes_of "M++:M=01005e000102" ++ replicate 1482 0) 19
      (SockAddr 2 5556 1 0) (demo_mast demo_macs))
    (fun '(rc, s') => (rc = 0 \/ rc = -1) /\ mdb_ok s'
       /\ (timers_ok calm_os -> timers_inv (demo_mast demo_macs) -> timers_inv s')).
Proof.
  apply (mmrp_recv_cmd_safe (os := calm_os)); [exact demo_mdb_ok | reflexivity | reflexivity
    | unfold MAX_MRPD_CMDSZ; lia | cbn; lia].
Defined.

Lemma mmrp_init_establishes_witness :
  let '(rc, sock, d, w') := mmrp_init (os := calm_os) true (m_w demo_mst) in
  match d with
  | Some d => rc = 0 /\ attrib_list d = [] /\ mdb_ok (Ast d w')
              /\ (timers_ok calm_os -> timers_inv (Ast d w'))
  | None => rc = -1 /\ sock = -1
  end.
Proof.
  apply (mmrp_init_establishes (os := calm_os)); [reflexivity | repeat constructor; lia].
Defined.
