(* ===== verification/Msrp.v ===== *)
(** * msrp.c: the Multiple Stream Registration Protocol application

    Talker, listener and domain attributes in one list: data, list operations,
    merging of repeated declarations, and the emission of PDUs. *)

From S2P Require Import Prelude Os Mrp Attr Mvrp Mmrp.
From Stdlib Require Import ZArith Lia.
From stdpp Require Import base tactics list strings option.
Open Scope Z_scope.

(** ** Data *)

Inductive msrp_type :=
| MSRP_TALKER_ADV_TYPE | MSRP_TALKER_FAILED_TYPE | MSRP_LISTENER_TYPE | MSRP_DOMAIN_TYPE.

#[export] Instance msrp_type_eq_dec : EqDecision msrp_type.
Proof. solve_decision. Defined.

Definition msrp_type_code (t : msrp_type) : Z :=
  match t with
  | MSRP_TALKER_ADV_TYPE => 1 | MSRP_TALKER_FAILED_TYPE => 2
  | MSRP_LISTENER_TYPE => 3 | MSRP_DOMAIN_TYPE => 4
  end.

(** The AttributeLength of each type. *)
Definition attrib_len (t : msrp_type) : Z :=
  match t with
  | MSRP_TALKER_ADV_TYPE => 25 | MSRP_TALKER_FAILED_TYPE => 34
  | MSRP_LISTENER_TYPE => 8 | MSRP_DOMAIN_TYPE => 4
  end.

Definition msrp_attrib_type_string (t : Z) : string :=
  if t =? 1 then "Talker Advertise" else if t =? 2 then "Talker Failed"
  else if t =? 3 then "Listener" else if t =? 4 then "Domain" else "TYPE ???".

Definition MSRP_LISTENER_IGNORE : Z := 0.
Definition MSRP_LISTENER_ASKFAILED : Z := 1.
Definition MSRP_LISTENER_READY : Z := 2.
Definition MSRP_LISTENER_READYFAIL : Z := 3.

Definition MSRP_DIRECTION_TALKER : Z := 0.
Definition MSRP_DIRECTION_LISTENER : Z := 1.

Definition MSRP_ETYPE : Z := 0x22EA.
Definition MSRP_PROT_VER : Z := 0.
Definition MSRP_ADDR : list Z := [0x01; 0x80; 0xC2; 0x00; 0x00; 0x0E].

Record msrpdu_talker_fail := Talker {
  StreamID : list Z;
  Dest_Addr : list Z;
  Vlan_ID : Z;
  MaxFrameSize : Z;
  MaxIntervalFrames : Z;
  PriorityAndRank : Z;
  AccumulatedLatency : Z;
  BridgeID : list Z;
  FailureCode : Z
}.

Record msrpdu_domain := Domain {
  SRclassID : Z;
  SRclassPriority : Z;
  neighborSRclassPriority : Z;
  SRclassVID : Z
}.

#[export] Instance msrpdu_talker_fail_eq_dec : EqDecision msrpdu_talker_fail.
Proof. solve_decision. Defined.
#[export] Instance msrpdu_domain_eq_dec : EqDecision msrpdu_domain.
Proof. solve_decision. Defined.

Definition zero_talker : msrpdu_talker_fail :=
  Talker (replicate 8 0) (replicate 6 0) 0 0 0 0 0 (replicate 8 0) 0.
Definition zero_domain : msrpdu_domain := Domain 0 0 0 0.

(** What [struct msrp_attribute] has besides the two machines.  The members of
    its union are two fields: [domain] is used for domains and [talk_listen]
    for the other types, and no attribute changes between the two. *)
Record msrp_key := MsrpKey {
  type : msrp_type;
  talk_listen : msrpdu_talker_fail;
  domain : msrpdu_domain;
  substate : Z;
  direction : Z
}.

#[export] Instance msrp_key_eq_dec : EqDecision msrp_key.
Proof. solve_decision. Defined.

Abbreviation msrp_attribute := (attribute msrp_key).
Abbreviation msrp_ast := (ast msrp_key).

(** The listeners are transmitted in every frame. *)
#[export] Instance msrp_forced_tx : ForcedTx msrp_key :=
  fun k => bool_decide (type k = MSRP_LISTENER_TYPE).

(** The zeroed attribute [msrp_alloc] returns, with its type set. *)
Definition zero_key (t : msrp_type) : msrp_key := MsrpKey t zero_talker zero_domain 0 0.
Definition msrp_alloc (k : msrp_key) : msrp_attribute :=
  Attr k fresh_applicant fresh_registrar.

Definition stream_key (t : msrp_type) (id : list Z) : msrp_key :=
  MsrpKey t (Talker id (replicate 6 0) 0 0 0 0 0 (replicate 8 0) 0) zero_domain 0 0.

(** [msrp_increment_streamid]: big-endian increment of the bytes 7 to 1. *)
Definition msrp_increment_streamid (streamid : list Z) : list Z := increment_from 7 streamid.

(** ** The attribute list *)

Definition msrp_count_type (attrib_type : msrp_type) (l : option (list msrp_attribute)) : Z :=
  match l with
  | None => 0
  | Some l => Z.of_nat (length (filter (fun a => type (key a) = attrib_type) l))
  end.

(** Do the types of [msrp_lookup] agree? *)
Definition types_match (r a : msrp_type) : bool :=
  match r, a with
  | MSRP_TALKER_ADV_TYPE, MSRP_TALKER_FAILED_TYPE => true
  | MSRP_TALKER_FAILED_TYPE, MSRP_TALKER_ADV_TYPE => true
  | _, _ => bool_decide (r = a)
  end.

Definition msrp_match (a r : msrp_key) : bool :=
  types_match (type r) (type a) &&
  match type a with
  | MSRP_DOMAIN_TYPE => SRclassID (domain a) =? SRclassID (domain r)
  | _ => memcmp (StreamID (talk_listen a)) (StreamID (talk_listen r)) =? 0
  end.

Fixpoint msrp_lookup (l : list msrp_attribute) (r : msrp_key) : option msrp_attribute :=
  match l with
  | [] => None
  | a :: l => if msrp_match (key a) r then Some a else msrp_lookup l r
  end.

(** The bytes of [msrpdu_domain_t] in memory, on a little-endian machine. *)
Definition domain_bytes (d : msrpdu_domain) : list Z :=
  [SRclassID d; SRclassPriority d; neighborSRclassPriority d; 0;
   SRclassVID d mod 256; SRclassVID d / 256].

(** [mac_eq < 0] in [msrp_add], for attributes of one type. *)
Definition msrp_before (a r : msrp_key) : bool :=
  match type a with
  | MSRP_DOMAIN_TYPE => memcmp (domain_bytes (domain a)) (domain_bytes (domain r)) <? 0
  | _ => memcmp (StreamID (talk_listen a)) (StreamID (talk_listen r)) <? 0
  end.

Fixpoint msrp_add (rattrib : msrp_attribute) (l : list msrp_attribute)
  : list msrp_attribute :=
  match l with
  | [] => [rattrib]
  | a :: r =>
      if decide (type (key rattrib) = type (key a)) then
        if msrp_before (key a) (key rattrib) then
          match r with
          | b :: _ => if decide (type (key a) = type (key b))
                      then a :: msrp_add rattrib r
                      else a :: rattrib :: r
          | [] => [a; rattrib]
          end
        else rattrib :: a :: r
      else a :: msrp_add rattrib r
  end.

Definition set_key (k : msrp_key) (a : msrp_attribute) : msrp_attribute :=
  Attr k (applicant a) (registrar a).

(** [attrib->registrar.mrp_state = MRP_MT_STATE] *)
Definition force_notify (a : msrp_attribute) : msrp_attribute :=
  set_registrar (Registrar MRP_MT_STATE (reg_notify (registrar a))
                   (reg_macaddr (registrar a))) a.

(** [FailureInformation] of [r] copied to [t]. *)
Definition set_failure (r t : msrpdu_talker_fail) : msrpdu_talker_fail :=
  Talker (StreamID t) (Dest_Addr t) (Vlan_ID t) (MaxFrameSize t) (MaxIntervalFrames t)
    (PriorityAndRank t) (AccumulatedLatency t) (BridgeID r) (FailureCode r).

Section Merge.
Context {os : OS}.

(** The three cases of the [switch] of [msrp_merge], on the attribute found. *)
Definition merge_talker (r : msrp_key) (a : msrp_attribute) : msrp_attribute :=
  let k := key a in
  let t := set_failure (talk_listen r) (talk_listen k) in
  if decide (type k = type r)
  then set_key (MsrpKey (type k) t (domain k) (substate k) (direction k)) a
  else force_notify (set_key (MsrpKey (type r) t (domain k) (substate k) (direction k)) a).

Definition merge_listener (l : list msrp_attribute) (r : msrp_key) (a : msrp_attribute)
    (w : world) : msrp_attribute * world :=
  let k := key a in
  let merged := force_notify
    (set_key (MsrpKey (type k) (talk_listen k) (domain k) (substate r) (direction k)) a) in
  if substate k =? substate r then (a, w)
  else if substate k =? MSRP_LISTENER_ASKFAILED then
    let '(ok, w) := malloc w in
    if negb ok then (a, w)
    else match msrp_lookup l (stream_key MSRP_TALKER_ADV_TYPE (StreamID (talk_listen k))) with
         | None => (a, w)
         | Some _ => (merged, w)
         end
  else (merged, w).

Definition merge_domain (r : msrp_key) (a : msrp_attribute) : msrp_attribute :=
  let k := key a in
  let d := domain k in
  let d' := domain r in
  if negb (SRclassPriority d =? SRclassPriority d') || negb (SRclassVID d =? SRclassVID d')
  then force_notify (set_key
    (MsrpKey (type k) (talk_listen k)
       (Domain (SRclassID d) (SRclassPriority d) (SRclassPriority d') (SRclassVID d'))
       (substate k) (direction k)) a)
  else a.

Definition merge_attr (l : list msrp_attribute) (rattrib a : msrp_attribute) (w : world)
  : msrp_attribute * world :=
  let a := set_macaddr (reg_macaddr (registrar rattrib)) a in
  match type (key a) with
  | MSRP_TALKER_ADV_TYPE | MSRP_TALKER_FAILED_TYPE => (merge_talker (key rattrib) a, w)
  | MSRP_LISTENER_TYPE => merge_listener l (key rattrib) a w
  | MSRP_DOMAIN_TYPE => (merge_domain (key rattrib) a, w)
  end.

(** The attribute [msrp_lookup] finds, replaced in place. *)
Fixpoint replace_match (r : msrp_key) (a' : msrp_attribute) (l : list msrp_attribute)
  : list msrp_attribute :=
  match l with
  | [] => []
  | a :: l => if msrp_match (key a) r then a' :: l else a :: replace_match r a' l
  end.

Definition msrp_merge (rattrib : msrp_attribute) (l : list msrp_attribute) (w : world)
  : Z * list msrp_attribute * world :=
  match msrp_lookup l (key rattrib) with
  | None => (-1, l, w)
  | Some a => let '(a', w) := merge_attr l rattrib a w in
              (0, replace_match (key rattrib) a' l, w)
  end.

End Merge.

(** ** Emission *)

(** The vectors of a message start behind AttributeType, AttributeLength and
    the two bytes of AttributeListLength. *)
Definition msrp_vectors_off : Z := 4.

Definition vector_size (t : msrp_type) : Z :=
  match t with
  | MSRP_TALKER_ADV_TYPE => 28 | MSRP_TALKER_FAILED_TYPE => 37
  | MSRP_LISTENER_TYPE => 13 | MSRP_DOMAIN_TYPE => 5
  end.

(** The end of a vector: the header is stored and the pointers advance. *)
Definition emit_header (buf : list Z) (numvalues vectidx : Z) (e : emit_st) : res emit_st :=
  let hdr := MRPDU_VECT_NUMVALUES numvalues in
  let hdr := if e_lva e then Z.lor hdr MRPDU_VECT_LVA_FLAG else hdr in
  buf ← wr16 buf (e_vp e) hdr;
  let ptr := e_vp e + 2 + vectidx in
  Ret (EmitSt buf ptr ptr false true).

(** The loop over the list of the three [msrp_emit_*vectors] functions: which
    attributes of type [t] are transmitted.  [vector] is the rest of the body;
    its state [S] contains the pointers of the frame. *)
Section EmitLoop.
Context {S : Type} (pos : S -> emit_st)
        (vector : msrp_attribute -> list msrp_attribute -> S
                  -> res (bool * list msrp_attribute * S))
        (t : msrp_type) (eof : Z).

Fixpoint msrp_emit_loop (fuel : nat) (l : list msrp_attribute) (st : S)
  : res (bool * list msrp_attribute * S) :=
  if negb (e_ptr (pos st) <? eof - vector_size t - MRPDU_ENDMARK_SZ)
  then Ret (false, l, st)
  else match l with
  | [] => Ret (false, [], st)
  | a :: r =>
      match fuel with
      | O => Fault OutOfFuel
      | Datatypes.S fuel =>
          let skip (a' : msrp_attribute) :=
            '(oops, r', st) ← msrp_emit_loop fuel r st; Ret (oops, a' :: r', st) in
          if negb (bool_decide (type (key a) = t)) then skip a
          else if negb (app_tx (applicant a)) then skip a
          else if decide (app_encode (applicant a) = MRP_ENCODE_OPTIONAL)
          then skip (clear_tx a)
          else
            '(oops, r', st) ← vector a r st;
            if oops : bool then Ret (true, clear_tx a :: r', st)
            else '(oops, r', st) ← msrp_emit_loop fuel r' st;
                 Ret (oops, clear_tx a :: r', st)
      end
  end.

End EmitLoop.

(** The end of the three functions: the empty LeaveAll, the end mark and
    AttributeListLength.  Returns bytes used and the frame. *)
Definition msrp_emit_finish (base : Z) (flag : bool) (e : emit_st) : res (Z * list Z) :=
  e ← (if negb (e_found e) && flag then
         buf ← wr16 (e_buf e) (e_vp e)
                 (Z.lor (MRPDU_VECT_NUMVALUES 0) MRPDU_VECT_LVA_FLAG);
         len ← rd buf (base + 1);
         let ptr := e_vp e + 2 + len in
         Ret (EmitSt buf ptr ptr (e_lva e) (e_found e))
       else Ret e);
  if e_vp e =? base + msrp_vectors_off then Ret (0, e_buf e)
  else
    buf ← wr (e_buf e) (e_ptr e) 0;
    buf ← wr buf (e_ptr e + 1) 0;
    let ptr := e_ptr e + 2 in
    let attriblistlen := ptr - (base + msrp_vectors_off) in
    buf ← wr buf (base + 2) (Z.shiftr attriblistlen 8);
    buf ← wr buf (base + 3) attriblistlen;
    Ret (ptr - base, buf).

(** The entry test and the header of a message. *)
Definition msrp_emit_start (t : msrp_type) (msgbuf : list Z) (base eof : Z)
  : res (option (list Z)) :=
  if eof - vector_size t <? base then Ret None
  else
    buf ← wr msgbuf base (msrp_type_code t);
    buf ← wr buf (base + 1) (attrib_len t);
    Ret (Some buf).

(** *** Domains *)

Definition domain_first_value (d : msrpdu_domain) : list Z :=
  [SRclassID d; SRclassPriority d; Z.shiftr (SRclassVID d) 8; SRclassVID d].

(** One vector per domain ([MSRP_AGGREGATE_DOMAINS_VECTORS] is not defined). *)
Definition domain_vector (eof : Z) (a : msrp_attribute) (r : list msrp_attribute)
    (e : emit_st) : res (bool * list msrp_attribute * emit_st) :=
  let vp := e_vp e in
  buf ← wr_list (e_buf e) (vp + 2) (domain_first_value (domain (key a)));
  match pdu_event (app_sndmsg (applicant a)) (reg_mrp_state (registrar a)) with
  | None => Ret (true, r, EmitSt buf (e_ptr e) vp (e_lva e) true)
  | Some ev =>
      let vectidx := 4 in
      buf ← wr buf (vp + 2 + vectidx) (vect_pack (ev, 0, 0));
      let vectidx := vectidx + 1 in
      if eof - MRPDU_ENDMARK_SZ <? vp + 2 + vectidx
      then Ret (true, r, EmitSt buf (e_ptr e) vp (e_lva e) true)
      else e ← emit_header buf 1 vectidx e; Ret (false, r, e)
  end.

(** Returns rc, [*bytes_used], the list and the frame. *)
Definition msrp_emit_domainvectors (msgbuf : list Z) (base eof : Z) (lva flag : bool)
    (l : list msrp_attribute) : res (Z * Z * list msrp_attribute * list Z) :=
  o ← msrp_emit_start MSRP_DOMAIN_TYPE msgbuf base eof;
  match o with
  | None => Ret (-1, 0, l, msgbuf)
  | Some buf =>
      '(oops, l', e) ← msrp_emit_loop id (domain_vector eof) MSRP_DOMAIN_TYPE eof (length l) l
                         (EmitSt buf base (base + msrp_vectors_off) lva false);
      if oops : bool then Ret (-1, 0, l', e_buf e)
      else '(bytes, buf) ← msrp_emit_finish base flag e; Ret (0, bytes, l', buf)
  end.

(** *** Talkers *)

Definition talker_first_value (ty : msrp_type) (t : msrpdu_talker_fail) : list Z :=
  StreamID t ++ Dest_Addr t
  ++ [Z.shiftr (Vlan_ID t) 8; Vlan_ID t; Z.shiftr (MaxFrameSize t) 8; MaxFrameSize t;
      Z.shiftr (MaxIntervalFrames t) 8; MaxIntervalFrames t; PriorityAndRank t;
      Z.shiftr (AccumulatedLatency t) 24; Z.shiftr (AccumulatedLatency t) 16;
      Z.shiftr (AccumulatedLatency t) 8; AccumulatedLatency t]
  ++ match ty with
     | MSRP_TALKER_FAILED_TYPE => BridgeID t ++ [FailureCode t]
     | _ => []
     end.

(** [memcmp] of the two structures: they are zeroed before their members are
    set, so it compares the members. *)
Definition vectorize_talker (first_attrib : msrp_attribute) (streamid mac : list Z)
    (candidate_attrib : msrp_attribute) : bool :=
  let t := talk_listen (key first_attrib) in
  let first := Talker streamid mac (Vlan_ID t) (MaxFrameSize t) (MaxIntervalFrames t)
                 (PriorityAndRank t) (AccumulatedLatency t) (BridgeID t) (FailureCode t) in
  bool_decide (first = talk_listen (key candidate_attrib)).

(** The inner loop: the attributes that continue the vector of [a]. *)
Fixpoint talker_vectorize (ty : msrp_type) (a : msrp_attribute) (vp eof : Z)
    (streamid mac : list Z) (l : list msrp_attribute) (v : vec_st)
  : res (bool * list msrp_attribute * vec_st) :=
  match l with
  | [] => Ret (false, [], v)
  | b :: r =>
      if negb (bool_decide (type (key b) = ty)) then Ret (false, l, v)
      else if negb (app_tx (applicant b)) then Ret (false, l, v)
      else
        let streamid := msrp_increment_streamid streamid in
        let mac := mmrp_increment_macaddr mac in
        if negb (vectorize_talker a streamid mac b) then Ret (false, l, v)
        else
          let b' := clear_tx b in
          match pdu_event (app_sndmsg (applicant b)) (reg_mrp_state (registrar b)) with
          | None => Ret (true, b' :: r, v)
          | Some e =>
              v ← vec_push vp e v;
              if eof - MRPDU_ENDMARK_SZ <? vp + 2 + v_idx v
              then Ret (true, b' :: r, v)
              else '(oops, r', v) ← talker_vectorize ty a vp eof streamid mac r v;
                   Ret (oops, b' :: r', v)
          end
  end.

(** The trailing, partly filled triple. *)
Definition vec_trailer (vp : Z) (v : vec_st) : res (list Z * Z) :=
  if 0 <? v_evt_idx v then
    buf ← wr (v_buf v) (vp + 2 + v_idx v) (vect_pack (v_evt v));
    Ret (buf, v_idx v + 1)
  else Ret (v_buf v, v_idx v).

Definition talker_vector (ty : msrp_type) (eof : Z) (a : msrp_attribute)
    (r : list msrp_attribute) (e : emit_st) : res (bool * list msrp_attribute * emit_st) :=
  let vp := e_vp e in
  let t := talk_listen (key a) in
  buf ← wr_list (e_buf e) (vp + 2) (talker_first_value ty t);
  match pdu_event (app_sndmsg (applicant a)) (reg_mrp_state (registrar a)) with
  | None => Ret (true, r, EmitSt buf (e_ptr e) vp (e_lva e) true)
  | Some ev =>
      '(oops, r', v) ← talker_vectorize ty a vp eof (StreamID t) (Dest_Addr t) r
                         (VecSt buf (ev, 0, 0) 1 (attrib_len ty) 1);
      if oops : bool then Ret (true, r', EmitSt (v_buf v) (e_ptr e) vp (e_lva e) true)
      else
        '(buf, vectidx) ← vec_trailer vp v;
        if eof - MRPDU_ENDMARK_SZ <? vp + 2 + vectidx
        then Ret (true, r', EmitSt buf (e_ptr e) vp (e_lva e) true)
        else e ← emit_header buf (v_num v) vectidx e; Ret (false, r', e)
  end.

Definition msrp_emit_talkervectors (msgbuf : list Z) (base eof : Z) (lva flag : bool)
    (ty : msrp_type) (l : list msrp_attribute)
  : res (Z * Z * list msrp_attribute * list Z) :=
  o ← msrp_emit_start ty msgbuf base eof;
  match o with
  | None => Ret (-1, 0, l, msgbuf)
  | Some buf =>
      '(oops, l', e) ← msrp_emit_loop id (talker_vector ty eof) ty eof (length l) l
                         (EmitSt buf base (base + msrp_vectors_off) lva false);
      if oops : bool then Ret (-1, 0, l', e_buf e)
      else '(bytes, buf) ← msrp_emit_finish base flag e; Ret (0, bytes, l', buf)
  end.

(** *** Listeners *)

Definition MRPDU_4PACK_ENCODE (w x y z : Z) : Z := w * 64 + x * 16 + y * 4 + z.

(** [attrib->applicant.tx = 1] for every listener. *)
Definition mark_listener (a : msrp_attribute) : msrp_attribute :=
  if decide (type (key a) = MSRP_LISTENER_TYPE) then
    let p := applicant a in
    set_applicant (Applicant (app_mrp_state p) true (app_sndmsg p) (app_encode p)
                     (app_mrp_previous_state p)) a
  else a.

(** Outer-loop state: [listen_declare_sz] and the world besides the frame. *)
Record listen_st := ListenSt { ls_emit : emit_st; ls_sz : Z; ls_w : world }.

(** Inner-loop state: the vector and the substates declared so far. *)
Record listen_vec := ListenVec { lv_vec : vec_st; lv_declare : list Z; lv_sz : Z; lv_w : world }.

(** The 4-packed events, from offset [pos] on: [true] is [goto oops]. *)
Fixpoint emit_4packed (eof : Z) (declared : list Z) (buf : list Z) (pos : Z)
  : res (bool * list Z * Z) :=
  match declared with
  | a :: b :: c :: d :: rest =>
      if eof - MRPDU_ENDMARK_SZ <? pos then Ret (true, buf, pos)
      else
        buf ← wr buf pos (MRPDU_4PACK_ENCODE a b c d);
        if eof - 3 <? pos + 1 then Ret (true, buf, pos + 1)
        else emit_4packed eof rest buf (pos + 1)
  | [a; b; c] => buf ← wr buf pos (MRPDU_4PACK_ENCODE a b c 0); Ret (false, buf, pos + 1)
  | [a; b] => buf ← wr buf pos (MRPDU_4PACK_ENCODE a b 0 0); Ret (false, buf, pos + 1)
  | [a] => buf ← wr buf pos (MRPDU_4PACK_ENCODE a 0 0 0); Ret (false, buf, pos + 1)
  | [] => Ret (false, buf, pos)
  end.

Section Listen.
Context {os : OS}.

(** [listen_declare[listen_declare_idx++] = substate], growing the array by 64
    when one place is left; [None] when [realloc] fails. *)
Definition listen_declare (sub : Z) (declared : list Z) (sz : Z) (w : world)
  : res (option (list Z * Z) * world) :=
  let idx := Zlen declared in
  let '(ok, sz, w) :=
    if sz =? idx + 1 then let '(ok, w) := malloc w in (ok, sz + 64, w) else (true, sz, w) in
  if negb ok then Ret (None, w)
  else if idx <? sz then Ret (Some (declared ++ [sub], sz), w)
  else Fault (OobWrite idx).

Fixpoint listen_vectorize (vp eof : Z) (streamid : list Z) (l : list msrp_attribute)
    (v : listen_vec) : res (bool * list msrp_attribute * listen_vec) :=
  match l with
  | [] => Ret (false, [], v)
  | b :: r =>
      if negb (bool_decide (type (key b) = MSRP_LISTENER_TYPE)) then Ret (false, l, v)
      else if negb (app_tx (applicant b)) then Ret (false, l, v)
      else
        let streamid := msrp_increment_streamid streamid in
        if negb (memcmp (StreamID (talk_listen (key b))) streamid =? 0)
        then Ret (false, l, v)
        else
          let b' := clear_tx b in
          match pdu_event (app_sndmsg (applicant b)) (reg_mrp_state (registrar b)) with
          | None => Ret (true, b' :: r, v)
          | Some e =>
              '(o, w) ← listen_declare (substate (key b)) (lv_declare v) (lv_sz v) (lv_w v);
              match o with
              | None => Ret (true, b' :: r, ListenVec (lv_vec v) (lv_declare v) (lv_sz v) w)
              | Some (declared, sz) =>
                  vec ← vec_push vp e (lv_vec v);
                  let v := ListenVec vec declared sz w in
                  if eof - MRPDU_ENDMARK_SZ <? vp + 2 + v_idx vec
                  then Ret (true, b' :: r, v)
                  else '(oops, r', v) ← listen_vectorize vp eof streamid r v;
                       Ret (oops, b' :: r', v)
              end
          end
  end.

(** The body of the outer loop, up to the 3-packed events. *)
Definition listen_vector (eof : Z) (a : msrp_attribute) (r : list msrp_attribute)
    (st : listen_st) : res (bool * list msrp_attribute * listen_st) :=
  let e := ls_emit st in
  let vp := e_vp e in
  let id := StreamID (talk_listen (key a)) in
  let oops_st buf sz w := ListenSt (EmitSt buf (e_ptr e) vp (e_lva e) true) sz w in
  buf ← wr_list (e_buf e) (vp + 2) id;
  match pdu_event (app_sndmsg (applicant a)) (reg_mrp_state (registrar a)) with
  | None => Ret (true, r, oops_st buf (ls_sz st) (ls_w st))
  | Some ev =>
      '(o, w) ← listen_declare (substate (key a)) [] (ls_sz st) (ls_w st);
      match o with
      | None => Ret (true, r, oops_st buf (ls_sz st) w)
      | Some (declared, sz) =>
          '(oops, r', v) ← listen_vectorize vp eof id r
                             (ListenVec (VecSt buf (ev, 0, 0) 1 8 1) declared sz w);
          if oops : bool
          then Ret (true, r', oops_st (v_buf (lv_vec v)) (lv_sz v) (lv_w v))
          else
            '(buf, vectidx) ← vec_trailer vp (lv_vec v);
            '(oops, buf, pos) ← emit_4packed eof (lv_declare v) buf (vp + 2 + vectidx);
            if (oops : bool) || (eof - MRPDU_ENDMARK_SZ <? pos)
            then Ret (true, r', oops_st buf (lv_sz v) (lv_w v))
            else
              e ← emit_header buf (v_num (lv_vec v)) (pos - (vp + 2)) e;
              Ret (false, r', ListenSt e (lv_sz v) (lv_w v))
      end
  end.

Definition msrp_emit_listenvectors (msgbuf : list Z) (base eof : Z) (lva flag : bool)
    (l : list msrp_attribute) (w : world)
  : res (Z * Z * list msrp_attribute * list Z * world) :=
  o ← msrp_emit_start MSRP_LISTENER_TYPE msgbuf base eof;
  match o with
  | None => Ret (-1, 0, l, msgbuf, w)
  | Some buf =>
      let '(ok, w) := malloc w in
      if negb ok then Ret (-1, 0, l, buf, w)
      else
        let l := mark_listener <$> l in
        '(oops, l', st) ←
          msrp_emit_loop ls_emit (listen_vector eof) MSRP_LISTENER_TYPE eof (length l) l
            (ListenSt (EmitSt buf base (base + msrp_vectors_off) lva false) 64 w);
        if oops : bool then Ret (-1, 0, l', e_buf (ls_emit st), ls_w st)
        else
          '(bytes, buf) ← msrp_emit_finish base flag (ls_emit st);
          Ret (0, bytes, l', buf, ls_w st)
  end.

(** ** Transmission *)

Definition msrp_frame_header (station : list Z) : res (list Z) :=
  let msgbuf := replicate (Z.to_nat MAX_FRAME_SIZE) 0 in
  buf ← wr16 msgbuf 12 MSRP_ETYPE;
  buf ← wr_list buf 0 MSRP_ADDR;
  buf ← wr_list buf 6 station;
  wr buf ETH_HDR_SZ MSRP_PROT_VER.

(** The four messages of a frame, in order; [None] is [goto out].  Returns the
    end of the messages, the list, the frame and the world. *)
Definition msrp_emit_messages (buf : list Z) (eof : Z) (lva flag : bool)
    (l : list msrp_attribute) (w : world)
  : res (option (Z * list Z) * list msrp_attribute * world) :=
  let ptr := MSG_LIST_OFF in
  '(rc, bytes, l, buf) ← msrp_emit_talkervectors buf ptr eof lva flag MSRP_TALKER_ADV_TYPE l;
  if rc =? -1 then Ret (None, l, w)
  else
    let ptr := ptr + bytes in
    '(rc, bytes, l, buf) ←
      msrp_emit_talkervectors buf ptr eof lva flag MSRP_TALKER_FAILED_TYPE l;
    if rc =? -1 then Ret (None, l, w)
    else
      let ptr := ptr + bytes in
      if eof - MRPDU_ENDMARK_SZ <=? ptr then Ret (None, l, w)
      else
        '(rc, bytes, l, buf, w) ← msrp_emit_listenvectors buf ptr eof lva flag l w;
        if rc =? -1 then Ret (None, l, w)
        else
          let ptr := ptr + bytes in
          '(rc, bytes, l, buf) ← msrp_emit_domainvectors buf ptr eof lva flag l;
          if rc =? -1 then Ret (None, l, w)
          else Ret (Some (ptr + bytes, buf), l, w).

Definition msrp_txpdu (msrp_socket : Z) (s : msrp_ast) : res (Z * msrp_ast) :=
  let '(ok, w) := malloc (wld s) in
  let s := put_mst (Mst (mrp_db (db s)) w) s in
  if negb ok then Ret (-1, s)
  else
    msgbuf ← msrp_frame_header (STATION_ADDR w);
    let d := mrp_db (db s) in
    let lva_flag := lva_tx (lva d) in
    let d := if lva_flag
             then set_lva (Timer (lva_state (lva d)) false (lva_sndmsg (lva d))) d
             else d in
    let eof := MAX_FRAME_SIZE in
    '(o, l, w) ← msrp_emit_messages msgbuf eof lva_flag (send_empty_LeaveAll_flag (db s))
                   (attrib_list (db s)) w;
    let s := put_list l (put_mst (Mst d w) s) in
    match o with
    | None => Ret (-1, s)
    | Some (ptr, buf) =>
        if ptr =? MSG_LIST_OFF then Ret (-1, s)
        else if negb (ptr <? eof - MRPDU_ENDMARK_SZ) then Ret (-1, s)
        else
          buf ← wr buf ptr 0;
          buf ← wr buf (ptr + 1) 0;
          let '(sent, w) :=
            mrpd_send msrp_socket (take (Z.to_nat (ptr + 2)) buf) (wld s) in
          let s := put_mst (Mst (mrp_db (db s)) w) s in
          if sent <=? 0 then Ret (-1, s) else Ret (0, s)
    end.

End Listen.
