(* ===== verification/MsrpOps.v ===== *)
(** * msrp.c: reception, notifications, events and garbage collection *)

From S2P Require Import Prelude Os Eui64Set Mrp Attr Mvrp Mmrp Msrp.
From Stdlib Require Import ZArith Lia.
From stdpp Require Import base tactics list strings option pretty.
Open Scope Z_scope.

(** ** Reception

    The four branches of [msrp_recv_msg] share their structure; what is
    particular to a type is in the functions named after it. *)
Section Recv.
Context {S : Type} {sink : EventSink msrp_key S}.

Definition type_of_code (c : Z) : option msrp_type :=
  if c =? 1 then Some MSRP_TALKER_ADV_TYPE
  else if c =? 2 then Some MSRP_TALKER_FAILED_TYPE
  else if c =? 3 then Some MSRP_LISTENER_TYPE
  else if c =? 4 then Some MSRP_DOMAIN_TYPE
  else None.

(** Is AttributeListLength, at offset [d], reasonable? *)
Definition msrp_recv_msg_check_attrib_list_len (buf : list Z) (d eof : Z) : res bool :=
  list_len ← rd16 buf d;
  attrib_len ← rd buf (d - 1);
  if list_len <? attrib_len + 2 + 1 then Ret false
  else if eof <=? d + list_len then Ret false
  else
    b0 ← rd buf (d + list_len);
    if negb (b0 =? 0) then Ret false
    else b1 ← rd buf (d + list_len + 1); Ret (b1 =? 0).

(** The running first values and [listener_vectevt_idx]. *)
Record first_value := First {
  streamid_firstval : list Z;
  destmac_firstval : list Z;
  srclassID_firstval : Z;
  srclassprio_firstval : Z;
  srclassvid_firstval : Z;
  listener_vectevt_idx : Z
}.

(** FirstValue of the vector at [vp]. *)
Definition read_first_value (t : msrp_type) (buf : list Z) (vp : Z) : res first_value :=
  match t with
  | MSRP_DOMAIN_TYPE =>
      id ← rd buf (vp + 2);
      prio ← rd buf (vp + 3);
      vid ← rd16 buf (vp + 4);
      Ret (First [] [] id prio vid 0)
  | MSRP_LISTENER_TYPE =>
      id ← rd_list buf (vp + 2) 8;
      Ret (First id [] 0 0 0 0)
  | MSRP_TALKER_ADV_TYPE | MSRP_TALKER_FAILED_TYPE =>
      id ← rd_list buf (vp + 2) 8;
      mac ← rd_list buf (vp + 10) 6;
      Ret (First id mac 0 0 0 0)
  end.

(** The attribute of the current value and the first values after it. *)
Definition domain_value (f : first_value) : msrp_key * first_value :=
  (MsrpKey MSRP_DOMAIN_TYPE zero_talker
     (Domain (srclassID_firstval f) (srclassprio_firstval f) (srclassprio_firstval f)
        (srclassvid_firstval f)) 0 0,
   First (streamid_firstval f) (destmac_firstval f) (u8 (srclassID_firstval f + 1))
     (u8 (srclassprio_firstval f + 1)) (srclassvid_firstval f) (listener_vectevt_idx f)).

(** The step over a listener, whether it is ignored or not. *)
Definition next_listener (f : first_value) : first_value :=
  First (msrp_increment_streamid (streamid_firstval f)) (destmac_firstval f)
    (srclassID_firstval f) (srclassprio_firstval f) (srclassvid_firstval f)
    (listener_vectevt_idx f + 1).

Definition listener_value (sub : Z) (f : first_value) : msrp_key * first_value :=
  (MsrpKey MSRP_LISTENER_TYPE
     (talk_listen (stream_key MSRP_LISTENER_TYPE (streamid_firstval f))) zero_domain sub 0,
   next_listener f).

Definition rd32 (buf : list Z) (i : Z) : res Z :=
  hi ← rd16 buf i; lo ← rd16 buf (i + 2); Ret (hi * 65536 + lo).

(** The fields a Talker Advertise has. *)
Definition talker_value (ty : msrp_type) (buf : list Z) (vp : Z) (bridge : list Z) (code : Z)
    (f : first_value) : res (msrp_key * first_value) :=
  vlan ← rd16 buf (vp + 16);
  size ← rd16 buf (vp + 18);
  interval ← rd16 buf (vp + 20);
  prio ← rd buf (vp + 22);
  latency ← rd32 buf (vp + 23);
  Ret (MsrpKey ty
         (Talker (streamid_firstval f) (destmac_firstval f) vlan size interval prio latency
            bridge code) zero_domain 0 MSRP_DIRECTION_LISTENER,
       First (msrp_increment_streamid (streamid_firstval f))
         (mmrp_increment_macaddr (destmac_firstval f)) (srclassID_firstval f)
         (srclassprio_firstval f) (srclassvid_firstval f) (listener_vectevt_idx f)).

Definition talker_adv_value (buf : list Z) (vp : Z) (f : first_value)
  : res (msrp_key * first_value) :=
  talker_value MSRP_TALKER_ADV_TYPE buf vp (replicate 8 0) 0 f.

Definition talker_failed_value (buf : list Z) (vp : Z) (f : first_value)
  : res (msrp_key * first_value) :=
  bridge ← rd_list buf (vp + 27) 8;
  code ← rd buf (vp + 35);
  talker_value MSRP_TALKER_FAILED_TYPE buf vp bridge code f.

(** The loop over the events of one three-packed byte.  [vectevt] is
    [listener_vectevt]. *)
Fixpoint msrp_recv_values (t : msrp_type) (buf src vectevt : list Z) (vp : Z)
    (evts : list Z) (f : first_value) (s : S) : res (flow * first_value * S) :=
  match evts with
  | [] => Ret (Continue, f, s)
  | e :: evts =>
      sub ← match t with
            | MSRP_LISTENER_TYPE => rd vectevt (listener_vectevt_idx f)
            | _ => Ret 0
            end;
      if bool_decide (t = MSRP_LISTENER_TYPE) && (sub =? MSRP_LISTENER_IGNORE)
      then msrp_recv_values t buf src vectevt vp evts (next_listener f) s
      else
        let '(ok, s) := sink_malloc s in
        if negb ok then Ret (GotoOut, f, s)
        else
          '(k, f) ← match t with
                    | MSRP_DOMAIN_TYPE => Ret (domain_value f)
                    | MSRP_LISTENER_TYPE => Ret (listener_value sub f)
                    | MSRP_TALKER_ADV_TYPE => talker_adv_value buf vp f
                    | MSRP_TALKER_FAILED_TYPE => talker_failed_value buf vp f
                    end;
          let attrib := set_macaddr src (msrp_alloc k) in
          s ← match mrpdu_event e with
              | Some ev => sink_event ev (Some attrib) s
              | None => Ret s
              end;
          msrp_recv_values t buf src vectevt vp evts f s
  end.

(** The loop over the three-packed bytes, [n] iterations left; a byte out of
    range is discarded with its values. *)
Fixpoint msrp_recv_bytes (n : nat) (t : msrp_type) (buf src vectevt : list Z)
    (vp vectidx : Z) (f : first_value) (numvalues : Z) (s : S) : res (flow * S) :=
  match n with
  | O => Ret (Continue, s)
  | Datatypes.S n =>
      b ← rd buf (vp + 2 + vectidx);
      let '(e0, e1, e2) := vect_3pack_decode b in
      let processed := if 3 <? numvalues then 3 else numvalues in
      let numvalues := u16 (numvalues - processed) in
      if MRPDU_LV <? e0
      then msrp_recv_bytes n t buf src vectevt vp (vectidx + 1) f numvalues s
      else
        '(fl, f, s) ← msrp_recv_values t buf src vectevt vp
                        (take (Z.to_nat processed) [e0; e1; e2]) f s;
        match fl with
        | GotoOut => Ret (GotoOut, s)
        | Continue => msrp_recv_bytes n t buf src vectevt vp (vectidx + 1) f numvalues s
        end
  end.

(** The four substates of a byte. *)
Definition vect_4pack_decode (vect_4pack : Z) : list Z :=
  let low v := v - Z.shiftl (Z.shiftr v 2) 2 in
  let v1 := Z.shiftr vect_4pack 2 in
  let v2 := Z.shiftr v1 2 in
  let v3 := Z.shiftr v2 2 in
  [low v3; low v2; low v1; low vect_4pack].

Definition num_4pack_bytes (numvalues : Z) : Z :=
  if numvalues =? (numvalues / 4) * 4 then numvalues / 4 else numvalues / 4 + 1.

(** [listener_vectevt[listener_vectevt_idx++] = v] for each value, growing the
    array by 64; [None] when [realloc] fails. *)
Fixpoint store_substates (vals : list Z) (vectevt : list Z) (idx : Z) (s : S)
  : res (option (list Z * Z) * S) :=
  match vals with
  | [] => Ret (Some (vectevt, idx), s)
  | v :: vals =>
      let '(ok, vectevt, s) :=
        if idx =? Zlen vectevt then
          let '(ok, s) := sink_malloc s in (ok, vectevt ++ replicate 64 0, s)
        else (true, vectevt, s) in
      if negb ok then Ret (None, s)
      else vectevt ← wr vectevt idx v; store_substates vals vectevt (idx + 1) s
  end.

(** The loop over the four-packed bytes, [n] iterations left. *)
Fixpoint msrp_recv_4packed (n : nat) (buf vectevt : list Z) (pos numvalues idx : Z) (s : S)
  : res (option (list Z) * S) :=
  match n with
  | O => Ret (Some vectevt, s)
  | Datatypes.S n =>
      b ← rd buf pos;
      let processed := if 4 <? numvalues then 4 else numvalues in
      '(o, s) ← store_substates (take (Z.to_nat processed) (vect_4pack_decode b))
                  vectevt idx s;
      match o with
      | None => Ret (None, s)
      | Some (vectevt, idx) =>
          msrp_recv_4packed n buf vectevt (pos + 1) (u16 (numvalues - processed)) idx s
      end
  end.

(** The substates of a listener vector; [None] is [goto out].  [vectevt] is
    [None] until the array is allocated. *)
Definition recv_listener_substates (buf : list Z) (vp eof numvalues : Z)
    (vectevt : option (list Z)) (s : S) : res (option (list Z) * S) :=
  let numvectorbytes := num_4pack_bytes numvalues in
  let vectidx := 8 + num_3pack_bytes numvalues in
  let listener_endbyte := vectidx + numvectorbytes in
  if eof <=? vp + 2 + listener_endbyte then Ret (None, s)
  else
    let '(ok, v, s) := match vectevt with
                       | Some v => (true, v, s)
                       | None => let '(ok, s) := sink_malloc s in (ok, replicate 64 0, s)
                       end in
    if negb ok then Ret (None, s)
    else msrp_recv_4packed (Z.to_nat numvectorbytes) buf v (vp + 2 + vectidx) numvalues 0 s.

(** Vector bytes behind FirstValue. *)
Definition vector_bytes (t : msrp_type) (numvalues : Z) : Z :=
  num_3pack_bytes numvalues +
  match t with MSRP_LISTENER_TYPE => num_4pack_bytes numvalues | _ => 0 end.

(** A LeaveAll flag counts once per type; [saw] lists the types whose
    [saw_*_lva] is set.  [None] when malloc fails. *)
Definition msrp_recv_lva (t : msrp_type) (lva : bool) (saw : list msrp_type) (s : S)
  : res (option (list msrp_type) * S) :=
  if lva && negb (bool_decide (t ∈ saw)) then
    let '(ok, s) := sink_malloc s in
    if negb ok then Ret (None, s)
    else s ← sink_event MRP_EVENT_RLA (Some (msrp_alloc (zero_key t))) s;
         Ret (Some (t :: saw), s)
  else Ret (Some saw, s).

(** The locals that survive from one message to the next. *)
Record recv_locals := Locals { saw_lva : list msrp_type; listener_vectevt : option (list Z) }.

Fixpoint msrp_recv_vectors (fuel : nat) (t : msrp_type) (buf src : list Z)
    (eof ptr : Z) (lo : recv_locals) (s : S) : res (flow * Z * recv_locals * S) :=
  match fuel with
  | O => Fault OutOfFuel
  | Datatypes.S fuel =>
      b0 ← rd buf ptr;
      b1 ← rd buf (ptr + 1);
      if (b0 =? 0) && (b1 =? 0) then Ret (Continue, ptr, lo, s)
      else
        hdr ← rd16 buf ptr;
        let numvalues := MRPDU_VECT_NUMVALUES hdr in
        '(o, s) ← msrp_recv_lva t (MRPDU_VECT_LVA hdr) (saw_lva lo) s;
        match o with
        | None => Ret (GotoOut, ptr, lo, s)
        | Some saw =>
            let lo := Locals saw (listener_vectevt lo) in
            if numvalues =? 0
            then msrp_recv_vectors fuel t buf src eof (ptr + 2 + attrib_len t) lo s
            else if eof <=? ptr + 2 + (numvalues / 3 +
                      match t with MSRP_LISTENER_TYPE => numvalues / 4 | _ => 0 end)
            then Ret (GotoOut, ptr, lo, s)
            else
              f ← read_first_value t buf ptr;
              '(o, s) ← match t with
                        | MSRP_LISTENER_TYPE =>
                            recv_listener_substates buf ptr eof numvalues
                              (listener_vectevt lo) s
                        | _ => Ret (Some (default [] (listener_vectevt lo)), s)
                        end;
              match o with
              | None => Ret (GotoOut, ptr, lo, s)
              | Some v =>
                  let lo := match t with
                            | MSRP_LISTENER_TYPE => Locals saw (Some v)
                            | _ => lo
                            end in
                  '(fl, s) ← msrp_recv_bytes (Z.to_nat (num_3pack_bytes numvalues + 1)) t buf
                               src v ptr (attrib_len t) f numvalues s;
                  match fl with
                  | GotoOut => Ret (GotoOut, ptr, lo, s)
                  | Continue =>
                      msrp_recv_vectors fuel t buf src eof
                        (ptr + 2 + attrib_len t + vector_bytes t numvalues) lo s
                  end
              end
        end
  end.

(** A message whose list length is not reasonable is skipped by what its first
    vector header says. *)
Definition msrp_recv_skip (t : msrp_type) (buf : list Z) (vp : Z) : res Z :=
  hdr ← rd16 buf vp;
  let numvalues := MRPDU_VECT_NUMVALUES hdr in
  Ret (vp + 2 + attrib_len t + (numvalues + 2) / 3 +
       match t with MSRP_LISTENER_TYPE => (numvalues + 3) / 4 | _ => 0 end).

(** One [case] of the [switch]: the message at [ptr]. *)
Definition msrp_recv_message (t : msrp_type) (buf src : list Z) (eof ptr : Z)
    (lo : recv_locals) (s : S) : res (flow * Z * recv_locals * S) :=
  len ← rd buf (ptr + 1);
  if negb (len =? attrib_len t) then Ret (GotoOut, ptr, lo, s)
  else
    ok ← msrp_recv_msg_check_attrib_list_len buf (ptr + 2) eof;
    if ok : bool
    then msrp_recv_vectors (Z.to_nat MAX_FRAME_SIZE) t buf src eof (ptr + 4) lo s
    else ptr' ← msrp_recv_skip t buf (ptr + 4); Ret (Continue, ptr', lo, s).

Definition recv_domain := msrp_recv_message MSRP_DOMAIN_TYPE.
Definition recv_listener := msrp_recv_message MSRP_LISTENER_TYPE.
Definition recv_talker_adv := msrp_recv_message MSRP_TALKER_ADV_TYPE.
Definition recv_talker_failed := msrp_recv_message MSRP_TALKER_FAILED_TYPE.

Fixpoint msrp_recv_messages (fuel : nat) (buf src : list Z) (eof ptr endmarks : Z)
    (lo : recv_locals) (s : S) : res (flow * S) :=
  if negb (ptr <? eof - MRPDU_ENDMARK_SZ) then Ret (Continue, s)
  else match fuel with
  | O => Fault OutOfFuel
  | Datatypes.S fuel =>
      ty ← rd buf ptr;
      len ← rd buf (ptr + 1);
      if (ty =? 0) && (len =? 0) then
        if endmarks + 1 <? 2
        then msrp_recv_messages fuel buf src eof (ptr + 2) (endmarks + 1) lo s
        else Ret (Continue, s)
      else
        '(fl, ptr, lo, s) ←
          match type_of_code ty with
          | Some MSRP_DOMAIN_TYPE => recv_domain buf src eof ptr lo s
          | Some MSRP_LISTENER_TYPE => recv_listener buf src eof ptr lo s
          | Some MSRP_TALKER_ADV_TYPE => recv_talker_adv buf src eof ptr lo s
          | Some MSRP_TALKER_FAILED_TYPE => recv_talker_failed buf src eof ptr lo s
          | None => Ret (GotoOut, ptr, lo, s)
          end;
        match fl with
        | GotoOut => Ret (GotoOut, s)
        | Continue => msrp_recv_messages fuel buf src eof ptr 0 lo s
        end
  end.

Definition msrp_recv_frame (bytes : Z) (msgbuf : list Z) (s : S) : res (Z * S) :=
  if bytes <=? 0 then Ret (-1, s)
  else if bytes <? ETH_HDR_SZ + 1 + 2 then Ret (-1, s)
  else
    typelen ← rd16 msgbuf 12;
    if negb (MSRP_ETYPE =? typelen) then Ret (-1, s)
    else
      dest ← rd_list msgbuf 0 6;
      if negb (memcmp dest MSRP_ADDR =? 0) then Ret (-1, s)
      else
        src ← rd_list msgbuf 6 6;
        let eof := MSG_LIST_OFF + bytes - ETH_HDR_SZ - 1 in
        '(fl, s) ← msrp_recv_messages (Z.to_nat MAX_FRAME_SIZE) msgbuf src eof
                     MSG_LIST_OFF 0 (Locals [] None) s;
        match fl with
        | Continue => Ret (0, s)
        | GotoOut => Ret (-1, s)
        end.

End Recv.

(** ** Notifications *)

(** [%d] of an unsigned value of 32 bits. *)
Definition fmt_d (v : Z) : string := pretty.pretty (if v <? 2 ^ 31 then v else v - 2 ^ 32).

(** [%02x] repeated over the bytes of an identifier. *)
Definition fmt_id (id : list Z) : string := fmt_mac id.

Definition listener_text (k : msrp_key) : string :=
  "L:D=" +:+ fmt_d (substate k) +:+ ",S=" +:+ fmt_id (StreamID (talk_listen k)).

Definition domain_text (d : msrpdu_domain) : string :=
  "D:C=" +:+ fmt_d (SRclassID d) +:+ ",P=" +:+ fmt_d (SRclassPriority d)
  +:+ ",V=" +:+ fmt_04x (SRclassVID d) +:+ ",N=" +:+ fmt_d (neighborSRclassPriority d).

Definition talker_text (t : msrpdu_talker_fail) : string :=
  "T:S=" +:+ fmt_id (StreamID t) +:+ ",A=" +:+ fmt_mac (Dest_Addr t)
  +:+ ",V=" +:+ fmt_04x (Vlan_ID t) +:+ ",Z=" +:+ fmt_d (MaxFrameSize t)
  +:+ ",I=" +:+ fmt_d (MaxIntervalFrames t) +:+ ",P=" +:+ fmt_d (PriorityAndRank t)
  +:+ ",L=" +:+ fmt_d (AccumulatedLatency t).

Definition failure_text (t : msrpdu_talker_fail) : string :=
  ",B=" +:+ fmt_id (BridgeID t) +:+ ",C=" +:+ fmt_d (FailureCode t).

Definition msrp_variant (k : msrp_key) : string :=
  match type k with
  | MSRP_LISTENER_TYPE => listener_text k
  | MSRP_DOMAIN_TYPE => domain_text (domain k)
  | MSRP_TALKER_ADV_TYPE => talker_text (talk_listen k)
  | MSRP_TALKER_FAILED_TYPE => talker_text (talk_listen k) +:+ failure_text (talk_listen k)
  end.

Definition msrp_notify_text (attrib : msrp_attribute) (notify : mrp_notify)
  : option string :=
  let sub_str_len := 128%nat in
  let variant := snprintf (sub_str_len - 1) (msrp_variant (key attrib)) in
  let regsrc := snprintf (sub_str_len - 1)
                  ("R=" +:+ fmt_mac (reg_macaddr (registrar attrib))) in
  let mrp_state := mrp_decode_state (registrar attrib) (applicant attrib) 8 in
  let line cmd := snprintf (Z.to_nat MAX_MRPD_CMDSZ - 1)
    (cmd +:+ " " +:+ variant +:+ " " +:+ regsrc +:+ " " +:+ mrp_state +:+ "
") in
  match notify with
  | MRP_NOTIFY_NEW => Some (line "SNE")
  | MRP_NOTIFY_JOIN => Some (line "SJO")
  | MRP_NOTIFY_LV => Some (line "SLE")
  | MRP_NOTIFY_NONE => None
  end.

Section Ops.
Context {os : OS} {sl : SortLib}.

Definition msrp_send_notifications (attrib : msrp_attribute) (notify : mrp_notify)
    (m : mst) : mst :=
  let '(ok, w) := malloc (m_w m) in
  if negb ok then Mst (m_db m) w
  else
    let '(ok1, w) := malloc w in
    let '(ok2, w) := malloc w in
    if negb (ok1 && ok2) then Mst (m_db m) w
    else match msrp_notify_text attrib notify with
         | None => Mst (m_db m) w
         | Some msgbuf => Mst (m_db m) (send_all (clients (m_db m)) msgbuf w)
         end.

(** ** Events *)

(** What [struct msrp_database] has besides the list, the timers and the flag;
    events only read it. *)
Record msrp_cfg := MsrpCfg {
  interesting_stream_ids : eui64set;
  enable_pruning_of_uninteresting_ids : bool
}.

Definition msrp_conditional_reclaim (a : msrp_attribute) (m : mst)
  : option msrp_attribute * mst :=
  if reclaimable a then (None, msrp_send_notifications a MRP_NOTIFY_LV m) else (Some a, m).

Definition msrp_event_lvatimer (msrp_socket : Z) (s : msrp_ast) : res msrp_ast :=
  let '(_, m) := mrp_lvatimer_stop (get_mst s) in
  let '(_, m) := mrp_jointimer_stop m in
  let '(l, m) := each (attr_both_fsm MRP_EVENT_TXLA) (attrib_list (db s)) m in
  let '(_, m) := mrp_lvatimer_fsm MRP_EVENT_LVATIMER m in
  let '(_, m) := mrp_lvatimer_fsm MRP_EVENT_TX m in
  '(_, s) ← msrp_txpdu msrp_socket (Ast (AppDb (m_db m) l true) (m_w m));
  Ret (put_flag false s).

Definition msrp_rla_step (t : msrp_type) (a : msrp_attribute) (m : mst)
  : msrp_attribute * mst :=
  if decide (type (key a) = t) then attr_both_fsm MRP_EVENT_RLA a m else (a, m).

Definition msrp_event_rla (rattrib : option msrp_attribute) (s : msrp_ast)
  : Z * msrp_ast :=
  let '(_, m) := mrp_jointimer_start (get_mst s) in
  match rattrib with
  | None => (-1, put_mst m s)
  | Some r =>
      let '(l, m) := each (msrp_rla_step (type (key r))) (attrib_list (db s)) m in
      let '(_, m) := mrp_lvatimer_fsm MRP_EVENT_RLA m in
      (0, put_list l (put_mst m s))
  end.

Definition msrp_event_tx (msrp_socket : Z) (s : msrp_ast) : res msrp_ast :=
  let '(_, m) := mrp_jointimer_stop (get_mst s) in
  let '(l, count) := tx_loop (p2pmac (m_w m)) (attrib_list (db s)) in
  '(_, s) ← msrp_txpdu msrp_socket (put_list l (put_mst m s));
  Ret (if count =? 0 then s
       else let '(_, m) := mrp_jointimer_start (get_mst s) in put_mst m s).

Definition msrp_event_lvtimer (s : msrp_ast) : msrp_ast :=
  let '(_, m) := mrp_lvtimer_stop (get_mst s) in
  let '(l, m) := each_opt (fun a m =>
      let '(a, m) := attr_registrar_fsm MRP_EVENT_LVTIMER a m in
      msrp_conditional_reclaim a m) (attrib_list (db s)) m in
  put_list l (put_mst m s).

Definition is_talker (k : msrp_key) : bool :=
  match type k with
  | MSRP_TALKER_ADV_TYPE | MSRP_TALKER_FAILED_TYPE => true
  | _ => false
  end.

(** Is [r] a talker nobody is interested in? *)
Definition uninteresting (cfg : msrp_cfg) (l : list msrp_attribute) (r : msrp_key) : bool :=
  is_talker r && enable_pruning_of_uninteresting_ids cfg &&
  (let listener_lookup := MsrpKey MSRP_LISTENER_TYPE (talk_listen r) (domain r)
                            (substate r) (direction r) in
   match eui64set_find (interesting_stream_ids cfg) (eui64_read (StreamID (talk_listen r))),
         msrp_lookup l listener_lookup with
   | None, None => true
   | _, _ => false
   end).

Definition msrp_event_attribute (cfg : msrp_cfg) (event : mrp_event)
    (rattrib : option msrp_attribute) (s : msrp_ast) : Z * msrp_ast :=
  match rattrib with
  | None => (-1, s)
  | Some r =>
      if uninteresting cfg (attrib_list (db s)) (key r) then (0, s)
      else
        let '(_, m) := mrp_jointimer_start (get_mst s) in
        let '(l, w) := match msrp_lookup (attrib_list (db s)) (key r) with
                       | None => (msrp_add r (attrib_list (db s)), m_w m)
                       | Some _ => let '(_, l, w) := msrp_merge r (attrib_list (db s)) (m_w m) in
                                   (l, w)
                       end in
        let '(l, m) := upd_first (fun k => msrp_match k (key r)) (fun a m =>
            let '(a, m) := attr_event event a m in msrp_conditional_reclaim a m)
            l (Mst (m_db m) w) in
        (0, put_list l (put_mst m s))
  end.

Definition msrp_notify_all (s : msrp_ast) : msrp_ast :=
  let '(l, m) := each (notify_step msrp_send_notifications)
                      (attrib_list (db s)) (get_mst s) in
  put_list l (put_mst m s).

(** The end of a case that can return -1 early. *)
Definition msrp_finish (r : Z * msrp_ast) : Z * msrp_ast :=
  let '(rc, s) := r in if rc =? -1 then (-1, s) else (0, msrp_notify_all s).

Definition msrp_event (cfg : msrp_cfg) (msrp_socket : Z) (event : mrp_event)
    (rattrib : option msrp_attribute) (s : msrp_ast) : res (Z * msrp_ast) :=
  match event with
  | MRP_EVENT_LVATIMER =>
      s ← msrp_event_lvatimer msrp_socket s; Ret (0, msrp_notify_all s)
  | MRP_EVENT_RLA => Ret (msrp_finish (msrp_event_rla rattrib s))
  | MRP_EVENT_TX => s ← msrp_event_tx msrp_socket s; Ret (0, msrp_notify_all s)
  | MRP_EVENT_LVTIMER => Ret (0, msrp_notify_all (msrp_event_lvtimer s))
  | MRP_EVENT_NEW | MRP_EVENT_JOIN | MRP_EVENT_RNEW | MRP_EVENT_RJOININ
  | MRP_EVENT_RJOINMT | MRP_EVENT_LV | MRP_EVENT_RIN | MRP_EVENT_RMT
  | MRP_EVENT_RLV => Ret (msrp_finish (msrp_event_attribute cfg event rattrib s))
  | _ => Ret (0, msrp_notify_all s)
  end.

Definition msrp_sink (cfg : msrp_cfg) (msrp_socket : Z) : EventSink msrp_key msrp_ast := {|
  sink_malloc := fun s => let '(ok, w) := malloc (wld s) in
                          (ok, put_mst (Mst (mrp_db (db s)) w) s);
  sink_event := fun e a s => '(_, s) ← msrp_event cfg msrp_socket e a s; Ret s
|}.

Definition msrp_recv_msg (cfg : msrp_cfg) (msrp_socket : Z) (r : recv_result)
    (s : msrp_ast) : res (Z * msrp_ast) :=
  let '(bytes, buf, w) := mrpd_recvmsgbuf r (wld s) in
  let s := put_mst (Mst (mrp_db (db s)) w) s in
  match buf with
  | None => Ret (-1, s)
  | Some msgbuf => msrp_recv_frame (sink := msrp_sink cfg msrp_socket) bytes msgbuf s
  end.

(** ** Garbage collection and clients *)

Definition msrp_reclaim (s : option msrp_ast) : Z * option msrp_ast :=
  match s with
  | None => (0, None)
  | Some s =>
      let '(l, m) := each_opt msrp_conditional_reclaim (attrib_list (db s)) (get_mst s) in
      (0, Some (put_list l (put_mst m s)))
  end.

Definition msrp_bye (client : sockaddr_in) (s : option msrp_ast) : option msrp_ast :=
  match s with
  | None => None
  | Some s =>
      let d := mrp_db (db s) in
      let '(_, cl) := mrp_client_delete (clients d) (Some client) in
      Some (put_mst (Mst (set_clients cl d) (wld s)) s)
  end.

End Ops.
