(* ===== verification/MsrpList.v ===== *)
(** * The MSRP attribute list

    Attributes are identified by what they declare: a talker (advertised or
    failed) and a listener by their stream, a domain by its SR class.  Insertion
    and merging keep the identities distinct and the fields in range. *)

From S2P Require Import Prelude Os Mrp MrpProps Attr AttrProps AppProps Mvrp Mmrp MmrpList.
From S2P Require Import MmrpRecv Msrp MsrpOps.
From Stdlib Require Import ZArith Lia Sorted.
From stdpp Require Import base tactics sets list strings option gmap.
Open Scope Z_scope.

(** ** Well-formed keys *)

Definition id_ok (id : list Z) : Prop := length id = 8%nat /\ bytes_ok id.
Definition mac_ok (mac : list Z) : Prop := length mac = 6%nat /\ bytes_ok mac.

Record talker_ok (t : msrpdu_talker_fail) : Prop := {
  tk_id : id_ok (StreamID t);
  tk_mac : mac_ok (Dest_Addr t);
  tk_vlan : 0 <= Vlan_ID t < 65536;
  tk_size : 0 <= MaxFrameSize t < 65536;
  tk_interval : 0 <= MaxIntervalFrames t < 65536;
  tk_prio : 0 <= PriorityAndRank t < 256;
  tk_latency : 0 <= AccumulatedLatency t < 2 ^ 32;
  tk_bridge : id_ok (BridgeID t);
  tk_code : 0 <= FailureCode t < 256
}.

Record domain_ok (d : msrpdu_domain) : Prop := {
  dm_class : 0 <= SRclassID d < 256;
  dm_prio : 0 <= SRclassPriority d < 256;
  dm_neighbor : 0 <= neighborSRclassPriority d < 256;
  dm_vid : 0 <= SRclassVID d < 65536
}.

(** Every member holds a value of its C type. *)
Record skey_ok (k : msrp_key) : Prop := {
  sk_talk : talker_ok (talk_listen k);
  sk_domain : domain_ok (domain k);
  sk_substate : 0 <= substate k < 2 ^ 32
}.

Lemma zero_bytes n : bytes_ok (replicate n 0).
Proof. unfold bytes_ok. apply Forall_replicate. lia. Qed.

Lemma zero_id : id_ok (replicate 8 0).
Proof. split; [done | apply zero_bytes]. Qed.

Lemma zero_mac : mac_ok (replicate 6 0).
Proof. split; [done | apply zero_bytes]. Qed.

Lemma stream_talker_ok id : id_ok id ->
  talker_ok (Talker id (replicate 6 0) 0 0 0 0 0 (replicate 8 0) 0).
Proof. intros H. split; cbn; auto using zero_id, zero_mac; lia. Qed.

Lemma zero_domain_ok : domain_ok zero_domain.
Proof. split; cbn; lia. Qed.

Lemma stream_key_ok t id : id_ok id -> skey_ok (stream_key t id).
Proof. intros H. split; cbn; auto using stream_talker_ok, zero_domain_ok; lia. Qed.

Lemma zero_key_ok t : skey_ok (zero_key t).
Proof. apply (stream_key_ok t (replicate 8 0)), zero_id. Qed.

(** ** Identity *)

Inductive msrp_ident := IdTalker (id : list Z) | IdListener (id : list Z) | IdDomain (c : Z).

#[export] Instance msrp_ident_eq_dec : EqDecision msrp_ident.
Proof. solve_decision. Defined.

Definition ident (k : msrp_key) : msrp_ident :=
  match type k with
  | MSRP_TALKER_ADV_TYPE | MSRP_TALKER_FAILED_TYPE => IdTalker (StreamID (talk_listen k))
  | MSRP_LISTENER_TYPE => IdListener (StreamID (talk_listen k))
  | MSRP_DOMAIN_TYPE => IdDomain (SRclassID (domain k))
  end.

Lemma memcmp_id_eq a b : id_ok a -> id_ok b -> (memcmp a b =? 0) = true <-> a = b.
Proof.
  intros [Ha _] [Hb _]. rewrite Z.eqb_eq. split; [apply memcmp_eq; congruence|].
  intros ->. apply memcmp_refl.
Qed.

Lemma msrp_match_ident k r :
  skey_ok k -> skey_ok r -> msrp_match k r = true <-> ident k = ident r.
Proof.
  intros [[Hk _ _ _ _ _ _ _ _] _ _] [[Hr _ _ _ _ _ _ _ _] _ _]. unfold msrp_match, ident.
  pose proof (memcmp_id_eq _ _ Hk Hr) as Hm.
  destruct (type k), (type r); cbn [types_match andb]; rewrite ?bool_decide_eq_true_2,
    ?bool_decide_eq_false_2 by done; cbn [andb]; rewrite ?Hm, ?Z.eqb_eq; try (by split);
    (split; [by intros -> | by intros [= ->]]).
Qed.

Lemma msrp_match_other k r :
  skey_ok k -> skey_ok r -> msrp_match k r = false <-> ident k <> ident r.
Proof. intros Hk Hr. rewrite <- not_true_iff_false. by rewrite msrp_match_ident. Qed.

(** ** The list invariant *)

Record slist_ok (l : list msrp_attribute) : Prop := {
  sl_keys : Forall skey_ok (key <$> l);
  sl_idents : NoDup (ident <$> (key <$> l));
  sl_wf : Forall attr_wf l
}.

#[export] Instance slist_ok_inv : ListInv slist_ok.
Proof.
  split.
  - intros l l' Hk Hw [H1 H2 H3]. split; rewrite ?Hk; auto.
  - intros l l' Hs [H1 H2 H3]. assert (Hs' : sublist (key <$> l') (key <$> l))
      by (by apply fmap_sublist).
    split; [by eapply sublist_Forall | | by eapply sublist_Forall].
    eapply sublist_NoDup; [done | by apply fmap_sublist].
Qed.

Lemma slist_nil : slist_ok [].
Proof. split; constructor. Qed.

(** ** Lookup *)

Lemma msrp_lookup_split l r :
  Forall skey_ok (key <$> l) -> skey_ok r ->
  match msrp_lookup l r with
  | None => Forall (fun a => ident (key a) <> ident r) l
  | Some a => ident (key a) = ident r /\ exists l1 l2, l = l1 ++ a :: l2
                /\ Forall (fun x => ident (key x) <> ident r) l1
  end.
Proof.
  intros Hl Hr. induction l as [|b l IH]; cbn; [done|]. cbn in Hl.
  apply Forall_cons_iff in Hl as [Hb Hl]. destruct (msrp_match (key b) r) eqn:E.
  - apply msrp_match_ident in E; auto. split; [done|]. by exists [], l.
  - apply msrp_match_other in E; auto.
    specialize (IH Hl). destruct (msrp_lookup l r) as [a|]; [|by constructor].
    destruct IH as (Hk & l1 & l2 & -> & Hl1). split; [done|].
    exists (b :: l1), l2. split; [done|]. by constructor.
Qed.

Lemma replace_match_split r a' l1 a l2 :
  Forall skey_ok (key <$> (l1 ++ a :: l2)) -> skey_ok r ->
  Forall (fun x => ident (key x) <> ident r) l1 -> ident (key a) = ident r ->
  replace_match r a' (l1 ++ a :: l2) = l1 ++ a' :: l2.
Proof.
  intros Hok Hr Hl Ha. induction Hl as [|x l1 Hx _ IH]; cbn [app replace_match];
    cbn in Hok; apply Forall_cons_iff in Hok as [Hxk Hok].
  - by rewrite (proj2 (msrp_match_ident (key a) r Hxk Hr)).
  - rewrite (proj2 (msrp_match_other (key x) r Hxk Hr)) by done. by rewrite IH.
Qed.

(** ** Insertion *)

(** [msrp_add] links the attribute somewhere and moves no other. *)
Lemma msrp_add_split r l : exists l1 l2, l = l1 ++ l2 /\ msrp_add r l = l1 ++ r :: l2.
Proof.
  induction l as [|a l (l1 & l2 & Hl & Ha)]; [by exists [], []|]. cbn [msrp_add].
  assert (Hgo : exists l1 l2, a :: l = l1 ++ l2 /\ a :: msrp_add r l = l1 ++ r :: l2).
  { exists (a :: l1), l2. by rewrite Ha, Hl. }
  case_decide; [|done]. destruct (msrp_before _ _); [|by exists [], (a :: l)].
  destruct l as [|b l]; [by exists [a], []|].
  case_decide; [done | by exists [a], (b :: l)].
Qed.

Lemma slist_insert r l1 l2 :
  slist_ok (l1 ++ l2) -> skey_ok (key r) -> attr_wf r ->
  Forall (fun a => ident (key a) <> ident (key r)) (l1 ++ l2) -> slist_ok (l1 ++ r :: l2).
Proof.
  intros [Hk Hi Hw] Hr Hwr Hne. rewrite ?fmap_app, ?Forall_app in *.
  destruct Hk, Hw, Hne as [Hn1 Hn2].
  split; rewrite ?fmap_app, ?fmap_cons, ?Forall_app, ?Forall_cons_iff; auto.
  rewrite <- Permutation_middle. constructor; [|done].
  rewrite elem_of_app, !list_elem_of_fmap. rewrite !Forall_forall in *.
  intros [(k & Hik & Hin) | (k & Hik & Hin)];
    apply list_elem_of_fmap in Hin as (a & -> & Ha); [by apply (Hn1 a) | by apply (Hn2 a)].
Qed.

(** ** Merging *)

Lemma force_notify_wf a : attr_wf a -> attr_wf (force_notify a).
Proof. intros Hw. apply set_registrar_wf; [apply Hw | done]. Qed.

Lemma set_failure_ok r t : talker_ok r -> talker_ok t -> talker_ok (set_failure r t).
Proof. intros [] []. by split. Qed.

(** What a merge keeps of the attribute: its identity, and the type unless a
    talker changes between advertised and failed. *)
Record merged (a a' : msrp_attribute) : Prop := {
  mg_ident : ident (key a') = ident (key a);
  mg_key : skey_ok (key a');
  mg_wf : attr_wf a';
  mg_app : applicant a' = applicant a;
  mg_reg : reg_mrp_state (registrar a') = reg_mrp_state (registrar a)
           \/ reg_mrp_state (registrar a') = MRP_MT_STATE
}.

(** Talkers are transmitted on request of their applicant only. *)
Lemma retyped_wf k (a : msrp_attribute) :
  forced_tx k = forced_tx (key a) -> attr_wf a -> attr_wf (set_key k a).
Proof. intros Hf [Ht Hm]. split; [|done]. unfold tx_wf in *. cbn. by rewrite Hf. Qed.

Lemma merge_talker_ok r a :
  skey_ok r -> skey_ok (key a) -> attr_wf a -> is_talker (key a) = true ->
  is_talker r = true -> merged a (merge_talker r a).
Proof.
  intros [Hr _ _] [Ha Hd Hs] Hw Hta Htr. unfold merge_talker.
  assert (Hf : forall ty, (ty = type (key a) \/ ty = type r) ->
    attr_wf (set_key (MsrpKey ty (set_failure (talk_listen r) (talk_listen (key a)))
      (domain (key a)) (substate (key a)) (direction (key a))) a)).
  { intros ty Hty. apply retyped_wf; [|done]. unfold forced_tx, msrp_forced_tx, is_talker in *.
    cbn. destruct Hty as [-> | ->], (type (key a)), (type r); done. }
  unfold is_talker in *. case_decide as Hd'; split; cbn; auto using force_notify_wf;
    try (by split; cbn; auto using set_failure_ok);
    unfold ident; cbn; by destruct (type (key a)), (type r).
Qed.

Section Merge.
Context {os : OS}.

Lemma merge_listener_ok l r a w :
  skey_ok r -> skey_ok (key a) -> attr_wf a -> type (key a) = MSRP_LISTENER_TYPE ->
  merged a (merge_listener l r a w).1 /\ w_extends w (merge_listener l r a w).2.
Proof.
  intros [_ _ Hr] Hk Hw Ht. assert (Hid : merged a a) by (split; auto).
  assert (Hm : merged a (force_notify (set_key (MsrpKey (type (key a)) (talk_listen (key a))
    (domain (key a)) (substate r) (direction (key a))) a))).
  { split; cbn; auto; [by destruct Hk; split|]. apply force_notify_wf, retyped_wf; auto. }
  unfold merge_listener, malloc. destruct (_ =? _); [done|].
  destruct (_ =? _); [|done]. destruct (os_malloc _); cbn [negb]; [|split; [done | apply w_extends_tick]].
  destruct (msrp_lookup _ _); (split; [done | apply w_extends_tick]).
Qed.

Lemma merge_domain_ok r a :
  skey_ok r -> skey_ok (key a) -> attr_wf a -> type (key a) = MSRP_DOMAIN_TYPE ->
  merged a (merge_domain r a).
Proof.
  intros [_ [] _] Hk Hw Ht. unfold merge_domain. destruct (_ || _); [|split; auto].
  split; cbn; auto.
  - destruct Hk as [? [] ?]. split; cbn; auto. by split.
  - apply force_notify_wf, retyped_wf; auto.
Qed.

Lemma merge_attr_ok l r a w :
  skey_ok (key r) -> attr_wf r -> skey_ok (key a) -> attr_wf a ->
  ident (key a) = ident (key r) ->
  merged a (merge_attr l r a w).1 /\ w_extends w (merge_attr l r a w).2.
Proof.
  intros Hr Hwr Ha Hwa Hid. unfold merge_attr.
  set (a1 := set_macaddr _ a).
  assert (Hw1 : attr_wf a1) by (apply set_registrar_wf; [apply Hwr | done]).
  assert (Hm : forall a', merged a1 a' -> merged a a') by (intros a' []; split; auto).
  assert (Hk1 : key a1 = key a) by done. rewrite Hk1.
  destruct (type (key a)) eqn:Et; cbn [fst snd].
  1,2: split; [apply Hm, merge_talker_ok; unfold is_talker; rewrite ?Hk1, ?Et; auto | done];
    unfold ident in Hid; rewrite Et in Hid; by destruct (type (key r)).
  - destruct (merge_listener_ok l (key r) a1 w) as [H1 H2]; rewrite ?Hk1; auto.
  - split; [|done]. apply Hm, merge_domain_ok; by rewrite ?Hk1.
Qed.

(** ** The attribute an event works on *)

Definition starget (r : msrp_attribute) (l : list msrp_attribute) (w : world)
  : msrp_attribute * world :=
  match msrp_lookup l (key r) with
  | None => (r, w)
  | Some a => merge_attr l r a w
  end.

(** After add or merge the target is in the list, in the place of the old
    attribute if there was one; no attribute before it has its identity. *)
Lemma starget_split r l w :
  slist_ok l -> skey_ok (key r) -> attr_fresh r ->
  exists l1 l2,
    match msrp_lookup l (key r) with
    | None => (msrp_add r l, w)
    | Some _ => let '(_, l', w') := msrp_merge r l w in (l', w')
    end = (l1 ++ (starget r l w).1 :: l2, (starget r l w).2)
    /\ l = l1 ++ option_list (msrp_lookup l (key r)) ++ l2
    /\ w_extends w (starget r l w).2
    /\ ident (key (starget r l w).1) = ident (key r)
    /\ Forall (fun x => ident (key x) <> ident (key r)) l1
    /\ slist_ok (l1 ++ (starget r l w).1 :: l2).
Proof.
  intros Hl Hr (Hwr & _ & _). unfold starget, msrp_merge. pose proof (sl_keys l Hl) as Hk.
  pose proof (msrp_lookup_split l (key r) Hk Hr) as Hs.
  destruct (msrp_lookup l (key r)) as [a|] eqn:E.
  - destruct Hs as (Ha & l1 & l2 & El & Hl1). exists l1, l2.
    assert (Hak : skey_ok (key a) /\ attr_wf a).
    { destruct Hl as [H1 _ H3]. rewrite El, fmap_app, fmap_cons, Forall_app, Forall_cons_iff in H1.
      rewrite El, Forall_app, Forall_cons_iff in H3. naive_solver. }
    destruct (merge_attr_ok l r a w Hr Hwr (proj1 Hak) (proj2 Hak) Ha) as [[M1 M2 M3 _ _] Hw].
    destruct (merge_attr l r a w) as [a' w']. cbn [fst snd] in *. subst l.
    rewrite replace_match_split by done. split_and!; auto; [congruence|].
    destruct Hl as [H1 H2 H3]. rewrite !fmap_app, !fmap_cons, ?Forall_app, ?Forall_cons_iff in *.
    split; rewrite ?fmap_app, ?fmap_cons, ?Forall_app, ?Forall_cons_iff; try naive_solver.
    by rewrite M1.
  - destruct (msrp_add_split r l) as (l1 & l2 & -> & ->). exists l1, l2.
    cbn [fst snd].
    split_and!; auto; [reflexivity | by rewrite Forall_app in Hs; destruct Hs|].
    by apply slist_insert.
Qed.

Lemma starget_reg r l w :
  slist_ok l -> skey_ok (key r) -> attr_fresh r ->
  reg_mrp_state (registrar (starget r l w).1) = MRP_LV_STATE ->
  exists x, msrp_lookup l (key r) = Some x /\ reg_mrp_state (registrar x) = MRP_LV_STATE.
Proof.
  intros Hl Hr (Hwr & _ & Hmt). unfold starget.
  pose proof (msrp_lookup_split l (key r) (sl_keys l Hl) Hr) as Hs.
  destruct (msrp_lookup l (key r)) as [a|] eqn:E; [|cbn; congruence].
  destruct Hs as (Ha & l1 & l2 & El & _). destruct Hl as [H1 _ H3].
  rewrite El, fmap_app, fmap_cons, Forall_app, Forall_cons_iff in H1.
  rewrite El, Forall_app, Forall_cons_iff in H3.
  destruct (merge_attr_ok l r a w) as [[_ _ _ _ Hm] _]; try naive_solver.
  intros Hlv. exists a. split; [done|]. destruct Hm; congruence.
Qed.

End Merge.
