(* ===== verification/MsrpRecv.v ===== *)
(** * The MSRP receiver

    Memory safety and termination of [msrp_recv_frame] on arbitrary input, for
    every application behind the [EventSink] interface; the attributes it passes
    on hold values of their C types. *)

From S2P Require Import Prelude Os Mrp Attr AttrProps Mvrp MvrpRecv Mmrp MmrpList MmrpRecv.
From S2P Require Import Msrp MsrpOps MsrpList.
From Stdlib Require Import ZArith Lia.
From stdpp Require Import base tactics list strings option.
Open Scope Z_scope.

(** Bytes a frame must leave of its buffer: the longest FirstValue may be read
    behind the end of a frame that is too short for it. *)
Definition MSRP_SLACK : Z := 40.

(** ** Values *)

Lemma increment_streamid_ok id : id_ok id -> id_ok (msrp_increment_streamid id).
Proof.
  intros [Hl Hb]. destruct id as [|b0 l]; [done|]. apply Forall_cons_iff in Hb as [H0 Hb].
  destruct (increment_from_spec 7 b0 l []) as (l' & E & Hl' & Hb' & _);
    [by injection Hl | done|].
  rewrite !app_nil_r in E. unfold msrp_increment_streamid. rewrite E.
  split; [cbn; lia | by constructor].
Qed.

Lemma increment_mac_ok m : mac_ok m -> mac_ok (mmrp_increment_macaddr m).
Proof. apply increment_ok. Qed.

(** The running values are in range for their type. *)
Definition first_ok (t : msrp_type) (f : first_value) : Prop :=
  0 <= listener_vectevt_idx f /\
  match t with
  | MSRP_DOMAIN_TYPE => 0 <= srclassID_firstval f < 256 /\ 0 <= srclassprio_firstval f < 256
                        /\ 0 <= srclassvid_firstval f < 65536
  | MSRP_LISTENER_TYPE => id_ok (streamid_firstval f)
  | _ => id_ok (streamid_firstval f) /\ mac_ok (destmac_firstval f)
  end.

Lemma domain_value_ok f :
  first_ok MSRP_DOMAIN_TYPE f ->
  skey_ok (domain_value f).1 /\ first_ok MSRP_DOMAIN_TYPE (domain_value f).2.
Proof.
  intros (Hi & H1 & H2 & H3). split.
  - split; cbn; [apply (sk_talk _ (zero_key_ok MSRP_DOMAIN_TYPE)) | by split | lia].
  - split; [done|]. cbn. split; [apply u8_range|]. split; [apply u8_range | done].
Qed.

Lemma listener_value_ok sub f :
  0 <= sub < 256 -> first_ok MSRP_LISTENER_TYPE f ->
  skey_ok (listener_value sub f).1 /\ first_ok MSRP_LISTENER_TYPE (listener_value sub f).2.
Proof.
  intros Hs [Hi Hid]. split.
  - split; cbn; [by apply stream_talker_ok | apply zero_domain_ok | lia].
  - split; cbn; [lia | by apply increment_streamid_ok].
Qed.

Lemma rd16_u16 buf i :
  bytes_ok buf -> 0 <= i -> i + 1 < Zlen buf -> returns (rd16 buf i) (fun v => 0 <= v < 65536).
Proof.
  intros Hb H1 H2. unfold rd16. eapply returns_bind; [apply rd_byte; [done | lia]|].
  intros hi Hhi. eapply returns_bind; [apply rd_byte; [done | lia]|].
  intros lo Hlo. cbn beta in *. cbn [returns]. lia.
Qed.

Lemma rd32_u32 buf i :
  bytes_ok buf -> 0 <= i -> i + 3 < Zlen buf -> returns (rd32 buf i) (fun v => 0 <= v < 2 ^ 32).
Proof.
  intros Hb H1 H2. unfold rd32. eapply returns_bind; [apply rd16_u16; [done | lia | lia]|].
  intros hi Hhi. eapply returns_bind; [apply rd16_u16; [done | lia | lia]|].
  intros lo Hlo. cbn beta in *. cbn [returns]. lia.
Qed.

Lemma talker_value_ok ty buf vp bridge code f :
  is_talker (zero_key ty) = true ->
  bytes_ok buf -> 0 <= vp -> vp + 27 <= Zlen buf -> id_ok bridge -> 0 <= code < 256 ->
  first_ok ty f ->
  returns (talker_value ty buf vp bridge code f) (fun '(k, f') => skey_ok k /\ first_ok ty f').
Proof.
  intros Hty Hb Hv Hl Hbr Hc [Hi Hf]. unfold talker_value.
  eapply returns_bind; [apply rd16_u16; [done | lia | lia]|]. intros vlan H1.
  eapply returns_bind; [apply rd16_u16; [done | lia | lia]|]. intros size H2.
  eapply returns_bind; [apply rd16_u16; [done | lia | lia]|]. intros interval H3.
  eapply returns_bind; [apply rd_byte; [done | lia]|]. intros prio H4.
  eapply returns_bind; [apply rd32_u32; [done | lia | lia]|]. intros lat H5. cbn beta in *.
  assert (Hf' : id_ok (streamid_firstval f) /\ mac_ok (destmac_firstval f))
    by (by destruct ty).
  destruct Hf' as [Hid Hmac]. cbn [returns]. split.
  - split; cbn; [by split | apply zero_domain_ok | lia].
  - split; [done|]. destruct ty; try done; split;
      by (apply increment_streamid_ok || apply increment_mac_ok).
Qed.

Lemma talker_values_ok buf vp f :
  bytes_ok buf -> 0 <= vp -> vp + 36 <= Zlen buf ->
  (first_ok MSRP_TALKER_ADV_TYPE f ->
   returns (talker_adv_value buf vp f)
     (fun '(k, f') => skey_ok k /\ first_ok MSRP_TALKER_ADV_TYPE f'))
  /\ (first_ok MSRP_TALKER_FAILED_TYPE f ->
   returns (talker_failed_value buf vp f)
     (fun '(k, f') => skey_ok k /\ first_ok MSRP_TALKER_FAILED_TYPE f')).
Proof.
  intros Hb Hv Hl. split; intros Hf.
  - apply talker_value_ok; auto using zero_id; lia.
  - unfold talker_failed_value. eapply returns_bind; [apply rd_list_bytes; [done | lia | lia]|].
    intros bridge Hbr. eapply returns_bind; [apply rd_byte; [done | lia]|]. intros code Hc.
    apply talker_value_ok; auto; lia.
Qed.

Lemma read_first_value_ok t buf vp :
  bytes_ok buf -> 0 <= vp -> vp + 16 <= Zlen buf ->
  returns (read_first_value t buf vp)
    (fun f => first_ok t f /\ listener_vectevt_idx f = 0).
Proof.
  intros Hb Hv Hl. destruct t; cbn [read_first_value].
  1,2: eapply returns_bind; [apply rd_list_bytes; [done | lia | lia]|]; intros id Hid;
    eapply returns_bind; [apply rd_list_bytes; [done | lia | lia]|]; by intros mac Hm.
  - eapply returns_bind; [apply rd_list_bytes; [done | lia | lia]|]. by intros id Hid.
  - eapply returns_bind; [apply rd_byte; [done | lia]|]. intros id Hid.
    eapply returns_bind; [apply rd_byte; [done | lia]|]. intros prio Hp.
    eapply returns_bind; [apply rd16_u16; [done | lia | lia]|]. by intros vid Hvid.
Qed.

Lemma num_4pack_bound n :
  0 <= n -> n <= 4 * num_4pack_bytes n /\ n / 4 <= num_4pack_bytes n <= n / 4 + 1.
Proof. intros Hn. unfold num_4pack_bytes. destruct (Z.eqb_spec n (n / 4 * 4)); zdm. Qed.

(** ** Safety and termination *)
Section Safety.
Context {S : Type} `{sink : !EventSink msrp_key S} {I : S -> Prop}
        {ok : EventSinkOk msrp_key S skey_ok I}.

Lemma attr_alloc_fresh src k :
  length src = 6%nat -> attr_fresh (set_macaddr src (msrp_alloc k)).
Proof. intros Hs. split; [|done]. by split. Qed.

Lemma msrp_values_safe t buf src vectevt vp evts : forall f s,
  length src = 6%nat -> bytes_ok buf -> 0 <= vp -> vp + 36 <= Zlen buf -> bytes_ok vectevt ->
  first_ok t f ->
  (t = MSRP_LISTENER_TYPE -> listener_vectevt_idx f + Zlen evts <= Zlen vectevt) -> I s ->
  returns (msrp_recv_values t buf src vectevt vp evts f s) (fun '(fl, f', s') =>
    (fl = Continue -> first_ok t f' /\ (t = MSRP_LISTENER_TYPE ->
       listener_vectevt_idx f' = listener_vectevt_idx f + Zlen evts)) /\ I s').
Proof.
  induction evts as [|e evts IH]; intros f s Hs Hb Hv Hl Hve Hf Hidx HI;
    cbn [msrp_recv_values]; [cbn; split; [|done]; intros _; split; [done | lia]|].
  cbn [length] in Hidx |- *.
  apply returns_bind with (fun sub => 0 <= sub < 256).
  { destruct t; try (cbn; lia). apply rd_byte; [done|]. destruct Hf. specialize (Hidx eq_refl). lia. }
  intros sub Hsub.
  assert (Hgo : forall f' s', first_ok t f' -> I s' ->
    (t = MSRP_LISTENER_TYPE -> listener_vectevt_idx f' = listener_vectevt_idx f + 1) ->
    returns (msrp_recv_values t buf src vectevt vp evts f' s') (fun '(fl, f'', s'') =>
      (fl = Continue -> first_ok t f'' /\ (t = MSRP_LISTENER_TYPE ->
         listener_vectevt_idx f'' = listener_vectevt_idx f + Z.of_nat (Datatypes.S (length evts))))
      /\ I s'')).
  { intros f' s' Hf' HI' Hn. eapply returns_mono; [apply IH; auto|].
    - intros Ht. specialize (Hn Ht). specialize (Hidx Ht). lia.
    - intros [[fl f''] s''] [H1 H2]. split; [|done]. intros ->. destruct (H1 eq_refl) as [H3 H4].
      split; [done|]. intros Ht. rewrite (H4 Ht), (Hn Ht). lia. }
  destruct (bool_decide _ && _) eqn:Eig.
  { apply andb_true_iff in Eig as [Et _]. apply bool_decide_eq_true in Et. subst t.
    apply Hgo; auto. exact (proj2 (listener_value_ok sub f Hsub Hf)). }
  pose proof (sink_malloc_ok s HI) as Hm. destruct (sink_malloc s) as [[] s1]; [|done].
  cbn [negb snd] in *. destruct (talker_values_ok buf vp f Hb Hv Hl) as [Hadv Hfail].
  apply returns_bind with (fun '(k, f') => skey_ok k /\ first_ok t f'
    /\ (t = MSRP_LISTENER_TYPE -> listener_vectevt_idx f' = listener_vectevt_idx f + 1)).
  { destruct t; cbn [returns].
    - eapply returns_mono; [by apply Hadv|]. intros [k f'] [? ?]. done.
    - eapply returns_mono; [by apply Hfail|]. intros [k f'] [? ?]. done.
    - destruct (listener_value_ok sub f Hsub Hf). done.
    - destruct (domain_value_ok f Hf). done. }
  intros [k f'] (Hk & Hf' & Hn). apply returns_bind with I.
  - destruct (mrpdu_event e) as [ev|] eqn:Ev; [|done].
    apply sink_event_ok; [done | by eapply mrpdu_event_received|].
    intros x [= <-]. split; [done | by apply attr_alloc_fresh].
  - intros s2 H2. by apply Hgo.
Qed.

Lemma msrp_bytes_safe t buf src vectevt vp n : forall vectidx f numvalues s,
  length src = 6%nat -> bytes_ok buf -> 0 <= vp -> vp + 36 <= Zlen buf ->
  0 <= vectidx -> vp + 2 + vectidx + Z.of_nat n <= Zlen buf -> bytes_ok vectevt ->
  first_ok t f -> 0 <= numvalues < 65536 ->
  (t = MSRP_LISTENER_TYPE -> listener_vectevt_idx f + numvalues <= Zlen vectevt) -> I s ->
  returns (msrp_recv_bytes n t buf src vectevt vp vectidx f numvalues s) (fun '(_, s') => I s').
Proof.
  induction n as [|n IH]; intros vectidx f nv s Hs Hb Hv Hl Hlo Hhi Hve Hf Hnv Hidx HI;
    cbn [msrp_recv_bytes]; [done|].
  eapply returns_bind; [apply rd_ok; lia|]. intros b _.
  destruct (vect_3pack_decode b) as [[e0 e1] e2].
  set (p := if 3 <? nv then 3 else nv).
  assert (Hp : 0 <= p <= 3 /\ p <= nv) by (unfold p; btest; lia).
  rewrite u16_id by lia.
  destruct (MRPDU_LV <? e0).
  { apply IH; auto; try lia. intros Ht. specialize (Hidx Ht). lia. }
  assert (Hlen : Zlen (take (Z.to_nat p) [e0; e1; e2]) = p)
    by (rewrite length_take; cbn [length]; lia).
  eapply returns_bind; [apply msrp_values_safe; auto|].
  { intros Ht. rewrite Hlen. specialize (Hidx Ht). lia. }
  intros [[[] f'] s'] [H1 HI']; [|done]. destruct (H1 eq_refl) as [Hf' Hn].
  apply IH; auto; try lia. intros Ht. rewrite (Hn Ht), Hlen. specialize (Hidx Ht). lia.
Qed.

(** *** Substates *)

Lemma store_substates_safe vals : forall vectevt idx s,
  bytes_ok vectevt -> 0 <= idx <= Zlen vectevt -> I s ->
  returns (store_substates vals vectevt idx s) (fun '(o, s') => I s' /\
    forall v idx', o = Some (v, idx') ->
      bytes_ok v /\ idx' = idx + Zlen vals /\ idx' <= Zlen v).
Proof.
  induction vals as [|x vals IH]; intros vectevt idx s Hb Hi HI; cbn [store_substates].
  { cbn. split; [done|]. intros v idx' [= <- <-]. split; [done|]. lia. }
  set (g := if idx =? Zlen vectevt then _ else _).
  assert (Hg : I g.2 /\ bytes_ok g.1.2 /\ idx < Zlen g.1.2).
  { unfold g. destruct (Z.eqb_spec idx (Zlen vectevt)).
    - pose proof (sink_malloc_ok s HI) as Hm. destruct (sink_malloc s) as [o s1].
      cbn [fst snd] in *.
      split; [done|]. split; [by apply Forall_app; split; [|apply zero_bytes]|].
      rewrite length_app, length_replicate. lia.
    - cbn. split; [done|]. split; [done | lia]. }
  destruct g as [[o v1] s1]. cbn [fst snd] in Hg. destruct Hg as (HI1 & Hb1 & Hl1).
  destruct (negb o); [cbn; split; [done|]; intros ?? [=]|].
  rewrite wr_ok, res_bind_ret by lia.
  eapply returns_mono; [apply IH; auto|].
  - apply Forall_insert; [done | apply u8_range].
  - rewrite length_insert. lia.
  - intros [o' s'] [H1 H2]. split; [done|]. intros v idx' E.
    destruct (H2 v idx' E) as (H3 & H4 & H5). split; [done|]. cbn [length]. lia.
Qed.

Lemma decode_4pack_length b : length (vect_4pack_decode b) = 4%nat.
Proof. done. Qed.

Lemma recv_4packed_safe buf n : forall vectevt pos numvalues idx s,
  bytes_ok vectevt -> 0 <= idx <= Zlen vectevt -> 0 <= pos ->
  pos + Z.of_nat n <= Zlen buf -> 0 <= numvalues < 65536 -> numvalues <= 4 * Z.of_nat n -> I s ->
  returns (msrp_recv_4packed n buf vectevt pos numvalues idx s) (fun '(o, s') => I s' /\
    forall v, o = Some v -> bytes_ok v /\ idx + numvalues <= Zlen v).
Proof.
  induction n as [|n IH]; intros vectevt pos nv idx s Hb Hi Hp Hl Hnv Hn HI;
    cbn [msrp_recv_4packed].
  { cbn. split; [done|]. intros v [= <-]. split; [done | lia]. }
  eapply returns_bind; [apply rd_ok; lia|]. intros b _.
  set (p := if 4 <? nv then 4 else nv).
  assert (Hp' : 0 <= p <= 4 /\ p <= nv /\ (p = 4 \/ p = nv)) by (unfold p; btest; lia).
  assert (Hlen : Zlen (take (Z.to_nat p) (vect_4pack_decode b)) = p)
    by (rewrite length_take, decode_4pack_length; lia).
  eapply returns_bind; [by apply store_substates_safe|].
  intros [[[v1 idx1]|] s1] [HI1 Ho]; [|cbn; split; [done | by intros ?]].
  destruct (Ho v1 idx1 eq_refl) as (Hb1 & -> & Hl1). rewrite Hlen in *.
  rewrite u16_id by lia. eapply returns_mono; [apply IH; auto; lia|].
  intros [o s'] [H1 H2]. split; [done|]. intros v E. destruct (H2 v E). split; [done | lia].
Qed.

Definition opt_bytes (o : option (list Z)) : Prop := forall v, o = Some v -> bytes_ok v.

Lemma substates_safe buf vp eof n vectevt s :
  0 <= vp -> eof <= Zlen buf -> 0 < n < 8192 -> opt_bytes vectevt -> I s ->
  returns (recv_listener_substates buf vp eof n vectevt s) (fun '(o, s') => I s' /\
    forall v, o = Some v -> bytes_ok v /\ n <= Zlen v
      /\ vp + 2 + 8 + vector_bytes MSRP_LISTENER_TYPE n < eof).
Proof.
  intros Hv He Hn Hb HI. unfold recv_listener_substates, vector_bytes.
  destruct (num_3pack_bound n) as [_ H3]; [lia|].
  destruct (num_4pack_bound n) as [H41 H42]; [lia|].
  assert (0 <= n / 3) by (apply Z.div_pos; lia). assert (0 <= n / 4) by (apply Z.div_pos; lia).
  destruct (Z.leb_spec eof (vp + 2 + (8 + num_3pack_bytes n + num_4pack_bytes n)));
    [cbn; split; [done | by intros ?]|].
  set (g := match vectevt with Some v => _ | None => _ end).
  assert (Hg : I g.2 /\ bytes_ok g.1.2).
  { unfold g. destruct vectevt as [v|]; cbn; [split; [done | by apply Hb]|].
    pose proof (sink_malloc_ok s HI) as Hm. destruct (sink_malloc s) as [o s1]. cbn in *.
    split; [done | apply (zero_bytes 64)]. }
  destruct g as [[o v1] s1]. cbn [fst snd] in Hg. destruct Hg as [HI1 Hb1].
  destruct (negb o); [cbn; split; [done | by intros ?]|].
  eapply returns_mono; [apply recv_4packed_safe; auto; lia|].
  intros [o' s'] [HI2 Ho]. split; [done|]. intros v E. destruct (Ho v E). split; [done|]. lia.
Qed.

(** *** Vectors and messages *)

Lemma msrp_lva_safe t lva saw s :
  I s -> returns (msrp_recv_lva t lva saw s) (fun '(_, s') => I s').
Proof.
  intros HI. unfold msrp_recv_lva. destruct (lva && _); [|done].
  pose proof (sink_malloc_ok s HI) as Hm. destruct (sink_malloc s) as [[] s1]; [|done].
  cbn [negb snd] in *. eapply returns_bind; [|intros s2 H2; exact H2].
  apply sink_event_ok; [done | done|]. intros x [= <-]. split; [apply zero_key_ok | done].
Qed.

Lemma attrib_len_range t : 4 <= attrib_len t <= 34.
Proof. destruct t; cbn; lia. Qed.

(** The buffer is zero behind the frame. *)
Definition zero_after (eof : Z) (buf : list Z) : Prop :=
  forall i b, eof <= i -> buf !! Z.to_nat i = Some b -> b = 0.

Lemma msrp_vectors_safe t buf src eof fuel : forall ptr lo s,
  length src = 6%nat -> bytes_ok buf -> zero_after eof buf -> 0 <= eof ->
  eof + MSRP_SLACK <= Zlen buf -> opt_bytes (listener_vectevt lo) ->
  0 <= ptr <= eof + 36 -> eof + 36 - ptr < Z.of_nat fuel -> I s ->
  returns (msrp_recv_vectors fuel t buf src eof ptr lo s) (fun '(_, ptr', lo', s') =>
    ptr <= ptr' /\ opt_bytes (listener_vectevt lo') /\ I s').
Proof.
  pose proof (attrib_len_range t) as Ht. unfold MSRP_SLACK.
  induction fuel as [|fuel IH]; intros ptr lo s Hs Hb Hz He Hl Hlo Hp Hf HI; [lia|].
  cbn [msrp_recv_vectors].
  eapply returns_bind; [apply rd_ok; lia|]. intros b0 H0. cbn beta in H0.
  eapply returns_bind; [apply rd_ok; lia|]. intros b1 H1. cbn beta in H1.
  destruct ((b0 =? 0) && (b1 =? 0)) eqn:Ezero; [cbn; split; [lia | done]|].
  assert (Hlt : ptr < eof).
  { destruct (Z.lt_ge_cases ptr eof) as [|Hge]; [done|].
    rewrite (Hz ptr b0 Hge H0), (Hz (ptr + 1) b1 ltac:(lia) H1) in Ezero. done. }
  eapply returns_bind; [apply rd16_safe; lia|].
  intros hdr _. pose proof (numvalues_range hdr) as Hnv.
  set (n := MRPDU_VECT_NUMVALUES hdr) in *.
  eapply returns_bind; [by apply msrp_lva_safe|].
  intros [[saw|] s1] HI1; [|cbn; split; [lia | done]].
  destruct (Z.eqb_spec n 0).
  { eapply returns_mono; [apply IH; auto; lia|].
    intros [[[??]?]?] (? & ? & ?). split; [lia | done]. }
  destruct (num_3pack_bound n) as [Hn1 Hn2]; [lia|].
  assert (0 <= n / 3) by (apply Z.div_pos; lia). assert (0 <= n / 4) by (apply Z.div_pos; lia).
  destruct (Z.leb_spec eof (ptr + 2 + (n / 3 + match t with MSRP_LISTENER_TYPE => n / 4 | _ => 0 end)))
    as [|Hfit]; [cbn; split; [lia | done]|].
  assert (Hfit3 : ptr + 2 + n / 3 < eof) by (destruct t; lia).
  eapply returns_bind; [apply read_first_value_ok; [done | lia | lia]|]. intros f [Hf1 Hf0].
  apply returns_bind with (fun '(o, s') => I s' /\ forall v, o = Some v -> bytes_ok v
    /\ (t = MSRP_LISTENER_TYPE -> n <= Zlen v)
    /\ ptr + 2 + attrib_len t + vector_bytes t n <= eof + 36).
  { destruct t; cbn [attrib_len] in *;
      try (cbn; split; [done|]; intros v [= <-]; split;
        [destruct (listener_vectevt lo) eqn:E; [by apply Hlo | by constructor]|];
        split; [done|]; unfold vector_bytes; lia).
    eapply returns_mono; [apply (substates_safe buf ptr eof n); auto; lia|].
    intros [o s'] [HIs Ho]. split; [done|]. intros v E. destruct (Ho v E) as (? & ? & ?).
    split; [done|]. split; [done | lia]. }
  intros [[v|] s2] [HI2 Hv]; [|cbn; split; [lia | done]].
  destruct (Hv v eq_refl) as (Hvb & Hvn & Hnext). clear Hv.
  assert (Hvec : 0 <= vector_bytes t n).
  { destruct (num_4pack_bound n); [lia|]. unfold vector_bytes. destruct t; lia. }
  eapply returns_bind.
  { apply msrp_bytes_safe; auto; try lia. intros Htl. rewrite Hf0. specialize (Hvn Htl). lia. }
  intros [[] s3] HI3.
  - eapply returns_mono; [apply IH; auto; [destruct t; cbn; auto; by intros ? [= <-] | |]|].
    + lia.
    + lia.
    + intros [[[??]?]?] (? & ? & ?). split; [lia | done].
  - cbn. split; [lia|]. split; [|done]. destruct t; cbn; auto. by intros ? [= <-].
Qed.

Lemma check_len_safe buf d eof :
  bytes_ok buf -> 1 <= d -> d + 1 < Zlen buf -> eof < Zlen buf ->
  returns (msrp_recv_msg_check_attrib_list_len buf d eof) (fun _ => True).
Proof.
  intros Hb Hd Hl He. unfold msrp_recv_msg_check_attrib_list_len.
  eapply returns_bind; [apply rd16_u16; [done | lia | lia]|]. intros len Hlen. cbn beta in Hlen.
  eapply returns_bind; [apply rd_ok; lia|]. intros al _.
  destruct (_ <? _); [done|]. destruct (Z.leb_spec eof (d + len)); [done|].
  eapply returns_bind; [apply rd_ok; lia|]. intros b0 _. destruct (negb _); [done|].
  eapply returns_bind; [apply rd_ok; lia|]. done.
Qed.

Lemma skip_safe t buf vp :
  0 <= vp -> vp + 1 < Zlen buf -> returns (msrp_recv_skip t buf vp) (fun p => vp <= p).
Proof.
  intros H1 H2. unfold msrp_recv_skip. eapply returns_bind; [apply rd16_safe; lia|].
  intros hdr _. cbn. pose proof (numvalues_range hdr) as Hnv. pose proof (attrib_len_range t).
  assert (0 <= (MRPDU_VECT_NUMVALUES hdr + 2) / 3) by (apply Z.div_pos; lia).
  assert (0 <= (MRPDU_VECT_NUMVALUES hdr + 3) / 4) by (apply Z.div_pos; lia).
  destruct t; lia.
Qed.

Lemma msrp_message_safe t buf src eof ptr lo s :
  length src = 6%nat -> bytes_ok buf -> zero_after eof buf -> 0 <= eof ->
  eof + MSRP_SLACK <= Zlen buf -> Zlen buf = MAX_FRAME_SIZE ->
  opt_bytes (listener_vectevt lo) -> 0 <= ptr < eof - 2 -> I s ->
  returns (msrp_recv_message t buf src eof ptr lo s) (fun '(fl, ptr', lo', s') =>
    (fl = Continue -> ptr < ptr') /\ opt_bytes (listener_vectevt lo') /\ I s').
Proof.
  unfold MSRP_SLACK, MAX_FRAME_SIZE. intros Hs Hb Hz He Hl Hm Hlo Hp HI.
  unfold msrp_recv_message. eapply returns_bind; [apply rd_ok; lia|]. intros len _.
  destruct (negb _); [done|].
  eapply returns_bind; [apply check_len_safe; [done | lia | lia | lia]|]. intros [] _.
  - eapply returns_mono; [apply msrp_vectors_safe; auto; unfold MSRP_SLACK, MAX_FRAME_SIZE; lia|].
    intros [[[??]?]?] (? & ? & ?). split; [lia | done].
  - eapply returns_bind; [apply skip_safe; lia|]. cbn. intros p Hp'. split; [lia | done].
Qed.

Lemma msrp_messages_safe buf src eof fuel : forall ptr endmarks lo s,
  length src = 6%nat -> bytes_ok buf -> zero_after eof buf -> 0 <= eof ->
  eof + MSRP_SLACK <= Zlen buf -> Zlen buf = MAX_FRAME_SIZE ->
  opt_bytes (listener_vectevt lo) -> 0 <= ptr -> eof - ptr <= Z.of_nat fuel -> I s ->
  returns (msrp_recv_messages fuel buf src eof ptr endmarks lo s) (fun '(_, s') => I s').
Proof.
  induction fuel as [|fuel IH]; intros ptr em lo s Hs Hb Hz He Hl Hm Hlo Hp Hf HI;
    cbn [msrp_recv_messages]; unfold MRPDU_ENDMARK_SZ;
    (destruct (Z.ltb_spec ptr (eof - 2)) as [Hlt|]; cbn [negb]; [|done]); [lia|].
  assert (Hl' := Hl). unfold MSRP_SLACK in Hl'.
  eapply returns_bind; [apply rd_ok; lia|]. intros ty _.
  eapply returns_bind; [apply rd_ok; lia|]. intros len _.
  destruct (_ && _); [destruct (_ <? 2); [apply IH; auto; lia | done]|].
  apply returns_bind with (fun '(fl, ptr', lo', s') =>
    (fl = Continue -> ptr < ptr') /\ opt_bytes (listener_vectevt lo') /\ I s').
  { destruct (type_of_code ty) as [[]|]; [apply msrp_message_safe; auto; lia.. | done]. }
  intros [[[[] ptr'] lo'] s'] (Hge & Hlo' & HI'); [|done].
  specialize (Hge eq_refl). apply IH; auto; lia.
Qed.

Lemma msrp_frame_safe bytes buf s :
  Zlen buf = MAX_FRAME_SIZE -> bytes_ok buf -> zero_after bytes buf ->
  bytes <= MAX_FRAME_SIZE - MSRP_SLACK -> I s ->
  returns (msrp_recv_frame bytes buf s) (fun '(rc, s') => (rc = 0 \/ rc = -1) /\ I s').
Proof.
  intros Hl Hb Hz Hn HI. unfold MAX_FRAME_SIZE, MSRP_SLACK in *.
  unfold msrp_recv_frame, ETH_HDR_SZ.
  destruct (Z.leb_spec bytes 0); [cbn; auto|].
  destruct (Z.ltb_spec bytes (14 + 1 + 2)); [cbn; auto|].
  eapply returns_bind; [apply rd16_safe; lia|]. intros tl _.
  destruct (negb _); [cbn; auto|].
  eapply returns_bind; [apply rd_list_ok; lia|]. intros dest _.
  destruct (negb _); [cbn; auto|].
  eapply returns_bind; [apply rd_list_ok; lia|]. intros src Hsrc. cbn beta in Hsrc.
  unfold MSG_LIST_OFF. replace (15 + bytes - 14 - 1) with bytes by lia.
  eapply returns_bind; [apply msrp_messages_safe; auto; unfold MAX_FRAME_SIZE, MSRP_SLACK; try lia|].
  { by intros v [=]. }
  intros [[] s'] HI'; cbn; auto.
Qed.

End Safety.
