(* ===== verification/MsrpEmit.v ===== *)
(** * MSRP emission is memory safe

    The emission functions stay inside the frame as long as each message has
    room for its header, one FirstValue and the end mark, and only change [tx]
    flags; what they write is bounded by the number of attributes. *)

From S2P Require Import Prelude Os Mrp Attr AttrProps AppProps Mvrp MvrpEmit Mmrp MmrpList.
From S2P Require Import MmrpEmit Msrp MsrpOps MsrpList.
From Stdlib Require Import ZArith Lia.
From stdpp Require Import base tactics list strings option.
Open Scope Z_scope.

(** ** Changes of the [tx] flags *)

Definition set_tx (b : bool) (a : msrp_attribute) : msrp_attribute :=
  let p := applicant a in
  set_applicant (Applicant (app_mrp_state p) b (app_sndmsg p) (app_encode p)
                   (app_mrp_previous_state p)) a.

(** Only listeners get their flag set. *)
Definition retx (a a' : msrp_attribute) : Prop :=
  exists b, a' = set_tx b a
    /\ (b = true -> app_tx (applicant a) = true \/ forced_tx (key a) = true).

Lemma retx_id a : retx a a.
Proof. exists (app_tx (applicant a)). split; [by destruct a as [? [] ?] | auto]. Qed.

Lemma retx_clear a : retx a (clear_tx a).
Proof. by exists false. Qed.

Lemma retx_mark a : retx a (mark_listener a).
Proof.
  unfold mark_listener. case_decide as H; [|apply retx_id]. exists true. split; [done|].
  intros _. right. by apply bool_decide_eq_true.
Qed.

Lemma retx_refl l : Forall2 retx l l.
Proof. induction l; constructor; auto using retx_id. Qed.

Lemma retx_trans l1 l2 l3 : Forall2 retx l1 l2 -> Forall2 retx l2 l3 -> Forall2 retx l1 l3.
Proof.
  intros H12. revert l3. induction H12 as [|a b l1 l2 (x & -> & Hx) H12 IH]; intros l3 H23;
    inversion_clear H23 as [|? c ? l3' (y & -> & Hy) H23']; constructor; auto.
  exists y. split; [done|]. intros Hyt. destruct (Hy Hyt) as [H|H]; [|by right].
  by apply Hx.
Qed.

Lemma retx_kept {os : OS} l l' m : Forall2 retx l l' -> kept l l' m.
Proof.
  induction 1 as [|a a' l l' (b & -> & Hb) _ IH]; constructor; auto.
  split_and!; [done | | by auto]. intros [Ht Hm]. split; [|done]. intros Hf Htx.
  cbn in Hf, Htx. destruct (Hb Htx) as [H|H]; [by apply Ht | congruence].
Qed.

Lemma retx_states l l' : Forall2 retx l l' ->
  app_mrp_state ∘ applicant <$> l' = app_mrp_state ∘ applicant <$> l.
Proof. induction 1 as [|a a' l l' (b & -> & _) _ IH]; cbn; congruence. Qed.

Lemma retx_keys l l' : Forall2 retx l l' -> key <$> l' = key <$> l.
Proof. induction 1 as [|a a' l l' (b & -> & _) _ IH]; cbn; congruence. Qed.

Lemma retx_keys_ok l l' :
  Forall2 retx l l' -> Forall skey_ok (key <$> l) -> Forall skey_ok (key <$> l').
Proof. intros H. by rewrite (retx_keys _ _ H). Qed.

(** ** Counting *)

(** Attributes of a type, and those of them that are to be transmitted. *)
Definition ncount (t : msrp_type) (l : list msrp_attribute) : Z :=
  Zlen (filter (fun a => type (key a) = t) l).

Definition tcount (t : msrp_type) (l : list msrp_attribute) : Z :=
  Zlen (filter (fun a => type (key a) = t /\ app_tx (applicant a) = true) l).

Lemma tcount_cons t a l :
  tcount t (a :: l) = (if decide (type (key a) = t /\ app_tx (applicant a) = true) then 1 else 0)
                      + tcount t l.
Proof. unfold tcount. rewrite filter_cons. case_decide; cbn [length]; lia. Qed.

Lemma tcount_clear t a l : tcount t (clear_tx a :: l) = tcount t l.
Proof. rewrite tcount_cons, decide_False; [lia|]. intros [_ H]. done. Qed.

Lemma tcount_pos t l : 0 <= tcount t l.
Proof. unfold tcount. lia. Qed.

Lemma ncount_cons t a l :
  ncount t (a :: l) = (if decide (type (key a) = t) then 1 else 0) + ncount t l.
Proof. unfold ncount. rewrite filter_cons. case_decide; cbn [length]; lia. Qed.

Lemma tcount_ncount t l : tcount t l <= ncount t l.
Proof.
  induction l as [|a l IH]; [done|]. rewrite tcount_cons, ncount_cons.
  destruct (decide (_ /\ _)) as [[H _]|]; [rewrite decide_True by done; lia|].
  case_decide; lia.
Qed.

Lemma ncount_keys t l l' : key <$> l' = key <$> l -> ncount t l' = ncount t l.
Proof.
  revert l'; induction l as [|a l IH]; intros [|a' l'] H; try done.
  rewrite !fmap_cons in H. injection H as Hk H. rewrite !ncount_cons, Hk. by rewrite (IH l').
Qed.

Lemma ncount_sum l :
  ncount MSRP_TALKER_ADV_TYPE l + ncount MSRP_TALKER_FAILED_TYPE l
  + ncount MSRP_LISTENER_TYPE l + ncount MSRP_DOMAIN_TYPE l = Zlen l.
Proof.
  induction l as [|a l IH]; [done|]. rewrite !ncount_cons. cbn [length].
  destruct (type (key a)); repeat case_decide; try done; lia.
Qed.

(** ** The loop over the list *)

(** Bytes an attribute takes in a vector of its own. *)
Definition attr_weight (t : msrp_type) : Z := 
  attrib_len t + match t with MSRP_LISTENER_TYPE => 4 | _ => 3 end.

(** Where the pointers stand: at the start of the message, which is still as it
    was ([buf0]), or behind a vector. *)
Definition msrp_emit_at (base eof : Z) (buf0 : list Z) (e : emit_st) : Prop :=
  Zlen (e_buf e) = eof
  /\ (e_ptr e = base /\ e_vp e = base + 4 /\ e_found e = false /\ e_buf e = buf0
      \/ e_ptr e = e_vp e /\ base + 4 < e_vp e <= eof - 2 /\ e_found e = true).

Lemma vector_size_len t : attrib_len t + 1 <= vector_size t.
Proof. by destruct t. Qed.

Section Loop.
Context {S : Type} (pos : S -> emit_st) (Q : S -> Prop)
        (vector : msrp_attribute -> list msrp_attribute -> S
                  -> res (bool * list msrp_attribute * S))
        (t : msrp_type) (base eof : Z) (buf0 : list Z).

(** What a vector may do, started with room for one attribute. *)
Definition vector_post (l : list msrp_attribute) (st : S)
    (out : bool * list msrp_attribute * S) : Prop :=
  let '(oops, l', st') := out in
  Forall2 retx l l' /\ Q st' /\ Zlen (e_buf (pos st')) = eof
  /\ (oops = false -> msrp_emit_at base eof buf0 (pos st')
        /\ e_vp (pos st') + attr_weight t * tcount t l'
           <= e_vp (pos st) + attr_weight t * tcount t l).

Definition vector_safe : Prop := forall a r st,
  msrp_emit_at base eof buf0 (pos st) -> Q st -> skey_ok (key a) ->
  e_vp (pos st) + 2 + attrib_len t <= eof - 2 -> Forall skey_ok (key <$> r) ->
  returns (vector a r st) (fun '(oops, r', st') =>
    Forall2 retx r r' /\ Q st' /\ Zlen (e_buf (pos st')) = eof
    /\ (oops = false -> msrp_emit_at base eof buf0 (pos st')
          /\ e_vp (pos st') + attr_weight t * tcount t r'
             <= e_vp (pos st) + attr_weight t + attr_weight t * tcount t r)).

Lemma vector_post_stop l st :
  msrp_emit_at base eof buf0 (pos st) -> Q st -> vector_post l st (false, l, st).
Proof.
  intros He HQ. pose proof He as [? _]. split_and!; auto using retx_refl.
  intros _. split; [done | lia].
Qed.

Lemma attr_weight_pos : 0 <= attr_weight t.
Proof. destruct t; done. Qed.

Lemma msrp_emit_loop_safe fuel : forall l st,
  vector_safe -> base + attrib_len t + 8 <= eof ->
  msrp_emit_at base eof buf0 (pos st) -> Q st -> Forall skey_ok (key <$> l) ->
  (length l <= fuel)%nat ->
  returns (msrp_emit_loop pos vector t eof fuel l st) (vector_post l st).
Proof.
  pose proof attr_weight_pos as Hw.
  induction fuel as [|fuel IH]; intros l st Hvec Hroom He HQ Hk Hl.
  { destruct l; [|cbn in Hl; lia]. cbn. destruct (negb _); by apply vector_post_stop. }
  destruct l as [|a l]; cbn [msrp_emit_loop]; [destruct (negb _); by apply vector_post_stop|].
  destruct (negb _) eqn:Hg; [by apply vector_post_stop|].
  apply negb_false_iff, Z.ltb_lt in Hg. unfold MRPDU_ENDMARK_SZ in Hg.
  cbn in Hk. apply Forall_cons_iff in Hk as [Hka Hk]. cbn [length] in Hl.
  assert (Hskip : forall a', a' = a \/ a' = clear_tx a ->
    returns ('(oops, r', st) ← msrp_emit_loop pos vector t eof fuel l st;
             Ret (oops, a' :: r', st)) (vector_post (a :: l) st)).
  { intros a' Ha'. eapply returns_bind; [apply IH; auto; lia|].
    intros [[oops l'] st'] (H1 & H2 & H3 & H4). cbn [returns vector_post].
    split_and!; auto.
    { constructor; [|done]. destruct Ha' as [-> | ->]; auto using retx_id, retx_clear. }
    intros Ho. destruct (H4 Ho) as [H5 H6]. split; [done|].
    destruct Ha' as [-> | ->]; rewrite ?tcount_clear, ?tcount_cons; case_decide; nia. }
  destruct (negb (bool_decide _)) eqn:Ety; [apply Hskip; by left|].
  apply negb_false_iff, bool_decide_eq_true in Ety.
  destruct (app_tx (applicant a)) eqn:Htx; cbn [negb]; [|apply Hskip; by left].
  case_decide; [apply Hskip; by right|].
  eapply returns_bind; [apply Hvec; auto|].
  { destruct He as [_ [(_ & -> & _) | (Hp & _)]]; [lia|].
    pose proof (vector_size_len t). lia. }
  intros [[oops r'] st1] (Hcl & HQ1 & Hlen & Hno).
  destruct oops; [cbn; split_and!; [constructor; [apply retx_clear | done] | done..]|].
  destruct (Hno eq_refl) as [He1 Hc].
  eapply returns_bind; [apply IH; auto;
    [by eapply retx_keys_ok | rewrite <- (Forall2_length Hcl); lia]|].
  intros [[oops l'] st'] (H1 & H2 & H3 & H4). cbn [returns vector_post].
  split_and!; auto; [constructor; [apply retx_clear | by eapply retx_trans]|].
  intros Ho. destruct (H4 Ho) as [H5 H6]. split; [done|].
  rewrite tcount_clear, tcount_cons, decide_True by done. lia.
Qed.

End Loop.

(** ** Domains and talkers *)

Lemma header_safe base eof buf0 buf n idx e :
  Zlen buf = eof -> 0 <= e_vp e -> base + 4 < e_vp e + 2 + idx <= eof - 2 -> 0 <= idx ->
  returns (emit_header buf n idx e) (fun e' =>
    msrp_emit_at base eof buf0 e' /\ e_vp e' = e_vp e + 2 + idx).
Proof.
  intros Hb Hv Hi H0. unfold emit_header. eapply returns_bind; [apply wr16_len; lia|].
  intros b Hl. cbn beta in Hl. cbn. split; [|done]. split; [cbn; lia|]. right. cbn. lia.
Qed.

Lemma emit_at_vp base eof buf0 e : msrp_emit_at base eof buf0 e -> base + 4 <= e_vp e.
Proof. intros [_ [(_ & -> & _) | (_ & H & _)]]; lia. Qed.

Lemma domain_vector_safe base eof buf0 :
  0 <= base ->
  vector_safe id (fun _ => True) (domain_vector eof) MSRP_DOMAIN_TYPE base eof buf0.
Proof.
  intros Hbase a r e He _ Hk Hroom _. unfold domain_vector, id in *.
  pose proof (emit_at_vp _ _ _ _ He) as Hvp. destruct He as [Hlen _].
  cbn [attrib_len] in Hroom.
  eapply returns_bind; [apply wr_list_len; cbn [length domain_first_value]; lia|].
  intros buf Hbuf. cbn beta in Hbuf.
  destruct (pdu_event _ _) as [ev|];
    [|cbn; split_and!; [apply retx_refl | done | lia | done]].
  eapply returns_bind; [apply wr_len; lia|]. intros b2 Hb2. cbn beta in Hb2.
  unfold MRPDU_ENDMARK_SZ. destruct (Z.ltb_spec (eof - 2) (e_vp e + 2 + (4 + 1)));
    [cbn; split_and!; [apply retx_refl | done | lia | done]|].
  eapply returns_bind; [apply (header_safe base eof buf0); lia|].
  intros e' [He' Hp]. cbn [returns]. split_and!; [apply retx_refl | done | apply He' |].
  intros _. split; [done|]. rewrite Hp. change (attr_weight MSRP_DOMAIN_TYPE) with 7. lia.
Qed.

(** Outcome of an inner loop: the vector bytes grow by at most one for each
    attribute that is marked as sent. *)
Definition talker_vec_post (ty : msrp_type) (vp eof : Z) (l : list msrp_attribute) (v : vec_st)
    (out : bool * list msrp_attribute * vec_st) : Prop :=
  let '(oops, l', v') := out in
  Forall2 retx l l' /\ length (v_buf v') = length (v_buf v)
  /\ v_idx v <= v_idx v' /\ 0 <= v_evt_idx v' <= 2
  /\ (oops = false -> vp + 2 + v_idx v' <= eof - 2 /\ tcount ty l' <= tcount ty l
                      /\ v_used v' + tcount ty l' <= v_used v + tcount ty l).

Lemma talker_vec_stop ty vp eof l v :
  vp + 2 + v_idx v <= eof - 2 -> 0 <= v_evt_idx v <= 2 ->
  talker_vec_post ty vp eof l v (false, l, v).
Proof. intros H1 H2. split_and!; auto using retx_refl; lia. Qed.

Lemma talker_vec_oops ty vp eof a l v v' :
  push_post v v' -> talker_vec_post ty vp eof (a :: l) v (true, clear_tx a :: l, v').
Proof.
  intros (H1 & H2 & H3 & H4). split_and!; try lia; try done.
  constructor; [apply retx_clear | apply retx_refl].
Qed.

Lemma talker_vec_step ty vp eof a l v v1 oops l' v' :
  type (key a) = ty -> app_tx (applicant a) = true -> push_post v v1 ->
  talker_vec_post ty vp eof l v1 (oops, l', v') ->
  talker_vec_post ty vp eof (a :: l) v (oops, clear_tx a :: l', v').
Proof.
  intros Hty Ht (H1 & H2 & H3 & H4) (P1 & P2 & P3 & P4 & P5).
  split_and!; try lia; [constructor; [apply retx_clear | done]|].
  intros Ho. destruct (P5 Ho) as (? & ? & ?).
  rewrite tcount_clear, tcount_cons, decide_True by done. lia.
Qed.

Lemma talker_vectorize_safe ty a vp eof l : forall id mac v,
  0 <= vp -> 0 <= v_idx v -> vp + 2 + v_idx v <= eof - 2 -> Zlen (v_buf v) = eof ->
  0 <= v_evt_idx v <= 2 ->
  returns (talker_vectorize ty a vp eof id mac l v) (talker_vec_post ty vp eof l v).
Proof.
  induction l as [|b l IH]; intros id mac v Hvp Hi0 Hfit Hb Hi; cbn [talker_vectorize].
  { by apply talker_vec_stop. }
  destruct (negb (bool_decide _)) eqn:Ety; [by apply talker_vec_stop|].
  apply negb_false_iff, bool_decide_eq_true in Ety.
  destruct (app_tx (applicant b)) eqn:Ht; cbn [negb]; [|by apply talker_vec_stop].
  destruct (negb _); [by apply talker_vec_stop|].
  destruct (pdu_event _ _) as [e|]; [|by apply talker_vec_oops, push_post_refl].
  eapply returns_bind; [apply vec_push_safe; [lia | done]|]. intros v1 Hp.
  unfold MRPDU_ENDMARK_SZ. destruct (Z.ltb_spec (eof - 2) (vp + 2 + v_idx v1));
    [by apply talker_vec_oops|].
  pose proof Hp as (P1 & P2 & P3 & P4).
  eapply returns_bind; [apply IH; lia|]. intros [[oops l'] v'] Hpost.
  by eapply talker_vec_step.
Qed.

Lemma vec_trailer_safe vp v :
  0 <= vp + 2 + v_idx v < Zlen (v_buf v) ->
  returns (vec_trailer vp v)
    (fun '(buf, idx) => length buf = length (v_buf v) /\ idx = v_used v).
Proof. apply trailer_safe. Qed.

Lemma talker_first_length ty t :
  is_talker (zero_key ty) = true -> talker_ok t ->
  Zlen (talker_first_value ty t) = attrib_len ty.
Proof.
  intros Hty [[H1 _] [H2 _] _ _ _ _ _ [H3 _] _]. unfold talker_first_value.
  rewrite !length_app, H1, H2. destruct ty; try done. cbn [length]. rewrite length_app, H3. done.
Qed.

Lemma v_used_idx v : v_idx v <= v_used v <= v_idx v + 1.
Proof. unfold v_used. destruct (0 <? _); lia. Qed.

Lemma talker_vector_safe ty base eof buf0 :
  is_talker (zero_key ty) = true -> 0 <= base ->
  vector_safe id (fun _ => True) (talker_vector ty eof) ty base eof buf0.
Proof.
  intros Hty Hbase a r e He _ Hk Hroom _. unfold talker_vector, id in *.
  pose proof (emit_at_vp _ _ _ _ He) as Hvp. destruct He as [Hlen _].
  assert (Hal : 0 < attrib_len ty /\ attr_weight ty = attrib_len ty + 3) by (by destruct ty).
  pose proof (talker_first_length ty _ Hty (sk_talk _ Hk)) as Hfl.
  eapply returns_bind; [apply wr_list_len; lia|]. intros buf Hbuf. cbn beta in Hbuf.
  destruct (pdu_event _ _) as [ev|];
    [|cbn; split_and!; [apply retx_refl | done | lia | done]].
  eapply returns_bind; [apply talker_vectorize_safe; cbn [v_buf v_idx v_evt_idx]; lia|].
  intros [[oops r'] v] (Hcl & Hl & Hi & Hev & Hno). cbn [v_buf v_idx] in *.
  destruct oops; [cbn; split_and!; [done | done | lia | done]|].
  destruct (Hno eq_refl) as (Hf & Hm & Hu). clear Hno. pose proof (v_used_idx v) as Hvi.
  eapply returns_bind; [apply vec_trailer_safe; lia|]. intros [buf2 idx] [Hb2 ->].
  unfold MRPDU_ENDMARK_SZ. destruct (Z.ltb_spec (eof - 2) (e_vp e + 2 + v_used v));
    [cbn; split_and!; [done | done | lia | done]|].
  eapply returns_bind; [apply (header_safe base eof buf0); lia|].
  intros e' [He' Hp]. cbn [returns]. split_and!; [done | done | apply He' |].
  intros _. split; [done|]. rewrite Hp.
  change (v_used (VecSt buf (ev, 0, 0) 1 (attrib_len ty) 1)) with (attrib_len ty + 1) in Hu.
  destruct Hal as [Ha1 ->]. nia.
Qed.

(** ** Whole messages *)

(** The empty LeaveAll, the end mark and AttributeListLength. *)
Lemma finish_safe t base eof buf0 flag e W :
  0 <= base -> base + attrib_len t + 8 <= eof ->
  buf0 !! Z.to_nat (base + 1) = Some (attrib_len t) ->
  msrp_emit_at base eof buf0 e -> 0 <= W -> e_vp e <= base + 4 + W ->
  returns (msrp_emit_finish base flag e) (fun '(bytes, buf) =>
    Zlen buf = eof /\ 0 <= bytes <= attrib_len t + 8 + W /\ base + bytes <= eof).
Proof.
  intros Hb Hroom Hlen0 [Hlen Hat] HW Hvp. unfold msrp_emit_finish, msrp_vectors_off.
  assert (Ht : 4 <= attrib_len t) by (by destruct t).
  apply returns_bind with (fun e' => Zlen (e_buf e') = eof
    /\ (e_vp e' = base + 4 \/ e_ptr e' = e_vp e' /\ base + 4 < e_vp e' <= eof - 2
        /\ e_vp e' <= base + 6 + attrib_len t + W)).
  - destruct (negb (e_found e) && flag) eqn:Ee; [|cbn; split; [done | lia]].
    apply andb_true_iff in Ee as [Hfn ->]. apply negb_true_iff in Hfn.
    destruct Hat as [(_ & Hv & _ & Hbe) | (_ & _ & ?)]; [|congruence].
    rewrite Hbe in Hlen. rewrite Hv, Hbe.
    unfold wr16. rewrite (wr_ok buf0) by lia. rewrite res_bind_ret.
    rewrite wr_ok by (rewrite length_insert; lia). rewrite res_bind_ret.
    rewrite (rd_lookup _ _ (attrib_len t)), res_bind_ret; [|lia|].
    + cbn [returns e_buf e_vp e_ptr]. rewrite !length_insert. split; [done|]. right. lia.
    + by rewrite !list_lookup_insert_ne by lia.
  - intros e' [Hl' Hp]. destruct (Z.eqb_spec (e_vp e') (base + 4));
      [cbn [returns]; split_and!; auto; lia|].
    eapply returns_bind; [apply wr_len; lia|]. intros b3 Hb3. cbn beta in Hb3.
    eapply returns_bind; [apply wr_len; lia|]. intros b4 Hb4. cbn beta in Hb4.
    eapply returns_bind; [apply wr_len; lia|]. intros b5 Hb5. cbn beta in Hb5.
    eapply returns_bind; [apply wr_len; lia|]. intros b6 Hb6. cbn beta in Hb6.
    cbn [returns]. lia.
Qed.

Lemma start_safe t msgbuf base eof :
  0 <= base -> base + attrib_len t + 8 <= eof -> Zlen msgbuf = eof ->
  returns (msrp_emit_start t msgbuf base eof) (fun o => exists buf, o = Some buf
    /\ Zlen buf = eof /\ buf !! Z.to_nat (base + 1) = Some (attrib_len t)
    /\ msrp_emit_at base eof buf (EmitSt buf base (base + 4) false false)).
Proof.
  intros Hb Hroom Hlen. unfold msrp_emit_start.
  assert (Hal : 4 <= attrib_len t <= 34 /\ vector_size t <= attrib_len t + 8) by (by destruct t).
  destruct (Z.ltb_spec (eof - vector_size t) base); [lia|].
  rewrite (wr_ok msgbuf) by lia. rewrite res_bind_ret.
  rewrite wr_ok by (rewrite length_insert; lia). rewrite res_bind_ret.
  set (buf := <[Z.to_nat (base + 1) := _]> _).
  assert (Hl : Zlen buf = eof) by (unfold buf; rewrite !length_insert; lia).
  exists buf. split; [done|]. split; [done|]. split.
  - unfold buf. rewrite list_lookup_insert_eq by (rewrite length_insert; lia).
    f_equal. apply u8_id. lia.
  - split; [done|]. left. done.
Qed.

Definition message_post (t : msrp_type) (base eof : Z) (l : list msrp_attribute)
    (out : Z * Z * list msrp_attribute * list Z) : Prop :=
  let '(rc, bytes, l', buf) := out in
  Forall2 retx l l' /\ Zlen buf = eof
  /\ (rc = -1 \/ rc = 0 /\ 0 <= bytes <= attrib_len t + 8 + attr_weight t * ncount t l
                /\ base + bytes <= eof).

Lemma weight_bound t l l' e e' :
  e_vp e' + attr_weight t * tcount t l' <= e_vp e + attr_weight t * tcount t l ->
  e_vp e' <= e_vp e + attr_weight t * ncount t l.
Proof.
  intros H. pose proof (attr_weight_pos t). pose proof (tcount_pos t l').
  pose proof (tcount_ncount t l). nia.
Qed.

Lemma domainvectors_safe msgbuf base eof lva flag l :
  0 <= base -> base + attrib_len MSRP_DOMAIN_TYPE + 8 <= eof -> Zlen msgbuf = eof ->
  Forall skey_ok (key <$> l) ->
  returns (msrp_emit_domainvectors msgbuf base eof lva flag l)
    (message_post MSRP_DOMAIN_TYPE base eof l).
Proof.
  intros Hb Hroom Hlen Hk. unfold msrp_emit_domainvectors.
  eapply returns_bind; [by apply start_safe|]. intros o (buf & -> & Hbl & Hal & Hat).
  eapply returns_bind.
  { apply (msrp_emit_loop_safe id (fun _ => True) _ _ base eof buf); auto;
      by apply domain_vector_safe. }
  intros [[oops l'] e] (Hcl & _ & Hl' & Hno). unfold id in *.
  destruct oops; [cbn; auto|]. destruct (Hno eq_refl) as [He Hc]. apply weight_bound in Hc.
  eapply returns_bind.
  { eapply (finish_safe MSRP_DOMAIN_TYPE); [done | done | exact Hal | exact He | | exact Hc].
    pose proof (attr_weight_pos MSRP_DOMAIN_TYPE). unfold ncount. lia. }
  intros [bytes buf'] (H1 & H2 & H3). cbn [returns message_post].
  split_and!; auto.
Qed.

Lemma talkervectors_safe msgbuf base eof lva flag ty l :
  is_talker (zero_key ty) = true ->
  0 <= base -> base + attrib_len ty + 8 <= eof -> Zlen msgbuf = eof ->
  Forall skey_ok (key <$> l) ->
  returns (msrp_emit_talkervectors msgbuf base eof lva flag ty l) (message_post ty base eof l).
Proof.
  intros Hty Hb Hroom Hlen Hk. unfold msrp_emit_talkervectors.
  eapply returns_bind; [by apply start_safe|]. intros o (buf & -> & Hbl & Hal & Hat).
  eapply returns_bind.
  { apply (msrp_emit_loop_safe id (fun _ => True) _ _ base eof buf); auto;
      by apply talker_vector_safe. }
  intros [[oops l'] e] (Hcl & _ & Hl' & Hno). unfold id in *.
  destruct oops; [cbn; auto|]. destruct (Hno eq_refl) as [He Hc]. apply weight_bound in Hc.
  eapply returns_bind.
  { eapply (finish_safe ty); [done | done | exact Hal | exact He | | exact Hc].
    pose proof (attr_weight_pos ty). unfold ncount. nia. }
  intros [bytes buf'] (H1 & H2 & H3). cbn [returns message_post].
  split_and!; auto.
Qed.

(** ** Listeners *)

Lemma emit_4packed_safe eof declared : forall buf pos,
  0 <= pos <= eof - 1 -> Zlen buf = eof ->
  returns (emit_4packed eof declared buf pos) (fun '(oops, buf', pos') =>
    Zlen buf' = eof /\ (oops = false -> pos <= pos' <= pos + Zlen declared)).
Proof.
  unfold MRPDU_ENDMARK_SZ.
  induction declared as [declared IH] using (induction_ltof1 _ (@length Z)).
  intros buf pos Hp Hb. unfold ltof in IH.
  assert (Hlast : forall x, returns (buf' ← wr buf pos x; Ret (false, buf', pos + 1))
    (fun '(oops, buf', pos') => Zlen buf' = eof /\ (oops = false -> pos <= pos' <= pos + 1))).
  { intros x. eapply returns_bind; [apply wr_len; lia|]. intros b Hl. cbn in Hl |- *. lia. }
  destruct declared as [|a [|b [|c [|d rest]]]]; cbn [emit_4packed].
  1: { cbn. lia. }
  1-3: eapply returns_mono; [apply Hlast|]; intros [[oops buf'] pos'] [H1 H2];
    (split; [done|]); intros Ho; specialize (H2 Ho); cbn [length]; lia.
  unfold MRPDU_ENDMARK_SZ. destruct (Z.ltb_spec (eof - 2) pos); [done|].
  eapply returns_bind; [apply wr_len; lia|]. intros b' Hl. cbn beta in Hl.
  destruct (Z.ltb_spec (eof - 3) (pos + 1)); [cbn; split; [lia | done]|].
  eapply returns_mono; [apply (IH rest); [cbn; lia | lia | lia]|].
  intros [[oops buf'] pos'] [H1 H2]. split; [done|]. intros Ho. specialize (H2 Ho).
  cbn [length]. lia.
Qed.

Section Listen.
Context {os : OS}.

Lemma listen_declare_safe sub declared sz w :
  Zlen declared < sz ->
  returns (listen_declare sub declared sz w) (fun '(o, w') => w_extends w w' /\
    forall d sz', o = Some (d, sz') -> Zlen d = Zlen declared + 1 /\ Zlen d < sz').
Proof.
  intros Hs. unfold listen_declare, malloc.
  destruct (Z.eqb_spec sz (Zlen declared + 1)).
  - destruct (os_malloc _); cbn [negb]; [|cbn; split; [apply w_extends_tick | done]].
    destruct (Z.ltb_spec (Zlen declared) (sz + 64)); [|lia]. cbn.
    split; [apply w_extends_tick|]. intros d sz' [= <- <-]. rewrite length_app. cbn. lia.
  - cbn [negb]. destruct (Z.ltb_spec (Zlen declared) sz); [|lia]. cbn. split; [done|].
    intros d sz' [= <- <-]. rewrite length_app. cbn. lia.
Qed.

(** The bytes of a listener vector: three- and four-packed. *)
Definition lv_used (v : listen_vec) : Z := v_used (lv_vec v) + Zlen (lv_declare v).

Definition listen_vec_post (vp eof : Z) (l : list msrp_attribute) (v : listen_vec)
    (out : bool * list msrp_attribute * listen_vec) : Prop :=
  let '(oops, l', v') := out in
  Forall2 retx l l' /\ length (v_buf (lv_vec v')) = length (v_buf (lv_vec v))
  /\ v_idx (lv_vec v) <= v_idx (lv_vec v') /\ 0 <= v_evt_idx (lv_vec v') <= 2
  /\ 0 < lv_sz v' /\ w_extends (lv_w v) (lv_w v')
  /\ (oops = false -> vp + 2 + v_idx (lv_vec v') <= eof - 2
        /\ tcount MSRP_LISTENER_TYPE l' <= tcount MSRP_LISTENER_TYPE l
        /\ lv_used v' + 2 * tcount MSRP_LISTENER_TYPE l'
           <= lv_used v + 2 * tcount MSRP_LISTENER_TYPE l).

Lemma listen_vec_stop vp eof l v :
  vp + 2 + v_idx (lv_vec v) <= eof - 2 -> 0 <= v_evt_idx (lv_vec v) <= 2 -> 0 < lv_sz v ->
  listen_vec_post vp eof l v (false, l, v).
Proof. intros H1 H2 H3. split_and!; auto using retx_refl; try lia. reflexivity. Qed.

Lemma listen_vec_oops vp eof a l v v' :
  push_post (lv_vec v) (lv_vec v') -> 0 < lv_sz v' -> w_extends (lv_w v) (lv_w v') ->
  listen_vec_post vp eof (a :: l) v (true, clear_tx a :: l, v').
Proof.
  intros (H1 & H2 & H3 & H4) H5 H6. split_and!; try lia; try done.
  constructor; [apply retx_clear | apply retx_refl].
Qed.

Lemma listen_vectorize_safe vp eof l : forall id v,
  0 <= vp -> 0 <= v_idx (lv_vec v) -> vp + 2 + v_idx (lv_vec v) <= eof - 2 ->
  Zlen (v_buf (lv_vec v)) = eof -> 0 <= v_evt_idx (lv_vec v) <= 2 ->
  Zlen (lv_declare v) < lv_sz v ->
  returns (listen_vectorize vp eof id l v) (listen_vec_post vp eof l v).
Proof.
  induction l as [|b l IH]; intros id v Hvp Hi0 Hfit Hb Hi Hd; cbn [listen_vectorize].
  { apply listen_vec_stop; auto; lia. }
  assert (Hstop : returns (Ret (false, b :: l, v)) (listen_vec_post vp eof (b :: l) v))
    by (apply listen_vec_stop; auto; lia).
  destruct (negb (bool_decide _)) eqn:Ety; [done|].
  apply negb_false_iff, bool_decide_eq_true in Ety.
  destruct (app_tx (applicant b)) eqn:Ht; cbn [negb]; [|done].
  destruct (negb _); [done|].
  destruct (pdu_event _ _) as [e|].
  2: { apply listen_vec_oops; [by apply push_post_refl | lia | reflexivity]. }
  eapply returns_bind; [by apply listen_declare_safe|]. intros [[[d sz]|] w] [Hw Ho].
  2: { apply listen_vec_oops; [by apply push_post_refl | cbn; lia | done]. }
  destruct (Ho d sz eq_refl) as [Hdl Hds].
  eapply returns_bind; [apply vec_push_safe; [lia | done]|]. intros v1 Hp.
  unfold MRPDU_ENDMARK_SZ. destruct (Z.ltb_spec (eof - 2) (vp + 2 + v_idx v1)).
  { apply listen_vec_oops; [done | cbn; lia | done]. }
  pose proof Hp as (P1 & P2 & P3 & P4).
  eapply returns_bind; [apply IH; cbn [lv_vec lv_declare lv_sz]; lia|].
  intros [[oops l'] v'] (Q1 & Q2 & Q3 & Q4 & Q5 & Q6 & Q7). cbn [lv_vec lv_w] in *.
  cbn [returns listen_vec_post].
  split_and!; try lia; [constructor; [apply retx_clear | done] | by etransitivity|].
  intros Hf. destruct (Q7 Hf) as (R1 & R2 & R3).
  rewrite tcount_clear, tcount_cons, decide_True by done. unfold lv_used in *.
  cbn [lv_vec lv_declare] in R3. lia.
Qed.

Definition listen_inv (w0 : world) (st : listen_st) : Prop :=
  0 < ls_sz st /\ w_extends w0 (ls_w st).

Lemma listen_vector_safe w0 base eof buf0 :
  0 <= base ->
  vector_safe ls_emit (listen_inv w0) (listen_vector eof) MSRP_LISTENER_TYPE base eof buf0.
Proof.
  intros Hbase a r st He [Hsz Hw] Hk Hroom _. unfold listen_vector. set (e := ls_emit st) in *.
  pose proof (emit_at_vp _ _ _ _ He) as Hvp. destruct He as [Hlen _].
  destruct (tk_id _ (sk_talk _ Hk)) as [Hid _]. cbn [attrib_len] in Hroom.
  eapply returns_bind; [apply wr_list_len; lia|]. intros buf Hbuf. cbn beta in Hbuf.
  assert (Hoops : forall r' b sz w, Forall2 retx r r' -> Zlen b = eof -> 0 < sz ->
    w_extends w0 w -> returns (Ret (true, r', ListenSt (EmitSt b (e_ptr e) (e_vp e) (e_lva e) true) sz w))
    (fun '(oops, r', st') => Forall2 retx r r' /\ listen_inv w0 st' /\
       Zlen (e_buf (ls_emit st')) = eof /\ (oops = false -> msrp_emit_at base eof buf0 (ls_emit st')
          /\ e_vp (ls_emit st') + attr_weight MSRP_LISTENER_TYPE * tcount MSRP_LISTENER_TYPE r'
             <= e_vp e + attr_weight MSRP_LISTENER_TYPE
                + attr_weight MSRP_LISTENER_TYPE * tcount MSRP_LISTENER_TYPE r))).
  { intros r' b sz w Hr Hb Hs Hw'. cbn. by split_and!. }
  destruct (pdu_event _ _) as [ev|]; [|apply Hoops; auto using retx_refl; lia].
  eapply returns_bind; [apply (listen_declare_safe _ []); cbn; lia|].
  intros [[[d sz]|] w] [Hw1 Ho]; [|apply Hoops; auto using retx_refl; [lia | by etransitivity]].
  destruct (Ho d sz eq_refl) as [Hd Hds]. cbn [length] in Hd.
  eapply returns_bind.
  { apply listen_vectorize_safe; cbn [lv_vec lv_declare lv_sz v_buf v_idx v_evt_idx]; lia. }
  intros [[oops r'] v] (Hcl & Hl & Hi & Hev & Hsv & Hwv & Hno). cbn [lv_vec lv_w v_buf v_idx] in *.
  assert (Hwe : w_extends w0 (lv_w v)) by (do 2 (etransitivity; [eassumption|]); done).
  destruct oops; [apply Hoops; auto; lia|].
  destruct (Hno eq_refl) as (Hf & Hm & Hu). clear Hno. pose proof (v_used_idx (lv_vec v)) as Hvi.
  eapply returns_bind; [apply vec_trailer_safe; lia|]. intros [buf2 idx] [Hb2 ->].
  eapply returns_bind; [apply emit_4packed_safe; lia|].
  intros [[oops buf3] pos] [Hb3 Hpos]. unfold MRPDU_ENDMARK_SZ.
  destruct oops; cbn [orb]; [apply Hoops; auto|]. specialize (Hpos eq_refl).
  destruct (Z.ltb_spec (eof - 2) pos); [apply Hoops; auto|].
  eapply returns_bind; [apply (header_safe base eof buf0); lia|].
  intros e' [He' Hp]. cbn [returns]. split_and!; [done | done | apply He' |].
  intros _. split; [done|]. cbn [ls_emit]. rewrite Hp.
  unfold lv_used in Hu. cbn [lv_vec lv_declare] in Hu.
  change (v_used (VecSt buf (ev, 0, 0) 1 8 1)) with 9 in Hu.
  change (attr_weight MSRP_LISTENER_TYPE) with 12. lia.
Qed.

Lemma listenvectors_safe msgbuf base eof lva flag l w :
  0 <= base -> base + attrib_len MSRP_LISTENER_TYPE + 8 <= eof -> Zlen msgbuf = eof ->
  Forall skey_ok (key <$> l) ->
  returns (msrp_emit_listenvectors msgbuf base eof lva flag l w)
    (fun '(rc, bytes, l', buf, w') =>
       message_post MSRP_LISTENER_TYPE base eof l (rc, bytes, l', buf) /\ w_extends w w').
Proof.
  intros Hb Hroom Hlen Hk. unfold msrp_emit_listenvectors, malloc.
  eapply returns_bind; [by apply start_safe|]. intros o (buf & -> & Hbl & Hal & Hat).
  pose proof (w_extends_tick w) as Hw1.
  destruct (os_malloc _); cbn [negb]; [|cbn; auto using retx_refl].
  set (l1 := mark_listener <$> l).
  assert (Hl1 : Forall2 retx l l1) by (unfold l1; clear; induction l; constructor; auto using retx_mark).
  eapply returns_bind.
  { apply (msrp_emit_loop_safe ls_emit (listen_inv (step_tick w)) _ _ base eof buf); auto;
      [by apply listen_vector_safe | by split | by eapply retx_keys_ok]. }
  intros [[oops l'] st] (Hcl & [_ Hw] & Hl' & Hno).
  assert (Hr : Forall2 retx l l') by (by eapply retx_trans).
  assert (Hwe : w_extends w (ls_w st)) by (by etransitivity).
  destruct oops; [cbn; auto|]. destruct (Hno eq_refl) as [He Hc]. apply weight_bound in Hc.
  rewrite (ncount_keys _ l l1) in Hc by (by apply retx_keys).
  eapply returns_bind.
  { eapply (finish_safe MSRP_LISTENER_TYPE); [done | done | exact Hal | exact He | | exact Hc].
    pose proof (attr_weight_pos MSRP_LISTENER_TYPE). unfold ncount. lia. }
  intros [bytes buf'] (H1 & H2 & H3). cbn [returns message_post]. split_and!; auto.
Qed.

(** ** The frame *)

(** Attributes a frame has room for, whatever their types. *)
Definition MSRP_MAX_ATTRS : nat := 49.

Lemma attr_weight_max t : attr_weight t <= 37 /\ attrib_len t <= 34.
Proof. by destruct t. Qed.

Definition messages_post (l : list msrp_attribute) (w : world)
    (out : option (Z * list Z) * list msrp_attribute * world) : Prop :=
  let '(o, l', w') := out in
  Forall2 retx l l' /\ w_extends w w' /\
  forall ptr buf, o = Some (ptr, buf) -> 0 <= ptr /\ Zlen buf = MAX_FRAME_SIZE.

Lemma messages_safe buf lva flag l w :
  Zlen buf = MAX_FRAME_SIZE -> Forall skey_ok (key <$> l) -> (length l <= MSRP_MAX_ATTRS)%nat ->
  returns (msrp_emit_messages buf MAX_FRAME_SIZE lva flag l w) (messages_post l w).
Proof.
  unfold MSRP_MAX_ATTRS, MAX_FRAME_SIZE. intros Hb Hk Hn. pose proof (ncount_sum l) as Hs.
  assert (Hc : forall t, 0 <= ncount t l) by (unfold ncount; lia).
  pose proof (Hc MSRP_TALKER_ADV_TYPE). pose proof (Hc MSRP_TALKER_FAILED_TYPE).
  pose proof (Hc MSRP_LISTENER_TYPE). pose proof (Hc MSRP_DOMAIN_TYPE).
  assert (Hout : forall l' w', Forall2 retx l l' -> w_extends w w' ->
    messages_post l w (None, l', w')) by (intros l' w' Hr Hw; by split_and!).
  unfold msrp_emit_messages, MSG_LIST_OFF, MRPDU_ENDMARK_SZ.
  eapply returns_bind; [apply talkervectors_safe; auto; cbn [attrib_len]; lia|].
  intros [[[rc1 len1] l1] b1] (R1 & B1 & C1). change (attr_weight _) with 28 in C1.
  cbn [attrib_len] in C1.
  destruct (Z.eqb_spec rc1 (-1)); [by apply Hout|]. destruct C1 as [|C1]; [done|].
  assert (K1 : Forall skey_ok (key <$> l1)) by (by eapply retx_keys_ok).
  pose proof (fun t => ncount_keys t l l1 (retx_keys _ _ R1)) as N1.
  eapply returns_bind; [apply talkervectors_safe; auto; cbn [attrib_len]; lia|].
  intros [[[rc2 len2] l2] b2] (R2 & B2 & C2). rewrite N1 in C2.
  change (attr_weight _) with 37 in C2. cbn [attrib_len] in C2.
  assert (R2' : Forall2 retx l l2) by (by eapply retx_trans).
  destruct (Z.eqb_spec rc2 (-1)); [by apply Hout|]. destruct C2 as [|C2]; [done|].
  destruct (Z.leb_spec (2000 - 2) (15 + len1 + len2)); [by apply Hout|].
  assert (K2 : Forall skey_ok (key <$> l2)) by (by eapply retx_keys_ok).
  pose proof (fun t => ncount_keys t l l2 (retx_keys _ _ R2')) as N2.
  eapply returns_bind; [apply listenvectors_safe; auto; cbn [attrib_len]; lia|].
  intros [[[[rc3 len3] l3] b3] w3] [(R3 & B3 & C3) W3]. rewrite N2 in C3.
  change (attr_weight _) with 12 in C3. cbn [attrib_len] in C3.
  assert (R3' : Forall2 retx l l3) by (by eapply retx_trans).
  destruct (Z.eqb_spec rc3 (-1)); [by apply Hout|]. destruct C3 as [|C3]; [done|].
  assert (K3 : Forall skey_ok (key <$> l3)) by (by eapply retx_keys_ok).
  eapply returns_bind; [apply domainvectors_safe; auto; cbn [attrib_len]; lia|].
  intros [[[rc4 len4] l4] b4] (R4 & B4 & C4).
  assert (R4' : Forall2 retx l l4) by (by eapply retx_trans).
  destruct (Z.eqb_spec rc4 (-1)); [by apply Hout|]. destruct C4 as [|C4]; [done|].
  cbn [returns]. split_and!; auto. unfold MAX_FRAME_SIZE. intros ptr buf' [= <- <-]. lia.
Qed.

Lemma msrp_header_safe station :
  length station = 6%nat ->
  returns (msrp_frame_header station) (fun b => Zlen b = MAX_FRAME_SIZE).
Proof.
  intros Hs. unfold msrp_frame_header, MAX_FRAME_SIZE, ETH_HDR_SZ.
  eapply returns_bind; [apply wr16_len; rewrite ?length_replicate; lia|].
  intros b1 H1. cbn beta in H1. rewrite length_replicate in H1.
  eapply returns_bind; [apply wr_list_len; cbn [length MSRP_ADDR]; lia|].
  intros b2 H2. cbn beta in H2.
  eapply returns_bind; [apply wr_list_len; lia|]. intros b3 H3. cbn beta in H3.
  eapply returns_mono; [apply wr_len; lia|]. cbn. lia.
Qed.

Lemma msrp_tx_keeps (s : msrp_ast) l d w :
  Forall2 retx (attrib_list (db s)) l -> d = mrp_db (db s) \/ d = lva_sent (mrp_db (db s)) ->
  w_extends (wld s) w -> tx_keeps s (put_list l (put_mst (Mst d w) s)).
Proof.
  intros Hcl Hd Hw. split_and!; cbn; auto using retx_kept, retx_states;
    try (by destruct Hd as [-> | ->]).
Qed.

Lemma msrp_txpdu_keeps sock s :
  Forall skey_ok (key <$> attrib_list (db s)) -> station_ok (wld s) ->
  (length (attrib_list (db s)) <= MSRP_MAX_ATTRS)%nat ->
  returns (msrp_txpdu sock s) (fun '(_, s') => tx_keeps s s').
Proof.
  intros Hk [Hsl _] Hmax. unfold msrp_txpdu, malloc. pose proof (w_extends_tick (wld s)) as Hw1.
  set (s0 := put_mst _ s).
  assert (Hs0 : s0 = put_list (attrib_list (db s)) (put_mst (Mst (mrp_db (db s))
    (step_tick (wld s))) s)) by done.
  destruct (os_malloc _); cbn [negb].
  2: { cbn [returns]. rewrite Hs0. apply msrp_tx_keeps; auto using retx_refl. }
  eapply returns_bind; [by apply msrp_header_safe|]. intros buf Hbuf. cbn beta in Hbuf.
  unfold s0. cbn [put_mst db mrp_db attrib_list m_db send_empty_LeaveAll_flag].
  rewrite lva_sent_if.
  eapply returns_bind; [by apply messages_safe|]. intros [[o l] w] (Hr & Hw & Ho).
  assert (Hgoal : forall w', w_extends w w' ->
    tx_keeps s (put_list l (put_mst (Mst (lva_sent (mrp_db (db s))) w') s))).
  { intros w' Hx. apply msrp_tx_keeps; auto. do 2 (etransitivity; [eassumption|]). done. }
  assert (Hid : w_extends w w) by reflexivity.
  destruct o as [[ptr buf']|]; [|by apply (Hgoal w)].
  destruct (Ho ptr buf' eq_refl) as [Hp Hb']. unfold MSG_LIST_OFF, MRPDU_ENDMARK_SZ.
  destruct (Z.eqb_spec ptr 15); [by apply (Hgoal w)|].
  destruct (Z.ltb_spec ptr (MAX_FRAME_SIZE - 2)); cbn [negb]; [|by apply (Hgoal w)].
  eapply returns_bind; [apply wr_len; lia|]. intros b3 Hb3. cbn beta in Hb3.
  eapply returns_bind; [apply wr_len; lia|]. intros b4 _.
  cbn [mrpd_send]. destruct (_ <=? 0); exact (Hgoal _ (w_extends_log _ _)).
Qed.

End Listen.
