(* ===== verification/MsrpWire.v ===== *)
(** * What [msrp_txpdu] writes

    A specification of the frame an attribute list calls for, and the proof
    that the emission functions produce it: the vectors of consecutive streams,
    their three- and four-packed events, and the four messages. *)

From S2P Require Import Prelude Os Mrp Attr AttrProps AppProps Mvrp MvrpEmit Mmrp MmrpList.
From S2P Require Import Msrp MsrpOps MsrpList MsrpRecv MsrpEmit.
From Stdlib Require Import ZArith Lia.
From stdpp Require Import base tactics list strings option.
Open Scope Z_scope.

(** ** The vectors an attribute list calls for *)

Definition next_talker (t : msrpdu_talker_fail) : msrpdu_talker_fail :=
  Talker (msrp_increment_streamid (StreamID t)) (mmrp_increment_macaddr (Dest_Addr t))
    (Vlan_ID t) (MaxFrameSize t) (MaxIntervalFrames t) (PriorityAndRank t)
    (AccumulatedLatency t) (BridgeID t) (FailureCode t).

(** Does [k'] follow [k] in a vector?  Domains have vectors of their own. *)
Definition continues (t : msrp_type) (k k' : msrp_key) : bool :=
  match t with
  | MSRP_DOMAIN_TYPE => false
  | MSRP_LISTENER_TYPE => bool_decide (StreamID (talk_listen k')
                            = msrp_increment_streamid (StreamID (talk_listen k)))
  | _ => bool_decide (next_talker (talk_listen k) = talk_listen k')
  end.

Definition sends (t : msrp_type) (a : msrp_attribute) : bool :=
  bool_decide (type (key a) = t) && app_tx (applicant a).

Definition follows (t : msrp_type) (o : option msrp_key) (a : msrp_attribute) : bool :=
  match o with Some k => continues t k (key a) | None => false end.

(** The attributes that extend the vector of [o], and the vectors behind it:
    an attribute to be sent that does not extend a vector starts one, unless
    its message is optional. *)
Fixpoint groups (t : msrp_type) (o : option msrp_key) (l : list msrp_attribute)
  : list msrp_attribute * list (list msrp_attribute) :=
  match l with
  | [] => ([], [])
  | a :: r =>
      if sends t a then
        if follows t o a then
          let '(run, gs) := groups t (Some (key a)) r in (a :: run, gs)
        else if decide (app_encode (applicant a) = MRP_ENCODE_OPTIONAL)
        then ([], (groups t None r).2)
        else let '(run, gs) := groups t (Some (key a)) r in ([], (a :: run) :: gs)
      else ([], (groups t None r).2)
  end.

Definition vectors_of (t : msrp_type) (l : list msrp_attribute) : list (list msrp_attribute) :=
  (groups t None l).2.

(** The list behind an attribute whose vector has been written. *)
Fixpoint clear_run (t : msrp_type) (k : msrp_key) (l : list msrp_attribute)
  : list msrp_attribute :=
  match l with
  | [] => []
  | a :: r => if sends t a && continues t k (key a)
              then clear_tx a :: clear_run t (key a) r else l
  end.

(** The list once a message of type [t] has been written. *)
Definition sent (t : msrp_type) (a : msrp_attribute) : msrp_attribute :=
  if decide (type (key a) = t) then clear_tx a else a.

Lemma clear_run_groups t l : forall k,
  groups t None (clear_run t k l) = ([], (groups t (Some k) l).2).
Proof.
  induction l as [|a r IH]; intros k; [done|]. cbn [clear_run groups follows].
  destruct (sends t a) eqn:Hs; cbn [andb].
  - destruct (continues t k (key a)) eqn:Hc; cbn [groups follows].
    + replace (sends t (clear_tx a)) with false by (unfold sends; cbn; by rewrite andb_false_r).
      rewrite IH. by destruct (groups t (Some (key a)) r).
    + rewrite Hs. case_decide; [done|]. by destruct (groups t (Some (key a)) r).
  - cbn [groups]. by rewrite Hs.
Qed.

Lemma clear_run_keys t l : forall k, key <$> clear_run t k l = key <$> l.
Proof.
  induction l as [|a r IH]; intros k; [done|]. cbn [clear_run].
  destruct (_ && _); [|done]. cbn. by rewrite IH.
Qed.

Lemma clear_run_sent t l : forall k, sent t <$> clear_run t k l = sent t <$> l.
Proof.
  induction l as [|a r IH]; intros k; [done|]. cbn [clear_run].
  destruct (sends t a && _) eqn:Hs; [|done]. apply andb_true_iff in Hs as [Hs _].
  apply andb_true_iff in Hs as [Ht%bool_decide_eq_true _].
  rewrite !fmap_cons, IH. unfold sent. cbn. by rewrite !decide_True by done.
Qed.

Lemma groups_tcount t l : forall o,
  Zlen (groups t o l).1 <= tcount t l /\ (length (groups t o l).1 <= length l)%nat.
Proof.
  induction l as [|a r IH]; intros o; [done|]. cbn [groups]. rewrite tcount_cons.
  destruct (IH (Some (key a))) as [H1 H2]. cbn [length].
  pose proof (tcount_pos t r).
  destruct (sends t a) eqn:Hs.
  - apply andb_true_iff in Hs as [Ht%bool_decide_eq_true Htx].
    rewrite (decide_True (P := type (key a) = t /\ app_tx (applicant a) = true)) by done.
    destruct (follows t o a); [|case_decide; [cbn; lia|]];
      destruct (groups t (Some (key a)) r); cbn [fst length] in *; lia.
  - cbn [fst length]. case_decide; lia.
Qed.

Lemma groups_none t l : (groups t None l).1 = [].
Proof.
  destruct l as [|a l]; [done|]. cbn [groups follows]. destruct (sends t a); [|done].
  case_decide; [done|]. by destruct (groups t (Some (key a)) l).
Qed.

(** Every attribute to be sent whose message is not optional is in a vector. *)
Lemma groups_cover t a l : forall o,
  a ∈ l -> sends t a = true -> app_encode (applicant a) <> MRP_ENCODE_OPTIONAL ->
  a ∈ (groups t o l).1 \/ exists g, g ∈ (groups t o l).2 /\ a ∈ g.
Proof.
  induction l as [|b l IH]; intros o Hin Hs He; [by apply elem_of_nil in Hin|].
  cbn [groups]. apply elem_of_cons in Hin as [<-|Hin].
  - rewrite Hs. destruct (follows t o a); [|rewrite decide_False by done];
      destruct (groups t (Some (key a)) l) as [run gs]; cbn [fst snd].
    + left. by apply elem_of_cons; left.
    + right. exists (a :: run). split; by apply elem_of_cons; left.
  - destruct (IH None Hin Hs He) as [Hn|Hn].
    { exfalso. revert Hn. generalize (groups_none t l). intros ->. apply not_elem_of_nil. }
    destruct (IH (Some (key b)) Hin Hs He) as [Hr|Hr];
      destruct (sends t b); [destruct (follows t o b); [|case_decide]|
        |destruct (follows t o b); [|case_decide]|];
      try (right; exact Hn); destruct (groups t (Some (key b)) l) as [run gs]; cbn [fst snd] in *.
    + left. by apply elem_of_cons; right.
    + right. exists (b :: run). split; [by apply elem_of_cons; left | by apply elem_of_cons; right].
    + by right.
    + right. destruct Hr as (g & H1 & H2). exists g. split; [by apply elem_of_cons; right | done].
Qed.

(** ** Their bytes *)

Definition substate_ok (v : Z) : Prop := 0 <= v < 4.

(** The bytes of a list of substates. *)
Fixpoint pack4 (l : list Z) : list Z :=
  match l with
  | a :: b :: c :: d :: rest => MRPDU_4PACK_ENCODE a b c d :: pack4 rest
  | [a; b; c] => [MRPDU_4PACK_ENCODE a b c 0]
  | [a; b] => [MRPDU_4PACK_ENCODE a b 0 0]
  | [a] => [MRPDU_4PACK_ENCODE a 0 0 0]
  | [] => []
  end.

Definition first_bytes (k : msrp_key) : list Z :=
  u8 <$> match type k with
         | MSRP_DOMAIN_TYPE => domain_first_value (domain k)
         | MSRP_LISTENER_TYPE => StreamID (talk_listen k)
         | t => talker_first_value t (talk_listen k)
         end.

Definition substates (g : list msrp_attribute) : list Z := (fun a => substate (key a)) <$> g.

(** The packed events of a vector of type [t]. *)
Definition events_bytes (t : msrp_type) (g : list msrp_attribute) : list Z :=
  pack_events (attr_pdu_event <$> g)
  ++ match t with MSRP_LISTENER_TYPE => pack4 (substates g) | _ => [] end.

Definition svector (t : msrp_type) (lva : bool) (g : list msrp_attribute) : list Z :=
  let hdr := Zlen g + (if lva then 8192 else 0) in
  [hdr / 256; hdr mod 256]
  ++ match g with a :: _ => first_bytes (key a) | [] => [] end ++ events_bytes t g.

Fixpoint svectors (t : msrp_type) (lva : bool) (gs : list (list msrp_attribute)) : list Z :=
  match gs with
  | [] => []
  | g :: gs => svector t lva g ++ svectors t false gs
  end.

(** The list of a message: its vectors, or the empty LeaveAll, whose FirstValue
    is whatever the frame held ([junk]). *)
Definition slist_bytes (t : msrp_type) (lva : bool) (junk : list Z)
    (gs : list (list msrp_attribute)) : list Z :=
  match gs with
  | [] => [32; 0] ++ junk
  | _ => svectors t lva gs
  end.

Definition smessage (t : msrp_type) (lva flag : bool) (junk : list Z)
    (gs : list (list msrp_attribute)) : list Z :=
  let body := slist_bytes t lva junk gs in
  let len := Zlen body + 2 in
  match gs, flag with
  | [], false => []
  | _, _ => [msrp_type_code t; attrib_len t; len / 256; len mod 256] ++ body ++ [0; 0]
  end.

(** ** Four-packed substates *)

Lemma decode_4pack a b c d :
  substate_ok a -> substate_ok b -> substate_ok c -> substate_ok d ->
  0 <= MRPDU_4PACK_ENCODE a b c d < 256
  /\ vect_4pack_decode (MRPDU_4PACK_ENCODE a b c d) = [a; b; c; d].
Proof.
  unfold substate_ok, MRPDU_4PACK_ENCODE, vect_4pack_decode. intros Ha Hb Hc Hd.
  split; [lia|]. rewrite !Z.shiftr_div_pow2, !Z.shiftl_mul_pow2 by lia.
  repeat f_equal; zdm.
Qed.

(** Induction in steps of four. *)
Lemma list_four_ind (P : list Z -> Prop) :
  P [] -> (forall a, P [a]) -> (forall a b, P [a; b]) -> (forall a b c, P [a; b; c]) ->
  (forall a b c d l, P l -> P (a :: b :: c :: d :: l)) -> forall l, P l.
Proof.
  intros H0 H1 H2 H3 H4 l. induction l as [l IH] using (induction_ltof1 _ (@length Z)).
  destruct l as [|a [|b [|c [|d l]]]]; auto. apply H4, IH. unfold ltof. cbn. lia.
Qed.

Lemma pack4_ok l :
  Forall substate_ok l -> bytes_ok (pack4 l) /\ Zlen (pack4 l) = num_4pack_bytes (Zlen l).
Proof.
  assert (H0 : substate_ok 0) by (unfold substate_ok; lia).
  induction l as [|a|a b|a b c|a b c d l IH] using list_four_ind; intros Hl;
    repeat match goal with H : Forall substate_ok (_ :: _) |- _ =>
      apply Forall_cons_iff in H as [? ?] end; cbn [pack4].
  - by split; [constructor|].
  - split; [|done]. constructor; [by apply decode_4pack | constructor].
  - split; [|done]. constructor; [by apply decode_4pack | constructor].
  - split; [|done]. constructor; [by apply decode_4pack | constructor].
  - destruct IH as [IH1 IH2]; [done|]. split; [constructor; [by apply decode_4pack | done]|].
    unfold num_4pack_bytes in *. cbn [length]. rewrite !Nat2Z.inj_succ, IH2.
    set (n := Zlen l). clearbody n. replace (Z.succ (Z.succ (Z.succ (Z.succ n)))) with (n + 1 * 4)
      by lia. rewrite Z.div_add by lia. repeat btest; lia.
Qed.

(** The substates of one byte. *)
Lemma substate_bytes l : Forall substate_ok l -> bytes_ok l.
Proof. intros H. eapply Forall_impl; [|apply H]. unfold substate_ok. intros; lia. Qed.

(** [emit_4packed], when it does not give up, writes these bytes. *)
Lemma emit_4packed_bytes eof l : forall pre old rest buf' pos',
  Forall substate_ok l -> length old = length (pack4 l) ->
  emit_4packed eof l (pre ++ old ++ rest) (Zlen pre) = Ret (false, buf', pos') ->
  buf' = pre ++ pack4 l ++ rest /\ pos' = Zlen pre + Zlen (pack4 l).
Proof.
  assert (H0 : substate_ok 0) by (unfold substate_ok; lia).
  induction l as [|a|a b|a b c|a b c d l IH] using list_four_ind;
    intros pre old rest buf' pos' Hl Hold; cbn [emit_4packed pack4] in *;
    repeat match goal with H : Forall substate_ok (_ :: _) |- _ =>
      apply Forall_cons_iff in H as [? ?] end;
    destruct old as [|o old]; try discriminate Hold; cbn [app].
  { intros [= <- <-]. cbn. by rewrite Z.add_0_r. }
  1-3: destruct old; [|discriminate Hold]; rewrite wr_app, res_bind_ret by done;
    intros [= <- <-]; rewrite u8_id by (by apply decode_4pack); by cbn.
  destruct (_ <? _); [done|]. rewrite wr_app, res_bind_ret by done.
  destruct (_ <? _); [done|]. rewrite u8_id by (by apply decode_4pack).
  rewrite cons_middle, app_assoc.
  replace (Zlen pre + 1) with (Zlen (pre ++ [MRPDU_4PACK_ENCODE a b c d]))
    by (rewrite length_app; cbn; lia).
  intros E. apply IH in E as [-> ->]; [|done | by injection Hold].
  rewrite <- app_assoc, length_app. cbn. split; [done | lia].
Qed.

(** ** The inner loops *)

Definition run_of (t : msrp_type) (k : msrp_key) (l : list msrp_attribute)
  : list msrp_attribute := (groups t (Some k) l).1.

Lemma run_stop t k b r :
  sends t b && continues t k (key b) = false ->
  run_of t k (b :: r) = [] /\ clear_run t k (b :: r) = b :: r.
Proof.
  intros H. unfold run_of. cbn [groups clear_run follows]. rewrite H. split; [|done].
  destruct (sends t b); [|done]. cbn in H. rewrite H. case_decide; [done|].
  by destruct (groups t (Some (key b)) r).
Qed.

Lemma run_go t k b r :
  sends t b && continues t k (key b) = true ->
  run_of t k (b :: r) = b :: run_of t (key b) r
  /\ clear_run t k (b :: r) = clear_tx b :: clear_run t (key b) r.
Proof.
  intros H. unfold run_of. cbn [groups clear_run follows]. rewrite H. split; [|done].
  apply andb_true_iff in H as [-> ->]. by destruct (groups t (Some (key b)) r).
Qed.

(** The message of [a] is one that PDUs have. *)
Definition sendable (a : msrp_attribute) : Prop :=
  pdu_event (app_sndmsg (applicant a)) (reg_mrp_state (registrar a)) <> None.

Abbreviation codes g := (attr_pdu_event <$> g).

(** Outcome of an inner loop: unless it gave up, the run is cleared and its
    events are in the vector; it gives up only on a message that cannot be
    sent. *)
Definition run_post {V} (t : msrp_type) (k : msrp_key) (l : list msrp_attribute) (inv : V -> Prop)
    (holds : list msrp_attribute -> V -> Prop) (out : bool * list msrp_attribute * V) : Prop :=
  let '(oops, l', v') := out in
  inv v' /\ (oops = false -> l' = clear_run t k l /\ holds (run_of t k l) v')
  /\ (Forall sendable (run_of t k l) -> oops = false).

Lemma run_post_stop {V} t k b r inv (holds : list msrp_attribute -> V -> Prop) v :
  sends t b && continues t k (key b) = false -> inv v -> holds [] v ->
  run_post t k (b :: r) inv holds (false, b :: r, v).
Proof.
  intros H Hi Hv. destruct (run_stop t k b r H) as [E1 E2]. unfold run_post. by rewrite E1, E2.
Qed.

Lemma run_post_oops {V} t k b r inv (holds : list msrp_attribute -> V -> Prop) l' v :
  sends t b && continues t k (key b) = true ->
  pdu_event (app_sndmsg (applicant b)) (reg_mrp_state (registrar b)) = None -> inv v ->
  run_post t k (b :: r) inv holds (true, l', v).
Proof.
  intros H Hn Hi. destruct (run_go t k b r H) as [E1 _]. unfold run_post. rewrite E1.
  split_and!; [done | done|]. intros Hs. apply Forall_cons_iff in Hs as [Hs _]. by destruct Hs.
Qed.

Lemma run_post_step {V} t k b r inv (holds : list msrp_attribute -> V -> Prop) oops r' v :
  sends t b && continues t k (key b) = true ->
  run_post t (key b) r inv (fun run => holds (b :: run)) (oops, r', v) ->
  run_post t k (b :: r) inv holds (oops, clear_tx b :: r', v).
Proof.
  intros H (H0 & H1 & H2). destruct (run_go t k b r H) as [E1 E2]. unfold run_post. rewrite E1, E2.
  split_and!; [done|..].
  - intros Ho. destruct (H1 Ho) as [-> Hv]. done.
  - intros Hs. apply Forall_cons_iff in Hs as [_ Hs]. auto.
Qed.

Lemma pdu_event_code (a : msrp_attribute) e :
  pdu_event (app_sndmsg (applicant a)) (reg_mrp_state (registrar a)) = Some e ->
  e = attr_pdu_event a.
Proof. unfold attr_pdu_event. by intros ->. Qed.

(** The talkers of a vector differ in stream and destination only. *)
Definition talker_like (t : msrpdu_talker_fail) (k : msrp_key) : Prop :=
  talk_listen k = Talker (StreamID (talk_listen k)) (Dest_Addr (talk_listen k)) (Vlan_ID t)
    (MaxFrameSize t) (MaxIntervalFrames t) (PriorityAndRank t) (AccumulatedLatency t)
    (BridgeID t) (FailureCode t).

Lemma talker_like_refl k : talker_like (talk_listen k) k.
Proof. unfold talker_like. by destruct (talk_listen k). Qed.

Lemma talker_like_next t k k' :
  talker_like t k -> next_talker (talk_listen k) = talk_listen k' -> talker_like t k'.
Proof. unfold talker_like. intros H <-. rewrite H. done. Qed.

Lemma continues_talker ty k k' :
  is_talker (zero_key ty) = true ->
  continues ty k k' = bool_decide (next_talker (talk_listen k) = talk_listen k').
Proof. by destruct ty. Qed.

Lemma vectorize_continues ty a k b :
  is_talker (zero_key ty) = true -> talker_like (talk_listen (key a)) k ->
  vectorize_talker a (msrp_increment_streamid (StreamID (talk_listen k)))
    (mmrp_increment_macaddr (Dest_Addr (talk_listen k))) b
  = continues ty k (key b).
Proof.
  intros Hty H. unfold vectorize_talker.
  replace (Talker _ _ _ _ _ _ _ _ _) with (next_talker (talk_listen k))
    by (rewrite H; done).
  symmetry. by apply continues_talker.
Qed.

Lemma talker_vectorize_spec ty a vp eof pre rest l : forall k v es,
  is_talker (zero_key ty) = true -> eof = Zlen pre + Zlen rest ->
  talker_like (talk_listen (key a)) k -> vec_inv pre rest vp es v ->
  Zlen pre + Zlen es + tcount ty l + 4 <= eof ->
  returns (talker_vectorize ty a vp eof (StreamID (talk_listen k)) (Dest_Addr (talk_listen k)) l v)
    (run_post ty k l (fun _ => True) (fun run => vec_inv pre rest vp (es ++ codes run))).
Proof.
  induction l as [|b r IH]; intros k v es Hty Heof Hk Hv Hroom; cbn [talker_vectorize].
  { split_and!; [done | | done]. intros _. split; [done|]. by rewrite app_nil_r. }
  assert (Hstop : sends ty b && continues ty k (key b) = false ->
    returns (Ret (false, b :: r, v))
      (run_post ty k (b :: r) (fun _ => True) (fun run => vec_inv pre rest vp (es ++ codes run)))).
  { intros H. apply run_post_stop; [done | done|]. by rewrite app_nil_r. }
  rewrite (vectorize_continues ty a k b) by done.
  destruct (bool_decide (type (key b) = ty)) eqn:Et; cbn [negb];
    [|apply Hstop; unfold sends; by rewrite Et].
  destruct (app_tx (applicant b)) eqn:Etx; cbn [negb];
    [|apply Hstop; unfold sends; by rewrite Et, Etx].
  destruct (continues ty k (key b)) eqn:Ec; cbn [negb]; [|apply Hstop, andb_false_r].
  assert (Hgo : sends ty b && continues ty k (key b) = true)
    by (unfold sends; by rewrite Et, Etx, Ec).
  destruct (pdu_event _ _) as [e|] eqn:Ee; [|by apply run_post_oops].
  apply pdu_event_code in Ee as ->. apply bool_decide_eq_true in Et.
  rewrite tcount_cons, decide_True in Hroom by done.
  pose proof (tcount_pos ty r).
  pose proof (pack_lengths es) as Hpl.
  eapply returns_bind; [apply vec_push_spec; [done | lia | apply attr_pdu_event_range]|].
  intros v1 Hv1. pose proof Hv1 as (_ & _ & _ & _ & Hx & _).
  pose proof (pack_lengths (es ++ [attr_pdu_event b])) as Hpl1. rewrite length_app in Hpl1.
  unfold MRPDU_ENDMARK_SZ. cbn [length] in Hpl1.
  destruct (Z.ltb_spec (eof - 2) (vp + 2 + v_idx v1)); [lia|].
  assert (Hn : next_talker (talk_listen k) = talk_listen (key b))
    by (rewrite continues_talker in Ec by done; by apply bool_decide_eq_true in Ec).
  pose proof (IH (key b) v1 (es ++ [attr_pdu_event b]) Hty Heof
    (talker_like_next _ _ _ Hk Hn) Hv1) as HIH.
  rewrite <- Hn in HIH. cbn [next_talker StreamID Dest_Addr] in HIH.
  eapply returns_bind; [apply HIH; rewrite length_app; cbn [length]; lia|].
  intros [[oops r'] v'] Hp. apply run_post_step; [done|].
  destruct Hp as (_ & H1 & H2). split_and!; [done | | done]. intros Ho. destruct (H1 Ho) as [H3 H4].
  split; [done|]. by rewrite <- app_assoc in H4.
Qed.

Section Listen.
Context {os : OS}.

(** The array of substates starts with 64 places and is not grown for the
    listeners of one frame. *)
Lemma listen_declare_fits sub declared w :
  Zlen declared + 1 < 64 ->
  listen_declare sub declared 64 w = Ret (Some (declared ++ [sub], 64), w).
Proof.
  intros H. unfold listen_declare. rewrite (proj2 (Z.eqb_neq _ _)) by lia. cbn [negb].
  by rewrite (proj2 (Z.ltb_lt _ _)) by lia.
Qed.

Definition listen_holds pre rest vp es decl w (run : list msrp_attribute) (v : listen_vec)
  : Prop :=
  vec_inv pre rest vp (es ++ codes run) (lv_vec v)
  /\ lv_declare v = decl ++ substates run /\ lv_sz v = 64 /\ lv_w v = w.

Definition listen_calm (w : world) (v : listen_vec) : Prop := lv_sz v = 64 /\ lv_w v = w.

Lemma listener_continues k b :
  id_ok (StreamID (talk_listen k)) -> skey_ok (key b) ->
  (memcmp (StreamID (talk_listen (key b)))
     (msrp_increment_streamid (StreamID (talk_listen k))) =? 0)
  = continues MSRP_LISTENER_TYPE k (key b).
Proof.
  intros Hk Hb. destruct (increment_streamid_ok _ Hk) as [Hl _].
  destruct (tk_id _ (sk_talk _ Hb)) as [Hl' _]. cbn [continues].
  case_bool_decide as H; [rewrite H, memcmp_refl; done|].
  apply Z.eqb_neq. intros E. apply H, memcmp_eq; [congruence | done].
Qed.

Lemma listen_vectorize_spec vp eof pre rest w l : forall k v es decl,
  eof = Zlen pre + Zlen rest -> id_ok (StreamID (talk_listen k)) ->
  Forall skey_ok (key <$> l) -> listen_holds pre rest vp es decl w [] v ->
  Zlen pre + Zlen es + tcount MSRP_LISTENER_TYPE l + 4 <= eof -> Zlen decl + Zlen l < 64 ->
  returns (listen_vectorize vp eof (StreamID (talk_listen k)) l v)
    (run_post MSRP_LISTENER_TYPE k l (listen_calm w) (listen_holds pre rest vp es decl w)).
Proof.
  induction l as [|b r IH]; intros k v es decl Heof Hk Hok Hv Hroom Hdecl;
    cbn [listen_vectorize]; [split_and!; try done; by apply Hv|].
  assert (Hcalm : listen_calm w v) by (split; apply Hv).
  cbn in Hok. apply Forall_cons_iff in Hok as [Hb Hok]. cbn [length] in Hdecl.
  assert (Hstop : sends MSRP_LISTENER_TYPE b && continues MSRP_LISTENER_TYPE k (key b) = false ->
    returns (Ret (false, b :: r, v)) (run_post MSRP_LISTENER_TYPE k (b :: r) (listen_calm w)
      (listen_holds pre rest vp es decl w))) by (intros H; by apply run_post_stop).
  rewrite listener_continues by done.
  destruct (bool_decide (type (key b) = _)) eqn:Et; cbn [negb];
    [|apply Hstop; unfold sends; by rewrite Et].
  destruct (app_tx (applicant b)) eqn:Etx; cbn [negb];
    [|apply Hstop; unfold sends; by rewrite Et, Etx].
  destruct (continues _ k (key b)) eqn:Ec; cbn [negb]; [|apply Hstop, andb_false_r].
  assert (Hgo : sends MSRP_LISTENER_TYPE b && continues MSRP_LISTENER_TYPE k (key b) = true)
    by (unfold sends; by rewrite Et, Etx, Ec).
  destruct (pdu_event _ _) as [e|] eqn:Ee; [|by apply run_post_oops].
  apply pdu_event_code in Ee as ->. apply bool_decide_eq_true in Et.
  destruct Hv as (Hv & Hd & Hsz & Hw). cbn in Hv, Hd. rewrite app_nil_r in Hv, Hd.
  rewrite Hd, Hsz, Hw, listen_declare_fits, res_bind_ret by lia.
  rewrite tcount_cons, decide_True in Hroom by done.
  pose proof (tcount_pos MSRP_LISTENER_TYPE r).
  pose proof (pack_lengths es) as Hpl.
  eapply returns_bind; [apply vec_push_spec; [done | lia | apply attr_pdu_event_range]|].
  intros v1 Hv1. pose proof Hv1 as (_ & _ & _ & _ & Hx & _).
  pose proof (pack_lengths (es ++ [attr_pdu_event b])) as Hpl1. rewrite length_app in Hpl1.
  unfold MRPDU_ENDMARK_SZ. cbn [length] in Hpl1.
  destruct (Z.ltb_spec (eof - 2) (vp + 2 + v_idx v1)); [lia|].
  cbn [continues] in Ec. apply bool_decide_eq_true in Ec. rewrite <- Ec.
  eapply returns_bind.
  { apply (IH (key b) _ (es ++ [attr_pdu_event b]) (decl ++ [substate (key b)])); auto.
    - apply (tk_id _ (sk_talk _ Hb)).
    - split_and!; cbn; rewrite ?app_nil_r; auto.
    - rewrite length_app. cbn [length]. lia.
    - rewrite length_app. cbn [length]. lia. }
  intros [[oops r'] v'] (Hc & H1 & H2). apply run_post_step; [done|].
  split_and!; [done | | done]. intros Ho. destruct (H1 Ho) as [H3 (H4 & H5 & H6 & H7)]. split; [done|].
  rewrite <- app_assoc in H4, H5. split_and!; done.
Qed.

(** ** One vector *)

(** The frame holds the bytes [pre] up to the vector pointer. *)
Definition emit_at (pre : list Z) (eof : Z) (e : emit_st) : Prop :=
  exists rest, e_buf e = pre ++ rest /\ Zlen pre = e_vp e /\ Zlen pre + Zlen rest = eof.

(** FirstValue is written behind the two bytes of the header. *)
Lemma first_value_spec pre eof e fv :
  emit_at pre eof e -> e_vp e + 2 + Zlen fv <= eof ->
  exists h0 h1 rest, wr_list (e_buf e) (e_vp e + 2) fv
      = Ret ((pre ++ [h0; h1] ++ (u8 <$> fv)) ++ rest)
    /\ Zlen (pre ++ [h0; h1] ++ (u8 <$> fv)) + Zlen rest = eof.
Proof.
  intros (rest & -> & Hp & Hl) Hroom. destruct rest as [|h0 [|h1 rest]]; cbn [length] in Hl; [lia..|].
  exists h0, h1, (drop (length fv) rest).
  rewrite <- (take_drop (length fv) rest) at 1. rewrite (cons_middle h0), (cons_middle h1), !app_assoc.
  rewrite <- (app_assoc _ (take _ _)), wr_list_u8; [|rewrite !length_app; cbn; lia|rewrite length_take; lia].
  split; [by rewrite <- !app_assoc|]. rewrite !length_app, length_fmap, length_drop.
  cbn [length]. lia.
Qed.

Lemma header_spec pre h0 h1 body tl n idx e :
  e_vp e = Zlen pre -> idx = Zlen body -> 0 <= n < 8192 ->
  let hdr := n + (if e_lva e then 8192 else 0) in
  let p := Zlen pre + 2 + Zlen body in
  emit_header (pre ++ [h0; h1] ++ body ++ tl) n idx e
  = Ret (EmitSt (pre ++ [hdr / 256; hdr mod 256] ++ body ++ tl) p p false true).
Proof.
  intros Hv -> Hn hdr p. unfold emit_header. rewrite numvalues_id by done.
  replace (if e_lva e then Z.lor n MRPDU_VECT_LVA_FLAG else n) with hdr
    by (unfold hdr; destruct (e_lva e); rewrite ?lva_flag_or; lia).
  rewrite Hv. cbn [app].
  rewrite wr16_app, res_bind_ret by (try done; unfold hdr; destruct (e_lva e); lia). done.
Qed.

(** The outcome of a vector for [a] and the attributes [r] behind it. *)
Section Vector.
Context {S : Type} (pos : S -> emit_st) (Q : S -> Prop) (t : msrp_type) (eof : Z).

Definition vector_writes (pre : list Z) (a : msrp_attribute) (r : list msrp_attribute) (st : S)
    (out : bool * list msrp_attribute * S) : Prop :=
  let '(oops, r', st') := out in
  let g := a :: run_of t (key a) r in
  (oops = false -> r' = clear_run t (key a) r
     /\ emit_at (pre ++ svector t (e_lva (pos st)) g) eof (pos st')
     /\ e_ptr (pos st') = e_vp (pos st') /\ e_lva (pos st') = false
     /\ e_found (pos st') = true)
  /\ (Forall sendable g -> oops = false) /\ Q st'.

(** A vector starts when there is room for all that may be in it. *)
Definition vector_room (pre : list Z) (a : msrp_attribute) (r : list msrp_attribute) : Prop :=
  Zlen pre + attr_weight t * (1 + tcount t r) + 4 <= eof
  /\ (length r < MSRP_MAX_ATTRS)%nat
  /\ Forall skey_ok (key <$> a :: r) /\ type (key a) = t
  /\ (t = MSRP_LISTENER_TYPE -> Forall substate_ok (substates (a :: run_of t (key a) r))).

Definition vector_spec (vector : msrp_attribute -> list msrp_attribute -> S
                                 -> res (bool * list msrp_attribute * S)) : Prop :=
  forall pre a r st, emit_at pre eof (pos st) -> Q st -> vector_room pre a r ->
  returns (vector a r st) (vector_writes pre a r st).

End Vector.

(** A message that cannot be sent. *)
Lemma vector_gives_up {S} (pos : S -> emit_st) Q t eof pre a r st l' st' :
  pdu_event (app_sndmsg (applicant a)) (reg_mrp_state (registrar a)) = None -> Q st' ->
  vector_writes pos Q t eof pre a r st (true, l', st').
Proof.
  intros H HQ. split_and!; [done | | done]. intros Hs. apply Forall_cons_iff in Hs as [Hs _]. by destruct Hs.
Qed.

(** The header of [svector] in front of its body. *)
Lemma emit_at_svector t (lva : bool) pre (g : list msrp_attribute) tl p eof :
  g <> [] -> let body := match g with a :: _ => first_bytes (key a) | [] => [] end
                         ++ events_bytes t g in
  let hdr := Zlen g + (if lva then 8192 else 0) in
  p = Zlen pre + 2 + Zlen body -> p + Zlen tl = eof ->
  emit_at (pre ++ svector t lva g) eof
    (EmitSt (pre ++ [hdr / 256; hdr mod 256] ++ body ++ tl) p p false true).
Proof.
  intros Hg body hdr Hp Hl. exists tl. unfold svector. fold body hdr.
  cbn [e_buf e_vp]. rewrite !length_app. cbn [length app].
  split_and!; [by rewrite <- app_assoc | lia | lia].
Qed.

Lemma first_bytes_len k : skey_ok k -> Zlen (first_bytes k) = attrib_len (type k).
Proof.
  intros [Ht _ _]. unfold first_bytes. rewrite length_fmap. destruct (type k) eqn:E.
  - by apply talker_first_length.
  - by apply talker_first_length.
  - by rewrite (proj1 (tk_id _ Ht)).
  - done.
Qed.

(** FirstValue of a well-formed key, and where it ends. *)
Lemma vector_open pre eof e k fv :
  emit_at pre eof e -> skey_ok k -> first_bytes k = u8 <$> fv ->
  e_vp e + 2 + attrib_len (type k) <= eof ->
  exists h0 h1 rest, let P := pre ++ [h0; h1] ++ first_bytes k in
    wr_list (e_buf e) (e_vp e + 2) fv = Ret (P ++ rest)
    /\ Zlen P = e_vp e + 2 + attrib_len (type k) /\ Zlen P + Zlen rest = eof.
Proof.
  intros He Hk Hfb Hroom. pose proof (first_bytes_len _ Hk) as Hfl.
  pose proof He as (_ & _ & Hvp & _).
  destruct (first_value_spec pre eof e fv He) as (h0 & h1 & rest & Hw & Hl).
  { rewrite Hfb, length_fmap in Hfl. lia. }
  exists h0, h1, rest. cbn zeta. rewrite Hfb in *. split_and!; [done | | done].
  rewrite !length_app. cbn [length]. lia.
Qed.

Lemma domain_vector_spec eof :
  vector_spec id (fun _ => True) MSRP_DOMAIN_TYPE eof (domain_vector eof).
Proof.
  intros pre a r e He _ (Hroom & _ & Hok & Ht & _). unfold domain_vector, id in *.
  cbn in Hok. apply Forall_cons_iff in Hok as [Hka _].
  change (attr_weight MSRP_DOMAIN_TYPE) with 7 in Hroom.
  pose proof (tcount_pos MSRP_DOMAIN_TYPE r).
  assert (Hrun : run_of MSRP_DOMAIN_TYPE (key a) r = []
    /\ clear_run MSRP_DOMAIN_TYPE (key a) r = r)
    by (destruct r as [|b r]; [done | apply run_stop, andb_false_r]).
  destruct Hrun as [Hrun Hclr].
  pose proof He as (_ & _ & Hvp & _). pose proof (first_bytes_len _ Hka) as Hfl.
  destruct (vector_open pre eof e (key a) (domain_first_value (domain (key a))) He Hka)
    as (h0 & h1 & rest & -> & HP & Hl); rewrite ?Ht in *; cbn [attrib_len] in *;
    [unfold first_bytes; by rewrite Ht | lia|]. rewrite res_bind_ret.
  destruct (pdu_event _ _) as [ev|] eqn:Ee; [|by apply vector_gives_up].
  apply pdu_event_code in Ee as ->.
  destruct rest as [|x rest]; cbn [length] in Hl; [lia|].
  rewrite wr_app by lia. rewrite res_bind_ret.
  unfold MRPDU_ENDMARK_SZ. destruct (Z.ltb_spec (eof - 2) (e_vp e + 2 + (4 + 1))); [lia|].
  set (c := u8 _). rewrite (cons_middle c), <- !app_assoc, (app_assoc (first_bytes _) [c]).
  assert (Hc : c = MRPDU_3PACK_ENCODE (attr_pdu_event a) 0 0)
    by (apply u8_id, pack_code_range; try lia; apply attr_pdu_event_range).
  rewrite header_spec by (try rewrite length_app; cbn [length]; lia || done).
  rewrite res_bind_ret. split_and!; [|by rewrite Hrun | done].
  intros _. rewrite Hrun, Hclr. split; [done|]. split; [|done].
  rewrite Hc. apply (emit_at_svector MSRP_DOMAIN_TYPE (e_lva e) pre [a] rest); [done | |].
  - cbn. rewrite !length_app. done.
  - rewrite !length_app in HP, Hl. rewrite length_app. cbn [length] in *. lia.
Qed.

(** The vector before the inner loop. *)
Lemma vec_inv_start P rest vp ev idx :
  vp + 2 + idx = Zlen P -> 0 <= ev <= 5 ->
  vec_inv P rest vp [ev] (VecSt (P ++ rest) (ev, 0, 0) 1 idx 1).
Proof.
  intros Hi He. split_and!; cbn [v_buf v_evt v_evt_idx v_idx v_num pack_full pack_rest pad3
    length app drop]; try done; [lia | lia | by constructor].
Qed.

Lemma pack_events_le es : Zlen (pack_events es) <= Zlen es.
Proof.
  rewrite pack_events_lengths. pose proof (pack_lengths es). pose proof (pack_rest_short es).
  case_decide as Hd; [lia|]. destruct (pack_rest es); [done|]. cbn [length] in *. lia.
Qed.

(** Given up only when there is no room. *)
Lemma emit_4packed_fits eof l : forall buf pos buf' pos',
  pos + Zlen (pack4 l) + 3 <= eof -> emit_4packed eof l buf pos <> Ret (true, buf', pos').
Proof.
  induction l as [|a|a b|a b c|a b c d l IH] using list_four_ind;
    intros buf pos buf' pos' Hroom; cbn [emit_4packed pack4 length] in *; [done|..].
  1-3: by destruct (wr _ _ _).
  unfold MRPDU_ENDMARK_SZ. destruct (Z.ltb_spec (eof - 2) pos); [lia|].
  destruct (wr _ _ _); [|done]. rewrite res_bind_ret.
  destruct (Z.ltb_spec (eof - 3) (pos + 1)); [lia|]. apply IH. lia.
Qed.

Lemma pack4_le l : Zlen (pack4 l) <= Zlen l.
Proof. induction l using list_four_ind; cbn [pack4 length] in *; lia. Qed.

Lemma run_tcount t k l : Zlen (run_of t k l) <= tcount t l /\ (length (run_of t k l) <= length l)%nat.
Proof. apply groups_tcount. Qed.

Lemma talker_vector_spec ty eof :
  is_talker (zero_key ty) = true ->
  vector_spec id (fun _ => True) ty eof (talker_vector ty eof).
Proof.
  intros Hty pre a r e He _ (Hroom & Hmax & Hok & Ht & _). unfold talker_vector, id in *.
  cbn in Hok. apply Forall_cons_iff in Hok as [Hka _].
  assert (Hal : 0 < attrib_len ty /\ attr_weight ty = attrib_len ty + 3) by (by destruct ty).
  pose proof (tcount_pos ty r) as Hn.
  destruct Hal as [Hal Hw]. rewrite Hw in Hroom. pose proof He as (_ & _ & Hvp & _).
  pose proof (first_bytes_len _ Hka) as Hfl. rewrite Ht in Hfl.
  destruct (vector_open pre eof e (key a) (talker_first_value ty (talk_listen (key a))) He Hka)
    as (h0 & h1 & rest & -> & HP & Hl); rewrite ?Ht in *;
    [unfold first_bytes; rewrite Ht; by destruct ty | nia|]. rewrite res_bind_ret.
  set (P := pre ++ [h0; h1] ++ first_bytes (key a)) in *.
  destruct (pdu_event _ _) as [ev|] eqn:Ee; [|by apply vector_gives_up].
  apply pdu_event_code in Ee as ->.
  eapply returns_bind.
  { apply (talker_vectorize_spec ty a _ eof P rest r (key a) _ [attr_pdu_event a]); auto.
    - apply talker_like_refl.
    - apply vec_inv_start; [lia | apply attr_pdu_event_range].
    - cbn [length]. nia. }
  intros [[oops r'] v] (_ & H1 & H2). destruct oops.
  { split_and!; [done | | done]. intros Hs. apply Forall_cons_iff in Hs as [_ Hs].
    by specialize (H2 Hs). }
  destruct (H1 eq_refl) as [-> Hv]. clear H1 H2.
  destruct (run_tcount ty (key a) r) as [Hrn Hrl]. set (run := run_of ty (key a) r) in *.
  change ([attr_pdu_event a] ++ codes run) with (codes (a :: run)) in Hv.
  set (es := codes (a :: run)) in *.
  assert (Hes : Zlen es = 1 + Zlen run) by (unfold es; rewrite length_fmap; cbn; lia).
  pose proof (pack_events_le es) as Hpe. pose proof (pack_lengths es) as Hpl.
  pose proof Hv as (_ & _ & _ & _ & _ & Hnum & _).
  eapply returns_bind; [apply (MvrpEmit.vec_trailer P rest); [done | nia]|].
  intros [buf idx] [-> Hidx]. unfold MRPDU_ENDMARK_SZ.
  destruct (Z.ltb_spec (eof - 2) (e_vp e + 2 + idx)); [nia|].
  unfold MSRP_MAX_ATTRS in Hmax. rewrite Hnum, u16_id by lia.
  unfold P. rewrite <- !app_assoc, (app_assoc (first_bytes (key a))).
  rewrite header_spec by (try rewrite length_app; lia). rewrite res_bind_ret.
  split_and!; [|done..]. intros _. split; [done|]. split; [|done]. fold run.
  rewrite Hes. replace (1 + Zlen run) with (Zlen (a :: run)) by (cbn; lia).
  assert (Hev : events_bytes ty (a :: run) = pack_events es)
    by (unfold events_bytes; destruct ty; try done; apply app_nil_r).
  rewrite <- Hev. apply (emit_at_svector ty (e_lva e) pre (a :: run)); [done | done |].
  rewrite Hev, length_app, length_drop. nia.
Qed.

(** The bytes of the substates, over the bytes [rest]. *)
Lemma emit_4packed_spec eof l P rest :
  Forall substate_ok l -> Zlen P + Zlen rest = eof -> Zlen P + Zlen (pack4 l) + 3 <= eof ->
  emit_4packed eof l (P ++ rest) (Zlen P)
  = Ret (false, P ++ pack4 l ++ drop (length (pack4 l)) rest, Zlen P + Zlen (pack4 l)).
Proof.
  intros Hl He Hroom. rewrite <- (take_drop (length (pack4 l)) rest) at 1.
  assert (Ho : length (take (length (pack4 l)) rest) = length (pack4 l))
    by (rewrite length_take; lia).
  destruct (emit_4packed eof l _ _) as [[[oops buf] p]|] eqn:E.
  - destruct oops; [exfalso; eapply emit_4packed_fits; [|exact E]; lia|].
    apply emit_4packed_bytes in E as [-> ->]; done.
  - pose proof (emit_4packed_safe eof l (P ++ take (length (pack4 l)) rest
      ++ drop (length (pack4 l)) rest) (Zlen P)) as H. rewrite E in H.
    exfalso. apply H; [lia|]. rewrite !length_app, Ho, length_drop. lia.
Qed.

Definition listen_quiet (w : world) (st : listen_st) : Prop := ls_sz st = 64 /\ ls_w st = w.

Lemma listen_vector_spec w eof :
  vector_spec ls_emit (listen_quiet w) MSRP_LISTENER_TYPE eof (listen_vector eof).
Proof.
  intros pre a r st He [Hsz Hw] (Hroom & Hmax & Hok & Ht & Hsub). specialize (Hsub eq_refl).
  unfold listen_vector. set (e := ls_emit st) in *. pose proof He as (_ & _ & Hvp & _).
  cbn in Hok. apply Forall_cons_iff in Hok as [Hka Hok]. pose proof (first_bytes_len _ Hka) as Hfl.
  change (attr_weight MSRP_LISTENER_TYPE) with 12 in Hroom. unfold MSRP_MAX_ATTRS in Hmax.
  pose proof (tcount_pos MSRP_LISTENER_TYPE r) as Hn.
  destruct (vector_open pre eof e (key a) (StreamID (talk_listen (key a))) He Hka)
    as (h0 & h1 & rest & -> & HP & Hl); rewrite ?Ht in *; cbn [attrib_len] in *;
    [unfold first_bytes; by rewrite Ht | lia|]. rewrite res_bind_ret.
  set (P := pre ++ [h0; h1] ++ first_bytes (key a)) in *.
  destruct (pdu_event _ _) as [ev|] eqn:Ee; [|by apply vector_gives_up].
  apply pdu_event_code in Ee as ->.
  rewrite Hsz, Hw, listen_declare_fits, res_bind_ret by done. cbn [app].
  eapply returns_bind.
  { apply (listen_vectorize_spec _ eof P rest w r (key a) _ [attr_pdu_event a]
      [substate (key a)]); auto; try (cbn [length]; lia); [apply (tk_id _ (sk_talk _ Hka))|].
    split_and!; [|done..]. apply vec_inv_start; [lia | apply attr_pdu_event_range]. }
  intros [[oops r'] v] (H0 & H1 & H2). destruct oops.
  { split_and!; [done | | by destruct H0]. intros Hs. apply Forall_cons_iff in Hs as [_ Hs].
    by specialize (H2 Hs). }
  destruct (H1 eq_refl) as [-> (Hv & Hd & Hs64 & Hw')]. clear H1 H2.
  destruct (run_tcount MSRP_LISTENER_TYPE (key a) r) as [Hrn Hrl].
  set (run := run_of MSRP_LISTENER_TYPE (key a) r) in *.
  change ([attr_pdu_event a] ++ codes run) with (codes (a :: run)) in Hv.
  change ([substate (key a)] ++ substates run) with (substates (a :: run)) in Hd.
  assert (Hes : Zlen (codes (a :: run)) = 1 + Zlen run) by (rewrite length_fmap; cbn; lia).
  assert (Hss : Zlen (substates (a :: run)) = 1 + Zlen run)
    by (unfold substates; rewrite length_fmap; cbn; lia).
  set (es := codes (a :: run)) in *. pose proof (pack4_le (substates (a :: run))) as Hp4.
  pose proof (pack_events_le es) as Hpe. pose proof (pack_lengths es) as Hpl.
  pose proof Hv as (_ & _ & _ & _ & _ & Hnum & _).
  eapply returns_bind; [apply (MvrpEmit.vec_trailer P rest); [done | lia]|].
  intros [buf idx] [-> Hidx]. rewrite Hidx, Hd, (app_assoc P).
  assert (HPe : Zlen (P ++ pack_events es) = Zlen P + Zlen (pack_events es))
    by (rewrite length_app; lia).
  rewrite <- HPe, emit_4packed_spec, res_bind_ret by (rewrite ?length_drop; done || lia).
  cbn [orb]. unfold MRPDU_ENDMARK_SZ.
  destruct (Z.ltb_spec (eof - 2) (Zlen (P ++ pack_events es) + Zlen (pack4 (substates (a :: run)))));
    [lia|]. rewrite drop_drop, HPe, HP.
  assert (Hev : events_bytes MSRP_LISTENER_TYPE (a :: run)
    = pack_events es ++ pack4 (substates (a :: run))) by done.
  rewrite <- (app_assoc P), (app_assoc (pack_events es)), <- Hev.
  unfold P. rewrite <- !app_assoc, (app_assoc (first_bytes (key a))).
  rewrite Hnum, u16_id by lia.
  rewrite header_spec by (rewrite ?length_app, ?Hev, ?length_app; lia). rewrite res_bind_ret.
  split_and!; [|done..]. intros _. split; [done|]. split; [|done].
  rewrite Hes. replace (1 + Zlen run) with (Zlen (a :: run)) by (cbn; lia).
  apply (emit_at_svector MSRP_LISTENER_TYPE (e_lva e) pre (a :: run)); [done | done |].
  rewrite Hev, !length_app, length_drop. lia.
Qed.

(** ** The loop over the list *)

Lemma clear_run_tcount t l : forall k,
  tcount t (clear_run t k l) + Zlen (run_of t k l) = tcount t l.
Proof.
  induction l as [|a r IH]; intros k; [done|].
  destruct (sends t a && continues t k (key a)) eqn:H.
  - destruct (run_go t k a r H) as [-> ->]. rewrite tcount_clear, tcount_cons.
    apply andb_true_iff in H as [Hs _]. apply andb_true_iff in Hs as [Ht%bool_decide_eq_true Htx].
    rewrite decide_True by done. cbn [length]. specialize (IH (key a)). lia.
  - destruct (run_stop t k a r H) as [-> ->]. cbn [length]. lia.
Qed.

Lemma run_Forall t (P : msrp_key -> Prop) l : forall k,
  Forall (fun k => type k = t -> P k) (key <$> l) ->
  Forall (fun a => type (key a) = t /\ P (key a)) (run_of t k l).
Proof.
  induction l as [|a r IH]; intros k Hl; [constructor|].
  rewrite fmap_cons in Hl. apply Forall_cons_iff in Hl as [Ha Hl].
  destruct (sends t a && continues t k (key a)) eqn:H.
  - destruct (run_go t k a r H) as [-> _]. constructor; [|by apply IH].
    apply andb_true_iff in H as [Hs _]. apply andb_true_iff in Hs as [Ht%bool_decide_eq_true _].
    auto.
  - destruct (run_stop t k a r H) as [-> _]. constructor.
Qed.

(** The substates of listeners are among the four that PDUs have. *)
Definition declared (k : msrp_key) : Prop :=
  type k = MSRP_LISTENER_TYPE -> substate_ok (substate k).

Lemma declared_run a r t :
  Forall declared (key <$> a :: r) -> type (key a) = t -> t = MSRP_LISTENER_TYPE ->
  Forall substate_ok (substates (a :: run_of t (key a) r)).
Proof.
  intros Hd Ht ->. rewrite fmap_cons in Hd. apply Forall_cons_iff in Hd as [Ha Hd].
  unfold substates. rewrite fmap_cons. constructor; [by apply Ha|].
  pose proof (run_Forall MSRP_LISTENER_TYPE (fun k => substate_ok (substate k)) r (key a) Hd) as Hr.
  apply Forall_fmap. eapply Forall_impl; [|exact Hr]. by intros b [_ Hb].
Qed.

Lemma svector_len t lva a run :
  skey_ok (key a) -> type (key a) = t ->
  Zlen (svector t lva (a :: run)) <= attr_weight t * Zlen (a :: run).
Proof.
  intros Hk Ht. unfold svector, events_bytes. rewrite !length_app. cbn [length].
  pose proof (first_bytes_len _ Hk) as Hfl. rewrite Ht in Hfl.
  pose proof (pack_events_le (codes (a :: run))) as Hp. rewrite length_fmap in Hp.
  pose proof (pack4_le (substates (a :: run))) as H4. unfold substates in H4 at 2.
  rewrite length_fmap in H4. cbn [length] in *. unfold attr_weight.
  destruct t; cbn [attrib_len length] in *; lia.
Qed.

Section Loop.
Context {S : Type} (pos : S -> emit_st) (Q : S -> Prop) (t : msrp_type) (eof : Z)
        (vector : msrp_attribute -> list msrp_attribute -> S
                  -> res (bool * list msrp_attribute * S))
        (Hvec : vector_spec pos Q t eof vector).

(** Outcome of the loop: unless it gave up, the vectors the list calls for are
    in the frame and nothing of the type is left to be sent; it gives up only on
    a message that cannot be sent. *)
Definition loop_writes (pre : list Z) (l : list msrp_attribute) (st : S)
    (out : bool * list msrp_attribute * S) : Prop :=
  let '(oops, l', st') := out in
  let gs := vectors_of t l in
  (oops = false -> l' = sent t <$> l
     /\ emit_at (pre ++ svectors t (e_lva (pos st)) gs) eof (pos st')
     /\ match gs with
        | [] => pos st' = pos st
        | _ => e_ptr (pos st') = e_vp (pos st') /\ e_found (pos st') = true
        end)
  /\ (Forall (Forall sendable) gs -> oops = false) /\ Q st'.

Lemma loop_writes_skip pre a l st a' oops l' st' :
  loop_writes pre l st (oops, l', st') -> a' = sent t a ->
  vectors_of t (a :: l) = vectors_of t l ->
  loop_writes pre (a :: l) st (oops, a' :: l', st').
Proof.
  intros (H1 & H2 & H3) -> Hg. unfold loop_writes. rewrite Hg. split_and!; [|done..].
  intros Ho. destruct (H1 Ho) as (-> & H). by rewrite fmap_cons.
Qed.

Lemma sent_quiet (a : msrp_attribute) : app_tx (applicant a) = false -> clear_tx a = a.
Proof. destruct a as [k [] r]. cbn. by intros ->. Qed.

Lemma sent_other a : sends t a = false -> a = sent t a.
Proof.
  unfold sends, sent. case_decide as Ht; [|done]. rewrite bool_decide_eq_true_2 by done.
  cbn. intros H. symmetry. by apply sent_quiet.
Qed.

Lemma msrp_emit_loop_spec fuel : forall l pre st,
  emit_at pre eof (pos st) -> Q st -> e_ptr (pos st) <= e_vp (pos st) ->
  Zlen pre + attr_weight t * tcount t l + 40 <= eof ->
  Forall skey_ok (key <$> l) -> Forall declared (key <$> l) ->
  (length l <= MSRP_MAX_ATTRS)%nat -> (length l <= fuel)%nat ->
  returns (msrp_emit_loop pos vector t eof fuel l st) (loop_writes pre l st).
Proof.
  pose proof (attr_weight_pos t) as Hw.
  assert (Hvs : vector_size t <= 37) by (by destruct t).
  induction fuel as [|fuel IH]; intros l pre st He HQ Hp Hroom Hok Hd Hmax Hf;
    pose proof (tcount_pos t l) as Htc; pose proof He as (_ & _ & Hvp & _);
    (assert (Hg : negb (e_ptr (pos st) <? eof - vector_size t - MRPDU_ENDMARK_SZ) = false)
      by (unfold MRPDU_ENDMARK_SZ; apply negb_false_iff, Z.ltb_lt; nia)).
  { destruct l; [|cbn in Hf; lia]. cbn [msrp_emit_loop]. rewrite Hg. split_and!; [|done..].
    intros _. cbn [vectors_of groups snd svectors]. by rewrite app_nil_r. }
  destruct l as [|a l]; cbn [msrp_emit_loop]; rewrite Hg.
  { split_and!; [|done..]. intros _. cbn [vectors_of groups snd svectors]. by rewrite app_nil_r. }
  cbn [length] in *. rewrite tcount_cons in *.
  pose proof Hok as Hok0. pose proof Hd as Hd0. rewrite fmap_cons in Hok0, Hd0.
  apply Forall_cons_iff in Hok0 as [Hka Hokl]. apply Forall_cons_iff in Hd0 as [_ Hdl].
  assert (Hskip : forall a', a' = sent t a -> vectors_of t (a :: l) = vectors_of t l ->
    returns ('(oops, r', st) ← msrp_emit_loop pos vector t eof fuel l st;
             Ret (oops, a' :: r', st)) (loop_writes pre (a :: l) st)).
  { intros a' Ha' Hv. eapply returns_bind;
      [apply (IH l pre); auto; [destruct (decide _) in Hroom; nia | lia | lia]|].
    intros [[oops l'] st'] Hl. by apply loop_writes_skip. }
  assert (Hnot : sends t a = false -> vectors_of t (a :: l) = vectors_of t l)
    by (intros H; unfold vectors_of; cbn [groups]; by rewrite H).
  destruct (bool_decide (type (key a) = t)) eqn:Et; cbn [negb].
  2: { assert (sends t a = false) by (unfold sends; by rewrite Et).
       apply Hskip; auto using sent_other. }
  destruct (app_tx (applicant a)) eqn:Etx; cbn [negb].
  2: { assert (sends t a = false) by (unfold sends; by rewrite Et, Etx).
       apply Hskip; auto using sent_other. }
  assert (Hs : sends t a = true) by (unfold sends; by rewrite Et, Etx).
  apply bool_decide_eq_true in Et.
  destruct (decide (app_encode (applicant a) = MRP_ENCODE_OPTIONAL)) as [Eo|Eo].
  { apply Hskip; [unfold sent; by rewrite decide_True by done|].
    unfold vectors_of. cbn [groups follows]. by rewrite Hs, decide_True. }
  rewrite decide_True in Hroom by done.
  assert (Hgs : vectors_of t (a :: l)
    = (a :: run_of t (key a) l) :: vectors_of t (clear_run t (key a) l)).
  { unfold vectors_of, run_of. rewrite clear_run_groups. cbn [groups follows].
    rewrite Hs, decide_False by done. by destruct (groups t (Some (key a)) l). }
  eapply returns_bind; [apply (Hvec pre); auto; split_and!; auto; [nia | by apply declared_run]|].
  intros [[oops r'] st1] (H1 & H2 & HQ1). unfold loop_writes. rewrite Hgs.
  destruct oops.
  { split_and!; [done | | done]. intros Hsd. apply Forall_cons_iff in Hsd as [Hsd _].
    by specialize (H2 Hsd). }
  destruct (H1 eq_refl) as (-> & He1 & Hp1 & Hl1 & Hf1). clear H1 H2.
  pose proof (clear_run_tcount t l (key a)) as Hcc. pose proof (clear_run_keys t l (key a)) as Hck.
  pose proof (f_equal length Hck) as Hcl. rewrite !length_fmap in Hcl.
  pose proof (svector_len t (e_lva (pos st)) a (run_of t (key a) l) Hka Et) as Hsl.
  cbn [length] in Hsl.
  eapply returns_bind; [apply (IH _ _ st1 He1 HQ1); rewrite ?Hck; auto; try lia;
    rewrite length_app; nia|].
  intros [[oops l'] st'] (H1 & H2 & HQ2). cbn [returns]. rewrite Hl1 in H1. split_and!; [..|done].
  - intros Ho. destruct (H1 Ho) as (-> & H3 & H5). cbn [svectors].
    rewrite app_assoc, clear_run_sent, fmap_cons. split_and!; auto.
    + unfold sent at 2. by rewrite decide_True by done.
    + destruct (vectors_of t (clear_run t (key a) l)); [by rewrite H5 | apply H5].
    + destruct (vectors_of t (clear_run t (key a) l)); [by rewrite H5 | apply H5].
  - intros Hsd. apply Forall_cons_iff in Hsd as [_ Hsd]. auto.
Qed.

End Loop.

(** ** Whole messages *)

Lemma svectors_len t l : forall o lva,
  Forall skey_ok (key <$> l) ->
  attr_weight t * Zlen (groups t o l).1 + Zlen (svectors t lva (groups t o l).2)
  <= attr_weight t * tcount t l.
Proof.
  pose proof (attr_weight_pos t) as Hw.
  induction l as [|a r IH]; intros o lva Hk; cbn [groups]; [cbn; unfold tcount; cbn; lia|].
  rewrite fmap_cons in Hk. apply Forall_cons_iff in Hk as [Ha Hk]. rewrite tcount_cons.
  pose proof (tcount_pos t r) as Hc. pose proof (IH None lva Hk) as Hn.
  destruct (sends t a) eqn:Hs; [|cbn [fst snd length]; destruct (decide (_ /\ _)); nia].
  apply andb_true_iff in Hs as [Ht%bool_decide_eq_true Htx].
  rewrite (decide_True (P := type (key a) = t /\ app_tx (applicant a) = true)) by done.
  destruct (follows t o a); [|case_decide; [cbn [fst snd length]; nia|]].
  - pose proof (IH (Some (key a)) lva Hk). destruct (groups t (Some (key a)) r).
    cbn [fst snd length] in *. nia.
  - pose proof (IH (Some (key a)) false Hk). destruct (groups t (Some (key a)) r) as [run gs].
    pose proof (svector_len t lva a run Ha Ht). cbn [fst snd length svectors] in *.
    rewrite length_app. nia.
Qed.

(** The header of a message, with room for AttributeListLength. *)
Lemma start_spec t pre rest base eof :
  Zlen pre = base -> base + Zlen rest = eof -> base + 40 <= eof ->
  exists x y rest', msrp_emit_start t (pre ++ rest) base eof
      = Ret (Some ((pre ++ [msrp_type_code t; attrib_len t; x; y]) ++ rest'))
    /\ Zlen (pre ++ [msrp_type_code t; attrib_len t; x; y]) + Zlen rest' = eof.
Proof.
  intros Hp Hr Hroom. assert (Hv : vector_size t <= 37) by (by destruct t).
  destruct rest as [|a [|b [|x [|y rest]]]]; cbn [length] in Hr; [lia..|].
  exists x, y, rest. unfold msrp_emit_start.
  rewrite (proj2 (Z.ltb_ge _ _)), wr_app, res_bind_ret by lia.
  rewrite (cons_middle (u8 _)), app_assoc, wr_app, res_bind_ret
    by (rewrite length_app; cbn [length]; lia).
  rewrite !u8_id by (destruct t; cbn; lia). split; [by rewrite <- !app_assoc|].
  rewrite !length_app. cbn [length]. lia.
Qed.

(** The end mark and AttributeListLength. *)
Lemma finish_spec pre c al x y body a b rest flag e lva base :
  Zlen pre = base -> body <> [] -> Zlen body < 2000 ->
  e = EmitSt (pre ++ [c; al; x; y] ++ body ++ a :: b :: rest)
        (base + 4 + Zlen body) (base + 4 + Zlen body) lva true ->
  let len := Zlen body + 2 in
  msrp_emit_finish base flag e
  = Ret (len + 4, pre ++ ([c; al; len / 256; len mod 256] ++ body ++ [0; 0]) ++ rest).
Proof.
  intros Hp Hb Hl -> len. unfold msrp_emit_finish, msrp_vectors_off.
  assert (0 < Zlen body) by (destruct body; [done | cbn [length]; lia]).
  cbn [e_found e_vp e_buf e_ptr negb andb]. rewrite res_bind_ret. cbn [e_vp e_buf e_ptr].
  rewrite (proj2 (Z.eqb_neq _ _)) by lia.
  rewrite (app_assoc _ body), (app_assoc pre), wr_app, res_bind_ret
    by (rewrite !length_app; cbn [length]; lia).
  rewrite (cons_middle (u8 0)), app_assoc, wr_app, res_bind_ret
    by (rewrite !length_app; cbn [length]; lia).
  replace (base + 4 + Zlen body + 2 - (base + 4)) with len by lia.
  rewrite <- !app_assoc. cbn [app].
  change (pre ++ c :: al :: x :: y :: ?l) with (pre ++ [c; al] ++ x :: y :: l).
  rewrite (app_assoc pre), wr_app, res_bind_ret by (rewrite length_app; cbn [length]; lia).
  rewrite (cons_middle (u8 (Z.shiftr _ _))), app_assoc, wr_app, res_bind_ret
    by (rewrite !length_app; cbn [length]; lia).
  rewrite Z.shiftr_div_pow2 by lia. change (2 ^ 8) with 256.
  rewrite (u8_id (len / 256)) by zdm. f_equal. f_equal; [lia|].
  by rewrite <- !app_assoc.
Qed.

(** The message without vectors: the empty LeaveAll, or nothing. *)
Lemma finish_empty t pre x y rest flag lva base eof :
  Zlen pre = base -> base + 4 + Zlen rest = eof -> base + 50 <= eof ->
  exists junk rest', length junk = Z.to_nat (attrib_len t)
    /\ msrp_emit_finish base flag
         (EmitSt ((pre ++ [msrp_type_code t; attrib_len t; x; y]) ++ rest) base (base + 4) lva false)
       = Ret (Zlen (smessage t lva flag junk []), pre ++ smessage t lva flag junk [] ++ rest')
    /\ base + Zlen (smessage t lva flag junk []) + Zlen rest' = eof.
Proof.
  intros Hp Hr Hroom. assert (Ha : 4 <= attrib_len t <= 34) by (by destruct t).
  destruct flag.
  2: { exists (replicate (Z.to_nat (attrib_len t)) 0),
         ([msrp_type_code t; attrib_len t; x; y] ++ rest). split; [apply length_replicate|].
       unfold msrp_emit_finish, msrp_vectors_off. cbn [e_found negb andb]. rewrite res_bind_ret.
       cbn [e_vp e_buf]. rewrite Z.eqb_refl, <- app_assoc. split; [done|].
       cbn [smessage length app]. lia. }
  destruct rest as [|a [|b rest]]; cbn [length] in Hr; [lia..|].
  set (n := Z.to_nat (attrib_len t)). exists (take n rest), (drop (n + 2) rest).
  assert (Hj : length (take n rest) = n) by (rewrite length_take; lia). split; [done|].
  assert (Hd : exists c d, drop n rest = c :: d :: drop (n + 2) rest).
  { assert (Hdl : length (drop n rest) = (length rest - n)%nat) by apply length_drop.
    rewrite <- drop_drop. destruct (drop n rest) as [|c [|d r]]; cbn [length] in Hdl; [lia..|].
    by exists c, d. }
  destruct Hd as (c & d & Hd).
  unfold msrp_emit_finish. cbn [e_found negb andb e_buf e_vp e_ptr e_lva].
  change (Z.lor (MRPDU_VECT_NUMVALUES 0) MRPDU_VECT_LVA_FLAG) with 8192.
  rewrite wr16_app, res_bind_ret by (try done; rewrite length_app; cbn [length]; lia).
  change (8192 / 256) with 32. change (8192 mod 256) with 0.
  rewrite <- app_assoc. cbn [app]. rewrite (cons_middle (msrp_type_code t)), app_assoc, rd_app,
    res_bind_ret by (rewrite length_app; cbn [length]; lia).
  rewrite res_bind_ret, <- app_assoc. cbn [app].
  set (body := 32 :: 0 :: take n rest).
  assert (Hbl : Zlen body = attrib_len t + 2) by (unfold body; cbn [length]; lia).
  pose proof (finish_spec pre (msrp_type_code t) (attrib_len t) x y body c d (drop (n + 2) rest)
    true _ lva base Hp ltac:(done) ltac:(lia) eq_refl) as Hf.
  unfold msrp_emit_finish in Hf. cbn [e_found negb andb] in Hf. rewrite res_bind_ret in Hf.
  cbn [e_buf e_vp e_ptr] in *. rewrite Hbl in Hf.
  replace (base + 4 + 2 + attrib_len t) with (base + 4 + (attrib_len t + 2)) by lia.
  replace (32 :: 0 :: rest) with (body ++ c :: d :: drop (n + 2) rest)
    by (unfold body; rewrite <- Hd; cbn [app]; by rewrite take_drop).
  cbn [app] in *. rewrite Hf. unfold smessage, slist_bytes. cbn [app]. fold body.
  rewrite Hbl. cbn [length app]. rewrite length_app. cbn [length].
  rewrite length_drop. cbn [length] in Hbl. split; [f_equal; f_equal; lia | lia].
Qed.

Definition message_bytes (t : msrp_type) (lva flag : bool) (pre : list Z) (eof : Z)
    (gs : list (list msrp_attribute)) (out : Z * list Z) : Prop :=
  let '(bytes, buf) := out in exists junk rest,
  length junk = Z.to_nat (attrib_len t) /\ bytes = Zlen (smessage t lva flag junk gs)
  /\ buf = pre ++ smessage t lva flag junk gs ++ rest
  /\ Zlen pre + bytes + Zlen rest = eof.

Lemma smessage_len t lva flag junk gs :
  length junk = Z.to_nat (attrib_len t) ->
  Zlen (smessage t lva flag junk gs) <= attrib_len t + 8 + Zlen (svectors t lva gs).
Proof.
  intros Hj. assert (4 <= attrib_len t <= 34) by (by destruct t).
  unfold smessage, slist_bytes. destruct gs as [|g gs]; [destruct flag|];
    cbn [svectors length app]; rewrite ?length_app; cbn [length]; lia.
Qed.

Lemma message_finish t lva flag pre x y gs e base eof :
  Zlen pre = base -> Zlen (svectors t lva gs) + base + 50 <= eof -> eof <= MAX_FRAME_SIZE ->
  emit_at ((pre ++ [msrp_type_code t; attrib_len t; x; y]) ++ svectors t lva gs) eof e ->
  match gs with
  | [] => e_ptr e = base /\ e_vp e = base + 4 /\ e_lva e = lva /\ e_found e = false
  | _ => e_ptr e = e_vp e /\ e_found e = true
  end ->
  returns (msrp_emit_finish base flag e) (message_bytes t lva flag pre eof gs).
Proof.
  unfold MAX_FRAME_SIZE. intros Hp Hroom Heof (rest & Hb & Hv & Hl) Hgs. 
  destruct e as [buf ptr vp lv fd]. cbn [e_buf e_vp e_ptr e_lva e_found] in *.
  rewrite !length_app in Hv, Hl. cbn [length] in Hv, Hl.
  destruct gs as [|g gs].
  - destruct Hgs as (-> & -> & -> & ->). cbn [svectors length] in *. rewrite app_nil_r in Hb.
    subst buf. destruct (finish_empty t pre x y rest flag lva base eof Hp)
      as (junk & rest' & Hj & E & Hlen); [lia | lia|].
    rewrite E. exists junk, rest'. split_and!; auto. lia.
  - destruct Hgs as [-> ->]. set (body := svectors t lva (g :: gs)) in *.
    destruct rest as [|a [|b rest]]; cbn [length] in Hl; [lia..|].
    subst buf. rewrite <- !app_assoc.
    rewrite (finish_spec pre (msrp_type_code t) (attrib_len t) x y body a b rest flag _ lv base);
      [|done | done | lia | by f_equal; lia].
    cbn [returns]. exists (replicate (Z.to_nat (attrib_len t)) 0), rest.
    unfold smessage, slist_bytes. fold body. rewrite length_replicate.
    rewrite !length_app. cbn [length]. split_and!; auto; lia.
Qed.

(** Outcome of an [msrp_emit_*vectors] function on the list [l]. *)
Definition message_writes (t : msrp_type) (lva flag : bool) (pre : list Z) (eof : Z)
    (l : list msrp_attribute) (out : Z * Z * list msrp_attribute * list Z) : Prop :=
  let '(rc, bytes, l', buf) := out in
  (rc = -1 \/ rc = 0 /\ l' = sent t <$> l
                /\ message_bytes t lva flag pre eof (vectors_of t l) (bytes, buf))
  /\ (Forall (Forall sendable) (vectors_of t l) -> rc = 0).

(** What the list must satisfy for a message of type [t] at the end of [pre]. *)
Definition message_room (t : msrp_type) (pre : list Z) (eof : Z) (l : list msrp_attribute)
  : Prop :=
  Zlen pre + attr_weight t * ncount t l + 60 <= eof /\ eof <= MAX_FRAME_SIZE
  /\ Forall skey_ok (key <$> l) /\ Forall declared (key <$> l)
  /\ (length l <= MSRP_MAX_ATTRS)%nat.

Section Message.
Context {S : Type} (pos : S -> emit_st) (Q : S -> Prop) (t : msrp_type) (eof : Z)
        (vector : msrp_attribute -> list msrp_attribute -> S
                  -> res (bool * list msrp_attribute * S))
        (Hvec : vector_spec pos Q t eof vector) (lva flag : bool) (pre : list Z)
        (l : list msrp_attribute) (Hroom : message_room t pre eof l).

(** From the header of a message to its end, for a state that starts there. *)
Lemma message_loop x y rest st :
  let hdr := pre ++ [msrp_type_code t; attrib_len t; x; y] in
  Zlen hdr + Zlen rest = eof -> Q st ->
  pos st = EmitSt (hdr ++ rest) (Zlen pre) (Zlen pre + 4) lva false ->
  returns (msrp_emit_loop pos vector t eof (length l) l st) (fun '(oops, l', st') =>
    Q st' /\ (oops = false -> l' = sent t <$> l
       /\ returns (msrp_emit_finish (Zlen pre) flag (pos st'))
            (message_bytes t lva flag pre eof (vectors_of t l)))
    /\ (Forall (Forall sendable) (vectors_of t l) -> oops = false)).
Proof.
  intros hdr Hl HQ Hst. destruct Hroom as (Hr & Heof & Hk & Hd & Hm).
  assert (Hh : Zlen hdr = Zlen pre + 4) by (unfold hdr; rewrite length_app; cbn [length]; lia).
  pose proof (tcount_ncount t l) as Htc. pose proof (attr_weight_pos t) as Hw.
  pose proof (svectors_len t l None lva Hk) as Hsl. pose proof (tcount_pos t l).
  eapply returns_mono; [apply (msrp_emit_loop_spec pos Q t eof vector Hvec (length l) l hdr)|]; auto.
  - rewrite Hst. exists rest. cbn [e_buf e_vp]. done.
  - rewrite Hst. cbn. lia.
  - nia.
  - intros [[oops l'] st'] (H1 & H2 & H3). split_and!; [done | | done]. intros Ho.
    destruct (H1 Ho) as (-> & He & Hgs). rewrite Hst in He, Hgs. cbn [e_lva] in He.
    split; [done|]. fold (vectors_of t l) in Hsl.
    apply (message_finish t lva flag pre x y (vectors_of t l)); auto; [nia|].
    destruct (vectors_of t l); [by rewrite Hgs | done].
Qed.

End Message.

Lemma message_start t pre rest eof l :
  message_room t pre eof l -> Zlen pre + Zlen rest = eof ->
  exists x y rest', let hdr := pre ++ [msrp_type_code t; attrib_len t; x; y] in
  msrp_emit_start t (pre ++ rest) (Zlen pre) eof = Ret (Some (hdr ++ rest'))
  /\ Zlen hdr + Zlen rest' = eof.
Proof.
  intros (Hr & _) Hl. apply start_spec; [done | done|].
  pose proof (attr_weight_pos t). assert (0 <= ncount t l) by (unfold ncount; lia). nia.
Qed.

Lemma talkervectors_spec ty lva flag pre rest eof l :
  is_talker (zero_key ty) = true -> message_room ty pre eof l -> Zlen pre + Zlen rest = eof ->
  returns (msrp_emit_talkervectors (pre ++ rest) (Zlen pre) eof lva flag ty l)
    (message_writes ty lva flag pre eof l).
Proof.
  intros Hty Hroom Hl. unfold msrp_emit_talkervectors.
  destruct (message_start ty pre rest eof l Hroom Hl) as (x & y & rest' & -> & Hl').
  rewrite res_bind_ret. eapply returns_bind.
  { apply (message_loop id (fun _ => True) ty eof _ (talker_vector_spec ty eof Hty) lva flag pre l
      Hroom x y rest'); done. }
  intros [[oops l'] e] (_ & H1 & H2).
  destruct oops; [split; [by left | intros Hs; by specialize (H2 Hs)]|].
  destruct (H1 eq_refl) as (-> & Hf). eapply returns_bind; [exact Hf|].
  intros [bytes buf] Hm. split; [by right | done].
Qed.

Lemma domainvectors_spec lva flag pre rest eof l :
  message_room MSRP_DOMAIN_TYPE pre eof l -> Zlen pre + Zlen rest = eof ->
  returns (msrp_emit_domainvectors (pre ++ rest) (Zlen pre) eof lva flag l)
    (message_writes MSRP_DOMAIN_TYPE lva flag pre eof l).
Proof.
  intros Hroom Hl. unfold msrp_emit_domainvectors.
  destruct (message_start _ pre rest eof l Hroom Hl) as (x & y & rest' & -> & Hl').
  rewrite res_bind_ret. eapply returns_bind.
  { apply (message_loop id (fun _ => True) _ eof _ (domain_vector_spec eof) lva flag pre l
      Hroom x y rest'); done. }
  intros [[oops l'] e] (_ & H1 & H2).
  destruct oops; [split; [by left | intros Hs; by specialize (H2 Hs)]|].
  destruct (H1 eq_refl) as (-> & Hf). eapply returns_bind; [exact Hf|].
  intros [bytes buf] Hm. split; [by right | done].
Qed.

Lemma mark_keys (l : list msrp_attribute) : key <$> (mark_listener <$> l) = key <$> l.
Proof.
  induction l as [|a l IH]; [done|]. rewrite !fmap_cons, IH. f_equal.
  unfold mark_listener. by case_decide.
Qed.

Lemma message_room_keys t pre eof l l' :
  key <$> l' = key <$> l -> message_room t pre eof l -> message_room t pre eof l'.
Proof.
  intros Hk (H1 & H2 & H3 & H4 & H5). pose proof (f_equal length Hk) as Hl.
  rewrite !length_fmap in Hl. unfold message_room.
  rewrite Hk, (ncount_keys t l l' Hk), Hl. by split_and!.
Qed.

(** Listeners: nothing is written when the array cannot be allocated. *)
Lemma listenvectors_spec lva flag pre rest eof l w :
  message_room MSRP_LISTENER_TYPE pre eof l -> Zlen pre + Zlen rest = eof ->
  returns (msrp_emit_listenvectors (pre ++ rest) (Zlen pre) eof lva flag l w)
    (fun '(rc, bytes, l', buf, w') => w' = step_tick w
       /\ (rc = -1 \/ message_writes MSRP_LISTENER_TYPE lva flag pre eof (mark_listener <$> l)
                        (rc, bytes, l', buf))
       /\ (os_malloc (w_tick w) = true ->
            Forall (Forall sendable) (vectors_of MSRP_LISTENER_TYPE (mark_listener <$> l)) ->
            rc = 0)).
Proof.
  intros Hroom Hl. unfold msrp_emit_listenvectors, malloc.
  destruct (message_start _ pre rest eof l Hroom Hl) as (x & y & rest' & -> & Hl').
  rewrite res_bind_ret. destruct (os_malloc _); cbn [negb]; [|cbn; by split_and!; auto].
  apply (message_room_keys _ _ _ _ _ (mark_keys l)) in Hroom.
  set (ml := mark_listener <$> l) in *. eapply returns_bind.
  { apply (message_loop ls_emit (listen_quiet (step_tick w)) _ eof _
      (listen_vector_spec (step_tick w) eof) lva flag pre ml Hroom x y rest'); done. }
  intros [[oops l'] st] ([_ Hw] & H1 & H2). destruct oops.
  { split_and!; [done | by left|]. intros _ Hs. by specialize (H2 Hs). }
  destruct (H1 eq_refl) as (-> & Hf). eapply returns_bind; [exact Hf|].
  intros [bytes buf] Hm. split_and!; auto. right. split; [by right | done].
Qed.

(** ** The four messages *)

Definition MSRP_ORDER : list msrp_type :=
  [MSRP_TALKER_ADV_TYPE; MSRP_TALKER_FAILED_TYPE; MSRP_LISTENER_TYPE; MSRP_DOMAIN_TYPE].

(** The vectors of a frame: all listeners are sent. *)
Definition frame_vectors (t : msrp_type) (l : list msrp_attribute) : list (list msrp_attribute) :=
  vectors_of t (mark_listener <$> l).

Definition smessages (lva flag : bool) (junk : msrp_type -> list Z) (ts : list msrp_type)
    (l : list msrp_attribute) : list Z :=
  concat ((fun t => smessage t lva flag (junk t) (frame_vectors t l)) <$> ts).

Lemma sent_key t a : key (sent t a) = key a.
Proof. unfold sent. by case_decide. Qed.

Lemma mark_key a : key (mark_listener a) = key a.
Proof. unfold mark_listener. by case_decide. Qed.

(** What happens to attributes of other types does not matter. *)
Lemma vectors_ext t (f g : msrp_attribute -> msrp_attribute) l :
  (forall a, key (f a) = key a) -> (forall a, key (g a) = key a) ->
  (forall a, type (key a) = t -> f a = g a) -> vectors_of t (f <$> l) = vectors_of t (g <$> l).
Proof.
  intros Hf Hg He. unfold vectors_of. f_equal. generalize (@None msrp_key).
  induction l as [|a l IH]; intros o; [done|].
  rewrite !fmap_cons. cbn [groups]. destruct (decide (type (key a) = t)) as [Ht|Ht].
  - by rewrite He, !IH by done.
  - unfold sends. rewrite Hf, Hg, bool_decide_eq_false_2 by done. cbn [andb]. by rewrite IH.
Qed.

(** The vectors of each message, in the list as it is at that point. *)
Lemma frame_vectors_at l :
  let l1 := sent MSRP_TALKER_ADV_TYPE <$> l in
  let l2 := sent MSRP_TALKER_FAILED_TYPE <$> l1 in
  let l3 := sent MSRP_LISTENER_TYPE <$> (mark_listener <$> l2) in
  vectors_of MSRP_TALKER_ADV_TYPE l = frame_vectors MSRP_TALKER_ADV_TYPE l
  /\ vectors_of MSRP_TALKER_FAILED_TYPE l1 = frame_vectors MSRP_TALKER_FAILED_TYPE l
  /\ frame_vectors MSRP_LISTENER_TYPE l2 = frame_vectors MSRP_LISTENER_TYPE l
  /\ vectors_of MSRP_DOMAIN_TYPE l3 = frame_vectors MSRP_DOMAIN_TYPE l.
Proof.
  unfold frame_vectors. rewrite <- !list_fmap_compose. rewrite <- (list_fmap_id l) at 1.
  split_and!; apply vectors_ext; unfold compose; intros a;
    rewrite ?sent_key, ?mark_key, ?sent_key; try done;
    destruct a as [[ty ????] ??]; cbn [key type]; intros ->; reflexivity.
Qed.

Lemma sent_keys t (l : list msrp_attribute) : key <$> (sent t <$> l) = key <$> l.
Proof. induction l as [|a l IH]; [done|]. by rewrite !fmap_cons, sent_key, IH. Qed.

(** The list as it is after the four messages. *)
Lemma sent_all (l : list msrp_attribute) :
  sent MSRP_DOMAIN_TYPE <$> (sent MSRP_LISTENER_TYPE <$> (mark_listener <$>
    (sent MSRP_TALKER_FAILED_TYPE <$> (sent MSRP_TALKER_ADV_TYPE <$> l))))
  = clear_tx <$> l.
Proof.
  induction l as [|a l IH]; [done|]. rewrite !fmap_cons, IH. f_equal.
  by destruct a as [[[] ????] ? ?].
Qed.

Definition messages_writes (hdr : list Z) (lva flag : bool) (l : list msrp_attribute) (w : world)
    (out : option (Z * list Z) * list msrp_attribute * world) : Prop :=
  let '(o, l', w') := out in
  (w' = w \/ w' = step_tick w)
  /\ (o = None \/ l' = clear_tx <$> l /\ exists junk rest,
        (forall t, length (junk t) = Z.to_nat (attrib_len t))
        /\ let body := smessages lva flag junk MSRP_ORDER l in
           o = Some (Zlen (hdr ++ body), hdr ++ body ++ rest)
           /\ Zlen (hdr ++ body) + Zlen rest = MAX_FRAME_SIZE
           /\ Zlen (hdr ++ body) <= MAX_FRAME_SIZE - 60)
  /\ (os_malloc (w_tick w) = true ->
       (forall t, Forall (Forall sendable) (frame_vectors t l)) -> o <> None).

(** Bytes written by a message on top of those before it. *)
Lemma message_bytes_len t lva flag pre eof l bytes buf :
  Forall skey_ok (key <$> l) ->
  message_bytes t lva flag pre eof (vectors_of t l) (bytes, buf) ->
  0 <= bytes <= attrib_len t + 8 + attr_weight t * ncount t l.
Proof.
  intros Hk (junk & rest & Hj & -> & _). split; [lia|].
  pose proof (smessage_len t lva flag junk (vectors_of t l) Hj).
  pose proof (svectors_len t l None lva Hk) as Hs. pose proof (tcount_ncount t l).
  pose proof (attr_weight_pos t). unfold vectors_of in *. nia.
Qed.

(** A message that was written, and what it leaves for the next. *)
Lemma message_step t lva flag pre eof l gs rc bytes l' buf :
  message_writes t lva flag pre eof l (rc, bytes, l', buf) -> vectors_of t l = gs ->
  Forall skey_ok (key <$> l) -> rc <> -1 ->
  exists junk rest, length junk = Z.to_nat (attrib_len t) /\ l' = sent t <$> l
    /\ let m := smessage t lva flag junk gs in
       buf = (pre ++ m) ++ rest /\ Zlen (pre ++ m) = Zlen pre + bytes
       /\ Zlen (pre ++ m) + Zlen rest = eof
       /\ 0 <= bytes <= attrib_len t + 8 + attr_weight t * ncount t l.
Proof.
  intros [Hw _] <- Hk Hrc. destruct Hw as [|(_ & -> & Hb)]; [done|].
  pose proof (message_bytes_len _ _ _ _ _ _ _ _ Hk Hb) as Hl.
  destruct Hb as (junk & rest & Hj & -> & -> & He). exists junk, rest. cbn zeta.
  rewrite length_app, <- app_assoc. split_and!; auto; lia.
Qed.

Lemma message_fails t lva flag pre eof l gs bytes l' buf :
  message_writes t lva flag pre eof l (-1, bytes, l', buf) -> vectors_of t l = gs ->
  ~ Forall (Forall sendable) gs.
Proof. intros [_ H] <- Hs. by specialize (H Hs). Qed.

Lemma messages_spec hdr rest lva flag l w :
  Zlen hdr = MSG_LIST_OFF -> Zlen hdr + Zlen rest = MAX_FRAME_SIZE ->
  Forall skey_ok (key <$> l) -> Forall declared (key <$> l) ->
  (length l <= MSRP_MAX_ATTRS)%nat ->
  returns (msrp_emit_messages (hdr ++ rest) MAX_FRAME_SIZE lva flag l w)
    (messages_writes hdr lva flag l w).
Proof.
  unfold MSG_LIST_OFF, MAX_FRAME_SIZE. intros Hh Hr Hk Hd Hm. pose proof (ncount_sum l) as Hs.
  assert (Hc : forall t, 0 <= ncount t l) by (unfold ncount; lia).
  pose proof (Hc MSRP_TALKER_ADV_TYPE) as C1. pose proof (Hc MSRP_TALKER_FAILED_TYPE) as C2.
  pose proof (Hc MSRP_LISTENER_TYPE) as C3. pose proof (Hc MSRP_DOMAIN_TYPE) as C4.
  assert (Hroom : forall t pre l', key <$> l' = key <$> l ->
    Zlen pre + attr_weight t * ncount t l + 60 <= 2000 -> message_room t pre 2000 l').
  { intros t pre l' Hkl Hp. apply (message_room_keys t pre 2000 l); [done|].
    unfold message_room, MAX_FRAME_SIZE. by split_and!. }
  assert (Hfail : forall t l' w', (w' = w \/ w' = step_tick w) ->
    (os_malloc (w_tick w) = true -> ~ Forall (Forall sendable) (frame_vectors t l)) ->
    messages_writes hdr lva flag l w (None, l', w'))
    by (intros t l' w' Hw Hn; split_and!; [done | by left | intros Ho Hsd; by destruct (Hn Ho)]).
  destruct (frame_vectors_at l) as (V1 & V2 & V3 & V4).
  unfold MSRP_MAX_ATTRS in Hm. unfold msrp_emit_messages, MSG_LIST_OFF, MRPDU_ENDMARK_SZ.
  rewrite <- Hh.
  eapply returns_bind; [apply talkervectors_spec; [done | apply Hroom; [done|] | done]|].
  { change (attr_weight _) with 28. lia. }
  intros [[[rc1 n1] l1] b1] M1. destruct (Z.eqb_spec rc1 (-1)) as [->|E1].
  { eapply Hfail; [by left | intros _; by eapply message_fails]. }
  destruct (message_step _ _ _ _ _ _ _ _ _ _ _ M1 V1 Hk E1)
    as (j1 & r1 & J1 & -> & -> & L1 & T1 & B1). clear M1.
  change (attr_weight _) with 28 in B1. cbn [attrib_len] in B1.
  set (m1 := smessage _ _ _ j1 _) in *. set (l1 := sent _ <$> l) in *.
  assert (K1 : key <$> l1 = key <$> l) by apply sent_keys.
  rewrite <- L1. assert (Hk1 : Forall skey_ok (key <$> l1)) by (by rewrite K1).
  eapply returns_bind; [apply talkervectors_spec; [done | apply Hroom; [done|] | done]|].
  { change (attr_weight _) with 37. lia. }
  intros [[[rc2 n2] l2] b2] M2. destruct (Z.eqb_spec rc2 (-1)) as [->|E2].
  { eapply Hfail; [by left | intros _; by eapply message_fails]. }
  destruct (message_step _ _ _ _ _ _ _ _ _ _ _ M2 V2 Hk1 E2)
    as (j2 & r2 & J2 & -> & -> & L2 & T2 & B2). clear M2.
  rewrite (ncount_keys _ l l1 K1) in B2. change (attr_weight _) with 37 in B2.
  cbn [attrib_len] in B2. rewrite <- L2. set (m2 := smessage _ _ _ j2 _) in *.
  set (l2 := sent _ <$> l1) in *.
  assert (K2 : key <$> l2 = key <$> l) by (unfold l2; by rewrite sent_keys).
  destruct (Z.leb_spec (2000 - 2) (Zlen ((hdr ++ m1) ++ m2))); [lia|].
  eapply returns_bind; [apply listenvectors_spec; [apply Hroom; [done|] | done]|].
  { change (attr_weight _) with 12. lia. }
  intros [[[[rc3 n3] l3] b3] w3] (-> & M3 & S3). destruct (Z.eqb_spec rc3 (-1)) as [->|E3].
  { apply (Hfail MSRP_LISTENER_TYPE); [by right|]. intros Ho Hsd. rewrite <- V3 in Hsd.
    by specialize (S3 Ho Hsd). }
  destruct M3 as [|M3]; [done|].
  assert (Km : key <$> (mark_listener <$> l2) = key <$> l) by (by rewrite mark_keys).
  assert (Hkm : Forall skey_ok (key <$> (mark_listener <$> l2))) by (by rewrite Km).
  destruct (message_step _ _ _ _ _ _ _ _ _ _ _ M3 V3 Hkm E3)
    as (j3 & r3 & J3 & -> & -> & L3 & T3 & B3). clear M3 S3.
  rewrite (ncount_keys _ l _ Km) in B3. change (attr_weight _) with 12 in B3.
  cbn [attrib_len] in B3. rewrite <- L3. set (m3 := smessage _ _ _ j3 _) in *.
  set (l3 := sent _ <$> (mark_listener <$> l2)) in *.
  assert (K3 : key <$> l3 = key <$> l) by (unfold l3; by rewrite sent_keys).
  assert (Hk3 : Forall skey_ok (key <$> l3)) by (by rewrite K3).
  eapply returns_bind; [apply domainvectors_spec; [apply Hroom; [done|] | done]|].
  { change (attr_weight _) with 7. lia. }
  intros [[[rc4 n4] l4] b4] M4. destruct (Z.eqb_spec rc4 (-1)) as [->|E4].
  { eapply Hfail; [by right | intros _; by eapply message_fails]. }
  destruct (message_step _ _ _ _ _ _ _ _ _ _ _ M4 V4 Hk3 E4)
    as (j4 & r4 & J4 & -> & -> & L4 & T4 & B4). clear M4.
  rewrite (ncount_keys _ l _ K3) in B4. change (attr_weight _) with 7 in B4.
  cbn [attrib_len] in B4. set (m4 := smessage _ _ _ j4 _) in *.
  rewrite <- L4. split_and!; [by right | | done]. right. split; [apply sent_all|].
  exists (fun t => match t with MSRP_TALKER_ADV_TYPE => j1 | MSRP_TALKER_FAILED_TYPE => j2
                           | MSRP_LISTENER_TYPE => j3 | MSRP_DOMAIN_TYPE => j4 end), r4.
  split; [by intros [] |].
  assert (Hbody : (((hdr ++ m1) ++ m2) ++ m3) ++ m4 = hdr ++ m1 ++ m2 ++ m3 ++ m4 ++ [])
    by (by rewrite app_nil_r, <- !app_assoc).
  rewrite Hbody in *. unfold MAX_FRAME_SIZE.
  change (smessages _ _ _ _ _) with (m1 ++ m2 ++ m3 ++ m4 ++ []).
  rewrite <- (app_assoc hdr). split_and!; [done | done | lia].
Qed.

(** ** The frame [msrp_txpdu] sends *)

Definition msrp_frame (station : list Z) (lva flag : bool) (junk : msrp_type -> list Z)
    (l : list msrp_attribute) : list Z :=
  eth_header MSRP_ADDR station MSRP_ETYPE ++ smessages lva flag junk MSRP_ORDER l ++ [0; 0].

Lemma msrp_header_spec station :
  length station = 6%nat -> bytes_ok station ->
  msrp_frame_header station = Ret (eth_header MSRP_ADDR station MSRP_ETYPE
    ++ replicate (Z.to_nat (MAX_FRAME_SIZE - 15)) 0).
Proof.
  intros Hl Hb. apply eth_header_spec; try done. repeat constructor; done.
Qed.

(** Is there anything to say? *)
Definition has_news (flag : bool) (l : list msrp_attribute) : Prop :=
  flag = true \/ Exists (fun t => frame_vectors t l <> []) MSRP_ORDER.

#[global] Instance has_news_dec flag l : Decision (has_news flag l).
Proof. unfold has_news. apply _. Defined.

Lemma smessage_nil t lva flag junk gs :
  smessage t lva flag junk gs = [] <-> flag = false /\ gs = [].
Proof.
  unfold smessage. destruct gs, flag; split; try done; by intros [??].
Qed.

Lemma smessages_nil lva flag junk l :
  smessages lva flag junk MSRP_ORDER l = [] <-> ~ has_news flag l.
Proof.
  unfold smessages, MSRP_ORDER. rewrite !fmap_cons. cbn [concat fmap list_fmap].
  rewrite !app_nil, !smessage_nil. unfold has_news, MSRP_ORDER.
  rewrite !Exists_cons, Exists_nil. repeat (destruct (frame_vectors _ l)); destruct flag;
    intuition congruence.
Qed.

Definition txpdu_writes (sock : Z) (s : msrp_ast) (out : Z * msrp_ast) : Prop :=
  let '(rc, s') := out in
  let l := attrib_list (db s) in
  let flag := send_empty_LeaveAll_flag (db s) in
  let lv := lva_tx (lva (mrp_db (db s))) in
  exists frames, w_trace (wld s') = w_trace (wld s) ++ frames
  /\ (frames = [] \/ exists junk,
        (forall t, length (junk t) = Z.to_nat (attrib_len t)) /\ has_news flag l
        /\ let f := msrp_frame (STATION_ADDR (wld s)) lv flag junk l in
           frames = [ASend sock f] /\ Zlen f <= MAX_FRAME_SIZE - 58)
  /\ ((forall n, os_malloc n = true) ->
       (forall t, Forall (Forall sendable) (frame_vectors t l)) ->
       attrib_list (db s') = clear_tx <$> l /\ (frames <> [] <-> has_news flag l)).

Lemma msrp_txpdu_spec sock s :
  Forall skey_ok (key <$> attrib_list (db s)) -> Forall declared (key <$> attrib_list (db s)) ->
  station_ok (wld s) -> (length (attrib_list (db s)) <= MSRP_MAX_ATTRS)%nat ->
  returns (msrp_txpdu sock s) (txpdu_writes sock s).
Proof.
  intros Hk Hd [Hsl Hsb] Hm. unfold msrp_txpdu, malloc.
  destruct (os_malloc _) eqn:Hok; cbn [negb].
  2: { exists []. cbn. split_and!; [by rewrite app_nil_r | by left|].
       intros Hmem. by rewrite Hmem in Hok. }
  cbn [put_mst db wld mrp_db attrib_list send_empty_LeaveAll_flag m_db m_w STATION_ADDR step_tick].
  rewrite msrp_header_spec, res_bind_ret by done.
  set (l := attrib_list (db s)) in *.
  remember (eth_header MSRP_ADDR (STATION_ADDR (wld s)) MSRP_ETYPE) as hdr eqn:Ehdr.
  assert (Hh : Zlen hdr = 15) by (rewrite Ehdr; unfold eth_header; rewrite !length_app, Hsl; done).
  eapply returns_bind; [apply messages_spec; auto; rewrite length_replicate;
    unfold MAX_FRAME_SIZE; lia|].
  intros [[o l'] w'] (Hw & Ho & Hsend).
  assert (Htr : w_trace w' = w_trace (wld s)) by (by destruct Hw as [-> | ->]).
  destruct o as [[ptr buf]|].
  2: { exists []. cbn. split_and!; [by rewrite app_nil_r | by left|].
       intros Hmem Hsd. by destruct (Hsend (Hmem _) Hsd). }
  destruct Ho as [|(-> & junk & rest & Hj & [= -> ->] & Hl & Hroom)]; [done|].
  set (lv := lva_tx _) in *. set (flag := send_empty_LeaveAll_flag _) in *.
  pose proof (smessages_nil lv flag junk l) as Hnil.
  set (body := smessages _ _ _ _ _) in *. unfold MSG_LIST_OFF, MRPDU_ENDMARK_SZ.
  unfold MAX_FRAME_SIZE in *.
  assert (Hlen : Zlen (hdr ++ body) = 15 + Zlen body) by (rewrite length_app; lia).
  rewrite Hlen in *. destruct (Z.eqb_spec (15 + Zlen body) 15) as [H0|H0].
  { assert (Hb0 : body = []) by (apply length_zero_iff_nil; lia).
    exists []. cbn. split_and!; [by rewrite Htr, app_nil_r | by left|].
    intros _ _. split; [done|]. fold l flag. tauto. }
  assert (Hnews : has_news flag l).
  { destruct (decide (has_news flag l)) as [|Hn]; [done|]. apply Hnil in Hn. rewrite Hn in H0.
    done. }
  destruct (Z.ltb_spec (15 + Zlen body) (2000 - 2)); [|lia]. cbn [negb].
  destruct rest as [|a [|b rest]]; cbn [length] in Hl; [lia..|].
  rewrite (app_assoc hdr), wr_app, res_bind_ret by lia.
  rewrite (cons_middle (u8 0)), app_assoc, wr_app, res_bind_ret
    by (rewrite (length_app _ [_]); cbn [length]; lia). change (u8 0) with 0.
  replace (take _ _) with (msrp_frame (STATION_ADDR (wld s)) lv flag junk l).
  2: { unfold msrp_frame. rewrite <- Ehdr. fold body. rewrite <- !app_assoc. cbn [app].
       rewrite (app_assoc hdr body), (app_assoc hdr body).
       change (0 :: 0 :: rest) with ([0; 0] ++ rest). rewrite (app_assoc _ [0; 0]). symmetry.
       apply take_app_length'. rewrite (length_app _ [_; _]). cbn [length]. lia. }
  assert (Hfl : Zlen (msrp_frame (STATION_ADDR (wld s)) lv flag junk l) = 17 + Zlen body).
  { unfold msrp_frame. rewrite <- Ehdr. fold body.
    rewrite app_assoc, (length_app _ [_; _]). cbn [length]. lia. }
  set (f := msrp_frame _ _ _ _ _) in *. cbn [mrpd_send].
  assert (Hgoal : forall s' rc, w_trace (wld s') = w_trace (wld s) ++ [ASend sock f] ->
    attrib_list (db s') = clear_tx <$> l -> txpdu_writes sock s (rc, s')).
  { intros s' rc Ht Hl'. exists [ASend sock f]. unfold MAX_FRAME_SIZE.
    split_and!; [done | right; exists junk; split_and!; auto; fold l flag lv f; lia | done]. }
  destruct (_ <=? 0); apply Hgoal; cbn; by rewrite ?Htr.
Qed.

End Listen.
