(* ===== verification/MsrpDeliver.v ===== *)
(** * What is sent is what is received

    The MSRP receiver run on the frames of [MsrpWire]: every attribute of a
    vector is delivered to the application, in order, with the sender's address
    and the values it has at the sender. *)

From S2P Require Import Prelude Os Mrp Attr AttrProps Mvrp MvrpEmit MvrpRecv Mmrp MmrpList.
From S2P Require Import Msrp MsrpOps MsrpList MsrpRecv MsrpEmit MsrpWire.
From Stdlib Require Import ZArith Lia.
From stdpp Require Import base tactics sets list strings option gmap.
Open Scope Z_scope.

(** ** Vectors as they are sent *)

Fixpoint chained (t : msrp_type) (k : msrp_key) (g : list msrp_attribute) : Prop :=
  match g with
  | [] => True
  | b :: g => type (key b) = t /\ continues t k (key b) = true /\ chained t (key b) g
  end.

(** A vector: attributes of one type that follow each other. *)
Definition vector_ok (t : msrp_type) (g : list msrp_attribute) : Prop :=
  match g with
  | [] => False
  | a :: run => type (key a) = t /\ chained t (key a) run
  end
  /\ Forall (fun a => skey_ok (key a) /\ declared (key a)) g
  /\ (length g <= MSRP_MAX_ATTRS)%nat.

Lemma groups_ok t l : forall o,
  Forall skey_ok (key <$> l) -> Forall declared (key <$> l) ->
  (length l <= MSRP_MAX_ATTRS)%nat ->
  (forall k, o = Some k -> chained t k (groups t o l).1)
  /\ Forall (fun a => skey_ok (key a) /\ declared (key a)) (groups t o l).1
  /\ (length (groups t o l).1 <= length l)%nat /\ Forall (vector_ok t) (groups t o l).2.
Proof.
  induction l as [|a l IH]; intros o Hk Hd Hm; cbn [groups].
  { cbn. split_and!; auto. }
  rewrite fmap_cons in Hk, Hd. apply Forall_cons_iff in Hk as [Ha Hk].
  apply Forall_cons_iff in Hd as [Hda Hd]. cbn [length] in *.
  destruct (IH None Hk Hd ltac:(lia)) as (_ & _ & _ & Hn).
  destruct (IH (Some (key a)) Hk Hd ltac:(lia)) as (H1 & H2 & H3 & H4).
  specialize (H1 _ eq_refl). destruct (sends t a) eqn:Hs; [|cbn; split_and!; auto; lia].
  apply andb_true_iff in Hs as [Ht%bool_decide_eq_true _].
  destruct (follows t o a) eqn:Hf; [|case_decide; [cbn; split_and!; auto; lia|]];
    destruct (groups t (Some (key a)) l) as [run gs]; cbn [fst snd length] in *.
  - split_and!; auto; [|lia]. intros k ->. done.
  - split_and!; auto; [done | lia|]. constructor; [|done]. split_and!; auto. cbn [length]. lia.
Qed.

Lemma vectors_ok t l :
  Forall skey_ok (key <$> l) -> Forall declared (key <$> l) ->
  (length l <= MSRP_MAX_ATTRS)%nat -> Forall (vector_ok t) (frame_vectors t l).
Proof.
  intros Hk Hd Hm. apply groups_ok; rewrite ?mark_keys; auto. by rewrite length_fmap.
Qed.

(** The attribute as the receiver rebuilds it. *)
Definition wire_key (k : msrp_key) : msrp_key :=
  let t := talk_listen k in
  let d := domain k in
  match type k with
  | MSRP_TALKER_ADV_TYPE =>
      MsrpKey MSRP_TALKER_ADV_TYPE
        (Talker (StreamID t) (Dest_Addr t) (Vlan_ID t) (MaxFrameSize t) (MaxIntervalFrames t)
           (PriorityAndRank t) (AccumulatedLatency t) (replicate 8 0) 0)
        zero_domain 0 MSRP_DIRECTION_LISTENER
  | MSRP_TALKER_FAILED_TYPE =>
      MsrpKey MSRP_TALKER_FAILED_TYPE t zero_domain 0 MSRP_DIRECTION_LISTENER
  | MSRP_LISTENER_TYPE =>
      MsrpKey MSRP_LISTENER_TYPE
        (talk_listen (stream_key MSRP_LISTENER_TYPE (StreamID t))) zero_domain (substate k) 0
  | MSRP_DOMAIN_TYPE =>
      MsrpKey MSRP_DOMAIN_TYPE zero_talker
        (Domain (SRclassID d) (SRclassPriority d) (SRclassPriority d) (SRclassVID d)) 0 0
  end.

(** ** The reference *)
Section Deliver.
Context {S : Type} `{sink : !EventSink msrp_key S}.

(** A listener that declares nothing is not delivered. *)
Definition ignored (k : msrp_key) : bool :=
  bool_decide (type k = MSRP_LISTENER_TYPE) && (substate k =? MSRP_LISTENER_IGNORE).

Definition deliver_attr (src : list Z) (a : msrp_attribute) (s : S) : res S :=
  if ignored (key a) then Ret s
  else let s := (sink_malloc s).2 in
       match mrpdu_event (attr_pdu_event a) with
       | Some ev => sink_event ev (Some (set_macaddr src (msrp_alloc (wire_key (key a))))) s
       | None => Ret s
       end.

Fixpoint deliver_group (src : list Z) (g : list msrp_attribute) (s : S) : res S :=
  match g with
  | [] => Ret s
  | a :: g => s ← deliver_attr src a s; deliver_group src g s
  end.

Definition deliver_lva (t : msrp_type) (s : S) : res S :=
  sink_event MRP_EVENT_RLA (Some (msrp_alloc (zero_key t))) (sink_malloc s).2.

(** The vectors of a message; [alloc] tells whether the receiver has allocated
    its array of substates. *)
Fixpoint deliver_groups (t : msrp_type) (src : list Z) (lva alloc : bool)
    (gs : list (list msrp_attribute)) (s : S) : res S :=
  match gs with
  | [] => Ret s
  | g :: gs =>
      s ← (if lva then deliver_lva t s else Ret s);
      s ← deliver_group src g
            (if bool_decide (t = MSRP_LISTENER_TYPE) && negb alloc then (sink_malloc s).2 else s);
      deliver_groups t src false true gs s
  end.

Definition deliver_message (t : msrp_type) (src : list Z) (lva flag : bool)
    (gs : list (list msrp_attribute)) (s : S) : res S :=
  match gs with
  | [] => if flag then deliver_lva t s else Ret s
  | _ => deliver_groups t src lva false gs s
  end.

Fixpoint deliver_messages (ts : list msrp_type) (src : list Z) (lva flag : bool)
    (l : list msrp_attribute) (s : S) : res S :=
  match ts with
  | [] => Ret s
  | t :: ts => s ← deliver_message t src lva flag (frame_vectors t l) s;
               deliver_messages ts src lva flag l s
  end.

(** The frame that [l] calls for, delivered. *)
Definition deliver_frame := deliver_messages MSRP_ORDER.

End Deliver.

(** ** Reading values *)

Lemma rd_at P q (k : nat) b i :
  i = Zlen P + Z.of_nat k -> q !! k = Some b -> rd (P ++ q) i = Ret b.
Proof.
  intros -> H. apply rd_lookup; [lia|]. rewrite lookup_app_r by lia.
  by replace (Z.to_nat _ - length P)%nat with k by lia.
Qed.

Lemma rd16_at P q (k : nat) hi lo i :
  i = Zlen P + Z.of_nat k -> q !! k = Some hi -> q !! S k = Some lo ->
  rd16 (P ++ q) i = Ret (hi * 256 + lo).
Proof.
  intros -> H1 H2. unfold rd16. rewrite (rd_at P q k hi (Zlen P + Z.of_nat k)) by done.
  rewrite res_bind_ret. by rewrite (rd_at P q (S k) lo) by (done || lia).
Qed.

Lemma rd32_at P q (k : nat) a b c d i :
  i = Zlen P + Z.of_nat k -> q !! k = Some a -> q !! S k = Some b ->
  q !! S (S k) = Some c -> q !! S (S (S k)) = Some d ->
  rd32 (P ++ q) i = Ret ((a * 256 + b) * 65536 + (c * 256 + d)).
Proof.
  intros -> H1 H2 H3 H4. unfold rd32. rewrite (rd16_at P q k a b (Zlen P + Z.of_nat k)) by done.
  rewrite res_bind_ret. by rewrite (rd16_at P q (S (S k)) c d) by (done || lia).
Qed.

(** Numbers in network byte order. *)
Lemma enc16 v : 0 <= v < 65536 -> u8 (Z.shiftr v 8) * 256 + u8 v = v.
Proof. intros H. rewrite Z.shiftr_div_pow2 by lia. unfold u8. change (2 ^ 8) with 256. zdm. Qed.

Lemma enc32 v : 0 <= v < 2 ^ 32 ->
  (u8 (Z.shiftr v 24) * 256 + u8 (Z.shiftr v 16)) * 65536 + (u8 (Z.shiftr v 8) * 256 + u8 v) = v.
Proof.
  intros H. rewrite !Z.shiftr_div_pow2 by lia. unfold u8.
  change (2 ^ 8) with 256. change (2 ^ 16) with 65536. change (2 ^ 24) with 16777216. zdm.
Qed.

(** The running values after one of type [t]. *)
Definition advance (t : msrp_type) (f : first_value) : first_value :=
  match t with
  | MSRP_DOMAIN_TYPE => (domain_value f).2
  | MSRP_LISTENER_TYPE => next_listener f
  | _ => First (msrp_increment_streamid (streamid_firstval f))
           (mmrp_increment_macaddr (destmac_firstval f)) (srclassID_firstval f)
           (srclassprio_firstval f) (srclassvid_firstval f) (listener_vectevt_idx f)
  end.

Section Read.
Context (t : msrp_type) (buf vectevt : list Z) (vp : Z).

(** The running values [f] and the frame describe [a]. *)
Definition reads (f : first_value) (a : msrp_attribute) : Prop :=
  type (key a) = t
  /\ match t with
     | MSRP_LISTENER_TYPE => rd vectevt (listener_vectevt_idx f) = Ret (substate (key a))
                             /\ (listener_value (substate (key a)) f).1 = wire_key (key a)
     | MSRP_DOMAIN_TYPE => (domain_value f).1 = wire_key (key a)
     | MSRP_TALKER_ADV_TYPE => talker_adv_value buf vp f = Ret (wire_key (key a), advance t f)
     | MSRP_TALKER_FAILED_TYPE =>
         talker_failed_value buf vp f = Ret (wire_key (key a), advance t f)
     end.

Fixpoint reads_all (f : first_value) (g : list msrp_attribute) : Prop :=
  match g with
  | [] => True
  | a :: g => reads f a /\ reads_all (advance t f) g
  end.

Lemma reads_all_app g1 : forall f g2,
  reads_all f (g1 ++ g2) <->
  reads_all f g1 /\ reads_all (Nat.iter (length g1) (advance t) f) g2.
Proof.
  induction g1 as [|a g1 IH]; intros f g2; [cbn; tauto|].
  cbn [app reads_all length]. rewrite IH, Nat.iter_succ_r. tauto.
Qed.

End Read.

(** *** Talkers *)
Section Talker.
Context (ty : msrp_type) (Hty : is_talker (zero_key ty) = true).
Context (P rest : list Z) (vp : Z) (HP : Zlen P = vp + 2).
Context (a : msrp_attribute) (Ha : skey_ok (key a)) (Hta : type (key a) = ty).

Abbreviation buf := (P ++ first_bytes (key a) ++ rest).
Abbreviation ta := (talk_listen (key a)).

(** The fields behind StreamID and destination. *)
Definition talker_tail : list Z :=
  u8 <$> [Z.shiftr (Vlan_ID ta) 8; Vlan_ID ta; Z.shiftr (MaxFrameSize ta) 8; MaxFrameSize ta;
      Z.shiftr (MaxIntervalFrames ta) 8; MaxIntervalFrames ta; PriorityAndRank ta;
      Z.shiftr (AccumulatedLatency ta) 24; Z.shiftr (AccumulatedLatency ta) 16;
      Z.shiftr (AccumulatedLatency ta) 8; AccumulatedLatency ta].

Lemma talker_bytes :
  first_bytes (key a) = StreamID ta ++ Dest_Addr ta ++ talker_tail
    ++ match ty with MSRP_TALKER_FAILED_TYPE => BridgeID ta ++ [FailureCode ta] | _ => [] end.
Proof.
  destruct (sk_talk _ Ha) as [[_ H1] [_ H2] _ _ _ _ _ [_ H3] H4].
  unfold first_bytes. rewrite Hta. destruct ty; try done; unfold talker_first_value;
    rewrite !fmap_app, !u8_bytes by done; do 3 f_equal.
  rewrite u8_bytes by done. f_equal. rewrite u8_bytes by (by constructor). done.
Qed.

Lemma talker_prefix :
  exists P' q, buf = P' ++ talker_tail ++ q /\ Zlen P' = vp + 16
    /\ (ty = MSRP_TALKER_FAILED_TYPE -> q = BridgeID ta ++ FailureCode ta :: rest).
Proof.
  destruct (sk_talk _ Ha) as [[H1 _] [H2 _] _ _ _ _ _ _ _]. rewrite talker_bytes.
  exists (P ++ StreamID ta ++ Dest_Addr ta). eexists. split; [by rewrite <- !app_assoc|].
  split; [rewrite !length_app, H1, H2; lia|]. intros ->. by rewrite <- app_assoc.
Qed.

Lemma talker_first_read :
  read_first_value ty buf vp = Ret (First (StreamID ta) (Dest_Addr ta) 0 0 0 0).
Proof.
  destruct (sk_talk _ Ha) as [[H1 _] [H2 _] _ _ _ _ _ _ _].
  assert (Hi : rd_list buf (vp + 2) 8 = Ret (StreamID ta)).
  { rewrite talker_bytes, <- H1, <- app_assoc. by apply rd_list_app. }
  assert (Hm : rd_list buf (vp + 10) 6 = Ret (Dest_Addr ta)).
  { rewrite talker_bytes, <- H2, <- !app_assoc, app_assoc. apply rd_list_app.
    rewrite length_app, H1. lia. }
  destruct ty; try done; cbn [read_first_value]; by rewrite Hi, res_bind_ret, Hm.
Qed.

Lemma talker_value_read bridge code f :
  talker_value ty buf vp bridge code f
  = Ret (MsrpKey ty (Talker (streamid_firstval f) (destmac_firstval f) (Vlan_ID ta)
           (MaxFrameSize ta) (MaxIntervalFrames ta) (PriorityAndRank ta) (AccumulatedLatency ta)
           bridge code) zero_domain 0 MSRP_DIRECTION_LISTENER, advance ty f).
Proof.
  destruct (sk_talk _ Ha) as [_ _ Hv Hs Hi Hp Hl _ _].
  destruct talker_prefix as (P' & q & -> & HP' & _). unfold talker_value.
  rewrite (rd16_at P' (talker_tail ++ q) 0 _ _ (vp + 16) ltac:(lia) eq_refl eq_refl), res_bind_ret, enc16 by done.
  rewrite (rd16_at P' (talker_tail ++ q) 2 _ _ (vp + 18) ltac:(lia) eq_refl eq_refl), res_bind_ret, enc16 by done.
  rewrite (rd16_at P' (talker_tail ++ q) 4 _ _ (vp + 20) ltac:(lia) eq_refl eq_refl), res_bind_ret, enc16 by done.
  rewrite (rd_at P' (talker_tail ++ q) 6 _ (vp + 22) ltac:(lia) eq_refl), res_bind_ret, u8_id by done.
  rewrite (rd32_at P' (talker_tail ++ q) 7 _ _ _ _ (vp + 23) ltac:(lia) eq_refl eq_refl eq_refl eq_refl), res_bind_ret,
    enc32 by done.
  by destruct ty.
Qed.

Lemma talker_reads ve k f :
  talker_like ta k -> type k = ty -> streamid_firstval f = StreamID (talk_listen k) ->
  destmac_firstval f = Dest_Addr (talk_listen k) ->
  forall b, key b = k -> reads ty buf ve vp f b.
Proof.
  intros Hlike Ht Hi Hm b Hb. split; [by rewrite Hb|]. rewrite Hb. unfold talker_like in Hlike.
  destruct talker_prefix as (P' & q & HB & HP' & Hq). unfold talker_tail in HB.
  pose proof talker_value_read as Hval. destruct ty; try done.
  - unfold talker_adv_value. rewrite Hval, Hi, Hm. unfold wire_key.
    rewrite Ht. do 3 f_equal. by rewrite Hlike.
  - unfold talker_failed_value. specialize (Hq eq_refl).
    destruct (sk_talk _ Ha) as [_ _ _ _ _ _ _ [Hbl _] _].
    assert (Hbr : rd_list buf (vp + 27) 8 = Ret (BridgeID ta)).
    { rewrite HB, Hq, <- Hbl, app_assoc. apply rd_list_app. rewrite length_app. cbn. lia. }
    assert (Hcd : rd buf (vp + 35) = Ret (FailureCode ta)).
    { rewrite HB, Hq, (app_assoc P'), (app_assoc (P' ++ _)). apply rd_app.
      rewrite !length_app, Hbl. cbn. lia. }
    rewrite Hbr, res_bind_ret, Hcd, res_bind_ret, Hval, Hi, Hm. unfold wire_key.
    rewrite Ht. do 3 f_equal. by rewrite Hlike.
Qed.

Lemma talker_reads_all ve run : forall k f,
  talker_like ta k -> chained ty k run ->
  streamid_firstval f = StreamID (talk_listen k) -> destmac_firstval f = Dest_Addr (talk_listen k) ->
  reads_all ty buf ve vp (advance ty f) run.
Proof.
  induction run as [|b run IH]; intros k f Hlike Hch Hi Hm; [done|].
  destruct Hch as (Ht & Hc & Hch). rewrite continues_talker in Hc by done.
  apply bool_decide_eq_true in Hc. pose proof (talker_like_next _ _ _ Hlike Hc) as Hl'.
  assert (Hf : streamid_firstval (advance ty f) = StreamID (talk_listen (key b))
    /\ destmac_firstval (advance ty f) = Dest_Addr (talk_listen (key b)))
    by (rewrite <- Hc; destruct ty; try done; cbn; by rewrite Hi, Hm).
  destruct Hf as [Hf1 Hf2].
  split; [by apply (talker_reads ve (key b)) | by apply (IH (key b))].
Qed.

End Talker.

(** *** Listeners and domains *)

Lemma listener_reads_all buf ve vp run : forall a dn f r,
  ve = dn ++ substates (a :: run) ++ r -> listener_vectevt_idx f = Zlen dn ->
  streamid_firstval f = StreamID (talk_listen (key a)) ->
  type (key a) = MSRP_LISTENER_TYPE -> chained MSRP_LISTENER_TYPE (key a) run ->
  reads_all MSRP_LISTENER_TYPE buf ve vp f (a :: run).
Proof.
  induction run as [|b run IH]; intros a dn f r Hve Hi Hs Ht Hch;
    (split; [split; [done|]; split|]).
  1,4: rewrite Hve, Hi; by apply rd_app.
  1,3: unfold wire_key, listener_value; rewrite Ht, Hs; done.
  - done.
  - destruct Hch as (Htb & Hc & Hch). cbn [continues] in Hc. apply bool_decide_eq_true in Hc.
    apply (IH b (dn ++ [substate (key a)]) _ r); auto.
    + by rewrite Hve, <- app_assoc.
    + cbn [advance next_listener listener_vectevt_idx]. rewrite length_app, Hi. cbn [length]. lia.
    + cbn [advance next_listener streamid_firstval]. by rewrite Hs, Hc.
Qed.

(** FirstValue and the running values describe the whole vector. *)
Lemma vector_reads t P a run rest vp ve :
  Zlen P = vp + 2 -> vector_ok t (a :: run) ->
  (t = MSRP_LISTENER_TYPE -> exists r, ve = substates (a :: run) ++ r) ->
  let buf := P ++ first_bytes (key a) ++ rest in
  exists f, read_first_value t buf vp = Ret f /\ reads_all t buf ve vp f (a :: run).
Proof.
  intros HP ([Ht Hch] & Hok & _) Hve buf. apply Forall_cons_iff in Hok as [[Hka _] _].
  destruct (is_talker (zero_key t)) eqn:Hty.
  { eexists. split; [by apply (talker_first_read t Hty P rest vp HP a Hka Ht)|].
    split; [by apply (talker_reads t Hty P rest vp HP a Hka Ht ve (key a)); auto using talker_like_refl|].
    by apply (talker_reads_all t Hty P rest vp HP a Hka Ht ve run (key a)); auto using talker_like_refl. }
  destruct t; try discriminate Hty.
  - destruct (Hve eq_refl) as [r Hr]. exists (First (StreamID (talk_listen (key a))) [] 0 0 0 0).
    split; [|by apply (listener_reads_all _ _ _ run a [] _ r)].
    destruct (tk_id _ (sk_talk _ Hka)) as [Hl Hb]. cbn [read_first_value].
    unfold buf, first_bytes. rewrite Ht, u8_bytes, <- Hl by done.
    by rewrite (rd_list_app P) by lia.
  - assert (run = []) as -> by (by destruct run as [|b run]; [|destruct Hch as (_ & ? & _)]).
    destruct (sk_domain _ Hka) as [H1 H2 _ H4]. set (d := domain (key a)) in *.
    exists (First [] [] (SRclassID d) (SRclassPriority d) (SRclassVID d) 0). split.
    + cbn [read_first_value]. unfold buf, first_bytes. rewrite Ht. fold d.
      unfold domain_first_value. cbn [fmap list_fmap app].
      set (q := u8 (SRclassID d) :: _).
      rewrite (rd_at P q 0 _ (vp + 2) ltac:(lia) eq_refl), res_bind_ret, u8_id by done.
      rewrite (rd_at P q 1 _ (vp + 3) ltac:(lia) eq_refl), res_bind_ret, u8_id by done.
      by rewrite (rd16_at P q 2 _ _ (vp + 4) ltac:(lia) eq_refl eq_refl), res_bind_ret, enc16.
    + split; [|done]. split; [done|]. unfold wire_key. by rewrite Ht.
Qed.

Section Agree.
Context {S : Type} `{sink : !EventSink msrp_key S}.
Hypothesis malloc_ok : forall s : S, (sink_malloc s).1 = true.

Lemma values_deliver t buf src vectevt vp g : forall f s,
  reads_all t buf vectevt vp f g ->
  msrp_recv_values t buf src vectevt vp (codes g) f s
  = (s ← deliver_group src g s; Ret (Continue, Nat.iter (length g) (advance t) f, s)).
Proof.
  induction g as [|a g IH]; intros f s; [done|].
  intros [[Ht Hr] Hg]. specialize (IH (advance t f)). rewrite <- Nat.iter_succ_r in IH.
  rewrite fmap_cons. cbn [msrp_recv_values deliver_group].
  assert (Hsub : match t with
                 | MSRP_LISTENER_TYPE => rd vectevt (listener_vectevt_idx f)
                 | _ => Ret 0
                 end = Ret (match t with MSRP_LISTENER_TYPE => substate (key a) | _ => 0 end))
    by (destruct t; try done; apply Hr).
  rewrite Hsub, res_bind_ret. unfold deliver_attr, ignored. rewrite Ht.
  destruct (bool_decide (t = MSRP_LISTENER_TYPE)) eqn:Etl; cbn [andb].
  - apply bool_decide_eq_true in Etl. destruct t; try discriminate Etl.
    destruct (substate (key a) =? MSRP_LISTENER_IGNORE).
    { rewrite !res_bind_ret. apply (IH s Hg). }
    pose proof (malloc_ok s) as Hm. destruct (sink_malloc s) as [[] s1]; [|done].
    cbn [negb snd]. destruct Hr as [_ Hw].
    replace (listener_value (substate (key a)) f) with (wire_key (key a), next_listener f)
      by (by rewrite <- Hw).
    rewrite res_bind_ret, res_bind_assoc. apply res_bind_ext. intros s2. apply (IH s2 Hg).
  - assert (Hv : match t with
                 | MSRP_DOMAIN_TYPE => Ret (domain_value f)
                 | MSRP_LISTENER_TYPE => Ret (listener_value match t with
                                           MSRP_LISTENER_TYPE => substate (key a) | _ => 0 end f)
                 | MSRP_TALKER_ADV_TYPE => talker_adv_value buf vp f
                 | MSRP_TALKER_FAILED_TYPE => talker_failed_value buf vp f
                 end = Ret (wire_key (key a), advance t f)).
    { destruct t; try done. by rewrite <- Hr. }
    pose proof (malloc_ok s) as Hm. destruct (sink_malloc s) as [[] s1]; [|done].
    cbn [negb snd]. rewrite Hv, res_bind_ret, res_bind_assoc. apply res_bind_ext.
    intros s2. apply (IH s2 Hg).
Qed.

Lemma deliver_group_app src g1 : forall g2 s,
  deliver_group src (g1 ++ g2) s = (s ← deliver_group src g1 s; deliver_group src g2 s).
Proof.
  induction g1 as [|a g1 IH]; intros g2 s; [done|]. cbn [app deliver_group].
  rewrite res_bind_assoc. apply res_bind_ext. intros s1. apply IH.
Qed.

(** One three-packed byte: the attributes [ch] it stands for are delivered. *)
Lemma msrp_bytes_step n t buf src ve vp vectidx f nv s a b c ch :
  rd buf (vp + 2 + vectidx) = Ret (MRPDU_3PACK_ENCODE a b c) ->
  0 <= a <= 5 -> 0 <= b <= 5 -> 0 <= c <= 5 -> 0 <= nv < 8192 ->
  take (Z.to_nat nv) [a; b; c] = codes ch -> reads_all t buf ve vp f ch ->
  msrp_recv_bytes (Datatypes.S n) t buf src ve vp vectidx f nv s
  = (s ← deliver_group src ch s;
     msrp_recv_bytes n t buf src ve vp (vectidx + 1) (Nat.iter (length ch) (advance t) f)
       (nv - Zlen ch) s).
Proof.
  intros Hrd Ha Hb Hc Hnv Hch Hr. cbn [msrp_recv_bytes].
  rewrite Hrd, res_bind_ret, unpack_3 by done. unfold MRPDU_LV.
  destruct (Z.ltb_spec 5 a); [lia|].
  assert (Ht : take (Z.to_nat (if 3 <? nv then 3 else nv)) [a; b; c] = codes ch).
  { destruct (Z.ltb_spec 3 nv); [|done]. rewrite <- Hch. by rewrite !take_ge by (cbn; lia). }
  assert (Hl : (if 3 <? nv then 3 else nv) = Zlen ch).
  { rewrite <- (length_fmap attr_pdu_event ch), <- Ht, length_take. cbn [length].
    destruct (Z.ltb_spec 3 nv); lia. }
  rewrite Ht, Hl, values_deliver, res_bind_assoc by done.
  apply res_bind_ext. intros s1. rewrite res_bind_ret.
  rewrite u16_id; [done|]. destruct (Z.ltb_spec 3 nv); lia.
Qed.

(** The extra iteration at the end of the vector. *)
Lemma msrp_bytes_last t buf src ve vp vectidx f x s :
  rd buf (vp + 2 + vectidx) = Ret x ->
  msrp_recv_bytes 1 t buf src ve vp vectidx f 0 s = Ret (Continue, s).
Proof.
  intros Hrd. cbn [msrp_recv_bytes]. rewrite Hrd, res_bind_ret.
  destruct (vect_3pack_decode x) as [[e ?]?]. cbn. by destruct (MRPDU_LV <? e).
Qed.

Lemma msrp_bytes_deliver t src ve vp g : forall buf pre x rest vectidx f s,
  buf = pre ++ pack_events (codes g) ++ x :: rest -> Zlen pre = vp + 2 + vectidx ->
  Zlen g < 8192 -> reads_all t buf ve vp f g ->
  msrp_recv_bytes (Datatypes.S (length (pack_events (codes g)))) t buf src ve vp vectidx f
    (Zlen g) s
  = (s ← deliver_group src g s; Ret (Continue, s)).
Proof.
  pose proof (@attr_pdu_event_range msrp_key) as Hc.
  induction g as [|a|a b|a b c g IH] using list_ind3;
    intros buf pre x rest vectidx f s Hbuf Hp Hn Hr; rewrite ?fmap_cons in *.
  - change (pack_events (codes [])) with (@nil Z) in *. cbn [length Z.of_nat deliver_group].
    rewrite res_bind_ret. apply (msrp_bytes_last _ _ _ _ _ _ _ x). rewrite Hbuf. by apply rd_app.
  - change (pack_events _) with [MRPDU_3PACK_ENCODE (attr_pdu_event a) 0 0] in *.
    rewrite (msrp_bytes_step _ _ _ _ _ _ _ _ _ _ (attr_pdu_event a) 0 0 [a]); auto; try lia.
    2: { rewrite Hbuf. by apply rd_app. }
    apply res_bind_ext. intros s1. apply (msrp_bytes_last _ _ _ _ _ _ _ x).
    rewrite Hbuf, app_assoc, rd_app by (rewrite length_app; cbn; lia). done.
  - change (pack_events _) with [MRPDU_3PACK_ENCODE (attr_pdu_event a) (attr_pdu_event b) 0] in *.
    rewrite (msrp_bytes_step _ _ _ _ _ _ _ _ _ _ (attr_pdu_event a) (attr_pdu_event b) 0 [a; b]);
      auto; try lia.
    2: { rewrite Hbuf. by apply rd_app. }
    apply res_bind_ext. intros s1. apply (msrp_bytes_last _ _ _ _ _ _ _ x).
    rewrite Hbuf, app_assoc, rd_app by (rewrite length_app; cbn; lia). done.
  - rewrite pack_events_cons in *. cbn [app] in Hbuf. cbn [length] in Hn |- *.
    change (a :: b :: c :: g) with ([a; b; c] ++ g) in Hr |- *.
    apply reads_all_app in Hr as [Hr1 Hr2].
    rewrite (msrp_bytes_step _ _ _ _ _ _ _ _ _ _ (attr_pdu_event a) (attr_pdu_event b)
      (attr_pdu_event c) [a; b; c]); auto; try (cbn [length app]; lia).
    2: { rewrite Hbuf. by apply rd_app. }
    2: { apply take_ge. cbn. lia. }
    rewrite deliver_group_app, res_bind_assoc. apply res_bind_ext. intros s1.
    replace (Z.of_nat _ - Zlen [a; b; c]) with (Zlen g) by (cbn [length]; lia).
    apply (IH buf (pre ++ [MRPDU_3PACK_ENCODE (attr_pdu_event a) (attr_pdu_event b)
      (attr_pdu_event c)]) x rest); auto; try lia.
    + by rewrite Hbuf, <- app_assoc.
    + rewrite length_app. cbn [length]. lia.
Qed.

(** *** Substates *)

Lemma store_exact vals : forall done old rest (s : S),
  length old = length vals -> bytes_ok vals ->
  store_substates vals (done ++ old ++ rest) (Zlen done) s
  = Ret (Some (done ++ vals ++ rest, Zlen done + Zlen vals), s).
Proof.
  induction vals as [|x vals IH]; intros done [|o old] rest s Hl Hb; try discriminate Hl;
    cbn [store_substates]; [cbn; by rewrite Z.add_0_r|].
  apply Forall_cons_iff in Hb as [Hx Hb].
  rewrite (proj2 (Z.eqb_neq _ _)) by (rewrite !length_app; cbn [length]; lia). cbn [negb app].
  rewrite wr_app, res_bind_ret, u8_id, (cons_middle x), app_assoc by done.
  replace (Zlen done + 1) with (Zlen (done ++ [x])) by (rewrite length_app; cbn; lia).
  rewrite (IH (done ++ [x])) by (by injection Hl || done).
  replace (Zlen (done ++ [x]) + Zlen vals) with (Zlen done + Zlen (x :: vals))
    by (rewrite length_app; cbn [length]; lia).
  by rewrite <- app_assoc.
Qed.

Lemma recv_4packed_exact l : forall pre brest done old rest (s : S),
  Forall substate_ok l -> Zlen l < 65536 -> length old = length l ->
  msrp_recv_4packed (length (pack4 l)) (pre ++ pack4 l ++ brest) (done ++ old ++ rest) (Zlen pre)
    (Zlen l) (Zlen done) s
  = Ret (Some (done ++ l ++ rest), s).
Proof.
  assert (H0 : substate_ok 0) by (unfold substate_ok; lia).
  assert (Hlast : forall l b pre brest done old rest (s : S),
    Forall substate_ok l -> (length l <= 4)%nat -> length old = length l ->
    take (Z.to_nat (if 4 <? Zlen l then 4 else Zlen l)) (vect_4pack_decode b) = l ->
    msrp_recv_4packed 1 (pre ++ [b] ++ brest) (done ++ old ++ rest) (Zlen pre) (Zlen l)
      (Zlen done) s = Ret (Some (done ++ l ++ rest), s)).
  { intros l' b pre brest done old rest s Hl H4 Ho Hd. cbn [msrp_recv_4packed app].
    rewrite rd_app, res_bind_ret, Hd, store_exact by (done || by apply substate_bytes). done. }
  induction l as [|a|a b|a b c|a b c d l IH] using list_four_ind;
    intros pre brest done old rest s Hl Hn Ho; cbn [pack4];
    repeat match goal with H : Forall substate_ok (_ :: _) |- _ =>
      apply Forall_cons_iff in H as [? ?] end.
  { destruct old; [done | discriminate Ho]. }
  1-3: apply Hlast; [forall_done | cbn; lia | done |];
    match goal with |- context [MRPDU_4PACK_ENCODE ?a ?b ?c ?d] =>
      destruct (decode_4pack a b c d) as [_ ->] end; done.
  do 4 (destruct old as [|? old]; [discriminate Ho|]).
  cbn [length msrp_recv_4packed app]. rewrite rd_app, res_bind_ret by done.
  rewrite (proj2 (decode_4pack a b c d ltac:(done) ltac:(done) ltac:(done) ltac:(done))).
  cbn [length] in Hn.
  set (n := Z.of_nat (Datatypes.S (Datatypes.S (Datatypes.S (Datatypes.S (length l)))))) in *.
  assert (Hp : (if 4 <? n then 4 else n) = 4) by (destruct (Z.ltb_spec 4 n); unfold n in *; lia).
  rewrite Hp. cbn [take Z.to_nat Pos.to_nat Pos.iter_op Nat.add].
  change (done ++ ?w :: ?x :: ?y :: ?z :: old ++ rest)
    with (done ++ [w; x; y; z] ++ (old ++ rest)).
  rewrite (store_exact [a; b; c; d]), res_bind_ret
    by (done || (apply substate_bytes; forall_done)).
  replace (u16 (n - 4)) with (Zlen l) by (unfold n in *; rewrite u16_id; lia).
  rewrite (cons_middle _ pre), (app_assoc pre), (app_assoc done).
  replace (Zlen pre + 1) with (Zlen (pre ++ [MRPDU_4PACK_ENCODE a b c d]))
    by (rewrite length_app; cbn; lia).
  replace (Zlen done + Zlen [a; b; c; d]) with (Zlen (done ++ [a; b; c; d]))
    by (rewrite length_app; cbn; lia).
  rewrite IH; [|done | unfold n in Hn; lia | by injection Ho]. by rewrite <- app_assoc.
Qed.

(** The array of substates, once allocated, has room for a vector. *)
Definition array_ok (o : option (list Z)) : Prop := forall v, o = Some v -> 64 <= Zlen v.

Lemma substates_deliver buf pre g rest vp eof arr :
  buf = pre ++ pack_events (codes g) ++ pack4 (substates g) ++ rest -> Zlen pre = vp + 10 ->
  Forall substate_ok (substates g) -> Zlen g <= 64 ->
  vp + 10 + Zlen (pack_events (codes g)) + Zlen (pack4 (substates g)) < eof -> array_ok arr ->
  exists v, 64 <= Zlen v /\ (exists r, v = substates g ++ r) /\ forall s : S,
    recv_listener_substates buf vp eof (Zlen g) arr s
    = Ret (Some v, match arr with Some _ => s | None => (sink_malloc s).2 end).
Proof.
  intros Hbuf Hp Hsub Hn Heof Harr. destruct (pack4_ok _ Hsub) as [_ Hp4].
  assert (Hsl : length (substates g) = length g) by apply length_fmap.
  pose proof (num_3pack_events (codes g)) as Hp3. rewrite length_fmap in Hp3. rewrite Hsl in Hp4.
  set (arr' := default (replicate 64 0) arr).
  assert (Ha : 64 <= Zlen arr') by (unfold arr'; destruct arr; [by apply Harr | done]).
  exists (substates g ++ drop (length g) arr').
  split; [rewrite length_app, Hsl, length_drop; lia|]. split; [by eexists|]. intros s.
  unfold recv_listener_substates. rewrite Hp3, <- Hp4.
  rewrite (proj2 (Z.leb_gt _ _)) by lia.
  assert (Hgo : forall s : S, msrp_recv_4packed (Z.to_nat (Zlen (pack4 (substates g)))) buf arr'
    (vp + 2 + (8 + Zlen (pack_events (codes g)))) (Zlen g) 0 s
    = Ret (Some (substates g ++ drop (length g) arr'), s)).
  { intros s0. rewrite Nat2Z.id, Hbuf, app_assoc, <- Hsl.
    replace (vp + 2 + (8 + _)) with (Zlen (pre ++ pack_events (codes g)))
      by (rewrite length_app; lia).
    rewrite <- (take_drop (length (substates g)) arr') at 1.
    apply (recv_4packed_exact (substates g) _ rest [] (take _ arr') _ s0);
      [done | lia | rewrite length_take; lia]. }
  destruct arr as [v|]; cbn [negb].
  - apply Hgo.
  - pose proof (malloc_ok s) as Hm. destruct (sink_malloc s) as [ok s1]. cbn [fst snd] in *.
    subst ok. cbn [negb]. apply Hgo.
Qed.

(** *** Vectors *)

Lemma svector_len_eq t lva a run :
  vector_ok t (a :: run) ->
  let n := Zlen (a :: run) in
  Zlen (svector t lva (a :: run)) = 2 + attrib_len t + MsrpOps.vector_bytes t n
  /\ num_3pack_bytes n = Zlen (pack_events (codes (a :: run)))
  /\ (t = MSRP_LISTENER_TYPE -> Forall substate_ok (substates (a :: run))
        /\ num_4pack_bytes n = Zlen (pack4 (substates (a :: run)))).
Proof.
  intros ([Ht Hch] & Hok & _) n.
  pose proof (num_3pack_events (codes (a :: run))) as H3. rewrite length_fmap in H3. fold n in H3.
  assert (H4 : t = MSRP_LISTENER_TYPE -> Forall substate_ok (substates (a :: run))
    /\ num_4pack_bytes n = Zlen (pack4 (substates (a :: run)))).
  { intros ->. assert (Hs : Forall substate_ok (substates (a :: run))).
    { assert (Hty : Forall (fun b => type (key b) = MSRP_LISTENER_TYPE) (a :: run)).
      { constructor; [done|]. clear -Hch. generalize (key a) Hch. clear Hch.
        induction run as [|b run IH]; intros k Hch; [constructor|].
        destruct Hch as (? & _ & Hch). constructor; [done | by apply (IH (key b))]. }
      unfold substates. apply Forall_fmap, Forall_forall. intros b Hb.
      rewrite Forall_forall in Hty, Hok. by apply (Hok b Hb), Hty. }
    split; [done|]. destruct (pack4_ok _ Hs) as [_ ->]. unfold substates. by rewrite length_fmap. }
  split_and!; [|done | done]. unfold svector, events_bytes, MsrpOps.vector_bytes.
  rewrite !length_app, H3. apply Forall_cons_iff in Hok as [[Hka _] _].
  pose proof (first_bytes_len _ Hka) as Hfl. rewrite Ht in Hfl. cbn [length].
  destruct t; cbn [length]; try lia. destruct (H4 eq_refl) as [_ ->]. lia.
Qed.

Definition allocated (lo : recv_locals) : bool :=
  match listener_vectevt lo with Some _ => true | None => false end.

(** The locals after a vector. *)
Definition locals_after (t : msrp_type) (lva : bool) (lo lo' : recv_locals) : Prop :=
  saw_lva lo' = (if lva then t :: saw_lva lo else saw_lva lo)
  /\ array_ok (listener_vectevt lo')
  /\ (if bool_decide (t = MSRP_LISTENER_TYPE) then allocated lo' = true
      else listener_vectevt lo' = listener_vectevt lo).

Lemma recv_lva_deliver t (lva : bool) saw (s : S)
    (k : option (list msrp_type) * S -> res (flow * Z * recv_locals * S)) :
  (lva = true -> t ∉ saw) ->
  (msrp_recv_lva t lva saw s ≫= k)
  = (s ← (if lva then deliver_lva t s else Ret s); k (Some (if lva then t :: saw else saw), s)).
Proof.
  intros Hs. unfold msrp_recv_lva. destruct lva; cbn [andb]; [|done].
  rewrite bool_decide_eq_false_2 by auto. cbn [negb]. unfold deliver_lva.
  pose proof (malloc_ok s) as Hm. destruct (sink_malloc s) as [[] s1]; [|done].
  cbn [negb snd]. by rewrite res_bind_assoc.
Qed.

Lemma header_reads pre hdr q ptr :
  Zlen pre = ptr -> 0 < hdr < 65536 ->
  let buf := pre ++ hdr / 256 :: hdr mod 256 :: q in
  rd buf ptr = Ret (hdr / 256) /\ rd buf (ptr + 1) = Ret (hdr mod 256) /\ rd16 buf ptr = Ret hdr
  /\ (hdr / 256 =? 0) && (hdr mod 256 =? 0) = false.
Proof.
  intros Hp Hh buf. split_and!.
  - by apply rd_app.
  - apply (rd_at pre _ 1); [lia | done].
  - unfold buf. rewrite rd16_app by done. f_equal. zdm.
  - apply andb_false_iff. rewrite !Z.eqb_neq. zdm.
Qed.

(** The substates of a vector of any type. *)
Lemma vector_substates t P g rest ptr eof arr saw :
  let tail := match t with MSRP_LISTENER_TYPE => pack4 (substates g) | _ => [] end in
  let buf := P ++ pack_events (codes g) ++ tail ++ rest in
  Zlen P = ptr + 2 + attrib_len t -> vector_ok t g ->
  ptr + 2 + attrib_len t + Zlen (pack_events (codes g) ++ tail) < eof -> array_ok arr ->
  (t = MSRP_LISTENER_TYPE -> Forall substate_ok (substates g)) ->
  exists v, (t = MSRP_LISTENER_TYPE -> exists r, v = substates g ++ r)
    /\ locals_after t false (Locals saw arr) match t with
                                             | MSRP_LISTENER_TYPE => Locals saw (Some v)
                                             | _ => Locals saw arr
                                             end
    /\ forall s : S,
       match t with
       | MSRP_LISTENER_TYPE => recv_listener_substates buf ptr eof (Zlen g) arr s
       | _ => Ret (Some (default [] arr), s)
       end
       = Ret (Some v, if bool_decide (t = MSRP_LISTENER_TYPE) && negb (allocated (Locals saw arr))
                      then (sink_malloc s).2 else s).
Proof.
  intros tail buf HP (_ & _ & Hmax) Heof Harr Hsub. unfold MSRP_MAX_ATTRS in Hmax.
  destruct t; try (exists (default [] arr); split_and!; done).
  rewrite length_app in Heof. cbn [attrib_len] in *.
  destruct (substates_deliver buf P g rest ptr eof arr) as (v & Hv & Hr & He);
    [done | lia | auto | lia | unfold tail in *; lia | done|].
  exists v. split_and!; [done | split_and!; [done | | done] |].
  - by intros v' [= <-].
  - intros s. rewrite He. by destruct arr.
Qed.

Lemma msrp_vector_step t src eof buf pre lva g x rest ptr lo :
  buf = pre ++ svector t lva g ++ x :: rest -> Zlen pre = ptr -> vector_ok t g ->
  ptr + Zlen (svector t lva g) < eof -> (lva = true -> t ∉ saw_lva lo) ->
  array_ok (listener_vectevt lo) ->
  exists lo', locals_after t lva lo lo' /\ forall fuel (s : S),
  msrp_recv_vectors (Datatypes.S fuel) t buf src eof ptr lo s
  = (s ← (if lva then deliver_lva t s else Ret s);
     s ← deliver_group src g
           (if bool_decide (t = MSRP_LISTENER_TYPE) && negb (allocated lo)
            then (sink_malloc s).2 else s);
     msrp_recv_vectors fuel t buf src eof (ptr + Zlen (svector t lva g)) lo' s).
Proof.
  intros Hbuf Hp Hok Heof Hsaw Harr.
  destruct g as [|a run]; [by destruct Hok as [[] _]|].
  destruct (svector_len_eq t lva a run Hok) as (Hlen & H3 & H4).
  pose proof Hok as ([Ht _] & Hka & Hmax). apply Forall_cons_iff in Hka as [[Hka _] _].
  pose proof (first_bytes_len _ Hka) as Hfl. rewrite Ht in Hfl.
  set (g := a :: run) in *. set (n := Zlen g) in *. unfold MSRP_MAX_ATTRS in Hmax.
  assert (Hn : 0 < n <= 49) by (unfold n, g in *; cbn [length] in *; lia).
  destruct (vect_header n lva) as [Hnum Hlva]; [lia|].
  set (hdr := n + (if lva then 8192 else 0)) in *.
  set (tl := match t with MSRP_LISTENER_TYPE => pack4 (substates g) | _ => [] end).
  set (P := pre ++ [hdr / 256; hdr mod 256]).
  assert (HP : Zlen P = ptr + 2) by (unfold P; rewrite length_app; cbn [length]; lia).
  assert (HP2 : Zlen (P ++ first_bytes (key a)) = ptr + 2 + attrib_len t)
    by (rewrite length_app; lia).
  assert (Hb1 : buf = P ++ first_bytes (key a) ++ pack_events (codes g) ++ tl ++ x :: rest).
  { rewrite Hbuf. unfold svector, g, events_bytes, P. fold g hdr tl. by rewrite <- !app_assoc. }
  assert (Hvl : MsrpOps.vector_bytes t n = Zlen (pack_events (codes g) ++ tl)).
  { unfold MsrpOps.vector_bytes, tl. rewrite length_app, H3. destruct t; cbn [length]; try lia.
    destruct (H4 eq_refl) as [_ ->]. lia. }
  destruct (vector_substates t (P ++ first_bytes (key a)) g (x :: rest) ptr eof
    (listener_vectevt lo) (if lva then t :: saw_lva lo else saw_lva lo))
    as (v & Hv & Hlo & Hs); [done | done | fold tl; lia | done | intros E; apply (H4 E)|].
  fold tl in Hs. rewrite <- app_assoc, <- Hb1 in Hs.
  destruct (vector_reads t P a run (pack_events (codes g) ++ tl ++ x :: rest) ptr v HP Hok Hv)
    as (f & Hf & Hr). rewrite <- Hb1 in Hf, Hr. fold g in Hr.
  eexists. split; [exact Hlo|]. intros fuel s. cbn [msrp_recv_vectors].
  destruct (header_reads pre hdr (first_bytes (key a) ++ pack_events (codes g) ++ tl ++ x :: rest)
    ptr Hp) as (R0 & R1 & R2 & R3); [unfold hdr; destruct lva; lia|].
  assert (Hb2 : buf = pre ++ hdr / 256 :: hdr mod 256 :: first_bytes (key a)
    ++ pack_events (codes g) ++ tl ++ x :: rest) by (rewrite Hb1; unfold P; by rewrite <- app_assoc).
  rewrite <- Hb2 in R0, R1, R2. rewrite R0, R1, !res_bind_ret, R3, R2, res_bind_ret, Hnum, Hlva.
  rewrite recv_lva_deliver by done. apply res_bind_ext. intros s1. cbn beta iota.
  rewrite (proj2 (Z.eqb_neq _ _)) by lia.
  assert (Hq : n / 3 + match t with MSRP_LISTENER_TYPE => n / 4 | _ => 0 end
    <= MsrpOps.vector_bytes t n).
  { unfold MsrpOps.vector_bytes, num_3pack_bytes, num_4pack_bytes. destruct t; repeat btest; lia. }
  pose proof (attrib_len_range t).
  rewrite (proj2 (Z.leb_gt _ _)), Hf, res_bind_ret by lia. cbn [saw_lva listener_vectevt].
  rewrite Hs, res_bind_ret, H3.
  replace (Z.to_nat (Zlen (pack_events (codes g)) + 1))
    with (Datatypes.S (length (pack_events (codes g)))) by lia.
  destruct (tl ++ x :: rest) as [|y tail] eqn:Etl; [by destruct tl|].
  rewrite (msrp_bytes_deliver t src v ptr g buf (P ++ first_bytes (key a)) y tail);
    [|by rewrite Hb1, <- app_assoc | lia | unfold n in *; lia | done].
  rewrite res_bind_assoc. apply res_bind_ext. intros s2. rewrite res_bind_ret. cbn beta iota.
  replace (ptr + 2 + attrib_len t + MsrpOps.vector_bytes t n)
    with (ptr + Zlen (svector t lva g)) by lia. done.
Qed.

(** *** Messages *)

(** The locals after a message of type [t]. *)
Definition locals_moved (t : msrp_type) (lo lo' : recv_locals) : Prop :=
  (forall t', t' ∈ saw_lva lo' -> t' = t \/ t' ∈ saw_lva lo)
  /\ array_ok (listener_vectevt lo')
  /\ (t <> MSRP_LISTENER_TYPE -> listener_vectevt lo' = listener_vectevt lo).

Lemma locals_after_moved t lva lo lo' : locals_after t lva lo lo' -> locals_moved t lo lo'.
Proof.
  intros (H1 & H2 & H3). split_and!; [|done|].
  - intros t'. rewrite H1. destruct lva; [rewrite elem_of_cons|]; auto.
  - intros Hne. by rewrite bool_decide_eq_false_2 in H3.
Qed.

Lemma locals_moved_trans t lo1 lo2 lo3 :
  locals_moved t lo1 lo2 -> locals_moved t lo2 lo3 -> locals_moved t lo1 lo3.
Proof.
  intros (A1 & _ & A3) (B1 & B2 & B3). split_and!; [|done | intros Hn; rewrite B3, A3; auto].
  intros t' Ht. destruct (B1 t' Ht); auto.
Qed.

(** Only listeners need the array. *)
Lemma deliver_groups_alloc t src (lva b b' : bool) gs (s : S) :
  (t = MSRP_LISTENER_TYPE -> b = b') ->
  deliver_groups t src lva b gs s = deliver_groups t src lva b' gs s.
Proof.
  intros H. destruct gs as [|g gs]; [done|]. cbn [deliver_groups].
  case_bool_decide; [by rewrite (H ltac:(done)) | done].
Qed.

Lemma endmark_reads pre rest ptr fuel t src eof lo (s : S) :
  Zlen pre = ptr ->
  msrp_recv_vectors (Datatypes.S fuel) t (pre ++ 0 :: 0 :: rest) src eof ptr lo s
  = Ret (Continue, ptr, lo, s).
Proof.
  intros Hp. cbn [msrp_recv_vectors].
  rewrite (rd_at pre (0 :: 0 :: rest) 0 0 ptr) by (done || lia). rewrite res_bind_ret.
  by rewrite (rd_at pre (0 :: 0 :: rest) 1 0 (ptr + 1)) by (done || lia).
Qed.

Lemma msrp_vectors_deliver t src eof gs : forall buf pre lva rest ptr lo,
  buf = pre ++ svectors t lva gs ++ 0 :: 0 :: rest -> Zlen pre = ptr ->
  Forall (vector_ok t) gs -> ptr + Zlen (svectors t lva gs) < eof ->
  (lva = true -> t ∉ saw_lva lo) -> array_ok (listener_vectevt lo) ->
  exists lo', locals_moved t lo lo' /\ forall fuel (s : S), (length gs < fuel)%nat ->
  msrp_recv_vectors fuel t buf src eof ptr lo s
  = (s ← deliver_groups t src lva (allocated lo) gs s;
     Ret (Continue, ptr + Zlen (svectors t lva gs), lo', s)).
Proof.
  induction gs as [|g gs IH]; intros buf pre lva rest ptr lo Hbuf Hp Hok Heof Hsaw Harr.
  { exists lo. split; [split_and!; auto|]. intros [|fuel] s Hf; [cbn in Hf; lia|].
    rewrite Hbuf. cbn [svectors app length]. rewrite endmark_reads by done.
    cbn. by rewrite Z.add_0_r. }
  apply Forall_cons_iff in Hok as [Hg Hok]. cbn [svectors] in *.
  rewrite length_app, Nat2Z.inj_add in *. rewrite <- app_assoc in Hbuf.
  destruct (svectors t false gs ++ 0 :: 0 :: rest) as [|x tail] eqn:Htl;
    [by destruct (svectors t false gs)|].
  destruct (msrp_vector_step t src eof buf pre lva g x tail ptr lo) as (lo1 & Hlo1 & Hstep);
    auto; [lia|].
  destruct (IH buf (pre ++ svector t lva g) false rest (ptr + Zlen (svector t lva g)) lo1)
    as (lo2 & Hlo2 & Hgo); auto.
  { by rewrite Hbuf, <- Htl, <- app_assoc. }
  { rewrite length_app. lia. }
  { lia. }
  { done. }
  { apply Hlo1. }
  exists lo2. split; [eapply locals_moved_trans; [by eapply locals_after_moved | done]|].
  intros [|fuel] s Hf; [cbn in Hf; lia|]. cbn [length] in Hf. rewrite Hstep. cbn [deliver_groups].
  rewrite res_bind_assoc. apply res_bind_ext. intros s1. rewrite res_bind_assoc.
  apply res_bind_ext. intros s2. rewrite Hgo by lia.
  rewrite (deliver_groups_alloc t src false (allocated lo1) true); [by rewrite Z.add_assoc|].
  intros Ht. destruct Hlo1 as (_ & _ & Hal). by rewrite bool_decide_eq_true_2 in Hal.
Qed.

(** The list of a message, vectors or the empty LeaveAll. *)
Lemma msrp_list_deliver t src eof gs buf pre lva flag junk rest ptr lo :
  buf = pre ++ slist_bytes t lva junk gs ++ 0 :: 0 :: rest -> Zlen pre = ptr ->
  Forall (vector_ok t) gs -> ptr + Zlen (slist_bytes t lva junk gs) < eof ->
  length junk = Z.to_nat (attrib_len t) -> (gs = [] -> flag = true) ->
  t ∉ saw_lva lo -> array_ok (listener_vectevt lo) ->
  (t = MSRP_LISTENER_TYPE -> allocated lo = false) ->
  exists lo', locals_moved t lo lo' /\ forall fuel (s : S),
  (length gs < fuel)%nat -> (2 <= fuel)%nat ->
  msrp_recv_vectors fuel t buf src eof ptr lo s
  = (s ← deliver_message t src lva flag gs s;
     Ret (Continue, ptr + Zlen (slist_bytes t lva junk gs), lo', s)).
Proof.
  intros Hbuf Hp Hok Heof Hj Hflag Hsaw Harr Hal. destruct gs as [|g gs].
  - rewrite (Hflag eq_refl). exists (Locals (t :: saw_lva lo) (listener_vectevt lo)).
    split; [split_and!; auto; intros t'; cbn; rewrite elem_of_cons; auto|].
    intros [|[|fuel]] s _ Hf; [lia..|]. cbn [slist_bytes app] in Hbuf.
    destruct (header_reads pre 8192 (junk ++ 0 :: 0 :: rest) ptr Hp) as (R0 & R1 & R2 & R3); [lia|].
    change (8192 / 256) with 32 in *. change (8192 mod 256) with 0 in *. rewrite <- Hbuf in *.
    remember (Datatypes.S fuel) as fuel1. cbn [msrp_recv_vectors].
    rewrite R0, R1, !res_bind_ret, R3, R2, res_bind_ret.
    change (MRPDU_VECT_LVA 8192) with true. change (MRPDU_VECT_NUMVALUES 8192) with 0.
    rewrite recv_lva_deliver by done. cbn [deliver_message]. apply res_bind_ext. intros s1.
    cbn [Z.eqb saw_lva listener_vectevt]. subst fuel1.
    pose proof (attrib_len_range t) as Hr.
    assert (Hb2 : buf = (pre ++ 32 :: 0 :: junk) ++ 0 :: 0 :: rest)
      by (rewrite Hbuf; by rewrite <- app_assoc).
    rewrite Hb2, endmark_reads by (rewrite length_app; cbn [length]; lia).
    cbn [slist_bytes length app]. do 4 f_equal. lia.
  - destruct (msrp_vectors_deliver t src eof (g :: gs) buf pre lva rest ptr lo)
      as (lo' & Hlo & Hgo); auto.
    exists lo'. split; [done|]. intros fuel s Hf _. rewrite Hgo by done.
    cbn [slist_bytes deliver_message]. by rewrite (deliver_groups_alloc _ _ _ (allocated lo) false).
Qed.

(** What a message that is not empty consists of. *)
Lemma smessage_shape t lva flag junk gs :
  (gs = [] -> flag = true) ->
  let body := slist_bytes t lva junk gs in
  let len := Zlen body + 2 in
  smessage t lva flag junk gs
  = [msrp_type_code t; attrib_len t; len / 256; len mod 256] ++ body ++ [0; 0].
Proof. intros H. destruct gs; [by rewrite H | done]. Qed.

Lemma slist_bytes_min t lva junk gs :
  length junk = Z.to_nat (attrib_len t) -> Forall (vector_ok t) gs ->
  attrib_len t + 2 <= Zlen (slist_bytes t lva junk gs)
  /\ Zlen gs <= Zlen (slist_bytes t lva junk gs).
Proof.
  intros Hj Hok. pose proof (attrib_len_range t).
  assert (Hg : forall b g, vector_ok t g -> attrib_len t + 2 <= Zlen (svector t b g)).
  { intros b [|a run] Hg; [by destruct Hg as [[] _]|].
    destruct (svector_len_eq t b a run Hg) as (-> & H3 & _). unfold MsrpOps.vector_bytes.
    assert (0 <= Zlen (a :: run)) as Hn by lia.
    destruct (num_4pack_bound _ Hn) as [_ H4]. rewrite H3.
    assert (0 <= Zlen (a :: run) / 4) by (apply Z.div_pos; lia). destruct t; lia. }
  assert (Hgs : forall gs b, Forall (vector_ok t) gs -> Zlen gs <= Zlen (svectors t b gs)).
  { clear gs Hok. induction gs as [|g gs IH]; intros b Hok; [done|].
    apply Forall_cons_iff in Hok as [Hgk Hok]. cbn [svectors length]. rewrite length_app.
    pose proof (Hg b g Hgk). pose proof (IH false Hok). lia. }
  destruct gs as [|g gs]; [cbn [slist_bytes app length]; lia|].
  split; [|by apply Hgs]. apply Forall_cons_iff in Hok as [Hgk _].
  cbn [slist_bytes svectors]. rewrite length_app. pose proof (Hg lva g Hgk). lia.
Qed.

Lemma message_deliver t src eof gs buf pre lva flag junk rest ptr lo :
  buf = pre ++ smessage t lva flag junk gs ++ rest -> Zlen pre = ptr ->
  (gs = [] -> flag = true) -> Forall (vector_ok t) gs ->
  ptr + Zlen (smessage t lva flag junk gs) <= eof -> eof <= MAX_FRAME_SIZE ->
  length junk = Z.to_nat (attrib_len t) -> t ∉ saw_lva lo -> array_ok (listener_vectevt lo) ->
  (t = MSRP_LISTENER_TYPE -> allocated lo = false) ->
  exists lo', locals_moved t lo lo' /\ forall s : S,
  msrp_recv_message t buf src eof ptr lo s
  = (s ← deliver_message t src lva flag gs s;
     Ret (Continue, ptr + Zlen (smessage t lva flag junk gs) - 2, lo', s)).
Proof.
  unfold MAX_FRAME_SIZE. intros Hbuf Hp Hflag Hok Heof Hmax Hj Hsaw Harr Hal.
  destruct (slist_bytes_min t lva junk gs Hj Hok) as [Hmin Hgs].
  rewrite smessage_shape in * by done. set (body := slist_bytes t lva junk gs) in *.
  set (len := Zlen body + 2) in *. rewrite !length_app in *. cbn [length] in *.
  pose proof (attrib_len_range t) as Har.
  set (hd := [msrp_type_code t; attrib_len t; len / 256; len mod 256]) in *.
  assert (Hb1 : buf = pre ++ hd ++ body ++ 0 :: 0 :: rest) by (rewrite Hbuf; by rewrite <- !app_assoc).
  destruct (msrp_list_deliver t src eof gs buf (pre ++ hd) lva flag junk rest (ptr + 4) lo)
    as (lo' & Hlo & Hgo); auto.
  { rewrite Hb1. fold body. by rewrite <- !app_assoc. }
  { rewrite length_app. cbn [length hd]. lia. }
  { fold body. lia. }
  exists lo'. split; [done|]. intros s. unfold msrp_recv_message.
  rewrite Hb1, (rd_at pre _ 1 (attrib_len t) (ptr + 1)) by (done || lia).
  rewrite res_bind_ret, Z.eqb_refl. cbn [negb].
  assert (Hchk : msrp_recv_msg_check_attrib_list_len (pre ++ hd ++ body ++ 0 :: 0 :: rest)
    (ptr + 2) eof = Ret true).
  { unfold msrp_recv_msg_check_attrib_list_len.
    rewrite (rd16_at pre _ 2 (len / 256) (len mod 256)) by (done || lia). rewrite res_bind_ret.
    replace (len / 256 * 256 + len mod 256) with len by zdm.
    rewrite (rd_at pre _ 1 (attrib_len t) (ptr + 2 - 1)) by (done || lia). rewrite res_bind_ret.
    rewrite (proj2 (Z.ltb_ge _ _)), (proj2 (Z.leb_gt _ _)) by lia.
    rewrite !app_assoc.
    assert (Hl : Zlen ((pre ++ hd) ++ body) = ptr + 2 + len)
      by (rewrite !length_app; cbn [length hd]; lia).
    rewrite (rd_at ((pre ++ hd) ++ body) (0 :: 0 :: rest) 0 0 (ptr + 2 + len)) by (done || lia).
    rewrite res_bind_ret. cbn [Z.eqb negb].
    by rewrite (rd_at ((pre ++ hd) ++ body) (0 :: 0 :: rest) 1 0) by (done || lia). }
  rewrite Hchk, res_bind_ret, <- Hb1, Hgo by (unfold MAX_FRAME_SIZE; lia).
  apply res_bind_ext. intros s1. fold body. do 4 f_equal. lia.
Qed.

Lemma type_code_of t : type_of_code (msrp_type_code t) = Some t.
Proof. by destruct t. Qed.

(** The receive locals are ready for messages of the types [ts]. *)
Definition locals_ready (ts : list msrp_type) (lo : recv_locals) : Prop :=
  Forall (fun t => t ∉ saw_lva lo) ts /\ array_ok (listener_vectevt lo)
  /\ (MSRP_LISTENER_TYPE ∈ ts -> allocated lo = false).

Lemma locals_ready_moved t ts lo lo' :
  NoDup (t :: ts) -> locals_ready (t :: ts) lo -> locals_moved t lo lo' -> locals_ready ts lo'.
Proof.
  intros Hnd (H1 & H2 & H3) (M1 & M2 & M3). apply NoDup_cons in Hnd as [Hni _].
  apply Forall_cons_iff in H1 as [_ H1]. split_and!; [|done|].
  - rewrite Forall_forall in *. intros t' Ht' Hin. destruct (M1 t' Hin) as [->|Hx]; [done|].
    by apply (H1 t').
  - intros Hl. unfold allocated. rewrite M3; [|by intros ->]. apply H3. by apply elem_of_cons; right.
Qed.

Lemma messages_deliver src eof lva flag junk l ts : forall buf pre rest ptr lo em fuel (s : S),
  buf = pre ++ smessages lva flag junk ts l ++ 0 :: 0 :: rest -> Zlen pre = ptr ->
  eof = ptr + Zlen (smessages lva flag junk ts l) + 2 -> eof <= MAX_FRAME_SIZE ->
  (forall t, length (junk t) = Z.to_nat (attrib_len t)) ->
  (forall t, Forall (vector_ok t) (frame_vectors t l)) ->
  NoDup ts -> locals_ready ts lo -> 0 <= em <= 1 -> (2 * length ts <= fuel)%nat ->
  msrp_recv_messages fuel buf src eof ptr em lo s
  = (s ← deliver_messages ts src lva flag l s; Ret (Continue, s)).
Proof.
  induction ts as [|t ts IH];
    intros buf pre rest ptr lo em fuel s Hbuf Hp Heof Hmax Hj Hok Hnd Hlo Hem Hf.
  { cbn in Heof |- *. destruct fuel; cbn [msrp_recv_messages]; unfold MRPDU_ENDMARK_SZ;
      by rewrite (proj2 (Z.ltb_ge _ _)) by lia. }
  cbn [length deliver_messages] in *.
  unfold smessages in Hbuf, Heof. rewrite fmap_cons in Hbuf, Heof. cbn [concat] in Hbuf, Heof.
  fold (smessages lva flag junk ts l) in Hbuf, Heof.
  set (m := smessage t lva flag (junk t) (frame_vectors t l)) in *.
  rewrite length_app in Heof. rewrite <- app_assoc in Hbuf.
  pose proof Hnd as Hnd'. apply NoDup_cons in Hnd' as [_ Hnd'].
  destruct (decide (m = [])) as [Em|Em].
  { pose proof (proj1 (smessage_nil _ _ _ _ _) Em) as [Hfl Hgs]. rewrite Hgs.
    cbn [deliver_message]. subst flag. rewrite res_bind_ret. rewrite Em in Hbuf, Heof.
    cbn [length app] in Hbuf, Heof.
    apply (IH buf pre rest ptr lo em); auto; try lia.
    - destruct Hlo as (H1 & H2 & H3). apply Forall_cons_iff in H1 as [_ H1].
      split_and!; auto. intros Hl. apply H3. by apply elem_of_cons; right. }
  assert (Hne : frame_vectors t l = [] -> flag = true).
  { intros Hg. destruct flag eqn:Ef; [done|]. destruct Em. unfold m. by rewrite Hg. }
  destruct fuel as [|[|fuel]]; [lia..|].
  pose proof Hlo as (H1 & H2 & H3). apply Forall_cons_iff in H1 as [H1 _].
  destruct (message_deliver t src eof (frame_vectors t l) buf pre lva flag (junk t)
    (smessages lva flag junk ts l ++ 0 :: 0 :: rest) ptr lo) as (lo' & Hmv & Hgo); auto.
  { fold m. lia. }
  { intros ->. apply H3. by apply elem_of_cons; left. }
  fold m in Hgo. pose proof (smessage_shape t lva flag (junk t) (frame_vectors t l) Hne) as Hsh.
  fold m in Hsh. set (body := slist_bytes _ _ _ _) in *.
  assert (Hml : Zlen m = Zlen body + 6)
    by (rewrite Hsh, !length_app; cbn [length]; lia).
  remember (Datatypes.S fuel) as fuel1. cbn [msrp_recv_messages]. unfold MRPDU_ENDMARK_SZ.
  rewrite (proj2 (Z.ltb_lt _ _)) by lia. cbn [negb].
  assert (R0 : rd buf ptr = Ret (msrp_type_code t))
    by (rewrite Hbuf, Hsh; by apply (rd_at pre _ 0); [lia|]).
  assert (R1 : rd buf (ptr + 1) = Ret (attrib_len t))
    by (rewrite Hbuf, Hsh; by apply (rd_at pre _ 1); [lia|]).
  rewrite R0, R1, !res_bind_ret.
  replace ((msrp_type_code t =? 0) && (attrib_len t =? 0)) with false by (by destruct t).
  rewrite type_code_of.
  replace (match Some t with
           | Some MSRP_DOMAIN_TYPE => recv_domain buf src eof ptr lo s
           | Some MSRP_LISTENER_TYPE => recv_listener buf src eof ptr lo s
           | Some MSRP_TALKER_ADV_TYPE => recv_talker_adv buf src eof ptr lo s
           | Some MSRP_TALKER_FAILED_TYPE => recv_talker_failed buf src eof ptr lo s
           | None => Ret (GotoOut, ptr, lo, s)
           end) with (msrp_recv_message t buf src eof ptr lo s) by (by destruct t).
  rewrite Hgo, !res_bind_assoc. apply res_bind_ext. intros s1. rewrite res_bind_ret.
  cbn beta iota. subst fuel1. cbn [msrp_recv_messages]. unfold MRPDU_ENDMARK_SZ.
  rewrite (proj2 (Z.ltb_lt _ _)) by lia. cbn [negb].
  assert (Hb2 : buf = (pre ++ [msrp_type_code t; attrib_len t; (Zlen body + 2) / 256;
      (Zlen body + 2) mod 256] ++ body) ++ 0 :: 0 :: smessages lva flag junk ts l ++ 0 :: 0 :: rest)
    by (rewrite Hbuf, Hsh; by rewrite <- !app_assoc).
  assert (Hl2 : Zlen (pre ++ [msrp_type_code t; attrib_len t; (Zlen body + 2) / 256;
      (Zlen body + 2) mod 256] ++ body) = ptr + Zlen m - 2)
    by (rewrite !length_app; cbn [length]; lia).
  assert (R2 : rd buf (ptr + Zlen m - 2) = Ret 0) by (rewrite Hb2; by apply (rd_at _ _ 0); [lia|]).
  assert (R3 : rd buf (ptr + Zlen m - 2 + 1) = Ret 0)
    by (rewrite Hb2; by apply (rd_at _ _ 1); [lia|]).
  rewrite R2, R3, !res_bind_ret. cbn [Z.eqb andb]. change (0 + 1 <? 2) with true. cbn iota.
  apply (IH buf (pre ++ m) rest); auto; try lia.
  - by rewrite Hbuf, <- app_assoc.
  - rewrite length_app. lia.
  - by eapply locals_ready_moved.
Qed.

(** *** Frames *)

Lemma frame_deliver station lva flag junk l (s : S) :
  length station = 6%nat -> Forall skey_ok (key <$> l) -> Forall declared (key <$> l) ->
  (length l <= MSRP_MAX_ATTRS)%nat -> (forall t, length (junk t) = Z.to_nat (attrib_len t)) ->
  let f := msrp_frame station lva flag junk l in
  Zlen f <= MAX_FRAME_SIZE ->
  msrp_recv_frame (Zlen f) (f ++ replicate (Z.to_nat (MAX_FRAME_SIZE - Zlen f)) 0) s
  = (s ← deliver_frame station lva flag l s; Ret (0, s)).
Proof.
  intros Hs Hk Hd Hm Hj f Hlen. unfold msrp_recv_frame, ETH_HDR_SZ, MSG_LIST_OFF.
  set (hdr := eth_header MSRP_ADDR station MSRP_ETYPE).
  assert (Hh : Zlen hdr = 15) by (unfold hdr, eth_header; rewrite !length_app, Hs; done).
  set (tl := replicate _ 0). set (body := smessages lva flag junk MSRP_ORDER l).
  assert (Hbuf : f ++ tl = hdr ++ body ++ 0 :: 0 :: tl)
    by (unfold f, msrp_frame; fold hdr body; by rewrite <- !app_assoc).
  assert (Hfl : Zlen f = 17 + Zlen body)
    by (unfold f, msrp_frame; fold hdr body; rewrite !length_app; cbn [length]; lia).
  rewrite (proj2 (Z.leb_gt _ _)), (proj2 (Z.ltb_ge _ _)), Hbuf by lia.
  assert (Hd6 : rd_list (hdr ++ body ++ 0 :: 0 :: tl) 0 6 = Ret MSRP_ADDR).
  { unfold hdr, eth_header. rewrite <- app_assoc. by apply (rd_list_app [] MSRP_ADDR). }
  assert (Hs6 : rd_list (hdr ++ body ++ 0 :: 0 :: tl) 6 6 = Ret station).
  { unfold hdr, eth_header. rewrite <- !app_assoc, <- Hs at 1. by apply (rd_list_app MSRP_ADDR). }
  assert (Ht : rd16 (hdr ++ body ++ 0 :: 0 :: tl) 12 = Ret MSRP_ETYPE).
  { unfold hdr, eth_header. rewrite <- !app_assoc, app_assoc. cbn [app].
    rewrite (rd16_at (MSRP_ADDR ++ station) _ 0 34 234) by (done || rewrite length_app, Hs; done).
    done. }
  rewrite Ht, res_bind_ret, Z.eqb_refl. cbn [negb].
  rewrite Hd6, res_bind_ret, memcmp_refl. cbn [negb Z.eqb]. rewrite Hs6, res_bind_ret.
  replace (15 + Zlen f - 14 - 1) with (Zlen f) by lia.
  rewrite (messages_deliver station (Zlen f) lva flag junk l MSRP_ORDER _ hdr tl); auto; try lia.
  - rewrite res_bind_assoc. apply res_bind_ext. done.
  - fold body. lia.
  - intros t. by apply vectors_ok.
  - apply (bool_decide_unpack _). vm_compute. exact I.
  - split_and!; [|by intros v [=] | done]. apply Forall_forall. intros t _. cbn. by intros ?%elem_of_nil.
  - cbn. unfold MAX_FRAME_SIZE. lia.
Qed.

End Agree.
