(* ===== verification/MsrpProps.v ===== *)
(** * Correctness of the MSRP database

    Every event, frame and collection keeps the database and timer invariants;
    an attribute event acts on one identity only. *)

From S2P Require Import Prelude Os Eui64Set Mrp MrpProps Attr AttrProps AppProps Mvrp MvrpEmit.
From S2P Require Import MvrpProps MvrpTheorems Mmrp MmrpList MmrpRecv MmrpEmit MmrpProps.
From S2P Require Import Msrp MsrpOps MsrpList MsrpRecv MsrpEmit.
From Stdlib Require Import ZArith Lia Sorted.
From stdpp Require Import base tactics sets list strings option gmap.
Open Scope Z_scope.

Abbreviation sdb_ok := (app_ok slist_ok).
Abbreviation sev_post := (app_post slist_ok).

(** The invariant with the bound a frame needs. *)
Definition sbounded (l : list msrp_attribute) : Prop :=
  slist_ok l /\ (length l <= MSRP_MAX_ATTRS)%nat.

#[export] Instance sbounded_inv : ListInv sbounded.
Proof.
  split; intros l l'.
  - intros Hk Hw [H1 H2]. split; [by eapply li_same|].
    rewrite <- (length_fmap key), Hk, length_fmap. done.
  - intros Hs [H1 H2]. split; [by eapply li_sublist|]. apply sublist_length in Hs. lia.
Qed.

Section Events.
Context {os : OS} {sl : SortLib}.

Lemma msrp_send_quiet a n m : m_quiet m (msrp_send_notifications a n m).
Proof.
  destruct m as [d w]. unfold msrp_send_notifications, malloc. cbn [m_w m_db].
  assert (H3 : w_extends w (step_tick (step_tick (step_tick w)))).
  { do 2 (etransitivity; [apply w_extends_tick|]). apply w_extends_tick. }
  destruct (os_malloc _); cbn [negb]; [|apply m_quiet_world, w_extends_tick].
  destruct (negb _); [by apply m_quiet_world|].
  destruct (msrp_notify_text a n); apply m_quiet_world; [|done].
  etransitivity; [done | apply send_all_extends].
Qed.

Lemma sev_post_notify s s' : sev_post s s' -> sev_post s (msrp_notify_all s').
Proof. apply (app_post_notify slist_ok msrp_send_notifications msrp_send_quiet). Qed.

Lemma reclaim_quiet a m : m_quiet m (msrp_conditional_reclaim a m).2.
Proof.
  unfold msrp_conditional_reclaim. destruct (reclaimable a); [apply msrp_send_quiet | done].
Qed.

(** ** The handlers *)

Lemma msrp_rla_step_kept t a m :
  m_quiet m (msrp_rla_step t a m).2
  /\ attr_kept a (msrp_rla_step t a m).1 (msrp_rla_step t a m).2.
Proof.
  unfold msrp_rla_step. case_decide; [apply attr_both_kept|].
  split; [done | apply attr_kept_refl].
Qed.

Lemma msrp_event_rla_post rattrib s :
  sdb_ok s -> sev_post s (msrp_event_rla rattrib s).2.
Proof.
  intros Hok. unfold msrp_event_rla. destruct rattrib as [r|].
  - pose proof (rla_handler_post slist_ok _ s (msrp_rla_step_kept (type (key r))) Hok) as H.
    unfold rla_handler in H. destruct (mrp_jointimer_start _) as [rc m].
    destruct (each _ _ m) as [l m2]. by destruct (mrp_lvatimer_fsm _ m2).
  - pose proof (null_post slist_ok s Hok) as H. by destruct (mrp_jointimer_start _).
Qed.

Lemma msrp_event_lvtimer_post s : sdb_ok s -> sev_post s (msrp_event_lvtimer s).
Proof.
  apply (lvtimer_handler_post slist_ok (fun a m =>
    let '(a, m) := attr_registrar_fsm MRP_EVENT_LVTIMER a m in
    msrp_conditional_reclaim a m)). clear.
  intros a m. destruct (attr_registrar_kept MRP_EVENT_LVTIMER a m) as (Hq & Hk & _).
  pose proof (lvtimer_none_leaving a m) as Hn.
  destruct (attr_registrar_fsm _ a m) as [a' m']. cbn [fst snd] in *.
  pose proof (reclaim_quiet a' m') as Hr. split; [by etransitivity|].
  unfold msrp_conditional_reclaim in *. by destruct (reclaimable a').
Qed.

Lemma sbounded_post s s' : app_post sbounded s s' -> sev_post s s'.
Proof. intros (((H1 & _) & H2) & H3). by split. Qed.

Lemma msrp_tx_safe sock flag : tx_safe sbounded (msrp_txpdu sock) flag.
Proof.
  intros s _ [Hl Hlen] Hst. apply msrp_txpdu_keeps; [apply Hl | done | done].
Qed.

Lemma msrp_event_tx_post sock s :
  sdb_ok s -> (length (attrib_list (db s)) <= MSRP_MAX_ATTRS)%nat ->
  returns (msrp_event_tx sock s) (sev_post s).
Proof.
  intros (H1 & H2) Hm. eapply returns_mono; [|intros s'; apply sbounded_post].
  apply (tx_handler_post sbounded (msrp_txpdu sock)); [apply msrp_tx_safe | by split].
Qed.

Lemma msrp_event_lvatimer_post sock s :
  sdb_ok s -> (length (attrib_list (db s)) <= MSRP_MAX_ATTRS)%nat ->
  returns (msrp_event_lvatimer sock s) (sev_post s).
Proof.
  intros (H1 & H2) Hm. eapply returns_mono; [|intros s'; apply sbounded_post].
  apply (lvatimer_handler_post sbounded (msrp_txpdu sock)); [apply msrp_tx_safe | by split].
Qed.

(** ** Attribute events *)

(** What the event leaves at its identity: the machines step the new or merged
    attribute, which is collected when nobody declares it any more. *)
Definition sevent_result (event : mrp_event) (r : msrp_attribute)
    (l : list msrp_attribute) (m : mst) : option msrp_attribute * mst :=
  let '(t, w) := starget r l (m_w m) in
  let '(a, m) := attr_event event t (Mst (m_db m) w) in
  msrp_conditional_reclaim a m.

Lemma sevent_result_spec event r l m a' :
  slist_ok l -> skey_ok (key r) -> attr_fresh r ->
  (sevent_result event r l m).1 = Some a' ->
  attr_kept (starget r l (m_w m)).1 a' (sevent_result event r l m).2.
Proof.
  intros Hl Hr Hf. unfold sevent_result. destruct (starget r l (m_w m)) as [t w]. cbn [fst].
  destruct (attr_event_kept event t (Mst (m_db m) w)) as [Hq Hk].
  destruct (attr_event event t _) as [a m2]. cbn [fst snd] in *.
  unfold msrp_conditional_reclaim. destruct (reclaimable a); [done|]. by intros [= <-].
Qed.

Lemma sevent_result_quiet event r l m :
  slist_ok l -> skey_ok (key r) -> attr_fresh r -> m_quiet m (sevent_result event r l m).2.
Proof.
  intros Hl Hr Hf. unfold sevent_result.
  destruct (starget_split r l (m_w m) Hl Hr Hf) as (_ & _ & _ & _ & Hw & _).
  destruct (starget r l (m_w m)) as [t w]. cbn [fst snd] in *.
  destruct (attr_event_kept event t (Mst (m_db m) w)) as [Hq _].
  destruct (attr_event event t _) as [a m2]. cbn [fst snd] in *.
  destruct m as [d w0]. cbn [m_w m_db] in *.
  etransitivity; [by apply (m_quiet_world d w0 w)|]. etransitivity; [done | apply reclaim_quiet].
Qed.

Lemma msrp_attribute_spec cfg event r s :
  slist_ok (attrib_list (db s)) -> skey_ok (key r) -> attr_fresh r ->
  uninteresting cfg (attrib_list (db s)) (key r) = false ->
  let l := attrib_list (db s) in
  let m1 := (mrp_jointimer_start (get_mst s)).2 in
  let res := sevent_result event r l m1 in
  exists s' l1 l2, msrp_event_attribute cfg event (Some r) s = (0, s')
    /\ l = l1 ++ option_list (msrp_lookup l (key r)) ++ l2
    /\ attrib_list (db s') = l1 ++ option_list res.1 ++ l2
    /\ Forall (fun x => ident (key x) <> ident (key r)) l1
    /\ get_mst s' = res.2
    /\ send_empty_LeaveAll_flag (db s') = send_empty_LeaveAll_flag (db s)
    /\ slist_ok (l1 ++ (starget r l (m_w m1)).1 :: l2).
Proof.
  intros Hl Hr Hf Hun l m1 res.
  destruct (starget_split r l (m_w m1) Hl Hr Hf)
    as (l1 & l2 & Hadd & Hold & _ & Hid & H1 & Hok).
  pose proof (sl_keys _ Hok) as Hkeys.
  rewrite fmap_app, fmap_cons, Forall_app, Forall_cons_iff, Forall_fmap in Hkeys.
  destruct Hkeys as (Hk1 & Hkt & _).
  unfold msrp_event_attribute. rewrite Hun. subst m1 res. unfold sevent_result.
  destruct (mrp_jointimer_start (get_mst s)) as [rc m1]. cbn [snd] in *.
  fold l. rewrite Hadd. destruct (starget r l (m_w m1)) as [t w]. cbn [fst snd] in *.
  rewrite (upd_first_split (fun k => msrp_match k (key r))).
  2: { rewrite Forall_forall in *. intros x Hx. apply msrp_match_other; auto. by apply Hk1. }
  2: { by apply msrp_match_ident. }
  destruct (attr_event event t _) as [a m2].
  destruct (msrp_conditional_reclaim a m2) as [o m3]. cbn [fst snd].
  eexists _, l1, l2. split; [done|]. cbn.
  assert (Hm : Mst (m_db m3) (m_w m3) = m3) by (by destruct m3).
  unfold get_mst. cbn. rewrite Hm. split_and!; auto.
Qed.

Lemma msrp_event_attribute_post cfg event rattrib s :
  sdb_ok s -> (forall r, rattrib = Some r -> skey_ok (key r) /\ attr_fresh r) ->
  sev_post s (msrp_event_attribute cfg event rattrib s).2.
Proof.
  intros Hok Hra. pose proof (app_post_refl slist_ok s Hok) as Hid.
  destruct rattrib as [r|]; [|done]. destruct (Hra r eq_refl) as [Hr Hf].
  destruct (uninteresting cfg (attrib_list (db s)) (key r)) eqn:Hun.
  { unfold msrp_event_attribute. by rewrite Hun. }
  pose proof (proj1 Hok) as Hl.
  destruct (msrp_attribute_spec cfg event r s Hl Hr Hf Hun)
    as (s' & l1 & l2 & -> & Hold & Hnew & H1 & Hm & Hf' & Hli). cbn [snd].
  set (m1 := (mrp_jointimer_start (get_mst s)).2) in *.
  pose proof (sevent_result_quiet event r _ m1 Hl Hr Hf) as Hq.
  pose proof (sevent_result_spec event r (attrib_list (db s)) m1) as Hs.
  set (res := sevent_result event r (attrib_list (db s)) m1) in *.
  apply (app_post_attribute slist_ok s s' l1 l2 _ res.1 Hok Hold Hnew); auto.
  - rewrite Hnew. destruct res.1 as [a'|] eqn:E; cbn [option_list app].
    + specialize (Hs a' Hl Hr Hf eq_refl).
      eapply (li_kept slist_ok _ _ res.2), Hli. apply Forall2_app; [apply kept_refl|].
      constructor; [done | apply kept_refl].
    + eapply li_sublist, Hli. apply sublist_app; [done | by constructor].
  - fold m1. by rewrite Hm.
  - intros Ht a Ha Hlv. specialize (Hs a Hl Hr Hf Ha). destruct Hs as (_ & _ & Hk).
    destruct (Hk Ht Hlv) as [Hlt|Hrun]; [|right; by rewrite <- Hm in Hrun].
    left. by apply (starget_reg r _ (m_w m1)).
Qed.

Lemma msrp_event_post cfg sock event rattrib s :
  sdb_ok s -> (forall r, rattrib = Some r -> skey_ok (key r) /\ attr_fresh r) ->
  (event = MRP_EVENT_LVATIMER \/ event = MRP_EVENT_TX ->
     (length (attrib_list (db s)) <= MSRP_MAX_ATTRS)%nat) ->
  returns (msrp_event cfg sock event rattrib s) (fun '(_, s') => sev_post s s').
Proof.
  intros Hok Hra Hlen. pose proof (app_post_refl slist_ok s Hok) as Hid.
  assert (Hfin : forall p, sev_post s p.2 ->
    returns (Ret (msrp_finish p)) (fun '(_, s') => sev_post s s')).
  { intros [rc s'] Hp. cbn [snd] in Hp. unfold msrp_finish.
    destruct (rc =? -1); cbn; auto using sev_post_notify. }
  pose proof (msrp_event_attribute_post cfg event rattrib s Hok Hra) as Hat.
  pose proof (msrp_event_rla_post rattrib s Hok) as Hrla.
  destruct event; cbn [msrp_event]; auto using sev_post_notify;
    try (apply sev_post_notify; auto using msrp_event_lvtimer_post).
  - eapply returns_bind; [apply msrp_event_tx_post; auto|]. intros s'. apply sev_post_notify.
  - eapply returns_bind; [apply msrp_event_lvatimer_post; auto|]. intros s'.
    apply sev_post_notify.
Qed.

(** ** Reception *)

Lemma msrp_sink_ok cfg sock s0 :
  @EventSinkOk msrp_key msrp_ast _ (msrp_sink cfg sock) skey_ok (sev_post s0).
Proof.
  split.
  - intros s Hs. cbn. eapply app_post_trans; [done|].
    apply app_post_world; [apply w_extends_tick | apply Hs].
  - intros e a s Hs He Ha. cbn [sink_event msrp_sink].
    eapply returns_bind; [apply msrp_event_post; [apply Hs | done |]|].
    { by intros [-> | ->]. }
    intros [rc s'] Hp. cbn. by eapply app_post_trans.
Qed.

(** Frames that leave room for one FirstValue in the receive buffer. *)
Definition sframe_ok (r : recv_result) : Prop :=
  forall data, r = RecvBytes data ->
    bytes_ok data /\ Zlen data <= MAX_FRAME_SIZE - MSRP_SLACK.

Lemma recvmsgbuf_padded r w bytes buf w' :
  mrpd_recvmsgbuf r w = (bytes, Some buf, w') -> 0 < bytes -> zero_after bytes buf.
Proof.
  unfold mrpd_recvmsgbuf, malloc. destruct (os_malloc _); cbn [negb]; [|done].
  set (zeroed := replicate _ 0).
  assert (Hz : forall i b, zeroed !! i = Some b -> b = 0)
    by (intros i b Hi; unfold zeroed in Hi; by apply lookup_replicate in Hi as [-> _]).
  clearbody zeroed. destruct r as [|data]; [intros [= <- <- <-]; lia|].
  set (got := take _ data). clearbody got.
  destruct (_ =? 0); [intros [= <- <- <-]; lia|]. intros [= <- <- <-] _ i b Hi Hb.
  rewrite lookup_app_r, lookup_drop in Hb by lia. by eapply Hz.
Qed.

Lemma msrp_recv_post cfg sock r s :
  sdb_ok s -> sframe_ok r ->
  returns (msrp_recv_msg cfg sock r s)
    (fun '(rc, s') => (rc = 0 \/ rc = -1) /\ sev_post s s').
Proof.
  intros Hs Hr. unfold msrp_recv_msg.
  pose proof (recvmsgbuf_spec r (wld s) (fun d E => proj1 (Hr d E))) as Hb.
  assert (Hbytes : (mrpd_recvmsgbuf r (wld s)).1.1 <= MAX_FRAME_SIZE - MSRP_SLACK).
  { apply recvmsgbuf_bound; [done|]. intros d E. apply (Hr d E). }
  destruct (mrpd_recvmsgbuf r (wld s)) as [[bytes buf] w] eqn:E. destruct Hb as (-> & Hb & _).
  cbn [fst] in Hbytes.
  assert (Hp : sev_post s (put_mst (Mst (mrp_db (db s)) (step_tick (wld s))) s))
    by (apply app_post_world; [apply w_extends_tick | done]).
  destruct buf as [b|]; [|cbn; auto]. destruct Hb as [Hlen Hbo].
  destruct (Z.le_gt_cases bytes 0) as [Hn|Hn].
  { unfold msrp_recv_frame. destruct (Z.leb_spec bytes 0); [|lia]. cbn. auto. }
  apply (msrp_frame_safe (ok := msrp_sink_ok cfg sock s)); auto.
  - unfold MAX_FRAME_SIZE in *. lia.
  - by eapply recvmsgbuf_padded.
Qed.

(** ** Garbage collection *)

Lemma msrp_reclaim_spec s :
  exists s', msrp_reclaim (Some s) = (0, Some s')
    /\ attrib_list (db s') = filter (fun a => reclaimable a = false) (attrib_list (db s))
    /\ m_quiet (get_mst s) (get_mst s')
    /\ send_empty_LeaveAll_flag (db s') = send_empty_LeaveAll_flag (db s).
Proof.
  unfold msrp_reclaim.
  destruct (each_opt_spec m_quiet msrp_conditional_reclaim
    (fun a o _ => o = if reclaimable a then None else Some a))
    with (l := attrib_list (db s)) (s := get_mst s) as (Hq & ol & Ho & Hl); auto.
  { intros a m. split; [apply reclaim_quiet|]. unfold msrp_conditional_reclaim.
    by destruct (reclaimable a). }
  destruct (each_opt _ _ _) as [l m]. cbn in *. eexists. split; [done|]. cbn.
  split; [|split; [by destruct m | done]]. subst l. clear -Ho.
  induction Ho as [|a o l ol -> _ IH]; [done|]. cbn [omap list_omap].
  rewrite filter_cons. destruct (reclaimable a) eqn:E; cbn [id].
  - by rewrite decide_False by congruence.
  - by rewrite decide_True, IH by done.
Qed.

End Events.
