(* ===== verification/MsrpCmd.v ===== *)
(** * The control side of msrp.c: commands, table dump, start and stop

    Commands act on the attribute list through events and on the set of
    interesting stream identifiers directly. *)

From S2P Require Import Prelude Os Parse Eui64Set Mrp MrpProps Attr AttrProps AppProps AppCmd.
From S2P Require Import Mvrp MvrpTheorems Mmrp Msrp MsrpOps MsrpList MsrpRecv MsrpEmit MsrpProps.
From Stdlib Require Import ZArith Lia Sorted.
From stdpp Require Import base tactics sets list strings option gmap pretty.
Open Scope Z_scope.

(** ** Definitions *)

(** [struct msrp_database]. *)
Record msrp_database := MsrpDb {
  s_app : app_database msrp_key;
  s_cfg : msrp_cfg
}.

(** *** The table *)

(** Talkers of both types print their failure fields. *)
Definition msrp_dump_variant (k : msrp_key) : string :=
  match type k with
  | MSRP_LISTENER_TYPE => listener_text k
  | MSRP_DOMAIN_TYPE => domain_text (domain k)
  | _ => talker_text (talk_listen k) +:+ failure_text (talk_listen k)
  end.

Definition msrp_dump_line (a : msrp_attribute) : string :=
  let variant := snprintf BUFSIZE (msrp_dump_variant (key a)) in
  let mrp_state := mrp_decode_state (registrar a) (applicant a) 8 in
  let regsrc := snprintf BUFSIZE
    ("R=" +:+ fmt_mac (reg_macaddr (registrar a)) +:+ " " +:+ mrp_state) in
  snprintf BUFSIZE (variant +:+ " " +:+ regsrc +:+ "
").

Definition msrp_dumptable {os : OS}
  : sockaddr_in -> list msrp_attribute -> world -> res (Z * world) :=
  app_dumptable "MSRP:Empty
" msrp_dump_line.

(** *** Parameters *)

(** The stored values of a successful [parse] of what follows the command. *)
Definition parse_cmd (min : Z) (specs : list (list Z * parse_type)) (buf : list Z)
    (buflen : Z) : res (option (list parse_value)) :=
  if buflen <? min then Ret None
  else r ← parse buf 4 (buflen - 4) specs;
       Ret (match r with Some (inr vs) => Some vs | _ => None end).

Definition talker_specs : list (list Z * parse_type) :=
  [(bytes_of "S=", parse_c64); (bytes_of "A=", parse_mac); (bytes_of "V=", parse_u16_04x);
   (bytes_of "Z=", parse_u16); (bytes_of "I=", parse_u16); (bytes_of "P=", parse_u8);
   (bytes_of "L=", parse_u32)].

Definition failure_specs : list (list Z * parse_type) :=
  [(bytes_of "B=", parse_c64); (bytes_of "C=", parse_u8)].

Definition stream_id_specs : list (list Z * parse_type) := [(bytes_of "S=", parse_c64)].

Definition listener_specs : list (list Z * parse_type) :=
  [(bytes_of "L=", parse_c64); (bytes_of "D=", parse_u32)].

Definition withdraw_specs : list (list Z * parse_type) := [(bytes_of "L=", parse_c64)].

Definition domain_specs : list (list Z * parse_type) :=
  [(bytes_of "C=", parse_u8); (bytes_of "P=", parse_u8); (bytes_of "V=", parse_u16_04x)].

Definition msrp_cmd_parse_stream_id (buf : list Z) (buflen : Z) : res (option (list Z)) :=
  vs ← parse_cmd (16 + 4) stream_id_specs buf buflen;
  Ret (match vs with Some [PBytes id] => Some id | _ => None end).

Definition msrp_cmd_parse_join_or_new_stream (buf : list Z) (buflen : Z)
  : res (option msrpdu_talker_fail) :=
  vs ← parse_cmd 22 talker_specs buf buflen;
  Ret (match vs with
       | Some [PBytes id; PBytes mac; PInt v; PInt z; PInt i; PInt p; PInt l] =>
           Some (Talker id mac v z i p l (replicate 8 0) 0)
       | _ => None
       end).

Definition msrp_cmd_parse_join_or_new_stream_failure (buf : list Z) (buflen : Z)
  : res (option msrpdu_talker_fail) :=
  vs ← parse_cmd 47 (talker_specs ++ failure_specs) buf buflen;
  Ret (match vs with
       | Some [PBytes id; PBytes mac; PInt v; PInt z; PInt i; PInt p; PInt l; PBytes b; PInt c] =>
           Some (Talker id mac v z i p l b c)
       | _ => None
       end).

(** A talker with only its stream set. *)
Definition stream_talker (id : list Z) : msrpdu_talker_fail :=
  talk_listen (stream_key MSRP_TALKER_ADV_TYPE id).

Definition msrp_cmd_parse_leave_stream (buf : list Z) (buflen : Z)
  : res (option msrpdu_talker_fail) :=
  vs ← parse_cmd 22 stream_id_specs buf buflen;
  Ret (match vs with Some [PBytes id] => Some (stream_talker id) | _ => None end).

Definition msrp_cmd_parse_report_listener_status (buf : list Z) (buflen : Z)
  : res (option (msrpdu_talker_fail * Z)) :=
  vs ← parse_cmd 26 listener_specs buf buflen;
  Ret (match vs with Some [PBytes id; PInt sub] => Some (stream_talker id, sub) | _ => None end).

Definition msrp_cmd_parse_withdraw_listener_status (buf : list Z) (buflen : Z)
  : res (option msrpdu_talker_fail) :=
  vs ← parse_cmd 22 withdraw_specs buf buflen;
  Ret (match vs with Some [PBytes id] => Some (stream_talker id) | _ => None end).

Definition msrp_cmd_parse_domain_status (buf : list Z) (buflen : Z)
  : res (option msrpdu_domain) :=
  vs ← parse_cmd 18 domain_specs buf buflen;
  Ret (match vs with Some [PInt c; PInt p; PInt v] => Some (Domain c p 0 v) | _ => None end).

Section Ops.
Context {os : OS} {sl : SortLib}.

(** *** Declarations of a client *)

(** An event for a new attribute; [k] may look at the list. *)
Definition msrp_cmd_event (cfg : msrp_cfg) (sock : Z) (event : mrp_event)
    (k : list msrp_attribute -> msrp_key) (s : msrp_ast) : res (Z * msrp_ast) :=
  let '(ok, w) := malloc (wld s) in
  let s := put_mst (Mst (mrp_db (db s)) w) s in
  if negb ok then Ret (-1, s)
  else
    '(_, s) ← msrp_event cfg sock event (Some (msrp_alloc (k (attrib_list (db s))))) s;
    Ret (0, s).

Definition msrp_cmd_join_or_new_stream (cfg : msrp_cfg) (sock : Z) (attrib_type : msrp_type)
    (event : mrp_event) (t : msrpdu_talker_fail) : msrp_ast -> res (Z * msrp_ast) :=
  msrp_cmd_event cfg sock event (fun _ => MsrpKey attrib_type t zero_domain 0 0).

Definition msrp_cmd_leave_stream (cfg : msrp_cfg) (sock : Z) (t : msrpdu_talker_fail)
  : msrp_ast -> res (Z * msrp_ast) :=
  msrp_cmd_event cfg sock MRP_EVENT_LV (fun _ => MsrpKey MSRP_TALKER_ADV_TYPE t zero_domain 0 0).

Definition msrp_cmd_report_listener_status (cfg : msrp_cfg) (sock : Z)
    (p : msrpdu_talker_fail * Z) : msrp_ast -> res (Z * msrp_ast) :=
  msrp_cmd_event cfg sock MRP_EVENT_NEW
    (fun _ => MsrpKey MSRP_LISTENER_TYPE p.1 zero_domain p.2 MSRP_DIRECTION_LISTENER).

Definition msrp_cmd_withdraw_listener_status (cfg : msrp_cfg) (sock : Z)
    (t : msrpdu_talker_fail) : msrp_ast -> res (Z * msrp_ast) :=
  msrp_cmd_event cfg sock MRP_EVENT_LV (fun l =>
    let k := MsrpKey MSRP_LISTENER_TYPE t zero_domain 0 0 in
    match msrp_lookup l k with
    | Some a => MsrpKey MSRP_LISTENER_TYPE t zero_domain (substate (key a)) 0
    | None => k
    end).

Definition msrp_cmd_report_domain_status (cfg : msrp_cfg) (sock : Z) (report : bool)
    (d : msrpdu_domain) : msrp_ast -> res (Z * msrp_ast) :=
  msrp_cmd_event cfg sock (if report then MRP_EVENT_JOIN else MRP_EVENT_LV)
    (fun _ => MsrpKey MSRP_DOMAIN_TYPE zero_talker
       (Domain (SRclassID d) (SRclassPriority d) (SRclassPriority d) (SRclassVID d)) 0 0).

(** The loops that unlink the talkers of a stream. *)
Definition is_talker_of (id : list Z) (a : msrp_attribute) : bool :=
  is_talker (key a) && (memcmp (StreamID (talk_listen (key a))) id =? 0).

Definition remove_talkers (id : list Z) (s : msrp_ast) : msrp_ast :=
  put_list (filter (fun a => is_talker_of id a = false) (attrib_list (db s))) s.

(** What follows a successful withdrawal of a listener when pruning. *)
Definition prune_talkers (cfg : msrp_cfg) (id : list Z) (s : msrp_ast) : msrp_ast :=
  if enable_pruning_of_uninteresting_ids cfg
     && negb (bool_decide (is_Some (eui64set_find (interesting_stream_ids cfg)
                                      (eui64_read id))))
  then remove_talkers id s else s.

(** *** Dispatch *)

Definition RESPBUF : nat := 64.

(** A command whose parameters were parsed: ERI when it fails. *)
Definition msrp_perform {A} (f : A -> msrp_ast -> res (Z * msrp_ast)) (a : A)
    (buf : list Z) (client : sockaddr_in) (s : msrp_ast) : res (Z * msrp_ast) :=
  '(rc, s) ← f a s;
  if rc =? 0 then Ret (0, s) else cmd_error_sz RESPBUF "ERI " buf client s.

(** ERP when the parameters do not parse; [left] is the buffer as the parser
    leaves it. *)
Definition msrp_command {A} (parsed : res (option A)) (left : list Z)
    (f : A -> msrp_ast -> res (Z * msrp_ast)) (buf : list Z) (client : sockaddr_in)
    (s : msrp_ast) : res (Z * msrp_ast) :=
  o ← parsed;
  match o with
  | None => cmd_error_sz RESPBUF "ERP " left client s
  | Some a => msrp_perform f a buf client s
  end.

(** S-L *)
Definition withdraw_listener_command (cfg : msrp_cfg) (sock : Z) (buf : list Z) (buflen : Z)
  : sockaddr_in -> msrp_ast -> res (Z * msrp_ast) :=
  msrp_command (msrp_cmd_parse_withdraw_listener_status buf buflen)
    (cmd_left 22 withdraw_specs buf buflen)
    (fun t s => '(rc, s) ← msrp_cmd_withdraw_listener_status cfg sock t s;
                Ret (rc, if rc =? 0 then prune_talkers cfg (StreamID t) s else s)) buf.

(** S+? and S++: [strstr] tells a failed talker. *)
Definition stream_command (cfg : msrp_cfg) (sock : Z) (buf : list Z) (buflen : Z)
    (client : sockaddr_in) (s : msrp_ast) : res (Z * msrp_ast) :=
  text ← cstr buf 0;
  let failed := bool_decide (is_Some (after_name (bytes_of "B=") text)) in
  b2 ← rd buf 2;
  msrp_command
    (if failed then msrp_cmd_parse_join_or_new_stream_failure buf buflen
     else msrp_cmd_parse_join_or_new_stream buf buflen)
    (if failed then cmd_left 47 (talker_specs ++ failure_specs) buf buflen
     else cmd_left 22 talker_specs buf buflen)
    (msrp_cmd_join_or_new_stream cfg sock
       (if failed then MSRP_TALKER_FAILED_TYPE else MSRP_TALKER_ADV_TYPE)
       (if b2 =? 63 then MRP_EVENT_JOIN else MRP_EVENT_NEW)) buf client s.

(** The commands that declare: they leave the configuration alone. *)
Definition declare_command (cfg : msrp_cfg) (sock : Z) (buf : list Z) (buflen : Z)
    (client : sockaddr_in) (s : msrp_ast) : res (Z * msrp_ast) :=
  let starts lit := has_prefix (bytes_of lit) buf in
  if starts "S??" then
    '(_, w) ← msrp_dumptable client (attrib_list (db s)) (wld s);
    Ret (0, put_mst (Mst (mrp_db (db s)) w) s)
  else if starts "S-L" then withdraw_listener_command cfg sock buf buflen client s
  else if starts "S-D" then
    msrp_command (msrp_cmd_parse_domain_status buf buflen)
      (cmd_left 18 domain_specs buf buflen) (msrp_cmd_report_domain_status cfg sock false) buf client s
  else if starts "S--" then
    msrp_command (msrp_cmd_parse_leave_stream buf buflen)
      (cmd_left 22 stream_id_specs buf buflen) (msrp_cmd_leave_stream cfg sock) buf client s
  else if starts "S+L" then
    msrp_command (msrp_cmd_parse_report_listener_status buf buflen)
      (cmd_left 26 listener_specs buf buflen) (msrp_cmd_report_listener_status cfg sock)
      buf client s
  else if starts "S+D" then
    msrp_command (msrp_cmd_parse_domain_status buf buflen)
      (cmd_left 18 domain_specs buf buflen) (msrp_cmd_report_domain_status cfg sock true) buf client s
  else if starts "S+?" || starts "S++" then stream_command cfg sock buf buflen client s
  else cmd_error_sz RESPBUF "ERC MSRP " buf client s.

Definition set_ids (ids : eui64set) (cfg : msrp_cfg) : msrp_cfg :=
  MsrpCfg ids (enable_pruning_of_uninteresting_ids cfg).

(** I+S and I-S: the set after a successful command ([None] is ERI) and the
    database. *)
Definition insert_id (cfg : msrp_cfg) (id : list Z) (s : msrp_ast)
  : res (option (msrp_cfg * msrp_ast)) :=
  let ids := interesting_stream_ids cfg in
  match eui64set_find ids (eui64_read id) with
  | Some _ => Ret None
  | None =>
      '(r, ids) ← eui64set_insert_and_sort ids (eui64_read id) 0;
      Ret (if r =? 0 then None else Some (set_ids ids cfg, s))
  end.

Definition remove_id (cfg : msrp_cfg) (id : list Z) (s : msrp_ast)
  : res (option (msrp_cfg * msrp_ast)) :=
  '(r, ids, _) ← eui64set_remove_and_sort (interesting_stream_ids cfg) (eui64_read id);
  Ret (if r =? 0 then None
       else Some (set_ids ids cfg,
                  match msrp_lookup (attrib_list (db s)) (stream_key MSRP_LISTENER_TYPE id) with
                  | None => remove_talkers id s
                  | Some _ => s
                  end)).

Definition id_command (f : msrp_cfg -> list Z -> msrp_ast -> res (option (msrp_cfg * msrp_ast)))
    (cfg : msrp_cfg) (buf : list Z) (buflen : Z) (client : sockaddr_in) (s : msrp_ast)
  : res (Z * msrp_cfg * msrp_ast) :=
  let failed prefix buf := '(rc, s) ← cmd_error_sz RESPBUF prefix buf client s;
                           Ret (rc, cfg, s) in
  if negb (enable_pruning_of_uninteresting_ids cfg) then failed "ERP " buf
  else
    id ← msrp_cmd_parse_stream_id buf buflen;
    match id with
    | None => failed "ERP " (cmd_left (16 + 4) stream_id_specs buf buflen)
    | Some id =>
        o ← f cfg id s;
        match o with
        | None => failed "ERI " buf
        | Some (cfg, s) => Ret (0, cfg, s)
        end
    end.

(** The prefixes are disjoint, so that their order does not matter; the
    commands that change the configuration come first here. *)
Definition msrp_recv_cmd (sock : Z) (buf : list Z) (buflen : Z) (client : sockaddr_in)
    (cfg : msrp_cfg) (s : msrp_ast) : res (Z * msrp_cfg * msrp_ast) :=
  let d := mrp_db (db s) in
  let '(_, cl, w) := mrp_client_add (clients d) (Some client) (wld s) in
  let s := put_mst (Mst (set_clients cl d) w) s in
  if enable_pruning_of_uninteresting_ids cfg && (1 <? mrp_client_count cl) then
    let '(_, cl) := mrp_client_delete cl (Some client) in
    let '(_, w) := mrpd_send_ctl_msg client "ERR pruning enabled too many clients
" 38 w in
    Ret (-1, cfg, put_mst (Mst (set_clients cl d) w) s)
  else if buflen <? 3 then Ret (-1, cfg, s)
  else
    b0 ← rd buf 0;
    if negb (b0 =? 83) && negb (b0 =? 73) then Ret (-1, cfg, s)
    else if has_prefix (bytes_of "I+S") buf then id_command insert_id cfg buf buflen client s
    else if has_prefix (bytes_of "I-S") buf then id_command remove_id cfg buf buflen client s
    else if has_prefix (bytes_of "I-A") buf
    then Ret (0, set_ids (eui64set_clear (interesting_stream_ids cfg)) cfg, s)
    else '(rc, s) ← declare_command cfg sock buf buflen client s; Ret (rc, cfg, s).

(** The command entry point when MSRP is disabled ([MSRP_db] is NULL). *)
Definition msrp_recv_cmd_disabled : list Z -> sockaddr_in -> world -> res (Z * world) :=
  cmd_disabled_sz RESPBUF "ERC MSRP_db ".

(** *** Start and stop *)

(** Returns rc, [msrp_socket], [MSRP_db] and the world. *)
Definition msrp_init (enable : bool) (max_interesting_stream_ids : Z) (enable_pruning : bool)
    (w : world) : Z * Z * option msrp_database * world :=
  if negb enable then (0, -1, None, w)
  else
    let '(rc, sock, w) := mrpd_init_protocol_socket w in
    if rc <? 0 then (-1, sock, None, w)
    else
      let '(ok, w) := malloc w in
      if negb ok then (-1, -1, None, mrpd_close_socket sock w)
      else
        let max := if max_interesting_stream_ids <? 8 then 8 else max_interesting_stream_ids in
        let '(calloc_ok, w) := malloc w in
        let '(r, ids) := eui64set_init calloc_ok max in
        if r <? 0 then (-1, -1, None, mrpd_close_socket sock w)
        else
          let '(rc, d, w) := mrpd_init_timers mrp_zero_db w in
          if rc <? 0 then (-1, -1, None, mrpd_close_socket sock w)
          else
            let '(_, m) := mrp_lvatimer_fsm MRP_EVENT_BEGIN (Mst d w) in
            (0, sock, Some (MsrpDb (AppDb (m_db m) [] false) (MsrpCfg ids enable_pruning)),
             m_w m).

Definition msrp_interesting_id_count (d : option msrp_database) : Z :=
  match d with
  | Some d => eui64set_num_entries (interesting_stream_ids (s_cfg d))
  | None => 0
  end.

(** What [msrp_reset] frees, in order: the attributes and the identifiers (and
    then the database itself); [MSRP_db] keeps its value. *)
Definition msrp_reset (d : option msrp_database)
  : option (list msrp_attribute * option (list eui64set_entry)) :=
  (fun d => (attrib_list (s_app d), eui64set_free (Some (interesting_stream_ids (s_cfg d)))))
  <$> d.

End Ops.

(** ** The table dump *)

Lemma msrp_dump_line_length a : Zlen (bytes_of (msrp_dump_line a)) <= 127.
Proof.
  rewrite bytes_of_length. unfold msrp_dump_line.
  pose proof (snprintf_length BUFSIZE (snprintf BUFSIZE (msrp_dump_variant (key a)) +:+ " "
    +:+ snprintf BUFSIZE ("R=" +:+ fmt_mac (reg_macaddr (registrar a)) +:+ " "
      +:+ mrp_decode_state (registrar a) (applicant a) 8) +:+ "
") ltac:(unfold BUFSIZE; lia)) as H. unfold BUFSIZE in *. lia.
Qed.

Lemma msrp_dumptable_safe {os : OS} client l w :
  (length l <= 11)%nat ->
  returns (msrp_dumptable client l w) (fun '(_, w') => w_extends w w').
Proof.
  intros Hl. apply (app_dumptable_safe _ _ 127); unfold MAX_MRPD_CMDSZ; try lia; [|done].
  apply Forall_forall. intros a _. apply msrp_dump_line_length.
Qed.

(** ** Parameters are values of their C types *)

Lemma parse_cmd_typed min specs buf buflen :
  4 <= min -> buflen <= Zlen buf -> Forall (fun sp => sp.2 <> parse_null) specs ->
  returns (parse_cmd min specs buf buflen) (fun o => forall vs, o = Some vs ->
    Forall2 (fun sp v => value_ok sp.2 v) specs vs).
Proof.
  intros Hm Hl Hn. unfold parse_cmd. destruct (Z.ltb_spec buflen min); [done|].
  eapply returns_bind; [apply (parse_typed buf 4 (buflen - 4) specs); [lia..|done]|].
  intros [[e|vs]|] Hr; try done. intros ? [= <-]. by apply Hr.
Qed.

(** Splits the values of a parsed command. *)
Ltac parse_values :=
  eapply returns_bind; [apply parse_cmd_typed; [lia | lia |];
    unfold talker_specs, failure_specs, stream_id_specs, listener_specs, withdraw_specs,
      domain_specs; cbn [app];
    forall_done|];
  let vs := fresh "vs" in
  let H := fresh "Hvs" in
  intros [vs|] H; [specialize (H _ eq_refl) | done];
  unfold talker_specs, failure_specs, stream_id_specs, listener_specs, withdraw_specs,
    domain_specs in H; cbn [app] in H;
  decompose_Forall_hyps; repeat match goal with
  | Hv : match ?v with PInt _ => _ | PBytes _ => _ end |- _ => destruct v; try contradiction
  end; cbn [returns]; intros ? [= <-].

Lemma parse_stream_id_ok buf buflen :
  buflen <= Zlen buf ->
  returns (msrp_cmd_parse_stream_id buf buflen) (fun o => forall id, o = Some id -> id_ok id).
Proof. intros Hl. unfold msrp_cmd_parse_stream_id. parse_values. done. Qed.

Lemma parse_join_ok buf buflen :
  buflen <= Zlen buf ->
  returns (msrp_cmd_parse_join_or_new_stream buf buflen)
    (fun o => forall t, o = Some t -> talker_ok t).
Proof.
  intros Hl. unfold msrp_cmd_parse_join_or_new_stream. parse_values.
  split; cbn; auto using zero_id; lia.
Qed.

Lemma parse_failure_ok buf buflen :
  buflen <= Zlen buf ->
  returns (msrp_cmd_parse_join_or_new_stream_failure buf buflen)
    (fun o => forall t, o = Some t -> talker_ok t).
Proof.
  intros Hl. unfold msrp_cmd_parse_join_or_new_stream_failure. parse_values.
  split; cbn; auto.
Qed.

Lemma parse_leave_ok buf buflen :
  buflen <= Zlen buf ->
  returns (msrp_cmd_parse_leave_stream buf buflen)
    (fun o => forall t, o = Some t -> talker_ok t).
Proof.
  intros Hl. unfold msrp_cmd_parse_leave_stream. parse_values. by apply stream_talker_ok.
Qed.

Lemma parse_withdraw_ok buf buflen :
  buflen <= Zlen buf ->
  returns (msrp_cmd_parse_withdraw_listener_status buf buflen)
    (fun o => forall t, o = Some t -> talker_ok t).
Proof.
  intros Hl. unfold msrp_cmd_parse_withdraw_listener_status. parse_values.
  by apply stream_talker_ok.
Qed.

Lemma parse_report_ok buf buflen :
  buflen <= Zlen buf ->
  returns (msrp_cmd_parse_report_listener_status buf buflen)
    (fun o => forall p, o = Some p -> talker_ok p.1 /\ 0 <= p.2 < 2 ^ 32).
Proof.
  intros Hl. unfold msrp_cmd_parse_report_listener_status. parse_values.
  split; [by apply stream_talker_ok | done].
Qed.

Lemma parse_domain_ok buf buflen :
  buflen <= Zlen buf ->
  returns (msrp_cmd_parse_domain_status buf buflen)
    (fun o => forall d, o = Some d -> domain_ok d).
Proof.
  intros Hl. unfold msrp_cmd_parse_domain_status. parse_values. split; cbn; lia.
Qed.

(** ** Commands keep the database *)
Section Commands.
Context {os : OS} {sl : SortLib} (sock : Z).

(** A handler that returns 0 or -1 and keeps what commands keep since [s0]. *)
Definition cmd_ok (s0 : msrp_ast) (r : res (Z * msrp_ast)) : Prop :=
  returns r (fun '(rc, s') => (rc = 0 \/ rc = -1) /\ client_ok slist_ok s0 s').

Lemma msrp_error_ok prefix buf client s s0 :
  cmd_buf_ok buf -> client_ok slist_ok s0 s ->
  cmd_ok s0 (cmd_error_sz RESPBUF prefix buf client s).
Proof.
  intros [Hlen Hz]. apply (error_sz_ok slist_ok); rewrite Hlen; [|done].
  unfold MAX_MRPD_CMDSZ. lia.
Qed.

Lemma msrp_cmd_event_ok cfg event k s s0 :
  event <> MRP_EVENT_LVATIMER -> event <> MRP_EVENT_TX ->
  (forall l, slist_ok l -> skey_ok (k l)) -> client_ok slist_ok s0 s ->
  cmd_ok s0 (msrp_cmd_event cfg sock event k s).
Proof.
  intros He1 He2 Hk Hok. unfold cmd_ok, msrp_cmd_event.
  apply (event_ok slist_ok (fun s => msrp_event cfg sock event
    (Some (msrp_alloc (k (attrib_list (db s))))) s)); [|done].
  intros s1 H1. apply msrp_event_post; [done | | by intros []].
  intros r [= <-]. split; [apply Hk, H1 | done].
Qed.

Lemma stream_declaration_ok t k sub dir :
  talker_ok k -> 0 <= sub < 2 ^ 32 -> skey_ok (MsrpKey t k zero_domain sub dir).
Proof. intros Hk Hs. split; cbn; auto using zero_domain_ok. Qed.

Lemma msrp_command_ok {A} (parsed : res (option A)) (P : A -> Prop) left f buf client s s0 :
  cmd_buf_ok left -> cmd_buf_ok buf -> returns parsed (fun o => forall a, o = Some a -> P a) ->
  (forall a s1, P a -> client_ok slist_ok s0 s1 -> cmd_ok s0 (f a s1)) ->
  client_ok slist_ok s0 s -> cmd_ok s0 (msrp_command parsed left f buf client s).
Proof.
  intros Hlf Hb Hp Hf Hok. unfold cmd_ok, msrp_command.
  eapply returns_bind; [apply Hp|]. intros [a|] Ha; [|by apply msrp_error_ok].
  unfold msrp_perform.
  eapply returns_bind; [by apply Hf; [apply Ha|]|]. intros [rc s1] [Hrc H1].
  destruct (rc =? 0); [cbn; auto | by apply msrp_error_ok].
Qed.

Lemma remove_talkers_ok id s s0 :
  client_ok slist_ok s0 s -> client_ok slist_ok s0 (remove_talkers id s).
Proof. apply (client_ok_sublist slist_ok), sublist_filter. Qed.

Lemma withdraw_key_ok t l :
  talker_ok t -> slist_ok l ->
  skey_ok (let k := MsrpKey MSRP_LISTENER_TYPE t zero_domain 0 0 in
           match msrp_lookup l k with
           | Some a => MsrpKey MSRP_LISTENER_TYPE t zero_domain (substate (key a)) 0
           | None => k
           end).
Proof.
  intros Ht Hl. cbv zeta.
  assert (Hk : skey_ok (MsrpKey MSRP_LISTENER_TYPE t zero_domain 0 0))
    by (apply stream_declaration_ok; [done | lia]).
  pose proof (sl_keys _ Hl) as Hks. pose proof (msrp_lookup_split l _ Hks Hk) as E.
  destruct (msrp_lookup l _) as [a|]; [|done].
  apply stream_declaration_ok; [done|]. destruct E as (_ & l1 & l2 & -> & _).
  rewrite fmap_app, fmap_cons, Forall_app, Forall_cons_iff in Hks. apply Hks.
Qed.

Lemma withdraw_listener_ok cfg buf buflen client s s0 :
  cmd_buf_ok buf -> buflen <= Zlen buf -> client_ok slist_ok s0 s ->
  cmd_ok s0 (withdraw_listener_command cfg sock buf buflen client s).
Proof.
  intros Hb Hl. apply msrp_command_ok with talker_ok;
    [by apply cmd_left_ok | done | by apply parse_withdraw_ok |].
  intros t s1 Ht H1. unfold cmd_ok.
  eapply returns_bind; [apply (msrp_cmd_event_ok cfg MRP_EVENT_LV); [done | done | | done]|].
  { intros l. by apply withdraw_key_ok. }
  intros [rc s2] [Hrc H2]. cbn. split; [done|]. destruct (rc =? 0); [|done].
  unfold prune_talkers. destruct (_ && _); [by apply remove_talkers_ok | done].
Qed.

Lemma stream_command_ok cfg buf buflen client s s0 :
  cmd_buf_ok buf -> buflen <= Zlen buf -> client_ok slist_ok s0 s ->
  cmd_ok s0 (stream_command cfg sock buf buflen client s).
Proof.
  intros Hb Hl Hok. pose proof Hb as [Hlen Hz]. unfold MAX_MRPD_CMDSZ in Hlen.
  unfold cmd_ok, stream_command.
  eapply returns_bind; [apply cstr_nul_end; [lia | by rewrite Hlen]|]. intros text _.
  eapply returns_bind; [apply rd_ok; lia|]. intros b2 _.
  apply msrp_command_ok with talker_ok;
    [destruct (bool_decide _); by apply cmd_left_ok | done | | | done].
  - destruct (bool_decide _); [by apply parse_failure_ok | by apply parse_join_ok].
  - intros t s1 Ht H1. apply msrp_cmd_event_ok; [by destruct (b2 =? 63).. | | done].
    intros l _. apply stream_declaration_ok; [done | lia].
Qed.

Lemma domain_command_ok cfg report buf buflen client s s0 :
  cmd_buf_ok buf -> buflen <= Zlen buf -> client_ok slist_ok s0 s ->
  cmd_ok s0 (msrp_command (msrp_cmd_parse_domain_status buf buflen)
    (cmd_left 18 domain_specs buf buflen) (msrp_cmd_report_domain_status cfg sock report) buf client s).
Proof.
  intros Hb Hl. apply msrp_command_ok with domain_ok;
    [by apply cmd_left_ok | done | by apply parse_domain_ok |].
  intros d s1 [H1 H2 H3 H4] Hs. apply msrp_cmd_event_ok; [by destruct report.. | | done].
  intros l _. split; cbn; [apply (zero_key_ok MSRP_DOMAIN_TYPE) | by split | lia].
Qed.

(** The table dump, the one command that needs room for every attribute. *)
Definition dumps (buf : list Z) : Prop := has_prefix (bytes_of "S??") buf = true.

Lemma declare_command_ok cfg buf buflen client s s0 :
  cmd_buf_ok buf -> buflen <= Zlen buf ->
  (dumps buf -> (length (attrib_list (db s)) <= 11)%nat) ->
  client_ok slist_ok s0 s -> cmd_ok s0 (declare_command cfg sock buf buflen client s).
Proof.
  intros Hb Hl Hn Hok. unfold declare_command. unfold dumps in Hn.
  destruct (has_prefix _ _).
  { unfold cmd_ok. eapply returns_bind; [by apply msrp_dumptable_safe, Hn|].
    intros [rc2 w2] Hw. cbn. split; [auto|]. eapply client_ok_ev; [exact Hok|].
    apply app_post_world; [done | apply Hok]. }
  destruct (has_prefix _ _); [by apply withdraw_listener_ok|].
  destruct (has_prefix _ _); [by apply domain_command_ok|].
  destruct (has_prefix _ _).
  { apply msrp_command_ok with talker_ok;
      [by apply cmd_left_ok | done | by apply parse_leave_ok | | done].
    intros t s1 Ht H1. apply msrp_cmd_event_ok; [done | done | | done].
    intros l _. apply stream_declaration_ok; [done | lia]. }
  destruct (has_prefix _ _).
  { apply msrp_command_ok with (fun p : msrpdu_talker_fail * Z =>
      talker_ok p.1 /\ 0 <= p.2 < 2 ^ 32);
      [by apply cmd_left_ok | done | by apply parse_report_ok | | done].
    intros t s1 [Ht Hsub] H1. apply msrp_cmd_event_ok; [done | done | | done].
    intros l _. by apply stream_declaration_ok. }
  destruct (has_prefix _ _); [by apply domain_command_ok|].
  destruct (_ || _); [by apply stream_command_ok | by apply msrp_error_ok].
Qed.

End Commands.

(** ** The interesting identifiers *)
Section Ids.
Context {os : OS} {sl : SortLib} {slok : SortLibOk} (sock : Z).

Record cfg_ok (cfg : msrp_cfg) : Prop := {
  cf_wf : Eui64Set.set_wf (interesting_stream_ids cfg);
  cf_nodup : NoDup (keys (interesting_stream_ids cfg))
}.

(** The streams the clients asked for. *)
Definition interesting (cfg : msrp_cfg) : gset Z := set_of (interesting_stream_ids cfg).

Abbreviation pruning := enable_pruning_of_uninteresting_ids.

Lemma insert_id_ok cfg id s :
  cfg_ok cfg ->
  returns (insert_id cfg id s) (fun o =>
    match o with
    | Some (cfg', s') => cfg_ok cfg' /\ pruning cfg' = pruning cfg /\ s' = s
        /\ eui64_read id ∉ interesting cfg
        /\ interesting cfg' = {[eui64_read id]} ∪ interesting cfg
    | None => eui64_read id ∈ interesting cfg
              \/ eui64set_is_full (interesting_stream_ids cfg) = true
    end).
Proof.
  intros [Hwf Hnd]. unfold insert_id, interesting.
  pose proof (find_iff _ (eui64_read id) Hwf) as Hf.
  destruct (eui64set_find _ _); [cbn; left; apply Hf; by eauto|].
  assert (Hni : eui64_read id ∉ set_of (interesting_stream_ids cfg)).
  { intros [? ?]%Hf. done. }
  eapply returns_bind; [by apply insert_set, eui64_read_range|].
  intros [r ids] (H1 & H2 & H3). cbn [returns].
  destruct (eui64set_is_full _); destruct H3 as [-> H3]; cbn; [by right|].
  split_and!; auto. split; [done | by apply H2].
Qed.

Lemma remove_id_ok cfg id s s0 :
  cfg_ok cfg -> client_ok slist_ok s0 s ->
  returns (remove_id cfg id s) (fun o =>
    match o with
    | Some (cfg', s') => cfg_ok cfg' /\ pruning cfg' = pruning cfg
        /\ client_ok slist_ok s0 s'
        /\ eui64_read id ∈ interesting cfg
        /\ interesting cfg' = interesting cfg ∖ {[eui64_read id]}
    | None => eui64_read id ∉ interesting cfg
    end).
Proof.
  intros [Hwf Hnd] Hok. unfold remove_id, interesting.
  eapply returns_bind; [by apply remove_set|].
  intros [[r ids] fr] (H1 & H2 & H3 & H4). cbn [returns].
  destruct H4 as [[-> H4]|[-> H4]]; cbn; [|done].
  split_and!; auto; [by split|]. destruct (msrp_lookup _ _); [done|].
  by apply remove_talkers_ok.
Qed.

(** What a command guarantees. *)
Definition recv_cmd_ok (cfg : msrp_cfg) (s0 : msrp_ast) (r : res (Z * msrp_cfg * msrp_ast))
  : Prop :=
  returns r (fun '(rc, cfg', s') => (rc = 0 \/ rc = -1) /\ cfg_ok cfg'
    /\ pruning cfg' = pruning cfg /\ client_ok slist_ok s0 s').

Lemma with_cfg_ok cfg s0 r :
  cfg_ok cfg -> cmd_ok s0 r -> recv_cmd_ok cfg s0 ('(rc, s) ← r; Ret (rc, cfg, s)).
Proof.
  intros Hc Hr. eapply returns_bind; [exact Hr|]. intros [rc s] [H1 H2]. by split_and!.
Qed.

Lemma id_command_ok f cfg buf buflen client s s0 :
  cfg_ok cfg -> cmd_buf_ok buf -> buflen <= Zlen buf -> client_ok slist_ok s0 s ->
  (forall id, returns (f cfg id s) (fun o => match o with
     | Some (cfg', s') => cfg_ok cfg' /\ pruning cfg' = pruning cfg /\ client_ok slist_ok s0 s'
     | None => True
     end)) ->
  recv_cmd_ok cfg s0 (id_command f cfg buf buflen client s).
Proof.
  intros Hc Hb Hl Hok Hf. unfold id_command.
  assert (He : forall p b, cmd_buf_ok b -> recv_cmd_ok cfg s0
    ('(rc, s) ← cmd_error_sz RESPBUF p b client s; Ret (rc, cfg, s))).
  { intros p b Hpb. by apply with_cfg_ok, msrp_error_ok. }
  destruct (negb _); [by apply He|].
  eapply returns_bind; [by apply parse_stream_id_ok|].
  intros [id|] _; [|by apply He, cmd_left_ok].
  eapply returns_bind; [apply Hf|]. intros [[cfg' s']|] Hpost; [|by apply He].
  cbn. split; [by left | done].
Qed.

Lemma msrp_recv_cmd_post buf buflen client cfg s :
  cfg_ok cfg -> sdb_ok s -> cmd_buf_ok buf -> buflen <= MAX_MRPD_CMDSZ ->
  (dumps buf -> (length (attrib_list (db s)) <= 11)%nat) ->
  recv_cmd_ok cfg s (msrp_recv_cmd sock buf buflen client cfg s).
Proof.
  intros Hcfg Hok Hb Hl Hn. pose proof Hb as [Hlen _].
  unfold msrp_recv_cmd. pose proof (client_add_ok slist_ok client s Hok) as Hc.
  destruct (mrp_client_add _ _ _) as [[rc cl] w].
  set (s1 := put_mst _ s) in *.
  assert (Hl1 : attrib_list (db s1) = attrib_list (db s)) by done.
  assert (Hbl : buflen <= Zlen buf) by (rewrite Hlen; unfold MAX_MRPD_CMDSZ in *; lia).
  assert (Hret : forall rc s2, rc = -1 -> client_ok slist_ok s s2 ->
    recv_cmd_ok cfg s (Ret (rc, cfg, s2))).
  { intros rc' s2 -> H2. cbn. by split_and!; auto. }
  destruct (_ && _).
  { destruct (mrp_client_delete _ _) as [rc2 cl2].
    apply (client_ok_clients slist_ok cl2) in Hc.
    unfold mrpd_send_ctl_msg. destruct (_ =? _); apply Hret; auto.
    eapply client_ok_ev; [exact Hc|].
    match type of Hc with client_ok _ _ ?s2 =>
      exact (app_post_world slist_ok s2 _ (w_extends_log _ _) (proj1 Hc)) end. }
  clearbody s1. destruct (Z.ltb_spec buflen 3); [by apply Hret|].
  unfold recv_cmd_ok. eapply returns_bind; [apply rd_ok; lia|]. intros b0 _.
  destruct (negb _ && negb _); [by apply Hret|].
  destruct (has_prefix _ _).
  { apply id_command_ok; auto. intros id. eapply returns_mono; [by apply insert_id_ok|].
    intros [[cfg' s']|]; [|done]. by intros (? & ? & -> & _). }
  destruct (has_prefix _ _).
  { apply id_command_ok; auto. intros id. eapply returns_mono; [by apply remove_id_ok|].
    intros [[cfg' s']|]; [|done]. by intros (? & ? & ? & _). }
  destruct (has_prefix _ _).
  - cbn. destruct Hcfg as [Hwf _]. destruct (clear_wf _ Hwf) as [H1 H2].
    split_and!; auto. split; [done|]. cbn. rewrite H2. constructor.
  - apply with_cfg_ok; [done|]. apply declare_command_ok; auto. by rewrite Hl1.
Qed.

(** ** Start *)

Lemma msrp_init_spec max prune w :
  length os_hwaddr = 6%nat -> bytes_ok os_hwaddr ->
  let '(rc, sock, d, w') := msrp_init true max prune w in
  match d with
  | Some d => rc = 0 /\ attrib_list (s_app d) = [] /\ cfg_ok (s_cfg d)
              /\ interesting (s_cfg d) = ∅ /\ pruning (s_cfg d) = prune
              /\ max_entries (interesting_stream_ids (s_cfg d)) = Z.max 8 max
              /\ sdb_ok (Ast (s_app d) w') /\ (timers_ok os -> timers_inv (Ast (s_app d) w'))
  | None => rc = -1 /\ sock = -1
  end.
Proof.
  intros Hl Hb. unfold msrp_init. cbn [negb].
  pose proof (init_socket_spec w) as Hs. pose proof (init_socket_failed w) as Hsock.
  destruct (mrpd_init_protocol_socket w) as [[rc sk] w1]. destruct Hs as [Hst Hrc].
  destruct (Z.ltb_spec rc 0); [split; [done|]; apply Hsock; lia|].
  unfold malloc. destruct (os_malloc _); cbn [negb]; [|done].
  set (mx := if max <? 8 then 8 else max).
  assert (Hmx : mx = Z.max 8 max) by (unfold mx; destruct (Z.ltb_spec max 8); lia).
  pose proof (init_wf (os_malloc (w_tick (step_tick w1))) mx ltac:(lia)) as Hi.
  assert (Hm : max_entries (eui64set_init (os_malloc (w_tick (step_tick w1))) mx).2 = mx)
    by (unfold eui64set_init; by repeat case_match).
  assert (Hr : (eui64set_init (os_malloc (w_tick (step_tick w1))) mx).1 = 0
    \/ (eui64set_init (os_malloc (w_tick (step_tick w1))) mx).1 = -1)
    by (unfold eui64set_init; repeat case_match; auto).
  destruct (eui64set_init _ mx) as [r ids]. cbn [fst snd] in *.
  destruct (Z.ltb_spec r 0) as [|Hr0]; [done|]. destruct (Hi ltac:(lia)) as [Hw Hk].
  pose proof (init_timers_spec mrp_zero_db (step_tick (step_tick w1))) as Ht.
  destruct (mrpd_init_timers mrp_zero_db _) as [[rc2 d] w3].
  destruct Ht as [Hrc2 Hst2]. destruct (Z.ltb_spec rc2 0); [done|].
  pose proof (begin_spec slist_ok d w3 slist_nil) as Hbg.
  destruct (mrp_lvatimer_fsm _ _) as [rc4 m]. cbn [s_app s_cfg].
  split_and!; [done | done | | | done | | apply Hbg..]; auto; try (rewrite Hst2; apply Hst; lia).
  - split; cbn; [done|]. rewrite Hk. constructor.
  - unfold interesting, set_of. cbn. by rewrite Hk.
  - cbn. lia.
Qed.
End Ids.
