(* ===== verification/MsrpTheorems.v ===== *)
(** * The properties of MSRP

    Reachable states, memory safety of reception and commands, the list as a
    map on identities, pruning, stream arithmetic, round trips of the packed
    fields, and the defects of the emitter by evaluation. *)

From S2P Require Import Prelude Os Parse Eui64Set Mrp MrpProps Attr AttrProps AppProps AppCmd.
From S2P Require Import Mvrp MvrpEmit MvrpProps MvrpTheorems Mmrp MmrpList MmrpRecv MmrpTheorems.
From S2P Require Import Msrp MsrpOps MsrpList MsrpRecv MsrpEmit MsrpWire MsrpDeliver MsrpProps MsrpCmd.
From Stdlib Require Import ZArith Lia Sorted.
From stdpp Require Import base tactics sets list strings option gmap relations.
Open Scope Z_scope.

(** ** Reachable states *)
Section Reach.
Context {os : OS} {sl : SortLib} {slok : SortLibOk} (sock : Z).

Definition sinput_ok (r : option msrp_attribute) : Prop :=
  forall a, r = Some a -> skey_ok (key a) /\ attr_fresh a.

(** The lists a frame has room for. *)
Definition transmits (e : mrp_event) : Prop := e = MRP_EVENT_LVATIMER \/ e = MRP_EVENT_TX.

(** What can happen to the MSRP database between start and stop: an event (with
    at most [MSRP_MAX_ATTRS] attributes if it transmits), a frame, a command
    (with at most 11 attributes if it is the table dump, with any number
    otherwise), the garbage collection, a client leaving. *)
Inductive msrp_step : msrp_cfg * msrp_ast -> msrp_cfg * msrp_ast -> Prop :=
| sstep_event e r cfg s rc s' :
    sinput_ok r ->
    (transmits e -> (length (attrib_list (db s)) <= MSRP_MAX_ATTRS)%nat) ->
    msrp_event cfg sock e r s = Ret (rc, s') -> msrp_step (cfg, s) (cfg, s')
| sstep_recv r cfg s rc s' :
    sframe_ok r -> msrp_recv_msg cfg sock r s = Ret (rc, s') -> msrp_step (cfg, s) (cfg, s')
| sstep_cmd buf buflen c cfg s rc cfg' s' :
    cmd_buf_ok buf -> buflen <= MAX_MRPD_CMDSZ ->
    (dumps buf -> (length (attrib_list (db s)) <= 11)%nat) ->
    msrp_recv_cmd sock buf buflen c cfg s = Ret (rc, cfg', s') ->
    msrp_step (cfg, s) (cfg', s')
| sstep_reclaim cfg s rc s' :
    msrp_reclaim (Some s) = (rc, Some s') -> msrp_step (cfg, s) (cfg, s')
| sstep_bye c cfg s s' : msrp_bye c (Some s) = Some s' -> msrp_step (cfg, s) (cfg, s').

(** The invariant of the whole [struct msrp_database]. *)
Definition msrp_inv (p : msrp_cfg * msrp_ast) : Prop := cfg_ok p.1 /\ sdb_ok p.2.

Lemma msrp_step_inv p p' :
  msrp_step p p' -> msrp_inv p ->
  msrp_inv p' /\ (timers_ok os -> timers_inv p.2 -> timers_inv p'.2).
Proof.
  assert (Hp : forall cfg s s', cfg_ok cfg -> sev_post s s' ->
    msrp_inv (cfg, s') /\ (timers_ok os -> timers_inv s -> timers_inv s'))
    by (intros ??? ? (? & _ & ?); split; [by split | done]).
  destruct 1 as [e r cfg s rc s' Hr Hlen E | r cfg s rc s' Hr E
    | buf buflen c cfg s rc cfg' s' Hb Hl Hn E | cfg s rc s' E | c cfg s s' E];
    intros [Hc Hok]; cbn [fst snd] in *.
  - pose proof (msrp_event_post cfg sock e r s Hok Hr Hlen) as H. rewrite E in H. auto.
  - pose proof (msrp_recv_post cfg sock r s Hok Hr) as H. rewrite E in H. destruct H. auto.
  - pose proof (msrp_recv_cmd_post sock buf buflen c cfg s Hc Hok Hb Hl Hn) as H.
    rewrite E in H. destruct H as (_ & H1 & _ & H2 & _ & H3). by split.
  - destruct (msrp_reclaim_spec s) as (s1 & E1 & Hlist & Hq & Hfl).
    rewrite E1 in E. simplify_eq. apply Hp; [done|]. by apply (app_post_reclaim slist_ok).
  - cbn in E. injection E as <-. destruct Hok as (H1 & H2 & H3).
    split; [by split|]. by intros _ [??].
Qed.

(** C3: every state the MSRP database can reach from a well-formed one, by any
    sequence of local and timer events, received frames (of at most 1960
    bytes), commands, garbage collections and client departures, is well-formed:
    every field holds a value of its C type, no two attributes declare the same
    thing (a stream has one talker, advertised or failed, and one listener; an
    SR class one domain), the set of interesting streams is sorted and free of
    duplicates; if timers can be armed, the LeaveAll timer runs, and the leave
    timer whenever an attribute is leaving.  The list may have any size, except
    that an event that transmits (LVATIMER, TX) must find at most 49 attributes
    and the table dump S?? at most 11; command datagrams are at most 1500 bytes
    in their zero-terminated buffer. *)
Theorem msrp_reachable_ok p p' :
  msrp_inv p -> rtc msrp_step p p' ->
  msrp_inv p' /\ (timers_ok os -> timers_inv p.2 -> timers_inv p'.2).
Proof.
  intros Hs Hr. induction Hr as [p|p p1 p' H1 _ IH]; [auto|].
  destruct (msrp_step_inv p p1 H1 Hs) as [Hs1 Ht1]. destruct (IH Hs1) as [Hs' Ht']. auto.
Qed.

(** C11: reception is memory safe and total: for every frame of at most 1960
    bytes (and for failed reads), whatever its messages, vectors, counts and
    packed events say, [msrp_recv_msg] returns 0 or -1 and keeps the database
    and timer invariants. *)
Theorem msrp_recv_msg_safe cfg r s :
  sdb_ok s -> sframe_ok r ->
  returns (msrp_recv_msg cfg sock r s) (fun '(rc, s') => (rc = 0 \/ rc = -1) /\ sdb_ok s'
    /\ (timers_ok os -> timers_inv s -> timers_inv s')).
Proof.
  intros Hs Hr. eapply returns_mono; [by apply msrp_recv_post|].
  intros [rc s'] (H1 & H2 & _ & H3). auto.
Qed.

(** MSRP command handling is memory safe: whatever a client sends, as long as
    the datagram is shorter than the 1500-byte buffer and, for the table dump
    only, at most 11 attributes are registered, [msrp_recv_cmd] returns 0 or
    -1 and keeps the database, the set of interesting streams and the timers
    well-formed. *)
Theorem msrp_recv_cmd_safe buf buflen client cfg s :
  cfg_ok cfg -> sdb_ok s -> cmd_buf_ok buf -> buflen <= MAX_MRPD_CMDSZ ->
  (dumps buf -> (length (attrib_list (db s)) <= 11)%nat) ->
  returns (msrp_recv_cmd sock buf buflen client cfg s) (fun '(rc, cfg', s') =>
    (rc = 0 \/ rc = -1) /\ cfg_ok cfg' /\ sdb_ok s'
    /\ (timers_ok os -> timers_inv s -> timers_inv s')).
Proof.
  intros H1 H2 H3 H4 H5. eapply returns_mono; [by apply msrp_recv_cmd_post|].
  intros [[rc cfg'] s'] (G1 & G2 & _ & G3 & _ & G4). auto.
Qed.

End Reach.

(** ** The list as a map on identities *)

Lemma msrp_lookup_app l1 l2 k :
  msrp_lookup (l1 ++ l2) k
  = match msrp_lookup l1 k with Some a => Some a | None => msrp_lookup l2 k end.
Proof. induction l1 as [|a l1 IH]; cbn; [done|]. by destruct (msrp_match _ _). Qed.

Lemma msrp_lookup_none l k :
  Forall skey_ok (key <$> l) -> skey_ok k -> ident k ∉ (ident <$> (key <$> l)) ->
  msrp_lookup l k = None.
Proof.
  intros Hl Hk Hni. pose proof (msrp_lookup_split l k Hl Hk) as Hs.
  destruct (msrp_lookup l k) as [a|]; [|done]. destruct Hs as (Ha & l1 & l2 & -> & _).
  destruct Hni. rewrite !fmap_app, <- Ha. cbn. set_solver.
Qed.

(** Replacing or removing the attribute of an identity changes the map there
    only. *)
Lemma msrp_lookup_middle l1 t o l2 k :
  slist_ok (l1 ++ t :: l2) -> skey_ok k ->
  (forall x, o = Some x -> skey_ok (key x) /\ ident (key x) = ident (key t)) ->
  msrp_lookup (l1 ++ option_list o ++ l2) k
  = if decide (ident k = ident (key t)) then o else msrp_lookup (l1 ++ l2) k.
Proof.
  intros [Hk Hnd _] Hkk Ho. rewrite !fmap_app, !fmap_cons in *.
  rewrite Forall_app, Forall_cons_iff in Hk. destruct Hk as (Hk1 & _ & Hk2).
  rewrite <- Permutation_middle in Hnd. apply NoDup_cons in Hnd as [Hni _].
  rewrite not_elem_of_app in Hni. destruct Hni as [Hn1 Hn2].
  rewrite !msrp_lookup_app. case_decide as Hd.
  - rewrite (msrp_lookup_none l1), (msrp_lookup_none l2) by (done || by rewrite Hd).
    destruct o as [x|]; [|done]. destruct (Ho x eq_refl) as [Hx Hi]. cbn.
    by rewrite (proj2 (msrp_match_ident (key x) k Hx Hkk)) by congruence.
  - destruct (msrp_lookup l1 k); [done|]. destruct o as [x|]; [|done].
    destruct (Ho x eq_refl) as [Hx Hi]. cbn.
    by rewrite (proj2 (msrp_match_other (key x) k Hx Hkk)) by congruence.
Qed.

Lemma lookup_some_ok l k a :
  slist_ok l -> skey_ok k -> msrp_lookup l k = Some a ->
  skey_ok (key a) /\ ident (key a) = ident k.
Proof.
  intros Hl Hk E. pose proof (sl_keys _ Hl) as Hks.
  pose proof (msrp_lookup_split l k Hks Hk) as Hs. rewrite E in Hs.
  destruct Hs as (Hi & l1 & l2 & -> & _). split; [|done].
  rewrite fmap_app, fmap_cons, Forall_app, Forall_cons_iff in Hks. apply Hks.
Qed.

(** Lookup in the list in which [o] takes the place of the attribute of [r]. *)
Lemma lookup_replaced l1 l2 l t o r k :
  slist_ok l -> skey_ok r -> skey_ok k ->
  l = l1 ++ option_list (msrp_lookup l r) ++ l2 -> slist_ok (l1 ++ t :: l2) ->
  ident (key t) = ident r ->
  (forall x, o = Some x -> skey_ok (key x) /\ ident (key x) = ident r) ->
  msrp_lookup (l1 ++ option_list o ++ l2) k
  = if decide (ident k = ident r) then o else msrp_lookup l k.
Proof.
  intros Hl Hr Hk Hold Hok Ht Ho. rewrite (msrp_lookup_middle l1 t o l2 k), Ht; auto.
  2: { intros x Hx. rewrite Ht. auto. }
  case_decide as Hd; [done|]. rewrite Hold at 1.
  rewrite (msrp_lookup_middle l1 t (msrp_lookup l r) l2 k); auto.
  - by rewrite decide_False by congruence.
  - intros x Hx. rewrite Ht. by apply (lookup_some_ok l).
Qed.

Section Map.
Context {os : OS} {sl : SortLib}.

(** The list implements a map on identities: [msrp_add] of an absent
    identity inserts the new attribute, [msrp_merge] of a present one stores the
    merged attribute in its place, every other identity keeps its attribute,
    and the list stays well-formed. *)
Theorem msrp_list_refines_map l r k w :
  slist_ok l -> skey_ok (key r) -> skey_ok k -> attr_fresh r ->
  let '(l', w') := match msrp_lookup l (key r) with
                   | None => (msrp_add r l, w)
                   | Some _ => let '(_, l', w') := msrp_merge r l w in (l', w')
                   end in
  slist_ok l' /\ w_extends w w'
  /\ msrp_lookup l' k =
     if decide (ident k = ident (key r))
     then Some match msrp_lookup l (key r) with
               | None => r
               | Some a => (merge_attr l r a w).1
               end
     else msrp_lookup l k.
Proof.
  intros Hl Hr Hk Hf.
  destruct (starget_split r l w Hl Hr Hf) as (l1 & l2 & -> & Hold & Hw & Hid & _ & Hok).
  split; [done|]. split; [done|].
  change (l1 ++ ?t :: l2) with (l1 ++ option_list (Some t) ++ l2).
  rewrite (lookup_replaced l1 l2 l (starget r l w).1 _ (key r)); auto.
  - case_decide; [|done]. f_equal. unfold starget. by destruct (msrp_lookup l (key r)).
  - intros x [= <-]. split; [|done]. pose proof (sl_keys _ Hok) as Hks.
    rewrite fmap_app, fmap_cons, Forall_app, Forall_cons_iff in Hks. apply Hks.
Qed.

Lemma msrp_lookup_notify l k :
  msrp_lookup (set_notify MRP_NOTIFY_NONE <$> l) k
  = set_notify MRP_NOTIFY_NONE <$> msrp_lookup l k.
Proof. induction l as [|a l IH]; [done|]. cbn. by destruct (msrp_match (key a) k). Qed.

Lemma msrp_attribute_event cfg sock event r s :
  attribute_event event = true ->
  msrp_event cfg sock event (Some r) s
  = Ret (msrp_finish (msrp_event_attribute cfg event (Some r) s)).
Proof. by destruct event. Qed.

(** C10: an attribute event that is not pruned changes the attribute of its own
    identity, to what merging and the applicant and registrar machines compute
    (nothing, when the result is nobody's declaration any more), and no
    other. *)
Theorem msrp_event_one_identity cfg sock event r s k :
  attribute_event event = true -> slist_ok (attrib_list (db s)) ->
  skey_ok (key r) -> attr_fresh r -> skey_ok k ->
  uninteresting cfg (attrib_list (db s)) (key r) = false ->
  returns (msrp_event cfg sock event (Some r) s) (fun '(rc, s') => rc = 0 /\
    msrp_lookup (attrib_list (db s')) k
    = set_notify MRP_NOTIFY_NONE <$>
        (if decide (ident k = ident (key r))
         then (sevent_result event r (attrib_list (db s))
                 (mrp_jointimer_start (get_mst s)).2).1
         else msrp_lookup (attrib_list (db s)) k)).
Proof.
  intros He Hl Hr Hf Hk Hun.
  destruct (msrp_attribute_spec cfg event r s Hl Hr Hf Hun)
    as (s' & l1 & l2 & Heq & Hold & Hnew & H1 & _ & _ & Hok).
  rewrite msrp_attribute_event, Heq by done. cbn [msrp_finish Z.eqb returns]. split; [done|].
  destruct (notify_handler_spec msrp_send_notifications msrp_send_quiet s') as (_ & Hlist & _).
  change (attrib_list (db (msrp_notify_all s')))
    with (attrib_list (db (notify_handler msrp_send_notifications s'))).
  rewrite Hlist, msrp_lookup_notify, Hnew. f_equal.
  set (m1 := (mrp_jointimer_start (get_mst s)).2) in *.
  pose proof (sl_keys _ Hok) as Hks.
  rewrite fmap_app, fmap_cons, Forall_app, Forall_cons_iff in Hks.
  destruct (starget_split r (attrib_list (db s)) (m_w m1) Hl Hr Hf)
    as (_ & _ & _ & _ & _ & Hid & _).
  apply (lookup_replaced l1 l2 _ (starget r (attrib_list (db s)) (m_w m1)).1); auto.
  intros x Hx.
  pose proof (sevent_result_spec event r _ m1 x Hl Hr Hf Hx) as (Hkey & _).
  rewrite Hkey. split; [apply Hks | done].
Qed.

End Map.

(** ** Pruning *)
Section Pruning.
Context {os : OS} {sl : SortLib} {slok : SortLibOk}.

(** Does the database hold a listener of the stream? *)
Definition listened (id : list Z) (l : list msrp_attribute) : Prop :=
  IdListener id ∈ (ident <$> (key <$> l)).

(** C28: pruning does what its name says.  A talker declaration is ignored
    exactly when pruning is enabled, its stream is not in the set of interesting
    streams and nobody in the database listens to it; the event then returns 0,
    adds no attribute, changes no state machine and starts no timer. *)
Theorem msrp_pruning_exact cfg sock event r s :
  cfg_ok cfg -> slist_ok (attrib_list (db s)) -> skey_ok (key r) ->
  attribute_event event = true ->
  let id := StreamID (talk_listen (key r)) in
  (uninteresting cfg (attrib_list (db s)) (key r) = true <->
     is_talker (key r) = true /\ enable_pruning_of_uninteresting_ids cfg = true
     /\ eui64_read id ∉ interesting cfg /\ ~ listened id (attrib_list (db s)))
  /\ (uninteresting cfg (attrib_list (db s)) (key r) = true ->
      returns (msrp_event cfg sock event (Some r) s) (fun '(rc, s') => rc = 0
        /\ attrib_list (db s') = set_notify MRP_NOTIFY_NONE <$> attrib_list (db s)
        /\ m_quiet (get_mst s) (get_mst s'))).
Proof.
  intros [Hwf _] Hl Hr He id. split.
  - unfold uninteresting, interesting. fold id.
    rewrite !andb_true_iff. pose proof (find_iff _ (eui64_read id) Hwf) as Hf.
    set (lk := MsrpKey MSRP_LISTENER_TYPE _ _ _ _).
    assert (Hlk : skey_ok lk) by (destruct Hr; by split).
    assert (Hil : ident lk = IdListener id) by done.
    pose proof (msrp_lookup_split _ lk (sl_keys _ Hl) Hlk) as Hs. unfold listened.
    destruct (eui64set_find _ _) as [e|].
    { split; [by intros [[? ?] ?]|]. intros (_ & _ & Hni & _). destruct Hni. apply Hf. by eauto. }
    assert (Hni : eui64_read id ∉ set_of (interesting_stream_ids cfg))
      by (intros [? ?]%Hf; done).
    destruct (msrp_lookup _ lk) as [a|].
    + split; [by intros [[? ?] ?]|]. intros (_ & _ & _ & Hn). destruct Hn.
      destruct Hs as (Hi & l1 & l2 & -> & _). rewrite <- Hil, <- Hi.
      rewrite !fmap_app. cbn. set_solver.
    + split; [|tauto]. intros [[? ?] _]. split_and!; auto. rewrite <- Hil.
      intros (k & Hk & Hin)%list_elem_of_fmap. apply list_elem_of_fmap in Hin as (a & -> & Ha).
      rewrite Forall_forall in Hs. by apply (Hs a Ha).
  - intros Hun. rewrite msrp_attribute_event by done. unfold msrp_event_attribute.
    rewrite Hun. cbn [msrp_finish Z.eqb returns]. split; [done|].
    destruct (notify_handler_spec msrp_send_notifications msrp_send_quiet s) as (Hq & Hlist & _).
    done.
Qed.

End Pruning.

(** ** Stream identifiers as numbers *)

Lemma eui64_read_be id : id_ok id -> eui64_read id = be_value id.
Proof.
  intros [Hl Hb]. pose proof (be_value_range id Hb) as Hr. rewrite Hl in Hr.
  do 9 (destruct id as [|? id]; try discriminate Hl). unfold eui64_read, be_value in *.
  cbn [fold_left lookup_total list_lookup_total] in *.
  rewrite !Z.shiftl_mul_pow2 by lia. rewrite Z.mod_small; lia.
Qed.

(** [msrp_increment_streamid] counts on the 64-bit number that the set of
    interesting streams reads from the same bytes: the low 56 bits are
    incremented modulo 2^56, byte 0 is kept (the increment never carries into
    it), so that a vector of consecutive streams stays under one first byte. *)
Theorem msrp_increment_counts id :
  id_ok id ->
  id_ok (msrp_increment_streamid id)
  /\ eui64_read (msrp_increment_streamid id)
     = eui64_read id / 2 ^ 56 * 2 ^ 56 + (eui64_read id + 1) mod 2 ^ 56.
Proof.
  intros Hid. pose proof (increment_streamid_ok id Hid) as Hi. split; [done|].
  rewrite !eui64_read_be by done. clear Hi. destruct Hid as [Hl Hb].
  destruct id as [|b0 l]; [done|]. apply Forall_cons_iff in Hb as [H0 Hb].
  assert (Hl7 : length l = 7%nat) by (cbn in Hl; lia).
  destruct (increment_from_spec 7 b0 l []) as (l' & E & Hl' & Hb' & He); [done | done|].
  rewrite !app_nil_r in E. unfold msrp_increment_streamid. rewrite E.
  pose proof (be_value_range l Hb) as Hv. rewrite Hl7 in Hv.
  assert (Hsplit : forall l, length l = 7%nat -> be_value (b0 :: l) = b0 * 2 ^ 56 + be_value l).
  { intros x Hx. change (b0 :: x) with ([b0] ++ x). rewrite be_value_app, Hx.
    unfold be_value at 1. cbn [fold_left]. change (256 ^ Z.of_nat 7) with (2 ^ 56). lia. }
  rewrite !Hsplit, He by done. change (256 ^ Z.of_nat 7) with (2 ^ 56) in *.
  change (256 ^ 7) with (2 ^ 56) in Hv.
  rewrite Z.div_add_l, (Z.div_small (be_value l)) by lia.
  replace (b0 * 2 ^ 56 + be_value l + 1) with (be_value l + 1 + b0 * 2 ^ 56) by lia.
  rewrite Z.mod_add by lia. lia.
Qed.

(** ** The substates of listeners on the wire *)

Section Substates.
Context {S : Type} {sink : EventSink msrp_key S}
        (Hmem : forall s, (sink_malloc s).1 = true).

(** The array after [idx] substates have been stored. *)
Definition stored (done : list Z) (vectevt : list Z) : Prop :=
  exists rest, vectevt = done ++ rest.

Lemma store_substates_spec vals : forall done vectevt s,
  bytes_ok vals -> stored done vectevt ->
  returns (store_substates vals vectevt (Zlen done) s) (fun '(o, _) =>
    exists v, o = Some (v, Zlen done + Zlen vals) /\ stored (done ++ vals) v).
Proof.
  induction vals as [|x vals IH]; intros done vectevt s Hb Hst; cbn [store_substates].
  { cbn. exists vectevt. rewrite Z.add_0_r, app_nil_r. done. }
  apply Forall_cons_iff in Hb as [Hx Hb].
  assert (Hgo : forall v s, (exists o rest, v = done ++ o :: rest) ->
    returns (v ← wr v (Zlen done) x; store_substates vals v (Zlen done + 1) s)
      (fun '(o, _) => exists v, o = Some (v, Zlen done + Zlen (x :: vals))
         /\ stored (done ++ x :: vals) v)).
  { intros v s' (o & rest & ->). rewrite wr_app, res_bind_ret, u8_id by done.
    replace (Zlen done + 1) with (Zlen (done ++ [x])) by (rewrite length_app; cbn; lia).
    eapply returns_mono; [apply (IH (done ++ [x])); [done|]; exists rest; by rewrite <- app_assoc|].
    intros [o' s2] (v & -> & Hv). exists v. rewrite length_app in *. cbn [length] in *.
    split; [f_equal; f_equal; lia|]. by rewrite <- app_assoc in Hv. }
  destruct Hst as [rest ->]. destruct (Z.eqb_spec (Zlen done) (Zlen (done ++ rest))) as [He|He].
  - rewrite length_app in He. destruct rest; [|cbn in He; lia].
    pose proof (Hmem s) as Hok. destruct (sink_malloc s) as [ok s']. cbn in Hok. subst ok.
    cbn [negb]. rewrite app_nil_r. apply Hgo. by exists 0, (replicate 63 0).
  - cbn [negb]. apply Hgo. rewrite length_app in He. destruct rest as [|o rest]; [cbn in He; lia|].
    by exists o, rest.
Qed.

Lemma recv_4packed_spec l : forall pre rest done vectevt s,
  Forall substate_ok l -> Zlen l < 65536 -> stored done vectevt ->
  returns (msrp_recv_4packed (length (pack4 l)) (pre ++ pack4 l ++ rest) vectevt (Zlen pre)
             (Zlen l) (Zlen done) s)
    (fun '(o, _) => exists v, o = Some v /\ stored (done ++ l) v).
Proof.
  assert (H0 : substate_ok 0) by (unfold substate_ok; lia).
  assert (Hlast : forall l b pre rest done vectevt s,
    Forall substate_ok l -> (length l <= 4)%nat -> stored done vectevt ->
    take (Z.to_nat (if 4 <? Zlen l then 4 else Zlen l)) (vect_4pack_decode b) = l ->
    returns (msrp_recv_4packed 1 (pre ++ [b] ++ rest) vectevt (Zlen pre) (Zlen l) (Zlen done) s)
      (fun '(o, _) => exists v, o = Some v /\ stored (done ++ l) v)).
  { intros l' b pre rest done vectevt s Hl H4 Hst Hd. cbn [msrp_recv_4packed app].
    rewrite rd_app, res_bind_ret, Hd by done.
    eapply returns_bind; [apply store_substates_spec; [by apply substate_bytes | done]|].
    intros [o s'] (v & -> & Hv). cbn. eauto. }
  induction l as [|a|a b|a b c|a b c d l IH] using list_four_ind;
    intros pre rest done vectevt s Hl Hn Hst; cbn [pack4];
    repeat match goal with H : Forall substate_ok (_ :: _) |- _ =>
      apply Forall_cons_iff in H as [? ?] end.
  { cbn. exists vectevt. by rewrite app_nil_r. }
  1-3: apply (Hlast _ _ pre rest done vectevt s); [forall_done | cbn; lia | done |];
    match goal with |- context [MRPDU_4PACK_ENCODE ?a ?b ?c ?d] =>
      destruct (decode_4pack a b c d) as [_ ->] end; done.
  cbn [length msrp_recv_4packed app]. rewrite rd_app, res_bind_ret by done.
  rewrite (proj2 (decode_4pack a b c d ltac:(done) ltac:(done) ltac:(done) ltac:(done))).
  cbn [length] in Hn.
  set (n := Z.of_nat (Datatypes.S (Datatypes.S (Datatypes.S (Datatypes.S (length l)))))) in *.
  assert (Hp : (if 4 <? n then 4 else n) = 4) by (destruct (Z.ltb_spec 4 n); unfold n in *; lia).
  rewrite Hp. cbn [take Z.to_nat Pos.to_nat Pos.iter_op Nat.add].
  eapply returns_bind; [apply (store_substates_spec [a; b; c; d]); [|done]|].
  { apply substate_bytes. forall_done. }
  intros [o s'] (v & -> & Hv).
  replace (Zlen done + Zlen [a; b; c; d]) with (Zlen (done ++ [a; b; c; d]))
    by (rewrite length_app; cbn; lia).
  replace (u16 (n - 4)) with (Zlen l) by (unfold n in *; rewrite u16_id; lia).
  rewrite (cons_middle _ pre), app_assoc.
  replace (Zlen pre + 1) with (Zlen (pre ++ [MRPDU_4PACK_ENCODE a b c d]))
    by (rewrite length_app; cbn; lia).
  eapply returns_mono; [apply IH; [done | unfold n in Hn; lia | done]|].
  intros [o s2] (v2 & -> & Hv2). exists v2. split; [done|]. by rewrite <- app_assoc in Hv2.
Qed.

(** The substates of listeners survive the wire: whatever list of
    four-valued substates [emit_4packed] writes into a frame without giving up,
    the receiver's four-packed loop over the bytes that the emitter used, with
    memory available, reads back in the same order, whatever the array it
    stores them in held before. *)
Theorem msrp_substates_roundtrip eof l pre old rest buf pos vectevt s :
  Forall substate_ok l -> Zlen l < 65536 -> length old = length (pack4 l) ->
  emit_4packed eof l (pre ++ old ++ rest) (Zlen pre) = Ret (false, buf, pos) ->
  pos = Zlen pre + num_4pack_bytes (Zlen l)
  /\ returns (msrp_recv_4packed (Z.to_nat (num_4pack_bytes (Zlen l))) buf vectevt (Zlen pre)
                (Zlen l) 0 s)
       (fun '(o, _) => exists rest', o = Some (l ++ rest')).
Proof.
  intros Hl Hn Hold E. apply emit_4packed_bytes in E as [-> ->]; [|done | done].
  destruct (pack4_ok l Hl) as [_ Hp]. rewrite <- Hp. split; [done|]. rewrite Nat2Z.id.
  eapply returns_mono; [apply (recv_4packed_spec l pre rest [] vectevt s Hl Hn)|].
  - by exists vectevt.
  - intros [o s'] (v & -> & rest' & ->). by exists rest'.
Qed.

End Substates.

(** ** Whole frames *)

(** What [msrp_txpdu] works on: at most 49 attributes, with fields of their C
    types and listener substates that PDUs can express. *)
Record transmissible (s : msrp_ast) : Prop := {
  tr_keys : Forall skey_ok (key <$> attrib_list (db s));
  tr_declared : Forall declared (key <$> attrib_list (db s));
  tr_station : station_ok (wld s);
  tr_max : (length (attrib_list (db s)) <= MSRP_MAX_ATTRS)%nat
}.

(** Every message that is due is one that PDUs have. *)
Definition all_sendable (l : list msrp_attribute) : Prop :=
  forall t, Forall (Forall sendable) (frame_vectors t l).

Lemma frame_vectors_cover a l :
  a ∈ l -> app_tx (applicant a) = true \/ type (key a) = MSRP_LISTENER_TYPE ->
  app_encode (applicant a) = MRP_ENCODE_YES ->
  exists g, g ∈ frame_vectors (type (key a)) l /\ mark_listener a ∈ g.
Proof.
  intros Hin Htx He. set (t := type (key a)).
  destruct (groups_cover t (mark_listener a) (mark_listener <$> l) None) as [Hn|Hg].
  - by apply list_elem_of_fmap_2.
  - unfold sends. rewrite mark_key, bool_decide_eq_true_2 by done. unfold mark_listener.
    case_decide; [done|]. by destruct Htx.
  - unfold mark_listener. case_decide; cbn; by rewrite He.
  - rewrite groups_none in Hn. by apply elem_of_nil in Hn.
  - done.
Qed.

(** C8: what is sent is what is received.  [msrp_txpdu] sends at most one frame;
    [msrp_recv_frame] of any application behind the parser interface, run on
    that frame with memory available, returns 0 and delivers exactly what the
    sender's list calls for: per type the LeaveAll (when it is flagged) and then
    in list order every attribute of every vector, with the event of its
    message, the sender's address and the sender's values (a listener that
    declares nothing is skipped).  Every attribute marked for transmission whose
    message is not optional, and every listener, is in one of the vectors.  When
    memory is available and all messages can be expressed, the frame is sent
    exactly when there is something to say, and no transmit flag is left. *)
Theorem msrp_txpdu_roundtrip {os : OS} sock s :
  transmissible s ->
  let l := attrib_list (db s) in
  let lv := lva_tx (lva (mrp_db (db s))) in
  let flag := send_empty_LeaveAll_flag (db s) in
  returns (msrp_txpdu sock s) (fun '(_, s') => exists frames,
    w_trace (wld s') = w_trace (wld s) ++ frames
    /\ (frames = [] \/ exists f, frames = [ASend sock f]
          /\ forall S (sink : EventSink msrp_key S) (x : S),
              (forall y, (sink_malloc y).1 = true) ->
              msrp_recv_frame (Zlen f) (rx_buffer f) x
              = (x ← deliver_frame (STATION_ADDR (wld s)) lv flag l x; Ret (0, x)))
    /\ (forall a, a ∈ l -> app_tx (applicant a) = true \/ type (key a) = MSRP_LISTENER_TYPE ->
          app_encode (applicant a) = MRP_ENCODE_YES ->
          exists g, g ∈ frame_vectors (type (key a)) l /\ mark_listener a ∈ g)
    /\ ((forall n, os_malloc n = true) -> all_sendable l ->
         attrib_list (db s') = clear_tx <$> l /\ (frames <> [] <-> has_news flag l))).
Proof.
  intros [Hk Hd Hst Hm] l lv flag. eapply returns_mono; [by apply msrp_txpdu_spec|].
  intros [rc s'] (frames & Htr & Hfr & Hall). exists frames.
  split_and!; [done | | by intros a; apply frame_vectors_cover | done].
  destruct Hfr as [|(junk & Hj & _ & Hf & Hlen)]; [by left|]. right. eexists. split; [exact Hf|].
  intros S sink x Hmem. apply frame_deliver; auto; [apply Hst|].
  etransitivity; [exact Hlen | by vm_compute].
Qed.

(** ** Concrete databases *)

Definition demo_id (x : Z) : list Z := [0; 136; 119; 102; 85; 68; 0; x].

Definition demo_talker (ty : msrp_type) (x : Z) : msrp_key :=
  MsrpKey ty (Talker (demo_id x) [0x91; 0xe0; 0xf0; 0; 0; x] 2 224 1 112 0 (replicate 8 0) 0)
    zero_domain 0 0.
Definition demo_listener (x sub : Z) : msrp_key :=
  MsrpKey MSRP_LISTENER_TYPE (stream_talker (demo_id x)) zero_domain sub 0.
Definition demo_domain (c : Z) : msrp_key :=
  MsrpKey MSRP_DOMAIN_TYPE zero_talker (Domain c 3 3 2) 0 0.

Definition demo_sattr (k : msrp_key) (st : applicant_state) (reg : registrar_state)
  : msrp_attribute :=
  Attr k (Applicant st false MRP_SND_NULL MRP_ENCODE_YES None)
    (Registrar reg MRP_NOTIFY_NONE [0; 0; 0; 0; 0; 0]).

Definition demo_sast (l : list msrp_attribute) : msrp_ast :=
  Ast (AppDb (mrp_db (db (demo_ast []))) l false) (wld (demo_ast [])).

(** A talker we declare, a listener that somebody else registered, a domain. *)
Definition demo_streams : list msrp_attribute :=
  [demo_sattr (demo_talker MSRP_TALKER_ADV_TYPE 1) MRP_VP_STATE MRP_MT_STATE;
   demo_sattr (demo_listener 5 MSRP_LISTENER_READY) MRP_QA_STATE MRP_IN_STATE;
   demo_sattr (demo_domain 6) MRP_VN_STATE MRP_MT_STATE].

(** Pruning with room for the three streams 3, 7 and 2^64 - 1 and one more. *)
Definition demo_cfg : msrp_cfg := MsrpCfg demo_set true.

Lemma demo_id_ok x : 0 <= x < 256 -> id_ok (demo_id x).
Proof. intros Hx. split; [done|]. unfold bytes_ok. repeat constructor; lia. Qed.

Lemma demo_talker_ok ty x : 0 <= x < 256 -> skey_ok (demo_talker ty x).
Proof.
  intros Hx. split; cbn; [|apply zero_domain_ok | lia].
  split; cbn; auto using demo_id_ok, zero_id; try lia.
  split; [done|]. unfold bytes_ok. repeat constructor; lia.
Qed.

Lemma demo_listener_ok x sub : 0 <= x < 256 -> 0 <= sub < 4 -> skey_ok (demo_listener x sub).
Proof.
  intros Hx Hs. split; cbn; [|apply zero_domain_ok | lia]. by apply stream_talker_ok, demo_id_ok.
Qed.

Lemma demo_domain_ok c : 0 <= c < 256 -> skey_ok (demo_domain c).
Proof.
  intros Hc. split; cbn; [apply (zero_key_ok MSRP_DOMAIN_TYPE) | split; cbn; lia | lia].
Qed.

Lemma demo_slist_ok : slist_ok demo_streams.
Proof.
  split; cbn.
  - unfold MSRP_LISTENER_READY. repeat apply Forall_cons_2; [.. | apply Forall_nil_2];
      [apply demo_talker_ok | apply demo_listener_ok | apply demo_domain_ok]; lia.
  - apply (bool_decide_unpack _). vm_compute. exact I.
  - forall_done.
Qed.

Lemma demo_sdb_ok : sdb_ok (demo_sast demo_streams).
Proof.
  split; [apply demo_slist_ok|]. split; [|done]. split; [done|].
  unfold bytes_ok. repeat constructor; lia.
Qed.

Lemma demo_cfg_ok : cfg_ok demo_cfg.
Proof. split; apply demo_set_wf. Qed.

(** ** Witnesses *)

(** The state after a tx! event. *)
Definition demo_ssent : msrp_ast :=
  match msrp_event (os := calm_os) demo_cfg 9 MRP_EVENT_TX None (demo_sast demo_streams) with
  | Ret (_, s') => s'
  | Fault _ => demo_sast demo_streams
  end.

Lemma msrp_reachable_ok_witness :
  msrp_inv (demo_cfg, demo_ssent) /\ timers_inv demo_ssent
  /\ length (frames_sent (w_trace (wld demo_ssent))) = 1%nat.
Proof.
  destruct (msrp_reachable_ok (os := calm_os) 9 (demo_cfg, demo_sast demo_streams)
    (demo_cfg, demo_ssent)) as [H1 H2].
  - split; [exact demo_cfg_ok | exact demo_sdb_ok].
  - apply rtc_once, (sstep_event (os := calm_os) 9 MRP_EVENT_TX None demo_cfg _ 0);
      [discriminate | intros _; vm_compute; lia | vm_compute; reflexivity].
  - split; [exact H1|]. split; [|vm_compute; reflexivity]. apply H2; [exact demo_timers_ok|].
    split; [reflexivity|]. unfold lv_covered. cbn. forall_done.
Defined.

(** A frame with a Talker Advertise of stream 2 that ends in the middle of its
    list. *)
Definition demo_sframe : list Z :=
  MSRP_ADDR ++ [0; 1; 2; 3; 4; 5; 0x22; 0xEA; 0; 1; 25; 0; 30; 0; 1] ++ demo_id 2
  ++ [0x91; 0xe0; 0xf0; 0; 0; 2; 0; 2; 0; 224; 0; 1; 112; 0; 0; 0; 9; 36; 0; 0; 0; 0].

Lemma msrp_recv_msg_safe_witness :
  returns (msrp_recv_msg (os := calm_os) demo_cfg 9 (RecvBytes demo_sframe)
      (demo_sast demo_streams))
    (fun '(rc, s') => (rc = 0 \/ rc = -1) /\ sdb_ok s').
Proof.
  eapply returns_mono; [apply (msrp_recv_msg_safe (os := calm_os)); [exact demo_sdb_ok|]|].
  - intros data [= <-].
    split; [unfold bytes_ok; cbn; repeat constructor; lia | vm_compute; discriminate].
  - intros [rc s'] (H1 & H2 & _). split; [exact H1 | exact H2].
Defined.

Definition demo_cmd : list Z :=
  let text := bytes_of "S++:S=0088776655440002,A=91e0f0000002,V=0002,Z=224,I=1,P=112,L=7800" in
  text ++ replicate (1500 - length text) 0.

Lemma msrp_recv_cmd_safe_witness :
  returns (msrp_recv_cmd (os := calm_os) 9 demo_cmd 70 (SockAddr 2 5555 1 0) demo_cfg
      (demo_sast demo_streams))
    (fun '(rc, cfg', s') => (rc = 0 \/ rc = -1) /\ cfg_ok cfg' /\ sdb_ok s'
       /\ (timers_ok calm_os -> timers_inv (demo_sast demo_streams) -> timers_inv s')).
Proof.
  apply (msrp_recv_cmd_safe (os := calm_os)); [exact demo_cfg_ok | exact demo_sdb_ok
    | split; reflexivity | unfold MAX_MRPD_CMDSZ; lia | intros _; cbn; lia].
Defined.

(** A parameter that does not parse: the reply repeats the command only up to the
    comma behind it, which [parse] has overwritten and not put back. *)
Theorem parse_failure_cuts_reply :
  let text := bytes_of "S++:S=xyz,A=91e0f0000002,V=0002,Z=224,I=1,P=112,L=7800" in
  returns (msrp_recv_cmd (os := calm_os) 9 (text ++ replicate (1500 - length text) 0) 60 (SockAddr 2 5555 1 0) demo_cfg
      (demo_sast demo_streams))
    (fun '(rc, _, s') => rc = -1
       /\ last (w_trace (wld s')) = Some (ASendto (SockAddr 2 5555 1 0) "ERP S++:S=xyz" 64)).
Proof. vm_compute. split; reflexivity. Qed.

Lemma fresh_ok k : attr_fresh (msrp_alloc k).
Proof. done. Qed.

(** The failed talker takes the place of the advertised one. *)
Lemma msrp_list_refines_map_witness :
  let l' := (msrp_merge (os := calm_os) (msrp_alloc (demo_talker MSRP_TALKER_FAILED_TYPE 1))
               demo_streams (m_w demo_mst)).1.2 in
  type ∘ key <$> l' = [MSRP_TALKER_FAILED_TYPE; MSRP_LISTENER_TYPE; MSRP_DOMAIN_TYPE]
  /\ msrp_lookup l' (demo_listener 5 0) = msrp_lookup demo_streams (demo_listener 5 0).
Proof.
  split; [vm_compute; reflexivity|].
  apply (msrp_list_refines_map (os := calm_os) demo_streams
    (msrp_alloc (demo_talker MSRP_TALKER_FAILED_TYPE 1)) (demo_listener 5 0) (m_w demo_mst));
    [exact demo_slist_ok | apply demo_talker_ok; lia | apply demo_listener_ok; lia
    | apply fresh_ok].
Defined.

Lemma msrp_event_one_identity_witness :
  returns (msrp_event (os := calm_os) demo_cfg 9 MRP_EVENT_RJOININ
      (Some (msrp_alloc (demo_talker MSRP_TALKER_FAILED_TYPE 5))) (demo_sast demo_streams))
    (fun '(rc, s') => rc = 0 /\ msrp_lookup (attrib_list (db s')) (demo_domain 6)
       = Some (demo_sattr (demo_domain 6) MRP_VN_STATE MRP_MT_STATE)).
Proof.
  apply (msrp_event_one_identity (os := calm_os) demo_cfg 9 MRP_EVENT_RJOININ
    (msrp_alloc (demo_talker MSRP_TALKER_FAILED_TYPE 5)) (demo_sast demo_streams) (demo_domain 6));
    [reflexivity | exact demo_slist_ok | apply demo_talker_ok; lia | apply fresh_ok
    | apply demo_domain_ok; lia | vm_compute; reflexivity].
Defined.

(** Stream 9 is neither interesting nor listened to. *)
Lemma msrp_pruning_exact_witness :
  returns (msrp_event (os := calm_os) demo_cfg 9 MRP_EVENT_RJOININ
      (Some (msrp_alloc (demo_talker MSRP_TALKER_ADV_TYPE 9))) (demo_sast demo_streams))
    (fun '(rc, s') => rc = 0
       /\ attrib_list (db s') = set_notify MRP_NOTIFY_NONE <$> demo_streams
       /\ m_quiet (get_mst (demo_sast demo_streams)) (get_mst s')).
Proof.
  apply (msrp_pruning_exact (os := calm_os) demo_cfg 9 MRP_EVENT_RJOININ
    (msrp_alloc (demo_talker MSRP_TALKER_ADV_TYPE 9)) (demo_sast demo_streams));
    [exact demo_cfg_ok | exact demo_slist_ok | apply demo_talker_ok; lia | reflexivity
    | vm_compute; reflexivity].
Defined.

Lemma msrp_increment_counts_witness :
  eui64_read (msrp_increment_streamid [7; 255; 255; 255; 255; 255; 255; 255]) = 7 * 2 ^ 56.
Proof.
  destruct (msrp_increment_counts [7; 255; 255; 255; 255; 255; 255; 255]) as [_ H].
  - split; [reflexivity|]. unfold bytes_ok. repeat constructor; lia.
  - rewrite H. vm_compute. reflexivity.
Defined.

(** A sink that records the events it is given. *)
Definition stream_sink : EventSink msrp_key (list (mrp_event * option msrp_key)) := {|
  sink_malloc := fun t => (true, t);
  sink_event := fun e a t => Ret (t ++ [(e, key <$> a)])
|}.

Lemma msrp_substates_roundtrip_witness :
  returns (msrp_recv_4packed (sink := stream_sink) 2 ([8; 8] ++ [176; 128] ++ [0; 0]) [] 2 5 0 [])
    (fun '(o, _) => exists rest', o = Some ([2; 3; 0; 0; 2] ++ rest')).
Proof.
  apply (msrp_substates_roundtrip (sink := stream_sink) (fun _ => eq_refl) 20 [2; 3; 0; 0; 2]
    [8; 8] [9; 9] [0; 0] ([8; 8] ++ [176; 128] ++ [0; 0]) 4 []).
  - unfold substate_ok. repeat constructor; lia.
  - cbn. lia.
  - reflexivity.
  - vm_compute. reflexivity.
Defined.

(** Two consecutive talkers, three listeners and a domain, as the tx! event
    leaves them; the listener in the middle declares nothing. *)
Definition demo_due : list msrp_attribute :=
  attr_applicant_fsm 1 MRP_EVENT_TX <$>
    [demo_sattr (demo_talker MSRP_TALKER_ADV_TYPE 1) MRP_VP_STATE MRP_MT_STATE;
     demo_sattr (demo_talker MSRP_TALKER_ADV_TYPE 2) MRP_AA_STATE MRP_MT_STATE;
     demo_sattr (demo_listener 5 MSRP_LISTENER_READY) MRP_VP_STATE MRP_IN_STATE;
     demo_sattr (demo_listener 6 MSRP_LISTENER_IGNORE) MRP_VP_STATE MRP_MT_STATE;
     demo_sattr (demo_listener 7 MSRP_LISTENER_ASKFAILED) MRP_VN_STATE MRP_MT_STATE;
     demo_sattr (demo_domain 6) MRP_VN_STATE MRP_MT_STATE].

Lemma demo_due_ok : transmissible (demo_sast demo_due).
Proof.
  split; [| |split; [done|]; unfold bytes_ok; repeat constructor; lia | cbn; unfold MSRP_MAX_ATTRS; lia].
  - cbn. unfold MSRP_LISTENER_READY, MSRP_LISTENER_IGNORE, MSRP_LISTENER_ASKFAILED.
    repeat apply Forall_cons_2; [.. | apply Forall_nil_2];
      (apply demo_talker_ok || apply demo_listener_ok || apply demo_domain_ok); lia.
  - cbn. repeat apply Forall_cons_2; try apply Forall_nil_2; intros [=]; unfold substate_ok; cbn;
      unfold MSRP_LISTENER_READY, MSRP_LISTENER_IGNORE, MSRP_LISTENER_ASKFAILED; lia.
Qed.

Lemma msrp_txpdu_roundtrip_witness :
  exists f s', msrp_txpdu (os := calm_os) 9 (demo_sast demo_due) = Ret (0, s')
    /\ w_trace (wld s') = [ASend 9 f]
    /\ msrp_recv_frame (sink := stream_sink) (Zlen f) (rx_buffer f) []
       = Ret (0, [(MRP_EVENT_RJOINMT, Some (wire_key (demo_talker MSRP_TALKER_ADV_TYPE 1)));
                  (MRP_EVENT_RJOINMT, Some (wire_key (demo_talker MSRP_TALKER_ADV_TYPE 2)));
                  (MRP_EVENT_RJOININ, Some (wire_key (demo_listener 5 MSRP_LISTENER_READY)));
                  (MRP_EVENT_RNEW, Some (wire_key (demo_listener 7 MSRP_LISTENER_ASKFAILED)));
                  (MRP_EVENT_RNEW, Some (wire_key (demo_domain 6)))]).
Proof.
  pose proof (msrp_txpdu_roundtrip (os := calm_os) 9 (demo_sast demo_due) demo_due_ok) as H.
  destruct (msrp_txpdu (os := calm_os) 9 (demo_sast demo_due)) as [[rc s']|] eqn:E;
    [|destruct H].
  destruct H as (frames & Htr & Hf & _ & Hs).
  destruct Hf as [-> | (f & -> & Hf)].
  - exfalso. revert E Htr. vm_compute. intros [= _ <-]. discriminate.
  - exists f, s'. split; [|split].
    + revert E. vm_compute. intros [= <- <-]. reflexivity.
    + exact Htr.
    + rewrite Hf by reflexivity. vm_compute. reflexivity.
Defined.

(** ** The bounds of the emitter, by evaluation *)

(** Every second stream from 0 on, so that no two share a vector. *)
Definition isolated (k : Z -> msrp_key) (n : nat) : list msrp_attribute :=
  (fun i => demo_sattr (k (2 * Z.of_nat i)) MRP_VP_STATE MRP_MT_STATE) <$> seq 0 n.

Definition crowded_streams : list msrp_attribute :=
  isolated (demo_talker MSRP_TALKER_ADV_TYPE) 68
  ++ isolated (fun x => demo_listener x MSRP_LISTENER_READY) 5
  ++ isolated demo_domain 1.

(** A bound on the attributes is needed: the tests of the emitter count
    a vector from the start of the message and not from behind its four bytes
    of header, so that with 68 talkers, 5 listeners and a domain the domain is
    written past the frame. *)
Theorem msrp_domain_overflow :
  msrp_event (os := calm_os) demo_cfg 9 MRP_EVENT_TX None (demo_sast crowded_streams)
  = Fault (OobWrite 2000).
Proof. vm_compute. reflexivity. Qed.

(** Declarations that do not fit are lost: with 70 talkers to announce no frame
    is sent, not even one with the talkers that fit, and no transmit flag is
    left for the next opportunity. *)
Theorem msrp_tx_loses_all :
  returns (msrp_event (os := calm_os) demo_cfg 9 MRP_EVENT_TX None
      (demo_sast (isolated (demo_talker MSRP_TALKER_ADV_TYPE) 70)))
    (fun '(rc, s') => rc = 0 /\ frames_sent (w_trace (wld s')) = []
       /\ filter (fun a => app_tx (applicant a) = true) (attrib_list (db s')) = []).
Proof. vm_compute. auto. Qed.
