(* ===== verification/Daemon.v ===== *)
(** * mrpd.c: the command dispatcher, the event loop and the start of the daemon

    The daemon sees its applications through the interface [MrpApp]; what it
    relies on is [MrpAppOk], which MVRP, MMRP and MSRP discharge. *)

From S2P Require Import Prelude Os Parse Eui64Set Mrp MrpProps Attr AttrProps AppProps AppCmd.
From S2P Require Import Mvrp MvrpProps MvrpTheorems MvrpCmd.
From S2P Require Import Mmrp MmrpList MmrpEmit MmrpProps MmrpTheorems MmrpCmd.
From S2P Require Import Msrp MsrpOps MsrpList MsrpEmit MsrpProps MsrpCmd.
From Stdlib Require Import ZArith Lia.
From stdpp Require Import base tactics sets list strings option gmap.
Open Scope Z_scope.

(** ** The interface of an application *)

(** [D] is the application's database; the world is shared.  The first argument
    of the operations that transmit is the application's socket. *)
Class MrpApp (D : Type) := {
  ma_timers : D -> mrp_database;
  ma_recv_msg : Z -> recv_result -> D -> world -> res (D * world);
  ma_event : Z -> mrp_event -> D -> world -> res (D * world);
  ma_recv_cmd : Z -> list Z -> Z -> sockaddr_in -> option D -> world
                -> res (Z * option D * world);
  ma_bye : sockaddr_in -> option D -> world -> option D * world;
  ma_reclaim : option D -> world -> option D * world
}.

(** The handlers keep the invariant [I] on databases within the bound [small],
    for frames that satisfy [F], and only extend the world. *)
Class MrpAppOk (D : Type) `{!MrpApp D} (I : D -> world -> Prop) (small : D -> Prop)
    (F : recv_result -> Prop) : Prop := {
  ok_world : forall d w w', I d w -> w_extends w w' -> I d w';
  ok_recv_msg : forall sock r d w, I d w -> F r ->
    returns (ma_recv_msg sock r d w) (fun '(d', w') => I d' w' /\ w_extends w w');
  ok_event : forall sock e d w, I d w -> small d ->
    returns (ma_event sock e d w) (fun '(d', w') => I d' w' /\ w_extends w w');
  ok_recv_cmd : forall sock buf buflen c d w, I d w -> small d -> cmd_buf_ok buf ->
    buflen <= MAX_MRPD_CMDSZ ->
    returns (ma_recv_cmd sock buf buflen c (Some d) w)
      (fun '(_, od, w') => (exists d', od = Some d' /\ I d' w') /\ w_extends w w');
  ok_recv_cmd_null : forall sock buf buflen c w, cmd_buf_ok buf ->
    returns (ma_recv_cmd sock buf buflen c None w)
      (fun '(_, od, w') => od = None /\ w_extends w w');
  ok_bye : forall c d w, I d w ->
    exists d', ma_bye c (Some d) w = (Some d', w) /\ I d' w;
  ok_bye_null : forall c w, ma_bye c None w = (None, w);
  ok_reclaim : forall d w, I d w -> exists d' w',
    ma_reclaim (Some d) w = (Some d', w') /\ I d' w' /\ w_extends w w';
  ok_reclaim_null : forall w, ma_reclaim None w = (None, w)
}.

(** ** The daemon *)

Record daemon (D1 D2 D3 : Type) := Daemon {
  MMRP_db : option D1;
  MVRP_db : option D2;
  MSRP_db : option D3;
  d_w : world;
  mmrp_enable : bool;
  mvrp_enable : bool;
  msrp_enable : bool;
  mmrp_socket : Z;
  mvrp_socket : Z;
  msrp_socket : Z;
  periodic_timer : Z;
  gc_timer : Z;
  mrp_periodic_state : option timer_state
}.
Arguments Daemon {D1 D2 D3}.
Arguments MMRP_db {D1 D2 D3}.
Arguments MVRP_db {D1 D2 D3}.
Arguments MSRP_db {D1 D2 D3}.
Arguments d_w {D1 D2 D3}.
Arguments mmrp_enable {D1 D2 D3}.
Arguments mvrp_enable {D1 D2 D3}.
Arguments msrp_enable {D1 D2 D3}.
Arguments mmrp_socket {D1 D2 D3}.
Arguments mvrp_socket {D1 D2 D3}.
Arguments msrp_socket {D1 D2 D3}.
Arguments periodic_timer {D1 D2 D3}.
Arguments gc_timer {D1 D2 D3}.
Arguments mrp_periodic_state {D1 D2 D3}.

(** What one return of [select] and the reads after it deliver: the ready
    descriptors, a control datagram with its sender, and a frame per socket. *)
Record select_result := Select {
  sel_fds : list Z;
  sel_ctl : recv_result;
  sel_client : sockaddr_in;
  sel_mmrp : recv_result;
  sel_mvrp : recv_result;
  sel_msrp : recv_result
}.

Definition FD_ISSET (fd : Z) (i : select_result) : bool := bool_decide (fd ∈ sel_fds i).

Section Ops.
Context {os : OS} {D1 D2 D3 : Type} {A1 : MrpApp D1} {A2 : MrpApp D2} {A3 : MrpApp D3}.
Abbreviation D := (daemon D1 D2 D3).

(** Updates of one application's database, with the world. *)
Definition put_mmrp (od : option D1) (w : world) (s : D) : D :=
  Daemon od (MVRP_db s) (MSRP_db s) w (mmrp_enable s) (mvrp_enable s) (msrp_enable s)
    (mmrp_socket s) (mvrp_socket s) (msrp_socket s) (periodic_timer s) (gc_timer s)
    (mrp_periodic_state s).
Definition put_mvrp (od : option D2) (w : world) (s : D) : D :=
  Daemon (MMRP_db s) od (MSRP_db s) w (mmrp_enable s) (mvrp_enable s) (msrp_enable s)
    (mmrp_socket s) (mvrp_socket s) (msrp_socket s) (periodic_timer s) (gc_timer s)
    (mrp_periodic_state s).
Definition put_msrp (od : option D3) (w : world) (s : D) : D :=
  Daemon (MMRP_db s) (MVRP_db s) od w (mmrp_enable s) (mvrp_enable s) (msrp_enable s)
    (mmrp_socket s) (mvrp_socket s) (msrp_socket s) (periodic_timer s) (gc_timer s)
    (mrp_periodic_state s).
Definition put_periodic (st : option timer_state) (w : world) (s : D) : D :=
  Daemon (MMRP_db s) (MVRP_db s) (MSRP_db s) w (mmrp_enable s) (mvrp_enable s)
    (msrp_enable s) (mmrp_socket s) (mvrp_socket s) (msrp_socket s) (periodic_timer s)
    (gc_timer s) st.
Definition put_w (w : world) (s : D) : D := put_periodic (mrp_periodic_state s) w s.

(** ** Commands *)

Definition process_ctl_msg (buf : list Z) (buflen : Z) (client : sockaddr_in) (s : D)
  : res (Z * D) :=
  if buflen <? 3 then Ret (-1, s)
  else
    b0 ← rd buf 0;
    if b0 =? 77 then
      '(rc, od, w) ← ma_recv_cmd (mmrp_socket s) buf buflen client (MMRP_db s) (d_w s);
      Ret (rc, put_mmrp od w s)
    else if b0 =? 86 then
      '(rc, od, w) ← ma_recv_cmd (mvrp_socket s) buf buflen client (MVRP_db s) (d_w s);
      Ret (rc, put_mvrp od w s)
    else if b0 =? 83 then
      '(rc, od, w) ← ma_recv_cmd (msrp_socket s) buf buflen client (MSRP_db s) (d_w s);
      Ret (rc, put_msrp od w s)
    else if b0 =? 66 then
      let '(od1, w) := ma_bye client (MMRP_db s) (d_w s) in
      let s := put_mmrp od1 w s in
      let '(od2, w) := ma_bye client (MVRP_db s) (d_w s) in
      let s := put_mvrp od2 w s in
      let '(od3, w) := ma_bye client (MSRP_db s) (d_w s) in
      Ret (0, put_msrp od3 w s)
    else
      text ← cstr buf 0;
      let respbuf := snprintf 7 ("ERC MRP parse " +:+ text_of text) in
      let '(_, w) := mrpd_send_ctl_msg client respbuf 8 (d_w s) in
      Ret (-1, put_w w s).

(** The datagram lands in [MAX_MRPD_CMDSZ] zeroed bytes. *)
Definition recv_ctl_msg (r : recv_result) (client : sockaddr_in) (s : D) : res D :=
  let '(ok, w) := malloc (d_w s) in
  let s := put_w w s in
  if negb ok then Ret s
  else
    match r with
    | RecvError _ => Ret s
    | RecvBytes data =>
        let got := take (Z.to_nat MAX_MRPD_CMDSZ) data in
        let msgbuf := got ++ replicate (Z.to_nat MAX_MRPD_CMDSZ - length got) 0 in
        if Zlen got =? 0 then Ret s
        else '(_, s) ← process_ctl_msg msgbuf (Zlen got) client s; Ret s
    end.

(** ** Timers *)

Definition gctimer_start (s : D) : Z * D :=
  let '(rc, w) := mrpd_timer_start (gc_timer s) (30 * 1000) (d_w s) in (rc, put_w w s).

Definition mrpd_reclaim (s : D) : D :=
  let '(od1, w) := ma_reclaim (MMRP_db s) (d_w s) in
  let s := put_mmrp od1 w s in
  let '(od2, w) := ma_reclaim (MVRP_db s) (d_w s) in
  let s := put_mvrp od2 w s in
  let '(od3, w) := ma_reclaim (MSRP_db s) (d_w s) in
  let s := put_msrp od3 w s in
  (gctimer_start s).2.

Definition mrp_register_timers (d : mrp_database) (fds : list Z) : list Z :=
  join_timer d :: lv_timer d :: lva_timer d :: fds.

(** ** The event loop *)

(** The place of an application in the daemon. *)
Record slot (E : Type) := Slot {
  sl_get : D -> option E;
  sl_put : option E -> world -> D -> D;
  sl_enable : D -> bool;
  sl_socket : D -> Z
}.

Definition mmrp_slot : slot D1 := Slot D1 MMRP_db put_mmrp mmrp_enable mmrp_socket.
Definition mvrp_slot : slot D2 := Slot D2 MVRP_db put_mvrp mvrp_enable mvrp_socket.
Definition msrp_slot : slot D3 := Slot D3 MSRP_db put_msrp msrp_enable msrp_socket.

(** A handler of an enabled application; [process_events] has returned before
    the loop when its database is NULL. *)
Definition on_slot {E} (sl : slot E) (f : Z -> E -> world -> res (E * world)) (s : D)
  : res D :=
  if sl_enable E sl s then
    match sl_get E sl s with
    | Some d => '(d, w) ← f (sl_socket E sl s) d (d_w s); Ret (sl_put E sl (Some d) w s)
    | None => Ret s
    end
  else Ret s.

Definition on_frame {E} `{MrpApp E} (sl : slot E) (i : select_result) (r : recv_result)
  : D -> res D :=
  on_slot sl (fun sock d w =>
    if FD_ISSET sock i then ma_recv_msg sock r d w else Ret (d, w)).

Definition on_timer {E} `{MrpApp E} (sl : slot E) (i : select_result)
    (fd : mrp_database -> Z) (e : mrp_event) : D -> res D :=
  on_slot sl (fun sock d w =>
    if FD_ISSET (fd (ma_timers d)) i then ma_event sock e d w else Ret (d, w)).

Definition on_periodic {E} `{MrpApp E} (sl : slot E) (i : select_result) (s : D) : res D :=
  if FD_ISSET (periodic_timer s) i
  then on_slot sl (fun sock d w => ma_event sock MRP_EVENT_PERIODIC d w) s
  else Ret s.

(** The four tests of one application in the loop body. *)
Definition slot_handlers {E} `{MrpApp E} (sl : slot E) (i : select_result) (r : recv_result)
  : list (D -> res D) :=
  [on_frame sl i r; on_timer sl i lva_timer MRP_EVENT_LVATIMER;
   on_timer sl i lv_timer MRP_EVENT_LVTIMER; on_timer sl i join_timer MRP_EVENT_TX].

Definition on_ctl (i : select_result) (s : D) : res D :=
  if FD_ISSET (control_socket (d_w s)) i
  then recv_ctl_msg (sel_ctl i) (sel_client i) s else Ret s.

Definition on_periodic_fsm (i : select_result) (s : D) : res D :=
  if FD_ISSET (periodic_timer s) i then
    let '(_, st, w) := mrp_periodictimer_fsm (periodic_timer s) (mrp_periodic_state s)
                         MRP_EVENT_PERIODIC (d_w s) in
    Ret (put_periodic st w s)
  else Ret s.

Definition on_gc (i : select_result) (s : D) : res D :=
  Ret (if FD_ISSET (gc_timer s) i then mrpd_reclaim s else s).

(** The body of the [do] loop after a successful [select]: its tests in order. *)
Definition loop_body (i : select_result) : list (D -> res D) :=
  [on_ctl i] ++ slot_handlers mmrp_slot i (sel_mmrp i)
  ++ slot_handlers mvrp_slot i (sel_mvrp i) ++ slot_handlers msrp_slot i (sel_msrp i)
  ++ [on_periodic_fsm i; on_periodic mmrp_slot i; on_periodic mvrp_slot i;
      on_periodic msrp_slot i; on_gc i].

Fixpoint run_handlers (hs : list (D -> res D)) (s : D) : res D :=
  match hs with
  | [] => Ret s
  | h :: hs => s ← h s; run_handlers hs s
  end.

(** The descriptors the loop waits for; [None] when an enabled application has
    no database. *)
Definition watch_slot {E} `{MrpApp E} (sl : slot E) (s : D) (fds : option (list Z))
  : option (list Z) :=
  fds ← fds;
  if sl_enable E sl s then
    d ← sl_get E sl s;
    Some (mrp_register_timers (ma_timers d) (sl_socket E sl s :: fds))
  else Some fds.

Definition watched (s : D) : option (list Z) :=
  fds ← watch_slot msrp_slot s (watch_slot mvrp_slot s
          (watch_slot mmrp_slot s (Some [control_socket (d_w s)])));
  Some (gc_timer s :: periodic_timer s :: fds).

(** [select] only reports descriptors it was asked about. *)
Definition select_among (fds : list Z) (i : select_result) : select_result :=
  Select (filter (.∈ fds) (sel_fds i)) (sel_ctl i) (sel_client i) (sel_mmrp i)
    (sel_mvrp i) (sel_msrp i).

(** [process_events] for as many rounds as [select] succeeds; an error of
    [select] ends the daemon. *)
Definition process_events (rounds : list select_result) (s : D) : res D :=
  match watched s with
  | None => Ret s
  | Some fds =>
      let '(rc, st, w) := mrp_periodictimer_fsm (periodic_timer s) (mrp_periodic_state s)
                            MRP_EVENT_BEGIN (d_w s) in
      let s := put_periodic st w s in
      if negb (rc =? 0) then Ret s
      else run_handlers (rounds ≫= (fun i => loop_body (select_among fds i))) s
  end.

End Ops.

(** ** The applications *)
Section Apps.
Context {os : OS} {K : Type}.

Definition run_ast (f : ast K -> res (Z * ast K)) (d : app_database K) (w : world)
  : res (Z * app_database K * world) :=
  '(rc, s) ← f (Ast d w); Ret (rc, db s, wld s).

Definition split_ast (w : world) (o : option (ast K)) : option (app_database K) * world :=
  match o with Some s => (Some (db s), wld s) | None => (None, w) end.

(** An application given by its functions on the database and the world. *)
Definition ast_app (recv : Z -> recv_result -> ast K -> res (Z * ast K))
    (event : Z -> mrp_event -> ast K -> res (Z * ast K))
    (cmd : Z -> list Z -> Z -> sockaddr_in -> ast K -> res (Z * ast K))
    (disabled : list Z -> sockaddr_in -> world -> res (Z * world))
    (bye : sockaddr_in -> option (ast K) -> option (ast K))
    (reclaim : option (ast K) -> Z * option (ast K)) : MrpApp (app_database K) := {|
  ma_timers := mrp_db;
  ma_recv_msg := fun sock r d w => '(_, d, w) ← run_ast (recv sock r) d w; Ret (d, w);
  ma_event := fun sock e d w => '(_, d, w) ← run_ast (event sock e) d w; Ret (d, w);
  ma_recv_cmd := fun sock buf buflen c od w =>
    match od with
    | Some d => '(rc, d, w) ← run_ast (cmd sock buf buflen c) d w; Ret (rc, Some d, w)
    | None => '(rc, w) ← disabled buf c w; Ret (rc, None, w)
    end;
  ma_bye := fun c od w => split_ast w (bye c ((fun d => Ast d w) <$> od));
  ma_reclaim := fun od w => split_ast w (reclaim ((fun d => Ast d w) <$> od)).2
|}.

End Apps.

(** The timer events carry no attribute. *)
Definition mvrp_app {os : OS} : MrpApp (app_database Z) :=
  ast_app mvrp_recv_msg (fun sock e => mvrp_event sock e None) mvrp_recv_cmd
    mvrp_recv_cmd_disabled mvrp_bye mvrp_reclaim.

Definition mmrp_app {os : OS} (junk : Z * Z * Z) : MrpApp (app_database mmrp_key) :=
  ast_app (mmrp_recv_msg junk) (fun sock e => mmrp_event junk sock e None)
    (mmrp_recv_cmd junk) mmrp_recv_cmd_disabled mmrp_bye mmrp_reclaim.

(** The MSRP database carries its configuration. *)
Definition msrp_app {os : OS} {sl : SortLib} : MrpApp msrp_database := {|
  ma_timers := fun d => mrp_db (s_app d);
  ma_recv_msg := fun sock r d w =>
    '(_, s) ← msrp_recv_msg (s_cfg d) sock r (Ast (s_app d) w);
    Ret (MsrpDb (db s) (s_cfg d), wld s);
  ma_event := fun sock e d w =>
    '(_, s) ← msrp_event (s_cfg d) sock e None (Ast (s_app d) w);
    Ret (MsrpDb (db s) (s_cfg d), wld s);
  ma_recv_cmd := fun sock buf buflen c od w =>
    match od with
    | Some d =>
        '(rc, cfg, s) ← msrp_recv_cmd sock buf buflen c (s_cfg d) (Ast (s_app d) w);
        Ret (rc, Some (MsrpDb (db s) cfg), wld s)
    | None => '(rc, w) ← msrp_recv_cmd_disabled buf c w; Ret (rc, None, w)
    end;
  ma_bye := fun c od w =>
    match od with
    | Some d => let '(oa, w) := split_ast w (msrp_bye c (Some (Ast (s_app d) w))) in
                ((fun a => MsrpDb a (s_cfg d)) <$> oa, w)
    | None => (None, w)
    end;
  ma_reclaim := fun od w =>
    match od with
    | Some d => let '(oa, w) := split_ast w (msrp_reclaim (Some (Ast (s_app d) w))).2 in
                ((fun a => MsrpDb a (s_cfg d)) <$> oa, w)
    | None => (None, w)
    end
|}.

(** ** Start *)
Section Start.
Context {os : OS}.

Definition set_control_socket (sock : Z) (w : world) : world :=
  World (w_tick w) (w_trace w) (p2pmac w) sock (STATION_ADDR w).

Definition init_local_ctl (w : world) : Z * world :=
  let '(sock_fd, w) := syscall w in
  if sock_fd <? 0 then (-1, if sock_fd =? -1 then w else log (AClose sock_fd) w)
  else
    let '(rc, w) := syscall w in
    if rc <? 0 then (-1, log (AClose sock_fd) w)
    else (0, set_control_socket sock_fd w).

(** Returns rc, [periodic_timer], [gc_timer]. *)
Definition init_timers (w : world) : Z * Z * Z * world :=
  let '(p, w) := mrpd_timer_create w in
  let '(g, w) := mrpd_timer_create w in
  if (p =? -1) || (g =? -1) then (-1, p, g, w)
  else let '(_, w) := mrpd_timer_start g (30 * 1000) w in (0, p, g, w).

Definition MSRP_INTERESTING_STREAM_ID_COUNT : Z := 8.

(** [main] between the command line and [process_events]: the flags are the
    options -m, -v, -s and -p. *)
Definition mrpd_start (mmrp_en mvrp_en msrp_en msrp_pruning : bool) (w : world)
  : Z * daemon (app_database mmrp_key) (app_database Z) msrp_database :=
  let d o1 o2 o3 s1 s2 s3 p g w :=
    Daemon o1 o2 o3 w mmrp_en mvrp_en msrp_en s1 s2 s3 p g None in
  let w := set_control_socket (-1) w in
  let '(rc, w) := mrp_init w in
  if negb (rc =? 0) then (rc, d None None None (-1) (-1) (-1) (-1) (-1) w)
  else
    let '(rc, w) := init_local_ctl w in
    if negb (rc =? 0) then (rc, d None None None (-1) (-1) (-1) (-1) (-1) w)
    else
      let '(rc, s1, o1, w) := mmrp_init mmrp_en w in
      if negb (rc =? 0) then (rc, d o1 None None s1 (-1) (-1) (-1) (-1) w)
      else
        let '(rc, s2, o2, w) := mvrp_init mvrp_en w in
        if negb (rc =? 0) then (rc, d o1 o2 None s1 s2 (-1) (-1) (-1) w)
        else
          let '(rc, s3, o3, w) :=
            msrp_init msrp_en MSRP_INTERESTING_STREAM_ID_COUNT msrp_pruning w in
          if negb (rc =? 0) then (rc, d o1 o2 o3 s1 s2 s3 (-1) (-1) w)
          else
            let '(rc, p, g, w) := init_timers w in
            (rc, d o1 o2 o3 s1 s2 s3 p g w).

End Start.

(** ** Safety of the loop, for any applications that keep their contract *)
Section Safe.
Context {os : OS} {D1 D2 D3 : Type} {A1 : MrpApp D1} {A2 : MrpApp D2} {A3 : MrpApp D3}
  {I1 : D1 -> world -> Prop} {I2 : D2 -> world -> Prop} {I3 : D3 -> world -> Prop}
  {small1 : D1 -> Prop} {small2 : D2 -> Prop} {small3 : D3 -> Prop}
  {F1 F2 F3 : recv_result -> Prop} {ok1 : MrpAppOk D1 I1 small1 F1}
  {ok2 : MrpAppOk D2 I2 small2 F2} {ok3 : MrpAppOk D3 I3 small3 F3}.
Abbreviation D := (daemon D1 D2 D3).

Definition opt_all {A} (P : A -> Prop) (o : option A) : Prop :=
  match o with Some a => P a | None => True end.

(** The databases that exist satisfy their invariants in the shared world, and
    started from [w0] the world has only been extended. *)
Record dinv (w0 : world) (s : D) : Prop := {
  di_1 : opt_all (fun d => I1 d (d_w s)) (MMRP_db s);
  di_2 : opt_all (fun d => I2 d (d_w s)) (MVRP_db s);
  di_3 : opt_all (fun d => I3 d (d_w s)) (MSRP_db s);
  di_w : w_extends w0 (d_w s)
}.

Definition dsmall (s : D) : Prop :=
  opt_all small1 (MMRP_db s) /\ opt_all small2 (MVRP_db s) /\ opt_all small3 (MSRP_db s).

Definition input_ok (i : select_result) : Prop :=
  F1 (sel_mmrp i) /\ F2 (sel_mvrp i) /\ F3 (sel_msrp i)
  /\ forall data, sel_ctl i = RecvBytes data -> (length data < 1500)%nat.

(** The bounds hold whenever a handler starts. *)
Fixpoint guarded (hs : list (D -> res D)) (s : D) : Prop :=
  match hs with
  | [] => True
  | h :: hs => dsmall s /\ forall s', h s = Ret s' -> guarded hs s'
  end.

(** Checking the bounds by evaluation. *)
Fixpoint guarded_b (smallb : D -> bool) (hs : list (D -> res D)) (s : D) : bool :=
  match hs with
  | [] => true
  | h :: hs => smallb s && match h s with Ret s' => guarded_b smallb hs s' | Fault _ => true end
  end.

Lemma guarded_check smallb hs s :
  (forall s, smallb s = true -> dsmall s) -> guarded_b smallb hs s = true -> guarded hs s.
Proof.
  intros Hb. revert s. induction hs as [|h hs IH]; intros s; cbn; [done|].
  rewrite andb_true_iff. intros [H1 H2]. split; [auto|]. intros s' E. rewrite E in H2. auto.
Qed.

Lemma opt_world {E} (I : E -> world -> Prop) small F `{MrpAppOk E I small F} o w w' :
  opt_all (fun d => I d w) o -> w_extends w w' -> opt_all (fun d => I d w') o.
Proof. destruct o; cbn; [apply ok_world | done]. Qed.

(** Replacing one database and extending the world. *)
Lemma dinv_mmrp w0 s od w :
  dinv w0 s -> w_extends (d_w s) w -> opt_all (fun d => I1 d w) od -> dinv w0 (put_mmrp od w s).
Proof.
  intros [H1 H2 H3 Hw] Hx Ho. split; cbn; [done | by eapply opt_world.. | by etransitivity].
Qed.

Lemma dinv_mvrp w0 s od w :
  dinv w0 s -> w_extends (d_w s) w -> opt_all (fun d => I2 d w) od -> dinv w0 (put_mvrp od w s).
Proof.
  intros [H1 H2 H3 Hw] Hx Ho.
  split; cbn; [by eapply opt_world | done | by eapply opt_world | by etransitivity].
Qed.

Lemma dinv_msrp w0 s od w :
  dinv w0 s -> w_extends (d_w s) w -> opt_all (fun d => I3 d w) od -> dinv w0 (put_msrp od w s).
Proof.
  intros [H1 H2 H3 Hw] Hx Ho. split; cbn; [by eapply opt_world.. | done | by etransitivity].
Qed.

Lemma dinv_periodic w0 s st w :
  dinv w0 s -> w_extends (d_w s) w -> dinv w0 (put_periodic st w s).
Proof.
  intros [H1 H2 H3 Hw] Hx. split; cbn; [by eapply opt_world.. | by etransitivity].
Qed.

(** An application's handler in its slot. *)
Definition slot_ok {E} (sl : slot (D1 := D1) (D2 := D2) (D3 := D3) E)
    (I : E -> world -> Prop) (small : E -> Prop) : Prop :=
  forall w0 s, dinv w0 s ->
    opt_all (fun d => I d (d_w s)) (sl_get E sl s)
    /\ (dsmall s -> opt_all small (sl_get E sl s))
    /\ forall od w, w_extends (d_w s) w -> opt_all (fun d => I d w) od ->
         dinv w0 (sl_put E sl od w s).

Lemma mmrp_slot_ok : slot_ok mmrp_slot I1 small1.
Proof.
  intros w0 s H. split; [apply H|]. split; [by intros (? & _)|].
  intros od w. by apply dinv_mmrp.
Qed.

Lemma mvrp_slot_ok : slot_ok mvrp_slot I2 small2.
Proof.
  intros w0 s H. split; [apply H|]. split; [by intros (_ & ? & _)|].
  intros od w. by apply dinv_mvrp.
Qed.

Lemma msrp_slot_ok : slot_ok msrp_slot I3 small3.
Proof.
  intros w0 s H. split; [apply H|]. split; [by intros (_ & _ & ?)|].
  intros od w. by apply dinv_msrp.
Qed.

Lemma on_slot_safe {E} (sl : slot E) (I : E -> world -> Prop) small f w0 s :
  slot_ok sl I small -> dinv w0 s -> dsmall s ->
  (forall sock d w, I d w -> small d ->
     returns (f sock d w) (fun '(d', w') => I d' w' /\ w_extends w w')) ->
  returns (on_slot sl f s) (dinv w0).
Proof.
  intros Hsl Hi Hs Hf. unfold on_slot. destruct (sl_enable E sl s); [|done].
  destruct (Hsl w0 s Hi) as (HI & Hsm & Hput). specialize (Hsm Hs).
  destruct (sl_get E sl s) as [d|]; [|done].
  eapply returns_bind; [by apply Hf|]. intros [d' w'] [Hd Hx]. by apply Hput.
Qed.

(** The four tests of an application, and the periodic event. *)
Lemma slot_handlers_safe {E} `{!MrpApp E} (sl : slot E) (I : E -> world -> Prop) small
    F `{!MrpAppOk E I small F} i r w0 :
  slot_ok sl I small -> F r ->
  Forall (fun h => forall s, dinv w0 s -> dsmall s -> returns (h s) (dinv w0))
    (slot_handlers sl i r).
Proof.
  intros Hsl Hr.
  assert (Ht : forall fd e s, dinv w0 s -> dsmall s ->
    returns (on_timer sl i fd e s) (dinv w0)).
  { intros fd e s H1 H2. eapply on_slot_safe; eauto. intros sock d w Hd Hsd.
    destruct (FD_ISSET _ i); [by apply ok_event | done]. }
  repeat constructor; try (by apply Ht). intros s H1 H2. eapply on_slot_safe; eauto.
  intros sock d w Hd Hsd. destruct (FD_ISSET _ i); [by apply ok_recv_msg | done].
Qed.

Lemma on_periodic_safe {E} `{!MrpApp E} (sl : slot E) (I : E -> world -> Prop) small
    F `{!MrpAppOk E I small F} i w0 s :
  slot_ok sl I small -> dinv w0 s -> dsmall s -> returns (on_periodic sl i s) (dinv w0).
Proof.
  intros Hsl H1 H2. unfold on_periodic. destruct (FD_ISSET _ i); [|done].
  eapply on_slot_safe; eauto. intros sock d w Hd Hsd. by apply ok_event.
Qed.

(** ** Commands *)

Lemma recv_cmd_safe {E} `{!MrpApp E} (I : E -> world -> Prop) small F `{!MrpAppOk E I small F}
    sock buf buflen c od w :
  opt_all (fun d => I d w) od -> opt_all small od -> cmd_buf_ok buf ->
  buflen <= MAX_MRPD_CMDSZ ->
  returns (ma_recv_cmd sock buf buflen c od w)
    (fun '(_, od', w') => opt_all (fun d => I d w') od' /\ w_extends w w').
Proof.
  destruct od as [d|]; cbn; intros Hd Hs Hb Hl.
  - eapply returns_mono; [by apply ok_recv_cmd|].
    intros [[rc od'] w'] [(d' & -> & Hd') Hx]. by split.
  - eapply returns_mono; [by apply ok_recv_cmd_null|].
    intros [[rc od'] w'] [-> Hx]. by split.
Qed.

Lemma bye_safe {E} `{!MrpApp E} (I : E -> world -> Prop) small F `{!MrpAppOk E I small F} c od w :
  opt_all (fun d => I d w) od ->
  exists od', ma_bye c od w = (od', w) /\ opt_all (fun d => I d w) od'.
Proof.
  destruct od as [d|]; cbn; intros Hd.
  - destruct (ok_bye c d w Hd) as (d' & -> & Hd'). by exists (Some d').
  - rewrite ok_bye_null. by exists None.
Qed.

Lemma reclaim_safe {E} `{!MrpApp E} (I : E -> world -> Prop) small F `{!MrpAppOk E I small F} od w :
  opt_all (fun d => I d w) od ->
  exists od' w', ma_reclaim od w = (od', w') /\ opt_all (fun d => I d w') od' /\ w_extends w w'.
Proof.
  destruct od as [d|]; cbn; intros Hd.
  - destruct (ok_reclaim d w Hd) as (d' & w' & -> & Hd' & Hx). by exists (Some d'), w'.
  - rewrite ok_reclaim_null. by exists None, w.
Qed.

Lemma process_ctl_msg_safe buf buflen c w0 s :
  dinv w0 s -> dsmall s -> cmd_buf_ok buf -> buflen <= MAX_MRPD_CMDSZ ->
  returns (process_ctl_msg buf buflen c s) (fun '(_, s') => dinv w0 s').
Proof.
  intros Hi (S1 & S2 & S3) Hb Hl. unfold process_ctl_msg.
  destruct (Z.ltb_spec buflen 3); [done|]. destruct Hb as [Hlen Hz].
  assert (Hn : 0 < Zlen buf) by (rewrite Hlen; unfold MAX_MRPD_CMDSZ; lia).
  eapply returns_bind; [apply rd_ok; lia|]. intros b0 _.
  destruct (b0 =? 77).
  { eapply returns_bind; [by apply (recv_cmd_safe I1 small1 F1); [apply Hi | ..]|].
    intros [[rc od] w] [Ho Hx]. by apply dinv_mmrp. }
  destruct (b0 =? 86).
  { eapply returns_bind; [by apply (recv_cmd_safe I2 small2 F2); [apply Hi | ..]|].
    intros [[rc od] w] [Ho Hx]. by apply dinv_mvrp. }
  destruct (b0 =? 83).
  { eapply returns_bind; [by apply (recv_cmd_safe I3 small3 F3); [apply Hi | ..]|].
    intros [[rc od] w] [Ho Hx]. by apply dinv_msrp. }
  destruct (b0 =? 66).
  - destruct (bye_safe I1 small1 F1 c _ _ (di_1 _ _ Hi)) as (o1 & -> & Ho1).
    assert (Hi1 : dinv w0 (put_mmrp o1 (d_w s) s)) by (by apply dinv_mmrp).
    set (s1 := put_mmrp o1 (d_w s) s) in *.
    destruct (bye_safe I2 small2 F2 c _ _ (di_2 _ _ Hi1)) as (o2 & -> & Ho2).
    assert (Hi2 : dinv w0 (put_mvrp o2 (d_w s1) s1)) by (by apply dinv_mvrp).
    set (s2 := put_mvrp o2 (d_w s1) s1) in *.
    destruct (bye_safe I3 small3 F3 c _ _ (di_3 _ _ Hi2)) as (o3 & -> & Ho3).
    by apply dinv_msrp.
  - eapply returns_bind; [apply cstr_nul_end; [lia | by rewrite Hlen]|]. intros t _.
    unfold mrpd_send_ctl_msg. destruct (_ =? control_socket _); cbn.
    + by apply dinv_periodic.
    + apply dinv_periodic; [done | apply w_extends_log].
Qed.

Lemma on_ctl_safe i w0 s :
  input_ok i -> dinv w0 s -> dsmall s -> returns (on_ctl i s) (dinv w0).
Proof.
  intros (_ & _ & _ & Hc) Hi Hs. unfold on_ctl, recv_ctl_msg, malloc.
  destruct (FD_ISSET _ i); [|done].
  assert (Hi' : dinv w0 (put_w (step_tick (d_w s)) s))
    by (apply dinv_periodic; [done | apply w_extends_tick]).
  destruct (os_malloc _); cbn [negb]; [|done].
  destruct (sel_ctl i) as [|data] eqn:E; [done|]. specialize (Hc data eq_refl).
  unfold MAX_MRPD_CMDSZ. rewrite (take_ge data) by lia. destruct (Zlen data =? 0); [done|].
  eapply returns_bind.
  - apply process_ctl_msg_safe; [exact Hi' | exact Hs | | unfold MAX_MRPD_CMDSZ; lia].
    split.
    + rewrite length_app, length_replicate. unfold MAX_MRPD_CMDSZ. lia.
    + rewrite lookup_app_r by lia. apply lookup_replicate. split; [done | lia].
  - by intros [rc s'].
Qed.

Lemma on_gc_safe i w0 s : dinv w0 s -> returns (on_gc i s) (dinv w0).
Proof.
  intros Hi. unfold on_gc. destruct (FD_ISSET _ i); [|done]. cbn [returns]. unfold mrpd_reclaim.
  destruct (reclaim_safe I1 small1 F1 _ _ (di_1 _ _ Hi)) as (o1 & w1 & -> & Ho1 & Hx1).
  pose proof (dinv_mmrp w0 s o1 w1 Hi Hx1 Ho1) as Hi1. set (s1 := put_mmrp o1 w1 s) in *.
  destruct (reclaim_safe I2 small2 F2 _ _ (di_2 _ _ Hi1)) as (o2 & w2 & -> & Ho2 & Hx2).
  pose proof (dinv_mvrp w0 s1 o2 w2 Hi1 Hx2 Ho2) as Hi2. set (s2 := put_mvrp o2 w2 s1) in *.
  destruct (reclaim_safe I3 small3 F3 _ _ (di_3 _ _ Hi2)) as (o3 & w3 & -> & Ho3 & Hx3).
  pose proof (dinv_msrp w0 s2 o3 w3 Hi2 Hx3 Ho3) as Hi3. set (s3 := put_msrp o3 w3 s2) in *.
  apply dinv_periodic; [done | apply w_extends_log].
Qed.

Lemma periodic_fsm_extends t st e w :
  w_extends w (mrp_periodictimer_fsm t st e w).2.
Proof.
  assert (Hs : w_extends w (mrp_periodictimer_start t w).2) by apply w_extends_log.
  unfold mrp_periodictimer_fsm. destruct (mrp_periodictimer_start t w) as [rc w'].
  repeat case_match; cbn in *; done.
Qed.

Lemma loop_body_safe i w0 :
  input_ok i ->
  Forall (fun h => forall s, dinv w0 s -> dsmall s -> returns (h s) (dinv w0)) (loop_body i).
Proof.
  intros Hin. pose proof Hin as (H1 & H2 & H3 & _). unfold loop_body.
  repeat (apply Forall_app; split); [| | | |].
  - constructor; [|constructor]. intros s. by apply on_ctl_safe.
  - by apply (slot_handlers_safe _ I1 small1 F1); [apply mmrp_slot_ok|].
  - by apply (slot_handlers_safe _ I2 small2 F2); [apply mvrp_slot_ok|].
  - by apply (slot_handlers_safe _ I3 small3 F3); [apply msrp_slot_ok|].
  - repeat (apply Forall_cons_iff; split); [.. | done]; intros s Hi Hs.
    + unfold on_periodic_fsm. destruct (FD_ISSET _ i); [|done].
      pose proof (periodic_fsm_extends (periodic_timer s) (mrp_periodic_state s)
        MRP_EVENT_PERIODIC (d_w s)) as Hx.
      destruct (mrp_periodictimer_fsm _ _ _ _) as [[rc st] w]. by apply dinv_periodic.
    + by apply (on_periodic_safe _ I1 small1 F1); [apply mmrp_slot_ok|..].
    + by apply (on_periodic_safe _ I2 small2 F2); [apply mvrp_slot_ok|..].
    + by apply (on_periodic_safe _ I3 small3 F3); [apply msrp_slot_ok|..].
    + by apply on_gc_safe.
Qed.

Lemma run_handlers_safe hs w0 s :
  Forall (fun h => forall s, dinv w0 s -> dsmall s -> returns (h s) (dinv w0)) hs ->
  dinv w0 s -> guarded hs s -> returns (run_handlers hs s) (dinv w0).
Proof.
  intros Hf. revert s. induction Hf as [|h hs Hh _ IH]; intros s Hi; cbn; [done|].
  intros [Hs Hg]. specialize (Hh s Hi Hs). apply returns_inv in Hh as (s1 & E & Hi1).
  rewrite E, res_bind_ret. apply IH; [done | by apply Hg].
Qed.

(** The handlers a run of the loop executes. *)
Definition loop_handlers (fds : list Z) (rounds : list select_result) : list (D -> res D) :=
  rounds ≫= (fun i => loop_body (select_among fds i)).

Lemma loop_handlers_safe fds rounds w0 :
  Forall input_ok rounds ->
  Forall (fun h => forall s, dinv w0 s -> dsmall s -> returns (h s) (dinv w0))
    (loop_handlers fds rounds).
Proof.
  induction 1 as [|i rounds Hi _ IH]; [constructor|].
  change (loop_handlers fds (i :: rounds))
    with (loop_body (select_among fds i) ++ loop_handlers fds rounds).
  apply Forall_app. split; [|done]. by apply loop_body_safe.
Qed.

End Safe.

(** ** The applications keep their contract *)
Section Contracts.
Context {os : OS} {K : Type} `{!ForcedTx K} (LI : list (attribute K) -> Prop) `{!ListInv LI}.

Definition ast_inv (d : app_database K) (w : world) : Prop :=
  app_ok LI (Ast d w) /\ (timers_ok os -> timers_inv (Ast d w)).

Lemma ast_inv_post d w s' :
  ast_inv d w -> app_post LI (Ast d w) s' ->
  ast_inv (db s') (wld s') /\ w_extends w (wld s').
Proof.
  intros [_ Ht] (Hok & Hm & Ht'). split; [split|].
  - by destruct s'.
  - intros Hto. destruct s'. auto.
  - apply Hm.
Qed.

Lemma ast_inv_client d w s' :
  ast_inv d w -> client_ok LI (Ast d w) s' ->
  ast_inv (db s') (wld s') /\ w_extends w (wld s').
Proof.
  intros [_ Ht] (Hok & Hm & Ht'). split; [split|].
  - by destruct s'.
  - intros Hto. destruct s'. auto.
  - apply Hm.
Qed.

Lemma ast_inv_clients d w cl :
  ast_inv d w ->
  ast_inv (AppDb (set_clients cl (mrp_db d)) (attrib_list d) (send_empty_LeaveAll_flag d)) w.
Proof. intros [(H1 & H2 & H3) Ht]. split; [by split|]. intros Hto. by destruct (Ht Hto). Qed.

Lemma ast_inv_world d w w' : ast_inv d w -> w_extends w w' -> ast_inv d w'.
Proof.
  intros [Hok Ht] Hx.
  exact (proj1 (ast_inv_post d w (Ast d w') (conj Hok Ht) (app_post_world LI (Ast d w) w' Hx Hok))).
Qed.

Lemma disabled_safe sz prefix buf c w :
  cmd_buf_ok buf ->
  returns (cmd_disabled_sz sz prefix buf c w) (fun '(_, w') => w_extends w w').
Proof.
  intros [Hlen Hz]. unfold cmd_disabled_sz.
  eapply returns_bind; [apply cstr_nul_end; [rewrite Hlen; unfold MAX_MRPD_CMDSZ; lia
    | by rewrite Hlen]|].
  intros t _. unfold mrpd_send_ctl_msg. destruct (_ =? _); cbn; [done|]. apply w_extends_log.
Qed.

End Contracts.

Section Instances.
Context {os : OS}.

#[export] Instance mvrp_app_ok :
  @MrpAppOk (app_database Z) mvrp_app (ast_inv vlist_ok)
    (fun d => (length (attrib_list d) <= 49)%nat) mframe_ok.
Proof.
  split; cbn [ma_recv_msg ma_event ma_recv_cmd ma_bye ma_reclaim mvrp_app ast_app].
  - intros d w w'. by apply ast_inv_world.
  - intros sock r d w Hi Hr. unfold run_ast. rewrite res_bind_assoc.
    eapply returns_bind; [apply recv_msg_safe; [apply Hi|]|].
    { intros data E. destruct (Hr data E). split; [done | lia]. }
    intros [rc s'] [_ Hp]. by apply (ast_inv_post vlist_ok d w).
  - intros sock e d w Hi _. unfold run_ast. rewrite res_bind_assoc.
    eapply returns_bind; [by apply mvrp_event_post; [apply Hi|]|].
    intros [rc s'] Hp. by apply (ast_inv_post vlist_ok d w).
  - intros sock buf buflen c d w Hi Hs [Hl Hz] Hb. unfold run_ast. rewrite res_bind_assoc.
    eapply returns_bind; [by apply mvrp_recv_cmd_post; [apply Hi | ..]|].
    intros [rc s'] [_ Hp]. destruct (ast_inv_client vlist_ok d w s' Hi Hp). cbn. eauto.
  - intros sock buf buflen c w Hb. eapply returns_bind; [by apply disabled_safe|].
    by intros [rc w'].
  - intros c d w Hi. eexists. split; [done|]. by apply (ast_inv_clients vlist_ok).
  - done.
  - intros d w Hi. destruct (mvrp_reclaim_filter (Ast d w)) as (s' & E & Hl & Hq & Hf).
    cbn [fmap option_fmap option_map] in *. rewrite E. cbn. eexists _, _. split; [done|].
    apply (ast_inv_post vlist_ok d w); [done|]. apply app_post_reclaim; [apply _ | apply Hi | done..].
  - done.
Qed.

#[export] Instance mmrp_app_ok junk :
  @MrpAppOk (app_database mmrp_key) (mmrp_app junk) (ast_inv klist_ok)
    (fun d => (length (attrib_list d) <= 44)%nat) mframe_ok.
Proof.
  split; cbn [ma_recv_msg ma_event ma_recv_cmd ma_bye ma_reclaim mmrp_app ast_app].
  - intros d w w'. by apply ast_inv_world.
  - intros sock r d w Hi Hr. unfold run_ast. rewrite res_bind_assoc.
    eapply returns_bind; [by apply mmrp_recv_post; [apply Hi|]|].
    intros [rc s'] [_ Hp]. by apply (ast_inv_post klist_ok d w).
  - intros sock e d w Hi Hs. unfold run_ast. rewrite res_bind_assoc.
    eapply returns_bind; [apply mmrp_event_post; [apply Hi | done |]|].
    { intros _. cbn. unfold MMRP_MAX_ATTRS. lia. }
    intros [rc s'] Hp. by apply (ast_inv_post klist_ok d w).
  - intros sock buf buflen c d w Hi Hs [Hl Hz] Hb. unfold run_ast. rewrite res_bind_assoc.
    eapply returns_bind; [by apply mmrp_recv_cmd_post; [apply Hi | ..]|].
    intros [rc s'] [_ Hp]. destruct (ast_inv_client klist_ok d w s' Hi Hp). cbn. eauto.
  - intros sock buf buflen c w Hb. eapply returns_bind; [by apply disabled_safe|].
    by intros [rc w'].
  - intros c d w Hi. eexists. split; [done|]. by apply (ast_inv_clients klist_ok).
  - done.
  - intros d w Hi. destruct (mmrp_reclaim_spec (Ast d w)) as (s' & E & Hl & Hq & Hf).
    cbn [fmap option_fmap option_map] in *. rewrite E. cbn. eexists _, _. split; [done|].
    apply (ast_inv_post klist_ok d w); [done|]. apply app_post_reclaim; [apply _ | apply Hi | done..].
  - done.
Qed.

(** The MSRP database with its configuration. *)
Definition msrp_db_inv {sl : SortLib} (d : msrp_database) (w : world) : Prop :=
  ast_inv slist_ok (s_app d) w /\ cfg_ok (s_cfg d).

#[export] Instance msrp_app_ok {sl : SortLib} {slok : SortLibOk} :
  @MrpAppOk msrp_database msrp_app msrp_db_inv
    (fun d => (length (attrib_list (s_app d)) <= 11)%nat) sframe_ok.
Proof.
  split; cbn [ma_recv_msg ma_event ma_recv_cmd ma_bye ma_reclaim msrp_app].
  - intros d w w' [Hi Hc] Hx. split; [by eapply ast_inv_world | done].
  - intros sock r [d cfg] w [Hi Hc] Hr.
    eapply returns_bind; [by apply msrp_recv_post; [apply Hi|]|].
    intros [rc s'] [_ Hp]. destruct (ast_inv_post slist_ok d w s' Hi Hp). by split.
  - intros sock e [d cfg] w [Hi Hc] Hs. cbn [s_app s_cfg] in *.
    eapply returns_bind; [apply msrp_event_post; [apply Hi | done |]|].
    { intros _. cbn. unfold MSRP_MAX_ATTRS. lia. }
    intros [rc s'] Hp. destruct (ast_inv_post slist_ok d w s' Hi Hp). by split.
  - intros sock buf buflen c [d cfg] w [Hi Hc] Hs Hb Hl.
    eapply returns_bind; [by apply msrp_recv_cmd_post; [ | apply Hi | ..]|].
    intros [[rc cfg'] s'] (_ & Hc' & _ & Hp).
    destruct (ast_inv_client slist_ok d w s' Hi Hp). cbn. split; [|done]. by eexists.
  - intros sock buf buflen c w Hb. eapply returns_bind; [by apply disabled_safe|].
    by intros [rc w'].
  - intros c [d cfg] w [Hi Hc]. eexists. split; [done|].
    split; [by apply (ast_inv_clients slist_ok) | done].
  - done.
  - intros [d cfg] w [Hi Hc]. destruct (msrp_reclaim_spec (Ast d w)) as (s' & E & Hl & Hq & Hf).
    cbn [s_app s_cfg] in *. rewrite E. cbn. eexists _, _. split; [done|].
    destruct (ast_inv_post slist_ok d w s' Hi) as [H1 H2]; [|by split].
    apply app_post_reclaim; [apply _ | apply Hi | done..].
  - done.
Qed.

End Instances.

(** ** The daemon *)
Section Theorems.
Context {os : OS} {sl : SortLib} {slok : SortLibOk} (junk : Z * Z * Z).

Abbreviation mrpd := (daemon (app_database mmrp_key) (app_database Z) msrp_database).

(** [process_events] on MMRP, MVRP and MSRP. *)
Definition mrpd_events : list select_result -> mrpd -> res mrpd :=
  process_events (A1 := mmrp_app junk) (A2 := mvrp_app) (A3 := msrp_app).

Definition mrpd_watched : mrpd -> option (list Z) :=
  watched (A1 := mmrp_app junk) (A2 := mvrp_app) (A3 := msrp_app).

(** The daemon when the loop is entered: the periodic timer is armed. *)
Definition mrpd_begin (s : mrpd) : mrpd :=
  let '(_, st, w) := mrp_periodictimer_fsm (periodic_timer s) (mrp_periodic_state s)
                       MRP_EVENT_BEGIN (d_w s) in
  put_periodic st w s.

(** MMRP lists within 44 attributes, MVRP lists within 49 and MSRP lists within
    11 whenever a handler of the rounds starts. *)
Definition mrpd_bounded (rounds : list select_result) (s : mrpd) : Prop :=
  forall fds, mrpd_watched s = Some fds ->
  guarded (small1 := fun d => (length (attrib_list d) <= 44)%nat)
    (small2 := fun d => (length (attrib_list d) <= 49)%nat)
    (small3 := fun d => (length (attrib_list (s_app d)) <= 11)%nat)
    (loop_handlers (A1 := mmrp_app junk) (A2 := mvrp_app) (A3 := msrp_app) fds rounds)
    (mrpd_begin s).

Definition mrpd_ok (s : mrpd) : Prop :=
  dinv (I1 := ast_inv klist_ok) (I2 := ast_inv vlist_ok) (I3 := msrp_db_inv) (d_w s) s.

(** The frames and datagrams of a round are within their bounds. *)
Definition mrpd_input_ok : select_result -> Prop :=
  input_ok (F1 := mframe_ok) (F2 := mframe_ok) (F3 := sframe_ok).

(** C4: the whole daemon is memory safe and keeps its invariants: for every
    sequence of [select] returns, with frames of at most 1992 bytes (1960 for
    MSRP) and control datagrams shorter than their buffer, and as long as no
    more than 44 MMRP attributes, 49 VLANs and 11 MSRP attributes are registered
    when a handler starts, the event loop executes every round without a fault;
    afterwards the three databases are well-formed, with their LeaveAll timers
    running and their leave timers running where needed. *)
Theorem mrpd_events_safe rounds s :
  mrpd_ok s -> Forall mrpd_input_ok rounds -> mrpd_bounded rounds s ->
  returns (mrpd_events rounds s) mrpd_ok.
Proof.
  intros Hs Hr Hb. unfold mrpd_events, process_events.
  unfold mrpd_bounded, mrpd_watched in Hb.
  destruct (watched s) as [fds|]; [|done]. specialize (Hb fds eq_refl).
  unfold mrpd_begin in Hb.
  pose proof (periodic_fsm_extends (periodic_timer s) (mrp_periodic_state s)
    MRP_EVENT_BEGIN (d_w s)) as Hx.
  destruct (mrp_periodictimer_fsm _ _ _ _) as [[rc st] w]. cbn [snd] in Hx.
  pose proof (dinv_periodic (ok1 := mmrp_app_ok junk) (ok2 := mvrp_app_ok)
    (ok3 := msrp_app_ok) (d_w s) s st w Hs Hx) as Hs'.
  assert (Hweak : forall s', dinv (I1 := ast_inv klist_ok) (I2 := ast_inv vlist_ok)
    (I3 := msrp_db_inv) (d_w s) s' -> mrpd_ok s').
  { intros s' [H1 H2 H3 _]. by split. }
  destruct (negb _); [by apply Hweak|].
  eapply returns_mono; [|exact Hweak].
  eapply run_handlers_safe; [|exact Hs' | exact Hb].
  by apply (loop_handlers_safe (ok1 := mmrp_app_ok junk) (ok2 := mvrp_app_ok)
    (ok3 := msrp_app_ok)).
Qed.

(** The commands that edit the set of interesting streams never reach MSRP:
    [process_ctl_msg] has no case for their first letter and answers them with
    a parse error, so that with pruning enabled the set keeps the content
    [msrp_init] gave it. *)
Lemma mrpd_rejects_id_commands buf buflen client s :
  cmd_buf_ok buf -> buf !! 0%nat = Some 73 -> 3 <= buflen ->
  returns (process_ctl_msg (A1 := mmrp_app junk) (A2 := mvrp_app) (A3 := msrp_app)
             buf buflen client s)
    (fun '(rc, s') => rc = -1 /\ exists w, s' = put_w w s).
Proof.
  intros [Hlen Hz] H0 Hl. unfold process_ctl_msg. rewrite (proj2 (Z.ltb_ge _ _)) by lia.
  rewrite (rd_lookup buf 0 73), res_bind_ret by (lia || done). cbn [Z.eqb Pos.eqb].
  eapply returns_bind; [apply cstr_nul_end; [rewrite Hlen; unfold MAX_MRPD_CMDSZ; lia
    | by rewrite Hlen]|].
  intros t _. destruct (mrpd_send_ctl_msg _ _ _ _) as [rc w]. cbn. eauto.
Qed.

(** ** Start *)

Lemma ast_inv_station {K} `{!ForcedTx K} (LI : list (attribute K) -> Prop) d w w' :
  ast_inv LI d w -> station_ok w' -> ast_inv LI d w'.
Proof. intros [(H1 & _ & H3) Ht] Hs. by split. Qed.

Lemma init_timers_spec' w :
  let '(rc, p, g, w') := init_timers w in
  (rc = 0 \/ rc = -1) /\ STATION_ADDR w' = STATION_ADDR w.
Proof.
  unfold init_timers, mrpd_timer_create. repeat case_match; simplify_eq/=; auto.
  unfold mrpd_timer_start, mrpd_timer_start_interval, timerfd_settime in *. simplify_eq/=. auto.
Qed.

(** What [mmrp_init] or [mvrp_init] leaves: an enabled application has a
    database that satisfies its invariant, a disabled one has none. *)
Lemma app_init_result {K} `{!ForcedTx K} (LI : list (attribute K) -> Prop) en w sock od w' :
  LI [] -> length os_hwaddr = 6%nat -> bytes_ok os_hwaddr ->
  app_init en w = (0, sock, od, w') ->
  (en = true -> is_Some od) /\ opt_all (fun d => ast_inv LI d w') od
  /\ (en = false -> od = None /\ w' = w) /\ (en = true -> station_ok w').
Proof.
  intros Hnil Hl Hb E. destruct en.
  - pose proof (app_init_spec LI w Hnil Hl Hb) as Hs. rewrite E in Hs.
    destruct od as [d|]; [|by destruct Hs]. destruct Hs as (_ & _ & Hok & Ht).
    split; [by eauto|]. split; [by split|]. split; [done|]. intros _. apply Hok.
  - cbn in E. simplify_eq. by split_and!.
Qed.

Lemma msrp_init_result en max prune w sock od w' :
  length os_hwaddr = 6%nat -> bytes_ok os_hwaddr ->
  msrp_init en max prune w = (0, sock, od, w') ->
  (en = true -> is_Some od) /\ opt_all (fun d => msrp_db_inv d w') od
  /\ (en = false -> od = None /\ w' = w) /\ (en = true -> station_ok w').
Proof.
  intros Hl Hb E. destruct en.
  - pose proof (msrp_init_spec max prune w Hl Hb) as Hs. rewrite E in Hs.
    destruct od as [d|]; [|by destruct Hs]. destruct Hs as (_ & _ & Hc & _ & _ & _ & Hok & Ht).
    split; [by eauto|]. split; [by split|]. split; [done|]. intros _. apply Hok.
  - cbn in E. simplify_eq. by split_and!.
Qed.

(** A database that exists keeps its invariant in the world [w'] of a later
    initialisation. *)
Lemma init_station {E} (I : E -> world -> Prop) en (od : option E) w1 w' :
  (forall d, I d w1 -> station_ok w' -> I d w') ->
  opt_all (fun d => I d w1) od -> (en = false -> od = None) ->
  (en = true -> station_ok w') -> opt_all (fun d => I d w') od.
Proof.
  intros Hst Hi Hn Hs. destruct od as [d|]; [|done].
  destruct en; [|by specialize (Hn eq_refl)]. cbn in *. auto.
Qed.

Lemma mrpd_start_ok en1 en2 en3 prune w s :
  length os_hwaddr = 6%nat -> bytes_ok os_hwaddr ->
  mrpd_start en1 en2 en3 prune w = (0, s) ->
  mrpd_ok s /\ (mmrp_enable s = en1 /\ mvrp_enable s = en2 /\ msrp_enable s = en3)
  /\ (en1 = true <-> is_Some (MMRP_db s)) /\ (en2 = true <-> is_Some (MVRP_db s))
  /\ (en3 = true <-> is_Some (MSRP_db s)).
Proof.
  intros Hl Hb. unfold mrpd_start. destruct (mrp_init _) as [rc0 w0].
  destruct (Z.eqb_spec rc0 0) as [->|]; cbn [negb]; [|congruence].
  destruct (init_local_ctl w0) as [rc1 w1].
  destruct (Z.eqb_spec rc1 0) as [->|]; cbn [negb]; [|congruence].
  destruct (mmrp_init en1 w1) as [[[rc2 s1] o1] w2] eqn:E1.
  destruct (Z.eqb_spec rc2 0) as [->|]; cbn [negb]; [|congruence].
  destruct (mvrp_init en2 w2) as [[[rc3 s2] o2] w3] eqn:E2.
  destruct (Z.eqb_spec rc3 0) as [->|]; cbn [negb]; [|congruence].
  destruct (msrp_init en3 _ prune w3) as [[[rc4 s3] o3] w4] eqn:E3.
  destruct (Z.eqb_spec rc4 0) as [->|]; cbn [negb]; [|congruence].
  destruct (app_init_result klist_ok en1 w1 s1 o1 w2) as (Hs1 & Hi1 & Hn1 & Hst1); auto.
  { exists MMRP_SVCREQ_TYPE. split; constructor. }
  destruct (app_init_result vlist_ok en2 w2 s2 o2 w3) as (Hs2 & Hi2 & Hn2 & Hst2); auto.
  { split; constructor. }
  destruct (msrp_init_result en3 _ prune w3 s3 o3 w4 Hl Hb E3) as (Hs3 & Hi3 & Hn3 & Hst3).
  pose proof (init_timers_spec' w4) as Ht. destruct (init_timers w4) as [[[rc5 p] g] w5].
  destruct Ht as [_ Hst5]. intros [= -> <-].
  assert (Hw : station_ok w4 -> station_ok w5) by (unfold station_ok; by rewrite Hst5).
  assert (Hw3 : en2 = true -> station_ok w5).
  { intros He. apply Hw. destruct en3; [by apply Hst3|].
    destruct (Hn3 eq_refl) as [_ ->]. by apply Hst2. }
  assert (Hw2 : en1 = true -> station_ok w5).
  { intros He. destruct en2; [by apply Hw3|]. apply Hw. destruct en3; [by apply Hst3|].
    destruct (Hn3 eq_refl) as [_ ->]. destruct (Hn2 eq_refl) as [_ ->]. by apply Hst1. }
  assert (Hsome : forall E (o : option E) en (P : Prop), (en = true -> is_Some o) ->
    (en = false -> o = None /\ P) -> (en = true <-> is_Some o)).
  { intros E o en P H1 H2. destruct en; [by split; auto|].
    destruct (H2 eq_refl) as [-> _]. by split; [|intros []]. }
  split; [|split; [done|]; cbn; split_and!; eapply Hsome; eauto].
  split; cbn; [| | | done].
  - apply (init_station (ast_inv klist_ok) en1 _ w2); auto; [|by intros He; apply Hn1].
    intros d. apply ast_inv_station.
  - apply (init_station (ast_inv vlist_ok) en2 _ w3); auto; [|by intros He; apply Hn2].
    intros d. apply ast_inv_station.
  - apply (init_station msrp_db_inv en3 _ w4); auto; [|by intros He; apply Hn3].
    intros d [H1 H2] H3. split; [by eapply ast_inv_station | done].
Qed.

(** When [main] reaches [process_events] (every initialisation returned 0)
    the event loop is entered, not left at once: every enabled application has
    its database, which is well-formed with its LeaveAll timer
    running, whichever of MMRP, MVRP and MSRP were enabled, with pruning or
    without. *)
Theorem mrpd_start_establishes en1 en2 en3 prune w s :
  length os_hwaddr = 6%nat -> bytes_ok os_hwaddr ->
  mrpd_start en1 en2 en3 prune w = (0, s) ->
  mrpd_ok s /\ is_Some (mrpd_watched s)
  /\ (en1 = true <-> is_Some (MMRP_db s)) /\ (en2 = true <-> is_Some (MVRP_db s))
  /\ (en3 = true <-> is_Some (MSRP_db s)).
Proof.
  intros Hl Hb E.
  destruct (mrpd_start_ok en1 en2 en3 prune w s Hl Hb E) as (Hok & (He1 & He2 & He3) & H1 & H2 & H3).
  split; [done|]. split; [|done]. unfold mrpd_watched, watched, watch_slot. cbn.
  rewrite He1, He2, He3. destruct en1, en2, en3; cbn;
    try (destruct (proj1 H1 eq_refl) as [? ->]); try (destruct (proj1 H2 eq_refl) as [? ->]);
    try (destruct (proj1 H3 eq_refl) as [? ->]); cbn; eauto.
Qed.

End Theorems.

(** ** Witnesses *)

(** Distinct descriptors for the control socket and the protocol sockets. *)
Definition demo_os : OS := {|
  os_malloc := fun _ => true;
  os_settime := fun _ => 0;
  os_timerfd := fun n => 10 + Z.of_nat n;
  os_random := fun _ => 0;
  os_send := fun _ => 1;
  os_syscall := fun n => match n with 0%nat => 3 | 2%nat => 4 | 14%nat => 5 | 26%nat => 6 | _ => 0 end;
  os_hwaddr := [0; 136; 119; 102; 85; 68]
|}.

Definition demo_world : world := World 0 [] 0 (-1) [0; 0; 0; 0; 0; 0].

(** All three applications, without pruning. *)
Definition demo_daemon : daemon (app_database mmrp_key) (app_database Z) msrp_database :=
  (mrpd_start (os := demo_os) true true true false demo_world).2.

Lemma demo_started :
  mrpd_start (os := demo_os) true true true false demo_world = (0, demo_daemon).
Proof. vm_compute. reflexivity. Qed.

Lemma demo_hwaddr : length (@os_hwaddr demo_os) = 6%nat /\ bytes_ok (@os_hwaddr demo_os).
Proof. split; [done|]. repeat constructor; lia. Qed.

Lemma demo_daemon_ok : mrpd_ok (os := demo_os) demo_daemon.
Proof.
  destruct demo_hwaddr as [Hl Hb].
  exact (proj1 (mrpd_start_ok (os := demo_os) true true true false demo_world demo_daemon
    Hl Hb demo_started)).
Qed.

Lemma mrpd_start_establishes_witness :
  mrpd_ok (os := demo_os) demo_daemon /\ mmrp_socket demo_daemon = 4
  /\ mvrp_socket demo_daemon = 5 /\ msrp_socket demo_daemon = 6.
Proof.
  destruct demo_hwaddr as [Hl Hb].
  destruct (mrpd_start_establishes (os := demo_os) (0, 0, 0) true true true false demo_world
    demo_daemon Hl Hb demo_started) as [H _].
  split; [exact H|]. vm_compute. auto.
Defined.

(** Clients declare VLAN 2 and a stream; the join timers of MVRP and MSRP, the
    periodic timer and the collection timer expire. *)
Definition demo_rounds : list select_result :=
  let none := RecvError true in
  let c := SockAddr 2 5000 0 0 in
  let zero := AppDb mrp_zero_db [] false in
  let cfg := MsrpDb (AppDb mrp_zero_db [] false) (MsrpCfg (Eui64Set None 0 0) false) in
  [Select [3] (RecvBytes (bytes_of "V++:I=0002" ++ [0])) c none none none;
   Select [3] (RecvBytes (bytes_of
     "S++:S=0088776655440002,A=91e0f0000002,V=0002,Z=224,I=1,P=112,L=7800" ++ [0])) c
     none none none;
   Select [join_timer (mrp_db (default zero (MVRP_db demo_daemon)));
           join_timer (mrp_db (s_app (default cfg (MSRP_db demo_daemon))));
           periodic_timer demo_daemon; gc_timer demo_daemon] none c none none none].

Definition demo_smallb (s : daemon (app_database mmrp_key) (app_database Z) msrp_database)
  : bool :=
  match MMRP_db s with Some d => (length (attrib_list d) <=? 44)%nat | None => true end &&
  match MVRP_db s with Some d => (length (attrib_list d) <=? 49)%nat | None => true end &&
  match MSRP_db s with Some d => (length (attrib_list (s_app d)) <=? 11)%nat | None => true end.

Lemma demo_rounds_ok : Forall mrpd_input_ok demo_rounds.
Proof.
  assert (Hm : mframe_ok (RecvError true)) by (intros ? [=]).
  assert (Hs : sframe_ok (RecvError true)) by (intros ? [=]).
  repeat apply Forall_cons_2; [.. | apply Forall_nil_2];
    (split; [exact Hm|]; split; [exact Hm|]; split; [exact Hs|]);
    cbn [sel_ctl]; intros data [= <-]; vm_compute; lia.
Qed.

Lemma demo_bounded : mrpd_bounded (os := demo_os) (0, 0, 0) demo_rounds demo_daemon.
Proof.
  intros fds Hf. apply (guarded_check demo_smallb).
  - intros s. unfold demo_smallb, dsmall, opt_all. rewrite !andb_true_iff. intros [[H1 H2] H3].
    split; [destruct (MMRP_db s); [by apply Nat.leb_le | done]|].
    split; [destruct (MVRP_db s); [by apply Nat.leb_le | done]|].
    destruct (MSRP_db s); [by apply Nat.leb_le | done].
  - vm_compute in Hf. injection Hf as <-. vm_compute. reflexivity.
Qed.

(** What the rounds do, by evaluation: VLAN 2 and the stream are registered, and
    a frame goes out on the MVRP and one on the MSRP socket. *)
Definition demo_outcome : list Z * list (list Z) * list Z :=
  match mrpd_events (os := demo_os) (0, 0, 0) demo_rounds demo_daemon with
  | Ret s => (match MVRP_db s with Some d => key <$> attrib_list d | None => [] end,
              match MSRP_db s with
              | Some d => (fun a => StreamID (talk_listen (key a))) <$> attrib_list (s_app d)
              | None => []
              end,
              omap (fun a => match a with ASend n _ => Some n | _ => None end)
                (w_trace (d_w s)))
  | Fault _ => ([], [], [])
  end.

Lemma mrpd_events_safe_witness :
  demo_outcome = ([2], [[0; 136; 119; 102; 85; 68; 0; 2]], [5; 6])
  /\ returns (mrpd_events (os := demo_os) (0, 0, 0) demo_rounds demo_daemon)
       (mrpd_ok (os := demo_os)).
Proof.
  split; [vm_compute; reflexivity|].
  exact (mrpd_events_safe (os := demo_os) (0, 0, 0) demo_rounds demo_daemon demo_daemon_ok
    demo_rounds_ok demo_bounded).
Defined.
