(* ===== verification/Maap.v ===== *)
(** * maap_protocol.c: the MAC Address Acquisition Protocol daemon

    The address state machine as a function of what the network sends and what
    [rand] returns.  MaapThreads runs the same code with the announce thread
    interleaved. *)

From S2P Require Import Prelude.
From Stdlib Require Import ZArith Lia.
From stdpp Require Import base tactics sets list option relations.
Open Scope Z_scope.

(** ** Data *)

Inductive state_t := INITIAL | PROBE | DEFEND.

(** [enum msg_type]; the field of a received packet is any 4-bit number. *)
Definition MAAP_PROBE : Z := 1.
Definition MAAP_DEFEND : Z := 2.
Definition MAAP_ANNOUNCE : Z := 3.

Definition MAAP_PROBE_RETRANSMITS : Z := 3.
Definition MAAP_SUBTYPE : Z := 0x7E.
Definition MAAP_VER_DATA_LEN : Z :=
  Z.lor (Z.shiftl (Z.land 0x01 0x1F) 11) (Z.land 0x010 0x7FF).
Definition ETH_TYPE : Z := 0x22F0.

Record ethhedr_t := EthHedr { h_dest : list Z; h_source : list Z; eth_type : Z }.

Record maap_pdu_t := MaapPdu {
  subtype : Z;
  cd : Z;
  message_type : Z;
  version : Z;
  sv : Z;
  maap_version_data_length : Z;
  stream_id : Z;
  requested_start_address : list Z;
  requested_count : Z;
  conflict_start_address : list Z;
  conflict_count : Z
}.

Record ethpkt_t := EthPkt { header : ethhedr_t; data : maap_pdu_t }.

Record maap_info_t := MaapInfo {
  ethpkt : ethpkt_t;
  ethpkt_rx : ethpkt_t;
  state : state_t;
  src_mac : list Z;
  requested_mac_add : list Z;
  requested_mac_count : Z;
  acquired_mac_add : list Z;
  acquired_mac_count : Z;
  conflict_mac_add : list Z;
  conflict_mac_count : Z
}.

Definition zero_mac : list Z := [0; 0; 0; 0; 0; 0].
Definition zero_pkt : ethpkt_t :=
  EthPkt (EthHedr zero_mac zero_mac 0) (MaapPdu 0 0 0 0 0 0 0 zero_mac 0 zero_mac 0).

(** Field updates. *)
Definition set_ethpkt (x : ethpkt_t) (i : maap_info_t) : maap_info_t :=
  MaapInfo x (ethpkt_rx i) (state i) (src_mac i) (requested_mac_add i)
    (requested_mac_count i) (acquired_mac_add i) (acquired_mac_count i)
    (conflict_mac_add i) (conflict_mac_count i).
Definition set_rx (x : ethpkt_t) (i : maap_info_t) : maap_info_t :=
  MaapInfo (ethpkt i) x (state i) (src_mac i) (requested_mac_add i)
    (requested_mac_count i) (acquired_mac_add i) (acquired_mac_count i)
    (conflict_mac_add i) (conflict_mac_count i).
Definition set_state (x : state_t) (i : maap_info_t) : maap_info_t :=
  MaapInfo (ethpkt i) (ethpkt_rx i) x (src_mac i) (requested_mac_add i)
    (requested_mac_count i) (acquired_mac_add i) (acquired_mac_count i)
    (conflict_mac_add i) (conflict_mac_count i).
Definition set_requested (x : list Z) (i : maap_info_t) : maap_info_t :=
  MaapInfo (ethpkt i) (ethpkt_rx i) (state i) (src_mac i) x
    (requested_mac_count i) (acquired_mac_add i) (acquired_mac_count i)
    (conflict_mac_add i) (conflict_mac_count i).
Definition set_acquired (x : list Z) (n : Z) (i : maap_info_t) : maap_info_t :=
  MaapInfo (ethpkt i) (ethpkt_rx i) (state i) (src_mac i) (requested_mac_add i)
    (requested_mac_count i) x n (conflict_mac_add i) (conflict_mac_count i).
Definition set_conflict (x : list Z) (n : Z) (i : maap_info_t) : maap_info_t :=
  MaapInfo (ethpkt i) (ethpkt_rx i) (state i) (src_mac i) (requested_mac_add i)
    (requested_mac_count i) (acquired_mac_add i) (acquired_mac_count i) x n.

(** What the daemon does to its environment. *)
Inductive maap_action :=
| MSend (pkt : ethpkt_t)
| MDelay
| MCreateThread
| MDestroyThread
| MShm (mac : list Z).

(** ** Helpers *)

(** [htons] on a little-endian host. *)
Definition hton_s (v : Z) : Z := v mod 256 * 256 + v / 256 mod 256.

(** [rand() % (max_n - min_n + 1) + min_n] *)
Definition rand_range (rand min_n max_n : Z) : Z := rand mod (max_n - min_n + 1) + min_n.

Definition get_multicast_mac_adr : list Z := [0x91; 0xE0; 0xF0; 0x00; 0xFF; 0x00].

Fixpoint compare_loop (flag : Z) (rcv_add req_addr : list Z) : Z :=
  match rcv_add, req_addr with
  | x :: a, y :: b => if x =? y then compare_loop 1 a b else 0
  | _, _ => flag
  end.

Definition compare_mac (rcv_add req_addr : list Z) : bool :=
  negb (compare_loop 0 rcv_add req_addr =? 0).

Definition generate_address (rand : Z) (i : maap_info_t) : maap_info_t :=
  let val := u16 (rand_range rand 0x0000 0xFDFF) in
  set_requested [0x91; 0xE0; 0xF0; 0x00; u8 (Z.shiftr (Z.land val 0xff00) 8);
                 u8 (Z.land val 0x00ff)] i.

(** ** Packets *)

Definition Init (src_mac_adr : list Z) (i : maap_info_t) : maap_info_t :=
  let i := set_state INITIAL i in
  let pdu := MaapPdu MAAP_SUBTYPE 0x1 0 0 0 (hton_s MAAP_VER_DATA_LEN) 0
               zero_mac 0 zero_mac 0 in
  let hdr := EthHedr get_multicast_mac_adr src_mac_adr (hton_s ETH_TYPE) in
  MaapInfo (EthPkt hdr pdu) (ethpkt_rx i) (state i) src_mac_adr (requested_mac_add i)
    (hton_s 0x0001) (acquired_mac_add i) (acquired_mac_count i)
    (conflict_mac_add i) (conflict_mac_count i).

(** The PDU with its message type, the requested and the conflict range. *)
Definition fill_pdu (d : maap_pdu_t) (ty : Z) (req : list Z) (rc : Z) (con : list Z) (cc : Z)
  : maap_pdu_t :=
  MaapPdu (subtype d) (cd d) ty (version d) (sv d) (maap_version_data_length d)
    (stream_id d) req rc con cc.

Definition prepare_ethpkt (i : maap_info_t) (msg_type : Z) : maap_info_t :=
  let h := header (ethpkt i) in
  let d := data (ethpkt i) in
  if msg_type =? MAAP_PROBE then
    set_ethpkt (EthPkt (EthHedr get_multicast_mac_adr (src_mac i) (eth_type h))
      (fill_pdu d msg_type (requested_mac_add i) (requested_mac_count i) zero_mac 0)) i
  else if msg_type =? MAAP_DEFEND then
    set_ethpkt (EthPkt (EthHedr (h_source (header (ethpkt_rx i))) (src_mac i) (eth_type h))
      (fill_pdu d msg_type (requested_mac_add i) (requested_mac_count i)
         (conflict_mac_add i) (conflict_mac_count i))) i
  else if msg_type =? MAAP_ANNOUNCE then
    set_ethpkt (EthPkt (EthHedr get_multicast_mac_adr (src_mac i) (eth_type h))
      (fill_pdu d msg_type (acquired_mac_add i) (acquired_mac_count i) zero_mac 0)) i
  else
    set_ethpkt (EthPkt h (fill_pdu d msg_type (requested_start_address d) (requested_count d)
      (conflict_start_address d) (conflict_count d))) i.

(** ** The state machine *)

(** A step consumes receive results ([None] when no bytes arrived) and random
    numbers, and appends to the trace.  [None] means that the step waits for
    input. *)
Record maap_env := MaapEnv {
  rx : list (option ethpkt_t);
  rands : list Z;
  out : list maap_action
}.

(** Does a received packet claim the address the station probes for? *)
Definition probe_conflict (pkt : ethpkt_t) (i : maap_info_t) : bool :=
  let ty := message_type (data pkt) in
  ((ty =? MAAP_DEFEND) || (ty =? MAAP_ANNOUNCE) || (ty =? MAAP_PROBE)) &&
  compare_mac (requested_start_address (data pkt))
    (requested_start_address (data (ethpkt i))).

(** [while (maap_probe_count)]; the first component tells that a conflict was
    seen. *)
Fixpoint probe_loop (rxs : list (option ethpkt_t)) (count : Z) (i : maap_info_t)
    (o : list maap_action)
  : option (bool * maap_info_t * list (option ethpkt_t) * list maap_action) :=
  if count =? 0 then Some (false, i, rxs, o)
  else
    let o := o ++ [MSend (ethpkt i); MDelay] in
    match rxs with
    | [] => None
    | None :: rxs => probe_loop rxs (count - 1) (set_rx zero_pkt i) o
    | Some pkt :: rxs =>
        let i := set_rx pkt i in
        if probe_conflict pkt i then Some (true, set_state INITIAL i, rxs, o)
        else probe_loop rxs count i o
    end.

Definition transit_initial (i : maap_info_t) (e : maap_env)
  : option (Z * maap_info_t * maap_env) :=
  match rands e with
  | [] => None
  | r :: rs => Some (0, set_state PROBE (generate_address r i), MaapEnv (rx e) rs (out e))
  end.

Definition transit_probe (i : maap_info_t) (e : maap_env)
  : option (Z * maap_info_t * maap_env) :=
  let i := prepare_ethpkt i MAAP_PROBE in
  match probe_loop (rx e) MAAP_PROBE_RETRANSMITS i (out e) with
  | None => None
  | Some (true, i, rxs, o) => Some (1, i, MaapEnv rxs (rands e) o)
  | Some (false, i, rxs, o) =>
      let i := set_acquired (requested_mac_add i) (requested_mac_count i) i in
      let i := prepare_ethpkt i MAAP_ANNOUNCE in
      Some (0, set_state DEFEND i,
            MaapEnv rxs (rands e)
              (o ++ [MSend (ethpkt i); MCreateThread; MShm (acquired_mac_add i)]))
  end.

Definition transit_defend (i : maap_info_t) (e : maap_env)
  : option (Z * maap_info_t * maap_env) :=
  match rx e with
  | [] => None
  | None :: rxs => Some (0, set_rx zero_pkt i, MaapEnv rxs (rands e) (out e))
  | Some pkt :: rxs =>
      let i := set_rx pkt i in
      let ty := message_type (data pkt) in
      if compare_mac (requested_start_address (data pkt)) (acquired_mac_add i) then
        if ty =? MAAP_PROBE then
          let i := set_conflict (requested_start_address (data pkt))
                     (requested_count (data pkt)) i in
          let i := prepare_ethpkt i MAAP_DEFEND in
          Some (0, i, MaapEnv rxs (rands e) (out e ++ [MSend (ethpkt i)]))
        else if (ty =? MAAP_ANNOUNCE) || (ty =? MAAP_DEFEND) then
          Some (0, set_state INITIAL i, MaapEnv rxs (rands e) (out e ++ [MDestroyThread]))
        else Some (0, i, MaapEnv rxs (rands e) (out e))
      else Some (0, i, MaapEnv rxs (rands e) (out e))
  end.

Definition state_transit (i : maap_info_t) (e : maap_env)
  : option (Z * maap_info_t * maap_env) :=
  match state i with
  | INITIAL => transit_initial i e
  | PROBE => transit_probe i e
  | DEFEND => transit_defend i e
  end.

(** [n] rounds of the daemon's main loop. *)
Fixpoint maap_run (n : nat) (i : maap_info_t) (e : maap_env)
  : option (maap_info_t * maap_env) :=
  match n with
  | O => Some (i, e)
  | S n => match state_transit i e with
           | None => None
           | Some (_, i, e) => maap_run n i e
           end
  end.

(** [calloc] of the record, [Init], then the endless loop. *)
Definition zero_info : maap_info_t :=
  MaapInfo zero_pkt zero_pkt INITIAL zero_mac zero_mac 0 zero_mac 0 zero_mac 0.

Definition maap_main (n : nat) (src_mac : list Z) (e : maap_env)
  : option (maap_info_t * maap_env) := maap_run n (Init src_mac zero_info) e.

(** ** Helper lemmas *)

Lemma compare_loop_spec a : forall flag b,
  length a = length b -> flag <> 0 -> compare_loop flag a b <> 0 <-> a = b.
Proof.
  induction a as [|x a IH]; intros flag [|y b] Hl Hf; cbn in *; try done.
  destruct (Z.eqb_spec x y) as [->|Hne].
  - rewrite IH by (done || lia). split; congruence.
  - split; [done | congruence].
Qed.

Lemma compare_mac_spec a b :
  length a = 6%nat -> length b = 6%nat -> compare_mac a b = true <-> a = b.
Proof.
  intros Ha Hb. unfold compare_mac. rewrite negb_true_iff, Z.eqb_neq.
  destruct a as [|x a], b as [|y b]; try done. cbn [compare_loop].
  destruct (Z.eqb_spec x y) as [->|Hne].
  - rewrite compare_loop_spec by (cbn in *; lia). split; congruence.
  - split; [done | congruence].
Qed.

Lemma compare_mac_refl a : length a = 6%nat -> compare_mac a a = true.
Proof. intros H. by apply compare_mac_spec. Qed.

(** The dynamic allocation range 91:E0:F0:00:00:00 to 91:E0:F0:00:FD:FF. *)
Definition in_maap_range (mac : list Z) : Prop :=
  exists hi lo, mac = [0x91; 0xE0; 0xF0; 0x00; hi; lo] /\ 0 <= hi <= 0xFD /\ 0 <= lo < 256.

Lemma generate_in_range r i : in_maap_range (requested_mac_add (generate_address r i)).
Proof.
  unfold generate_address, rand_range. cbn [requested_mac_add set_requested].
  change (0xFDFF - 0x0000 + 1) with 65024.
  pose proof (Z.mod_pos_bound r 65024 eq_refl) as Hr.
  set (v := r mod 65024) in *. rewrite Z.add_0_r, u16_id by lia.
  change 0xff00 with (Z.shiftl (Z.ones 8) 8). change 0x00ff with (Z.ones 8).
  assert (Hhi : Z.shiftr (Z.land v (Z.shiftl (Z.ones 8) 8)) 8 = v / 256).
  { rewrite Z.shiftr_land, Z.shiftr_shiftl_l by lia. cbn [Z.sub Z.add Z.opp Z.pos_sub].
    change (Z.shiftl (Z.ones 8) (8 - 8)) with (Z.ones 8).
    rewrite Z.land_ones, Z.shiftr_div_pow2 by lia. apply Z.mod_small. zdm. }
  rewrite Hhi, Z.land_ones by lia. change (2 ^ 8) with 256.
  exists (v / 256), (v mod 256). rewrite !u8_id by zdm. split; [done|]. zdm.
Qed.

Lemma in_range_len mac : in_maap_range mac -> length mac = 6%nat.
Proof. by intros (hi & lo & -> & _). Qed.
