(* ===== verification/MaapProps.v ===== *)
(** * The properties of MAAP

    The main loop only sends well-formed frames for addresses of the dynamic
    range and publishes only such addresses; an uncontested probe acquires its
    address; a defended address is not taken twice; and a probing station that
    keeps hearing unrelated frames never finishes. *)

From S2P Require Import Prelude Maap.
From Stdlib Require Import ZArith Lia.
From stdpp Require Import base tactics sets list option relations.
Open Scope Z_scope.

(** ** Invariant *)

(** A frame the daemon may send: MAAP subtype, a MAAP message type, its own
    source address and a requested address of the dynamic range; PROBE and
    ANNOUNCE go to the MAAP group address with no conflict range, DEFEND carries
    a conflict on exactly the address it defends. *)
Definition frame_ok (mac : list Z) (pkt : ethpkt_t) : Prop :=
  let d := data pkt in
  subtype d = MAAP_SUBTYPE /\ h_source (header pkt) = mac
  /\ message_type d ∈ [MAAP_PROBE; MAAP_DEFEND; MAAP_ANNOUNCE]
  /\ in_maap_range (requested_start_address d)
  /\ (message_type d = MAAP_PROBE \/ message_type d = MAAP_ANNOUNCE ->
        h_dest (header pkt) = get_multicast_mac_adr
        /\ conflict_start_address d = zero_mac)
  /\ (message_type d = MAAP_DEFEND ->
        conflict_start_address d = requested_start_address d).

Definition action_ok (mac : list Z) (a : maap_action) : Prop :=
  match a with
  | MSend pkt => frame_ok mac pkt
  | MShm m => in_maap_range m
  | _ => True
  end.

Record info_ok (i : maap_info_t) : Prop := {
  io_sub : subtype (data (ethpkt i)) = MAAP_SUBTYPE;
  io_probe : state i = PROBE -> in_maap_range (requested_mac_add i);
  io_defend : state i = DEFEND ->
    in_maap_range (acquired_mac_add i) /\ requested_mac_add i = acquired_mac_add i
}.

Definition mac_len (o : option ethpkt_t) : Prop :=
  match o with
  | None => True
  | Some pkt => length (requested_start_address (data pkt)) = 6%nat
  end.

Lemma prepare_probe i :
  subtype (data (ethpkt i)) = MAAP_SUBTYPE -> in_maap_range (requested_mac_add i) ->
  frame_ok (src_mac i) (ethpkt (prepare_ethpkt i MAAP_PROBE)).
Proof. intros Hs Hr. split_and!; try done; set_solver. Qed.

Lemma prepare_announce i :
  subtype (data (ethpkt i)) = MAAP_SUBTYPE -> in_maap_range (acquired_mac_add i) ->
  frame_ok (src_mac i) (ethpkt (prepare_ethpkt i MAAP_ANNOUNCE)).
Proof. intros Hs Hr. split_and!; try done; set_solver. Qed.

Lemma prepare_defend i :
  subtype (data (ethpkt i)) = MAAP_SUBTYPE -> in_maap_range (requested_mac_add i) ->
  conflict_mac_add i = requested_mac_add i ->
  frame_ok (src_mac i) (ethpkt (prepare_ethpkt i MAAP_DEFEND)).
Proof.
  intros Hs Hr Hc. split_and!; try done; [set_solver | by intros [?|?]].
Qed.

(** What the probe loop keeps of the station's record. *)
Record probe_same (i i' : maap_info_t) : Prop := {
  ps_pkt : ethpkt i' = ethpkt i;
  ps_src : src_mac i' = src_mac i;
  ps_req : requested_mac_add i' = requested_mac_add i;
  ps_cnt : requested_mac_count i' = requested_mac_count i;
  ps_acq : acquired_mac_add i' = acquired_mac_add i
}.

#[export] Instance probe_same_preorder : PreOrder probe_same.
Proof. split; [by split|]. intros ??? [] []. split; congruence. Qed.

(** Outcome of the probe loop: the same frame was sent again and again; a
    conflict resets the state, otherwise it is as it was. *)
Lemma probe_loop_spec rxs : forall count i o,
  match probe_loop rxs count i o with
  | None => True
  | Some (c, i', rxs', o') =>
      probe_same i i' /\ state i' = (if c : bool then INITIAL else state i)
      /\ (exists used, rxs = used ++ rxs')
      /\ exists sent, o' = o ++ sent
           /\ Forall (fun a => a = MSend (ethpkt i) \/ a = MDelay) sent
  end.
Proof.
  induction rxs as [|[pkt|] rxs IH]; intros count i o; cbn [probe_loop];
    (destruct (count =? 0); [split_and!; [done | done | by exists [] | exists [];
       split; [by rewrite app_nil_r | done]]|]); [done| |].
  - destruct (probe_conflict pkt (set_rx pkt i)).
    + split_and!; [done | done | by exists [Some pkt] |].
      eexists. split; [done|]. do 2 (constructor; [by auto|]). done.
    + specialize (IH count (set_rx pkt i) (o ++ [MSend (ethpkt i); MDelay])).
      destruct (probe_loop _ _ _ _) as [[[[c i'] rxs'] o']|]; [|done].
      destruct IH as (Hs & Hst & (u & ->) & sent & -> & Hf).
      split_and!; [by etransitivity; [|apply Hs] | done | by exists (Some pkt :: u) |].
      eexists. rewrite <- app_assoc. split; [done|]. do 2 (constructor; [by auto|]). done.
  - specialize (IH (count - 1) (set_rx zero_pkt i) (o ++ [MSend (ethpkt i); MDelay])).
    destruct (probe_loop _ _ _ _) as [[[[c i'] rxs'] o']|]; [|done].
    destruct IH as (Hs & Hst & (u & ->) & sent & -> & Hf).
    split_and!; [by etransitivity; [|apply Hs] | done | by exists (None :: u) |].
    eexists. rewrite <- app_assoc. split; [done|]. do 2 (constructor; [by auto|]). done.
Qed.

Lemma transit_ok i e rc i' e' :
  info_ok i -> Forall mac_len (rx e) -> state_transit i e = Some (rc, i', e') ->
  info_ok i' /\ src_mac i' = src_mac i /\ Forall mac_len (rx e')
  /\ exists acts, out e' = out e ++ acts /\ Forall (action_ok (src_mac i)) acts.
Proof.
  intros [Hs Hp Hd] Hrx. unfold state_transit. destruct (state i) eqn:Est.
  - unfold transit_initial. destruct (rands e) as [|r rs]; [done|]. intros [= <- <- <-].
    split_and!; [split; [done | intros _; apply generate_in_range | done] | done | done |].
    exists []. by rewrite app_nil_r.
  - specialize (Hp eq_refl). unfold transit_probe.
    set (i0 := prepare_ethpkt i MAAP_PROBE).
    pose proof (prepare_probe i Hs Hp) as Hf0. fold i0 in Hf0.
    pose proof (probe_loop_spec (rx e) MAAP_PROBE_RETRANSMITS i0 (out e)) as Hl.
    destruct (probe_loop _ _ _ _) as [[[[c i1] rxs] o]|]; [|done].
    destruct Hl as ([Hk1 Hk2 Hk3 Hk4 Hk5] & Hst & (u & Hu) & sent & -> & Hf).
    assert (Hsent : Forall (action_ok (src_mac i)) sent).
    { eapply Forall_impl; [exact Hf|]. intros a [-> | ->]; [exact Hf0 | done]. }
    assert (Hsub : subtype (data (ethpkt i1)) = MAAP_SUBTYPE) by (rewrite Hk1; done).
    assert (Hrx' : Forall mac_len rxs).
    { rewrite Hu in Hrx. apply Forall_app in Hrx. apply Hrx. }
    destruct c; intros [= <- <- <-].
    + split_and!; [split; [done | by rewrite Hst | by rewrite Hst] | done | done |]. eauto.
    + set (i2 := set_acquired _ _ i1).
      assert (Hr2 : in_maap_range (acquired_mac_add i2)) by (cbn; rewrite Hk3; done).
      split_and!; [split; [done | done | intros _; by split] | done | done |].
      eexists. cbn [out]. rewrite <- app_assoc. split; [done|]. apply Forall_app. split; [done|].
      pose proof (prepare_announce i2 Hsub Hr2) as Hf2.
      assert (Hsm : src_mac i2 = src_mac i) by (cbn; by rewrite Hk2). rewrite Hsm in Hf2.
      constructor; [exact Hf2|]. constructor; [done|]. constructor; [exact Hr2|]. done.
  - destruct (Hd eq_refl) as [Hr Heq]. unfold transit_defend.
    destruct (rx e) as [|[pkt|] rxs]; [done| |].
    2: { intros [= <- <- <-]. apply Forall_cons_iff in Hrx as [_ Hrx].
         split_and!; [split; [done | by cbn; rewrite Est | by cbn; rewrite Est; auto]
           | done | done |]. exists []. by rewrite app_nil_r. }
    apply Forall_cons_iff in Hrx as [Hlen Hrx]. cbn [mac_len] in Hlen.
    destruct (compare_mac _ _) eqn:Hc.
    2: { intros [= <- <- <-].
         split_and!; [split; [done | by cbn; rewrite Est | by cbn; rewrite Est; auto]
           | done | done |]. exists []. by rewrite app_nil_r. }
    cbn [acquired_mac_add set_rx] in Hc.
    apply compare_mac_spec in Hc; [|done | by apply in_range_len].
    destruct (_ =? MAAP_PROBE).
    + intros [= <- <- <-].
      split_and!; [split; [done | by cbn; rewrite Est | by cbn; rewrite Est; auto]
        | done | done |].
      eexists. split; [done|]. constructor; [|done]. cbn [action_ok].
      apply (prepare_defend (set_conflict (requested_start_address (data pkt))
        (requested_count (data pkt)) (set_rx pkt i)));
        [done | cbn; by rewrite Heq | cbn; congruence].
    + destruct (_ || _); intros [= <- <- <-];
        (split_and!; [split; [done | by cbn; rewrite ?Est | by cbn; rewrite ?Est; auto]
          | done | done |]).
      * eexists. split; [done|]. by repeat constructor.
      * exists []. by rewrite app_nil_r.
Qed.

Lemma maap_run_ok n i e i' e' :
  info_ok i -> Forall mac_len (rx e) -> maap_run n i e = Some (i', e') ->
  info_ok i' /\ exists acts, out e' = out e ++ acts /\ Forall (action_ok (src_mac i)) acts.
Proof.
  revert i e. induction n as [|n IH]; intros i e Hi Hrx; cbn [maap_run].
  { intros [= <- <-]. split; [done|]. exists []. by rewrite app_nil_r. }
  destruct (state_transit i e) as [[[rc i1] e1]|] eqn:E; [|done]. intros Hrun.
  destruct (transit_ok _ _ _ _ _ Hi Hrx E) as (Hi1 & Hsm & Hrx1 & a1 & Ho1 & Hf1).
  destruct (IH i1 e1 Hi1 Hrx1 Hrun) as (Hi' & a2 & Ho2 & Hf2).
  split; [done|]. exists (a1 ++ a2). rewrite Ho2, Ho1, app_assoc. split; [done|].
  apply Forall_app. split; [done|]. by rewrite <- Hsm.
Qed.

Lemma init_ok mac : info_ok (Init mac zero_info).
Proof. by split. Qed.

(** Whatever the network sends and [rand] returns, the daemon only ever
    sends well-formed MAAP frames with its own source address for addresses of
    the dynamic allocation range, publishes only such addresses, defends
    exactly the address it holds, and while defending holds the address it
    requested. *)
Theorem maap_main_invariant n mac e i e' :
  Forall mac_len (rx e) -> maap_main n mac e = Some (i, e') ->
  info_ok i /\ exists acts, out e' = out e ++ acts /\ Forall (action_ok mac) acts.
Proof. intros Hrx Hrun. exact (maap_run_ok _ _ _ _ _ (init_ok mac) Hrx Hrun). Qed.

(** ** Probing *)

(** A receive result that does not contest the address [mac]. *)
Definition no_conflict (mac : list Z) (o : option ethpkt_t) : Prop :=
  forall pkt, o = Some pkt -> requested_start_address (data pkt) <> mac
    \/ (message_type (data pkt) <> MAAP_PROBE /\ message_type (data pkt) <> MAAP_DEFEND
        /\ message_type (data pkt) <> MAAP_ANNOUNCE).

Lemma probe_conflict_false pkt i mac :
  requested_start_address (data (ethpkt i)) = mac -> length mac = 6%nat ->
  mac_len (Some pkt) -> no_conflict mac (Some pkt) -> probe_conflict pkt i = false.
Proof.
  intros <- Hl Hm Hn. unfold probe_conflict. apply andb_false_iff.
  destruct (Hn pkt eq_refl) as [Hne|(H1 & H2 & H3)].
  - right. destruct (compare_mac _ _) eqn:E; [|done]. by apply compare_mac_spec in E.
  - left. rewrite !orb_false_iff, !Z.eqb_neq. auto.
Qed.

(** Silent receives in a list of results. *)
Definition silences (l : list (option ethpkt_t)) : nat := length (filter (.= None) l).

(** After as many silent receives as probes are left the loop ends without
    conflict. *)
Lemma probe_loop_quiet mac rxs rest : forall count i o,
  requested_start_address (data (ethpkt i)) = mac -> length mac = 6%nat ->
  Forall mac_len rxs -> Forall (no_conflict mac) rxs ->
  0 <= count -> Z.of_nat (silences rxs) = count -> last rxs = Some None \/ count = 0 ->
  (count = 0 -> rxs = []) ->
  exists i' o', probe_loop (rxs ++ rest) count i o = Some (false, i', rest, o').
Proof.
  induction rxs as [|[pkt|] rxs IH]; intros count i o Hmac Hlen Hm Hn Hc Hcount Hlast H0.
  - cbn in Hcount. subst count. destruct rest; cbn; eauto.
  - apply Forall_cons_iff in Hm as [Hm1 Hm]. apply Forall_cons_iff in Hn as [Hn1 Hn].
    unfold silences in Hcount. rewrite filter_cons_False in Hcount by done.
    destruct (Z.eqb_spec count 0) as [->|Hne]; [by specialize (H0 eq_refl)|].
    cbn [app probe_loop]. rewrite (proj2 (Z.eqb_neq _ _) Hne).
    rewrite (probe_conflict_false pkt (set_rx pkt i) mac) by done.
    apply IH; auto; [|done]. destruct Hlast as [Hl|]; [|done].
    destruct rxs; [done|]. by left.
  - apply Forall_cons_iff in Hm as [_ Hm]. apply Forall_cons_iff in Hn as [_ Hn].
    unfold silences in Hcount. rewrite filter_cons_True in Hcount by done. cbn [length] in Hcount.
    cbn [app probe_loop]. rewrite (proj2 (Z.eqb_neq _ _)) by lia.
    assert (Hnil : count - 1 = 0 -> rxs = []).
    { intros Hz. destruct Hlast as [Hl|]; [|lia]. destruct rxs as [|x rxs]; [done|].
      assert (Hex : last (x :: rxs) = Some None) by (by destruct x).
      apply last_Some_elem_of in Hex.
      assert (Hin : None ∈ filter (.= None) (x :: rxs)) by (apply list_elem_of_filter; auto).
      destruct (filter _ _); [set_solver|]. cbn in Hcount. lia. }
    apply IH; auto; [lia | unfold silences; lia |].
    destruct (decide (count = 1)) as [->|]; [by right|]. left.
    destruct Hlast as [Hl|]; [|lia]. destruct rxs; [cbn in Hcount; lia | done].
Qed.

(** C31: an uncontested address is acquired: if no received frame claims the
    address being probed before the third silent listening interval, then
    [state_transit] returns with the daemon in DEFEND holding that address,
    announced, published, and the announce thread started. *)
Theorem maap_acquires i e rxs rest :
  info_ok i -> state i = PROBE -> rx e = rxs ++ rest -> Forall mac_len rxs ->
  Forall (no_conflict (requested_mac_add i)) rxs ->
  silences rxs = 3%nat -> last rxs = Some None ->
  exists i' e', state_transit i e = Some (0, i', e')
    /\ state i' = DEFEND /\ acquired_mac_add i' = requested_mac_add i /\ rx e' = rest
    /\ exists sent, out e' = out e ++ sent
         ++ [MSend (ethpkt i'); MCreateThread; MShm (requested_mac_add i)]
       /\ message_type (data (ethpkt i')) = MAAP_ANNOUNCE
       /\ requested_start_address (data (ethpkt i')) = requested_mac_add i.
Proof.
  intros [Hs Hp _] Hst Hrx Hm Hn Hsil Hlast. specialize (Hp Hst).
  unfold state_transit. rewrite Hst. unfold transit_probe. rewrite Hrx.
  set (i0 := prepare_ethpkt i MAAP_PROBE).
  destruct (probe_loop_quiet (requested_mac_add i) rxs rest MAAP_PROBE_RETRANSMITS i0 (out e))
    as (i1 & o1 & Hl); auto; try done.
  { by apply in_range_len. }
  { by rewrite Hsil. }
  pose proof (probe_loop_spec (rxs ++ rest) MAAP_PROBE_RETRANSMITS i0 (out e)) as Hsp.
  rewrite Hl in *. destruct Hsp as ([_ _ Hreq _ _] & _ & _ & sent & -> & _).
  eexists _, _. split; [done|]. cbn. rewrite Hreq. split_and!; auto.
  exists sent. by rewrite <- app_assoc.
Qed.

(** C30: a held address is not taken twice: when station B probes for the address
    station A defends, A answers B's probe with a DEFEND frame addressed to B,
    and that frame, arriving in any of B's listening intervals, sends B back to
    INITIAL with nothing announced or published. *)
Theorem maap_defends iA eA iB eB rxA rxB k :
  info_ok iA -> state iA = DEFEND -> info_ok iB -> state iB = PROBE ->
  requested_mac_add iB = acquired_mac_add iA -> (k < 3)%nat ->
  let probe := ethpkt (prepare_ethpkt iB MAAP_PROBE) in
  rx eA = Some probe :: rxA ->
  exists iA' dfd, state_transit iA eA
      = Some (0, iA', MaapEnv rxA (rands eA) (out eA ++ [MSend dfd]))
    /\ state iA' = DEFEND /\ message_type (data dfd) = MAAP_DEFEND
    /\ h_dest (header dfd) = src_mac iB
    /\ (rx eB = replicate k None ++ Some dfd :: rxB ->
        exists iB' eB', state_transit iB eB = Some (1, iB', eB') /\ state iB' = INITIAL
          /\ exists sent, out eB' = out eB ++ sent
               /\ Forall (fun a => a = MSend probe \/ a = MDelay) sent).
Proof.
  intros [HsA _ HdA] HA [HsB HpB _] HB Heq Hk probe HrA.
  destruct (HdA HA) as [Hr Hreq]. specialize (HpB HB). pose proof (in_range_len _ Hr) as Hl.
  unfold state_transit at 1. rewrite HA. unfold transit_defend. rewrite HrA.
  change (requested_start_address (data probe)) with (requested_mac_add iB).
  change (message_type (data probe)) with MAAP_PROBE.
  cbn [acquired_mac_add set_rx]. rewrite Heq, compare_mac_refl by done.
  rewrite Z.eqb_refl. eexists _, _. split; [done|].
  split; [done|]. split; [done|]. split; [done|]. intros HrB.
  set (dfd := ethpkt (prepare_ethpkt _ MAAP_DEFEND)) in *.
  unfold state_transit. rewrite HB. unfold transit_probe. rewrite HrB.
  set (i0 := prepare_ethpkt iB MAAP_PROBE).
  assert (Hhit : forall k count i o, ethpkt i = ethpkt i0 -> Z.of_nat k < count ->
    exists i' o', probe_loop (replicate k None ++ Some dfd :: rxB) count i o
      = Some (true, i', rxB, o')).
  { clear -Heq Hreq Hl. induction k as [|k IH]; intros count i o Hi Hc;
      cbn [replicate app probe_loop]; rewrite (proj2 (Z.eqb_neq _ _)) by lia.
    - replace (probe_conflict dfd (set_rx dfd i)) with true; [by eauto|].
      unfold probe_conflict. cbn [ethpkt set_rx]. rewrite Hi.
      change (requested_start_address (data (ethpkt i0))) with (requested_mac_add iB).
      change (requested_start_address (data dfd)) with (requested_mac_add iA).
      rewrite Heq, Hreq, compare_mac_refl by done. done.
    - apply IH; [done | lia]. }
  destruct (Hhit k MAAP_PROBE_RETRANSMITS i0 (out eB) eq_refl) as (i1 & o1 & Hp1);
    [unfold MAAP_PROBE_RETRANSMITS; lia|].
  pose proof (probe_loop_spec (replicate k None ++ Some dfd :: rxB) MAAP_PROBE_RETRANSMITS
    i0 (out eB)) as Hsp.
  rewrite Hp1 in *. destruct Hsp as (_ & Hst & _ & sent & -> & Hf).
  eexists _, _. split; [done|]. split; [done|]. by exists sent.
Qed.

(** A frame of another protocol participant about another address floods the
    listener: its probe counter never moves. *)
Theorem maap_probe_starves n i o pkt :
  probe_conflict pkt i = false ->
  probe_loop (replicate n (Some pkt)) MAAP_PROBE_RETRANSMITS i o = None.
Proof.
  unfold MAAP_PROBE_RETRANSMITS.
  revert i o. induction n as [|n IH]; intros i o Hc; cbn [replicate probe_loop]; [done|].
  assert (Hc' : probe_conflict pkt (set_rx pkt i) = false) by done.
  cbn [Z.eqb]. rewrite Hc'. by apply IH.
Qed.

(** ** Witnesses *)

Definition mac_A : list Z := [0x02; 0; 0; 0; 0; 0xA].
Definition mac_B : list Z := [0x02; 0; 0; 0; 0; 0xB].

(** Station A after three silent listening intervals on 91:E0:F0:00:01:02. *)
Definition quiet_env : maap_env := MaapEnv [None; None; None] [0x0102] [].

Definition station_A : maap_info_t :=
  match maap_main 2 mac_A quiet_env with Some (i, _) => i | None => zero_info end.

(** Station B about to probe for the same address. *)
Definition station_B : maap_info_t :=
  match maap_main 1 mac_B quiet_env with Some (i, _) => i | None => zero_info end.

Lemma range_102 : in_maap_range [0x91; 0xE0; 0xF0; 0x00; 0x01; 0x02].
Proof. exists 1, 2. split; [done|]. lia. Qed.

Lemma station_A_ok : info_ok station_A.
Proof. split; [done | done | intros _; split; [apply range_102 | done]]. Qed.

Lemma station_B_ok : info_ok station_B.
Proof. split; [done | intros _; apply range_102 | done]. Qed.

Lemma maap_main_invariant_witness :
  exists i e', maap_main 2 mac_A quiet_env = Some (i, e') /\ state i = DEFEND
    /\ length (out e') = 9%nat /\ info_ok i.
Proof.
  destruct (maap_main 2 mac_A quiet_env) as [[i e']|] eqn:E; [|done].
  assert (Hrx : Forall mac_len (rx quiet_env)) by (by repeat constructor).
  destruct (maap_main_invariant 2 mac_A quiet_env i e' Hrx E) as [Hi _].
  exists i, e'. split; [done|]. split; [|split; [|exact Hi]];
    vm_compute in E; by injection E as <- <-.
Defined.

Lemma maap_acquires_witness :
  exists i' e', state_transit station_B (MaapEnv [None; Some zero_pkt; None; None] [] [])
      = Some (0, i', e')
    /\ state i' = DEFEND /\ acquired_mac_add i' = [0x91; 0xE0; 0xF0; 0x00; 0x01; 0x02].
Proof.
  destruct (maap_acquires station_B (MaapEnv [None; Some zero_pkt; None; None] [] [])
    [None; Some zero_pkt; None; None] [])
    as (i' & e' & Hst & Hd & Ha & _); [exact station_B_ok | done | done | by repeat constructor
    | | done | done | by exists i', e'].
  do 4 (constructor; [first [intros ? [= <-]; by left | done]|]). constructor.
Defined.

Lemma maap_defends_witness :
  let eA := MaapEnv [Some (ethpkt (prepare_ethpkt station_B MAAP_PROBE))] [] [] in
  exists iA' dfd, state_transit station_A eA = Some (0, iA', MaapEnv [] [] [MSend dfd])
    /\ h_dest (header dfd) = mac_B
    /\ exists iB' eB', state_transit station_B (MaapEnv [None; Some dfd] [] [])
        = Some (1, iB', eB') /\ state iB' = INITIAL.
Proof.
  intros eA.
  destruct (maap_defends station_A eA station_B (MaapEnv [None; Some
    (ethpkt (prepare_ethpkt (set_conflict [0x91; 0xE0; 0xF0; 0x00; 0x01; 0x02] (hton_s 1)
       (set_rx (ethpkt (prepare_ethpkt station_B MAAP_PROBE)) station_A)) MAAP_DEFEND))] [] [])
    [] [] 1) as (iA' & dfd & Ht & _ & _ & Hd & Hb);
    [exact station_A_ok | done | exact station_B_ok | done | done | lia | done |].
  exists iA', dfd. split; [exact Ht|]. split; [exact Hd|].
  assert (Hdfd : [MSend dfd] = out (MaapEnv [] [] [MSend dfd])) by done.
  vm_compute in Ht. injection Ht as _ Hdf. subst dfd.
  destruct Hb as (iB' & eB' & HtB & HsB & _); [done|]. by exists iB', eB'.
Defined.

Lemma maap_probe_starves_witness :
  probe_loop (replicate 1000 (Some zero_pkt)) MAAP_PROBE_RETRANSMITS
    (prepare_ethpkt station_B MAAP_PROBE) [] = None.
Proof. by apply maap_probe_starves. Defined.
