(* ===== verification/MaapThreads.v ===== *)
(** * The MAAP daemon with its announce thread

    [state_transit] of the main thread and [send_announce] of the announce
    thread run over one [maap_info_t] and one mutex.  The step function below
    interleaves them at the granularity of the accesses to the shared packet:
    each [prepare_ethpkt] is two steps, the write of the message type and the
    writes of its switch. *)

From S2P Require Import Prelude Maap MaapProps.
From Stdlib Require Import ZArith Lia.
From stdpp Require Import base tactics sets list option relations.
Open Scope Z_scope.

(** ** Threads *)

Inductive tid := TMain | TAnn (k : nat).

#[export] Instance tid_eq_dec : EqDecision tid.
Proof. solve_decision. Defined.

(** Where [send_announce] stands; [ADead] after its cancellation. *)
Inductive ann_pc := ADelay | ALock | APrep1 | APrep2 | ASend | AUnlock | ADead.

(** An announce thread and whether [pthread_cancel] was called on it. *)
Record ann := Ann { apc : ann_pc; acancel : bool }.

(** Where the main thread stands in [state_transit]. *)
Inductive main_pc :=
| PTop                    (** about to enter [state_transit] *)
| PProbe2                 (** PROBE: message type written *)
| PLoop (count : Z)       (** [while (maap_probe_count)] *)
| PListen (count : Z)     (** probe sent, delay over, about to receive *)
| PAnn1 | PAnn2 | PAnnSend  (** [prepare_ethpkt], [send_packet] of the announcement *)
| PCreate | PShm
| PLock | PDef1 | PDef2 | PDefSend | PUnlock.

Record tstate := TState {
  tinfo : maap_info_t;
  tlock : option tid;
  tmain : main_pc;
  tanns : list ann;
  tsent : list ethpkt_t;
  tshm : list (list Z)
}.

(** What the environment supplies to a step: nothing, a value of [rand] or the
    result of a receive. *)
Inductive tinput := ITick | IRand (r : Z) | IRecv (o : option ethpkt_t).

(** ** [prepare_ethpkt] in two steps *)

Definition prep_begin (msg_type : Z) (i : maap_info_t) : maap_info_t :=
  let d := data (ethpkt i) in
  set_ethpkt (EthPkt (header (ethpkt i))
    (fill_pdu d msg_type (requested_start_address d) (requested_count d)
       (conflict_start_address d) (conflict_count d))) i.

Definition prep_end (msg_type : Z) (i : maap_info_t) : maap_info_t :=
  let h := header (ethpkt i) in
  let d := data (ethpkt i) in
  if msg_type =? MAAP_PROBE then
    set_ethpkt (EthPkt (EthHedr get_multicast_mac_adr (src_mac i) (eth_type h))
      (fill_pdu d (message_type d) (requested_mac_add i) (requested_mac_count i) zero_mac 0)) i
  else if msg_type =? MAAP_DEFEND then
    set_ethpkt (EthPkt (EthHedr (h_source (header (ethpkt_rx i))) (src_mac i) (eth_type h))
      (fill_pdu d (message_type d) (requested_mac_add i) (requested_mac_count i)
         (conflict_mac_add i) (conflict_mac_count i))) i
  else if msg_type =? MAAP_ANNOUNCE then
    set_ethpkt (EthPkt (EthHedr get_multicast_mac_adr (src_mac i) (eth_type h))
      (fill_pdu d (message_type d) (acquired_mac_add i) (acquired_mac_count i) zero_mac 0)) i
  else i.

Lemma prep_split ty i : prep_end ty (prep_begin ty i) = prepare_ethpkt i ty.
Proof.
  unfold prep_end, prepare_ethpkt. by repeat case_match.
Qed.

(** ** Steps *)

Definition goto (pc : main_pc) (i : maap_info_t) (s : tstate) : tstate :=
  TState i (tlock s) pc (tanns s) (tsent s) (tshm s).

Definition send_packet (s : tstate) : tstate :=
  TState (tinfo s) (tlock s) (tmain s) (tanns s) (tsent s ++ [ethpkt (tinfo s)]) (tshm s).

(** [pthread_mutex_lock] blocks while the mutex is held. *)
Definition Lock (t : tid) (s : tstate) : option tstate :=
  match tlock s with
  | None => Some (TState (tinfo s) (Some t) (tmain s) (tanns s) (tsent s) (tshm s))
  | Some _ => None
  end.

Definition UnLock (s : tstate) : tstate :=
  TState (tinfo s) None (tmain s) (tanns s) (tsent s) (tshm s).

Definition create_thread (s : tstate) : tstate :=
  TState (tinfo s) (tlock s) (tmain s) (tanns s ++ [Ann ADelay false]) (tsent s) (tshm s).

(** [thread] holds the handle of the last thread created. *)
Definition destroy_thread (s : tstate) : tstate :=
  TState (tinfo s) (tlock s) (tmain s)
    (alter (fun a => Ann (apc a) true) (length (tanns s) - 1)%nat (tanns s))
    (tsent s) (tshm s).

(** A main-thread step of [state_transit]. *)
Definition main_step (inp : tinput) (s : tstate) : option tstate :=
  let i := tinfo s in
  match tmain s with
  | PTop =>
      match state i, inp with
      | INITIAL, IRand r => Some (goto PTop (set_state PROBE (generate_address r i)) s)
      | PROBE, ITick => Some (goto PProbe2 (prep_begin MAAP_PROBE i) s)
      | DEFEND, IRecv None => Some (goto PTop (set_rx zero_pkt i) s)
      | DEFEND, IRecv (Some pkt) =>
          let i := set_rx pkt i in
          let ty := message_type (data pkt) in
          if compare_mac (requested_start_address (data pkt)) (acquired_mac_add i) then
            if ty =? MAAP_PROBE then
              Some (goto PLock (set_conflict (requested_start_address (data pkt))
                                 (requested_count (data pkt)) i) s)
            else if (ty =? MAAP_ANNOUNCE) || (ty =? MAAP_DEFEND) then
              Some (destroy_thread (goto PTop (set_state INITIAL i) s))
            else Some (goto PTop i s)
          else Some (goto PTop i s)
      | _, _ => None
      end
  | PProbe2 => Some (goto (PLoop MAAP_PROBE_RETRANSMITS) (prep_end MAAP_PROBE i) s)
  | PLoop count =>
      if count =? 0 then
        Some (goto PAnn1 (set_acquired (requested_mac_add i) (requested_mac_count i) i) s)
      else Some (goto (PListen count) i (send_packet s))
  | PListen count =>
      match inp with
      | IRecv None => Some (goto (PLoop (count - 1)) (set_rx zero_pkt i) s)
      | IRecv (Some pkt) =>
          let i := set_rx pkt i in
          if probe_conflict pkt i then Some (goto PTop (set_state INITIAL i) s)
          else Some (goto (PLoop count) i s)
      | _ => None
      end
  | PAnn1 => Some (goto PAnn2 (prep_begin MAAP_ANNOUNCE i) s)
  | PAnn2 => Some (goto PAnnSend (prep_end MAAP_ANNOUNCE i) s)
  | PAnnSend => Some (goto PCreate i (send_packet s))
  | PCreate => Some (goto PShm i (create_thread s))
  | PShm => Some (TState (set_state DEFEND i) (tlock s) PTop (tanns s) (tsent s)
                    (tshm s ++ [acquired_mac_add i]))
  | PLock => s ← Lock TMain s; Some (goto PDef1 i s)
  | PDef1 => Some (goto PDef2 (prep_begin MAAP_DEFEND i) s)
  | PDef2 => Some (goto PDefSend (prep_end MAAP_DEFEND i) s)
  | PDefSend => Some (goto PUnlock i (send_packet s))
  | PUnlock => Some (goto PTop i (UnLock s))
  end.

Definition set_ann (k : nat) (pc : ann_pc) (c : bool) (i : maap_info_t) (s : tstate) : tstate :=
  TState i (tlock s) (tmain s) (<[k := Ann pc c]> (tanns s)) (tsent s) (tshm s).

(** A step of announce thread [k]: a pending cancellation takes effect in
    [sleep] and in [sendto], which are cancellation points; locking a mutex is
    not one. *)
Definition send_announce_step (k : nat) (s : tstate) : option tstate :=
  let i := tinfo s in
  a ← tanns s !! k;
  let c := acancel a in
  match apc a with
  | ADelay => Some (set_ann k (if c then ADead else ALock) c i s)
  | ALock => s ← Lock (TAnn k) s; Some (set_ann k APrep1 c i s)
  | APrep1 => Some (set_ann k APrep2 c (prep_begin MAAP_ANNOUNCE i) s)
  | APrep2 => Some (set_ann k ASend c (prep_end MAAP_ANNOUNCE i) s)
  | ASend => if c then Some (set_ann k ADead c i s)
             else Some (set_ann k AUnlock c i (send_packet s))
  | AUnlock => Some (set_ann k ADelay c i (UnLock s))
  | ADead => None
  end.

Definition tstep (t : tid) (inp : tinput) (s : tstate) : option tstate :=
  match t with
  | TMain => main_step inp s
  | TAnn k => send_announce_step k s
  end.

(** A schedule: which thread moves next and what it receives. *)
Fixpoint tsteps (l : list (tid * tinput)) (s : tstate) : option tstate :=
  match l with
  | [] => Some s
  | (t, inp) :: l => s ← tstep t inp s; tsteps l s
  end.

Definition tinit (src_mac : list Z) : tstate :=
  TState (Init src_mac zero_info) None PTop [] [] [].

(** ** The invariant while no announce thread was cancelled *)

Definition main_crit (pc : main_pc) : bool :=
  match pc with PDef1 | PDef2 | PDefSend | PUnlock => true | _ => false end.

Definition ann_crit (pc : ann_pc) : bool :=
  match pc with APrep1 | APrep2 | ASend | AUnlock => true | _ => false end.

(** The address acquired is the one requested. *)
Definition held (i : maap_info_t) : Prop :=
  in_maap_range (acquired_mac_add i) /\ requested_mac_add i = acquired_mac_add i.

(** What holds of the record where the main thread stands. *)
Definition main_inv (mac : list Z) (pc : main_pc) (i : maap_info_t) : Prop :=
  let ty := message_type (data (ethpkt i)) in
  let whole := frame_ok mac (ethpkt i) in
  let defending := state i = DEFEND /\ held i in
  match pc with
  | PTop => (state i = PROBE -> in_maap_range (requested_mac_add i))
            /\ (state i = DEFEND -> held i)
  | PProbe2 => state i = PROBE /\ in_maap_range (requested_mac_add i) /\ ty = MAAP_PROBE
  | PLoop _ | PListen _ => state i = PROBE /\ in_maap_range (requested_mac_add i) /\ whole
  | PAnn1 | PCreate | PShm => state i = PROBE /\ held i
  | PAnn2 => state i = PROBE /\ held i /\ ty = MAAP_ANNOUNCE
  | PAnnSend => state i = PROBE /\ held i /\ whole
  | PLock | PDef1 => defending /\ conflict_mac_add i = requested_mac_add i
  | PDef2 => defending /\ conflict_mac_add i = requested_mac_add i /\ ty = MAAP_DEFEND
  | PDefSend => defending /\ whole
  | PUnlock => defending
  end.

Definition ann_inv (mac : list Z) (pc : ann_pc) (i : maap_info_t) : Prop :=
  match pc with
  | APrep2 => message_type (data (ethpkt i)) = MAAP_ANNOUNCE
  | ASend => frame_ok mac (ethpkt i)
  | ADead => False
  | _ => True
  end.

(** At most one announce thread, alive only while the address is held. *)
Definition anns_inv (mac : list Z) (s : tstate) : Prop :=
  match tanns s with
  | [] => tlock s = if main_crit (tmain s) then Some TMain else None
  | [a] => acancel a = false
           /\ (state (tinfo s) = DEFEND \/ tmain s = PShm)
           /\ ann_inv mac (apc a) (tinfo s)
           /\ main_crit (tmain s) && ann_crit (apc a) = false
           /\ tlock s = (if main_crit (tmain s) then Some TMain
                         else if ann_crit (apc a) then Some (TAnn 0) else None)
  | _ => False
  end.

Record tinv (mac : list Z) (s : tstate) : Prop := {
  ti_src : src_mac (tinfo s) = mac;
  ti_sub : subtype (data (ethpkt (tinfo s))) = MAAP_SUBTYPE;
  ti_main : main_inv mac (tmain s) (tinfo s);
  ti_anns : anns_inv mac s;
  ti_sent : Forall (frame_ok mac) (tsent s);
  ti_shm : Forall in_maap_range (tshm s)
}.

(** Some announce thread was cancelled. *)
Definition cancelled (s : tstate) : Prop :=
  exists k a, tanns s !! k = Some a /\ acancel a = true.

Lemma prep_end_eq ty i :
  message_type (data (ethpkt i)) = ty -> prep_end ty i = prepare_ethpkt i ty.
Proof.
  intros <-. rewrite <- prep_split. f_equal. by destruct i as [[? []]].
Qed.

Lemma tinit_inv mac : tinv mac (tinit mac).
Proof. by split. Qed.

(** The record fields no step of either thread writes. *)
Lemma prep_fields ty i :
  let keep f := f (prep_begin ty i) = f i /\ f (prep_end ty i) = f i in
  keep src_mac /\ keep requested_mac_add /\ keep acquired_mac_add
  /\ keep conflict_mac_add
  /\ (state (prep_begin ty i) = state i /\ state (prep_end ty i) = state i)
  /\ (subtype (data (ethpkt (prep_begin ty i))) = subtype (data (ethpkt i))
      /\ subtype (data (ethpkt (prep_end ty i))) = subtype (data (ethpkt i)))
  /\ message_type (data (ethpkt (prep_begin ty i))) = ty.
Proof. unfold prep_end. repeat case_match; split_and!; done. Qed.

(** While the packet may be written by the main thread alone, no announce thread
    is inside its critical section. *)
Lemma anns_none mac s :
  anns_inv mac s -> state (tinfo s) <> DEFEND -> tmain s <> PShm -> tanns s = [].
Proof.
  unfold anns_inv. destruct (tanns s) as [|a [|]]; [done| |done].
  intros (_ & [?|?] & _); done.
Qed.

(** Moving the main thread outside its critical section keeps the announce
    thread's part, if the packet and the state stay. *)
Lemma anns_goto mac s pc i :
  anns_inv mac s -> main_crit (tmain s) = false -> main_crit pc = false ->
  ethpkt i = ethpkt (tinfo s) ->
  (state i = state (tinfo s) /\ tmain s <> PShm \/ tanns s = []) ->
  anns_inv mac (goto pc i s).
Proof.
  unfold anns_inv. cbn [tanns tlock tmain tinfo goto]. intros H Hc Hc' He Hs.
  rewrite Hc in H. rewrite Hc'. destruct (tanns s) as [|a [|]]; [done| |done].
  destruct H as (H1 & H2 & H3 & H4 & H5). destruct Hs as [[Hs Hp]|]; [|done].
  split; [done|]. rewrite Hs. split; [destruct H2; [by left | done]|].
  split; [|done]. by destruct (apc a); cbn in *; rewrite ?He.
Qed.

Definition input_ok (inp : tinput) : Prop :=
  match inp with IRecv o => mac_len o | _ => True end.

(** The main thread in DEFEND: the mutex keeps the announce thread out. *)
Lemma anns_locked mac s pc i :
  anns_inv mac s -> main_crit (tmain s) = true -> main_crit pc = true ->
  state i = DEFEND -> anns_inv mac (goto pc i s).
Proof.
  unfold anns_inv. cbn [tanns tlock tmain tinfo goto]. intros H Hc Hc' Hs.
  rewrite Hc in H. rewrite Hc'. destruct (tanns s) as [|a [|]]; [done| |done].
  destruct H as (H1 & H2 & H3 & H4 & H5). cbn in H4.
  split_and!; auto. by destruct (apc a).
Qed.

Lemma main_defend_inv mac inp s s' :
  tinv mac s -> input_ok inp -> tmain s = PTop -> state (tinfo s) = DEFEND ->
  main_step inp s = Some s' -> cancelled s' \/ tinv mac s'.
Proof.
  intros [Hsrc Hsub Hm Ha Hsent Hshm] Hin Hpc Hst. unfold main_step.
  rewrite Hpc in *. rewrite Hst. destruct Hm as [_ Hheld]. specialize (Hheld Hst).
  assert (Hmove : forall pc i, main_crit pc = false -> ethpkt i = ethpkt (tinfo s) ->
    state i = DEFEND -> src_mac i = mac -> main_inv mac pc i -> tinv mac (goto pc i s)).
  { intros pc i Hc He Hd Hsm Hmi. split; cbn [tinfo tmain tsent tshm goto]; try done.
    - by rewrite He.
    - apply anns_goto; auto; [by rewrite Hpc | left]. by rewrite Hd, Hst, Hpc. }
  assert (Htop : forall pkt, tinv mac (goto PTop (set_rx pkt (tinfo s)) s)).
  { intros pkt. apply Hmove; try done. cbn. split; [congruence | done]. }
  destruct inp as [| |[pkt|]]; [done|done| |].
  2: { intros [= <-]. right. by apply Htop. }
  cbn [input_ok mac_len] in Hin. cbn [acquired_mac_add set_rx].
  destruct (compare_mac _ _) eqn:Hc; [|intros [= <-]; right; by apply Htop].
  destruct Hheld as [Hr Heq].
  apply compare_mac_spec in Hc; [|done | by apply in_range_len].
  destruct (_ =? MAAP_PROBE).
  { intros [= <-]. right. apply Hmove; try done. split; [by split|]. cbn. congruence. }
  destruct (_ || _); intros [= <-]; [|right; by apply Htop].
  unfold anns_inv in Ha. destruct (tanns s) as [|a [|]] eqn:Hl; [| |done].
  - right. unfold destroy_thread. cbn [goto tanns]. rewrite Hl. cbn [length alter].
    split; cbn; try done. unfold anns_inv. cbn. by rewrite Ha, Hpc.
  - left. exists 0%nat, (Ann (apc a) true). unfold destroy_thread. cbn. by rewrite Hl.
Qed.

(** The main thread alone: before the first announce thread exists. *)
Lemma main_alone_inv mac inp s s' :
  tinv mac s -> input_ok inp -> main_crit (tmain s) = false ->
  state (tinfo s) <> DEFEND -> tmain s <> PShm ->
  main_step inp s = Some s' -> tinv mac s'.
Proof.
  intros [Hsrc Hsub Hm Ha Hsent Hshm] Hin Hc Hst Hp.
  pose proof (anns_none _ _ Ha Hst Hp) as Hn.
  assert (Hmove : forall pc i l, main_crit pc = false -> src_mac i = mac ->
    subtype (data (ethpkt i)) = MAAP_SUBTYPE -> main_inv mac pc i ->
    Forall (frame_ok mac) l ->
    tinv mac (TState i (tlock s) pc (tanns s) (tsent s ++ l) (tshm s))).
  { intros pc i l Hc' Hsm Hs Hmi Hf. split; cbn [tinfo tmain tsent tshm]; try done.
    - unfold anns_inv in *. cbn. rewrite Hn in *. by rewrite Hc', Ha, Hc.
    - by apply Forall_app. }
  assert (Hgo : forall pc i, main_crit pc = false -> src_mac i = mac ->
    subtype (data (ethpkt i)) = MAAP_SUBTYPE -> main_inv mac pc i -> tinv mac (goto pc i s)).
  { intros pc i ????. unfold goto. rewrite <- (app_nil_r (tsent s)). by apply Hmove. }
  unfold main_step. destruct (tmain s) eqn:Hpc; cbn [main_inv] in Hm; try done.
  - destruct Hm as [Hreq _]. destruct (state (tinfo s)) eqn:E; [| |done].
    + destruct inp; [done| |done]. intros [= <-]. apply Hgo; try done.
      split; [intros _; apply generate_in_range | done].
    + destruct inp; [|done|done]. intros [= <-]. apply Hgo; try done. cbn. by split_and!; auto.
  - destruct Hm as (Hs & Hr & Hty). intros [= <-]. rewrite (prep_end_eq _ _ Hty).
    apply Hgo; try done. split_and!; try done. rewrite <- Hsrc. by apply prepare_probe.
  - destruct Hm as (Hs & Hr & Hw). destruct (_ =? 0); intros [= <-].
    + by apply Hgo.
    + apply (Hmove _ _ [_]); try done. by constructor.
  - destruct Hm as (Hs & Hr & Hw). destruct inp as [| |[pkt|]]; [done|done| |].
    + destruct (probe_conflict _ _); intros [= <-]; by apply Hgo.
    + intros [= <-]. by apply Hgo.
  - intros [= <-]. apply Hgo; try done. by destruct Hm.
  - destruct Hm as (Hs & [Hr Heq] & Hty). intros [= <-]. rewrite (prep_end_eq _ _ Hty).
    apply Hgo; try done. split; [done|]. split; [done|]. rewrite <- Hsrc.
    by apply prepare_announce.
  - destruct Hm as (Hs & Hh & Hw). intros [= <-]. apply (Hmove _ _ [_]); try done.
    by constructor.
  - intros [= <-]. split; try done. unfold anns_inv in *. cbn.
    rewrite Hn in *. cbn. rewrite Ha, Hpc. by split_and!; auto.
  - by destruct Hm as [[? _] _].
Qed.

(** The main thread while the address is held: publishing it, and the critical
    section of the DEFEND frame. *)
Lemma main_held_inv mac inp s s' :
  tinv mac s -> tmain s <> PTop -> (state (tinfo s) = DEFEND \/ tmain s = PShm) ->
  main_step inp s = Some s' -> tinv mac s'.
Proof.
  intros [Hsrc Hsub Hm Ha Hsent Hshm] Hp Hst. unfold main_step.
  destruct (tmain s) eqn:Hpc; cbn [main_inv] in Hm; try done;
    try (destruct Hm as [? _]; destruct Hst; congruence).
  - destruct Hm as [Hs [Hr Heq]]. intros [= <-]. split; cbn; try done.
    + unfold anns_inv in *. cbn in *. rewrite Hpc in Ha.
      destruct (tanns s) as [|a [|]]; [done| |done].
      destruct Ha as (H1 & _ & H3 & H4 & H5). split_and!; auto.
    + apply Forall_app. by repeat constructor.
  - destruct Hm as [Hd Hcf]. unfold Lock.
    destruct (tlock s) eqn:Hl; [done|]. intros [= <-]. split; cbn; try done.
    unfold anns_inv in *. rewrite Hpc, Hl in Ha. cbn in *.
    destruct (tanns s) as [|a [|]]; [done| |done].
    destruct Ha as (H1 & H2 & H3 & _ & H5). split_and!; auto; [left; apply Hd|].
    by destruct (ann_crit _).
  - destruct Hm as [[Hd Hh] Hcf]. intros [= <-]. split; cbn; try done.
    apply anns_locked; [done | by rewrite Hpc | done | done].
  - destruct Hm as ([Hd [Hr Heq]] & Hcf & Hty). intros [= <-].
    rewrite (prep_end_eq _ _ Hty). split; try done.
    + split; [by split|]. cbn [tinfo goto]. rewrite <- Hsrc.
      apply prepare_defend; try done. by rewrite Heq.
    + apply anns_locked; [done | by rewrite Hpc | done | done].
  - destruct Hm as [[Hd Hh] Hw]. intros [= <-]. split; cbn; try done.
    + apply (anns_locked mac (send_packet s)); [done | by cbn; rewrite Hpc | done | done].
    + apply Forall_app. split; [done|]. by constructor.
  - destruct Hm as [Hd Hh]. intros [= <-]. split; cbn; try done.
    { split; [congruence | done]. }
    unfold anns_inv in *. rewrite Hpc in Ha. cbn in *.
    destruct (tanns s) as [|a [|]]; [done| |done].
    destruct Ha as (H1 & _ & H3 & H4 & H5). rewrite H4. auto.
Qed.

Lemma main_step_inv mac inp s s' :
  tinv mac s -> input_ok inp -> main_step inp s = Some s' -> cancelled s' \/ tinv mac s'.
Proof.
  intros Hi Hin Hst.
  assert (Hdec : state (tinfo s) = DEFEND \/ state (tinfo s) <> DEFEND)
    by (destruct (state (tinfo s)); auto).
  assert (Htop : tmain s = PTop \/ tmain s <> PTop) by (destruct (tmain s); auto).
  assert (Hshm : tmain s = PShm \/ tmain s <> PShm) by (destruct (tmain s); auto).
  destruct Hdec as [Hd|Hd], Htop as [Ht|Ht]; [by eapply main_defend_inv|..]; right.
  - eapply main_held_inv; eauto.
  - eapply main_alone_inv; eauto; rewrite Ht; done.
  - destruct Hshm as [Hp|Hp]; [eapply main_held_inv; eauto|].
    eapply main_alone_inv; eauto. destruct Hi as [_ _ Hm _ _ _].
    destruct (tmain s); try done; cbn in Hm; naive_solver.
Qed.

Lemma ann_step_inv mac k s s' :
  tinv mac s -> send_announce_step k s = Some s' -> tinv mac s'.
Proof.
  intros [Hsrc Hsub Hm Ha Hsent Hshm] Hst. unfold send_announce_step in Hst.
  unfold anns_inv in Ha. destruct (tanns s) as [|a [|]] eqn:Hl; [done| |done].
  destruct k as [|k]; [|done]. cbn [lookup list_lookup mbind option_bind] in Hst.
  destruct a as [pc c]. cbn [acancel apc] in *.
  destruct Ha as (-> & Hd & Hai & Hx & Hlk).
  (* the packet is out of the main thread's hands *)
  assert (Hmain : ann_crit pc = true -> forall i', state i' = state (tinfo s) ->
    requested_mac_add i' = requested_mac_add (tinfo s) ->
    acquired_mac_add i' = acquired_mac_add (tinfo s) ->
    conflict_mac_add i' = conflict_mac_add (tinfo s) -> main_inv mac (tmain s) i').
  { intros Hc i' E1 E2 E3 E4. rewrite Hc in Hx. unfold held in *.
    destruct (tmain s); cbn in *; unfold held in *; rewrite ?E1, ?E2, ?E3, ?E4; try done;
      destruct Hm as [Hs _], Hd as [Hd|Hd]; congruence. }
  assert (Hheld : held (tinfo s)).
  { destruct Hd as [Hd|Hd].
    - clear -Hm Hd. destruct (tmain s); cbn in Hm; tauto || (destruct Hm; congruence).
    - rewrite Hd in Hm. apply Hm. }
  destruct pc; cbn in Hx, Hlk, Hai; try done.
  - injection Hst as <-. split; try done. unfold anns_inv. cbn. rewrite Hl. cbn. auto.
  - unfold Lock in Hst. destruct (tlock s) eqn:El; [done|]. injection Hst as <-.
    split; try done. unfold anns_inv. cbn. rewrite Hl. cbn.
    destruct (main_crit (tmain s)); [done|]. auto.
  - injection Hst as <-. split; try done; [by apply Hmain|].
    unfold anns_inv. cbn. rewrite Hl. cbn. auto.
  - injection Hst as <-. rewrite (prep_end_eq _ _ Hai). split; try done; [by apply Hmain|].
    unfold anns_inv. cbn [tanns set_ann]. rewrite Hl. cbn [list_insert insert apc acancel].
    split; [done|]. split; [done|]. split; [|done].
    cbn [ann_inv tinfo]. rewrite <- Hsrc. apply prepare_announce; [done|]. apply Hheld.
  - injection Hst as <-. split; try done.
    + unfold anns_inv. cbn. rewrite Hl. cbn. auto.
    + apply Forall_app. split; [done|]. by constructor.
  - injection Hst as <-. split; try done. unfold anns_inv. cbn. rewrite Hl. cbn.
    rewrite andb_true_r in Hx. rewrite Hx. auto.
Qed.

(** Cancellation is final. *)
Lemma cancelled_step t inp s s' : tstep t inp s = Some s' -> cancelled s -> cancelled s'.
Proof.
  intros Hst (k & a & Hk & Ha). destruct t as [|j]; cbn in Hst.
  - unfold main_step in Hst.
    destruct (tmain s), (state (tinfo s)), inp as [| |[]]; cbn in Hst;
      unfold Lock in Hst; repeat case_match; simplify_eq/=;
      try by exists k, a.
    all: try (exists k, a; split; [by apply lookup_app_l_Some | done]).
    all: exists k; cbn;
      destruct (decide (k = length (tanns s) - 1)%nat) as [->|Hne];
      [rewrite list_lookup_alter_eq, Hk; by eexists
      | rewrite list_lookup_alter_ne by done; by eexists].
  - unfold send_announce_step in Hst.
    destruct (tanns s !! j) as [b|] eqn:Hj; [|done]. cbn in Hst.
    assert (Hkeep : forall pc i s0, tanns s0 = tanns s ->
      cancelled (set_ann j pc (acancel b) i s0)).
    { intros pc i s0 H0. unfold cancelled. cbn. rewrite H0.
      destruct (decide (k = j)) as [->|Hne].
      - eexists j, _. rewrite list_lookup_insert_eq by by eapply lookup_lt_Some.
        split; [done|]. cbn. congruence.
      - exists k, a. by rewrite list_lookup_insert_ne by done. }
    unfold Lock in Hst. repeat case_match; simplify_eq/=; try by apply Hkeep.
Qed.

Lemma tsteps_inv mac l : forall s s',
  Forall (fun x => input_ok x.2) l -> tsteps l s = Some s' ->
  cancelled s \/ tinv mac s -> cancelled s' \/ tinv mac s'.
Proof.
  induction l as [|[t inp] l IH]; intros s s' Hf; cbn [tsteps]; [by intros [= <-]|].
  apply Forall_cons_iff in Hf as [Hin Hf].
  destruct (tstep t inp s) as [s1|] eqn:E; [|done]. cbn. intros Hs Hinv.
  apply (IH s1 s' Hf Hs). destruct Hinv as [Hc|Hi]; [left; by eapply cancelled_step|].
  destruct t as [|k]; [by eapply main_step_inv | right; by eapply ann_step_inv].
Qed.

(** C27: as long as the daemon never cancelled an announce thread, under every
    interleaving of the two threads the mutex keeps the shared packet whole:
    every frame sent is a complete PROBE, DEFEND or ANNOUNCE of this station for
    an address of the dynamic range, only such addresses are published, and the
    two threads are never inside their critical sections together. *)
Theorem maap_frames_whole mac l s :
  Forall (fun x => input_ok x.2) l -> tsteps l (tinit mac) = Some s ->
  Forall (fun a => acancel a = false) (tanns s) ->
  Forall (frame_ok mac) (tsent s) /\ Forall in_maap_range (tshm s)
  /\ Forall (fun a => main_crit (tmain s) && ann_crit (apc a) = false) (tanns s).
Proof.
  intros Hf Hs Hc.
  destruct (tsteps_inv mac l (tinit mac) s Hf Hs (or_intror (tinit_inv mac)))
    as [(k & a & Hk & Ha)|[_ _ _ Hanns Hsent Hshm]].
  { rewrite Forall_lookup in Hc. specialize (Hc k a Hk). cbn in Hc. congruence. }
  split; [done|]. split; [done|]. unfold anns_inv in Hanns.
  destruct (tanns s) as [|a [|]]; [done| |done]. constructor; [|done]. apply Hanns.
Qed.

(** ** The sequential model is the main thread running alone *)

Definition frames (acts : list maap_action) : list ethpkt_t :=
  omap (fun a => match a with MSend p => Some p | _ => None end) acts.

Definition published (acts : list maap_action) : list (list Z) :=
  omap (fun a => match a with MShm m => Some m | _ => None end) acts.

Definition run_threads (acts : list maap_action) (anns : list ann) : list ann :=
  foldl (fun l a => match a with
    | MCreateThread => l ++ [Ann ADelay false]
    | MDestroyThread => alter (fun a => Ann (apc a) true) (length l - 1)%nat l
    | _ => l end) anns acts.

Lemma tsteps_app l1 l2 s : tsteps (l1 ++ l2) s = s ← tsteps l1 s; tsteps l2 s.
Proof.
  revert s. induction l1 as [|[t inp] l1 IH]; intros s; cbn [app tsteps]; [done|].
  destruct (tstep t inp s); cbn; auto.
Qed.

(** A run of the main thread, on the results [rxs] of its receives. *)
Definition main_run (l : list tinput) (s : tstate) : option tstate :=
  tsteps (map (pair TMain) l) s.

Lemma main_run_app l1 l2 s : main_run (l1 ++ l2) s = s ← main_run l1 s; main_run l2 s.
Proof. unfold main_run. rewrite map_app. apply tsteps_app. Qed.

Lemma main_run_cons inp l s : main_run (inp :: l) s = s ← main_step inp s; main_run l s.
Proof. done. Qed.

Lemma probe_loop_run rxs : forall count i o c i' rxs' o' k anns sent shm,
  probe_loop rxs count i o = Some (c, i', rxs', o') ->
  exists l acts, o' = o ++ acts /\ published acts = [] /\ run_threads acts anns = anns
    /\ main_run l (TState i k (PLoop count) anns sent shm)
       = Some (TState i' k (if c : bool then PTop else PLoop 0) anns (sent ++ frames acts) shm).
Proof.
  induction rxs as [|[pkt|] rxs IH]; intros count i o c i' rxs' o' k anns sent shm;
    cbn [probe_loop]; destruct (Z.eqb_spec count 0) as [->|Hne];
    try (intros [= <- <- <- <-]; exists [], []; cbn; by rewrite !app_nil_r).
  - destruct (probe_conflict pkt (set_rx pkt i)) eqn:Hc.
    { intros [= <- <- <- <-]. exists [ITick; IRecv (Some pkt)], [MSend (ethpkt i); MDelay].
      split_and!; try done. rewrite !main_run_cons. cbn.
      rewrite (proj2 (Z.eqb_neq _ _) Hne). cbn. by rewrite Hc. }
    intros Hl. destruct (IH _ _ _ _ _ _ _ k anns (sent ++ [ethpkt i]) shm Hl)
      as (l & acts & -> & Hp & Ht & Hr).
    exists (ITick :: IRecv (Some pkt) :: l), ([MSend (ethpkt i); MDelay] ++ acts).
    rewrite <- app_assoc. split_and!; try done.
    rewrite !main_run_cons. cbn. rewrite (proj2 (Z.eqb_neq _ _) Hne). cbn. rewrite Hc. cbn.
    etransitivity; [exact Hr|]. by rewrite <- app_assoc.
  - intros Hl. destruct (IH _ _ _ _ _ _ _ k anns (sent ++ [ethpkt i]) shm Hl)
      as (l & acts & -> & Hp & Ht & Hr).
    exists (ITick :: IRecv None :: l), ([MSend (ethpkt i); MDelay] ++ acts).
    rewrite <- app_assoc. split_and!; try done.
    rewrite !main_run_cons. cbn. rewrite (proj2 (Z.eqb_neq _ _) Hne). cbn.
    etransitivity; [exact Hr|]. by rewrite <- app_assoc.
Qed.

(** [acts] happened between [e] and [e'], and the main thread alone does the same. *)
Definition simulated (i : maap_info_t) (e : maap_env) (i' : maap_info_t) (e' : maap_env)
    (anns : list ann) (sent : list ethpkt_t) (shm : list (list Z)) : Prop :=
  exists l acts, out e' = out e ++ acts
    /\ main_run l (TState i None PTop anns sent shm)
       = Some (TState i' None PTop (run_threads acts anns) (sent ++ frames acts)
                 (shm ++ published acts)).

Lemma transit_probe_run i e rc i' e' anns sent shm :
  state i = PROBE -> transit_probe i e = Some (rc, i', e') ->
  simulated i e i' e' anns sent shm.
Proof.
  intros Est. unfold transit_probe. destruct (probe_loop _ _ _ _) as [[[[c i1] rxs] o]|] eqn:Hl; [|done].
  destruct (probe_loop_run _ _ _ _ _ _ _ _ None anns sent shm Hl)
    as (l & acts & -> & Hp & Ht & Hr).
  assert (Hr' : main_run ([ITick; ITick] ++ l) (TState i None PTop anns sent shm)
    = Some (TState i1 None (if c then PTop else PLoop 0) anns (sent ++ frames acts) shm)).
  { rewrite main_run_app, !main_run_cons. unfold main_step at 1. cbn [tmain tinfo].
    rewrite Est. cbn [mbind option_bind main_step tmain goto tinfo].
    exact Hr. }
  destruct c; intros [= <- <- <-]; cbn [out].
  - exists ([ITick; ITick] ++ l), acts. rewrite Hp, Ht, app_nil_r. done.
  - exists (([ITick; ITick] ++ l) ++ replicate 6 ITick), (acts ++ [MSend (ethpkt
      (prepare_ethpkt (set_acquired (requested_mac_add i1) (requested_mac_count i1) i1)
         MAAP_ANNOUNCE)); MCreateThread; MShm (requested_mac_add i1)]).
    split; [by rewrite <- app_assoc|].
    rewrite main_run_app, Hr'. cbn [mbind option_bind].
    unfold run_threads, frames, published in *.
    rewrite foldl_app, Ht, !omap_app, Hp, app_assoc. done.
Qed.

Lemma transit_defend_run i e rc i' e' anns sent shm :
  state i = DEFEND -> transit_defend i e = Some (rc, i', e') ->
  simulated i e i' e' anns sent shm.
Proof.
  intros Est. unfold transit_defend. destruct (rx e) as [|[pkt|] rxs]; [done| |].
  2: { intros [= <- <- <-]. exists [IRecv None], []. rewrite !app_nil_r. split; [done|].
       rewrite main_run_cons. cbn. rewrite Est. cbn. by rewrite ?app_nil_r. }
  intros H.
  assert (Hone : forall s', main_step (IRecv (Some pkt)) (TState i None PTop anns sent shm)
    = Some s' -> main_run [IRecv (Some pkt)] (TState i None PTop anns sent shm) = Some s').
  { intros s' Hs. rewrite main_run_cons, Hs. done. }
  unfold main_step in Hone. cbn [tmain tinfo] in Hone. rewrite Est in Hone. revert H Hone.
  destruct (compare_mac _ _) eqn:Hc; [destruct (_ =? MAAP_PROBE) eqn:Hty;
    [|destruct (_ || _)]|]; intros [= <- <- <-] Hone; cbn [out].
  - exists (IRecv (Some pkt) :: replicate 5 ITick). eexists. split; [done|].
    rewrite main_run_cons. unfold main_step at 1. cbn [tmain tinfo].
    rewrite Est, Hc, Hty. cbn. by rewrite app_nil_r.
  - eexists _, _. split; [done|]. rewrite (Hone _ eq_refl).
    cbn. by rewrite !app_nil_r.
  - exists [IRecv (Some pkt)], []. rewrite app_nil_r. split; [done|].
    rewrite (Hone _ eq_refl). cbn. by rewrite !app_nil_r.
  - exists [IRecv (Some pkt)], []. rewrite app_nil_r. split; [done|].
    rewrite (Hone _ eq_refl). cbn. by rewrite !app_nil_r.
Qed.

(** Refinement: every call of the sequential [state_transit] is a run of the
    main thread of the interleaved model from the top of the function back to
    it, with the mutex free before and after, the same record, the same frames
    sent, addresses published and threads created and cancelled. *)
Theorem maap_transit_refines i e rc i' e' anns sent shm :
  state_transit i e = Some (rc, i', e') -> simulated i e i' e' anns sent shm.
Proof.
  unfold state_transit. destruct (state i) eqn:Est;
    [|by apply transit_probe_run | by apply transit_defend_run].
  unfold transit_initial. destruct (rands e) as [|r rs]; [done|]. intros [= <- <- <-].
  exists [IRand r], []. rewrite !app_nil_r. split; [done|].
  rewrite main_run_cons. cbn. rewrite Est. cbn. by rewrite ?app_nil_r.
Qed.

(** ** Cancelling an announce thread *)

(** The main thread waits for a mutex that a cancelled thread took with it; the
    second announce thread can only join the wait. *)
Definition stuck (sent : list ethpkt_t) (s : tstate) : Prop :=
  tmain s = PLock /\ tlock s = Some (TAnn 0) /\ tsent s = sent
  /\ exists pc, tanns s = [Ann ADead true; Ann pc false] /\ (pc = ADelay \/ pc = ALock).

Lemma stuck_step sent t inp s s' : stuck sent s -> tstep t inp s = Some s' -> stuck sent s'.
Proof.
  intros (Hm & Hl & Hs & pc & Ha & Hpc). destruct t as [|[|[|k]]]; cbn [tstep].
  - unfold main_step, Lock. by rewrite Hm, Hl.
  - unfold send_announce_step. by rewrite Ha.
  - unfold send_announce_step. rewrite Ha. cbn. destruct Hpc as [-> | ->].
    + intros [= <-]. split_and!; try done. exists ALock. cbn. rewrite Ha. auto.
    + unfold Lock. by rewrite Hl.
  - unfold send_announce_step. by rewrite Ha.
Qed.

Lemma stuck_steps sent l : forall s s', stuck sent s -> tsteps l s = Some s' -> stuck sent s'.
Proof.
  induction l as [|[t inp] l IH]; intros s s' Hs; cbn [tsteps]; [by intros [= <-]|].
  destruct (tstep t inp s) as [s1|] eqn:E; [|done]. cbn. intros Hr.
  eapply IH; [|exact Hr]. by eapply stuck_step.
Qed.

(** A frame of station B on an address. *)
Definition frame_from_B (ty : Z) (mac : list Z) : ethpkt_t :=
  EthPkt (EthHedr get_multicast_mac_adr mac_B (hton_s ETH_TYPE))
    (MaapPdu MAAP_SUBTYPE 1 ty 0 0 (hton_s MAAP_VER_DATA_LEN) 0 mac (hton_s 1) zero_mac 0).

(** The main thread acquires the address [rand] selects. *)
Definition acquire (r : Z) : list (tid * tinput) :=
  map (pair TMain) ([IRand r; ITick; ITick] ++
    flat_map (fun _ => [ITick; IRecv None]) [1; 2; 3] ++ replicate 6 ITick).

Definition takeover : list (tid * tinput) :=
  acquire 0x0102 ++ replicate 4 (TAnn 0, ITick)
  ++ [(TMain, IRecv (Some (frame_from_B MAAP_ANNOUNCE [0x91; 0xE0; 0xF0; 0; 1; 2])))]
  ++ [(TAnn 0, ITick)] ++ acquire 0x0203
  ++ [(TMain, IRecv (Some (frame_from_B MAAP_PROBE [0x91; 0xE0; 0xF0; 0; 2; 3])))].

(** Cancelling the announce thread can deadlock the daemon: [destroy_thread]
    cancels it without waiting, and a thread cancelled in [sendto] dies holding
    the mutex.  There is a schedule in which the daemon loses its address, gets
    another, and on the next PROBE for it waits for that mutex; from there no
    schedule sends another frame, so the new address is never defended or
    announced again. *)
Theorem maap_cancel_deadlock :
  exists s, tsteps takeover (tinit mac_A) = Some s
    /\ state (tinfo s) = DEFEND
    /\ acquired_mac_add (tinfo s) = [0x91; 0xE0; 0xF0; 0x00; 0x02; 0x03]
    /\ forall l s', tsteps l s = Some s' -> tmain s' = PLock /\ tsent s' = tsent s.
Proof.
  destruct (tsteps takeover (tinit mac_A)) as [s|] eqn:E; [|by vm_compute in E].
  exists s. vm_compute in E. injection E as <-.
  split; [done|]. split; [done|]. split; [done|]. intros l s' Hl.
  match type of Hl with tsteps _ ?s = _ => assert (Hst : stuck (tsent s) s) end.
  { split_and!; try done. exists ADelay. auto. }
  destruct (stuck_steps _ _ _ _ Hst Hl) as (Hm & _ & Hs & _). by split.
Qed.

(** ** Witnesses *)

(** The announce thread prepares its frame while a DEFEND is pending. *)
Definition contention : list (tid * tinput) :=
  acquire 0x0102 ++ replicate 3 (TAnn 0, ITick)
  ++ [(TMain, IRecv (Some (frame_from_B MAAP_PROBE [0x91; 0xE0; 0xF0; 0; 1; 2])))]
  ++ replicate 3 (TAnn 0, ITick) ++ replicate 5 (TMain, ITick).

Lemma maap_frames_whole_witness :
  exists s, tsteps contention (tinit mac_A) = Some s
    /\ map (fun p => message_type (data p)) (tsent s)
       = [MAAP_PROBE; MAAP_PROBE; MAAP_PROBE; MAAP_ANNOUNCE; MAAP_ANNOUNCE; MAAP_DEFEND]
    /\ Forall (frame_ok mac_A) (tsent s).
Proof.
  destruct (tsteps contention (tinit mac_A)) as [s|] eqn:E; [|by vm_compute in E].
  assert (Hf : Forall (fun x => input_ok x.2) contention).
  { vm_compute. repeat constructor. }
  assert (Hc : Forall (fun a => acancel a = false) (tanns s)).
  { vm_compute in E. injection E as <-. by repeat constructor. }
  destruct (maap_frames_whole mac_A contention s Hf E Hc) as [Hs _].
  exists s. split; [done|]. split; [|exact Hs]. vm_compute in E. by injection E as <-.
Defined.

Lemma maap_transit_refines_witness :
  exists l acts s', main_run l (TState station_B None PTop [] [] []) = Some s'
    /\ tshm s' = [[0x91; 0xE0; 0xF0; 0x00; 0x01; 0x02]] /\ frames acts = tsent s'.
Proof.
  destruct (state_transit station_B quiet_env) as [[[rc i'] e']|] eqn:E; [|by vm_compute in E].
  destruct (maap_transit_refines station_B quiet_env rc i' e' [] [] [] E)
    as (l & acts & Ho & Hr).
  exists l, acts. eexists. split; [exact Hr|]. split; [|done].
  vm_compute in E. injection E as _ _ <-. cbn in Ho. subst acts. done.
Defined.
