(* ===== verification/AvtpTime.v ===== *)
(** * AVTP time (lib/avtp_pipeline/avtp/openavb_avtp_time.c) and the clock of
    the platform layer (platform/Linux/openavb_time_osal.c)

    An [avtp_time] is a 64-bit number of nanoseconds with two flags.  On the wire
    only its low 32 bits travel, so the receiver rebuilds the upper half from its
    own clock ([openavbAvtpTimeSetToTimestamp]); [timestamp_rebuilt] says in
    which window around the clock that is exact.  A [NULL] pointer to a time is
    [None]. *)

From S2P Require Import Prelude.
From Stdlib Require Import ZArith Lia.
From stdpp Require Import base tactics list option.
Open Scope Z_scope.

(** ** Machine integers of the library *)

Definition u32 (z : Z) : Z := z mod 4294967296.
Definition u64 (z : Z) : Z := z mod 18446744073709551616.
Definition s32 (z : Z) : Z := (z + 2147483648) mod 4294967296 - 2147483648.
Definition s64 (z : Z) : Z :=
  (z + 9223372036854775808) mod 18446744073709551616 - 9223372036854775808.

Definition NANOSECONDS_PER_SECOND : Z := 1000000000.
Definition NANOSECONDS_PER_USEC : Z := 1000.
Definition MICROSECONDS_PER_SECOND : Z := 1000000.

Lemma u32_range z : 0 <= u32 z < 4294967296.
Proof. by apply Z.mod_pos_bound. Qed.
Lemma u32_id z : 0 <= z < 4294967296 -> u32 z = z.
Proof. apply Z.mod_small. Qed.
Lemma u64_range z : 0 <= u64 z < 18446744073709551616.
Proof. by apply Z.mod_pos_bound. Qed.
Lemma u64_id z : 0 <= z < 18446744073709551616 -> u64 z = z.
Proof. apply Z.mod_small. Qed.
Lemma s32_id z : -2147483648 <= z < 2147483648 -> s32 z = z.
Proof. intros. unfold s32. rewrite Z.mod_small; lia. Qed.

(** ** The platform *)

Record timespec := Timespec { tv_sec : Z; tv_nsec : Z }.

(** Answers of the platform to the n-th call: the gPTP time in nanoseconds
    ([x_getPTPTime], [None] when the daemon's shared memory cannot be read), the
    real-time clock ([clock_gettime], [None] when it fails), [calloc], and what an uninitialised
    [U64] holds. *)
Class Platform := {
  ptp_time : nat -> option Z;
  sys_time : nat -> option timespec;
  calloc_ok : nat -> bool;
  junk64 : nat -> Z
}.

Inductive openavb_clockId_t :=
| OPENAVB_CLOCK_REALTIME
| OPENAVB_CLOCK_MONOTONIC
| OPENAVB_TIMER_CLOCK
| OPENAVB_CLOCK_WALLTIME.

Definition osalClockGettime {pf : Platform} (id : openavb_clockId_t) (n : nat)
  : option timespec :=
  match id with
  | OPENAVB_CLOCK_WALLTIME =>
      timeNsec ← ptp_time n;
      Some (Timespec (u64 timeNsec / NANOSECONDS_PER_SECOND)
                     (u64 timeNsec mod NANOSECONDS_PER_SECOND))
  | _ => sys_time n
  end.

Definition osalClockGettime64 {pf : Platform} (id : openavb_clockId_t) (n : nat)
  : option Z :=
  match id with
  | OPENAVB_CLOCK_WALLTIME => u64 <$> ptp_time n
  | _ =>
      getTime ← sys_time n;
      Some (u64 (u64 (u64 (tv_sec getTime) * NANOSECONDS_PER_SECOND)
                 + u64 (tv_nsec getTime)))
  end.

(** ** AVTP times *)

Record avtp_time := AvtpTime {
  timeNsec : Z;
  maxLatencyNsec : Z;
  bTimestampValid : bool;
  bTimestampUncertain : bool
}.

#[export] Instance avtp_time_eq_dec : EqDecision avtp_time.
Proof. solve_decision. Defined.

Definition with_ns (ns : Z) (t : avtp_time) : avtp_time :=
  AvtpTime ns (maxLatencyNsec t) (bTimestampValid t) (bTimestampUncertain t).
Definition with_flags (v u : bool) (t : avtp_time) : avtp_time :=
  AvtpTime (timeNsec t) (maxLatencyNsec t) v u.

Definition x_getNsTime (tm : timespec) : Z :=
  u64 (u64 (u64 (tv_sec tm) * NANOSECONDS_PER_SECOND) + u64 (tv_nsec tm)).

Definition x_getTimestamp (timeNsec : Z) : Z := Z.land timeNsec 0xFFFFFFFF.

Definition openavbAvtpTimeCreate {pf : Platform} (maxLatencyUsec : Z) (n : nat)
  : option avtp_time :=
  if calloc_ok n
  then Some (AvtpTime 0 (u64 (maxLatencyUsec * NANOSECONDS_PER_USEC)) false false)
  else None.

Definition openavbAvtpTimeAddUSec (t : option avtp_time) (uSec : Z) : option avtp_time :=
  (fun t => with_ns (u64 (timeNsec t + uSec * NANOSECONDS_PER_USEC)) t) <$> t.
Definition openavbAvtpTimeAddNSec (t : option avtp_time) (nSec : Z) : option avtp_time :=
  (fun t => with_ns (u64 (timeNsec t + nSec)) t) <$> t.
Definition openavbAvtpTimeSubUSec (t : option avtp_time) (uSec : Z) : option avtp_time :=
  (fun t => with_ns (u64 (timeNsec t - uSec * NANOSECONDS_PER_USEC)) t) <$> t.
Definition openavbAvtpTimeSubNSec (t : option avtp_time) (nSec : Z) : option avtp_time :=
  (fun t => with_ns (u64 (timeNsec t - nSec)) t) <$> t.

Definition openavbAvtpTimeSetToWallTime {pf : Platform} (t : option avtp_time) (n : nat)
  : option avtp_time :=
  (fun t => match osalClockGettime OPENAVB_CLOCK_WALLTIME n with
            | Some tmNow => with_flags true false (with_ns (x_getNsTime tmNow) t)
            | None => with_flags false false t
            end) <$> t.

Definition openavbAvtpTimeSetToSystemTime {pf : Platform} (t : option avtp_time) (n : nat)
  : option avtp_time :=
  (fun t =>
     let tmNow := default (Timespec 0 0) (osalClockGettime OPENAVB_CLOCK_REALTIME n) in
     with_flags (negb ((tv_sec tmNow =? 0) && (tv_nsec tmNow =? 0))) false
       (with_ns (x_getNsTime tmNow) t)) <$> t.

Definition OPENAVB_AVTP_TIME_MAX_TS_DIFF : Z := 0x7FFFFFFF.

(** The nanosecond time that [timestamp] stands for, seen at [nsNow]. *)
Definition timestamp_near (nsNow timestamp : Z) : Z :=
  let tsNow := x_getTimestamp nsNow in
  let delta :=
    if tsNow <? timestamp then timestamp - tsNow
    else if timestamp <? tsNow then u32 (timestamp + (0x100000000 - tsNow))
    else 0 in
  if delta <? OPENAVB_AVTP_TIME_MAX_TS_DIFF
  then u64 (nsNow + delta)
  else u64 (nsNow - (0x100000000 - delta)).

Definition openavbAvtpTimeSetToTimestamp {pf : Platform} (t : option avtp_time)
  (timestamp : Z) (n : nat) : option avtp_time :=
  (fun t => match osalClockGettime OPENAVB_CLOCK_WALLTIME n with
            | Some tmNow =>
                with_flags true false (with_ns (timestamp_near (x_getNsTime tmNow) timestamp) t)
            | None => with_flags false true t
            end) <$> t.

Definition openavbAvtpTimeSetToU64Timestamp (t : option avtp_time) (timestamp : Z)
  : option avtp_time :=
  (fun t => with_flags true false (with_ns timestamp t)) <$> t.
Definition openavbAvtpTimeSetToTimestampNS (t : option avtp_time) (timeNS : Z)
  : option avtp_time :=
  (fun t => with_flags true false (with_ns timeNS t)) <$> t.

Definition openavbAvtpTimeSetToTimespec (t : option avtp_time) (timestamp : timespec)
  : option avtp_time :=
  (fun t => if (tv_sec timestamp =? 0) && (tv_nsec timestamp =? 0)
            then with_flags false true t
            else with_flags true false (with_ns (x_getNsTime timestamp) t)) <$> t.

Definition openavbAvtpTimeSetTimestampValid (t : option avtp_time) (v : bool)
  : option avtp_time := (fun t => with_flags v (bTimestampUncertain t) t) <$> t.
Definition openavbAvtpTimeSetTimestampUncertain (t : option avtp_time) (u : bool)
  : option avtp_time := (fun t => with_flags (bTimestampValid t) u t) <$> t.

Definition openavbAvtpTimeGetAvtpTimestamp (t : option avtp_time) : Z :=
  match t with Some t => x_getTimestamp (timeNsec t) | None => 0 end.
Definition openavbAvtpTimeGetAvtpTimeNS (t : option avtp_time) : Z :=
  match t with Some t => timeNsec t | None => 0 end.
Definition openavbAvtpTimeTimestampIsValid (t : option avtp_time) : bool :=
  match t with Some t => bTimestampValid t | None => false end.
Definition openavbAvtpTimeTimestampIsUncertain (t : option avtp_time) : bool :=
  match t with Some t => bTimestampUncertain t | None => true end.

Definition openavbAvtpTimeIsPastTime (t : option avtp_time) (nSecTime : Z) : bool :=
  match t with
  | None => true
  | Some t =>
      if negb (bTimestampValid t) || bTimestampUncertain t then true
      else if timeNsec t <=? nSecTime then true
      else if u64 (nSecTime + maxLatencyNsec t) <? timeNsec t then true
      else false
  end.

Definition openavbAvtpTimeIsPast {pf : Platform} (t : option avtp_time) (n : nat) : bool :=
  match t with
  | None => true
  | Some t =>
      if negb (bTimestampValid t) || bTimestampUncertain t then true
      else match osalClockGettime OPENAVB_CLOCK_WALLTIME n with
           | Some tmNow =>
               let nsNow := x_getNsTime tmNow in
               if timeNsec t <=? nsNow then true
               else if u64 (nsNow + maxLatencyNsec t) <? timeNsec t then true
               else false
           | None => true
           end
  end.

(** [Some usec] is the return value [TRUE] with [*pUsecTill] set. *)
Definition openavbAvtpTimeUsecTill {pf : Platform} (t : option avtp_time) (n : nat)
  : option Z :=
  match t with
  | None => None
  | Some t =>
      if bTimestampValid t && negb (bTimestampUncertain t) then
        match osalClockGettime OPENAVB_CLOCK_WALLTIME n with
        | Some tmNow =>
            let nsNow := x_getNsTime tmNow in
            if nsNow <=? timeNsec t then
              let usecTill := u32 ((timeNsec t - nsNow) / NANOSECONDS_PER_USEC) in
              if usecTill <=? MICROSECONDS_PER_SECOND * 5 then Some usecTill else None
            else Some 0
        | None => Some 0
        end
      else Some 0
  end.

Definition openavbAvtpTimeUsecDelta {pf : Platform} (t : option avtp_time) (n : nat) : Z :=
  match t with
  | None => 0
  | Some t =>
      if bTimestampValid t && negb (bTimestampUncertain t) then
        match osalClockGettime OPENAVB_CLOCK_WALLTIME n with
        | Some tmNow =>
            s32 (Z.quot (s64 (timeNsec t - x_getNsTime tmNow)) NANOSECONDS_PER_USEC)
        | None => 0
        end
      else 0
  end.

(** ** Properties *)

Lemma x_getTimestamp_mod z : x_getTimestamp z = u32 z.
Proof. apply (Z.land_ones z 32). lia. Qed.

(** A wall-clock reading is the gPTP time. *)
Lemma walltime_ns {pf : Platform} n :
  x_getNsTime <$> osalClockGettime OPENAVB_CLOCK_WALLTIME n
  = osalClockGettime64 OPENAVB_CLOCK_WALLTIME n.
Proof.
  unfold osalClockGettime, osalClockGettime64. destruct (ptp_time n) as [t|]; [|done]. cbn.
  f_equal. unfold x_getNsTime. cbn [tv_sec tv_nsec].
  pose proof (u64_range t). unfold NANOSECONDS_PER_SECOND.
  pose proof (Z.div_mod (u64 t) 1000000000 ltac:(lia)).
  pose proof (Z.mod_pos_bound (u64 t) 1000000000 ltac:(lia)).
  assert (0 <= u64 t / 1000000000) by (apply Z.div_pos; lia).
  rewrite (u64_id (u64 t / _)), (u64_id (u64 t mod _)), (u64_id (_ * _)) by lia.
  rewrite Z.mul_comm, <- H0. by rewrite u64_id.
Qed.

(** [delta] of the code is the distance from the clock to the timestamp on the
    32-bit circle. *)
Lemma timestamp_delta nsNow timestamp :
  0 <= timestamp < 4294967296 ->
  (if x_getTimestamp nsNow <? timestamp then timestamp - x_getTimestamp nsNow
   else if timestamp <? x_getTimestamp nsNow
        then u32 (timestamp + (0x100000000 - x_getTimestamp nsNow)) else 0)
  = u32 (timestamp - nsNow).
Proof.
  intros Ht. rewrite x_getTimestamp_mod. unfold u32.
  pose proof (Z.mod_pos_bound nsNow 4294967296 ltac:(lia)).
  repeat btest; zdm.
Qed.

(** Rebuilding is exact in a window of 2^32 ns around the clock: from 2^31 + 1 ns
    before it to 2^31 - 2 ns after it. *)
Lemma timestamp_rebuilt nsNow t :
  0 <= t < 18446744073709551616 -> -2147483649 <= t - nsNow < 2147483647 ->
  timestamp_near nsNow (x_getTimestamp t) = t.
Proof.
  intros Ht Hw. unfold timestamp_near. cbv zeta.
  rewrite (x_getTimestamp_mod t), timestamp_delta by apply u32_range.
  replace (u32 (u32 t - nsNow)) with (u32 (t - nsNow)) by (unfold u32; zdm).
  unfold OPENAVB_AVTP_TIME_MAX_TS_DIFF.
  assert (u32 (t - nsNow) = t - nsNow /\ 0 <= t - nsNow
          \/ u32 (t - nsNow) = t - nsNow + 4294967296 /\ t - nsNow < 0) as [[-> ?]|[-> ?]]
    by (unfold u32; zdm); btest; try lia; rewrite u64_id; lia.
Qed.

(** Whatever the distance, the result carries the timestamp and lies in the
    window. *)
Lemma timestamp_near_congruent nsNow timestamp :
  0 <= timestamp < 4294967296 ->
  4294967296 <= nsNow < 18446744073709551616 - 4294967296 ->
  x_getTimestamp (timestamp_near nsNow timestamp) = timestamp
  /\ -2147483649 <= timestamp_near nsNow timestamp - nsNow < 2147483647.
Proof.
  intros Ht Hn. unfold timestamp_near. cbv zeta.
  rewrite timestamp_delta by done. rewrite x_getTimestamp_mod.
  pose proof (u32_range (timestamp - nsNow)). unfold OPENAVB_AVTP_TIME_MAX_TS_DIFF.
  btest; rewrite u64_id by lia; unfold u32 in *; split; zdm.
Qed.
