(* ===== verification/MediaQ.v ===== *)
(** * The media queue (lib/avtp_pipeline/mediaq/openavb_mediaq.c)

    A ring of preallocated items between an interface module and a mapping
    module.  [q_head] is the next item to be filled and [q_tail] the next one to
    be pulled; -1 stands for "none" (queue full, queue empty).  The functions run
    in the monad [mqM]: they thread the queue, the index of the next platform
    call and the operations on the mutex, and fault where the C code would index
    outside the item array or not terminate. *)

From S2P Require Import Prelude AvtpTime.
From Stdlib Require Import ZArith Lia.
From stdpp Require Import base tactics list option.
Open Scope Z_scope.

(** ** Data *)

Record media_q_item := MediaQItem {
  pAvtpTime : option avtp_time;
  pPubData : option (list Z);
  readIdx : Z;
  dataLen : Z;
  itemSize : Z;
  taken : bool;
  pPubMapData : option (list Z);
  pPvtMapData : option (list Z);
  pPvtIntfData : option (list Z)
}.

#[export] Instance media_q_item_eq_dec : EqDecision media_q_item.
Proof. solve_decision. Defined.

(** What [calloc] gives. *)
Definition zero_item : media_q_item := MediaQItem None None 0 0 0 false None None None.
#[export] Instance media_q_item_inhabited : Inhabited media_q_item := populate zero_item.

Record media_q_info := MediaQInfo {
  itemCount : Z;
  q_itemSize : Z;
  pItems : list media_q_item;   (* NULL is the empty list *)
  q_head : Z;
  headLocked : bool;
  q_tail : Z;
  tailLocked : bool;
  firstFuture : bool;
  maxLatencyUsec : Z;
  threadSafeOn : bool;
  maxStaleTailUsec : Z
}.

Definition with_items l i :=
  MediaQInfo (itemCount i) (q_itemSize i) l (q_head i) (headLocked i) (q_tail i)
    (tailLocked i) (firstFuture i) (maxLatencyUsec i) (threadSafeOn i) (maxStaleTailUsec i).
Definition with_head h i :=
  MediaQInfo (itemCount i) (q_itemSize i) (pItems i) h (headLocked i) (q_tail i)
    (tailLocked i) (firstFuture i) (maxLatencyUsec i) (threadSafeOn i) (maxStaleTailUsec i).
Definition with_tail t i :=
  MediaQInfo (itemCount i) (q_itemSize i) (pItems i) (q_head i) (headLocked i) t
    (tailLocked i) (firstFuture i) (maxLatencyUsec i) (threadSafeOn i) (maxStaleTailUsec i).
Definition with_headLocked b i :=
  MediaQInfo (itemCount i) (q_itemSize i) (pItems i) (q_head i) b (q_tail i)
    (tailLocked i) (firstFuture i) (maxLatencyUsec i) (threadSafeOn i) (maxStaleTailUsec i).
Definition with_tailLocked b i :=
  MediaQInfo (itemCount i) (q_itemSize i) (pItems i) (q_head i) (headLocked i) (q_tail i)
    b (firstFuture i) (maxLatencyUsec i) (threadSafeOn i) (maxStaleTailUsec i).

Definition clear_read (a : media_q_item) : media_q_item :=
  MediaQItem (pAvtpTime a) (pPubData a) 0 (dataLen a) (itemSize a) (taken a)
    (pPubMapData a) (pPvtMapData a) (pPvtIntfData a).
Definition clear_data (a : media_q_item) : media_q_item :=
  MediaQItem (pAvtpTime a) (pPubData a) 0 0 (itemSize a) (taken a)
    (pPubMapData a) (pPvtMapData a) (pPvtIntfData a).
Definition set_taken b (a : media_q_item) : media_q_item :=
  MediaQItem (pAvtpTime a) (pPubData a) (readIdx a) (dataLen a) (itemSize a) b
    (pPubMapData a) (pPvtMapData a) (pPvtIntfData a).

(** ** The monad *)

Inductive mutex_op := MqLock | MqUnlock.

(** The queue ([None]: the queue or its private data is [NULL]), the number of
    platform calls made and the history of the mutex. *)
Record mq_st := MqSt {
  mq : option media_q_info;
  mq_tick : nat;
  mq_mutex : list mutex_op
}.

Definition mqM (A : Type) : Type := mq_st -> res (A * mq_st).

#[export] Instance mqM_ret : MRet mqM := fun A a s => Ret (a, s).
#[export] Instance mqM_bind : MBind mqM := fun A B f m s =>
  '(a, s) ← m s; f a s.

Definition mq_lift {A} (m : res A) : mqM A := fun s => a ← m; Ret (a, s).
Definition mq_call : mqM nat := fun s =>
  Ret (mq_tick s, MqSt (mq s) (S (mq_tick s)) (mq_mutex s)).
Definition set_info (i : media_q_info) : mqM unit := fun s =>
  Ret (tt, MqSt (Some i) (mq_tick s) (mq_mutex s)).
Definition mutex_do (o : mutex_op) : mqM unit := fun s =>
  Ret (tt, MqSt (mq s) (mq_tick s) (mq_mutex s ++ [o])).

(** [MEDIAQ_LOCK] and [MEDIAQ_UNLOCK] under [if (threadSafeOn)]. *)
Definition mq_guard (i : media_q_info) (o : mutex_op) : mqM unit :=
  if threadSafeOn i then mutex_do o else mret tt.

(** The nested tests for [NULL] that open every function. *)
Definition with_info {A} (dflt : A) (f : media_q_info -> mqM A) : mqM A := fun s =>
  match mq s with Some i => f i s | None => Ret (dflt, s) end.

Definition item_at (l : list media_q_item) (k : Z) : res media_q_item :=
  if k <? 0 then Fault (OobRead k)
  else match l !! Z.to_nat k with Some a => Ret a | None => Fault (OobRead k) end.
Definition upd_item (f : media_q_item -> media_q_item) (k : Z) (i : media_q_info)
  : res media_q_info :=
  a ← item_at (pItems i) k; Ret (with_items (<[Z.to_nat k := f a]> (pItems i)) i).

(** Reads and writes through the pointer to a locked item. *)
Definition item_read (k : Z) : mqM media_q_item := fun s =>
  match mq s with
  | Some i => a ← item_at (pItems i) k; Ret (a, s)
  | None => Fault (OobRead k)
  end.
Definition item_write (k : Z) (f : media_q_item -> media_q_item) : mqM unit := fun s =>
  match mq s with
  | Some i => i ← upd_item f k i; set_info i s
  | None => Fault (OobWrite k)
  end.

(** ** Moving head and tail *)

(** The loop of [x_openavbMediaQIncrementHead] and of its twin for the tail:
    [cur] runs from [start] until it meets [other] or an item that is not taken. *)
Fixpoint increment (fuel : nat) (l : list media_q_item) (count start other cur : Z) : res Z :=
  match fuel with
  | O => Fault OutOfFuel
  | S fuel =>
      let cur := cur + 1 in
      if cur =? start then Ret (-1)
      else
        let cur := if count <=? cur then 0 else cur in
        if cur =? other then Ret (-1)
        else a ← item_at l cur;
             if taken a then increment fuel l count start other cur else Ret cur
  end.

(** Two rounds of the ring meet every item. *)
Definition increment_fuel (i : media_q_info) : nat := 2 * length (pItems i) + 2.

Definition x_openavbMediaQIncrementHead (i : media_q_info) : res media_q_info :=
  h ← increment (increment_fuel i) (pItems i) (itemCount i) (q_head i) (q_tail i) (q_head i);
  Ret (with_head h i).
Definition x_openavbMediaQIncrementTail (i : media_q_info) : res media_q_info :=
  t ← increment (increment_fuel i) (pItems i) (itemCount i) (q_tail i) (q_head i) (q_tail i);
  Ret (with_tail t i).

(** ** Creation *)

Section Ops.
Context {pf : Platform}.

Definition openavbMediaQCreate : mqM bool := fun s =>
  if calloc_ok (mq_tick s)
  then if calloc_ok (S (mq_tick s))
       then Ret (true, MqSt (Some (MediaQInfo 0 0 [] 0 false (-1) false true 0 false
                                     MICROSECONDS_PER_SECOND))
                         (2 + mq_tick s) (mq_mutex s))
       else Ret (false, MqSt None (2 + mq_tick s) (mq_mutex s))
  else Ret (false, MqSt None (1 + mq_tick s) (mq_mutex s)).

(** Frees the queue; the answer is always [FALSE]. *)
Definition openavbMediaQDelete : mqM bool := fun s =>
  Ret (false, MqSt None (mq_tick s) (mq_mutex s)).

Definition openavbMediaQThreadSafeOn : mqM unit :=
  with_info tt (fun i => set_info
    (MediaQInfo (itemCount i) (q_itemSize i) (pItems i) (q_head i) (headLocked i) (q_tail i)
       (tailLocked i) (firstFuture i) (maxLatencyUsec i) true (maxStaleTailUsec i))).
Definition openavbMediaQSetMaxLatency (usec : Z) : mqM unit :=
  with_info tt (fun i => set_info
    (MediaQInfo (itemCount i) (q_itemSize i) (pItems i) (q_head i) (headLocked i) (q_tail i)
       (tailLocked i) (firstFuture i) usec (threadSafeOn i) (maxStaleTailUsec i))).
Definition openavbMediaQSetMaxStaleTail (usec : Z) : mqM unit :=
  with_info tt (fun i => set_info
    (MediaQInfo (itemCount i) (q_itemSize i) (pItems i) (q_head i) (headLocked i) (q_tail i)
       (tailLocked i) (firstFuture i) (maxLatencyUsec i) (threadSafeOn i) usec)).

(** The loop that fills the item array; [false] when the data of an item cannot
    be allocated (the items after it stay zeroed). *)
Fixpoint alloc_items (n : nat) (latency size : Z) : mqM (bool * list media_q_item) :=
  match n with
  | O => mret (true, [])
  | S n =>
      c1 ← mq_call; c2 ← mq_call;
      let a := MediaQItem (openavbAvtpTimeCreate latency c1)
                 (if calloc_ok c2 then Some (replicate (Z.to_nat size) 0) else None)
                 0 0 size false None None None in
      if calloc_ok c2
      then '(ok, r) ← alloc_items n latency size; mret (ok, a :: r)
      else mret (false, a :: replicate n zero_item)
  end.

Definition openavbMediaQSetSize (count size : Z) : mqM bool :=
  if (count <? 1) || (size <? 1) then mret false
  else with_info false (fun i =>
    match pItems i with
    | [] =>
        c ← mq_call;
        if calloc_ok c then
          '(ok, l) ← alloc_items (Z.to_nat count) (maxLatencyUsec i) size;
          _ ← set_info
                (MediaQInfo count size l (q_head i) (headLocked i) (q_tail i) (tailLocked i)
                   (firstFuture i) (maxLatencyUsec i) (threadSafeOn i) (maxStaleTailUsec i));
          mret ok
        else mret false
    | _ => if negb (count =? itemCount i) || negb (size =? q_itemSize i)
           then mret false else mret true
    end).

(** One optional private area of an item. *)
Definition alloc_area (size : Z) (old : option (list Z)) : mqM (option (list Z)) :=
  match old with
  | Some _ => mret None
  | None => c ← mq_call;
            mret (if calloc_ok c then Some (replicate (Z.to_nat size) 0) else None)
  end.

Fixpoint alloc_map_data (pub pvt : Z) (l : list media_q_item)
  : mqM (bool * list media_q_item) :=
  match l with
  | [] => mret (true, [])
  | a :: r =>
      p ← (if pub =? 0 then mret (pPubMapData a) else alloc_area pub (pPubMapData a));
      if negb (pub =? 0) && bool_decide (p = None) then mret (false, a :: r)
      else
        let a := MediaQItem (pAvtpTime a) (pPubData a) (readIdx a) (dataLen a) (itemSize a)
                   (taken a) p (pPvtMapData a) (pPvtIntfData a) in
        v ← (if pvt =? 0 then mret (pPvtMapData a) else alloc_area pvt (pPvtMapData a));
        if negb (pvt =? 0) && bool_decide (v = None) then mret (false, a :: r)
        else
          let a := MediaQItem (pAvtpTime a) (pPubData a) (readIdx a) (dataLen a) (itemSize a)
                     (taken a) (pPubMapData a) v (pPvtIntfData a) in
          '(ok, r) ← alloc_map_data pub pvt r; mret (ok, a :: r)
  end.

Definition openavbMediaQAllocItemMapData (pub pvt : Z) : mqM bool :=
  with_info false (fun i =>
    match pItems i with
    | [] => mret false
    | l => '(ok, l) ← alloc_map_data pub pvt l; _ ← set_info (with_items l i); mret ok
    end).

Fixpoint alloc_intf_data (size : Z) (l : list media_q_item) : mqM (bool * list media_q_item) :=
  match l with
  | [] => mret (true, [])
  | a :: r =>
      p ← alloc_area size (pPvtIntfData a);
      match p with
      | None => mret (false, a :: r)
      | Some _ =>
          let a := MediaQItem (pAvtpTime a) (pPubData a) (readIdx a) (dataLen a) (itemSize a)
                     (taken a) (pPubMapData a) (pPvtMapData a) p in
          '(ok, r) ← alloc_intf_data size r; mret (ok, a :: r)
      end
  end.

Definition openavbMediaQAllocItemIntfData (size : Z) : mqM bool :=
  with_info false (fun i =>
    match pItems i with
    | [] => mret false
    | l => '(ok, l) ← alloc_intf_data size l; _ ← set_info (with_items l i); mret ok
    end).

(** ** The head *)

(** A locked item is the index of its slot ([None]: [NULL]). *)
Definition openavbMediaQHeadLock : mqM (option Z) :=
  with_info None (fun i =>
    _ ← mq_guard i MqLock;
    if (0 <? itemCount i) && (-1 <? q_head i)
    then _ ← set_info (with_headLocked true i);
         mret (Some (q_head i))
    else _ ← mq_guard i MqUnlock; mret None).

Definition openavbMediaQHeadUnlock : mqM unit :=
  with_info tt (fun i =>
    if (0 <? itemCount i) && (-1 <? q_head i)
    then _ ← set_info (with_headLocked false i); mq_guard i MqUnlock
    else mret tt).

Definition openavbMediaQHeadPush : mqM bool :=
  with_info false (fun i =>
    if (0 <? itemCount i) && (-1 <? q_head i) then
      let pHead := q_head i in
      let i := if q_tail i =? -1 then with_tail (q_head i) i else i in
      i ← mq_lift (upd_item clear_read pHead i);
      i ← mq_lift (x_openavbMediaQIncrementHead i);
      _ ← set_info (with_headLocked false i);
      _ ← mq_guard i MqUnlock;
      mret true
    else mret false).

(** ** The tail *)

Definition openavbMediaQTailPull : mqM bool :=
  with_info false (fun i =>
    if (0 <? itemCount i) && (-1 <? q_tail i) then
      let pTail := q_tail i in
      let i := if q_head i =? -1 then with_head (q_tail i) i else i in
      i ← mq_lift (upd_item clear_data pTail i);
      i ← mq_lift (x_openavbMediaQIncrementTail i);
      _ ← set_info (with_tailLocked false i);
      _ ← mq_guard i MqUnlock;
      mret true
    else mret false).

(** The loop of [x_openavbMediaQPurgeStaleTail]; every purge pulls an item. *)
Fixpoint purge_loop (fuel : nat) (bFirst : bool) : mqM unit :=
  match fuel with
  | O => mq_lift (Fault OutOfFuel)
  | S fuel =>
      with_info tt (fun i =>
        if (0 <? itemCount i) && (-1 <? q_tail i) then
          pTail ← mq_lift (item_at (pItems i) (q_tail i));
          _ ← set_info (with_tailLocked true i);
          n ← mq_call;
          let bPurge :=
            if bFirst
            then openavbAvtpTimeUsecDelta (pAvtpTime pTail) n
                   <? s32 (u32 (0 - maxStaleTailUsec i))
            else openavbAvtpTimeIsPast (pAvtpTime pTail) n in
          if bPurge : bool
          then _ ← openavbMediaQTailPull; purge_loop fuel false
          else set_info (with_tailLocked false i)
        else mret tt)
  end.

Definition x_openavbMediaQPurgeStaleTail : mqM unit :=
  with_info tt (fun i =>
    if 0 <? maxStaleTailUsec i then purge_loop (S (length (pItems i))) true else mret tt).

Definition openavbMediaQTailLock (ignoreTimestamp : bool) : mqM (option Z) :=
  _ ← (if ignoreTimestamp then mret tt else x_openavbMediaQPurgeStaleTail);
  with_info None (fun i =>
    _ ← mq_guard i MqLock;
    if (0 <? itemCount i) && (-1 <? q_tail i) then
      pTail ← mq_lift (item_at (pItems i) (q_tail i));
      ready ← (if ignoreTimestamp then mret true
               else n ← mq_call; mret (openavbAvtpTimeIsPast (pAvtpTime pTail) n));
      if negb ready
      then _ ← mq_guard i MqUnlock; mret None
      else _ ← set_info (with_tailLocked true i); mret (Some (q_tail i))
    else _ ← mq_guard i MqUnlock; mret None).

Definition openavbMediaQTailUnlock : mqM unit :=
  with_info tt (fun i =>
    if (0 <? itemCount i) && (-1 <? q_tail i)
    then _ ← set_info (with_tailLocked false i); mq_guard i MqUnlock
    else mret tt).

(** [pItem] is the slot of the item taken or given back. *)
Definition openavbMediaQTailItemTake (pItem : option Z) : mqM bool :=
  match pItem with
  | None => mret false
  | Some k =>
      with_info false (fun i =>
        if (0 <? itemCount i) && (-1 <? q_tail i) then
          i ← mq_lift (x_openavbMediaQIncrementTail i);
          i ← mq_lift (upd_item (set_taken true) k i);
          _ ← set_info (with_tailLocked false i);
          _ ← mq_guard i MqUnlock;
          mret true
        else mret false)
  end.

(** The first slot that is not taken. *)
Fixpoint first_untaken (l : list media_q_item) (k : Z) : option Z :=
  match l with
  | [] => None
  | a :: r => if taken a then first_untaken r (k + 1) else Some k
  end.

Definition openavbMediaQTailItemGive (pItem : option Z) : mqM bool :=
  match pItem with
  | None => mret false
  | Some k =>
      with_info true (fun i =>
        i ← mq_lift (upd_item (fun a => clear_data (set_taken false a)) k i);
        _ ← set_info i;
        _ ← mq_guard i MqLock;
        _ ← (if (0 <? itemCount i) && (q_head i =? -1)
             then match first_untaken (pItems i) 0 with
                  | Some h => set_info (with_head h i)
                  | None => mret tt
                  end
             else mret tt);
        _ ← mq_guard i MqUnlock;
        mret true)
  end.

(** ** Queries *)

Definition openavbMediaQUsecTillTail : mqM (option Z) :=
  with_info None (fun i =>
    if (0 <? itemCount i) && (-1 <? q_tail i) then
      pTail ← mq_lift (item_at (pItems i) (q_tail i));
      n ← mq_call;
      mret (openavbAvtpTimeUsecTill (pAvtpTime pTail) n)
    else mret None).

(** Two rounds of the ring, as for [increment]. *)
Definition scan_fuel (i : media_q_info) : nat := 2 * length (pItems i) + 2.

(** Both loops of [openavbMediaQIsAvailableBytes]; with [ignoreTimestamp] every
    item is [ready]. *)
Fixpoint available_loop (fuel : nat) (i : media_q_info) (ready : media_q_item -> bool)
  (bytes endIdx byteCnt tailIdx : Z) : res bool :=
  match fuel with
  | O => Fault OutOfFuel
  | S fuel =>
      pTail ← item_at (pItems i) tailIdx;
      let next byteCnt :=
        let tailIdx := tailIdx + 1 in
        let tailIdx := if itemCount i <=? tailIdx then 0 else tailIdx in
        if tailIdx =? endIdx then Ret false
        else available_loop fuel i ready bytes endIdx byteCnt tailIdx in
      if taken pTail then next byteCnt
      else if negb (ready pTail) then Ret false
      else
        let byteCnt := s32 (byteCnt + (dataLen pTail - readIdx pTail)) in
        if bytes <=? u32 byteCnt then Ret true else next byteCnt
  end.

(** What the timed queries see of the clock; on failure [nSecTime] stays
    uninitialised. *)
Definition query_time : mqM Z :=
  n ← mq_call; mret (default (junk64 n) (osalClockGettime64 OPENAVB_CLOCK_WALLTIME n)).

Definition query_ready (ignoreTimestamp : bool) : mqM (media_q_item -> bool) :=
  if ignoreTimestamp then mret (fun _ => true)
  else now ← query_time; mret (fun a => openavbAvtpTimeIsPastTime (pAvtpTime a) now).

Definition openavbMediaQIsAvailableBytes (bytes : Z) (ignoreTimestamp : bool) : mqM bool :=
  _ ← (if ignoreTimestamp then mret tt else x_openavbMediaQPurgeStaleTail);
  with_info false (fun i =>
    if (0 <? itemCount i) && (-1 <? q_tail i) then
      let endIdx := if -1 <? q_head i then q_head i else q_tail i in
      ready ← query_ready ignoreTimestamp;
      mq_lift (available_loop (scan_fuel i) i ready bytes endIdx 0 (q_tail i))
    else mret false).

(** Both loops of [openavbMediaQCountItems]. *)
Fixpoint count_loop (fuel : nat) (i : media_q_info) (ready : media_q_item -> bool)
  (itemCnt tailIdx : Z) : res Z :=
  match fuel with
  | O => Fault OutOfFuel
  | S fuel =>
      pTail ← item_at (pItems i) tailIdx;
      let next itemCnt :=
        let tailIdx := tailIdx + 1 in
        let tailIdx := if itemCount i <=? tailIdx then 0 else tailIdx in
        if tailIdx =? q_head i then Ret itemCnt
        else if itemCount i <=? itemCnt then Ret itemCnt
        else count_loop fuel i ready itemCnt tailIdx in
      if taken pTail then next itemCnt
      else if negb (ready pTail) then Ret itemCnt
      else next (itemCnt + 1)
  end.

Definition openavbMediaQCountItems (ignoreTimestamp : bool) : mqM Z :=
  _ ← (if ignoreTimestamp then mret tt else x_openavbMediaQPurgeStaleTail);
  with_info 0 (fun i =>
    if (0 <? itemCount i) && (-1 <? q_tail i) then
      ready ← query_ready ignoreTimestamp;
      mq_lift (count_loop (scan_fuel i) i ready 0 (q_tail i))
    else mret 0).

Definition openavbMediaQAnyReadyItems (ignoreTimestamp : bool) : mqM bool :=
  _ ← (if ignoreTimestamp then mret tt else x_openavbMediaQPurgeStaleTail);
  with_info false (fun i =>
    if (0 <? itemCount i) && (-1 <? q_tail i) then
      ready ← query_ready ignoreTimestamp;
      pTail ← mq_lift (item_at (pItems i) (q_tail i));
      mret (negb (taken pTail) && ready pTail)
    else mret false).

End Ops.
