(* ===== verification/MediaQProps.v ===== *)
(** * The media queue is a bounded FIFO (lib/avtp_pipeline/mediaq)

    The abstraction reads the ring as two lists: the items held, oldest first,
    and the free items, the one to be filled next first.  A push moves the first
    free item to the end of the items held, a pull moves the oldest item to the
    end of the free ones. *)

From S2P Require Import Prelude AvtpTime MediaQ.
From Stdlib Require Import ZArith Lia.
From stdpp Require Import base tactics list option.
Open Scope Z_scope.

(** ** Rings *)

Section Rings.
Context {A : Type}.
Implicit Types (l : list A) (b k n : nat).

Lemma rotate_nat_add_small b k n :
  (b < n)%nat -> (k < n)%nat ->
  rotate_nat_add b k n = (if decide (b + k < n) then b + k else b + k - n)%nat.
Proof.
  intros Hb Hk. unfold rotate_nat_add. case_decide.
  - rewrite Z.mod_small; lia.
  - rewrite <- (Z_mod_plus_full _ (-1)), Z.mod_small; lia.
Qed.

Lemma rotate_next l b x r :
  (b < length l)%nat -> rotate b l = x :: r -> rotate (S b mod length l) l = r ++ [x].
Proof.
  intros Hb. unfold rotate. rewrite (Nat.mod_small b) by done.
  destruct (lookup_lt_is_Some_2 l b Hb) as [y Hy]. rewrite (drop_S l y) by done.
  cbn [app]. intros [= -> <-].
  destruct (decide (S b = length l)) as [E|].
  - rewrite E, Nat.Div0.mod_same, Nat.mod_small by lia. rewrite <- E.
    rewrite (drop_ge l (S b)) by lia. cbn [drop app]. rewrite app_nil_r.
    rewrite <- (take_S_r l b x) by done. by rewrite take_ge by lia.
  - rewrite !(Nat.mod_small (S b)) by lia.
    by rewrite (take_S_r l b x), <- app_assoc by done.
Qed.

Lemma ring_next_add b k n :
  (b < n)%nat -> (S k < n)%nat -> rotate_nat_add b (S k) n = rotate_nat_add (S b mod n) k n.
Proof.
  intros Hb Hk. rewrite rotate_nat_add_add_mod. rewrite (rotate_nat_add_add_mod (S b mod n)).
  rewrite Nat.Div0.mod_mod, <- !rotate_nat_add_add_mod. unfold rotate_nat_add.
  do 2 f_equal. lia.
Qed.

End Rings.

(** ** The abstraction relation *)

(** [mq_at b i c f]: seen from slot [b], the ring of [i] holds [c] and then the
    free items [f]. *)
Record mq_at (b : nat) (i : media_q_info) (c f : list media_q_item) : Prop := {
  at_base : (b < length (pItems i))%nat;
  at_count : itemCount i = Zlen (pItems i);
  at_ring : rotate b (pItems i) = c ++ f;
  at_tail : q_tail i = match c with [] => -1 | _ => Z.of_nat b end;
  at_head : q_head i = match f with
                       | [] => -1
                       | _ => Z.of_nat (rotate_nat_add b (length c) (length (pItems i)))
                       end;
  at_taken : Forall (fun a => taken a = false) (pItems i)
}.

(** The settings the operations leave alone. *)
Definition mq_cfg (i : media_q_info) : Z * Z * Z * Z * bool :=
  (itemCount i, q_itemSize i, maxLatencyUsec i, maxStaleTailUsec i, threadSafeOn i).

Section Steps.
Context (b : nat) (i : media_q_info).

Lemma at_len c f : mq_at b i c f -> (length (pItems i) = length c + length f)%nat.
Proof. intros H. by rewrite <- (length_rotate _ b), (at_ring _ _ _ _ H), length_app. Qed.

Lemma at_lookup c f k a :
  mq_at b i c f -> (c ++ f) !! k = Some a ->
  pItems i !! rotate_nat_add b k (length (pItems i)) = Some a.
Proof.
  intros H Hk. rewrite <- lookup_rotate_r; [by rewrite (at_ring _ _ _ _ H)|].
  rewrite (at_len c f) by done. rewrite <- length_app. by eapply lookup_lt_Some.
Qed.

Lemma at_update c f k a :
  mq_at b i c f -> (k < length (c ++ f))%nat -> taken a = false ->
  let l := <[rotate_nat_add b k (length (pItems i)) := a]> (pItems i) in
  rotate b l = <[k := a]> (c ++ f) /\ length l = length (pItems i)
  /\ Forall (fun a => taken a = false) l.
Proof.
  intros H Hk Ha. cbv zeta. rewrite rotate_insert_l, (at_ring _ _ _ _ H), length_insert.
  - split_and!; try done. apply Forall_insert; [|done]. apply H.
  - by rewrite (at_len c f), <- length_app.
Qed.

Lemma head_slot c h f :
  mq_at b i c (h :: f) ->
  q_head i = Z.of_nat (rotate_nat_add b (length c) (length (pItems i)))
  /\ 0 <= q_head i < itemCount i /\ pItems i !! Z.to_nat (q_head i) = Some h.
Proof.
  intros H. pose proof (at_len _ _ H) as Hl. cbn in Hl. rewrite (at_head _ _ _ _ H).
  rewrite (at_count _ _ _ _ H). pose proof (rotate_nat_add_lt b (length c) (length (pItems i))).
  rewrite Nat2Z.id. split_and!; try lia. apply (at_lookup c (h :: f)); [done|].
  by rewrite list_lookup_middle.
Qed.

Lemma tail_slot t c f :
  mq_at b i (t :: c) f ->
  q_tail i = Z.of_nat b /\ 0 <= q_tail i < itemCount i /\ pItems i !! b = Some t.
Proof.
  intros H. pose proof (at_base _ _ _ _ H). rewrite (at_tail _ _ _ _ H), (at_count _ _ _ _ H).
  split_and!; try lia. rewrite <- (rotate_nat_add_0 b (length (pItems i))) by done.
  by apply (at_lookup (t :: c) f).
Qed.

End Steps.

Lemma item_at_lookup l k a : 0 <= k -> l !! Z.to_nat k = Some a -> item_at l k = Ret a.
Proof. intros Hk Ha. unfold item_at. by rewrite (proj2 (Z.ltb_ge _ _) Hk), Ha. Qed.

(** Moving an index of a ring without taken items takes one step. *)
Lemma increment_untaken fuel l start other :
  Forall (fun a => taken a = false) l -> (start < length l)%nat ->
  increment (S fuel) l (Zlen l) (Z.of_nat start) other (Z.of_nat start)
  = Ret (let nx := Z.of_nat (S start mod length l) in if nx =? other then -1 else nx).
Proof.
  intros Hu Hs. cbn [increment]. cbv zeta. rewrite (proj2 (Z.eqb_neq _ _)) by lia.
  assert (Hn : (if Zlen l <=? Z.of_nat start + 1 then 0 else Z.of_nat start + 1)
               = Z.of_nat (S start mod length l)).
  { btest.
    - replace (S start) with (length l) by lia. by rewrite Nat.Div0.mod_same.
    - rewrite Nat.mod_small; lia. }
  rewrite Hn. btest; [done|].
  destruct (lookup_lt_is_Some_2 l (S start mod length l)) as [a Ha].
  { apply Nat.mod_upper_bound. lia. }
  rewrite (item_at_lookup _ _ a), res_bind_ret by (lia || by rewrite Nat2Z.id).
  by rewrite (Forall_lookup_1 _ _ _ _ Hu Ha).
Qed.

(** ** Push and pull on the representation *)

Definition push_info (i : media_q_info) : res media_q_info :=
  let pHead := q_head i in
  let i := if q_tail i =? -1 then with_tail (q_head i) i else i in
  i ← upd_item clear_read pHead i;
  x_openavbMediaQIncrementHead i.

Definition pull_info (i : media_q_info) : res media_q_info :=
  let pTail := q_tail i in
  let i := if q_head i =? -1 then with_head (q_tail i) i else i in
  i ← upd_item clear_data pTail i;
  x_openavbMediaQIncrementTail i.

Lemma push_at b i c h f :
  mq_at b i c (h :: f) ->
  exists i', push_info i = Ret i' /\ mq_at b i' (c ++ [clear_read h]) f /\ mq_cfg i' = mq_cfg i.
Proof.
  intros H. destruct (head_slot _ _ _ _ _ H) as (Hh & Hr & Hl).
  pose proof (at_len _ _ _ _ H) as Hn. cbn in Hn. pose proof (at_base _ _ _ _ H) as Hb.
  assert (Ht : q_tail (if q_tail i =? -1 then with_tail (q_head i) i else i) = Z.of_nat b).
  { pose proof (at_tail _ _ _ _ H) as Et. destruct c; rewrite Et.
    - cbn. rewrite Hh. f_equal. by apply rotate_nat_add_0.
    - by rewrite (proj2 (Z.eqb_neq _ _)) by lia. }
  unfold push_info. set (i1 := if q_tail i =? -1 then _ else i) in *.
  assert (Hi1 : pItems i1 = pItems i /\ q_head i1 = q_head i /\ itemCount i1 = itemCount i
                /\ mq_cfg i1 = mq_cfg i) by (subst i1; by destruct (q_tail i =? -1)).
  destruct Hi1 as (Ei & Eh & Ec & Eg). cbv zeta. unfold upd_item. rewrite Ei.
  rewrite (item_at_lookup _ _ h), !res_bind_ret by (done || lia).
  destruct (at_update b i c (h :: f) (length c) (clear_read h) H) as (Hrot & Hlen & Htk).
  { rewrite length_app. cbn. lia. }
  { apply (Forall_lookup_1 _ _ _ _ (at_taken _ _ _ _ H) Hl). }
  rewrite Hh, Nat2Z.id. set (l := <[_ := _]> _) in *.
  unfold x_openavbMediaQIncrementHead, increment_fuel. cbn [pItems itemCount q_head q_tail with_items].
  rewrite Eh, Ht, Ec, (at_count _ _ _ _ H), Hh, <- Hlen.
  rewrite Nat.add_comm. change (2 + ?n)%nat with (S (S n)).
  rewrite increment_untaken, res_bind_ret by
    (done || (rewrite Hlen; apply rotate_nat_add_lt; lia)).
  eexists. split; [reflexivity|]. split; [|done].
  rewrite Hlen, <- rotate_nat_add_S by lia.
  split; cbn; rewrite ?Hlen; try done.
  - by rewrite Ec, (at_count _ _ _ _ H).
  - by rewrite Hrot, insert_app_r_alt, Nat.sub_diag, <- app_assoc by done.
  - rewrite Ht. by destruct c.
  - rewrite length_app. cbn. destruct f as [|g f].
    + rewrite rotate_nat_add_S, rotate_nat_add_small by lia.
      replace (length (pItems i)) with (S (length c)) in * by (cbn in Hn; lia).
      case_decide.
      * assert (b = 0)%nat as -> by lia. cbn [Nat.add]. by rewrite Nat.Div0.mod_same.
      * replace (S (b + length c - S (length c))) with b by lia.
        rewrite Nat.mod_small, Z.eqb_refl by lia. done.
    + cbn in Hn. rewrite Nat.add_1_r, rotate_nat_add_small by lia.
      rewrite (proj2 (Z.eqb_neq _ _)) by (case_decide; lia). done.
Qed.

Lemma pull_at b i t c f :
  mq_at b i (t :: c) f ->
  exists b' i', pull_info i = Ret i' /\ mq_at b' i' c (f ++ [clear_data t]) /\ mq_cfg i' = mq_cfg i.
Proof.
  intros H. destruct (tail_slot _ _ _ _ _ H) as (Ht & Hr & Hl).
  pose proof (at_len _ _ _ _ H) as Hn. cbn in Hn. pose proof (at_base _ _ _ _ H) as Hb.
  set (N := length (pItems i)) in *.
  assert (Hh : q_head (if q_head i =? -1 then with_head (q_tail i) i else i)
               = Z.of_nat (rotate_nat_add (S b mod N) (length c) N)).
  { rewrite (at_head _ _ _ _ H). fold N. destruct f as [|g f].
    - cbn. rewrite Ht. f_equal. rewrite rotate_nat_add_small; [|apply Nat.mod_upper_bound; lia|cbn in Hn; lia].
      destruct (decide (S b = N)) as [<-|].
      + rewrite Nat.Div0.mod_same. case_decide; cbn in *; lia.
      + rewrite Nat.mod_small by lia. case_decide; cbn in *; lia.
    - rewrite (proj2 (Z.eqb_neq _ _)) by lia. rewrite (at_head _ _ _ _ H). fold N. cbn [length].
      f_equal. apply ring_next_add; [done | cbn in Hn; lia]. }
  unfold pull_info. set (i1 := if q_head i =? -1 then _ else i) in *.
  assert (Hi1 : pItems i1 = pItems i /\ q_tail i1 = q_tail i /\ itemCount i1 = itemCount i
                /\ mq_cfg i1 = mq_cfg i) by (subst i1; by destruct (q_head i =? -1)).
  destruct Hi1 as (Ei & Et & Ec & Eg). cbv zeta. unfold upd_item. rewrite Ei.
  rewrite (item_at_lookup _ _ t), !res_bind_ret by (lia || by rewrite Ht, Nat2Z.id).
  assert (Hp : (0 < length ((t :: c) ++ f))%nat) by (cbn; lia).
  destruct (at_update b i (t :: c) f 0 (clear_data t) H Hp) as (Hrot & Hlen & Htk).
  { apply (Forall_lookup_1 _ _ _ _ (at_taken _ _ _ _ H) Hl). }
  rewrite rotate_nat_add_0 in Hrot, Hlen, Htk by done. fold N in Hlen.
  rewrite Ht, Nat2Z.id. set (l := <[_ := _]> _) in *. cbn [app insert list_insert] in Hrot.
  unfold x_openavbMediaQIncrementTail, increment_fuel. cbn [pItems itemCount q_head q_tail with_items].
  rewrite Et, Hh, Ec, (at_count _ _ _ _ H), Ht, <- Hlen.
  rewrite Nat.add_comm. change (2 + ?n)%nat with (S (S n)).
  fold N. rewrite <- Hlen, increment_untaken, res_bind_ret by (rewrite ?Hlen; done).
  exists (S b mod N)%nat. eexists. split; [reflexivity|]. split; [|done].
  apply rotate_next in Hrot; [|by rewrite Hlen]. rewrite Hlen in *.
  split; cbn; rewrite ?Hlen; try done.
  - apply Nat.mod_upper_bound. lia.
  - by rewrite Ec, (at_count _ _ _ _ H).
  - by rewrite Hrot, app_assoc.
  - destruct c as [|g c].
    + rewrite rotate_nat_add_0 by (apply Nat.mod_upper_bound; lia). by rewrite Z.eqb_refl.
    + cbn in Hn. rewrite rotate_nat_add_small; [|apply Nat.mod_upper_bound; lia|cbn; lia].
      rewrite (proj2 (Z.eqb_neq _ _)); [done|]. cbn [length]. case_decide; lia.
  - rewrite Hh. by destruct f.
Qed.

(** ** The abstract queue *)

(** Items held (oldest first), free items (next to fill first), the number of
    platform calls made and the setting that governs purging. *)
Record fifo := Fifo {
  f_held : list media_q_item;
  f_free : list media_q_item;
  f_tick : nat;
  f_stale : Z
}.

Definition mq_refines (s : mq_st) (a : fifo) : Prop :=
  mq_tick s = f_tick a
  /\ exists i b, mq s = Some i /\ mq_at b i (f_held a) (f_free a) /\ maxStaleTailUsec i = f_stale a.

(** Operations of the abstract queue. *)
Definition fifo_push (a : fifo) : fifo :=
  match f_free a with
  | [] => a
  | h :: f => Fifo (f_held a ++ [clear_read h]) f (f_tick a) (f_stale a)
  end.
Definition fifo_pull (a : fifo) : fifo :=
  match f_held a with
  | [] => a
  | t :: c => Fifo c (f_free a ++ [clear_data t]) (f_tick a) (f_stale a)
  end.
Definition fifo_write_head (g : media_q_item -> media_q_item) (a : fifo) : fifo :=
  match f_free a with
  | [] => a
  | h :: f => Fifo (f_held a) (g h :: f) (f_tick a) (f_stale a)
  end.
Definition fifo_write_tail (g : media_q_item -> media_q_item) (a : fifo) : fifo :=
  match f_held a with
  | [] => a
  | t :: c => Fifo (g t :: c) (f_free a) (f_tick a) (f_stale a)
  end.
Definition fifo_call (a : fifo) : fifo :=
  Fifo (f_held a) (f_free a) (S (f_tick a)) (f_stale a).

Section Refinement.
Context {pf : Platform}.

(** Purging: the oldest item goes when it is too stale, then every item whose
    presentation time is past. *)
Definition purges (first : bool) (a : fifo) (x : media_q_item) : bool :=
  if first
  then openavbAvtpTimeUsecDelta (pAvtpTime x) (f_tick a) <? s32 (u32 (0 - f_stale a))
  else openavbAvtpTimeIsPast (pAvtpTime x) (f_tick a).
Fixpoint fifo_purge_from (fuel : nat) (first : bool) (a : fifo) : fifo :=
  match fuel, f_held a with
  | S fuel, x :: _ =>
      if purges first a x then fifo_purge_from fuel false (fifo_pull (fifo_call a))
      else fifo_call a
  | _, _ => a
  end.
Definition fifo_purge (a : fifo) : fifo :=
  if 0 <? f_stale a then fifo_purge_from (length (f_held a)) true a else a.

(** The oldest item, when the caller may have it. *)
Definition fifo_lock_tail (ignoreTimestamp : bool) (a : fifo) : option media_q_item * fifo :=
  let a := if ignoreTimestamp then a else fifo_purge a in
  match f_held a with
  | [] => (None, a)
  | x :: _ =>
      if ignoreTimestamp then (Some x, a)
      else (if openavbAvtpTimeIsPast (pAvtpTime x) (f_tick a) then Some x else None, fifo_call a)
  end.

(** The items ready for presentation, and what the queries count. *)
Fixpoint ready_prefix (ready : media_q_item -> bool) (l : list media_q_item) : list media_q_item :=
  match l with
  | [] => []
  | x :: r => if ready x then x :: ready_prefix ready r else []
  end.
Definition fifo_ready (ignoreTimestamp : bool) (a : fifo) (x : media_q_item) : bool :=
  ignoreTimestamp
  || openavbAvtpTimeIsPastTime (pAvtpTime x)
       (default (junk64 (f_tick a)) (osalClockGettime64 OPENAVB_CLOCK_WALLTIME (f_tick a))).
Definition fifo_query (ignoreTimestamp : bool) (a : fifo) : (list media_q_item) * fifo :=
  let a := if ignoreTimestamp then a else fifo_purge a in
  match f_held a with
  | [] => ([], a)
  | l => (ready_prefix (fifo_ready ignoreTimestamp a) l,
          if ignoreTimestamp then a else fifo_call a)
  end.

(** ** How modules use the queue *)

(** What interface and mapping modules do with the queue: fill the next item and
    push or keep it; take or look at the oldest item; count.  [g] is what the
    module writes through the pointer it was given. *)
Inductive mq_op :=
| Produce (g : media_q_item -> media_q_item)
| Fill (g : media_q_item -> media_q_item)
| Consume (ignoreTimestamp : bool)
| Peek (ignoreTimestamp : bool) (g : media_q_item -> media_q_item)
| Count (ignoreTimestamp : bool)
| AnyReady (ignoreTimestamp : bool).

Inductive mq_out :=
| OItem (x : option media_q_item)
| ODone (ok : bool)
| OCount (n : Z).

Definition run_op (o : mq_op) : mqM mq_out :=
  match o with
  | Produce g =>
      k ← openavbMediaQHeadLock;
      match k with
      | Some k => _ ← item_write k g; ok ← openavbMediaQHeadPush; mret (ODone ok)
      | None => mret (ODone false)
      end
  | Fill g =>
      k ← openavbMediaQHeadLock;
      match k with
      | Some k => _ ← item_write k g; _ ← openavbMediaQHeadUnlock; mret (ODone true)
      | None => mret (ODone false)
      end
  | Consume ign =>
      k ← openavbMediaQTailLock ign;
      match k with
      | Some k => x ← item_read k; _ ← openavbMediaQTailPull; mret (OItem (Some x))
      | None => mret (OItem None)
      end
  | Peek ign g =>
      k ← openavbMediaQTailLock ign;
      match k with
      | Some k => x ← item_read k; _ ← item_write k g; _ ← openavbMediaQTailUnlock;
                  mret (OItem (Some x))
      | None => mret (OItem None)
      end
  | Count ign => n ← openavbMediaQCountItems ign; mret (OCount n)
  | AnyReady ign => ok ← openavbMediaQAnyReadyItems ign; mret (ODone ok)
  end.

Definition fifo_op (o : mq_op) (a : fifo) : mq_out * fifo :=
  match o with
  | Produce g =>
      (ODone (bool_decide (f_free a <> [])), fifo_push (fifo_write_head g a))
  | Fill g => (ODone (bool_decide (f_free a <> [])), fifo_write_head g a)
  | Consume ign =>
      let '(x, a) := fifo_lock_tail ign a in
      (OItem x, match x with Some _ => fifo_pull a | None => a end)
  | Peek ign g =>
      let '(x, a) := fifo_lock_tail ign a in
      (OItem x, match x with Some _ => fifo_write_tail g a | None => a end)
  | Count ign => let '(l, a) := fifo_query ign a in (OCount (Zlen l), a)
  | AnyReady ign => let '(l, a) := fifo_query ign a in (ODone (bool_decide (l <> [])), a)
  end.

Fixpoint run_ops (os : list mq_op) : mqM (list mq_out) :=
  match os with
  | [] => mret []
  | o :: os => x ← run_op o; xs ← run_ops os; mret (x :: xs)
  end.
Fixpoint fifo_ops (os : list mq_op) (a : fifo) : list mq_out * fifo :=
  match os with
  | [] => ([], a)
  | o :: os => let '(x, a) := fifo_op o a in
               let '(xs, a) := fifo_ops os a in (x :: xs, a)
  end.

(** Modules do not touch the [taken] flag. *)
Definition op_ok (o : mq_op) : Prop :=
  match o with
  | Produce g | Fill g | Peek _ g => forall x, taken (g x) = taken x
  | _ => True
  end.

(** ** The operations refine the abstract queue *)

(** Total correctness in the queue's monad. *)
Definition mq_returns {A} (m : mqM A) (s : mq_st) (Q : A -> mq_st -> Prop) : Prop :=
  returns (m s) (fun '(x, s') => Q x s').

Lemma mq_ret {A} (x : A) s (Q : A -> mq_st -> Prop) : Q x s -> mq_returns (mret x) s Q.
Proof. done. Qed.

Lemma mq_bind {A B} (m : mqM A) (k : A -> mqM B) s P (Q : B -> mq_st -> Prop) :
  mq_returns m s P -> (forall x s', P x s' -> mq_returns (k x) s' Q) ->
  mq_returns (m ≫= k) s Q.
Proof. intros Hm Hk. eapply returns_bind; [exact Hm|]. intros [x s']. apply Hk. Qed.

Lemma mq_mono {A} (m : mqM A) s (P Q : A -> mq_st -> Prop) :
  mq_returns m s P -> (forall x s', P x s' -> Q x s') -> mq_returns m s Q.
Proof. intros Hm HQ. eapply returns_mono; [exact Hm|]. intros [x s']. apply HQ. Qed.

Lemma mq_returns_inv {A} (m : mqM A) s (Q : A -> mq_st -> Prop) :
  mq_returns m s Q -> exists x s', m s = Ret (x, s') /\ Q x s'.
Proof. intros H. apply returns_inv in H as ([x s'] & E & H). by exists x, s'. Qed.

Lemma mq_bind_lift {A B} (m : res A) (k : A -> mqM B) s x (Q : B -> mq_st -> Prop) :
  m = Ret x -> mq_returns (k x) s Q -> mq_returns (mq_lift m ≫= k) s Q.
Proof. by intros ->. Qed.

Lemma mq_bind_set {A} i (k : unit -> mqM A) s (Q : A -> mq_st -> Prop) :
  mq_returns (k tt) (MqSt (Some i) (mq_tick s) (mq_mutex s)) Q ->
  mq_returns (set_info i ≫= k) s Q.
Proof. done. Qed.

Lemma mq_bind_call {A} (k : nat -> mqM A) s (Q : A -> mq_st -> Prop) :
  mq_returns (k (mq_tick s)) (MqSt (mq s) (S (mq_tick s)) (mq_mutex s)) Q ->
  mq_returns (mq_call ≫= k) s Q.
Proof. done. Qed.

Lemma mq_bind_ret {A B} (x : A) (k : A -> mqM B) s (Q : B -> mq_st -> Prop) :
  mq_returns (k x) s Q -> mq_returns (mret x ≫= k) s Q.
Proof. done. Qed.

Lemma mq_bind_assoc {A B C} (m : mqM A) (k : A -> mqM B) (k' : B -> mqM C) s
    (Q : C -> mq_st -> Prop) :
  mq_returns (m ≫= fun x => k x ≫= k') s Q -> mq_returns ((m ≫= k) ≫= k') s Q.
Proof. unfold mq_returns, mbind, mqM_bind. by destruct (m s) as [[x s']|]. Qed.

(** [q_head] or [q_tail] of the queue is [k]. *)
Definition at_index (p : media_q_info -> Z) (s : mq_st) (k : Z) : Prop :=
  exists i, mq s = Some i /\ p i = k.

Lemma mq_at_same b i i' c f :
  mq_at b i c f -> pItems i' = pItems i -> itemCount i' = itemCount i ->
  q_head i' = q_head i -> q_tail i' = q_tail i -> mq_at b i' c f.
Proof. intros [] E1 E2 E3 E4. split; rewrite ?E1, ?E2, ?E3, ?E4; done. Qed.

Lemma guard_spec i o s (Q : unit -> mq_st -> Prop) :
  (forall l, Q tt (MqSt (mq s) (mq_tick s) l)) -> mq_returns (mq_guard i o) s Q.
Proof.
  intros H. unfold mq_guard. destruct (threadSafeOn i); [apply (H (mq_mutex s ++ [o]))|].
  destruct s as [m n l]. apply (H l).
Qed.

Lemma guard_keeps i o s :
  mq_returns (mq_guard i o) s (fun _ s' => mq_tick s' = mq_tick s /\ mq s' = mq s).
Proof. by apply guard_spec. Qed.

(** The tests on head and tail say whether an item is free or held. *)
Lemma head_test b i c f :
  mq_at b i c f -> (0 <? itemCount i) && (-1 <? q_head i) = bool_decide (f <> []).
Proof.
  intros H. pose proof (at_base _ _ _ _ H). rewrite (at_count _ _ _ _ H), (at_head _ _ _ _ H).
  rewrite (proj2 (Z.ltb_lt _ _)) by lia. cbn [andb]. destruct f; [done|].
  rewrite bool_decide_eq_true_2 by done. apply Z.ltb_lt. lia.
Qed.
Lemma tail_test b i c f :
  mq_at b i c f -> (0 <? itemCount i) && (-1 <? q_tail i) = bool_decide (c <> []).
Proof.
  intros H. pose proof (at_base _ _ _ _ H). rewrite (at_count _ _ _ _ H), (at_tail _ _ _ _ H).
  rewrite (proj2 (Z.ltb_lt _ _)) by lia. cbn [andb]. destruct c; [done|].
  rewrite bool_decide_eq_true_2 by done. apply Z.ltb_lt. lia.
Qed.

Section Specs.
Context (s : mq_st) (a : fifo).
Hypothesis Href : mq_refines s a.

Lemma head_lock_spec :
  mq_returns openavbMediaQHeadLock s (fun k s' => mq_refines s' a
    /\ match f_free a with
       | [] => k = None
       | _ => exists n, k = Some n /\ at_index q_head s' n
       end).
Proof.
  destruct Href as (Hn & i & b & Hi & Ha & Hs). unfold openavbMediaQHeadLock, mq_returns, with_info.
  rewrite Hi. eapply mq_bind; [apply guard_keeps|].
  intros [] s1 [Hn1 Hi1]. rewrite Hn in Hn1. rewrite Hi in Hi1. rewrite (head_test _ _ _ _ Ha). destruct (f_free a) as [|h f] eqn:Ef.
  - eapply mq_bind; [apply guard_keeps|].
    intros [] s2 [Hn2 Hi2]. rewrite Hn1 in Hn2. rewrite Hi1 in Hi2. apply mq_ret. split; [|done]. split; [done|].
    exists i, b. by rewrite Ef.
  - apply mq_ret. split.
    + split; [done|]. exists (with_headLocked true i), b. rewrite Ef.
      split_and!; [done | by eapply mq_at_same | done].
    + eexists. split; [done|]. by exists (with_headLocked true i).
Qed.

Lemma head_unlock_spec :
  mq_returns openavbMediaQHeadUnlock s (fun _ s' => mq_refines s' a).
Proof.
  destruct Href as (Hn & i & b & Hi & Ha & Hs).
  unfold openavbMediaQHeadUnlock, mq_returns, with_info. rewrite Hi, (head_test _ _ _ _ Ha).
  case_bool_decide; [|done]. eapply guard_spec. intros l. split; [done|].
  exists (with_headLocked false i), b. split_and!; [done | by eapply mq_at_same | done].
Qed.

Lemma tail_unlock_spec :
  mq_returns openavbMediaQTailUnlock s (fun _ s' => mq_refines s' a).
Proof.
  destruct Href as (Hn & i & b & Hi & Ha & Hs).
  unfold openavbMediaQTailUnlock, mq_returns, with_info. rewrite Hi, (tail_test _ _ _ _ Ha).
  case_bool_decide; [|done]. eapply guard_spec. intros l. split; [done|].
  exists (with_tailLocked false i), b. split_and!; [done | by eapply mq_at_same | done].
Qed.

Lemma head_write_spec k g h f :
  f_free a = h :: f -> taken (g h) = taken h -> at_index q_head s k ->
  mq_returns (item_write k g) s (fun _ s' => mq_refines s' (fifo_write_head g a) /\ at_index q_head s' k).
Proof.
  intros Ef Hg (i' & Hi' & Hk). destruct Href as (Hn & i & b & Hi & Ha & Hs).
  assert (i' = i) as -> by congruence. rewrite Ef in Ha.
  destruct (head_slot _ _ _ _ _ Ha) as (Hh & Hr & Hl). subst k.
  unfold mq_returns, item_write. rewrite Hi. unfold upd_item.
  rewrite (item_at_lookup _ _ h), !res_bind_ret by (done || lia).
  destruct (at_update b i (f_held a) (h :: f) (length (f_held a)) (g h) Ha) as (Hrot & Hlen & Htk).
  { rewrite length_app. cbn. lia. }
  { rewrite Hg. apply (Forall_lookup_1 _ _ _ _ (at_taken _ _ _ _ Ha) Hl). }
  rewrite insert_app_r_alt, Nat.sub_diag in Hrot by done.
  unfold fifo_write_head. rewrite Ef. split; [|by eexists]. split; [done|]. cbn.
  eexists _, b. split; [done|]. split; [|done]. rewrite Hh, Nat2Z.id.
  destruct Ha. split; cbn [pItems itemCount q_head q_tail with_items]; rewrite ?Hlen; try done.
Qed.

Lemma tail_write_spec k g t c :
  f_held a = t :: c -> taken (g t) = taken t -> at_index q_tail s k ->
  mq_returns (item_write k g) s (fun _ s' => mq_refines s' (fifo_write_tail g a) /\ at_index q_tail s' k).
Proof.
  intros Ec Hg (i' & Hi' & Hk). destruct Href as (Hn & i & b & Hi & Ha & Hs).
  assert (i' = i) as -> by congruence. rewrite Ec in Ha.
  destruct (tail_slot _ _ _ _ _ Ha) as (Ht & Hr & Hl). subst k.
  unfold mq_returns, item_write. rewrite Hi. unfold upd_item.
  rewrite (item_at_lookup _ _ t), !res_bind_ret by (lia || by rewrite Ht, Nat2Z.id).
  assert (Hp : (0 < length ((t :: c) ++ f_free a))%nat) by (cbn; lia).
  destruct (at_update b i (t :: c) (f_free a) 0 (g t) Ha Hp) as (Hrot & Hlen & Htk).
  { rewrite Hg. apply (Forall_lookup_1 _ _ _ _ (at_taken _ _ _ _ Ha) Hl). }
  pose proof (at_base _ _ _ _ Ha) as Hb. rewrite rotate_nat_add_0 in Hrot, Hlen, Htk by done.
  unfold fifo_write_tail. rewrite Ec. split; [|by eexists]. split; [done|]. cbn.
  eexists _, b. split; [done|]. split; [|done]. rewrite Ht, Nat2Z.id.
  destruct Ha. split; cbn [pItems itemCount q_head q_tail with_items]; rewrite ?Hlen; done.
Qed.

Lemma tail_read_spec k t c :
  f_held a = t :: c -> at_index q_tail s k ->
  mq_returns (item_read k) s (fun x s' => x = t /\ s' = s).
Proof.
  intros Ec (i' & Hi' & Hk). destruct Href as (Hn & i & b & Hi & Ha & Hs).
  assert (i' = i) as -> by congruence. rewrite Ec in Ha.
  destruct (tail_slot _ _ _ _ _ Ha) as (Ht & Hr & Hl). subst k.
  unfold mq_returns, item_read. rewrite Hi, (item_at_lookup _ _ t) by (lia || by rewrite Ht, Nat2Z.id).
  done.
Qed.

Lemma head_read_spec k h f :
  f_free a = h :: f -> at_index q_head s k ->
  mq_returns (item_read k) s (fun x s' => x = h /\ s' = s).
Proof.
  intros Ef (i' & Hi' & Hk). destruct Href as (Hn & i & b & Hi & Ha & Hs).
  assert (i' = i) as -> by congruence. rewrite Ef in Ha.
  destruct (head_slot _ _ _ _ _ Ha) as (Hh & Hr & Hl). subst k.
  unfold mq_returns, item_read. by rewrite Hi, (item_at_lookup _ _ h) by (done || lia).
Qed.

Lemma head_push_spec :
  mq_returns openavbMediaQHeadPush s (fun ok s' =>
    ok = bool_decide (f_free a <> []) /\ mq_refines s' (fifo_push a)).
Proof.
  destruct Href as (Hn & i & b & Hi & Ha & Hs). unfold openavbMediaQHeadPush, mq_returns, with_info, fifo_push.
  rewrite Hi, (head_test _ _ _ _ Ha). destruct (f_free a) as [|h f] eqn:Ef; [done|].
  destruct (push_at _ _ _ _ _ Ha) as (i' & Hp & Ha' & Hg). revert Hp. unfold push_info.
  rewrite !bool_decide_eq_true_2 by done. cbv zeta.
  set (i1 := if q_tail i =? -1 then _ else i). intros Hp.
  destruct (upd_item clear_read (q_head i) i1) as [i2|] eqn:E2; [|done].
  change (x_openavbMediaQIncrementHead i2 = Ret i') in Hp.
  eapply mq_bind_lift; [done|]. eapply mq_bind_lift; [exact Hp|].
  apply (mq_bind _ _ _ _ _ (guard_keeps _ _ _)). intros [] s1 [Hn1 Hi1]. apply mq_ret.
  split; [done|]. split; [by rewrite Hn1|].
  exists (with_headLocked false i'), b. injection Hg as _ _ _ Hg _.
  split_and!; [by rewrite Hi1 | by eapply mq_at_same | by cbn; congruence].
Qed.

Lemma tail_pull_spec :
  mq_returns openavbMediaQTailPull s (fun ok s' =>
    ok = bool_decide (f_held a <> []) /\ mq_refines s' (fifo_pull a)).
Proof.
  destruct Href as (Hn & i & b & Hi & Ha & Hs). unfold openavbMediaQTailPull, mq_returns, with_info, fifo_pull.
  rewrite Hi, (tail_test _ _ _ _ Ha). destruct (f_held a) as [|t c] eqn:Ec; [done|].
  destruct (pull_at _ _ _ _ _ Ha) as (b' & i' & Hp & Ha' & Hg). revert Hp. unfold pull_info.
  rewrite !bool_decide_eq_true_2 by done. cbv zeta.
  set (i1 := if q_head i =? -1 then _ else i). intros Hp.
  destruct (upd_item clear_data (q_tail i) i1) as [i2|] eqn:E2; [|done].
  change (x_openavbMediaQIncrementTail i2 = Ret i') in Hp.
  eapply mq_bind_lift; [done|]. eapply mq_bind_lift; [exact Hp|].
  apply (mq_bind _ _ _ _ _ (guard_keeps _ _ _)). intros [] s1 [Hn1 Hi1]. apply mq_ret.
  split; [done|]. split; [by rewrite Hn1|].
  exists (with_tailLocked false i'), b'. injection Hg as _ _ _ Hg _.
  split_and!; [by rewrite Hi1 | by eapply mq_at_same | by cbn; congruence].
Qed.

End Specs.

Lemma refines_call s a :
  mq_refines s a -> mq_refines (MqSt (mq s) (S (mq_tick s)) (mq_mutex s)) (fifo_call a).
Proof. intros (Hn & H). split; [by cbn; rewrite Hn | exact H]. Qed.

(** A flag of the queue changes, nothing else. *)
Lemma refines_same s a i i' :
  mq_refines s a -> mq s = Some i -> pItems i' = pItems i -> itemCount i' = itemCount i ->
  q_head i' = q_head i -> q_tail i' = q_tail i -> maxStaleTailUsec i' = maxStaleTailUsec i ->
  forall l, mq_refines (MqSt (Some i') (mq_tick s) l) a.
Proof.
  intros (Hn & j & b & Hi & Ha & Hs) Hi'. intros. assert (j = i) as -> by congruence.
  split; [done|]. exists i', b. split_and!; [done | by eapply mq_at_same | by etransitivity].
Qed.

Lemma purge_loop_spec fuel : forall first s a,
  mq_refines s a -> (length (f_held a) < fuel)%nat ->
  mq_returns (purge_loop fuel first) s (fun _ s' =>
    mq_refines s' (fifo_purge_from (length (f_held a)) first a)).
Proof.
  induction fuel as [|fuel IH]; intros first s a Href Hlen; [lia|].
  pose proof Href as (Hn & i & b & Hi & Ha & Hs).
  cbn [purge_loop]. unfold mq_returns, with_info. rewrite Hi, (tail_test _ _ _ _ Ha).
  destruct (f_held a) as [|t c] eqn:Ec; [exact Href|].
  rewrite bool_decide_eq_true_2 by done.
  destruct (tail_slot _ _ _ _ _ Ha) as (Ht & Hr & Hl).
  eapply mq_bind_lift; [apply (item_at_lookup _ _ t); [lia | by rewrite Ht, Nat2Z.id]|].
  cbn [length fifo_purge_from]. rewrite Ec. unfold purges. rewrite <- Hs, <- Hn.
  pose proof (refines_same s a i (with_tailLocked true i) Href Hi eq_refl eq_refl eq_refl
                eq_refl eq_refl (mq_mutex s)) as H1.
  pose proof (refines_call _ _ H1) as H2. cbn [mq mq_tick mq_mutex] in H2.
  set (s2 := MqSt (Some (with_tailLocked true i)) (S (mq_tick s)) (mq_mutex s)) in H2.
  eapply mq_bind_set, mq_bind_call. cbn [mq mq_tick mq_mutex]. fold s2.
  destruct (if first then _ else _).
  - eapply mq_bind; [by apply tail_pull_spec|]. intros _ s3 [_ H3].
    eapply mq_mono; [apply (IH false _ _ H3)|].
    + unfold fifo_pull, fifo_call. cbn. rewrite Ec. cbn in *. lia.
    + intros [] s4. unfold fifo_pull, fifo_call. cbn. by rewrite Ec.
  - apply (refines_same s2 _ (with_tailLocked true i)); done.
Qed.

Lemma purge_spec s a :
  mq_refines s a ->
  mq_returns x_openavbMediaQPurgeStaleTail s (fun _ s' => mq_refines s' (fifo_purge a)).
Proof.
  intros Href. pose proof Href as (Hn & i & b & Hi & Ha & Hs).
  unfold x_openavbMediaQPurgeStaleTail, mq_returns, with_info, fifo_purge. rewrite Hi, Hs.
  destruct (0 <? f_stale a); [|done]. apply purge_loop_spec; [done|].
  rewrite (at_len _ _ _ _ Ha). lia.
Qed.

Lemma maybe_purge_spec ign s a :
  mq_refines s a ->
  mq_returns (if ign : bool then mret tt else x_openavbMediaQPurgeStaleTail) s
    (fun _ s' => mq_refines s' (if ign then a else fifo_purge a)).
Proof. intros H. destruct ign; [exact H | by apply purge_spec]. Qed.

Lemma tail_lock_spec ign s a :
  mq_refines s a ->
  mq_returns (openavbMediaQTailLock ign) s (fun k s' =>
    let '(x, a') := fifo_lock_tail ign a in
    mq_refines s' a'
    /\ match x with
       | None => k = None
       | Some x => exists n, k = Some n /\ at_index q_tail s' n /\ head (f_held a') = Some x
       end).
Proof.
  intros Href. unfold openavbMediaQTailLock, fifo_lock_tail.
  eapply mq_bind; [by apply maybe_purge_spec|]. intros [] s1 H1. cbn beta in H1.
  set (a1 := if ign then a else fifo_purge a) in *. clearbody a1. clear Href.
  pose proof H1 as (Hn & i & b & Hi & Ha & Hs). unfold mq_returns, with_info. rewrite Hi.
  apply (mq_bind _ _ _ _ _ (guard_keeps _ _ _)). intros [] s2 [Hn2 Hi2].
  assert (H2 : mq_refines s2 a1) by (unfold mq_refines; rewrite Hn2, Hi2; exact H1).
  rewrite Hi in Hi2. rewrite (tail_test _ _ _ _ Ha).
  destruct (f_held a1) as [|t c] eqn:Ec.
  { apply (mq_bind _ _ _ _ _ (guard_keeps _ _ _)). intros [] s3 [Hn3 Hi3]. apply mq_ret.
    split; [unfold mq_refines; rewrite Hn3, Hi3; exact H2 | done]. }
  rewrite bool_decide_eq_true_2 by done.
  destruct (tail_slot _ _ _ _ _ Ha) as (Ht & Hr & Hl).
  eapply mq_bind_lift; [apply (item_at_lookup _ _ t); [lia | by rewrite Ht, Nat2Z.id]|].
  destruct ign.
  - apply (mq_ret (Some (q_tail i))). cbn [head]. rewrite Ec. split.
    + by apply (refines_same s2 a1 i).
    + eexists. split_and!; [done | by eexists | done].
  - pose proof (refines_call _ _ H2) as H3. unfold mq_refines in H1. rewrite Hn2, Hn in H3.
    eapply mq_bind_assoc, mq_bind_call, mq_bind_ret. rewrite Hn2, Hn. set (s3 := MqSt _ _ _) in *.
    destruct (openavbAvtpTimeIsPast _ _); cbn [negb].
    + apply (mq_ret (Some (q_tail i))). split.
      * by apply (refines_same s3 _ i).
      * eexists. split_and!; [done | by eexists | by cbn; rewrite Ec].
    + apply (mq_bind _ _ _ _ _ (guard_keeps _ _ _)). intros [] s4 [Hn4 Hi4]. apply mq_ret.
      split; [unfold mq_refines; rewrite Hn4, Hi4; exact H3 | done].
Qed.

(** ** Queries *)

Section Scan.
Context (b : nat) (i : media_q_info) (c f : list media_q_item).
Hypothesis Ha : mq_at b i c f.

(** Slot of the k-th item held. *)
Definition slot (k : nat) : Z := Z.of_nat (rotate_nat_add b k (length (pItems i))).

Lemma slot_read k x :
  c !! k = Some x -> item_at (pItems i) (slot k) = Ret x /\ taken x = false.
Proof.
  intros Hk. assert (Hl : pItems i !! rotate_nat_add b k (length (pItems i)) = Some x).
  { apply (at_lookup b i c f); [done|]. by apply lookup_app_l_Some. }
  split; [|by apply (Forall_lookup_1 _ _ _ _ (at_taken _ _ _ _ Ha) Hl)].
  apply item_at_lookup; unfold slot; [lia | by rewrite Nat2Z.id].
Qed.

Lemma slot_next k :
  (if itemCount i <=? slot k + 1 then 0 else slot k + 1) = slot (S k).
Proof.
  pose proof (at_base _ _ _ _ Ha). unfold slot. rewrite rotate_nat_add_S by lia.
  pose proof (rotate_nat_add_lt b k (length (pItems i))).
  rewrite (at_count _ _ _ _ Ha). btest.
  - replace (S (rotate_nat_add b k (length (pItems i)))) with (length (pItems i)) by lia.
    by rewrite Nat.Div0.mod_same.
  - rewrite Nat.mod_small; lia.
Qed.

Lemma slot_start : c <> [] -> q_tail i = slot 0.
Proof.
  intros Hc. rewrite (at_tail _ _ _ _ Ha). unfold slot.
  rewrite rotate_nat_add_0 by apply Ha. by destruct c.
Qed.

Lemma slot_inj k j :
  (k < length (pItems i))%nat -> (j < length (pItems i))%nat -> slot k = slot j -> k = j.
Proof.
  intros Hk Hj. pose proof (at_base _ _ _ _ Ha). unfold slot.
  rewrite !rotate_nat_add_small by done. repeat case_decide; lia.
Qed.

Lemma head_free : f <> [] -> q_head i = slot (length c).
Proof. intros Hf. rewrite (at_head _ _ _ _ Ha). by destruct f. Qed.
Lemma head_full : f = [] -> q_head i = -1.
Proof. intros Hf. by rewrite (at_head _ _ _ _ Ha), Hf. Qed.

Lemma slot_wrap : slot (length (pItems i)) = slot 0.
Proof.
  unfold slot, rotate_nat_add. do 2 f_equal. rewrite Z.add_0_r.
  symmetry. rewrite <- (Z_mod_plus_full (Z.of_nat b) 1). f_equal. lia.
Qed.

(** The end of the scan of [openavbMediaQIsAvailableBytes]. *)
Lemma slot_end k :
  c <> [] -> (k <= length c)%nat -> (0 < k)%nat ->
  (slot k =? (if -1 <? q_head i then q_head i else q_tail i)) = bool_decide (k = length c).
Proof.
  intros Hc Hk Hk0. pose proof (at_len _ _ _ _ Ha) as Hn. pose proof (at_base _ _ _ _ Ha).
  destruct (decide (f = [])) as [E|E].
  - rewrite (head_full E), slot_start by done. cbn [Z.ltb Z.compare].
    rewrite E in Hn. cbn in Hn. rewrite Nat.add_0_r in Hn.
    case_bool_decide as Ek; [subst k; rewrite <- Hn, slot_wrap; apply Z.eqb_refl|].
    apply Z.eqb_neq. intros Es. apply slot_inj in Es; lia.
  - rewrite (head_free E), (proj2 (Z.ltb_lt _ _)) by (unfold slot; lia).
    assert (length f <> 0)%nat by (by destruct f).
    case_bool_decide as Ek; [subst k; apply Z.eqb_refl|].
    apply Z.eqb_neq. intros Es. apply slot_inj in Es; lia.
Qed.

(** The end of the scan of [openavbMediaQCountItems]. *)
Lemma slot_head k :
  (k <= length c)%nat -> (k < length (pItems i))%nat ->
  (slot k =? q_head i) = bool_decide (k = length c).
Proof.
  intros Hk Hk'. pose proof (at_len _ _ _ _ Ha) as Hn.
  destruct (decide (f = [])) as [E|E].
  - rewrite (head_full E). rewrite E in Hn. cbn in Hn.
    rewrite bool_decide_eq_false_2 by lia. apply Z.eqb_neq. unfold slot. lia.
  - rewrite (head_free E). assert (length f <> 0)%nat by (by destruct f).
    case_bool_decide as Ek; [subst k; apply Z.eqb_refl|].
    apply Z.eqb_neq. intros Es. apply slot_inj in Es; lia.
Qed.

Lemma count_loop_spec ready fuel : forall k,
  (k < length c)%nat -> (length c - k < fuel)%nat ->
  count_loop fuel i ready (Z.of_nat k) (slot k)
  = Ret (Z.of_nat k + Zlen (ready_prefix ready (drop k c))).
Proof.
  induction fuel as [|fuel IH]; intros k Hk Hf; [lia|].
  destruct (lookup_lt_is_Some_2 c k Hk) as [x Hx]. destruct (slot_read k x Hx) as [Hr Ht].
  cbn [count_loop]. rewrite Hr, res_bind_ret, Ht, (drop_S c x) by done. cbn [ready_prefix].
  destruct (ready x); cbn [negb]; [|cbn; f_equal; lia].
  rewrite slot_next. pose proof (at_len _ _ _ _ Ha) as Hn. rewrite (at_count _ _ _ _ Ha).
  destruct (decide (S k = length c)) as [E|].
  - rewrite (drop_ge c (S k)) by lia. cbn.
    destruct (decide (S k = length (pItems i))).
    + rewrite (proj2 (Z.leb_le _ _)) by lia. destruct (_ =? _); f_equal; lia.
    + rewrite slot_head, bool_decide_eq_true_2 by (done || lia). done.
  - assert (Hne : (slot (S k) =? q_head i) = false).
    { rewrite slot_head by lia. by apply bool_decide_eq_false_2. }
    rewrite Hne, (proj2 (Z.leb_gt _ _)) by lia.
    replace (Z.of_nat k + 1) with (Z.of_nat (S k)) by lia. rewrite IH by lia.
    cbn [length]. f_equal. lia.
Qed.

(** Bytes not yet read. *)
Definition unread (l : list media_q_item) : Z :=
  fold_right (fun x n => dataLen x - readIdx x + n) 0 l.

Definition read_ok (x : media_q_item) : Prop := 0 <= readIdx x <= dataLen x.

Lemma unread_nonneg l : Forall read_ok l -> 0 <= unread l.
Proof. induction 1 as [|x l [? ?] _ IH]; unfold unread in *; cbn [fold_right]; lia. Qed.

Lemma ready_prefix_Forall ready P l : Forall P l -> Forall P (ready_prefix ready l).
Proof. induction 1; cbn; [done|]. destruct (ready x); auto. Qed.

Lemma available_loop_spec ready bytes fuel : forall k n,
  0 <= bytes -> (k < length c)%nat -> (length c - k < fuel)%nat ->
  0 <= n < bytes \/ k = 0%nat /\ n = 0 ->
  Forall read_ok c -> n + unread (drop k c) < 2147483648 ->
  available_loop fuel i ready bytes (if -1 <? q_head i then q_head i else q_tail i) n (slot k)
  = Ret (let l := ready_prefix ready (drop k c) in
         bool_decide (l <> []) && (bytes <=? n + unread l)).
Proof.
  induction fuel as [|fuel IH]; intros k n Hb Hk Hf Hn Hok Hsum; [lia|].
  destruct (lookup_lt_is_Some_2 c k Hk) as [x Hx]. destruct (slot_read k x Hx) as [Hr Ht].
  cbn [available_loop]. rewrite Hr, res_bind_ret, Ht. rewrite (drop_S c x) in * by done.
  cbn [ready_prefix]. destruct (ready x); cbn [negb]; [|done].
  assert (Hx' : read_ok x) by (by eapply Forall_lookup_1). destruct Hx' as [Hx1 Hx2].
  assert (Hrest : Forall read_ok (drop (S k) c)) by (by apply Forall_drop).
  pose proof (unread_nonneg _ Hrest) as Hun. cbn [unread fold_right] in Hsum.
  change (fold_right _ 0 ?l) with (unread l) in Hsum.
  pose proof (unread_nonneg _ (ready_prefix_Forall ready _ _ Hrest)) as Hun'.
  rewrite s32_id by lia. rewrite u32_id by lia. cbv zeta.
  rewrite bool_decide_eq_true_2 by done. cbn [unread fold_right].
  change (fold_right _ 0 ?l) with (unread l). cbn [andb].
  destruct (Z.leb_spec bytes (n + (dataLen x - readIdx x))) as [|Hlt].
  { symmetry. f_equal. apply Z.leb_le. lia. }
  rewrite slot_next, slot_end by (done || lia || by destruct c).
  case_bool_decide as E.
  - rewrite (drop_ge c (S k)) by lia. cbn. symmetry. f_equal. apply Z.leb_gt. lia.
  - rewrite IH; [|done|lia|lia|lia|done|lia]. f_equal. cbv zeta.
    destruct (ready_prefix ready (drop (S k) c)) eqn:Ep.
    + cbn. symmetry. apply Z.leb_gt. lia.
    + rewrite bool_decide_eq_true_2 by done. cbn [andb]. f_equal. lia.
Qed.

End Scan.

Lemma query_ready_spec (ign : bool) s a :
  mq_refines s a ->
  mq_returns (query_ready ign) s (fun r s' => (forall x, r x = fifo_ready ign a x)
    /\ mq s' = mq s /\ mq_refines s' (if ign then a else fifo_call a)).
Proof.
  intros Href. destruct ign; [done|]. pose proof (refines_call _ _ Href) as H.
  destruct Href as [Hn _]. unfold fifo_ready. by rewrite <- Hn.
Qed.

Lemma ready_prefix_ext r r' l : (forall x, r x = r' x) -> ready_prefix r l = ready_prefix r' l.
Proof. intros H. induction l as [|x l IH]; cbn; [done|]. by rewrite H, IH. Qed.

(** What both scanning queries do before they scan. *)
Lemma query_spec {A} (ign : bool) (dflt : A) (scan : media_q_info -> (media_q_item -> bool) -> mqM A) s a
    (Q : A -> mq_st -> Prop) :
  mq_refines s a ->
  (let '(l, a') := fifo_query ign a in
   (f_held a' = [] -> l = [] -> forall s', mq_refines s' a' -> Q dflt s')
   /\ forall s' i b ready,
       mq_refines s' a' -> mq s' = Some i -> mq_at b i (f_held a') (f_free a') ->
       f_held a' <> [] -> l = ready_prefix ready (f_held a') ->
       mq_returns (scan i ready) s' Q) ->
  mq_returns (_ ← (if ign then mret tt else x_openavbMediaQPurgeStaleTail);
     with_info dflt (fun i =>
       if (0 <? itemCount i) && (-1 <? q_tail i)
       then ready ← query_ready ign; scan i ready else mret dflt)) s Q.
Proof.
  intros Href HQ. eapply mq_bind; [by apply maybe_purge_spec|]. intros [] s1 H1.
  revert HQ. unfold fifo_query.
  set (a1 := if ign then a else fifo_purge a) in *. clearbody a1.
  pose proof H1 as (Hn & i & b & Hi & Ha & Hs). unfold mq_returns, with_info. rewrite Hi.
  rewrite (tail_test _ _ _ _ Ha). destruct (f_held a1) as [|t c] eqn:Ec.
  - rewrite bool_decide_eq_false_2 by auto. intros [He _]. apply (He Ec eq_refl _ H1).
  - rewrite bool_decide_eq_true_2 by done. intros HQ.
    eapply mq_bind; [by apply query_ready_spec|]. intros r s2 (Hr & Hi2 & H2).
    destruct HQ as [_ HQ]. apply (HQ s2 i b); [done | by rewrite Hi2 | by destruct ign; cbn; rewrite Ec
      | by destruct ign; cbn; rewrite Ec | ].
    rewrite (ready_prefix_ext _ _ _ Hr). by destruct ign; cbn; rewrite Ec.
Qed.

(** Purging and querying leave a suffix of the items held. *)
Lemma purge_from_suffix fuel : forall first a,
  exists k, f_held (fifo_purge_from fuel first a) = drop k (f_held a).
Proof.
  induction fuel as [|fuel IH]; intros first a; [by exists 0%nat|]. cbn.
  destruct (f_held a) as [|x c] eqn:Ec; [exists 0%nat; by rewrite Ec|].
  destruct (purges first a x); [|exists 0%nat; by cbn; rewrite Ec].
  destruct (IH false (fifo_pull (fifo_call a))) as [k ->]. exists (S k).
  unfold fifo_pull, fifo_call. cbn. by rewrite Ec.
Qed.

Lemma query_suffix ign a : exists k, f_held (fifo_query ign a).2 = drop k (f_held a).
Proof.
  assert (H : exists k, f_held (if ign then a else fifo_purge a) = drop k (f_held a)).
  { destruct ign; [by exists 0%nat|]. unfold fifo_purge. destruct (0 <? f_stale a).
    - apply purge_from_suffix.
    - by exists 0%nat. }
  destruct H as [k Hk]. exists k. unfold fifo_query. cbv zeta.
  destruct (f_held (if ign then a else fifo_purge a)) as [|x c] eqn:Ec; [cbn; by rewrite Ec|].
  rewrite <- Hk. by destruct ign.
Qed.

Lemma unread_drop k l : Forall read_ok l -> unread (drop k l) <= unread l.
Proof.
  intros H. revert k. induction H as [|x l [? ?] Hl IH]; intros [|k]; try done.
  cbn [drop unread fold_right]. specialize (IH k). unfold unread in *. lia.
Qed.

Lemma count_spec ign s a :
  mq_refines s a ->
  mq_returns (openavbMediaQCountItems ign) s (fun n s' =>
    let '(l, a') := fifo_query ign a in n = Zlen l /\ mq_refines s' a').
Proof.
  intros Href. apply (query_spec ign 0 (fun i ready =>
    mq_lift (count_loop (scan_fuel i) i ready 0 (q_tail i))) s a _ Href).
  destruct (fifo_query ign a) as [l a']. split; [by intros _ -> s' H|].
  intros s' i b ready H' Hi Ha Hc ->.
  pose proof (at_len _ _ _ _ Ha) as Hn.
  rewrite (slot_start b i _ _ Ha Hc). unfold mq_returns, mq_lift.
  change 0 with (Z.of_nat 0). rewrite (count_loop_spec b i _ _ Ha ready); [done|..].
  - by destruct (f_held a'); [|cbn; lia].
  - unfold scan_fuel. lia.
Qed.

Lemma any_ready_spec ign s a :
  mq_refines s a ->
  mq_returns (openavbMediaQAnyReadyItems ign) s (fun ok s' =>
    let '(l, a') := fifo_query ign a in ok = bool_decide (l <> []) /\ mq_refines s' a').
Proof.
  intros Href. apply (query_spec ign false (fun i ready =>
    pTail ← mq_lift (item_at (pItems i) (q_tail i));
    mret (negb (taken pTail) && ready pTail)) s a _ Href).
  destruct (fifo_query ign a) as [l a']. split; [by intros _ -> s' H|].
  intros s' i b ready H' Hi Ha Hc ->. rewrite (slot_start b i _ _ Ha Hc).
  destruct (f_held a') as [|t c] eqn:Ec; [done|].
  destruct (slot_read b i _ _ Ha 0 t eq_refl) as [Hr Ht].
  eapply mq_bind_lift; [exact Hr|]. apply mq_ret. split; [|done]. rewrite Ht. cbn.
  by destruct (ready t).
Qed.

Lemma available_spec bytes ign s a :
  mq_refines s a ->
  0 <= bytes -> Forall read_ok (f_held a) -> unread (f_held a) < 2147483648 ->
  mq_returns (openavbMediaQIsAvailableBytes bytes ign) s (fun ok s' =>
    let '(l, a') := fifo_query ign a in
    ok = bool_decide (l <> []) && (bytes <=? unread l) /\ mq_refines s' a').
Proof.
  intros Href Hb Hok Hsum. apply (query_spec ign false (fun i ready =>
    mq_lift (available_loop (scan_fuel i) i ready bytes
      (if -1 <? q_head i then q_head i else q_tail i) 0 (q_tail i))) s a _ Href).
  destruct (query_suffix ign a) as [k Hk]. pose proof (unread_drop k _ Hok) as Hle.
  apply (Forall_drop _ k) in Hok as Hok'. rewrite <- Hk in Hok', Hle.
  destruct (fifo_query ign a) as [l a']. cbn [snd] in *.
  split; [by intros _ -> s' H|].
  intros s' i b ready H' Hi Ha Hc ->. pose proof (at_len _ _ _ _ Ha) as Hn.
  rewrite (slot_start b i _ _ Ha Hc) at 2. unfold mq_returns, mq_lift.
  rewrite (available_loop_spec b i _ _ Ha ready); try done; try lia.
  - by destruct (f_held a'); [|cbn; lia].
  - unfold scan_fuel. lia.
  - rewrite drop_0. lia.
Qed.

Lemma write_push g a : f_free (fifo_write_head g a) = [] <-> f_free a = [].
Proof. unfold fifo_write_head. by destruct (f_free a) eqn:E; cbn; rewrite ?E. Qed.

Lemma run_op_spec o s a :
  mq_refines s a -> op_ok o ->
  mq_returns (run_op o) s (fun x s' =>
    let '(x', a') := fifo_op o a in x = x' /\ mq_refines s' a').
Proof.
  intros Href Hok. destruct o as [g|g|ign|ign g|ign|ign]; cbn [run_op fifo_op op_ok] in *.
  - eapply mq_bind; [by apply head_lock_spec|]. intros k s1 [H1 Hk].
    destruct (f_free a) as [|h f] eqn:Ef.
    { subst k. apply mq_ret. unfold fifo_push, fifo_write_head. by rewrite Ef, Ef. }
    destruct Hk as (n & -> & Hn).
    eapply mq_bind; [by eapply head_write_spec|]. intros [] s2 [H2 Hn2].
    eapply mq_bind; [by apply head_push_spec|]. intros ok s3 [-> H3]. apply mq_ret.
    split; [|done]. f_equal. apply bool_decide_ext. rewrite write_push, Ef. done.
  - eapply mq_bind; [by apply head_lock_spec|]. intros k s1 [H1 Hk].
    destruct (f_free a) as [|h f] eqn:Ef.
    { subst k. apply mq_ret. unfold fifo_write_head. by rewrite Ef. }
    destruct Hk as (n & -> & Hn).
    eapply mq_bind; [by eapply head_write_spec|]. intros [] s2 [H2 Hn2].
    eapply mq_bind; [by apply head_unlock_spec|]. intros [] s3 H3. by apply mq_ret.
  - eapply mq_bind; [by apply tail_lock_spec|]. intros k s1.
    destruct (fifo_lock_tail ign a) as [[x|] a1]; intros [H1 Hk]; [|by subst k].
    destruct Hk as (n & -> & Hn & Hx). destruct (f_held a1) as [|t c] eqn:Ec; [done|].
    injection Hx as ->.
    eapply mq_bind; [by eapply tail_read_spec|]. intros y s2 [-> ->].
    eapply mq_bind; [by apply tail_pull_spec|]. intros ok s3 [-> H3]. by apply mq_ret.
  - eapply mq_bind; [by apply tail_lock_spec|]. intros k s1.
    destruct (fifo_lock_tail ign a) as [[x|] a1]; intros [H1 Hk]; [|by subst k].
    destruct Hk as (n & -> & Hn & Hx). destruct (f_held a1) as [|t c] eqn:Ec; [done|].
    injection Hx as ->.
    eapply mq_bind; [by eapply tail_read_spec|]. intros y s2 [-> ->].
    eapply mq_bind; [by eapply tail_write_spec|]. intros [] s2 [H2 Hn2].
    eapply mq_bind; [by apply tail_unlock_spec|]. intros [] s3 H3. by apply mq_ret.
  - eapply mq_bind; [by apply count_spec|]. intros n s1 H. apply mq_ret.
    destruct (fifo_query ign a). naive_solver.
  - eapply mq_bind; [by apply any_ready_spec|]. intros n s1 H. apply mq_ret.
    destruct (fifo_query ign a). naive_solver.
Qed.

End Refinement.
