(* ===== verification/MediaQTheorems.v ===== *)
(** * Properties of the media queue (lib/avtp_pipeline/mediaq)

    The queue refines a bounded FIFO, is created empty, and answers the query for
    available bytes exactly; then the defects of [openavbMediaQTailItemTake],
    [openavbMediaQTailItemGive] and of purging under the mutex. *)

From S2P Require Import Prelude AvtpTime MediaQ MediaQProps.
From Stdlib Require Import ZArith Lia.
From stdpp Require Import base tactics list option.
Open Scope Z_scope.

Section Theorems.
Context {pf : Platform}.

(** C6: the ring implements a bounded FIFO queue.  For every sequence of uses
    (fill the next item, with or without pushing it; take or look at the oldest
    item, waiting for its presentation time or not; count), the functions of the
    media queue return, without a fault, exactly what the abstract queue
    returns: items come out in the order they were pushed and with the contents
    they were given, nothing is returned from an empty queue or stored into a
    full one, and stale items are purged as specified. *)
Theorem mediaq_refines_fifo os s a :
  mq_refines s a -> Forall op_ok os ->
  mq_returns (run_ops os) s (fun xs s' =>
    let '(xs', a') := fifo_ops os a in xs = xs' /\ mq_refines s' a').
Proof.
  intros Href Hok. revert s a Href. induction Hok as [|o os Ho _ IH]; intros s a Href; [done|].
  cbn [run_ops fifo_ops]. eapply mq_bind; [by apply run_op_spec|]. intros x s1.
  destruct (fifo_op o a) as [x' a1]. intros [-> H1].
  eapply mq_bind; [by apply IH|]. intros xs s2. destruct (fifo_ops os a1) as [xs' a2].
  intros [-> H2]. by apply mq_ret.
Qed.

(** [openavbMediaQIsAvailableBytes] answers whether the items ready for
    presentation (all items held, with [ignoreTimestamp]) hold at least [bytes]
    bytes that were not read yet; with no item ready the answer is false even for
    zero bytes. *)
Theorem mediaq_available_exact bytes ign s a :
  mq_refines s a ->
  0 <= bytes -> Forall read_ok (f_held a) -> unread (f_held a) < 2147483648 ->
  mq_returns (openavbMediaQIsAvailableBytes bytes ign) s (fun ok s' =>
    let '(l, a') := fifo_query ign a in
    ok = bool_decide (l <> []) && (bytes <=? unread l) /\ mq_refines s' a').
Proof. apply available_spec. Qed.

(** ** Creation *)

Definition fresh_item (latency size : Z) : media_q_item :=
  MediaQItem (Some (AvtpTime 0 (u64 (latency * NANOSECONDS_PER_USEC)) false false))
    (Some (replicate (Z.to_nat size) 0)) 0 0 size false None None None.

Lemma alloc_items_spec latency size n : forall s,
  (forall k, calloc_ok k = true) ->
  mq_returns (alloc_items n latency size) s (fun r s' =>
    r = (true, replicate n (fresh_item latency size)) /\ mq s' = mq s
    /\ mq_tick s' = (mq_tick s + 2 * n)%nat).
Proof.
  induction n as [|n IH]; intros s Hc; cbn [alloc_items].
  - apply mq_ret. split_and!; [done.. | lia].
  - eapply mq_bind_call, mq_bind_call. unfold openavbAvtpTimeCreate. rewrite !Hc.
    eapply mq_bind; [by apply IH|]. intros [ok r] s' ([= -> ->] & Hs & Ht). apply mq_ret.
    split_and!; [done | done | cbn in Ht; lia].
Qed.

(** With memory available, a queue that was created and given a size holds
    nothing and has [count] free items of [size] bytes, so [mediaq_refines_fifo]
    applies from then on. *)
Theorem mediaq_created latency count size s :
  (forall k, calloc_ok k = true) -> 1 <= count -> 1 <= size ->
  mq_returns (_ ← openavbMediaQCreate; _ ← openavbMediaQSetMaxLatency latency;
              openavbMediaQSetSize count size) s
    (fun ok s' => ok = true
       /\ mq_refines s' (Fifo [] (replicate (Z.to_nat count) (fresh_item latency size))
                           (mq_tick s') MICROSECONDS_PER_SECOND)).
Proof.
  intros Hc H1 H2. eapply mq_bind with (P := fun _ s' => mq s' = Some
    (MediaQInfo 0 0 [] 0 false (-1) false true 0 false MICROSECONDS_PER_SECOND)).
  { unfold mq_returns, openavbMediaQCreate. by rewrite !Hc. }
  intros _ s1 Hs1. eapply mq_bind with (P := fun _ s' => mq s' = Some
    (MediaQInfo 0 0 [] 0 false (-1) false true latency false MICROSECONDS_PER_SECOND)).
  { unfold mq_returns, openavbMediaQSetMaxLatency, with_info. by rewrite Hs1. }
  intros _ s2 Hs2. unfold openavbMediaQSetSize.
  rewrite !(proj2 (Z.ltb_ge _ _)) by lia. unfold mq_returns, with_info. cbn [orb]. rewrite Hs2.
  cbn [pItems]. eapply mq_bind_call. rewrite Hc.
  eapply mq_bind; [by apply alloc_items_spec|]. intros [ok l] s3 ([= -> ->] & Hs3 & Ht3).
  apply mq_bind_set, mq_ret. split; [done|]. split; [done|].
  eexists _, 0%nat. split; [done|]. split; [|done].
  split; cbn [pItems itemCount q_tail q_head f_held f_free length]; rewrite ?length_replicate; try lia.
  - by rewrite rotate_replicate.
  - destruct (Z.to_nat count) eqn:E; [lia|]. cbn [replicate]. by rewrite rotate_nat_add_0 by lia.
  - by apply Forall_replicate.
Qed.

End Theorems.

(** ** Concrete runs *)

(** A platform with memory whose gPTP clock advances 1 ms per call. *)
Definition demo_platform : Platform := {|
  ptp_time n := Some (5000000000 + 1000000 * Z.of_nat n);
  sys_time _ := Some (Timespec 5 0);
  calloc_ok _ := true;
  junk64 _ := 0
|}.
#[local] Existing Instance demo_platform.

(** A queue of [n] items of 4 bytes, as [openavbMediaQSetSize] leaves it. *)
Definition demo_mq (n : Z) : mq_st :=
  MqSt (Some (MediaQInfo n 4 (replicate (Z.to_nat n) (fresh_item 2000 4)) 0 false (-1) false true
                2000 false MICROSECONDS_PER_SECOND)) 0 [].
Definition demo_fifo (n : Z) : fifo :=
  Fifo [] (replicate (Z.to_nat n) (fresh_item 2000 4)) 0 MICROSECONDS_PER_SECOND.

Lemma demo_mq_refines : mq_refines (demo_mq 3) (demo_fifo 3).
Proof.
  split; [done|]. eexists _, 0%nat. split; [done|]. split; [|done].
  split; [vm_compute; lia | done.. | by repeat constructor].
Qed.

(** A module writes [d] and its length into the item. *)
Definition demo_write (d : list Z) (a : media_q_item) : media_q_item :=
  MediaQItem (pAvtpTime a) (Some d) (readIdx a) (Zlen d) (itemSize a) (taken a)
    (pPubMapData a) (pPvtMapData a) (pPvtIntfData a).

Definition demo_ops : list mq_op :=
  [Produce (demo_write [1]); Produce (demo_write [2; 2]); Consume true;
   Produce (demo_write [3]); Produce (demo_write [4]); Produce (demo_write [5]); Count true;
   Consume false; Consume true; Consume true; Consume true].

Lemma demo_ops_ok : Forall op_ok demo_ops.
Proof. repeat constructor; done. Qed.

(** What a run tells its module. *)
Definition demo_seen (x : mq_out) : option (list Z) :=
  match x with
  | OItem (Some a) => pPubData a
  | OItem None => None
  | ODone ok => Some [Z.b2z ok]
  | OCount n => Some [n]
  end.

Lemma demo_ops_seen : demo_seen <$> (fifo_ops demo_ops (demo_fifo 3)).1
  = [Some [1]; Some [1]; Some [1]; Some [1]; Some [1]; Some [0]; Some [3];
     Some [2; 2]; Some [3]; Some [4]; None].
Proof. vm_compute. reflexivity. Qed.

Lemma mediaq_refines_fifo_witness :
  exists xs s', run_ops demo_ops (demo_mq 3) = Ret (xs, s')
    /\ demo_seen <$> xs
       = [Some [1]; Some [1]; Some [1]; Some [1]; Some [1]; Some [0]; Some [3];
          Some [2; 2]; Some [3]; Some [4]; None].
Proof.
  pose proof (mediaq_refines_fifo demo_ops (demo_mq 3) (demo_fifo 3)
                demo_mq_refines demo_ops_ok) as H.
  apply mq_returns_inv in H as (xs & s' & E & H). exists xs, s'. split; [exact E|].
  pose proof demo_ops_seen as Hs. destruct (fifo_ops demo_ops (demo_fifo 3)) as [xs' a'].
  destruct H as [-> _]. exact Hs.
Defined.

Lemma mediaq_available_exact_witness :
  exists s', openavbMediaQIsAvailableBytes 0 true (demo_mq 3) = Ret (false, s').
Proof.
  assert (H : mq_returns (openavbMediaQIsAvailableBytes 0 true) (demo_mq 3) (fun ok s' =>
            let '(l, a') := fifo_query true (demo_fifo 3) in
            ok = bool_decide (l <> []) && (0 <=? unread l) /\ mq_refines s' a')).
  { apply (mediaq_available_exact 0 true (demo_mq 3) (demo_fifo 3));
      [exact demo_mq_refines | lia | constructor | vm_compute; reflexivity]. }
  apply mq_returns_inv in H as (ok & s' & E & H). exists s'. rewrite E.
  destruct H as [-> _]. reflexivity.
Defined.

Lemma mediaq_created_witness :
  exists s', (_ ← openavbMediaQCreate; _ ← openavbMediaQSetMaxLatency 2000;
              openavbMediaQSetSize 3 4) (MqSt None 0 []) = Ret (true, s')
    /\ mq_refines s' (Fifo [] (replicate 3 (fresh_item 2000 4)) (mq_tick s')
                        MICROSECONDS_PER_SECOND).
Proof.
  assert (H := mediaq_created 2000 3 4 (MqSt None 0 []) (fun _ => eq_refl)
                 ltac:(lia) ltac:(lia)).
  apply mq_returns_inv in H as (ok & s' & E & H). exists s'. rewrite E.
  destruct H as [-> H]. split; [reflexivity | exact H].
Defined.

(** ** Defects *)

(** An item given back while the queue is full is not found again: the search
    starts at slot 0 and stops at the first item that is not taken, which may hold
    data.  Here D, in slot 0, is overwritten by E and never comes out. *)
Theorem mediaq_give_loses :
  let run := _ ← run_ops [Produce (demo_write [65]); Produce (demo_write [66]);
                          Produce (demo_write [67]); Consume true; Produce (demo_write [68])];
             k ← openavbMediaQTailLock true;
             _ ← openavbMediaQTailItemTake k;
             _ ← openavbMediaQTailItemGive k;
             run_ops [Produce (demo_write [69]); Consume true; Consume true; Consume true] in
  exists s', run (demo_mq 3) = Ret
    ([ODone true; OItem (Some (demo_write [67] (fresh_item 2000 4)));
      OItem (Some (demo_write [69] (fresh_item 2000 4))); OItem None], s').
Proof. eexists. vm_compute. reflexivity. Qed.

(** Taking the only item of a queue leaves the tail on it, and counting the items
    then runs for ever. *)
Definition stuck_info (i : media_q_info) : Prop :=
  itemCount i = 1 /\ q_head i = -1 /\ exists a, pItems i = [a] /\ taken a = true.

Lemma count_stuck i ready fuel :
  stuck_info i -> count_loop fuel i ready 0 0 = Fault OutOfFuel.
Proof.
  intros (Hc & Hh & a & Hl & Ht). induction fuel as [|fuel IH]; [done|].
  cbn [count_loop]. rewrite Hl. change (item_at [a] 0) with (Ret a).
  rewrite res_bind_ret, Ht, Hc, Hh. exact IH.
Qed.

Theorem mediaq_count_diverges :
  exists s i, (_ ← run_op (Produce (demo_write [65]));
               k ← openavbMediaQTailLock true;
               openavbMediaQTailItemTake k) (demo_mq 1) = Ret (true, s)
    /\ mq s = Some i /\ q_tail i = 0
    /\ forall fuel ready, count_loop fuel i ready 0 (q_tail i) = Fault OutOfFuel.
Proof.
  eexists _, _. split; [vm_compute; reflexivity|]. split; [reflexivity|]. split; [reflexivity|].
  intros fuel ready. apply count_stuck. repeat split. by eexists.
Qed.

(** With the mutex in use, purging releases it without holding it: after the lock
    and unlock of the push comes a second unlock. *)
Theorem mediaq_purge_unlocks :
  let run := _ ← openavbMediaQThreadSafeOn;
             _ ← run_op (Produce (fun a =>
                   MediaQItem (Some (AvtpTime 1 0 true false)) (pPubData a) 0 1 4 false None None None));
             openavbMediaQTailLock false in
  exists k s', run (demo_mq 3) = Ret (k, s')
    /\ mq_mutex s' = [MqLock; MqUnlock; MqUnlock; MqLock; MqUnlock].
Proof. eexists _, _. split; vm_compute; reflexivity. Qed.
