(* ===== verification/AvtpMap.v ===== *)
(** * What mapping modules share (lib/avtp_pipeline/include/openavb_map_pub.h)

    The callbacks of a mapping module, the part of the AVTP header that every
    module reads and writes, and [strtol] for the configuration callbacks.  A
    frame is a byte list that starts at the AVTP header; code that leaves it
    faults. *)

From S2P Require Import Prelude AvtpTime MediaQ.
From Stdlib Require Import ZArith Lia Ascii.
From stdpp Require Import base tactics list strings option.
Open Scope Z_scope.

(** ** Callbacks *)

Inductive tx_cb_ret_t :=
| TX_CB_RET_PACKET_NOT_READY
| TX_CB_RET_PACKET_READY
| TX_CB_RET_MORE_PACKETS.

#[export] Instance tx_cb_ret_eq_dec : EqDecision tx_cb_ret_t.
Proof. solve_decision. Defined.

(** [P] is the module's data behind [pPvtMapInfo] and [pPubMapInfo].  The
    transmit callback gets the frame buffer and [*dataLen] and gives both back;
    the receive callback gets the frame and its length. *)
Record map_cb (P : Type) := MapCB {
  map_subtype_cb : Z;
  map_avtp_version_cb : Z;
  map_max_data_size_cb : P -> Z;
  map_transmit_interval_cb : P -> Z;
  map_tx_init_cb : P -> mqM P;
  map_tx_cb : P -> list Z -> Z -> mqM (tx_cb_ret_t * list Z * Z * P);
  map_rx_init_cb : P -> mqM P;
  map_rx_cb : P -> list Z -> Z -> mqM (bool * P)
}.
Arguments MapCB {P}.
Arguments map_subtype_cb {P}.
Arguments map_avtp_version_cb {P}.
Arguments map_max_data_size_cb {P}.
Arguments map_transmit_interval_cb {P}.
Arguments map_tx_init_cb {P}.
Arguments map_tx_cb {P}.
Arguments map_rx_init_cb {P}.
Arguments map_rx_cb {P}.

(** The interface module, which produces or consumes the media data. *)
Record intf_cb := IntfCB {
  intf_tx_init_cb : mqM unit;
  intf_tx_cb : mqM bool;
  intf_rx_init_cb : mqM unit;
  intf_rx_cb : mqM bool
}.

(** ** Bytes *)

(** [htons] and [htonl] as the bytes they leave in memory. *)
Definition be16 (v : Z) : list Z := [u8 (Z.shiftr v 8); u8 v].
Definition be32 (v : Z) : list Z :=
  [u8 (Z.shiftr v 24); u8 (Z.shiftr v 16); u8 (Z.shiftr v 8); u8 v].
Definition of_be (l : list Z) : Z := fold_left (fun v b => v * 256 + b) l 0.

(** [ntohs], [ntohl] of the bytes at [i]. *)
Definition get16 (buf : list Z) (i : Z) : res Z := l ← rd_list buf i 2; Ret (of_be l).
Definition get32 (buf : list Z) (i : Z) : res Z := l ← rd_list buf i 4; Ret (of_be l).

(** [buf[i] |= mask] and [buf[i] &= ~mask]. *)
Definition set_bits (buf : list Z) (i mask : Z) (on : bool) : res (list Z) :=
  b ← rd buf i;
  wr buf i (if on then Z.lor b mask else Z.land b (Z.lxor 255 mask)).

(** [memcpy] from the data of an item, from offset [off]. *)
Definition item_bytes (a : media_q_item) (off n : Z) : res (list Z) :=
  match pPubData a with
  | None => Fault (OobRead 0)
  | Some d => rd_list d off (Z.to_nat n)
  end.
(** [memcpy] to it. *)
Definition put_bytes (a : media_q_item) (off : Z) (bs : list Z) : res (list Z) :=
  match pPubData a with
  | None => Fault (OobWrite 0)
  | Some d => wr_list d off bs
  end.

Definition with_time (t : option avtp_time) (a : media_q_item) : media_q_item :=
  MediaQItem t (pPubData a) (readIdx a) (dataLen a) (itemSize a) (taken a)
    (pPubMapData a) (pPvtMapData a) (pPvtIntfData a).
Definition with_data (d : list Z) (n : Z) (a : media_q_item) : media_q_item :=
  MediaQItem (pAvtpTime a) (Some d) (readIdx a) n (itemSize a) (taken a)
    (pPubMapData a) (pPvtMapData a) (pPvtIntfData a).
Definition with_len (n : Z) (a : media_q_item) : media_q_item :=
  MediaQItem (pAvtpTime a) (pPubData a) (readIdx a) n (itemSize a) (taken a)
    (pPubMapData a) (pPvtMapData a) (pPvtIntfData a).
Definition with_read (n : Z) (a : media_q_item) : media_q_item :=
  MediaQItem (pAvtpTime a) (pPubData a) n (dataLen a) (itemSize a) (taken a)
    (pPubMapData a) (pPvtMapData a) (pPvtIntfData a).

(** ** The AVTP header *)

Definition HIDX_AVTP_HIDE7_TV1 : Z := 1.
Definition HIDX_AVTP_HIDE7_TU1 : Z := 3.
Definition HIDX_AVTP_TIMESPAMP32 : Z := 12.
Definition AVTP_V0_HEADER_SIZE : Z := 12.

(** ** Configuration values *)

Definition is_space (c : ascii) : bool :=
  let n := Z.of_nat (nat_of_ascii c) in (n =? 32) || ((9 <=? n) && (n <=? 13)).
Definition digit_of (c : ascii) : option Z :=
  let n := Z.of_nat (nat_of_ascii c) in
  if (48 <=? n) && (n <=? 57) then Some (n - 48) else None.

(** Leading decimal digits: their value, how many there are, and the rest. *)
Fixpoint scan_dec (s : string) (v : Z) (seen : bool) : Z * bool * string :=
  match s with
  | String c r =>
      match digit_of c with
      | Some d => scan_dec r (v * 10 + d) true
      | None => (v, seen, s)
      end
  | EmptyString => (v, seen, s)
  end.
Fixpoint skip_space (s : string) : string :=
  match s with
  | String c r => if is_space c then skip_space r else s
  | EmptyString => s
  end.

Definition clamp_long (z : Z) : Z :=
  Z.max (-9223372036854775808) (Z.min 9223372036854775807 z).

(** [strtol(s, &end, 10)]: the value and [end]; without digits 0 and [s]. *)
Definition strtol (s : string) : Z * string :=
  let t := skip_space s in
  let '(neg, t) :=
    match t with
    | String "-" r => (true, r)
    | String "+" r => (false, r)
    | _ => (false, t)
    end%char in
  let '(v, seen, e) := scan_dec t 0 false in
  if seen : bool then (clamp_long (if neg : bool then - v else v), e) else (0, s).

(** ** Lemmas *)

Lemma be16_len v : length (be16 v) = 2%nat. Proof. done. Qed.
Lemma be32_len v : length (be32 v) = 4%nat. Proof. done. Qed.
Lemma be16_ok v : bytes_ok (be16 v).
Proof. unfold be16. repeat constructor; apply u8_range. Qed.
Lemma be32_ok v : bytes_ok (be32 v).
Proof. unfold be32. repeat constructor; apply u8_range. Qed.

Lemma of_be16 v : of_be (be16 v) = u16 v.
Proof. unfold of_be, be16, u8, u16. cbn [fold_left]. rewrite !Z.shiftr_div_pow2 by lia. zdm. Qed.
Lemma of_be32 v : of_be (be32 v) = u32 v.
Proof. unfold of_be, be32, u8, u32. cbn [fold_left]. rewrite !Z.shiftr_div_pow2 by lia. zdm. Qed.

Lemma fold_be_nonneg l : forall v, 0 <= v -> bytes_ok l ->
  0 <= fold_left (fun v b => v * 256 + b) l v.
Proof.
  induction l as [|b l IH]; intros v Hv Hb; [done|]. inv Hb. cbn [fold_left]. apply IH; [lia|done].
Qed.

Lemma get16_at pre v rest i :
  i = Zlen pre -> get16 (pre ++ be16 v ++ rest) i = Ret (u16 v).
Proof.
  intros Hi. unfold get16. change 2%nat with (length (be16 v)).
  by rewrite rd_list_app, res_bind_ret, of_be16 by done.
Qed.
Lemma get32_at pre v rest i :
  i = Zlen pre -> get32 (pre ++ be32 v ++ rest) i = Ret (u32 v).
Proof.
  intros Hi. unfold get32. change 4%nat with (length (be32 v)).
  by rewrite rd_list_app, res_bind_ret, of_be32 by done.
Qed.

Lemma set_bits_at pre b rest i mask on :
  i = Zlen pre ->
  set_bits (pre ++ b :: rest) i mask on
  = Ret (pre ++ u8 (if on then Z.lor b mask else Z.land b (Z.lxor 255 mask)) :: rest).
Proof. intros Hi. unfold set_bits. rewrite rd_app, res_bind_ret by done. by apply wr_app. Qed.

(** Copies into and out of a buffer, as slices of it. *)
Lemma wr_list_slice buf i bs :
  0 <= i -> i + Zlen bs <= Zlen buf -> bytes_ok bs ->
  wr_list buf i bs = Ret (take (Z.to_nat i) buf ++ bs ++ drop (Z.to_nat i + length bs) buf).
Proof.
  intros Hi Hl Hb. rewrite <- (take_drop (Z.to_nat i) buf) at 1.
  rewrite <- (take_drop (length bs) (drop (Z.to_nat i) buf)) at 1.
  rewrite drop_drop. apply wr_list_app; [|rewrite length_take, length_drop|]; try done.
  - rewrite length_take. lia.
  - lia.
Qed.

Lemma rd_list_slice buf i n :
  0 <= i -> i + Z.of_nat n <= Zlen buf ->
  rd_list buf i n = Ret (take n (drop (Z.to_nat i) buf)).
Proof.
  intros Hi Hl. set (bs := take n (drop (Z.to_nat i) buf)).
  assert (Hn : n = length bs) by (subst bs; rewrite length_take, length_drop; lia).
  assert (Hs : buf = take (Z.to_nat i) buf ++ bs ++ drop n (drop (Z.to_nat i) buf))
    by (subst bs; by rewrite !take_drop).
  rewrite Hs at 1. rewrite Hn at 2. apply rd_list_app. rewrite length_take. lia.
Qed.

Lemma rd_list_bytes_ok buf i n bs : bytes_ok buf -> rd_list buf i n = Ret bs -> bytes_ok bs.
Proof.
  intros Hb. revert i bs. induction n as [|n IH]; intros i bs; cbn [rd_list]; [by intros [= <-]; constructor|].
  unfold rd. destruct (i <? 0); [done|]. destruct (buf !! Z.to_nat i) as [x|] eqn:Ex; [|done].
  rewrite res_bind_ret. destruct (rd_list buf (i + 1) n) as [r|] eqn:Er; [|done].
  intros [= <-]. constructor; [|by eapply IH].
  unfold bytes_ok in Hb. rewrite Forall_lookup in Hb. by eapply Hb.
Qed.

(** A flag in bit 0 of a header byte. *)
Definition flag_byte (b : Z) (on : bool) : Z := u8 (if on then Z.lor b 1 else Z.land b 254).

Lemma flag_byte_bit b on : Z.testbit (flag_byte b on) 0 = on.
Proof.
  unfold flag_byte, u8. change 256 with (2 ^ 8). rewrite Z.mod_pow2_bits_low by lia.
  destruct on; [rewrite Z.lor_spec; apply orb_true_r | rewrite Z.land_spec; apply andb_false_r].
Qed.

Lemma set_flag buf i b on :
  0 <= i -> buf !! Z.to_nat i = Some b ->
  set_bits buf i 1 on = Ret (<[Z.to_nat i := flag_byte b on]> buf).
Proof.
  intros Hi Hb. unfold set_bits. rewrite (rd_lookup _ _ b), res_bind_ret by done.
  apply wr_ok. apply lookup_lt_Some in Hb. lia.
Qed.

(** Header proofs: the buffer is a list of known bytes and a tail. *)
Ltac buf_len := cbn [length app be16 be32]; rewrite ?length_app; cbn [length]; lia.
Ltac buf_nat := repeat match goal with
  | |- context [Z.to_nat (Zpos ?p)] =>
      let n := eval vm_compute in (Pos.to_nat p) in change (Z.to_nat (Zpos p)) with n
  end.
Ltac buf_flag := erewrite set_flag; [|lia|reflexivity]; rewrite res_bind_ret;
  buf_nat; cbn [insert list_insert].
Ltac buf_write :=
  rewrite wr_list_slice;
    [|lia|buf_len|lazymatch goal with
                  | |- bytes_ok (be32 _) => apply be32_ok
                  | |- bytes_ok (be16 _) => apply be16_ok
                  | |- _ => unfold bytes_ok; repeat constructor; lia
                  end];
  rewrite ?res_bind_ret; buf_nat; cbn [Nat.add take drop app length be32 be16].
