(* ===== verification/MapPipe.v ===== *)
(** * The pipe mapping (lib/avtp_pipeline/map_pipe/openavb_map_pipe.c)

    One media queue item per frame: a 24-byte header and the bytes of the item.
    The callbacks, and the exact effect of transmitting and receiving. *)

From S2P Require Import Prelude AvtpTime MediaQ MediaQProps AvtpMap.
From Stdlib Require Import ZArith Lia Ascii.
From stdpp Require Import base tactics list strings option.
Open Scope Z_scope.

Definition MAP_HEADER_SIZE : Z := 12.
Definition TOTAL_HEADER_SIZE : Z := AVTP_V0_HEADER_SIZE + MAP_HEADER_SIZE.
Definition HIDX_OPENAVB_FORMAT8 : Z := 16.
Definition HIDX_AVTP_DATALEN16 : Z := 20.
Definition HIDX_VENDOR2_EUI16 : Z := 22.
Definition MAP_PIPE_OPENAVB_FORMAT : Z := 1.

Record pipe_data := PipeData {
  pp_itemCount : Z;
  pp_txInterval : Z;
  push_header : bool;
  pull_header : bool;
  maxPayloadSize : Z;
  maxDataSize : Z;
  pp_itemSize : Z;
  maxTransitUsec : Z
}.

(** ** Configuration *)

Definition openavbMapPipeCfgCB (p : pipe_data) (name value : string) : pipe_data :=
  if decide (name = "map_nv_item_count"%string) then
    PipeData (u32 (strtol value).1) (pp_txInterval p) (push_header p) (pull_header p)
      (maxPayloadSize p) (maxDataSize p) (pp_itemSize p) (maxTransitUsec p)
  else if decide (name = "map_nv_tx_rate"%string \/ name = "map_nv_tx_interval"%string) then
    PipeData (pp_itemCount p) (u32 (strtol value).1) (push_header p) (pull_header p)
      (maxPayloadSize p) (maxDataSize p) (pp_itemSize p) (maxTransitUsec p)
  else if decide (name = "map_nv_max_payload_size"%string) then
    let payload := u32 (strtol value).1 in
    let size := u32 (payload + TOTAL_HEADER_SIZE) in
    PipeData (pp_itemCount p) (pp_txInterval p) (push_header p) (pull_header p)
      payload size size (maxTransitUsec p)
  else if decide (name = "map_nv_push_header"%string) then
    if decide (strtol value = (1, EmptyString)) then
      PipeData (pp_itemCount p) (pp_txInterval p) true (pull_header p)
        (maxPayloadSize p) (maxDataSize p) (pp_itemSize p) (maxTransitUsec p)
    else p
  else if decide (name = "map_nv_pull_header"%string) then
    if decide (strtol value = (1, EmptyString)) then
      PipeData (pp_itemCount p) (pp_txInterval p) (push_header p) true
        (maxPayloadSize p) (maxDataSize p) (pp_itemSize p) (maxTransitUsec p)
    else p
  else p.

Definition pipe_defaults (inMaxTransitUsec : Z) : pipe_data :=
  PipeData 20 0 false false 1024 (1024 + TOTAL_HEADER_SIZE) (1024 + TOTAL_HEADER_SIZE)
    inMaxTransitUsec.

Definition openavbMapPipeMaxDataSizeCB (P : option pipe_data) : Z :=
  match P with Some p => u16 (maxDataSize p + TOTAL_HEADER_SIZE) | None => 0 end.
Definition openavbMapPipeTransmitIntervalCB (P : option pipe_data) : Z :=
  match P with Some p => pp_txInterval p | None => 0 end.

Section Callbacks.
Context {pf : Platform}.

(** [openavbMapPipeInitialize], as far as the queue and the module's data go. *)
Definition openavbMapPipeInitialize (inMaxTransitUsec : Z) : mqM (bool * option pipe_data) :=
  c1 ← mq_call; c2 ← mq_call;
  if negb (calloc_ok c1) || negb (calloc_ok c2) then mret (false, None)
  else _ ← openavbMediaQSetMaxLatency inMaxTransitUsec;
       mret (true, Some (pipe_defaults inMaxTransitUsec)).

Definition openavbMapPipeGenInitCB (P : option pipe_data) : mqM unit :=
  match P with
  | None => mret tt
  | Some p => _ ← openavbMediaQSetSize (s32 (pp_itemCount p)) (s32 (pp_itemSize p)); mret tt
  end.

(** The header fields, in the order in which they are written. *)
Definition pipe_header (a : media_q_item) (pData : list Z) : res (list Z) :=
  let t := pAvtpTime a in
  buf ← set_bits pData HIDX_AVTP_HIDE7_TV1 1 (openavbAvtpTimeTimestampIsValid t);
  buf ← set_bits buf HIDX_AVTP_HIDE7_TU1 1 (openavbAvtpTimeTimestampIsUncertain t);
  buf ← wr_list buf HIDX_AVTP_TIMESPAMP32 (be32 (openavbAvtpTimeGetAvtpTimestamp t));
  buf ← wr_list buf HIDX_OPENAVB_FORMAT8 [0; 0; 0; 0];
  buf ← wr buf HIDX_OPENAVB_FORMAT8 MAP_PIPE_OPENAVB_FORMAT;
  buf ← wr_list buf HIDX_AVTP_DATALEN16 (be16 (dataLen a));
  wr_list buf HIDX_VENDOR2_EUI16 [0; 0].

Definition pipe_payload (p : pipe_data) (a : media_q_item) (buf : list Z) : res (list Z * Z) :=
  bs ← item_bytes a 0 (dataLen a);
  if pull_header p
  then buf ← wr_list buf 0 bs; Ret (buf, dataLen a)
  else buf ← wr_list buf TOTAL_HEADER_SIZE bs; Ret (buf, u32 (dataLen a + TOTAL_HEADER_SIZE)).

Definition openavbMapPipeTxCB (P : option pipe_data) (pData : list Z) (len : Z)
  : mqM (tx_cb_ret_t * list Z * Z * option pipe_data) :=
  let not_ready := (TX_CB_RET_PACKET_NOT_READY, pData, len, P) in
  match P with
  | None => mret not_ready
  | Some p =>
      k ← openavbMediaQTailLock true;
      match k with
      | None => mret not_ready
      | Some k =>
          a ← item_read k;
          if 0 <? dataLen a then
            if maxDataSize p <? dataLen a
            then _ ← openavbMediaQTailPull; mret not_ready
            else
              _ ← item_write k (fun a =>
                    with_time (openavbAvtpTimeAddUSec (pAvtpTime a) (maxTransitUsec p)) a);
              a ← item_read k;
              buf ← mq_lift (pipe_header a pData);
              '(buf, len) ← mq_lift (pipe_payload p a buf);
              _ ← openavbMediaQTailPull;
              mret (TX_CB_RET_PACKET_READY, buf, len, P)
          else _ ← openavbMediaQTailPull; mret not_ready
      end
  end.

(** What is stored into the item: the whole frame or the payload; a frame that
    does not fit leaves the item empty. *)
Definition pipe_store (p : pipe_data) (pData : list Z) (len : Z) (a : media_q_item)
  : res media_q_item :=
  if push_header p then
    if len <=? itemSize a
    then bs ← rd_list pData 0 (Z.to_nat len); d ← put_bytes a 0 bs; Ret (with_data d len a)
    else Ret (with_len 0 a)
  else
    payloadLen ← get16 pData HIDX_AVTP_DATALEN16;
    if payloadLen <=? itemSize a
    then bs ← rd_list pData TOTAL_HEADER_SIZE (Z.to_nat payloadLen);
         d ← put_bytes a 0 bs; Ret (with_data d payloadLen a)
    else Ret (with_len 0 a).

(** The presentation time of a received frame. *)
Definition rx_time (pData : list Z) (n : nat) (t : option avtp_time) : res (option avtp_time) :=
  timestamp ← get32 pData HIDX_AVTP_TIMESPAMP32;
  tv ← rd pData HIDX_AVTP_HIDE7_TV1;
  tu ← rd pData HIDX_AVTP_HIDE7_TU1;
  Ret (openavbAvtpTimeSetTimestampUncertain
         (openavbAvtpTimeSetTimestampValid (openavbAvtpTimeSetToTimestamp t timestamp n)
            (Z.testbit tv 0)) (Z.testbit tu 0)).

Definition openavbMapPipeRxCB (P : option pipe_data) (pData : list Z) (len : Z)
  : mqM (bool * option pipe_data) :=
  match P with
  | None => mret (false, P)
  | Some p =>
      k ← openavbMediaQHeadLock;
      match k with
      | None => mret (false, P)
      | Some k =>
          n ← mq_call;
          a ← item_read k;
          t ← mq_lift (rx_time pData n (pAvtpTime a));
          _ ← item_write k (with_time t);
          a ← mq_lift (pipe_store p pData len (with_time t a));
          _ ← item_write k (fun _ => a);
          _ ← openavbMediaQHeadPush;
          mret (true, P)
      end
  end.

Definition pipe_cb : map_cb (option pipe_data) :=
  MapCB 0x6F 0 openavbMapPipeMaxDataSizeCB openavbMapPipeTransmitIntervalCB
    mret openavbMapPipeTxCB mret openavbMapPipeRxCB.

End Callbacks.

(** ** The frame *)

(** The header for item [a], where the AVTP layer left [b0], [b1], [b2], [b3] and
    the stream ID [sid]. *)
Definition pipe_hdr (b0 b1 b2 b3 : Z) (sid : list Z) (a : media_q_item) : list Z :=
  [b0; flag_byte b1 (openavbAvtpTimeTimestampIsValid (pAvtpTime a)); b2;
   flag_byte b3 (openavbAvtpTimeTimestampIsUncertain (pAvtpTime a))]
  ++ sid ++ be32 (openavbAvtpTimeGetAvtpTimestamp (pAvtpTime a))
  ++ [MAP_PIPE_OPENAVB_FORMAT; 0; 0; 0] ++ be16 (dataLen a) ++ [0; 0].

Lemma pipe_hdr_len b0 b1 b2 b3 sid a :
  length sid = 8%nat -> length (pipe_hdr b0 b1 b2 b3 sid a) = 24%nat.
Proof. intros H. unfold pipe_hdr. rewrite !length_app, H. done. Qed.

Lemma pipe_header_spec b0 b1 b2 b3 sid o rest a :
  length sid = 8%nat -> length o = 12%nat ->
  pipe_header a ([b0; b1; b2; b3] ++ sid ++ o ++ rest) = Ret (pipe_hdr b0 b1 b2 b3 sid a ++ rest).
Proof.
  intros Hs Ho. do 8 (destruct sid as [|? sid]; [done|]). destruct sid; [|done].
  do 12 (destruct o as [|? o]; [done|]). destruct o; [|done].
  unfold pipe_header, pipe_hdr, HIDX_AVTP_HIDE7_TV1, HIDX_AVTP_HIDE7_TU1, HIDX_AVTP_TIMESPAMP32,
    HIDX_OPENAVB_FORMAT8, HIDX_AVTP_DATALEN16, HIDX_VENDOR2_EUI16, MAP_PIPE_OPENAVB_FORMAT.
  cbn [app]. do 2 buf_flag. do 2 buf_write.
  rewrite wr_ok, res_bind_ret by buf_len.
  buf_nat. cbn [insert list_insert]. do 2 buf_write. done.
Qed.

(** ** Transmission *)

(** What the module does to an item before it sends it. *)
Definition pipe_stamp (p : pipe_data) (x : media_q_item) : media_q_item :=
  with_time (openavbAvtpTimeAddUSec (pAvtpTime x) (maxTransitUsec p)) x.

Section Specs.
Context {pf : Platform}.

(** Nothing is sent when the queue is empty; an item that is empty or too large
    is dropped. *)
Lemma pipe_tx_nothing p pData len s a :
  mq_refines s a ->
  match f_held a with x :: _ => dataLen x <= 0 \/ maxDataSize p < dataLen x | [] => True end ->
  mq_returns (openavbMapPipeTxCB (Some p) pData len) s (fun r s' =>
    r = (TX_CB_RET_PACKET_NOT_READY, pData, len, Some p) /\ mq_refines s' (fifo_pull a)).
Proof.
  intros Href Hx. cbn [openavbMapPipeTxCB].
  eapply mq_bind; [by apply tail_lock_spec|]. intros k s1. unfold fifo_lock_tail.
  destruct (f_held a) as [|x c] eqn:Ec; intros [H1 Hk].
  { subst k. apply mq_ret. unfold fifo_pull. by rewrite Ec. }
  destruct Hk as (n & -> & Hn & _).
  eapply mq_bind; [by eapply tail_read_spec|]. intros y s2 [-> ->].
  destruct (Z.ltb_spec 0 (dataLen x)).
  - rewrite (proj2 (Z.ltb_lt _ _)) by lia.
    eapply mq_bind; [by apply tail_pull_spec|]. intros ok s3 [_ H3]. by apply mq_ret.
  - eapply mq_bind; [by apply tail_pull_spec|]. intros ok s3 [_ H3]. by apply mq_ret.
Qed.

Lemma pipe_tx_frame p s a x c d b0 b1 b2 b3 sid o rest len :
  mq_refines s a -> f_held a = x :: c -> pull_header p = false ->
  0 < dataLen x <= maxDataSize p -> pPubData x = Some d -> bytes_ok d ->
  dataLen x <= Zlen d -> dataLen x <= Zlen rest -> dataLen x < 65536 ->
  length sid = 8%nat -> length o = 12%nat ->
  mq_returns (openavbMapPipeTxCB (Some p) ([b0; b1; b2; b3] ++ sid ++ o ++ rest) len) s (fun r s' =>
    r = (TX_CB_RET_PACKET_READY,
         pipe_hdr b0 b1 b2 b3 sid (pipe_stamp p x) ++ take (Z.to_nat (dataLen x)) d
           ++ drop (Z.to_nat (dataLen x)) rest,
         dataLen x + TOTAL_HEADER_SIZE, Some p)
    /\ mq_refines s' (fifo_pull (fifo_write_tail (pipe_stamp p) a))).
Proof.
  intros Href Hc Hpull Hn Hd Hb Hdl Hrl H16 Hs Ho. cbn [openavbMapPipeTxCB].
  eapply mq_bind; [by apply tail_lock_spec|]. intros k s1. unfold fifo_lock_tail. rewrite Hc.
  intros [H1 (n & -> & Hn1 & _)].
  eapply mq_bind; [by eapply tail_read_spec|]. intros y s2 [-> ->].
  rewrite (proj2 (Z.ltb_lt _ _)), (proj2 (Z.ltb_ge _ _)) by lia.
  eapply mq_bind; [by eapply tail_write_spec|]. intros [] s2 [H2 Hn2].
  eapply mq_bind; [eapply (tail_read_spec _ _ H2 n (pipe_stamp p x) c); [|done]|].
  { unfold fifo_write_tail. by rewrite Hc. }
  intros y s3 [-> ->]. eapply mq_bind_lift; [by apply pipe_header_spec|].
  assert (Hp : pipe_payload p (pipe_stamp p x) (pipe_hdr b0 b1 b2 b3 sid (pipe_stamp p x) ++ rest)
    = Ret (pipe_hdr b0 b1 b2 b3 sid (pipe_stamp p x) ++ take (Z.to_nat (dataLen x)) d
             ++ drop (Z.to_nat (dataLen x)) rest, dataLen x + TOTAL_HEADER_SIZE)).
  { unfold pipe_payload, item_bytes, pipe_stamp. cbn [pPubData dataLen with_time]. rewrite Hd, Hpull.
    rewrite rd_list_slice, res_bind_ret by lia. cbn [Z.to_nat]. rewrite drop_0.
    set (x' := with_time _ x). rewrite <- (take_drop (Z.to_nat (dataLen x)) rest) at 1.
    rewrite wr_list_app, res_bind_ret.
    - rewrite u32_id; [done|]. unfold TOTAL_HEADER_SIZE, AVTP_V0_HEADER_SIZE, MAP_HEADER_SIZE. lia.
    - by rewrite pipe_hdr_len.
    - rewrite !length_take. lia.
    - by apply Forall_take. }
  eapply mq_bind_lift; [exact Hp|]. cbv beta iota.
  eapply mq_bind; [by apply tail_pull_spec|]. intros ok s3 [_ H3]. by apply mq_ret.
Qed.

(** ** Reception *)

(** The item that stands for a received frame. *)
Definition pipe_received (t : option avtp_time) (bs : list Z) (h : media_q_item) : media_q_item :=
  with_data (bs ++ drop (length bs) (default [] (pPubData h))) (Zlen bs) (with_time t h).

Lemma pipe_rx_full P pData len s a :
  mq_refines s a -> f_free a = [] ->
  mq_returns (openavbMapPipeRxCB P pData len) s (fun r s' => r = (false, P) /\ mq_refines s' a).
Proof.
  intros Href Hf. destruct P as [p|]; [|done]. cbn [openavbMapPipeRxCB].
  eapply mq_bind; [by apply head_lock_spec|]. intros k s1 [H1 Hk]. rewrite Hf in Hk. by subst k.
Qed.

Lemma pipe_rx_store p pData len s a h f t g :
  mq_refines s a -> f_free a = h :: f -> push_header p = false ->
  rx_time pData (f_tick a) (pAvtpTime h) = Ret t ->
  pipe_store p pData len (with_time t h) = Ret (g h) -> (taken (g h) = taken h) ->
  mq_returns (openavbMapPipeRxCB (Some p) pData len) s (fun r s' =>
    r = (true, Some p)
    /\ mq_refines s' (fifo_push (fifo_write_head g (fifo_call a)))).
Proof.
  intros Href Hf Hpush Ht Hst Htk. cbn [openavbMapPipeRxCB].
  eapply mq_bind; [by apply head_lock_spec|]. rewrite Hf. intros k s1 [H1 (n & -> & Hn)].
  apply mq_bind_call. pose proof (proj1 H1) as Htick. rewrite Htick.
  pose proof (refines_call _ _ H1) as H2. rewrite Htick in H2.
  eapply mq_bind; [by eapply (head_read_spec _ (fifo_call a))|]. intros y s3 [-> ->].
  eapply mq_bind_lift; [exact Ht|].
  eapply mq_bind; [by eapply (head_write_spec _ (fifo_call a))|]. intros [] s3 [H3 Hn3].
  eapply mq_bind_lift; [exact Hst|].
  eapply mq_bind; [eapply (head_write_spec _ _ H3); [| |done]|].
  { unfold fifo_write_head. cbn [f_free fifo_call]. by rewrite Hf. }
  { done. }
  intros [] s4 [H4 Hn4].
  eapply mq_bind; [by apply head_push_spec|]. intros ok s5 [_ H5]. apply mq_ret. split; [done|].
  revert H5. unfold fifo_write_head. cbn [f_free fifo_call f_held f_tick f_stale]. by rewrite Hf.
Qed.

Lemma pipe_rx_frame p pData len s a h f d t bs :
  mq_refines s a -> f_free a = h :: f -> push_header p = false ->
  pPubData h = Some d -> Zlen bs <= itemSize h -> Zlen bs <= Zlen d -> bytes_ok bs ->
  rx_time pData (f_tick a) (pAvtpTime h) = Ret t ->
  get16 pData HIDX_AVTP_DATALEN16 = Ret (Zlen bs) ->
  rd_list pData TOTAL_HEADER_SIZE (length bs) = Ret bs ->
  mq_returns (openavbMapPipeRxCB (Some p) pData len) s (fun r s' =>
    r = (true, Some p)
    /\ mq_refines s' (fifo_push (fifo_write_head (pipe_received t bs) (fifo_call a)))).
Proof.
  intros Href Hf Hpush Hd Hsz Hdl Hb Ht H16 Hrd. eapply pipe_rx_store; [done..| |done].
  unfold pipe_store. rewrite Hpush, H16, res_bind_ret. cbn [itemSize with_time].
  rewrite (proj2 (Z.leb_le _ _)) by done. rewrite Nat2Z.id, Hrd, res_bind_ret.
  unfold put_bytes. cbn [pPubData with_time]. rewrite Hd, wr_list_slice, res_bind_ret by (done || lia).
  unfold pipe_received. by rewrite Hd.
Qed.

(** A payload larger than the item is dropped, but an empty item is pushed. *)
Lemma pipe_rx_large p pData len s a h f t n :
  mq_refines s a -> f_free a = h :: f -> push_header p = false ->
  rx_time pData (f_tick a) (pAvtpTime h) = Ret t ->
  get16 pData HIDX_AVTP_DATALEN16 = Ret n -> itemSize h < n ->
  mq_returns (openavbMapPipeRxCB (Some p) pData len) s (fun r s' =>
    r = (true, Some p)
    /\ mq_refines s' (fifo_push (fifo_write_head (fun h => with_len 0 (with_time t h)) (fifo_call a)))).
Proof.
  intros Href Hf Hpush Ht H16 Hsz.
  eapply (pipe_rx_store _ _ _ _ _ _ _ _ (fun h => with_len 0 (with_time t h))); [done..| |done].
  unfold pipe_store. rewrite Hpush, H16, res_bind_ret. cbn [itemSize with_time].
  by rewrite (proj2 (Z.leb_gt _ _)) by done.
Qed.

End Specs.
