(* ===== verification/Rawsock.v ===== *)
(** * Raw sockets (lib/avtp_pipeline/rawsock/rawsock_impl.c)

    The part of a raw socket that is independent of the operating system: the
    Ethernet header prepared for outgoing frames and the parsing of received
    ones.  How buffers are obtained and frames leave the machine is the class
    [SockIO]. *)

From S2P Require Import Prelude AvtpTime AvtpMap.
From Stdlib Require Import ZArith Lia.
From stdpp Require Import base tactics list option.
Open Scope Z_scope.

Definition ETH_ALEN : Z := 6.
Definition ETHERTYPE_8021Q : Z := 0x8100.
Definition ETHERTYPE_VLAN : Z := 0x8100.
Definition ETHERTYPE_AVTP : Z := 0x22F0.

(** Fields of an Ethernet header; [None] is a [NULL] pointer. *)
Record hdr_info := HdrInfo {
  hi_shost : option (list Z);
  hi_dhost : option (list Z);
  hi_ethertype : Z;
  hi_vlan : bool;
  hi_vlan_pcp : Z;
  hi_vlan_vid : Z
}.

(** [ethHdr] is the union of the tagged and the untagged header, 18 bytes. *)
Record base_rawsock := BaseRawsock {
  ethHdr : list Z;
  rs_ethHdrLen : Z;
  rs_ethertype : Z;
  frameSize : Z;
  txMode : bool;
  rxMode : bool;
  ifMac : list Z
}.

(** Answers of the socket to the n-th call: a buffer for a frame to send, and a
    received frame as the buffer that contains it, its offset and its length. *)
Class SockIO := {
  getTxFrame : nat -> option (list Z);
  getRxFrame : nat -> option (list Z * Z * Z)
}.

Definition sizeof_eth_hdr : Z := 14.
Definition sizeof_eth_vlan_hdr : Z := 18.

(** The constructor sets the mode and sizes; the header starts out zeroed. *)
Definition baseRawsockOpen (mac : list Z) (rx_mode tx_mode : bool) (ethertype frame_size : Z)
  : base_rawsock :=
  BaseRawsock (replicate 18 0) 0 ethertype (s32 frame_size) tx_mode rx_mode mac.

Definition with_ethHdr (h : list Z) (n : Z) (r : base_rawsock) : base_rawsock :=
  BaseRawsock h n (rs_ethertype r) (frameSize r) (txMode r) (rxMode r) (ifMac r).

Definition baseRawsockTxSetHdr (r : option base_rawsock) (h : hdr_info)
  : res (bool * option base_rawsock) :=
  match r with
  | None => Ret (false, None)
  | Some r =>
      if negb (txMode r) then Ret (false, Some r)
      else
        e ← (match hi_shost h with Some m => wr_list (ethHdr r) 6 m | None => Ret (ethHdr r) end);
        e ← (match hi_dhost h with Some m => wr_list e 0 m | None => Ret e end);
        if negb (hi_vlan h) then
          e ← wr_list e 12 (be16 (rs_ethertype r));
          Ret (true, Some (with_ethHdr e sizeof_eth_hdr r))
        else
          let bits := u16 (Z.lor (Z.land (Z.shiftl (hi_vlan_pcp h) 13) 0xE000)
                                 (Z.land (hi_vlan_vid h) 0x0FFF)) in
          e ← wr_list e 12 (be16 ETHERTYPE_VLAN);
          e ← wr_list e 14 (be16 bits);
          e ← wr_list e 16 (be16 (rs_ethertype r));
          Ret (true, Some (with_ethHdr e sizeof_eth_vlan_hdr r))
  end.

(** The buffer with the header copied into it, and the header's length. *)
Definition baseRawsockTxFillHdr (r : base_rawsock) (pBuffer : list Z) : res (list Z * Z) :=
  h ← rd_list (ethHdr r) 0 (Z.to_nat (rs_ethHdrLen r));
  b ← wr_list pBuffer 0 h;
  Ret (b, rs_ethHdrLen r).

Definition baseRawsockGetAddr (r : option base_rawsock) : option (list Z) := ifMac <$> r.

(** The header's fields and length. *)
Definition baseRawsockRxParseHdr (pBuffer : list Z) : res (hdr_info * Z) :=
  d ← rd_list pBuffer 0 6;
  s ← rd_list pBuffer 6 6;
  ethertype ← get16 pBuffer 12;
  if ethertype =? ETHERTYPE_8021Q
  then Ret (HdrInfo (Some s) (Some d) ethertype true 0 0, sizeof_eth_hdr + 4)
  else Ret (HdrInfo (Some s) (Some d) ethertype false 0 0, sizeof_eth_hdr).

(** ** The header that was set is the one that is parsed *)

(** The bytes of an Ethernet header. *)
Definition eth_bytes (d s : list Z) (vlan : bool) (pcp vid ethertype : Z) : list Z :=
  d ++ s ++ (if vlan
             then be16 ETHERTYPE_VLAN
                    ++ be16 (u16 (Z.lor (Z.land (Z.shiftl pcp 13) 0xE000) (Z.land vid 0x0FFF)))
             else []) ++ be16 ethertype.

Definition mac_ok (m : list Z) : Prop := length m = 6%nat /\ bytes_ok m.

Lemma eth_bytes_len d s vlan pcp vid e :
  mac_ok d -> mac_ok s ->
  Zlen (eth_bytes d s vlan pcp vid e) = if vlan then sizeof_eth_vlan_hdr else sizeof_eth_hdr.
Proof.
  intros [Hd _] [Hs _]. unfold eth_bytes. rewrite !length_app, Hd, Hs. by destruct vlan.
Qed.

Lemma eth_bytes_ok d s vlan pcp vid e :
  mac_ok d -> mac_ok s -> bytes_ok (eth_bytes d s vlan pcp vid e).
Proof.
  intros [_ Hd] [_ Hs]. unfold eth_bytes, bytes_ok in *.
  rewrite !Forall_app. split_and!; try done; [|apply be16_ok].
  destruct vlan; [|constructor]. rewrite Forall_app. split; apply be16_ok.
Qed.

(** The socket as [baseRawsockTxSetHdr] leaves it. *)
Definition hdr_set (r : base_rawsock) (d s : list Z) (vlan : bool) (pcp vid : Z) : Prop :=
  rs_ethHdrLen r = Zlen (eth_bytes d s vlan pcp vid (rs_ethertype r))
  /\ exists rest, ethHdr r = eth_bytes d s vlan pcp vid (rs_ethertype r) ++ rest.

Lemma set_hdr_spec r d s et vlan pcp vid :
  length (ethHdr r) = 18%nat -> txMode r = true -> mac_ok d -> mac_ok s ->
  returns (baseRawsockTxSetHdr (Some r) (HdrInfo (Some s) (Some d) et vlan pcp vid))
    (fun '(ok, r') => ok = true /\ exists r1, r' = Some r1 /\ hdr_set r1 d s vlan pcp vid
       /\ rs_ethertype r1 = rs_ethertype r /\ txMode r1 = true).
Proof.
  intros Hl Htx [Hd Hdb] [Hs Hsb]. cbn [baseRawsockTxSetHdr]. rewrite Htx. cbn [negb hi_shost hi_dhost].
  rewrite wr_list_slice, res_bind_ret by (done || lia).
  set (e1 := _ ++ s ++ _). assert (H1 : length e1 = 18%nat).
  { subst e1. rewrite !length_app, length_take, length_drop, Hs, Hl. done. }
  rewrite wr_list_slice, res_bind_ret by (done || lia).
  change (Z.to_nat 0) with 0%nat. cbn [take app Nat.add]. rewrite Hd.
  assert (He1 : drop 6 e1 = s ++ drop 12 (ethHdr r)).
  { subst e1. change (Z.to_nat 6) with 6%nat. rewrite Hs, drop_app_length'; [done|].
    rewrite length_take, Hl. done. }
  rewrite He1, take_0. cbn [app]. clear e1 H1 He1. set (t := drop 12 (ethHdr r)).
  assert (Ht : length t = 6%nat) by (subst t; rewrite length_drop, Hl; done).
  do 6 (destruct t as [|? t]; [done|]). destruct t; [|done].
  destruct vlan; cbn [hi_vlan negb].
  - rewrite (app_assoc d s).
    change [z; z0; z1; z2; z3; z4] with ([z; z0] ++ [z1; z2; z3; z4]).
    rewrite wr_list_app, res_bind_ret by (rewrite ?length_app, ?Hd, ?Hs; done || apply be16_ok).
    rewrite (app_assoc (d ++ s)).
    change [z1; z2; z3; z4] with ([z1; z2] ++ [z3; z4]).
    rewrite wr_list_app, res_bind_ret by (rewrite ?length_app, ?Hd, ?Hs; done || apply be16_ok).
    rewrite (app_assoc ((d ++ s) ++ _)).
    change [z3; z4] with ([z3; z4] ++ []).
    rewrite wr_list_app, res_bind_ret by (rewrite ?length_app, ?Hd, ?Hs; done || apply be16_ok).
    split; [done|]. eexists. split; [done|]. split; [|done].
    split; [by rewrite eth_bytes_len by done|].
    exists []. cbn [ethHdr with_ethHdr rs_ethertype]. unfold eth_bytes. by rewrite <- !app_assoc.
  - rewrite (app_assoc d s).
    change [z; z0; z1; z2; z3; z4] with ([z; z0] ++ [z1; z2; z3; z4]).
    rewrite wr_list_app, res_bind_ret by (rewrite ?length_app, ?Hd, ?Hs; done || apply be16_ok).
    split; [done|]. eexists. split; [done|]. split; [|done].
    split; [by rewrite eth_bytes_len by done|].
    exists [z1; z2; z3; z4]. cbn [ethHdr with_ethHdr rs_ethertype]. unfold eth_bytes.
    by rewrite <- !app_assoc.
Qed.

Lemma fill_hdr_spec r d s vlan pcp vid buf :
  hdr_set r d s vlan pcp vid -> mac_ok d -> mac_ok s ->
  rs_ethHdrLen r <= Zlen buf ->
  baseRawsockTxFillHdr r buf
  = Ret (eth_bytes d s vlan pcp vid (rs_ethertype r) ++ drop (Z.to_nat (rs_ethHdrLen r)) buf,
         rs_ethHdrLen r).
Proof.
  intros (Hn & rest & He) Hd Hs Hb. unfold baseRawsockTxFillHdr. rewrite He, Hn, Nat2Z.id.
  rewrite rd_list_slice, drop_0, take_app_length, res_bind_ret by (rewrite ?length_app; lia).
  rewrite wr_list_slice, res_bind_ret by (lia || by apply eth_bytes_ok). done.
Qed.

(** Parsing recovers the addresses and skips the tag. *)
Lemma parse_hdr_spec d s vlan pcp vid e rest :
  mac_ok d -> mac_ok s -> 0 <= e < 65536 -> e <> ETHERTYPE_8021Q ->
  exists h, baseRawsockRxParseHdr (eth_bytes d s vlan pcp vid e ++ rest)
    = Ret (h, Zlen (eth_bytes d s vlan pcp vid e))
    /\ hi_dhost h = Some d /\ hi_shost h = Some s /\ hi_vlan h = vlan.
Proof.
  intros Hd Hs He Hne. rewrite eth_bytes_len by done. destruct Hd as [Hd _], Hs as [Hs _].
  unfold baseRawsockRxParseHdr, eth_bytes. rewrite <- !app_assoc.
  rewrite (rd_list_slice _ 0) by (rewrite ?length_app; lia). change (Z.to_nat 0) with 0%nat.
  rewrite drop_0, (take_app_length' d), res_bind_ret by done.
  rewrite (rd_list_slice _ 6) by (rewrite ?length_app; lia). change (Z.to_nat 6) with 6%nat.
  rewrite (drop_app_length' d), (take_app_length' s), res_bind_ret by done.
  rewrite (app_assoc d s). destruct vlan.
  - rewrite <- (app_assoc (be16 ETHERTYPE_VLAN)).
    rewrite (get16_at (d ++ s)), res_bind_ret by (by rewrite length_app, Hd, Hs).
    rewrite u16_id by (unfold ETHERTYPE_VLAN; lia). rewrite Z.eqb_refl. by eexists.
  - cbn [app]. rewrite (get16_at (d ++ s)), res_bind_ret by (by rewrite length_app, Hd, Hs).
    rewrite u16_id by done. rewrite (proj2 (Z.eqb_neq _ _)) by done. by eexists.
Qed.
