(* ===== verification/Avtp.v ===== *)
(** * AVTP streams (lib/avtp_pipeline/avtp/openavb_avtp.c) and the evaluation of
    timestamps (lib/avtp_pipeline/util/openavb_timestamp.c)

    A talker asks its interface module for media, lets its mapping module fill a
    frame after the AVTP header and hands the frame to the socket; a listener
    gives every received frame to its mapping module and counts the frames that
    are missing from the sequence. *)

From S2P Require Import Prelude AvtpTime MediaQ AvtpMap Rawsock.
From Stdlib Require Import ZArith Lia.
From stdpp Require Import base tactics list option.
Open Scope Z_scope.

(** ** Evaluation of timestamps *)

Record ts_eval := TsEval {
  te_started : bool;
  tsRateInterval : Z;
  te_smoothing : bool;
  tsSmoothingMaxJitter : Z;
  tsSmoothingMaxDrift : Z;
  te_reportInterval : Z;
  tsCnt : Z;
  tsPrev : Z;
  tsInterval : Z;
  tsJitter : Z;
  tsAccumJitter : Z;
  tsDrift : Z;
  tsTtlReal : Z;
  tsTtlCalc : Z;
  tsMaxJitter : Z
}.

Definition openavbTimestampEvalInitialize (rate : Z) : ts_eval :=
  TsEval false rate false 0 0 0 0 0 0 0 0 0 0 0 0.
Definition openavbTimestampEvalSetReport (e : ts_eval) (interval : Z) : ts_eval :=
  TsEval (te_started e) (tsRateInterval e) (te_smoothing e) (tsSmoothingMaxJitter e)
    (tsSmoothingMaxDrift e) interval (tsCnt e) (tsPrev e) (tsInterval e) (tsJitter e)
    (tsAccumJitter e) (tsDrift e) (tsTtlReal e) (tsTtlCalc e) (tsMaxJitter e).
Definition openavbTimestampEvalSetSmoothing (e : ts_eval) (jitter drift : Z) : ts_eval :=
  TsEval (te_started e) (tsRateInterval e) true jitter drift (te_reportInterval e) (tsCnt e)
    (tsPrev e) (tsInterval e) (tsJitter e) (tsAccumJitter e) (tsDrift e) (tsTtlReal e)
    (tsTtlCalc e) (tsMaxJitter e).

(** The interval since the previous timestamp, as the code computes it. *)
Definition ts_interval (prev ts : Z) : Z :=
  if ts <? prev then u32 ((0xFFFFFFFF - prev) + ts) else ts - prev.

(** Returns the timestamp to use and the new statistics. *)
Definition openavbTimestampEvalTimestamp (e : ts_eval) (ts : Z) : Z * ts_eval :=
  let interval := ts_interval (tsPrev e) ts in
  let cnt := u32 (tsCnt e + 1) in
  if negb (te_started e) then
    (ts, TsEval true (tsRateInterval e) (te_smoothing e) (tsSmoothingMaxJitter e)
           (tsSmoothingMaxDrift e) (te_reportInterval e) cnt ts interval (tsJitter e)
           (tsAccumJitter e) (tsDrift e) 0 0 (tsMaxJitter e))
  else
    let calc := u64 (tsTtlCalc e + tsRateInterval e) in
    let real := u64 (tsTtlReal e + interval) in
    let jitter := u32 (Z.abs (s32 (tsRateInterval e - interval))) in
    let maxJitter := if tsMaxJitter e <? jitter then jitter else tsMaxJitter e in
    (ts, TsEval true (tsRateInterval e) (te_smoothing e) (tsSmoothingMaxJitter e)
           (tsSmoothingMaxDrift e) (te_reportInterval e) cnt ts interval jitter
           (u64 (tsAccumJitter e + jitter)) (u32 (Z.abs (s32 (calc - real)))) real calc maxJitter).

(** ** Streams *)

Inductive openavbRC :=
| OPENAVB_AVTP_SUCCESS
| OPENAVB_AVTP_FAILURE
| OPENAVB_RC_INVALID_ARGUMENT
| OPENAVB_RC_RAWSOCK_OPEN
| OPENAVBAVTP_RC_INVALID_AVTP_VERSION
| OPENAVBAVTP_RC_NO_FRAMES_PROCESSED.

#[export] Instance openavbRC_eq_dec : EqDecision openavbRC.
Proof. solve_decision. Defined.

Record avtp_stream := Stream {
  st_subtype : Z;
  streamIDnet : list Z;
  st_frameLen : Z;
  avtp_sequence_num : Z;
  bPause : bool;
  rx_bComplete : bool;
  pBuf : option (list Z);
  st_ethHdrLen : Z;
  tsEval : option ts_eval;
  nLost : Z;
  st_bytes : Z
}.

Definition with_buf (b : option (list Z)) (n : Z) (t : avtp_stream) : avtp_stream :=
  Stream (st_subtype t) (streamIDnet t) (st_frameLen t) (avtp_sequence_num t) (bPause t)
    (rx_bComplete t) b n (tsEval t) (nLost t) (st_bytes t).
Definition with_eval (e : option ts_eval) (t : avtp_stream) : avtp_stream :=
  Stream (st_subtype t) (streamIDnet t) (st_frameLen t) (avtp_sequence_num t) (bPause t)
    (rx_bComplete t) (pBuf t) (st_ethHdrLen t) e (nLost t) (st_bytes t).
Definition with_seq (n : Z) (t : avtp_stream) : avtp_stream :=
  Stream (st_subtype t) (streamIDnet t) (st_frameLen t) n (bPause t)
    (rx_bComplete t) (pBuf t) (st_ethHdrLen t) (tsEval t) (nLost t) (st_bytes t).
Definition with_bytes (n : Z) (t : avtp_stream) : avtp_stream :=
  Stream (st_subtype t) (streamIDnet t) (st_frameLen t) (avtp_sequence_num t) (bPause t)
    (rx_bComplete t) (pBuf t) (st_ethHdrLen t) (tsEval t) (nLost t) n.
Definition with_lost (n : Z) (t : avtp_stream) : avtp_stream :=
  Stream (st_subtype t) (streamIDnet t) (st_frameLen t) (avtp_sequence_num t) (bPause t)
    (rx_bComplete t) (pBuf t) (st_ethHdrLen t) (tsEval t) n (st_bytes t).
Definition with_complete (b : bool) (t : avtp_stream) : avtp_stream :=
  Stream (st_subtype t) (streamIDnet t) (st_frameLen t) (avtp_sequence_num t) (bPause t)
    b (pBuf t) (st_ethHdrLen t) (tsEval t) (nLost t) (st_bytes t).

(** A running stream: its record, the mapping module's data, its socket, the
    frames handed to the socket, the number of times they were flushed, the number
    of socket calls, and the media queue. *)
Record av_st (P : Type) := AvSt {
  av_stream : avtp_stream;
  av_map : P;
  av_sock : base_rawsock;
  av_out : list (list Z);
  av_sends : nat;
  av_io : nat;
  av_q : mq_st
}.
Arguments AvSt {P}.
Arguments av_stream {P}.
Arguments av_map {P}.
Arguments av_sock {P}.
Arguments av_out {P}.
Arguments av_sends {P}.
Arguments av_io {P}.
Arguments av_q {P}.

Definition on_stream {P} (f : avtp_stream -> avtp_stream) (s : av_st P) : av_st P :=
  AvSt (f (av_stream s)) (av_map s) (av_sock s) (av_out s) (av_sends s) (av_io s) (av_q s).
Definition io_call {P} (s : av_st P) : av_st P :=
  AvSt (av_stream s) (av_map s) (av_sock s) (av_out s) (av_sends s) (S (av_io s)) (av_q s).
Definition with_q {P} (p : P) (q : mq_st) (s : av_st P) : av_st P :=
  AvSt (av_stream s) p (av_sock s) (av_out s) (av_sends s) (av_io s) q.

(** The stream ID in network form. *)
Definition stream_id_net (addr : list Z) (uniqueID : Z) : list Z := addr ++ be16 uniqueID.

Definition ETH_HDR_LEN_VLAN : Z := 18.

Section Stream.
Context {pf : Platform} {io : SockIO} {P : Type} (cb : map_cb P) (intf : intf_cb).

(** [openavbAvtpTxInit] once the stream record is allocated; [sock] is what the
    opening of the raw socket returned. *)
Definition openavbAvtpTxInit (p : P) (q : mq_st) (sock : option base_rawsock)
  (addr : list Z) (uniqueID : Z) (destAddr : list Z) (vlanID vlanPCP : Z)
  : res (openavbRC * option (av_st P)) :=
  '(p, q) ← map_tx_init_cb cb p q;
  '(_, q) ← intf_tx_init_cb intf q;
  let frameLen := u16 (map_max_data_size_cb cb p + ETH_HDR_LEN_VLAN) in
  match sock with
  | None => Ret (OPENAVB_RC_RAWSOCK_OPEN, None)
  | Some r =>
      let vlan := negb (vlanPCP =? 0) || negb (vlanID =? 0) in
      '(_, r) ← baseRawsockTxSetHdr (Some r)
                  (HdrInfo (Some (ifMac r)) (Some destAddr) 0 vlan vlanPCP vlanID);
      match r with
      | None => Ret (OPENAVB_AVTP_FAILURE, None)
      | Some r =>
          Ret (OPENAVB_AVTP_SUCCESS,
               Some (AvSt (Stream (map_subtype_cb cb) (stream_id_net addr uniqueID) frameLen 0
                             false false None 0 None 0 0) p r [] 0 0 q))
      end
  end.

Definition openavbAvtpRxInit (p : P) (q : mq_st) (sock : option base_rawsock)
  (addr : list Z) (uniqueID : Z) : res (openavbRC * option (av_st P)) :=
  '(p, q) ← map_rx_init_cb cb p q;
  '(_, q) ← intf_rx_init_cb intf q;
  let frameLen := u16 (map_max_data_size_cb cb p + ETH_HDR_LEN_VLAN) in
  match sock with
  | None => Ret (OPENAVB_RC_RAWSOCK_OPEN, None)
  | Some r =>
      Ret (OPENAVB_AVTP_SUCCESS,
           Some (AvSt (Stream (map_subtype_cb cb) (stream_id_net addr uniqueID) frameLen 0
                         false false None 0 None (-1) 0) p r [] 0 0 q))
  end.

(** [None]: a version other than 0. *)
Definition fillAvtpHdr (t : avtp_stream) (pFill : list Z) : res (option (list Z)) :=
  if map_avtp_version_cb cb =? 0 then
    b ← wr pFill 0 (Z.land (st_subtype t) 0x7F);
    b ← wr b 1 0x81;
    b ← wr b 2 (avtp_sequence_num t);
    b ← wr b 3 0;
    b ← wr_list b 4 (streamIDnet t);
    Ret (Some b)
  else Ret None.

Definition processTimestampEval (t : avtp_stream) (pHdr : list Z)
  : res (avtp_stream * list Z) :=
  match tsEval t with
  | None => Ret (t, pHdr)
  | Some e =>
      tv ← rd pHdr HIDX_AVTP_HIDE7_TV1;
      tu ← rd pHdr HIDX_AVTP_HIDE7_TU1;
      if Z.testbit tv 0 && negb (Z.testbit tu 0) then
        ts ← get32 pHdr HIDX_AVTP_TIMESPAMP32;
        let '(tsSmoothed, e) := openavbTimestampEvalTimestamp e ts in
        b ← (if tsSmoothed =? ts then Ret pHdr
             else wr_list pHdr HIDX_AVTP_TIMESPAMP32 (be32 tsSmoothed));
        Ret (with_eval (Some e) t, b)
      else Ret (t, pHdr)
  end.

(** A transmit buffer with the Ethernet header in it, unless one is held; the
    [assert] on its size is a fault. *)
Definition tx_buffer (s : av_st P) : res (av_st P) :=
  match pBuf (av_stream s) with
  | Some _ => Ret s
  | None =>
      match getTxFrame (av_io s) with
      | None => Ret (on_stream (with_buf None (st_ethHdrLen (av_stream s))) (io_call s))
      | Some b =>
          if Zlen b <? st_frameLen (av_stream s) then Fault (OobWrite (Zlen b))
          else '(b, n) ← baseRawsockTxFillHdr (av_sock s) b;
               Ret (on_stream (with_buf (Some b) n) (io_call s))
      end
  end.

(** The calls of the interface and mapping modules, in the order of the mode:
    the result, the frame and its length, and the new state. *)
Definition tx_modules (blocking : bool) (pAvtp : list Z) (len : Z) (s : av_st P)
  : res (tx_cb_ret_t * list Z * Z * av_st P) :=
  if negb blocking then
    '(_, q) ← intf_tx_cb intf (av_q s);
    '(r, f, len, p, q) ← map_tx_cb cb (av_map s) pAvtp len q;
    Ret (r, f, len, on_stream (fun t => with_bytes (u64 (st_bytes t + len)) t) (with_q p q s))
  else
    '(r, f, len, p, q) ← map_tx_cb cb (av_map s) pAvtp len (av_q s);
    if decide (r = TX_CB_RET_PACKET_NOT_READY) then
      '(_, q) ← intf_tx_cb intf q; Ret (r, f, len, with_q p q s)
    else
      Ret (r, f, len, on_stream (fun t => with_bytes (u64 (st_bytes t + len)) t) (with_q p q s)).

(** What follows the modules: a frame that is ready is numbered and handed to the
    socket, otherwise the buffer is kept; [eth] is the Ethernet header in it. *)
Definition tx_finish (bSend : bool) (eth : list Z) (r : tx_cb_ret_t) (f : list Z) (len : Z)
  (s : av_st P) : res (openavbRC * option (av_st P)) :=
  if decide (r = TX_CB_RET_PACKET_NOT_READY) then
    Ret (OPENAVB_AVTP_FAILURE,
         Some (on_stream (with_buf (Some (eth ++ f)) (st_ethHdrLen (av_stream s))) s))
  else
    '(t, f) ← processTimestampEval (av_stream s) f;
    frame ← rd_list (eth ++ f) 0 (Z.to_nat (u32 (len + st_ethHdrLen t)));
    Ret (OPENAVB_AVTP_SUCCESS,
         Some (AvSt (with_buf None (st_ethHdrLen t) (with_seq (u8 (avtp_sequence_num t + 1)) t))
                 (av_map s) (av_sock s) (av_out s ++ [frame])
                 (if bSend then S (av_sends s) else av_sends s) (av_io s) (av_q s))).

Definition openavbAvtpTx (pv : option (av_st P)) (bSend txBlockingInIntf : bool)
  : res (openavbRC * option (av_st P)) :=
  match pv with
  | None => Ret (OPENAVB_RC_INVALID_ARGUMENT, None)
  | Some s =>
      s ← tx_buffer s;
      match pBuf (av_stream s) with
      | None => Ret (OPENAVB_AVTP_FAILURE, Some s)
      | Some b =>
          let n := Z.to_nat (st_ethHdrLen (av_stream s)) in
          o ← fillAvtpHdr (av_stream s) (drop n b);
          match o with
          | None => Ret (OPENAVBAVTP_RC_INVALID_AVTP_VERSION, Some s)
          | Some f =>
              '(r, f, len, s) ← tx_modules txBlockingInIntf f
                 (u32 (st_frameLen (av_stream s) - st_ethHdrLen (av_stream s))) s;
              tx_finish bSend (take n b) r f len s
          end
      end
  end.

(** ** Reception *)

(** The count of lost frames after a frame with sequence number [rxSeq]. *)
Definition lost_after (t : avtp_stream) (rxSeq : Z) : Z :=
  if nLost t =? -1 then 0
  else if negb (avtp_sequence_num t =? rxSeq)
       then s32 (nLost t + u8 ((rxSeq - avtp_sequence_num t)
                               + (if rxSeq <? avtp_sequence_num t then 256 else 0)))
       else nLost t.

Definition x_avtpRxFrame (s : av_st P) (pFrame : list Z) (frameLen : Z) : res (av_st P) :=
  b0 ← rd pFrame 0;
  if Z.land b0 0x80 =? 0 then
    flags ← rd pFrame 1;
    let avtpVersion := Z.land (Z.shiftr flags 4) 0x07 in
    if avtpVersion =? 0 then
      rxSeq ← rd pFrame 2;
      let t := av_stream s in
      let t := with_bytes (u64 (st_bytes t + frameLen))
                 (with_seq (u8 (rxSeq + 1)) (with_lost (lost_after t rxSeq) t)) in
      _ ← rd pFrame 3;
      '(t, pFrame) ← processTimestampEval t pFrame;
      '(_, p, q) ← map_rx_cb cb (av_map s) pFrame frameLen (av_q s);
      Ret (on_stream (fun _ => with_complete true t) (with_q p q s))
    else Ret s
  else Ret s.

(** The loop of [avtpTryRx] that waits for a frame; [None]: gave up. *)
Fixpoint rx_wait (fuel : nat) (s : av_st P) : res (option (list Z * Z * Z) * av_st P) :=
  match fuel with
  | O => Fault OutOfFuel
  | S fuel =>
      '(t, q) ← openavbMediaQUsecTillTail (av_q s);
      let s := with_q (av_map s) q s in
      match t with
      | None => Ret (getRxFrame (av_io s), io_call s)
      | Some timeout =>
          if timeout =? 0 then
            '(_, q) ← intf_rx_cb intf (av_q s); rx_wait fuel (with_q (av_map s) q s)
          else
            match getRxFrame (av_io s) with
            | Some f => Ret (Some f, io_call s)
            | None =>
                let s := io_call s in
                '(_, q) ← intf_rx_cb intf (av_q s); rx_wait fuel (with_q (av_map s) q s)
            end
      end
  end.

(** A received frame, [frameLen] bytes at [offsetToFrame] of the buffer; the
    Ethernet header is parsed at the start of the buffer. *)
Definition rx_deliver (s : av_st P) (buf : list Z) (offsetToFrame frameLen : Z)
  : res (av_st P) :=
  '(_, hdrLen) ← baseRawsockRxParseHdr buf;
  x_avtpRxFrame s (drop (Z.to_nat (offsetToFrame + hdrLen)) buf) (u32 (frameLen - hdrLen)).

Definition avtpTryRx (fuel : nat) (s : av_st P) : res (av_st P) :=
  '(o, s) ← rx_wait fuel s;
  match o with
  | None => Ret s
  | Some (buf, offsetToFrame, frameLen) => rx_deliver s buf offsetToFrame frameLen
  end.

Definition openavbAvtpRx (fuel : nat) (pv : option (av_st P))
  : res (openavbRC * option (av_st P)) :=
  match pv with
  | None => Ret (OPENAVB_RC_INVALID_ARGUMENT, None)
  | Some s =>
      s ← avtpTryRx fuel s;
      if rx_bComplete (av_stream s)
      then Ret (OPENAVB_AVTP_SUCCESS, Some (on_stream (with_complete false) s))
      else Ret (OPENAVBAVTP_RC_NO_FRAMES_PROCESSED, Some s)
  end.

(** ** Statistics and settings *)

Definition openavbAvtpLost (pv : option (av_st P)) : Z * option (av_st P) :=
  match pv with
  | None => (0, None)
  | Some s => (nLost (av_stream s), Some (on_stream (with_lost 0) s))
  end.

Definition openavbAvtpBytes (pv : option (av_st P)) : Z * option (av_st P) :=
  match pv with
  | None => (0, None)
  | Some s => (st_bytes (av_stream s), Some (on_stream (with_bytes 0) s))
  end.

Definition openavbAvtpConfigTimsstampEval (pv : option (av_st P))
  (interval report : Z) (smoothing : bool) (jitter drift : Z) : option (av_st P) :=
  (fun s =>
     let e := openavbTimestampEvalSetReport (openavbTimestampEvalInitialize interval) report in
     let e := if smoothing then openavbTimestampEvalSetSmoothing e jitter drift else e in
     on_stream (with_eval (Some e)) s) <$> pv.

Definition openavbAvtpPause (pv : option (av_st P)) (pause : bool) : option (av_st P) :=
  on_stream (fun t =>
    Stream (st_subtype t) (streamIDnet t) (st_frameLen t) (avtp_sequence_num t) pause
      (rx_bComplete t) (pBuf t) (st_ethHdrLen t) (tsEval t) (nLost t) (st_bytes t)) <$> pv.

End Stream.
