(* ===== verification/AvtpProps.v ===== *)
(** * AVTP frames, sent and received (lib/avtp_pipeline/avtp/openavb_avtp.c)

    The effect of transmitting one frame for a mapping module that meets the
    contract [TxModule], and of receiving one, as equations. *)

From S2P Require Import Prelude AvtpTime MediaQ MediaQProps AvtpMap Rawsock Avtp.
From Stdlib Require Import ZArith Lia.
From stdpp Require Import base tactics list option.
Open Scope Z_scope.

(** ** The header *)

(** The common part of the AVTP header. *)
Definition avtp_hdr (t : avtp_stream) : list Z :=
  [u8 (Z.land (st_subtype t) 0x7F); 0x81; u8 (avtp_sequence_num t); 0] ++ streamIDnet t.

Lemma avtp_hdr_len t : length (streamIDnet t) = 8%nat -> length (avtp_hdr t) = 12%nat.
Proof. intros H. unfold avtp_hdr. rewrite length_app, H. done. Qed.

(** The subtype leaves the control bit clear. *)
Lemma subtype_is_data z : Z.land (u8 (Z.land z 0x7F)) 0x80 = 0.
Proof.
  rewrite u8_id.
  - rewrite <- Z.land_assoc. apply Z.land_0_r.
  - change 0x7F with (Z.ones 7). rewrite Z.land_ones by lia.
    pose proof (Z.mod_pos_bound z (2 ^ 7) ltac:(lia)). change (2 ^ 7) with 128 in *. lia.
Qed.

Lemma fill_avtp_spec {P} (cb : map_cb P) t b :
  map_avtp_version_cb cb = 0 -> length (streamIDnet t) = 8%nat -> bytes_ok (streamIDnet t) ->
  12 <= Zlen b ->
  fillAvtpHdr cb t b = Ret (Some (avtp_hdr t ++ drop 12 b)).
Proof.
  intros Hv Hs Hb Hl. unfold fillAvtpHdr. rewrite Hv. cbn [Z.eqb].
  do 4 (destruct b as [|? b]; [cbn in Hl; lia|]). cbn [length] in Hl.
  rewrite wr_ok, res_bind_ret by buf_len. change (Z.to_nat 0) with 0%nat. cbn [insert list_insert].
  do 3 (rewrite wr_ok, res_bind_ret by buf_len; buf_nat; cbn [insert list_insert]).
  rewrite wr_list_slice, res_bind_ret by (cbn [length]; done || lia).
  buf_nat. rewrite Hs. cbn [take drop app Nat.add]. unfold avtp_hdr.
  rewrite <- app_assoc. done.
Qed.

(** Evaluating timestamps changes only the statistics. *)
Lemma process_eval_spec t b :
  16 <= Zlen b ->
  exists e, processTimestampEval t b = Ret (with_eval e t, b).
Proof.
  intros Hl. unfold processTimestampEval. destruct (tsEval t) as [e|] eqn:Ee.
  2: { exists None. destruct t. cbn in Ee. by subst. }
  destruct (returns_inv _ _ (rd_ok b HIDX_AVTP_HIDE7_TV1 ltac:(cbv [HIDX_AVTP_HIDE7_TV1]; lia))) as (tv & -> & _).
  destruct (returns_inv _ _ (rd_ok b HIDX_AVTP_HIDE7_TU1 ltac:(cbv [HIDX_AVTP_HIDE7_TU1]; lia))) as (tu & -> & _).
  rewrite !res_bind_ret. destruct (_ && _).
  - unfold get32, HIDX_AVTP_TIMESPAMP32. rewrite rd_list_slice, !res_bind_ret by lia.
    unfold openavbTimestampEvalTimestamp. cbv zeta.
    destruct (negb (te_started e)); rewrite Z.eqb_refl, res_bind_ret; by eexists.
  - exists (Some e). destruct t. cbn in Ee. by subst.
Qed.

(** ** Sending *)

(** What the AVTP layer relies on in a mapping module that transmits: from a state
    with the invariant [I] and with room for [L] bytes the callback returns, keeps
    [I] and the size of the buffer, reports at most the space it was given, and a
    frame that is ready still carries its sequence number. *)
Class TxModule {P} (cb : map_cb P) (I : P -> mq_st -> Prop) (L : Z) : Prop := {
  tx_version : map_avtp_version_cb cb = 0;
  tx_room : 24 <= L;
  tx_returns p f len q :
    I p q -> L <= len <= Zlen f ->
    mq_returns (map_tx_cb cb p f len) q (fun '(r, f', len', p') q' =>
      I p' q' /\ length f' = length f /\ 0 <= len' <= len
      /\ (r <> TX_CB_RET_PACKET_NOT_READY -> 3 <= len' /\ f' !! 2%nat = f !! 2%nat))
}.

(** A talker whose header is set and whose buffers are large enough. *)
Record talker_ok {io : SockIO} (L : Z) (t : avtp_stream) (r : base_rawsock) (dst src : list Z)
  (vlan : bool) (pcp vid : Z) : Prop := {
  tk_hdr : hdr_set r dst src vlan pcp vid;
  tk_dst : mac_ok dst;
  tk_src : mac_ok src;
  tk_sid : length (streamIDnet t) = 8%nat /\ bytes_ok (streamIDnet t);
  tk_seq : 0 <= avtp_sequence_num t < 256;
  tk_len : 24 <= L /\ rs_ethHdrLen r + L <= st_frameLen t < 65536;
  tk_bufs : forall n b, getTxFrame n = Some b -> st_frameLen t <= Zlen b;
  tk_held : forall b, pBuf t = Some b ->
      st_frameLen t <= Zlen b /\ st_ethHdrLen t = rs_ethHdrLen r
      /\ take (Z.to_nat (rs_ethHdrLen r)) b = eth_bytes dst src vlan pcp vid (rs_ethertype r)
}.

Section Tx.
Context {pf : Platform} {io : SockIO} {P : Type} (cb : map_cb P) (intf : intf_cb).
Context (L : Z) (dst src : list Z) (vlan : bool) (pcp vid : Z).
Implicit Type s : av_st P.

Abbreviation talker t r := (talker_ok L t r dst src vlan pcp vid).
Abbreviation eth r := (eth_bytes dst src vlan pcp vid (rs_ethertype r)).

Lemma tx_buffer_spec s :
  talker (av_stream s) (av_sock s) ->
  exists b n s1, tx_buffer s = Ret (on_stream (with_buf b n) s1)
    /\ (s1 = s \/ s1 = io_call s) /\ talker (with_buf b n (av_stream s)) (av_sock s)
    /\ (b = None <-> pBuf (av_stream s) = None /\ getTxFrame (av_io s) = None).
Proof.
  intros Hk. unfold tx_buffer. destruct (pBuf (av_stream s)) as [b|] eqn:Eb.
  { exists (Some b), (st_ethHdrLen (av_stream s)), s.
    assert (E : with_buf (Some b) (st_ethHdrLen (av_stream s)) (av_stream s) = av_stream s).
    { destruct (av_stream s); cbn in *. by subst. }
    unfold on_stream. rewrite E. split_and!; [by destruct s | by left | done | split; [done | by intros [? _]]]. }
  destruct (getTxFrame (av_io s)) as [b|] eqn:Eg.
  - pose proof (tk_bufs _ _ _ _ _ _ _ _ Hk _ _ Eg) as Hb. pose proof (tk_len _ _ _ _ _ _ _ _ Hk).
    rewrite (proj2 (Z.ltb_ge _ _)) by done.
    rewrite (fill_hdr_spec _ dst src vlan pcp vid), res_bind_ret; [|apply Hk..|lia].
    do 3 eexists. split; [reflexivity|]. split; [by right|].
    split; [|split; [done|by intros [_ ?]]].
    destruct (tk_hdr _ _ _ _ _ _ _ _ Hk) as [Hn _].
    destruct Hk; split; try done. intros b' [= <-].
    split_and!; [|done|].
    + rewrite length_app, length_drop. cbn [st_frameLen with_buf] in *. lia.
    + rewrite take_app_length'; [done|]. lia.
  - do 3 eexists. split; [reflexivity|]. split; [by right|]. split; [|done].
    destruct Hk; split; try done.
Qed.

(** With a buffer, what is left to do is the modules' work on the filled header. *)
Lemma tx_unfold s b n s1 bSend blocking :
  map_avtp_version_cb cb = 0 -> talker (with_buf (Some b) n (av_stream s)) (av_sock s) ->
  tx_buffer s = Ret (on_stream (with_buf (Some b) n) s1) -> s1 = s \/ s1 = io_call s ->
  let s1 := on_stream (with_buf (Some b) n) s1 in
  exists o, Zlen o = Zlen b - rs_ethHdrLen (av_sock s) - 12
  /\ openavbAvtpTx cb intf (Some s) bSend blocking
  = ('(r, f, len, s2) ← tx_modules cb intf blocking (avtp_hdr (av_stream s) ++ o)
       (st_frameLen (av_stream s) - rs_ethHdrLen (av_sock s)) s1;
     tx_finish bSend (eth (av_sock s)) r f len s2).
Proof.
  intros Hv Hk Hb Hs1. cbn zeta. destruct (tk_held _ _ _ _ _ _ _ _ Hk b eq_refl) as (Hl & Hn & Ht).
  pose proof (tk_len _ _ _ _ _ _ _ _ Hk) as Hlen. destruct (tk_sid _ _ _ _ _ _ _ _ Hk) as [Hs Hsb].
  destruct (tk_hdr _ _ _ _ _ _ _ _ Hk) as [Hr _]. cbn [st_frameLen st_ethHdrLen with_buf streamIDnet] in *.
  subst n. set (k := rs_ethHdrLen (av_sock s)) in *.
  assert (Et : av_stream (on_stream (with_buf (Some b) k) s1) = with_buf (Some b) k (av_stream s))
    by (destruct Hs1 as [->| ->]; done).
  exists (drop 12 (drop (Z.to_nat k) b)). split; [rewrite !length_drop; lia|].
  cbn [openavbAvtpTx]. rewrite Hb, res_bind_ret, Et.
  cbn [pBuf with_buf st_ethHdrLen st_frameLen]. cbv zeta. rewrite Ht.
  rewrite fill_avtp_spec, res_bind_ret; [|done..|rewrite length_drop; cbn [st_frameLen]; lia].
  rewrite u32_id by lia. done.
Qed.

Context (I : P -> mq_st -> Prop) `{!TxModule cb I L}.
Hypothesis intf_tx_keeps : forall p q, I p q ->
  mq_returns (intf_tx_cb intf) q (fun _ q' => I p q').

(** The modules leave the stream alone, except for the number of bytes. *)
Lemma tx_modules_spec blocking f len s :
  I (av_map s) (av_q s) -> L <= len <= Zlen f ->
  returns (tx_modules cb intf blocking f len s) (fun '(r, f', len', s') =>
    I (av_map s') (av_q s') /\ length f' = length f /\ 0 <= len' <= len
    /\ (r <> TX_CB_RET_PACKET_NOT_READY -> 3 <= len' /\ f' !! 2%nat = f !! 2%nat)
    /\ (exists n, av_stream s' = with_bytes n (av_stream s))
    /\ av_sock s' = av_sock s /\ av_out s' = av_out s).
Proof.
  intros HI Hl. unfold tx_modules. destruct blocking; cbn [negb].
  - eapply returns_bind; [by apply (tx_returns (I := I))|]. intros [[[[r f'] len'] p'] q'] (HI' & Hf & Hl' & Hr).
    case_decide.
    + eapply returns_bind; [by eapply intf_tx_keeps|]. intros [? q2] HI2. cbn [returns].
      split_and!; try done; try apply Hl'. exists (st_bytes (av_stream s)). destruct s as [[]]. done.
    + cbn [returns]. split_and!; try done; try apply Hl'. by eexists.
  - eapply returns_bind; [by eapply intf_tx_keeps|]. intros [? q2] HI2.
    eapply returns_bind; [by apply (tx_returns (I := I))|]. intros [[[[r f'] len'] p'] q'] (HI' & Hf & Hl' & Hr).
    cbn [returns]. split_and!; try done; try apply Hl'. by eexists.
Qed.

(** What one call does to a talker. *)
Definition tx_step_ok (s s' : av_st P) (rc : openavbRC) : Prop :=
  talker (av_stream s') (av_sock s') /\ I (av_map s') (av_q s') /\ av_sock s' = av_sock s
  /\ (rc = OPENAVB_AVTP_FAILURE /\ av_out s' = av_out s
      /\ avtp_sequence_num (av_stream s') = avtp_sequence_num (av_stream s)
      \/ rc = OPENAVB_AVTP_SUCCESS /\ exists f,
         av_out s' = av_out s ++ [eth (av_sock s) ++ f]
         /\ f !! 2%nat = Some (avtp_sequence_num (av_stream s))
         /\ avtp_sequence_num (av_stream s') = u8 (avtp_sequence_num (av_stream s) + 1)).

Lemma tx_step s bSend blocking :
  talker (av_stream s) (av_sock s) -> I (av_map s) (av_q s) ->
  returns (openavbAvtpTx cb intf (Some s) bSend blocking) (fun '(rc, o) =>
    exists s', o = Some s' /\ tx_step_ok s s' rc).
Proof.
  intros Hk HI. destruct (tx_buffer_spec s Hk) as (b & n & s1 & Hb & Hs1 & Hk1 & _).
  destruct b as [b|].
  2: { cbn [openavbAvtpTx]. rewrite Hb, res_bind_ret. cbn [pBuf on_stream av_stream with_buf].
       eexists. split; [done|]. destruct Hs1 as [->| ->]; split_and!; try done; by left. }
  destruct (tx_unfold s b n s1 bSend blocking tx_version Hk1 Hb Hs1) as (o & Ho & ->).
  destruct (tk_held _ _ _ _ _ _ _ _ Hk1 b eq_refl) as (Hl & Hn & Ht).
  pose proof (tk_len _ _ _ _ _ _ _ _ Hk) as Hlen.
  destruct (tk_sid _ _ _ _ _ _ _ _ Hk) as [Hs _]. destruct (tk_hdr _ _ _ _ _ _ _ _ Hk) as [Hr _].
  pose proof (avtp_hdr_len _ Hs) as Hh. cbn [st_frameLen with_buf] in Hl.
  eapply returns_bind; [apply tx_modules_spec|].
  { by destruct Hs1 as [->| ->]. } { rewrite length_app, Hh. lia. }
  intros [[[r f] len] s2] (HI2 & Hf & Hl2 & Hrd & (m & Es) & Esk & Eo).
  rewrite length_app, Hh in Hf.
  assert (Es2 : av_stream s2 = with_bytes m (with_buf (Some b) n (av_stream s))).
  { rewrite Es. by destruct Hs1 as [->| ->]. }
  replace (av_sock (on_stream _ s1)) with (av_sock s) in Esk by (by destruct Hs1 as [->| ->]).
  replace (av_out (on_stream _ s1)) with (av_out s) in Eo by (by destruct Hs1 as [->| ->]).
  cbn [with_buf st_ethHdrLen] in Hn. subst n.
  unfold tx_finish. case_decide as Er.
  - eexists. split; [done|]. split_and!; [|done|done|left; split_and!; [done|done|by cbn; rewrite Es2]].
    cbn [on_stream av_stream av_sock]. rewrite Es2, Esk.
    destruct Hk1; split; try done. intros b' [= <-]. cbn [st_frameLen st_ethHdrLen with_buf with_bytes] in *.
    split_and!; [|done|rewrite take_app_length'; [done|lia]]. rewrite length_app. lia.
  - destruct (process_eval_spec (av_stream s2) f) as [e ->]; [lia|]. rewrite res_bind_ret.
    rewrite Es2. cbn [st_ethHdrLen with_eval with_bytes with_buf]. rewrite u32_id by lia.
    rewrite rd_list_slice, res_bind_ret by (rewrite ?length_app; lia).
    eexists. split; [done|]. split_and!; try done.
    + cbn [av_stream av_sock]. rewrite Esk. destruct Hk1; split; try done.
      apply u8_range.
    + right. split; [done|]. cbn [av_out av_stream]. rewrite Eo, drop_0.
      exists (take (Z.to_nat len) f). destruct (Hrd Er) as [Hl3 Hf2]. split_and!.
      * do 2 f_equal. rewrite take_app. f_equal; [apply take_ge; lia|]. f_equal. lia.
      * rewrite lookup_take_lt by lia. rewrite Hf2. unfold avtp_hdr. cbn [lookup app list_lookup].
        by rewrite u8_id by apply Hk.
      * done.
Qed.

End Tx.

(** ** Receiving *)

(** What the AVTP layer relies on in a mapping module that receives: on the frames
    [F] it returns and keeps its invariant. *)
Class RxModule {P} (cb : map_cb P) (I : P -> mq_st -> Prop) (F : list Z -> Prop) : Prop := {
  rx_returns p f len q :
    I p q -> F f -> mq_returns (map_rx_cb cb p f len) q (fun '(_, p') q' => I p' q')
}.

(** The header of a frame that is accepted: a stream data frame of version 0 with
    sequence number [n]. *)
Definition avtp_frame (f : list Z) (n : Z) : Prop :=
  exists b0 b1 b3 r, f = [b0; b1; n; b3] ++ r /\ Z.land b0 0x80 = 0
    /\ Z.land (Z.shiftr b1 4) 0x07 = 0 /\ 12 <= Zlen r.

Section Rx.
Context {pf : Platform} {io : SockIO} {P : Type} (cb : map_cb P) (intf : intf_cb).
Implicit Type s : av_st P.

(** The stream after a frame numbered [n], except for the statistics. *)
Definition rx_numbered (t t' : avtp_stream) (n : Z) : Prop :=
  avtp_sequence_num t' = u8 (n + 1) /\ nLost t' = lost_after t n.

Lemma rx_frame_spec s f len n :
  avtp_frame f n ->
  exists t, x_avtpRxFrame cb s f len
    = ('(_, p, q) ← map_rx_cb cb (av_map s) f len (av_q s);
       Ret (on_stream (fun _ => with_complete true t) (with_q p q s)))
    /\ rx_numbered (av_stream s) t n.
Proof.
  intros (b0 & b1 & b3 & r & -> & H0 & H1 & Hr). unfold x_avtpRxFrame.
  rewrite (rd_lookup _ 0 b0), res_bind_ret, H0 by done. cbn [Z.eqb].
  rewrite (rd_lookup _ 1 b1), res_bind_ret, H1 by done. cbn [Z.eqb]. cbv zeta.
  rewrite (rd_lookup _ 2 n), res_bind_ret by done.
  rewrite (rd_lookup _ 3 b3), res_bind_ret by done.
  match goal with |- context [processTimestampEval ?t ?b] =>
    destruct (process_eval_spec t b) as [e ->] end; [rewrite length_app; cbn [length]; lia|].
  rewrite res_bind_ret. by eexists.
Qed.

(** Frames given to the listener one after the other. *)
Fixpoint rx_frames (s : av_st P) (fs : list (list Z)) : res (av_st P) :=
  match fs with
  | [] => Ret s
  | f :: fs => s ← x_avtpRxFrame cb s f (Zlen f); rx_frames s fs
  end.

Context (I : P -> mq_st -> Prop) (F : list Z -> Prop) `{!RxModule cb I F}.

Lemma rx_step s f len n :
  I (av_map s) (av_q s) -> F f -> avtp_frame f n ->
  returns (x_avtpRxFrame cb s f len) (fun s' =>
    I (av_map s') (av_q s') /\ rx_numbered (av_stream s) (av_stream s') n).
Proof.
  intros HI HF Hf. destruct (rx_frame_spec s f len n Hf) as (t & -> & Ht).
  eapply returns_bind; [by apply (rx_returns (I := I) (F := F))|].
  intros [[ok p] q] HI'. done.
Qed.

End Rx.

(** Frame numbers that grow by at most one round of the sequence number. *)
Fixpoint numbered (n : Z) (ns : list Z) : Prop :=
  match ns with
  | [] => True
  | m :: ns => n < m <= n + 256 /\ numbered m ns
  end.

Fixpoint last_number (n : Z) (ns : list Z) : Z :=
  match ns with
  | [] => n
  | m :: ns => last_number m ns
  end.

Lemma numbered_last n ns : numbered n ns -> n + Zlen ns <= last_number n ns.
Proof.
  revert n. induction ns as [|m ns IH]; intros n; cbn [numbered length last_number]; [lia|].
  intros [? H]. specialize (IH m H). lia.
Qed.

(** One frame whose number is ahead by up to a round adds what it skipped. *)
Lemma lost_gap t n m :
  avtp_sequence_num t = u8 (n + 1) -> nLost t <> -1 -> n < m <= n + 256 ->
  -2147483648 <= nLost t + (m - n - 1) < 2147483648 ->
  lost_after t (u8 m) = nLost t + (m - n - 1).
Proof.
  intros Hs Hl Hm Hr. unfold lost_after. rewrite Hs, (proj2 (Z.eqb_neq _ _)) by done.
  destruct (Z.eqb_spec (u8 (n + 1)) (u8 m)) as [E|E]; cbn [negb].
  - assert (m = n + 1) by (unfold u8 in E; zdm). lia.
  - replace (u8 _) with (m - n - 1) by (btest; unfold u8 in *; zdm). by apply s32_id.
Qed.
