(* ===== verification/AvtpTheorems.v ===== *)
(** * Properties of AVTP streams (lib/avtp_pipeline/avtp, lib/avtp_pipeline/map_pipe)

    Numbering of the frames sent, the count of lost frames, and media data that
    travels from the queue of a talker to the queue of a listener.  The pipe
    mapping meets the contracts [TxModule] and [RxModule]. *)

From S2P Require Import Prelude AvtpTime MediaQ MediaQProps MediaQTheorems AvtpMap MapPipe Rawsock Avtp AvtpProps.
From Stdlib Require Import ZArith Lia.
From stdpp Require Import base tactics list option.
Open Scope Z_scope.

(** ** The pipe mapping meets the contracts *)

(** An item whose memory is as large as it claims, and whose data fits a frame. *)
Definition item_fits (p : pipe_data) (x : media_q_item) : Prop :=
  exists d, pPubData x = Some d /\ bytes_ok d /\ itemSize x <= Zlen d /\ itemSize x <= maxDataSize p
    /\ 0 <= dataLen x <= itemSize x.

(** The invariant of the module with data [p] and its queue. *)
Definition pipe_inv (p : pipe_data) (P : option pipe_data) (q : mq_st) : Prop :=
  P = Some p /\ pull_header p = false /\ push_header p = false /\ maxDataSize p < 65536
  /\ exists a, mq_refines q a /\ Forall (item_fits p) (f_held a) /\ Forall (item_fits p) (f_free a).

Lemma fits_time p t x : item_fits p x -> item_fits p (with_time t x).
Proof. done. Qed.
Lemma fits_clear_data p x : item_fits p x -> item_fits p (clear_data x).
Proof. intros (d & ? & ? & ? & ? & ?). exists d. cbn. split_and!; try done; lia. Qed.
Lemma fits_clear_read p x : item_fits p x -> item_fits p (clear_read x).
Proof. done. Qed.
Lemma fits_received p t bs x :
  item_fits p x -> bytes_ok bs -> Zlen bs <= itemSize x -> item_fits p (pipe_received t bs x).
Proof.
  intros (d & Hd & Hb & Hs & Hm & _) Hbs Hl. unfold pipe_received. rewrite Hd. cbn [from_option id]. change (id d) with d.
  eexists. split; [reflexivity|]. cbn [itemSize with_data with_time dataLen].
  split_and!; try lia.
  - apply Forall_app. split; [done|]. by apply Forall_drop.
  - rewrite length_app, length_drop. lia.
Qed.

Lemma fits_pull p a :
  Forall (item_fits p) (f_held a) -> Forall (item_fits p) (f_free a) ->
  Forall (item_fits p) (f_held (fifo_pull a)) /\ Forall (item_fits p) (f_free (fifo_pull a)).
Proof.
  intros Hc Hf. unfold fifo_pull. destruct (f_held a) as [|x c] eqn:E; [by rewrite E|].
  inv Hc. split; [done|]. apply Forall_app. split; [done|].
  constructor; [by apply fits_clear_data|done].
Qed.

(** A frame as the pieces that the module works on. *)
Lemma frame_split (f : list Z) :
  24 <= Zlen f -> exists b0 b1 b2 b3 sid o rest, f = [b0; b1; b2; b3] ++ sid ++ o ++ rest
    /\ length sid = 8%nat /\ length o = 12%nat /\ Zlen rest = Zlen f - 24.
Proof.
  intros Hl. do 4 (destruct f as [|? f]; [cbn in Hl; lia|]). cbn [length] in Hl.
  exists z, z0, z1, z2, (take 8 f), (take 12 (drop 8 f)), (drop 12 (drop 8 f)).
  rewrite !take_drop, !length_take, !length_drop. cbn [length]. split_and!; [done|lia..].
Qed.

Section Pipe.
Context {pf : Platform} (p : pipe_data).

#[export] Instance pipe_tx : TxModule pipe_cb (pipe_inv p) (Z.max 24 (maxDataSize p + 24)).
Proof.
  split; [done | lia |]. intros P f len q (-> & Hpl & Hps & Hm & a & Href & Hc & Hf) Hl.
  cbn [pipe_cb map_tx_cb].
  destruct (f_held a) as [|x c] eqn:Ec.
  { eapply mq_mono; [apply (pipe_tx_nothing p f len q a Href); by rewrite Ec|].
    intros r s' [-> Hs']. split_and!; try done; try lia.
    unfold pipe_inv; split_and!; try done. eexists. split; [exact Hs'|]. apply fits_pull; [by rewrite Ec | done]. }
  pose proof Hc as Hc'. inv Hc' as [|? ? Hx Hc0]. destruct Hx as (d & Hd & Hb & Hs & Hsm & Hn).
  rewrite <- Ec in Hc. destruct (decide (dataLen x = 0)) as [E0|E0].
  { eapply mq_mono; [apply (pipe_tx_nothing p f len q a Href); rewrite Ec; lia|].
    intros r s' [-> Hs']. split_and!; try done; try lia.
    unfold pipe_inv; split_and!; try done. eexists. split; [exact Hs'|]. by apply fits_pull. }
  destruct (frame_split f ltac:(lia)) as (b0 & b1 & b2 & b3 & sid & o & rest & -> & Hsid & Ho & Hrest).
  eapply mq_mono; [eapply (pipe_tx_frame p q a x c d); done || lia|].
  intros r s' [-> Hs']. unfold TOTAL_HEADER_SIZE, AVTP_V0_HEADER_SIZE, MAP_HEADER_SIZE.
  split_and!; try done; try lia.
  - unfold pipe_inv; split_and!; try done. eexists. split; [exact Hs'|]. apply fits_pull; unfold fifo_write_tail; rewrite Ec; cbn [f_held f_free].
    + rewrite Ec in Hc. inv Hc. constructor; [by apply fits_time | done].
    + done.
  - rewrite !length_app, pipe_hdr_len, length_take, length_drop by done.
    rewrite !length_app in Hrest, Hl. cbn [length] in *. lia.
  - intros _. split; [lia | done].
Qed.

(** A frame that is as long as its length field says. *)
Definition pipe_frame_ok (f : list Z) : Prop :=
  bytes_ok f /\ 24 <= Zlen f /\ forall n, get16 f HIDX_AVTP_DATALEN16 = Ret n -> 24 + n <= Zlen f.

#[export] Instance pipe_rx : RxModule pipe_cb (pipe_inv p) pipe_frame_ok.
Proof.
  split. intros P f len q (-> & Hpl & Hps & Hm & a & Href & Hc & Hf) (Hb & Hl & Hn).
  cbn [pipe_cb map_rx_cb]. destruct (f_free a) as [|h fr] eqn:Ef.
  { eapply mq_mono; [by apply pipe_rx_full|]. intros r s' [-> Hs'].
    unfold pipe_inv. split_and!; try done. exists a. by rewrite Ef. }
  inv Hf as [|? ? Hh Hfr]. pose proof Hh as (d & Hd & Hdb & Hs & Hsm & Hdl).
  assert (exists n, get16 f HIDX_AVTP_DATALEN16 = Ret n /\ 0 <= n) as (n & Hg & Hn0).
  { unfold get16, HIDX_AVTP_DATALEN16. rewrite rd_list_slice, res_bind_ret by lia.
    eexists. split; [done|]. unfold of_be. apply fold_be_nonneg; [lia|].
    by apply Forall_take, Forall_drop. }
  specialize (Hn n Hg).
  assert (Ht : exists t, rx_time f (f_tick a) (pAvtpTime h) = Ret t).
  { unfold rx_time, get32, HIDX_AVTP_TIMESPAMP32, HIDX_AVTP_HIDE7_TV1, HIDX_AVTP_HIDE7_TU1.
    rewrite rd_list_slice, !res_bind_ret by lia.
    destruct (returns_inv _ _ (rd_ok f 1 ltac:(lia))) as (tv & -> & _).
    destruct (returns_inv _ _ (rd_ok f 3 ltac:(lia))) as (tu & -> & _). by eexists. }
  destruct Ht as [t Ht].
  destruct (decide (n <= itemSize h)) as [Hfit|Hfit].
  - set (bs := take (Z.to_nat n) (drop 24 f)).
    assert (Hbs : Zlen bs = n) by (subst bs; rewrite length_take, length_drop; lia).
    assert (Hbsb : bytes_ok bs) by (by apply Forall_take, Forall_drop).
    eapply mq_mono; [eapply (pipe_rx_frame p f len q a h fr d t bs)|]; try done; try lia.
    + by rewrite Hbs.
    + unfold TOTAL_HEADER_SIZE, AVTP_V0_HEADER_SIZE, MAP_HEADER_SIZE.
      rewrite rd_list_slice by lia. change (Z.to_nat (12 + 12)) with 24%nat.
      f_equal. subst bs. f_equal. rewrite length_take, length_drop. lia.
    + intros r s' [-> Hs']. unfold pipe_inv. split_and!; try done.
      eexists. split; [exact Hs'|]. unfold fifo_push, fifo_write_head. cbn [f_free fifo_call].
      rewrite Ef. cbn [f_free f_held]. split; [|done]. apply Forall_app. split; [done|].
      constructor; [|done]. apply fits_clear_read, fits_received; [done..|lia].
  - eapply mq_mono; [eapply (pipe_rx_large p f len q a h fr t n); done || lia|].
    intros r s' [-> Hs']. unfold pipe_inv. split_and!; try done.
    eexists. split; [exact Hs'|]. unfold fifo_push, fifo_write_head. cbn [f_free fifo_call].
    rewrite Ef. cbn [f_free f_held]. split; [|done]. apply Forall_app. split; [done|].
    constructor; [|done]. exists d. cbn. split_and!; try done; lia.
Qed.

End Pipe.

(** ** Numbering *)

Section Numbering.
Context {pf : Platform} {io : SockIO} {P : Type} (cb : map_cb P) (intf : intf_cb).

(** Calls of [openavbAvtpTx], each with its [bSend] and [txBlockingInIntf]. *)
Fixpoint tx_run (s : av_st P) (calls : list (bool * bool)) : res (list openavbRC * av_st P) :=
  match calls with
  | [] => Ret ([], s)
  | (bSend, blocking) :: calls =>
      '(rc, o) ← openavbAvtpTx cb intf (Some s) bSend blocking;
      match o with
      | None => Ret ([rc], s)
      | Some s => '(rcs, s) ← tx_run s calls; Ret (rc :: rcs, s)
      end
  end.

(** [fs], after the Ethernet header, carry consecutive sequence numbers from [n]. *)
Fixpoint consecutive (n : Z) (fs : list (list Z)) : Prop :=
  match fs with
  | [] => True
  | f :: fs => f !! 2%nat = Some n /\ consecutive (u8 (n + 1)) fs
  end.

Definition sent_count (rcs : list openavbRC) : nat :=
  length (filter (fun rc => rc = OPENAVB_AVTP_SUCCESS) rcs).

(** C18: a talker numbers its frames without gaps.  For every mapping module that
    meets [TxModule], every interface module that keeps the module's invariant
    and every sequence of calls of [openavbAvtpTx] (blocking or not, sending at
    once or not): no call faults, each call that reports success hands exactly
    one frame to the socket and each other call none, every frame starts with
    the Ethernet header of the stream, and the frames carry consecutive sequence
    numbers modulo 256 from the number the stream had. *)
Theorem avtp_tx_numbering L dst src vlan pcp vid (I : P -> mq_st -> Prop) s calls :
  TxModule cb I L ->
  (forall p q, I p q -> mq_returns (intf_tx_cb intf) q (fun _ q' => I p q')) ->
  talker_ok L (av_stream s) (av_sock s) dst src vlan pcp vid -> I (av_map s) (av_q s) ->
  returns (tx_run s calls) (fun '(rcs, s') => exists fs,
    av_out s' = av_out s ++ ((eth_bytes dst src vlan pcp vid (rs_ethertype (av_sock s)) ++.) <$> fs)
    /\ length fs = sent_count rcs /\ length rcs = length calls
    /\ consecutive (avtp_sequence_num (av_stream s)) fs).
Proof.
  intros HT Hi. revert s. induction calls as [|[bSend blocking] calls IH]; intros s Hk HI.
  { exists []. by rewrite app_nil_r. }
  cbn [tx_run]. eapply returns_bind; [by eapply tx_step|].
  intros [rc o] (s1 & -> & Hk1 & HI1 & Esk & Hcase).
  eapply returns_bind; [by apply IH|]. intros [rcs s2] (fs & Ho & Hl & Hc & Hn). rewrite Esk in Ho.
  unfold sent_count in *. destruct Hcase as [(-> & Eo & En)|(-> & f & Eo & Ef & En)].
  - exists fs. rewrite Ho, Eo. cbn [length]. rewrite <- En. split_and!; auto.
  - exists (f :: fs). rewrite Ho, Eo. cbn [fmap list_fmap]. rewrite <- app_assoc.
    cbn [filter length]. rewrite En in Hn. split_and!; try done.
    + rewrite filter_cons_True by done. cbn [length]. by rewrite Hl.
    + cbn [length]. by rewrite Hc.
Qed.

(** Frames after one that was counted. *)
Lemma rx_loss_from (I : P -> mq_st -> Prop) (F : list Z -> Prop) `{!RxModule cb I F} ns : forall fs s n,
  I (av_map s) (av_q s) -> 0 <= nLost (av_stream s) ->
  avtp_sequence_num (av_stream s) = u8 (n + 1) ->
  Forall2 (fun f m => F f /\ avtp_frame f (u8 m)) fs ns -> numbered n ns ->
  nLost (av_stream s) + (last_number n ns - n - Zlen ns) < 2147483648 ->
  returns (rx_frames cb s fs) (fun s' =>
    nLost (av_stream s') = nLost (av_stream s) + (last_number n ns - n - Zlen ns)
    /\ avtp_sequence_num (av_stream s') = u8 (last_number n ns + 1)).
Proof.
  induction ns as [|m ns IH]; intros fs s n HI Hl Hs Hf Hn Hb.
  { inv Hf. cbn. split; [lia | done]. }
  inv Hf as [|f ? fs' ? [HF Hm] Hf']. cbn [rx_frames numbered last_number length] in *.
  destruct Hn as [Hm1 Hn]. pose proof (numbered_last _ _ Hn).
  eapply returns_bind; [by eapply rx_step|]. intros s1 (HI1 & Es & El).
  rewrite (lost_gap _ n m) in El by lia.
  eapply returns_mono; [eapply (IH fs' s1 m); try done; try lia|].
  - rewrite Es. unfold u8. by rewrite Zplus_mod_idemp_l.
  - intros s2 [H1 H2]. rewrite H1, El. split; [lia | done].
Qed.

(** C19: a listener counts the frames it misses exactly.  When frames arrive whose
    numbers in the talker's order are [n] and then [ns], each ahead of the one
    before by at most a round of the 8-bit sequence number, [nLost] of a listener
    that had received nothing becomes the number of frames between the first and
    the last that did not arrive. *)
Theorem avtp_rx_loss_exact (I : P -> mq_st -> Prop) (F : list Z -> Prop) s n ns fs :
  RxModule cb I F -> I (av_map s) (av_q s) -> nLost (av_stream s) = -1 ->
  Forall2 (fun f m => F f /\ avtp_frame f (u8 m)) fs (n :: ns) ->
  numbered n ns -> last_number n ns - n - Zlen ns < 2147483648 ->
  returns (rx_frames cb s fs) (fun s' =>
    nLost (av_stream s') = last_number n ns - n - Zlen ns
    /\ avtp_sequence_num (av_stream s') = u8 (last_number n ns + 1)).
Proof.
  intros HR HI Hl Hf Hn Hb.
  inv Hf as [|f ? fs' ? [HF Hm] Hf']. cbn [rx_frames].
  eapply returns_bind; [by eapply rx_step|]. intros s1 (HI1 & Es & El).
  unfold lost_after in El. rewrite Hl in El. cbn in El.
  eapply returns_mono; [eapply (rx_loss_from I F ns fs' s1 n); try done; try lia|].
  - rewrite Es. unfold u8. by rewrite Zplus_mod_idemp_l.
  - intros s2 [H1 H2]. rewrite H1, El. split; [lia | done].
Qed.

End Numbering.

(** ** From one media queue to another *)

Section Talk.
Context {pf : Platform} {io : SockIO} (intf : intf_cb) (p : pipe_data).
Context (dst src : list Z) (vlan : bool) (pcp vid : Z).

(** The media queue when the mapping module looks at it: the interface module has
    run before it, unless it blocks. *)
Definition tx_queue (blocking : bool) (q : mq_st) (a : fifo) : Prop :=
  if blocking then mq_refines q a
  else mq_returns (intf_tx_cb intf) q (fun _ q' => mq_refines q' a).

(** The frame that carries [x], as the talker [s] sends it. *)
Definition pipe_frame (t : avtp_stream) (x : media_q_item) (d : list Z) : list Z :=
  pipe_hdr (u8 (Z.land (st_subtype t) 0x7F)) 0x81 (u8 (avtp_sequence_num t)) 0 (streamIDnet t)
    (pipe_stamp p x) ++ take (Z.to_nat (dataLen x)) d.

Section Item.
Context (a : fifo) (x : media_q_item) (c : list media_q_item) (d : list Z).
Context (Hpull : pull_header p = false) (Hc : f_held a = x :: c) (Hd : pPubData x = Some d).
Context (Hdb : bytes_ok d) (Hn : 0 < dataLen x <= Zlen d).
Context (Hmax : dataLen x <= maxDataSize p) (H16 : maxDataSize p < 65536).

Lemma pipe_tx_fill t o len q :
  length (streamIDnet t) = 8%nat -> maxDataSize p + 12 <= Zlen o -> mq_refines q a ->
  mq_returns (map_tx_cb pipe_cb (Some p) (avtp_hdr t ++ o) len) q (fun r q' =>
    (exists rest, r = (TX_CB_RET_PACKET_READY, pipe_frame t x d ++ rest,
                       dataLen x + TOTAL_HEADER_SIZE, Some p))
    /\ mq_refines q' (fifo_pull (fifo_write_tail (pipe_stamp p) a))).
Proof.
  intros Hs Ho Href. rewrite <- (take_drop 12 o). unfold avtp_hdr. rewrite <- !app_assoc.
  eapply mq_mono; [eapply (pipe_tx_frame p q a x c d); try done; try lia|].
  - rewrite length_drop. lia.
  - rewrite length_take. lia.
  - intros r s' [-> H']. split; [|done]. eexists. unfold pipe_frame. by rewrite <- app_assoc.
Qed.

Lemma pipe_tx_modules t o len blocking s :
  length (streamIDnet t) = 8%nat -> maxDataSize p + 12 <= Zlen o ->
  av_map s = Some p -> tx_queue blocking (av_q s) a ->
  returns (tx_modules pipe_cb intf blocking (avtp_hdr t ++ o) len s) (fun '(r, f, len, s2) =>
    r = TX_CB_RET_PACKET_READY /\ (exists rest, f = pipe_frame t x d ++ rest)
    /\ len = dataLen x + TOTAL_HEADER_SIZE
    /\ mq_refines (av_q s2) (fifo_pull (fifo_write_tail (pipe_stamp p) a))
    /\ av_out s2 = av_out s /\ exists m, av_stream s2 = with_bytes m (av_stream s)).
Proof.
  intros Hs Ho Hm Hq. unfold tx_modules, tx_queue in *. rewrite Hm. destruct blocking; cbn [negb].
  - eapply returns_bind; [by apply (pipe_tx_fill t o)|].
    intros [[[[r f] len'] p'] q'] [(rest & [= -> -> -> ->]) H'].
    rewrite decide_False by done. cbn [returns]. split_and!; try done; by eexists.
  - eapply returns_bind; [exact Hq|]. intros [? q1] Href.
    eapply returns_bind; [by apply (pipe_tx_fill t o)|].
    intros [[[[r f] len'] p'] q'] [(rest & [= -> -> -> ->]) H'].
    cbn [returns]. split_and!; try done; by eexists.
Qed.

Lemma pipe_talk s bSend blocking :
  talker_ok (maxDataSize p + 24) (av_stream s) (av_sock s) dst src vlan pcp vid ->
  pBuf (av_stream s) <> None \/ getTxFrame (av_io s) <> None ->
  av_map s = Some p -> tx_queue blocking (av_q s) a ->
  exists s', openavbAvtpTx pipe_cb intf (Some s) bSend blocking = Ret (OPENAVB_AVTP_SUCCESS, Some s')
    /\ av_out s' = av_out s ++ [eth_bytes dst src vlan pcp vid (rs_ethertype (av_sock s))
                                 ++ pipe_frame (av_stream s) x d]
    /\ mq_refines (av_q s') (fifo_pull (fifo_write_tail (pipe_stamp p) a))
    /\ avtp_sequence_num (av_stream s') = u8 (avtp_sequence_num (av_stream s) + 1).
Proof.
  intros Hk Hav Hmap Hq.
  destruct (tx_buffer_spec _ _ _ _ _ _ s Hk) as (b & n & s1 & Hb & Hs1 & Hk1 & Hnone).
  destruct b as [b|]; [clear Hnone|by destruct (proj1 Hnone eq_refl), Hav].
  destruct (tx_unfold pipe_cb intf _ _ _ _ _ _ s b n s1 bSend blocking eq_refl Hk1 Hb Hs1) as (o & Ho & ->).
  destruct (tk_held _ _ _ _ _ _ _ _ Hk1 b eq_refl) as (Hl & En & _).
  pose proof (tk_len _ _ _ _ _ _ _ _ Hk) as Hlen. destruct (tk_sid _ _ _ _ _ _ _ _ Hk) as [Hs _].
  destruct (tk_hdr _ _ _ _ _ _ _ _ Hk) as [Hr _].
  cbn [st_frameLen st_ethHdrLen with_buf] in Hl, En. subst n.
  destruct (returns_inv _ _ (pipe_tx_modules (av_stream s) o
    (st_frameLen (av_stream s) - rs_ethHdrLen (av_sock s)) blocking
    (on_stream (with_buf (Some b) (rs_ethHdrLen (av_sock s))) s1) Hs ltac:(lia)
    ltac:(by destruct Hs1 as [->| ->]) ltac:(by destruct Hs1 as [->| ->])))
    as ([[[r f] len] s2] & -> & -> & (rest & ->) & -> & Hq2 & Eo & m & Es2).
  rewrite res_bind_ret. unfold tx_finish. rewrite decide_False by done.
  assert (Hfl : Zlen (pipe_frame (av_stream s) x d) = dataLen x + 24).
  { unfold pipe_frame. rewrite length_app, pipe_hdr_len, length_take by done. lia. }
  destruct (process_eval_spec (av_stream s2) (pipe_frame (av_stream s) x d ++ rest)) as [e ->].
  { rewrite length_app. lia. }
  rewrite res_bind_ret, Es2. cbn [st_ethHdrLen with_eval with_bytes with_buf on_stream av_stream].
  unfold TOTAL_HEADER_SIZE, AVTP_V0_HEADER_SIZE, MAP_HEADER_SIZE. rewrite u32_id by lia.
  rewrite app_assoc. set (fr := _ ++ pipe_frame _ _ _).
  replace (Z.to_nat _) with (length fr) by (subst fr; rewrite length_app; lia).
  change (fr ++ rest) with ([] ++ fr ++ rest). rewrite rd_list_app, res_bind_ret by done. eexists. split; [done|].
  cbn [av_out av_q av_stream avtp_sequence_num]. rewrite Eo.
  destruct Hs1 as [->| ->]; split_and!; done.
Qed.

End Item.
End Talk.

Section Listen.
Context {pf : Platform} {io : SockIO} (intf : intf_cb) (p pt : pipe_data).
Context (dst src : list Z) (vlan : bool) (pcp vid : Z).

(** The time of an item as the listener rebuilds it: [h] is the time record of
    its free item, [n] the number of the clock reading. *)
Definition rebuilt_time (n : nat) (h x : option avtp_time) : option avtp_time :=
  openavbAvtpTimeSetTimestampUncertain
    (openavbAvtpTimeSetTimestampValid
       (openavbAvtpTimeSetToTimestamp h (openavbAvtpTimeGetAvtpTimestamp x) n)
       (openavbAvtpTimeTimestampIsValid x))
    (openavbAvtpTimeTimestampIsUncertain x).

Lemma pipe_frame_time t x d pad n h :
  length (streamIDnet t) = 8%nat ->
  rx_time (pipe_frame pt t x d ++ pad) n h = Ret (rebuilt_time n h (pAvtpTime (pipe_stamp pt x))).
Proof.
  intros Hs. unfold rx_time, pipe_frame, pipe_hdr. set (y := pAvtpTime (pipe_stamp pt x)).
  rewrite <- !app_assoc. rewrite (app_assoc [_; _; _; _] (streamIDnet t)).
  rewrite get32_at by (rewrite length_app, Hs; done).
  rewrite res_bind_ret, <- app_assoc. cbn [app].
  rewrite (rd_lookup _ HIDX_AVTP_HIDE7_TV1 (flag_byte 129 (openavbAvtpTimeTimestampIsValid y))), res_bind_ret by done.
  rewrite (rd_lookup _ HIDX_AVTP_HIDE7_TU1 (flag_byte 0 (openavbAvtpTimeTimestampIsUncertain y))), res_bind_ret by done.
  rewrite !flag_byte_bit, u32_id; [done|].
  destruct y as [y|]; [|done]. cbn [openavbAvtpTimeGetAvtpTimestamp]. rewrite x_getTimestamp_mod. apply u32_range.
Qed.

Lemma pipe_frame_len t x d pad :
  length (streamIDnet t) = 8%nat -> 0 <= dataLen x < 65536 ->
  get16 (pipe_frame pt t x d ++ pad) HIDX_AVTP_DATALEN16 = Ret (dataLen x).
Proof.
  intros Hs Hx. unfold pipe_frame, pipe_hdr. rewrite <- !app_assoc.
  rewrite (app_assoc [_; _; _; _] (streamIDnet t)). rewrite (app_assoc (_ ++ streamIDnet t)).
  rewrite (app_assoc (_ ++ be32 _)). rewrite get16_at by (rewrite !length_app, Hs; done).
  by rewrite u16_id.
Qed.

(** A frame of the talker is stored into the next free item. *)
Lemma pipe_listen l a h f x d dh t pad fuel l0 :
  rx_wait intf fuel l0 = Ret (Some (eth_bytes dst src vlan pcp vid ETHERTYPE_AVTP
    ++ pipe_frame pt t x d ++ pad, 0, Zlen (eth_bytes dst src vlan pcp vid ETHERTYPE_AVTP
    ++ pipe_frame pt t x d)), l) ->
  mac_ok dst -> mac_ok src -> length (streamIDnet t) = 8%nat ->
  av_map l = Some p -> push_header p = false -> mq_refines (av_q l) a -> f_free a = h :: f ->
  pPubData h = Some dh -> itemSize h <= Zlen dh ->
  bytes_ok d -> 0 < dataLen x <= Zlen d -> dataLen x <= itemSize h -> dataLen x < 65536 ->
  exists l', openavbAvtpRx pipe_cb intf fuel (Some l0) = Ret (OPENAVB_AVTP_SUCCESS, Some l')
    /\ mq_refines (av_q l') (fifo_push (fifo_write_head (pipe_received
         (rebuilt_time (f_tick a) (pAvtpTime h) (pAvtpTime (pipe_stamp pt x)))
         (take (Z.to_nat (dataLen x)) d)) (fifo_call a)))
    /\ rx_numbered (av_stream l) (av_stream l') (u8 (avtp_sequence_num t)).
Proof.
  intros Hw Hds Hsr Hs Hmap Hps Href Hf Hdh Hih Hdb Hn Hfit H16.
  cbn [openavbAvtpRx]. unfold avtpTryRx. rewrite Hw, !res_bind_ret. unfold rx_deliver.
  destruct (parse_hdr_spec dst src vlan pcp vid ETHERTYPE_AVTP (pipe_frame pt t x d ++ pad))
    as (hd & -> & _); [done | done | done | done|].
  rewrite res_bind_ret, Z.add_0_l, Nat2Z.id, drop_app_length.
  set (len := u32 _). set (bs := take (Z.to_nat (dataLen x)) d).
  assert (Hbs : Zlen bs = dataLen x) by (subst bs; rewrite length_take; lia).
  assert (Hfr : avtp_frame (pipe_frame pt t x d ++ pad) (u8 (avtp_sequence_num t))).
  { unfold pipe_frame, pipe_hdr. do 4 eexists. split_and!.
    - rewrite <- !app_assoc. cbn [app]. reflexivity.
    - apply subtype_is_data.
    - unfold flag_byte. by destruct (openavbAvtpTimeTimestampIsValid _).
    - rewrite !length_app, Hs. cbn. lia. }
  destruct (rx_frame_spec pipe_cb l _ len _ Hfr) as (t' & -> & Ht'). rewrite Hmap.
  destruct (mq_returns_inv _ _ _ (pipe_rx_frame p (pipe_frame pt t x d ++ pad) len (av_q l) a h f dh
    (rebuilt_time (f_tick a) (pAvtpTime h) (pAvtpTime (pipe_stamp pt x))) bs Href Hf Hps Hdh
    ltac:(lia) ltac:(lia) ltac:(by apply Forall_take) (pipe_frame_time _ _ _ _ _ _ Hs)
    ltac:(rewrite Hbs; by apply pipe_frame_len; [|lia])
    ltac:(unfold pipe_frame; rewrite <- app_assoc; apply rd_list_app; by rewrite pipe_hdr_len)))
    as (r & q' & Hr & -> & Hq').
  cbn [map_rx_cb pipe_cb]. rewrite Hr, res_bind_ret. cbv beta iota. rewrite res_bind_ret.
  cbn [rx_bComplete on_stream av_stream with_complete]. eexists. split; [done|].
  split; [exact Hq'|exact Ht'].
Qed.

End Listen.

Section EndToEnd.
Context (pfT pfL : Platform) (ioT ioL : SockIO) (intfT intfL : intf_cb).
Context (dst src : list Z) (vlan : bool) (pcp vid : Z).

(** The presentation time of an item that was captured at [t]. *)
Definition presentation (p : pipe_data) (t : avtp_time) : Z :=
  u64 (timeNsec t + maxTransitUsec p * NANOSECONDS_PER_USEC).

Lemma rebuilt_exact n p th tx now :
  ptp_time (Platform := pfL) n = Some now ->
  -2147483649 <= presentation p tx - u64 now < 2147483647 ->
  rebuilt_time (pf := pfL) n (Some th) (openavbAvtpTimeAddUSec (Some tx) (maxTransitUsec p))
  = Some (AvtpTime (presentation p tx) (maxLatencyNsec th) (bTimestampValid tx) (bTimestampUncertain tx)).
Proof.
  intros Hnow Hw. unfold rebuilt_time. cbn [openavbAvtpTimeAddUSec fmap option_fmap option_map].
  unfold openavbAvtpTimeSetToTimestamp.
  pose proof (walltime_ns (pf := pfL) n) as Hwt. unfold osalClockGettime64 in Hwt. rewrite Hnow in Hwt.
  destruct (osalClockGettime (pf := pfL) OPENAVB_CLOCK_WALLTIME n) as [tm|]; [|done].
  cbn in Hwt. inv Hwt as [Htm].
  cbn [fmap option_fmap option_map openavbAvtpTimeSetTimestampValid openavbAvtpTimeSetTimestampUncertain
    openavbAvtpTimeGetAvtpTimestamp openavbAvtpTimeTimestampIsValid openavbAvtpTimeTimestampIsUncertain
    with_flags with_ns timeNsec maxLatencyNsec bTimestampValid bTimestampUncertain].
  rewrite Htm. fold (presentation p tx). rewrite timestamp_rebuilt; [done | apply u64_range | done].
Qed.

(** C5: media data arrives as it was sent.  When a talker with the pipe mapping has
    an item [x] at the front of its queue, [openavbAvtpTx] removes it from the queue
    and hands one frame to the socket; when a listener with the pipe mapping and
    a free item [h] receives that frame (followed by whatever the buffer holds
    behind it), [openavbAvtpRx] appends to its queue an item with the same bytes, whose
    presentation time is the talker's time plus the transit time, with the
    talker's flags, as long as the listener's gPTP clock is within about 2^31 ns of
    it; nothing else in either queue changes. *)
Theorem avtp_pipe_end_to_end p t bSend blocking a x c d :
  talker_ok (io := ioT) (maxDataSize p + 24) (av_stream t) (av_sock t) dst src vlan pcp vid ->
  rs_ethertype (av_sock t) = ETHERTYPE_AVTP ->
  pBuf (av_stream t) <> None \/ getTxFrame (SockIO := ioT) (av_io t) <> None ->
  av_map t = Some p -> pull_header p = false -> maxDataSize p < 65536 ->
  tx_queue intfT blocking (av_q t) a -> f_held a = x :: c ->
  pPubData x = Some d -> bytes_ok d -> 0 < dataLen x <= Zlen d -> dataLen x <= maxDataSize p ->
  exists t' frame,
    openavbAvtpTx (io := ioT) (pipe_cb (pf := pfT)) intfT (Some t) bSend blocking = Ret (OPENAVB_AVTP_SUCCESS, Some t')
    /\ av_out t' = av_out t ++ [frame]
    /\ mq_refines (av_q t') (Fifo c (f_free a ++ [clear_data (pipe_stamp p x)]) (f_tick a) (f_stale a))
    /\ forall p' l0 l fuel pad b h f dh,
      rx_wait (pf := pfL) (io := ioL) intfL fuel l0 = Ret (Some (frame ++ pad, 0, Zlen frame), l) ->
      av_map l = Some p' -> push_header p' = false -> mq_refines (av_q l) b -> f_free b = h :: f ->
      pPubData h = Some dh -> dataLen x <= itemSize h <= Zlen dh ->
      exists l' y,
        openavbAvtpRx (pf := pfL) (io := ioL) (pipe_cb (pf := pfL)) intfL fuel (Some l0) = Ret (OPENAVB_AVTP_SUCCESS, Some l')
        /\ mq_refines (av_q l') (Fifo (f_held b ++ [y]) f (S (f_tick b)) (f_stale b))
        /\ dataLen y = dataLen x /\ readIdx y = 0
        /\ take (Z.to_nat (dataLen x)) <$> pPubData y = Some (take (Z.to_nat (dataLen x)) d)
        /\ forall tx th now, pAvtpTime x = Some tx -> pAvtpTime h = Some th ->
           ptp_time (Platform := pfL) (f_tick b) = Some now ->
           -2147483649 <= presentation p tx - u64 now < 2147483647 ->
           pAvtpTime y = Some (AvtpTime (presentation p tx) (maxLatencyNsec th)
                                 (bTimestampValid tx) (bTimestampUncertain tx)).
Proof.
  intros Hk Het Hav Hm Hpull H16 Hq Hc Hd Hdb Hn Hmax.
  destruct (pipe_talk (pf := pfT) intfT p dst src vlan pcp vid a x c d Hpull Hc Hd Hdb Hn Hmax H16
    t bSend blocking Hk Hav Hm Hq) as (t' & Ht' & Ho & Hq' & _).
  exists t'. eexists. split; [exact Ht'|]. split; [exact Ho|]. rewrite Het.
  split. { revert Hq'. unfold fifo_pull, fifo_write_tail. by rewrite Hc. }
  intros p' l0 l fuel pad b h f dh Hw Hml Hps Hb Hf Hdh Hfit. rewrite <- app_assoc in Hw.
  destruct (pipe_listen intfL p' p dst src vlan pcp vid l b h f x d dh (av_stream t) pad fuel l0)
    as (l' & Hl' & Hql & _); try done; try apply Hk; try lia.
  exists l'. eexists. split; [exact Hl'|]. split.
  { revert Hql. unfold fifo_push, fifo_write_head. cbn [f_free fifo_call]. rewrite Hf. cbn [f_free]. exact id. }
  assert (Hbs : length (take (Z.to_nat (dataLen x)) d) = Z.to_nat (dataLen x)) by (rewrite length_take; lia).
  cbn [clear_read pipe_received with_data with_time dataLen readIdx pPubData pAvtpTime fmap option_fmap option_map].
  split_and!; [lia | done | |].
  - f_equal. by rewrite take_app_length'.
  - intros tx th now Htx Hth Hnow Hwin. rewrite Hth. unfold pipe_stamp.
    cbn [pAvtpTime with_time]. rewrite Htx. by apply rebuilt_exact with (now := now).
Qed.

End EndToEnd.

(** ** Concrete streams *)

(** Items of 4 bytes, 2 ms of transit time; the talker's queue holds one item. *)
Definition demo_pipe : pipe_data := PipeData 3 0 false false 4 28 28 2000.
Definition demo_item : media_q_item :=
  MediaQItem (Some (AvtpTime 5000000000 2000000 true false)) (Some [7; 8; 9; 0]) 0 3 4 false None None None.
Definition demo_tq : mq_st :=
  MqSt (Some (MediaQInfo 3 4 [demo_item; fresh_item 2000 4; fresh_item 2000 4] 1 false 0 false true
                2000 false MICROSECONDS_PER_SECOND)) 0 [].
Definition demo_ta : fifo :=
  Fifo [demo_item] [fresh_item 2000 4; fresh_item 2000 4] 0 MICROSECONDS_PER_SECOND.

Lemma demo_tq_refines : mq_refines demo_tq demo_ta.
Proof.
  split; [done|]. eexists _, 0%nat. split; [done|]. split; [|done].
  split; [vm_compute; lia | done.. | by repeat constructor].
Qed.

Definition demo_dst : list Z := [0x91; 0xE0; 0xF0; 0; 0xFE; 1].
Definition demo_src : list Z := [0; 0x1B; 0x21; 1; 2; 3].
Definition demo_sock : base_rawsock :=
  BaseRawsock (eth_bytes demo_dst demo_src true 3 2 ETHERTYPE_AVTP) 18 ETHERTYPE_AVTP 1500 true true demo_src.
Definition demo_stream : avtp_stream :=
  Stream 0x6F (demo_src ++ [0; 1]) 70 255 false false None 0 None (-1) 0.

(** A socket with buffers of 1500 bytes that receives the frames of [rx]. *)
Definition demo_io (rx : list (list Z)) : SockIO := {|
  getTxFrame _ := Some (replicate 1500 0);
  getRxFrame n := (fun f => (f ++ [0; 0], 0, Zlen f)) <$> rx !! n
|}.
Definition idle_intf : intf_cb := IntfCB (mret tt) (mret true) (mret tt) (mret true).
Definition demo_talker : av_st (option pipe_data) :=
  AvSt demo_stream (Some demo_pipe) demo_sock [] 0 0 demo_tq.
Definition demo_listener : av_st (option pipe_data) :=
  AvSt demo_stream (Some demo_pipe) demo_sock [] 0 0 (demo_mq 3).

Lemma demo_mac : mac_ok demo_dst /\ mac_ok demo_src.
Proof. by repeat constructor. Qed.

Lemma demo_sender_ok :
  talker_ok (io := demo_io []) 52 (av_stream demo_talker) (av_sock demo_talker) demo_dst demo_src true 3 2.
Proof.
  split; try apply demo_mac; try (vm_compute; done).
  - split; [done|]. by exists [].
  - split; [done|]. by repeat constructor.
  - intros n b [= <-]. vm_compute. discriminate.
Qed.

Lemma demo_buffers :
  pBuf (av_stream demo_talker) <> None \/ getTxFrame (SockIO := demo_io []) (av_io demo_talker) <> None.
Proof. by right. Qed.

Definition demo_sent : list (list Z) :=
  match openavbAvtpTx (io := demo_io []) (pipe_cb (pf := demo_platform)) idle_intf (Some demo_talker) true true with
  | Ret (_, Some t) => av_out t
  | _ => []
  end.

Lemma avtp_pipe_end_to_end_witness :
  exists l' y,
    openavbAvtpRx (pf := demo_platform) (io := demo_io demo_sent) (pipe_cb (pf := demo_platform)) idle_intf 2
      (Some demo_listener) = Ret (OPENAVB_AVTP_SUCCESS, Some l')
    /\ mq_refines (av_q l') (Fifo [y] (replicate 2 (fresh_item 2000 4)) 1 MICROSECONDS_PER_SECOND)
    /\ take 3 <$> pPubData y = Some [7; 8; 9]
    /\ pAvtpTime y = Some (AvtpTime 5002000000 2000000 true false).
Proof.
  destruct (avtp_pipe_end_to_end demo_platform demo_platform (demo_io []) (demo_io demo_sent)
    idle_intf idle_intf demo_dst demo_src true 3 2 demo_pipe demo_talker true true demo_ta demo_item []
    [7; 8; 9; 0] demo_sender_ok eq_refl demo_buffers eq_refl eq_refl
    ltac:(reflexivity) demo_tq_refines eq_refl eq_refl
    ltac:(repeat constructor; lia) ltac:(cbn; lia) ltac:(cbn; lia))
    as (t' & frame & E & Eo & _ & H).
  assert (Es : demo_sent = [frame]) by (unfold demo_sent; rewrite E; exact Eo).
  destruct (H demo_pipe demo_listener (io_call (P := option pipe_data) demo_listener) 2%nat [0; 0]
    (demo_fifo 3) (fresh_item 2000 4) (replicate 2 (fresh_item 2000 4)) [0; 0; 0; 0])
    as (l' & y & Hl & Hq & _ & _ & Hd & Ht).
  - rewrite Es. reflexivity.
  - reflexivity.
  - reflexivity.
  - exact demo_mq_refines.
  - reflexivity.
  - reflexivity.
  - cbn. lia.
  - exists l', y. split; [exact Hl|]. split; [exact Hq|]. split; [exact Hd|].
    rewrite (Ht (AvtpTime 5000000000 2000000 true false) (AvtpTime 0 2000000 false false) 5000000000
      eq_refl eq_refl eq_refl ltac:(vm_compute; split; [discriminate | reflexivity])). reflexivity.
Defined.

Lemma demo_fits n : Forall (item_fits demo_pipe) (replicate n (fresh_item 2000 4)).
Proof.
  apply Forall_replicate. exists [0; 0; 0; 0].
  split_and!; [done | by repeat constructor | vm_compute; done..].
Qed.
Lemma demo_item_fits : item_fits demo_pipe demo_item.
Proof. exists [7; 8; 9; 0]. split_and!; [done | by repeat constructor | vm_compute; done..]. Qed.

Lemma demo_talker_inv : pipe_inv demo_pipe (av_map demo_talker) (av_q demo_talker).
Proof.
  split_and!; try done. exists demo_ta. split; [exact demo_tq_refines|].
  split; [repeat constructor; exact demo_item_fits | exact (demo_fits 2)].
Qed.
Lemma demo_listener_inv : pipe_inv demo_pipe (av_map demo_listener) (av_q demo_listener).
Proof.
  split_and!; try done. exists (demo_fifo 3). split; [exact demo_mq_refines|].
  split; [constructor | exact (demo_fits 3)].
Qed.

Lemma avtp_tx_numbering_witness :
  exists rcs s' fs,
    tx_run (io := demo_io []) (pipe_cb (pf := demo_platform)) idle_intf demo_talker [(true, true); (true, false)]
      = Ret (rcs, s')
    /\ length rcs = 2%nat /\ length fs = sent_count rcs /\ consecutive 255 fs.
Proof.
  pose proof (avtp_tx_numbering (io := demo_io []) (pipe_cb (pf := demo_platform)) idle_intf 52
    demo_dst demo_src true 3 2 (pipe_inv demo_pipe) demo_talker [(true, true); (true, false)]
    (pipe_tx (pf := demo_platform) demo_pipe) (fun p q H => H) demo_sender_ok demo_talker_inv) as H.
  apply returns_inv in H as ([rcs s'] & E & fs & _ & Hl & Hc & Hn).
  exists rcs, s', fs. split; [exact E|]. split; [exact Hc|]. split; [exact Hl | exact Hn].
Defined.

(** An empty frame with sequence number [n]. *)
Definition demo_frame (n : Z) : list Z := [0x6F; 0x81; n; 0] ++ replicate 20 0.

Lemma demo_frame_ok n : 0 <= n < 256 -> pipe_frame_ok (demo_frame n) /\ avtp_frame (demo_frame n) n.
Proof.
  intros Hn. split.
  - split_and!; [|done|intros m [= <-]; done].
    apply Forall_app. split; [repeat (apply Forall_cons_2; [lia|]); apply Forall_nil_2|].
    by apply Forall_replicate.
  - by exists 0x6F, 0x81, 0, (replicate 20 0).
Qed.

Lemma demo_frames_ok :
  Forall2 (fun f m => pipe_frame_ok f /\ avtp_frame f (u8 m))
    [demo_frame 255; demo_frame 3; demo_frame 4] [255; 259; 260].
Proof. do 3 (apply Forall2_cons; [by apply demo_frame_ok|]). apply Forall2_nil. Qed.

Lemma avtp_rx_loss_exact_witness :
  exists s', rx_frames (pipe_cb (pf := demo_platform)) demo_listener [demo_frame 255; demo_frame 3; demo_frame 4]
      = Ret s' /\ nLost (av_stream s') = 3.
Proof.
  pose proof (avtp_rx_loss_exact (pipe_cb (pf := demo_platform)) (pipe_inv demo_pipe) pipe_frame_ok
    demo_listener 255 [259; 260] [demo_frame 255; demo_frame 3; demo_frame 4]
    (pipe_rx (pf := demo_platform) demo_pipe) demo_listener_inv eq_refl
    demo_frames_ok ltac:(cbn; lia) ltac:(cbn; lia)) as H.
  apply returns_inv in H as (s' & E & Hl & _). exists s'. split; [exact E | exact Hl].
Defined.

(** ** Defects *)

(** The pipe mapping copies as many bytes as the length field of a frame says,
    whatever the frame holds: a frame of 24 bytes that announces 4 is read beyond
    its end. *)
Theorem pipe_rx_overreads :
  x_avtpRxFrame (pipe_cb (pf := demo_platform)) demo_listener
    ([0x6F; 0x81; 0; 0] ++ replicate 16 0 ++ [0; 4; 0; 0]) 24 = Fault (OobRead 24).
Proof. vm_compute. reflexivity. Qed.

(** Asking for the number of lost frames before the first one arrives answers -1
    and makes the first frame count as lost frames: 7 here. *)
Theorem avtp_lost_before_first :
  let '(n, l) := openavbAvtpLost (Some demo_listener) in
  n = -1 /\ match l with
            | Some l => exists l', x_avtpRxFrame (pipe_cb (pf := demo_platform)) l (demo_frame 6) 24 = Ret l'
                                   /\ nLost (av_stream l') = 7
            | None => False
            end.
Proof. split; [reflexivity|]. eexists. split; vm_compute; reflexivity. Qed.

(** A call that has nothing to send adds the size of a whole frame to the bytes
    sent. *)
Theorem avtp_bytes_unsent :
  exists s', openavbAvtpTx (io := demo_io []) (pipe_cb (pf := demo_platform)) idle_intf
      (Some (AvSt demo_stream (Some demo_pipe) demo_sock [] 0 0 (demo_mq 3))) true false
    = Ret (OPENAVB_AVTP_FAILURE, Some s') /\ av_out s' = [] /\ st_bytes (av_stream s') = 52.
Proof. eexists. split; [|split]; vm_compute; reflexivity. Qed.

(** Evaluation never smooths a timestamp, and the interval over a wrap of the
    32-bit timestamp is one short. *)
Theorem timestamp_eval_identity e ts : (openavbTimestampEvalTimestamp e ts).1 = ts.
Proof. unfold openavbTimestampEvalTimestamp. cbv zeta. by destruct (te_started e). Qed.

Theorem timestamp_interval_wrap prev ts :
  0 <= ts < prev -> prev < 4294967296 -> ts_interval prev ts = u32 (ts - prev) - 1.
Proof. intros. unfold ts_interval, u32. rewrite (proj2 (Z.ltb_lt _ _)) by lia. zdm. Qed.
