(* ===== verification/RingSock.v ===== *)
(** * Raw sockets on Linux
    (lib/avtp_pipeline/platform/Linux/rawsock: simple_rawsock.c, ring_rawsock.c)

    A simple socket copies every frame.  A ring shares a block of memory with the
    kernel: slots with a header, whose status says who owns the slot, and a frame.
    The memory is a map from the offsets of the slots; a pointer is an offset, and an
    access to an offset without a slot is a fault.  Answers of system calls
    are arguments; what the kernel does with the ring between and during calls is a
    list of actions. *)

From S2P Require Import Prelude AvtpTime AvtpMap Rawsock.
From Stdlib Require Import ZArith Lia.
From stdpp Require Import base tactics list option strings gmap.
Open Scope Z_scope.

(** Constants of the kernel interface. *)
Definition ETH_HLEN : Z := 14.
Definition VLAN_HLEN : Z := 4.
Definition IFF_UP : Z := 1.
Definition TPACKET_ALIGN (x : Z) : Z := Z.land (x + 15) (Z.lnot 15).
Definition sizeof_sockaddr_ll : Z := 20.
Definition TP_STATUS_KERNEL : Z := 0.
Definition TP_STATUS_USER : Z := 1.
Definition TP_STATUS_COPY : Z := 2.
Definition TP_STATUS_LOSING : Z := 4.
Definition TP_STATUS_AVAILABLE : Z := 0.
Definition TP_STATUS_SEND_REQUEST : Z := 1.
Definition TP_STATUS_SENDING : Z := 2.

(** ** Simple sockets *)

Record if_info := IfInfo { if_name : string; if_mac : list Z; if_index : Z; if_mtu : Z }.

(** Answers to the calls of [simpleAvbCheckInterface]: the socket, and for each request
    its result when it succeeds.  [strlcpy] keeps at most 15 characters of the name. *)
Record if_answers := IfAnswers {
  ia_socket : bool;
  ia_flags : option Z;
  ia_index : option Z;
  ia_mac : option (list Z);
  ia_mtu : option Z
}.

Definition simpleAvbCheckInterface (a : if_answers) (ifname : option string) : option if_info :=
  match ifname with
  | None => None
  | Some name =>
      if negb (ia_socket a) then None
      else
        flags ← ia_flags a;
        if Z.land flags IFF_UP =? 0 then None
        else
          index ← ia_index a; mac ← ia_mac a; mtu ← ia_mtu a;
          Some (IfInfo (String.substring 0 15 name) mac index mtu)
  end.

(** [sr_sent] is what was given to [send]. *)
Record simple_rawsock := SimpleRawsock {
  sr_base : base_rawsock;
  sr_sock : Z;
  txBuffer : list Z;
  rxBuffer : list Z;
  sr_sent : list (list Z)
}.

Record open_answers := OpenAnswers {
  oa_if : if_answers;
  oa_sock : Z;
  oa_reuse : bool;
  oa_bind : bool
}.

(** The size of the frames, from the size asked for. *)
Definition simple_frameSize (asked mtu : Z) : option Z :=
  if asked =? 0 then Some (TPACKET_ALIGN (mtu + ETH_HLEN + VLAN_HLEN))
  else if mtu + ETH_HLEN + VLAN_HLEN <? asked then None
  else Some (TPACKET_ALIGN asked).

Definition simpleRawsockOpen (a : open_answers) (ifname : option string) (rx_mode tx_mode : bool) (ethertype frame_size : Z)
  : option simple_rawsock :=
  info ← simpleAvbCheckInterface (oa_if a) ifname;
  let b := baseRawsockOpen (if_mac info) rx_mode tx_mode ethertype frame_size in
  size ← simple_frameSize (frameSize b) (if_mtu info);
  let hdr := replicate 6 0xFF ++ if_mac info ++ be16 (rs_ethertype b) ++ [0; 0; 0; 0] in
  if (oa_sock a =? -1) || negb (oa_reuse a) || negb (oa_bind a) then None
  else Some (SimpleRawsock (BaseRawsock hdr sizeof_eth_hdr (rs_ethertype b) size (txMode b) (rxMode b) (ifMac b))
               (oa_sock a) (replicate 1518 0) (replicate 1518 0) []).

Definition valid_tx (r : option simple_rawsock) : bool := match r with Some r => txMode (sr_base r) | None => false end.
Definition valid_rx (r : option simple_rawsock) : bool := match r with Some r => rxMode (sr_base r) | None => false end.

(** The buffer and its size. *)
Definition simpleRawsockGetTxFrame (r : option simple_rawsock) : option (list Z * Z) :=
  match r with
  | Some r => if txMode (sr_base r) then Some (txBuffer r, frameSize (sr_base r)) else None
  | None => None
  end.

(** [ok] is the answer to setting the priority of the socket. *)
Definition simpleRawsockTxSetHdr (ok : bool) (r : simple_rawsock) (h : hdr_info) : res (bool * simple_rawsock) :=
  '(ret, b) ← baseRawsockTxSetHdr (Some (sr_base r)) h;
  let r := match b with
           | Some b => SimpleRawsock b (sr_sock r) (txBuffer r) (rxBuffer r) (sr_sent r)
           | None => r
           end in
  Ret (if ret && hi_vlan h && negb ok then false else ret, r).

Definition simpleRawsockTxSetMark (ok : bool) (r : option simple_rawsock) : bool := valid_tx r && ok.

(** The client filled the buffer with [buf]. *)
Definition simpleRawsockTxFrameReady (r : option simple_rawsock) (buf : list Z) (len : Z) : res (bool * option simple_rawsock) :=
  match r with
  | Some r =>
      if txMode (sr_base r) then
        f ← rd_list buf 0 (Z.to_nat len);
        Ret (true, Some (SimpleRawsock (sr_base r) (sr_sock r) buf (rxBuffer r) (sr_sent r ++ [f])))
      else Ret (false, Some r)
  | None => Ret (false, None)
  end.

(** [msg] is the next frame of the socket, [None] a timeout or an error.  The result is
    the buffer, the offset and the length of a frame. *)
Definition simpleRawsockGetRxFrame (msg : option (list Z)) (r : option simple_rawsock)
  : res (option (list Z * Z * Z) * option simple_rawsock) :=
  match r with
  | Some r =>
      if rxMode (sr_base r) then
        match msg with
        | None => Ret (None, Some r)
        | Some f =>
            let f := take (Z.to_nat (frameSize (sr_base r))) f in
            buf ← wr_list (rxBuffer r) 0 f;
            Ret (Some (buf, 0, Zlen f), Some (SimpleRawsock (sr_base r) (sr_sock r) (txBuffer r) buf (sr_sent r)))
        end
      else Ret (None, Some r)
  | None => Ret (None, None)
  end.

Definition simpleRawsockGetSocket (r : option simple_rawsock) : Z := match r with Some r => sr_sock r | None => -1 end.

(** *** The packet filter *)

Record sock_filter := SockFilter { bpf_code : Z; bpf_jt : nat; bpf_jf : nat; bpf_k : Z }.

Inductive sock_option :=
| PACKET_MEMBERSHIP (add : bool) (addr : list Z)
| SO_ATTACH_FILTER (prog : list sock_filter)
| SO_DETACH_FILTER.

Definition mcast_filter (addr : list Z) : list sock_filter :=
  [SockFilter 0x20 0 0 0x00000002;
   SockFilter 0x15 0 3 (of_be (take 4 (drop 2 addr)));
   SockFilter 0x28 0 0 0x00000000;
   SockFilter 0x15 0 1 (of_be ([0; 0] ++ take 2 addr));
   SockFilter 0x06 0 0 0x0000ffff;
   SockFilter 0x06 0 0 0x00000000].

(** [member] is the answer to the first call; the answers to the filter calls are only
    logged. *)
Definition simpleRawsockRxMulticast (member : bool) (r : option simple_rawsock) (add_membership : bool) (addr : list Z)
  : bool * list sock_option :=
  if negb (valid_rx r) then (false, [])
  else if negb member then (false, [PACKET_MEMBERSHIP add_membership addr])
  else (true, [PACKET_MEMBERSHIP add_membership addr; if add_membership then SO_ATTACH_FILTER (mcast_filter addr) else SO_DETACH_FILTER]).

(** ** Rings *)

(** The header of a slot and the bytes of the slot, the header's included. *)
Record tp_slot := Slot {
  tp_status : Z;
  tp_len : Z;
  tp_snaplen : Z;
  tp_mac : Z;
  tp_net : Z;
  tp_vlan_tci : Z;
  tp_bytes : list Z
}.

Record ring_rawsock := RingRawsock {
  rg_base : base_rawsock;
  frameCount : Z;
  bufHdrSize : Z;
  bufferSize : Z;
  blockSize : Z;
  blockCount : Z;
  memSize : Z;
  pMem : gmap Z tp_slot;
  blockIndex : Z;
  bufferIndex : Z;
  buffersOut : Z;
  buffersReady : Z;
  bLosing : bool;
  txOutOfBuffer : Z;
  txOutOfBufferCyclic : Z
}.

(** The kernel's side: the slot it uses next, the frames it sent or stored, and whether
    it has dropped one. *)
Record kernel := Kernel { k_head : Z; k_frames : list (list Z); k_lost : bool }.
Record ring_st := RingSt { rs_ring : ring_rawsock; rs_kernel : kernel }.

Definition with_mem (mem : gmap Z tp_slot) (r : ring_rawsock) : ring_rawsock :=
  RingRawsock (rg_base r) (frameCount r) (bufHdrSize r) (bufferSize r) (blockSize r) (blockCount r) (memSize r) mem
    (blockIndex r) (bufferIndex r) (buffersOut r) (buffersReady r) (bLosing r) (txOutOfBuffer r) (txOutOfBufferCyclic r).
Definition with_index (bl bu : Z) (r : ring_rawsock) : ring_rawsock :=
  RingRawsock (rg_base r) (frameCount r) (bufHdrSize r) (bufferSize r) (blockSize r) (blockCount r) (memSize r) (pMem r)
    bl bu (buffersOut r) (buffersReady r) (bLosing r) (txOutOfBuffer r) (txOutOfBufferCyclic r).
Definition with_out (out ready : Z) (r : ring_rawsock) : ring_rawsock :=
  RingRawsock (rg_base r) (frameCount r) (bufHdrSize r) (bufferSize r) (blockSize r) (blockCount r) (memSize r) (pMem r)
    (blockIndex r) (bufferIndex r) out ready (bLosing r) (txOutOfBuffer r) (txOutOfBufferCyclic r).
Definition with_losing (b : bool) (r : ring_rawsock) : ring_rawsock :=
  RingRawsock (rg_base r) (frameCount r) (bufHdrSize r) (bufferSize r) (blockSize r) (blockCount r) (memSize r) (pMem r)
    (blockIndex r) (bufferIndex r) (buffersOut r) (buffersReady r) b (txOutOfBuffer r) (txOutOfBufferCyclic r).
Definition with_busy (n c : Z) (r : ring_rawsock) : ring_rawsock :=
  RingRawsock (rg_base r) (frameCount r) (bufHdrSize r) (bufferSize r) (blockSize r) (blockCount r) (memSize r) (pMem r)
    (blockIndex r) (bufferIndex r) (buffersOut r) (buffersReady r) (bLosing r) n c.
Definition on_ring (g : ring_rawsock -> ring_rawsock) (s : ring_st) : ring_st := RingSt (g (rs_ring s)) (rs_kernel s).

Definition with_status (n : Z) (x : tp_slot) : tp_slot :=
  Slot n (tp_len x) (tp_snaplen x) (tp_mac x) (tp_net x) (tp_vlan_tci x) (tp_bytes x).
Definition with_tplen (n : Z) (x : tp_slot) : tp_slot :=
  Slot (tp_status x) n (tp_snaplen x) (tp_mac x) (tp_net x) (tp_vlan_tci x) (tp_bytes x).
Definition with_bytes (l : list Z) (x : tp_slot) : tp_slot :=
  Slot (tp_status x) (tp_len x) (tp_snaplen x) (tp_mac x) (tp_net x) (tp_vlan_tci x) l.

(** *** Access to slots *)

Definition slot_at (r : ring_rawsock) (off : Z) : res tp_slot :=
  match pMem r !! off with Some x => Ret x | None => Fault (OobRead off) end.
Definition slot_write (off : Z) (g : tp_slot -> tp_slot) (s : ring_st) : res ring_st :=
  match pMem (rs_ring s) !! off with
  | Some x => Ret (on_ring (with_mem (<[off := g x]> (pMem (rs_ring s)))) s)
  | None => Fault (OobWrite off)
  end.

(** The slot of the indexes. *)
Definition active (r : ring_rawsock) : Z := blockIndex r * blockSize r + bufferIndex r * bufferSize r.

(** The indexes of the next one. *)
Definition ring_next (r : ring_rawsock) : res ring_rawsock :=
  if blockCount r =? 0 then Fault DivByZero
  else if Z.quot (frameCount r) (blockCount r) <=? bufferIndex r + 1 then
    Ret (with_index (if blockCount r <=? blockIndex r + 1 then 0 else blockIndex r + 1) 0 r)
  else Ret (with_index (blockIndex r) (bufferIndex r + 1) r).

(** *** The kernel *)

(** What the kernel may do: send the frame of the slot it is at, finish a slot, and
    store a frame that arrived at the offsets [mac] and [net]. *)
Inductive kact :=
| KTake
| KDone (off : Z)
| KStore (f : list Z) (mac net tci : Z).

(** The offset of a slot by its number. *)
Definition slot_offset (r : ring_rawsock) (n : Z) : Z :=
  let per := blockSize r / bufferSize r in (n / per) * blockSize r + (n mod per) * bufferSize r.
Definition kernel_next (r : ring_rawsock) (k : kernel) : Z := (k_head k + 1) mod frameCount r.

Definition kernel_act (a : kact) (s : ring_st) : ring_st :=
  let r := rs_ring s in
  let k := rs_kernel s in
  let off := slot_offset r (k_head k) in
  match a with
  | KTake =>
      match pMem r !! off with
      | Some x =>
          if tp_status x =? TP_STATUS_SEND_REQUEST then
            RingSt (with_mem (<[off := with_status TP_STATUS_SENDING x]> (pMem r)) r)
              (Kernel (kernel_next r k) (k_frames k ++ [take (Z.to_nat (tp_len x)) (drop (Z.to_nat (bufHdrSize r)) (tp_bytes x))]) (k_lost k))
          else s
      | None => s
      end
  | KDone off =>
      match pMem r !! off with
      | Some x =>
          if tp_status x =? TP_STATUS_SENDING
          then RingSt (with_mem (<[off := with_status TP_STATUS_AVAILABLE x]> (pMem r)) r) k
          else s
      | None => s
      end
  | KStore f mac net tci =>
      match pMem r !! off with
      | Some x =>
          if tp_status x =? TP_STATUS_KERNEL then
            let n := Z.min (Zlen f) (bufferSize r - mac) in
            let bytes := take (Z.to_nat mac) (tp_bytes x) ++ take (Z.to_nat n) f ++ drop (Z.to_nat (mac + n)) (tp_bytes x) in
            RingSt (with_mem (<[off := Slot (if k_lost k then Z.lor TP_STATUS_USER TP_STATUS_LOSING else TP_STATUS_USER)
                                         (Zlen f) n mac net tci bytes]> (pMem r)) r)
              (Kernel (kernel_next r k) (k_frames k ++ [f]) (k_lost k))
          else RingSt r (Kernel (k_head k) (k_frames k) true)
      | None => s
      end
  end.
Definition kernel_acts (l : list kact) (s : ring_st) : ring_st := foldl (fun s a => kernel_act a s) s l.

(** *** Opening *)

Record ring_answers := RingAnswers {
  ra_version : bool;
  ra_hdrlen : option Z;
  ra_pagesize : Z;
  ra_ring : bool;
  ra_mmap : bool
}.

(** The memory of a ring, all zero. *)
Definition ring_mem (blocks per blockSz bufferSz : Z) : gmap Z tp_slot :=
  list_to_map ((fun n => ((Z.of_nat n / per) * blockSz + (Z.of_nat n mod per) * bufferSz,
                          Slot 0 0 0 0 0 0 (replicate (Z.to_nat bufferSz) 0)))
                 <$> seq 0 (Z.to_nat (blocks * per))).

Definition ringRawsockOpen (sa : open_answers) (a : ring_answers) (ifname : option string) (rx_mode tx_mode : bool)
  (ethertype frame_size num_frames : Z) : res (option ring_st) :=
  match simpleRawsockOpen sa ifname rx_mode tx_mode ethertype frame_size with
  | None => Ret None
  | Some sr =>
      let b := sr_base sr in
      match ra_hdrlen a with
      | Some val =>
          if negb (ra_version a) then Ret None
          else
            let hdr := TPACKET_ALIGN val in
            let hdr := if rxMode b then hdr + TPACKET_ALIGN sizeof_sockaddr_ll else hdr in
            let bufSz := frameSize b + hdr in
            let blkSz := ra_pagesize a * 4 in
            if bufSz =? 0 then Fault DivByZero
            else
              let per := Z.quot blkSz bufSz in
              if per =? 0 then Fault DivByZero
              else
                let blocks := Z.quot (s32 num_frames) per + 1 in
                let frames := per * blocks in
                if negb (ra_ring a) || negb (ra_mmap a) then Ret None
                else Ret (Some (RingSt
                  (RingRawsock b frames hdr bufSz blkSz blocks (blocks * blkSz) (ring_mem blocks per blkSz bufSz) 0 0 0 0 false 0 0)
                  (Kernel 0 [] false)))
      | None => Ret None
      end
  end.

(** *** Transmission *)

Definition ring_tx (P : option ring_st) : option ring_st :=
  match P with Some s => if txMode (rg_base (rs_ring s)) then Some s else None | None => None end.
Definition ring_rx (P : option ring_st) : option ring_st :=
  match P with Some s => if rxMode (rg_base (rs_ring s)) then Some s else None | None => None end.

(** Waiting for the slot [off]: after each look at a busy slot the process sleeps, and
    the kernel does the next of [waits]. *)
Fixpoint tx_wait (waits : list (list kact)) (blocking reported : bool) (off : Z) (s : ring_st) : res (bool * ring_st) :=
  x ← slot_at (rs_ring s) off;
  if tp_status x =? TP_STATUS_AVAILABLE then Ret (true, s)
  else if (tp_status x =? TP_STATUS_SEND_REQUEST) || (tp_status x =? TP_STATUS_SENDING) then
    if blocking then
      match waits with
      | [] => Fault OutOfFuel
      | w :: waits =>
          let r := rs_ring s in
          let s := if reported then s else on_ring (with_busy (u64 (txOutOfBuffer r + 1)) (u64 (txOutOfBufferCyclic r + 1))) s in
          tx_wait waits blocking true off (kernel_acts w s)
      end
    else Ret (false, s)
  else s ← slot_write off (with_status TP_STATUS_AVAILABLE) s; Ret (true, s).

(** The buffer and its size; [len] says that there is room for the size. *)
Definition ringRawsockGetTxFrame (waits : list (list kact)) (P : option ring_st) (blocking len : bool)
  : res (option (Z * Z) * option ring_st) :=
  match ring_tx P with
  | None => Ret (None, P)
  | Some s =>
      let r := rs_ring s in
      if negb len then Ret (None, P)
      else if frameCount r <=? buffersOut r then Ret (None, P)
      else
        let off := active r in
        '(ok, s) ← tx_wait waits blocking false off s;
        if ok : bool then
          r ← ring_next (rs_ring s);
          Ret (Some (off + bufHdrSize r, frameSize (rg_base r)),
               Some (RingSt (with_out (buffersOut r + 1) (buffersReady r) r) (rs_kernel s)))
        else Ret (None, Some s)
  end.

(** The client writes a frame into its buffer. *)
Definition buffer_write (pBuffer : Z) (f : list Z) (s : ring_st) : res ring_st :=
  let off := pBuffer - bufHdrSize (rs_ring s) in
  x ← slot_at (rs_ring s) off;
  bytes ← wr_list (tp_bytes x) (bufHdrSize (rs_ring s)) f;
  slot_write off (with_bytes bytes) s.

Definition ringRawsockRelTxFrame (P : option ring_st) (pBuffer : option Z) : res (bool * option ring_st) :=
  match ring_tx P, pBuffer with
  | Some s, Some p =>
      s ← slot_write (p - bufHdrSize (rs_ring s)) (fun x => with_status TP_STATUS_KERNEL (with_tplen 0 x)) s;
      Ret (true, Some (on_ring (fun r => with_out (buffersOut r - 1) (buffersReady r) r) s))
  | _, _ => Ret (false, P)
  end.

(** The answer to [send]: what the kernel does meanwhile, the result, and whether
    [errno] is [EINTR] afterwards. *)
Record send_answer := SendAnswer { sa_acts : list kact; sa_sent : Z; sa_eintr : bool }.

Definition ringRawsockSend (a : send_answer) (P : option ring_st) : res (Z * option ring_st) :=
  match ring_tx P with
  | None => Ret (-1, P)
  | Some s =>
      let s := kernel_acts (sa_acts a) s in
      if sa_eintr a then Ret (sa_sent a, Some s)
      else if sa_sent a <? 0 then Fault AssertFailed
      else Ret (sa_sent a, Some (on_ring (fun r => with_out (buffersOut r - buffersReady r) 0 r) s))
  end.

Definition ringRawsockTxFrameReady (a : send_answer) (P : option ring_st) (pBuffer len : Z) : res (bool * option ring_st) :=
  match ring_tx P with
  | None => Ret (false, P)
  | Some s =>
      if u32 (bufferSize (rs_ring s)) <? len then Fault AssertFailed
      else
        s ← slot_write (pBuffer - bufHdrSize (rs_ring s)) (fun x => with_status TP_STATUS_SEND_REQUEST (with_tplen len x)) s;
        let s := on_ring (fun r => with_out (buffersOut r) (buffersReady r + 1) r) s in
        if frameCount (rs_ring s) <=? buffersReady (rs_ring s)
        then '(_, P) ← ringRawsockSend a (Some s); Ret (true, P)
        else Ret (true, Some s)
  end.

(** *** Levels *)

(** The loop over blocks and buffers, counting the slots for which [used] holds. *)
Definition ring_offsets (r : ring_rawsock) : list Z :=
  i ← seqZ 0 (blockCount r); j ← seqZ 0 (Z.quot (blockSize r) (bufferSize r)); [i * blockSize r + j * bufferSize r].
Fixpoint count_slots (l : list Z) (used : tp_slot -> bool) (r : ring_rawsock) (n : Z) : res Z :=
  match l with
  | [] => Ret n
  | off :: l => x ← slot_at r off; count_slots l used r (if used x then n + 1 else n)
  end.

Definition ring_level (P : option ring_st) (used : ring_rawsock -> tp_slot -> bool) : res Z :=
  match P with
  | None => Fault (OobRead 0)
  | Some s =>
      if bufferSize (rs_ring s) =? 0 then Fault DivByZero
      else count_slots (ring_offsets (rs_ring s)) (used (rs_ring s)) (rs_ring s) 0
  end.
Definition ringRawsockTxBufLevel (P : option ring_st) : res Z :=
  ring_level P (fun r x => txMode (rg_base r)
    && ((tp_status x =? TP_STATUS_SEND_REQUEST) || (tp_status x =? TP_STATUS_SENDING))).
Definition ringRawsockRxBufLevel (P : option ring_st) : res Z :=
  ring_level P (fun r x => negb (txMode (rg_base r)) && Z.testbit (tp_status x) 0).

Definition ringRawsockGetTXOutOfBuffers (P : option ring_st) : Z :=
  match ring_tx P with Some s => txOutOfBuffer (rs_ring s) | None => 0 end.
Definition ringRawsockGetTXOutOfBuffersCyclic (P : option ring_st) : Z * option ring_st :=
  match ring_tx P with
  | Some s => (txOutOfBufferCyclic (rs_ring s), Some (on_ring (fun r => with_busy (txOutOfBuffer r) 0 r) s))
  | None => (0, P)
  end.

(** *** Reception *)

Definition user_slot (x : tp_slot) : bool := Z.testbit (tp_status x) 0.

(** The answer to [ppoll]: what the kernel does meanwhile, the result and [POLLIN]. *)
Record poll_answer := PollAnswer { pa_acts : list kact; pa_ret : Z; pa_in : bool }.

(** The search for a slot that is ready, with the number of slots skipped. *)
Fixpoint rx_scan (fuel : nat) (skipped : Z) (r : ring_rawsock) : res (bool * ring_rawsock) :=
  x ← slot_at r (active r);
  if user_slot x then Ret (true, r)
  else
    match fuel with
    | O => Fault OutOfFuel
    | S fuel =>
        r ← ring_next r;
        if frameCount r <? skipped + 1 then Ret (false, r) else rx_scan fuel (skipped + 1) r
    end.

(** Waiting for a frame in the active slot. *)
Definition ring_rx_wait (a : poll_answer) (s : ring_st) : res (bool * ring_st) :=
  x ← slot_at (rs_ring s) (active (rs_ring s));
  if user_slot x then Ret (true, s)
  else
    let s := kernel_acts (pa_acts a) s in
    if (pa_ret a <? 0) || negb (pa_in a) then Ret (false, s)
    else
      x ← slot_at (rs_ring s) (active (rs_ring s));
      if user_slot x then Ret (true, s)
      else if buffersOut (rs_ring s) =? 0 then
        '(ok, r) ← rx_scan (S (Z.to_nat (frameCount (rs_ring s)))) 0 (rs_ring s);
        Ret (ok, RingSt r (rs_kernel s))
      else Ret (false, s).

Definition ringRawsockRelRxFrame (P : option ring_st) (pBuffer : Z) : res (bool * option ring_st) :=
  match ring_rx P with
  | None => Ret (false, P)
  | Some s =>
      s ← slot_write (pBuffer - bufHdrSize (rs_ring s)) (with_status TP_STATUS_KERNEL) s;
      Ret (true, Some (on_ring (fun r => with_out (buffersOut r - 1) (buffersReady r) r) s))
  end.

(** The buffer, the offset of the frame in it and its length. *)
Definition ringRawsockGetRxFrame (a : poll_answer) (P : option ring_st) : res (option (Z * Z * Z) * option ring_st) :=
  match ring_rx P with
  | None => Ret (None, P)
  | Some s =>
      if frameCount (rs_ring s) <=? buffersOut (rs_ring s) then Ret (None, P)
      else
        '(ok, s) ← ring_rx_wait a s;
        if ok : bool then
          let off := active (rs_ring s) in
          x ← slot_at (rs_ring s) off;
          r ← ring_next (with_losing (Z.testbit (tp_status x) 2) (rs_ring s));
          let s := RingSt (with_out (buffersOut r + 1) (buffersReady r) r) (rs_kernel s) in
          let p := off + bufHdrSize r in
          if tp_snaplen x <? tp_len x then '(_, P) ← ringRawsockRelRxFrame (Some s) p; Ret (None, P)
          else Ret (Some (p, u32 (tp_mac x - bufHdrSize r), tp_snaplen x), Some s)
        else Ret (None, Some s)
  end.

(** The fields of the Ethernet header and its length. *)
Definition ringRawsockRxParseHdr (P : option ring_st) (pBuffer : Z) : res (option (hdr_info * Z)) :=
  match ring_rx P with
  | None => Ret None
  | Some s =>
      x ← slot_at (rs_ring s) (pBuffer - bufHdrSize (rs_ring s));
      let at_ := tp_mac x in
      let hdrLen := tp_net x - tp_mac x in
      d ← rd_list (tp_bytes x) at_ 6;
      h ← rd_list (tp_bytes x) (at_ + 6) 6;
      ethertype ← get16 (tp_bytes x) (at_ + 12);
      if ethertype =? ETHERTYPE_8021Q then
        ethertype ← get16 (tp_bytes x) (at_ + 16);
        Ret (Some (HdrInfo (Some h) (Some d) ethertype true (Z.land (Z.shiftr (tp_vlan_tci x) 13) 7) (Z.land (tp_vlan_tci x) 0x0FFF),
                   hdrLen + 4))
      else Ret (Some (HdrInfo (Some h) (Some d) ethertype false 0 0, hdrLen))
  end.
