(* ===== verification/RingSockProps.v ===== *)
(** * Memory-mapped rings: slots, owners and the kernel

    The slots of a ring, seen from the one the kernel uses next, are a queue: those
    with frames to send, the one the client fills, and the others.  On the receiving
    side the slots seen from the client's are the frames that wait, in the order in
    which they arrived, and then the slots of the kernel. *)

From S2P Require Import Prelude AvtpTime MediaQProps AvtpMap Rawsock RingSock.
From Stdlib Require Import ZArith Lia.
From stdpp Require Import base tactics list option gmap.
Open Scope Z_scope.

(** ** Geometry *)

(** [N] slots in blocks of [per]. *)
Record ring_geom (r : ring_rawsock) (N per : nat) : Prop := {
  g_per : (0 < per)%nat;
  g_buffer : 0 < bufferSize r;
  g_fit : blockSize r / bufferSize r = Z.of_nat per;
  g_count : frameCount r = Z.of_nat N;
  g_blocks : exists B : nat, (0 < B)%nat /\ blockCount r = Z.of_nat B /\ N = (B * per)%nat;
  g_hdr : 0 <= bufHdrSize r;
  g_frame : 0 <= frameSize (rg_base r);
  g_sum : bufferSize r = frameSize (rg_base r) + bufHdrSize r;
  g_small : bufferSize r < 4294967296
}.

(** What does not change while a ring is used. *)
Definition ring_cfg (r : ring_rawsock) : base_rawsock * Z * Z * Z * Z * Z :=
  (rg_base r, frameCount r, bufHdrSize r, bufferSize r, blockSize r, blockCount r).

Lemma cfg_geom r r' N per : ring_cfg r' = ring_cfg r -> ring_geom r N per -> ring_geom r' N per.
Proof. unfold ring_cfg. intros [= E1 E2 E3 E4 E5 E6] []. split; rewrite ?E1, ?E2, ?E3, ?E4, ?E5, ?E6; done. Qed.

Lemma cfg_offset r r' n : ring_cfg r' = ring_cfg r -> slot_offset r' n = slot_offset r n.
Proof. unfold ring_cfg, slot_offset. intros [= _ _ _ E4 E5 _]. by rewrite E4, E5. Qed.

Section Geometry.
Context (r : ring_rawsock) (N per : nat) (G : ring_geom r N per).

Definition off (i : nat) : Z := slot_offset r (Z.of_nat i).

Lemma geom_pos : (0 < N)%nat.
Proof. destruct (g_blocks _ _ _ G) as (B & HB & _ & ->). pose proof (g_per _ _ _ G). nia. Qed.

(** Slots do not overlap. *)
Lemma off_inj i j : off i = off j -> i = j.
Proof.
  unfold off, slot_offset. rewrite (g_fit _ _ _ G). pose proof (g_per _ _ _ G). pose proof (g_buffer _ _ _ G).
  assert (Hbl : Z.of_nat per * bufferSize r <= blockSize r).
  { rewrite <- (g_fit _ _ _ G), Z.mul_comm. apply Z.mul_div_le. lia. }
  rewrite <- !Nat2Z.inj_div, <- !Nat2Z.inj_mod. intros E.
  pose proof (Nat.mod_upper_bound i per ltac:(lia)). pose proof (Nat.mod_upper_bound j per ltac:(lia)).
  rewrite (Nat.div_mod_eq i per), (Nat.div_mod_eq j per).
  set (a := (i / per)%nat) in *. set (b := (j / per)%nat) in *. set (c := (i mod per)%nat) in *. set (d := (j mod per)%nat) in *.
  assert (Z.of_nat c * bufferSize r < blockSize r /\ Z.of_nat d * bufferSize r < blockSize r) as [] by nia.
  assert (Z.of_nat a = Z.of_nat b) by nia. assert (Z.of_nat c = Z.of_nat d) by nia. lia.
Qed.

(** The indexes are at slot [u]. *)
Definition at_slot (u : nat) : Prop := blockIndex r = Z.of_nat (u / per) /\ bufferIndex r = Z.of_nat (u mod per).

Lemma active_off u : at_slot u -> active r = off u.
Proof. intros [E1 E2]. unfold active, off, slot_offset. by rewrite E1, E2, (g_fit _ _ _ G), Nat2Z.inj_div, Nat2Z.inj_mod. Qed.

Lemma ring_next_spec u : at_slot u -> (u < N)%nat ->
  let u' := (S u mod N)%nat in ring_next r = Ret (with_index (Z.of_nat (u' / per)) (Z.of_nat (u' mod per)) r).
Proof.
  intros [E1 E2] Hu u'. destruct (g_blocks _ _ _ G) as (B & HB & EB & EN). pose proof (g_per _ _ _ G) as Hp.
  unfold ring_next. rewrite EB, (proj2 (Z.eqb_neq _ _)) by lia.
  rewrite (g_count _ _ _ G), EN, Nat2Z.inj_mul, Z.mul_comm, Z.quot_mul, E1, E2 by lia.
  pose proof (Nat.mod_upper_bound u per ltac:(lia)) as Hm. pose proof (Nat.div_mod_eq u per) as Hdm.
  assert (Hub : (u / per < B)%nat) by (apply Nat.Div0.div_lt_upper_bound; lia).
  set (a := (u / per)%nat) in *. set (c := (u mod per)%nat) in *.
  destruct (Z.leb_spec (Z.of_nat per) (Z.of_nat c + 1)) as [Hc|Hc].
  - assert (ES : S u = ((a + 1) * per)%nat) by nia. destruct (Z.leb_spec (Z.of_nat B) (Z.of_nat a + 1)) as [Hb|Hb].
    + assert (u' = 0%nat) as ->. { subst u'. rewrite ES, EN. replace (a + 1)%nat with B by lia. apply Nat.Div0.mod_same. }
      rewrite Nat.Div0.div_0_l, Nat.Div0.mod_0_l. done.
    + assert (u' = S u) as ->. { subst u'. apply Nat.mod_small. nia. }
      rewrite ES, Nat.div_mul, Nat.Div0.mod_mul by lia. do 2 f_equal. lia.
  - assert (ES : S u = (a * per + (c + 1))%nat) by lia. assert (u' = S u) as ->. { subst u'. apply Nat.mod_small. nia. }
    rewrite ES. rewrite <- (Nat.div_unique (a * per + (c + 1)) per a (c + 1)), <- (Nat.mod_unique (a * per + (c + 1)) per a (c + 1)) by lia.
    do 2 f_equal. lia.
Qed.

End Geometry.

(** ** Memory *)

(** The memory holds the slots [ss] and nothing else. *)
Definition ring_view (r : ring_rawsock) (ss : list tp_slot) : Prop :=
  (forall i x, ss !! i = Some x -> pMem r !! off r i = Some x)
  /\ forall o x, pMem r !! o = Some x -> exists i, o = off r i /\ ss !! i = Some x.

Lemma view_insert r N per ss i x : ring_geom r N per -> ring_view r ss -> (i < length ss)%nat ->
  ring_view (with_mem (<[off r i := x]> (pMem r)) r) (<[i := x]> ss).
Proof.
  intros G [H1 H2] Hi. split; cbn [pMem with_mem].
  - intros j y Hj. change (off (with_mem _ r) j) with (off r j). destruct (decide (i = j)) as [<-|Hne].
    + rewrite list_lookup_insert_eq in Hj by done. injection Hj as <-. apply lookup_insert_eq.
    + rewrite list_lookup_insert_ne in Hj by done. rewrite lookup_insert_ne; [by apply H1|].
      intros E. by apply (off_inj _ _ _ G) in E.
  - intros o y Ho. destruct (decide (off r i = o)) as [<-|Hne].
    + rewrite lookup_insert_eq in Ho. injection Ho as <-. exists i. split; [done|]. by rewrite list_lookup_insert_eq.
    + rewrite lookup_insert_ne in Ho by done. destruct (H2 o y Ho) as (j & -> & Hj). exists j. split; [done|].
      rewrite list_lookup_insert_ne; [done|]. by intros <-.
Qed.

(** ** Transmission *)

Lemma rotate_S h k n : (0 < n)%nat -> rotate_nat_add (S h mod n) k n = rotate_nat_add h (S k) n.
Proof.
  intros Hn. unfold rotate_nat_add. f_equal. rewrite Nat2Z.inj_mod, Zplus_mod_idemp_l. f_equal. lia.
Qed.

Lemma rotate_at {A} h (l : list A) k x :
  (h < length l)%nat -> rotate h l !! k = Some x ->
  l !! rotate_nat_add h k (length l) = Some x
  /\ forall y, rotate h (<[rotate_nat_add h k (length l) := y]> l) = <[k := y]> (rotate h l).
Proof.
  intros Hh Hk. assert (Hl : (k < length l)%nat) by (apply lookup_lt_Some in Hk; by rewrite length_rotate in Hk).
  split; [by rewrite <- lookup_rotate_r|]. intros y. by apply rotate_insert_l.
Qed.

(** A slot with the frame [f] to send, and one that the client may get sooner or later. *)
Definition requested (hdr : Z) (x : tp_slot) (f : list Z) : Prop :=
  tp_status x = TP_STATUS_SEND_REQUEST /\ take (Z.to_nat (tp_len x)) (drop (Z.to_nat hdr) (tp_bytes x)) = f.
Definition idle (x : tp_slot) : Prop := tp_status x = TP_STATUS_AVAILABLE \/ tp_status x = TP_STATUS_SENDING.

(** The ring seen from the kernel's slot [h]: the slots [R] with the frames [q], the slot
    that the client holds, the others. *)
Record tx_at (N per h : nat) (ss R H Fs : list tp_slot) (q : list (list Z)) (held : option Z) (s : ring_st) : Prop := {
  ta_geom : ring_geom (rs_ring s) N per;
  ta_mode : txMode (rg_base (rs_ring s)) = true;
  ta_view : ring_view (rs_ring s) ss;
  ta_len : length ss = N;
  ta_bytes : Forall (fun x => Zlen (tp_bytes x) = bufferSize (rs_ring s)) ss;
  ta_h : (h < N)%nat;
  ta_head : k_head (rs_kernel s) = Z.of_nat h;
  ta_rot : rotate h ss = R ++ H ++ Fs;
  ta_R : Forall2 (requested (bufHdrSize (rs_ring s))) R q;
  ta_H : match held with
         | None => H = []
         | Some p => exists x, H = [x] /\ tp_status x = TP_STATUS_AVAILABLE
                       /\ p = off (rs_ring s) (rotate_nat_add h (length R) N) + bufHdrSize (rs_ring s)
         end;
  ta_F : Forall idle Fs;
  ta_u : at_slot (rs_ring s) per (rotate_nat_add h (length R + length H) N);
  ta_out : buffersOut (rs_ring s) = buffersReady (rs_ring s) + Zlen H;
  ta_ready : 0 <= buffersReady (rs_ring s) <= Z.of_nat N
}.
Definition tx_inv (N per : nat) (q : list (list Z)) (held : option Z) (s : ring_st) : Prop :=
  exists h ss R H Fs, tx_at N per h ss R H Fs q held s.

Lemma slot_bytes N per h ss R H Fs q held s k x :
  tx_at N per h ss R H Fs q held s -> (R ++ H ++ Fs) !! k = Some x -> Zlen (tp_bytes x) = bufferSize (rs_ring s).
Proof.
  intros [_ _ _ L B Hh _ Hr _ _ _ _ _ _] Hk. rewrite <- Hr in Hk. rewrite <- L in Hh. destruct (rotate_at h ss k x Hh Hk) as [Hi _].
  exact (Forall_lookup_1 _ _ _ _ B Hi).
Qed.

(** Another content of the slot at position [k]. *)
Lemma tx_replace N per h ss R H Fs q held s k x y :
  tx_at N per h ss R H Fs q held s -> (R ++ H ++ Fs) !! k = Some x -> Zlen (tp_bytes y) = bufferSize (rs_ring s) ->
  let i := rotate_nat_add h k N in
  pMem (rs_ring s) !! off (rs_ring s) i = Some x /\ (i < N)%nat
  /\ let r' := with_mem (<[off (rs_ring s) i := y]> (pMem (rs_ring s))) (rs_ring s) in
     ring_view r' (<[i := y]> ss) /\ rotate h (<[i := y]> ss) = <[k := y]> (R ++ H ++ Fs)
     /\ Forall (fun x => Zlen (tp_bytes x) = bufferSize (rs_ring s)) (<[i := y]> ss).
Proof.
  intros [G _ V L B Hh _ Hr _ _ _ _ _ _] Hk Hy i. rewrite <- Hr in Hk. rewrite <- L in Hh.
  destruct (rotate_at h ss k x Hh Hk) as [Hi Hins]. rewrite L in Hi, Hins. fold i in Hi, Hins.
  pose proof (lookup_lt_Some _ _ _ Hi) as Hil. split; [by apply V|]. split; [lia|]. split_and!.
  - by apply (view_insert _ N per).
  - by rewrite Hins, Hr.
  - by apply Forall_insert.
Qed.

Definition tx_act (a : kact) : Prop := match a with KStore _ _ _ _ => False | _ => True end.

(** The kernel sends the oldest frame, or nothing. *)
Lemma tx_take N per q held s :
  tx_inv N per q held s ->
  match q with
  | [] => kernel_act KTake s = s
  | f :: q' => tx_inv N per q' held (kernel_act KTake s) /\ k_frames (rs_kernel (kernel_act KTake s)) = k_frames (rs_kernel s) ++ [f]
  end.
Proof.
  intros (h & ss & R & H & Fs & I). pose proof I as [G M V L B Hh Hk Hr HR HH HF Hu Ho Hy]. cbn [kernel_act]. rewrite Hk.
  fold (off (rs_ring s) h). assert (Hn : (0 < N)%nat) by lia.
  assert (E0 : rotate_nat_add h 0 N = h) by (by apply rotate_nat_add_0).
  destruct HR as [|x f R q [Hx Hf] HR].
  - assert (exists x, (H ++ Fs) !! 0%nat = Some x /\ tp_status x <> TP_STATUS_SEND_REQUEST) as (x & Hx & Hst).
    { destruct held as [p|]; [destruct HH as (x & -> & E & _); exists x; split; [done|by rewrite E]|]. subst H.
      destruct Fs as [|x Fs]; [apply (f_equal length) in Hr; rewrite length_rotate in Hr; cbn in Hr; lia|].
      exists x. split; [done|]. apply Forall_cons_1 in HF as [[E|E] _]; by rewrite E. }
    destruct (tx_replace _ _ _ _ _ _ _ _ _ _ 0 x x I Hx (slot_bytes _ _ _ _ _ _ _ _ _ _ _ _ I Hx)) as [Hm _].
    rewrite E0 in Hm. rewrite Hm. by rewrite (proj2 (Z.eqb_neq _ _) Hst).
  - set (y := with_status TP_STATUS_SENDING x). assert (Hb : Zlen (tp_bytes y) = bufferSize (rs_ring s)).
    { exact (slot_bytes _ _ _ _ _ _ _ _ _ _ 0 x I eq_refl). }
    destruct (tx_replace _ _ _ _ _ _ _ _ _ _ 0 x y I eq_refl Hb) as (Hm & _ & V' & Hr' & B'). rewrite E0 in Hm, V', Hr', B'.
    rewrite Hm, Hx, Z.eqb_refl. split; [|by rewrite <- Hf].
    exists (S h mod N)%nat, (<[h := y]> ss), R, H, (Fs ++ [y]). split; cbn [rs_ring rs_kernel k_head]; try done.
    + by apply (cfg_geom (rs_ring s)).
    + by rewrite length_insert.
    + apply Nat.mod_upper_bound. lia.
    + unfold kernel_next. rewrite Hk, (g_count _ _ _ G), Nat2Z.inj_mod. f_equal. lia.
    + cbn in Hr'. assert (Hl' : length (<[h:=y]> ss) = N) by (by rewrite length_insert).
      rewrite <- Hl' at 1. rewrite (rotate_next (<[h:=y]> ss) h y (R ++ H ++ Fs)) by (lia || done). by rewrite <- !app_assoc.
    + destruct held as [p|]; [|done]. destruct HH as (z & -> & Hz & ->). exists z. split_and!; try done. by rewrite rotate_S by lia.
    + apply Forall_app. split; [done|]. constructor; [by right|constructor].
    + rewrite rotate_S by lia. done.
Qed.

(** It finishes a slot that was sent. *)
Lemma tx_done N per q held s o :
  tx_inv N per q held s -> tx_inv N per q held (kernel_act (KDone o) s)
    /\ k_frames (rs_kernel (kernel_act (KDone o) s)) = k_frames (rs_kernel s).
Proof.
  intros (h & ss & R & H & Fs & I). cbn [kernel_act]. assert (I0 : tx_inv N per q held s) by (by exists h, ss, R, H, Fs).
  pose proof I as [G M V L B Hh Hk Hr HR HH HF Hu Ho Hy].
  destruct (pMem (rs_ring s) !! o) as [x|] eqn:E; [|by split]. destruct (Z.eqb_spec (tp_status x) TP_STATUS_SENDING) as [Hx|]; [|by split].
  split; [|done]. destruct (proj2 V o x E) as (i & -> & Hi).
  assert (Hil : (i < N)%nat) by (rewrite <- L; by eapply lookup_lt_Some).
  set (k := rotate_nat_sub h i N). assert (Ei : rotate_nat_add h k N = i) by (by apply rotate_nat_add_sub).
  assert (Hkl : (k < N)%nat) by (apply rotate_nat_sub_lt; lia).
  assert (Hkx : (R ++ H ++ Fs) !! k = Some x). { rewrite <- Hr, lookup_rotate_r by lia. by rewrite L, Ei. }
  destruct (tx_replace _ _ _ _ _ _ _ _ _ _ k x (with_status TP_STATUS_AVAILABLE x) I Hkx
    (slot_bytes _ _ _ _ _ _ _ _ _ _ _ _ I Hkx)) as (_ & _ & V' & Hr' & B'). rewrite Ei in V', Hr', B'.
  assert (HkR : (length R <= k)%nat).
  { destruct (decide (k < length R)%nat) as [Hlt|]; [|lia]. rewrite lookup_app_l in Hkx by done.
    destruct (Forall2_lookup_l _ _ _ _ _ HR Hkx) as (f & _ & [Hst _]). by rewrite Hx in Hst. }
  rewrite lookup_app_r in Hkx by done.
  assert (HkH : (length H <= k - length R)%nat).
  { destruct held as [p|]; [|by subst H; cbn; lia]. destruct HH as (z & -> & Hz & _).
    destruct (k - length R)%nat eqn:Ek; cbn in *; [|lia]. injection Hkx as ->. by rewrite Hz in Hx. }
  rewrite insert_app_r_alt, insert_app_r_alt in Hr' by done.
  exists h, (<[i := with_status TP_STATUS_AVAILABLE x]> ss), R, H, (<[(k - length R - length H)%nat := with_status TP_STATUS_AVAILABLE x]> Fs).
  split; cbn [rs_ring rs_kernel]; try done.
  - by apply (cfg_geom (rs_ring s)).
  - by rewrite length_insert.
  - apply Forall_insert; [done|by left].
Qed.

Lemma tx_kernel N per l : forall q held s, tx_inv N per q held s -> Forall tx_act l ->
  exists q', tx_inv N per q' held (kernel_acts l s) /\ k_frames (rs_kernel (kernel_acts l s)) ++ q' = k_frames (rs_kernel s) ++ q.
Proof.
  induction l as [|a l IH]; intros q held s I Hl; [by exists q|]. apply Forall_cons_1 in Hl as [Ha Hl].
  change (kernel_acts (a :: l) s) with (kernel_acts l (kernel_act a s)). destruct a; [| |done].
  - pose proof (tx_take _ _ _ _ _ I) as H. destruct q as [|f q]; [rewrite H; by apply IH|]. destruct H as [I1 E1].
    destruct (IH _ _ _ I1 Hl) as (q' & I2 & E2). exists q'. split; [done|]. by rewrite E2, E1, <- app_assoc.
  - destruct (tx_done _ _ _ _ _ off0 I) as [I1 E1]. destruct (IH _ _ _ I1 Hl) as (q' & I2 & E2). exists q'. by rewrite E2, E1.
Qed.

(** With as many steps as there are frames the kernel sends all of them. *)
Lemma tx_drains N per q : forall n held s, tx_inv N per q held s -> (length q <= n)%nat ->
  k_frames (rs_kernel (kernel_acts (replicate n KTake) s)) = k_frames (rs_kernel s) ++ q.
Proof.
  induction q as [|f q IH]; intros n held s I Hn.
  - rewrite app_nil_r. clear Hn. induction n as [|n IHn]; [done|]. cbn [replicate]. change (kernel_acts (KTake :: ?l) s) with (kernel_acts l (kernel_act KTake s)).
    by rewrite (tx_take _ _ _ _ _ I).
  - destruct n as [|n]; [cbn in Hn; lia|]. cbn [replicate]. change (kernel_acts (KTake :: ?l) s) with (kernel_acts l (kernel_act KTake s)).
    destruct (tx_take _ _ _ _ _ I) as [I1 E1]. rewrite (IH n held _ I1) by (cbn in Hn; lia). by rewrite E1, <- app_assoc.
Qed.

Lemma tx_queue_len N per q held s : tx_inv N per q held s -> (length q <= N)%nat.
Proof.
  intros (h & ss & R & H & Fs & [_ _ _ L _ _ _ Hr HR _ _ _ _ _]). rewrite <- (Forall2_length _ _ _ HR), <- L, <- (length_rotate ss h), Hr, length_app. lia.
Qed.

(** A buffer is given out when the kernel has finished with it. *)
Lemma get_tx_spec N per q s :
  tx_inv N per q None s -> buffersReady (rs_ring s) < Z.of_nat N ->
  exists g s', ringRawsockGetTxFrame [] (Some s) false true = Ret (g, Some s') /\ rs_kernel s' = rs_kernel s
    /\ ring_cfg (rs_ring s') = ring_cfg (rs_ring s) /\ buffersReady (rs_ring s') = buffersReady (rs_ring s)
    /\ match g with
       | Some (p, n) => n = frameSize (rg_base (rs_ring s)) /\ tx_inv N per q (Some p) s'
       | None => s' = s
       end.
Proof.
  intros (h & ss & R & H & Fs & I) Hlt. pose proof I as [G M V L B Hh Hk Hr HR HH HF Hu Ho Hy]. subst H. cbn [app length] in *.
  unfold ringRawsockGetTxFrame, ring_tx. rewrite M. cbn [negb]. rewrite (g_count _ _ _ G), (proj2 (Z.leb_gt _ _)) by lia.
  rewrite Nat.add_0_r in Hu. rewrite (active_off _ _ _ G _ Hu). set (u := rotate_nat_add h (length R) N) in *.
  assert (HuN : (u < N)%nat) by (apply rotate_nat_add_lt; lia).
  destruct (lookup_lt_is_Some_2 ss u) as [x Hx]; [lia|]. pose proof (proj1 V u x Hx) as Hm.
  cbn [tx_wait]. unfold slot_at. rewrite Hm, res_bind_ret.
  assert (HlR : (length R <= N)%nat) by (rewrite <- L, <- (length_rotate ss h), Hr, length_app; lia).
  destruct Fs as [|y Fs].
  { assert (HRN : length R = N) by (rewrite <- L, <- (length_rotate ss h), Hr, length_app; cbn; lia).
    assert (Eu : u = h). { subst u. rewrite HRN. unfold rotate_nat_add. rewrite <- (Z.mul_1_l (Z.of_nat N)) at 1. rewrite Z_mod_plus_full, Z.mod_small; lia. }
    destruct R as [|z R]; [cbn in HRN; lia|]. apply Forall2_cons_inv_l in HR as (f & q' & [Hz _] & _ & _).
    destruct (rotate_at h ss 0 z) as [Hz0 _]; [lia|by rewrite Hr|]. rewrite rotate_nat_add_0 in Hz0 by lia. rewrite Eu, Hz0 in Hx. injection Hx as ->.
    rewrite Hz. cbn. eexists _, _. done. }
  assert (x = y) as ->.
  { destruct (rotate_at h ss (length R) y) as [Hy0 _]; [lia|rewrite Hr; by apply list_lookup_middle|]. rewrite L in Hy0. fold u in Hy0. congruence. }
  apply Forall_cons_1 in HF as [[Hst|Hst] HF]; rewrite Hst; cbn [Z.eqb Pos.eqb orb TP_STATUS_AVAILABLE TP_STATUS_SEND_REQUEST TP_STATUS_SENDING].
  - rewrite res_bind_ret. cbn beta iota. rewrite (ring_next_spec _ _ _ G u Hu HuN), res_bind_ret. eexists _, _. split; [done|]. split; [done|]. split; [done|]. split; [done|]. split; [done|].
    exists h, ss, R, [y], Fs. split; cbn [rs_ring rs_kernel]; try done.
    + by apply (cfg_geom (rs_ring s)).
    + exists y. by split_and!.
    + cbn [length]. rewrite Nat.add_1_r. unfold at_slot. cbn. assert (E : rotate_nat_add h (S (length R)) N = (S u mod N)%nat); [|by rewrite E].
      subst u. unfold rotate_nat_add. rewrite <- Z2Nat.inj_succ by (apply Z.mod_pos_bound; lia).
      rewrite <- (Nat2Z.id N) at 3. rewrite <- Z2Nat.inj_mod by (pose proof (Z.mod_pos_bound (Z.of_nat h + Z.of_nat (length R)) (Z.of_nat N)); lia).
      f_equal. unfold Z.succ. rewrite Zplus_mod_idemp_l. f_equal. lia.
    + cbn. rewrite Ho. cbn. lia.
  - rewrite res_bind_ret. eexists _, _. done.
Qed.

(** The client fills its buffer. *)
Lemma buffer_write_spec N per h ss R x Fs q p s f :
  tx_at N per h ss R [x] Fs q (Some p) s -> bytes_ok f -> Zlen f <= frameSize (rg_base (rs_ring s)) ->
  exists s1 ss1 y, buffer_write p f s = Ret s1 /\ rs_kernel s1 = rs_kernel s /\ ring_cfg (rs_ring s1) = ring_cfg (rs_ring s)
    /\ buffersReady (rs_ring s1) = buffersReady (rs_ring s) /\ tx_at N per h ss1 R [y] Fs q (Some p) s1 /\ take (length f) (drop (Z.to_nat (bufHdrSize (rs_ring s))) (tp_bytes y)) = f.
Proof.
  intros I Hb Hf. pose proof I as [G M V L B Hh Hk Hr HR HH HF Hu Ho Hy]. destruct HH as (x' & [= <-] & Hx & Hp).
  set (i := rotate_nat_add h (length R) N) in *. pose proof (g_sum _ _ _ G) as Hsum. pose proof (g_hdr _ _ _ G) as Hhdr.
  assert (Hkx : (R ++ [x] ++ Fs) !! length R = Some x) by (by apply list_lookup_middle).
  pose proof (slot_bytes _ _ _ _ _ _ _ _ _ _ _ _ I Hkx) as Hxl. unfold buffer_write, slot_at, slot_write.
  set (bytes := take (Z.to_nat (bufHdrSize (rs_ring s))) (tp_bytes x) ++ f ++ drop (Z.to_nat (bufHdrSize (rs_ring s)) + length f) (tp_bytes x)).
  assert (Hbl : Zlen (tp_bytes (with_bytes bytes x)) = bufferSize (rs_ring s)).
  { cbn. subst bytes. rewrite !length_app, length_take, length_drop. lia. }
  destruct (tx_replace _ _ _ _ _ _ _ _ _ _ (length R) x (with_bytes bytes x) I Hkx Hbl) as (Hm & Hi & V' & Hr' & B').
  fold i in Hm, Hi, V', Hr', B'. replace (p - bufHdrSize (rs_ring s)) with (off (rs_ring s) i) by lia.
  rewrite Hm, res_bind_ret, wr_list_slice, res_bind_ret by (done || lia). fold bytes.
  eexists _, (<[i := with_bytes bytes x]> ss), (with_bytes bytes x). split; [done|]. split; [done|]. split; [done|]. split; [done|]. split.
  - split; cbn [rs_ring rs_kernel on_ring]; try done; [by apply (cfg_geom (rs_ring s))|by rewrite length_insert| |].
    + rewrite Hr'. by rewrite insert_app_r_alt, Nat.sub_diag by done.
    + exists (with_bytes bytes x). by split_and!.
  - cbn. subst bytes. rewrite drop_app_length' by (rewrite length_take; lia). by apply take_app_length.
Qed.

Definition sends (a : send_answer) : Prop := Forall tx_act (sa_acts a) /\ 0 <= sa_sent a /\ sa_eintr a = false.

Lemma acts_ring l : forall s, Forall tx_act l -> exists mem, rs_ring (kernel_acts l s) = with_mem mem (rs_ring s).
Proof.
  induction l as [|a l IH]; intros s Hl; [exists (pMem (rs_ring s)); by destruct s as [[] ?]|]. apply Forall_cons_1 in Hl as [Ha Hl].
  change (kernel_acts (a :: l) s) with (kernel_acts l (kernel_act a s)). destruct (IH (kernel_act a s) Hl) as [mem ->].
  exists mem. destruct a; [| |done]; cbn [kernel_act];
    (destruct (pMem (rs_ring s) !! _) as [x|]; [|done]); by destruct (tp_status x =? _).
Qed.

Lemma ring_send_spec N per q held s a :
  tx_inv N per q held s -> sends a ->
  exists q' s', ringRawsockSend a (Some s) = Ret (sa_sent a, Some s') /\ tx_inv N per q' held s'
    /\ k_frames (rs_kernel s') ++ q' = k_frames (rs_kernel s) ++ q /\ ring_cfg (rs_ring s') = ring_cfg (rs_ring s) /\ buffersReady (rs_ring s') = 0.
Proof.
  intros I (Ha & Hs & He). destruct (tx_kernel N per (sa_acts a) q held s I Ha) as (q' & I' & Eq).
  destruct (acts_ring (sa_acts a) s Ha) as [mem Em]. destruct I as (h & ss & R & H & Fs & [G M _ _ _ _ _ _ _ _ _ _ _ _]).
  unfold ringRawsockSend, ring_tx. rewrite M, He, (proj2 (Z.ltb_ge _ _) Hs). eexists q', _. split; [done|]. split_and!; [|done|by cbn; rewrite Em|done].
  destruct I' as (h' & ss' & R' & H' & Fs' & [G' M' V' L' B' Hh' Hk' Hr' HR' HH' HF' Hu' Ho' Hy']).
  exists h', ss', R', H', Fs'. split; cbn [rs_ring rs_kernel on_ring]; try done; [by apply (cfg_geom (rs_ring (kernel_acts (sa_acts a) s)))| |].
  - cbn. lia.
  - cbn. lia.
Qed.

(** A filled buffer goes to the kernel. *)
Lemma ready_spec N per h ss R x Fs q p s f a :
  tx_at N per h ss R [x] Fs q (Some p) s -> take (length f) (drop (Z.to_nat (bufHdrSize (rs_ring s))) (tp_bytes x)) = f ->
  Zlen f <= frameSize (rg_base (rs_ring s)) -> buffersReady (rs_ring s) < Z.of_nat N -> sends a ->
  exists q' s', ringRawsockTxFrameReady a (Some s) p (Zlen f) = Ret (true, Some s') /\ tx_inv N per q' None s'
    /\ k_frames (rs_kernel s') ++ q' = k_frames (rs_kernel s) ++ q ++ [f] /\ ring_cfg (rs_ring s') = ring_cfg (rs_ring s)
    /\ buffersReady (rs_ring s') < Z.of_nat N.
Proof.
  intros I Htk Hf Hlt Ha. pose proof I as [G M V L B Hh Hk Hr HR HH HF Hu Ho Hy]. destruct HH as (x' & [= <-] & Hx & Hp).
  set (i := rotate_nat_add h (length R) N) in *. pose proof (g_sum _ _ _ G) as Hsum. pose proof (g_hdr _ _ _ G) as Hhdr. pose proof (g_small _ _ _ G).
  assert (Hkx : (R ++ [x] ++ Fs) !! length R = Some x) by (by apply list_lookup_middle).
  unfold ringRawsockTxFrameReady, ring_tx. rewrite M, u32_id, (proj2 (Z.ltb_ge _ _)) by (pose proof (g_buffer _ _ _ G); lia).
  set (y := with_status TP_STATUS_SEND_REQUEST (with_tplen (Zlen f) x)).
  destruct (tx_replace _ _ _ _ _ _ _ _ _ _ (length R) x y I Hkx (slot_bytes _ _ _ _ _ _ _ _ _ _ _ _ I Hkx)) as (Hm & Hi & V' & Hr' & B').
  fold i in Hm, Hi, V', Hr', B'. unfold slot_write. replace (p - bufHdrSize (rs_ring s)) with (off (rs_ring s) i) by lia.
  rewrite Hm, res_bind_ret. fold y. set (s1 := on_ring _ (on_ring _ s)).
  assert (I1 : tx_inv N per (q ++ [f]) None s1).
  { exists h, (<[i := y]> ss), (R ++ [y]), [], Fs. split; cbn [rs_ring rs_kernel on_ring s1]; try done.
    - by apply (cfg_geom (rs_ring s)).
    - by rewrite length_insert.
    - rewrite Hr'. rewrite insert_app_r_alt, Nat.sub_diag by done. by rewrite <- app_assoc.
    - apply Forall2_app; [done|]. constructor; [|constructor]. split; [done|]. cbn. by rewrite Nat2Z.id.
    - rewrite length_app, Nat.add_0_r. exact Hu.
    - cbn. rewrite Ho. cbn. lia.
    - cbn. lia. }
  change (frameCount (rs_ring s1)) with (frameCount (rs_ring s)). change (buffersReady (rs_ring s1)) with (buffersReady (rs_ring s) + 1).
  rewrite (g_count _ _ _ G). destruct (Z.leb_spec (Z.of_nat N) (buffersReady (rs_ring s) + 1)) as [Hfull|Hok]; cycle 1.
  { eexists (q ++ [f]), s1. split; [done|]. split_and!; try done. }
  destruct (ring_send_spec N per _ _ s1 a I1 Ha) as (q' & s' & E & I2 & Eq & Ec & Er). rewrite E, res_bind_ret.
  exists q', s'. split; [done|]. split_and!; try done. rewrite Er. lia.
Qed.

(** * Reception *)


(** A slot into which the kernel put [f] at the offset [mac]. *)
Record stored (mac size : Z) (x : tp_slot) (f : list Z) : Prop := {
  st_user : user_slot x = true;
  st_len : tp_len x = Zlen f;
  st_snap : tp_snaplen x = Z.min (Zlen f) (size - mac);
  st_mac : tp_mac x = mac;
  st_bytes : take (Z.to_nat (tp_snaplen x)) (drop (Z.to_nat mac) (tp_bytes x)) = take (Z.to_nat (tp_snaplen x)) f
}.

Record rx_at (N per u : nat) (mac : Z) (ss R Fs : list tp_slot) (q : list (list Z)) (s : ring_st) : Prop := {
  ra_geom : ring_geom (rs_ring s) N per;
  ra_mode : rxMode (rg_base (rs_ring s)) = true;
  ra_mac : bufHdrSize (rs_ring s) <= mac <= bufferSize (rs_ring s);
  ra_view : ring_view (rs_ring s) ss;
  ra_len : length ss = N;
  ra_bytes : Forall (fun x => Zlen (tp_bytes x) = bufferSize (rs_ring s)) ss;
  ra_u : (u < N)%nat;
  ra_rot : rotate u ss = R ++ Fs;
  ra_R : Forall2 (stored mac (bufferSize (rs_ring s))) R q;
  ra_F : Forall (fun x => tp_status x = TP_STATUS_KERNEL) Fs;
  ra_at : at_slot (rs_ring s) per u;
  ra_head : k_head (rs_kernel s) = Z.of_nat (rotate_nat_add u (length R) N);
  ra_out : buffersOut (rs_ring s) = 0
}.
Definition rx_inv (N per : nat) (mac : Z) (q : list (list Z)) (s : ring_st) : Prop :=
  exists u ss R Fs, rx_at N per u mac ss R Fs q s.

Lemma rx_replace N per u mac ss R Fs q s k x y :
  rx_at N per u mac ss R Fs q s -> (R ++ Fs) !! k = Some x -> Zlen (tp_bytes y) = bufferSize (rs_ring s) ->
  let i := rotate_nat_add u k N in
  pMem (rs_ring s) !! off (rs_ring s) i = Some x /\ (i < N)%nat /\ Zlen (tp_bytes x) = bufferSize (rs_ring s)
  /\ let r' := with_mem (<[off (rs_ring s) i := y]> (pMem (rs_ring s))) (rs_ring s) in
     ring_view r' (<[i := y]> ss) /\ rotate u (<[i := y]> ss) = <[k := y]> (R ++ Fs)
     /\ Forall (fun x => Zlen (tp_bytes x) = bufferSize (rs_ring s)) (<[i := y]> ss).
Proof.
  intros [G _ _ V L B Hh Hr _ _ _ _ _] Hk Hy i. rewrite <- Hr in Hk. rewrite <- L in Hh.
  destruct (rotate_at u ss k x Hh Hk) as [Hi Hins]. rewrite L in Hi, Hins. fold i in Hi, Hins.
  pose proof (lookup_lt_Some _ _ _ Hi) as Hil. split; [by apply V|]. split; [lia|].
  split; [exact (Forall_lookup_1 _ _ _ _ B Hi)|]. split_and!.
  - by apply (view_insert _ N per).
  - by rewrite Hins, Hr.
  - by apply Forall_insert.
Qed.

Lemma rx_slot N per u mac ss R Fs q s k x :
  rx_at N per u mac ss R Fs q s -> (R ++ Fs) !! k = Some x ->
  pMem (rs_ring s) !! off (rs_ring s) (rotate_nat_add u k N) = Some x /\ Zlen (tp_bytes x) = bufferSize (rs_ring s).
Proof.
  intros [G _ _ V L B Hh Hr _ _ _ _ _] Hk. rewrite <- Hr in Hk. rewrite <- L in Hh. destruct (rotate_at u ss k x Hh Hk) as [Hi _].
  rewrite L in Hi. split; [by apply V|]. exact (Forall_lookup_1 _ _ _ _ B Hi).
Qed.

Lemma rx_total N per u mac ss R Fs q s : rx_at N per u mac ss R Fs q s -> (length R + length Fs = N)%nat.
Proof. intros [_ _ _ _ L _ _ Hr _ _ _ _ _]. by rewrite <- L, <- (length_rotate ss u), Hr, length_app. Qed.

Definition rx_act (mac : Z) (a : kact) : Prop := match a with KStore _ mac' _ _ => mac' = mac | _ => False end.

(** A frame that arrives is the last of those that wait, or is lost when the ring is
    full. *)
Lemma rx_store N per mac q s a :
  rx_inv N per mac q s -> rx_act mac a ->
  exists new, rx_inv N per mac (q ++ new) (kernel_act a s) /\ k_frames (rs_kernel (kernel_act a s)) = k_frames (rs_kernel s) ++ new.
Proof.
  intros (u & ss & R & Fs & I) Ha. destruct a as [| |f mac' net tci]; try done. cbn in Ha. subst mac'.
  pose proof I as [G M Hmac V L B Hu Hr HR HF Hat Hk Ho]. pose proof (rx_total _ _ _ _ _ _ _ _ _ I) as Htot.
  cbn [kernel_act]. rewrite Hk. fold (off (rs_ring s) (rotate_nat_add u (length R) N)).
  destruct Fs as [|x Fs].
  - assert (E : rotate_nat_add u (length R) N = u).
    { cbn in Htot. replace (length R) with N by lia. unfold rotate_nat_add. rewrite <- (Z.mul_1_l (Z.of_nat N)) at 1. rewrite Z_mod_plus_full, Z.mod_small; lia. }
    rewrite E. destruct R as [|x R]; [cbn in Htot; lia|]. inversion HR as [|? f0 ? q0 Hx HR']; subst.
    destruct (rx_slot _ _ _ _ _ _ _ _ _ 0 x I eq_refl) as [Hm _]. rewrite rotate_nat_add_0 in Hm by done. rewrite Hm.
    destruct (Z.eqb_spec (tp_status x) TP_STATUS_KERNEL) as [E0|_].
    { pose proof (st_user _ _ _ _ Hx) as Hus. unfold user_slot in Hus. by rewrite E0 in Hus. }
    exists []. rewrite !app_nil_r. split; [|done]. exists u, ss, (x :: R), []. split; try done. cbn [rs_kernel k_head]. by rewrite E.
  - apply Forall_cons_1 in HF as [Hx HF]. set (i := rotate_nat_add u (length R) N) in *.
    assert (Hkx : (R ++ x :: Fs) !! length R = Some x) by (by apply list_lookup_middle).
    destruct (rx_slot _ _ _ _ _ _ _ _ _ _ x I Hkx) as [Hm Hxl]. fold i in Hm. rewrite Hm, Hx, Z.eqb_refl.
    set (n := Z.min (Zlen f) (bufferSize (rs_ring s) - mac)). set (y := Slot _ _ _ _ _ _ _).
    pose proof (g_hdr _ _ _ G) as Hhdr. assert (Hn : 0 <= n <= Zlen f) by lia.
    assert (Hb : Zlen (tp_bytes y) = bufferSize (rs_ring s)).
    { subst y. cbn [tp_bytes]. rewrite !length_app, !length_take, length_drop. lia. }
    destruct (rx_replace _ _ _ _ _ _ _ _ _ (length R) x y I Hkx Hb) as (_ & Hi & _ & V' & Hr' & B'). fold i in Hi, V', Hr', B'.
    exists [f]. split; [|done]. exists u, (<[i := y]> ss), (R ++ [y]), Fs. split; cbn [rs_ring rs_kernel k_head]; try done.
    + by apply (cfg_geom (rs_ring s)).
    + by rewrite length_insert.
    + rewrite Hr', insert_app_r_alt, Nat.sub_diag by done. by rewrite <- app_assoc.
    + apply Forall2_app; [done|]. constructor; [|constructor]. subst y. split; cbn; try done.
      * unfold user_slot. cbn. by destruct (k_lost _).
      * rewrite drop_app_length' by (rewrite length_take; lia). apply take_app_length'. rewrite length_take. lia.
    + unfold kernel_next. rewrite Hk, (g_count _ _ _ G), length_app. cbn [length]. rewrite Nat.add_1_r.
      subst i. unfold rotate_nat_add. rewrite Z2Nat.id, Z2Nat.id by (apply Z.mod_pos_bound; lia).
      rewrite Zplus_mod_idemp_l. f_equal. lia.
Qed.

Lemma rx_kernel N per mac l : forall q s, rx_inv N per mac q s -> Forall (rx_act mac) l ->
  exists new, rx_inv N per mac (q ++ new) (kernel_acts l s) /\ k_frames (rs_kernel (kernel_acts l s)) = k_frames (rs_kernel s) ++ new.
Proof.
  induction l as [|a l IH]; intros q s I Hl; [exists []; by rewrite !app_nil_r|]. apply Forall_cons_1 in Hl as [Ha Hl].
  change (kernel_acts (a :: l) s) with (kernel_acts l (kernel_act a s)).
  destruct (rx_store N per mac q s a I Ha) as (n1 & I1 & E1). destruct (IH _ _ I1 Hl) as (n2 & I2 & E2).
  exists (n1 ++ n2). by rewrite E2, E1, !app_assoc in *.
Qed.

(** ** The client *)

(** The frame in a buffer. *)
Definition buffer_read (pBuffer offset len : Z) (s : ring_st) : res (list Z) :=
  x ← slot_at (rs_ring s) (pBuffer - bufHdrSize (rs_ring s));
  rd_list (tp_bytes x) (bufHdrSize (rs_ring s) + offset) (Z.to_nat len).

(** A client that reads a frame and gives the buffer back. *)
Definition ring_recv (a : poll_answer) (s : ring_st) : res (option (list Z) * option ring_st) :=
  '(g, P) ← ringRawsockGetRxFrame a (Some s);
  match g, P with
  | Some (p, o, n), Some s => f ← buffer_read p o n s; '(_, P) ← ringRawsockRelRxFrame (Some s) p; Ret (Some f, P)
  | _, _ => Ret (None, P)
  end.

(** Whole frames are delivered, frames that were cut are skipped. *)
Definition fits (room : Z) (f : list Z) : bool := Zlen f <=? room.

(** Giving back the oldest slot. *)
Lemma rx_release N per u mac ss x R Fs f q s s1 :
  rx_at N per u mac ss (x :: R) Fs (f :: q) s ->
  pMem (rs_ring s1) = pMem (rs_ring s) -> ring_cfg (rs_ring s1) = ring_cfg (rs_ring s) -> rs_kernel s1 = rs_kernel s ->
  at_slot (rs_ring s1) per (S u mod N) -> buffersOut (rs_ring s1) = 1 ->
  exists s2, ringRawsockRelRxFrame (Some s1) (off (rs_ring s) u + bufHdrSize (rs_ring s)) = Ret (true, Some s2)
    /\ rx_inv N per mac q s2 /\ rs_kernel s2 = rs_kernel s /\ ring_cfg (rs_ring s2) = ring_cfg (rs_ring s).
Proof.
  intros I Em Ec Ek Hat1 Ho1. pose proof I as [G M Hmac V L B Hu Hr HR HF Hat Hk Ho].
  pose proof Ec as Ec'. unfold ring_cfg in Ec'. injection Ec' as E1 E2 E3 E4 E5 E6.
  unfold ringRawsockRelRxFrame, ring_rx. rewrite E1, M. unfold slot_write. rewrite Em, E3.
  replace (off (rs_ring s) u + bufHdrSize (rs_ring s) - bufHdrSize (rs_ring s)) with (off (rs_ring s) u) by lia.
  set (y := with_status TP_STATUS_KERNEL x).
  destruct (rx_slot _ _ _ _ _ _ _ _ _ 0 x I eq_refl) as [Hm Hxl].
  destruct (rx_replace _ _ _ _ _ _ _ _ _ 0 x y I eq_refl Hxl) as (_ & _ & _ & V' & Hr' & B'). rewrite rotate_nat_add_0 in Hm, V', Hr', B' by done.
  rewrite Hm, res_bind_ret. eexists. split; [done|]. split; [|split; [done|exact Ec]].
  exists (S u mod N)%nat, (<[u := y]> ss), R, (Fs ++ [y]). inversion HR as [|? ? ? ? Hx HR']; subst.
  assert (Eoff : forall i, off (rs_ring s1) i = off (rs_ring s) i) by (intros i; by apply cfg_offset).
  split; cbn [rs_ring rs_kernel on_ring]; try done.
  - by apply (cfg_geom (rs_ring s)).
  - cbn. by rewrite E1.
  - cbn. by rewrite E3, E4.
  - destruct V' as [V1 V2]. split; cbn in *.
    + intros i z Hz. rewrite <- (V1 i z Hz). f_equal. by apply Eoff.
    + intros o z Hz. destruct (V2 o z Hz) as (i & -> & Hi). exists i. split; [|done]. symmetry. by apply Eoff.
  - by rewrite length_insert.
  - cbn. by rewrite E4.
  - apply Nat.mod_upper_bound. lia.
  - assert (Hl' : length (<[u:=y]> ss) = length ss) by (by rewrite length_insert). rewrite <- Hl' at 1.
    rewrite (rotate_next (<[u:=y]> ss) u y (R ++ Fs)) by (lia || done). by rewrite <- app_assoc.
  - cbn. by rewrite E4.
  - apply Forall_app. split; [done|]. by constructor.
  - rewrite Ek, Hk, rotate_S by lia. done.
  - cbn. lia.
Qed.

(** The client gets the oldest frame, or the next call will not see it. *)
Lemma recv_ready N per mac f q s a :
  rx_inv N per mac (f :: q) s ->
  exists s', ring_recv a s = Ret (if fits (bufferSize (rs_ring s) - mac) f then Some f else None, Some s')
    /\ rx_inv N per mac q s' /\ rs_kernel s' = rs_kernel s /\ ring_cfg (rs_ring s') = ring_cfg (rs_ring s).
Proof.
  intros (u & ss & R & Fs & I). pose proof I as [G M Hmac V L B Hu Hr HR HF Hat Hk Ho].
  apply Forall2_cons_inv_r in HR as (x & R' & Hx & HR & ->). pose proof (g_hdr _ _ _ G) as Hhdr. pose proof (g_small _ _ _ G) as Hsm.
  destruct (rx_slot _ _ _ _ _ _ _ _ _ 0 x I eq_refl) as [Hm Hxl]. rewrite rotate_nat_add_0 in Hm by done.
  unfold ring_recv, ringRawsockGetRxFrame, ring_rx. rewrite M, (g_count _ _ _ G), Ho, (proj2 (Z.leb_gt _ _)) by lia.
  assert (Hs : slot_at (rs_ring s) (active (rs_ring s)) = Ret x) by (unfold slot_at; by rewrite (active_off _ _ _ G u Hat), Hm).
  assert (ring_rx_wait a s = Ret (true, s)) as -> by (unfold ring_rx_wait; by rewrite Hs, res_bind_ret, (st_user _ _ _ _ Hx)).
  rewrite res_bind_ret. cbn beta iota zeta. rewrite Hs, res_bind_ret, (active_off _ _ _ G u Hat).
  assert (GL : ring_geom (with_losing (Z.testbit (tp_status x) 2) (rs_ring s)) N per) by (by apply (cfg_geom (rs_ring s))).
  rewrite (ring_next_spec _ N per GL u Hat Hu), res_bind_ret.
  set (r1 := with_index _ _ _). cbv zeta. set (s1 := RingSt (with_out (buffersOut r1 + 1) (buffersReady r1) r1) (rs_kernel s)).
  change (bufHdrSize r1) with (bufHdrSize (rs_ring s)).
  destruct (rx_release _ _ _ _ _ _ _ _ _ _ s s1 I) as (s2 & E2 & I2 & K2 & C2); try done; [subst s1 r1; cbn; lia|].
  rewrite (st_len _ _ _ _ Hx), (st_snap _ _ _ _ Hx), (st_mac _ _ _ _ Hx). unfold fits.
  destruct (Z.leb_spec (Zlen f) (bufferSize (rs_ring s) - mac)) as [Hf|Hf].
  - rewrite Z.min_l, Z.ltb_irrefl, res_bind_ret by lia. cbn beta iota. unfold buffer_read, slot_at. change (pMem (rs_ring s1)) with (pMem (rs_ring s)).
    change (bufHdrSize (rs_ring s1)) with (bufHdrSize (rs_ring s)).
    replace (off (rs_ring s) u + bufHdrSize (rs_ring s) - bufHdrSize (rs_ring s)) with (off (rs_ring s) u) by lia. rewrite Hm, res_bind_ret.
    rewrite u32_id by lia. replace (bufHdrSize (rs_ring s) + (mac - bufHdrSize (rs_ring s))) with mac by lia.
    pose proof (st_bytes _ _ _ _ Hx) as Hby. rewrite (st_snap _ _ _ _ Hx), Z.min_l, Nat2Z.id, (take_ge f) in Hby by lia.
    rewrite rd_list_slice, Nat2Z.id, Hby, res_bind_ret by lia. rewrite E2, res_bind_ret. by exists s2.
  - rewrite (proj2 (Z.ltb_lt _ _)) by lia. rewrite E2, res_bind_ret, res_bind_ret. by exists s2.
Qed.

(** [ppoll] reports a frame only when there is one in the ring. *)
Definition ring_has (s : ring_st) : bool := existsb (fun e => user_slot e.2) (map_to_list (pMem (rs_ring s))).

Lemma ring_has_spec N per mac q s : rx_inv N per mac q s -> ring_has s = true -> q <> [].
Proof.
  intros (u & ss & R & Fs & I) Hh ->. pose proof I as [G M Hmac V L B Hu Hr HR HF Hat Hk Ho]. inversion HR; subst.
  unfold ring_has in Hh. apply existsb_exists in Hh as ([o x] & Hin%list_elem_of_In%elem_of_map_to_list & Hus).
  destruct (proj2 V o x Hin) as (i & -> & Hi). cbn [snd] in Hus. pose proof (lookup_lt_Some _ _ _ Hi) as Hil.
  assert (Hk' : Fs !! rotate_nat_sub u i (length ss) = Some x).
  { cbn [app] in Hr. rewrite <- Hr, lookup_rotate_r by (apply rotate_nat_sub_lt; lia). by rewrite rotate_nat_add_sub. }
  pose proof (Forall_lookup_1 _ _ _ _ HF Hk') as Hst. cbn in Hst. unfold user_slot in Hus. by rewrite Hst in Hus.
Qed.

Lemma rx_cfg mac l : forall s, Forall (rx_act mac) l -> exists mem, rs_ring (kernel_acts l s) = with_mem mem (rs_ring s).
Proof.
  induction l as [|a l IH]; intros s Hl; [exists (pMem (rs_ring s)); by destruct s as [[] ?]|]. apply Forall_cons_1 in Hl as [Ha Hl].
  change (kernel_acts (a :: l) s) with (kernel_acts l (kernel_act a s)). destruct (IH (kernel_act a s) Hl) as [mem ->].
  exists mem. destruct a; try done; cbn [kernel_act]. destruct (pMem (rs_ring s) !! _) as [x|]; [|done]. by destruct (tp_status x =? _).
Qed.

(** Without a frame the client waits; the kernel may store some meanwhile. *)
Lemma recv_wait N per mac s a :
  rx_inv N per mac [] s -> Forall (rx_act mac) (pa_acts a) ->
  let s1 := kernel_acts (pa_acts a) s in
  (pa_in a = true -> ring_has s1 = true) ->
  ring_recv a s = if (pa_ret a <? 0) || negb (pa_in a) then Ret (None, Some s1) else ring_recv a s1.
Proof.
  intros I Ha s1 Hin. pose proof I as I0. destruct I as (u & ss & R & Fs & I). pose proof I as [G M Hmac V L B Hu Hr HR HF Hat Hk Ho].
  apply Forall2_nil_inv_r in HR as ->. destruct (rx_cfg mac (pa_acts a) s Ha) as [mem Em]. fold s1 in Em.
  destruct (rx_kernel N per mac (pa_acts a) [] s I0 Ha) as (new & I1 & _). fold s1 in I1. cbn [app] in I1.
  destruct Fs as [|x Fs]; [pose proof (rx_total _ _ _ _ _ _ _ _ _ I) as Ht; cbn in Ht; lia|]. apply Forall_cons_1 in HF as [Hx _].
  destruct (rx_slot _ _ _ _ _ _ _ _ _ 0 x I eq_refl) as [Hm _]. rewrite rotate_nat_add_0 in Hm by done.
  assert (Hs : slot_at (rs_ring s) (active (rs_ring s)) = Ret x) by (unfold slot_at; by rewrite (active_off _ _ _ G u Hat), Hm).
  assert (Hux : user_slot x = false) by (unfold user_slot; by rewrite Hx).
  unfold ring_recv at 1, ringRawsockGetRxFrame, ring_rx. rewrite M, (g_count _ _ _ G), Ho, (proj2 (Z.leb_gt _ _)) by lia.
  destruct ((pa_ret a <? 0) || negb (pa_in a)) eqn:Ep.
  { assert (ring_rx_wait a s = Ret (false, s1)) as -> by (unfold ring_rx_wait; rewrite Hs, res_bind_ret, Hux; fold s1; by rewrite Ep). done. }
  pose proof Ep as Ep'. apply orb_false_iff in Ep' as [_ Ep2%negb_false_iff].
  specialize (Hin Ep2). pose proof (ring_has_spec _ _ _ _ _ I1 Hin) as Hne. destruct new as [|f new]; [done|].
  destruct I1 as (u1 & ss1 & R1 & Fs1 & I1). pose proof I1 as [G1 M1 _ _ _ _ Hu1 _ HR1 _ Hat1 _ Ho1].
  apply Forall2_cons_inv_r in HR1 as (x1 & R1' & Hx1 & _ & ->).
  destruct (rx_slot _ _ _ _ _ _ _ _ _ 0 x1 I1 eq_refl) as [Hm1 _]. rewrite rotate_nat_add_0 in Hm1 by done.
  assert (Hs1 : slot_at (rs_ring s1) (active (rs_ring s1)) = Ret x1) by (unfold slot_at; by rewrite (active_off _ _ _ G1 u1 Hat1), Hm1).
  assert (ring_rx_wait a s = Ret (true, s1)) as ->.
  { unfold ring_rx_wait. rewrite Hs, res_bind_ret, Hux. fold s1. cbv zeta. by rewrite Ep, Hs1, res_bind_ret, (st_user _ _ _ _ Hx1). }
  unfold ring_recv, ringRawsockGetRxFrame, ring_rx. rewrite M1, (g_count _ _ _ G1), Ho1, (proj2 (Z.leb_gt _ _)) by lia.
  assert (ring_rx_wait a s1 = Ret (true, s1)) as -> by (unfold ring_rx_wait; by rewrite Hs1, res_bind_ret, (st_user _ _ _ _ Hx1)). done.
Qed.
