(* ===== verification/RingTheorems.v ===== *)
(** * Raw sockets on Linux: frames through rings

    What a ring carries in either direction, whatever the kernel does and when, from
    its opening on; the packet filter of a listener; and where the code goes wrong. *)

From S2P Require Import Prelude AvtpTime MediaQProps AvtpMap Rawsock RingSock RingSockProps.
From Stdlib Require Import ZArith Lia.
From stdpp Require Import base tactics list option strings gmap.
Open Scope Z_scope.

(** ** Opening *)

Lemma align_ge x : 0 <= x -> x <= TPACKET_ALIGN x < x + 16.
Proof.
  intros Hx. unfold TPACKET_ALIGN. replace (Z.land (x + 15) (Z.lnot 15)) with (Z.ldiff (x + 15) (Z.ones 4)) by (by rewrite Z.ldiff_land).
  rewrite Z.ldiff_ones_r, Z.shiftl_mul_pow2, Z.shiftr_div_pow2 by lia. change (2 ^ 4) with 16.
  pose proof (Z.div_mod (x + 15) 16 ltac:(lia)). pose proof (Z.mod_pos_bound (x + 15) 16). lia.
Qed.

(** The memory of a new ring. *)
Lemma ring_mem_view r N per :
  ring_geom r N per -> pMem r = ring_mem (blockCount r) (Z.of_nat per) (blockSize r) (bufferSize r) ->
  ring_view r (replicate N (Slot 0 0 0 0 0 0 (replicate (Z.to_nat (bufferSize r)) 0))).
Proof.
  intros G Em. set (x0 := Slot _ _ _ _ _ _ _). destruct (g_blocks _ _ _ G) as (B & HB & EB & EN).
  assert (E : ring_mem (blockCount r) (Z.of_nat per) (blockSize r) (bufferSize r) = list_to_map ((fun n => (off r n, x0)) <$> seq 0 N)).
  { unfold ring_mem. rewrite EB, <- Nat2Z.inj_mul, Nat2Z.id, <- EN. f_equal. apply list_fmap_ext. intros i n _.
    unfold off, slot_offset. by rewrite (g_fit _ _ _ G). }
  assert (Hnd : NoDup (((fun n => (off r n, x0)) <$> seq 0 N).*1)).
  { rewrite <- list_fmap_compose. apply (NoDup_fmap_2_strong _ (seq 0 N)); [|apply NoDup_seq]. intros i j _ _. cbn. by apply (off_inj r N per G). }
  unfold ring_view. rewrite Em, E. split.
  - intros i x Hi. apply lookup_replicate in Hi as [-> Hi]. apply elem_of_list_to_map_1; [done|].
    apply list_elem_of_fmap. exists i. split; [done|]. apply elem_of_seq. lia.
  - intros o x Ho. apply elem_of_list_to_map_2, list_elem_of_fmap in Ho as (i & [= -> ->] & Hi). exists i. split; [done|].
    apply elem_of_seq in Hi. apply lookup_replicate. split; [done|lia].
Qed.

(** The sizes the kernel answers and the caller asks for are not negative and fit their
    types. *)
Definition ring_opens (sa : open_answers) (a : ring_answers) (num : Z) (s : ring_st) : Prop :=
  (exists v, ra_hdrlen a = Some v /\ 0 <= v) /\ 0 <= frameSize (rg_base (rs_ring s)) /\ 0 < ra_pagesize a < 1073741824 /\ 0 <= num < 2147483648.

Lemma ring_open_geom sa a ifname rx tx et size num s :
  ringRawsockOpen sa a ifname rx tx et size num = Ret (Some s) -> ring_opens sa a num s ->
  exists N per, ring_geom (rs_ring s) N per /\ txMode (rg_base (rs_ring s)) = tx /\ rxMode (rg_base (rs_ring s)) = rx
    /\ ring_view (rs_ring s) (replicate N (Slot 0 0 0 0 0 0 (replicate (Z.to_nat (bufferSize (rs_ring s))) 0)))
    /\ at_slot (rs_ring s) per 0 /\ rs_kernel s = Kernel 0 [] false /\ buffersOut (rs_ring s) = 0 /\ buffersReady (rs_ring s) = 0.
Proof.
  intros E ((v & Hv & Hv0) & Hfs & Hpg & Hnum). revert E. unfold ringRawsockOpen.
  destruct (simpleRawsockOpen sa ifname rx tx et size) as [sr|] eqn:Esr; [|done].
  assert (Hmodes : txMode (sr_base sr) = tx /\ rxMode (sr_base sr) = rx).
  { revert Esr. unfold simpleRawsockOpen, mbind, option_bind. destruct (simpleAvbCheckInterface _ _); [|done].
    destruct (simple_frameSize _ _); [|done]. destruct (_ || _); [done|]. by intros [= <-]. }
  rewrite Hv. destruct (negb (ra_version a)); [done|]. set (hdr := if rxMode (sr_base sr) then _ else _).
  destruct (Z.eqb_spec (frameSize (sr_base sr) + hdr) 0) as [|Hb]; [done|].
  destruct (Z.eqb_spec (Z.quot (ra_pagesize a * 4) (frameSize (sr_base sr) + hdr)) 0) as [|Hp]; [done|].
  destruct (negb (ra_ring a) || negb (ra_mmap a)); [done|]. intros [= <-]. cbn [rs_ring rs_kernel rg_base] in *.
  assert (Hhdr : 0 <= hdr). { subst hdr. pose proof (align_ge v Hv0). pose proof (align_ge 20 ltac:(done)). change sizeof_sockaddr_ll with 20. destruct (rxMode _); lia. }
  rewrite s32_id by lia. rewrite Z.quot_div_nonneg in * by lia. set (bs := frameSize (sr_base sr) + hdr) in *.
  assert (Hper : 0 < ra_pagesize a * 4 / bs) by (pose proof (Z.div_pos (ra_pagesize a * 4) bs); lia).
  set (per := ra_pagesize a * 4 / bs) in *. rewrite Z.quot_div_nonneg by lia. set (blocks := num / per + 1).
  assert (Hbl : 0 < blocks) by (subst blocks; pose proof (Z.div_pos num per); lia).
  set (r := RingRawsock _ _ _ _ _ _ _ _ _ _ _ _ _ _ _).
  assert (G : ring_geom r (Z.to_nat blocks * Z.to_nat per) (Z.to_nat per)).
  { split; cbn; try lia; [exists (Z.to_nat blocks); lia|].
    assert (bs <= ra_pagesize a * 4); [|lia]. destruct (Z.le_gt_cases bs (ra_pagesize a * 4)); [done|]. unfold per in Hper. rewrite Z.div_small in Hper by lia. lia. }
  exists (Z.to_nat blocks * Z.to_nat per)%nat, (Z.to_nat per). split_and!; try done; try apply Hmodes.
  - apply (ring_mem_view r _ _ G). cbn. by rewrite Z2Nat.id by lia.
  - unfold at_slot. cbn. by rewrite Nat.Div0.div_0_l, Nat.Div0.mod_0_l.
Qed.


Lemma open_rx sa a ifname tx et size num s mac :
  ringRawsockOpen sa a ifname true tx et size num = Ret (Some s) -> ring_opens sa a num s ->
  bufHdrSize (rs_ring s) <= mac <= bufferSize (rs_ring s) ->
  exists N per, rx_inv N per mac [] s /\ rs_kernel s = Kernel 0 [] false /\ frameCount (rs_ring s) = Z.of_nat N.
Proof.
  intros E H Hmac. destruct (ring_open_geom _ _ _ _ _ _ _ _ _ E H) as (N & per & G & _ & Hm & V & Hat & Hk & Ho & Hr).
  pose proof (geom_pos _ _ _ G) as HN. exists N, per. split; [|split; [done|apply G]].
  set (x0 := Slot 0 0 0 0 0 0 _) in V. exists 0%nat, (replicate N x0), [], (replicate N x0).
  split; try done; [by rewrite length_replicate|..].
  - apply Forall_replicate. cbn. rewrite length_replicate. pose proof (g_buffer _ _ _ G). lia.
  - unfold rotate. rewrite length_replicate, Nat.Div0.mod_0_l, take_0, drop_0. by rewrite app_nil_r.
  - by apply Forall_replicate.
  - rewrite Hk. cbn [length k_head]. by rewrite rotate_nat_add_0 by lia.
Qed.

(** ** Transmission *)

(** What happens to a ring: the client asks for a buffer without waiting, fills the one
    it has and marks it ready, has the ring sent; the kernel works. *)
Inductive tx_op :=
| TGet
| TPut (f : list Z) (a : send_answer)
| TFlush (a : send_answer)
| TKernel (l : list kact).


(** The buffer of the client, the frames it has marked ready, and the ring.  A client
    holds one buffer at a time. *)
Record tx_client := TxClient { tc_held : option Z; tc_ready : list (list Z); tc_ring : ring_st }.

Definition run_tx_op (o : tx_op) (c : tx_client) : res tx_client :=
  let s := tc_ring c in
  match o, tc_held c with
  | TGet, None =>
      '(g, P) ← ringRawsockGetTxFrame [] (Some s) false true;
      Ret (TxClient (fst <$> g) (tc_ready c) (default s P))
  | TPut f a, Some p =>
      if Zlen f <=? frameSize (rg_base (rs_ring s)) then
        s ← buffer_write p f s;
        '(_, P) ← ringRawsockTxFrameReady a (Some s) p (Zlen f);
        Ret (TxClient None (tc_ready c ++ [f]) (default s P))
      else Ret c
  | TFlush a, _ => '(_, P) ← ringRawsockSend a (Some s); Ret (TxClient (tc_held c) (tc_ready c) (default s P))
  | TKernel l, _ => Ret (TxClient (tc_held c) (tc_ready c) (kernel_acts l s))
  | _, _ => Ret c
  end.
Fixpoint run_tx (l : list tx_op) (c : tx_client) : res tx_client :=
  match l with [] => Ret c | o :: l => c ← run_tx_op o c; run_tx l c end.





(** ** Reception *)

(** Frames arrive, and the client asks for one: the kernel may store frames while it
    waits, [ret] and [in_] are the answer of [ppoll]. *)
Inductive rx_op :=
| RArrive (l : list kact)
| RRecv (l : list kact) (ret : Z) (ready : bool).

Definition rx_op_ok (mac : Z) (o : rx_op) : Prop :=
  match o with RArrive l => Forall (rx_act mac) l | RRecv l _ _ => Forall (rx_act mac) l end.

(** The frames delivered, and the ring.  [ppoll] says that there is a frame only when
    there is one. *)
Definition run_rx_op (o : rx_op) (c : list (list Z) * ring_st) : res (list (list Z) * ring_st) :=
  let '(got, s) := c in
  match o with
  | RArrive l => Ret (got, kernel_acts l s)
  | RRecv l ret ready =>
      '(f, P) ← ring_recv (PollAnswer l ret (ready && ring_has (kernel_acts l s))) s;
      Ret (got ++ option_list f, default s P)
  end.
Fixpoint run_rx (l : list rx_op) (c : list (list Z) * ring_st) : res (list (list Z) * ring_st) :=
  match l with [] => Ret c | o :: l => c ← run_rx_op o c; run_rx l c end.

Definition rx_client_ok (N per : nat) (mac size : Z) (c : list (list Z) * ring_st) : Prop :=
  exists q, rx_inv N per mac q c.2 /\ bufferSize (rs_ring c.2) = size
    /\ List.filter (fits (size - mac)) (k_frames (rs_kernel c.2)) = c.1 ++ List.filter (fits (size - mac)) q.

Lemma run_rx_op_ok N per mac size o c : rx_client_ok N per mac size c -> rx_op_ok mac o -> returns (run_rx_op o c) (rx_client_ok N per mac size).
Proof.
  intros (q & I & Hsz & Eq) Ho. destruct c as [got s]. cbn [fst snd] in *. destruct o as [l|l ret ready]; cbn [run_rx_op].
  - destruct (rx_kernel N per mac l q s I Ho) as (new & I' & E'). destruct (rx_cfg mac l s Ho) as [mem Em]. exists (q ++ new). cbn [fst snd].
    split; [done|]. split; [by rewrite Em|]. by rewrite E', !List.filter_app, Eq, <- app_assoc.
  - set (a := PollAnswer l ret _). destruct q as [|f q].
    + rewrite (recv_wait N per mac s a I Ho) by (cbn; by intros [_ ?]%andb_true_iff). cbn [pa_acts a].
      destruct (rx_kernel N per mac l [] s I Ho) as (new & I' & E'). destruct (rx_cfg mac l s Ho) as [mem Em]. cbn [app] in I'.
      destruct ((pa_ret a <? 0) || negb (pa_in a)) eqn:Ep.
      { rewrite res_bind_ret. exists new. cbn. rewrite app_nil_r. split; [done|]. split; [unfold id; by rewrite Em|].
        unfold id. rewrite E', List.filter_app, Eq. cbn. by rewrite app_nil_r. }
      apply orb_false_iff in Ep as [_ Ep%negb_false_iff]. cbn in Ep. apply andb_true_iff in Ep as [_ Ep].
      pose proof (ring_has_spec _ _ _ _ _ I' Ep) as Hne. destruct new as [|f new]; [done|].
      destruct (recv_ready N per mac f new _ a I') as (s' & -> & I2 & K2 & C2). injection C2 as _ _ _ Cb _ _. rewrite res_bind_ret. rewrite Em. rewrite Em in Cb. cbn [bufferSize with_mem]. rewrite Hsz.
      exists new. cbn [fst snd default]. unfold id. split; [done|]. split; [|rewrite K2, E', List.filter_app, Eq; cbn [List.filter]; rewrite app_nil_r, <- app_assoc; by destruct (fits _ f)].
      rewrite Cb. exact Hsz.
    + destruct (recv_ready N per mac f q s a I) as (s' & -> & I2 & K2 & C2). injection C2 as _ _ _ Cb _ _. rewrite res_bind_ret, Hsz. exists q. cbn [fst snd default]. unfold id.
      split; [done|]. split; [by rewrite Cb|]. rewrite K2, Eq. cbn [List.filter]. rewrite <- app_assoc. by destruct (fits _ f).
Qed.

Lemma run_rx_ok N per mac size l : forall c, rx_client_ok N per mac size c -> Forall (rx_op_ok mac) l ->
  returns (run_rx l c) (rx_client_ok N per mac size).
Proof.
  induction l as [|o l IH]; intros c Hc Hl; [done|]. apply Forall_cons_1 in Hl as [Ho Hl]. cbn [run_rx].
  eapply returns_bind; [by apply run_rx_op_ok|]. intros c' Hc'. by apply IH.
Qed.

Lemma rx_queue_len N per mac q s : rx_inv N per mac q s -> (length q <= N)%nat.
Proof.
  intros (u & ss & R & Fs & I). pose proof (rx_total _ _ _ _ _ _ _ _ _ I). pose proof (Forall2_length _ _ _ (ra_R _ _ _ _ _ _ _ _ _ I)). lia.
Qed.

(** A ring delivers what arrives.  From the opening of the ring on, for every
    sequence of frames that the kernel stores, at the offset [mac] of their slots, and
    of calls that wait for a frame, read it and give the buffer back, the code stays
    inside the slots; the frames that the client gets are the whole frames among those
    stored, in the order of their arrival, each once; at most a ring full of them
    is still to come. *)
Theorem ring_rx_fifo sa a ifname tx et size num s mac l :
  ringRawsockOpen sa a ifname true tx et size num = Ret (Some s) -> ring_opens sa a num s ->
  bufHdrSize (rs_ring s) <= mac <= bufferSize (rs_ring s) -> Forall (rx_op_ok mac) l ->
  returns (run_rx l ([], s)) (fun '(got, s') => exists later,
    List.filter (fits (bufferSize (rs_ring s) - mac)) (k_frames (rs_kernel s')) = got ++ later
    /\ Zlen later <= frameCount (rs_ring s)).
Proof.
  intros E Ho Hmac Hl. destruct (open_rx _ _ _ _ _ _ _ _ mac E Ho Hmac) as (N & per & I & Hk & HN).
  eapply returns_mono; [apply (run_rx_ok N per mac (bufferSize (rs_ring s)) l); [|done]|].
  - exists []. cbn. by rewrite Hk.
  - intros [got s'] (q & I' & _ & Eq). eexists. split; [exact Eq|]. pose proof (rx_queue_len _ _ _ _ _ I').
    pose proof (filter_length_le (fits (bufferSize (rs_ring s) - mac)) q). lia.
Qed.

(** ** The packet filter *)

(** The instructions that the filter uses, as the kernel runs them: loading a word or a
    half word of the packet, comparing it, and accepting a number of bytes.  A load
    outside of the packet rejects it. *)
Fixpoint bpf_run (fuel : nat) (prog : list sock_filter) (acc : Z) (pkt : list Z) : Z :=
  match fuel, prog with
  | S fuel, i :: prog =>
      let load n :=
        if bpf_k i + Z.of_nat n <=? Zlen pkt
        then bpf_run fuel prog (of_be (take n (drop (Z.to_nat (bpf_k i)) pkt))) pkt else 0 in
      if bpf_code i =? 0x20 then load 4%nat
      else if bpf_code i =? 0x28 then load 2%nat
      else if bpf_code i =? 0x15 then bpf_run fuel (drop (if acc =? bpf_k i then bpf_jt i else bpf_jf i) prog) acc pkt
      else if bpf_code i =? 0x06 then bpf_k i
      else 0
  | _, _ => 0
  end.

Lemma of_be_inj l : forall l', length l = length l' -> bytes_ok l -> bytes_ok l' -> of_be l = of_be l' -> l = l'.
Proof.
  induction l as [|x l IH] using rev_ind; intros l' Hl Hb Hb' E; [by destruct l'|].
  destruct l' as [|y l' _] using rev_ind; [rewrite length_app in Hl; cbn in Hl; lia|].
  rewrite !length_app in Hl. cbn in Hl. apply Forall_app in Hb as [Hb [Hx _]%Forall_cons_1]. apply Forall_app in Hb' as [Hb' [Hy _]%Forall_cons_1].
  unfold of_be in E. rewrite !fold_left_app in E. cbn [fold_left] in E. fold (of_be l) (of_be l') in E.
  assert (x = y /\ of_be l = of_be l') as [-> E'] by lia. f_equal. apply IH; done || lia.
Qed.

Lemma bpf_load n fuel k prog acc pkt : n = 4%nat \/ n = 2%nat ->
  bpf_run (S fuel) (SockFilter (if decide (n = 4%nat) then 0x20 else 0x28) 0 0 k :: prog) acc pkt
  = if k + Z.of_nat n <=? Zlen pkt then bpf_run fuel prog (of_be (take n (drop (Z.to_nat k) pkt))) pkt else 0.
Proof. by intros [-> | ->]. Qed.
Lemma bpf_jeq fuel t f k prog acc pkt :
  bpf_run (S fuel) (SockFilter 0x15 t f k :: prog) acc pkt = bpf_run fuel (drop (if acc =? k then t else f) prog) acc pkt.
Proof. done. Qed.
Lemma bpf_ret fuel t f k prog acc pkt : bpf_run (S fuel) (SockFilter 0x06 t f k :: prog) acc pkt = k.
Proof. done. Qed.

Lemma filter_word p0 p1 p2 p3 p4 p5 rest : bytes_ok [p0; p1; p2; p3; p4; p5] ->
  forall a0 a1 a2 a3 a4 a5, bytes_ok [a0; a1; a2; a3; a4; a5] ->
  bpf_run 6 (mcast_filter [a0; a1; a2; a3; a4; a5]) 0 (p0 :: p1 :: p2 :: p3 :: p4 :: p5 :: rest)
  = if decide ([p0; p1; p2; p3; p4; p5] = [a0; a1; a2; a3; a4; a5]) then 65535 else 0.
Proof.
  intros Hp a0 a1 a2 a3 a4 a5 Ha. set (pkt := p0 :: _).
  change (mcast_filter _) with [SockFilter 0x20 0 0 2; SockFilter 0x15 0 3 (of_be [a2; a3; a4; a5]); SockFilter 0x28 0 0 0;
    SockFilter 0x15 0 1 (of_be [a0; a1]); SockFilter 0x06 0 0 0xffff; SockFilter 0x06 0 0 0].
  assert (Hp4 : bytes_ok [p2; p3; p4; p5] /\ bytes_ok [p0; p1]) by (unfold bytes_ok in *; rewrite !Forall_cons in *; tauto).
  assert (Ha4 : bytes_ok [a2; a3; a4; a5] /\ bytes_ok [a0; a1]) by (unfold bytes_ok in *; rewrite !Forall_cons in *; tauto).
  assert (6 <= Zlen pkt) by (unfold pkt; cbn [length]; lia).
  change 0x20 with (if decide (4 = 4)%nat then 0x20 else 0x28). rewrite bpf_load by auto. rewrite (proj2 (Z.leb_le _ _)) by lia.
  change (take 4 _) with [p2; p3; p4; p5]. rewrite bpf_jeq.
  destruct (Z.eqb_spec (of_be [p2; p3; p4; p5]) (of_be [a2; a3; a4; a5])) as [E|E].
  2: { change (drop 3 _) with [SockFilter 0x06 0 0 0]. rewrite bpf_ret, decide_False; [done|]. intros [= -> -> -> -> -> ->]. done. }
  apply of_be_inj in E as [= -> -> -> ->]; try tauto. change (drop 0 ?l) with l.
  change 0x28 with (if decide (2 = 4)%nat then 0x20 else 0x28) at 1. rewrite bpf_load by auto. rewrite (proj2 (Z.leb_le _ _)) by lia.
  change (take 2 _) with [p0; p1]. rewrite bpf_jeq.
  destruct (Z.eqb_spec (of_be [p0; p1]) (of_be [a0; a1])) as [E1|E1]; cbn [drop]; rewrite bpf_ret.
  - apply of_be_inj in E1 as [= -> ->]; try tauto. by rewrite decide_True.
  - rewrite decide_False; [done|]. intros [= -> ->]. done.
Qed.

(** A listener gets the frames of its stream and no others.  When joining the
    multicast address [addr] succeeds, the filter attached to the socket accepts a
    frame, whole, when its destination is [addr], and rejects every other frame, also one
    that is too short to have a destination. *)
Theorem mcast_filter_exact ok r addr opts prog pkt :
  simpleRawsockRxMulticast ok r true addr = (true, opts) -> last opts = Some (SO_ATTACH_FILTER prog) ->
  length addr = 6%nat -> bytes_ok addr -> bytes_ok pkt ->
  bpf_run (length prog) prog 0 pkt = if decide (take 6 pkt = addr) then 65535 else 0.
Proof.
  intros E Hlast Hl Hb Hp. revert E. unfold simpleRawsockRxMulticast. destruct (negb (valid_rx r)); [done|]. destruct (negb ok); [done|].
  intros [= <-]. injection Hlast as <-. do 6 (destruct addr as [|? addr]; [done|]). destruct addr; [|done].
  change (length (mcast_filter _)) with 6%nat. destruct (decide (6 <= length pkt)%nat) as [H6|H6].
  - do 6 (destruct pkt as [|? pkt]; [cbn in H6; lia|]). rewrite filter_word; [done| |done].
    unfold bytes_ok in *. rewrite !Forall_cons in *. tauto.
  - rewrite decide_False by (intros E%(f_equal length); rewrite length_take in E; cbn [length] in E; lia).
    unfold mcast_filter. change 0x20 with (if decide (4 = 4)%nat then 0x20 else 0x28). rewrite bpf_load by auto.
    rewrite (proj2 (Z.leb_gt _ _)) by lia. done.
Qed.

(** ** Examples *)

(** Rings of two slots of 160 bytes. *)
Definition demo_open : open_answers := OpenAnswers (IfAnswers true (Some 1) (Some 2) (Some [1; 2; 3; 4; 5; 6]) (Some 100)) 7 true true.
Definition demo_ring (rx tx : bool) : res (option ring_st) :=
  ringRawsockOpen demo_open (RingAnswers true (Some 32) 64 true true) (Some "eth0"%string) rx tx 0x22F0 0 1.
Definition demo_ring_st (rx tx : bool) : ring_st :=
  match demo_ring rx tx with
  | Ret (Some s) => s
  | _ => RingSt (RingRawsock (baseRawsockOpen [] rx tx 0 0) 0 0 0 0 0 0 ∅ 0 0 0 0 false 0 0) (Kernel 0 [] false)
  end.
Definition demo_sent : send_answer := SendAnswer [KTake] 10 false.



(** Three frames arrive, one of them too long; the others are delivered. *)
Definition demo_rx_ops : list rx_op :=
  [RArrive [KStore [1; 2] 96 110 0]; RRecv [] 0 false; RArrive [KStore (replicate 200 7) 96 110 0; KStore [3] 96 110 0];
   RRecv [] 1 true; RRecv [] 1 true].

Lemma ring_rx_fifo_witness :
  exists s' later, run_rx demo_rx_ops ([], demo_ring_st true false) = Ret ([[1; 2]; [3]], s')
    /\ List.filter (fits (bufferSize (rs_ring (demo_ring_st true false)) - 96)) (k_frames (rs_kernel s')) = [[1; 2]; [3]] ++ later.
Proof.
  destruct (returns_inv _ _ (ring_rx_fifo demo_open (RingAnswers true (Some 32) 64 true true) (Some "eth0"%string) false 0x22F0 0 1
    (demo_ring_st true false) 96 demo_rx_ops ltac:(vm_compute; reflexivity)
    ltac:(split; [exists 32; split; [reflexivity|lia]|vm_compute; intuition discriminate]) ltac:(vm_compute; intuition discriminate)
    ltac:(repeat constructor)))
    as ([got s'] & E & later & Hf & _).
  assert (Hg : match run_rx demo_rx_ops ([], demo_ring_st true false) with Ret (got, _) => got | Fault _ => [] end = [[1; 2]; [3]])
    by (vm_compute; reflexivity).
  rewrite E in Hg. subst got. exists s', later. split; [exact E | exact Hf].
Defined.

Definition demo_mcast : list Z := [0x91; 0xe0; 0xf0; 0; 1; 2].
Definition demo_simple (rx : bool) (asked : Z) : option simple_rawsock :=
  simpleRawsockOpen (OpenAnswers (IfAnswers true (Some 1) (Some 2) (Some [1; 2; 3; 4; 5; 6]) (Some 1500)) 7 true true) (Some "eth0"%string)
    rx (negb rx) 0x22F0 asked.

Lemma mcast_filter_exact_witness :
  bpf_run 6 (mcast_filter demo_mcast) 0 (demo_mcast ++ replicate 54 0) = 65535
  /\ bpf_run 6 (mcast_filter demo_mcast) 0 ([0x91; 0xe0; 0xf0; 0; 1; 3] ++ replicate 54 0) = 0.
Proof.
  assert (Hb : forall l, Forall (fun b => 0 <= b < 256) (l ++ replicate 54 0) <-> Forall (fun b => 0 <= b < 256) l).
  { intros l. rewrite Forall_app. split; [tauto|]. intros H. split; [exact H|]. apply Forall_replicate. lia. }
  split.
  - apply (mcast_filter_exact true (demo_simple true 0) demo_mcast _ (mcast_filter demo_mcast) (demo_mcast ++ replicate 54 0)
      eq_refl eq_refl eq_refl); [|apply Hb]; repeat constructor; lia.
  - apply (mcast_filter_exact true (demo_simple true 0) demo_mcast _ (mcast_filter demo_mcast) ([0x91; 0xe0; 0xf0; 0; 1; 3] ++ replicate 54 0)
      eq_refl eq_refl eq_refl); [|apply Hb]; repeat constructor; lia.
Defined.

(** ** Defects *)

(** The answer of [send] is judged by [errno], which a successful call does not
    change: when it was [EINTR] before, the buffers sent stay counted as held, and with
    every slot free again the ring gives no more. *)
Theorem send_stale_errno :
  (c ← run_tx [TGet; TPut [1] demo_sent; TGet; TPut [2] (SendAnswer [KTake; KTake; KDone 0; KDone 256] 2 true); TGet]
         (TxClient None [] (demo_ring_st false true));
   n ← ringRawsockTxBufLevel (Some (tc_ring c));
   Ret (tc_held c, k_frames (rs_kernel (tc_ring c)), n)) = Ret (None, [[1]; [2]], 0).
Proof. vm_compute. reflexivity. Qed.

(** When [ppoll] reports a frame that is not there, the search passes every slot and one
    more: the next frame is stored in the slot just passed, and is delivered after the
    one that follows it. *)
Theorem spurious_poll_reorders :
  ('(f, P) ← ring_recv (PollAnswer [] 1 true) (demo_ring_st true false);
   let s := kernel_acts [KStore [1] 96 110 0; KStore [2] 96 110 0] (default (demo_ring_st true false) P) in
   '(g, P) ← ring_recv (PollAnswer [] 1 true) s;
   '(h, _) ← ring_recv (PollAnswer [] 1 true) (default s P);
   Ret (f, g, h)) = Ret (None, Some [2], Some [1]).
Proof. vm_compute. reflexivity. Qed.

(** A frame that does not fit into a block of four pages divides by zero. *)
Theorem jumbo_ring_divides_by_zero :
  ringRawsockOpen (OpenAnswers (IfAnswers true (Some 1) (Some 2) (Some [1; 2; 3; 4; 5; 6]) (Some 65536)) 7 true true)
    (RingAnswers true (Some 32) 4096 true true) (Some "eth0"%string) true false 0x22F0 0 10 = Fault DivByZero.
Proof. vm_compute. reflexivity. Qed.

(** The buffers of a simple socket have 1518 bytes; with the usual MTU the size of a frame
    is rounded up to 1520, and a frame of that size is received past the buffer. *)
Theorem simple_buffer_too_small :
  frameSize (sr_base (default (SimpleRawsock (baseRawsockOpen [] true false 0 0) 0 [] [] []) (demo_simple true 0))) = 1520
  /\ simpleRawsockGetRxFrame (Some (replicate 1520 1)) (demo_simple true 0) = Fault (OobWrite 1518).
Proof. split; vm_compute; reflexivity. Qed.

(** The assertion on the length of a frame compares with the size of a slot, its header
    included: a length past the end of the slot's frame passes. *)
Theorem ready_length_unchecked :
  ('(_, P) ← ringRawsockGetTxFrame [] (Some (demo_ring_st false true)) false true;
   '(ok, P) ← ringRawsockTxFrameReady demo_sent P 32 160;
   x ← slot_at (rs_ring (default (demo_ring_st false true) P)) 0;
   Ret (ok, frameSize (rg_base (rs_ring (demo_ring_st false true))), tp_len x)) = Ret (true, 128, 160).
Proof. vm_compute. reflexivity. Qed.
