(* ===== verification/AudioMap.v ===== *)
(** * What the audio mappings share
    (lib/avtp_pipeline/map_uncmp_audio/openavb_map_uncmp_audio_pub.h,
    lib/avtp_pipeline/include/openavb_audio_pub.h)

    The description of the audio format that interface and mapping modules share,
    and the copying of samples between host and network byte order on a
    little-endian host. *)

From S2P Require Import Prelude AvtpTime MediaQ AvtpMap.
From Stdlib Require Import ZArith Lia.
From stdpp Require Import base tactics list option.
Open Scope Z_scope.

Inductive avb_audio_type_t :=
| AVB_AUDIO_TYPE_UNSPEC
| AVB_AUDIO_TYPE_INT
| AVB_AUDIO_TYPE_UINT
| AVB_AUDIO_TYPE_FLOAT.

Inductive avb_audio_endian_t :=
| AVB_AUDIO_ENDIAN_UNSPEC
| AVB_AUDIO_ENDIAN_LITTLE
| AVB_AUDIO_ENDIAN_BIG.

#[export] Instance avb_audio_type_eq_dec : EqDecision avb_audio_type_t.
Proof. solve_decision. Defined.
#[export] Instance avb_audio_endian_eq_dec : EqDecision avb_audio_endian_t.
Proof. solve_decision. Defined.

(** The values of [avb_audio_sparse_mode_t]. *)
Definition TS_SPARSE_MODE_UNSPEC : Z := 0.
Definition TS_SPARSE_MODE_DISABLED : Z := 1.
Definition TS_SPARSE_MODE_ENABLED : Z := 8.

(** Rates, bit depths and channel counts are the numbers their enumerations stand
    for; [intf_rx_translate] is what the interface module does in place to a
    payload that arrives, [None] without such a callback. *)
Record audio_info := AudioInfo {
  audioRate : Z;
  audioType : avb_audio_type_t;
  audioBitDepth : Z;
  audioEndian : avb_audio_endian_t;
  audioChannels : Z;
  au_sparseMode : Z;
  framesPerPacket : Z;
  packetSampleSizeBytes : Z;
  packetFrameSizeBytes : Z;
  au_packingFactor : Z;
  framesPerItem : Z;
  itemSampleSizeBytes : Z;
  itemFrameSizeBytes : Z;
  au_itemSize : Z;
  sytInterval : Z;
  intf_rx_translate : option (list Z -> list Z);
  presentationLatencyUSec : Z;
  timestampInterval : Z
}.

(** A call of [refClkSignalTick]. *)
Record clk_tick := ClkTick {
  tick_time : Z;
  tick_count : Z;
  tick_interval : Z;
  tick_restart : bool
}.

(** ** Byte order *)

(** Copies samples of [sz] bytes, reversing the bytes of each, while [psz] bytes
    of the packet are left of [n]. *)
Fixpoint swap_samples (fuel : nat) (sz psz : Z) (src : list Z) (soff sstep n : Z)
  (dst : list Z) (doff dstep : Z) : res (list Z) :=
  match fuel with
  | O => Fault OutOfFuel
  | S fuel =>
      if psz <=? n then
        if (sz =? 2) || (sz =? 3) || (sz =? 4) then
          bs ← rd_list src soff (Z.to_nat sz);
          dst ← wr_list dst doff (rev bs);
          swap_samples fuel sz psz src (soff + sstep) sstep (n - psz) dst (doff + dstep) dstep
        else Ret dst
      else Ret dst
  end.

(** [k] samples of [sz] bytes with the bytes of each reversed. *)
Fixpoint swapped (sz k : nat) (l : list Z) : list Z :=
  match k with
  | O => []
  | S k => rev (take sz l) ++ swapped sz k (drop sz l)
  end.

Lemma swapped_len sz k l : length l = (k * sz)%nat -> length (swapped sz k l) = (k * sz)%nat.
Proof.
  revert l. induction k as [|k IH]; intros l Hl; [done|]. cbn [swapped].
  rewrite length_app, length_rev, length_take, IH by (rewrite length_drop; lia). lia.
Qed.

Lemma swapped_ok sz k l : bytes_ok l -> bytes_ok (swapped sz k l).
Proof.
  revert l. induction k as [|k IH]; intros l Hl; [constructor|]. cbn [swapped].
  apply Forall_app. split; [|by apply IH, Forall_drop]. by apply Forall_rev, Forall_take.
Qed.

(** Reversing twice gives the samples back. *)
Lemma swapped_twice sz k l : length l = (k * sz)%nat -> swapped sz k (swapped sz k l) = l.
Proof.
  revert l. induction k as [|k IH]; intros l Hl.
  { by destruct l. }
  cbn [swapped]. assert (Hr : length (rev (take sz l)) = sz) by (rewrite length_rev, length_take; lia).
  rewrite take_app_length', drop_app_length' by done. rewrite rev_involutive, IH.
  - apply take_drop.
  - rewrite length_drop. lia.
Qed.

Lemma swap_samples_spec sz k : forall fuel src soff dst doff,
  2 <= sz <= 4 -> 0 <= soff -> 0 <= doff -> (k < fuel)%nat -> bytes_ok src ->
  soff + Z.of_nat k * sz <= Zlen src -> doff + Z.of_nat k * sz <= Zlen dst ->
  swap_samples fuel sz sz src soff sz (Z.of_nat k * sz) dst doff sz
  = Ret (take (Z.to_nat doff) dst
         ++ swapped (Z.to_nat sz) k (take (k * Z.to_nat sz) (drop (Z.to_nat soff) src))
         ++ drop (Z.to_nat doff + k * Z.to_nat sz) dst).
Proof.
  induction k as [|k IH]; intros fuel src soff dst doff Hsz Hs Hd Hf Hb Hsl Hdl;
    (destruct fuel as [|fuel]; [lia|]); cbn [swap_samples].
  { rewrite (proj2 (Z.leb_gt _ _)) by lia. cbn [swapped app]. by rewrite Nat.add_0_r, take_drop. }
  rewrite (proj2 (Z.leb_le _ _)) by lia.
  replace ((sz =? 2) || (sz =? 3) || (sz =? 4)) with true
    by (assert (sz = 2 \/ sz = 3 \/ sz = 4) as [->|[->| ->]] by lia; done).
  set (n := Z.to_nat sz). rewrite (rd_list_slice src soff n), res_bind_ret by lia.
  set (bs := take n (drop (Z.to_nat soff) src)).
  assert (Hbl : length bs = n) by (subst bs; rewrite length_take, length_drop; lia).
  rewrite wr_list_slice, res_bind_ret.
  2: lia. 2: rewrite length_rev; lia. 2: by apply Forall_rev, Forall_take, Forall_drop.
  set (dst1 := take (Z.to_nat doff) dst ++ rev bs ++ drop (Z.to_nat doff + length (rev bs)) dst).
  assert (Hd1 : length dst1 = length dst).
  { subst dst1. rewrite !length_app, length_rev, length_take, length_drop. lia. }
  replace (Z.of_nat (S k) * sz - sz) with (Z.of_nat k * sz) by lia.
  rewrite IH by (done || lia). f_equal. cbn [swapped].
  replace (Z.to_nat (doff + sz)) with (Z.to_nat doff + n)%nat by lia.
  assert (Ht : take (Z.to_nat doff + n) dst1 = take (Z.to_nat doff) dst ++ rev bs).
  { subst dst1. rewrite app_assoc, take_app_length'; [done|].
    rewrite length_app, length_rev, length_take. lia. }
  rewrite Ht, <- app_assoc. f_equal.
  assert (Htk : take n (take (S k * n) (drop (Z.to_nat soff) src)) = bs).
  { subst bs. rewrite take_take. f_equal. lia. }
  rewrite Htk, <- app_assoc. f_equal.
  rewrite skipn_firstn_comm, drop_drop. replace (S k * n - n)%nat with (k * n)%nat by lia.
  replace (Z.to_nat (soff + sz)) with (Z.to_nat soff + n)%nat by lia. f_equal.
  subst dst1. rewrite app_assoc, drop_app_ge by (rewrite length_app, length_rev, length_take; lia).
  rewrite drop_drop. f_equal. rewrite !length_app, length_rev, length_take. lia.
Qed.
