(* ===== verification/MapAaf.v ===== *)
(** * The AVTP audio format mapping (lib/avtp_pipeline/map_aaf_audio/openavb_map_aaf_audio.c)

    A media queue item holds [packingFactor] packets' worth of samples.  The talker
    sends it packet by packet and moves [readIdx]; the listener checks the format
    of every packet and collects payloads until an item is full. *)

From S2P Require Import Prelude AvtpTime MediaQ AvtpMap AudioMap.
From Stdlib Require Import ZArith Lia Ascii.
From stdpp Require Import base tactics list strings option.
Open Scope Z_scope.

Definition AVTP_SUBTYPE_AAF : Z := 2.
Definition AAF_HEADER_SIZE : Z := 12.
Definition AAF_TOTAL_HEADER_SIZE : Z := AVTP_V0_HEADER_SIZE + AAF_HEADER_SIZE.
Definition HIDX_AVTP_SEQ_NUM8 : Z := 2.
Definition HIDX_AAF_FORMAT32 : Z := 16.
Definition HIDX_AAF_PACKET32 : Z := 20.
Definition HIDX_STREAM_DATA_LEN16 : Z := 20.
Definition HIDX_AVTP_HIDE7_SP : Z := 22.
Definition SP_M0_BIT : Z := 16.

Inductive aaf_nominal_sample_rate_t :=
| AAF_RATE_UNSPEC | AAF_RATE_8K | AAF_RATE_16K | AAF_RATE_32K | AAF_RATE_44K1
| AAF_RATE_48K | AAF_RATE_88K2 | AAF_RATE_96K | AAF_RATE_176K4 | AAF_RATE_192K.
Definition rate_code (r : aaf_nominal_sample_rate_t) : Z :=
  match r with
  | AAF_RATE_UNSPEC => 0 | AAF_RATE_8K => 1 | AAF_RATE_16K => 2 | AAF_RATE_32K => 3
  | AAF_RATE_44K1 => 4 | AAF_RATE_48K => 5 | AAF_RATE_88K2 => 6 | AAF_RATE_96K => 7
  | AAF_RATE_176K4 => 8 | AAF_RATE_192K => 9
  end.

Inductive aaf_sample_format_t :=
| AAF_FORMAT_UNSPEC | AAF_FORMAT_FLOAT_32 | AAF_FORMAT_INT_32 | AAF_FORMAT_INT_24
| AAF_FORMAT_INT_16.
Definition format_code (f : aaf_sample_format_t) : Z :=
  match f with
  | AAF_FORMAT_UNSPEC => 0 | AAF_FORMAT_FLOAT_32 => 1 | AAF_FORMAT_INT_32 => 2
  | AAF_FORMAT_INT_24 => 3 | AAF_FORMAT_INT_16 => 4
  end.

Definition AAF_STATIC_CHANNELS_LAYOUT : Z := 0.

(** [pvt_data_t]. *)
Record aaf_pvt := AafPvt {
  aa_itemCount : Z;
  aa_txInterval : Z;
  aa_packingFactor : Z;
  aa_audioMcr : Z;
  aa_mcrTimestampInterval : Z;
  aa_mcrRecoveryInterval : Z;
  genClockTickOnReceiveAudio : Z;
  framesReceived : Z;
  aa_maxTransitUsec : Z;
  aaf_rate : aaf_nominal_sample_rate_t;
  aaf_format : aaf_sample_format_t;
  aaf_bit_depth : Z;
  aa_payloadSize : Z;
  aaf_event_field : Z;
  aa_dataValid : bool;
  aa_intervalCounter : Z;
  aa_sparseMode : Z;
  mediaQItemSyncTS : bool;
  lastSequenceNumber : Z
}.

(** The module's data: private, shared with the interface module, and the clock
    ticks it signalled. *)
Record aaf_map := AafMap {
  aa_pvt : aaf_pvt;
  aa_pub : audio_info;
  aa_ticks : list clk_tick
}.

Definition with_pvt (v : aaf_pvt) (m : aaf_map) : aaf_map := AafMap v (aa_pub m) (aa_ticks m).

(** ** Sizes *)

Definition rate_of (audioRate : Z) : aaf_nominal_sample_rate_t :=
  if audioRate =? 8000 then AAF_RATE_8K
  else if audioRate =? 16000 then AAF_RATE_16K
  else if audioRate =? 32000 then AAF_RATE_32K
  else if audioRate =? 44100 then AAF_RATE_44K1
  else if audioRate =? 48000 then AAF_RATE_48K
  else if audioRate =? 88200 then AAF_RATE_88K2
  else if audioRate =? 96000 then AAF_RATE_96K
  else if audioRate =? 176400 then AAF_RATE_176K4
  else if audioRate =? 192000 then AAF_RATE_192K
  else AAF_RATE_UNSPEC.

(** The format and, when the bit depth is supported, the sample size and depth. *)
Definition format_of (t : avb_audio_type_t) (depth : Z)
  : aaf_sample_format_t * option (Z * Z) :=
  if decide (t = AVB_AUDIO_TYPE_FLOAT) then
    if depth =? 32 then (AAF_FORMAT_FLOAT_32, Some (4, 32)) else (AAF_FORMAT_UNSPEC, None)
  else if depth =? 32 then (AAF_FORMAT_INT_32, Some (4, 32))
  else if depth =? 24 then (AAF_FORMAT_INT_24, Some (3, 24))
  else if depth =? 16 then (AAF_FORMAT_INT_16, Some (2, 16))
  else (AAF_FORMAT_UNSPEC, None).

Definition aaf_calculateSizes (m : aaf_map) : res aaf_map :=
  let v := aa_pvt m in
  let u := aa_pub m in
  let '(fmt, sz) := format_of (audioType u) (audioBitDepth u) in
  let '(isz, psz, depth) :=
    match sz with
    | Some (s, d) => (s, s, d)
    | None => (itemSampleSizeBytes u, packetSampleSizeBytes u, aaf_bit_depth v)
    end in
  if aa_txInterval v =? 0 then Fault DivByZero
  else
    let fpp := audioRate u / aa_txInterval v in
    let fpp := if audioRate u mod aa_txInterval v =? 0 then fpp else u32 (fpp + 1) in
    let pframe := u32 (psz * audioChannels u) in
    let payload := u32 (fpp * pframe) in
    let fpi := u32 (fpp * aa_packingFactor v) in
    let iframe := u32 (isz * audioChannels u) in
    Ret (AafMap
      (AafPvt (aa_itemCount v) (aa_txInterval v) (aa_packingFactor v) (aa_audioMcr v)
         (aa_mcrTimestampInterval v) (aa_mcrRecoveryInterval v) (genClockTickOnReceiveAudio v)
         (framesReceived v) (aa_maxTransitUsec v) (rate_of (audioRate u)) fmt depth payload
         (aaf_event_field v) (aa_dataValid v) (aa_intervalCounter v) (aa_sparseMode v)
         (mediaQItemSyncTS v) (lastSequenceNumber v))
      (AudioInfo (audioRate u) (audioType u) (audioBitDepth u) (audioEndian u) (audioChannels u)
         (au_sparseMode u) fpp psz pframe (aa_packingFactor v) fpi isz iframe (u32 (iframe * fpi))
         (sytInterval u) (intf_rx_translate u) (presentationLatencyUSec u) (timestampInterval u))
      (aa_ticks m)).

(** ** Configuration *)

Definition openavbMapAVTPAudioCfgCB (v : aaf_pvt) (name value : string) : aaf_pvt :=
  let n := (strtol value).1 in
  let put ic tx pf mcr mts mrec gen sparse :=
    AafPvt ic tx pf mcr mts mrec gen (framesReceived v) (aa_maxTransitUsec v) (aaf_rate v)
      (aaf_format v) (aaf_bit_depth v) (aa_payloadSize v) (aaf_event_field v) (aa_dataValid v)
      (aa_intervalCounter v) sparse (mediaQItemSyncTS v) (lastSequenceNumber v) in
  let 'AafPvt ic tx pf mcr mts mrec gen _ _ _ _ _ _ _ _ _ sparse _ _ := v in
  if decide (name = "map_nv_item_count"%string) then put (u32 n) tx pf mcr mts mrec gen sparse
  else if decide (name = "map_nv_packing_factor"%string) then put ic tx (u32 n) mcr mts mrec gen sparse
  else if decide (name = "map_nv_tx_rate"%string \/ name = "map_nv_tx_interval"%string)
  then put ic (u32 n) pf mcr mts mrec gen sparse
  else if decide (name = "map_nv_sparse_mode"%string) then
    if decide ((strtol value).2 = EmptyString) then
      if u32 n =? 1 then put ic tx pf mcr mts mrec gen TS_SPARSE_MODE_ENABLED
      else if u32 n =? 0 then put ic tx pf mcr mts mrec gen TS_SPARSE_MODE_DISABLED
      else v
    else v
  else if decide (name = "map_nv_audio_mcr"%string) then put ic tx pf (u32 n) mts mrec gen sparse
  else if decide (name = "map_nv_mcr_timestamp_interval"%string)
  then put ic tx pf mcr (u32 n) mrec gen sparse
  else if decide (name = "map_nv_mcr_recovery_interval"%string)
  then put ic tx pf mcr mts (u32 n) gen sparse
  else if decide (name = "map_nv_gen_clock_tick_on_receive_audio"%string)
  then put ic tx pf mcr mts mrec (u16 n) sparse
  else v.

Definition aaf_defaults (inMaxTransitUsec : Z) : aaf_pvt :=
  AafPvt 20 4000 1 0 144 512 0 0 inMaxTransitUsec AAF_RATE_UNSPEC AAF_FORMAT_UNSPEC 0 0
    AAF_STATIC_CHANNELS_LAYOUT false 0 TS_SPARSE_MODE_DISABLED false 0.
Definition zero_info : audio_info :=
  AudioInfo 0 AVB_AUDIO_TYPE_UNSPEC 0 AVB_AUDIO_ENDIAN_UNSPEC 0 0 0 0 0 0 0 0 0 0 0 None 0 0.

Definition openavbMapAVTPAudioMaxDataSizeCB (P : option aaf_map) : Z :=
  match P with Some m => u16 (aa_payloadSize (aa_pvt m) + AAF_TOTAL_HEADER_SIZE) | None => 0 end.
Definition openavbMapAVTPAudioTransmitIntervalCB (P : option aaf_map) : Z :=
  match P with Some m => aa_txInterval (aa_pvt m) | None => 0 end.

Section Callbacks.
Context {pf : Platform}.

Definition openavbMapAVTPAudioInitialize (inMaxTransitUsec : Z) : mqM (bool * option aaf_map) :=
  c0 ← mq_call; c1 ← mq_call; c2 ← mq_call;
  if negb (calloc_ok c0) || negb (calloc_ok c1) || negb (calloc_ok c2) then mret (false, None)
  else _ ← openavbMediaQSetMaxLatency inMaxTransitUsec;
       mret (true, Some (AafMap (aaf_defaults inMaxTransitUsec) zero_info [])).

Definition openavbMapAVTPAudioGenInitCB (P : option aaf_map) : mqM (option aaf_map) :=
  match P with
  | None => mret None
  | Some m =>
      m ← mq_lift (aaf_calculateSizes m);
      _ ← openavbMediaQSetSize (s32 (aa_itemCount (aa_pvt m))) (s32 (au_itemSize (aa_pub m)));
      let v := aa_pvt m in
      let u := aa_pub m in
      mret (Some (AafMap
        (AafPvt (aa_itemCount v) (aa_txInterval v) (aa_packingFactor v) (aa_audioMcr v)
           (aa_mcrTimestampInterval v) (aa_mcrRecoveryInterval v) (genClockTickOnReceiveAudio v)
           (framesReceived v) (aa_maxTransitUsec v) (aaf_rate v) (aaf_format v) (aaf_bit_depth v)
           (aa_payloadSize v) (aaf_event_field v) true (aa_intervalCounter v) (aa_sparseMode v)
           (mediaQItemSyncTS v) (lastSequenceNumber v))
        (AudioInfo (audioRate u) (audioType u) (audioBitDepth u) (audioEndian u) (audioChannels u)
           (aa_sparseMode v) (framesPerPacket u) (packetSampleSizeBytes u) (packetFrameSizeBytes u)
           (au_packingFactor u) (framesPerItem u) (itemSampleSizeBytes u) (itemFrameSizeBytes u)
           (au_itemSize u) (sytInterval u) (intf_rx_translate u) (presentationLatencyUSec u)
           (timestampInterval u))
        (aa_ticks m)))
  end.

(** ** Transmission *)

(** The timestamp fields: only an item with a valid timestamp, which it has until
    its first packet. *)
Definition aaf_stamp (v : aaf_pvt) (k : Z) (pData : list Z) : mqM (list Z) :=
  a ← item_read k;
  if openavbAvtpTimeTimestampIsValid (pAvtpTime a) then
    _ ← item_write k (fun a =>
          with_time (openavbAvtpTimeAddUSec (pAvtpTime a) (aa_maxTransitUsec v)) a);
    a ← item_read k;
    let t := pAvtpTime a in
    buf ← mq_lift (buf ← set_bits pData HIDX_AVTP_HIDE7_TV1 1 true;
                   buf ← set_bits buf HIDX_AVTP_HIDE7_TU1 1 (openavbAvtpTimeTimestampIsUncertain t);
                   wr_list buf HIDX_AVTP_TIMESPAMP32 (be32 (openavbAvtpTimeGetAvtpTimestamp t)));
    _ ← item_write k (with_time (openavbAvtpTimeSetTimestampValid t false));
    mret buf
  else mq_lift (set_bits pData HIDX_AVTP_HIDE7_TV1 1 false).

Definition format_info (m : aaf_map) : Z :=
  let v := aa_pvt m in
  u32 (Z.lor (Z.lor (Z.lor (Z.shiftl (format_code (aaf_format v)) 24)
                           (Z.shiftl (rate_code (aaf_rate v)) 20))
                    (Z.shiftl (audioChannels (aa_pub m)) 8))
             (aaf_bit_depth v)).
Definition packet_info (v : aaf_pvt) : Z :=
  Z.lor (u32 (Z.shiftl (aa_payloadSize v) 16)) (Z.shiftl (aaf_event_field v) 8).

Definition aaf_header (m : aaf_map) (buf : list Z) : res (list Z) :=
  buf ← wr_list buf HIDX_AAF_FORMAT32 (be32 (format_info m));
  buf ← wr_list buf HIDX_AAF_PACKET32 (be32 (packet_info (aa_pvt m)));
  set_bits buf HIDX_AVTP_HIDE7_SP SP_M0_BIT (aa_sparseMode (aa_pvt m) =? TS_SPARSE_MODE_ENABLED).

(** The samples of the item, from [readIdx], in network byte order. *)
Definition aaf_payload (m : aaf_map) (a : media_q_item) (buf : list Z) : res (list Z) :=
  let n := aa_payloadSize (aa_pvt m) in
  let u := aa_pub m in
  if decide (audioEndian u = AVB_AUDIO_ENDIAN_BIG) then
    bs ← item_bytes a (readIdx a) n; wr_list buf AAF_TOTAL_HEADER_SIZE bs
  else
    match pPubData a with
    | None => Fault (OobRead 0)
    | Some d =>
        swap_samples (S (Z.to_nat n)) (packetSampleSizeBytes u) (packetSampleSizeBytes u)
          d (readIdx a) (itemSampleSizeBytes u) n buf AAF_TOTAL_HEADER_SIZE (packetSampleSizeBytes u)
    end.

Definition openavbMapAVTPAudioTxCB (P : option aaf_map) (pData : list Z) (len : Z)
  : mqM (tx_cb_ret_t * list Z * Z * option aaf_map) :=
  let not_ready buf := (TX_CB_RET_PACKET_NOT_READY, buf, len, P) in
  k ← openavbMediaQTailLock true;
  match k with
  | None => mret (not_ready pData)
  | Some k =>
      a ← item_read k;
      if 0 <? dataLen a then
        match P with
        | None => mret (not_ready pData)
        | Some m =>
            let v := aa_pvt m in
            buf ← aaf_stamp v k pData;
            buf ← mq_lift (aaf_header m buf);
            if u32 (len - AAF_TOTAL_HEADER_SIZE) <? aa_payloadSize v then mret (not_ready buf)
            else
              a ← item_read k;
              if u32 (dataLen a - readIdx a) <? aa_payloadSize v
              then _ ← openavbMediaQTailPull; mret (not_ready buf)
              else
                buf ← mq_lift (aaf_payload m a buf);
                _ ← item_write k (fun a => with_read (u32 (readIdx a + aa_payloadSize v)) a);
                a ← item_read k;
                _ ← (if dataLen a <=? readIdx a
                     then _ ← openavbMediaQTailPull; mret tt
                     else _ ← openavbMediaQTailUnlock; mret tt);
                mret (TX_CB_RET_PACKET_READY, buf, u32 (aa_payloadSize v + AAF_TOTAL_HEADER_SIZE), P)
        end
      else _ ← openavbMediaQTailPull; mret (not_ready pData)
  end.

(** ** Reception *)

Definition aaf_clock (c : Z) (interval : Z) (restart : bool) : mqM (list clk_tick) :=
  n ← mq_call;
  mret (match osalClockGettime64 OPENAVB_CLOCK_WALLTIME n with
        | Some walltime => [ClkTick walltime c interval restart]
        | None => []
        end).

(** The listener's start: a module that generates clock ticks restarts the clock. *)
Definition openavbMapAVTPAudioRxInitCB (P : option aaf_map) : mqM (option aaf_map) :=
  match P with
  | None => mret None
  | Some m =>
      if negb (genClockTickOnReceiveAudio (aa_pvt m) =? 0)
         && negb (timestampInterval (aa_pub m) =? 0)
      then ts ← aaf_clock 0 (timestampInterval (aa_pub m)) true;
           mret (Some (AafMap (aa_pvt m) (aa_pub m) (aa_ticks m ++ ts)))
      else mret (Some m)
  end.

(** Whether a packet is what the listener is configured for. *)
Definition aaf_packet_valid (m : aaf_map) (pData : list Z) (len : Z) : res bool :=
  let v := aa_pvt m in
  _ ← get32 pData HIDX_AVTP_TIMESPAMP32;
  format_info ← get32 pData HIDX_AAF_FORMAT32;
  packet_info ← get32 pData HIDX_AAF_PACKET32;
  sp ← rd pData HIDX_AVTP_HIDE7_SP;
  payloadLen ← get16 pData HIDX_STREAM_DATA_LEN16;
  let streamSparseMode := negb (Z.land sp SP_M0_BIT =? 0) in
  let listenerSparseMode := aa_sparseMode v =? TS_SPARSE_MODE_ENABLED in
  Ret (negb (u32 (len - AAF_TOTAL_HEADER_SIZE) <? payloadLen)
       && (payloadLen =? aa_payloadSize v)
       && (Z.land (Z.shiftr format_info 24) 0xFF =? format_code (aaf_format v))
       && (Z.land (Z.shiftr format_info 20) 0x0F =? rate_code (aaf_rate v))
       && (Z.land (Z.shiftr format_info 8) 0x3FF =? audioChannels (aa_pub m))
       && (Z.land format_info 0xFF =? aaf_bit_depth v)
       && (Z.land (Z.shiftr packet_info 16) 0xFFFF =? aa_payloadSize v)
       && eqb streamSparseMode listenerSparseMode).

(** The loop that signals a tick for every [interval] frames: the frames left and
    the ticks. *)
Fixpoint aaf_tick_loop (fuel : nat) (frames interval : Z) : mqM (Z * list clk_tick) :=
  match fuel with
  | O => mq_lift (Fault OutOfFuel)
  | S fuel =>
      if interval <=? frames then
        t ← aaf_clock 1 interval false;
        '(frames, ts) ← aaf_tick_loop fuel (frames - interval) interval;
        mret (frames, t ++ ts)
      else mret (frames, [])
  end.

Definition with_frames (n seq : Z) (v : aaf_pvt) : aaf_pvt :=
  AafPvt (aa_itemCount v) (aa_txInterval v) (aa_packingFactor v) (aa_audioMcr v)
    (aa_mcrTimestampInterval v) (aa_mcrRecoveryInterval v) (genClockTickOnReceiveAudio v)
    n (aa_maxTransitUsec v) (aaf_rate v) (aaf_format v) (aaf_bit_depth v)
    (aa_payloadSize v) (aaf_event_field v) (aa_dataValid v) (aa_intervalCounter v) (aa_sparseMode v)
    (mediaQItemSyncTS v) seq.
Definition with_valid (b sync : bool) (v : aaf_pvt) : aaf_pvt :=
  AafPvt (aa_itemCount v) (aa_txInterval v) (aa_packingFactor v) (aa_audioMcr v)
    (aa_mcrTimestampInterval v) (aa_mcrRecoveryInterval v) (genClockTickOnReceiveAudio v)
    (framesReceived v) (aa_maxTransitUsec v) (aaf_rate v) (aaf_format v) (aaf_bit_depth v)
    (aa_payloadSize v) (aaf_event_field v) b (aa_intervalCounter v) (aa_sparseMode v)
    sync (lastSequenceNumber v).

(** Clock generation from a packet that is valid. *)
Definition aaf_gen_clock (m : aaf_map) (seq : Z) : mqM aaf_map :=
  let v := aa_pvt m in
  let interval := timestampInterval (aa_pub m) in
  if negb (genClockTickOnReceiveAudio v =? 0) && negb (interval =? 0) then
    if negb (aa_dataValid v) || negb (seq =? (lastSequenceNumber v + 1) mod 256) then
      ts ← aaf_clock 0 interval true;
      mret (AafMap (with_frames 0 seq v) (aa_pub m) (aa_ticks m ++ ts))
    else if packetFrameSizeBytes (aa_pub m) =? 0 then mq_lift (Fault DivByZero)
    else
      let frames := u32 (framesReceived v + aa_payloadSize v / packetFrameSizeBytes (aa_pub m)) in
      '(frames, ts) ← aaf_tick_loop (S (Z.to_nat frames)) frames interval;
      mret (AafMap (with_frames frames seq v) (aa_pub m) (aa_ticks m ++ ts))
  else mret m.

(** The time of an item that gets its first packet, whether the packet is used, and
    whether the queue is in step with the timestamps. *)
Definition aaf_item_time (m : aaf_map) (pData : list Z) (t : option avtp_time)
  : mqM (option avtp_time * bool * bool) :=
  let sync := mediaQItemSyncTS (aa_pvt m) in
  tv ← mq_lift (rd pData HIDX_AVTP_HIDE7_TV1);
  let t := openavbAvtpTimeSetTimestampValid t (Z.testbit tv 0) in
  if openavbAvtpTimeTimestampIsValid t then
    timestamp ← mq_lift (get32 pData HIDX_AVTP_TIMESPAMP32);
    n ← mq_call;
    let t := openavbAvtpTimeSetToTimestamp t timestamp n in
    let t := openavbAvtpTimeSubUSec t (presentationLatencyUSec (aa_pub m)) in
    tu ← mq_lift (rd pData HIDX_AVTP_HIDE7_TU1);
    mret (openavbAvtpTimeSetTimestampUncertain t (Z.testbit tu 0), true, true)
  else mret (t, sync, sync).

(** The payload, appended to the item in host byte order. *)
Definition aaf_store (m : aaf_map) (pData : list Z) (a : media_q_item) : res media_q_item :=
  let n := aa_payloadSize (aa_pvt m) in
  let u := aa_pub m in
  bs ← rd_list pData AAF_TOTAL_HEADER_SIZE (Z.to_nat n);
  let bs := match intf_rx_translate u with Some g => g bs | None => bs end in
  d ← (if decide (audioEndian u = AVB_AUDIO_ENDIAN_BIG) then put_bytes a (dataLen a) bs
       else match pPubData a with
            | None => Fault (OobWrite 0)
            | Some d => swap_samples (S (Z.to_nat n)) (itemSampleSizeBytes u) (packetSampleSizeBytes u)
                          bs 0 (packetSampleSizeBytes u) n d (dataLen a) (itemSampleSizeBytes u)
            end);
  Ret (with_data d (u32 (dataLen a + n)) a).

Definition openavbMapAVTPAudioRxCB (P : option aaf_map) (pData : list Z) (len : Z)
  : mqM (bool * option aaf_map) :=
  match P with
  | None => mret (false, None)
  | Some m =>
      valid ← mq_lift (aaf_packet_valid m pData len);
      if negb valid then
        mret (false, Some (with_pvt (with_valid false (mediaQItemSyncTS (aa_pvt m)) (aa_pvt m)) m))
      else
        seq ← mq_lift (rd pData HIDX_AVTP_SEQ_NUM8);
        m ← aaf_gen_clock m seq;
        let m := with_pvt (with_valid true (mediaQItemSyncTS (aa_pvt m)) (aa_pvt m)) m in
        k ← openavbMediaQHeadLock;
        match k with
        | None => mret (false, Some m)
        | Some k =>
            a ← item_read k;
            '(use, m) ←
              (if dataLen a =? 0 then
                 '(t, use, sync) ← aaf_item_time m pData (pAvtpTime a);
                 _ ← item_write k (with_time t);
                 mret (use, with_pvt (with_valid true sync (aa_pvt m)) m)
               else mret (true, m));
            a ← item_read k;
            a ← (if use : bool then mq_lift (aaf_store m pData a) else mret a);
            _ ← item_write k (fun _ => a);
            _ ← (if dataLen a <? itemSize a
                 then _ ← openavbMediaQHeadUnlock; mret tt
                 else _ ← openavbMediaQHeadPush; mret tt);
            mret (true, Some m)
        end
  end.

Definition openavbMapAVTPAudioEndCB (P : option aaf_map) : option aaf_map :=
  (fun m => with_pvt (with_valid (aa_dataValid (aa_pvt m)) false (aa_pvt m)) m) <$> P.

Definition aaf_cb : map_cb (option aaf_map) :=
  MapCB AVTP_SUBTYPE_AAF 0 openavbMapAVTPAudioMaxDataSizeCB openavbMapAVTPAudioTransmitIntervalCB
    mret openavbMapAVTPAudioTxCB openavbMapAVTPAudioRxInitCB openavbMapAVTPAudioRxCB.

End Callbacks.
