(* ===== verification/MapAafProps.v ===== *)
(** * Packets of the AVTP audio format mapping
    (lib/avtp_pipeline/map_aaf_audio/openavb_map_aaf_audio.c)

    The exact effect of sending and of receiving one packet. *)

From S2P Require Import Prelude AvtpTime MediaQ MediaQProps AvtpMap AudioMap MapAaf.
From Stdlib Require Import ZArith Lia.
From stdpp Require Import base tactics list option.
Open Scope Z_scope.

(** ** Header words *)

Lemma lor_low a b k : 0 <= k -> 0 <= b < 2 ^ k -> Z.lor (Z.shiftl a k) b = a * 2 ^ k + b.
Proof.
  intros Hk Hb. rewrite Z.shiftl_mul_pow2 by done.
  assert (H0 : Z.land (a * 2 ^ k) b = 0).
  2: { by rewrite <- Z.lxor_lor, <- Z.add_nocarry_lxor. }
  apply Z.bits_inj'. intros n Hn. rewrite Z.bits_0, Z.land_spec. destruct (Z.ltb_spec n k).
  - by rewrite Z.mul_pow2_bits_low.
  - destruct (Z.eq_dec b 0) as [->|]; [by rewrite Z.bits_0, andb_false_r|].
    rewrite (Z.bits_above_log2 b n); [apply andb_false_r | lia |]. apply Z.log2_lt_pow2; [lia|].
    apply Z.lt_le_trans with (2 ^ k); [lia|]. by apply Z.pow_le_mono_r.
Qed.

(** A module whose sizes were calculated, with [k] samples of [sz] bytes per packet
    (the sizes that [aaf_calculateSizes] sets). *)
Record aaf_ok (m : aaf_map) (sz : Z) (k : nat) : Prop := {
  ok_sz : 2 <= sz <= 4;
  ok_psz : packetSampleSizeBytes (aa_pub m) = sz;
  ok_isz : itemSampleSizeBytes (aa_pub m) = sz;
  ok_payload : aa_payloadSize (aa_pvt m) = Z.of_nat k * sz;
  ok_small : 0 < aa_payloadSize (aa_pvt m) < 65536;
  ok_channels : 0 <= audioChannels (aa_pub m) < 1024;
  ok_depth : 0 <= aaf_bit_depth (aa_pvt m) < 256;
  ok_event : aaf_event_field (aa_pvt m) = AAF_STATIC_CHANNELS_LAYOUT
}.

Lemma format_bound f : 0 <= format_code f < 256.
Proof. destruct f; cbn; lia. Qed.
Lemma rate_bound r : 0 <= rate_code r < 16.
Proof. destruct r; cbn; lia. Qed.

Section Words.
Context (m : aaf_map) (sz : Z) (k : nat) (Hok : aaf_ok m sz k).

Lemma format_info_sum :
  format_info m = format_code (aaf_format (aa_pvt m)) * 16777216
                  + rate_code (aaf_rate (aa_pvt m)) * 1048576
                  + audioChannels (aa_pub m) * 256 + aaf_bit_depth (aa_pvt m).
Proof.
  unfold format_info. pose proof (format_bound (aaf_format (aa_pvt m))).
  pose proof (rate_bound (aaf_rate (aa_pvt m))). destruct Hok.
  rewrite <- !Z.lor_assoc.
  rewrite (lor_low (audioChannels _) _ 8) by (change (2 ^ 8) with 256; lia).
  rewrite (lor_low (rate_code _) _ 20) by (change (2 ^ 8) with 256; change (2 ^ 20) with 1048576; lia).
  rewrite (lor_low (format_code _) _ 24)
    by (change (2 ^ 8) with 256; change (2 ^ 20) with 1048576; change (2 ^ 24) with 16777216; lia).
  rewrite u32_id; change (2 ^ 8) with 256; change (2 ^ 20) with 1048576; change (2 ^ 24) with 16777216; lia.
Qed.

(** What a listener extracts from the word. *)
Lemma format_info_fields :
  Z.land (Z.shiftr (format_info m) 24) 0xFF = format_code (aaf_format (aa_pvt m))
  /\ Z.land (Z.shiftr (format_info m) 20) 0x0F = rate_code (aaf_rate (aa_pvt m))
  /\ Z.land (Z.shiftr (format_info m) 8) 0x3FF = audioChannels (aa_pub m)
  /\ Z.land (format_info m) 0xFF = aaf_bit_depth (aa_pvt m).
Proof.
  rewrite format_info_sum. pose proof (format_bound (aaf_format (aa_pvt m))).
  pose proof (rate_bound (aaf_rate (aa_pvt m))). destruct Hok.
  change 0xFF with (Z.ones 8). change 0x0F with (Z.ones 4). change 0x3FF with (Z.ones 10).
  rewrite !Z.land_ones, !Z.shiftr_div_pow2 by lia.
  change (2 ^ 24) with 16777216. change (2 ^ 20) with 1048576. change (2 ^ 8) with 256.
  change (2 ^ 4) with 16. change (2 ^ 10) with 1024. split_and!; zdm.
Qed.

Lemma packet_info_bytes :
  be32 (packet_info (aa_pvt m)) = be16 (aa_payloadSize (aa_pvt m)) ++ [0; 0].
Proof.
  destruct Hok. unfold packet_info. rewrite ok_event0. change (Z.shiftl AAF_STATIC_CHANNELS_LAYOUT 8) with 0.
  rewrite Z.lor_0_r, Z.shiftl_mul_pow2, u32_id by (change (2 ^ 16) with 65536; lia).
  change (2 ^ 16) with 65536. unfold be32, be16, u8. rewrite !Z.shiftr_div_pow2 by lia.
  change (2 ^ 24) with 16777216. change (2 ^ 16) with 65536. change (2 ^ 8) with 256.
  cbn [app]. do 4 (apply (f_equal2 cons); [zdm|]). done.
Qed.

End Words.

(** ** One packet *)

(** The flag for sparse timestamps. *)
Definition sp_byte (m : aaf_map) : Z := if aa_sparseMode (aa_pvt m) =? TS_SPARSE_MODE_ENABLED then 16 else 0.

(** A packet of a talker [m]: its header and payload. *)
Definition aaf_hdr (m : aaf_map) (b0 b1 b2 b3 : Z) (sid ts : list Z) : list Z :=
  [b0; b1; b2; b3] ++ sid ++ ts ++ be32 (format_info m)
  ++ be16 (aa_payloadSize (aa_pvt m)) ++ [sp_byte m; 0].
Definition aaf_packet (m : aaf_map) (b0 b1 b2 b3 : Z) (sid ts payload rest : list Z) : list Z :=
  aaf_hdr m b0 b1 b2 b3 sid ts ++ payload ++ rest.

Lemma aaf_hdr_len m b0 b1 b2 b3 sid ts :
  length sid = 8%nat -> length ts = 4%nat -> length (aaf_hdr m b0 b1 b2 b3 sid ts) = 24%nat.
Proof. intros Hs Ht. unfold aaf_hdr. by rewrite !length_app, Hs, Ht. Qed.

Lemma aaf_header_spec m sz k b0 b1 b2 b3 sid ts o rest :
  aaf_ok m sz k -> length sid = 8%nat -> length ts = 4%nat -> length o = 8%nat ->
  aaf_header m ([b0; b1; b2; b3] ++ sid ++ ts ++ o ++ rest)
  = Ret (aaf_packet m b0 b1 b2 b3 sid ts [] rest).
Proof.
  intros Hok Hs Ht Ho. unfold aaf_header, aaf_packet, aaf_hdr. rewrite (packet_info_bytes m sz k Hok).
  do 8 (destruct sid as [|? sid]; [done|]). destruct sid; [|done].
  do 4 (destruct ts as [|? ts]; [done|]). destruct ts; [|done].
  do 8 (destruct o as [|? o]; [done|]). destruct o; [|done].
  unfold HIDX_AAF_FORMAT32, HIDX_AAF_PACKET32, HIDX_AVTP_HIDE7_SP. cbn [app]. buf_write.
  rewrite wr_list_slice, res_bind_ret; [|lia|buf_len|].
  2: { apply (Forall_app_2 _ (be16 _) [0; 0]); [apply be16_ok | by repeat constructor]. }
  buf_nat. cbn [Nat.add take drop app length be32 be16].
  unfold set_bits. erewrite rd_lookup; [|lia|reflexivity]. rewrite res_bind_ret, wr_ok by buf_len.
  buf_nat. cbn [insert list_insert]. unfold sp_byte.
  by destruct (aa_sparseMode (aa_pvt m) =? TS_SPARSE_MODE_ENABLED).
Qed.

(** The samples on the wire are big endian. *)
Definition wire_samples (m : aaf_map) (sz : Z) (k : nat) (l : list Z) : list Z :=
  if decide (audioEndian (aa_pub m) = AVB_AUDIO_ENDIAN_BIG) then l else swapped (Z.to_nat sz) k l.

Lemma wire_samples_len m sz k l :
  length l = (k * Z.to_nat sz)%nat -> length (wire_samples m sz k l) = (k * Z.to_nat sz)%nat.
Proof. intros Hl. unfold wire_samples. case_decide; [done|]. by apply swapped_len. Qed.
Lemma wire_samples_ok m sz k l : bytes_ok l -> bytes_ok (wire_samples m sz k l).
Proof. intros Hl. unfold wire_samples. case_decide; [done|]. by apply swapped_ok. Qed.
(** Between modules with the same setting the samples arrive as they were. *)
Lemma wire_samples_twice m m' sz k l :
  audioEndian (aa_pub m') = audioEndian (aa_pub m) -> length l = (k * Z.to_nat sz)%nat ->
  wire_samples m' sz k (wire_samples m sz k l) = l.
Proof. intros E Hl. unfold wire_samples. rewrite E. case_decide; [done|]. by apply swapped_twice. Qed.

(** The time of an item while it is being sent: the transit time is added with the
    first packet, which invalidates it for the others. *)
Definition aaf_transit (v : aaf_pvt) (t : option avtp_time) : option avtp_time :=
  openavbAvtpTimeAddUSec t (aa_maxTransitUsec v).
Definition aaf_sent_time (v : aaf_pvt) (t : option avtp_time) : option avtp_time :=
  if openavbAvtpTimeTimestampIsValid t
  then openavbAvtpTimeSetTimestampValid (aaf_transit v t) false else t.
Definition aaf_tu (v : aaf_pvt) (t : option avtp_time) (b3 : Z) : Z :=
  if openavbAvtpTimeTimestampIsValid t
  then flag_byte b3 (openavbAvtpTimeTimestampIsUncertain (aaf_transit v t)) else b3.
Definition aaf_ts (v : aaf_pvt) (t : option avtp_time) (ts : list Z) : list Z :=
  if openavbAvtpTimeTimestampIsValid t
  then be32 (openavbAvtpTimeGetAvtpTimestamp (aaf_transit v t)) else ts.

Section Send.
Context {pf : Platform} (c fr : list media_q_item) (tk : nat) (st : Z).

Lemma aaf_stamp_spec v s x k b0 b1 b2 b3 sid ts rest :
  mq_refines s (Fifo (x :: c) fr tk st) -> at_index q_tail s k ->
  length sid = 8%nat -> length ts = 4%nat ->
  mq_returns (aaf_stamp v k ([b0; b1; b2; b3] ++ sid ++ ts ++ rest)) s (fun buf s' =>
    buf = [b0; flag_byte b1 (openavbAvtpTimeTimestampIsValid (pAvtpTime x)); b2; aaf_tu v (pAvtpTime x) b3]
          ++ sid ++ aaf_ts v (pAvtpTime x) ts ++ rest
    /\ mq_refines s' (Fifo (with_time (aaf_sent_time v (pAvtpTime x)) x :: c) fr tk st)
    /\ at_index q_tail s' k).
Proof.
  intros Href Hk Hs Ht. unfold aaf_stamp, aaf_sent_time, aaf_tu, aaf_ts.
  do 8 (destruct sid as [|? sid]; [done|]). destruct sid; [|done].
  do 4 (destruct ts as [|? ts]; [done|]). destruct ts; [|done].
  eapply mq_bind; [by eapply tail_read_spec|]. intros y s1 [-> ->].
  destruct (openavbAvtpTimeTimestampIsValid (pAvtpTime x)) eqn:Ev.
  - eapply mq_bind; [by eapply tail_write_spec|]. intros [] s1 [H1 Hk1].
    eapply mq_bind; [by eapply (tail_read_spec _ _ H1)|]. intros y s2 [-> ->].
    eapply mq_bind_lift.
    { cbn [app]. unfold HIDX_AVTP_HIDE7_TV1, HIDX_AVTP_HIDE7_TU1, HIDX_AVTP_TIMESPAMP32.
      do 2 buf_flag. buf_write. reflexivity. }
    eapply mq_bind; [eapply (tail_write_spec _ _ H1); done|]. intros [] s2 [H2 Hk2].
    apply mq_ret. split; [done|]. by split.
  - unfold mq_returns, mq_lift. unfold HIDX_AVTP_HIDE7_TV1. cbn [app]. erewrite set_flag; [|lia|reflexivity].
    buf_nat. cbn [insert list_insert returns]. split; [done|]. split; [|done].
    replace (with_time (pAvtpTime x) x) with x by (by destruct x). done.
Qed.

Lemma aaf_payload_spec m sz k x d hdr rest :
  aaf_ok m sz k -> pPubData x = Some d -> bytes_ok d -> 0 <= readIdx x ->
  readIdx x + aa_payloadSize (aa_pvt m) <= Zlen d -> length hdr = 24%nat ->
  aa_payloadSize (aa_pvt m) <= Zlen rest ->
  aaf_payload m x (hdr ++ rest)
  = Ret (hdr ++ wire_samples m sz k (take (k * Z.to_nat sz) (drop (Z.to_nat (readIdx x)) d))
         ++ drop (k * Z.to_nat sz) rest).
Proof.
  intros Hok Hd Hb Hr Hl Hh Hrest. destruct Hok. rewrite ok_payload0 in *.
  assert (Hn : Z.to_nat (Z.of_nat k * sz) = (k * Z.to_nat sz)%nat) by lia.
  assert (Hkn : Z.of_nat k <= Z.of_nat k * sz) by nia.
  unfold aaf_payload, wire_samples, item_bytes, AAF_TOTAL_HEADER_SIZE, AVTP_V0_HEADER_SIZE, AAF_HEADER_SIZE.
  rewrite Hd, ok_psz0, ok_isz0, ok_payload0. case_decide as E.
  - rewrite rd_list_slice, res_bind_ret, wr_list_slice.
    + rewrite Hn. change (Z.to_nat (12 + 12)) with 24%nat.
      rewrite take_app_length', drop_app_ge by lia. do 3 f_equal. f_equal.
      rewrite length_take, length_drop. lia.
    + lia.
    + rewrite length_app, length_take, length_drop. lia.
    + by apply Forall_take, Forall_drop.
    + lia.
    + lia.
  - rewrite swap_samples_spec by (done || rewrite ?length_app; lia).
    change (Z.to_nat (12 + 12)) with 24%nat. rewrite take_app_length', drop_app_ge by lia.
    do 3 f_equal. f_equal. lia.
Qed.

(** The queue after a packet of [x]: the item goes when its last sample is sent. *)
Definition aaf_after (x : media_q_item) : fifo :=
  let a := Fifo (x :: c) fr tk st in if dataLen x <=? readIdx x then fifo_pull a else a.

Lemma aaf_tx_spec m sz k s x d b0 b1 b2 b3 sid ts o rest len :
  aaf_ok m sz k -> mq_refines s (Fifo (x :: c) fr tk st) ->
  pPubData x = Some d -> bytes_ok d -> 0 <= readIdx x ->
  readIdx x + aa_payloadSize (aa_pvt m) <= dataLen x <= Zlen d -> dataLen x < 4294967296 ->
  length sid = 8%nat -> length ts = 4%nat -> length o = 8%nat ->
  aa_payloadSize (aa_pvt m) <= Zlen rest ->
  aa_payloadSize (aa_pvt m) + 24 <= len < 4294967296 ->
  let n := aa_payloadSize (aa_pvt m) in
  let t := pAvtpTime x in
  mq_returns (openavbMapAVTPAudioTxCB (Some m) ([b0; b1; b2; b3] ++ sid ++ ts ++ o ++ rest) len) s
    (fun r s' =>
      r = (TX_CB_RET_PACKET_READY,
           aaf_packet m b0 (flag_byte b1 (openavbAvtpTimeTimestampIsValid t)) b2 (aaf_tu (aa_pvt m) t b3)
             sid (aaf_ts (aa_pvt m) t ts)
             (wire_samples m sz k (take (k * Z.to_nat sz) (drop (Z.to_nat (readIdx x)) d)))
             (drop (k * Z.to_nat sz) rest), n + 24, Some m)
      /\ mq_refines s' (aaf_after (with_read (readIdx x + n) (with_time (aaf_sent_time (aa_pvt m) t) x)))).
Proof.
  intros Hok Href Hd Hb Hr Hl Hw Hs Ht Ho Hrest Hlen n t. pose proof (ok_small _ _ _ Hok) as Hsm.
  unfold openavbMapAVTPAudioTxCB.
  eapply mq_bind; [by apply tail_lock_spec|]. intros k0 s1 [H1 (j & -> & Hk1 & _)].
  eapply mq_bind; [by eapply tail_read_spec|]. intros y s2 [-> ->].
  rewrite (proj2 (Z.ltb_lt _ _)) by lia.
  eapply mq_bind; [by apply aaf_stamp_spec|]. intros buf s2 (-> & H2 & Hk2).
  assert (Hts : length (aaf_ts (aa_pvt m) (pAvtpTime x) ts) = 4%nat)
    by (unfold aaf_ts; by destruct (openavbAvtpTimeTimestampIsValid _)).
  eapply mq_bind_lift; [by eapply aaf_header_spec|].
  unfold AAF_TOTAL_HEADER_SIZE, AVTP_V0_HEADER_SIZE, AAF_HEADER_SIZE.
  rewrite u32_id by lia. rewrite (proj2 (Z.ltb_ge _ _)) by lia.
  eapply mq_bind; [by eapply (tail_read_spec _ _ H2)|]. intros y s3 [-> ->].
  cbn [dataLen readIdx with_time]. rewrite u32_id by lia. rewrite (proj2 (Z.ltb_ge _ _)) by lia.
  eapply mq_bind_lift.
  { eapply (aaf_payload_spec m sz k _ d); try done; try (cbn; lia). by apply aaf_hdr_len. }
  eapply mq_bind; [by eapply (tail_write_spec _ _ H2)|]. intros [] s3 [H3 Hk3].
  eapply mq_bind; [by eapply (tail_read_spec _ _ H3)|]. intros y s4 [-> ->].
  cbn [dataLen readIdx with_time with_read]. rewrite !u32_id by lia.
  set (y := with_read (readIdx x + n) (with_time (aaf_sent_time (aa_pvt m) t) x)).
  eapply (mq_bind _ _ _ (fun _ s' => mq_refines s' (aaf_after y))).
  - unfold aaf_after. cbn [dataLen readIdx y with_read with_time]. subst y n.
    cbn [fifo_write_tail f_held f_free f_tick f_stale] in H3. rewrite u32_id in H3 by (cbn; lia).
    destruct (dataLen x <=? _).
    + eapply mq_bind; [by apply tail_pull_spec|]. intros ok s4 [_ H4]. by apply mq_ret.
    + eapply mq_bind; [by apply tail_unlock_spec|]. intros ok s4 H4. by apply mq_ret.
  - intros [] s4 H4. apply mq_ret. by split.
Qed.

End Send.

(** ** Receiving a packet *)

(** A listener [m'] configured for the talker [m], that generates no clock and has
    no translation of its own. *)
Record aaf_compat (m m' : aaf_map) : Prop := {
  co_format : aaf_format (aa_pvt m') = aaf_format (aa_pvt m);
  co_rate : aaf_rate (aa_pvt m') = aaf_rate (aa_pvt m);
  co_channels : audioChannels (aa_pub m') = audioChannels (aa_pub m);
  co_depth : aaf_bit_depth (aa_pvt m') = aaf_bit_depth (aa_pvt m);
  co_payload : aa_payloadSize (aa_pvt m') = aa_payloadSize (aa_pvt m);
  co_sparse : aa_sparseMode (aa_pvt m') = aa_sparseMode (aa_pvt m);
  co_clock : genClockTickOnReceiveAudio (aa_pvt m') = 0;
  co_translate : intf_rx_translate (aa_pub m') = None
}.

Section Fields.
Context (m : aaf_map) (sz : Z) (k : nat) (Hok : aaf_ok m sz k).
Context (b0 b1 b2 b3 : Z) (sid ts payload rest : list Z).
Context (Hs : length sid = 8%nat) (Ht : length ts = 4%nat) (Hp : length payload = (k * Z.to_nat sz)%nat).
Let f := aaf_packet m b0 b1 b2 b3 sid ts payload rest.

Lemma packet_at_12 : exists r, f = ([b0; b1; b2; b3] ++ sid) ++ ts ++ r /\
  exists r', r = be32 (format_info m) ++ be16 (aa_payloadSize (aa_pvt m)) ++ [sp_byte m; 0] ++ r'.
Proof.
  eexists. split; [subst f; unfold aaf_packet, aaf_hdr; rewrite <- !app_assoc; reflexivity|].
  by eexists.
Qed.

Lemma packet_ts : get32 f HIDX_AVTP_TIMESPAMP32 = Ret (of_be ts).
Proof.
  destruct packet_at_12 as (r & -> & _). unfold get32. rewrite <- Ht.
  rewrite rd_list_app, res_bind_ret; [done|]. by rewrite length_app, Hs.
Qed.

Lemma packet_valid m' len :
  aaf_compat m m' -> aa_payloadSize (aa_pvt m) + 24 <= len < 4294967296 ->
  aaf_packet_valid m' f len = Ret true.
Proof.
  intros Hc Hlen. unfold aaf_packet_valid. rewrite packet_ts, res_bind_ret.
  destruct packet_at_12 as (r & Hf & r' & ->). rewrite Hf.
  assert (H12 : length ([b0; b1; b2; b3] ++ sid) = 12%nat) by (by rewrite length_app, Hs).
  set (p12 := [b0; b1; b2; b3] ++ sid) in *. destruct Hok.
  rewrite (app_assoc p12). rewrite (get32_at (p12 ++ ts) _ _ HIDX_AAF_FORMAT32) by (by rewrite length_app, H12, Ht).
  rewrite res_bind_ret.
  rewrite (app_assoc (p12 ++ ts)). set (p20 := (p12 ++ ts) ++ be32 (format_info m)).
  assert (H20 : length p20 = 20%nat) by (subst p20; by rewrite !length_app, H12, Ht).
  unfold get32. rewrite (app_assoc (be16 _) [sp_byte m; 0]).
  change 4%nat with (length (be16 (aa_payloadSize (aa_pvt m)) ++ [sp_byte m; 0])).
  rewrite rd_list_app, !res_bind_ret by (by rewrite H20).
  rewrite <- (app_assoc (be16 _)).
  rewrite (rd_lookup _ _ (sp_byte m)), res_bind_ret; [|done|].
  2: { change (Z.to_nat HIDX_AVTP_HIDE7_SP) with 22%nat.
       rewrite lookup_app_r, H20 by lia. done. }
  rewrite get16_at, res_bind_ret by (by rewrite H20).
  rewrite (u16_id (aa_payloadSize _)), (u32_id (len - _)), (u32_id (format_info m))
    by (unfold AAF_TOTAL_HEADER_SIZE, AVTP_V0_HEADER_SIZE, AAF_HEADER_SIZE; try lia; apply u32_range).
  destruct (format_info_fields m sz k Hok) as (-> & -> & -> & ->).
  destruct Hc. rewrite co_format0, co_rate0, co_channels0, co_depth0, co_payload0, co_sparse0.
  rewrite !Z.eqb_refl, (proj2 (Z.ltb_ge _ _))
    by (unfold AAF_TOTAL_HEADER_SIZE, AVTP_V0_HEADER_SIZE, AAF_HEADER_SIZE; lia).
  assert (Hpk : Z.land (Z.shiftr (of_be (be16 (aa_payloadSize (aa_pvt m)) ++ [sp_byte m; 0])) 16) 0xFFFF
                = aa_payloadSize (aa_pvt m)).
  { change 0xFFFF with (Z.ones 16). rewrite Z.land_ones, Z.shiftr_div_pow2 by lia.
    change (2 ^ 16) with 65536. unfold of_be. cbn [app be16 fold_left]. unfold u8, sp_byte.
    rewrite Z.shiftr_div_pow2 by lia. change (2 ^ 8) with 256.
    destruct (aa_sparseMode (aa_pvt m) =? TS_SPARSE_MODE_ENABLED); zdm. }
  rewrite Hpk, Z.eqb_refl. unfold sp_byte.
  by destruct (aa_sparseMode (aa_pvt m) =? TS_SPARSE_MODE_ENABLED).
Qed.

Lemma packet_payload : rd_list f AAF_TOTAL_HEADER_SIZE (Z.to_nat (aa_payloadSize (aa_pvt m))) = Ret payload.
Proof.
  rewrite (ok_payload _ _ _ Hok). destruct Hok.
  replace (Z.to_nat (Z.of_nat k * sz)) with (length payload) by lia.
  subst f. unfold aaf_packet. apply rd_list_app. by rewrite aaf_hdr_len.
Qed.

End Fields.

(** What a payload adds to the data of an item. *)
Definition aaf_appended (m : aaf_map) (sz : Z) (k : nat) (payload d : list Z) (at_ : Z) : list Z :=
  take (Z.to_nat at_) d ++ wire_samples m sz k payload ++ drop (Z.to_nat at_ + k * Z.to_nat sz) d.

Section Receive.
Context {pf : Platform} (c fr : list media_q_item) (st : Z).
Context (m m' : aaf_map) (sz : Z) (k : nat) (Hok : aaf_ok m sz k) (Hok' : aaf_ok m' sz k).
Context (Hco : aaf_compat m m').
Context (b0 b1 b2 b3 : Z) (sid ts payload rest : list Z).
Context (Hs : length sid = 8%nat) (Ht : length ts = 4%nat) (Hp : length payload = (k * Z.to_nat sz)%nat).
Context (Hpb : bytes_ok payload).
Let f := aaf_packet m b0 b1 b2 b3 sid ts payload rest.

Lemma aaf_store_spec h dh :
  pPubData h = Some dh -> 0 <= dataLen h -> dataLen h + aa_payloadSize (aa_pvt m) <= Zlen dh ->
  dataLen h + aa_payloadSize (aa_pvt m) < 4294967296 ->
  aaf_store m' f h
  = Ret (with_data (aaf_appended m' sz k payload dh (dataLen h)) (dataLen h + aa_payloadSize (aa_pvt m)) h).
Proof.
  intros Hd H0 Hl Hw. unfold aaf_store. rewrite (co_payload _ _ Hco), (co_translate _ _ Hco).
  subst f. rewrite (packet_payload m sz k Hok), res_bind_ret by done. unfold aaf_appended, wire_samples.
  pose proof (ok_payload _ _ _ Hok) as Epl. pose proof (ok_sz _ _ _ Hok) as Hsz.
  rewrite (u32_id (_ + _)) by (pose proof (ok_small _ _ _ Hok); lia).
  rewrite (ok_psz _ _ _ Hok'), (ok_isz _ _ _ Hok').
  assert (Hkn : Z.of_nat k <= Z.of_nat k * sz) by nia.
  assert (Hpz : Zlen payload = Z.of_nat k * sz) by lia.
  case_decide.
  - unfold put_bytes. rewrite Hd, wr_list_slice, res_bind_ret by (done || lia). by rewrite Hp.
  - rewrite Hd, Epl, swap_samples_spec, res_bind_ret by (done || lia).
    change (Z.to_nat 0) with 0%nat. by rewrite drop_0, (take_ge payload) by lia.
Qed.

(** The time an item gets with its first packet. *)
Definition aaf_rx_time (n : nat) (t : option avtp_time) : option avtp_time :=
  openavbAvtpTimeSetTimestampUncertain
    (openavbAvtpTimeSubUSec
       (openavbAvtpTimeSetToTimestamp (openavbAvtpTimeSetTimestampValid t true) (of_be ts) n)
       (presentationLatencyUSec (aa_pub m')))
    (Z.testbit b3 0).

(** The queue after a packet: the item is pushed when it is full. *)
Definition aaf_filled (tk : nat) (h : media_q_item) : fifo :=
  let a := Fifo c (h :: fr) tk st in if dataLen h <? itemSize h then a else fifo_push a.

Lemma aaf_finish_spec s tk h j :
  mq_refines s (Fifo c (h :: fr) tk st) -> at_index q_head s j ->
  mq_returns (if dataLen h <? itemSize h
              then _ ← openavbMediaQHeadUnlock; mret tt
              else _ ← openavbMediaQHeadPush; mret tt) s (fun _ s' => mq_refines s' (aaf_filled tk h)).
Proof.
  intros Href Hj. unfold aaf_filled. destruct (dataLen h <? itemSize h).
  - eapply mq_bind; [by apply head_unlock_spec|]. intros ok s4 H4. by apply mq_ret.
  - eapply mq_bind; [by apply head_push_spec|]. intros ok s4 [_ H4]. by apply mq_ret.
Qed.

Section Item.
Context (h : media_q_item) (dh : list Z) (tk : nat) (s : mq_st) (len : Z).
Context (Href : mq_refines s (Fifo c (h :: fr) tk st)) (Hd : pPubData h = Some dh).
Context (H0 : 0 <= dataLen h) (Hl : dataLen h + aa_payloadSize (aa_pvt m) <= Zlen dh).
Context (Hw : dataLen h + aa_payloadSize (aa_pvt m) < 4294967296).
Context (Hlen : aa_payloadSize (aa_pvt m) + 24 <= len < 4294967296).

(** The first packet of an item, which carries a timestamp. *)
Lemma aaf_rx_first th :
  dataLen h = 0 -> pAvtpTime h = Some th -> Z.testbit b1 0 = true ->
  mq_returns (openavbMapAVTPAudioRxCB (Some m') f len) s (fun r s' =>
    r = (true, Some (with_pvt (with_valid true true (aa_pvt m')) m'))
    /\ mq_refines s' (aaf_filled (S tk)
         (with_data (aaf_appended m' sz k payload dh 0) (aa_payloadSize (aa_pvt m))
            (with_time (aaf_rx_time tk (pAvtpTime h)) h)))).
Proof.
  intros E0 Eth Htv. cbn [openavbMapAVTPAudioRxCB].
  eapply mq_bind_lift; [by eapply (packet_valid m sz k)|]. cbn [negb].
  eapply mq_bind_lift; [by apply (rd_lookup _ _ b2)|].
  unfold aaf_gen_clock. rewrite (co_clock _ _ Hco). cbn [Z.eqb negb andb]. apply mq_bind_ret.
  eapply mq_bind; [by apply head_lock_spec|]. intros k0 s1 [H1 (j & -> & Hj)].
  eapply mq_bind; [by eapply head_read_spec|]. intros y s2 [-> ->].
  rewrite E0. cbn [Z.eqb]. apply mq_bind_assoc. unfold aaf_item_time. apply mq_bind_assoc.
  eapply mq_bind_lift; [by apply (rd_lookup _ _ b1)|]. rewrite Htv, Eth. cbn [openavbAvtpTimeSetTimestampValid
    fmap option_fmap option_map openavbAvtpTimeTimestampIsValid with_flags bTimestampValid].
  apply mq_bind_assoc. eapply mq_bind_lift; [by apply (packet_ts m)|]. apply mq_bind_assoc, mq_bind_call.
  pose proof (proj1 H1) as Htk. cbn [f_tick] in Htk. rewrite Htk. pose proof (refines_call _ _ H1) as H2.
  cbn [fifo_call f_held f_free f_tick f_stale] in H2. rewrite Htk in H2.
  apply mq_bind_assoc. eapply mq_bind_lift; [by apply (rd_lookup _ _ b3)|]. apply mq_bind_ret.
  apply mq_bind_assoc. eapply mq_bind; [by eapply (head_write_spec _ _ H2)|]. intros [] s2 [H3 Hj3].
  apply mq_bind_ret. eapply mq_bind; [by eapply (head_read_spec _ _ H3)|]. intros y s3 [-> ->].
  set (h1 := with_time _ h).
  eapply mq_bind_lift; [eapply (aaf_store_spec h1 dh); cbn; rewrite ?E0; done || lia|].
  eapply mq_bind; [by eapply (head_write_spec _ _ H3)|]. intros [] s4 [H4 Hj4].
  cbn [fifo_write_head f_free f_held f_tick f_stale] in H4.
  eapply mq_bind; [by eapply aaf_finish_spec|]. intros [] s5 H5. apply mq_ret. split; [done|].
  revert H5. subst h1. cbn [dataLen with_time]. rewrite E0. exact id.
Qed.

(** Any later packet. *)
Lemma aaf_rx_next :
  dataLen h <> 0 ->
  mq_returns (openavbMapAVTPAudioRxCB (Some m') f len) s (fun r s' =>
    r = (true, Some (with_pvt (with_valid true (mediaQItemSyncTS (aa_pvt m')) (aa_pvt m')) m'))
    /\ mq_refines s' (aaf_filled tk
         (with_data (aaf_appended m' sz k payload dh (dataLen h)) (dataLen h + aa_payloadSize (aa_pvt m)) h))).
Proof.
  intros E0. cbn [openavbMapAVTPAudioRxCB].
  eapply mq_bind_lift; [by eapply (packet_valid m sz k)|]. cbn [negb].
  eapply mq_bind_lift; [by apply (rd_lookup _ _ b2)|].
  unfold aaf_gen_clock. rewrite (co_clock _ _ Hco). cbn [Z.eqb negb andb]. apply mq_bind_ret.
  eapply mq_bind; [by apply head_lock_spec|]. intros k0 s1 [H1 (j & -> & Hj)].
  eapply mq_bind; [by eapply head_read_spec|]. intros y s2 [-> ->].
  rewrite (proj2 (Z.eqb_neq _ _)) by done. apply mq_bind_ret.
  eapply mq_bind; [by eapply (head_read_spec _ _ H1)|]. intros y s3 [-> ->].
  eapply mq_bind_lift; [by eapply (aaf_store_spec h dh)|].
  eapply mq_bind; [by eapply (head_write_spec _ _ H1)|]. intros [] s4 [H4 Hj4].
  cbn [fifo_write_head f_free f_held f_tick f_stale] in H4.
  eapply mq_bind; [by eapply aaf_finish_spec|]. intros [] s5 H5. by apply mq_ret.
Qed.

End Item.
End Receive.
