(* ===== verification/MapAafTheorems.v ===== *)
(** * Audio items travel whole (lib/avtp_pipeline/map_aaf_audio)

    A media queue item that the talker sends as several packets is put together
    again by the listener; then the consequences of a configuration that the
    module does not check. *)

From S2P Require Import Prelude AvtpTime MediaQ MediaQProps MediaQTheorems AvtpMap AudioMap MapAaf MapAafProps.
From Stdlib Require Import ZArith Lia Ascii.
From stdpp Require Import base tactics list strings option.
Open Scope Z_scope.

(** One packet from the queue of a talker into the queue of a listener: the
    transmit callback fills [buf], and a packet that is ready is cut to its length
    and given to the receive callback. *)
Definition aaf_transfer (pfT pfL : Platform) (buf : list Z) (mt ml : option aaf_map) (qt ql : mq_st)
  : res (option aaf_map * option aaf_map * mq_st * mq_st) :=
  '(r, f, len, mt, qt) ← openavbMapAVTPAudioTxCB (pf := pfT) mt buf (Zlen buf) qt;
  if decide (r = TX_CB_RET_PACKET_NOT_READY) then Ret (mt, ml, qt, ql)
  else '(_, ml, ql) ← openavbMapAVTPAudioRxCB (pf := pfL) ml (take (Z.to_nat len) f) len ql;
       Ret (mt, ml, qt, ql).

Fixpoint aaf_transfers (pfT pfL : Platform) (bufs : list (list Z)) (mt ml : option aaf_map) (qt ql : mq_st)
  : res (option aaf_map * option aaf_map * mq_st * mq_st) :=
  match bufs with
  | [] => Ret (mt, ml, qt, ql)
  | buf :: bufs =>
      '(mt, ml, qt, ql) ← aaf_transfer pfT pfL buf mt ml qt ql;
      aaf_transfers pfT pfL bufs mt ml qt ql
  end.

Lemma aaf_split (f : list Z) :
  24 <= Zlen f -> exists b0 b1 b2 b3 sid ts o rest, f = [b0; b1; b2; b3] ++ sid ++ ts ++ o ++ rest
    /\ length sid = 8%nat /\ length ts = 4%nat /\ length o = 8%nat /\ Zlen rest = Zlen f - 24.
Proof.
  intros Hl. do 4 (destruct f as [|? f]; [cbn in Hl; lia|]). cbn [length] in Hl.
  exists z, z0, z1, z2, (take 8 f), (take 4 (drop 8 f)), (take 8 (drop 4 (drop 8 f))), (drop 8 (drop 4 (drop 8 f))).
  rewrite !take_drop, !length_take, !length_drop. cbn [length]. split_and!; [done|lia..].
Qed.

Lemma packet_cut m sz k b0 b1 b2 b3 sid ts payload rest :
  aaf_ok m sz k -> length sid = 8%nat -> length ts = 4%nat -> length payload = (k * Z.to_nat sz)%nat ->
  take (Z.to_nat (aa_payloadSize (aa_pvt m) + 24)) (aaf_packet m b0 b1 b2 b3 sid ts payload rest)
  = aaf_packet m b0 b1 b2 b3 sid ts payload [].
Proof.
  intros Hok Hs Ht Hp. rewrite (ok_payload _ _ _ Hok). pose proof (ok_sz _ _ _ Hok). unfold aaf_packet.
  rewrite !app_assoc, app_nil_r. apply take_app_length'. rewrite length_app, aaf_hdr_len by done. lia.
Qed.

Lemma compat_valid m m' b sync : aaf_compat m m' -> aaf_compat m (with_pvt (with_valid b sync (aa_pvt m')) m').
Proof. by intros []. Qed.
Lemma ok_valid m sz k b sync : aaf_ok m sz k -> aaf_ok (with_pvt (with_valid b sync (aa_pvt m)) m) sz k.
Proof. by intros []. Qed.

Section Reassembly.
Context (pfT pfL : Platform) (m : aaf_map) (sz : Z) (k : nat) (Hok : aaf_ok m sz k).
Context (c frT : list media_q_item) (tkT : nat) (stT : Z).
Context (cl frL : list media_q_item) (stL : Z) (d : list Z) (p : Z).
Context (Hdb : bytes_ok d) (Hpd : p * aa_payloadSize (aa_pvt m) <= Zlen d).
Context (Hpw : p * aa_payloadSize (aa_pvt m) < 4294967296).

Abbreviation n := (aa_payloadSize (aa_pvt m)).

(** A talker's item of which [j] packets were sent, and a listener's item that
    holds [j] payloads. *)
Definition sending (x : media_q_item) (j : Z) : Prop :=
  pPubData x = Some d /\ readIdx x = j * n /\ dataLen x = p * n.
Definition filling (h : media_q_item) (j : Z) (t : option avtp_time) : Prop :=
  exists dh, pPubData h = Some dh /\ dataLen h = j * n /\ itemSize h = p * n /\ p * n <= Zlen dh
    /\ take (Z.to_nat (j * n)) dh = take (Z.to_nat (j * n)) d /\ pAvtpTime h = t.
(** A listener with the talker's settings. *)
Definition same_format (m' : aaf_map) : Prop :=
  aaf_ok m' sz k /\ aaf_compat m m' /\ audioEndian (aa_pub m') = audioEndian (aa_pub m).

Lemma appended_prefix m' dh j :
  same_format m' -> 0 <= j -> (j + 1) * n <= p * n -> p * n <= Zlen dh ->
  take (Z.to_nat (j * n)) dh = take (Z.to_nat (j * n)) d ->
  let dh' := aaf_appended m' sz k
    (wire_samples m sz k (take (k * Z.to_nat sz) (drop (Z.to_nat (j * n)) d))) dh (j * n) in
  length dh' = length dh /\ take (Z.to_nat ((j + 1) * n)) dh' = take (Z.to_nat ((j + 1) * n)) d.
Proof.
  intros (_ & _ & He) Hj Hp1 Hp2 Hpre. cbn zeta. unfold aaf_appended.
  pose proof (ok_payload _ _ _ Hok) as En. pose proof (ok_sz _ _ _ Hok) as Hsz.
  pose proof (ok_small _ _ _ Hok) as Hsm. set (i := Z.to_nat (j * n)) in *.
  assert (Hjn : 0 <= j * n) by nia.
  assert (Hi : (i + k * Z.to_nat sz <= length d)%nat /\ (i + k * Z.to_nat sz <= length dh)%nat) by (subst i; lia).
  rewrite wire_samples_twice by (done || rewrite length_take, length_drop; lia).
  replace (Z.to_nat ((j + 1) * n)) with (i + k * Z.to_nat sz)%nat by (subst i; lia).
  split.
  - rewrite !length_app, !length_take, !length_drop. lia.
  - rewrite app_assoc, take_app_length' by (rewrite length_app, !length_take, length_drop; lia).
    rewrite Hpre. by rewrite <- take_take_drop.
Qed.

(** The effect of a transfer when [j] packets of the item went before. *)
Definition transferred (j : Z) (tk : nat) (t : option avtp_time)
  (r : option aaf_map * option aaf_map * mq_st * mq_st) : Prop :=
  let '(mt, ml, qt, ql) := r in
  mt = Some m /\ exists m' x h, ml = Some m' /\ same_format m' /\ sending x (j + 1) /\ filling h (j + 1) t
    /\ mq_refines qt (aaf_after c frT tkT stT x) /\ mq_refines ql (aaf_filled cl frL stL tk h).

Section Step.
Context (m' : aaf_map) (x h : media_q_item) (j : Z) (tkL : nat) (qt ql : mq_st) (buf : list Z).
Context (t0 : option avtp_time).
Context (Hsame : same_format m') (Hj : 0 <= j < p) (Hx : sending x j) (Hh : filling h j t0).
Context (Hqt : mq_refines qt (Fifo (x :: c) frT tkT stT)) (Hql : mq_refines ql (Fifo cl (h :: frL) tkL stL)).
Context (Hbuf : n + 24 <= Zlen buf < 4294967296).

(** The talker's half. *)
Lemma transfer_tx :
  exists f qt' b0 b2 b3 sid ts0,
    openavbMapAVTPAudioTxCB (pf := pfT) (Some m) buf (Zlen buf) qt
      = Ret (TX_CB_RET_PACKET_READY, f, n + 24, Some m, qt')
    /\ (exists b1, take (Z.to_nat (n + 24)) f = aaf_packet m b0
          (flag_byte b1 (openavbAvtpTimeTimestampIsValid (pAvtpTime x))) b2
          (aaf_tu (aa_pvt m) (pAvtpTime x) b3) sid (aaf_ts (aa_pvt m) (pAvtpTime x) ts0)
          (wire_samples m sz k (take (k * Z.to_nat sz) (drop (Z.to_nat (j * n)) d))) [])
    /\ length sid = 8%nat /\ length (aaf_ts (aa_pvt m) (pAvtpTime x) ts0) = 4%nat
    /\ exists x', sending x' (j + 1) /\ mq_refines qt' (aaf_after c frT tkT stT x').
Proof.
  destruct Hx as (Hd & Hr & Hl). pose proof (ok_small _ _ _ Hok) as Hsm.
  assert (Hjn : 0 <= j * n /\ j * n + n <= p * n) by nia.
  destruct (aaf_split buf ltac:(lia)) as (b0 & b1 & b2 & b3 & sid & ts & o & rest & E & Hs & Ht & Ho & Hrest).
  assert (Hts : length (aaf_ts (aa_pvt m) (pAvtpTime x) ts) = 4%nat)
    by (unfold aaf_ts; by destruct (openavbAvtpTimeTimestampIsValid _)).
  assert (Hpl : length (take (k * Z.to_nat sz) (drop (Z.to_nat (j * n)) d)) = (k * Z.to_nat sz)%nat).
  { pose proof (ok_payload _ _ _ Hok). pose proof (ok_sz _ _ _ Hok). rewrite length_take, length_drop. lia. }
  destruct (mq_returns_inv _ _ _ (aaf_tx_spec (pf := pfT) c frT tkT stT m sz k qt x d b0 b1 b2 b3 sid ts o rest
    (Zlen buf) Hok Hqt Hd Hdb ltac:(lia) ltac:(lia) ltac:(lia) Hs Ht Ho ltac:(lia) ltac:(lia)))
    as (r & qt' & Er & -> & Hq').
  rewrite <- E, Hr in Er. eexists _, qt', b0, b2, _, sid, ts. split; [exact Er|]. split_and!; try done.
  - exists b1. rewrite packet_cut with (sz := sz) (k := k); try done. by apply wire_samples_len.
  - eexists. split; [|exact Hq']. split_and!; [done | | done]. cbn [readIdx with_read]. lia.
Qed.

(** A packet after the first. *)
Lemma transfer_next :
  1 <= j -> returns (aaf_transfer pfT pfL buf (Some m) (Some m') qt ql) (transferred j tkL t0).
Proof.
  intros Hj1. destruct transfer_tx as (f & qt' & b0 & b2 & b3 & sid & ts0 & Htx & (b1 & Hf) & Hs & Hts & x' & Hx' & Hq').
  unfold aaf_transfer. rewrite Htx, res_bind_ret. cbv beta iota. rewrite decide_False, Hf by done.
  destruct Hh as (dh & Hdh & Hhl & His & Hdl & Hpre & Ht0). pose proof (ok_small _ _ _ Hok) as Hsm.
  assert (Hjn : 0 < j * n /\ (j + 1) * n <= p * n) by nia.
  pose proof (ok_payload _ _ _ Hok) as En. pose proof (ok_sz _ _ _ Hok) as Hsz.
  eapply returns_bind; [eapply (aaf_rx_next (pf := pfL) cl frL stL m m' sz k Hok); try done; try apply Hsame; try lia|].
  { apply wire_samples_len. rewrite length_take, length_drop. lia. }
  { by apply wire_samples_ok, Forall_take, Forall_drop. }
  intros [[ok ml] ql'] [[= -> ->] Hql']. split; [done|].
  eexists _, x', _. split; [done|]. destruct Hsame as (Hok' & Hco & He).
  split; [split_and!; [by apply ok_valid | by apply compat_valid | done]|].
  split; [done|]. split; [|by split]. rewrite Hhl.
  destruct (appended_prefix m' dh j) as [Hlen Htk]; try done; try lia.
  eexists. split; [done|]. cbn [dataLen itemSize with_data pAvtpTime]. rewrite Hlen. split_and!; try done; lia.
Qed.

(** The first packet. *)
Lemma transfer_first th :
  j = 0 -> openavbAvtpTimeTimestampIsValid (pAvtpTime x) = true -> t0 = Some th ->
  returns (aaf_transfer pfT pfL buf (Some m) (Some m') qt ql)
    (fun r => exists b3, transferred j (S tkL) (aaf_rx_time (pf := pfL) m'
       (flag_byte b3 (openavbAvtpTimeTimestampIsUncertain (aaf_transit (aa_pvt m) (pAvtpTime x))))
       (be32 (openavbAvtpTimeGetAvtpTimestamp (aaf_transit (aa_pvt m) (pAvtpTime x)))) tkL (Some th)) r).
Proof.
  intros Hj0 Hv Eth. destruct transfer_tx as (f & qt' & b0 & b2 & b3 & sid & ts0 & Htx & (b1 & Hf) & Hs & Hts & x' & Hx' & Hq').
  unfold aaf_transfer. rewrite Htx, res_bind_ret. cbv beta iota. rewrite decide_False, Hf by done.
  destruct Hh as (dh & Hdh & Hhl & His & Hdl & Hpre & Ht0). pose proof (ok_small _ _ _ Hok) as Hsm.
  assert (Hjn : (j + 1) * n <= p * n) by nia. rewrite Hj0 in Hhl. change (0 * n) with 0 in Hhl.
  pose proof (ok_payload _ _ _ Hok) as En. pose proof (ok_sz _ _ _ Hok) as Hsz.
  revert Hts. unfold aaf_ts, aaf_tu. rewrite Hv. intros Hts.
  eapply returns_bind; [eapply (aaf_rx_first (pf := pfL) cl frL stL m m' sz k Hok) with (th := th);
    try done; try apply Hsame; try lia|].
  { apply wire_samples_len. rewrite length_take, length_drop. lia. }
  { by apply wire_samples_ok, Forall_take, Forall_drop. }
  { congruence. }
  { apply flag_byte_bit. }
  intros [[ok ml] ql'] [[= -> ->] Hql']. exists b3. split; [done|].
  eexists _, x', _. split; [done|]. destruct Hsame as (Hok' & Hco & He).
  split; [split_and!; [by apply ok_valid | by apply compat_valid | done]|].
  split; [done|]. split; [|split; [done | exact Hql']].
  destruct (appended_prefix m' dh j) as [Hlen Htk]; try done; try lia. rewrite Hj0 in Hlen, Htk.
  rewrite Hj0. eexists. split; [done|]. cbn [dataLen itemSize with_data with_time pAvtpTime].
  change (0 * n) with 0 in *. rewrite Hlen.
  split_and!; try done; try lia. by rewrite Ht0, Eth.
Qed.

End Step.

(** The remaining packets of an item. *)
Lemma transfers_rest bufs : forall m' x h j tkL qt ql t0,
  same_format m' -> 1 <= j -> j + Zlen bufs = p -> sending x j -> filling h j t0 ->
  mq_refines qt (aaf_after c frT tkT stT x) -> mq_refines ql (aaf_filled cl frL stL tkL h) ->
  Forall (fun buf => n + 24 <= Zlen buf < 4294967296) bufs ->
  returns (aaf_transfers pfT pfL bufs (Some m) (Some m') qt ql) (fun '(_, _, qt', ql') =>
    (exists fr, mq_refines qt' (Fifo c fr tkT stT))
    /\ exists y, filling y p t0 /\ mq_refines ql' (Fifo (cl ++ [clear_read y]) frL tkL stL)).
Proof.
  pose proof (ok_small _ _ _ Hok) as Hsm.
  induction bufs as [|buf bufs IH]; intros m' x h j tkL qt ql t0 Hm Hj Hp Hx Hh Hqt Hql Hb.
  - cbn [length] in Hp. assert (j = p) as -> by lia. cbn [aaf_transfers returns].
    pose proof Hx as (_ & Hr & Hl). pose proof Hh as (dh & _ & Hhl & His & _).
    unfold aaf_after in Hqt. rewrite (proj2 (Z.leb_le _ _)) in Hqt by lia.
    unfold aaf_filled in Hql. rewrite (proj2 (Z.ltb_ge _ _)) in Hql by lia.
    split; [by eexists|]. by exists h.
  - cbn [length] in Hp. inv Hb as [|? ? Hbuf Hb']. cbn [aaf_transfers].
    pose proof Hx as (_ & Hr & Hl). pose proof Hh as (dh & _ & Hhl & His & _).
    assert (j * n < p * n) by nia.
    unfold aaf_after in Hqt. rewrite (proj2 (Z.leb_gt _ _)) in Hqt by lia.
    unfold aaf_filled in Hql. rewrite (proj2 (Z.ltb_lt _ _)) in Hql by lia.
    eapply returns_bind; [eapply (transfer_next m' x h j tkL qt ql buf t0); done || lia|].
    intros [[[mt ml] qt'] ql'] (-> & m2 & x2 & h2 & -> & Hm2 & Hx2 & Hh2 & Hqt2 & Hql2).
    eapply (IH m2 x2 h2 (j + 1)); done || lia.
Qed.

End Reassembly.

(** The presentation time a listener gives an item: the talker's time plus the
    transit time, less the latency of its output. *)
Definition aaf_presentation (m : aaf_map) (t : avtp_time) : Z :=
  u64 (timeNsec t + aa_maxTransitUsec (aa_pvt m) * NANOSECONDS_PER_USEC).

Lemma aaf_time_exact {pfL : Platform} m m' b3 tx th n now :
  ptp_time n = Some now -> -2147483649 <= aaf_presentation m tx - u64 now < 2147483647 ->
  aaf_rx_time m' (flag_byte b3 (openavbAvtpTimeTimestampIsUncertain (aaf_transit (aa_pvt m) (Some tx))))
    (be32 (openavbAvtpTimeGetAvtpTimestamp (aaf_transit (aa_pvt m) (Some tx)))) n (Some th)
  = Some (AvtpTime (u64 (aaf_presentation m tx - presentationLatencyUSec (aa_pub m') * NANOSECONDS_PER_USEC))
            (maxLatencyNsec th) true (bTimestampUncertain tx)).
Proof.
  intros Hnow Hw. unfold aaf_rx_time. rewrite flag_byte_bit, of_be32.
  cbn [aaf_transit openavbAvtpTimeAddUSec openavbAvtpTimeSetTimestampValid openavbAvtpTimeGetAvtpTimestamp
    openavbAvtpTimeTimestampIsUncertain fmap option_fmap option_map with_ns with_flags timeNsec bTimestampUncertain].
  unfold openavbAvtpTimeSetToTimestamp. pose proof (walltime_ns n) as Hwt.
  unfold osalClockGettime64 in Hwt. rewrite Hnow in Hwt.
  destruct (osalClockGettime OPENAVB_CLOCK_WALLTIME n) as [tm|]; [|done]. cbn in Hwt. inv Hwt as [Htm].
  cbn [openavbAvtpTimeSetTimestampUncertain openavbAvtpTimeSubUSec fmap option_fmap option_map
    with_ns with_flags timeNsec maxLatencyNsec bTimestampUncertain bTimestampValid].
  fold (aaf_presentation m tx).
  rewrite (u32_id (x_getTimestamp _)) by (rewrite x_getTimestamp_mod; apply u32_range).
  rewrite Htm, timestamp_rebuilt; [done | apply u64_range | done].
Qed.

(** C14: audio items travel whole.  Between an AAF talker and a listener with the same
    format, rate, channels, packet size and byte order, sending the packets of an
    item (as many as its length is packet payloads) takes the item off the
    talker's queue and appends one item to the listener's queue, with the same
    bytes in the same order, whatever the byte order of the samples and the buffers
    used; its presentation time is the talker's time plus the transit time less the
    listener's latency, when the listener's clock is within about 2^31 ns of the
    presentation time. *)
Theorem aaf_item_reassembled pfT pfL m m' sz k x c frT tkT stT h cl frL tkL stL d dh tx th bufs qt ql :
  aaf_ok m sz k -> same_format m sz k m' ->
  mq_refines qt (Fifo (x :: c) frT tkT stT) -> mq_refines ql (Fifo cl (h :: frL) tkL stL) ->
  pPubData x = Some d -> bytes_ok d -> readIdx x = 0 ->
  dataLen x = Zlen bufs * aa_payloadSize (aa_pvt m) -> dataLen x <= Zlen d -> dataLen x < 4294967296 ->
  pAvtpTime x = Some tx -> bTimestampValid tx = true ->
  pPubData h = Some dh -> dataLen h = 0 -> itemSize h = dataLen x -> itemSize h <= Zlen dh ->
  pAvtpTime h = Some th ->
  bufs <> [] -> Forall (fun buf => aa_payloadSize (aa_pvt m) + 24 <= Zlen buf < 4294967296) bufs ->
  returns (aaf_transfers pfT pfL bufs (Some m) (Some m') qt ql) (fun '(_, _, qt', ql') =>
    (exists fr, mq_refines qt' (Fifo c fr tkT stT))
    /\ exists y, mq_refines ql' (Fifo (cl ++ [y]) frL (S tkL) stL)
       /\ dataLen y = dataLen x /\ readIdx y = 0
       /\ take (Z.to_nat (dataLen x)) <$> pPubData y = Some (take (Z.to_nat (dataLen x)) d)
       /\ forall now, ptp_time (Platform := pfL) tkL = Some now ->
          -2147483649 <= aaf_presentation m tx - u64 now < 2147483647 ->
          pAvtpTime y = Some (AvtpTime
            (u64 (aaf_presentation m tx - presentationLatencyUSec (aa_pub m') * NANOSECONDS_PER_USEC))
            (maxLatencyNsec th) true (bTimestampUncertain tx))).
Proof.
  intros Hok Hm Hqt Hql Hd Hdb Hr Hl Hld Hlw Htx Hv Hdh Hh0 His Hidh Hth Hne Hb.
  destruct bufs as [|buf bufs]; [done|]. inv Hb as [|? ? Hbuf Hb']. cbn [aaf_transfers]. clear Hne.
  set (p := Zlen (buf :: bufs)) in *. set (n := aa_payloadSize (aa_pvt m)) in *.
  assert (Hp : p = 1 + Zlen bufs) by (subst p; cbn; lia).
  assert (Hx : sending m d p x 0) by (split_and!; [done | lia | done]).
  assert (Hfh : filling m d p h 0 (Some th)).
  { exists dh. fold n. split_and!; try done; try lia. }
  eapply returns_bind; [eapply (transfer_first pfT pfL m sz k Hok c frT tkT stT cl frL stL d p Hdb) with (th := th);
    try done; fold n; try lia; by rewrite Htx|].
  intros [[[mt ml] qt'] ql'] (b3 & -> & m2 & x2 & h2 & -> & Hm2 & Hx2 & Hh2 & Hqt2 & Hql2).
  eapply returns_mono; [eapply (transfers_rest pfT pfL m sz k Hok c frT tkT stT cl frL stL d p Hdb) with (j := 1);
    try done; fold n; lia|].
  intros [[[mt' ml'] qt2] ql2] [Ht2 (y & (dy & Hdy & Hly & _ & _ & Hpre & Hty) & Hq2)]. split; [done|].
  eexists. split; [exact Hq2|]. cbn [clear_read dataLen readIdx pPubData pAvtpTime]. fold n in Hly, Hpre.
  split_and!; [by rewrite Hl | done | by rewrite Hdy, Hl; cbn; rewrite Hpre |].
  intros now Hnow Hwin. rewrite Hty, Htx. by apply aaf_time_exact with (now := now).
Qed.

(** ** Sizes *)

(** Audio frames per packet: the rate over the interval, rounded up. *)
Definition frames_per_packet (m : aaf_map) : Z :=
  (audioRate (aa_pub m) + aa_txInterval (aa_pvt m) - 1) / aa_txInterval (aa_pvt m).

Lemma format_sizes t depth fmt sz dep : format_of t depth = (fmt, Some (sz, dep)) -> 2 <= sz <= 4 /\ 16 <= dep <= 32.
Proof.
  unfold format_of. intros H. repeat case_match; simplify_eq; lia.
Qed.

(** The code's division, rounded up. *)
Lemma frames_rounded r t :
  0 <= r < 4294967296 -> 0 < t ->
  (if r mod t =? 0 then r / t else u32 (r / t + 1)) = (r + t - 1) / t.
Proof.
  intros Hr Ht. assert (Hdm := Z.div_mod r t ltac:(lia)). assert (Hmb := Z.mod_pos_bound r t Ht).
  assert (0 <= r / t) by (apply Z.div_pos; lia).
  destruct (Z.eqb_spec (r mod t) 0) as [E|E].
  - apply (Z.div_unique _ _ _ (t - 1)); lia.
  - assert (E2 : r / t + 1 = (r + t - 1) / t) by (apply (Z.div_unique _ _ _ (r mod t - 1)); lia).
    rewrite u32_id; [done|]. destruct (Z.eq_dec t 1) as [E1|]; [rewrite E1, Z.mod_1_r in E; lia|].
    assert (2 * (r / t) <= t * (r / t)) by (apply Z.mul_le_mono_nonneg_r; lia). lia.
Qed.

(** C34: the sizes fit together.  For a supported sample format and a transmit interval
    other than 0, [x_calculateSizes] makes a packet carry the audio frames of one
    interval, rounded up, with all channels, and an item exactly [packingFactor]
    packet payloads; it leaves the module in the state [aaf_ok] that sending and
    receiving rely on. *)
Theorem aaf_sizes_fit m fmt sz dep :
  format_of (audioType (aa_pub m)) (audioBitDepth (aa_pub m)) = (fmt, Some (sz, dep)) ->
  0 < aa_txInterval (aa_pvt m) -> 0 <= audioRate (aa_pub m) < 4294967296 ->
  0 <= audioChannels (aa_pub m) < 1024 -> 0 <= aa_packingFactor (aa_pvt m) ->
  aaf_event_field (aa_pvt m) = AAF_STATIC_CHANNELS_LAYOUT ->
  let payload := frames_per_packet m * (sz * audioChannels (aa_pub m)) in
  0 < payload < 65536 -> payload * aa_packingFactor (aa_pvt m) < 4294967296 ->
  exists m', aaf_calculateSizes m = Ret m'
    /\ aaf_ok m' sz (Z.to_nat (frames_per_packet m * audioChannels (aa_pub m)))
    /\ aa_payloadSize (aa_pvt m') = payload
    /\ au_itemSize (aa_pub m') = aa_packingFactor (aa_pvt m) * payload
    /\ aaf_rate (aa_pvt m') = rate_of (audioRate (aa_pub m)) /\ aaf_format (aa_pvt m') = fmt.
Proof.
  intros Hf Htx Hr Hc Hpk He payload Hp Hi. destruct (format_sizes _ _ _ _ _ Hf) as [Hsz Hdep].
  set (v := aa_pvt m) in *. set (u := aa_pub m) in *.
  pose proof (frames_rounded (audioRate u) (aa_txInterval v) Hr Htx) as Hfpp.
  change ((_ + _ - 1) / _) with (frames_per_packet m) in Hfpp.
  assert (Hf0 : 0 <= frames_per_packet m) by (apply Z.div_pos; fold u v; lia).
  set (F := frames_per_packet m) in *. set (ch := audioChannels u) in *.
  assert (Hcp : 0 < ch /\ 0 < F).
  { unfold payload in Hp. split; apply Z.nle_gt; intros E.
    - assert (ch = 0) as E0 by lia. rewrite E0 in Hp. lia.
    - assert (F = 0) as E0 by lia. rewrite E0 in Hp. lia. }
  assert (Hpf : sz * audioChannels u <= payload) by nia.
  unfold aaf_calculateSizes. fold v u. rewrite Hf. cbv beta iota zeta.
  rewrite (proj2 (Z.eqb_neq (aa_txInterval v) 0)), Hfpp by lia.
  rewrite (u32_id (sz * _)), (u32_id (frames_per_packet m * (sz * _))) by (unfold payload in *; nia).
  eexists. split; [reflexivity|].
  cbn [aa_pvt aa_pub aa_payloadSize au_itemSize aaf_rate aaf_format].
  assert (Hit : u32 (sz * audioChannels u * u32 (frames_per_packet m * aa_packingFactor v))
                = aa_packingFactor v * payload).
  { fold F ch. assert (0 <= F * aa_packingFactor v) by (apply Z.mul_nonneg_nonneg; lia).
    assert (F * aa_packingFactor v * 1 <= F * aa_packingFactor v * (sz * ch))
      by (apply Z.mul_le_mono_nonneg_l; [done | nia]).
    assert (Ep : F * aa_packingFactor v * (sz * ch) = payload * aa_packingFactor v) by (unfold payload; ring).
    rewrite (u32_id (F * _)) by lia. rewrite Z.mul_comm, Ep, u32_id by lia. ring. }
  split_and!; try done. split; cbn; try done; try lia.
Qed.

(** ** Concrete streams *)

(** 16-bit stereo at 48 kHz in 8000 packets per second, two packets per item. *)
Definition demo_info : audio_info :=
  AudioInfo 48000 AVB_AUDIO_TYPE_INT 16 AVB_AUDIO_ENDIAN_LITTLE 2 0 0 0 0 0 0 0 0 0 0 None 0 0.
Definition demo_aaf_pvt : aaf_pvt :=
  openavbMapAVTPAudioCfgCB (openavbMapAVTPAudioCfgCB (aaf_defaults 2000) "map_nv_tx_rate" "8000")
    "map_nv_packing_factor" "2".
Definition demo_aaf : aaf_map :=
  match aaf_calculateSizes (AafMap demo_aaf_pvt demo_info []) with
  | Ret m => m
  | Fault _ => AafMap demo_aaf_pvt demo_info []
  end.

Lemma aaf_sizes_fit_witness :
  exists m', aaf_calculateSizes (AafMap demo_aaf_pvt demo_info []) = Ret m' /\ aaf_ok m' 2 12
    /\ aa_payloadSize (aa_pvt m') = 24 /\ au_itemSize (aa_pub m') = 48.
Proof.
  destruct (aaf_sizes_fit (AafMap demo_aaf_pvt demo_info []) AAF_FORMAT_INT_16 2 16 eq_refl)
    as (m' & E & Hok & Hp & Hi & _); try (vm_compute; (done || by split)).
  exists m'. split; [exact E|]. split; [exact Hok|]. split; [exact Hp | exact Hi].
Defined.

Definition demo_samples : list Z := Z.of_nat <$> seq 1 48.
Definition demo_audio : media_q_item :=
  MediaQItem (Some (AvtpTime 5000000000 2000000 true false)) (Some demo_samples) 0 48 48 false None None None.
Definition demo_audio_q (l : list media_q_item) (head tail : Z) : mq_st :=
  MqSt (Some (MediaQInfo 2 48 l head false tail false true 2000 false MICROSECONDS_PER_SECOND)) 0 [].
Definition demo_talk_q : mq_st := demo_audio_q [demo_audio; fresh_item 2000 48] 1 0.
Definition demo_listen_q : mq_st := demo_audio_q [fresh_item 2000 48; fresh_item 2000 48] 0 (-1).

Lemma demo_talk_refines :
  mq_refines demo_talk_q (Fifo [demo_audio] [fresh_item 2000 48] 0 MICROSECONDS_PER_SECOND).
Proof.
  split; [done|]. eexists _, 0%nat. split; [done|]. split; [|done].
  split; [vm_compute; lia | done.. | by repeat constructor].
Qed.
Lemma demo_listen_refines :
  mq_refines demo_listen_q (Fifo [] [fresh_item 2000 48; fresh_item 2000 48] 0 MICROSECONDS_PER_SECOND).
Proof.
  split; [done|]. eexists _, 0%nat. split; [done|]. split; [|done].
  split; [vm_compute; lia | done.. | by repeat constructor].
Qed.
Lemma demo_aaf_ok : aaf_ok demo_aaf 2 12.
Proof. split; vm_compute; done || by split. Qed.
Lemma demo_same_format : same_format demo_aaf 2 12 demo_aaf.
Proof. split; [exact demo_aaf_ok|]. split; [|done]. by split. Qed.
Lemma demo_samples_ok : bytes_ok demo_samples.
Proof. apply Forall_fmap, Forall_seq. intros j Hj. cbn. lia. Qed.

Lemma aaf_item_reassembled_witness :
  exists r qt' ql' y,
    aaf_transfers demo_platform demo_platform [replicate 48 0; replicate 60 0] (Some demo_aaf) (Some demo_aaf)
      demo_talk_q demo_listen_q = Ret (r, qt', ql')
    /\ mq_refines ql' (Fifo [y] [fresh_item 2000 48] 1 MICROSECONDS_PER_SECOND)
    /\ take 48 <$> pPubData y = Some demo_samples
    /\ pAvtpTime y = Some (AvtpTime 5002000000 2000000 true false).
Proof.
  assert (H := aaf_item_reassembled demo_platform demo_platform demo_aaf demo_aaf 2 12 demo_audio []
    [fresh_item 2000 48] 0 MICROSECONDS_PER_SECOND (fresh_item 2000 48) [] [fresh_item 2000 48] 0
    MICROSECONDS_PER_SECOND demo_samples (replicate 48 0) (AvtpTime 5000000000 2000000 true false)
    (AvtpTime 0 2000000 false false) [replicate 48 0; replicate 60 0] demo_talk_q demo_listen_q
    demo_aaf_ok demo_same_format demo_talk_refines demo_listen_refines eq_refl demo_samples_ok eq_refl
    eq_refl ltac:(cbn; lia) ltac:(cbn; lia) eq_refl eq_refl eq_refl eq_refl eq_refl ltac:(cbn; lia) eq_refl
    ltac:(done) ltac:(repeat constructor; vm_compute; done)).
  apply returns_inv in H as ([[r qt'] ql'] & E & H). destruct r as [mt ml].
  destruct H as (_ & y & Hy & _ & _ & Hd & Ht). exists (mt, ml), qt', ql', y.
  split; [exact E|]. split; [exact Hy|]. split; [exact Hd|].
  exact (Ht 5000000000 eq_refl ltac:(vm_compute; by split)).
Defined.

(** ** Defects *)

(** A transmit rate of 0, which the settings describe as the default of the stream
    class, divides by zero. *)
Theorem aaf_rate_zero_faults u :
  aaf_calculateSizes
    (AafMap (openavbMapAVTPAudioCfgCB (aaf_defaults 2000) "map_nv_tx_rate" "0") u []) = Fault DivByZero.
Proof. unfold aaf_calculateSizes. cbn [aa_pvt aa_pub]. destruct (format_of _ _) as [fmt [[sz dep]|]]; reflexivity. Qed.

(** Without sparse timestamps only the first packet of an item carries a valid
    timestamp, although the mode is described as one valid in every packet: bit 0 of
    byte 1 of the first two packets of an item. *)
Theorem aaf_second_packet_unstamped :
  ('(_, f1, _, _, q1) ← openavbMapAVTPAudioTxCB (pf := demo_platform) (Some demo_aaf) (replicate 48 0) 48 demo_talk_q;
   '(_, f2, _, _, _) ← openavbMapAVTPAudioTxCB (pf := demo_platform) (Some demo_aaf) (replicate 48 0) 48 q1;
   Ret (aa_sparseMode (aa_pvt demo_aaf), f1 !! 1%nat, f2 !! 1%nat))
  = Ret (TS_SPARSE_MODE_DISABLED, Some 1, Some 0).
Proof. vm_compute. reflexivity. Qed.
