(* ===== verification/UtilQueue.v ===== *)
(** * The element queue (lib/avtp_pipeline/util/openavb_queue.c)

    A ring of elements with a flag each.  The functions implement a bounded FIFO
    queue for clients that fill or read an element only after locking it; the
    element count is right except for a full queue. *)

From S2P Require Import Prelude AvtpTime MediaQProps.
From Stdlib Require Import ZArith Lia.
From stdpp Require Import base tactics list option.
Open Scope Z_scope.

Record queue_elem := QueueElem {
  setFlg : bool;
  qe_data : list Z
}.

Record avb_queue := AvbQueue {
  elemSize : Z;
  queueSize : Z;
  qu_head : Z;
  qu_tail : Z;
  elemArray : list queue_elem
}.

(** ** Creation *)

Section Create.
Context {pf : Platform}.

(** The elements of a new queue, from the n-th call of the platform on: [inl] with
    the number of elements that were allocated when one could not be. *)
Fixpoint alloc_elems (count : nat) (elemSize : Z) (n : nat) : nat + list queue_elem :=
  match count with
  | O => inr []
  | S count =>
      if calloc_ok n then
        match alloc_elems count elemSize (S n) with
        | inl k => inl (S k)
        | inr l => inr (QueueElem false (replicate (Z.to_nat elemSize) 0) :: l)
        end
      else inl O
  end.

(** The queue, and the number of blocks of memory that stay allocated: a queue that
    could not be completed is deleted while its [queueSize] is still 0, which
    frees the queue and its array but no element. *)
Definition openavbQueueNewQueue (size count : Z) (n : nat) : option avb_queue * Z :=
  if (size <? 1) || (count <? 1) then (None, 0)
  else if negb (calloc_ok n) then (None, 0)
  else if negb (calloc_ok (S n)) then (None, 0)
  else match alloc_elems (Z.to_nat count) size (S (S n)) with
       | inl k => (None, Z.of_nat k)
       | inr l => (Some (AvbQueue size count 0 0 l), 2 + count)
       end.

End Create.

(** ** Operations *)

Definition qu_elem (q : avb_queue) (i : Z) : res queue_elem :=
  if i <? 0 then Fault (OobRead i)
  else match elemArray q !! Z.to_nat i with Some e => Ret e | None => Fault (OobRead i) end.
Definition with_elems (l : list queue_elem) (q : avb_queue) : avb_queue :=
  AvbQueue (elemSize q) (queueSize q) (qu_head q) (qu_tail q) l.

Definition openavbQueueGetQueueSize (q : option avb_queue) : Z :=
  match q with Some q => queueSize q | None => 0 end.
Definition openavbQueueGetElemSize (q : option avb_queue) : Z :=
  match q with Some q => elemSize q | None => 0 end.

Definition openavbQueueGetElemCount (q : option avb_queue) : res Z :=
  match q with
  | None => Ret 0
  | Some q =>
      let cnt :=
        if qu_tail q <? qu_head q then u32 (qu_head q - qu_tail q - 1)
        else if qu_head q <? qu_tail q then u32 (qu_head q + (queueSize q - 1 - qu_tail q))
        else 0 in
      e ← qu_elem q (qu_tail q);
      Ret (if setFlg e then u32 (cnt + 1) else cnt)
  end.

(** A locked element is its index. *)
Definition openavbQueueHeadLock (q : option avb_queue) : res (option Z) :=
  match q with
  | None => Ret None
  | Some q => e ← qu_elem q (qu_head q); Ret (if setFlg e then None else Some (qu_head q))
  end.
Definition openavbQueueTailLock (q : option avb_queue) : res (option Z) :=
  match q with
  | None => Ret None
  | Some q => e ← qu_elem q (qu_tail q); Ret (if setFlg e then Some (qu_tail q) else None)
  end.

Definition openavbQueueHeadPush (q : option avb_queue) : res (option avb_queue) :=
  match q with
  | None => Ret None
  | Some q =>
      e ← qu_elem q (qu_head q);
      let l := <[Z.to_nat (qu_head q) := QueueElem true (qe_data e)]> (elemArray q) in
      let h := qu_head q + 1 in
      Ret (Some (AvbQueue (elemSize q) (queueSize q) (if queueSize q <=? h then 0 else h) (qu_tail q) l))
  end.
Definition openavbQueueTailPull (q : option avb_queue) : res (option avb_queue) :=
  match q with
  | None => Ret None
  | Some q =>
      e ← qu_elem q (qu_tail q);
      let l := <[Z.to_nat (qu_tail q) := QueueElem false (qe_data e)]> (elemArray q) in
      let t := qu_tail q + 1 in
      Ret (Some (AvbQueue (elemSize q) (queueSize q) (qu_head q) (if queueSize q <=? t then 0 else t) l))
  end.

(** What a client writes through [openavbQueueData]. *)
Definition elem_write (k : Z) (d : list Z) (q : avb_queue) : res avb_queue :=
  e ← qu_elem q k;
  Ret (with_elems (<[Z.to_nat k := QueueElem (setFlg e) d]> (elemArray q)) q).

(** ** Clients *)

(** Lock, fill and push; lock, read and pull. *)
Definition queue_put (d : list Z) (q : avb_queue) : res (bool * avb_queue) :=
  o ← openavbQueueHeadLock (Some q);
  match o with
  | None => Ret (false, q)
  | Some k =>
      q ← elem_write k d q;
      q' ← openavbQueueHeadPush (Some q);
      Ret (true, default q q')
  end.
Definition queue_get (q : avb_queue) : res (option (list Z) * avb_queue) :=
  o ← openavbQueueTailLock (Some q);
  match o with
  | None => Ret (None, q)
  | Some k =>
      e ← qu_elem q k;
      q' ← openavbQueueTailPull (Some q);
      Ret (Some (qe_data e), default q q')
  end.

Inductive queue_op := QPut (d : list Z) | QGet.
Inductive queue_out := QDone (ok : bool) | QData (d : option (list Z)).

Fixpoint queue_run (os : list queue_op) (q : avb_queue) : res (list queue_out * avb_queue) :=
  match os with
  | [] => Ret ([], q)
  | QPut d :: os => '(ok, q) ← queue_put d q; '(r, q) ← queue_run os q; Ret (QDone ok :: r, q)
  | QGet :: os => '(o, q) ← queue_get q; '(r, q) ← queue_run os q; Ret (QData o :: r, q)
  end.

(** The specification: a list of at most [n] elements. *)
Fixpoint bounded_run (n : nat) (os : list queue_op) (l : list (list Z)) : list queue_out * list (list Z) :=
  match os with
  | [] => ([], l)
  | QPut d :: os =>
      let ok := bool_decide (length l < n)%nat in
      let '(r, l) := bounded_run n os (if ok then l ++ [d] else l) in (QDone ok :: r, l)
  | QGet :: os => let '(r, l') := bounded_run n os (tail l) in (QData (hd_error l) :: r, l')
  end.

(** ** Refinement *)

(** Seen from its tail, the ring holds [c] and then free elements. *)
Record queue_at (b : nat) (q : avb_queue) (c f : list (list Z)) : Prop := {
  qa_base : (b < length (elemArray q))%nat;
  qa_size : queueSize q = Zlen (elemArray q);
  qa_ring : rotate b (elemArray q) = (QueueElem true <$> c) ++ (QueueElem false <$> f);
  qa_tail : qu_tail q = Z.of_nat b;
  qa_head : qu_head q = Z.of_nat (rotate_nat_add b (length c) (length (elemArray q)))
}.

Definition queue_refines (q : avb_queue) (n : nat) (c : list (list Z)) : Prop :=
  exists b f, queue_at b q c f /\ length (elemArray q) = n.

Section Refine.
Context (b : nat) (q : avb_queue) (c f : list (list Z)) (Ha : queue_at b q c f).

Lemma qa_len : length (elemArray q) = (length c + length f)%nat.
Proof. by rewrite <- (length_rotate _ b), (qa_ring _ _ _ _ Ha), length_app, !length_fmap. Qed.

Lemma qa_elem k e :
  ((QueueElem true <$> c) ++ (QueueElem false <$> f)) !! k = Some e ->
  elemArray q !! rotate_nat_add b k (length (elemArray q)) = Some e.
Proof.
  intros Hk. rewrite <- lookup_rotate_r; [by rewrite (qa_ring _ _ _ _ Ha)|].
  apply lookup_lt_Some in Hk. rewrite length_app, !length_fmap in Hk. by rewrite qa_len.
Qed.

Lemma qu_elem_at k e : elemArray q !! k = Some e -> qu_elem q (Z.of_nat k) = Ret e.
Proof. intros He. unfold qu_elem. by rewrite (proj2 (Z.ltb_ge _ _)), Nat2Z.id, He by lia. Qed.

Lemma ring_step k :
  (k < length (elemArray q))%nat ->
  (if queueSize q <=? Z.of_nat k + 1 then 0 else Z.of_nat k + 1) = Z.of_nat (S k mod length (elemArray q)).
Proof.
  intros Hk. rewrite (qa_size _ _ _ _ Ha). btest.
  - replace (S k) with (length (elemArray q)) by lia. by rewrite Nat.Div0.mod_same.
  - rewrite Nat.mod_small; lia.
Qed.

Lemma qa_update k e :
  (k < length (elemArray q))%nat ->
  let l := <[rotate_nat_add b k (length (elemArray q)) := e]> (elemArray q) in
  rotate b l = <[k := e]> ((QueueElem true <$> c) ++ (QueueElem false <$> f))
  /\ length l = length (elemArray q).
Proof. intros Hk. cbn zeta. by rewrite rotate_insert_l, (qa_ring _ _ _ _ Ha), length_insert. Qed.

End Refine.

Lemma rotate_nat_add_full b n : (b < n)%nat -> rotate_nat_add b n n = b.
Proof.
  intros Hb. unfold rotate_nat_add. rewrite <- (Z_mod_plus_full _ (-1)), Z.mod_small; lia.
Qed.

(** The element at the head of a full ring is the oldest one. *)
Lemma full_head b q c : queue_at b q c [] -> rotate_nat_add b (length c) (length (elemArray q)) = b.
Proof.
  intros Ha. pose proof (qa_len _ _ _ _ Ha) as Hl. cbn in Hl. rewrite Nat.add_0_r in Hl.
  rewrite <- Hl. apply rotate_nat_add_full. apply Ha.
Qed.

(** The oldest element. *)
Lemma tail_elem b q x c f : queue_at b q (x :: c) f -> elemArray q !! b = Some (QueueElem true x).
Proof.
  intros Ha. rewrite <- (rotate_nat_add_0 b (length (elemArray q))) by apply Ha.
  by apply (qa_elem _ _ _ _ Ha).
Qed.

Lemma queue_put_spec b q c f d :
  queue_at b q c f ->
  returns (queue_put d q) (fun '(ok, q') =>
    ok = bool_decide (f <> []) /\ length (elemArray q') = length (elemArray q)
    /\ queue_at b q' (if bool_decide (f <> []) then c ++ [d] else c) (tail f)).
Proof.
  intros Ha. pose proof (qa_len _ _ _ _ Ha) as Hl. pose proof (qa_base _ _ _ _ Ha) as Hb.
  unfold queue_put. cbn [openavbQueueHeadLock]. rewrite (qa_head _ _ _ _ Ha).
  destruct f as [|x f].
  - destruct c as [|y c]; [cbn in Hl; lia|]. rewrite (full_head _ _ _ Ha).
    rewrite (qu_elem_at q _ _ (tail_elem _ _ _ _ _ Ha)), res_bind_ret. done.
  - assert (He : elemArray q !! rotate_nat_add b (length c) (length (elemArray q)) = Some (QueueElem false x)).
    { apply (qa_elem _ _ _ _ Ha). rewrite fmap_cons, list_lookup_middle; [done|]. by rewrite length_fmap. }
    pose proof (qa_update _ _ _ _ Ha (length c) (QueueElem true d)) as Hu. cbn [length] in Hl.
    destruct Hu as [Hrot Hlen]; [lia|].
    pose proof (rotate_nat_add_lt b (length c) (length (elemArray q)) ltac:(lia)) as Hk.
    pose proof (rotate_nat_add_S b (length c) (length (elemArray q))) as HS.
    set (k := rotate_nat_add b (length c) (length (elemArray q))) in *.
    rewrite (qu_elem_at q _ _ He), res_bind_ret. cbn [setFlg]. rewrite res_bind_ret. unfold elem_write.
    rewrite (qu_elem_at q _ _ He), !res_bind_ret. cbn [setFlg openavbQueueHeadPush qu_head with_elems].
    rewrite (qa_head _ _ _ _ Ha). fold k.
    rewrite (qu_elem_at _ _ (QueueElem false d)) by (cbn; rewrite Nat2Z.id; by apply list_lookup_insert_eq).
    rewrite !res_bind_ret. cbn [elemArray with_elems qe_data default from_option queueSize elemSize qu_tail].
    rewrite Nat2Z.id, list_insert_insert_eq, (ring_step _ _ _ _ Ha) by done.
    rewrite bool_decide_eq_true_2 by done. cbn [returns tail]. split; [done|]. split; [done|].
    split; cbn [elemArray queueSize qu_tail qu_head id]; rewrite ?Hlen; try apply Ha.
    + rewrite Hrot, insert_app_r_alt, length_fmap, Nat.sub_diag by (by rewrite length_fmap).
      rewrite fmap_app, <- app_assoc. done.
    + rewrite length_app. cbn [length]. by rewrite Nat.add_1_r, HS by lia.
Qed.

Lemma queue_get_spec b q c f :
  queue_at b q c f ->
  returns (queue_get q) (fun '(o, q') =>
    o = hd_error c /\ length (elemArray q') = length (elemArray q)
    /\ exists b' f', queue_at b' q' (tail c) f').
Proof.
  intros Ha. pose proof (qa_len _ _ _ _ Ha) as Hl. pose proof (qa_base _ _ _ _ Ha) as Hb.
  unfold queue_get. cbn [openavbQueueTailLock]. rewrite (qa_tail _ _ _ _ Ha).
  destruct c as [|x c].
  - destruct f as [|y f]; [cbn in Hl; lia|].
    assert (He : elemArray q !! b = Some (QueueElem false y)).
    { rewrite <- (rotate_nat_add_0 b (length (elemArray q))) by done. by apply (qa_elem _ _ _ _ Ha). }
    rewrite (qu_elem_at q _ _ He), res_bind_ret. cbn. split; [done|]. split; [done|]. by eexists _, _.
  - pose proof (tail_elem _ _ _ _ _ Ha) as He.
    rewrite (qu_elem_at q _ _ He), res_bind_ret. cbn [setFlg]. rewrite res_bind_ret.
    rewrite (qu_elem_at q _ _ He), res_bind_ret. cbn [openavbQueueTailPull].
    rewrite (qa_tail _ _ _ _ Ha), (qu_elem_at q _ _ He), !res_bind_ret.
    cbn [qe_data default from_option id]. rewrite Nat2Z.id, (ring_step _ _ _ _ Ha) by done.
    split; [done|]. cbn [elemArray tail]. rewrite length_insert. split; [done|].
    pose proof (qa_update _ _ _ _ Ha 0 (QueueElem false x)) as Hu.
    destruct Hu as [Hrot Hlen]; [lia|]. rewrite rotate_nat_add_0 in Hrot, Hlen by done.
    set (N := length (elemArray q)) in *. exists (S b mod N)%nat, (f ++ [x]).
    cbn [fmap list_fmap app insert list_insert] in Hrot. apply rotate_next in Hrot; [|by rewrite Hlen].
    rewrite Hlen in Hrot. cbn [length] in Hl.
    split; cbn [elemArray queueSize qu_tail qu_head]; rewrite ?Hlen; try done.
    + apply Nat.mod_upper_bound. lia.
    + apply Ha.
    + by rewrite Hrot, <- app_assoc, fmap_app.
    + rewrite (qa_head _ _ _ _ Ha). fold N. cbn [length]. f_equal.
      destruct (decide (S (length c) < N)%nat); [by apply ring_next_add|].
      replace (S (length c)) with N by lia. rewrite rotate_nat_add_full by done.
      rewrite rotate_nat_add_small; [|apply Nat.mod_upper_bound; lia|lia].
      destruct (decide (S b = N)) as [E|].
      * rewrite E, Nat.Div0.mod_same. case_decide; lia.
      * rewrite Nat.mod_small by lia. case_decide; lia.
Qed.

(** The queue is a bounded FIFO.  For every sequence of puts (lock the head,
    fill it, push) and gets (lock the tail, read it, pull), the functions return
    without a fault exactly what a list of at most [n] elements returns: data
    comes out in the order it went in, a put into a full queue and a get from an
    empty one change nothing. *)
Theorem queue_refines_bounded os q n c :
  queue_refines q n c ->
  returns (queue_run os q) (fun '(r, q') =>
    let '(r', c') := bounded_run n os c in r = r' /\ queue_refines q' n c').
Proof.
  revert q c. induction os as [|o os IH]; intros q c (b & f & Ha & Hn).
  { split; [done|]. by exists b, f. }
  pose proof (qa_len _ _ _ _ Ha) as Hl. destruct o as [d|]; cbn [queue_run bounded_run].
  - eapply returns_bind; [by eapply queue_put_spec|]. intros [ok q1] (-> & Hn1 & Ha1).
    assert (E : bool_decide (length c < n)%nat = bool_decide (f <> [])).
    { apply bool_decide_ext. destruct f; cbn in *; split; intros ?; try done; lia. }
    rewrite E. eapply returns_bind; [eapply IH; exists b, (tail f); by rewrite Hn1|].
    intros [r q2]. destruct (bounded_run n os _) as [r' c']. by intros [-> H2].
  - eapply returns_bind; [by eapply queue_get_spec|]. intros [o q1] (-> & Hn1 & b' & f' & Ha1).
    eapply returns_bind; [eapply IH; exists b', f'; by rewrite Hn1|].
    intros [r q2]. destruct (bounded_run n os _) as [r' c']. by intros [-> H2].
Qed.

(** The number of elements.  [openavbQueueGetElemCount] is exact as long as the
    queue is not full; for a full queue it is 1. *)
Theorem queue_count q n c :
  queue_refines q n c -> Z.of_nat n < 4294967296 ->
  openavbQueueGetElemCount (Some q) = Ret (if decide (length c = n) then 1 else Zlen c).
Proof.
  intros (b & f & Ha & Hn) Hw. pose proof (qa_len _ _ _ _ Ha) as Hl. pose proof (qa_base _ _ _ _ Ha) as Hb.
  cbn [openavbQueueGetElemCount]. rewrite (qa_tail _ _ _ _ Ha), (qa_head _ _ _ _ Ha), (qa_size _ _ _ _ Ha).
  rewrite Hn in *. destruct c as [|x c].
  - rewrite rotate_nat_add_0 by done. rewrite !Z.ltb_irrefl. destruct f as [|y f]; [cbn in Hl; lia|].
    rewrite (qu_elem_at q b (QueueElem false y)), res_bind_ret.
    + rewrite decide_False by (cbn; lia). done.
    + rewrite <- (rotate_nat_add_0 b (length (elemArray q))) by (by rewrite Hn). by apply (qa_elem _ _ _ _ Ha).
  - rewrite (qu_elem_at q b _ (tail_elem _ _ _ _ _ Ha)), res_bind_ret. cbn [setFlg].
    case_decide as E.
    + rewrite E, rotate_nat_add_full by done. by rewrite !Z.ltb_irrefl.
    + rewrite rotate_nat_add_small by (cbn [length] in *; lia). cbn [length] in *. f_equal.
      case_decide; repeat btest; try lia; rewrite !u32_id; try lia; rewrite u32_id; lia.
Qed.

(** ** New queues *)

Section New.
Context {pf : Platform}.

Lemma alloc_elems_all count size n :
  (forall k, calloc_ok k = true) ->
  alloc_elems count size n = inr (replicate count (QueueElem false (replicate (Z.to_nat size) 0))).
Proof.
  intros Hc. revert n. induction count as [|count IH]; intros n; cbn [alloc_elems]; [done|].
  by rewrite Hc, IH.
Qed.

(** With memory available, a new queue is empty. *)
Lemma queue_new size count n :
  (forall k, calloc_ok k = true) -> 1 <= size -> 1 <= count ->
  exists q, openavbQueueNewQueue size count n = (Some q, 2 + count) /\ queue_refines q (Z.to_nat count) [].
Proof.
  intros Hc Hs Hn. unfold openavbQueueNewQueue.
  rewrite (proj2 (Z.ltb_ge size 1)), (proj2 (Z.ltb_ge count 1)), !Hc, alloc_elems_all by done.
  eexists. split; [done|]. exists 0%nat, (replicate (Z.to_nat count) (replicate (Z.to_nat size) 0)).
  cbn [elemArray]. rewrite length_replicate. split; [|done].
  split; cbn [elemArray queueSize qu_head qu_tail]; rewrite ?length_replicate; try lia.
  - unfold rotate. rewrite length_replicate, Nat.mod_small by lia. rewrite drop_0, take_0, app_nil_r.
    by rewrite fmap_replicate.
  - rewrite rotate_nat_add_0 by lia. done.
Qed.

End New.

(** Two elements of four bytes. *)
Definition demo_queue : avb_queue :=
  AvbQueue 4 2 0 0 (replicate 2 (QueueElem false [0; 0; 0; 0])).

Lemma demo_queue_refines : queue_refines demo_queue 2 [].
Proof. exists 0%nat, (replicate 2 [0; 0; 0; 0]). split; [|done]. split; vm_compute; done || lia. Qed.

Lemma queue_refines_bounded_witness :
  exists q', queue_run [QPut [1]; QPut [2]; QPut [3]; QGet; QPut [4]; QGet; QGet; QGet] demo_queue
    = Ret ([QDone true; QDone true; QDone false; QData (Some [1]); QDone true;
            QData (Some [2]); QData (Some [4]); QData None], q').
Proof.
  pose proof (queue_refines_bounded [QPut [1]; QPut [2]; QPut [3]; QGet; QPut [4]; QGet; QGet; QGet]
                demo_queue 2 [] demo_queue_refines) as H.
  apply returns_inv in H as ([r q'] & E & [Hr _]). exists q'. rewrite E, Hr. reflexivity.
Defined.

Lemma queue_count_witness : openavbQueueGetElemCount (Some demo_queue) = Ret 0.
Proof. exact (queue_count demo_queue 2 [] demo_queue_refines ltac:(lia)). Defined.

(** ** Defects *)

(** A full queue of two elements counts one. *)
Theorem queue_full_counts_one :
  exists r q', queue_run [QPut [1]; QPut [2]] demo_queue = Ret (r, q')
    /\ openavbQueueGetElemCount (Some q') = Ret 1.
Proof. do 2 eexists. split; reflexivity. Qed.

(** When the third element of a queue cannot be allocated, the two before it stay
    allocated. *)
Theorem queue_new_leaks :
  openavbQueueNewQueue
    (pf := {| ptp_time := fun _ => None; sys_time := fun _ => None;
              calloc_ok := fun n => (n <? 4)%nat; junk64 := fun _ => 0 |}) 4 3 0 = (None, 2).
Proof. reflexivity. Qed.
