(* ===== verification/UtilArray.v ===== *)
(** * The growing array (lib/avtp_pipeline/util/openavb_array.c)

    An array of slots that hold pointers.  For clients that delete only elements
    they looked up, the functions implement a finite map from indices to data, and
    iteration visits the elements in the order of their indices. *)

From S2P Require Import Prelude AvtpTime.
From Stdlib Require Import ZArith Lia Sorted.
From stdpp Require Import base tactics list option gmap fin_maps.
Open Scope Z_scope.

(** A data pointer is an address other than 0, [None] is [NULL]; an element pointer
    is the index of its slot. *)
Record array_elem := ArrayElem {
  ae_data : option Z;
  ae_managed : bool;
  ae_idx : Z
}.

Record avb_array := AvbArray {
  ar_elemSize : Z;
  ar_size : Z;
  ar_count : Z;
  ar_iterIdx : Z;
  ar_elems : option (list array_elem)
}.

(** The heap: the number of allocations asked for, the next address and the
    addresses that were freed. *)
Record ar_mem := ArMem {
  am_calls : nat;
  am_next : Z;
  am_freed : list Z
}.

Definition with_slots (l : list array_elem) (a : avb_array) : avb_array :=
  AvbArray (ar_elemSize a) (ar_size a) (ar_count a) (ar_iterIdx a) (Some l).
Definition with_iter (i : Z) (a : avb_array) : avb_array :=
  AvbArray (ar_elemSize a) (ar_size a) (ar_count a) i (ar_elems a).

Definition is_live (e : array_elem) : bool := match ae_data e with Some _ => true | None => false end.

(** The loops over the slots: the index of the first live slot from slot [i] up,
    or from slot [i] down, where [l] is what is left in that direction. *)
Fixpoint scan_up (l : list array_elem) (i : Z) : option Z :=
  match l with
  | [] => None
  | e :: l => if is_live e then Some i else scan_up l (i + 1)
  end.
Fixpoint scan_down (l : list array_elem) (i : Z) : option Z :=
  match l with
  | [] => None
  | e :: l => if is_live e then Some i else scan_down l (i - 1)
  end.
(** The first slot without data. *)
Fixpoint scan_free (l : list array_elem) (i : Z) : option Z :=
  match l with
  | [] => None
  | e :: l => if is_live e then scan_free l (i + 1) else Some i
  end.

(** ** Operations *)

Section Ops.
Context {pf : Platform}.

Definition ar_alloc (m : ar_mem) : bool * ar_mem :=
  (calloc_ok (am_calls m), ArMem (S (am_calls m)) (am_next m) (am_freed m)).

Definition openavbArrayNewArray (size : Z) (m : ar_mem) : option avb_array * ar_mem :=
  let '(ok, m) := ar_alloc m in
  (if ok : bool then Some (AvbArray size 0 0 0 None) else None, m).

Definition openavbArraySetInitSize (a : avb_array) (size : Z) (m : ar_mem)
  : bool * avb_array * ar_mem :=
  if ar_size a =? 0 then
    let '(ok, m) := ar_alloc m in
    if ok : bool then
      (true, AvbArray (ar_elemSize a) (s32 size) (ar_count a) (ar_iterIdx a)
               (Some ((fun i => ArrayElem None false (Z.of_nat i)) <$> seq 0 (Z.to_nat size))), m)
    else (false, a, m)
  else (false, a, m).

Definition set_data (d : option Z) (e : array_elem) : array_elem :=
  ArrayElem d (ae_managed e) (ae_idx e).

(** The slot for new data: a free one, or one more at the end. *)
Definition array_slot (a : avb_array) (m : ar_mem) : option Z * avb_array * ar_mem :=
  match ar_elems a with
  | Some l =>
      if ar_count a <? ar_size a then (scan_free l 0, a, m)
      else
        let '(ok, m) := ar_alloc m in
        if ok : bool then
          (Some (ar_size a),
           AvbArray (ar_elemSize a) (ar_size a + 1) (ar_count a) (ar_iterIdx a)
             (Some (l ++ [ArrayElem None false (ar_size a)])), m)
        else (None, a, m)
  | None => (None, a, m)
  end.

Definition openavbArrayAdd (a : avb_array) (data : option Z) (m : ar_mem)
  : option Z * avb_array * ar_mem :=
  match data with
  | None => (None, a, m)
  | Some d =>
      let '(k, a, m) := array_slot a m in
      match k, ar_elems a with
      | Some k, Some l =>
          (Some k,
           AvbArray (ar_elemSize a) (ar_size a) (ar_count a + 1) (ar_iterIdx a)
             (Some (alter (set_data (Some d)) (Z.to_nat k) l)), m)
      | _, _ => (None, a, m)
      end
  end.

Definition set_managed (e : array_elem) : array_elem := ArrayElem (ae_data e) true (ae_idx e).

Definition openavbArrayNew (a : avb_array) (m : ar_mem) : option Z * avb_array * ar_mem :=
  let '(ok, m) := ar_alloc m in
  if ok : bool then
    let d := am_next m in
    let m := ArMem (am_calls m) (d + 1) (am_freed m) in
    let '(k, a, m) := openavbArrayAdd a (Some d) m in
    match k, ar_elems a with
    | Some k, Some l => (Some k, with_slots (alter set_managed (Z.to_nat k) l) a, m)
    | _, _ => (None, a, ArMem (am_calls m) (am_next m) (am_freed m ++ [d]))
    end
  else (None, a, m).

Fixpoint openavbArrayMultiNew (count : nat) (a : avb_array) (m : ar_mem) : bool * avb_array * ar_mem :=
  match count with
  | O => (true, a, m)
  | S count =>
      let '(k, a, m) := openavbArrayNew a m in
      match k with
      | None => (false, a, m)
      | Some _ => openavbArrayMultiNew count a m
      end
  end.

(** Only the data pointer is cleared; [managed] stays. *)
Definition openavbArrayDelete (a : avb_array) (k : Z) (m : ar_mem) : avb_array * ar_mem :=
  match ar_elems a with
  | None => (a, m)
  | Some l =>
      match l !! Z.to_nat k with
      | None => (a, m)
      | Some e =>
          (AvbArray (ar_elemSize a) (ar_size a) (ar_count a - 1) (ar_iterIdx a)
             (Some (<[Z.to_nat k := set_data None e]> l)),
           match ae_managed e, ae_data e with
           | true, Some d => ArMem (am_calls m) (am_next m) (am_freed m ++ [d])
           | _, _ => m
           end)
      end
  end.

Definition openavbArrayIdx (a : avb_array) (idx : Z) : option Z :=
  match ar_elems a with
  | Some l =>
      if (0 <=? idx) && (idx <? ar_size a)
      then match l !! Z.to_nat idx with Some e => if is_live e then Some idx else None | None => None end
      else None
  | None => None
  end.

(** The iterators: the element and the array with its [iterIdx]. *)
Definition iter_to (k : option Z) (a : avb_array) : option Z * avb_array :=
  (k, match k with Some i => with_iter i a | None => a end).
Definition openavbArrayIterFirst (a : avb_array) : option Z * avb_array :=
  iter_to (l ← ar_elems a; scan_up l 0) a.
Definition openavbArrayIterLast (a : avb_array) : option Z * avb_array :=
  iter_to (l ← ar_elems a; scan_down (rev l) (ar_size a - 1)) a.
Definition openavbArrayIterNext (a : avb_array) : option Z * avb_array :=
  iter_to (l ← ar_elems a; scan_up (drop (Z.to_nat (ar_iterIdx a + 1)) l) (ar_iterIdx a + 1)) a.
Definition openavbArrayIterPrev (a : avb_array) : option Z * avb_array :=
  iter_to (l ← ar_elems a; scan_down (rev (take (Z.to_nat (ar_iterIdx a)) l)) (ar_iterIdx a - 1)) a.

(** The iterators that keep their place in a variable of the caller. *)
Definition openavbArrayIterFirstAlt (a : avb_array) (iter : Z) : option Z * Z :=
  let k := l ← ar_elems a; scan_up l 0 in (k, default iter k).
Definition openavbArrayIterLastAlt (a : avb_array) (iter : Z) : option Z * Z :=
  let k := l ← ar_elems a; scan_down (rev l) (ar_size a - 1) in (k, default iter k).
Definition openavbArrayIterNextAlt (a : avb_array) (iter : Z) : option Z * Z :=
  let k := l ← ar_elems a; scan_up (drop (Z.to_nat (s32 (u32 (iter + 1)))) l) (s32 (u32 (iter + 1))) in
  (k, default iter k).
Definition openavbArrayIterPrevAlt (a : avb_array) (iter : Z) : option Z * Z :=
  let k := l ← ar_elems a; scan_down (rev (take (Z.to_nat (s32 iter)) l)) (s32 iter - 1) in
  (k, default iter k).

Definition array_elem_at (a : avb_array) (k : Z) : option array_elem :=
  l ← ar_elems a; l !! Z.to_nat k.
Definition openavbArrayData (a : avb_array) (k : option Z) : option Z :=
  k ← k; e ← array_elem_at a k; ae_data e.
Definition openavbArrayDataIdx (a : avb_array) (idx : Z) : option Z :=
  openavbArrayData a (openavbArrayIdx a idx).
Definition openavbArrayDataNew (a : avb_array) (m : ar_mem) : option Z * avb_array * ar_mem :=
  let '(k, a, m) := openavbArrayNew a m in (openavbArrayData a k, a, m).

Fixpoint find_data (l : list array_elem) (d i : Z) : Z :=
  match l with
  | [] => -1
  | e :: l => if decide (ae_data e = Some d) then i else find_data l d (i + 1)
  end.
Definition openavbArrayFindData (a : avb_array) (data : option Z) : Z :=
  match data, ar_elems a with
  | Some d, Some l => find_data l d 0
  | _, _ => -1
  end.

Definition openavbArrayGetIdx (a : avb_array) (k : option Z) : Z :=
  match k ≫= array_elem_at a with Some e => ae_idx e | None => -1 end.
Definition openavbArrayIsManaged (a : avb_array) (k : option Z) : bool :=
  match k ≫= array_elem_at a with Some e => ae_managed e | None => false end.

(** Deletes the elements one by one and then the array; nothing without slots. *)
Fixpoint delete_all (fuel : nat) (k : option Z) (a : avb_array) (m : ar_mem) : res (avb_array * ar_mem) :=
  match k with
  | None => Ret (a, m)
  | Some k =>
      match fuel with
      | O => Fault OutOfFuel
      | S fuel =>
          let '(a, m) := openavbArrayDelete a k m in
          let '(k, a) := openavbArrayIterNext a in
          delete_all fuel k a m
      end
  end.
Definition openavbArrayDeleteArray (a : avb_array) (m : ar_mem) : res ar_mem :=
  match ar_elems a with
  | None => Ret m
  | Some l =>
      let '(k, a) := openavbArrayIterFirst a in
      '(_, m) ← delete_all (length l) k a m; Ret m
  end.

End Ops.

(** ** The array as a finite map *)

(** Index and data of the live slots, the first slot having index [i]. *)
Fixpoint entries (i : Z) (l : list array_elem) : list (Z * Z) :=
  match l with
  | [] => []
  | e :: l => match ae_data e with Some d => [(i, d)] | None => [] end ++ entries (i + 1) l
  end.
Definition slots (l : list array_elem) : gmap Z Z := list_to_map (entries 0 l).

Lemma entries_elem l : forall i k d,
  (k, d) ∈ entries i l <-> i <= k /\ l !! Z.to_nat (k - i) ≫= ae_data = Some d.
Proof.
  induction l as [|e l IH]; intros i k d; cbn [entries].
  { split; [by intros ?%elem_of_nil | by intros [_ ?]]. }
  rewrite elem_of_app, IH. destruct (decide (k = i)) as [->|Hk].
  - rewrite Z.sub_diag. change (Z.to_nat 0) with 0%nat. cbn [lookup list_lookup mbind option_bind]. split.
    + intros [H|[H _]]; [|lia]. destruct (ae_data e); [|by apply elem_of_nil in H].
      apply list_elem_of_singleton in H as [= ->]. split; [lia | done].
    + intros [_ H]. left. rewrite H. by apply list_elem_of_singleton.
  - split.
    + intros [H|[H1 H2]].
      * destruct (ae_data e); [|by apply elem_of_nil in H].
        apply list_elem_of_singleton in H as [= -> _]. done.
      * split; [lia|]. replace (Z.to_nat (k - i)) with (S (Z.to_nat (k - (i + 1)))) by lia. done.
    + intros [H1 H2]. right. split; [lia|].
      replace (Z.to_nat (k - i)) with (S (Z.to_nat (k - (i + 1)))) in H2 by lia. done.
Qed.

Lemma entries_NoDup l : forall i, NoDup (entries i l).*1.
Proof.
  induction l as [|e l IH]; intros i; cbn [entries]; [constructor|].
  rewrite fmap_app, NoDup_app. split_and!; [| |apply IH].
  - destruct (ae_data e); [apply NoDup_singleton | constructor].
  - intros k Hk. destruct (ae_data e); [|by apply elem_of_nil in Hk].
    apply list_elem_of_singleton in Hk. intros ([k' d] & E & H)%list_elem_of_fmap.
    apply entries_elem in H as [? _]. cbn [fst] in *. lia.
Qed.

Lemma slots_lookup l k :
  slots l !! k = if decide (0 <= k) then l !! Z.to_nat k ≫= ae_data else None.
Proof.
  apply option_eq. intros d. unfold slots. rewrite <- elem_of_list_to_map by apply entries_NoDup.
  rewrite entries_elem, Z.sub_0_r. case_decide; naive_solver.
Qed.

Lemma slots_size l : size (slots l) = length (entries 0 l).
Proof. unfold slots. rewrite map_size_list_to_map; [done|]. apply entries_NoDup. Qed.

Lemma slots_put l k d :
  0 <= k -> (Z.to_nat k < length l)%nat ->
  slots (alter (set_data (Some d)) (Z.to_nat k) l) = <[k := d]> (slots l).
Proof.
  intros H0 Hk. apply map_eq. intros j. rewrite slots_lookup. destruct (decide (j = k)) as [->|Hj].
  - rewrite decide_True, lookup_insert_eq, list_lookup_alter_eq by done.
    destruct (lookup_lt_is_Some_2 l _ Hk) as [e ->]. done.
  - rewrite lookup_insert_ne, slots_lookup by done. case_decide; [|done].
    by rewrite list_lookup_alter_ne by lia.
Qed.

Lemma slots_clear l k e :
  0 <= k -> l !! Z.to_nat k = Some e -> slots (<[Z.to_nat k := set_data None e]> l) = delete k (slots l).
Proof.
  intros H0 He. apply map_eq. intros j. rewrite slots_lookup. destruct (decide (j = k)) as [->|Hj].
  - rewrite decide_True, lookup_delete_eq by done.
    rewrite list_lookup_insert_eq by (by eapply lookup_lt_Some). done.
  - rewrite lookup_delete_ne, slots_lookup by done. case_decide; [|done].
    by rewrite list_lookup_insert_ne by lia.
Qed.

Lemma slots_same_data l l' : (forall i : nat, l !! i ≫= ae_data = l' !! i ≫= ae_data) -> slots l = slots l'.
Proof. intros H. apply map_eq. intros j. rewrite !slots_lookup. case_decide; [apply H | done]. Qed.

Lemma scan_free_spec l : forall i,
  match scan_free l i with
  | Some k => exists e, i <= k /\ l !! Z.to_nat (k - i) = Some e /\ is_live e = false
  | None => length (entries i l) = length l
  end.
Proof.
  induction l as [|e l IH]; intros i; cbn [scan_free entries]; [done|].
  unfold is_live at 1. destruct (ae_data e) as [d|] eqn:Ed.
  - specialize (IH (i + 1)). destruct (scan_free l (i + 1)) as [k|].
    + destruct IH as (e' & ? & He & Hl). exists e'. split; [lia|]. split; [|done].
      by replace (Z.to_nat (k - i)) with (S (Z.to_nat (k - (i + 1)))) by lia.
    + cbn. by rewrite IH.
  - exists e. rewrite Z.sub_diag. split; [lia|]. split; [done|]. unfold is_live. by rewrite Ed.
Qed.

(** The invariant; [l] are the slots. *)
Record array_ok (a : avb_array) (l : list array_elem) : Prop := {
  ao_elems : ar_elems a = Some l;
  ao_size : ar_size a = Zlen l;
  ao_count : ar_count a = Z.of_nat (size (slots l));
  ao_idx : forall i e, l !! i = Some e -> ae_idx e = Z.of_nat i
}.

Section Map.
Context {pf : Platform}.

Lemma array_init a size m :
  ar_size a = 0 -> ar_count a = 0 -> 0 <= size < 2147483648 -> calloc_ok (am_calls m) = true ->
  exists l, (openavbArraySetInitSize a size m).1.1 = true
    /\ array_ok (openavbArraySetInitSize a size m).1.2 l /\ slots l = ∅ /\ Zlen l = size.
Proof.
  intros H0 Hc Hs Hok. unfold openavbArraySetInitSize, ar_alloc. rewrite H0, Hok. cbn [Z.eqb fst snd].
  set (l := _ <$> _).
  assert (Hl : slots l = ∅).
  { apply map_empty. intros k. rewrite slots_lookup. case_decide; [|done]. subst l.
    rewrite list_lookup_fmap. by destruct (seq 0 (Z.to_nat size) !! Z.to_nat k). }
  assert (Hn : Zlen l = size) by (subst l; rewrite length_fmap, length_seq; lia).
  exists l. split_and!; try done. split; cbn [ar_elems ar_size ar_count]; try done.
  - rewrite s32_id by lia. done.
  - by rewrite Hl, map_size_empty.
  - intros i e. subst l. rewrite list_lookup_fmap. intros (j & Hj & ->)%fmap_Some.
    apply lookup_seq in Hj as [-> _]. done.
Qed.

(** The slot found for new data is free, and the map is as it was. *)
Lemma array_slot_spec a l m :
  array_ok a l -> (forall n, calloc_ok n = true) ->
  exists k a' m' l', array_slot a m = (Some k, a', m') /\ array_ok a' l' /\ slots l' = slots l
    /\ 0 <= k < Zlen l' /\ slots l !! k = None /\ am_next m' = am_next m /\ am_freed m' = am_freed m.
Proof.
  intros Ha Hc. destruct (Ha) as [He Hs Hn Hi]. unfold array_slot. rewrite He.
  destruct (Z.ltb_spec (ar_count a) (ar_size a)).
  - pose proof (scan_free_spec l 0) as Hf. destruct (scan_free l 0) as [k|].
    + destruct Hf as (e & Hk & Hlk & Hl). rewrite Z.sub_0_r in Hlk.
      exists k, a, m, l. pose proof (lookup_lt_Some _ _ _ Hlk). split_and!; try done; try lia.
      rewrite slots_lookup, decide_True, Hlk by done. cbn. unfold is_live in Hl. by destruct (ae_data e).
    + rewrite slots_size, Hf in Hn. lia.
  - unfold ar_alloc. rewrite Hc. do 4 eexists. split; [reflexivity|].
    assert (Hsl : slots (l ++ [ArrayElem None false (ar_size a)]) = slots l).
    { apply slots_same_data. intros i. destruct (decide (i < length l)%nat).
      - by rewrite lookup_app_l.
      - rewrite lookup_app_r by lia. rewrite (lookup_ge_None_2 l) by lia. by destruct (i - length l)%nat. }
    split; [split; cbn [ar_elems ar_size ar_count]; [reflexivity| | |]|]; try done.
    + rewrite length_app. cbn. lia.
    + by rewrite Hsl.
    + intros i e Hlk. destruct (decide (i < length l)%nat).
      * rewrite lookup_app_l in Hlk by done. by apply Hi.
      * rewrite lookup_app_r in Hlk by lia. destruct (i - length l)%nat eqn:E; [|done].
        injection Hlk as <-. cbn. lia.
    + rewrite length_app. cbn [length]. split_and!; try done; try lia.
      rewrite slots_lookup. case_decide; [|done]. by rewrite lookup_ge_None_2 by lia.
Qed.

Lemma alter_idx (l : list array_elem) (k : nat) (g : array_elem -> array_elem) :
  (forall e, ae_idx (g e) = ae_idx e) -> (forall (i : nat) e, l !! i = Some e -> ae_idx e = Z.of_nat i) ->
  forall (i : nat) e, alter g k l !! i = Some e -> ae_idx e = Z.of_nat i.
Proof.
  intros Hg Hi i e. destruct (decide (i = k)) as [->|Hik].
  - rewrite list_lookup_alter_eq. intros (e' & He & ->)%fmap_Some. rewrite Hg. by apply Hi.
  - rewrite list_lookup_alter_ne by done. apply Hi.
Qed.

Lemma array_add_spec a l d m :
  array_ok a l -> (forall n, calloc_ok n = true) ->
  exists k a' m' l', openavbArrayAdd a (Some d) m = (Some k, a', m') /\ array_ok a' l'
    /\ slots l !! k = None /\ slots l' = <[k := d]> (slots l) /\ am_next m' = am_next m.
Proof.
  intros Ha Hc. destruct (array_slot_spec a l m Ha Hc) as (k & a1 & m1 & l1 & E & Ha1 & Hl1 & Hk & Hn & Hm & _).
  cbn [openavbArrayAdd]. rewrite E, (ao_elems _ _ Ha1). do 4 eexists. split; [reflexivity|].
  assert (Hs : slots (alter (set_data (Some d)) (Z.to_nat k) l1) = <[k := d]> (slots l))
    by (by rewrite slots_put, Hl1 by lia).
  split; [|by split_and!]. split; cbn [ar_elems ar_size ar_count].
  - reflexivity.
  - rewrite length_alter. apply Ha1.
  - rewrite Hs, map_size_insert_None by done. rewrite (ao_count _ _ Ha1), Hl1. lia.
  - apply alter_idx; [done | apply Ha1].
Qed.

Lemma array_new_spec a l m :
  array_ok a l -> (forall n, calloc_ok n = true) ->
  exists k a' m' l', openavbArrayNew a m = (Some k, a', m') /\ array_ok a' l'
    /\ slots l !! k = None /\ slots l' = <[k := am_next m]> (slots l).
Proof.
  intros Ha Hc. unfold openavbArrayNew, ar_alloc. rewrite Hc. cbn [am_next am_calls am_freed].
  destruct (array_add_spec a l (am_next m) (ArMem (S (am_calls m)) (am_next m + 1) (am_freed m)) Ha Hc)
    as (k & a1 & m1 & l1 & E & Ha1 & Hn & Hl1 & _).
  rewrite E, (ao_elems _ _ Ha1). do 4 eexists. split; [reflexivity|].
  assert (Hs : slots (alter set_managed (Z.to_nat k) l1) = slots l1).
  { apply slots_same_data. intros i. destruct (decide (i = Z.to_nat k)) as [->|].
    - rewrite list_lookup_alter_eq. by destruct (l1 !! Z.to_nat k).
    - by rewrite list_lookup_alter_ne. }
  split; [|by rewrite Hs]. split; cbn [ar_elems ar_size ar_count with_slots].
  - reflexivity.
  - rewrite length_alter. apply Ha1.
  - rewrite Hs. apply Ha1.
  - apply alter_idx; [done | apply Ha1].
Qed.

Lemma array_idx_spec a l k : array_ok a l -> openavbArrayIdx a k = if decide (is_Some (slots l !! k)) then Some k else None.
Proof.
  intros Ha. unfold openavbArrayIdx. rewrite (ao_elems _ _ Ha), (ao_size _ _ Ha), slots_lookup.
  destruct (Z.leb_spec 0 k); cbn [andb].
  2: { rewrite (decide_False (P := 0 <= k)) by lia. by rewrite decide_False by (by intros [? ?]). }
  rewrite (decide_True (P := 0 <= k)) by done. destruct (Z.ltb_spec k (Zlen l)).
  - destruct (lookup_lt_is_Some_2 l (Z.to_nat k)) as [e He]; [lia|]. rewrite He. cbn. unfold is_live.
    destruct (ae_data e); [by rewrite decide_True | by rewrite decide_False by (by intros [? ?])].
  - rewrite lookup_ge_None_2 by lia. by rewrite decide_False by (by intros [? ?]).
Qed.

Lemma array_data_spec a l k : array_ok a l -> openavbArrayDataIdx a k = slots l !! k.
Proof.
  intros Ha. unfold openavbArrayDataIdx. rewrite (array_idx_spec a l) by done. unfold openavbArrayData, array_elem_at.
  case_decide as Hk.
  - rewrite (ao_elems _ _ Ha). destruct Hk as [d Hd]. rewrite Hd. rewrite slots_lookup in Hd.
    case_decide; [|done]. exact Hd.
  - cbn. symmetry. by apply eq_None_not_Some.
Qed.

Lemma array_delete_spec a l k m :
  array_ok a l -> is_Some (slots l !! k) ->
  exists l', array_ok (openavbArrayDelete a k m).1 l' /\ slots l' = delete k (slots l).
Proof.
  intros Ha [d Hd]. unfold openavbArrayDelete. rewrite (ao_elems _ _ Ha).
  pose proof Hd as Hd'. rewrite slots_lookup in Hd'. case_decide as Hk; [|done].
  destruct (l !! Z.to_nat k) as [e|] eqn:He; [|done]. cbn [fst].
  assert (Hs : slots (<[Z.to_nat k := set_data None e]> l) = delete k (slots l)) by (by apply slots_clear).
  eexists. split; [|exact Hs]. split; cbn [ar_elems ar_size ar_count].
  - reflexivity.
  - rewrite length_insert. apply Ha.
  - rewrite Hs, map_size_delete_Some by done. rewrite (ao_count _ _ Ha).
    assert (size (slots l) <> 0%nat) by (intros E; apply map_size_empty_inv in E; by rewrite E in Hd). lia.
  - intros i e'. destruct (decide (i = Z.to_nat k)) as [->|].
    + rewrite list_lookup_insert_eq by (by eapply lookup_lt_Some). intros [= <-]. cbn. by apply Ha.
    + rewrite list_lookup_insert_ne by done. apply Ha.
Qed.

(** ** Clients *)

Inductive array_op := AAdd (d : Z) | ANew | ADelete (k : Z) | AGet (k : Z) | ACount.
Inductive array_out := AIdx (k : option Z) | AData (d : option Z) | ANum (n : Z) | ADone.

(** An element is looked up before it is deleted. *)
Definition array_do (o : array_op) (a : avb_array) (m : ar_mem) : array_out * avb_array * ar_mem :=
  match o with
  | AAdd d => let '(k, a, m) := openavbArrayAdd a (Some d) m in (AIdx k, a, m)
  | ANew => let '(k, a, m) := openavbArrayNew a m in (AIdx k, a, m)
  | ADelete k =>
      match openavbArrayIdx a k with
      | Some k => let '(a, m) := openavbArrayDelete a k m in (ADone, a, m)
      | None => (ADone, a, m)
      end
  | AGet k => (AData (openavbArrayDataIdx a k), a, m)
  | ACount => (ANum (ar_count a), a, m)
  end.

(** The specification: a finite map, in which new data gets an unused index. *)
Inductive map_do : array_op -> gmap Z Z -> array_out -> gmap Z Z -> Prop :=
| map_add d k s : s !! k = None -> map_do (AAdd d) s (AIdx (Some k)) (<[k := d]> s)
| map_new d k s : s !! k = None -> map_do ANew s (AIdx (Some k)) (<[k := d]> s)
| map_delete k s : map_do (ADelete k) s ADone (delete k s)
| map_get k s : map_do (AGet k) s (AData (s !! k)) s
| map_count s : map_do ACount s (ANum (Z.of_nat (size s))) s.

Fixpoint array_run (os : list array_op) (a : avb_array) (m : ar_mem) : list array_out * avb_array * ar_mem :=
  match os with
  | [] => ([], a, m)
  | o :: os =>
      let '(x, a, m) := array_do o a m in
      let '(xs, a, m) := array_run os a m in (x :: xs, a, m)
  end.
Inductive map_run : list array_op -> gmap Z Z -> list array_out -> gmap Z Z -> Prop :=
| map_nil s : map_run [] s [] s
| map_cons o os s x s1 xs s2 :
    map_do o s x s1 -> map_run os s1 xs s2 -> map_run (o :: os) s (x :: xs) s2.

Lemma array_do_spec o a l m :
  array_ok a l -> (forall n, calloc_ok n = true) ->
  exists x a' m' l', array_do o a m = (x, a', m') /\ array_ok a' l' /\ map_do o (slots l) x (slots l').
Proof.
  intros Ha Hc. destruct o as [d| |k|k|]; cbn [array_do].
  - destruct (array_add_spec a l d m Ha Hc) as (k & a' & m' & l' & E & Ha' & Hn & Hl' & _).
    rewrite E. exists (AIdx (Some k)), a', m', l'. rewrite Hl'. split_and!; try done. by constructor.
  - destruct (array_new_spec a l m Ha Hc) as (k & a' & m' & l' & E & Ha' & Hn & Hl').
    rewrite E. exists (AIdx (Some k)), a', m', l'. rewrite Hl'. split_and!; try done. by constructor.
  - rewrite (array_idx_spec a l) by done. case_decide as Hk.
    + destruct (array_delete_spec a l k m Ha Hk) as (l' & Ha' & Hl').
      destruct (openavbArrayDelete a k m) as [a' m']. exists ADone, a', m', l'. rewrite Hl'.
      split_and!; try done. constructor.
    + exists ADone, a, m, l. split_and!; try done.
      rewrite <- (delete_id (slots l) k) at 2 by (by apply eq_None_not_Some). constructor.
  - exists (AData (openavbArrayDataIdx a k)), a, m, l. rewrite (array_data_spec a l) by done.
    split_and!; try done. constructor.
  - exists (ANum (ar_count a)), a, m, l. rewrite (ao_count _ _ Ha). split_and!; try done. constructor.
Qed.

(** The array is a finite map.  As long as memory is available, every sequence of
    adding data, allocating, deleting an element that was looked up, reading by
    index and counting gives the results of a map from indices to data in which
    new data gets an unused index; other entries keep their index and data, also
    when the array grows. *)
Theorem array_refines_map os a l m :
  array_ok a l -> (forall n, calloc_ok n = true) ->
  exists l', map_run os (slots l) (array_run os a m).1.1 (slots l')
    /\ array_ok (array_run os a m).1.2 l'.
Proof.
  intros Ha Hc. revert a l m Ha. induction os as [|o os IH]; intros a l m Ha.
  { exists l. split; [constructor | done]. }
  destruct (array_do_spec o a l m Ha Hc) as (x & a1 & m1 & l1 & E & Ha1 & Hd).
  destruct (IH a1 l1 m1 Ha1) as (l2 & Hr & Ha2). cbn [array_run]. rewrite E.
  destruct (array_run os a1 m1) as [[xs a2] m2]. exists l2. split; [by econstructor | done].
Qed.

(** ** Iteration *)

(** The indices that [openavbArrayIterFirst] and then [openavbArrayIterNext] give. *)
Fixpoint array_walk (fuel : nat) (k : option Z) (a : avb_array) : res (list Z) :=
  match k with
  | None => Ret []
  | Some k =>
      match fuel with
      | O => Fault OutOfFuel
      | S fuel => let '(k', a) := openavbArrayIterNext a in r ← array_walk fuel k' a; Ret (k :: r)
      end
  end.

Lemma scan_up_entries l : forall i,
  match scan_up l i with
  | Some k => exists d, i <= k /\ entries i l = (k, d) :: entries (k + 1) (drop (Z.to_nat (k + 1 - i)) l)
  | None => entries i l = []
  end.
Proof.
  induction l as [|e l IH]; intros i; cbn [scan_up entries]; [done|].
  unfold is_live. destruct (ae_data e) as [d|] eqn:Ed.
  - exists d. split; [lia|]. replace (Z.to_nat (i + 1 - i)) with 1%nat by lia. done.
  - specialize (IH (i + 1)). destruct (scan_up l (i + 1)) as [k|]; [|done].
    destruct IH as (d & ? & ->). exists d. split; [lia|].
    replace (Z.to_nat (k + 1 - i)) with (S (Z.to_nat (k + 1 - (i + 1)))) by lia. done.
Qed.

Lemma entries_sorted l : forall i, StronglySorted Z.lt (entries i l).*1.
Proof.
  induction l as [|e l IH]; intros i; cbn [entries]; [constructor|].
  destruct (ae_data e); cbn [app fmap list_fmap fst]; [|apply IH].
  constructor; [apply IH|]. apply Forall_fmap, Forall_forall. intros [k d] H.
  apply entries_elem in H as [? _]. cbn. lia.
Qed.

(** Walking on from element [i]. *)
Lemma array_walk_spec l d fuel : forall i a,
  ar_elems a = Some l -> 0 <= i -> ar_iterIdx a = i ->
  (length (drop (Z.to_nat (i + 1)) l) < fuel)%nat ->
  array_walk fuel (Some i) a = Ret ((i, d) :: entries (i + 1) (drop (Z.to_nat (i + 1)) l)).*1.
Proof.
  induction fuel as [|fuel IH]; intros i a Ha Hi Hit Hf; [lia|]. cbn [array_walk].
  unfold openavbArrayIterNext. rewrite Ha, Hit. cbn [mbind option_bind].
  pose proof (scan_up_entries (drop (Z.to_nat (i + 1)) l) (i + 1)) as Hs.
  destruct (drop (Z.to_nat (i + 1)) l) as [|e r] eqn:Er; [by destruct fuel|].
  destruct (scan_up (e :: r) (i + 1)) as [k|]; cbn [iter_to].
  - destruct Hs as (d' & Hk & ->). rewrite <- Er, drop_drop in *.
    replace (Z.to_nat (i + 1) + Z.to_nat (k + 1 - (i + 1)))%nat with (Z.to_nat (k + 1)) by lia.
    rewrite IH; [done | done | lia | done |].
    assert (length (drop (Z.to_nat (i + 1)) l) = S (length r)) by (by rewrite Er).
    rewrite length_drop in *. lia.
  - rewrite Hs. by destruct fuel.
Qed.

(** Iteration is complete and ordered: the first element and then the next ones
    until there is none are exactly the indices of the map, each once, in
    increasing order, after at most as many steps as there are slots. *)
Theorem array_iterates_all a l :
  array_ok a l ->
  (let '(k, a) := openavbArrayIterFirst a in array_walk (length l) k a) = Ret (entries 0 l).*1
  /\ StronglySorted Z.lt (entries 0 l).*1 /\ forall k, k ∈ (entries 0 l).*1 <-> is_Some (slots l !! k).
Proof.
  intros Ha. split_and!; [| apply entries_sorted |].
  - unfold openavbArrayIterFirst. pose proof (ao_elems _ _ Ha) as He. rewrite He. cbn [mbind option_bind].
    pose proof (scan_up_entries l 0) as Hs. destruct l as [|e r] eqn:El; [done|]. rewrite <- El in *.
    destruct (scan_up l 0) as [k|]; cbn [iter_to]; [|rewrite Hs; by destruct (length l)].
    destruct Hs as (d & Hk & ->). rewrite Z.sub_0_r. apply array_walk_spec; try done.
    rewrite length_drop, El. cbn [length]. lia.
  - intros k. rewrite list_elem_of_fmap. split.
    + intros ([j d] & -> & H). exists d. unfold slots. rewrite <- elem_of_list_to_map; [done|apply entries_NoDup].
    + intros [d H]. exists (k, d). split; [done|]. unfold slots in H.
      by rewrite <- elem_of_list_to_map in H by apply entries_NoDup.
Qed.

End Map.

(** ** Concrete arrays *)

Definition ample_memory : Platform := {|
  ptp_time _ := None; sys_time _ := None; calloc_ok _ := true; junk64 _ := 0
|}.
#[local] Existing Instance ample_memory.

Definition demo_mem : ar_mem := ArMem 0 100 [].
(** An array with two slots. *)
Definition demo_slots : list array_elem := [ArrayElem None false 0; ArrayElem None false 1].
Definition demo_array : avb_array := AvbArray 4 2 0 0 (Some demo_slots).

Lemma demo_array_ok : array_ok demo_array demo_slots.
Proof. split; try done. by intros [|[|i]] e [= <-]. Qed.

Definition demo_array_ops : list array_op :=
  [AAdd 7; ANew; AAdd 9; ADelete 1; AGet 2; AAdd 8; AGet 1; AGet 5; ACount].

Lemma array_refines_map_witness :
  exists s', map_run demo_array_ops ∅
    [AIdx (Some 0); AIdx (Some 1); AIdx (Some 2); ADone; AData (Some 9); AIdx (Some 1); AData (Some 8);
     AData None; ANum 3] s'.
Proof.
  destruct (array_refines_map (pf := ample_memory) demo_array_ops demo_array demo_slots demo_mem demo_array_ok
              (fun _ => eq_refl)) as (l' & H & _).
  exists (slots l'). exact H.
Defined.

Lemma array_iterates_all_witness :
  let a := AvbArray 4 3 2 0
    (Some [ArrayElem (Some 7) false 0; ArrayElem None true 1; ArrayElem (Some 9) false 2]) in
  (let '(k, a) := openavbArrayIterFirst a in array_walk 3 k a) = Ret [0; 2].
Proof.
  assert (Ha : array_ok (AvbArray 4 3 2 0
    (Some [ArrayElem (Some 7) false 0; ArrayElem None true 1; ArrayElem (Some 9) false 2]))
    [ArrayElem (Some 7) false 0; ArrayElem None true 1; ArrayElem (Some 9) false 2]).
  { split; try reflexivity. intros [|[|[|i]]] e [= <-]; reflexivity. }
  exact (proj1 (array_iterates_all _ _ Ha)).
Defined.

(** ** Defects *)

(** A deleted element keeps its [managed] flag: when its slot is used again for data
    that the client owns, deleting that element frees the client's memory (address
    7 here). *)
Theorem array_frees_foreign :
  (array_run [ANew; ADelete 0; AAdd 7; ADelete 0] demo_array demo_mem).2 = ArMem 1 101 [100; 7].
Proof. reflexivity. Qed.

(** Nothing can be added to an array whose size was never set. *)
Theorem array_without_size size d m m' :
  match openavbArrayNewArray size m with
  | (Some a, _) => (openavbArrayAdd a (Some d) m').1.1 = None
  | (None, _) => True
  end.
Proof. reflexivity. Qed.
