(* ===== verification/UtilList.v ===== *)
(** * The linked list (lib/avtp_pipeline/util/openavb_list.c)

    A doubly linked list in a heap of nodes.  Adding and deleting keep the links of
    the nodes consistent with a sequence, and walking the list gives that sequence;
    the built-in iterator does not survive the deletion of the node it stands on. *)

From S2P Require Import Prelude AvtpTime.
From Stdlib Require Import ZArith Lia.
From stdpp Require Import base tactics list option gmap fin_maps infinite.
Open Scope Z_scope.

(** Addresses of nodes; [None] is [NULL]. *)
Abbreviation loc := positive.

Record list_node := ListNode {
  ln_data : option Z;
  ln_managed : bool;
  ln_prev : option loc;
  ln_next : option loc
}.

Record avb_list := AvbList {
  li_head : option loc;
  li_tail : option loc;
  li_iter : option loc
}.

(** A list with the nodes that are allocated, the number of allocations asked for,
    the next address for data and the data that was freed. *)
Record li_st := LiSt {
  li : avb_list;
  li_heap : gmap loc list_node;
  li_calls : nat;
  li_fresh : Z;
  li_freed : list Z
}.

Definition with_heap (h : gmap loc list_node) (s : li_st) : li_st :=
  LiSt (li s) h (li_calls s) (li_fresh s) (li_freed s).
Definition with_ends (hd tl : option loc) (s : li_st) : li_st :=
  LiSt (AvbList hd tl (li_iter (li s))) (li_heap s) (li_calls s) (li_fresh s) (li_freed s).
Definition with_li_iter (i : option loc) (s : li_st) : li_st :=
  LiSt (AvbList (li_head (li s)) (li_tail (li s)) i) (li_heap s) (li_calls s) (li_fresh s) (li_freed s).

Definition set_next (x : option loc) (n : list_node) : list_node :=
  ListNode (ln_data n) (ln_managed n) (ln_prev n) x.
Definition set_prev (x : option loc) (n : list_node) : list_node :=
  ListNode (ln_data n) (ln_managed n) x (ln_next n).

(** [*p], and an assignment to a field of [*p]. *)
Definition deref (s : li_st) (p : loc) : res list_node :=
  match li_heap s !! p with Some n => Ret n | None => Fault (UseAfterFree (Zpos p)) end.
Definition assign (s : li_st) (p : loc) (g : list_node -> list_node) : res li_st :=
  n ← deref s p; Ret (with_heap (<[p := g n]> (li_heap s)) s).

Section Ops.
Context {pf : Platform}.

Definition openavbListNewList (n : nat) : option avb_list :=
  if calloc_ok n then Some (AvbList None None None) else None.

Definition li_alloc (s : li_st) : bool * li_st :=
  (calloc_ok (li_calls s), LiSt (li s) (li_heap s) (S (li_calls s)) (li_fresh s) (li_freed s)).

Definition openavbListAdd (s : li_st) (data : option Z) : res (option loc * li_st) :=
  let '(ok, s) := li_alloc s in
  if ok : bool then
    let p := fresh (dom (li_heap s)) in
    let s := with_heap (<[p := ListNode data false None None]> (li_heap s)) s in
    match li_head (li s) with
    | None => Ret (Some p, with_ends (Some p) (Some p) s)
    | Some _ =>
        s ← assign s p (set_prev (li_tail (li s)));
        s ← (match li_tail (li s) with
             | Some t => assign s t (set_next (Some p))
             | None => Fault (UseAfterFree 0)
             end);
        Ret (Some p, with_ends (li_head (li s)) (Some p) s)
    end
  else Ret (None, s).

Definition openavbListNew (s : li_st) (size : Z) : res (option loc * li_st) :=
  if size =? 0 then Ret (None, s)
  else
    let '(ok, s) := li_alloc s in
    if ok : bool then
      let d := li_fresh s in
      let s := LiSt (li s) (li_heap s) (li_calls s) (d + 1) (li_freed s) in
      '(o, s) ← openavbListAdd s (Some d);
      match o with
      | Some p => s ← assign s p (fun n => ListNode (ln_data n) true (ln_prev n) (ln_next n)); Ret (Some p, s)
      | None => Ret (None, LiSt (li s) (li_heap s) (li_calls s) (li_fresh s) (li_freed s ++ [d]))
      end
    else Ret (None, s).

(** Returns the node after the deleted one. *)
Definition openavbListDelete (s : li_st) (p : loc) : res (option loc * li_st) :=
  n ← deref s p;
  let hd := if decide (li_head (li s) = Some p) then ln_next n else li_head (li s) in
  let tl := if decide (li_tail (li s) = Some p) then ln_prev n else li_tail (li s) in
  let s := with_ends hd tl s in
  s ← (match ln_prev n with Some q => assign s q (set_next (ln_next n)) | None => Ret s end);
  s ← (match ln_next n with Some q => assign s q (set_prev (ln_prev n)) | None => Ret s end);
  Ret (ln_next n,
       LiSt (li s) (delete p (li_heap s)) (li_calls s) (li_fresh s)
         (match ln_managed n, ln_data n with true, Some d => li_freed s ++ [d] | _, _ => li_freed s end)).

Definition openavbListNext (s : li_st) (p : option loc) : res (option loc) :=
  match p with Some p => n ← deref s p; Ret (ln_next n) | None => Ret None end.
Definition openavbListPrev (s : li_st) (p : option loc) : res (option loc) :=
  match p with Some p => n ← deref s p; Ret (ln_prev n) | None => Ret None end.
Definition openavbListFirst (s : li_st) : option loc := li_head (li s).
Definition openavbListLast (s : li_st) : option loc := li_tail (li s).
Definition openavbListData (s : li_st) (p : option loc) : res (option Z) :=
  match p with Some p => n ← deref s p; Ret (ln_data n) | None => Ret None end.
Definition openavbListIsFirst (s : li_st) (p : option loc) : bool :=
  match p with Some p => bool_decide (li_head (li s) = Some p) | None => false end.
Definition openavbListIsLast (s : li_st) (p : option loc) : bool :=
  match p with Some p => bool_decide (li_tail (li s) = Some p) | None => false end.
Definition openavbListIsManaged (s : li_st) (p : option loc) : res bool :=
  match p with Some p => n ← deref s p; Ret (ln_managed n) | None => Ret false end.

(** The iterator of the list. *)
Definition openavbListIterFirst (s : li_st) : option loc * li_st :=
  (li_head (li s), with_li_iter (li_head (li s)) s).
Definition openavbListIterLast (s : li_st) : option loc * li_st :=
  (li_tail (li s), with_li_iter (li_tail (li s)) s).
Definition openavbListIterNext (s : li_st) : res (option loc * li_st) :=
  match li_iter (li s) with
  | Some p => n ← deref s p; Ret (ln_next n, with_li_iter (ln_next n) s)
  | None => Ret (None, s)
  end.
Definition openavbListIterPrev (s : li_st) : res (option loc * li_st) :=
  match li_iter (li s) with
  | Some p => n ← deref s p; Ret (ln_prev n, with_li_iter (ln_prev n) s)
  | None => Ret (None, s)
  end.

(** Deletes the nodes from the first on; the fuel bounds their number. *)
Fixpoint openavbListDeleteList (fuel : nat) (s : li_st) : res li_st :=
  match openavbListFirst s with
  | None => Ret s
  | Some p =>
      match fuel with
      | O => Fault OutOfFuel
      | S fuel => '(_, s) ← openavbListDelete s p; openavbListDeleteList fuel s
      end
  end.

End Ops.

(** ** The list as a sequence *)

(** The address before position [i]. *)
Definition before (ls : list loc) (i : nat) : option loc :=
  match i with O => None | S j => ls !! j end.

(** In heap [h] the nodes at [ls], with data [ds], are linked in this order. *)
Definition linked (h : gmap loc list_node) (ls : list loc) (ds : list (option Z)) : Prop :=
  forall i p, ls !! i = Some p -> exists n, h !! p = Some n
    /\ ln_prev n = before ls i /\ ln_next n = ls !! S i /\ ds !! i = Some (ln_data n).

(** The list consists of the nodes at [ls], with data [ds]. *)
Record list_at (s : li_st) (ls : list loc) (ds : list (option Z)) : Prop := {
  la_nodup : NoDup ls;
  la_head : li_head (li s) = ls !! 0%nat;
  la_tail : li_tail (li s) = last ls;
  la_len : length ds = length ls;
  la_node : linked (li_heap s) ls ds
}.

Lemma before_app ls p i : (i <= length ls)%nat -> before (ls ++ [p]) i = before ls i.
Proof. destruct i as [|i]; [done|]. cbn. intros H. by rewrite lookup_app_l by lia. Qed.

(** A new node after the last one. *)
Lemma linked_snoc h ls ds t nt p d :
  NoDup ls -> length ds = length ls -> ls !! pred (length ls) = Some t -> h !! t = Some nt ->
  h !! p = None -> linked h ls ds ->
  linked (<[t := set_next (Some p) nt]> (<[p := ListNode d false (Some t) None]> h)) (ls ++ [p]) (ds ++ [d]).
Proof.
  intros Hnd Hds Et Hnt Hp Hl i q Hq. pose proof (lookup_lt_Some _ _ _ Et) as Htl.
  assert (Hpt : p <> t) by (intros ->; congruence).
  apply lookup_app_Some in Hq as [Hq|[Hle Hq]].
  - pose proof (lookup_lt_Some _ _ _ Hq). destruct (Hl i q Hq) as (n & Hn & Hpv & Hnx & Hd).
    rewrite before_app, (lookup_app_l ds) by lia. destruct (decide (q = t)) as [->|Hqt].
    + assert (i = pred (length ls)) as -> by (by eapply NoDup_lookup).
      rewrite lookup_insert_eq. eexists. split; [done|]. assert (n = nt) as -> by congruence.
      cbn. split_and!; try done. rewrite lookup_app_r by lia.
      by replace (S (pred (length ls)) - length ls)%nat with 0%nat by lia.
    + assert (Hqp : p <> q) by (intros ->; congruence).
      rewrite !lookup_insert_ne by done. exists n. split_and!; try done.
      destruct (decide (S i < length ls)%nat); [by rewrite lookup_app_l|].
      replace i with (pred (length ls)) in Hq by lia. congruence.
  - destruct (i - length ls)%nat as [|j] eqn:Ei; [|done]. injection Hq as <-.
    assert (i = length ls) as -> by lia. rewrite lookup_insert_ne, lookup_insert_eq by done.
    eexists. split; [done|]. cbn [ln_prev ln_next ln_data]. rewrite before_app by lia. split_and!.
    + destruct (length ls) as [|j] eqn:El; [lia|]. by rewrite <- Et.
    + by rewrite lookup_ge_None_2 by (rewrite length_app; cbn; lia).
    + rewrite lookup_app_r, Hds, Nat.sub_diag by lia. done.
Qed.

(** The heap after a node [n] was bypassed. *)
Definition bypass (n : list_node) (h : gmap loc list_node) : gmap loc list_node :=
  let h := match ln_prev n with Some q => alter (set_next (ln_next n)) q h | None => h end in
  match ln_next n with Some q => alter (set_prev (ln_prev n)) q h | None => h end.

Lemma bypass_lookup n h y m :
  h !! y = Some m ->
  exists m', bypass n h !! y = Some m' /\ ln_data m' = ln_data m
    /\ ln_next m' = (if decide (ln_prev n = Some y) then ln_next n else ln_next m)
    /\ ln_prev m' = (if decide (ln_next n = Some y) then ln_prev n else ln_prev m).
Proof.
  intros Hm. unfold bypass.
  set (h1 := match ln_prev n with Some q => _ | None => h end).
  assert (H1 : exists m1, h1 !! y = Some m1 /\ ln_data m1 = ln_data m /\ ln_prev m1 = ln_prev m
    /\ ln_next m1 = (if decide (ln_prev n = Some y) then ln_next n else ln_next m)).
  { subst h1. destruct (ln_prev n) as [q|]; [|by exists m]. destruct (decide (q = y)) as [->|Hq].
    - rewrite lookup_alter_eq, Hm. eexists. split; [done|]. cbn. by rewrite decide_True.
    - rewrite lookup_alter_ne by done. exists m. by rewrite decide_False by congruence. }
  destruct H1 as (m1 & Hm1 & Ed & Ep & En). destruct (ln_next n) as [q|]; [|by exists m1].
  destruct (decide (q = y)) as [->|Hq].
  - rewrite lookup_alter_eq, Hm1. eexists. split; [done|]. cbn. by rewrite (decide_True (P := Some y = Some y)).
  - rewrite lookup_alter_ne by done. exists m1. by rewrite (decide_False (P := Some q = Some y)) by congruence.
Qed.

Lemma linked_delete h ls ds i p n :
  NoDup ls -> linked h ls ds -> ls !! i = Some p -> h !! p = Some n ->
  linked (delete p (bypass n h)) (delete i ls) (delete i ds).
Proof.
  intros Hnd Hl Hi Hn j y Hy. destruct (Hl i p Hi) as (n' & Hn' & Hpv & Hnx & _).
  assert (n' = n) as -> by congruence. clear Hn'.
  assert (Hidx : exists k, ls !! k = Some y /\ (k = j /\ (j < i)%nat \/ k = S j /\ (i <= j)%nat)).
  { destruct (decide (j < i)%nat).
    - rewrite list_lookup_delete_lt in Hy by done. exists j. split; [done|]. left. lia.
    - rewrite list_lookup_delete_ge in Hy by lia. exists (S j). split; [done|]. right. lia. }
  destruct Hidx as (k & Hk & Hkj). destruct (Hl k y Hk) as (m & Hm & Hmp & Hmn & Hmd).
  assert (Hyp : p <> y) by (intros ->; assert (k = i) by (by eapply NoDup_lookup); lia).
  destruct (bypass_lookup n h y m Hm) as (m' & Hm' & Ed & En & Ep). exists m'.
  rewrite lookup_delete_ne by done. split; [done|]. rewrite Ed, En, Ep, Hpv, Hnx, Hmp, Hmn.
  assert (Hprev : before ls i = Some y <-> i = S k).
  { destruct i as [|i0]; cbn [before]; [by split|]. split; [|by intros [= ->]].
    intros H. f_equal. by eapply NoDup_lookup. }
  assert (Hnext : ls !! S i = Some y <-> k = S i).
  { split; [|by intros ->]. intros H. by eapply NoDup_lookup. }
  destruct Hkj as [[-> Hj]|[-> Hj]].
  - rewrite (decide_False (P := ls !! S i = Some y)) by (rewrite Hnext; lia). split_and!.
    + destruct j as [|j0]; [done|]. cbn [before]. by rewrite list_lookup_delete_lt by lia.
    + destruct (decide (before ls i = Some y)) as [E|E]; rewrite Hprev in E.
      * rewrite list_lookup_delete_ge by lia. by rewrite E.
      * by rewrite list_lookup_delete_lt by lia.
    + by rewrite list_lookup_delete_lt.
  - rewrite (decide_False (P := before ls i = Some y)) by (rewrite Hprev; lia). split_and!.
    + destruct (decide (ls !! S i = Some y)) as [E|E]; rewrite Hnext in E.
      * injection E as ->. destruct i as [|i0]; [done|]. cbn [before]. by rewrite list_lookup_delete_lt by lia.
      * destruct j as [|j0]; [lia|]. cbn [before]. by rewrite list_lookup_delete_ge by lia.
    + by rewrite list_lookup_delete_ge by lia.
    + by rewrite list_lookup_delete_ge.
Qed.

Section Specs.
Context {pf : Platform}.

Lemma la_dom s ls ds p : list_at s ls ds -> p ∈ ls -> p ∈ dom (li_heap s).
Proof.
  intros Ha [i Hi]%list_elem_of_lookup. destruct (la_node _ _ _ Ha i p Hi) as (n & Hn & _).
  by apply elem_of_dom_2 in Hn.
Qed.

Lemma deref_ok s p n : li_heap s !! p = Some n -> deref s p = Ret n.
Proof. intros Hn. unfold deref. by rewrite Hn. Qed.
Lemma assign_ok s p n g :
  li_heap s !! p = Some n -> assign s p g = Ret (with_heap (<[p := g n]> (li_heap s)) s).
Proof. intros Hn. unfold assign. by rewrite (deref_ok _ _ n) by done. Qed.
Lemma assign_alter s p g :
  is_Some (li_heap s !! p) -> assign s p g = Ret (with_heap (alter g p (li_heap s)) s).
Proof.
  intros [n Hn]. rewrite (assign_ok _ _ n) by done. do 2 f_equal. apply map_eq. intros q.
  destruct (decide (q = p)) as [->|].
  - by rewrite lookup_insert_eq, lookup_alter_eq, Hn.
  - by rewrite lookup_insert_ne, lookup_alter_ne.
Qed.

Lemma list_add_spec s ls ds d :
  list_at s ls ds -> (forall n, calloc_ok n = true) ->
  exists p s', openavbListAdd s d = Ret (Some p, s') /\ p ∉ ls /\ list_at s' (ls ++ [p]) (ds ++ [d]).
Proof.
  intros Ha Hc. unfold openavbListAdd, li_alloc. rewrite Hc. cbn [li_heap with_heap li li_head].
  set (p := fresh (dom (li_heap s))).
  assert (Hp : li_heap s !! p = None) by (apply not_elem_of_dom; apply is_fresh).
  assert (Hpl : p ∉ ls) by (intros H; apply (la_dom _ _ _ _ Ha), elem_of_dom in H as [n H]; by rewrite Hp in H).
  rewrite (la_head _ _ _ Ha). destruct (decide (ls = [])) as [->|Hne].
  - pose proof (la_len _ _ _ Ha) as Hl. destruct ds; [|done].
    do 2 eexists. split; [reflexivity|]. split; [done|]. split; cbn; try done.
    + by apply NoDup_singleton.
    + intros [|i] q [= <-]. rewrite lookup_insert_eq. by eexists.
  - assert (exists x, ls !! 0%nat = Some x) as [x Hx] by (destruct ls; [done | by eexists]). rewrite Hx.
    destruct (last ls) as [t|] eqn:Et; [|by apply last_None in Et].
    rewrite last_lookup in Et. pose proof (lookup_lt_Some _ _ _ Et) as Htl.
    destruct (la_node _ _ _ Ha _ _ Et) as (nt & Hnt & _).
    assert (Hpt : p <> t) by (intros ->; congruence).
    erewrite assign_ok by (cbn; apply lookup_insert_eq). rewrite res_bind_ret.
    cbn [li li_tail with_heap li_heap]. rewrite (la_tail _ _ _ Ha), last_lookup, Et.
    erewrite assign_ok by (cbn; rewrite !lookup_insert_ne by done; exact Hnt). rewrite res_bind_ret.
    do 2 eexists. split; [reflexivity|]. split; [done|].
    split; cbn [li with_ends li_head li_tail li_heap with_heap].
    + apply NoDup_app. split_and!; [apply Ha | | apply NoDup_singleton].
      intros y Hy ->%list_elem_of_singleton. done.
    + rewrite lookup_app_l by lia. apply Ha.
    + by rewrite last_snoc.
    + rewrite !length_app. by rewrite (la_len _ _ _ Ha).
    + rewrite insert_insert_eq. apply linked_snoc; try done; apply Ha.
Qed.

Lemma last_delete (ls : list loc) i p :
  NoDup ls -> ls !! i = Some p ->
  (if decide (last ls = Some p) then before ls i else last ls) = last (delete i ls).
Proof.
  intros Hnd Hi. pose proof (lookup_lt_Some _ _ _ Hi) as Hl.
  rewrite !last_lookup, length_delete by (by eexists). case_decide as E.
  - assert (i = pred (length ls)) as Ei by (by eapply NoDup_lookup). destruct i as [|i0]; cbn [before].
    + replace (pred (pred (length ls))) with 0%nat by lia. rewrite list_lookup_delete_ge by lia.
      by rewrite lookup_ge_None_2 by lia.
    + rewrite list_lookup_delete_lt by lia. f_equal. lia.
  - assert (i <> pred (length ls)) by (intros ->; done). rewrite list_lookup_delete_ge by lia. f_equal. lia.
Qed.

Lemma list_delete_spec s ls ds i p :
  list_at s ls ds -> ls !! i = Some p ->
  exists s', openavbListDelete s p = Ret (ls !! S i, s') /\ list_at s' (delete i ls) (delete i ds).
Proof.
  intros Ha Hi. destruct (la_node _ _ _ Ha i p Hi) as (n & Hn & Hpv & Hnx & Hd).
  unfold openavbListDelete. rewrite (deref_ok _ _ _ Hn), res_bind_ret.
  set (hd := if decide (li_head (li s) = Some p) then _ else _). set (tl := if decide (li_tail (li s) = Some p) then _ else _).
  assert (H1 : match ln_prev n with
               | Some q => assign (with_ends hd tl s) q (set_next (ln_next n))
               | None => Ret (with_ends hd tl s)
               end = Ret (with_heap (match ln_prev n with
                                     | Some q => alter (set_next (ln_next n)) q (li_heap s)
                                     | None => li_heap s end) (with_ends hd tl s))).
  { destruct (ln_prev n) as [q|] eqn:Eq; [|by destruct s]. rewrite assign_alter; [done|].
    destruct i as [|i0]; [done|]. cbn in Hpv. destruct (la_node _ _ _ Ha i0 q) as (nq & Hq & _); [done|]. by exists nq. }
  rewrite H1, res_bind_ret. set (h1 := match ln_prev n with Some q => _ | None => li_heap s end).
  assert (H2 : match ln_next n with
               | Some q => assign (with_heap h1 (with_ends hd tl s)) q (set_prev (ln_prev n))
               | None => Ret (with_heap h1 (with_ends hd tl s))
               end = Ret (with_heap (bypass n (li_heap s)) (with_ends hd tl s))).
  { unfold bypass. fold h1. destruct (ln_next n) as [q|] eqn:Eq; [|done]. rewrite assign_alter; [done|].
    destruct (la_node _ _ _ Ha (S i) q) as (nq & Hq & _); [done|]. cbn [li_heap with_heap]. subst h1.
    destruct (ln_prev n) as [r|]; [|by exists nq]. apply lookup_alter_is_Some. by exists nq. }
  rewrite H2, res_bind_ret. eexists. split; [by rewrite Hnx|].
  pose proof (lookup_lt_Some _ _ _ Hi) as Hlt.
  split; cbn [li with_heap with_ends li_head li_tail li_heap].
  - eapply sublist_NoDup; [apply Ha | apply sublist_delete].
  - subst hd. rewrite (la_head _ _ _ Ha), Hnx. clear H1 H2. destruct (decide (ls !! 0%nat = Some p)) as [E|E].
    + assert (i = 0%nat) as -> by (by apply (NoDup_lookup ls _ _ p (la_nodup _ _ _ Ha))). by rewrite list_lookup_delete_ge by lia.
    + destruct i as [|i]; [done|]. by rewrite list_lookup_delete_lt by lia.
  - subst tl. rewrite (la_tail _ _ _ Ha), Hpv. apply last_delete; [apply Ha | done].
  - rewrite !length_delete by (rewrite ?lookup_lt_is_Some, ?(la_len _ _ _ Ha); done). by rewrite (la_len _ _ _ Ha).
  - by apply linked_delete; [apply Ha | apply Ha | |].
Qed.

(** ** Clients *)

(** The [i]-th node from the first on, and the data of all nodes in order. *)
Fixpoint list_nth (s : li_st) (p : option loc) (i : nat) : res (option loc) :=
  match i with
  | O => Ret p
  | S i => q ← openavbListNext s p; list_nth s q i
  end.
Fixpoint list_read (fuel : nat) (s : li_st) (p : option loc) : res (list (option Z)) :=
  match p with
  | None => Ret []
  | Some _ =>
      match fuel with
      | O => Fault OutOfFuel
      | S fuel => d ← openavbListData s p; q ← openavbListNext s p; r ← list_read fuel s q; Ret (d :: r)
      end
  end.

Lemma list_nth_spec s ls ds i : forall k,
  list_at s ls ds -> (k <= length ls)%nat -> list_nth s (ls !! k) i = Ret (ls !! (k + i)%nat).
Proof.
  induction i as [|i IH]; intros k Ha Hk; cbn [list_nth]; [by rewrite Nat.add_0_r|].
  destruct (ls !! k) as [p|] eqn:Ep.
  - destruct (la_node _ _ _ Ha k p Ep) as (n & Hn & _ & Hnx & _). cbn [openavbListNext].
    rewrite (deref_ok _ _ _ Hn), !res_bind_ret, Hnx. pose proof (lookup_lt_Some _ _ _ Ep).
    rewrite IH by (done || lia). do 2 f_equal. lia.
  - cbn [openavbListNext]. rewrite res_bind_ret. apply lookup_ge_None in Ep.
    assert (k = length ls) as -> by lia. specialize (IH (length ls) Ha ltac:(lia)).
    rewrite (lookup_ge_None_2 ls (length ls)) in IH by lia. rewrite IH.
    by rewrite !lookup_ge_None_2 by lia.
Qed.

Lemma list_read_spec s ls ds fuel : forall k,
  list_at s ls ds -> (length ls - k <= fuel)%nat -> list_read fuel s (ls !! k) = Ret (drop k ds).
Proof.
  induction fuel as [|fuel IH]; intros k Ha Hf; cbn [list_read].
  - rewrite lookup_ge_None_2 by lia. rewrite drop_ge; [done|]. rewrite (la_len _ _ _ Ha). lia.
  - destruct (ls !! k) as [p|] eqn:Ep.
    + destruct (la_node _ _ _ Ha k p Ep) as (n & Hn & _ & Hnx & Hd). cbn [openavbListData openavbListNext].
      rewrite !(deref_ok _ _ _ Hn), !res_bind_ret, Hnx, IH, res_bind_ret by (done || lia).
      by rewrite (drop_S ds (ln_data n) k).
    + apply lookup_ge_None in Ep. rewrite drop_ge; [done|]. rewrite (la_len _ _ _ Ha). lia.
Qed.

Inductive list_op := LAdd (d : Z) | LDelete (i : nat) | LRead.

(** What clients do: add data, walk to a node and delete it, read the whole list. *)
Fixpoint list_run (os : list list_op) (s : li_st) : res (list (list (option Z)) * li_st) :=
  match os with
  | [] => Ret ([], s)
  | LAdd d :: os => '(_, s) ← openavbListAdd s (Some d); list_run os s
  | LDelete i :: os =>
      p ← list_nth s (openavbListFirst s) i;
      s ← (match p with Some p => '(_, s) ← openavbListDelete s p; Ret s | None => Ret s end);
      list_run os s
  | LRead :: os =>
      l ← list_read (size (li_heap s)) s (openavbListFirst s);
      '(r, s) ← list_run os s; Ret (l :: r, s)
  end.
(** The specification on sequences. *)
Fixpoint seq_run (os : list list_op) (l : list (option Z)) : list (list (option Z)) * list (option Z) :=
  match os with
  | [] => ([], l)
  | LAdd d :: os => seq_run os (l ++ [Some d])
  | LDelete i :: os => seq_run os (delete i l)
  | LRead :: os => let '(r, l') := seq_run os l in (l :: r, l')
  end.

Lemma heap_bound s ls ds : list_at s ls ds -> (length ls <= size (li_heap s))%nat.
Proof.
  intros Ha. rewrite <- size_dom, <- (size_list_to_set (C := gset loc) ls) by apply Ha.
  apply subseteq_size. intros p Hp%elem_of_list_to_set. by eapply la_dom.
Qed.

(** The linked list is a sequence.  As long as memory is available, every sequence of
    adding data, deleting the i-th node and reading the list from the first node
    on behaves as the same operations on a sequence: links stay consistent, no
    freed node is followed and reading ends. *)
Theorem list_refines_seq os s ls ds :
  list_at s ls ds -> (forall n, calloc_ok n = true) ->
  returns (list_run os s) (fun '(r, s') =>
    let '(r', ds') := seq_run os ds in r = r' /\ exists ls', list_at s' ls' ds').
Proof.
  intros Ha Hc. revert s ls ds Ha. induction os as [|o os IH]; intros s ls ds Ha.
  { split; [done|]. by exists ls. }
  pose proof (la_len _ _ _ Ha) as Hlen. destruct o as [d|i|]; cbn [list_run seq_run].
  - destruct (list_add_spec s ls ds (Some d) Ha Hc) as (p & s' & E & _ & Ha'). rewrite E. by eapply IH.
  - unfold openavbListFirst. rewrite (la_head _ _ _ Ha), (list_nth_spec _ _ _ _ _ Ha), res_bind_ret by lia.
    cbn [Nat.add]. destruct (ls !! i) as [p|] eqn:Ep.
    + destruct (list_delete_spec s ls ds i p Ha Ep) as (s' & E & Ha'). rewrite E. by eapply IH.
    + rewrite res_bind_ret. apply lookup_ge_None in Ep.
      rewrite delete_take_drop, take_ge, drop_ge, app_nil_r by (rewrite Hlen; lia). by eapply IH.
  - unfold openavbListFirst. pose proof (heap_bound _ _ _ Ha).
    rewrite (la_head _ _ _ Ha), (list_read_spec _ _ _ _ _ Ha), res_bind_ret by lia. rewrite drop_0.
    eapply returns_bind; [by eapply IH|]. intros [r s']. destruct (seq_run os ds) as [r' ds'].
    by intros [-> H'].
Qed.

End Specs.

(** ** Concrete lists *)

Definition list_memory : Platform := {|
  ptp_time _ := None; sys_time _ := None; calloc_ok _ := true; junk64 _ := 0
|}.
#[local] Existing Instance list_memory.

Definition empty_list : li_st := LiSt (AvbList None None None) ∅ 0 100 [].

Lemma empty_list_at : list_at empty_list [] [].
Proof. by split; [constructor | ..]. Qed.

Definition demo_list_ops : list list_op :=
  [LAdd 1; LAdd 2; LAdd 3; LRead; LDelete 1; LRead; LDelete 0; LDelete 5; LAdd 4; LRead].

Lemma list_refines_seq_witness :
  exists s', list_run demo_list_ops empty_list
    = Ret ([[Some 1; Some 2; Some 3]; [Some 1; Some 3]; [Some 3; Some 4]], s').
Proof.
  pose proof (list_refines_seq (pf := list_memory) demo_list_ops empty_list [] [] empty_list_at
                (fun _ => eq_refl)) as H.
  apply returns_inv in H as ([r s'] & E & [Hr _]). exists s'. rewrite E, Hr. reflexivity.
Defined.

(** ** Defects *)

(** Deleting the node on which the iterator of the list stands leaves the iterator
    on the freed node, and the next step follows it. *)
Theorem list_iterator_dangles :
  ('(_, s) ← openavbListAdd empty_list (Some 1);
   '(_, s) ← openavbListAdd s (Some 2);
   let '(p, s) := openavbListIterFirst s in
   match p with
   | Some p => '(_, s) ← openavbListDelete s p; '(q, _) ← openavbListIterNext s; Ret q
   | None => Ret None
   end) = Fault (UseAfterFree 1).
Proof. vm_compute. reflexivity. Qed.
