(* ===== verification/Qmgr.v ===== *)
(** * The queue manager (lib/avtp_pipeline/qmgr/openavb_qmgr.c)

    Bandwidth of the stream reservation classes.  A stream that is added gets a
    slot of its class and a mark that names the slot; the slots in use are a
    finite map from marks to streams, and the bandwidth of a class is the sum over
    that map.  The hardware queue is asked for the new bandwidth of the class
    before it changes. *)

From S2P Require Import Prelude AvtpTime.
From Stdlib Require Import ZArith Lia String.
From stdpp Require Import base tactics list option gmap fin_maps strings.
Open Scope Z_scope.

Definition MAX_AVB_SR_CLASSES : Z := 2.
Definition MAX_AVB_STREAMS_PER_CLASS : Z := 16.
Definition MAX_AVB_STREAMS : Z := MAX_AVB_SR_CLASSES * MAX_AVB_STREAMS_PER_CLASS.
Definition OPENAVB_AVTP_ETHER_FRAME_OVERHEAD : Z := 24 + 18.
Definition INVALID_FWMARK : Z := 65535.

Definition TC_AVB_CLASS_SHIFT : Z := 8.
Definition TC_AVB_STREAM_MASK : Z := Z.shiftl 1 TC_AVB_CLASS_SHIFT - 1.
Definition TC_AVB_MARK_CLASS (m : Z) : Z := Z.shiftr m TC_AVB_CLASS_SHIFT - 1.
Definition TC_AVB_MARK_STREAM (m : Z) : Z := Z.land m TC_AVB_STREAM_MASK.
Definition TC_AVB_MARK (c s : Z) : Z :=
  Z.lor (Z.shiftl (c + 1) TC_AVB_CLASS_SHIFT) (Z.land TC_AVB_STREAM_MASK s).

Definition AVB_SHAPER_DISABLED : Z := 0.
Definition AVB_SHAPER_HWQ_PER_CLASS : Z := 5.

Record qmgr_stream := QStream {
  streamBytesPerSec : Z;
  qs_classRate : Z;
  qs_maxIntervalFrames : Z;
  qs_maxFrameSize : Z
}.
Definition no_stream : qmgr_stream := QStream 0 0 0 0.

Record qdisc := Qdisc {
  qd_mode : Z;
  qd_ifindex : Z;
  qd_ifname : string;
  qd_linkKbit : Z;
  qd_nsrKbit : Z;
  qd_linkMTU : Z;
  qd_ref : Z
}.

(** The static data of the module and the requests made to the hardware queues:
    class and bytes per second. *)
Record qmgr := Qm {
  qm_disc : qdisc;
  qmgr_classes : list Z;
  qmgr_streams : list qmgr_stream;
  qm_requests : list (Z * Z)
}.

Definition with_ref (n : Z) (d : qdisc) : qdisc :=
  Qdisc (qd_mode d) (qd_ifindex d) (qd_ifname d) (qd_linkKbit d) (qd_nsrKbit d) (qd_linkMTU d) n.

(** The error code of the n-th request; without hardware support it is 0. *)
Class Shaper := set_class_bandwidth : nat -> Z -> Z -> Z.

Definition class_at (q : qmgr) (c : Z) : res Z := rd (qmgr_classes q) c.
Definition stream_at (q : qmgr) (i : Z) : res qmgr_stream :=
  if i <? 0 then Fault (OobRead i)
  else match qmgr_streams q !! Z.to_nat i with Some s => Ret s | None => Fault (OobRead i) end.

Section Ops.
Context {sh : Shaper}.

Definition setupHWQueue (nClass classBytesPerSec : Z) (q : qmgr) : bool * qmgr :=
  (set_class_bandwidth (length (qm_requests q)) nClass classBytesPerSec =? 0,
   Qm (qm_disc q) (qmgr_classes q) (qmgr_streams q) (qm_requests q ++ [(nClass, classBytesPerSec)])).

(** The search for an unused stream of the class; [n] streams are left to look at. *)
Fixpoint free_stream (n : nat) (nStream idx : Z) (q : qmgr) : res (option Z) :=
  match n with
  | O => Ret None
  | S n => s ← stream_at q idx;
           if streamBytesPerSec s =? 0 then Ret (Some nStream)
           else free_stream n (nStream + 1) (idx + 1) q
  end.

(** Products of [unsigned] wrap at 32 bits before they are stored as a long. *)
Definition stream_rate (classRate maxIntervalFrames maxFrameSize : Z) : Z :=
  u32 (u32 (u32 (maxFrameSize + OPENAVB_AVTP_ETHER_FRAME_OVERHEAD) * maxIntervalFrames) * classRate).

Definition qm_update (nClass bytes idx : Z) (s : qmgr_stream) (q : qmgr) : qmgr :=
  Qm (qm_disc q) (<[Z.to_nat nClass := bytes]> (qmgr_classes q))
    (<[Z.to_nat idx := s]> (qmgr_streams q)) (qm_requests q).

Definition openavbQmgrAddStream (nClass classRate maxIntervalFrames maxFrameSize : Z) (q : qmgr)
  : res (Z * qmgr) :=
  let rate := stream_rate classRate maxIntervalFrames maxFrameSize in
  if (nClass <? 0) || (MAX_AVB_SR_CLASSES <=? nClass) || (rate =? 0) then Ret (INVALID_FWMARK, q)
  else
    k ← free_stream (Z.to_nat MAX_AVB_STREAMS_PER_CLASS) 0 (nClass * MAX_AVB_STREAMS_PER_CLASS) q;
    match k with
    | None => Ret (INVALID_FWMARK, q)
    | Some nStream =>
        let idx := nClass * MAX_AVB_STREAMS_PER_CLASS + nStream in
        bytes ← class_at q nClass;
        let '(ok, q) :=
          if qd_mode (qm_disc q) =? AVB_SHAPER_DISABLED then (true, q)
          else setupHWQueue nClass (u32 (bytes + rate)) q in
        if ok : bool then
          Ret (TC_AVB_MARK nClass nStream,
               qm_update nClass (u32 (bytes + rate)) idx
                 (QStream rate classRate maxIntervalFrames maxFrameSize) q)
        else Ret (INVALID_FWMARK, q)
    end.

Definition openavbQmgrRemoveStream (fwmark : Z) (q : qmgr) : res qmgr :=
  if fwmark =? INVALID_FWMARK then Ret q
  else
    let nClass := TC_AVB_MARK_CLASS fwmark in
    let nStream := TC_AVB_MARK_STREAM fwmark in
    let idx := nClass * MAX_AVB_STREAMS_PER_CLASS + nStream in
    if (nStream <? 0) || (MAX_AVB_STREAMS <=? nStream) || (nClass <? 0)
       || (MAX_AVB_SR_CLASSES <=? nClass) || (MAX_AVB_STREAMS <=? idx)
    then Ret q
    else
      s ← stream_at q idx;
      if streamBytesPerSec s =? 0 then Ret q
      else
        bytes ← class_at q nClass;
        let bytes := u32 (bytes - streamBytesPerSec s) in
        let q := if qd_mode (qm_disc q) =? AVB_SHAPER_DISABLED then q
                 else (setupHWQueue nClass bytes q).2 in
        Ret (qm_update nClass bytes idx no_stream q).

(** [ifname] is [None] for [NULL]; [strlcpy] keeps at most 15 characters. *)
Definition openavbQmgrInitialize (mode ifindex : Z) (ifname : option string)
  (mtu link_kbit nsr_kbit : Z) (q : qmgr) : bool * qmgr :=
  match ifname with
  | None => (false, q)
  | Some ifname =>
      let d := with_ref (s32 (qd_ref (qm_disc q) + 1)) (qm_disc q) in
      if 0 <? qd_ref (qm_disc q) then (true, Qm d (qmgr_classes q) (qmgr_streams q) (qm_requests q))
      else
        (true,
         Qm (Qdisc (if 0 <=? mode then mode else AVB_SHAPER_HWQ_PER_CLASS) ifindex
               (String.substring 0 15 ifname) link_kbit nsr_kbit mtu (qd_ref d))
           (replicate (Z.to_nat MAX_AVB_SR_CLASSES) 0)
           (replicate (Z.to_nat MAX_AVB_STREAMS) no_stream) (qm_requests q))
  end.

(** The streams of one class, and of all classes, at finalization. *)
Fixpoint remove_streams (n : nat) (nClass nStream : Z) (q : qmgr) : res qmgr :=
  match n with
  | O => Ret q
  | S n =>
      s ← stream_at q (nClass * MAX_AVB_STREAMS_PER_CLASS + nStream);
      q ← (if streamBytesPerSec s =? 0 then Ret q
           else openavbQmgrRemoveStream (TC_AVB_MARK nClass nStream) q);
      remove_streams n nClass (nStream + 1) q
  end.
Fixpoint remove_classes (n : nat) (nClass : Z) (q : qmgr) : res qmgr :=
  match n with
  | O => Ret q
  | S n => q ← remove_streams (Z.to_nat MAX_AVB_STREAMS_PER_CLASS) nClass 0 q;
           remove_classes n (nClass + 1) q
  end.

Definition openavbQmgrFinalize (q : qmgr) : res qmgr :=
  let r := s32 (qd_ref (qm_disc q) - 1) in
  let q := Qm (with_ref r (qm_disc q)) (qmgr_classes q) (qmgr_streams q) (qm_requests q) in
  if (r =? 0) && negb (qd_mode (qm_disc q) =? AVB_SHAPER_DISABLED)
  then remove_classes (Z.to_nat MAX_AVB_SR_CLASSES) 0 q
  else Ret q.

End Ops.

(** ** Reservations *)

Definition mark_of (i : nat) : Z :=
  TC_AVB_MARK (Z.of_nat i / MAX_AVB_STREAMS_PER_CLASS) (Z.of_nat i mod MAX_AVB_STREAMS_PER_CLASS).

Lemma mark_sum c s : 0 <= c -> 0 <= s < 256 -> TC_AVB_MARK c s = (c + 1) * 256 + s.
Proof.
  intros Hc Hs. unfold TC_AVB_MARK, TC_AVB_STREAM_MASK, TC_AVB_CLASS_SHIFT.
  change (Z.shiftl 1 8 - 1) with (Z.ones 8). rewrite Z.land_comm, Z.land_ones by lia.
  rewrite (Z.mod_small s) by lia. rewrite Z.shiftl_mul_pow2 by lia. change (2 ^ 8) with 256.
  pose proof (Z.add_lor_land ((c + 1) * 256) s) as E.
  replace (Z.land ((c + 1) * 256) s) with 0 in E; [lia|]. clear E. symmetry. apply Z.bits_inj'. intros n Hn. rewrite Z.land_spec, Z.bits_0.
  change 256 with (2 ^ 8). destruct (Z.lt_ge_cases n 8) as [H|H].
  - rewrite Z.mul_pow2_bits_low by lia. done.
  - rewrite <- (Z.mod_small s (2 ^ 8)) by lia. rewrite Z.mod_pow2_bits_high by lia. apply andb_false_r.
Qed.

Lemma mark_of_sum i : mark_of i = (Z.of_nat i / 16 + 1) * 256 + Z.of_nat i mod 16.
Proof. unfold mark_of, MAX_AVB_STREAMS_PER_CLASS. apply mark_sum; zdm. Qed.

#[export] Instance mark_of_inj : Inj (=) (=) mark_of.
Proof. intros i j. rewrite !mark_of_sum. intros H. zdm. Qed.

Lemma mark_class c s : 0 <= c -> 0 <= s < 256 -> TC_AVB_MARK_CLASS (TC_AVB_MARK c s) = c.
Proof.
  intros Hc Hs. rewrite mark_sum by done. unfold TC_AVB_MARK_CLASS, TC_AVB_CLASS_SHIFT.
  rewrite Z.shiftr_div_pow2 by lia. change (2 ^ 8) with 256. zdm.
Qed.
Lemma mark_stream_mod m : TC_AVB_MARK_STREAM m = m mod 256.
Proof. unfold TC_AVB_MARK_STREAM. change TC_AVB_STREAM_MASK with (Z.ones 8). by rewrite Z.land_ones. Qed.
Lemma mark_class_div m : TC_AVB_MARK_CLASS m = m / 256 - 1.
Proof. unfold TC_AVB_MARK_CLASS. by rewrite Z.shiftr_div_pow2. Qed.

(** The streams in use by mark, and the bandwidth of a class among them. *)
Definition reserved (l : list qmgr_stream) : gmap Z qmgr_stream :=
  kmap mark_of (filter (fun p => streamBytesPerSec p.2 <> 0) (map_seq (M := gmap nat qmgr_stream) 0 l)).
Definition of_class (c m r : Z) : Z := if TC_AVB_MARK_CLASS m =? c then r else 0.
Definition total (c : Z) (M : gmap Z qmgr_stream) : Z :=
  map_fold (fun m s acc => of_class c m (streamBytesPerSec s) + acc) 0 M.

Lemma reserved_spec l m s :
  reserved l !! m = Some s <-> exists i, m = mark_of i /\ l !! i = Some s /\ streamBytesPerSec s <> 0.
Proof.
  unfold reserved. rewrite lookup_kmap_Some by apply _. split.
  - intros (i & -> & H). apply map_lookup_filter_Some in H as [H Hr]. rewrite lookup_map_seq_0 in H. eauto.
  - intros (i & -> & H & Hr). exists i. split; [done|]. apply map_lookup_filter_Some.
    rewrite lookup_map_seq_0. done.
Qed.
Lemma reserved_at l i s :
  l !! i = Some s -> reserved l !! mark_of i = if decide (streamBytesPerSec s = 0) then None else Some s.
Proof.
  intros Hi. apply option_eq. intros t. rewrite reserved_spec. case_decide as Hr; split; try done.
  - intros (j & Hj & H & Ht). apply (inj mark_of) in Hj as <-. congruence.
  - intros (j & Hj & H & Ht). apply (inj mark_of) in Hj as <-. congruence.
  - intros [= <-]. eauto.
Qed.
Lemma reserved_insert l i s :
  (i < length l)%nat -> streamBytesPerSec s <> 0 ->
  reserved (<[i := s]> l) = <[mark_of i := s]> (reserved l).
Proof.
  intros Hi Hs. apply map_eq. intros m. apply option_eq. intros t. rewrite reserved_spec, lookup_insert_Some, reserved_spec.
  split.
  - intros (j & -> & H & Ht). destruct (decide (i = j)) as [<-|Hij].
    + rewrite list_lookup_insert_eq in H by done. left. split; congruence.
    + rewrite list_lookup_insert_ne in H by done. right. split; [|by eauto]. intros E. by apply (inj mark_of) in E.
  - intros [[<- <-]|[Hne (j & -> & H & Ht)]]; [exists i; by rewrite list_lookup_insert_eq|].
    exists j. rewrite list_lookup_insert_ne by (intros ->; done). done.
Qed.
Lemma reserved_clear l i :
  reserved (<[i := no_stream]> l) = delete (mark_of i) (reserved l).
Proof.
  apply map_eq. intros m. apply option_eq. intros t. rewrite reserved_spec, lookup_delete_Some, reserved_spec. split.
  - intros (j & -> & H & Ht). destruct (decide (i = j)) as [<-|Hij].
    + apply list_lookup_insert_Some in H as [(_ & <- & _)|[? _]]; done.
    + rewrite list_lookup_insert_ne in H by done. split; [intros E; by apply (inj mark_of) in E|]. eauto.
  - intros [Hne (j & -> & H & Ht)]. exists j. rewrite list_lookup_insert_ne by (intros ->; done). done.
Qed.

Lemma total_insert c M m s :
  M !! m = None -> total c (<[m := s]> M) = of_class c m (streamBytesPerSec s) + total c M.
Proof. intros H. unfold total. rewrite map_fold_insert_L; [done | intros; lia | done]. Qed.
Lemma total_delete c M m s :
  M !! m = Some s -> total c (delete m M) = total c M - of_class c m (streamBytesPerSec s).
Proof.
  intros H. pose proof (total_insert c (delete m M) m s (lookup_delete_eq _ _)) as E.
  rewrite insert_delete_id in E by done. lia.
Qed.

(** The state of the manager: the slots in use are [M]. *)
Record qmgr_holds (q : qmgr) (M : gmap Z qmgr_stream) : Prop := {
  qh_streams : length (qmgr_streams q) = 32%nat;
  qh_classes : length (qmgr_classes q) = 2%nat;
  qh_reserved : reserved (qmgr_streams q) = M;
  qh_total : forall c, 0 <= c < 2 -> qmgr_classes q !! Z.to_nat c = Some (u32 (total c M));
  qh_rates : Forall (fun s => streamBytesPerSec s <> 0 ->
               streamBytesPerSec s
               = stream_rate (qs_classRate s) (qs_maxIntervalFrames s) (qs_maxFrameSize s)) (qmgr_streams q)
}.

Definition class_full (c : Z) (M : gmap Z qmgr_stream) : Prop :=
  forall k, 0 <= k < 16 -> is_Some (M !! TC_AVB_MARK c k).

Lemma stream_at_ok q i :
  length (qmgr_streams q) = 32%nat -> 0 <= i < 32 ->
  exists s, stream_at q i = Ret s /\ qmgr_streams q !! Z.to_nat i = Some s.
Proof.
  intros Hl Hi. destruct (lookup_lt_is_Some_2 (qmgr_streams q) (Z.to_nat i)) as [s Hs]; [lia|].
  exists s. unfold stream_at. rewrite Hs. destruct (Z.ltb_spec i 0); [lia | done].
Qed.

Lemma slot_mark c k : 0 <= c -> 0 <= k < 16 -> mark_of (Z.to_nat (c * 16 + k)) = TC_AVB_MARK c k.
Proof.
  intros Hc Hk. rewrite mark_of_sum, mark_sum by lia. rewrite Z2Nat.id by lia.
  replace ((c * 16 + k) / 16) with c by zdm. replace ((c * 16 + k) mod 16) with k by zdm. done.
Qed.

Lemma free_stream_spec n k c q :
  length (qmgr_streams q) = 32%nat -> 0 <= c < 2 -> 0 <= k -> k + Z.of_nat n = 16 ->
  (forall j, 0 <= j < k -> is_Some (reserved (qmgr_streams q) !! TC_AVB_MARK c j)) ->
  returns (free_stream n k (c * 16 + k) q) (fun r =>
    match r with
    | Some j => 0 <= j < 16 /\ reserved (qmgr_streams q) !! TC_AVB_MARK c j = None
    | None => class_full c (reserved (qmgr_streams q))
    end).
Proof.
  intros Hl Hc. revert k. induction n as [|n IH]; intros k Hk Hn Hbelow; cbn [free_stream].
  { intros j Hj. apply Hbelow. lia. }
  destruct (stream_at_ok q (c * 16 + k)) as (s & -> & Hs); [done | lia |]. rewrite res_bind_ret.
  pose proof (reserved_at _ _ _ Hs) as Hr. rewrite slot_mark in Hr by lia.
  destruct (Z.eqb_spec (streamBytesPerSec s) 0) as [H|H].
  - rewrite decide_True in Hr by done. split; [lia | done].
  - rewrite decide_False in Hr by done. rewrite <- Z.add_assoc. apply IH; [lia | lia |].
    intros j Hj. destruct (decide (j = k)) as [->|]; [by rewrite Hr | apply Hbelow; lia].
Qed.

Lemma class_at_ok q M c :
  qmgr_holds q M -> 0 <= c < 2 -> class_at q c = Ret (u32 (total c M)).
Proof. intros H Hc. unfold class_at. apply rd_lookup; [lia|]. by apply (qh_total _ _ H). Qed.

(** Only the requests change. *)
Lemma holds_requests q M rs :
  qmgr_holds q M -> qmgr_holds (Qm (qm_disc q) (qmgr_classes q) (qmgr_streams q) rs) M.
Proof. intros []. by split. Qed.

(** A change of one slot that changes the total of its class accordingly. *)
Lemma holds_update q M M' c k s :
  qmgr_holds q M -> 0 <= c < 2 -> 0 <= k < 16 ->
  reserved (<[Z.to_nat (c * 16 + k) := s]> (qmgr_streams q)) = M' ->
  (forall d, d <> c -> total d M' = total d M) ->
  (streamBytesPerSec s <> 0 -> streamBytesPerSec s
     = stream_rate (qs_classRate s) (qs_maxIntervalFrames s) (qs_maxFrameSize s)) ->
  qmgr_holds (qm_update c (u32 (total c M')) (c * 16 + k) s q) M'.
Proof.
  intros [] Hc Hk HM Ht Hs. split; cbn [qm_update qmgr_streams qmgr_classes].
  - by rewrite length_insert.
  - by rewrite length_insert.
  - done.
  - intros d Hd. destruct (decide (d = c)) as [->|Hdc].
    + apply list_lookup_insert_eq. lia.
    + rewrite list_lookup_insert_ne by lia. rewrite Ht by done. auto.
  - by apply Forall_insert.
Qed.

Lemma of_class_mark c d k r : 0 <= c -> 0 <= k < 16 -> of_class d (TC_AVB_MARK c k) r = if c =? d then r else 0.
Proof. intros Hc Hk. unfold of_class. by rewrite mark_class by lia. Qed.

Lemma u32_add_l a b : u32 (u32 a + b) = u32 (b + a).
Proof. unfold u32. rewrite Zplus_mod_idemp_l. f_equal. lia. Qed.
Lemma u32_sub_l a b : u32 (u32 a - b) = u32 (a - b).
Proof. unfold u32. by rewrite Zminus_mod_idemp_l. Qed.

(** The bandwidth last asked for a class, and that this is what is reserved. *)
Definition programmed (c : Z) (rs : list (Z * Z)) : Z :=
  default 0 (snd <$> last (filter (fun p => p.1 = c) rs)).
Definition told (q : qmgr) (M : gmap Z qmgr_stream) : Prop :=
  qd_mode (qm_disc q) <> AVB_SHAPER_DISABLED ->
  forall c, 0 <= c < 2 -> programmed c (qm_requests q) = u32 (total c M).

Lemma programmed_snoc c d b rs :
  programmed c (rs ++ [(d, b)]) = if decide (d = c) then b else programmed c rs.
Proof.
  unfold programmed. rewrite filter_app. cbn [filter list_filter fst]. case_decide.
  - by rewrite last_snoc.
  - by rewrite app_nil_r.
Qed.
Lemma told_update q M M' c b i s :
  told q M -> (forall d, d <> c -> total d M' = total d M) -> b = u32 (total c M') ->
  told (qm_update c b i s (Qm (qm_disc q) (qmgr_classes q) (qmgr_streams q) (qm_requests q ++ [(c, b)]))) M'.
Proof.
  intros Ht Hd -> Hmode d Hdr. cbn [qm_update qm_requests]. rewrite programmed_snoc. case_decide as H; [by subst|].
  rewrite Hd by done. by apply Ht.
Qed.

Section Specs.
Context {sh : Shaper}.

Definition shaper_accepts : Prop := forall n c b, set_class_bandwidth n c b = 0.

Definition shaper_refuses (c : Z) : Prop := exists n b, set_class_bandwidth n c b <> 0.

(** What [openavbQmgrAddStream] does to the reservations [M]. *)
Definition added (c r f z : Z) (M : gmap Z qmgr_stream) (m : Z) (M' : gmap Z qmgr_stream) : Prop :=
  let rate := stream_rate r f z in
  (m = INVALID_FWMARK /\ M' = M
     /\ (~ 0 <= c < 2 \/ rate = 0 \/ class_full c M \/ shaper_refuses c))
  \/ (0 <= c < 2 /\ rate <> 0 /\ M !! m = None
      /\ (exists k, 0 <= k < 16 /\ m = TC_AVB_MARK c k)
      /\ M' = <[m := QStream rate r f z]> M).

Lemma add_stream_spec c r f z q M :
  qmgr_holds q M ->
  returns (openavbQmgrAddStream c r f z q) (fun '(m, q') =>
    exists M', added c r f z M m M' /\ qmgr_holds q' M' /\ qm_disc q' = qm_disc q
      /\ (shaper_accepts -> told q M -> told q' M')).
Proof.
  intros Hq. unfold openavbQmgrAddStream, MAX_AVB_SR_CLASSES, MAX_AVB_STREAMS_PER_CLASS.
  set (rate := stream_rate r f z).
  destruct ((c <? 0) || (2 <=? c) || (rate =? 0)) eqn:Hargs.
  { exists M. split; [|by split_and!]. left. split; [done|]. split; [done|].
    apply orb_true_iff in Hargs as [Hargs|Hargs]; [left; lia | right; left; lia]. }
  assert (0 <= c < 2 /\ rate <> 0) as [Hc Hr] by lia. clear Hargs.
  pose proof (qh_streams _ _ Hq) as Hl. pose proof (qh_reserved _ _ Hq) as HM.
  pose proof (free_stream_spec 16 0 c q Hl Hc ltac:(lia) ltac:(lia) ltac:(lia)) as Hf.
  rewrite Z.add_0_r in Hf. change (Z.to_nat 16) with 16%nat.
  apply returns_inv in Hf as (k & -> & Hk). rewrite res_bind_ret. rewrite HM in Hk.
  destruct k as [k|]; [|exists M; split; [left; tauto | by split_and!]].
  destruct Hk as [Hk Hfree]. rewrite (class_at_ok q M c) by done. rewrite res_bind_ret.
  set (s := QStream rate r f z) in *. set (M' := <[TC_AVB_MARK c k := s]> M).
  assert (forall d, total d M' = (if c =? d then rate else 0) + total d M) as Htot.
  { intros d. unfold M'. by rewrite total_insert, of_class_mark by (done || lia). }
  assert (u32 (u32 (total c M) + rate) = u32 (total c M')) as ->.
  { by rewrite u32_add_l, Htot, Z.eqb_refl. }
  assert (forall d, d <> c -> total d M' = total d M) as Hother.
  { intros d Hd. rewrite Htot. destruct (Z.eqb_spec c d); lia. }
  assert (forall rs, qmgr_holds (qm_update c (u32 (total c M')) (c * 16 + k) s
                       (Qm (qm_disc q) (qmgr_classes q) (qmgr_streams q) rs)) M') as Hadd.
  { intros rs. apply (holds_update _ M); [by apply holds_requests | done | done | | done | done].
    cbn [qmgr_streams]. rewrite reserved_insert by (done || lia). by rewrite slot_mark, HM by lia. }
  assert (added c r f z M (TC_AVB_MARK c k) M') as Hok.
  { right. split; [done|]. split; [done|]. split; [done|]. split; [by exists k | done]. }
  destruct (Z.eqb_spec (qd_mode (qm_disc q)) AVB_SHAPER_DISABLED) as [Hmode|Hmode].
  - exists M'. split; [exact Hok|]. split; [destruct q; apply Hadd|]. split; [done|]. by intros _ _ Hm.
  - cbn [setupHWQueue fst].
    destruct (Z.eqb_spec (set_class_bandwidth (length (qm_requests q)) c (u32 (total c M'))) 0) as [H|H].
    + exists M'. split; [exact Hok|]. split; [apply Hadd|]. split; [done|]. intros _ Ht. by apply (told_update _ M).
    + exists M. split; [|split; [by apply holds_requests|]; split; [done|]; intros Ha; by destruct (H (Ha _ _ _))].
      left. split_and!; try done. right. right. right. by eexists _, _.
Qed.

(** Marks in use are the marks of slots. *)
Lemma held_mark q M m :
  qmgr_holds q M -> is_Some (M !! m) ->
  exists c k, 0 <= c < 2 /\ 0 <= k < 16 /\ m = TC_AVB_MARK c k.
Proof.
  intros Hq [s Hs]. rewrite <- (qh_reserved _ _ Hq) in Hs. apply reserved_spec in Hs as (i & -> & Hi & _).
  apply lookup_lt_Some in Hi. rewrite (qh_streams _ _ Hq) in Hi.
  exists (Z.of_nat i / 16), (Z.of_nat i mod 16). split; [zdm|]. split; [zdm|]. done.
Qed.

(** Every mark but those of class A with the stream numbers 16 to 31, which
    nobody was given and which the code takes for the marks of class B. *)
Definition mark_ok (m : Z) : Prop := ~ (TC_AVB_MARK 0 16 <= m <= TC_AVB_MARK 0 31).

Lemma held_mark_ok q M m : qmgr_holds q M -> is_Some (M !! m) -> mark_ok m.
Proof.
  intros Hq Hm. destruct (held_mark q M m Hq Hm) as (c & k & Hc & Hk & ->).
  unfold mark_ok. rewrite !mark_sum by lia. lia.
Qed.

Lemma remove_stream_spec m q M :
  qmgr_holds q M -> mark_ok m ->
  returns (openavbQmgrRemoveStream m q) (fun q' =>
    qmgr_holds q' (delete m M) /\ qm_disc q' = qm_disc q
    /\ (shaper_accepts -> told q M -> told q' (delete m M))).
Proof.
  intros Hq Hm. unfold openavbQmgrRemoveStream.
  assert (M !! m = None -> qmgr_holds q (delete m M) /\ qm_disc q = qm_disc q
            /\ (shaper_accepts -> told q M -> told q (delete m M))) as Hnone.
  { intros H. by rewrite delete_id. }
  destruct (Z.eqb_spec m INVALID_FWMARK) as [->|Hne].
  { apply Hnone. destruct (M !! INVALID_FWMARK) eqn:E; [|done]. exfalso.
    destruct (held_mark q M INVALID_FWMARK Hq ltac:(by eexists)) as (c & k & Hc & Hk & Hm').
    rewrite mark_sum in Hm' by lia. unfold INVALID_FWMARK in Hm'. lia. }
  unfold mark_ok in Hm. rewrite !mark_sum in Hm by lia. rewrite mark_stream_mod, mark_class_div.
  change MAX_AVB_STREAMS with 32. change MAX_AVB_SR_CLASSES with 2. change MAX_AVB_STREAMS_PER_CLASS with 16.
  set (c := m / 256 - 1). set (k := m mod 256).
  destruct ((k <? 0) || (32 <=? k) || (c <? 0) || (2 <=? c) || (32 <=? c * 16 + k)) eqn:Hargs.
  { apply Hnone. destruct (M !! m) eqn:E; [|done]. exfalso.
    destruct (held_mark q M m Hq ltac:(by eexists)) as (c' & k' & Hc' & Hk' & Hm').
    rewrite mark_sum in Hm' by lia. subst c k. zdm. }
  assert (0 <= c < 2 /\ 0 <= k < 16) as [Hc Hk] by (subst c k; zdm). clear Hargs.
  assert (m = TC_AVB_MARK c k) as Hmark by (rewrite mark_sum by lia; subst c k; zdm).
  clearbody c k. subst m. pose proof (qh_reserved _ _ Hq) as HM.
  destruct (stream_at_ok q (c * 16 + k)) as (s & -> & Hi); [apply Hq | lia |]. rewrite res_bind_ret.
  pose proof (reserved_at _ _ _ Hi) as Hr. rewrite slot_mark, HM in Hr by lia.
  destruct (Z.eqb_spec (streamBytesPerSec s) 0) as [H0|H0].
  { apply Hnone. by rewrite decide_True in Hr. }
  rewrite decide_False in Hr by done. rewrite (class_at_ok q M c) by done. rewrite res_bind_ret, u32_sub_l.
  set (M' := delete (TC_AVB_MARK c k) M).
  assert (forall d, total d M' = total d M - (if c =? d then streamBytesPerSec s else 0)) as Htot.
  { intros d. unfold M'. by rewrite (total_delete d M _ s), of_class_mark by (done || lia). }
  assert (u32 (total c M - streamBytesPerSec s) = u32 (total c M')) as ->.
  { by rewrite Htot, Z.eqb_refl. }
  assert (forall d, d <> c -> total d M' = total d M) as Hother.
  { intros d Hd. rewrite Htot. destruct (Z.eqb_spec c d); lia. }
  assert (forall rs, qmgr_holds (qm_update c (u32 (total c M')) (c * 16 + k) no_stream
                       (Qm (qm_disc q) (qmgr_classes q) (qmgr_streams q) rs)) M') as Hdel.
  { intros rs. apply (holds_update _ M); [by apply holds_requests | done | done | | done | done].
    cbn [qmgr_streams]. by rewrite reserved_clear, slot_mark, HM by lia. }
  destruct (Z.eqb_spec (qd_mode (qm_disc q)) AVB_SHAPER_DISABLED) as [Hmode|Hmode].
  - split; [destruct q; apply Hdel|]. split; [done|]. by intros _ _ Hm'.
  - split; [apply Hdel|]. split; [done|]. intros _ Ht. by apply (told_update _ M).
Qed.

(** ** Initialization and finalization *)

Lemma empty_reserved n : reserved (replicate n no_stream) = ∅.
Proof.
  apply map_empty. intros m. apply eq_None_not_Some. intros [s Hs].
  apply reserved_spec in Hs as (i & _ & Hi & Hr). by apply lookup_replicate in Hi as [-> _].
Qed.

Lemma initialize_spec mode ifindex name mtu link nsr q :
  qd_ref (qm_disc q) <= 0 ->
  let '(ok, q') := openavbQmgrInitialize mode ifindex (Some name) mtu link nsr q in
  ok = true /\ qmgr_holds q' ∅ /\ qm_requests q' = qm_requests q
  /\ qd_mode (qm_disc q') = (if 0 <=? mode then mode else AVB_SHAPER_HWQ_PER_CLASS).
Proof.
  intros Href. unfold openavbQmgrInitialize. destruct (Z.ltb_spec 0 (qd_ref (qm_disc q))) as [|_]; [lia|].
  split; [done|]. split; [|done]. split; [done | done | apply empty_reserved | | by repeat constructor].
  intros c Hc. assert (c = 0 \/ c = 1) as [->| ->] by lia; done.
Qed.

Lemma remove_streams_spec n c k q M :
  qmgr_holds q M -> 0 <= c < 2 -> 0 <= k -> k + Z.of_nat n = 16 ->
  returns (remove_streams n c k q) (fun q' => exists M',
    qmgr_holds q' M' /\ M' ⊆ M /\ qm_disc q' = qm_disc q /\ (shaper_accepts -> told q M -> told q' M')
    /\ forall j, k <= j < 16 -> M' !! TC_AVB_MARK c j = None).
Proof.
  intros Hq Hc. revert k q M Hq. induction n as [|n IH]; intros k q M Hq Hk Hn; cbn [remove_streams].
  { exists M. split_and!; try done. intros j Hj. lia. }
  change MAX_AVB_STREAMS_PER_CLASS with 16.
  destruct (stream_at_ok q (c * 16 + k)) as (s & -> & Hi); [apply Hq | lia |]. rewrite res_bind_ret.
  pose proof (reserved_at _ _ _ Hi) as Hr. rewrite slot_mark, (qh_reserved _ _ Hq) in Hr by lia.
  eapply returns_bind with (P := fun q' => qmgr_holds q' (delete (TC_AVB_MARK c k) M)
    /\ qm_disc q' = qm_disc q /\ (shaper_accepts -> told q M -> told q' (delete (TC_AVB_MARK c k) M))).
  - destruct (Z.eqb_spec (streamBytesPerSec s) 0) as [H|H].
    + rewrite decide_True in Hr by done. rewrite delete_id by done. done.
    + apply remove_stream_spec; [done|]. unfold mark_ok. rewrite !mark_sum by lia. lia.
  - intros q1 (Hq1 & Hd1 & Ht1). eapply returns_mono; [apply (IH (k + 1) q1 _ Hq1); lia|].
    intros q2 (M' & Hq2 & Hs2 & Hd2 & Ht2 & Hn2). exists M'. split; [done|].
    split; [etrans; [exact Hs2 | apply delete_subseteq]|]. split; [congruence|]. split; [by auto|].
    intros j Hj. destruct (decide (j = k)) as [->|]; [|apply Hn2; lia].
    destruct (M' !! TC_AVB_MARK c k) eqn:E; [|done]. apply (lookup_weaken _ _ _ _ E) in Hs2.
    by rewrite lookup_delete_eq in Hs2.
Qed.

Lemma finalize_spec q M :
  qmgr_holds q M -> qd_ref (qm_disc q) = 1 -> qd_mode (qm_disc q) <> AVB_SHAPER_DISABLED ->
  returns (openavbQmgrFinalize q) (fun q' =>
    qmgr_holds q' ∅ /\ qd_ref (qm_disc q') = 0 /\ (shaper_accepts -> told q M -> told q' ∅)).
Proof.
  intros Hq Href Hmode. unfold openavbQmgrFinalize. rewrite Href. change (s32 (1 - 1)) with 0.
  set (q0 := Qm _ _ _ _). assert (qmgr_holds q0 M) as Hq0 by (destruct Hq; by split).
  change (qd_mode (qm_disc q0)) with (qd_mode (qm_disc q)).
  rewrite (proj2 (Z.eqb_neq (qd_mode (qm_disc q)) _)) by exact Hmode. cbn [Z.eqb negb andb].
  change (Z.to_nat MAX_AVB_SR_CLASSES) with 2%nat. cbn [remove_classes].
  eapply returns_bind; [apply (remove_streams_spec 16 0 0 q0 M Hq0); lia|].
  intros q1 (M1 & Hq1 & Hs1 & Hd1 & Ht1 & Hn1).
  eapply returns_bind; [apply (remove_streams_spec 16 1 0 q1 M1 Hq1); lia|].
  intros q2 (M2 & Hq2 & Hs2 & Hd2 & Ht2 & Hn2).
  assert (M2 = ∅) as ->.
  { apply map_empty. intros m. apply eq_None_not_Some. intros [s Hs].
    destruct (held_mark q2 M2 m Hq2 ltac:(by eexists)) as (c & k & Hc & Hk & ->).
    assert (c = 0 \/ c = 1) as [->| ->] by lia.
    - apply (lookup_weaken _ _ _ _ Hs) in Hs2. rewrite Hn1 in Hs2 by lia. done.
    - rewrite Hn2 in Hs by lia. done. }
  cbn. split; [done|]. split; [by rewrite Hd2, Hd1|]. intros Ha Ht. apply Ht2, Ht1; done.
Qed.

(** ** Runs *)

Inductive qmgr_op := QAdd (nClass classRate maxIntervalFrames maxFrameSize : Z) | QRemove (fwmark : Z).

Definition qmgr_do (o : qmgr_op) (q : qmgr) : res (Z * qmgr) :=
  match o with
  | QAdd c r f z => openavbQmgrAddStream c r f z q
  | QRemove m => q ← openavbQmgrRemoveStream m q; Ret (INVALID_FWMARK, q)
  end.
Fixpoint qmgr_run (os : list qmgr_op) (q : qmgr) : res (list Z * qmgr) :=
  match os with
  | [] => Ret ([], q)
  | o :: os => '(m, q) ← qmgr_do o q; '(ms, q) ← qmgr_run os q; Ret (m :: ms, q)
  end.

(** The same operations on a map of reservations. *)
Inductive reserve_run : list qmgr_op -> gmap Z qmgr_stream -> list Z -> gmap Z qmgr_stream -> Prop :=
| ReserveNil M : reserve_run [] M [] M
| ReserveAdd c r f z os M m M1 ms M2 :
    added c r f z M m M1 -> reserve_run os M1 ms M2 ->
    reserve_run (QAdd c r f z :: os) M (m :: ms) M2
| ReserveRemove m os M ms M2 :
    reserve_run os (delete m M) ms M2 ->
    reserve_run (QRemove m :: os) M (INVALID_FWMARK :: ms) M2.

Definition op_ok (o : qmgr_op) : Prop := match o with QAdd _ _ _ _ => True | QRemove m => mark_ok m end.

(** C21: the queue manager keeps exact books.  For every sequence of adding streams
    (with any class, rate, frames and size) and removing marks, given out or not, other
    than the sixteen marks of class A with a stream number from 16 to 31 ([mark_ok]),
    the functions return without a fault and behave as operations
    on a finite map of reservations: a stream that is added gets a mark of its
    class that is not in use, and is refused only for an invalid class or rate, a
    full class or a refusal of the hardware; removing frees that mark and nothing
    else.  At the end the bandwidth of each class is the sum over its
    reservations (modulo 2^32) and, when the hardware accepts every request, so
    is the bandwidth last programmed.  The excepted marks pass the code's checks and
    remove a stream of class B ([qmgr_wild_mark]). *)
Theorem qmgr_refines_reservations os q M :
  qmgr_holds q M -> told q M -> Forall op_ok os ->
  returns (qmgr_run os q) (fun '(ms, q') => exists M',
    reserve_run os M ms M' /\ qmgr_holds q' M' /\ (shaper_accepts -> told q' M')).
Proof.
  intros Hq Ht Hos. assert (shaper_accepts -> told q M) as Ht' by done. clear Ht. revert q M Hq Ht'.
  induction Hos as [|o os Ho _ IH]; intros q M Hq Ht; cbn [qmgr_run].
  { exists M. split; [constructor | done]. }
  destruct o as [c r f z|m]; cbn [qmgr_do].
  - eapply returns_bind; [by apply add_stream_spec|]. intros [m q1] (M1 & Ha & Hq1 & _ & Ht1).
    eapply returns_bind; [apply (IH q1 M1 Hq1); auto|]. intros [ms q2] (M2 & Hr & Hq2).
    exists M2. split; [by econstructor | done].
  - rewrite res_bind_assoc. eapply returns_bind; [by apply remove_stream_spec|]. intros q1 (Hq1 & _ & Ht1).
    rewrite res_bind_ret. eapply returns_bind; [apply (IH q1 _ Hq1); auto|]. intros [ms q2] (M2 & Hr & Hq2).
    exists M2. split; [by constructor | done].
Qed.

End Specs.

(** ** Witness and defects *)

Definition no_hardware : Shaper := fun _ _ _ => 0.
Definition cold_qmgr : qmgr := Qm (Qdisc 0 0 EmptyString 0 0 0 0) [] [] [].
Definition demo_qmgr : qmgr :=
  (openavbQmgrInitialize 5 2 (Some "eth0"%string) 1500 100000 0 cold_qmgr).2.
Definition demo_qmgr_ops : list qmgr_op :=
  [QAdd 0 8000 1 84; QAdd 1 4000 1 256; QAdd 0 8000 2 84; QRemove 256; QAdd 0 8000 1 1000; QAdd 7 8000 1 1].

Lemma demo_qmgr_holds : qmgr_holds demo_qmgr ∅.
Proof. exact (proj1 (proj2 (initialize_spec 5 2 "eth0" 1500 100000 0 cold_qmgr ltac:(cbn; lia)))). Qed.

Lemma qmgr_refines_reservations_witness :
  (exists q', qmgr_run (sh := no_hardware) demo_qmgr_ops demo_qmgr
              = Ret ([256; 512; 257; INVALID_FWMARK; 256; INVALID_FWMARK], q'))
  /\ returns (qmgr_run (sh := no_hardware) demo_qmgr_ops demo_qmgr) (fun '(ms, q') => exists M',
       reserve_run (sh := no_hardware) demo_qmgr_ops ∅ ms M' /\ qmgr_holds q' M'
       /\ (shaper_accepts (sh := no_hardware) -> told q' M')).
Proof.
  split; [eexists; vm_compute; reflexivity|].
  apply (qmgr_refines_reservations (sh := no_hardware)).
  - exact demo_qmgr_holds.
  - intros _ c Hc. reflexivity.
  - repeat apply Forall_cons_2; try exact I; [|apply Forall_nil_2].
    unfold op_ok, mark_ok. vm_compute. intros [H _]. by apply H.
Defined.

(** A mark of class A with a stream number of 16 or more passes the checks and
    removes a stream of class B, whose rate is taken off class A: stream 20 of
    class A is slot 4 of class B here. *)
Theorem qmgr_wild_mark :
  ('(_, q1) ← qmgr_run (sh := no_hardware) (replicate 5 (QAdd 1 4000 1 58)) demo_qmgr;
   q2 ← openavbQmgrRemoveStream (sh := no_hardware) (TC_AVB_MARK 0 20) q1;
   Ret (qmgr_classes q1, qmgr_classes q2, qmgr_streams q2 !! 20%nat))
  = Ret ([0; 2000000], [u32 (0 - 400000); 2000000], Some no_stream).
Proof. vm_compute. reflexivity. Qed.

(** The rate is computed in 32 bits: 16 of the largest frames in each of 8000
    intervals a second are accepted and booked below their rate. *)
Theorem qmgr_rate_wraps :
  stream_rate 8000 16 65535 < 16 * (65535 + 42) * 8000
  /\ ('(m, q) ← openavbQmgrAddStream (sh := no_hardware) 0 8000 16 65535 demo_qmgr;
      Ret (m, qmgr_classes q)) = Ret (256, [stream_rate 8000 16 65535; 0]).
Proof. split; vm_compute; reflexivity. Qed.

(** Finalizing once too often leaves the reference count at -1: the next two
    initializations both clear the reservations. *)
Theorem qmgr_unbalanced_finalize :
  let start := openavbQmgrInitialize 5 2 (Some "eth0"%string) 1500 100000 0 in
  (q0 ← openavbQmgrFinalize (sh := no_hardware) cold_qmgr;
   '(_, q1) ← openavbQmgrAddStream (sh := no_hardware) 0 8000 1 84 (start q0).2;
   Ret (qmgr_classes q1, qmgr_classes (start q1).2)) = Ret ([1008000; 0], [0; 0]).
Proof. vm_compute. reflexivity. Qed.
