(* ===== verification/Endpoint.v ===== *)
(** * The endpoint process (lib/avtp_pipeline/endpoint, platform/Linux/endpoint)

    The master process of the AVTP pipeline: talkers and listeners connect to it,
    declare their streams, and are told when SRP has reserved them.  For a stream
    the endpoint holds a record in its stream list, an element in the list of the
    SRP proxy (with a pointer back to the record), a multicast address of the MAAP
    proxy and a reservation of the queue manager.

    Records and elements are values at numbered addresses, so that a pointer to
    one that was freed is a fault. *)

From S2P Require Import Prelude AvtpTime Qmgr.
From Stdlib Require Import ZArith Lia String.
From stdpp Require Import base tactics list option strings.
Open Scope Z_scope.

(** ** Data *)

Record AVBStreamID := StreamID { si_addr : list Z; si_uniqueID : Z }.
Record AVBTSpec := TSpec { maxFrameSize : Z; maxIntervalFrames : Z }.

#[export] Instance AVBStreamID_eq_dec : EqDecision AVBStreamID.
Proof. solve_decision. Defined.

Definition openavbSrp_LDSt_None : Z := 0.
Definition openavbSrp_LDSt_Asking_Failed : Z := 1.
Definition openavbSrp_LDSt_Ready : Z := 2.
Definition openavbSrp_LDSt_Ready_Failed : Z := 3.
Definition openavbSrp_LDSt_Stream_Info : Z := 0xFE.
Definition openavbSrp_LDSt_Interest : Z := 0xFF.
Definition openavbSrp_AtTyp_None : Z := 0.
Definition openavbSrp_AtTyp_TalkerAdvertise : Z := 1.

Inductive clientRole_t := clientNone | clientTalker | clientListener.

#[export] Instance clientRole_eq_dec : EqDecision clientRole_t.
Proof. solve_decision. Defined.

(** A MAAP handle is the index of its entry in [maapAllocList]. *)
Record clientStream := ClientStream {
  clientHandle : Z;
  cs_streamID : AVBStreamID;
  cs_role : clientRole_t;
  cs_tSpec : AVBTSpec;
  cs_srClass : Z;
  cs_srRank : Z;
  cs_latency : Z;
  cs_priority : Z;
  cs_vlanID : Z;
  cs_classRate : Z;
  hndMaap : option nat;
  cs_destAddr : list Z;
  cs_fwmark : Z
}.

Record strElem := StrElem {
  avtpHandle : positive;
  se_talker : bool;
  se_streamId : list Z;
  se_destAddr : list Z;
  se_vlanId : Z;
  se_maxFrameSize : Z;
  se_maxIntervalFrames : Z;
  se_priority : Z;
  se_latency : Z;
  se_subtype : Z
}.

(** Messages of clients, and to clients. *)
Inductive client_msg :=
| OPENAVB_ENDPOINT_TALKER_REGISTER (id : AVBStreamID) (destAddr : list Z) (tSpec : AVBTSpec)
    (srClass srRank latency : Z)
| OPENAVB_ENDPOINT_LISTENER_ATTACH (id : AVBStreamID) (lsnrDecl : Z)
| OPENAVB_ENDPOINT_CLIENT_STOP (id : AVBStreamID)
| OPENAVB_ENDPOINT_VERSION_REQUEST
| OPENAVB_ENDPOINT_UNEXPECTED.

Inductive server_msg :=
| OPENAVB_ENDPOINT_TALKER_CALLBACK (id : AVBStreamID) (ifname : string) (destAddr : list Z)
    (lsnrDecl classRate vlanID priority fwmark : Z)
| OPENAVB_ENDPOINT_LISTENER_CALLBACK (id : AVBStreamID) (ifname : string) (destAddr : list Z)
    (tlkrDecl : Z) (tSpec : AVBTSpec) (srClass latency : Z)
| OPENAVB_ENDPOINT_VERSION_CALLBACK (version : Z).

Record ep_cfg := EpCfg { noSrp : bool; ep_ifname : string; ifmac : list Z; core_version : Z }.

(** The static data of the process; [ep_fds] says which sockets of the poll table
    are open, [ep_sent] what was written to them, and [ep_calls] counts the calls
    whose outcome the environment decides. *)
Record ep := Ep {
  x_streamList : list (positive * clientStream);
  strElemList : list (positive * strElem);
  maapAllocList : list (list Z * bool);
  ep_qmgr : qmgr;
  ep_fds : list bool;
  ep_sent : list (Z * server_msg);
  srp_callbacks : bool;
  ep_next : positive;
  ep_calls : nat
}.

(** Memory, sockets and the MRP client: whether an allocation succeeds, whether a
    message is written whole, the result of advertising a stream, and the
    priority and VLAN of the two classes. *)
Class EndpointEnv := {
  ee_calloc : nat -> bool;
  ee_write : nat -> bool;
  mrp_advertise_stream : nat -> Z;
  domain_class_a : nat -> Z * Z;
  domain_class_b : nat -> Z * Z
}.

Definition with_streams l s :=
  Ep l (strElemList s) (maapAllocList s) (ep_qmgr s) (ep_fds s) (ep_sent s) (srp_callbacks s) (ep_next s) (ep_calls s).
Definition with_elems l s :=
  Ep (x_streamList s) l (maapAllocList s) (ep_qmgr s) (ep_fds s) (ep_sent s) (srp_callbacks s) (ep_next s) (ep_calls s).
Definition with_maap l s :=
  Ep (x_streamList s) (strElemList s) l (ep_qmgr s) (ep_fds s) (ep_sent s) (srp_callbacks s) (ep_next s) (ep_calls s).
Definition with_qmgr q s :=
  Ep (x_streamList s) (strElemList s) (maapAllocList s) q (ep_fds s) (ep_sent s) (srp_callbacks s) (ep_next s) (ep_calls s).
Definition with_fds l s :=
  Ep (x_streamList s) (strElemList s) (maapAllocList s) (ep_qmgr s) l (ep_sent s) (srp_callbacks s) (ep_next s) (ep_calls s).
Definition with_sent l s :=
  Ep (x_streamList s) (strElemList s) (maapAllocList s) (ep_qmgr s) (ep_fds s) l (srp_callbacks s) (ep_next s) (ep_calls s).
Definition tick s :=
  Ep (x_streamList s) (strElemList s) (maapAllocList s) (ep_qmgr s) (ep_fds s) (ep_sent s) (srp_callbacks s)
    (ep_next s) (S (ep_calls s)).
Definition alloc s :=
  Ep (x_streamList s) (strElemList s) (maapAllocList s) (ep_qmgr s) (ep_fds s) (ep_sent s) (srp_callbacks s)
    (Pos.succ (ep_next s)) (ep_calls s).

(** ** Lists of allocated records *)

Fixpoint at_addr {A} (p : positive) (l : list (positive * A)) : option A :=
  match l with
  | [] => None
  | (k, a) :: l => if decide (k = p) then Some a else at_addr p l
  end.
Fixpoint upd_addr {A} (p : positive) (f : A -> A) (l : list (positive * A)) : list (positive * A) :=
  match l with
  | [] => []
  | (k, a) :: l => if decide (k = p) then (k, f a) :: l else (k, a) :: upd_addr p f l
  end.
Fixpoint del_addr {A} (p : positive) (l : list (positive * A)) : list (positive * A) :=
  match l with
  | [] => []
  | (k, a) :: l => if decide (k = p) then l else (k, a) :: del_addr p l
  end.
Fixpoint first_addr {A} (f : A -> bool) (l : list (positive * A)) : option positive :=
  match l with
  | [] => None
  | (k, a) :: l => if f a then Some k else first_addr f l
  end.

Definition get_stream (s : ep) (p : positive) : res clientStream :=
  match at_addr p (x_streamList s) with Some c => Ret c | None => Fault (UseAfterFree (Zpos p)) end.
Definition set_stream (s : ep) (p : positive) (f : clientStream -> clientStream) : res ep :=
  _ ← get_stream s p; Ret (with_streams (upd_addr p f (x_streamList s)) s).
Definition get_elem (s : ep) (p : positive) : res strElem :=
  match at_addr p (strElemList s) with Some e => Ret e | None => Fault (UseAfterFree (Zpos p)) end.

Definition with_fwmark m c :=
  ClientStream (clientHandle c) (cs_streamID c) (cs_role c) (cs_tSpec c) (cs_srClass c) (cs_srRank c) (cs_latency c)
    (cs_priority c) (cs_vlanID c) (cs_classRate c) (hndMaap c) (cs_destAddr c) m.
Definition with_class prio vid rate c :=
  ClientStream (clientHandle c) (cs_streamID c) (cs_role c) (cs_tSpec c) (cs_srClass c) (cs_srRank c) (cs_latency c)
    prio vid rate (hndMaap c) (cs_destAddr c) (cs_fwmark c).
Definition with_dest h a c :=
  ClientStream (clientHandle c) (cs_streamID c) (cs_role c) (cs_tSpec c) (cs_srClass c) (cs_srRank c) (cs_latency c)
    (cs_priority c) (cs_vlanID c) (cs_classRate c) h a (cs_fwmark c).
Definition with_role r c :=
  ClientStream (clientHandle c) (cs_streamID c) r (cs_tSpec c) (cs_srClass c) (cs_srRank c) (cs_latency c)
    (cs_priority c) (cs_vlanID c) (cs_classRate c) (hndMaap c) (cs_destAddr c) (cs_fwmark c).
Definition with_talker t srClass srRank latency c :=
  ClientStream (clientHandle c) (cs_streamID c) clientTalker t srClass srRank latency
    (cs_priority c) (cs_vlanID c) (cs_classRate c) (hndMaap c) (cs_destAddr c) INVALID_FWMARK.
Definition with_subtype n e :=
  StrElem (avtpHandle e) (se_talker e) (se_streamId e) (se_destAddr e) (se_vlanId e) (se_maxFrameSize e)
    (se_maxIntervalFrames e) (se_priority e) (se_latency e) n.

Definition ETH_ALEN : nat := 6.
Definition emptyMAC : list Z := replicate ETH_ALEN 0.

Section Ops.
Context {ee : EndpointEnv} {sh : Shaper} (cfg : ep_cfg).

(** ** The stream list (openavb_endpoint.c) *)

Definition new_stream (h : Z) (id : AVBStreamID) : clientStream :=
  ClientStream h id clientNone (TSpec 0 0) 0 0 0 0 0 0 None emptyMAC INVALID_FWMARK.

Definition addStream (h : Z) (id : AVBStreamID) (s : ep) : option positive * ep :=
  if ee_calloc (ep_calls s) then
    let p := ep_next s in
    (Some p, alloc (tick (with_streams (x_streamList s ++ [(p, new_stream h id)]) s)))
  else (None, tick s).

Definition delStream (p : positive) (s : ep) : ep := with_streams (del_addr p (x_streamList s)) s.

Definition same_id (a b : AVBStreamID) : bool :=
  (memcmp (si_addr a) (si_addr b) =? 0) && (si_uniqueID a =? si_uniqueID b).

(** The identifier comes back with the address of the interface in place of the
    empty one. *)
Definition fill_id (id : AVBStreamID) : AVBStreamID :=
  if memcmp (si_addr id) emptyMAC =? 0 then StreamID (ifmac cfg) (si_uniqueID id) else id.
Definition findStream (id : AVBStreamID) (s : ep) : AVBStreamID * option positive :=
  let id := fill_id id in
  (id, first_addr (fun c => same_id id (cs_streamID c)) (x_streamList s)).

(** ** The MAAP proxy (openavb_endpoint_osal.c) *)

Definition openavbMaapInitialize : list (list Z * bool) :=
  (fun i => ([0x91; 0xe0; 0xf0; 0x00; 0x0e; u8 (0x80 + Z.of_nat i)], false))
    <$> seq 0 (Z.to_nat MAX_AVB_STREAMS).

Fixpoint maap_untaken (l : list (list Z * bool)) (i : nat) : option (nat * list Z) :=
  match l with
  | [] => None
  | (a, taken) :: l => if taken : bool then maap_untaken l (S i) else Some (i, a)
  end.
Definition set_taken (i : nat) (b : bool) (s : ep) : ep :=
  with_maap (alter (fun e => (e.1, b)) i (maapAllocList s)) s.
Definition openavbMaapAllocate (s : ep) : option (nat * list Z) * ep :=
  match maap_untaken (maapAllocList s) 0 with
  | Some (i, a) => (Some (i, a), set_taken i true s)
  | None => (None, s)
  end.
Definition openavbMaapRelease (i : nat) (s : ep) : ep := set_taken i false s.

(** ** The SRP proxy (openavb_endpoint_osal.c) *)

Definition srp_id (id : AVBStreamID) : list Z :=
  take ETH_ALEN (si_addr id) ++ [u8 (Z.shiftr (si_uniqueID id) 8); Z.land (si_uniqueID id) 0xFF].

Definition find_elem (f : strElem -> bool) (s : ep) : option positive := first_addr f (strElemList s).
Definition has_id (id : list Z) (e : strElem) : bool := memcmp id (se_streamId e) =? 0.

(** [openavbListNew] allocates the data and then the node. *)
Definition new_elem (e : strElem) (s : ep) : option positive * ep :=
  if ee_calloc (ep_calls s) then
    let s := tick s in
    if ee_calloc (ep_calls s) then
      let p := ep_next s in
      (Some p, alloc (tick (with_elems (strElemList s ++ [(p, e)]) s)))
    else (None, tick s)
  else (None, tick s).

Definition class_params (srClass : Z) (s : ep) : option (Z * Z * Z) :=
  if srClass =? 0 then let '(p, v) := domain_class_a (ep_calls s) in Some (p, v, 8000)
  else if srClass =? 1 then let '(p, v) := domain_class_b (ep_calls s) in Some (p, v, 4000)
  else None.
Definition openavbSrpGetClassParams := class_params.

(** The element is added before the class is looked at, and stays when the stream
    cannot be advertised. *)
Definition openavbSrpRegisterStream (handle : positive) (id : AVBStreamID) (DA : list Z)
  (t : AVBTSpec) (srClass latency : Z) (s : ep) : bool * ep :=
  let domain := match class_params srClass (tick (tick s)) with Some (p, v, _) => (p, v) | None => (0, 0) end in
  match new_elem (StrElem handle true (srp_id id) DA domain.2 (maxFrameSize t) (maxIntervalFrames t)
                    domain.1 latency openavbSrp_LDSt_None) s with
  | (None, s) => (false, s)
  | (Some _, s) =>
      match class_params srClass s with
      | None => (false, s)
      | Some _ => (mrp_advertise_stream (ep_calls s) =? 0, tick s)
      end
  end.

(** Errors of the MRP client are only logged here. *)
Definition openavbSrpDeregisterStream (id : AVBStreamID) (s : ep) : ep :=
  match find_elem (has_id (srp_id id)) s with
  | Some p => with_elems (del_addr p (strElemList s)) (tick s)
  | None => s
  end.
Definition openavbSrpDetachStream := openavbSrpDeregisterStream.

Definition openavbSrpAttachStream (handle : positive) (id : AVBStreamID) (type : Z) (s : ep) : bool * ep :=
  match find_elem (has_id (srp_id id)) s with
  | Some _ => (true, tick s)
  | None =>
      match new_elem (StrElem handle false (srp_id id) emptyMAC 0 0 0 0 0 type) s with
      | (None, s) => (false, s)
      | (Some _, s) => (true, tick s)
      end
  end.

(** ** Leaving *)

Definition x_talkerDeregister (p : positive) (s : ep) : res (bool * ep) :=
  ps ← get_stream s p;
  let s := if noSrp cfg then s else openavbSrpDeregisterStream (cs_streamID ps) s in
  s ← (if cs_fwmark ps =? INVALID_FWMARK then Ret s
       else q ← openavbQmgrRemoveStream (cs_fwmark ps) (ep_qmgr s);
            set_stream (with_qmgr q s) p (with_fwmark INVALID_FWMARK));
  s ← (match hndMaap ps with
       | Some i => set_stream (openavbMaapRelease i s) p (fun c => with_dest None (cs_destAddr c) c)
       | None => Ret s
       end);
  Ret (true, delStream p s).

Definition x_listenerDetach (p : positive) (s : ep) : res (bool * ep) :=
  ps ← get_stream s p;
  let s := if noSrp cfg then s else openavbSrpDetachStream (cs_streamID ps) s in
  Ret (true, delStream p s).

Definition leave (p : positive) (s : ep) : res (bool * ep) :=
  ps ← get_stream s p;
  match cs_role ps with
  | clientTalker => x_talkerDeregister p s
  | clientListener => x_listenerDetach p s
  | clientNone => Ret (false, s)
  end.

(** Only the first stream of the client is looked for. *)
Definition openavbEptSrvrCloseClientConnection (h : Z) (s : ep) : res ep :=
  match first_addr (fun c => clientHandle c =? h) (x_streamList s) with
  | Some p => '(_, s) ← leave p s; Ret s
  | None => Ret s
  end.

(** ** Sockets (openavb_endpoint_server_osal.c) *)

Definition POLL_FD_COUNT : Z := MAX_AVB_STREAMS + 1.
Definition AVB_ENDPOINT_LISTEN_FDS : Z := 0.

Definition fd_open (h : Z) (s : ep) : bool :=
  if h <? 0 then false else default false (ep_fds s !! Z.to_nat h).

Definition socketClose (h : Z) (s : ep) : res ep :=
  if (h <? 0) || (POLL_FD_COUNT <=? h) then Ret s
  else s ← openavbEptSrvrCloseClientConnection h s;
       Ret (with_fds (<[Z.to_nat h := false]> (ep_fds s)) s).

Definition openavbEptSrvrSendToClient (h : Z) (msg : server_msg) (s : ep) : res (bool * ep) :=
  if (h <? 0) || (POLL_FD_COUNT <=? h) then Ret (false, s)
  else if negb (fd_open h s) then Ret (false, s)
  else if ee_write (ep_calls s) then Ret (true, with_sent (ep_sent s ++ [(h, msg)]) (tick s))
  else s ← socketClose h (tick s); Ret (false, s).

(** ** Callbacks of SRP (openavb_endpoint.c) *)

Definition openavbEptSrvrNotifyTlkrOfSrpCb (ps : clientStream) (lsnrDecl : Z) (s : ep) : res ep :=
  '(_, s) ← openavbEptSrvrSendToClient (clientHandle ps)
     (OPENAVB_ENDPOINT_TALKER_CALLBACK (cs_streamID ps) (String.substring 0 15 (ep_ifname cfg)) (cs_destAddr ps)
        lsnrDecl (cs_classRate ps) (cs_vlanID ps) (cs_priority ps) (cs_fwmark ps)) s;
  Ret s.

(** The queues of the stream are set up or torn down; [false] is a failure, after
    which the talker is not told. *)
Definition attach_queues (p : positive) (lsnrDecl : Z) (s : ep) : res (bool * ep) :=
  ps ← get_stream s p;
  if (lsnrDecl =? openavbSrp_LDSt_Ready) || (lsnrDecl =? openavbSrp_LDSt_Ready_Failed) then
    if negb (cs_fwmark ps =? INVALID_FWMARK) then Ret (true, s)
    else match openavbSrpGetClassParams (cs_srClass ps) s with
         | None => Ret (false, s)
         | Some (prio, vid, rate) =>
             s ← set_stream s p (with_class prio vid rate);
             '(m, q) ← openavbQmgrAddStream (cs_srClass ps) rate (maxIntervalFrames (cs_tSpec ps))
                         (maxFrameSize (cs_tSpec ps)) (ep_qmgr s);
             s ← set_stream (with_qmgr q s) p (with_fwmark m);
             Ret (negb (m =? INVALID_FWMARK), s)
         end
  else if cs_fwmark ps =? INVALID_FWMARK then Ret (true, s)
  else q ← openavbQmgrRemoveStream (cs_fwmark ps) (ep_qmgr s);
       s ← set_stream (with_qmgr q s) p (with_fwmark INVALID_FWMARK);
       Ret (true, s).

Definition strmAttachCb (p : positive) (lsnrDecl : Z) (s : ep) : res (bool * ep) :=
  '(ok, s) ← attach_queues p lsnrDecl s;
  if ok : bool then
    ps ← get_stream s p;
    s ← openavbEptSrvrNotifyTlkrOfSrpCb ps lsnrDecl s;
    Ret (true, s)
  else Ret (false, s).

Definition openavbEptSrvrNotifyLstnrOfSrpCb (ps : clientStream) (destAddr : list Z) (tlkrDecl : Z) (t : AVBTSpec)
  (srClass latency : Z) (s : ep) : res ep :=
  '(_, s) ← openavbEptSrvrSendToClient (clientHandle ps)
     (OPENAVB_ENDPOINT_LISTENER_CALLBACK (cs_streamID ps) (String.substring 0 15 (ep_ifname cfg)) destAddr tlkrDecl
        t (u8 srClass) latency) s;
  Ret s.

Definition strmRegCb (p : positive) (tlkrDecl : Z) (destAddr : list Z) (t : AVBTSpec) (srClass accumLatency : Z)
  (s : ep) : res ep :=
  ps ← get_stream s p;
  openavbEptSrvrNotifyLstnrOfSrpCb ps destAddr tlkrDecl t srClass accumLatency s.

(** What the MRP client reports: a change of the listeners of a talker's stream, and
    of the talker of a listener's stream.  The callback may free the element. *)
Definition mrp_attach_cb (streamid : list Z) (subtype : Z) (s : ep) : res ep :=
  if srp_callbacks s then
    match find_elem (fun e => se_talker e && has_id streamid e) s with
    | None => Ret s
    | Some k =>
        e ← get_elem s k;
        if se_subtype e =? subtype then Ret s
        else '(_, s) ← strmAttachCb (avtpHandle e) subtype s;
             _ ← get_elem s k;
             Ret (with_elems (upd_addr k (with_subtype subtype) (strElemList s)) s)
    end
  else Ret s.

Definition mrp_register_cb (streamid : list Z) (join : Z) (destaddr : list Z) (max_frame_size max_interval_frames : Z)
  (latency : Z) (s : ep) : res ep :=
  if srp_callbacks s then
    match find_elem (fun e => negb (se_talker e) && has_id streamid e) s with
    | None => Ret s
    | Some k =>
        e ← get_elem s k;
        if se_subtype e =? join then Ret s
        else s ← strmRegCb (avtpHandle e)
                   (if join =? 0 then openavbSrp_AtTyp_None else openavbSrp_AtTyp_TalkerAdvertise)
                   destaddr (TSpec (u16 max_frame_size) (u16 max_interval_frames)) 0 latency s;
             _ ← get_elem s k;
             Ret (with_elems (upd_addr k (with_subtype join) (strElemList s)) s)
    end
  else Ret s.

(** ** Requests of clients (openavb_endpoint_server.c) *)

Definition foreign (h : Z) (o : option positive) (s : ep) : res bool :=
  match o with
  | Some p => ps ← get_stream s p; Ret (negb (clientHandle ps =? h))
  | None => Ret false
  end.

(** The destination address: the client's, or one from MAAP, of which the talker is
    told at once.  [false]: no address is left, and the stream is deleted. *)
Definition choose_address (p : positive) (destAddr : list Z) (s : ep) : res (bool * ep) :=
  ps ← get_stream s p;
  if memcmp (cs_destAddr ps) destAddr =? 0 then
    match openavbMaapAllocate s with
    | (Some (i, addr), s) =>
        s ← set_stream s p (with_dest (Some i) addr);
        '(_, s) ← strmAttachCb p openavbSrp_LDSt_Stream_Info s;
        Ret (true, s)
    | (None, s) => Ret (false, delStream p s)
    end
  else s ← set_stream s p (with_dest None destAddr); Ret (true, s).

Definition openavbEptSrvrRegisterStream (h : Z) (id : AVBStreamID) (destAddr : list Z) (t : AVBTSpec)
  (srClass srRank latency : Z) (s : ep) : res (bool * ep) :=
  let '(id, o) := findStream id s in
  other ← foreign h o s;
  if other : bool then Ret (false, s)
  else match addStream h id s with
       | (None, s) => Ret (false, s)
       | (Some p, s) =>
           s ← set_stream s p (with_talker t srClass srRank latency);
           '(ok, s) ← choose_address p destAddr s;
           if negb ok then Ret (false, s)
           else if noSrp cfg then '(_, s) ← strmAttachCb p openavbSrp_LDSt_Ready s; Ret (true, s)
           else
             ps ← get_stream s p;
             let '(ok, s) := openavbSrpRegisterStream p (cs_streamID ps) (cs_destAddr ps) (cs_tSpec ps)
                               (cs_srClass ps) (cs_latency ps) s in
             if ok : bool then Ret (true, s)
             else Ret (false, delStream p (match hndMaap ps with
                                           | Some i => openavbMaapRelease i s
                                           | None => s
                                           end))
       end.

Definition openavbEptSrvrAttachStream (h : Z) (id : AVBStreamID) (ld : Z) (s : ep) : res (bool * ep) :=
  let '(id, o) := findStream id s in
  other ← foreign h o s;
  if other : bool then Ret (false, s)
  else
    '(o, s) ← (match o with
               | Some p => Ret (Some p, s)
               | None => match addStream h id s with
                         | (Some p, s) => s ← set_stream s p (with_role clientListener); Ret (Some p, s)
                         | (None, s) => Ret (None, s)
                         end
               end);
    match o with
    | None => Ret (false, s)
    | Some p =>
        if noSrp cfg then
          s ← (if ld =? openavbSrp_LDSt_Interest
               then strmRegCb p openavbSrp_AtTyp_TalkerAdvertise emptyMAC (TSpec 0 0) MAX_AVB_SR_CLASSES 1 s
               else Ret s);
          Ret (true, s)
        else
          let '(ok, s) := openavbSrpAttachStream p id ld s in
          Ret (ok, if ok : bool then s else delStream p s)
    end.

Definition openavbEptSrvrStopStream (h : Z) (id : AVBStreamID) (s : ep) : res (bool * ep) :=
  let '(_, o) := findStream id s in
  other ← foreign h o s;
  match o with
  | Some p => if other : bool then Ret (false, s) else leave p s
  | None => Ret (false, s)
  end.

Definition openavbEptSrvrSendServerVersionToClient (h : Z) (s : ep) : res ep :=
  '(_, s) ← openavbEptSrvrSendToClient h (OPENAVB_ENDPOINT_VERSION_CALLBACK (core_version cfg)) s; Ret s.
Definition openavbEptSrvrHndlVerRqstFromClient (h : Z) (s : ep) : res (bool * ep) :=
  s ← openavbEptSrvrSendServerVersionToClient h s; Ret (true, s).

Definition openavbEptSrvrReceiveFromClient (h : Z) (msg : client_msg) (s : ep) : res (bool * ep) :=
  match msg with
  | OPENAVB_ENDPOINT_TALKER_REGISTER id destAddr t srClass srRank latency =>
      openavbEptSrvrRegisterStream h id destAddr t srClass srRank latency s
  | OPENAVB_ENDPOINT_LISTENER_ATTACH id ld => openavbEptSrvrAttachStream h id ld s
  | OPENAVB_ENDPOINT_CLIENT_STOP id => openavbEptSrvrStopStream h id s
  | OPENAVB_ENDPOINT_VERSION_REQUEST => openavbEptSrvrHndlVerRqstFromClient h s
  | OPENAVB_ENDPOINT_UNEXPECTED => Ret (false, s)
  end.

(** ** The event loop *)

(** What one entry of the poll table reports, and the callbacks of the MRP client. *)
Inductive ep_event :=
| EvConnect
| EvMessage (h : Z) (msg : client_msg)
| EvHangup (h : Z)
| EvMrpAttach (streamid : list Z) (subtype : Z)
| EvMrpRegister (streamid : list Z) (join : Z) (destaddr : list Z) (fsize fframes latency : Z).

Fixpoint first_closed (l : list bool) (i : nat) : option nat :=
  match l with
  | [] => None
  | b :: l => if b : bool then first_closed l (S i) else Some i
  end.

(** The part of [openavbEptSrvrService] for one socket that reports something; only
    sockets of clients that are open are read. *)
Definition client_open (h : Z) (s : ep) : bool := negb (h =? AVB_ENDPOINT_LISTEN_FDS) && fd_open h s.
Definition openavbEptSrvrService (e : ep_event) (s : ep) : res ep :=
  match e with
  | EvConnect =>
      Ret (match first_closed (ep_fds s) 0 with
           | Some j => with_fds (<[j := true]> (ep_fds s)) s
           | None => s
           end)
  | EvMessage h msg =>
      if client_open h s then
        '(ok, s) ← openavbEptSrvrReceiveFromClient h msg s;
        if ok : bool then Ret s else socketClose h s
      else Ret s
  | EvHangup h => if client_open h s then socketClose h s else Ret s
  | EvMrpAttach id subtype => mrp_attach_cb id subtype s
  | EvMrpRegister id join da fs ff lat => mrp_register_cb id join da fs ff lat s
  end.

Fixpoint ep_run (es : list ep_event) (s : ep) : res ep :=
  match es with
  | [] => Ret s
  | e :: es => s ← openavbEptSrvrService e s; ep_run es s
  end.

(** What [avbEndpointLoop] sets up before it serves clients, when nothing fails: an
    empty stream list, the queue manager, MAAP, SRP unless it is disabled, and the
    listening socket in the first entry of the poll table. *)
Definition endpoint_start (fqtss_mode ifindex mtu link_kbit nsr_kbit : Z) (q : qmgr) : ep :=
  Ep [] [] openavbMaapInitialize
    (openavbQmgrInitialize fqtss_mode ifindex (Some (ep_ifname cfg)) mtu link_kbit nsr_kbit q).2
    (true :: replicate (Z.to_nat MAX_AVB_STREAMS) false) [] (negb (noSrp cfg)) 1%positive 0%nat.

End Ops.
