(* ===== verification/EndpointProps.v ===== *)
(** * Ownership in the endpoint process

    The invariant of the endpoint: the elements of the SRP proxy point to the
    streams of the stream list in the same order, the reservations of the queue
    manager are exactly those of the streams that hold a mark, and the addresses
    taken from MAAP exactly those the streams hold. *)

From S2P Require Import Prelude AvtpTime Qmgr Endpoint.
From Stdlib Require Import ZArith Lia String.
From stdpp Require Import base tactics list option gmap fin_maps strings.
Open Scope Z_scope.

(** ** Lists of allocated records *)

Section Addr.
Context {A : Type}.
Implicit Types l : list (positive * A).

Lemma at_addr_split p l a :
  at_addr p l = Some a -> exists l1 l2, l = l1 ++ (p, a) :: l2 /\ p ∉ l1.*1.
Proof.
  induction l as [|[k b] l IH]; [done|]. cbn [at_addr]. case_decide as H.
  - intros [= ->]. subst k. exists [], l. split; [done | apply not_elem_of_nil].
  - intros (l1 & l2 & -> & Hp)%IH. exists ((k, b) :: l1), l2. split; [done|]. cbn. set_solver.
Qed.
Lemma at_addr_mid p l1 a l2 : p ∉ l1.*1 -> at_addr p (l1 ++ (p, a) :: l2) = Some a.
Proof.
  induction l1 as [|[k b] l1 IH]; cbn; [by rewrite decide_True|]. intros Hp.
  rewrite decide_False by set_solver. apply IH. set_solver.
Qed.
Lemma upd_addr_mid p f l1 a l2 : p ∉ l1.*1 -> upd_addr p f (l1 ++ (p, a) :: l2) = l1 ++ (p, f a) :: l2.
Proof.
  induction l1 as [|[k b] l1 IH]; cbn; [by rewrite decide_True|]. intros Hp.
  rewrite decide_False by set_solver. f_equal. apply IH. set_solver.
Qed.
Lemma del_addr_mid p l1 a l2 : p ∉ l1.*1 -> del_addr p (l1 ++ (p, a) :: l2) = l1 ++ l2.
Proof.
  induction l1 as [|[k b] l1 IH]; cbn; [by rewrite decide_True|]. intros Hp.
  rewrite decide_False by set_solver. f_equal. apply IH. set_solver.
Qed.
Lemma first_addr_split f l p :
  first_addr f l = Some p ->
  exists l1 a l2, l = l1 ++ (p, a) :: l2 /\ f a = true /\ Forall (fun x => f x.2 = false) l1.
Proof.
  induction l as [|[k b] l IH]; [done|]. cbn [first_addr]. destruct (f b) eqn:E.
  - intros [= ->]. by exists [], b, l.
  - intros (l1 & a & l2 & -> & Ha & Hl)%IH. exists ((k, b) :: l1), a, l2. split; [done|]. split; [done|].
    by constructor.
Qed.
Lemma first_addr_none f l : first_addr f l = None -> Forall (fun x => f x.2 = false) l.
Proof.
  induction l as [|[k b] l IH]; [done|]. cbn [first_addr]. destruct (f b) eqn:E; [done|]. constructor; auto.
Qed.
Lemma first_addr_mid f l1 p a l2 :
  Forall (fun x => f x.2 = false) l1 -> f a = true -> first_addr f (l1 ++ (p, a) :: l2) = Some p.
Proof. induction 1 as [|[k b] l1 H _ IH]; cbn; intros Ha; [by rewrite Ha|]. cbn in H. rewrite H. auto. Qed.
Lemma first_addr_all_false f l : Forall (fun x => f x.2 = false) l -> first_addr f l = None.
Proof. induction 1 as [|[k b] l H _ IH]; [done|]. cbn in H |- *. by rewrite H. Qed.

Lemma NoDup_split_addr l1 p a l2 : NoDup (l1 ++ (p, a) :: l2).*1 -> p ∉ l1.*1.
Proof. rewrite fmap_app. intros (_ & H & _)%NoDup_app Hp. apply (H p Hp). cbn. set_solver. Qed.
End Addr.

(** ** The books of the queue manager *)

Definition booking (c : clientStream) : Z * qmgr_stream :=
  (cs_fwmark c,
   QStream (stream_rate (cs_classRate c) (maxIntervalFrames (cs_tSpec c)) (maxFrameSize (cs_tSpec c)))
     (cs_classRate c) (maxIntervalFrames (cs_tSpec c)) (maxFrameSize (cs_tSpec c))).
Definition bookings (cs : list clientStream) : list (Z * qmgr_stream) :=
  omap (fun c => if cs_fwmark c =? INVALID_FWMARK then None else Some (booking c)) cs.

(** The reservations are those of the streams, each in the class of its stream. *)
Definition books (cs : list clientStream) (M : gmap Z qmgr_stream) : Prop :=
  map_to_list M ≡ₚ bookings cs
  /\ Forall (fun c => cs_fwmark c <> INVALID_FWMARK -> TC_AVB_MARK_CLASS (cs_fwmark c) = cs_srClass c) cs.

Lemma bookings_app c1 c2 : bookings (c1 ++ c2) = bookings c1 ++ bookings c2.
Proof. apply omap_app. Qed.
Lemma bookings_none c cs : cs_fwmark c = INVALID_FWMARK -> bookings (c :: cs) = bookings cs.
Proof. intros H. cbn. by rewrite H, Z.eqb_refl. Qed.
Lemma bookings_some c cs : cs_fwmark c <> INVALID_FWMARK -> bookings (c :: cs) = booking c :: bookings cs.
Proof. intros H. cbn. by destruct (Z.eqb_spec (cs_fwmark c) INVALID_FWMARK). Qed.

Lemma books_lookup c1 c c2 M :
  books (c1 ++ c :: c2) M -> cs_fwmark c <> INVALID_FWMARK -> M !! cs_fwmark c = Some (booking c).2.
Proof.
  intros [Hp _] Hc. apply elem_of_map_to_list. rewrite Hp, bookings_app, bookings_some by done.
  apply elem_of_app. right. by left.
Qed.

(** A record replaced by one with the same booking. *)
Lemma books_same c1 c c' c2 M :
  bookings [c'] = bookings [c] -> cs_fwmark c' = cs_fwmark c -> cs_srClass c' = cs_srClass c ->
  books (c1 ++ c :: c2) M -> books (c1 ++ c' :: c2) M.
Proof.
  intros Hb Hf Hs [Hp Hc]. split.
  - rewrite Hp, !bookings_app. change (c :: c2) with ([c] ++ c2). change (c' :: c2) with ([c'] ++ c2).
    by rewrite !bookings_app, Hb.
  - rewrite Forall_app, Forall_cons in Hc |- *. by rewrite Hf, Hs.
Qed.
(** A record that gets a mark, and one that gives it back. *)
Lemma books_reserve c1 c c' c2 M :
  cs_fwmark c = INVALID_FWMARK -> cs_fwmark c' <> INVALID_FWMARK -> M !! cs_fwmark c' = None ->
  TC_AVB_MARK_CLASS (cs_fwmark c') = cs_srClass c' ->
  books (c1 ++ c :: c2) M -> books (c1 ++ c' :: c2) (<[(booking c').1 := (booking c').2]> M).
Proof.
  intros Hi Hc' Hm Hcl [Hp Hc]. split.
  - rewrite map_to_list_insert by done. rewrite Hp, !bookings_app, bookings_none, bookings_some by done.
    rewrite Permutation_middle. by destruct (booking c').
  - rewrite Forall_app, Forall_cons in Hc |- *. intuition.
Qed.
Lemma books_release c1 c c2 M rest :
  cs_fwmark c <> INVALID_FWMARK -> bookings rest = [] ->
  Forall (fun c => cs_fwmark c <> INVALID_FWMARK -> TC_AVB_MARK_CLASS (cs_fwmark c) = cs_srClass c) rest ->
  books (c1 ++ c :: c2) M -> books (c1 ++ rest ++ c2) (delete (cs_fwmark c) M).
Proof.
  intros Hc Hr Hf Hb. pose proof (books_lookup _ _ _ _ Hb Hc) as Hl. destruct Hb as [Hp Hcl]. split.
  - rewrite !bookings_app, Hr. cbn [app]. apply (Permutation_cons_inv (a := booking c)).
    rewrite Permutation_middle. rewrite <- (bookings_some c c2), <- bookings_app, <- Hp by done.
    by rewrite <- (map_to_list_delete M _ _ Hl).
  - rewrite Forall_app, Forall_cons in Hcl. rewrite !Forall_app. intuition.
Qed.
Lemma books_unmarked c1 c c2 M :
  cs_fwmark c = INVALID_FWMARK -> books (c1 ++ c :: c2) M <-> books (c1 ++ c2) M.
Proof.
  intros Hc. unfold books. rewrite !bookings_app, bookings_none by done.
  rewrite !Forall_app, Forall_cons. intuition.
Qed.

(** ** The addresses of MAAP *)

Fixpoint taken_from (i : nat) (l : list (list Z * bool)) : list nat :=
  match l with
  | [] => []
  | (_, b) :: l => if b : bool then i :: taken_from (S i) l else taken_from (S i) l
  end.
Definition handles (cs : list clientStream) : list nat := omap hndMaap cs.

(** What is taken is what the streams hold, and each holds its address. *)
Definition maap_ok (cs : list clientStream) (l : list (list Z * bool)) : Prop :=
  l.*1 = openavbMaapInitialize.*1 /\ taken_from 0 l ≡ₚ handles cs
  /\ Forall (fun c => forall i, hndMaap c = Some i -> l.*1 !! i = Some (cs_destAddr c)) cs.

Lemma handles_app c1 c2 : handles (c1 ++ c2) = handles c1 ++ handles c2.
Proof. apply omap_app. Qed.

Lemma alter_fst (l : list (list Z * bool)) i b : (alter (fun e => (e.1, b)) i l).*1 = l.*1.
Proof. revert i. induction l as [|x l IH]; intros [|i]; cbn; f_equal; apply IH. Qed.

Lemma maap_untaken_spec l k i a :
  maap_untaken l k = Some (i, a) ->
  (k <= i)%nat /\ l.*1 !! (i - k)%nat = Some a
  /\ taken_from k (alter (fun e => (e.1, true)) (i - k)%nat l) ≡ₚ i :: taken_from k l.
Proof.
  revert k. induction l as [|[b t] l IH]; intros k; [done|]. cbn [maap_untaken]. destruct t.
  - intros (Hk & Ha & Ht)%IH. split; [lia|]. replace (i - k)%nat with (S (i - S k)) by lia. split; [done|].
    cbn. rewrite Ht. apply Permutation_swap.
  - intros [= -> ->]. rewrite Nat.sub_diag. by split_and!.
Qed.
Lemma taken_release l k i :
  i ∈ taken_from k l ->
  (k <= i)%nat /\ i :: taken_from k (alter (fun e => (e.1, false)) (i - k)%nat l) ≡ₚ taken_from k l.
Proof.
  revert k. induction l as [|[b t] l IH]; intros k; cbn; [by intros ?%elem_of_nil|]. destruct t.
  - intros [->|Hi]%elem_of_cons; [by rewrite Nat.sub_diag|]. apply IH in Hi as [Hk Ht]. split; [lia|].
    replace (i - k)%nat with (S (i - S k)) by lia. cbn. rewrite Permutation_swap. by rewrite Ht.
  - intros Hi. apply IH in Hi as [Hk Ht]. split; [lia|].
    replace (i - k)%nat with (S (i - S k)) by lia. done.
Qed.

Lemma maap_same c1 c c' c2 l :
  hndMaap c' = hndMaap c -> cs_destAddr c' = cs_destAddr c ->
  maap_ok (c1 ++ c :: c2) l -> maap_ok (c1 ++ c' :: c2) l.
Proof.
  intros Hh Hd (Ha & Ht & Hf). split; [done|]. split.
  - rewrite Ht, !handles_app. cbn. by rewrite Hh.
  - rewrite Forall_app, Forall_cons in Hf |- *. by rewrite Hh, Hd.
Qed.
Lemma maap_take c1 c c' c2 l i :
  hndMaap c = None -> hndMaap c' = Some i -> maap_untaken l 0 = Some (i, cs_destAddr c') ->
  maap_ok (c1 ++ c :: c2) l -> maap_ok (c1 ++ c' :: c2) (alter (fun e => (e.1, true)) i l).
Proof.
  intros Hn Hi Hl (Ha & Ht & Hf). apply maap_untaken_spec in Hl as (_ & Hat & Htk). rewrite Nat.sub_0_r in *.
  split; [by rewrite alter_fst|]. split.
  - rewrite Htk, Ht, !handles_app. cbn. rewrite Hn, Hi. apply Permutation_middle.
  - rewrite alter_fst. rewrite Forall_app, Forall_cons in Hf |- *. intuition congruence.
Qed.
Lemma maap_give c1 c c2 l i rest :
  hndMaap c = Some i -> handles rest = [] -> Forall (fun c => hndMaap c = None) rest ->
  maap_ok (c1 ++ c :: c2) l -> maap_ok (c1 ++ rest ++ c2) (alter (fun e => (e.1, false)) i l).
Proof.
  intros Hi Hr Hn (Ha & Ht & Hf).
  assert (i ∈ taken_from 0 l) as Hin.
  { rewrite Ht, handles_app. apply elem_of_app. right. cbn. rewrite Hi. by left. }
  apply taken_release in Hin as [_ Hrel]. rewrite Nat.sub_0_r in Hrel.
  split; [by rewrite alter_fst|]. split.
  - apply (Permutation_cons_inv (a := i)). rewrite Hrel, Ht, !handles_app, Hr. cbn. rewrite Hi.
    symmetry. apply Permutation_middle.
  - rewrite alter_fst, Forall_app, Forall_cons in *. rewrite !Forall_app. intuition.
    eapply Forall_impl; [exact Hn|]. cbn. congruence.
Qed.
Lemma maap_plain c1 c c2 l : hndMaap c = None -> maap_ok (c1 ++ c :: c2) l <-> maap_ok (c1 ++ c2) l.
Proof.
  intros Hc. unfold maap_ok. rewrite !handles_app. cbn [handles omap list_omap]. rewrite Hc.
  rewrite !Forall_app, Forall_cons. intuition congruence.
Qed.

(** ** Streams and SRP elements *)

Definition id_ok (id : AVBStreamID) : Prop :=
  length (si_addr id) = ETH_ALEN /\ bytes_ok (si_addr id) /\ 0 <= si_uniqueID id < 65536.

Lemma same_id_iff a b : id_ok a -> id_ok b -> same_id a b = true <-> a = b.
Proof.
  intros (Ha & _) (Hb & _). unfold same_id. rewrite andb_true_iff, !Z.eqb_eq, memcmp_zero by congruence.
  destruct a, b; cbn. split; [by intros [-> ->] | by intros [= -> ->]].
Qed.

Lemma srp_id_inj a b : id_ok a -> id_ok b -> srp_id a = srp_id b -> a = b.
Proof.
  intros (Ha & _ & Hua) (Hb & _ & Hub). unfold srp_id. rewrite !take_ge by lia.
  intros [E1 E2]%app_inj_1; [|congruence]. injection E2 as E2 E3.
  change 0xFF with (Z.ones 8) in E3. rewrite !Z.land_ones in E3 by lia. rewrite !Z.shiftr_div_pow2 in E2 by lia.
  unfold u8 in E2. change (2 ^ 8) with 256 in *. destruct a, b; cbn in *. f_equal; [done | zdm].
Qed.
Lemma srp_id_len a : id_ok a -> length (srp_id a) = 8%nat.
Proof. intros (Ha & _). unfold srp_id. rewrite take_ge by lia. rewrite length_app, Ha. done. Qed.

(** What the element of a stream has to say. *)
Definition stream_key (x : positive * clientStream) : positive * list Z * bool :=
  (x.1, srp_id (cs_streamID x.2), bool_decide (cs_role x.2 = clientTalker)).
Definition elem_key (y : positive * strElem) : positive * list Z * bool :=
  (avtpHandle y.2, se_streamId y.2, se_talker y.2).
Definition elem_for (x : positive * clientStream) (y : positive * strElem) : Prop := stream_key x = elem_key y.

Lemma elems_for ls es : stream_key <$> ls = elem_key <$> es <-> Forall2 elem_for ls es.
Proof. unfold elem_for. rewrite <- Forall2_fmap, list_eq_Forall2. done. Qed.

Lemma elem_for_id x y id :
  id_ok id -> id_ok (cs_streamID x.2) -> elem_for x y -> has_id (srp_id id) y.2 = same_id id (cs_streamID x.2).
Proof.
  intros Hi Hx [= _ He _]. apply eq_bool_prop_intro. rewrite !Is_true_true. unfold has_id.
  rewrite same_id_iff, <- He, Z.eqb_eq, memcmp_zero by (done || by rewrite !srp_id_len).
  split; [by apply srp_id_inj | by intros ->].
Qed.

(** The first element with an identifier belongs to the first stream with it. *)
Lemma first_elem id l1 x l2 es :
  id_ok id -> Forall (fun x => id_ok (cs_streamID x.2)) (l1 ++ x :: l2) ->
  Forall (fun x => same_id id (cs_streamID x.2) = false) l1 -> same_id id (cs_streamID x.2) = true ->
  Forall2 elem_for (l1 ++ x :: l2) es ->
  exists e1 k e e2, es = e1 ++ (k, e) :: e2 /\ Forall2 elem_for l1 e1 /\ elem_for x (k, e) /\ Forall2 elem_for l2 e2
    /\ first_addr (has_id (srp_id id)) es = Some k.
Proof.
  intros Hid Hok Hl1 Hx (e1 & [|[k e] e2] & H1 & H2 & ->)%Forall2_app_inv_l; [by apply Forall2_nil_inv_r in H2|].
  apply Forall2_cons in H2 as [Hxe H2]. exists e1, k, e, e2. split_and!; try done.
  apply Forall_app in Hok as [Hok1 Hokx]. apply Forall_cons in Hokx as [Hokx _]. apply first_addr_mid.
  - clear H2 Hxe Hx Hokx. revert Hok1 Hl1. induction H1 as [|y z l1 e1 Hyz _ IH]; [done|].
    intros [Hy Hok1]%Forall_cons [Hf Hl1]%Forall_cons. constructor; [|by apply IH].
    by rewrite (elem_for_id y z).
  - by rewrite (elem_for_id x (k, e)).
Qed.
Lemma no_elem id ls es :
  id_ok id -> Forall (fun x => id_ok (cs_streamID x.2)) ls ->
  Forall (fun x => same_id id (cs_streamID x.2) = false) ls -> Forall2 elem_for ls es ->
  first_addr (has_id (srp_id id)) es = None.
Proof.
  intros Hid Hok Hls H. apply first_addr_all_false. revert Hok Hls.
  induction H as [|x y ls es Hxy _ IH]; [done|]. intros [Hx Hok]%Forall_cons [Hf Hls]%Forall_cons.
  constructor; [|by apply IH]. by rewrite (elem_for_id x y).
Qed.

Section Inv.
Context (cfg : ep_cfg).

(** A stream has a role; a listener has neither a mark nor an address. *)
Definition stream_ok (c : clientStream) : Prop :=
  id_ok (cs_streamID c)
  /\ match cs_role c with
     | clientTalker => True
     | clientListener => cs_fwmark c = INVALID_FWMARK /\ hndMaap c = None
     | clientNone => False
     end.

(** The lists without the resources; the last [n] streams are not yet known to SRP. *)
Record shape (n : nat) (s : ep) : Prop := {
  sh_addrs : NoDup (x_streamList s).*1;
  sh_elems : NoDup (strElemList s).*1;
  sh_fresh : Forall (fun p => (p < ep_next s)%positive) ((x_streamList s).*1 ++ (strElemList s).*1);
  sh_streams : Forall (fun x => stream_ok x.2) (x_streamList s);
  sh_owner : forall x y, x ∈ x_streamList s -> y ∈ x_streamList s ->
               cs_streamID x.2 = cs_streamID y.2 -> clientHandle x.2 = clientHandle y.2;
  sh_srp : if noSrp cfg then strElemList s = []
           else exists pend, stream_key <$> x_streamList s = (elem_key <$> strElemList s) ++ pend /\ length pend = n;
  sh_fds : length (ep_fds s) = 33%nat;
  sh_calls : srp_callbacks s = negb (noSrp cfg)
}.

Definition ep_inv (n : nat) (s : ep) : Prop :=
  shape n s /\ maap_ok (x_streamList s).*2 (maapAllocList s)
  /\ exists M, qmgr_holds (ep_qmgr s) M /\ books (x_streamList s).*2 M.

(** ** Changes of one record *)

Definition static (c : clientStream) :=
  (clientHandle c, cs_streamID c, cs_role c, cs_tSpec c, cs_srClass c, cs_latency c, hndMaap c, cs_destAddr c).
Definition ident (c : clientStream) := (clientHandle c, cs_streamID c, cs_role c).
Definition same_lists (s s' : ep) : Prop :=
  strElemList s' = strElemList s /\ ep_fds s' = ep_fds s /\ srp_callbacks s' = srp_callbacks s
  /\ ep_next s' = ep_next s.
Definition same_frame (s s' : ep) : Prop := maapAllocList s' = maapAllocList s /\ same_lists s s'.
Definition changed (p : positive) (c c' : clientStream) (s s' : ep) : Prop :=
  exists l1 l2, x_streamList s = l1 ++ (p, c) :: l2 /\ x_streamList s' = l1 ++ (p, c') :: l2.

Lemma shape_split n s l1 p c l2 : shape n s -> x_streamList s = l1 ++ (p, c) :: l2 -> p ∉ l1.*1.
Proof. intros Hs E. pose proof (sh_addrs _ _ Hs) as H. rewrite E in H. by eapply NoDup_split_addr. Qed.
Lemma get_stream_mid s l1 p c l2 :
  x_streamList s = l1 ++ (p, c) :: l2 -> p ∉ l1.*1 -> get_stream s p = Ret c.
Proof. intros E Hp. unfold get_stream. by rewrite E, at_addr_mid. Qed.
Lemma set_stream_mid s l1 p c l2 f :
  x_streamList s = l1 ++ (p, c) :: l2 -> p ∉ l1.*1 ->
  set_stream s p f = Ret (with_streams (l1 ++ (p, f c) :: l2) s).
Proof. intros E Hp. unfold set_stream. by rewrite (get_stream_mid s l1 p c l2), res_bind_ret, E, upd_addr_mid. Qed.

Lemma shape_changed n s s' p c c' :
  shape n s -> same_lists s s' -> changed p c c' s s' -> ident c' = ident c -> stream_ok c' -> shape n s'.
Proof.
  intros [Ha He Hf Hs Ho Hr Hd Hc] (Ee & Ed & Ec & En) (l1 & l2 & E & E') Hst Hok.
  assert ((x_streamList s').*1 = (x_streamList s).*1) as Eaddr by (rewrite E, E', !fmap_app; done).
  split; rewrite ?Eaddr, ?Ee, ?En, ?Ed, ?Ec; try done.
  - rewrite E in Hs. rewrite E'. apply Forall_app in Hs as [H1 H2]. apply Forall_cons in H2 as [_ H2].
    apply Forall_app. split; [done|]. by constructor.
  - assert (forall x, x ∈ x_streamList s' -> exists y, y ∈ x_streamList s /\ ident x.2 = ident y.2) as Hx.
    { intros x. rewrite E', E. intros [Hx|[->|Hx]%elem_of_cons]%elem_of_app.
      - exists x. split; [set_solver | done].
      - exists (p, c). split; [set_solver | done].
      - exists x. split; [set_solver | done]. }
    intros x y (x' & Hx' & [= Ex1 Ex2 Ex3])%Hx (y' & Hy' & [= Ey1 Ey2 Ey3])%Hx Hid.
    rewrite Ex1, Ey1. apply Ho; congruence.
  - replace (stream_key <$> x_streamList s') with (stream_key <$> x_streamList s); [done|].
    rewrite E, E', !fmap_app, !fmap_cons. do 2 f_equal. unfold stream_key. cbn [fst snd].
    unfold ident in Hst. by injection Hst as _ -> ->.
Qed.

Lemma changed_at n s s' p c c' l1 l2 :
  shape n s -> changed p c c' s s' -> x_streamList s = l1 ++ (p, c) :: l2 -> x_streamList s' = l1 ++ (p, c') :: l2.
Proof.
  intros Hs (k1 & k2 & E & ->) E1. pose proof (shape_split _ _ _ _ _ _ Hs E) as Hk.
  pose proof (shape_split _ _ _ _ _ _ Hs E1) as Hl. rewrite E in E1.
  by rewrite <- (upd_addr_mid p (fun _ => c') k1 c k2), E1, upd_addr_mid.
Qed.

Lemma inv_changed n s s' p c c' :
  ep_inv n s -> same_frame s s' -> changed p c c' s s' -> static c' = static c -> stream_ok c' ->
  (exists M, qmgr_holds (ep_qmgr s') M /\ books (x_streamList s').*2 M) -> ep_inv n s'.
Proof.
  intros (Hs & Hm & _) [Em Hf] Hch Hst Hok HM.
  split; [eapply shape_changed; try done; unfold static, ident in *; congruence|]. split; [|done].
  rewrite Em. destruct Hch as (l1 & l2 & E & E'). rewrite E in Hm. rewrite E'.
  rewrite fmap_app, fmap_cons in Hm |- *. unfold static in Hst. injection Hst as _ _ _ _ _ _ Hh Hd.
  by eapply maap_same.
Qed.

(** Only what was sent, or the count of calls, changes. *)
Lemma inv_quiet n s s' :
  ep_inv n s -> same_frame s s' -> x_streamList s' = x_streamList s -> ep_qmgr s' = ep_qmgr s -> ep_inv n s'.
Proof.
  intros ([Ha He Hf Hs Ho Hr Hd Hc] & Hm & HM) (Em & Ee & Ed & Ec & En) El Eq.
  split; [|by rewrite Em, El, Eq]. split; rewrite ?El, ?Ee, ?En, ?Ed, ?Ec; done.
Qed.

End Inv.

#[export] Hint Extern 1 (same_frame _ _) => (repeat split; reflexivity) : core.
#[export] Hint Extern 1 (same_lists _ _) => (repeat split; reflexivity) : core.

Section Specs.
Context {ee : EndpointEnv} {sh : Shaper} (cfg : ep_cfg).

Lemma attach_queues_spec n p c d s :
  ep_inv cfg n s -> at_addr p (x_streamList s) = Some c -> cs_role c = clientTalker ->
  returns (attach_queues p d s) (fun '(_, s') => exists c',
    ep_inv cfg n s' /\ same_frame s s' /\ changed p c c' s s' /\ static c' = static c
    /\ (d <> openavbSrp_LDSt_Ready -> d <> openavbSrp_LDSt_Ready_Failed -> cs_fwmark c' = INVALID_FWMARK)).
Proof.
  intros Hinv Hp Hr. pose proof Hinv as (Hs & Hm & M & Hq & Hb).
  apply at_addr_split in Hp as (l1 & l2 & E & Hp1).
  assert (stream_ok c) as Hok.
  { pose proof (sh_streams _ _ _ Hs) as H. rewrite E in H. apply Forall_app in H as [_ H].
    by apply Forall_cons in H as [H _]. }
  assert ((d <> openavbSrp_LDSt_Ready -> d <> openavbSrp_LDSt_Ready_Failed -> cs_fwmark c = INVALID_FWMARK) ->
    exists c', ep_inv cfg n s /\ same_frame s s /\ changed p c c' s s /\ static c' = static c
      /\ (d <> openavbSrp_LDSt_Ready -> d <> openavbSrp_LDSt_Ready_Failed -> cs_fwmark c' = INVALID_FWMARK)) as Hsame.
  { intros Hd. exists c. split; [done|]. split; [auto|]. split; [by exists l1, l2 | done]. }
  unfold attach_queues. rewrite (get_stream_mid s l1 p c l2), res_bind_ret by done.
  assert (books (l1.*2 ++ c :: l2.*2) M) as Hb' by (by rewrite E, fmap_app in Hb).
  destruct ((d =? openavbSrp_LDSt_Ready) || (d =? openavbSrp_LDSt_Ready_Failed)) eqn:Hd.
  - assert (forall P : Prop, d <> openavbSrp_LDSt_Ready -> d <> openavbSrp_LDSt_Ready_Failed -> P) as Hnd by (intros; lia).
    destruct (Z.eqb_spec (cs_fwmark c) INVALID_FWMARK) as [Hf|Hf]; [|by apply Hsame, Hnd]. cbn [negb].
    unfold openavbSrpGetClassParams. destruct (class_params (cs_srClass c) s) as [[[prio vid] rate]|]; [|by apply Hsame].
    rewrite (set_stream_mid s l1 p c l2), res_bind_ret by done.
    set (c1 := with_class prio vid rate c). cbn [ep_qmgr with_streams].
    eapply returns_bind; [by apply add_stream_spec|]. intros [m q] (M' & Hadd & Hq' & _).
    rewrite (set_stream_mid (with_qmgr q (with_streams (l1 ++ (p, c1) :: l2) s)) l1 p c1 l2), res_bind_ret by done.
    set (s' := with_streams _ _). exists (with_fwmark m c1).
    assert (changed p c (with_fwmark m c1) s s') as Hch by (by exists l1, l2).
    split_and!; [|auto|done|done|apply Hnd].
    apply (inv_changed cfg n s s' p c (with_fwmark m c1)); try done; [auto|..].
    { destruct Hok as [Hid Hok]. split; [done|]. cbn. by rewrite Hr. }
    exists M'. split; [done|]. cbn [s' with_streams x_streamList]. rewrite fmap_app, fmap_cons. cbn [snd].
    destruct Hadd as [(-> & -> & _)|(Hc & Hrate & Hfree & (k & Hk & ->) & ->)].
    + apply books_unmarked; [done|]. by apply books_unmarked in Hb'.
    + apply (books_reserve l1.*2 c (with_fwmark (TC_AVB_MARK (cs_srClass c) k) c1) l2.*2 M); try done; cbn.
      * rewrite mark_sum by lia. unfold INVALID_FWMARK. lia.
      * rewrite mark_class by lia. done.
  - destruct (Z.eqb_spec (cs_fwmark c) INVALID_FWMARK) as [Hf|Hf]; [by apply Hsame|].
    assert (mark_ok (cs_fwmark c)) as Hmk.
    { eapply held_mark_ok; [exact Hq|]. by rewrite (books_lookup _ _ _ _ Hb'). }
    eapply returns_bind; [by apply remove_stream_spec|]. intros q (Hq' & _).
    rewrite (set_stream_mid (with_qmgr q s) l1 p c l2), res_bind_ret by done.
    set (s' := with_streams _ _). exists (with_fwmark INVALID_FWMARK c).
    assert (changed p c (with_fwmark INVALID_FWMARK c) s s') as Hch by (by exists l1, l2).
    split_and!; [|auto|done|done|done].
    apply (inv_changed cfg n s s' p c (with_fwmark INVALID_FWMARK c)); try done; [auto|..].
    { destruct Hok as [Hid Hok]. split; [done|]. cbn. by rewrite Hr. }
    eexists. split; [done|]. cbn [s' with_streams x_streamList]. rewrite fmap_app, fmap_cons. cbn [snd].
    apply (books_release l1.*2 c l2.*2 M [with_fwmark INVALID_FWMARK c]); try done. by repeat constructor.
Qed.

(** ** Leaving *)

Lemma deregister_elems n s l1 p c l2 :
  shape cfg n s -> noSrp cfg = false -> n = 0%nat -> x_streamList s = l1 ++ (p, c) :: l2 ->
  Forall (fun x => same_id (cs_streamID c) (cs_streamID x.2) = false) l1 ->
  exists e1 k e e2, strElemList s = e1 ++ (k, e) :: e2
    /\ openavbSrpDeregisterStream (cs_streamID c) s = with_elems (e1 ++ e2) (tick s)
    /\ stream_key <$> (l1 ++ l2) = elem_key <$> (e1 ++ e2).
Proof.
  intros Hs Hsrp -> E Hl1. pose proof (sh_srp _ _ _ Hs) as Hr. rewrite Hsrp in Hr. destruct Hr as ([|] & Hr & Hn); [|done].
  rewrite app_nil_r, E in Hr. apply elems_for in Hr.
  pose proof (sh_streams _ _ _ Hs) as Hok. rewrite E in Hok.
  assert (Forall (fun x => id_ok (cs_streamID x.2)) (l1 ++ (p, c) :: l2)) as Hids.
  { eapply Forall_impl; [exact Hok|]. by intros x []. }
  assert (id_ok (cs_streamID c)) as Hid by (by apply Forall_app in Hids as [_ [? _]%Forall_cons]).
  destruct (first_elem (cs_streamID c) l1 (p, c) l2 (strElemList s)) as (e1 & k & e & e2 & Ee & H1 & _ & H2 & Hf);
    [done | done | done | by apply same_id_iff | done |].
  exists e1, k, e, e2. split; [done|]. split.
  - unfold openavbSrpDeregisterStream, find_elem. rewrite Hf, Ee, del_addr_mid; [done|].
    pose proof (sh_elems _ _ _ Hs) as Hnd. rewrite Ee in Hnd. by eapply NoDup_split_addr.
  - rewrite !fmap_app. by rewrite !(proj2 (elems_for _ _)) by done.
Qed.

(** Both lists lose the stream. *)
Lemma shape_removed s s' l1 p c l2 :
  shape cfg 0 s -> x_streamList s = l1 ++ (p, c) :: l2 -> x_streamList s' = l1 ++ l2 ->
  (if noSrp cfg then strElemList s' = strElemList s
   else exists e1 k e e2, strElemList s = e1 ++ (k, e) :: e2 /\ strElemList s' = e1 ++ e2
          /\ stream_key <$> (l1 ++ l2) = elem_key <$> (e1 ++ e2)) ->
  ep_next s' = ep_next s -> ep_fds s' = ep_fds s -> srp_callbacks s' = srp_callbacks s -> shape cfg 0 s'.
Proof.
  intros [Ha He Hf Hs Ho Hr Hd Hc] E E' Hel En Ed Ec.
  assert (x_streamList s' `sublist_of` x_streamList s) as Hsub.
  { rewrite E, E'. apply sublist_app; [done|]. by apply sublist_cons. }
  assert (strElemList s' `sublist_of` strElemList s) as Hesub.
  { destruct (noSrp cfg); [by rewrite Hel|]. destruct Hel as (e1 & k & e & e2 & -> & -> & _).
    apply sublist_app; [done|]. by apply sublist_cons. }
  split; rewrite ?En, ?Ed, ?Ec; try done.
  - eapply sublist_NoDup; [exact Ha|]. by apply fmap_sublist.
  - eapply sublist_NoDup; [exact He|]. by apply fmap_sublist.
  - eapply sublist_Forall; [|exact Hf]. apply sublist_app; by apply fmap_sublist.
  - by eapply sublist_Forall.
  - intros x y Hx Hy. apply Ho; by eapply sublist_elem.
  - destruct (noSrp cfg); [by rewrite Hel|]. destruct Hel as (e1 & k & e & e2 & _ & -> & Hk).
    exists []. by rewrite E', Hk, app_nil_r.
Qed.

Lemma leave_spec s l1 p c l2 :
  ep_inv cfg 0 s -> x_streamList s = l1 ++ (p, c) :: l2 ->
  Forall (fun x => same_id (cs_streamID c) (cs_streamID x.2) = false) l1 ->
  returns (leave cfg p s) (fun '(ok, s') => ok = true /\ ep_inv cfg 0 s' /\ x_streamList s' = l1 ++ l2
    /\ ep_sent s' = ep_sent s).
Proof.
  intros (Hs & Hm & M & Hq & Hb) E Hl1. pose proof (shape_split _ _ _ _ _ _ _ Hs E) as Hp.
  rewrite E, fmap_app, fmap_cons in Hm, Hb. cbn [snd] in Hm, Hb.
  assert (stream_ok c) as [Hid Hok].
  { pose proof (sh_streams _ _ _ Hs) as H. rewrite E in H. by apply Forall_app in H as [_ [H _]%Forall_cons]. }
  (* the lists without the resources *)
  set (s1 := if noSrp cfg then s else openavbSrpDeregisterStream (cs_streamID c) s).
  assert (x_streamList s1 = x_streamList s /\ maapAllocList s1 = maapAllocList s /\ ep_qmgr s1 = ep_qmgr s
          /\ ep_sent s1 = ep_sent s) as (E1 & Em1 & Eq1 & Es1).
  { unfold s1, openavbSrpDeregisterStream. destruct (noSrp cfg); [done|]. by destruct (find_elem _ s). }
  assert (forall s', x_streamList s' = l1 ++ l2 -> strElemList s' = strElemList s1 -> ep_next s' = ep_next s1 ->
            ep_fds s' = ep_fds s1 -> srp_callbacks s' = srp_callbacks s1 -> shape cfg 0 s') as Hshape.
  { intros s' El Ee En Ed Ec. unfold s1 in *. destruct (noSrp cfg) eqn:Hsrp.
    - apply (shape_removed s s' l1 p c l2); try done. by rewrite Hsrp.
    - destruct (deregister_elems 0 s l1 p c l2) as (e1 & k & e & e2 & Ees & Ed1 & Hk); try done.
      rewrite Ed1 in *. apply (shape_removed s s' l1 p c l2); try done. rewrite Hsrp. by exists e1, k, e, e2. }
  unfold leave. rewrite (get_stream_mid s l1 p c l2), res_bind_ret by done.
  destruct (cs_role c) eqn:Hr; [done| |].
  - unfold x_talkerDeregister. rewrite (get_stream_mid s l1 p c l2), res_bind_ret by done. fold s1. clearbody s1.
    eapply returns_bind with (P := fun s2 => exists c2, x_streamList s2 = l1 ++ (p, c2) :: l2 /\ same_frame s1 s2
      /\ ep_sent s2 = ep_sent s1 /\ exists M2, qmgr_holds (ep_qmgr s2) M2 /\ books (l1.*2 ++ l2.*2) M2).
    { destruct (Z.eqb_spec (cs_fwmark c) INVALID_FWMARK) as [Hf|Hf].
      - exists c. split_and!; [by rewrite E1 | auto | done |]. exists M. rewrite Eq1. split; [done|].
        by apply books_unmarked in Hb.
      - rewrite Eq1. eapply returns_bind.
        { apply remove_stream_spec; [done|]. eapply held_mark_ok; [done|]. by rewrite (books_lookup _ _ _ _ Hb). }
        intros q (Hq' & _).
        rewrite (set_stream_mid (with_qmgr q s1) l1 p c l2) by (done || by cbn; rewrite E1).
        eexists. split_and!; [reflexivity | auto | done |]. exists (delete (cs_fwmark c) M). split; [done|].
        change l2.*2 with ([] ++ l2.*2). apply (books_release l1.*2 c l2.*2 M []); [done | done | apply Forall_nil_2 | done]. }
    intros s2 (c2 & E2 & (Em2 & Ee2 & Ed2 & Ec2 & En2) & Es2 & M2 & Hq2 & Hb2).
    eapply returns_bind with (P := fun s3 => exists c3, x_streamList s3 = l1 ++ (p, c3) :: l2
      /\ maap_ok (l1.*2 ++ l2.*2) (maapAllocList s3)
      /\ strElemList s3 = strElemList s2 /\ ep_fds s3 = ep_fds s2 /\ srp_callbacks s3 = srp_callbacks s2
      /\ ep_next s3 = ep_next s2 /\ ep_sent s3 = ep_sent s2 /\ ep_qmgr s3 = ep_qmgr s2).
    { destruct (hndMaap c) as [i|] eqn:Hh.
      - rewrite (set_stream_mid (openavbMaapRelease i s2) l1 p c2 l2) by (done || by cbn; rewrite E2).
        eexists. split; [reflexivity|]. split; [|done]. cbn. rewrite Em2, Em1.
        change l2.*2 with ([] ++ l2.*2). apply (maap_give l1.*2 c l2.*2 (maapAllocList s) i []); [done | done | apply Forall_nil_2 | done].
      - exists c2. split; [done|]. split; [|done]. rewrite Em2, Em1. by apply maap_plain in Hm. }
    intros s3 (c3 & E3 & Hm3 & Ee3 & Ed3 & Ec3 & En3 & Es3 & Eq3). cbn. unfold delStream.
    rewrite E3, del_addr_mid by done. split; [done|]. split; [|split; [done | cbn; congruence]].
    split; [apply Hshape; cbn; congruence|]. cbn. rewrite fmap_app. split; [done|]. exists M2. by rewrite Eq3.
  - unfold x_listenerDetach. rewrite (get_stream_mid s l1 p c l2), res_bind_ret by done.
    change openavbSrpDetachStream with openavbSrpDeregisterStream. fold s1. clearbody s1. destruct Hok as [Hf Hh].
    cbn. unfold delStream. rewrite E1, E, del_addr_mid by done. split; [done|].
    split; [|by split]. split; [by apply Hshape|]. cbn. rewrite fmap_app.
    split; [rewrite Em1; by apply maap_plain in Hm|]. exists M. rewrite Eq1. split; [done|]. by apply books_unmarked in Hb.
Qed.

Lemma close_spec h s :
  ep_inv cfg 0 s -> returns (openavbEptSrvrCloseClientConnection cfg h s) (fun s' => ep_inv cfg 0 s').
Proof.
  intros Hinv. unfold openavbEptSrvrCloseClientConnection.
  destruct (first_addr _ (x_streamList s)) as [p|] eqn:Hf; [|done].
  apply first_addr_split in Hf as (l1 & c & l2 & E & Hc & Hl1).
  eapply returns_bind; [apply (leave_spec s l1 p c l2 Hinv E)|by intros [ok s'] (_ & ? & _)].
  pose proof Hinv as (Hs & _). pose proof (sh_streams _ _ _ Hs) as Hok. rewrite E in Hok.
  apply Forall_app in Hok as [Hok1 [[Hid _] _]%Forall_cons].
  apply Forall_forall. intros x Hx. apply not_true_iff_false. intros Hsame.
  rewrite Forall_forall in Hok1, Hl1. apply same_id_iff in Hsame; [|done | by apply Hok1].
  specialize (Hl1 x Hx). apply Z.eqb_eq in Hc. apply Z.eqb_neq in Hl1. apply Hl1.
  rewrite <- Hc. apply (sh_owner _ _ _ Hs x (p, c)); [rewrite E; set_solver | rewrite E; set_solver | done].
Qed.

Lemma inv_fds n s l : ep_inv cfg n s -> length l = 33%nat -> ep_inv cfg n (with_fds l s).
Proof. intros ([] & Hm & HM) Hl. split; [by split | done]. Qed.

Lemma socket_close_spec h s : ep_inv cfg 0 s -> returns (socketClose cfg h s) (fun s' => ep_inv cfg 0 s').
Proof.
  intros Hinv. unfold socketClose. destruct (_ || _); [done|].
  eapply returns_bind; [by apply close_spec|]. intros s' Hinv'. apply inv_fds; [done|].
  rewrite length_insert. apply Hinv'.
Qed.

(** ** Messages to clients *)

Context (Hwrite : forall n, ee_write n = true).

(** Nothing but the messages and the count of calls changes. *)
Definition told_client (s s' : ep) : Prop :=
  same_frame s s' /\ x_streamList s' = x_streamList s /\ ep_qmgr s' = ep_qmgr s.

Lemma send_spec h m s :
  returns (openavbEptSrvrSendToClient cfg h m s) (fun '(ok, s') => told_client s s'
    /\ ok = negb ((h <? 0) || (33 <=? h)) && fd_open h s
    /\ ep_sent s' = if ok : bool then ep_sent s ++ [(h, m)] else ep_sent s).
Proof.
  unfold openavbEptSrvrSendToClient. change POLL_FD_COUNT with 33.
  rewrite Hwrite. destruct ((h <? 0) || (33 <=? h)); [by repeat split|].
  destruct (fd_open h s); by repeat split.
Qed.

Lemma attach_cb_spec n p c d s :
  ep_inv cfg n s -> at_addr p (x_streamList s) = Some c -> cs_role c = clientTalker ->
  returns (strmAttachCb cfg p d s) (fun '(_, s') => exists c',
    ep_inv cfg n s' /\ same_frame s s' /\ changed p c c' s s' /\ static c' = static c
    /\ (d <> openavbSrp_LDSt_Ready -> d <> openavbSrp_LDSt_Ready_Failed -> cs_fwmark c' = INVALID_FWMARK)).
Proof.
  intros Hinv Hp Hr. unfold strmAttachCb.
  eapply returns_bind; [by apply (attach_queues_spec n p c d s)|].
  intros [ok s1] (c1 & Hinv1 & Hf1 & Hch1 & Hst1 & Hm1). destruct ok; [|by exists c1].
  destruct Hch1 as (l1 & l2 & E & E1). pose proof (shape_split _ _ _ _ _ _ _ (proj1 Hinv1) E1) as Hp1.
  rewrite (get_stream_mid s1 l1 p c1 l2), res_bind_ret by done. unfold openavbEptSrvrNotifyTlkrOfSrpCb.
  rewrite res_bind_assoc. eapply returns_bind; [apply send_spec|]. intros [ok s2] ((Hf2 & El2 & Eq2) & _). cbn.
  exists c1. split; [by apply (inv_quiet cfg n s1)|]. split; [|split; [|by split]].
  - destruct Hf1 as (? & ? & ? & ? & ?), Hf2 as (? & ? & ? & ? & ?). repeat split; congruence.
  - exists l1, l2. split; [done | congruence].
Qed.

Lemma reg_cb_spec n p c a b t x y s :
  ep_inv cfg n s -> at_addr p (x_streamList s) = Some c ->
  returns (strmRegCb cfg p a b t x y s) (fun s' => ep_inv cfg n s' /\ told_client s s').
Proof.
  intros Hinv Hp. unfold strmRegCb, openavbEptSrvrNotifyLstnrOfSrpCb, get_stream. rewrite Hp, res_bind_ret.
  eapply returns_bind; [apply send_spec|]. intros [ok s'] ((Hf & El & Eq) & _). cbn.
  split; [by apply (inv_quiet cfg n s) | done].
Qed.

End Specs.
