(* ===== verification/EndpointTheorems.v ===== *)
(** * Theorems about the endpoint process

    Requests of clients and reports of MRP keep the ownership invariant, for every
    sequence of them, as long as messages can be written and streams advertised;
    what happens otherwise is shown by example at the end. *)

From S2P Require Import Prelude AvtpTime Qmgr Endpoint EndpointProps.
From Stdlib Require Import ZArith Lia String.
From stdpp Require Import base tactics list option gmap fin_maps strings.
Open Scope Z_scope.

Section Specs.
Context {ee : EndpointEnv} {sh : Shaper} (cfg : ep_cfg).

(** ** A stream that SRP does not know yet *)

Lemma fresh_stream n s : shape cfg n s -> ep_next s ∉ (x_streamList s).*1.
Proof.
  intros Hs Hp. pose proof (sh_fresh _ _ _ Hs) as Hf. apply Forall_app in Hf as [Hf _].
  rewrite Forall_forall in Hf. specialize (Hf _ Hp). cbn in Hf. lia.
Qed.

Lemma inv_add s s' c :
  ep_inv cfg 0 s -> x_streamList s' = x_streamList s ++ [(ep_next s, c)] ->
  strElemList s' = strElemList s -> maapAllocList s' = maapAllocList s -> ep_qmgr s' = ep_qmgr s ->
  ep_fds s' = ep_fds s -> srp_callbacks s' = srp_callbacks s -> ep_next s' = Pos.succ (ep_next s) ->
  stream_ok c -> cs_fwmark c = INVALID_FWMARK -> hndMaap c = None ->
  (forall x, x ∈ x_streamList s -> cs_streamID x.2 = cs_streamID c -> clientHandle x.2 = clientHandle c) ->
  ep_inv cfg 1 s'.
Proof.
  intros (Hs & Hm & M & Hq & Hb) El Ee Em Eq Ed Ec En Hok Hf Hh Ho.
  pose proof (fresh_stream _ _ Hs) as Hfr. destruct Hs as [Ha He Hfresh Hst Hown Hr Hd Hc].
  split; [|split].
  - split; rewrite ?El, ?Ee, ?Ed, ?Ec, ?En; try done.
    + rewrite fmap_app. apply NoDup_app. split; [done|]. split; [set_solver|]. apply NoDup_singleton.
    + rewrite fmap_app. apply Forall_app in Hfresh as [H1 H2]. rewrite !Forall_app.
      split_and!; [| |]; try (eapply Forall_impl; [eassumption|]; cbn; lia). constructor; [cbn; lia | done].
    + apply Forall_app. split; [done|]. by constructor.
    + intros x y [Hx|Hx%list_elem_of_singleton]%elem_of_app [Hy|Hy%list_elem_of_singleton]%elem_of_app Hid.
      * by apply Hown.
      * subst y. by apply Ho.
      * subst x. symmetry. by apply Ho.
      * by subst.
    + destruct (noSrp cfg); [done|]. destruct Hr as ([|] & Hr & Hn); [|done]. rewrite app_nil_r in Hr.
      exists [stream_key (ep_next s, c)]. by rewrite fmap_app, Hr.
  - rewrite El, Em, fmap_app. cbn. apply maap_plain; [done|]. by rewrite app_nil_r.
  - exists M. rewrite Eq, El, fmap_app. split; [done|]. cbn. apply books_unmarked; [done|]. by rewrite app_nil_r.
Qed.

(** The stream is given up. *)
Lemma inv_drop s l p c :
  ep_inv cfg 1 s -> x_streamList s = l ++ [(p, c)] -> cs_fwmark c = INVALID_FWMARK -> hndMaap c = None ->
  ep_inv cfg 0 (delStream p s).
Proof.
  intros (Hs & Hm & M & Hq & Hb) El Hf Hh. pose proof (shape_split _ _ _ _ _ _ _ Hs El) as Hp.
  assert (x_streamList (delStream p s) = l) as El'.
  { cbn. by rewrite El, del_addr_mid, app_nil_r. }
  destruct Hs as [Ha He Hfresh Hst Hown Hr Hd Hc]. split; [|split].
  - split; rewrite ?El'; try done.
    + rewrite El, fmap_app in Ha. by apply NoDup_app in Ha as [Ha _].
    + rewrite El, fmap_app in Hfresh. cbn. rewrite !Forall_app in *. tauto.
    + rewrite El in Hst. by apply Forall_app in Hst as [? _].
    + intros x y Hx Hy. apply Hown; rewrite El; set_solver.
    + cbn. destruct (noSrp cfg); [done|]. destruct Hr as ([|k [|]] & Hr & Hn); try done.
      rewrite El, fmap_app in Hr. apply app_inj_2 in Hr as [Hr _]; [|done]. exists []. by rewrite app_nil_r.
  - rewrite El'. rewrite El, fmap_app in Hm. cbn in Hm. apply maap_plain in Hm; [|done]. by rewrite app_nil_r in Hm.
  - exists M. rewrite El'. split; [done|]. rewrite El, fmap_app in Hb. cbn in Hb. apply books_unmarked in Hb; [|done].
    by rewrite app_nil_r in Hb.
Qed.

(** The stream gets its element. *)
Lemma new_elem_spec s l p c e :
  ep_inv cfg 1 s -> noSrp cfg = false -> x_streamList s = l ++ [(p, c)] ->
  elem_key (ep_next s, e) = stream_key (p, c) ->
  let '(o, s') := new_elem e s in
  x_streamList s' = x_streamList s /\ ep_sent s' = ep_sent s /\ maapAllocList s' = maapAllocList s
  /\ ep_inv cfg (match o with Some _ => 0 | None => 1 end) s'.
Proof.
  intros Hinv Hsrp El Hk.
  assert (forall s', same_frame s s' -> x_streamList s' = x_streamList s -> ep_qmgr s' = ep_qmgr s -> ep_inv cfg 1 s') as Hq.
  { intros s' ? ? ?. by apply (inv_quiet cfg 1 s). }
  unfold new_elem. destruct (ee_calloc (ep_calls s)); [|split_and!; try done; by apply Hq].
  destruct (ee_calloc (ep_calls (tick s))); [|split_and!; try done; by apply Hq].
  split_and!; [done..|]. destruct Hinv as ([Ha He Hfresh Hst Hown Hr Hd Hc] & Hm & HM). split; [|done].
  rewrite Hsrp in Hr. destruct Hr as ([|k [|]] & Hr & Hn); try done.
  apply Forall_app in Hfresh as [H1 H2].
  split; cbn; try done.
  - rewrite fmap_app. apply NoDup_app. split; [done|]. split; [|apply NoDup_singleton].
    intros x Hx ->%list_elem_of_singleton. rewrite Forall_forall in H2. specialize (H2 _ Hx). cbn in H2. lia.
  - rewrite fmap_app, !Forall_app. split_and!; [| |]; try (eapply Forall_impl; [eassumption|]; cbn; lia).
    constructor; [cbn; lia | done].
  - rewrite Hsrp. exists []. rewrite app_nil_r, fmap_app. cbn. rewrite El in Hr |- *. rewrite fmap_app in Hr |- *. cbn in Hr |- *.
    apply app_inj_2 in Hr as [Hr [= <-]]; [|done]. rewrite Hr. f_equal. by rewrite <- Hk.
Qed.

Context (Hwrite : forall n, ee_write n = true) (Hadv : forall n, mrp_advertise_stream n = 0).

(** ** Registering a talker *)

Lemma take_address s l p c i a :
  ep_inv cfg 1 s -> x_streamList s = l ++ [(p, c)] -> cs_role c = clientTalker -> hndMaap c = None ->
  maap_untaken (maapAllocList s) 0 = Some (i, a) ->
  ep_inv cfg 1 (with_streams (l ++ [(p, with_dest (Some i) a c)]) (set_taken i true s)).
Proof.
  intros (Hs & Hm & M & Hq & Hb) El Hr Hh Hi. rewrite El, fmap_app in Hm, Hb. split; [|split].
  - eapply (shape_changed cfg 1 s _ p c (with_dest (Some i) a c)); [done | auto | by exists l, [] | done |].
    pose proof (sh_streams _ _ _ Hs) as Hst. rewrite El in Hst. apply Forall_app in Hst as [_ [[Hid _] _]%Forall_cons].
    split; [done|]. cbn. by rewrite Hr.
  - cbn. rewrite fmap_app. by eapply (maap_take l.*2 c).
  - exists M. split; [done|]. cbn. rewrite fmap_app. by eapply (books_same l.*2 c).
Qed.

Lemma own_address s l p c a :
  ep_inv cfg 1 s -> x_streamList s = l ++ [(p, c)] -> cs_role c = clientTalker -> hndMaap c = None ->
  ep_inv cfg 1 (with_streams (l ++ [(p, with_dest None a c)]) s).
Proof.
  intros (Hs & Hm & M & Hq & Hb) El Hr Hh. rewrite El, fmap_app in Hm, Hb. split; [|split].
  - eapply (shape_changed cfg 1 s _ p c (with_dest None a c)); [done | auto | by exists l, [] | done |].
    pose proof (sh_streams _ _ _ Hs) as Hst. rewrite El in Hst. apply Forall_app in Hst as [_ [[Hid _] _]%Forall_cons].
    split; [done|]. cbn. by rewrite Hr.
  - cbn. rewrite fmap_app. apply maap_plain; [done|]. by apply maap_plain in Hm.
  - exists M. split; [done|]. cbn. rewrite fmap_app. by eapply (books_same l.*2 c).
Qed.

Lemma choose_address_spec s l p c dest :
  ep_inv cfg 1 s -> x_streamList s = l ++ [(p, c)] -> cs_role c = clientTalker ->
  cs_fwmark c = INVALID_FWMARK -> hndMaap c = None ->
  returns (choose_address cfg p dest s) (fun '(ok, s') =>
    if ok : bool then exists c', ep_inv cfg 1 s' /\ x_streamList s' = l ++ [(p, c')]
      /\ ident c' = ident c /\ cs_srClass c' = cs_srClass c /\ cs_fwmark c' = INVALID_FWMARK
    else ep_inv cfg 0 s').
Proof.
  intros Hinv El Hr Hf Hh. pose proof (shape_split _ _ _ _ _ _ _ (proj1 Hinv) El) as Hp.
  unfold choose_address. rewrite (get_stream_mid s l p c []), res_bind_ret by done.
  destruct (memcmp (cs_destAddr c) dest =? 0).
  - unfold openavbMaapAllocate. destruct (maap_untaken (maapAllocList s) 0) as [[i a]|] eqn:Hi.
    + rewrite (set_stream_mid (set_taken i true s) l p c []), res_bind_ret by done.
      set (c1 := with_dest (Some i) a c).
      pose proof (take_address s l p c i a Hinv El Hr Hh Hi) as Hinv1. set (s1 := with_streams _ _) in *.
      eapply returns_bind; [apply (attach_cb_spec cfg Hwrite 1 p c1); [done | by apply at_addr_mid | done]|].
      intros [ok s2] (c2 & Hinv2 & _ & Hch & Hst & Hmk). cbn.
      apply (changed_at cfg 1 s1 s2 p c1 c2 l []) in Hch; [|by destruct Hinv1 | done].
      exists c2. split; [done|]. split; [done|]. unfold static, ident in *. split; [cbn in *; congruence|].
      split; [cbn in *; congruence|]. apply Hmk; done.
    + by eapply inv_drop.
  - rewrite (set_stream_mid s l p c []), res_bind_ret by done. exists (with_dest None dest c).
    split; [by apply own_address | by split_and!].
Qed.

Context (Hmac : length (ifmac cfg) = ETH_ALEN /\ bytes_ok (ifmac cfg)).

Lemma fill_id_ok id : id_ok id -> id_ok (fill_id cfg id).
Proof. intros (H1 & H2 & H3). unfold fill_id. destruct (_ =? 0); [|done]. split; [apply Hmac|]. by split; [apply Hmac|]. Qed.

Lemma inv_nosrp n k s : noSrp cfg = true -> ep_inv cfg n s -> ep_inv cfg k s.
Proof. intros Hn ([] & Hm & HM). split; [|done]. split; try done. by rewrite Hn in *. Qed.

(** What [findStream] and the test of the client say about the stream list. *)
Lemma find_owner h id s :
  ep_inv cfg 0 s -> id_ok id ->
  returns (foreign h (findStream cfg id s).2 s) (fun other => other = false ->
    (forall x, x ∈ x_streamList s -> cs_streamID x.2 = fill_id cfg id -> clientHandle x.2 = h)
    /\ match (findStream cfg id s).2 with
       | Some p => exists l1 c l2, x_streamList s = l1 ++ (p, c) :: l2 /\ cs_streamID c = fill_id cfg id
           /\ Forall (fun x => same_id (cs_streamID c) (cs_streamID x.2) = false) l1
       | None => Forall (fun x => same_id (fill_id cfg id) (cs_streamID x.2) = false) (x_streamList s)
       end).
Proof.
  intros Hinv Hid. apply fill_id_ok in Hid. cbn [findStream snd]. pose proof Hinv as (Hs & _).
  pose proof (sh_streams _ _ _ Hs) as Hok.
  destruct (first_addr _ (x_streamList s)) as [p|] eqn:Hf; cbn [foreign].
  - apply first_addr_split in Hf as (l1 & c & l2 & E & Hc & Hl1).
    pose proof (shape_split _ _ _ _ _ _ _ Hs E) as Hp. rewrite (get_stream_mid s l1 p c l2), res_bind_ret by done.
    cbn. intros Ho%negb_false_iff%Z.eqb_eq. rewrite E in Hok. apply Forall_app in Hok as [_ [[Hcid _] _]%Forall_cons].
    apply same_id_iff in Hc; [|done..]. split.
    + intros x Hx Hxid. rewrite <- Ho. apply (sh_owner _ _ _ Hs x (p, c)); [done | rewrite E; set_solver |]. cbn. congruence.
    + exists l1, c, l2. split; [done|]. split; [done|]. by rewrite <- Hc.
  - apply first_addr_none in Hf. cbn. intros _. split; [|done]. intros x Hx Hxid. exfalso.
    rewrite Forall_forall in Hf, Hok. specialize (Hf x Hx). rewrite Hxid in Hf.
    by rewrite (proj2 (same_id_iff _ _ Hid Hid)) in Hf.
Qed.

Lemma srp_register_spec s l p c :
  ep_inv cfg 1 s -> noSrp cfg = false -> x_streamList s = l ++ [(p, c)] -> cs_role c = clientTalker -> 0 <= cs_srClass c < 2 ->
  let '(ok, s') := openavbSrpRegisterStream p (cs_streamID c) (cs_destAddr c) (cs_tSpec c) (cs_srClass c) (cs_latency c) s in
  ep_inv cfg (if ok then 0 else 1) s' /\ x_streamList s' = x_streamList s.
Proof.
  intros Hinv Hsrp El Hr Hcl. unfold openavbSrpRegisterStream.
  set (e := StrElem _ _ _ _ _ _ _ _ _ _).
  pose proof (new_elem_spec s l p c e Hinv Hsrp El) as Hnew.
  assert (elem_key (ep_next s, e) = stream_key (p, c)) as Hk.
  { unfold elem_key, stream_key. cbn. by rewrite Hr. }
  specialize (Hnew Hk). destruct (new_elem e s) as [[k|] s1]; destruct Hnew as (El1 & Es1 & Em1 & Hinv1); [|by split].
  assert (is_Some (class_params (cs_srClass c) s1)) as [d ->].
  { unfold class_params. assert (cs_srClass c = 0 \/ cs_srClass c = 1) as [->| ->] by lia; cbn.
    - destruct (domain_class_a (ep_calls s1)). by eexists.
    - destruct (domain_class_b (ep_calls s1)). by eexists. }
  rewrite Hadv. cbn. split; [|done]. by apply (inv_quiet cfg 0 s1).
Qed.

Lemma drop_failed s l p c :
  ep_inv cfg 1 s -> x_streamList s = l ++ [(p, c)] -> cs_fwmark c = INVALID_FWMARK ->
  ep_inv cfg 0 (delStream p (match hndMaap c with Some i => openavbMaapRelease i s | None => s end)).
Proof.
  intros Hinv El Hf. destruct (hndMaap c) as [i|] eqn:Hh; [|by eapply inv_drop].
  (* giving the address back and forgetting the handle *)
  assert (ep_inv cfg 1 (with_streams (l ++ [(p, with_dest None (cs_destAddr c) c)]) (openavbMaapRelease i s))) as Hinv1.
  { destruct Hinv as (Hs & Hm & M & Hq & Hb). rewrite El, fmap_app in Hm, Hb. split; [|split].
    - eapply (shape_changed cfg 1 s _ p c); [done | auto | by exists l, [] | done |].
      pose proof (sh_streams _ _ _ Hs) as Hst. rewrite El in Hst. apply Forall_app in Hst as [_ [[Hid Hr] _]%Forall_cons].
      split; [done|]. cbn in *. by destruct (cs_role c).
    - cbn. rewrite fmap_app. apply (maap_give l.*2 c [] (maapAllocList s) i [with_dest None (cs_destAddr c) c]);
        [done | done | by repeat constructor | done].
    - exists M. split; [done|]. cbn. rewrite fmap_app. by eapply (books_same l.*2 c). }
  pose proof (shape_split _ _ _ _ _ _ _ (proj1 Hinv) El) as Hp.
  replace (delStream p (openavbMaapRelease i s))
    with (delStream p (with_streams (l ++ [(p, with_dest None (cs_destAddr c) c)]) (openavbMaapRelease i s))).
  - by eapply inv_drop.
  - unfold delStream. cbn. by rewrite El, !del_addr_mid.
Qed.

Lemma register_spec h id dest t cls rank lat s :
  ep_inv cfg 0 s -> id_ok id -> 0 <= cls < 2 ->
  returns (openavbEptSrvrRegisterStream cfg h id dest t cls rank lat s) (fun '(_, s') => ep_inv cfg 0 s').
Proof.
  intros Hinv Hid Hcls. unfold openavbEptSrvrRegisterStream.
  destruct (findStream cfg id s) as [id' o] eqn:Hfind. assert (id' = fill_id cfg id) as -> by (by injection Hfind).
  pose proof (find_owner h id s Hinv Hid) as Ho. rewrite Hfind in Ho. cbn [snd] in Ho.
  apply returns_inv in Ho as ([|] & -> & Ho); rewrite res_bind_ret; [done|]. destruct (Ho eq_refl) as [Hown _]. clear Ho.
  unfold addStream. destruct (ee_calloc (ep_calls s)); [|by apply (inv_quiet cfg 0 s)].
  set (p := ep_next s). set (c := new_stream h (fill_id cfg id)). set (s1 := alloc _).
  pose proof (fresh_stream _ _ (proj1 Hinv)) as Hp.
  rewrite (set_stream_mid s1 (x_streamList s) p c []), res_bind_ret by done.
  set (c1 := with_talker t cls rank lat c). set (s2 := with_streams _ s1).
  assert (ep_inv cfg 1 s2) as Hinv2.
  { apply (inv_add s s2 c1); try done. split; [by apply fill_id_ok | done]. }
  eapply returns_bind; [by apply (choose_address_spec s2 (x_streamList s) p c1)|].
  intros [[|] s3]; cbn [negb]; [|done]. intros (c3 & Hinv3 & El3 & Hi3 & Hc3 & Hf3).
  assert (cs_role c3 = clientTalker) as Hr3 by (by injection Hi3).
  destruct (noSrp cfg) eqn:Hsrp.
  - eapply returns_bind; [apply (attach_cb_spec cfg Hwrite 1 p c3); [done | by rewrite El3, at_addr_mid | done]|].
    intros [ok s4] (c4 & Hinv4 & _). cbn. by apply (inv_nosrp 1).
  - rewrite (get_stream_mid s3 (x_streamList s) p c3 []), res_bind_ret by done.
    pose proof (srp_register_spec s3 _ p c3 Hinv3 Hsrp El3 Hr3 ltac:(by rewrite Hc3)) as Hreg.
    destruct (openavbSrpRegisterStream _ _ _ _ _ _ s3) as [[|] s4]; destruct Hreg as [Hinv4 El4]; [done|].
    apply (drop_failed s4 (x_streamList s)); [done | congruence | done].
Qed.

(** ** Attaching a listener, and leaving *)

Lemma elem_exists s l1 p c l2 :
  ep_inv cfg 0 s -> noSrp cfg = false -> x_streamList s = l1 ++ (p, c) :: l2 ->
  Forall (fun x => same_id (cs_streamID c) (cs_streamID x.2) = false) l1 ->
  is_Some (find_elem (has_id (srp_id (cs_streamID c))) s).
Proof.
  intros (Hs & _) Hsrp E Hl1. destruct (deregister_elems cfg 0 s l1 p c l2) as (e1 & k & e & e2 & Ee & Hd & _); try done.
  unfold openavbSrpDeregisterStream in Hd. destruct (find_elem _ s); [done|]. exfalso.
  apply (f_equal ep_calls) in Hd. cbn in Hd. lia.
Qed.

Lemma elem_missing s id :
  ep_inv cfg 0 s -> noSrp cfg = false -> id_ok id ->
  Forall (fun x => same_id id (cs_streamID x.2) = false) (x_streamList s) -> find_elem (has_id (srp_id id)) s = None.
Proof.
  intros (Hs & _) Hsrp Hid Hf. pose proof (sh_srp _ _ _ Hs) as Hr. rewrite Hsrp in Hr. destruct Hr as ([|] & Hr & Hn); [|done].
  rewrite app_nil_r in Hr. apply elems_for in Hr. eapply no_elem; [done | | exact Hf | exact Hr].
  eapply Forall_impl; [apply (sh_streams _ _ _ Hs)|]. by intros x [].
Qed.

Lemma srp_attach_new s l p c ld :
  ep_inv cfg 1 s -> noSrp cfg = false -> x_streamList s = l ++ [(p, c)] -> cs_role c = clientListener ->
  find_elem (has_id (srp_id (cs_streamID c))) s = None ->
  let '(ok, s') := openavbSrpAttachStream p (cs_streamID c) ld s in
  ep_inv cfg (if ok then 0 else 1) s' /\ x_streamList s' = x_streamList s.
Proof.
  intros Hinv Hsrp El Hr Hnone. unfold openavbSrpAttachStream. rewrite Hnone. set (e := StrElem _ _ _ _ _ _ _ _ _ _).
  pose proof (new_elem_spec s l p c e Hinv Hsrp El) as Hnew.
  assert (elem_key (ep_next s, e) = stream_key (p, c)) as Hk.
  { unfold elem_key, stream_key. cbn. by rewrite Hr. }
  specialize (Hnew Hk). destruct (new_elem e s) as [[k|] s1]; destruct Hnew as (El1 & _ & _ & Hinv1); [|by split].
  split; [|done]. by apply (inv_quiet cfg 0 s1).
Qed.

Lemma attach_spec h id ld s :
  ep_inv cfg 0 s -> id_ok id ->
  returns (openavbEptSrvrAttachStream cfg h id ld s) (fun '(_, s') => ep_inv cfg 0 s').
Proof.
  intros Hinv Hid. unfold openavbEptSrvrAttachStream.
  destruct (findStream cfg id s) as [id' o] eqn:Hfind. assert (id' = fill_id cfg id) as -> by (by injection Hfind).
  pose proof (find_owner h id s Hinv Hid) as Ho. rewrite Hfind in Ho. cbn [snd] in Ho.
  apply returns_inv in Ho as ([|] & -> & Ho); rewrite res_bind_ret; [done|]. destruct (Ho eq_refl) as [Hown Hf]. clear Ho.
  destruct o as [p|].
  - destruct Hf as (l1 & c & l2 & E & Hc & Hl1). rewrite res_bind_ret. destruct (noSrp cfg) eqn:Hsrp.
    + destruct (ld =? openavbSrp_LDSt_Interest); [|done].
      eapply returns_bind; [apply (reg_cb_spec cfg Hwrite 0 p c); [done|]|by intros s' [? _]].
      rewrite E. apply at_addr_mid. by eapply shape_split; [apply Hinv|].
    + unfold openavbSrpAttachStream. destruct (elem_exists s l1 p c l2 Hinv Hsrp E Hl1) as [k Hk].
      rewrite Hc in Hk. rewrite Hk. by apply (inv_quiet cfg 0 s).
  - unfold addStream. destruct (ee_calloc (ep_calls s)); [|by apply (inv_quiet cfg 0 s)].
    set (p := ep_next s). set (c := new_stream h (fill_id cfg id)). set (s1 := alloc _).
    pose proof (fresh_stream _ _ (proj1 Hinv)) as Hp.
    rewrite (set_stream_mid s1 (x_streamList s) p c []), !res_bind_ret by done.
    set (c1 := with_role clientListener c). set (s2 := with_streams _ s1).
    assert (ep_inv cfg 1 s2) as Hinv2.
    { apply (inv_add s s2 c1); try done. split; [by apply fill_id_ok | done]. }
    destruct (noSrp cfg) eqn:Hsrp.
    + destruct (ld =? openavbSrp_LDSt_Interest); [|by apply (inv_nosrp 1)].
      eapply returns_bind; [apply (reg_cb_spec cfg Hwrite 1 p c1); [done | by apply at_addr_mid]|].
      intros s' [Hinv' _]. by apply (inv_nosrp 1).
    + pose proof (elem_missing s (fill_id cfg id) Hinv Hsrp (fill_id_ok _ Hid) Hf) as Hnone.
      pose proof (srp_attach_new s2 (x_streamList s) p c1 ld Hinv2 Hsrp eq_refl eq_refl) as Hatt.
      change (cs_streamID c1) with (fill_id cfg id) in Hatt.
      destruct (openavbSrpAttachStream p (fill_id cfg id) ld s2) as [[|] s3].
      * by apply Hatt.
      * destruct Hatt as [Hinv3 El3]; [done|]. by apply (inv_drop s3 (x_streamList s) p c1).
Qed.

Lemma stop_spec h id s :
  ep_inv cfg 0 s -> id_ok id ->
  returns (openavbEptSrvrStopStream cfg h id s) (fun '(_, s') => ep_inv cfg 0 s').
Proof.
  intros Hinv Hid. unfold openavbEptSrvrStopStream.
  destruct (findStream cfg id s) as [id' o] eqn:Hfind.
  pose proof (find_owner h id s Hinv Hid) as Ho. rewrite Hfind in Ho. cbn [snd] in Ho.
  apply returns_inv in Ho as (other & -> & Ho). rewrite res_bind_ret. destruct o as [p|]; [|done].
  destruct other; [done|]. destruct (Ho eq_refl) as [_ (l1 & c & l2 & E & _ & Hl1)].
  eapply returns_mono; [by apply (leave_spec cfg s l1 p c l2)|]. by intros [ok s'] (_ & ? & _).
Qed.

(** ** Reports of MRP *)

(** An element that is found points to its stream. *)
Lemma elem_stream s k f :
  ep_inv cfg 0 s -> srp_callbacks s = true -> find_elem f s = Some k ->
  exists e p c, get_elem s k = Ret e /\ f e = true /\ avtpHandle e = p /\ at_addr p (x_streamList s) = Some c
    /\ se_talker e = bool_decide (cs_role c = clientTalker) /\ se_streamId e = srp_id (cs_streamID c).
Proof.
  intros (Hs & _) Hcb Hk. pose proof (sh_srp _ _ _ Hs) as Hr. pose proof (sh_calls _ _ _ Hs) as Hcalls.
  destruct (noSrp cfg); [by rewrite Hcb in Hcalls|]. destruct Hr as ([|] & Hr & Hn); [|done]. rewrite app_nil_r in Hr.
  apply first_addr_split in Hk as (e1 & e & e2 & Ee & Hfe & _). pose proof (sh_elems _ _ _ Hs) as Hnd. rewrite Ee in Hnd.
  apply elems_for in Hr. rewrite Ee in Hr. apply Forall2_app_inv_r in Hr as (l1 & l2 & _ & H2 & E).
  destruct l2 as [|[p c] l2]; [by apply Forall2_nil_inv_l in H2|]. apply Forall2_cons in H2 as [[= Hp Hi Ht] _].
  exists e, p, c. split; [|split; [done|split; [done|split; [|done]]]].
  - unfold get_elem. rewrite Ee, at_addr_mid; [done|]. by eapply NoDup_split_addr.
  - rewrite E. apply at_addr_mid. by eapply shape_split.
Qed.

(** Recording what was reported keeps the element. *)
Lemma inv_subtype s k x :
  ep_inv cfg 0 s -> ep_inv cfg 0 (with_elems (upd_addr k (with_subtype x) (strElemList s)) s).
Proof.
  assert (forall l : list (positive * strElem), (upd_addr k (with_subtype x) l).*1 = l.*1
            /\ elem_key <$> upd_addr k (with_subtype x) l = elem_key <$> l) as Hu.
  { induction l as [|[j e] l [IH1 IH2]]; [done|]. cbn. case_decide; [done|]. cbn. by rewrite IH1, IH2. }
  destruct (Hu (strElemList s)) as [Hu1 Hu2]. intros ([Ha He Hf Hst Ho Hr Hd Hc] & Hm & HM). split; [|done].
  split; cbn; rewrite ?Hu1; try done. destruct (noSrp cfg); [by rewrite Hr | by rewrite Hu2].
Qed.

Lemma mrp_attach_spec id sub s : ep_inv cfg 0 s -> returns (mrp_attach_cb cfg id sub s) (fun s' => ep_inv cfg 0 s').
Proof.
  intros Hinv. unfold mrp_attach_cb. destruct (srp_callbacks s) eqn:Hcb; [|done].
  destruct (find_elem _ s) as [k|] eqn:Hk; [|done].
  destruct (elem_stream s k _ Hinv Hcb Hk) as (e & p & c & He & Hf & Hp & Hc & Ht & _). rewrite He, res_bind_ret.
  destruct (se_subtype e =? sub); [done|]. apply andb_true_iff in Hf as [Hf _]. rewrite Hf in Ht.
  symmetry in Ht. apply bool_decide_eq_true in Ht.
  eapply returns_bind; [apply (attach_cb_spec cfg Hwrite 0 (avtpHandle e) c); by rewrite ?Hp|].
  intros [ok s1] (c1 & Hinv1 & (_ & Ee & _) & _).
  unfold get_elem in He |- *. rewrite Ee. destruct (at_addr k (strElemList s)); [|done]. rewrite res_bind_ret.
  rewrite <- Ee. by apply inv_subtype.
Qed.

Lemma mrp_register_spec id join da x y z s :
  ep_inv cfg 0 s -> returns (mrp_register_cb cfg id join da x y z s) (fun s' => ep_inv cfg 0 s').
Proof.
  intros Hinv. unfold mrp_register_cb. destruct (srp_callbacks s) eqn:Hcb; [|done].
  destruct (find_elem _ s) as [k|] eqn:Hk; [|done].
  destruct (elem_stream s k _ Hinv Hcb Hk) as (e & p & c & He & _ & Hp & Hc & _). rewrite He, res_bind_ret.
  destruct (se_subtype e =? join); [done|].
  eapply returns_bind; [apply (reg_cb_spec cfg Hwrite 0 (avtpHandle e) c); by rewrite ?Hp|].
  intros s1 [Hinv1 ((_ & Ee & _) & _)].
  unfold get_elem in He |- *. rewrite Ee. destruct (at_addr k (strElemList s)); [|done]. rewrite res_bind_ret.
  rewrite <- Ee. by apply inv_subtype.
Qed.

(** ** Runs *)

(** What clients are assumed to send: identifiers of six address bytes and a
    16-bit number, and talkers of class A or B.  The server does not check the
    class, see [unknown_class_dangles] for a request outside. *)
Definition event_ok (e : ep_event) : Prop :=
  match e with
  | EvMessage _ (OPENAVB_ENDPOINT_TALKER_REGISTER id _ _ cls _ _) => id_ok id /\ 0 <= cls < 2
  | EvMessage _ (OPENAVB_ENDPOINT_LISTENER_ATTACH id _) => id_ok id
  | EvMessage _ (OPENAVB_ENDPOINT_CLIENT_STOP id) => id_ok id
  | _ => True
  end.

Lemma receive_spec h m s :
  ep_inv cfg 0 s -> event_ok (EvMessage h m) ->
  returns (openavbEptSrvrReceiveFromClient cfg h m s) (fun '(_, s') => ep_inv cfg 0 s').
Proof.
  intros Hinv Hok. destruct m; cbn [openavbEptSrvrReceiveFromClient].
  - destruct Hok. by apply register_spec.
  - by apply attach_spec.
  - by apply stop_spec.
  - unfold openavbEptSrvrHndlVerRqstFromClient, openavbEptSrvrSendServerVersionToClient. rewrite res_bind_assoc.
    eapply returns_bind; [by apply send_spec|]. intros [ok s'] ((Hf & El & Eq) & _). by apply (inv_quiet cfg 0 s).
  - done.
Qed.

Lemma service_spec e s :
  ep_inv cfg 0 s -> event_ok e -> returns (openavbEptSrvrService cfg e s) (fun s' => ep_inv cfg 0 s').
Proof.
  intros Hinv Hok. destruct e as [|h m|h|id sub|id join da x y z]; cbn [openavbEptSrvrService].
  - destruct (first_closed (ep_fds s) 0); [|done]. apply inv_fds; [done|]. rewrite length_insert. apply Hinv.
  - destruct (client_open h s); [|done]. eapply returns_bind; [by apply receive_spec|].
    intros [[|] s'] Hinv'; [done|]. by apply socket_close_spec.
  - destruct (client_open h s); [|done]. by apply socket_close_spec.
  - by apply mrp_attach_spec.
  - by apply mrp_register_spec.
Qed.

Lemma run_spec es s :
  ep_inv cfg 0 s -> Forall event_ok es -> returns (ep_run cfg es s) (fun s' => ep_inv cfg 0 s').
Proof.
  intros Hinv Hok. revert s Hinv. induction Hok as [|e es He _ IH]; intros s Hinv; [done|]. cbn [ep_run].
  eapply returns_bind; [by apply service_spec|]. apply IH.
Qed.

End Specs.

(** ** The start *)

Lemma start_inv cfg mode ifindex mtu link nsr q :
  qd_ref (qm_disc q) <= 0 -> ep_inv cfg 0 (endpoint_start cfg mode ifindex mtu link nsr q).
Proof.
  intros Href. split; [|split].
  - split; cbn; try done; [apply NoDup_nil_2 | apply NoDup_nil_2 | set_solver |]. destruct (noSrp cfg); [done|]. by exists [].
  - split; [done|]. split; [apply Permutation_refl | apply Forall_nil_2].
  - exists ∅. pose proof (initialize_spec mode ifindex (ep_ifname cfg) mtu link nsr q Href) as H.
    unfold endpoint_start. cbn [ep_qmgr x_streamList].
    destruct (openavbQmgrInitialize mode ifindex (Some (ep_ifname cfg)) mtu link nsr q) as [ok q'].
    destruct H as (_ & Hq & _). split; [done|]. split; [by rewrite map_to_list_empty | apply Forall_nil_2].
Qed.

(** ** Bandwidth *)

(** The bytes per second of the streams of a class that hold a mark. *)
Definition class_load (c : Z) (cs : list clientStream) : Z :=
  foldr (fun x acc => (if negb (cs_fwmark x =? INVALID_FWMARK) && (cs_srClass x =? c)
                       then streamBytesPerSec (booking x).2 else 0) + acc) 0 cs.

Lemma load_bookings c cs :
  Forall (fun x => cs_fwmark x <> INVALID_FWMARK -> TC_AVB_MARK_CLASS (cs_fwmark x) = cs_srClass x) cs ->
  foldr (fun x acc => of_class c x.1 (streamBytesPerSec x.2) + acc) 0 (bookings cs) = class_load c cs.
Proof.
  induction 1 as [|x cs Hx _ IH]; [done|]. unfold class_load in *. cbn [foldr].
  destruct (Z.eqb_spec (cs_fwmark x) INVALID_FWMARK) as [E|E].
  - rewrite bookings_none by done. rewrite IH. cbn. lia.
  - rewrite bookings_some by done. cbn [foldr]. rewrite IH. f_equal.
    unfold of_class. cbn. rewrite Hx by done. done.
Qed.

Lemma books_total (c : Z) cs M : books cs M -> Qmgr.total c M = class_load c cs.
Proof.
  intros [Hp Hc]. rewrite <- load_bookings by done. unfold Qmgr.total. rewrite map_fold_foldr.
  etrans; [eapply (foldr_permutation (=)); [by intros x ?? -> | | exact Hp]|].
  - intros j1 [m1 b1] j2 [m2 b2] acc _ _ _. cbn. lia.
  - clear Hp. induction (bookings cs) as [|[m b] l IH]; [done|]. cbn in *. by rewrite IH.
Qed.

(** ** Ownership *)

(** The endpoint holds for its streams what they need, and nothing else. *)
Record owns (cfg : ep_cfg) (s : ep) : Prop := {
  own_queues : map_to_list (reserved (qmgr_streams (ep_qmgr s))) ≡ₚ bookings (x_streamList s).*2;
  own_bandwidth : forall c, 0 <= c < 2 ->
    qmgr_classes (ep_qmgr s) !! Z.to_nat c = Some (u32 (class_load c (x_streamList s).*2));
  own_addresses : taken_from 0 (maapAllocList s) ≡ₚ handles (x_streamList s).*2;
  own_dest : Forall (fun x => forall i, hndMaap x.2 = Some i ->
    (maapAllocList s).*1 !! i = Some (cs_destAddr x.2)) (x_streamList s);
  own_elements : if noSrp cfg then strElemList s = [] else Forall2 elem_for (x_streamList s) (strElemList s)
}.

Lemma inv_owns cfg s : ep_inv cfg 0 s -> owns cfg s.
Proof.
  intros (Hs & (_ & Ht & Ha) & M & Hq & Hb). pose proof (sh_srp _ _ _ Hs) as Hr. split.
  - rewrite (qh_reserved _ _ Hq). apply Hb.
  - intros c Hc. rewrite <- (books_total c _ M) by done. by apply (qh_total _ _ Hq).
  - done.
  - by rewrite Forall_fmap in Ha.
  - destruct (noSrp cfg); [done|]. destruct Hr as ([|] & Hr & Hn); [|done]. rewrite app_nil_r in Hr. by apply elems_for.
Qed.

(** C20: the endpoint owns exactly what its streams need.  From its start, for every
    sequence of connections, requests (register, attach, stop, version, unknown),
    hang-ups and reports of MRP, each step returns without a fault; at the end the
    reservations of the queue manager are those of the streams that hold a mark,
    the bandwidth of a class is the sum of its streams' rates (modulo 2^32), the
    multicast addresses taken from MAAP are those the streams hold, each stream
    has its address, and the elements of the SRP proxy point one to one to the
    streams in order.  This is under three assumptions: clients send identifiers
    of the protocol's width and register talkers of class A or B only ([event_ok];
    with another class the element of a removed stream stays in the SRP proxy and
    its next use faults, [unknown_class_dangles]), every message to a client is
    written whole, and MRP accepts every stream that is advertised.  Allocations
    and the hardware may fail at any call. *)
Theorem endpoint_owns_exactly {ee : EndpointEnv} {sh : Shaper} cfg mode ifindex mtu link nsr q es :
  (forall n, ee_write n = true) -> (forall n, mrp_advertise_stream n = 0) ->
  length (ifmac cfg) = ETH_ALEN /\ bytes_ok (ifmac cfg) -> qd_ref (qm_disc q) <= 0 -> Forall event_ok es ->
  returns (ep_run cfg es (endpoint_start cfg mode ifindex mtu link nsr q)) (owns cfg).
Proof.
  intros Hw Ha Hmac Hq Hes. eapply returns_mono; [|by intros s Hs; apply inv_owns, Hs].
  apply run_spec; try done. by apply start_inv.
Qed.

(** ** Witness *)

Definition quiet_env : EndpointEnv :=
  Build_EndpointEnv (fun _ => true) (fun _ => true) (fun _ => 0) (fun _ => (3, 2)) (fun _ => (2, 2)).
Definition demo_cfg : ep_cfg := EpCfg false "eth0"%string [0; 1; 2; 3; 4; 5] 1.
Definition talker_id : AVBStreamID := StreamID [0; 1; 2; 3; 4; 5] 7.
Definition listener_id : AVBStreamID := StreamID [9; 9; 9; 9; 9; 9] 8.
Definition register_event (h : Z) (id : AVBStreamID) (cls : Z) : ep_event :=
  EvMessage h (OPENAVB_ENDPOINT_TALKER_REGISTER id emptyMAC (TSpec 84 1) cls 1 0).
Definition demo_ep (cfg : ep_cfg) : ep := endpoint_start cfg 5 2 1500 100000 0 cold_qmgr.

(** A talker without an address is reserved when its listener is ready, and a
    listener of another client comes and goes. *)
Definition demo_ep_events : list ep_event :=
  [ EvConnect; register_event 1 (StreamID emptyMAC 7) 0; EvMrpAttach (srp_id talker_id) openavbSrp_LDSt_Ready;
    EvConnect; EvMessage 2 (OPENAVB_ENDPOINT_LISTENER_ATTACH listener_id openavbSrp_LDSt_Interest);
    EvMrpRegister (srp_id listener_id) 1 [1; 2; 3; 4; 5; 6] 84 1 0; EvHangup 2 ].

Lemma demo_ep_outcome :
  (s ← ep_run (ee := quiet_env) (sh := no_hardware) demo_cfg demo_ep_events (demo_ep demo_cfg);
   Ret (qmgr_classes (ep_qmgr s), taken_from 0 (maapAllocList s), (cs_fwmark ∘ snd) <$> x_streamList s,
        fst <$> ep_sent s))
  = Ret ([1008000; 0], [0%nat], [256], [1; 1; 2]).
Proof. vm_compute. reflexivity. Qed.

Lemma endpoint_owns_exactly_witness :
  returns (ep_run (ee := quiet_env) (sh := no_hardware) demo_cfg demo_ep_events (demo_ep demo_cfg)) (owns demo_cfg).
Proof.
  apply (endpoint_owns_exactly (ee := quiet_env) (sh := no_hardware)); try reflexivity.
  - split; [reflexivity|]. repeat constructor; cbn; lia.
  - repeat constructor; cbn; lia.
Defined.

(** ** Defects *)

Definition with_advertise (r : Z) : EndpointEnv :=
  Build_EndpointEnv (fun _ => true) (fun _ => true) (fun _ => r) (fun _ => (3, 2)) (fun _ => (2, 2)).
Definition with_write (f : nat -> bool) : EndpointEnv :=
  Build_EndpointEnv (fun _ => true) f (fun _ => 0) (fun _ => (3, 2)) (fun _ => (2, 2)).

(** When MRP refuses a stream, the record is freed and the element of the SRP
    proxy that points to it stays: the next report about the stream goes through
    the pointer. *)
Theorem refused_stream_dangles :
  ep_run (ee := with_advertise (-1)) (sh := no_hardware) demo_cfg
    [EvConnect; register_event 1 talker_id 0; EvMrpAttach (srp_id talker_id) openavbSrp_LDSt_Ready] (demo_ep demo_cfg)
  = Fault (UseAfterFree 1).
Proof. vm_compute. reflexivity. Qed.

(** The same with a class other than A and B, which the client chooses. *)
Theorem unknown_class_dangles :
  ep_run (ee := quiet_env) (sh := no_hardware) demo_cfg
    [EvConnect; register_event 1 talker_id 2; EvMrpAttach (srp_id talker_id) openavbSrp_LDSt_Ready] (demo_ep demo_cfg)
  = Fault (UseAfterFree 1).
Proof. vm_compute. reflexivity. Qed.

(** A client that has gone when it is told its multicast address takes its record
    with it, which the registration goes on to use. *)
Theorem failed_write_frees_stream :
  ep_run (ee := with_write (fun _ => false)) (sh := no_hardware) demo_cfg
    [EvConnect; register_event 1 talker_id 0] (demo_ep demo_cfg)
  = Fault (UseAfterFree 1).
Proof. vm_compute. reflexivity. Qed.

(** A client that has gone when MRP reports its listener takes the element with it,
    in which the report is then recorded (here the third call is that write). *)
Theorem failed_write_frees_element :
  ep_run (ee := with_write (fun n => (n <? 4)%nat)) (sh := no_hardware) demo_cfg
    [EvConnect; register_event 1 talker_id 0; EvMrpAttach (srp_id talker_id) openavbSrp_LDSt_Ready] (demo_ep demo_cfg)
  = Fault (UseAfterFree 2).
Proof. vm_compute. reflexivity. Qed.

(** Only the first stream of a client goes with it: the second keeps its address and
    its reservation, and the next client gets the handle that it belongs to. *)
Theorem second_stream_survives :
  (s ← ep_run (ee := quiet_env) (sh := no_hardware) demo_cfg
     [ EvConnect; register_event 1 talker_id 0; register_event 1 (StreamID [0; 1; 2; 3; 4; 5] 9) 0;
       EvMrpAttach (srp_id (StreamID [0; 1; 2; 3; 4; 5] 9)) openavbSrp_LDSt_Ready; EvHangup 1; EvConnect ]
     (demo_ep demo_cfg);
   Ret (fd_open 1 s, (fun x => (clientHandle x.2, si_uniqueID (cs_streamID x.2), cs_fwmark x.2)) <$> x_streamList s,
        taken_from 0 (maapAllocList s)))
  = Ret (true, [(1, 9, 256)], [1%nat]).
Proof. vm_compute. reflexivity. Qed.

(** A registration that repeats an identifier of its own client is not refused: it
    takes a second record and a second multicast address. *)
Theorem repeated_registration :
  (s ← ep_run (ee := quiet_env) (sh := no_hardware) demo_cfg
     [EvConnect; register_event 1 talker_id 0; register_event 1 talker_id 0] (demo_ep demo_cfg);
   Ret ((fun x => (cs_streamID x.2, hndMaap x.2)) <$> x_streamList s))
  = Ret [(talker_id, Some 0%nat); (talker_id, Some 1%nat)].
Proof. vm_compute. reflexivity. Qed.
