(* ===== verification/MrpClient.v ===== *)
(** * The MRP client of the pipeline (openavb_common/mrp_client.c)

    The side of the control protocol that the endpoint process runs: it prints
    commands for the MRP daemon and scans what the daemon reports.  Reports are
    lines of text; scanning a line calls back into the SRP proxy of the endpoint.
    Local variables that [sscanf] may leave alone keep whatever the stack held. *)

From S2P Require Import Prelude Os Parse MsrpOps AvtpTime.
From Stdlib Require Import ZArith Lia String.
From stdpp Require Import base tactics list option strings pretty.
Open Scope Z_scope.

(** ** Data *)

Definition MSRP_LISTENER_ASKFAILED : Z := 1.

(** The globals of the module; [mc_sent] is what was written to the daemon. *)
Record mrp_client := McState {
  mc_socket : Z;
  mc_listeners : Z;
  mrp_okay : Z;
  mrp_error : Z;
  domain_a_valid : Z;
  domain_class_a_id : Z;
  domain_class_a_priority : Z;
  domain_class_a_vid : Z;
  domain_b_valid : Z;
  domain_class_b_id : Z;
  domain_class_b_priority : Z;
  domain_class_b_vid : Z;
  monitor_stream_id : list Z;
  mc_sent : list (list Z)
}.

Definition with_listeners n c :=
  McState (mc_socket c) n (mrp_okay c) (mrp_error c) (domain_a_valid c) (domain_class_a_id c)
    (domain_class_a_priority c) (domain_class_a_vid c) (domain_b_valid c) (domain_class_b_id c)
    (domain_class_b_priority c) (domain_class_b_vid c) (monitor_stream_id c) (mc_sent c).
Definition with_answer okay err c :=
  McState (mc_socket c) (mc_listeners c) okay err (domain_a_valid c) (domain_class_a_id c)
    (domain_class_a_priority c) (domain_class_a_vid c) (domain_b_valid c) (domain_class_b_id c)
    (domain_class_b_priority c) (domain_class_b_vid c) (monitor_stream_id c) (mc_sent c).
Definition with_domain_a id p v c :=
  McState (mc_socket c) (mc_listeners c) (mrp_okay c) (mrp_error c) 1 id p v (domain_b_valid c)
    (domain_class_b_id c) (domain_class_b_priority c) (domain_class_b_vid c) (monitor_stream_id c) (mc_sent c).
Definition with_domain_b id p v c :=
  McState (mc_socket c) (mc_listeners c) (mrp_okay c) (mrp_error c) (domain_a_valid c) (domain_class_a_id c)
    (domain_class_a_priority c) (domain_class_a_vid c) 1 id p v (monitor_stream_id c) (mc_sent c).
Definition with_mrp_sent l c :=
  McState (mc_socket c) (mc_listeners c) (mrp_okay c) (mrp_error c) (domain_a_valid c) (domain_class_a_id c)
    (domain_class_a_priority c) (domain_class_a_vid c) (domain_b_valid c) (domain_class_b_id c)
    (domain_class_b_priority c) (domain_class_b_vid c) (monitor_stream_id c) l.
Definition with_mrp_socket fd c :=
  McState fd (mc_listeners c) (mrp_okay c) (mrp_error c) (domain_a_valid c) (domain_class_a_id c)
    (domain_class_a_priority c) (domain_class_a_vid c) (domain_b_valid c) (domain_class_b_id c)
    (domain_class_b_priority c) (domain_class_b_vid c) (monitor_stream_id c) (mc_sent c).

(** The initial values of the globals. *)
Definition mrp_client_start : mrp_client := McState (-1) 0 0 0 0 6 3 2 0 5 2 2 (replicate 8 0) [].

(** The locals of [process_mrp_msg]. *)
Record mrp_locals := McLocals {
  l_id : Z;
  l_priority : Z;
  l_vid : Z;
  l_size : Z;
  l_frames : Z;
  l_prank : Z;
  l_latency : Z;
  l_substate : Z;
  l_streamid : list Z;
  l_dest : list Z
}.

(** The calls of [mrp_attach_cb] and [mrp_register_cb]. *)
Inductive mrp_call :=
| AttachCb (streamid : list Z) (subtype : Z)
| RegisterCb (streamid : list Z) (join : Z) (destaddr : list Z) (size frames vid latency : Z).

(** ** Scanning *)

Fixpoint drop_digits (l : list Z) : list Z :=
  match l with
  | [] => []
  | c :: r => match digit_value 10 c with Some _ => drop_digits r | None => l end
  end.

(** [%d]: the value as a [long], and what follows the digits. *)
Definition scan_dec (l : list Z) : option (Z * list Z) :=
  let l := skip_space l in
  let '(neg, l) := match l with
                   | c :: r => if c =? 45 then (true, r) else if c =? 43 then (false, r) else (false, l)
                   | [] => (false, [])
                   end in
  (fun v => (Z.max (- 2 ^ 63) (Z.min (2 ^ 63 - 1) (if neg : bool then - v else v)), drop_digits l))
    <$> scan_digits 10 None l.

(** [sscanf] of a format of literals that each precede a [%d]: the values converted. *)
Fixpoint scan_fields (lits : list (list Z)) (l : list Z) : list Z :=
  match lits with
  | [] => []
  | lit :: lits =>
      if has_prefix lit l then
        match scan_dec (drop (length lit) l) with
        | Some (v, r) => u32 v :: scan_fields lits r
        | None => []
        end
      else []
  end.

Definition read_dec (buf : list Z) (i old : Z) : res Z :=
  s ← cstr buf i; Ret (match scan_dec s with Some (v, _) => u32 v | None => old end).
Definition read_hex (width : option nat) (buf : list Z) (i old : Z) : res Z :=
  s ← cstr buf i; Ret (match sscanf_uint 16 width s with Some v => u32 v | None => old end).

(** [while (buf[i] != c) i++;] *)
Fixpoint find_char (n : nat) (buf : list Z) (c i : Z) : res Z :=
  b ← rd buf i;
  if b =? c then Ret i
  else match n with O => Fault OutOfFuel | S n => find_char n buf c (i + 1) end.
Definition skip_to (buf : list Z) (c i : Z) : res Z := find_char (length buf) buf c i.

(** The end of the line, and [Some] of the start of the next one. *)
Fixpoint find_eol (n : nat) (buf : list Z) (buflen i : Z) : res (option Z) :=
  if i <? buflen then
    b ← rd buf i;
    if b =? 10 then Ret (Some (i + 1))
    else if b =? 0 then Ret None
    else match n with O => Fault OutOfFuel | S n => find_eol n buf buflen (i + 1) end
  else if i =? buflen then Ret None
  else b ← rd buf i; Ret (if b =? 0 then None else Some (i + 1)).

(** The loops over the bytes of an identifier: the last value scanned and the bytes. *)
Fixpoint hex_bytes (n : nat) (buf : list Z) (i id : Z) : res (Z * list Z) :=
  match n with
  | O => Ret (id, [])
  | S n => id ← read_hex (Some 2%nat) buf i id;
           '(id', l) ← hex_bytes n buf (i + 2) id;
           Ret (id', u8 id :: l)
  end.

Definition CH_A : Z := 65.
Definition CH_D : Z := 68.
Definition CH_P : Z := 80.
Definition CH_S : Z := 83.
Definition CH_V : Z := 86.

Definition scan_listener (buf : list Z) (i : Z) (lo : mrp_locals) : res (Z * mrp_locals) :=
  i ← skip_to buf CH_D i;
  sub ← read_dec buf (i + 2) (l_substate lo);
  i ← skip_to buf CH_S (i + 2);
  '(id, sid) ← hex_bytes 8 buf (i + 2) (l_id lo);
  Ret (i + 2, McLocals id (l_priority lo) (l_vid lo) (l_size lo) (l_frames lo) (l_prank lo) (l_latency lo) sub sid
                (l_dest lo)).

Definition talker_format : list (list Z) := bytes_of <$> ["V="; ",Z="; ",I="; ",P="; ",L="]%string.

Definition scan_talker (buf : list Z) (i : Z) (lo : mrp_locals) : res (Z * mrp_locals) :=
  i ← skip_to buf CH_S i;
  '(id, sid) ← hex_bytes 8 buf (i + 2) (l_id lo);
  i ← skip_to buf CH_A (i + 2);
  '(id, da) ← hex_bytes 6 buf (i + 2) id;
  let i := i + 2 + 6 * 2 + 1 in
  s ← cstr buf i;
  let vs := scan_fields talker_format s in
  Ret (i, McLocals id (l_priority lo) (default (l_vid lo) (vs !! 0%nat)) (default (l_size lo) (vs !! 1%nat))
            (default (l_frames lo) (vs !! 2%nat)) (default (l_prank lo) (vs !! 3%nat))
            (default (l_latency lo) (vs !! 4%nat)) (l_substate lo) sid da).

Definition scan_domain (buf : list Z) (k : Z) (lo : mrp_locals) : res (Z * mrp_locals) :=
  id ← read_dec buf (k + 4) (l_id lo);
  i ← skip_to buf CH_P (k + 4);
  p ← read_dec buf (i + 2) (l_priority lo);
  i ← skip_to buf CH_V (i + 2);
  v ← read_hex None buf (i + 2) (l_vid lo);
  Ret (i + 2, McLocals id p v (l_size lo) (l_frames lo) (l_prank lo) (l_latency lo) (l_substate lo) (l_streamid lo)
                (l_dest lo)).

Definition monitored (lo : mrp_locals) (c : mrp_client) : bool := memcmp (l_streamid lo) (monitor_stream_id c) =? 0.
Definition note_listener (lo : mrp_locals) (c : mrp_client) : mrp_client :=
  if (MSRP_LISTENER_ASKFAILED <? l_substate lo) && monitored lo c then with_listeners 1 c else c.
Definition attach_call (lo : mrp_locals) : mrp_call := AttachCb (l_streamid lo) (s32 (l_substate lo)).
Definition register_call (join : Z) (lo : mrp_locals) : mrp_call :=
  RegisterCb (l_streamid lo) join (l_dest lo) (l_size lo) (l_frames lo) (u16 (l_vid lo)) (l_latency lo).

(** ** process_mrp_msg *)

(** The [case 'S'] of the switch: an event on a stream. *)
Definition process_event (buf : list Z) (k : Z) (lo : mrp_locals) (c : mrp_client) : res (list mrp_call * mrp_client) :=
  what ← rd buf (k + 4);
  if what =? 76 then
    '(_, lo) ← scan_listener buf (k + 5) lo;
    ev ← rd buf (k + 1);
    Ret (if ev =? 76 then ([attach_call lo], if monitored lo c then with_listeners 0 c else c)
         else if (ev =? 74) || (ev =? 78) then ([attach_call lo], note_listener lo c)
         else ([], c))
  else if what =? 84 then
    '(_, lo) ← scan_talker buf (k + 5) lo;
    ev ← rd buf (k + 1);
    Ret ([register_call (if ev =? 74 then 1 else 0) lo], c)
  else Ret ([], c).

(** From [next_line] on; a line that is followed by another goes around. *)
Fixpoint process_lines (n : nat) (buf : list Z) (buflen k : Z) (lo : mrp_locals) (c : mrp_client)
  : res (list mrp_call * mrp_client) :=
  if buflen <=? k then Ret ([], c)
  else
    let next i lo calls c :=
      eol ← find_eol (length buf) buf buflen i;
      match eol with
      | None => Ret (calls, c)
      | Some k =>
          match n with
          | O => Fault OutOfFuel
          | S n => '(more, c) ← process_lines n buf buflen k lo c; Ret (calls ++ more, c)
          end
      end in
    b ← rd buf k;
    if b =? 69 then Ret ([], with_answer (mrp_okay c) 1 c)
    else if b =? 79 then Ret ([], with_answer 1 (mrp_error c) c)
    else if b =? 76 then
      '(i, lo) ← scan_listener buf k lo; next i lo [attach_call lo] (note_listener lo c)
    else if b =? 68 then
      '(i, lo) ← scan_domain buf k lo;
      next i lo [] (if l_id lo =? 6 then with_domain_a (s32 (l_id lo)) (s32 (l_priority lo)) (u16 (l_vid lo)) c
                    else with_domain_b (s32 (l_id lo)) (s32 (l_priority lo)) (u16 (l_vid lo)) c)
    else if b =? 84 then
      '(i, lo) ← scan_talker buf k lo; next i lo [register_call 0 lo] c
    else if b =? 83 then process_event buf k lo c
    else Ret ([], c).

Definition process_mrp_msg (buf : list Z) (buflen : Z) (lo : mrp_locals) (c : mrp_client)
  : res (list mrp_call * mrp_client) := process_lines (length buf) buf buflen 0 lo c.

(** One round of [mrp_monitor_thread] that received the datagram [data]. *)
Definition mrp_receive (data : list Z) (lo : mrp_locals) (c : mrp_client) : res (list mrp_call * mrp_client) :=
  let got := take (Z.to_nat MAX_MRPD_CMDSZ) data in
  process_mrp_msg (got ++ replicate (Z.to_nat MAX_MRPD_CMDSZ - length got) 0) (Z.of_nat (length got)) lo c.

(** ** Commands *)

(** The result of the n-th [sendto] to the daemon. *)
Class MrpSocket := sendto_mrpd : nat -> Z.

Definition hex_digit_upper (z : Z) : string :=
  match String.get (Z.to_nat (z mod 16)) "0123456789ABCDEF" with
  | Some c => String c EmptyString
  | None => EmptyString
  end.
Definition fmt_02X (z : Z) : string := hex_digit_upper (z / 16) +:+ hex_digit_upper z.
Definition fmt_04X (z : Z) : string := fmt_02X (z / 256) +:+ fmt_02X (z mod 256).
Definition fmt_idX (id : list Z) : string := String.concat "" (fmt_02X <$> id).

(** A buffer of 1500 zeros that a text was printed into. *)
Definition msgbuf_of (s : string) : list Z :=
  let l := bytes_of (snprintf 1500 s) in l ++ replicate (1500 - length l) 0.

Definition stream_params (streamid destaddr : list Z) (vlan pktsz interval priority latency : Z) : string :=
  "S=" +:+ fmt_idX streamid +:+ ",A=" +:+ fmt_idX destaddr +:+ ",V=" +:+ fmt_04X vlan
  +:+ ",Z=" +:+ fmt_d (u32 pktsz) +:+ ",I=" +:+ fmt_d (u32 interval) +:+ ",P=" +:+ fmt_d (u32 (priority * 32))
  +:+ ",L=" +:+ fmt_d (u32 latency).
Definition advertise_text streamid destaddr vlan pktsz interval priority latency : string :=
  "S++:" +:+ stream_params streamid destaddr vlan pktsz interval priority latency.
Definition unadvertise_text streamid destaddr vlan pktsz interval priority latency : string :=
  "S--:" +:+ stream_params streamid destaddr vlan pktsz interval priority latency.
Definition domain_command (class_id priority vid : Z) : string :=
  "S+D:C=" +:+ fmt_d (u32 class_id) +:+ ",P=" +:+ fmt_d (u32 priority) +:+ ",V=" +:+ fmt_04x vid.
Definition ready_text (stream_id : list Z) : string := "S+L:L=" +:+ fmt_mac stream_id +:+ ", D=2".
Definition leave_text (stream_id : list Z) : string := "S-L:L=" +:+ fmt_mac stream_id +:+ ", D=3".
Definition join_listener_text (streamid : list Z) : string := "S+L:S=" +:+ fmt_idX streamid +:+ ",D=2".

Section Commands.
Context {sk : MrpSocket}.

Definition send_mrp_msg (data : list Z) (c : mrp_client) : Z * mrp_client :=
  if mc_socket c =? -1 then (-1, c)
  else (sendto_mrpd (length (mc_sent c)), with_mrp_sent (mc_sent c ++ [data]) c).

(** A command waits for no answer: it fails when the datagram was not sent whole. *)
Definition mrp_command (s : string) (c : mrp_client) : Z * mrp_client :=
  let '(rc, c) := send_mrp_msg (msgbuf_of s) c in ((if rc =? 1500 then 0 else -1), c).
Definition asking (c : mrp_client) : mrp_client := with_answer 0 (mrp_error c) c.

Definition mrp_connect (sock_fd : Z) (c : mrp_client) : Z * mrp_client :=
  if sock_fd <? 0 then (-1, c) else (0, with_mrp_socket sock_fd c).
Definition mrp_disconnect (c : mrp_client) : Z * mrp_client := mrp_command "BYE" (asking c).
Definition mrp_register_domain (class_id priority vid : Z) (c : mrp_client) : Z * mrp_client :=
  mrp_command (domain_command class_id priority vid) (asking c).
Definition mrp_advertise_stream streamid destaddr vlan pktsz interval priority latency (c : mrp_client) : Z * mrp_client :=
  mrp_command (advertise_text streamid destaddr vlan pktsz interval priority latency) (asking c).
Definition mrp_unadvertise_stream streamid destaddr vlan pktsz interval priority latency (c : mrp_client)
  : Z * mrp_client :=
  mrp_command (unadvertise_text streamid destaddr vlan pktsz interval priority latency) (asking c).
Definition mrp_join_vlan (c : mrp_client) : Z * mrp_client := mrp_command "V++:I=0002" c.
Definition mrp_join_listener (streamid : list Z) (c : mrp_client) : Z * mrp_client :=
  mrp_command (join_listener_text streamid) (asking c).
Definition mrp_send_ready (stream_id : list Z) (c : mrp_client) : Z * mrp_client := mrp_command (ready_text stream_id) c.
Definition mrp_send_leave (stream_id : list Z) (c : mrp_client) : Z * mrp_client := mrp_command (leave_text stream_id) c.

End Commands.
