(* ===== verification/MrpText.v ===== *)
(** * Printed numbers and their scanning

    What [%d], [%02x], [%02X] and [%04x] print is read back by the conversions of
    [sscanf]; texts inside a zeroed buffer. *)

From S2P Require Import Prelude Os Parse Mrp AppCmd MsrpOps AvtpTime MrpClient.
From Stdlib Require Import ZArith Lia String.
From stdpp Require Import base tactics list option strings pretty.
Open Scope Z_scope.

(** ** Decimal numbers *)

Definition is_digit (c : Z) : Prop := 48 <= c <= 57.

Lemma digit_value_dec c : is_digit c -> digit_value 10 c = Some (c - 48).
Proof.
  unfold is_digit, digit_value. intros H. rewrite (proj2 (Z.leb_le 48 c)), (proj2 (Z.leb_le c 57)) by lia. cbn.
  by rewrite (proj2 (Z.ltb_lt _ _)) by lia.
Qed.

Lemma pretty_digit (d : N) : (d < 10)%N -> Z.of_N (Ascii.N_of_ascii (pretty_N_char d)) = 48 + Z.of_N d.
Proof.
  intros H. assert (d = 0 \/ d = 1 \/ d = 2 \/ d = 3 \/ d = 4 \/ d = 5 \/ d = 6 \/ d = 7 \/ d = 8 \/ d = 9)%N as Hc by lia.
  destruct_or? Hc; by subst.
Qed.

Lemma bytes_of_cons c s : bytes_of (String c s) = Z.of_N (Ascii.N_of_ascii c) :: bytes_of s.
Proof. done. Qed.

(** The digits of a positive number: they are digits, and scanning them gives the
    number and leaves what follows. *)
Lemma pretty_go_scan (x : N) : (0 < x)%N -> forall s, exists ds,
  bytes_of (pretty_N_go x s) = ds ++ bytes_of s /\ Forall is_digit ds /\ ds <> []
  /\ forall r, scan_digits 10 None (ds ++ r) = scan_digits 10 (Some (Z.of_N x)) r.
Proof.
  induction (N.lt_wf_0 x) as [x _ IH]. intros Hx s. rewrite pretty_N_go_step by done.
  pose proof (N.mod_lt x 10 ltac:(lia)) as Hd. pose proof (N.div_mod x 10 ltac:(lia)) as Hdm.
  set (d := (x `mod` 10)%N) in *. set (c := pretty_N_char d).
  assert (Hc : Z.of_N (Ascii.N_of_ascii c) = 48 + Z.of_N d) by (by apply pretty_digit).
  assert (Hdv : digit_value 10 (48 + Z.of_N d) = Some (Z.of_N d)).
  { rewrite digit_value_dec by (unfold is_digit; lia). f_equal. lia. }
  destruct (decide (x `div` 10 = 0)%N) as [E|E].
  - rewrite E, pretty_N_go_0, bytes_of_cons, Hc. exists [48 + Z.of_N d]. split; [done|].
    split; [constructor; [unfold is_digit; lia | done]|]. split; [done|].
    intros r. cbn [app scan_digits]. rewrite Hdv. cbn. do 2 f_equal. lia.
  - destruct (IH (x `div` 10)%N ltac:(apply N.div_lt; lia) ltac:(lia) (String c s)) as (ds & Eb & Hds & Hne & Hs).
    rewrite Eb, bytes_of_cons, Hc. exists (ds ++ [48 + Z.of_N d]). rewrite <- app_assoc. split; [done|].
    split; [apply Forall_app; split; [done | constructor; [unfold is_digit; lia | done]]|].
    split; [by destruct ds|]. intros r. rewrite <- app_assoc. cbn [app].
    rewrite Hs. cbn [scan_digits]. rewrite Hdv. cbn [default id]. do 2 f_equal. lia.
Qed.

Lemma pretty_scan (x : Z) : 0 <= x -> exists ds,
  bytes_of (pretty x) = ds /\ Forall is_digit ds /\ ds <> []
  /\ forall r, scan_digits 10 None (ds ++ r) = scan_digits 10 (Some x) r.
Proof.
  intros Hx. destruct x as [|p|p]; [|clear Hx|lia].
  - exists [48]. split; [done|]. split; [constructor; [unfold is_digit; lia | done]|]. done.
  - destruct (pretty_go_scan (Npos p) ltac:(lia) "") as (ds & Eb & Hds & Hne & Hs). exists ds.
    rewrite app_nil_r in Eb. by split_and!.
Qed.

Definition stops (r : list Z) : Prop := match r with [] => True | c :: _ => digit_value 10 c = None end.

Lemma scan_stops v r : stops r -> scan_digits 10 (Some v) r = Some v.
Proof. destruct r as [|c r]; [done|]. cbn. by intros ->. Qed.

Lemma drop_digits_app ds r : Forall is_digit ds -> stops r -> drop_digits (ds ++ r) = r.
Proof.
  intros H Hr. induction H as [|c ds Hc _ IH]; [|cbn; by rewrite digit_value_dec].
  destruct r as [|c r]; [done|]. cbn in *. by rewrite Hr.
Qed.

(** The text of [%d]: a sign or a digit, digits, and no other character. *)
Definition num_char (c : Z) : Prop := is_digit c \/ c = 45.

Lemma fmt_d_chars v : 0 <= v < 2 ^ 32 -> Forall num_char (bytes_of (fmt_d v)).
Proof.
  intros Hv. unfold fmt_d. destruct (Z.ltb_spec v (2 ^ 31)).
  - destruct (pretty_scan v) as (ds & -> & Hds & _); [lia|]. eapply Forall_impl; [done|]. by left.
  - destruct (v - 2 ^ 32) as [|p|p] eqn:E; [lia..|]. change (pretty (Z.neg p)) with ("-" +:+ pretty (Z.pos p)).
    rewrite bytes_of_app. destruct (pretty_scan (Z.pos p)) as (ds & -> & Hds & _); [lia|].
    constructor; [by right|]. eapply Forall_impl; [done|]. by left.
Qed.

Lemma isspace_digit c : is_digit c -> isspace c = false /\ c <> 45 /\ c <> 43.
Proof.
  intros H. unfold is_digit in H. split; [|lia]. unfold isspace. apply orb_false_iff.
  rewrite andb_false_iff, Z.eqb_neq, !Z.leb_gt. lia.
Qed.

Lemma scan_dec_fmt_d v r : 0 <= v < 2 ^ 32 -> stops r ->
  exists z, scan_dec (bytes_of (fmt_d v) ++ r) = Some (z, r) /\ u32 z = v /\ s32 v = z.
Proof.
  intros Hv Hr. unfold fmt_d. destruct (Z.ltb_spec v (2 ^ 31)) as [H|H].
  - destruct (pretty_scan v) as (ds & -> & Hds & Hne & Hs); [lia|]. exists v. split; [|unfold u32, s32; zdm].
    destruct ds as [|c ds]; [done|]. apply Forall_cons in Hds as [Hc Hds].
    destruct (isspace_digit c Hc) as (Hsp & H45 & H43). unfold scan_dec. cbn [app skip_space]. rewrite Hsp.
    rewrite (proj2 (Z.eqb_neq c 45)), (proj2 (Z.eqb_neq c 43)) by done.
    change (c :: ds ++ r) with ((c :: ds) ++ r). rewrite Hs, scan_stops, drop_digits_app by (done || by constructor).
    cbn. do 2 f_equal. lia.
  - destruct (v - 2 ^ 32) as [|p|p] eqn:E; [lia..|]. change (pretty (Z.neg p)) with ("-" +:+ pretty (Z.pos p)).
    rewrite bytes_of_app. destruct (pretty_scan (Z.pos p)) as (ds & -> & Hds & Hne & Hs); [lia|].
    exists (Z.neg p). split; [|unfold u32, s32; zdm]. unfold scan_dec. cbn [app bytes_of skip_space].
    change (bytes_of "-") with [45]. cbn [app skip_space]. change (isspace 45) with false. cbn iota.
    change (45 =? 45) with true. cbn iota. rewrite Hs, scan_stops, drop_digits_app by done.
    cbn. do 2 f_equal. lia.
Qed.

(** ** Hexadecimal bytes *)

Definition hex_letter (c : Z) : Prop := is_digit c \/ 65 <= c <= 70 \/ 97 <= c <= 102.
Definition hexc (c d : Z) : Prop := digit_value 16 c = Some d /\ hex_letter c.

Lemma hex_letter_facts c : hex_letter c -> isspace c = false /\ c <> 45 /\ c <> 43 /\ c <> 120 /\ c <> 88.
Proof.
  unfold hex_letter, is_digit. intros H. split; [|lia]. unfold isspace. apply orb_false_iff.
  rewrite andb_false_iff, Z.eqb_neq, !Z.leb_gt. lia.
Qed.

(** A printed byte: two digits, high one first. *)
Definition hex_fmt (f : Z -> string) : Prop := forall v, 0 <= v < 256 ->
  exists c1 c2, bytes_of (f v) = [c1; c2] /\ hexc c1 (v / 16) /\ hexc c2 (v mod 16).

Lemma hex_char_hexc d : 0 <= d < 16 -> hexc (hex_char d) d.
Proof.
  intros Hd. split; [by apply hex_char_value|]. destruct (hex_char_range d Hd); unfold hex_letter, is_digit; lia.
Qed.

Lemma fmt_02x_hex : hex_fmt fmt_02x.
Proof.
  intros v Hv. unfold fmt_02x. rewrite bytes_of_app, !hex_digit_bytes. do 2 eexists. split; [done|].
  replace (v / 16 mod 16) with (v / 16) by zdm. split; apply hex_char_hexc; zdm.
Qed.

Definition upper_char (d : Z) : Z := if d <? 10 then 48 + d else 55 + d.
Lemma hex_digit_upper_bytes d : bytes_of (hex_digit_upper d) = [upper_char (d mod 16)].
Proof.
  unfold hex_digit_upper. pose proof (Z.mod_pos_bound d 16 eq_refl) as Hd. revert Hd.
  generalize (d mod 16). clear d. intros d Hd.
  assert (d = 0 \/ d = 1 \/ d = 2 \/ d = 3 \/ d = 4 \/ d = 5 \/ d = 6 \/ d = 7 \/ d = 8
    \/ d = 9 \/ d = 10 \/ d = 11 \/ d = 12 \/ d = 13 \/ d = 14 \/ d = 15) as Hc by lia.
  destruct_or? Hc; subst; reflexivity.
Qed.
Lemma upper_char_hexc d : 0 <= d < 16 -> hexc (upper_char d) d.
Proof.
  intros Hd. assert (d = 0 \/ d = 1 \/ d = 2 \/ d = 3 \/ d = 4 \/ d = 5 \/ d = 6 \/ d = 7 \/ d = 8
    \/ d = 9 \/ d = 10 \/ d = 11 \/ d = 12 \/ d = 13 \/ d = 14 \/ d = 15) as Hc by lia.
  destruct_or? Hc; subst; (split; [reflexivity | unfold hex_letter, is_digit, upper_char; cbn; lia]).
Qed.
Lemma fmt_02X_hex : hex_fmt fmt_02X.
Proof.
  intros v Hv. unfold fmt_02X. rewrite bytes_of_app, !hex_digit_upper_bytes. do 2 eexists. split; [done|].
  replace (v / 16 mod 16) with (v / 16) by zdm. split; apply upper_char_hexc; zdm.
Qed.

Definition hexs (f : Z -> string) (l : list Z) : list Z := l ≫= (bytes_of ∘ f).
Definition pack (a : Z) (l : list Z) : Z := foldl (fun a b => a * 256 + b) a l.

Lemma bytes_of_concat f l : bytes_of (String.concat "" (f <$> l)) = hexs f l.
Proof.
  induction l as [|x l IH]; [done|]. unfold hexs in *. cbn [mbind list_bind]. rewrite <- IH.
  destruct l as [|y l]; [cbn; by rewrite app_nil_r|].
  change (String.concat "" (f <$> x :: y :: l)) with (f x +:+ ("" +:+ String.concat "" (f <$> y :: l))).
  by rewrite bytes_of_app.
Qed.

Section Hex.
Context (f : Z -> string) (Hf : hex_fmt f).

Lemma hexs_length l : bytes_ok l -> length (hexs f l) = (2 * length l)%nat.
Proof.
  induction 1 as [|b l Hb _ IH]; [done|]. unfold hexs in *. cbn [mbind list_bind]. rewrite length_app, IH.
  destruct (Hf b Hb) as (c1 & c2 & E & _). cbn. rewrite E. cbn. lia.
Qed.
Lemma hexs_chars l : bytes_ok l -> Forall hex_letter (hexs f l).
Proof.
  induction 1 as [|b l Hb _ IH]; [constructor|]. unfold hexs in *. cbn [mbind list_bind]. apply Forall_app.
  split; [|done]. destruct (Hf b Hb) as (c1 & c2 & E & [_ H1] & [_ H2]). cbn. rewrite E. do 2 (apply Forall_cons_2; [done|]). apply Forall_nil_2.
Qed.

Lemma hexs_scan l a r : bytes_ok l -> scan_digits 16 (Some a) (hexs f l ++ r) = scan_digits 16 (Some (pack a l)) r.
Proof.
  intros H. revert a. induction H as [|b l Hb _ IH]; intros a; [done|]. unfold hexs in *. cbn [mbind list_bind].
  destruct (Hf b Hb) as (c1 & c2 & E & [H1 _] & [H2 _]). unfold compose. rewrite E. cbn [app scan_digits].
  rewrite H1. cbn [scan_digits]. rewrite H2. cbn [default id]. rewrite IH. unfold pack. cbn [foldl].
  do 3 f_equal. zdm.
Qed.

Definition stops16 (r : list Z) : Prop := match r with [] => True | c :: _ => digit_value 16 c = None end.

Lemma pack_bound l a : 0 <= a -> bytes_ok l -> a * 256 ^ Zlen l <= pack a l < (a + 1) * 256 ^ Zlen l.
Proof.
  intros Ha H. revert a Ha. induction H as [|b l Hb _ IH]; intros a Ha; [cbn; lia|].
  specialize (IH (a * 256 + b) ltac:(lia)). unfold pack in *. cbn [foldl].
  replace (Zlen (b :: l)) with (1 + Zlen l) by (cbn; lia). rewrite Z.pow_add_r by lia.
  assert (0 < 256 ^ Zlen l) by (apply Z.pow_pos_nonneg; lia). nia.
Qed.

Lemma sscanf_hexs l r :
  bytes_ok l -> (1 <= length l <= 8)%nat -> stops16 r ->
  sscanf_uint 16 None (hexs f l ++ r) = Some (pack 0 l).
Proof.
  intros Hl Hn Hr. pose proof (pack_bound l 0 ltac:(lia) Hl) as Hp.
  assert (256 ^ Zlen l <= 256 ^ 8) by (apply Z.pow_le_mono_r; lia).
  destruct Hl as [|b l Hb Hl]; [cbn in Hn; lia|]. unfold hexs. cbn [mbind list_bind]. fold (hexs f l).
  destruct (Hf b Hb) as (c1 & c2 & E & [H1 Hc1] & [H2 Hc2]). unfold compose. rewrite E. cbn [app].
  destruct (hex_letter_facts c1 Hc1) as (Hs1 & N1 & N2 & _). destruct (hex_letter_facts c2 Hc2) as (_ & _ & _ & N3 & N4).
  assert (Hscan : scan_digits 16 None (c1 :: c2 :: hexs f l ++ r) = Some (pack 0 (b :: l))).
  { cbn [scan_digits]. rewrite H1. cbn [scan_digits]. rewrite H2. cbn [default id]. rewrite hexs_scan by done.
    unfold pack. cbn [foldl]. replace ((0 * 16 + b / 16) * 16 + b mod 16) with (0 * 256 + b) by zdm.
    destruct r as [|c r]; [done|]. cbn in *. by rewrite Hr. }
  unfold sscanf_uint. cbn [skip_space]. rewrite Hs1, (proj2 (Z.eqb_neq c1 45)), (proj2 (Z.eqb_neq c1 43)) by done.
  unfold scan_number. rewrite (proj2 (Z.eqb_neq c2 120)), (proj2 (Z.eqb_neq c2 88)), andb_false_r by done.
  rewrite Hscan. cbn [fmap option_fmap option_map]. f_equal. unfold ULONG_MAX. lia.
Qed.

(** With a width that ends with the digits, what follows does not matter. *)
Lemma sscanf_hexs_width l r :
  bytes_ok l -> (1 <= length l <= 8)%nat ->
  sscanf_uint 16 (Some (2 * length l)%nat) (hexs f l ++ r) = Some (pack 0 l).
Proof.
  intros Hl Hn. rewrite <- (sscanf_hexs l [] Hl Hn I), app_nil_r. unfold sscanf_uint.
  assert (skip_space (hexs f l ++ r) = hexs f l ++ r /\ skip_space (hexs f l) = hexs f l) as [-> ->].
  { pose proof (hexs_chars l Hl) as Hc. pose proof (hexs_length l Hl).
    destruct (hexs f l) as [|c cs]; [cbn in *; lia|]. apply Forall_cons in Hc as [Hc _]. cbn.
    by destruct (hex_letter_facts c Hc) as (-> & _). }
  by rewrite take_app_length' by (by rewrite hexs_length).
Qed.

Lemma read_hex_byte v r : 0 <= v < 256 -> sscanf_uint 16 (Some 2%nat) (bytes_of (f v) ++ r) = Some v.
Proof.
  intros Hv. pose proof (sscanf_hexs_width [v] r ltac:(by constructor) ltac:(cbn; lia)) as H.
  unfold hexs in H. cbn in H. by rewrite app_nil_r in H.
Qed.

End Hex.

(** Unpacking gives the bytes back. *)
Lemma unpack_pack l a : 0 <= a -> bytes_ok l -> unpack_bytes (length l) (pack a l) = l.
Proof.
  intros Ha H. revert a Ha. induction H as [|b l Hb Hl IH]; intros a Ha; [done|]. cbn [length unpack_bytes].
  pose proof (pack_bound l (a * 256 + b) ltac:(lia) Hl) as Hp. unfold pack in *. cbn [foldl]. f_equal.
  - rewrite Z.shiftr_div_pow2 by lia. replace (2 ^ (Z.of_nat (length l) * 8)) with (256 ^ Zlen l)
      by (rewrite Z.mul_comm, Z.pow_mul_r by lia; done).
    assert (0 < 256 ^ Zlen l) by (apply Z.pow_pos_nonneg; lia).
    rewrite <- (Z.div_unique_pos (foldl (fun a b => a * 256 + b) (a * 256 + b) l) (256 ^ Zlen l) (a * 256 + b)
               (foldl (fun a b => a * 256 + b) (a * 256 + b) l - (a * 256 + b) * 256 ^ Zlen l)) by nia.
    unfold u8. zdm.
  - apply IH. lia.
Qed.

(** ** Texts in a buffer *)

(** The C string at an offset. *)
Definition text_at (buf : list Z) (i : Z) (t : list Z) : Prop :=
  0 <= i /\ Forall (fun c => c <> 0) t /\ exists r, drop (Z.to_nat i) buf = t ++ 0 :: r.

Lemma text_skip buf i a t : text_at buf i (a ++ t) -> text_at buf (i + Zlen a) t.
Proof.
  intros (Hi & Ht & r & E). apply Forall_app in Ht as [_ Ht]. split; [lia|]. split; [done|]. exists r.
  replace (Z.to_nat (i + Zlen a)) with (Z.to_nat i + length a)%nat by lia.
  rewrite <- drop_drop, E, <- app_assoc. by rewrite drop_app_length.
Qed.

Lemma text_cstr buf i t : text_at buf i t -> cstr buf i = Ret t.
Proof.
  intros (Hi & Ht & r & E). unfold cstr. rewrite (proj2 (Z.ltb_ge i 0)), E by lia.
  enough (until_nul (t ++ 0 :: r) = Some t) as -> by done. clear E.
  induction Ht as [|c t Hc _ IH]; [done|]. cbn. rewrite (proj2 (Z.eqb_neq c 0)) by done. by rewrite IH.
Qed.

Lemma text_rd buf i c t : text_at buf i (c :: t) -> rd buf i = Ret c.
Proof.
  intros (Hi & _ & r & E). apply rd_lookup; [lia|].
  assert (drop (Z.to_nat i) buf !! 0%nat = Some c) as H by (by rewrite E).
  rewrite lookup_drop, Nat.add_0_r in H. done.
Qed.

Lemma text_room buf i t : text_at buf i t -> i + Zlen t < Zlen buf.
Proof.
  intros (Hi & _ & r & E). apply (f_equal length) in E. rewrite length_drop, length_app in E. cbn in E. lia.
Qed.

Lemma text_find buf c i a t :
  text_at buf i (a ++ c :: t) -> Forall (fun x => x <> c) a -> skip_to buf c i = Ret (i + Zlen a).
Proof.
  intros Ht Ha. unfold skip_to. assert (length a < length buf)%nat as Hn.
  { pose proof (text_room _ _ _ Ht) as H. destruct Ht as [Hi _]. rewrite length_app in H. cbn in H. lia. }
  revert Hn. generalize (length buf). intros n Hn. revert i n Ht Hn.
  induction Ha as [|x a Hx _ IH]; intros i n Ht Hn.
  - destruct n; cbn [find_char app] in *; rewrite (text_rd _ _ _ _ Ht), res_bind_ret, Z.eqb_refl; f_equal; cbn; lia.
  - cbn in Hn. destruct n as [|n]; [lia|]. cbn [find_char app] in *. rewrite (text_rd _ _ _ _ Ht), res_bind_ret.
    rewrite (proj2 (Z.eqb_neq x c)) by done. change (x :: a ++ c :: t) with ([x] ++ a ++ c :: t) in Ht.
    apply text_skip in Ht. rewrite (IH (i + 1) n) by (done || lia). f_equal. cbn. lia.
Qed.

Lemma text_hex_bytes f buf i l t id :
  hex_fmt f -> bytes_ok l -> text_at buf i (hexs f l ++ t) -> exists id', hex_bytes (length l) buf i id = Ret (id', l).
Proof.
  intros Hf Hl. revert i id. induction Hl as [|b l Hb _ IH]; intros i id Ht; [by exists id|].
  unfold hexs in Ht. cbn [mbind list_bind] in Ht. fold (hexs f l) in Ht. unfold compose in Ht. rewrite <- app_assoc in Ht.
  cbn [length hex_bytes]. unfold read_hex. rewrite (text_cstr _ _ _ Ht), !res_bind_ret, read_hex_byte by done.
  destruct (Hf b Hb) as (c1 & c2 & E & _). apply text_skip in Ht. rewrite E in Ht.
  destruct (IH (i + 2) (u32 b) Ht) as [id' ->]. rewrite !res_bind_ret. exists id'.
  do 3 f_equal. unfold u8, u32. zdm.
Qed.

(** ** Printing into a buffer *)

Definition nulfree (s : string) : Prop := Forall (fun c => c <> 0) (bytes_of s).

Lemma nulfree_app s t : nulfree s -> nulfree t -> nulfree (s +:+ t).
Proof. unfold nulfree. rewrite bytes_of_app. intros. by apply Forall_app. Qed.

Lemma snprintf_bytes n s : bytes_of (snprintf n s) = take (n - 1) (bytes_of s).
Proof.
  unfold snprintf. generalize (n - 1)%nat. clear n. induction s as [|c s IH]; intros [|n]; [done..|].
  cbn [String.substring]. rewrite !bytes_of_cons. cbn [take]. by rewrite IH.
Qed.
Lemma nulfree_snprintf n s : nulfree s -> nulfree (snprintf n s).
Proof. intros H. unfold nulfree. rewrite snprintf_bytes. by apply Forall_take. Qed.

Lemma nulfree_fmt_d v : 0 <= v < 2 ^ 32 -> nulfree (fmt_d v).
Proof. intros Hv. eapply Forall_impl; [by apply fmt_d_chars|]. intros c [H|H]; unfold is_digit in *; lia. Qed.
Lemma nulfree_02x v : nulfree (fmt_02x v).
Proof.
  unfold fmt_02x. apply nulfree_app; unfold nulfree; rewrite hex_digit_bytes; (constructor; [|done]);
    match goal with |- hex_char ?d <> 0 => destruct (hex_char_range d); [apply Z.mod_pos_bound|..]; lia end.
Qed.
Lemma nulfree_mac l : nulfree (fmt_mac l).
Proof.
  unfold nulfree, fmt_mac. rewrite bytes_of_concat. unfold hexs.
  induction l as [|b l IH]; [constructor|]. cbn. apply Forall_app. split; [apply nulfree_02x | done].
Qed.
Lemma nulfree_state r a : nulfree (mrp_decode_state r a 8).
Proof. unfold nulfree. destruct r as [[] ? ?], a as [[] ? ? ? ?]; by repeat constructor. Qed.

(** Texts that the daemon or the client prints have no NUL. *)
Ltac nulfree_solve :=
  lazymatch goal with
  | |- nulfree (_ +:+ _) => apply nulfree_app; nulfree_solve
  | |- nulfree (fmt_mac _) => apply nulfree_mac
  | |- nulfree (fmt_04x _) => apply nulfree_app; apply nulfree_02x
  | |- nulfree (fmt_d _) => apply nulfree_fmt_d; lia
  | |- nulfree (mrp_decode_state _ _ _) => apply nulfree_state
  | |- nulfree _ => first [assumption | vm_compute; repeat (constructor; [discriminate|]); constructor]
  end.

Lemma msgbuf_text s : (String.length s < 1500)%nat -> nulfree s -> text_at (msgbuf_of s) 0 (bytes_of s).
Proof.
  intros Hl Hn. split; [done|]. split; [done|]. unfold msgbuf_of. rewrite snprintf_fits by done.
  rewrite bytes_of_length. destruct (1500 - String.length s)%nat as [|n] eqn:E; [lia|]. by exists (replicate n 0).
Qed.
Lemma msgbuf_length s : length (msgbuf_of s) = 1500%nat.
Proof.
  unfold msgbuf_of. rewrite length_app, length_replicate, bytes_of_length.
  pose proof (snprintf_length 1500 s ltac:(lia)). lia.
Qed.

(** ** Printed lengths *)

Lemma pretty_length (x : Z) k : (1 <= k)%nat -> 0 <= x < 10 ^ Z.of_nat k -> (String.length (pretty x) <= k)%nat.
Proof.
  intros Hk Hx. enough (forall (n : N) k s, Z.of_N n < 10 ^ Z.of_nat k ->
    (String.length (pretty_N_go n s) <= k + String.length s)%nat) as Hgo.
  { destruct x as [|p|p]; [cbn; lia | | lia]. change (pretty (Z.pos p)) with (pretty_N_go (Npos p) "").
    specialize (Hgo (Npos p) k ""%string ltac:(lia)). change (String.length ""%string) with 0%nat in Hgo. lia. }
  clear. intros n k. revert n. induction k as [|k IH]; intros n s Hn.
  - destruct (decide (n = 0)%N) as [->|]; [by rewrite pretty_N_go_0 | cbn in Hn; lia].
  - destruct (decide (n = 0)%N) as [->|]; [rewrite pretty_N_go_0; lia|]. rewrite pretty_N_go_step by lia.
    etrans; [apply IH|cbn; lia]. rewrite N2Z.inj_div. apply Z.div_lt_upper_bound; [lia|].
    rewrite Nat2Z.inj_succ, Z.pow_succ_r in Hn; lia.
Qed.

Lemma fmt_d_length v k : (1 <= k <= 9)%nat -> 0 <= v < 10 ^ Z.of_nat k -> (String.length (fmt_d v) <= k)%nat.
Proof.
  intros Hk Hv. unfold fmt_d. assert (10 ^ Z.of_nat k <= 10 ^ 9) by (apply Z.pow_le_mono_r; lia).
  rewrite (proj2 (Z.ltb_lt v (2 ^ 31))) by lia. apply pretty_length; lia.
Qed.
Lemma fmt_d_length32 v : 0 <= v < 2 ^ 32 -> (String.length (fmt_d v) <= 11)%nat.
Proof.
  intros Hv. unfold fmt_d. destruct (Z.ltb_spec v (2 ^ 31)).
  - pose proof (pretty_length v 10 ltac:(lia) ltac:(lia)). lia.
  - destruct (v - 2 ^ 32) as [|p|p] eqn:E; [lia..|]. change (pretty (Z.neg p)) with ("-" +:+ pretty (Z.pos p)).
    rewrite length_append. pose proof (pretty_length (Z.pos p) 10 ltac:(lia) ltac:(lia)). cbn in *. lia.
Qed.
Lemma fmt_mac_bytes l : bytes_of (fmt_mac l) = hexs fmt_02x l.
Proof. apply bytes_of_concat. Qed.
Lemma fmt_hex_length f l : hex_fmt f -> bytes_ok l -> String.length (String.concat "" (f <$> l)) = (2 * length l)%nat.
Proof. intros Hf Hl. by rewrite <- bytes_of_length, bytes_of_concat, hexs_length. Qed.
