(* ===== verification/MrpClientTheorems.v ===== *)
(** * Theorems about the MRP client

    The daemon and the client understand each other: what the client prints, the
    command parser of the daemon reads back, and what the daemon reports, the
    client passes on to the endpoint; where they do not is shown at the end. *)

From S2P Require Import Prelude AvtpTime Qmgr Endpoint EndpointProps EndpointTheorems.
From S2P Require Import Os Parse Eui64Set Mrp Attr AppCmd Mvrp Msrp MsrpOps MsrpList MsrpCmd MrpClient MrpText.
From Stdlib Require Import ZArith Lia String.
From stdpp Require Import base tactics list option strings gmap.
Open Scope Z_scope.

(** ** Scanning reports *)

Lemma num_char_not c x : num_char x -> ~ num_char c -> x <> c.
Proof. by intros H Hc ->. Qed.
Lemma nums_not c v : 0 <= v < 2 ^ 32 -> ~ num_char c -> Forall (fun x => x <> c) (bytes_of (fmt_d v)).
Proof. intros Hv Hc. eapply Forall_impl; [by apply fmt_d_chars|]. intros x Hx. by eapply num_char_not. Qed.
Lemma lower_not c l : bytes_ok l -> c < 48 \/ 57 < c < 97 \/ 102 < c -> Forall (fun x => x <> c) (hexs fmt_02x l).
Proof.
  intros Hl Hc. unfold hexs. induction Hl as [|b l Hb _ IH]; [constructor|]. cbn. apply Forall_app. split; [|done].
  unfold fmt_02x. rewrite bytes_of_app, !hex_digit_bytes.
  repeat (apply Forall_cons_2 || apply Forall_nil_2);
    match goal with |- hex_char ?d <> _ => destruct (hex_char_range d); [apply Z.mod_pos_bound|..]; lia end.
Qed.

Lemma scan_listener_text buf i pre sub id t lo :
  text_at buf i (pre ++ 68 :: 61 :: bytes_of (fmt_d sub) ++ 44 :: 83 :: 61 :: hexs fmt_02x id ++ t) ->
  Forall (fun x => x <> 68) pre -> 0 <= sub < 2 ^ 32 -> length id = 8%nat -> bytes_ok id ->
  exists j n, scan_listener buf i lo
    = Ret (j, McLocals n (l_priority lo) (l_vid lo) (l_size lo) (l_frames lo) (l_prank lo) (l_latency lo) sub id
                (l_dest lo))
    /\ text_at buf j (hexs fmt_02x id ++ t).
Proof.
  intros Ht Hpre Hs Hl Hid. unfold scan_listener.
  rewrite (text_find buf CH_D i pre _ Ht Hpre), res_bind_ret.
  apply text_skip in Ht. set (i1 := i + Zlen pre) in *.
  match type of Ht with text_at _ _ (68 :: 61 :: ?u) => change (68 :: 61 :: u) with ([68; 61] ++ u) in Ht end.
  apply text_skip in Ht. change (i1 + Zlen [68; 61]) with (i1 + 2) in Ht. unfold read_dec.
  rewrite (text_cstr _ _ _ Ht), res_bind_ret.
  destruct (scan_dec_fmt_d sub (44 :: 83 :: 61 :: hexs fmt_02x id ++ t) Hs eq_refl) as (z & -> & Hz & _).
  rewrite Hz, res_bind_ret.
  rewrite (text_find buf CH_S (i1 + 2) (bytes_of (fmt_d sub) ++ [44]) (61 :: hexs fmt_02x id ++ t)), res_bind_ret.
  - rewrite <- Hl. assert (text_at buf (i1 + 2 + Zlen (bytes_of (fmt_d sub) ++ [44]) + 2) (hexs fmt_02x id ++ t)) as Ht2.
    { apply (text_skip buf _ [83; 61]), (text_skip buf _ (bytes_of (fmt_d sub) ++ [44])). by rewrite <- app_assoc. }
    destruct (text_hex_bytes _ _ _ _ _ (l_id lo) fmt_02x_hex Hid Ht2) as [n ->]. rewrite res_bind_ret. by do 2 eexists.
  - by rewrite <- app_assoc.
  - apply Forall_app. split; [apply nums_not; [done|] | by apply Forall_singleton].
    unfold num_char, is_digit, CH_S. lia.
Qed.

(** The talker line: the numbers after the addresses. *)
Definition nibbles_decimal (v : Z) : Prop := v / 4096 < 10 /\ v / 256 mod 16 < 10 /\ v / 16 mod 16 < 10 /\ v mod 16 < 10.
Definition read_as_decimal (v : Z) : Z := v / 4096 * 1000 + v / 256 mod 16 * 100 + v / 16 mod 16 * 10 + v mod 16.

Lemma hex_char_digit d : 0 <= d < 10 -> hex_char d = 48 + d.
Proof. intros Hd. unfold hex_char. by rewrite (proj2 (Z.ltb_lt d 10)) by lia. Qed.

Lemma scan_dec_vid v r : 0 <= v < 65536 -> nibbles_decimal v -> stops r ->
  scan_dec (bytes_of (fmt_04x v) ++ r) = Some (read_as_decimal v, r).
Proof.
  intros Hv (H1 & H2 & H3 & H4) Hr. unfold read_as_decimal. rewrite fmt_04x_bytes by done.
  rewrite !hex_char_digit by zdm. set (a := v / 4096) in *. set (b := v / 256 mod 16) in *.
  set (c := v / 16 mod 16) in *. set (d := v mod 16) in *.
  assert (0 <= a /\ 0 <= b /\ 0 <= c /\ 0 <= d) as (Ha & Hb & Hc & Hd) by (subst a b c d; zdm). clearbody a b c d.
  assert (forall x, 0 <= x < 10 -> digit_value 10 (48 + x) = Some x) as Hdv.
  { intros x Hx. rewrite digit_value_dec by (unfold is_digit; lia). f_equal. lia. }
  unfold scan_dec. cbn [app skip_space].
  destruct (isspace_digit (48 + a)) as (-> & _ & _); [unfold is_digit; lia|].
  rewrite (proj2 (Z.eqb_neq (48 + a) 45)), (proj2 (Z.eqb_neq (48 + a) 43)) by lia.
  cbn [scan_digits drop_digits]. rewrite !Hdv by lia. cbn [default id]. rewrite scan_stops by done.
  cbn [fmap option_fmap option_map]. do 2 f_equal; [lia|].
  destruct r as [|x r]; [done|]. cbn in *. by rewrite Hr.
Qed.

Lemma scan_field lit lits v r :
  0 <= v < 2 ^ 32 -> stops r ->
  scan_fields (lit :: lits) (lit ++ bytes_of (fmt_d v) ++ r) = v :: scan_fields lits r.
Proof.
  intros Hv Hr. cbn [scan_fields]. assert (forall l u, has_prefix l (l ++ u) = true) as ->.
  { induction l as [|x l IH]; intros u; [done|]. cbn. by rewrite Z.eqb_refl, IH. }
  rewrite drop_app_length. by destruct (scan_dec_fmt_d v r Hv Hr) as (z & -> & -> & _).
Qed.

Definition talker_tail (t : msrpdu_talker_fail) (r : list Z) : list Z :=
  bytes_of "V=" ++ bytes_of (fmt_04x (Vlan_ID t)) ++ bytes_of ",Z=" ++ bytes_of (fmt_d (MaxFrameSize t))
  ++ bytes_of ",I=" ++ bytes_of (fmt_d (MaxIntervalFrames t)) ++ bytes_of ",P=" ++ bytes_of (fmt_d (PriorityAndRank t))
  ++ bytes_of ",L=" ++ bytes_of (fmt_d (AccumulatedLatency t)) ++ r.

Lemma scan_talker_tail t r :
  talker_ok t -> nibbles_decimal (Vlan_ID t) -> stops r ->
  scan_fields talker_format (talker_tail t r)
  = [read_as_decimal (Vlan_ID t); MaxFrameSize t; MaxIntervalFrames t; PriorityAndRank t; AccumulatedLatency t].
Proof.
  intros [_ _ Hv Hz Hi Hp Hl _ _] Hd Hr. unfold talker_tail.
  change talker_format with (bytes_of "V=" :: (bytes_of <$> [",Z="; ",I="; ",P="; ",L="]%string)).
  cbn [scan_fields]. change (has_prefix (bytes_of "V=") _) with true. cbn iota.
  rewrite drop_app_length, scan_dec_vid by done. cbn [fmap list_fmap].
  do 3 (rewrite scan_field by (lia || done)). rewrite scan_field by (lia || done).
  f_equal. unfold u32, read_as_decimal. destruct Hd as (? & ? & ? & ?). rewrite Z.mod_small; [done|]. zdm.
Qed.

Lemma scan_talker_text buf i pre t r lo :
  text_at buf i (pre ++ 83 :: 61 :: hexs fmt_02x (StreamID t) ++ 44 :: 65 :: 61 :: hexs fmt_02x (Dest_Addr t)
                 ++ 44 :: talker_tail t r) ->
  Forall (fun x => x <> 83) pre -> talker_ok t -> nibbles_decimal (Vlan_ID t) -> stops r ->
  exists j n, scan_talker buf i lo
    = Ret (j, McLocals n (l_priority lo) (read_as_decimal (Vlan_ID t)) (MaxFrameSize t) (MaxIntervalFrames t)
                (PriorityAndRank t) (AccumulatedLatency t) (l_substate lo) (StreamID t) (Dest_Addr t))
    /\ text_at buf j (talker_tail t r).
Proof.
  intros Ht Hpre Hf Hd Hr. pose proof Hf as [[Hl1 Hb1] [Hl2 Hb2] _ _ _ _ _ _ _]. unfold scan_talker.
  rewrite (text_find buf CH_S i pre _ Ht Hpre), res_bind_ret. apply text_skip in Ht. set (i1 := i + Zlen pre) in *.
  match type of Ht with text_at _ _ (83 :: 61 :: ?u) => change (83 :: 61 :: u) with ([83; 61] ++ u) in Ht end.
  apply text_skip in Ht. change (i1 + Zlen [83; 61]) with (i1 + 2) in Ht. rewrite <- Hl1.
  destruct (text_hex_bytes _ _ _ _ _ (l_id lo) fmt_02x_hex Hb1 Ht) as [n1 ->]. rewrite res_bind_ret.
  set (h1 := hexs fmt_02x (StreamID t)) in *. set (h2 := hexs fmt_02x (Dest_Addr t)) in *.
  rewrite (text_find buf CH_A (i1 + 2) (h1 ++ [44]) (61 :: h2 ++ 44 :: talker_tail t r)), res_bind_ret.
  - assert (text_at buf (i1 + 2 + Zlen (h1 ++ [44]) + 2) (h2 ++ 44 :: talker_tail t r)) as Ht2.
    { apply (text_skip buf _ [65; 61]), (text_skip buf _ (h1 ++ [44])). by rewrite <- app_assoc. }
    set (i2 := i1 + 2 + Zlen (h1 ++ [44])) in *. rewrite <- Hl2.
    destruct (text_hex_bytes _ _ _ _ _ n1 fmt_02x_hex Hb2 Ht2) as [n2 ->]. rewrite res_bind_ret.
    assert (text_at buf (i2 + 2 + 6 * 2 + 1) (talker_tail t r)) as Ht3.
    { apply (text_skip buf _ h2), (text_skip buf _ [44]) in Ht2. unfold h2 in Ht2.
      rewrite hexs_length, Hl2 in Ht2 by (done || apply fmt_02x_hex). exact Ht2. }
    rewrite (text_cstr _ _ _ Ht3), res_bind_ret, scan_talker_tail by done. by do 2 eexists.
  - by rewrite <- app_assoc.
  - apply Forall_app. split; [apply lower_not; [done | unfold CH_A; lia] | by apply Forall_singleton].
Qed.

(** ** What a report says *)

(** The calls that report a change of an attribute. *)
Definition report_calls (k : msrp_key) (n : mrp_notify) : list mrp_call :=
  let t := talk_listen k in
  match type k with
  | MSRP_LISTENER_TYPE => [AttachCb (StreamID t) (s32 (substate k))]
  | MSRP_DOMAIN_TYPE => []
  | _ => [RegisterCb (StreamID t) (match n with MRP_NOTIFY_JOIN => 1 | _ => 0 end) (Dest_Addr t) (MaxFrameSize t)
            (MaxIntervalFrames t) (read_as_decimal (Vlan_ID t)) (AccumulatedLatency t)]
  end.

(** The flag of the stream that is monitored. *)
Definition report_state (k : msrp_key) (n : mrp_notify) (c : mrp_client) : mrp_client :=
  match type k with
  | MSRP_LISTENER_TYPE =>
      if memcmp (StreamID (talk_listen k)) (monitor_stream_id c) =? 0 then
        match n with
        | MRP_NOTIFY_NEW | MRP_NOTIFY_JOIN => if MSRP_LISTENER_ASKFAILED <? substate k then with_listeners 1 c else c
        | _ => with_listeners 0 c
        end
      else c
  | _ => c
  end.

Definition notify_word (n : mrp_notify) : string :=
  match n with MRP_NOTIFY_NEW => "SNE" | MRP_NOTIFY_JOIN => "SJO" | _ => "SLE" end.

(** Lengths and characters of the variants. *)
Lemma variant_fits k : skey_ok k -> (String.length (msrp_variant k) < 127)%nat /\ nulfree (msrp_variant k).
Proof.
  intros [[[Hl1 Hb1] [Hl2 Hb2] Hv Hz Hi Hp Hl [Hl3 Hb3] Hc] [D1 D2 D3 D4] Hs].
  assert (forall v : Z, 0 <= v < 256 -> (String.length (fmt_d v) <= 3)%nat) as L8
    by (intros v H; apply fmt_d_length; lia).
  assert (forall v : Z, 0 <= v < 65536 -> (String.length (fmt_d v) <= 5)%nat) as L16
    by (intros v H; apply fmt_d_length; lia).
  pose proof (fmt_d_length32 _ Hs). pose proof (fmt_d_length32 _ Hl).
  pose proof (L16 _ Hz). pose proof (L16 _ Hi). pose proof (L8 _ Hp). pose proof (L8 _ Hc).
  pose proof (L8 _ D1). pose proof (L8 _ D2). pose proof (L8 _ D3).
  pose proof (fmt_hex_length _ _ fmt_02x_hex Hb1) as E1. pose proof (fmt_hex_length _ _ fmt_02x_hex Hb2) as E2.
  pose proof (fmt_hex_length _ _ fmt_02x_hex Hb3) as E3. rewrite Hl1 in E1. rewrite Hl2 in E2. rewrite Hl3 in E3.
  unfold msrp_variant, listener_text, domain_text, talker_text, failure_text, fmt_id. split.
  - unfold fmt_mac. destruct (type k); rewrite !length_append; rewrite ?E1, ?E2, ?E3, ?fmt_04x_length; cbn; lia.
  - destruct (type k); nulfree_solve.
Qed.

Lemma notify_text_shape a n text :
  skey_ok (key a) -> msrp_notify_text a n = Some text ->
  exists r, bytes_of text = bytes_of (notify_word n) ++ 32 :: bytes_of (msrp_variant (key a)) ++ 32 :: r
    /\ (String.length text < 1500)%nat /\ nulfree text.
Proof.
  intros Hk. destruct (variant_fits _ Hk) as [Hl Hn]. unfold msrp_notify_text.
  rewrite (snprintf_fits (128 - 1)) by lia.
  set (regsrc := snprintf (128 - 1) ("R=" +:+ fmt_mac (reg_macaddr (registrar a)))).
  set (st := mrp_decode_state (registrar a) (applicant a) 8).
  set (line := fun cmd : string => snprintf (Z.to_nat MAX_MRPD_CMDSZ - 1)
    (cmd +:+ " " +:+ msrp_variant (key a) +:+ " " +:+ regsrc +:+ " " +:+ st +:+ "
")).
  assert (nulfree regsrc /\ String.length regsrc < 127)%nat as [Hr1 Hr2].
  { split; [|apply snprintf_length; lia]. apply nulfree_snprintf. nulfree_solve. }
  assert (forall cmd : string, String.length cmd = 3%nat -> nulfree cmd -> exists r,
    bytes_of (line cmd) = bytes_of cmd ++ 32 :: bytes_of (msrp_variant (key a)) ++ 32 :: r
    /\ (String.length (line cmd) < 1500)%nat /\ nulfree (line cmd)) as H.
  { intros cmd Hc3 Hcn. unfold line. rewrite snprintf_fits.
    - exists (bytes_of (regsrc +:+ " " +:+ st +:+ "
")). rewrite !bytes_of_app. split; [done|]. split.
      + rewrite !length_append. unfold st. rewrite decode_state_length. cbn. lia.
      + pose proof (nulfree_state (registrar a) (applicant a) : nulfree st). nulfree_solve.
    - change (Z.to_nat MAX_MRPD_CMDSZ - 1)%nat with 1499%nat. rewrite !length_append. unfold st. rewrite decode_state_length. cbn. lia. }
  destruct n; intros [= <-]; apply H; (reflexivity || nulfree_solve).
Qed.

(** The received buffer holds the text. *)
Lemma receive_msgbuf s lo c : mrp_receive (msgbuf_of s) lo c = process_mrp_msg (msgbuf_of s) 1500 lo c.
Proof.
  unfold mrp_receive. change (Z.to_nat MAX_MRPD_CMDSZ) with 1500%nat.
  rewrite take_ge by (rewrite msgbuf_length; lia). rewrite msgbuf_length. by rewrite Nat.sub_diag, app_nil_r.
Qed.

Lemma process_event_line s lo c t :
  text_at (msgbuf_of s) 0 (83 :: t) -> process_mrp_msg (msgbuf_of s) 1500 lo c = process_event (msgbuf_of s) 0 lo c.
Proof.
  intros Ht. unfold process_mrp_msg. generalize (length (msgbuf_of s)). intros n.
  destruct n; cbn [process_lines]; change (1500 <=? 0) with false; cbn iota;
    by rewrite (text_rd _ _ _ _ Ht), res_bind_ret.
Qed.

Definition event_char (n : mrp_notify) : Z := match n with MRP_NOTIFY_NEW => 78 | MRP_NOTIFY_JOIN => 74 | _ => 76 end.

Lemma event_prefix buf n t :
  text_at buf 0 (bytes_of (notify_word n) ++ 32 :: t) -> rd buf 1 = Ret (event_char n) /\ text_at buf 4 t.
Proof.
  intros Ht. split.
  - destruct n; apply (text_skip buf 0 [83]), text_rd in Ht; exact Ht.
  - replace (bytes_of (notify_word n) ++ 32 :: t) with ((bytes_of (notify_word n) ++ [32]) ++ t) in Ht
      by (by rewrite <- app_assoc).
    apply text_skip in Ht. by destruct n.
Qed.

Lemma text_tail buf i c t : text_at buf i (c :: t) -> text_at buf (i + 1) t.
Proof. apply (text_skip buf i [c]). Qed.

Lemma talker_text_bytes t r :
  bytes_of (talker_text t) ++ r
  = [84; 58] ++ 83 :: 61 :: hexs fmt_02x (StreamID t) ++ 44 :: 65 :: 61 :: hexs fmt_02x (Dest_Addr t) ++ 44 :: talker_tail t r.
Proof.
  unfold talker_text, talker_tail, fmt_id. rewrite !bytes_of_app, !fmt_mac_bytes. by rewrite <- !app_assoc.
Qed.
Lemma listener_text_bytes k r :
  bytes_of (listener_text k) ++ r
  = [76; 58] ++ 68 :: 61 :: bytes_of (fmt_d (substate k)) ++ 44 :: 83 :: 61
    :: hexs fmt_02x (StreamID (talk_listen k)) ++ r.
Proof. unfold listener_text, fmt_id. rewrite !bytes_of_app, !fmt_mac_bytes. by rewrite <- !app_assoc. Qed.

Lemma talker_event t buf n lo c r :
  talker_ok t -> nibbles_decimal (Vlan_ID t) -> stops r -> rd buf 1 = Ret (event_char n) ->
  text_at buf 4 (bytes_of (talker_text t) ++ r) ->
  process_event buf 0 lo c
  = Ret ([RegisterCb (StreamID t) (match n with MRP_NOTIFY_JOIN => 1 | _ => 0 end) (Dest_Addr t) (MaxFrameSize t)
            (MaxIntervalFrames t) (read_as_decimal (Vlan_ID t)) (AccumulatedLatency t)], c).
Proof.
  intros Hok Hv Hr Hev Ht. rewrite talker_text_bytes in Ht. unfold process_event.
  change (0 + 4) with 4. change (0 + 5) with 5. change (0 + 1) with 1.
  rewrite (text_rd buf 4 84 _ Ht), res_bind_ret. cbn [Z.eqb Pos.eqb]. apply text_tail in Ht.
  destruct (scan_talker_text buf 5 [58] t r lo Ht) as (j & m & -> & _); [by apply Forall_singleton | done..|].
  rewrite res_bind_ret, Hev, res_bind_ret. unfold register_call. cbn [l_streamid l_dest l_size l_frames l_vid l_latency].
  replace (u16 (read_as_decimal (Vlan_ID t))) with (read_as_decimal (Vlan_ID t)); [by destruct n|].
  destruct Hv as (? & ? & ? & ?). pose proof (tk_vlan _ Hok). unfold u16, read_as_decimal. symmetry. apply Z.mod_small. zdm.
Qed.

Lemma listener_event k buf n lo c r :
  talker_ok (talk_listen k) -> 0 <= substate k < 2 ^ 32 -> type k = MSRP_LISTENER_TYPE -> rd buf 1 = Ret (event_char n) ->
  text_at buf 4 (bytes_of (listener_text k) ++ r) ->
  process_event buf 0 lo c = Ret (report_calls k n, report_state k n c).
Proof.
  intros [[Hl Hb] _ _ _ _ _ _ _ _] Hs Ety Hev Ht. rewrite listener_text_bytes in Ht.
  unfold process_event, report_calls, report_state. rewrite Ety.
  change (0 + 4) with 4. change (0 + 5) with 5. change (0 + 1) with 1.
  rewrite (text_rd buf 4 76 _ Ht), res_bind_ret. cbn [Z.eqb Pos.eqb]. apply text_tail in Ht.
  destruct (scan_listener_text buf 5 [58] (substate k) (StreamID (talk_listen k)) r lo Ht) as (j & m & -> & _);
    [by apply Forall_singleton | done..|].
  rewrite res_bind_ret, Hev, res_bind_ret. unfold attach_call, note_listener, monitored.
  cbn [l_streamid l_substate]. destruct n; cbn [event_char Z.eqb Pos.eqb orb];
    destruct (memcmp _ _ =? 0); rewrite ?andb_true_r, ?andb_false_r; done.
Qed.

Lemma event_understood a n buf lo c r :
  skey_ok (key a) -> (is_talker (key a) = true -> nibbles_decimal (Vlan_ID (talk_listen (key a)))) ->
  text_at buf 0 (bytes_of (notify_word n) ++ 32 :: bytes_of (msrp_variant (key a)) ++ 32 :: r) ->
  process_event buf 0 lo c = Ret (report_calls (key a) n, report_state (key a) n c).
Proof.
  intros [Ht1 Hd Hs] Hv Ht. apply event_prefix in Ht as [Hev Ht]. unfold msrp_variant in Ht.
  unfold is_talker in Hv. destruct (type (key a)) eqn:Ety.
  - unfold report_calls, report_state. rewrite Ety. apply (talker_event _ buf n lo c (32 :: r)); [done | by apply Hv | done..].
  - unfold report_calls, report_state. rewrite Ety, bytes_of_app, <- app_assoc in *.
    eapply (talker_event _ buf n); [done | by apply Hv | | done | exact Ht]. done.
  - by eapply listener_event.
  - unfold report_calls, report_state, process_event. rewrite Ety. change (0 + 4) with 4.
    unfold domain_text in Ht. rewrite bytes_of_app, <- app_assoc in Ht. by rewrite (text_rd _ _ _ _ Ht).
Qed.

(** C24: what the client makes of the daemon's reports.  Every text that
    [msrp_send_notifications] prints for an attribute whose fields fit their types
    (new, join or leave), padded to the datagram that is sent, makes
    [process_mrp_msg] call back as follows, whatever the stack holds: for a listener
    once, with its identifier and substate; for a talker whose VLAN prints in
    hexadecimal without letters once, with its identifier, destination, frame size,
    interval and latency, and with the hexadecimal digits of the VLAN read as a
    decimal number (VLAN 0x10 is passed as 10), as declared for a join and as gone
    for a leave and also for a new; for a domain not at all.  Only the flag of the
    monitored stream changes.  A talker whose VLAN has a letter is
    outside: the fields after it then come from the stack
    ([talker_fields_from_stack]). *)
Theorem notification_understood a n text lo c :
  skey_ok (key a) -> (is_talker (key a) = true -> nibbles_decimal (Vlan_ID (talk_listen (key a)))) ->
  msrp_notify_text a n = Some text ->
  mrp_receive (msgbuf_of text) lo c = Ret (report_calls (key a) n, report_state (key a) n c).
Proof.
  intros Hk Hv Htext. destruct (notify_text_shape a n text Hk Htext) as (r & Hb & Hl & Hn).
  pose proof (msgbuf_text text Hl Hn) as Ht. rewrite Hb in Ht.
  rewrite receive_msgbuf. destruct n; [discriminate Htext|..];
    rewrite (process_event_line text lo c _ Ht); by eapply event_understood.
Qed.

(** ** Commands *)

(** A field of a command: its name, its text, and the comma or the end. *)
Lemma split_field_app f r : Forall (fun c => c <> 44) f -> split_field (f ++ 44 :: r) = (f, Some r).
Proof. induction 1 as [|c f Hc _ IH]; [done|]. cbn. rewrite (proj2 (Z.eqb_neq c PARSE_DELIMITER)), IH by done. done. Qed.
Lemma split_field_end f : Forall (fun c => c <> 44) f -> split_field f = (f, None).
Proof. induction 1 as [|c f Hc _ IH]; [done|]. cbn. rewrite (proj2 (Z.eqb_neq c PARSE_DELIMITER)), IH by done. done. Qed.

Lemma after_name_here name s : after_name name (name ++ s) = Some s.
Proof.
  assert (has_prefix name (name ++ s) = true) as H.
  { induction name as [|x l IH]; [done|]. cbn. by rewrite Z.eqb_refl, IH. }
  destruct (name ++ s) eqn:E; cbn; rewrite H, <- E, drop_app_length; done.
Qed.

(** One field in front of another. *)
Lemma parse_specs_step name ty specs f r v prev n :
  Forall (fun c => c <> 44) f -> parse_field ty prev f = Some (Some v) ->
  parse_specs (name ++ f ++ 44 :: r) ((name, ty) :: specs) prev n
  = match parse_specs r specs true (n + 1) with inl e => inl e | inr vs => inr (v :: vs) end.
Proof.
  intros Hf Hv. cbn [parse_specs]. rewrite after_name_here, split_field_app by done. by rewrite Hv.
Qed.
Lemma parse_specs_last name ty f v prev n :
  Forall (fun c => c <> 44) f -> parse_field ty prev f = Some (Some v) ->
  parse_specs (name ++ f) [(name, ty)] prev n = inr [v].
Proof. intros Hf Hv. cbn [parse_specs]. rewrite after_name_here, split_field_end by done. by rewrite Hv. Qed.

Lemma hex_not_comma l : Forall hex_letter l -> Forall (fun c => c <> 44) l.
Proof. intros H. eapply Forall_impl; [done|]. unfold hex_letter, is_digit. lia. Qed.

Section Fields.
Context (f : Z -> string) (Hf : hex_fmt f).

Lemma field_hex l : bytes_ok l -> (1 <= length l <= 8)%nat ->
  sscanf_uint 16 None (hexs f l) = Some (pack 0 l).
Proof. intros Hl Hn. rewrite <- (app_nil_r (hexs f l)). by apply sscanf_hexs. Qed.

Lemma field_c64 prev l : bytes_ok l -> length l = 8%nat ->
  parse_field parse_c64 prev (hexs f l) = Some (Some (PBytes l)).
Proof.
  intros Hl Hn. cbn [parse_field]. rewrite field_hex by (done || lia). cbn [fmap option_fmap option_map]. do 3 f_equal. rewrite <- Hn.
  by apply unpack_pack.
Qed.
Lemma field_mac prev l : bytes_ok l -> length l = 6%nat ->
  parse_field parse_mac prev (hexs f l) = Some (Some (PBytes l)).
Proof.
  intros Hl Hn. cbn [parse_field]. rewrite field_hex by (done || lia). cbn [fmap option_fmap option_map]. do 3 f_equal. rewrite <- Hn.
  by apply unpack_pack.
Qed.
Lemma field_04x prev v : 0 <= v < 65536 ->
  parse_field parse_u16_04x prev (hexs f [v / 256; v mod 256]) = Some (Some (PInt v)).
Proof.
  intros Hv. assert (bytes_ok [v / 256; v mod 256]) as Hb by (repeat constructor; zdm).
  pose proof (sscanf_hexs_width f Hf [v / 256; v mod 256] [] Hb ltac:(cbn; lia)) as H. rewrite app_nil_r in H.
  cbn [length Nat.mul Nat.add] in H. cbn [parse_field]. rewrite H.
  cbn [fmap option_fmap option_map]. unfold pack. cbn [foldl]. do 3 f_equal. unfold u16. zdm.
Qed.

End Fields.

Lemma sscanf_fmt_d v : 0 <= v < 2 ^ 32 ->
  exists z, sscanf_uint 10 None (bytes_of (fmt_d v)) = Some z /\ z mod 2 ^ 32 = v /\ (v < 2 ^ 31 -> z = v).
Proof.
  intros Hv. unfold fmt_d.
  assert (forall c l, is_digit c -> scan_number 10 (c :: l) = scan_digits 10 None (c :: l)) as Hnum.
  { intros c [|x l] Hc; [done|]. unfold scan_number. by rewrite andb_false_l. }
  destruct (Z.ltb_spec v (2 ^ 31)) as [H|H].
  - destruct (pretty_scan v) as (ds & -> & Hds & Hne & Hs); [lia|]. exists v. split; [|split; [apply Z.mod_small; lia | done]].
    destruct ds as [|c ds]; [done|]. apply Forall_cons in Hds as [Hc Hds]. specialize (Hs []). rewrite app_nil_r in Hs.
    destruct (isspace_digit c Hc) as (Hsp & H45 & H43). unfold sscanf_uint. cbn [skip_space]. rewrite Hsp.
    rewrite (proj2 (Z.eqb_neq c 45)), (proj2 (Z.eqb_neq c 43)), Hnum, Hs by done. cbn. f_equal. unfold ULONG_MAX. lia.
  - destruct (v - 2 ^ 32) as [|p|p] eqn:E; [lia..|]. change (pretty.pretty (Z.neg p)) with ("-" +:+ pretty.pretty (Z.pos p)).
    rewrite bytes_of_app. destruct (pretty_scan (Z.pos p)) as (ds & -> & Hds & Hne & Hs); [lia|].
    specialize (Hs []). rewrite app_nil_r in Hs. destruct ds as [|c ds]; [done|]. apply Forall_cons in Hds as [Hc Hds].
    exists (Z.neg p mod 2 ^ 64). split; [|split; [|lia]].
    + change (bytes_of "-" ++ c :: ds) with (45 :: c :: ds). unfold sscanf_uint. cbn [skip_space].
      change (isspace 45) with false. cbn iota. change (45 =? 45) with true. cbn iota.
      rewrite Hnum, Hs by done. cbn [scan_digits fmap option_fmap option_map]. f_equal.
      rewrite (proj2 (Z.ltb_ge ULONG_MAX (Z.pos p))) by (unfold ULONG_MAX; lia). done.
    + rewrite <- E. zdm.
Qed.

Lemma field_dec ty prev v w :
  0 <= v < 2 ^ 31 -> (ty = parse_u8 /\ w = u8 v) \/ (ty = parse_u16 /\ w = u16 v) ->
  parse_field ty prev (bytes_of (fmt_d v)) = Some (Some (PInt w)).
Proof.
  intros Hv Hty. destruct (sscanf_fmt_d v ltac:(lia)) as (z & Hz & _ & Hzv). rewrite Hzv in Hz by lia.
  destruct Hty as [[-> ->]|[-> ->]]; cbn [parse_field]; by rewrite Hz.
Qed.
Lemma field_u32 prev v : 0 <= v < 2 ^ 32 -> parse_field parse_u32 prev (bytes_of (fmt_d v)) = Some (Some (PInt v)).
Proof.
  intros Hv. destruct (sscanf_fmt_d v Hv) as (z & Hz & Hm & _). cbn [parse_field]. rewrite Hz. cbn. by rewrite Hm.
Qed.
Lemma nums_not_comma v : 0 <= v < 2 ^ 32 -> Forall (fun c => c <> 44) (bytes_of (fmt_d v)).
Proof. intros Hv. apply nums_not; [done|]. unfold num_char, is_digit. lia. Qed.

(** *** The parser on a command *)

Lemma nul_scan_zero buf off n : rd buf (off + (Z.of_nat n - 1)) = Ret 0 -> nul_scan buf off n = Ret (Z.of_nat n - 1).
Proof. intros H. destruct n; cbn [nul_scan]; by rewrite H, res_bind_ret. Qed.

Lemma msgbuf_last s : rd (msgbuf_of s) 1499 = Ret 0.
Proof.
  apply rd_lookup; [lia|]. unfold msgbuf_of. pose proof (snprintf_length 1500 s ltac:(lia)) as H.
  rewrite bytes_of_length. rewrite lookup_app_r by (rewrite bytes_of_length; lia). apply lookup_replicate_2.
  rewrite bytes_of_length. lia.
Qed.

(** The parameters of a command follow four characters. *)
Lemma parse_msgbuf (cmd params : string) min specs vs :
  (String.length (cmd +:+ params) < 1500)%nat -> String.length cmd = 4%nat -> nulfree (cmd +:+ params) -> min <= 1500 ->
  parse_specs (bytes_of params) specs false 0 = inr vs ->
  parse_cmd min specs (msgbuf_of (cmd +:+ params)) 1500 = Ret (Some vs).
Proof.
  intros Hl Hc Hn Hm Hvs. unfold parse_cmd. rewrite (proj2 (Z.ltb_ge 1500 min)) by done. unfold parse.
  change (1500 - 4 <? 0) with false. cbn iota.
  rewrite nul_scan_zero by (replace (4 + (Z.of_nat (Z.to_nat (1500 - 4)) - 1)) with 1499 by lia; apply msgbuf_last).
  rewrite res_bind_ret, (proj2 (Z.ltb_ge _ 0)) by lia.
  pose proof (msgbuf_text _ Hl Hn) as Ht. rewrite bytes_of_app in Ht. apply text_skip in Ht.
  rewrite bytes_of_length, Hc in Ht. change (0 + Z.of_nat 4) with 4 in Ht. rewrite (text_cstr _ _ _ Ht), !res_bind_ret.
  by rewrite Hvs.
Qed.

Lemma msgbuf_prefix lit cmd params :
  (String.length (cmd +:+ params) < 1500)%nat -> (length lit <= String.length cmd)%nat ->
  has_prefix lit (msgbuf_of (cmd +:+ params)) = has_prefix lit (bytes_of cmd).
Proof.
  intros Hl Hc. unfold msgbuf_of. rewrite snprintf_fits, bytes_of_app, <- app_assoc by done. rewrite <- bytes_of_length in Hc.
  generalize (bytes_of params ++ replicate (1500 - length (bytes_of cmd ++ bytes_of params)) 0). intros t.
  generalize dependent (bytes_of cmd). clear. intros l. revert l.
  induction lit as [|x lit IH]; intros [|y l] H; cbn in *; try done; [lia|]. f_equal. apply IH. lia.
Qed.

(** No failure information in a text without B=. *)
Definition B_EQ : list Z := bytes_of "B=".
Lemma no_B_seg u c r :
  Forall (fun x => x <> 61) u -> c <> 61 -> c <> 66 -> after_name B_EQ r = None -> after_name B_EQ (u ++ c :: 61 :: r) = None.
Proof.
  intros Hu Hc1 Hc2 Hr. assert (after_name B_EQ (c :: 61 :: r) = None) as H0.
  { cbn [after_name]. change B_EQ with [66; 61] in *. cbn [has_prefix]. rewrite (proj2 (Z.eqb_neq 66 c)) by done. exact Hr. }
  induction Hu as [|x u Hx Hu IH]; [done|]. cbn [app after_name]. change B_EQ with [66; 61] in *.
  replace (has_prefix [66; 61] (x :: u ++ c :: 61 :: r)) with false; [done|]. cbn [has_prefix]. symmetry.
  apply andb_false_iff. right. destruct u as [|y u]; cbn [app].
  - by rewrite (proj2 (Z.eqb_neq 61 c)) by done.
  - apply Forall_cons in Hu as [Hy _]. by rewrite (proj2 (Z.eqb_neq 61 y)) by done.
Qed.
Lemma no_B_end u : Forall (fun x => x <> 61) u -> after_name B_EQ u = None.
Proof.
  induction 1 as [|x u Hx Hu IH]; [done|]. cbn [after_name]. change B_EQ with [66; 61] in *.
  replace (has_prefix [66; 61] (x :: u)) with false; [done|]. cbn [has_prefix]. symmetry. apply andb_false_iff. right.
  destruct Hu as [|y u Hy _]; [done|]. by rewrite (proj2 (Z.eqb_neq 61 y)).
Qed.

Lemma fmt_04X_hexs v : bytes_of (fmt_04X v) = hexs fmt_02X [v / 256; v mod 256].
Proof. unfold fmt_04X, hexs. cbn [mbind list_bind]. by rewrite bytes_of_app, app_nil_r. Qed.
Lemma fmt_04x_hexs v : bytes_of (fmt_04x v) = hexs fmt_02x [v / 256; v mod 256].
Proof. unfold fmt_04x, hexs. cbn [mbind list_bind]. by rewrite bytes_of_app, app_nil_r. Qed.
Lemma two_bytes v : 0 <= v < 65536 -> bytes_ok [v / 256; v mod 256].
Proof. intros Hv. repeat constructor; zdm. Qed.

(** What a stream is declared with. *)
Record stream_ok_args (id da : list Z) (vlan size interval prio lat : Z) : Prop := {
  sa_id : length id = 8%nat /\ bytes_ok id;
  sa_da : length da = 6%nat /\ bytes_ok da;
  sa_vlan : 0 <= vlan < 65536;
  sa_size : 0 <= size < 65536;
  sa_interval : 0 <= interval < 65536;
  sa_prio : 0 <= prio < 8;
  sa_lat : 0 <= lat < 2 ^ 31
}.

Section Stream.
Context (id da : list Z) (vlan size interval prio lat : Z).
Context (Hok : stream_ok_args id da vlan size interval prio lat).

Let params : string := stream_params id da vlan size interval prio lat.

Lemma stream_params_bytes :
  bytes_of params
  = bytes_of "S=" ++ hexs fmt_02X id ++ 44 :: bytes_of "A=" ++ hexs fmt_02X da ++ 44 :: bytes_of "V="
    ++ hexs fmt_02X [vlan / 256; vlan mod 256] ++ 44 :: bytes_of "Z=" ++ bytes_of (fmt_d size)
    ++ 44 :: bytes_of "I=" ++ bytes_of (fmt_d interval) ++ 44 :: bytes_of "P=" ++ bytes_of (fmt_d (prio * 32))
    ++ 44 :: bytes_of "L=" ++ bytes_of (fmt_d lat).
Proof.
  destruct Hok as [_ _ _ Hs Hi Hp Hl]. unfold params, stream_params, fmt_idX.
  rewrite !bytes_of_app, !bytes_of_concat, fmt_04X_hexs.
  replace (u32 size) with size by (unfold u32; zdm). replace (u32 interval) with interval by (unfold u32; zdm).
  replace (u32 (prio * 32)) with (prio * 32) by (unfold u32; zdm). by replace (u32 lat) with lat by (unfold u32; zdm).
Qed.

Lemma stream_params_specs :
  parse_specs (bytes_of params) talker_specs false 0
  = inr [PBytes id; PBytes da; PInt vlan; PInt size; PInt interval; PInt (prio * 32); PInt lat].
Proof.
  rewrite stream_params_bytes. destruct Hok as [[Hl1 Hb1] [Hl2 Hb2] Hv Hs Hi Hp Hl]. unfold talker_specs.
  assert (forall l, bytes_ok l -> Forall (fun c => c <> 44) (hexs fmt_02X l)) as Hh.
  { intros l H. apply hex_not_comma, hexs_chars; [apply fmt_02X_hex | done]. }
  rewrite (parse_specs_step _ _ _ _ _ (PBytes id)); [|by apply Hh | apply field_c64; [apply fmt_02X_hex | done..]].
  rewrite (parse_specs_step _ _ _ _ _ (PBytes da)); [|by apply Hh | apply field_mac; [apply fmt_02X_hex | done..]].
  rewrite (parse_specs_step _ _ _ _ _ (PInt vlan)); [|by apply Hh, two_bytes | apply field_04x; [apply fmt_02X_hex | done]].
  rewrite (parse_specs_step _ _ _ _ _ (PInt size));
    [|apply nums_not_comma; lia | apply field_dec; [lia | right; split; [done | unfold u16; zdm]]].
  rewrite (parse_specs_step _ _ _ _ _ (PInt interval));
    [|apply nums_not_comma; lia | apply field_dec; [lia | right; split; [done | unfold u16; zdm]]].
  rewrite (parse_specs_step _ _ _ _ _ (PInt (prio * 32)));
    [|apply nums_not_comma; lia | apply field_dec; [lia | left; split; [done | unfold u8; zdm]]].
  rewrite (parse_specs_last _ _ _ (PInt lat)); [done | apply nums_not_comma; lia | apply field_u32; lia].
Qed.

(** Only the identifier, with what follows ignored. *)
Lemma stream_params_id : parse_specs (bytes_of params) [(bytes_of "S=", parse_c64)] false 0 = inr [PBytes id].
Proof.
  rewrite stream_params_bytes. destruct Hok as [[Hl1 Hb1] _ _ _ _ _ _].
  rewrite (parse_specs_step _ _ _ _ _ (PBytes id)); [done| |apply field_c64; [apply fmt_02X_hex | done..]].
  apply hex_not_comma, hexs_chars; [apply fmt_02X_hex | done].
Qed.

Lemma stream_params_text : (String.length params < 200)%nat /\ nulfree params.
Proof.
  destruct Hok as [[Hl1 Hb1] [Hl2 Hb2] Hv Hs Hi Hp Hl].
  assert (forall l, bytes_ok l -> Forall (fun c => c <> 0) (hexs fmt_02X l)) as Hh.
  { intros l H. eapply Forall_impl; [apply hexs_chars; [apply fmt_02X_hex | done]|].
    unfold hex_letter, is_digit. lia. }
  assert (forall v : Z, 0 <= v < 2 ^ 31 -> Forall (fun c => c <> 0) (bytes_of (fmt_d v))) as Hd.
  { intros v H. apply nulfree_fmt_d. lia. }
  pose proof (two_bytes vlan Hv). split.
  - rewrite <- bytes_of_length, stream_params_bytes.
    repeat (rewrite length_app || rewrite bytes_of_length || (cbn [length])).
    rewrite !hexs_length, Hl1, Hl2 by (done || apply fmt_02X_hex).
    pose proof (fmt_d_length32 size ltac:(lia)). pose proof (fmt_d_length32 interval ltac:(lia)).
    pose proof (fmt_d_length32 (prio * 32) ltac:(lia)). pose proof (fmt_d_length32 lat ltac:(lia)). cbn. lia.
  - unfold nulfree. rewrite stream_params_bytes.
    repeat lazymatch goal with
    | |- Forall _ (_ ++ _) => apply Forall_app; split
    | |- Forall _ (44 :: _) => apply Forall_cons_2; [done|]
    | |- Forall _ (hexs _ _) => by apply Hh
    | |- Forall _ (bytes_of (fmt_d _)) => apply Hd; lia
    | |- Forall _ (bytes_of ?s) => change (nulfree s); nulfree_solve
    end.
Qed.

Lemma stream_params_no_B : after_name B_EQ (bytes_of ("S++:" +:+ params)) = None.
Proof.
  rewrite bytes_of_app, stream_params_bytes. destruct Hok as [[Hl1 Hb1] [Hl2 Hb2] Hv Hs Hi Hp Hl].
  assert (forall l, bytes_ok l -> Forall (fun c => c <> 61) (hexs fmt_02X l ++ [44])) as Hh.
  { intros l H. apply Forall_app. split; [|by apply Forall_singleton].
    eapply Forall_impl; [apply hexs_chars; [apply fmt_02X_hex | done]|]. unfold hex_letter, is_digit. lia. }
  assert (forall v : Z, 0 <= v < 2 ^ 31 -> Forall (fun c => c <> 61) (bytes_of (fmt_d v))) as Hd.
  { intros v H. apply nums_not; [lia|]. unfold num_char, is_digit. lia. }
  assert (forall v : Z, 0 <= v < 2 ^ 31 -> Forall (fun c => c <> 61) (bytes_of (fmt_d v) ++ [44])) as Hd'.
  { intros v H. apply Forall_app. split; [by apply Hd | by apply Forall_singleton]. }
  apply (no_B_seg [83; 43; 43; 58] 83); [by repeat constructor | done | done |].
  rewrite cons_middle, app_assoc. apply no_B_seg; [by apply Hh | done | done |].
  rewrite cons_middle, app_assoc. apply no_B_seg; [by apply Hh | done | done |].
  rewrite cons_middle, app_assoc. apply no_B_seg; [by apply Hh, two_bytes | done | done |].
  rewrite cons_middle, app_assoc. apply no_B_seg; [apply Hd'; lia | done | done |].
  rewrite cons_middle, app_assoc. apply no_B_seg; [apply Hd'; lia | done | done |].
  rewrite cons_middle, app_assoc. apply no_B_seg; [apply Hd'; lia | done | done |].
  apply no_B_end, Hd. lia.
Qed.

End Stream.

(** *** What the daemon does with a command *)

(** The comparisons of the first characters of a command. *)
Ltac prefix_eval :=
  repeat match goal with
  | |- context [has_prefix ?l (bytes_of ?c)] =>
      let b := eval vm_compute in (has_prefix l (bytes_of c)) in change (has_prefix l (bytes_of c)) with b
  end; cbn [orb]; cbn iota.

Section Daemon.
Context {os : OS} {sl : SortLib} {sk : MrpSocket}.

Abbreviation daemon_action := (msrp_cfg -> Z -> list Z -> sockaddr_in -> msrp_ast -> res (Z * msrp_ast)).

(** When the operation succeeds, it wrote one datagram, which makes the daemon act. *)
Definition understood (op : mrp_client -> Z * mrp_client) (action : daemon_action) : Prop :=
  forall c c', op c = (0, c') -> exists buf, length buf = 1500%nat /\ mc_sent c' = mc_sent c ++ [buf]
    /\ forall cfg sock client s, declare_command cfg sock buf 1500 client s = action cfg sock buf client s.

Lemma command_understood (f : mrp_client -> mrp_client) (text : string) action :
  (forall c, mc_sent (f c) = mc_sent c) ->
  (forall cfg sock client s, declare_command cfg sock (msgbuf_of text) 1500 client s = action cfg sock (msgbuf_of text) client s) ->
  understood (fun c => mrp_command text (f c)) action.
Proof.
  intros Hf Ha c c' E. exists (msgbuf_of text). split; [apply msgbuf_length|]. split; [|done].
  unfold mrp_command, send_mrp_msg in E. destruct (mc_socket (f c) =? -1); [done|].
  injection E as _ <-. cbn. by rewrite Hf.
Qed.

Definition declare_talker (t : msrpdu_talker_fail) : daemon_action := fun cfg sock buf =>
  msrp_perform (msrp_cmd_join_or_new_stream cfg sock MSRP_TALKER_ADV_TYPE MRP_EVENT_NEW) t buf.
Definition withdraw_talker (id : list Z) : daemon_action := fun cfg sock buf =>
  msrp_perform (msrp_cmd_leave_stream cfg sock) (stream_talker id) buf.
Definition declare_listener (id : list Z) (sub : Z) : daemon_action := fun cfg sock buf =>
  msrp_perform (msrp_cmd_report_listener_status cfg sock) (stream_talker id, sub) buf.
Definition withdraw_listener (id : list Z) : daemon_action := fun cfg sock buf =>
  msrp_perform
    (fun t s => '(rc, s) ← msrp_cmd_withdraw_listener_status cfg sock t s;
                Ret (rc, if rc =? 0 then prune_talkers cfg (StreamID t) s else s))
    (stream_talker id) buf.
Definition declare_domain (c p v : Z) : daemon_action := fun cfg sock buf =>
  msrp_perform (msrp_cmd_report_domain_status cfg sock true) (Domain c p 0 v) buf.

Lemma advertise_understood id da vlan size interval prio lat :
  stream_ok_args id da vlan size interval prio lat ->
  understood (mrp_advertise_stream id da vlan size interval prio lat)
    (declare_talker (Talker id da vlan size interval (prio * 32) lat (replicate 8 0) 0)).
Proof.
  intros Hok. apply (command_understood asking); [done|]. intros cfg sock client s. unfold advertise_text.
  destruct (stream_params_text _ _ _ _ _ _ _ Hok) as [Hl Hn]. pose proof (stream_params_no_B _ _ _ _ _ _ _ Hok) as HB.
  pose proof (stream_params_specs _ _ _ _ _ _ _ Hok) as Hv. set (params := stream_params _ _ _ _ _ _ _) in *.
  assert (String.length ("S++:" +:+ params) < 1500)%nat as Hl' by (rewrite length_append; cbn; lia).
  assert (nulfree ("S++:" +:+ params)) as Hn' by nulfree_solve.
  unfold declare_command. rewrite !(msgbuf_prefix _ "S++:" params) by (done || (cbn; lia)). prefix_eval.
  unfold stream_command, declare_talker. pose proof (msgbuf_text _ Hl' Hn') as Ht.
  rewrite (text_cstr _ _ _ Ht), res_bind_ret. change (bytes_of "B=") with B_EQ.
  rewrite HB. rewrite bytes_of_app in Ht. apply (text_skip _ _ [83; 43]) in Ht.
  rewrite (text_rd _ 2 43 _ Ht), res_bind_ret. rewrite bool_decide_false by (by intros []).
  change (43 =? 63) with false. cbn iota. unfold msrp_cmd_parse_join_or_new_stream.
  rewrite (parse_msgbuf _ _ 22 _ _ Hl' eq_refl Hn' ltac:(lia) Hv). done.
Qed.

Lemma unadvertise_understood id da vlan size interval prio lat :
  stream_ok_args id da vlan size interval prio lat ->
  understood (mrp_unadvertise_stream id da vlan size interval prio lat) (withdraw_talker id).
Proof.
  intros Hok. apply (command_understood asking); [done|]. intros cfg sock client s. unfold unadvertise_text.
  destruct (stream_params_text _ _ _ _ _ _ _ Hok) as [Hl Hn].
  pose proof (stream_params_id _ _ _ _ _ _ _ Hok) as Hv. set (params := stream_params _ _ _ _ _ _ _) in *.
  assert (String.length ("S--:" +:+ params) < 1500)%nat as Hl' by (rewrite length_append; cbn; lia).
  assert (nulfree ("S--:" +:+ params)) as Hn' by nulfree_solve.
  unfold declare_command. rewrite !(msgbuf_prefix _ "S--:" params) by (done || (cbn; lia)). prefix_eval.
  unfold msrp_cmd_parse_leave_stream, stream_id_specs. by rewrite (parse_msgbuf _ _ 22 _ _ Hl' eq_refl Hn' ltac:(lia) Hv).
Qed.

Lemma id_params (id : list Z) (tail : string) :
  length id = 8%nat -> bytes_ok id -> nulfree tail -> (String.length tail < 100)%nat ->
  (String.length ("L=" +:+ fmt_mac id +:+ ", " +:+ tail) < 200)%nat /\ nulfree ("L=" +:+ fmt_mac id +:+ ", " +:+ tail)
  /\ bytes_of ("L=" +:+ fmt_mac id +:+ ", " +:+ tail) = bytes_of "L=" ++ hexs fmt_02x id ++ 44 :: 32 :: bytes_of tail
  /\ Forall (fun c => c <> 44) (hexs fmt_02x id).
Proof.
  intros Hl Hb Hn Ht. pose proof (fmt_hex_length _ _ fmt_02x_hex Hb) as E. rewrite Hl in E. split_and!.
  - rewrite !length_append. unfold fmt_mac. rewrite E. cbn. lia.
  - nulfree_solve.
  - rewrite !bytes_of_app, fmt_mac_bytes. done.
  - apply hex_not_comma, hexs_chars; [apply fmt_02x_hex | done].
Qed.

Lemma ready_understood id :
  length id = 8%nat -> bytes_ok id -> understood (mrp_send_ready id) (declare_listener id 2).
Proof.
  intros Hl Hb. apply (command_understood (fun c => c)); [done|]. intros cfg sock client s.
  destruct (id_params id "D=2" Hl Hb ltac:(nulfree_solve) ltac:(cbn; lia)) as (Hlen & Hn & Hbytes & Hc).
  change (ready_text id) with ("S+L:" +:+ ("L=" +:+ fmt_mac id +:+ ", " +:+ "D=2")).
  set (params := "L=" +:+ _) in *.
  assert (String.length ("S+L:" +:+ params) < 1500)%nat as Hl' by (rewrite length_append; cbn; lia).
  assert (nulfree ("S+L:" +:+ params)) as Hn' by nulfree_solve.
  unfold declare_command. rewrite !(msgbuf_prefix _ "S+L:" params) by (done || (cbn; lia)). prefix_eval.
  unfold msrp_cmd_parse_report_listener_status, listener_specs.
  rewrite (parse_msgbuf _ _ 26 _ [PBytes id; PInt 2] Hl' eq_refl Hn' ltac:(lia)); [done|]. rewrite Hbytes.
  rewrite (parse_specs_step _ _ _ _ _ (PBytes id)); [done | done | apply field_c64; [apply fmt_02x_hex | done..]].
Qed.

Lemma leave_understood id :
  length id = 8%nat -> bytes_ok id -> understood (mrp_send_leave id) (withdraw_listener id).
Proof.
  intros Hl Hb. apply (command_understood (fun c => c)); [done|]. intros cfg sock client s.
  destruct (id_params id "D=3" Hl Hb ltac:(nulfree_solve) ltac:(cbn; lia)) as (Hlen & Hn & Hbytes & Hc).
  change (leave_text id) with ("S-L:" +:+ ("L=" +:+ fmt_mac id +:+ ", " +:+ "D=3")).
  set (params := "L=" +:+ _) in *.
  assert (String.length ("S-L:" +:+ params) < 1500)%nat as Hl' by (rewrite length_append; cbn; lia).
  assert (nulfree ("S-L:" +:+ params)) as Hn' by nulfree_solve.
  unfold declare_command. rewrite !(msgbuf_prefix _ "S-L:" params) by (done || (cbn; lia)). prefix_eval.
  unfold withdraw_listener_command, msrp_cmd_parse_withdraw_listener_status, withdraw_specs.
  rewrite (parse_msgbuf _ _ 22 _ [PBytes id] Hl' eq_refl Hn' ltac:(lia)); [done|]. rewrite Hbytes.
  rewrite (parse_specs_step _ _ _ _ _ (PBytes id)); [done | done | apply field_c64; [apply fmt_02x_hex | done..]].
Qed.

Lemma domain_understood cls prio vid :
  0 <= cls < 256 -> 0 <= prio < 256 -> 0 <= vid < 65536 ->
  understood (mrp_register_domain cls prio vid) (declare_domain cls prio vid).
Proof.
  intros Hc Hp Hv. apply (command_understood asking); [done|]. intros cfg sock client s.
  unfold domain_command. replace (u32 cls) with cls by (unfold u32; zdm). replace (u32 prio) with prio by (unfold u32; zdm).
  change ("S+D:C=" +:+ fmt_d cls +:+ ",P=" +:+ fmt_d prio +:+ ",V=" +:+ fmt_04x vid)
    with ("S+D:" +:+ ("C=" +:+ fmt_d cls +:+ ",P=" +:+ fmt_d prio +:+ ",V=" +:+ fmt_04x vid)).
  assert (nulfree ("C=" +:+ fmt_d cls +:+ ",P=" +:+ fmt_d prio +:+ ",V=" +:+ fmt_04x vid)) as Hn by nulfree_solve.
  set (params := "C=" +:+ _) in *.
  assert (bytes_of params = bytes_of "C=" ++ bytes_of (fmt_d cls) ++ 44 :: bytes_of "P=" ++ bytes_of (fmt_d prio)
            ++ 44 :: bytes_of "V=" ++ hexs fmt_02x [vid / 256; vid mod 256]) as Hbytes.
  { unfold params. by rewrite !bytes_of_app, fmt_04x_hexs. }
  assert (String.length ("S+D:" +:+ params) < 1500)%nat as Hl'.
  { rewrite <- bytes_of_length, bytes_of_app, Hbytes. repeat (rewrite length_app || rewrite bytes_of_length || cbn [length]).
    rewrite hexs_length by (apply fmt_02x_hex || by apply two_bytes).
    pose proof (fmt_d_length32 cls ltac:(lia)). pose proof (fmt_d_length32 prio ltac:(lia)). cbn. lia. }
  assert (nulfree ("S+D:" +:+ params)) as Hn' by nulfree_solve.
  unfold declare_command. rewrite !(msgbuf_prefix _ "S+D:" params) by (done || (cbn; lia)). prefix_eval.
  unfold msrp_cmd_parse_domain_status, domain_specs.
  rewrite (parse_msgbuf _ _ 18 _ [PInt cls; PInt prio; PInt vid] Hl' eq_refl Hn' ltac:(lia)); [done|]. rewrite Hbytes.
  rewrite (parse_specs_step _ _ _ _ _ (PInt cls));
    [|apply nums_not_comma; lia | apply field_dec; [lia | left; split; [done | unfold u8; zdm]]].
  rewrite (parse_specs_step _ _ _ _ _ (PInt prio));
    [|apply nums_not_comma; lia | apply field_dec; [lia | left; split; [done | unfold u8; zdm]]].
  rewrite (parse_specs_last _ _ _ (PInt vid)); [done | | apply field_04x; [apply fmt_02x_hex | done]].
  apply hex_not_comma, hexs_chars; [apply fmt_02x_hex | by apply two_bytes].
Qed.

(** C25: the daemon understands the five operations of the MRP client that advertise
    or withdraw a talker, declare a listener ready or withdraw it, and register a
    domain.  When one of them succeeds it has written one datagram, and the command parser of the daemon
    acts on it with exactly the arguments of the operation: a talker is declared
    with its identifier, destination, VLAN, frame size, interval, priority (shifted
    into the upper three bits) and latency, or withdrawn; a listener is declared
    ready or withdrawn; a domain is declared with its class, priority and VLAN.  The
    sixth, [mrp_join_listener], is not among them: the daemon refuses what it
    writes ([join_listener_refused]). *)
Theorem commands_understood id da vlan size interval prio lat cls dprio dvid :
  stream_ok_args id da vlan size interval prio lat ->
  0 <= cls < 256 -> 0 <= dprio < 256 -> 0 <= dvid < 65536 ->
  understood (mrp_advertise_stream id da vlan size interval prio lat)
    (declare_talker (Talker id da vlan size interval (prio * 32) lat (replicate 8 0) 0))
  /\ understood (mrp_unadvertise_stream id da vlan size interval prio lat) (withdraw_talker id)
  /\ understood (mrp_send_ready id) (declare_listener id 2)
  /\ understood (mrp_send_leave id) (withdraw_listener id)
  /\ understood (mrp_register_domain cls dprio dvid) (declare_domain cls dprio dvid).
Proof.
  intros Hok Hc Hp Hv. destruct (sa_id _ _ _ _ _ _ _ Hok) as [Hl Hb]. split_and!.
  - by apply advertise_understood.
  - by apply unadvertise_understood.
  - by apply ready_understood.
  - by apply leave_understood.
  - by apply domain_understood.
Qed.

End Daemon.

(** ** Witnesses *)

Definition demo_talker (vid : Z) : msrpdu_talker_fail :=
  Talker [0; 1; 2; 3; 4; 5; 0; 7] [0x91; 0xe0; 0xf0; 0; 0x0e; 0x80] vid 84 1 96 500 (replicate 8 0) 0.
Definition demo_attr (vid : Z) : msrp_attribute :=
  msrp_alloc (MsrpKey MSRP_TALKER_ADV_TYPE (demo_talker vid) zero_domain 0 0).
Definition notify_datagram (a : msrp_attribute) (n : mrp_notify) : list Z :=
  msgbuf_of (default EmptyString (msrp_notify_text a n)).
Definition stack (z : Z) : mrp_locals := McLocals z z z z z z z z [] [].

Lemma reported_talker_ok vid : 0 <= vid < 65536 -> skey_ok (key (demo_attr vid)).
Proof.
  intros Hv. split; cbn; [|apply (sk_domain _ (zero_key_ok MSRP_DOMAIN_TYPE))|lia].
  split; [split; [reflexivity|] | split; [reflexivity|] | cbn; lia.. | apply zero_id | cbn; lia];
    apply (bool_decide_unpack _); vm_compute; exact I.
Qed.

Lemma notification_understood_witness :
  mrp_receive (notify_datagram (demo_attr 2) MRP_NOTIFY_JOIN) (stack 17) mrp_client_start
  = Ret ([RegisterCb [0; 1; 2; 3; 4; 5; 0; 7] 1 [0x91; 0xe0; 0xf0; 0; 0x0e; 0x80] 84 1 2 500], mrp_client_start).
Proof.
  apply (notification_understood (demo_attr 2) MRP_NOTIFY_JOIN).
  - apply reported_talker_ok. lia.
  - intros _. vm_compute. repeat split; reflexivity.
  - vm_compute. reflexivity.
Defined.

Definition open_client : mrp_client := with_mrp_socket 5 mrp_client_start.
Definition whole_datagrams : MrpSocket := fun _ => 1500.

Lemma commands_understood_witness :
  let id := [0; 1; 2; 3; 4; 5; 0; 7] in let da := [0x91; 0xe0; 0xf0; 0; 0x0e; 0x80] in
  fst (mrp_advertise_stream (sk := whole_datagrams) id da 2 84 1 3 500 open_client) = 0
  /\ understood (os := calm_os) (sl := std_sort) (mrp_advertise_stream (sk := whole_datagrams) id da 2 84 1 3 500)
       (declare_talker (os := calm_os) (sl := std_sort) (Talker id da 2 84 1 96 500 (replicate 8 0) 0)).
Proof.
  cbv zeta. split; [reflexivity|].
  apply (commands_understood (os := calm_os) (sl := std_sort) (sk := whole_datagrams)
           [0; 1; 2; 3; 4; 5; 0; 7] [0x91; 0xe0; 0xf0; 0; 0x0e; 0x80] 2 84 1 3 500 6 3 2); try lia.
  split; try lia; (split; [reflexivity|]); apply (bool_decide_unpack _); vm_compute; exact I.
Defined.

(** ** Defects *)

(** The daemon prints the VLAN of a talker in hexadecimal, and the client reads it
    as decimal: from VLAN 10 on the scan stops there, and frame size, interval and
    latency are what the stack held (here 17 and 23). *)
Theorem talker_fields_from_stack :
  mrp_receive (notify_datagram (demo_attr 10) MRP_NOTIFY_JOIN) (stack 17) mrp_client_start
  = Ret ([RegisterCb [0; 1; 2; 3; 4; 5; 0; 7] 1 [0x91; 0xe0; 0xf0; 0; 0x0e; 0x80] 17 17 0 17], mrp_client_start)
  /\ mrp_receive (notify_datagram (demo_attr 10) MRP_NOTIFY_JOIN) (stack 23) mrp_client_start
  = Ret ([RegisterCb [0; 1; 2; 3; 4; 5; 0; 7] 1 [0x91; 0xe0; 0xf0; 0; 0x0e; 0x80] 23 23 0 23], mrp_client_start).
Proof. split; vm_compute; reflexivity. Qed.

(** A talker that is declared as new is reported as one that leaves. *)
Theorem new_talker_reported_gone :
  mrp_receive (notify_datagram (demo_attr 2) MRP_NOTIFY_NEW) (stack 17) mrp_client_start
  = mrp_receive (notify_datagram (demo_attr 2) MRP_NOTIFY_LV) (stack 17) mrp_client_start.
Proof. vm_compute. reflexivity. Qed.

(** The search for a field does not stop at the end of the datagram. *)
Theorem short_report_overreads :
  mrp_receive [76] (stack 17) mrp_client_start = Fault (OobRead 1500).
Proof. vm_compute. reflexivity. Qed.

(** [mrp_join_listener] names the stream S, the daemon expects L: the command is refused. *)
Theorem join_listener_refused :
  msrp_cmd_parse_report_listener_status (msgbuf_of (join_listener_text [0; 1; 2; 3; 4; 5; 0; 7])) 1500 = Ret None.
Proof. vm_compute. reflexivity. Qed.
