(* ===== verification/SrpPath.v ===== *)
(** * From the declaration of a listener to the reservation of a talker

    The daemon reports a listener, the MRP client scans the report, the SRP proxy
    finds the stream, and the endpoint reserves its bandwidth and tells the
    talker: four programs' parts composed. *)

From S2P Require Import Prelude AvtpTime Qmgr Endpoint EndpointProps EndpointTheorems.
From S2P Require Import Os Parse Mrp Attr Msrp MsrpOps MsrpList MrpClient MrpText MrpClientTheorems.
From Stdlib Require Import ZArith Lia String.
From stdpp Require Import base tactics list option strings gmap.
Open Scope Z_scope.

(** The call of the client as an event of the endpoint. *)
Definition event_of_call (x : mrp_call) : ep_event :=
  match x with
  | AttachCb id sub => EvMrpAttach id sub
  | RegisterCb id join da size frames _ latency => EvMrpRegister id join da size frames latency
  end.

(** A datagram of the daemon, as the endpoint process handles it. *)
Definition daemon_report {ee : EndpointEnv} {sh : Shaper} (cfg : ep_cfg) (data : list Z) (lo : mrp_locals)
  (mc : mrp_client) (s : ep) : res ep :=
  '(calls, _) ← mrp_receive data lo mc; ep_run cfg (event_of_call <$> calls) s.

Section Path.
Context {ee : EndpointEnv} {sh : Shaper} (cfg : ep_cfg).
Context (Hwrite : forall n, ee_write n = true) (Hshaper : shaper_accepts).

(** The priority, VLAN and rate of a class that exists. *)
Lemma class_params_some cls s : 0 <= cls < 2 -> exists prio vid,
  class_params cls s = Some (prio, vid, if cls =? 0 then 8000 else 4000).
Proof.
  intros Hc. unfold class_params. assert (cls = 0 \/ cls = 1) as [-> | ->] by lia; cbn.
  - destruct (domain_class_a (ep_calls s)) as [p v]. eauto.
  - destruct (domain_class_b (ep_calls s)) as [p v]. eauto.
Qed.

Definition can_reserve (c : clientStream) (s : ep) : Prop :=
  cs_fwmark c = INVALID_FWMARK /\ 0 <= cs_srClass c < 2
  /\ ~ class_full (cs_srClass c) (reserved (qmgr_streams (ep_qmgr s)))
  /\ stream_rate (if cs_srClass c =? 0 then 8000 else 4000) (maxIntervalFrames (cs_tSpec c)) (maxFrameSize (cs_tSpec c)) <> 0.

(** The stream holds a new mark of its class, which the queue manager has booked. *)
Definition holds_mark (p : positive) (c c' : clientStream) (s s' : ep) : Prop :=
  changed p c c' s s' /\ static c' = static c /\ cs_fwmark c' <> INVALID_FWMARK
  /\ TC_AVB_MARK_CLASS (cs_fwmark c') = cs_srClass c
  /\ reserved (qmgr_streams (ep_qmgr s)) !! cs_fwmark c' = None
  /\ reserved (qmgr_streams (ep_qmgr s')) !! cs_fwmark c' = Some (booking c').2.

Lemma attach_reserves n p c d s :
  ep_inv cfg n s -> at_addr p (x_streamList s) = Some c -> can_reserve c s ->
  d = openavbSrp_LDSt_Ready \/ d = openavbSrp_LDSt_Ready_Failed ->
  returns (attach_queues p d s) (fun '(ok, s') => ok = true /\ same_frame s s' /\ ep_sent s' = ep_sent s
    /\ exists c', holds_mark p c c' s s').
Proof.
  intros (Hs & _ & M & Hq & Hb) Hp (Hm & Hcl & Hroom & Hrate) Hd.
  apply at_addr_split in Hp as (l1 & l2 & E & Hp1). unfold attach_queues.
  rewrite (get_stream_mid s l1 p c l2), res_bind_ret by done.
  replace ((d =? openavbSrp_LDSt_Ready) || (d =? openavbSrp_LDSt_Ready_Failed)) with true by (by destruct Hd; subst).
  rewrite (proj2 (Z.eqb_eq _ _) Hm). cbn [negb]. unfold openavbSrpGetClassParams.
  destruct (class_params_some (cs_srClass c) s Hcl) as (prio & vid & ->).
  set (rate := if cs_srClass c =? 0 then 8000 else 4000) in *.
  rewrite (set_stream_mid s l1 p c l2), res_bind_ret by done. set (c1 := with_class prio vid rate c).
  cbn [ep_qmgr with_streams]. eapply returns_bind; [by apply (add_stream_spec _ _ _ _ _ M)|].
  intros [m q] (M' & Hadd & Hq' & _).
  rewrite (set_stream_mid (with_qmgr q (with_streams (l1 ++ (p, c1) :: l2) s)) l1 p c1 l2), res_bind_ret by done.
  rewrite (qh_reserved _ _ Hq) in Hroom. destruct Hadd as [(-> & _ & Hwhy)|(_ & _ & Hfree & (k & Hk & ->) & ->)].
  - exfalso. destruct Hwhy as [H|[H|[H|(i & b & H)]]]; [lia | done | done | by rewrite Hshaper in H].
  - assert (TC_AVB_MARK (cs_srClass c) k <> INVALID_FWMARK) as Hne
      by (rewrite mark_sum by lia; unfold INVALID_FWMARK; lia).
    cbn [returns]. split_and!; [| done | done |].
    { apply negb_true_iff, Z.eqb_neq. done. }
    exists (with_fwmark (TC_AVB_MARK (cs_srClass c) k) c1). split_and!; try done.
    + by exists l1, l2.
    + cbn. by rewrite mark_class by lia.
    + cbn. by rewrite (qh_reserved _ _ Hq).
    + cbn. rewrite (qh_reserved _ _ Hq'). by rewrite lookup_insert_eq.
Qed.

(** A listener that is ready or partly ready, as the daemon reports it. *)
Definition ready_report (id : AVBStreamID) (a : msrp_attribute) (n : mrp_notify) (text : string) : Prop :=
  type (key a) = MSRP_LISTENER_TYPE /\ skey_ok (key a) /\ StreamID (talk_listen (key a)) = srp_id id
  /\ (substate (key a) = openavbSrp_LDSt_Ready \/ substate (key a) = openavbSrp_LDSt_Ready_Failed)
  /\ msrp_notify_text a n = Some text.

(** C22: a listener's declaration reserves the talker's bandwidth.  In every state of
    the endpoint that meets its invariant, when the daemon reports a listener that
    is ready for the stream of a registered talker, and that talker holds no mark
    yet, its class has room and its socket is open, then handling the datagram
    returns without a fault, the stream gets a fresh mark of its class, the queue
    manager books the stream under that mark, and exactly one message goes out: to
    the talker, with its identifier, its destination address, the substate, and
    the class parameters and mark now in its record. *)
Theorem listener_ready_reserves s k e c a n text lo mc :
  ep_inv cfg 0 s -> noSrp cfg = false ->
  find_elem (fun e => se_talker e && has_id (srp_id (cs_streamID c)) e) s = Some k -> get_elem s k = Ret e ->
  at_addr (avtpHandle e) (x_streamList s) = Some c ->
  can_reserve c s -> fd_open (clientHandle c) s = true -> se_subtype e <> substate (key a) ->
  ready_report (cs_streamID c) a n text ->
  returns (daemon_report cfg (msgbuf_of text) lo mc s) (fun s' => ep_inv cfg 0 s' /\ exists c',
    holds_mark (avtpHandle e) c c' s s'
    /\ ep_sent s' = ep_sent s ++ [(clientHandle c,
         OPENAVB_ENDPOINT_TALKER_CALLBACK (cs_streamID c) (String.substring 0 15 (ep_ifname cfg)) (cs_destAddr c)
           (substate (key a)) (cs_classRate c') (cs_vlanID c') (cs_priority c') (cs_fwmark c'))]).
Proof.
  intros Hinv Hsrp Hk He Hc Hcan Hfd Hsub (Hty & Hok & Hid & Hst & Htext).
  unfold daemon_report. rewrite (notification_understood a n text lo mc Hok); [|by unfold is_talker; rewrite Hty | done].
  rewrite res_bind_ret. unfold report_calls. rewrite Hty, Hid.
  replace (s32 (substate (key a))) with (substate (key a)) by (destruct Hst as [-> | ->]; reflexivity).
  cbn [fmap list_fmap event_of_call]. set (sub := substate (key a)) in *.
  pose proof (mrp_attach_spec cfg Hwrite (srp_id (cs_streamID c)) sub s Hinv) as Hkeep.
  cbn [ep_run openavbEptSrvrService]. eapply returns_bind; [|intros s' H; exact H].
  apply returns_and; [exact Hkeep|]. clear Hkeep. unfold mrp_attach_cb.
  pose proof (sh_calls _ _ _ (proj1 Hinv)) as Hcb. rewrite Hcb, Hsrp. cbn [negb]. rewrite Hk, He, res_bind_ret.
  rewrite (proj2 (Z.eqb_neq _ _) Hsub). unfold strmAttachCb. rewrite !res_bind_assoc.
  eapply returns_bind; [by apply (attach_reserves 0 (avtpHandle e) c sub s)|].
  intros [ok s1] (-> & Hf1 & Hsent1 & c' & Hmark). pose proof Hmark as ((l1 & l2 & E & E1) & Hstat & Hne & Hcls & Hfree & Hbook).
  assert (avtpHandle e ∉ l1.*1) as Hp1 by (by eapply shape_split; [apply (proj1 Hinv)|]).
  rewrite (get_stream_mid s1 l1 (avtpHandle e) c' l2), res_bind_ret by done.
  unfold openavbEptSrvrNotifyTlkrOfSrpCb. rewrite !res_bind_assoc.
  eapply returns_bind; [by apply send_spec|]. intros [sent s2] ((Hf2 & El2 & Eq2) & -> & Hsent2).
  rewrite !res_bind_ret. destruct Hf1 as (_ & Ee1 & Efd1 & _), Hf2 as (_ & Ee2 & _).
  unfold get_elem in He |- *. rewrite Ee2, Ee1. destruct (at_addr k (strElemList s)) as [e'|] eqn:Ek; [|done].
  rewrite res_bind_ret. cbn [returns]. exists c'. split.
  - split_and!; try done; [exists l1, l2; split; [done|]; cbn; congruence | cbn; by rewrite Eq2].
  - cbn. rewrite Hsent2, Hsent1. injection Hstat as -> -> _ _ _ _ _ ->.
    unfold fd_open in Hfd |- *. rewrite Efd1. pose proof (sh_fds _ _ _ (proj1 Hinv)) as Hlen.
    destruct (Z.ltb_spec (clientHandle c) 0); [done|]. rewrite Hfd.
    destruct (Z.leb_spec 33 (clientHandle c)); [|done].
    rewrite lookup_ge_None_2 in Hfd by (rewrite Hlen; lia). done.
Qed.

End Path.

(** ** Witness *)

(** A talker that has registered, and the listener that its peer declares. *)
Definition waiting_events : list ep_event := [EvConnect; register_event 1 talker_id 0].
Definition waiting_ep : ep :=
  match ep_run (ee := quiet_env) (sh := no_hardware) demo_cfg waiting_events (demo_ep demo_cfg) with
  | Ret s => s
  | Fault _ => demo_ep demo_cfg
  end.
Definition waiting_elem : strElem :=
  StrElem 1 true (srp_id talker_id) [0x91; 0xe0; 0xf0; 0; 0x0e; 0x80] 2 84 1 3 0 openavbSrp_LDSt_None.
Definition waiting_stream : clientStream :=
  ClientStream 1 talker_id clientTalker (TSpec 84 1) 0 1 0 0 0 0 (Some 0%nat) [0x91; 0xe0; 0xf0; 0; 0x0e; 0x80]
    INVALID_FWMARK.
Definition ready_listener : msrp_attribute :=
  msrp_alloc (MsrpKey MSRP_LISTENER_TYPE (Talker (srp_id talker_id) (replicate 6 0) 0 0 0 0 0 (replicate 8 0) 0)
    zero_domain openavbSrp_LDSt_Ready 0).
Definition some_locals : mrp_locals := McLocals 17 17 17 17 17 17 17 17 [] [].

Lemma waiting_inv : ep_inv demo_cfg 0 waiting_ep.
Proof.
  assert (returns (ep_run (ee := quiet_env) (sh := no_hardware) demo_cfg waiting_events (demo_ep demo_cfg))
            (fun s' => ep_inv demo_cfg 0 s')) as H.
  { apply (run_spec (ee := quiet_env) (sh := no_hardware)); try reflexivity.
    - split; [reflexivity|]. repeat constructor; cbn; lia.
    - apply start_inv. vm_compute. discriminate.
    - repeat constructor; cbn; lia. }
  unfold waiting_ep. by destruct (ep_run _ _ _).
Qed.

Lemma waiting_can_reserve : can_reserve waiting_stream waiting_ep.
Proof.
  split; [reflexivity|]. split; [cbn; lia|]. split; [|vm_compute; discriminate].
  intros H. destruct (H 0 ltac:(lia)) as [x Hx]. change (TC_AVB_MARK (cs_srClass waiting_stream) 0) with (mark_of 0) in Hx.
  rewrite (reserved_at _ 0 no_stream) in Hx by (vm_compute; reflexivity). done.
Qed.

Lemma ready_listener_ok : skey_ok (key ready_listener).
Proof.
  split; cbn; [|apply (sk_domain _ (zero_key_ok MSRP_DOMAIN_TYPE))|unfold openavbSrp_LDSt_Ready; lia].
  split; [split; [reflexivity|] | apply zero_mac | cbn; lia.. | apply zero_id | cbn; lia].
  apply (bool_decide_unpack _). vm_compute. exact I.
Qed.

(** The report of that listener reserves the talker's bandwidth. *)
Lemma listener_ready_reserves_witness :
  returns (daemon_report (ee := quiet_env) (sh := no_hardware) demo_cfg
             (msgbuf_of (default EmptyString (msrp_notify_text ready_listener MRP_NOTIFY_JOIN))) some_locals mrp_client_start
             waiting_ep)
    (fun s' => ep_inv demo_cfg 0 s' /\ exists c', holds_mark 1 waiting_stream c' waiting_ep s'
      /\ ep_sent s' = ep_sent waiting_ep ++ [(1,
           OPENAVB_ENDPOINT_TALKER_CALLBACK talker_id "eth0" [0x91; 0xe0; 0xf0; 0; 0x0e; 0x80] 2
             (cs_classRate c') (cs_vlanID c') (cs_priority c') (cs_fwmark c'))]).
Proof.
  apply (listener_ready_reserves (ee := quiet_env) (sh := no_hardware) demo_cfg (fun _ => eq_refl) (fun _ _ _ => eq_refl)
           waiting_ep 2%positive waiting_elem waiting_stream ready_listener MRP_NOTIFY_JOIN).
  - exact waiting_inv.
  - reflexivity.
  - vm_compute. reflexivity.
  - vm_compute. reflexivity.
  - vm_compute. reflexivity.
  - exact waiting_can_reserve.
  - vm_compute. reflexivity.
  - vm_compute. discriminate.
  - split; [reflexivity|]. split; [exact ready_listener_ok|]. split; [reflexivity|]. split; [left; reflexivity|].
    vm_compute. reflexivity.
Defined.
