(* ===== verification/Igb.v ===== *)
(** * The I210 transmit library (lib/igb/igb.c)

    User-space transmission on the rings of the Intel I210.  A packet takes two
    descriptors, one with its launch time and one with its buffer; the hardware
    works through the descriptors between its head and the tail that the library
    writes, and marks the second one when the packet was sent; [igb_clean]
    returns the marked packets as a linked list.

    Packets are values at numbered addresses of a heap.  The hardware is a step of
    its own ([hw_step]), after the data sheet that the code cites: it reads one
    descriptor at the head and writes back those with the report bit. *)

From S2P Require Import Prelude AvtpTime.
From Stdlib Require Import ZArith Lia.
From stdpp Require Import base tactics list option gmap fin_maps.
Open Scope Z_scope.

(** ** Constants *)

Definition EINVAL : Z := 22.
Definition ENXIO : Z := 6.
Definition ENOSPC : Z := 28.
Definition ENOMEM : Z := 12.
Definition EBUSY : Z := 16.
Definition ENODEV : Z := 19.

Definition E1000_ADVTXD_DTYP_CTXT : Z := 0x00200000.
Definition E1000_ADVTXD_DTYP_DATA : Z := 0x00300000.
Definition E1000_ADVTXD_DCMD_EOP : Z := 0x01000000.
Definition E1000_ADVTXD_DCMD_IFCS : Z := 0x02000000.
Definition E1000_ADVTXD_DCMD_RS : Z := 0x08000000.
Definition E1000_ADVTXD_DCMD_DEXT : Z := 0x20000000.
Definition E1000_ADVTXD_PAYLEN_SHIFT : Z := 14.
Definition E1000_TXD_DMA_TXDWB : Z := 2.
Definition E1000_TXD_STAT_DD : Z := 1.
Definition E1000_TXDCTL_QUEUE_ENABLE : Z := 0x02000000.
Definition E1000_TXDCTL_PRIORITY : Z := 0x08000000.
Definition IGB_TX_PTHRESH : Z := 8.
Definition IGB_TX_HTHRESH : Z := 1.
Definition IGB_TX_WTHRESH : Z := 16.
Definition IGB_QUEUE_IDLE : Z := 1.
Definition IGB_QUEUE_WORKING : Z := 2.
Definition IGB_QUEUE_DEPLETED : Z := 8.
Definition IGB_QUEUE_THRESHOLD : Z := 2.

(** Registers of a queue; the library uses the first four queues at most. *)
Definition queue_reg (lo hi : Z) (n : Z) : Z := if n <? 4 then lo + n * 0x100 else hi + n * 0x40.
Definition E1000_TDBAL := queue_reg 0x03800 0x0E000.
Definition E1000_TDBAH := queue_reg 0x03804 0x0E004.
Definition E1000_TDLEN := queue_reg 0x03808 0x0E008.
Definition E1000_TDH := queue_reg 0x03810 0x0E010.
Definition E1000_TDT := queue_reg 0x03818 0x0E018.
Definition E1000_TXDCTL := queue_reg 0x03828 0x0E028.
Definition E1000_RAL (i : Z) : Z := if i <=? 15 then 0x05400 + i * 8 else 0x054E0 + (i - 16) * 8.
Definition E1000_RAH (i : Z) : Z := if i <=? 15 then 0x05404 + i * 8 else 0x054E4 + (i - 16) * 8.
Definition E1000_WUS : Z := 0x05810.

(** ** Data *)

(** A descriptor: 64 bits of address and two words of 32 bits. *)
Record tx_desc := TxDesc { d_addr : Z; d_lower : Z; d_upper : Z }.
Record igb_tx_buffer := TxBuffer { next_eop : Z; b_packet : option positive }.

Record igb_packet := IgbPacket {
  p_paddr : Z;
  p_offset : Z;
  p_len : Z;
  p_attime : Z;
  p_dmatime : Z;
  p_next : option positive
}.

Record tx_ring := TxRing {
  txdma_paddr : Z;
  tx_base : list tx_desc;
  tx_buffers : list igb_tx_buffer;
  next_avail_desc : Z;
  next_to_clean : Z;
  tx_avail : Z;
  r_bytes : Z;
  r_packets : Z;
  tx_packets : Z;
  queue_status : Z
}.

(** The adapter with its rings, the heads and tails of the hardware, the registers
    written, and the calls whose outcome the environment decides. *)
Record adapter := Adapter {
  num_queues : Z;
  num_tx_desc : Z;
  tx_rings : list tx_ring;
  hw_head : list Z;
  hw_tail : list Z;
  ad_written : list (Z * Z);
  ad_calls : nat;
  perm_addr : list Z;
  ad_packets : gmap positive igb_packet
}.

(** [sem_wait] and [sem_post] return 0 or an error number; registers are read. *)
Class IgbEnv := {
  ie_sem : nat -> Z;
  ie_read : nat -> Z -> Z
}.

Definition with_rings l a :=
  Adapter (num_queues a) (num_tx_desc a) l (hw_head a) (hw_tail a) (ad_written a) (ad_calls a) (perm_addr a) (ad_packets a).
Definition with_ring (q : Z) (r : tx_ring) (a : adapter) : adapter := with_rings (<[Z.to_nat q := r]> (tx_rings a)) a.
Definition with_heads l a :=
  Adapter (num_queues a) (num_tx_desc a) (tx_rings a) l (hw_tail a) (ad_written a) (ad_calls a) (perm_addr a) (ad_packets a).
Definition with_packets h a :=
  Adapter (num_queues a) (num_tx_desc a) (tx_rings a) (hw_head a) (hw_tail a) (ad_written a) (ad_calls a) (perm_addr a) h.
Definition ad_tick a :=
  Adapter (num_queues a) (num_tx_desc a) (tx_rings a) (hw_head a) (hw_tail a) (ad_written a) (S (ad_calls a)) (perm_addr a)
    (ad_packets a).
Definition with_perm l a :=
  Adapter (num_queues a) (num_tx_desc a) (tx_rings a) (hw_head a) (hw_tail a) (ad_written a) (ad_calls a) l (ad_packets a).

Definition with_base b r :=
  TxRing (txdma_paddr r) b (tx_buffers r) (next_avail_desc r) (next_to_clean r) (tx_avail r) (r_bytes r) (r_packets r)
    (tx_packets r) (queue_status r).
Definition with_buffers b r :=
  TxRing (txdma_paddr r) (tx_base r) b (next_avail_desc r) (next_to_clean r) (tx_avail r) (r_bytes r) (r_packets r)
    (tx_packets r) (queue_status r).
Definition with_avail next avail r :=
  TxRing (txdma_paddr r) (tx_base r) (tx_buffers r) next (next_to_clean r) avail (r_bytes r) (r_packets r)
    (tx_packets r) (queue_status r).
Definition with_clean next r :=
  TxRing (txdma_paddr r) (tx_base r) (tx_buffers r) (next_avail_desc r) next (tx_avail r) (r_bytes r) (r_packets r)
    (tx_packets r) (queue_status r).
Definition with_stats bytes packets tx r :=
  TxRing (txdma_paddr r) (tx_base r) (tx_buffers r) (next_avail_desc r) (next_to_clean r) (tx_avail r) bytes packets
    tx (queue_status r).
Definition with_status st r :=
  TxRing (txdma_paddr r) (tx_base r) (tx_buffers r) (next_avail_desc r) (next_to_clean r) (tx_avail r) (r_bytes r)
    (r_packets r) (tx_packets r) st.

(** Array elements. *)
Definition slot {A} (l : list A) (i : Z) : res A :=
  if i <? 0 then Fault (OobRead i) else match l !! Z.to_nat i with Some x => Ret x | None => Fault (OobRead i) end.
Definition set_slot {A} (l : list A) (i : Z) (x : A) : res (list A) :=
  if (0 <=? i) && (i <? Z.of_nat (length l)) then Ret (<[Z.to_nat i := x]> l) else Fault (OobWrite i).

Definition get_packet (a : gmap positive igb_packet) (p : positive) : res igb_packet :=
  match a !! p with Some x => Ret x | None => Fault (UseAfterFree (Zpos p)) end.
Definition with_next n (x : igb_packet) := IgbPacket (p_paddr x) (p_offset x) (p_len x) (p_attime x) (p_dmatime x) n.
Definition with_dmatime t (x : igb_packet) := IgbPacket (p_paddr x) (p_offset x) (p_len x) (p_attime x) t (p_next x).

(** [++i == num_tx_desc ? 0] *)
Definition next_index (n i : Z) : Z := if i + 1 =? n then 0 else i + 1.

(** A write to a register; those of the heads and tails are seen by the hardware. *)
Definition write_reg (reg v : Z) (a : adapter) : adapter :=
  Adapter (num_queues a) (num_tx_desc a) (tx_rings a)
    (imap (fun i h => if reg =? E1000_TDH (Z.of_nat i) then v else h) (hw_head a))
    (imap (fun i t => if reg =? E1000_TDT (Z.of_nat i) then v else t) (hw_tail a))
    (ad_written a ++ [(reg, v)]) (ad_calls a) (perm_addr a) (ad_packets a).

(** ** The hardware *)

(** One descriptor of a queue: written back with the time and the done bit when it
    asks for a report. *)
Definition hw_step (q : nat) (time status : Z) (a : adapter) : adapter :=
  match tx_rings a !! q, hw_head a !! q, hw_tail a !! q with
  | Some r, Some h, Some t =>
      if h =? t then a
      else match tx_base r !! Z.to_nat h with
           | Some d =>
               let r := if Z.land (d_lower d) E1000_ADVTXD_DCMD_RS =? 0 then r
                        else with_base (<[Z.to_nat h := TxDesc time (d_lower d) (Z.lor status E1000_TXD_STAT_DD)]> (tx_base r)) r in
               with_heads (<[q := next_index (num_tx_desc a) h]> (hw_head a)) (with_ring (Z.of_nat q) r a)
           | None => a
           end
  | _, _, _ => a
  end.

Section Ops.
Context {ie : IgbEnv}.

(** A call on the semaphore of the adapter. *)
Definition sem_call (a : adapter) : Z * adapter := (ie_sem (ad_calls a), ad_tick a).
Definition read_reg (reg : Z) (a : adapter) : Z * adapter := (ie_read (ad_calls a) reg, ad_tick a).

(** What most entry points do: take the lock, act, release it. *)
Definition locked (f : adapter -> res (Z * adapter)) (a : adapter) : res (Z * adapter) :=
  let '(e, a) := sem_call a in
  if negb (e =? 0) then Ret (e, a)
  else '(rc, a) ← f a;
       let '(e, a) := sem_call a in
       Ret (if negb (e =? 0) then e else rc, a).

(** ** Transmission *)

(** The launch time in units of 32 nanoseconds within its second. *)
Definition launch_time (attime : Z) : Z := u32 ((attime - attime / 1000000000 * 1000000000) / 32).

Definition igb_tx_ctx_setup (n : Z) (packet : igb_packet) (r : tx_ring) : res tx_ring :=
  let ctxd := next_avail_desc r in
  base ← set_slot (tx_base r) ctxd
           (TxDesc (Z.shiftl (launch_time (p_attime packet)) 32)
              (Z.lor E1000_ADVTXD_DCMD_DEXT E1000_ADVTXD_DTYP_CTXT) 0);
  bufs ← set_slot (tx_buffers r) ctxd (TxBuffer (-1) None);
  Ret (with_avail (next_index n ctxd) (u16 (tx_avail r - 1)) (with_buffers bufs (with_base base r))).

Definition data_lower (len : Z) : Z :=
  Z.lor (Z.lor (Z.lor E1000_ADVTXD_DTYP_DATA (Z.lor E1000_ADVTXD_DCMD_IFCS E1000_ADVTXD_DCMD_DEXT)) len)
    (Z.lor E1000_ADVTXD_DCMD_EOP E1000_ADVTXD_DCMD_RS).
Definition data_upper (len : Z) : Z := Z.lor E1000_TXD_DMA_TXDWB (u32 (Z.shiftl len E1000_ADVTXD_PAYLEN_SHIFT)).

(** The descriptors of a packet: the context, the buffer, and in the first slot the
    index of the one that will be written back. *)
Definition queue_packet (n : Z) (p : positive) (x : igb_packet) (r : tx_ring) : res tx_ring :=
  let first := next_avail_desc r in
  r ← igb_tx_ctx_setup n x r;
  let i := next_avail_desc r in
  base ← set_slot (tx_base r) i (TxDesc (u64 (p_paddr x + p_offset x)) (data_lower (p_len x)) (data_upper (p_len x)));
  bufs ← set_slot (tx_buffers r) i (TxBuffer (-1) (Some p));
  b ← slot bufs first;
  bufs ← set_slot bufs first (TxBuffer i (b_packet b));
  let r := with_avail (next_index n i) (u16 (tx_avail r - 1)) (with_buffers bufs (with_base base r)) in
  Ret (with_stats (r_bytes r) (r_packets r) (u64 (tx_packets r + 1)) r).

(** The part of [igb_xmit] under the lock. *)
Definition xmit_locked (q : Z) (p : positive) (a : adapter) : res (Z * adapter) :=
  x ← get_packet (ad_packets a) p;
  let x := with_next None x in
  let a := with_packets (<[p := x]> (ad_packets a)) a in
  r ← slot (tx_rings a) q;
  if tx_avail r <=? 2 then Ret (ENOSPC, a)
  else
    r ← queue_packet (num_tx_desc a) p x r;
    Ret (0, write_reg (E1000_TDT q) (next_avail_desc r) (with_ring q r a)).

(** The ring is addressed before its index is compared, and with [>]. *)
Definition igb_xmit (q : Z) (packet : option positive) (a : adapter) : res (Z * adapter) :=
  if num_queues a <? q then Ret (EINVAL, a)
  else match packet with
       | None => Ret (EINVAL, a)
       | Some p => locked (xmit_locked q p) a
       end.

(** ** Reclaiming *)

(** The packets reclaimed so far: the first and the last of the list. *)
Definition reclaimed : Type := option positive * option positive.

(** One slot of the inner loop. *)
Definition clean_slot (n first : Z) (r : tx_ring) (h : gmap positive igb_packet) (cl : reclaimed)
  : res (tx_ring * gmap positive igb_packet * reclaimed) :=
  b ← slot (tx_buffers r) first;
  d ← slot (tx_base r) first;
  '(h, cl, bytes) ←
    (match b_packet b with
     | None => Ret (h, cl, r_bytes r)
     | Some p =>
         x ← get_packet h p;
         let h := <[p := with_dmatime (Z.land 0xffffffff (d_addr d)) x]> h in
         h ← (match cl with
              | (None, _) => Ret h
              | (Some _, Some l) => y ← get_packet h l; Ret (<[l := with_next (Some p) y]> h)
              | (Some _, None) => Fault (UseAfterFree 0)
              end);
         Ret (h, (Some (default p cl.1), Some p), u32 (r_bytes r + p_len x))
     end);
  bufs ← set_slot (tx_buffers r) first (TxBuffer (-1) None);
  base ← set_slot (tx_base r) first (TxDesc 0 0 0);
  Ret (with_stats bytes (r_packets r) (tx_packets r)
         (with_avail (next_avail_desc r) (u16 (tx_avail r + 1)) (with_buffers bufs (with_base base r))), h, cl).

(** [while (first != done)] *)
Fixpoint clean_range (fuel : nat) (n first done : Z) (r : tx_ring) (h : gmap positive igb_packet) (cl : reclaimed)
  : res (Z * tx_ring * gmap positive igb_packet * reclaimed) :=
  if first =? done then Ret (first, r, h, cl)
  else match fuel with
       | O => Fault OutOfFuel
       | S fuel => '(r, h, cl) ← clean_slot n first r h cl; clean_range fuel n (next_index n first) done r h cl
       end.

(** [while (eop_desc->upper.fields.status & E1000_TXD_STAT_DD)] *)
Fixpoint clean_packets (fuel : nat) (n first eop done : Z) (r : tx_ring) (h : gmap positive igb_packet) (cl : reclaimed)
  : res (Z * tx_ring * gmap positive igb_packet * reclaimed) :=
  e ← slot (tx_base r) eop;
  if Z.land (Z.land (d_upper e) 0xff) E1000_TXD_STAT_DD =? 0 then Ret (first, r, h, cl)
  else match fuel with
       | O => Fault OutOfFuel
       | S fuel =>
           '(first, r, h, cl) ← clean_range (Z.to_nat n) n first done r h cl;
           let r := with_stats (r_bytes r) (u32 (r_packets r + 1)) (tx_packets r) r in
           b ← slot (tx_buffers r) first;
           if next_eop b =? -1 then Ret (first, r, h, cl)
           else clean_packets fuel n first (next_eop b) (next_index n (next_eop b)) r h cl
       end.

(** One queue. *)
Definition clean_queue (n : Z) (r : tx_ring) (h : gmap positive igb_packet) (cl : reclaimed)
  : res (tx_ring * gmap positive igb_packet * reclaimed) :=
  if tx_avail r =? n then Ret (with_status IGB_QUEUE_IDLE r, h, cl)
  else
    let first := next_to_clean r in
    b ← slot (tx_buffers r) first;
    '(first, r, h, cl) ← clean_packets (Z.to_nat n) n first (next_eop b) (next_index n (next_eop b)) r h cl;
    let r := with_clean first r in
    Ret (if IGB_QUEUE_THRESHOLD <=? tx_avail r
         then with_status (Z.land (queue_status r) (Z.lnot IGB_QUEUE_DEPLETED)) r else r, h, cl).

(** The loop over the queues; [k] are left. *)
Fixpoint clean_queues (k : nat) (i : Z) (a : adapter) (cl : reclaimed) : res (adapter * reclaimed) :=
  match k with
  | O => Ret (a, cl)
  | S k =>
      r ← slot (tx_rings a) i;
      '(r, h, cl) ← clean_queue (num_tx_desc a) r (ad_packets a) cl;
      clean_queues k (i + 1) (with_packets h (with_ring i r a)) cl
  end.

(** [*cleaned_packets] afterwards. *)
Definition igb_clean (a : adapter) : res (option positive * adapter) :=
  let '(e, a) := sem_call a in
  if negb (e =? 0) then Ret (None, a)
  else '(a, cl) ← clean_queues (Z.to_nat (num_queues a)) 0 a (None, None);
       let '(_, a) := sem_call a in
       Ret (cl.1, a).

(** ** Start, stop and registers *)

Definition txdctl_idle (txdctl : Z) : Z :=
  Z.lor (Z.lor (Z.lor txdctl IGB_TX_PTHRESH) (Z.shiftl IGB_TX_HTHRESH 8)) (Z.shiftl IGB_TX_WTHRESH 16).
Definition txdctl_run (txdctl : Z) : Z :=
  Z.lor (Z.lor (txdctl_idle txdctl) E1000_TXDCTL_PRIORITY) E1000_TXDCTL_QUEUE_ENABLE.

(** A loop over the rings that may change each of them and write registers. *)
Fixpoint each_ring (f : Z -> tx_ring -> adapter -> tx_ring * adapter) (k : nat) (i : Z) (a : adapter) : res adapter :=
  match k with
  | O => Ret a
  | S k => r ← slot (tx_rings a) i;
           let '(r, a) := f i r a in
           each_ring f k (i + 1) (with_ring i r a)
  end.
Definition all_rings f (a : adapter) : res adapter := each_ring f (Z.to_nat (num_queues a)) 0 a.

Definition igb_reset : adapter -> res adapter :=
  all_rings (fun i r a =>
    let a := write_reg (E1000_TXDCTL i) (txdctl_idle 0) a in
    let a := write_reg (E1000_TDLEN i) (num_tx_desc a * 16) a in
    let a := write_reg (E1000_TDBAH i) (u32 (Z.shiftr (txdma_paddr r) 32)) a in
    let a := write_reg (E1000_TDBAL i) (u32 (txdma_paddr r)) a in
    let a := write_reg (E1000_TDT i) 0 a in
    let a := write_reg (E1000_TDH i) 0 a in
    (with_status IGB_QUEUE_IDLE r, a)).

Definition igb_setup_transmit_ring (n : Z) (r : tx_ring) : tx_ring :=
  TxRing (txdma_paddr r) (replicate (Z.to_nat n) (TxDesc 0 0 0)) (replicate (Z.to_nat n) (TxBuffer 0 None)) 0 0 n
    (r_bytes r) (r_packets r) (tx_packets r) (queue_status r).
Definition igb_setup_transmit_structures : adapter -> res adapter :=
  all_rings (fun _ r a => (igb_setup_transmit_ring (num_tx_desc a) r, a)).

Definition igb_initialize_transmit_units : adapter -> res adapter :=
  all_rings (fun i r a =>
    let a := write_reg (E1000_TXDCTL i) 0 a in
    let a := write_reg (E1000_TDT i) 0 a in
    let a := write_reg (E1000_TDH i) 0 a in
    let a := write_reg (E1000_TXDCTL i) (txdctl_run 0) a in
    (with_status IGB_QUEUE_IDLE r, a)).

Definition igb_init : adapter -> res (Z * adapter) :=
  locked (fun a => a ← igb_reset a; a ← igb_setup_transmit_structures a; a ← igb_initialize_transmit_units a; Ret (0, a)).
Definition igb_suspend : adapter -> res (Z * adapter) :=
  locked (fun a => a ← all_rings (fun i r a => (with_status IGB_QUEUE_IDLE r, write_reg (E1000_TXDCTL i) (txdctl_idle 0) a)) a;
                   Ret (0, a)).
Definition igb_resume : adapter -> res (Z * adapter) :=
  locked (fun a => a ← all_rings (fun i r a => (with_status IGB_QUEUE_WORKING r, write_reg (E1000_TXDCTL i) (txdctl_run 0) a)) a;
                   Ret (0, a)).

Definition igb_trigger (data : Z) (a : adapter) : adapter :=
  let '(e, a) := sem_call a in
  if negb (e =? 0) then a else (sem_call (write_reg E1000_WUS data a)).2.
Definition igb_writereg (reg data : Z) (a : adapter) : adapter := write_reg reg data a.
Definition igb_lock (a : adapter) : Z * adapter := sem_call a.
Definition igb_unlock (a : adapter) : Z * adapter := sem_call a.

(** The address from the two registers, low bytes first. *)
Definition igb_read_mac_addr (a : adapter) : adapter :=
  let '(hi, a) := read_reg (E1000_RAH 0) a in
  let '(lo, a) := read_reg (E1000_RAL 0) a in
  with_perm (((fun i => u8 (Z.shiftr lo (Z.of_nat i * 8))) <$> seq 0 4)
             ++ ((fun i => u8 (Z.shiftr hi (Z.of_nat i * 8))) <$> seq 0 2)) a.
Definition igb_get_mac_addr (a : adapter) : list Z := perm_addr a.

End Ops.

(** ** Supported devices *)

Definition IGB_VENDOR_ID : Z := 0x8086.
Definition igb_vendor_info_array : list (Z * Z) :=
  (fun d => (0x8086, d)) <$> [0x1533; 0x157B; 0x1535; 0x1534; 0x1536; 0x1537; 0x157C; 0x1538].
Definition igb_probe (vendor device : Z) : Z :=
  if negb (vendor =? IGB_VENDOR_ID) then ENXIO
  else if existsb (fun e => (vendor =? e.1) && (device =? e.2)) igb_vendor_info_array then 0 else ENXIO.
