(* ===== verification/IgbProps.v ===== *)
(** * Transmit rings of the I210 library: invariant and operations

    A ring of [n] descriptors holds the outstanding packets from [next_to_clean]
    on, two descriptors each.  [ring_ok] says what is in every slot; the lemmas
    show that queueing, a hardware step and reclaiming keep it and act on the list
    of outstanding packets as a queue. *)

From S2P Require Import Prelude AvtpTime Igb.
From Stdlib Require Import ZArith Lia.
From stdpp Require Import base tactics list option gmap fin_maps.
Open Scope Z_scope.

(** ** Positions on a ring *)

Definition pos (n h : Z) (j : nat) : Z := if h + Z.of_nat j <? n then h + Z.of_nat j else h + Z.of_nat j - n.

Lemma pos_bound n h j : 0 <= h < n -> (j <= Z.to_nat n)%nat -> 0 <= pos n h j < n.
Proof. unfold pos. repeat btest; lia. Qed.

Lemma pos_0 n h : 0 <= h < n -> pos n h 0 = h.
Proof. unfold pos. repeat btest; lia. Qed.

Lemma pos_S n h j : 0 <= h < n -> (j < Z.to_nat n)%nat -> next_index n (pos n h j) = pos n h (S j).
Proof. unfold pos, next_index. intros. repeat btest; lia. Qed.

Lemma pos_inj n h i j :
  0 <= h < n -> (i < Z.to_nat n)%nat -> (j < Z.to_nat n)%nat -> pos n h i = pos n h j -> i = j.
Proof. unfold pos. intros Hh Hi Hj. repeat btest; lia. Qed.

(** After two slots the ring starts later. *)
Lemma pos_shift n h j : 0 <= h < n -> (j + 2 < Z.to_nat n)%nat -> pos n (pos n h 2) j = pos n h (j + 2).
Proof. unfold pos. intros. repeat btest; lia. Qed.
Lemma pos_shift_wrap n h j :
  0 <= h < n -> 2 < n -> (Z.to_nat n <= j + 2)%nat -> (j < Z.to_nat n)%nat ->
  pos n (pos n h 2) j = pos n h (j + 2 - Z.to_nat n).
Proof. unfold pos. intros. repeat btest; lia. Qed.
Lemma pos_shift_any n h j :
  0 <= h < n -> 2 < n -> (j < Z.to_nat n)%nat ->
  exists k, (k < Z.to_nat n)%nat /\ pos n (pos n h 2) j = pos n h k /\
            (k = j + 2 \/ k = j + 2 - Z.to_nat n /\ (k < 2))%nat.
Proof.
  intros Hh Hn Hj. destruct (decide (j + 2 < Z.to_nat n)%nat) as [E|E].
  - exists (j + 2)%nat. split; [lia|]. split; [by apply pos_shift|]. by left.
  - exists (j + 2 - Z.to_nat n)%nat. split; [lia|]. split; [apply pos_shift_wrap; lia|]. right. lia.
Qed.

(** ** Slots *)

Definition look {A} (l : list A) (i : Z) : option A := l !! Z.to_nat i.

Lemma slot_look {A} (l : list A) i x : 0 <= i -> look l i = Some x -> slot l i = Ret x.
Proof. unfold slot, look. intros Hi ->. by destruct (Z.ltb_spec i 0); [lia|]. Qed.

Lemma set_slot_ok {A} (l : list A) i (x : A) :
  0 <= i < Z.of_nat (length l) -> set_slot l i x = Ret (<[Z.to_nat i := x]> l).
Proof. unfold set_slot. intros Hi. by rewrite (proj2 (Z.leb_le 0 i)), (proj2 (Z.ltb_lt i _)) by lia. Qed.

Lemma look_set {A} (l : list A) i (x : A) :
  0 <= i < Z.of_nat (length l) -> look (<[Z.to_nat i := x]> l) i = Some x.
Proof. intros. apply list_lookup_insert_eq. lia. Qed.

Lemma look_set_ne {A} (l : list A) i k (x : A) :
  0 <= i -> 0 <= k -> i <> k -> look (<[Z.to_nat i := x]> l) k = look l k.
Proof. intros. apply list_lookup_insert_ne. lia. Qed.

Lemma look_replicate {A} (x : A) n i : 0 <= i < n -> look (replicate (Z.to_nat n) x) i = Some x.
Proof. intros. apply lookup_replicate_2. lia. Qed.

(** ** Descriptors *)

Definition done (d : tx_desc) : bool := negb (Z.land (Z.land (d_upper d) 0xff) E1000_TXD_STAT_DD =? 0).
Definition reports (d : tx_desc) : bool := negb (Z.land (d_lower d) E1000_ADVTXD_DCMD_RS =? 0).

Definition ctx_desc (x : igb_packet) : tx_desc :=
  TxDesc (Z.shiftl (launch_time (p_attime x)) 32) (Z.lor E1000_ADVTXD_DCMD_DEXT E1000_ADVTXD_DTYP_CTXT) 0.
Definition data_desc (x : igb_packet) : tx_desc :=
  TxDesc (u64 (p_paddr x + p_offset x)) (data_lower (p_len x)) (data_upper (p_len x)).

Lemma land_bit a k : 0 <= k -> (Z.land a (2 ^ k) =? 0) = negb (Z.testbit a k).
Proof.
  intros Hk. destruct (Z.testbit a k) eqn:E; cbn.
  - apply Z.eqb_neq. intros H. apply (f_equal (fun z => Z.testbit z k)) in H. revert H.
    rewrite Z.land_spec, E, Z.pow2_bits_true, Z.bits_0 by done. done.
  - apply Z.eqb_eq. apply Z.bits_inj'. intros i Hi. rewrite Z.land_spec, Z.pow2_bits_eqb, Z.bits_0 by done.
    destruct (Z.eqb_spec k i) as [<-|]; [by rewrite E|by rewrite andb_false_r].
Qed.

Lemma done_bit d : done d = Z.testbit (d_upper d) 0.
Proof.
  unfold done. rewrite <- Z.land_assoc. change (Z.land 0xff E1000_TXD_STAT_DD) with (2 ^ 0).
  rewrite land_bit by lia. apply negb_involutive.
Qed.

Lemma done_test d : (Z.land (Z.land (d_upper d) 0xff) E1000_TXD_STAT_DD =? 0) = negb (done d).
Proof. unfold done. by rewrite negb_involutive. Qed.

Lemma reports_bit d : reports d = Z.testbit (d_lower d) 27.
Proof. unfold reports. change E1000_ADVTXD_DCMD_RS with (2 ^ 27). rewrite land_bit by lia. apply negb_involutive. Qed.

Lemma ctx_not_done x : done (ctx_desc x) = false.
Proof. done. Qed.
Lemma ctx_no_report x : reports (ctx_desc x) = false.
Proof. done. Qed.
Lemma data_reports x : reports (data_desc x) = true.
Proof. rewrite reports_bit. cbn [d_lower data_desc]. unfold data_lower. by rewrite !Z.lor_spec, !orb_true_r. Qed.
Lemma data_not_done x : done (data_desc x) = false.
Proof.
  rewrite done_bit. cbn [d_upper data_desc]. unfold data_upper, u32, E1000_ADVTXD_PAYLEN_SHIFT.
  rewrite Z.lor_spec. change 4294967296 with (2 ^ 32).
  rewrite Z.mod_pow2_bits_low, Z.shiftl_spec_low by lia. done.
Qed.
Lemma written_back_done t l s : done (TxDesc t l (Z.lor s E1000_TXD_STAT_DD)) = true.
Proof. rewrite done_bit. cbn [d_upper]. by rewrite Z.lor_spec, orb_true_r. Qed.

(** ** The invariant *)

(** What a queue holds: the outstanding packets, the times at which the hardware
    reported the first of them, and whether it has read the context of the next. *)
Record aqueue := AQueue { q_pend : list positive; q_times : list Z; q_ctx : bool }.

Definition queue_ok (q : aqueue) : Prop :=
  (length (q_times q) <= length (q_pend q))%nat /\
  (q_ctx q = true -> (length (q_times q) < length (q_pend q))%nat).

(** Descriptors the hardware has read. *)
Definition q_read (q : aqueue) : nat := 2 * length (q_times q) + (if q_ctx q then 1 else 0).

Section Ring.
(** The fields of a packet that the library leaves alone. *)
Variable M : gmap positive igb_packet.
Variable n : Z.

Definition free_slot (d : tx_desc) (b : igb_tx_buffer) : Prop :=
  done d = false /\ b_packet b = None /\ (next_eop b = -1 \/ next_eop b = 0).

Lemma free_cleared : free_slot (TxDesc 0 0 0) (TxBuffer (-1) None).
Proof. split_and!; [done..|by left]. Qed.
#[local] Hint Resolve free_cleared : core.

Definition sent_slot (q : aqueue) (j : nat) (x : igb_packet) (d : tx_desc) : Prop :=
  match q_times q !! j with
  | Some t => d_addr d = t /\ done d = true
  | None => d = data_desc x
  end.

Definition packet_slots (h : Z) (r : tx_ring) (q : aqueue) (j : nat) (p : positive) (x : igb_packet) : Prop :=
  look (tx_base r) (pos n h (2 * j)) = Some (ctx_desc x) /\
  look (tx_buffers r) (pos n h (2 * j)) = Some (TxBuffer (pos n h (2 * j + 1)) None) /\
  (exists d, look (tx_base r) (pos n h (2 * j + 1)) = Some d /\ sent_slot q j x d) /\
  look (tx_buffers r) (pos n h (2 * j + 1)) = Some (TxBuffer (-1) (Some p)).

Record ring_ok (h : Z) (r : tx_ring) (q : aqueue) : Prop := {
  ro_n : 2 < n < 65536;
  ro_base : length (tx_base r) = Z.to_nat n;
  ro_bufs : length (tx_buffers r) = Z.to_nat n;
  ro_h : 0 <= h < n;
  ro_queue : queue_ok q;
  ro_room : (2 * length (q_pend q) < Z.to_nat n)%nat;
  ro_avail : tx_avail r = n - 2 * Z.of_nat (length (q_pend q));
  ro_next : next_avail_desc r = pos n (h) (2 * length (q_pend q));
  ro_packets : forall j p x, q_pend q !! j = Some p -> M !! p = Some x -> packet_slots (h) r q j p x;
  ro_free : forall j, (2 * length (q_pend q) <= j < Z.to_nat n)%nat ->
              exists d b, look (tx_base r) (pos n (h) j) = Some d /\
                          look (tx_buffers r) (pos n (h) j) = Some b /\ free_slot d b
}.

Definition heads_ok (h : Z) (q : aqueue) (head tail : Z) : Prop :=
  head = pos n (h) (q_read q) /\ tail = pos n (h) (2 * length (q_pend q)).

(** A slot outside a set of positions is untouched by writes to them. *)
Lemma pos_ne h i j :
  0 <= h < n -> (i < Z.to_nat n)%nat -> (j < Z.to_nat n)%nat -> i <> j -> pos n h i <> pos n h j.
Proof. intros Hh Hi Hj Hne E. by apply Hne, (pos_inj n h). Qed.

Lemma look_pos_ne {A} (l : list A) h i j (x : A) :
  0 <= h < n -> (i < Z.to_nat n)%nat -> (j < Z.to_nat n)%nat -> i <> j ->
  look (<[Z.to_nat (pos n h i) := x]> l) (pos n h j) = look l (pos n h j).
Proof.
  intros Hh Hi Hj Hne. pose proof (pos_bound n h i Hh ltac:(lia)). pose proof (pos_bound n h j Hh ltac:(lia)).
  apply look_set_ne; [lia|lia|by apply pos_ne].
Qed.

Lemma look_pos_eq {A} (l : list A) h i (x : A) :
  0 <= h < n -> (i < Z.to_nat n)%nat -> length l = Z.to_nat n ->
  look (<[Z.to_nat (pos n h i) := x]> l) (pos n h i) = Some x.
Proof. intros Hh Hi Hl. pose proof (pos_bound n h i Hh ltac:(lia)). apply look_set. lia. Qed.

Lemma set_pos {A} (l : list A) h i (x : A) :
  0 <= h < n -> (i < Z.to_nat n)%nat -> length l = Z.to_nat n ->
  set_slot l (pos n h i) x = Ret (<[Z.to_nat (pos n h i) := x]> l).
Proof. intros Hh Hi Hl. pose proof (pos_bound n h i Hh ltac:(lia)). apply set_slot_ok. lia. Qed.

Lemma slot_pos {A} (l : list A) h i (x : A) :
  0 <= h < n -> (i < Z.to_nat n)%nat -> look l (pos n h i) = Some x -> slot l (pos n h i) = Ret x.
Proof. intros Hh Hi. pose proof (pos_bound n h i Hh ltac:(lia)). apply slot_look. lia. Qed.

(** *** A ring after [igb_setup_transmit_ring] *)
Lemma fresh_ring_ok r : 2 < n < 65536 -> ring_ok 0 (igb_setup_transmit_ring n r) (AQueue [] [] false).
Proof.
  intros Hn. split; cbn; rewrite ?length_replicate; try lia.
  - split; cbn; [lia|done].
  - symmetry. apply pos_0. lia.
  - done.
  - intros j Hj. pose proof (pos_bound n 0 j ltac:(lia) ltac:(lia)).
    exists (TxDesc 0 0 0), (TxBuffer 0 None). rewrite !look_replicate by lia. split_and!; [done..|].
    split_and!; [done..|by right].
Qed.

(** Only four fields of a ring matter. *)
Lemma ring_ok_ext h r r' q :
  tx_base r' = tx_base r -> tx_buffers r' = tx_buffers r -> tx_avail r' = tx_avail r ->
  next_avail_desc r' = next_avail_desc r -> ring_ok h r q -> ring_ok h r' q.
Proof.
  intros E1 E2 E3 E4 [Hn Hb Hbu Hh Hq Hr Ha Hne Hp Hf]. split; rewrite ?E1, ?E2, ?E3, ?E4; try done.
  intros j p x Hj Hx. destruct (Hp j p x Hj Hx) as (H1 & H2 & H3 & H4). unfold packet_slots. by rewrite E1, E2.
Qed.

(** *** Queueing *)

Definition q_push (p : positive) (q : aqueue) : aqueue := AQueue (q_pend q ++ [p]) (q_times q) (q_ctx q).

Lemma queue_packet_ok h r q p x :
  ring_ok h r q -> 2 < tx_avail r -> M !! p = Some x ->
  returns (queue_packet n p x r) (fun r' => ring_ok h r' (q_push p q) /\ next_to_clean r' = next_to_clean r).
Proof.
  intros R Hroom Hx. destruct R as [Hn Hb Hbu Hh [Hq1 Hq2] Hr Ha Hne Hp Hf].
  set (L := length (q_pend q)) in *.
  unfold queue_packet, igb_tx_ctx_setup. rewrite Hne.
  rewrite set_pos by (done || lia). cbn -[Nat.mul Nat.add]. rewrite set_pos by (done || lia). cbn -[Nat.mul Nat.add].
  rewrite pos_S by lia. replace (S (2 * L)) with (2 * L + 1)%nat by lia.
  rewrite set_pos by (rewrite ?length_insert; done || lia). cbn -[Nat.mul Nat.add].
  rewrite set_pos by (rewrite ?length_insert; done || lia). cbn -[Nat.mul Nat.add].
  erewrite slot_pos; [|done|lia|]. 2:{ rewrite look_pos_ne by lia. apply look_pos_eq; done || lia. }
  cbn -[Nat.mul Nat.add]. rewrite set_pos by (rewrite ?length_insert; done || lia). cbn -[Nat.mul Nat.add].
  rewrite pos_S by lia. replace (S (2 * L + 1)) with (2 * (L + 1))%nat by lia.
  split; [|done]. split; cbn -[Nat.mul Nat.add]; rewrite ?length_insert, ?length_app; cbn -[Nat.mul Nat.add]; fold L; try lia.
  - split; cbn -[Nat.mul Nat.add]; rewrite ?length_app; cbn -[Nat.mul Nat.add]; fold L; [lia|]. intros Hc. specialize (Hq2 Hc). lia.
  - unfold u16. rewrite Ha. rewrite Zminus_mod_idemp_l. rewrite Z.mod_small; lia.
  - intros j p' x' Hj Hx'. apply lookup_snoc_Some in Hj as [[Hj Hpj]|[-> <-]].
    + destruct (Hp j p' x' Hpj Hx') as (H1 & H2 & H3 & H4). fold L in Hj.
      unfold packet_slots. cbn -[Nat.mul Nat.add]. rewrite !look_pos_ne by lia. split_and!; done.
    + fold L. assert (x' = x) as -> by congruence. unfold packet_slots. cbn -[Nat.mul Nat.add].
      assert (q_times q !! L = None) as Ht by (apply lookup_ge_None_2; lia).
      split_and!.
      * rewrite look_pos_ne by lia. apply look_pos_eq; done || lia.
      * apply look_pos_eq; rewrite ?length_insert; done || lia.
      * exists (data_desc x). unfold sent_slot. cbn -[Nat.mul Nat.add]. rewrite Ht. split; [|done].
        apply look_pos_eq; rewrite ?length_insert; done || lia.
      * rewrite look_pos_ne by lia. apply look_pos_eq; rewrite ?length_insert; done || lia.
  - intros j Hj. destruct (Hf j ltac:(lia)) as (d & b & H1 & H2 & H3).
    exists d, b. rewrite !look_pos_ne by lia. done.
Qed.

(** *** The hardware *)

(** The descriptor it reads next, and the queue afterwards. *)
Definition q_next (q : aqueue) : option tx_desc :=
  x ← q_pend q !! length (q_times q) ≫= fun p => M !! p;
  Some (if q_ctx q then data_desc x else ctx_desc x).
Definition q_hw (t : Z) (q : aqueue) : aqueue :=
  match q_pend q !! length (q_times q) with
  | Some _ => if q_ctx q then AQueue (q_pend q) (q_times q ++ [t]) false else AQueue (q_pend q) (q_times q) true
  | None => q
  end.

Definition write_back (h t s : Z) (d : tx_desc) (r : tx_ring) : tx_ring :=
  with_base (<[Z.to_nat h := TxDesc t (d_lower d) (Z.lor s E1000_TXD_STAT_DD)]> (tx_base r)) r.

Lemma hw_read_ok h r q p x :
  ring_ok h r q -> q_pend q !! length (q_times q) = Some p -> M !! p = Some x ->
  look (tx_base r) (pos n h (q_read q)) = Some (if q_ctx q then data_desc x else ctx_desc x).
Proof.
  intros R Hp Hx. destruct (ro_packets _ _ _ R _ _ _ Hp Hx) as (H1 & _ & (d & H3 & H3') & _).
  unfold sent_slot in H3'. rewrite (proj2 (lookup_ge_None _ _)) in H3' by lia.
  unfold q_read. destruct (q_ctx q); [by rewrite H3, H3'|by rewrite Nat.add_0_r].
Qed.

Lemma hw_context_ok h r q p :
  ring_ok h r q -> q_pend q !! length (q_times q) = Some p -> ring_ok h r (AQueue (q_pend q) (q_times q) true).
Proof.
  intros [Hn Hb Hbu Hh [Hq1 Hq2] Hr Ha Hne Hp Hf] Hl. apply lookup_lt_Some in Hl. split; try done.
Qed.

Lemma hw_report_ok h r q p t s d :
  ring_ok h r q -> q_pend q !! length (q_times q) = Some p -> q_ctx q = true ->
  ring_ok h (write_back (pos n h (q_read q)) t s d r) (AQueue (q_pend q) (q_times q ++ [t]) false).
Proof.
  intros [Hn Hb Hbu Hh [Hq1 Hq2] Hr Ha Hne Hp Hf] Hl Hc. apply lookup_lt_Some in Hl.
  assert (q_read q = 2 * length (q_times q) + 1)%nat as E by (unfold q_read; rewrite Hc; lia).
  split; cbn -[Nat.mul Nat.add]; rewrite ?length_insert; try done.
  - split; cbn -[Nat.mul Nat.add]; rewrite ?length_app; cbn -[Nat.mul Nat.add]; [lia|done].
  - intros j p' x Hj Hx. destruct (Hp j p' x Hj Hx) as (H1 & H2 & (d' & H3 & H3') & H4).
    pose proof (lookup_lt_Some _ _ _ Hj). rewrite E.
    unfold packet_slots. cbn -[Nat.mul Nat.add]. rewrite look_pos_ne by lia. split_and!; [done..| |done].
    unfold sent_slot. cbn -[Nat.mul Nat.add]. destruct (decide (j = length (q_times q))) as [->|Hne'].
    + rewrite look_pos_eq by (done || lia). eexists. split; [done|].
      rewrite lookup_app_r, Nat.sub_diag by lia. cbn. split; [done|apply written_back_done].
    + rewrite look_pos_ne by lia. exists d'. split; [done|]. unfold sent_slot in H3'.
      destruct (decide (j < length (q_times q))%nat).
      * by rewrite lookup_app_l by lia.
      * rewrite (proj2 (lookup_ge_None _ _)) in H3' by lia. by rewrite (proj2 (lookup_ge_None _ _)) by (rewrite length_app; cbn; lia).
  - intros j Hj. destruct (Hf j Hj) as (d' & b & H1 & H2 & H3). exists d', b. rewrite E, look_pos_ne by lia. done.
Qed.

(** *** Reclaiming a packet *)

Definition q_pop (q : aqueue) : aqueue := AQueue (tail (q_pend q)) (tail (q_times q)) (q_ctx q).

(** The ring with the two slots of its first packet cleared. *)
Definition popped (h bytes : Z) (r : tx_ring) : tx_ring :=
  TxRing (txdma_paddr r)
    (<[Z.to_nat (pos n h 1) := TxDesc 0 0 0]> (<[Z.to_nat (pos n h 0) := TxDesc 0 0 0]> (tx_base r)))
    (<[Z.to_nat (pos n h 1) := TxBuffer (-1) None]> (<[Z.to_nat (pos n h 0) := TxBuffer (-1) None]> (tx_buffers r)))
    (next_avail_desc r) (next_to_clean r) (tx_avail r + 2) bytes (r_packets r) (tx_packets r) (queue_status r).

Lemma popped_ok h bytes r q p t :
  ring_ok h r q -> q_pend q !! 0%nat = Some p -> q_times q !! 0%nat = Some t ->
  ring_ok (pos n h 2) (popped h bytes r) (q_pop q).
Proof.
  intros [Hn Hb Hbu Hh [Hq1 Hq2] Hr Ha Hne Hp Hf] Hp0 Ht0.
  destruct q as [[|? pend] [|? times] c]; try done. cbn -[Nat.mul Nat.add] in *. simplify_eq.
  pose proof (pos_bound n h 2 Hh ltac:(lia)).
  split; cbn -[Nat.mul Nat.add]; rewrite ?length_insert; try done; try lia.
  - split; cbn -[Nat.mul Nat.add]; [lia|]. intros Hc. specialize (Hq2 Hc). cbn in Hq2. lia.
  - rewrite Hne, pos_shift by lia. f_equal. lia.
  - intros j p' x Hj Hx. destruct (Hp (S j) p' x Hj Hx) as (H1 & H2 & (d' & H3 & H3') & H4).
    pose proof (lookup_lt_Some _ _ _ Hj). unfold packet_slots. cbn -[Nat.mul Nat.add].
    rewrite !pos_shift by lia. rewrite !look_pos_ne by lia.
    replace (2 * S j)%nat with (2 * j + 2)%nat in * by lia.
    replace (2 * j + 1 + 2)%nat with (2 * j + 2 + 1)%nat in * by lia. split_and!; [done..|by exists d'|done].
  - intros j Hj. destruct (pos_shift_any n h j Hh ltac:(lia) ltac:(lia)) as (k & Hk & -> & Hk').
    destruct Hk' as [->|[_ Hk']].
    + rewrite !look_pos_ne by lia. apply Hf. lia.
    + exists (TxDesc 0 0 0), (TxBuffer (-1) None). destruct (decide (k = 1)%nat) as [->|].
      * rewrite !look_pos_eq by (rewrite ?length_insert; done || lia). by split_and!.
      * assert (k = 0)%nat as -> by lia. rewrite !(look_pos_ne _ h 1 0) by lia.
        rewrite !look_pos_eq by (rewrite ?length_insert; done || lia). by split_and!.
Qed.

(** The first slot of a ring leads to its first packet, or nowhere. *)
Lemma first_slot h r q :
  ring_ok h r q -> (forall p, p ∈ q_pend q -> is_Some (M !! p)) ->
  exists b, look (tx_buffers r) h = Some b /\
    match q_pend q with [] => next_eop b = -1 \/ next_eop b = 0 | _ :: _ => next_eop b = pos n h 1 end.
Proof.
  intros [Hn Hb Hbu Hh Hq Hr Ha Hne Hp Hf] HM. destruct (q_pend q) as [|p pend] eqn:E.
  - destruct (Hf 0%nat) as (d & b & H1 & H2 & H3); [cbn in *; lia|]. rewrite pos_0 in H2 by done.
    exists b. split; [done|]. apply H3.
  - destruct (HM p ltac:(left)) as [x Hx]. destruct (Hp 0%nat p x eq_refl Hx) as (_ & H2 & _).
    cbn -[pos] in H2. rewrite pos_0 in H2 by done. eexists. split; [done|]. done.
Qed.

(** Where the reclaim looks for a report. *)
Definition eop_ok (h eop : Z) (q : aqueue) : Prop :=
  match q_pend q with [] => eop = 0 | _ :: _ => eop = pos n h 1 end.

Lemma eop_desc h r q eop :
  ring_ok h r q -> (forall p, p ∈ q_pend q -> is_Some (M !! p)) -> eop_ok h eop q ->
  exists d, slot (tx_base r) eop = Ret d /\ done d = (match q_times q with [] => false | _ :: _ => true end).
Proof.
  intros [Hn Hb Hbu Hh [Hq _] Hr Ha Hne Hp Hf] HM. unfold eop_ok. destruct (q_pend q) as [|p pend] eqn:E.
  - intros ->. destruct (q_times q); [|cbn in Hq; lia]. cbn in Hr.
    assert (exists j, (j < Z.to_nat n)%nat /\ pos n h j = 0) as (j & Hj & Hz).
    { exists (if h =? 0 then 0%nat else Z.to_nat (n - h)). unfold pos. split; repeat btest; lia. }
    destruct (Hf j ltac:(cbn; lia)) as (d & b & H1 & _ & H3). rewrite Hz in H1. exists d.
    split; [by apply slot_look|apply H3].
  - intros ->. destruct (HM p ltac:(left)) as [x Hx]. destruct (Hp 0%nat p x eq_refl Hx) as (_ & _ & (d & H3 & H3') & _).
    exists d. cbn in Hr. split; [apply slot_pos; done || lia|]. unfold sent_slot in H3'.
    destruct (q_times q); cbn in H3'; [subst d; apply data_not_done|by destruct H3'].
Qed.

End Ring.
