(* ===== verification/IgbTheorems.v ===== *)
(** * The I210 library as queues of packets

    Reclaiming walks the rings and links the packets it finds into one list;
    [heap_ok] is what holds of that list and of the packets still outstanding.
    [igb_refines_queues] shows that any sequence of transmissions, hardware steps
    and reclaims behaves as first-in first-out queues with room for the packets
    of a ring. *)

From S2P Require Import Prelude AvtpTime Igb IgbProps.
From Stdlib Require Import ZArith Lia.
From stdpp Require Import base tactics list option gmap fin_maps.
Open Scope Z_scope.

(** The addresses of registers. *)
Ltac regs := unfold E1000_TDT, E1000_TDH, E1000_TXDCTL, E1000_TDLEN, E1000_TDBAL, E1000_TDBAH, queue_reg.

(** ** Reclaimed packets *)

(** The fields that neither transmission nor reclaiming changes. *)
Definition still (x : igb_packet) : igb_packet := with_dmatime 0 (with_next None x).

Section Heap.
Variable M : gmap positive igb_packet.

(** [out] are outstanding, [l] are reclaimed, with their times, in a linked list. *)
Record heap_ok (h : gmap positive igb_packet) (out : list positive) (l : list (positive * Z)) (cl : reclaimed) : Prop := {
  ho_still : still <$> h = M;
  ho_nodup : NoDup (out ++ l.*1);
  ho_out : forall p, p ∈ out -> exists y, h !! p = Some y /\ p_next y = None;
  ho_chain : forall i p t, l !! i = Some (p, t) ->
               exists y, h !! p = Some y /\ p_dmatime y = t /\ p_next y = fst <$> l !! S i;
  ho_first : cl.1 = fst <$> head l;
  ho_last : cl.2 = fst <$> last l
}.

Lemma heap_start h out : still <$> h = M -> NoDup out ->
  (forall p, p ∈ out -> exists y, h !! p = Some y /\ p_next y = None) -> heap_ok h out [] (None, None).
Proof. intros H1 H2 H3. split; cbn; [done|by rewrite app_nil_r|done|done|done|done]. Qed.

(** What the inner loop does with the packet of a slot. *)
Definition relink (h : gmap positive igb_packet) (cl : reclaimed) (p : positive) (t : Z) : gmap positive igb_packet :=
  let h := alter (with_dmatime t) p h in
  match cl.2 with Some l => alter (with_next (Some p)) l h | None => h end.

Lemma still_alter (h : gmap positive igb_packet) p f : (forall x, still (f x) = still x) -> still <$> alter f p h = still <$> h.
Proof.
  intros Hf. apply map_eq. intros k. rewrite !lookup_fmap. destruct (decide (k = p)) as [->|Hne].
  - rewrite lookup_alter_eq. destruct (h !! p); cbn; [by rewrite Hf|done].
  - by rewrite lookup_alter_ne.
Qed.

Lemma relink_ok h p out l cl t :
  heap_ok h (p :: out) l cl -> heap_ok (relink h cl p t) out (l ++ [(p, t)]) (Some (default p cl.1), Some p).
Proof.
  intros [H1 H2 H3 H4 H5 H6]. unfold relink. rewrite H6.
  apply NoDup_cons in H2 as [Hp H2]. rewrite elem_of_app in Hp.
  destruct (H3 p ltac:(left)) as (y & Hy & Hyn).
  assert (forall k u, l !! k = Some u -> u.1 <> p) as Hlp.
  { intros k u Hk E. apply Hp. right. rewrite <- E. by eapply list_elem_of_fmap_2, list_elem_of_lookup_2. }
  assert (forall q, q ∈ out -> forall k u, l !! k = Some u -> u.1 <> q) as Hlq.
  { intros q Hq k u Hk <-. apply NoDup_app in H2 as (_ & H2 & _). apply (H2 _ Hq).
    by eapply list_elem_of_fmap_2, list_elem_of_lookup_2. }
  split.
  - destruct (last l) as [[b tb]|]; cbn; rewrite ?still_alter; done.
  - rewrite fmap_app, app_assoc. apply NoDup_app. split_and!; [done| |apply NoDup_singleton].
    intros q Hq Hq'. apply list_elem_of_singleton in Hq'. cbn in Hq'. subst q. apply elem_of_app in Hq. tauto.
  - intros q Hq. destruct (H3 q ltac:(by right)) as (yq & Hyq & Hn). exists yq. split; [|done].
    assert (p <> q) as Hne by (intros ->; tauto).
    destruct (last l) as [[b tb]|] eqn:El; cbn.
    + rewrite last_lookup in El. rewrite lookup_alter_ne by (by eapply (Hlq q Hq _ (b, tb))). by rewrite lookup_alter_ne.
    + by rewrite lookup_alter_ne.
  - intros i q tq Hi. apply lookup_snoc_Some in Hi as [[Hi Hq]|[-> [= <- <-]]].
    + destruct (H4 i q tq Hq) as (yq & Hyq & Ht & Hn). pose proof (Hlp _ _ Hq) as Hne. cbn in Hne.
      destruct (last l) as [[b tb]|] eqn:El; cbn.
      2:{ apply last_None in El. by subst l. }
      rewrite last_lookup in El. destruct (decide (i = pred (length l))) as [->|Hil].
      * assert ((b, tb) = (q, tq)) as [= -> ->] by congruence.
        rewrite lookup_alter_eq, lookup_alter_ne by done. rewrite Hyq. cbn. eexists. split; [done|]. split; [done|].
        rewrite lookup_app_r by lia. by replace (S (pred (length l)) - length l)%nat with 0%nat by lia.
      * rewrite lookup_alter_ne.
        2:{ intros ->. apply Hil. apply NoDup_app in H2 as (_ & _ & H2).
            eapply (NoDup_lookup _ _ _ q H2); rewrite list_lookup_fmap; [by rewrite Hq|by rewrite El]. }
        rewrite lookup_alter_ne by done. exists yq. split_and!; [done..|].
        by rewrite lookup_app_l by lia.
    + exists (with_dmatime t y). cbn. rewrite (lookup_ge_None_2 (l ++ _)) by (rewrite length_app; cbn; lia). split_and!; [|done|done].
      destruct (last l) as [[b tb]|] eqn:El; cbn.
      * rewrite last_lookup in El. rewrite lookup_alter_ne by (by eapply (Hlp _ (b, tb))). by rewrite lookup_alter_eq, Hy.
      * by rewrite lookup_alter_eq, Hy.
  - cbn. rewrite H5. by destruct l.
  - cbn. by rewrite last_snoc.
Qed.

Lemma alter_as_insert (h : gmap positive igb_packet) p x f : h !! p = Some x -> alter f p h = <[p := f x]> h.
Proof.
  intros Hx. apply map_eq. intros k. destruct (decide (k = p)) as [->|Hne].
  - by rewrite lookup_alter_eq, lookup_insert_eq, Hx.
  - by rewrite lookup_alter_ne, lookup_insert_ne.
Qed.

Lemma heap_static h out l cl p y : heap_ok h out l cl -> h !! p = Some y -> M !! p = Some (still y).
Proof. intros H Hy. rewrite <- (ho_still _ _ _ _ H), lookup_fmap. by rewrite Hy. Qed.

(** A slot with a packet. *)
Lemma clean_slot_data n i r d h p out l cl :
  heap_ok h (p :: out) l cl -> 0 <= i < Z.of_nat (length (tx_base r)) -> length (tx_buffers r) = length (tx_base r) ->
  look (tx_buffers r) i = Some (TxBuffer (-1) (Some p)) -> look (tx_base r) i = Some d ->
  exists bytes, clean_slot n i r h cl =
    Ret (TxRing (txdma_paddr r) (<[Z.to_nat i := TxDesc 0 0 0]> (tx_base r)) (<[Z.to_nat i := TxBuffer (-1) None]> (tx_buffers r))
           (next_avail_desc r) (next_to_clean r) (u16 (tx_avail r + 1)) bytes (r_packets r) (tx_packets r) (queue_status r),
         relink h cl p (Z.land 0xffffffff (d_addr d)), (Some (default p cl.1), Some p)).
Proof.
  intros H Hi Hlen Hb Hd. unfold clean_slot. rewrite (slot_look _ i _ ltac:(lia) Hb). cbn.
  rewrite (slot_look _ i _ ltac:(lia) Hd). cbn.
  destruct (ho_out _ _ _ _ H p ltac:(left)) as (y & Hy & _). unfold get_packet. rewrite Hy. cbn.
  exists (u32 (r_bytes r + p_len y)). destruct H as [_ H2 _ H4 H5 H6].
  unfold relink. rewrite (alter_as_insert _ _ _ _ Hy). destruct cl as [c1 c2]. cbn in *. subst c1 c2.
  destruct (last l) as [[b tb]|] eqn:El; cbn.
  - destruct l as [|u l0]; [done|]. cbn. rewrite last_lookup in El. destruct (H4 _ _ _ El) as (z & Hz & _).
    assert (p <> b) as Hne.
    { intros ->. apply NoDup_cons in H2 as [H2 _]. apply H2, elem_of_app. right.
      apply (list_elem_of_fmap_2 fst _ (b, tb)), (list_elem_of_lookup_2 _ _ _ El). }
    rewrite lookup_insert_ne, Hz by done. cbn. rewrite !set_slot_ok by lia. cbn.
    erewrite (alter_as_insert (<[p := _]> h)) by (rewrite lookup_insert_ne; done). done.
  - apply last_None in El. subst l. cbn. rewrite !set_slot_ok by lia. done.
Qed.

(** A slot without a packet. *)
Lemma clean_slot_plain n i r d e h cl :
  0 <= i < Z.of_nat (length (tx_base r)) -> length (tx_buffers r) = length (tx_base r) ->
  look (tx_buffers r) i = Some (TxBuffer e None) -> look (tx_base r) i = Some d ->
  clean_slot n i r h cl =
    Ret (TxRing (txdma_paddr r) (<[Z.to_nat i := TxDesc 0 0 0]> (tx_base r)) (<[Z.to_nat i := TxBuffer (-1) None]> (tx_buffers r))
           (next_avail_desc r) (next_to_clean r) (u16 (tx_avail r + 1)) (r_bytes r) (r_packets r) (tx_packets r) (queue_status r),
         h, cl).
Proof.
  intros Hi Hlen Hb Hd. unfold clean_slot. rewrite (slot_look _ i _ ltac:(lia) Hb). cbn.
  rewrite (slot_look _ i _ ltac:(lia) Hd). cbn. by rewrite !set_slot_ok by lia.
Qed.

(** The inner loop on the first packet of a ring. *)
Lemma clean_first n h r q hp p t out l cl fuel :
  ring_ok M n h r q -> q_pend q !! 0%nat = Some p -> q_times q !! 0%nat = Some t -> heap_ok hp (p :: out) l cl ->
  exists bytes, clean_range (S (S fuel)) n h (pos n h 2) r hp cl =
    Ret (pos n h 2, popped n h bytes r, relink hp cl p (Z.land 0xffffffff t), (Some (default p cl.1), Some p)).
Proof.
  intros R Hp Ht H. destruct (ho_out _ _ _ _ H p ltac:(left)) as (y & Hy & _).
  destruct (ro_packets _ _ _ _ _ R _ _ _ Hp (heap_static _ _ _ _ _ _ H Hy)) as (H1 & H2 & (d & H3 & H3') & H4).
  unfold sent_slot in H3'. rewrite Ht in H3'. destruct H3' as [Hd _].
  destruct R as [Hn Hb Hbu Hh Hq Hr Ha _ _ _]. apply lookup_lt_Some in Hp.
  enough (forall f, f = pos n h 0 -> exists bytes, clean_range (S (S fuel)) n f (pos n h 2) r hp cl =
    Ret (pos n h 2, popped n h bytes r, relink hp cl p (Z.land 0xffffffff t), (Some (default p cl.1), Some p))) as E
    by (apply E; symmetry; by apply pos_0).
  intros ? ->. cbn -[pos clean_slot] in *.
  pose proof (pos_bound n h 0 Hh ltac:(lia)). pose proof (pos_bound n h 1 Hh ltac:(lia)).
  rewrite (proj2 (Z.eqb_neq (pos n h 0) (pos n h 2))) by (apply pos_ne; lia).
  rewrite (clean_slot_plain n (pos n h 0) r _ _ _ _ ltac:(lia) ltac:(lia) H2 H1). cbn -[pos clean_slot].
  rewrite !pos_S by lia.
  rewrite (proj2 (Z.eqb_neq (pos n h 1) (pos n h 2))) by (apply pos_ne; lia).
  assert (u16 (u16 (tx_avail r + 1) + 1) = tx_avail r + 2) as Hu
    by (unfold u16; rewrite Zplus_mod_idemp_l, Z.mod_small; lia).
  edestruct (clean_slot_data n (pos n h 1)) as [bytes E]; [exact H|..|]; cycle 4.
  { rewrite E. exists bytes. destruct fuel; cbn -[pos]; rewrite Z.eqb_refl;
   
    unfold popped; by rewrite Hd, Hu. }
  all: cbn -[pos]; rewrite ?length_insert; try lia.
  - rewrite look_pos_ne by lia. done.
  - rewrite look_pos_ne by lia. done.
Qed.

(** ** Reclaiming a queue *)

Definition q_clean (q : aqueue) : aqueue := AQueue (drop (length (q_times q)) (q_pend q)) [] (q_ctx q).
Definition q_sent (q : aqueue) : list (positive * Z) := zip (q_pend q) (Z.land 0xffffffff <$> q_times q).

(** How the start of a ring moves. *)
Definition moved (n h h' : Z) (k : nat) : Prop :=
  forall i, (i + k < Z.to_nat n)%nat -> pos n h' i = pos n h (i + k).

Lemma heap_known h out l cl p : heap_ok h out l cl -> p ∈ out -> is_Some (M !! p).
Proof. intros H Hp. destruct (ho_out _ _ _ _ H p Hp) as (y & Hy & _). by rewrite (heap_static _ _ _ _ _ _ H Hy). Qed.

Lemma moved_trans n h1 h2 h3 j k : moved n h1 h2 j -> moved n h2 h3 k -> moved n h1 h3 (j + k).
Proof. intros H1 H2 i Hi. rewrite H2 by lia. rewrite H1 by lia. f_equal. lia. Qed.

(** The queue without its first packet, once that one was sent. *)
Lemma pop_clean p pend t times c :
  let q := AQueue (p :: pend) (t :: times) c in
  q_clean q = q_clean (q_pop q) /\ q_sent q = [(p, Z.land 0xffffffff t)] ++ q_sent (q_pop q).
Proof. done. Qed.

Definition cleaned n h (q : aqueue) (l : list (positive * Z)) (out : list positive)
  (res : Z * tx_ring * gmap positive igb_packet * reclaimed) : Prop :=
  let '(h', r', hp', cl') := res in
  ring_ok M n h' r' (q_clean q) /\ heap_ok hp' (q_pend (q_clean q) ++ out) (l ++ q_sent q) cl' /\
  moved n h h' (2 * length (q_times q)).

Lemma cleaned_none n h r q hp out l cl :
  ring_ok M n h r q -> q_times q = [] -> heap_ok hp (q_pend q ++ out) l cl -> cleaned n h q l out (h, r, hp, cl).
Proof.
  intros R Ht H. unfold cleaned, q_clean, q_sent. destruct q as [pend times c]. cbn in *. subst times. cbn.
  rewrite zip_with_nil_r, app_nil_r. split_and!; [done..|]. intros i _. by rewrite Nat.add_0_r.
Qed.

Lemma cleaned_more n h p pend t times c l out res :
  0 <= h < n -> 2 < n -> let q := AQueue (p :: pend) (t :: times) c in
  cleaned n (pos n h 2) (q_pop q) (l ++ [(p, Z.land 0xffffffff t)]) out res -> cleaned n h q l out res.
Proof.
  intros Hh Hn q. destruct res as [[[h' r'] hp'] cl']. unfold cleaned. intros (H1 & H2 & H3).
  destruct (pop_clean p pend t times c) as [E1 E2]. fold q in E1, E2. rewrite E1, E2, app_assoc.
  split_and!; [done..|].
  replace (2 * length (q_times q))%nat with (2 + 2 * length (q_times (q_pop q)))%nat by (cbn; lia).
  eapply moved_trans; [|exact H3]. intros i Hi. by apply pos_shift.
Qed.

Lemma clean_loop n fuel : forall q h r hp l cl eop out,
  ring_ok M n h r q -> heap_ok hp (q_pend q ++ out) l cl -> (length (q_times q) < fuel)%nat -> eop_ok n h eop q ->
  returns (clean_packets fuel n h eop (next_index n eop) r hp cl) (cleaned n h q l out).
Proof.
  induction fuel as [|fuel IH]; intros q h r hp l cl eop out R H Hf He; [lia|].
  assert (forall p, p ∈ q_pend q -> is_Some (M !! p)) as HM by (intros p Hp; eapply heap_known, elem_of_app; eauto).
  destruct (eop_desc M n h r q eop R HM He) as (d & Ed & Hd). cbn. rewrite Ed. cbn. rewrite done_test, Hd.
  destruct (ro_queue _ _ _ _ _ R) as [Hq _]. pose proof (ro_n _ _ _ _ _ R). pose proof (ro_h _ _ _ _ _ R) as Hh.
  destruct q as [pend [|t times] c]; cbn in *; [by apply cleaned_none|].
  destruct pend as [|p pend]; [cbn in *; lia|]. cbn in He. subst eop.
  rewrite pos_S by lia. destruct (Z.to_nat n) as [|[|f]] eqn:En; [lia|lia|].
  edestruct (clean_first n h r _ hp p t (pend ++ out) l cl f R) as [bytes E]; [done..|]. rewrite E. cbn -[pos].
  apply (relink_ok _ _ _ _ _ (Z.land 0xffffffff t)) in H.
  apply (popped_ok M n h bytes r _ p t) in R; [|done..]. cbn in R.
  apply (ring_ok_ext _ _ _ _ (with_stats bytes (u32 (r_packets r + 1)) (tx_packets r) (popped n h bytes r))) in R; [|done..].
  destruct (first_slot M n _ _ _ R) as (b & Hb & Hn).
  { intros p' Hp'. eapply heap_known; [exact H|]. apply elem_of_app. by left. }
  pose proof (pos_bound n h 2 Hh ltac:(lia)) as H2.
  cbn -[pos] in Hb, Hn |- *. rewrite (slot_look _ (pos n h 2) _ ltac:(lia) Hb). cbn -[pos].
  eapply returns_mono; [|exact (fun res => cleaned_more n h p pend t times c l out res Hh ltac:(lia))].
  destruct (Z.eqb_spec (next_eop b) (-1)).
  - assert (pend = []) as ->.
    { destruct pend; [done|]. pose proof (pos_bound n (pos n h 2) 1 H2 ltac:(lia)). lia. }
    destruct times; [|cbn in *; lia]. by apply cleaned_none.
  - apply IH; [done|done|cbn in *; lia|]. unfold eop_ok. cbn -[pos]. destruct pend; [|done]. tauto.
Qed.

Lemma clean_queue_ok n r q hp l cl out :
  ring_ok M n (next_to_clean r) r q -> heap_ok hp (q_pend q ++ out) l cl ->
  returns (clean_queue n r hp cl) (fun '(r', hp', cl') =>
    cleaned n (next_to_clean r) q l out (next_to_clean r', r', hp', cl')).
Proof.
  intros R H. unfold clean_queue. pose proof (ro_avail _ _ _ _ _ R) as Ha. pose proof (ro_h _ _ _ _ _ R).
  destruct (ro_queue _ _ _ _ _ R) as [Hq _]. pose proof (ro_room _ _ _ _ _ R). btest.
  - cbn. apply cleaned_none; [by eapply ring_ok_ext; [..|exact R]|destruct (q_times q); cbn in *; [done|lia]|done].
  - assert (forall p, p ∈ q_pend q -> is_Some (M !! p)) as HM by (intros p Hp; eapply heap_known, elem_of_app; eauto).
    destruct (first_slot M n _ _ _ R HM) as (b & Hb & Hn). rewrite (slot_look _ (next_to_clean r) _ ltac:(lia) Hb). cbn.
    eapply returns_bind.
    { apply (clean_loop n _ q _ _ _ l _ _ out R H); [lia|]. unfold eop_ok.
      destruct (q_pend q); [cbn in *; lia|done]. }
    intros [[[h' r'] hp'] cl'] (C1 & C2 & C3). cbn. unfold cleaned.
    destruct (_ <=? _); cbn; split_and!; try done; by eapply ring_ok_ext; [..|exact C1].
Qed.

Lemma heap_ok_perm h out out' l cl : out ≡ₚ out' -> heap_ok h out l cl -> heap_ok h out' l cl.
Proof. intros E [H1 H2 H3 H4 H5 H6]. split; [done|by rewrite <- E| |done..]. intros p Hp. apply H3. by rewrite E. Qed.

(** ** The adapter *)

Definition queue_held n (a : adapter) (i : nat) (q : aqueue) : Prop :=
  exists r, tx_rings a !! i = Some r /\ ring_ok M n (next_to_clean r) r q /\
    hw_head a !! i = Some (pos n (next_to_clean r) (q_read q)) /\
    hw_tail a !! i = Some (pos n (next_to_clean r) (2 * length (q_pend q))).

Record rings_ok n (a : adapter) (qs : list aqueue) : Prop := {
  rs_num : num_queues a = Z.of_nat (length qs);
  rs_few : (length qs <= 4)%nat;
  rs_desc : num_tx_desc a = n;
  rs_rings : length (tx_rings a) = length qs;
  rs_heads : length (hw_head a) = length qs;
  rs_tails : length (hw_tail a) = length qs;
  rs_held : forall i q, qs !! i = Some q -> queue_held n a i q
}.

Definition pending (qs : list aqueue) : list positive := concat (q_pend <$> qs).

Lemma pending_at qs i q : qs !! i = Some q ->
  pending qs ≡ₚ q_pend q ++ pending (take i qs ++ drop (S i) qs) /\
  forall q', pending (<[i := q']> qs) ≡ₚ q_pend q' ++ pending (take i qs ++ drop (S i) qs).
Proof.
  intros Hi. unfold pending. split; [|intros q'].
  - rewrite <- (take_drop_middle qs i q Hi) at 1. rewrite !fmap_app, fmap_cons, !concat_app. cbn. solve_Permutation.
  - rewrite insert_take_drop by (by eapply lookup_lt_Some). rewrite !fmap_app, fmap_cons, !concat_app. cbn. solve_Permutation.
Qed.

Lemma q_read_le q : queue_ok q -> (q_read q <= 2 * length (q_pend q))%nat.
Proof. intros [H1 H2]. unfold q_read. destruct (q_ctx q); [specialize (H2 eq_refl)|]; lia. Qed.

(** A change of one ring, its head and its tail. *)
Lemma rings_update n a a' qs i q' :
  rings_ok n a qs -> (i < length qs)%nat ->
  num_queues a' = num_queues a -> num_tx_desc a' = num_tx_desc a ->
  length (tx_rings a') = length (tx_rings a) -> length (hw_head a') = length (hw_head a) ->
  length (hw_tail a') = length (hw_tail a) ->
  (forall k, k <> i -> tx_rings a' !! k = tx_rings a !! k /\ hw_head a' !! k = hw_head a !! k /\ hw_tail a' !! k = hw_tail a !! k) ->
  queue_held n a' i q' -> rings_ok n a' (<[i := q']> qs).
Proof.
  intros [H1 H2 H3 H4 H5 H6 H7] Hi E1 E2 E3 E4 E5 Hk Hq. split; rewrite ?length_insert; try congruence.
  intros k q Hkq. destruct (decide (k = i)) as [->|Hne].
  - rewrite list_lookup_insert_eq in Hkq by done. by simplify_eq.
  - rewrite list_lookup_insert_ne in Hkq by done. destruct (H7 k q Hkq) as (r & ?).
    destruct (Hk k Hne) as (F1 & F2 & F3). exists r. by rewrite F1, F2, F3.
Qed.

Lemma slot_nat {A} (l : list A) i x : l !! i = Some x -> slot l (Z.of_nat i) = Ret x.
Proof. intros H. apply slot_look; [lia|]. unfold look. by rewrite Nat2Z.id. Qed.

Lemma take_done {A} (l : list A) i x : (i < length l)%nat ->
  take (S i) (<[i := x]> l) = take i l ++ [x] /\ drop (S i) (<[i := x]> l) = drop (S i) l.
Proof.
  intros Hi. rewrite insert_take_drop by done. assert (length (take i l) = i) as E by (rewrite length_take; lia).
  split.
  - rewrite take_app, E. replace (S i - i)%nat with 1%nat by lia. cbn. rewrite take_ge; [done|lia].
  - rewrite drop_app, E. replace (S i - i)%nat with 1%nat by lia. rewrite drop_ge by lia. done.
Qed.

Lemma clean_queues_ok n k : forall i a qs l cl,
  rings_ok n a qs -> heap_ok (ad_packets a) (pending qs) l cl -> (i + k = length qs)%nat ->
  returns (clean_queues k (Z.of_nat i) a cl) (fun '(a', cl') =>
    rings_ok n a' (take i qs ++ (q_clean <$> drop i qs)) /\
    heap_ok (ad_packets a') (pending (take i qs ++ (q_clean <$> drop i qs))) (l ++ concat (q_sent <$> drop i qs)) cl' /\
    ad_calls a' = ad_calls a).
Proof.
  induction k as [|k IH]; intros i a qs l cl R H Hk.
  { cbn. rewrite drop_ge, take_ge by lia. cbn. by rewrite !app_nil_r. }
  destruct (lookup_lt_is_Some_2 qs i ltac:(lia)) as [q Hq]. destruct (rs_held _ _ _ R i q Hq) as (r & Hr & Rr & Hh & Ht).
  destruct (pending_at qs i q Hq) as [P1 P2]. cbn. rewrite (slot_nat _ _ _ Hr). cbn. rewrite (rs_desc _ _ _ R).
  eapply returns_bind.
  { apply (clean_queue_ok n r q _ l cl); [done|]. by eapply heap_ok_perm. }
  intros [[r' hp'] cl'] (H1 & H2 & H3). cbn. replace (Z.of_nat i + 1) with (Z.of_nat (S i)) by lia.
  eapply returns_mono; [eapply (IH (S i) _ (<[i := q_clean q]> qs) (l ++ q_sent q))|].
  - eapply (rings_update n a); [done|lia|done|done|cbn; by rewrite length_insert|done|done| |].
    + intros m Hm. cbn. by rewrite list_lookup_insert_ne by lia.
    + exists r'. cbn. rewrite Nat2Z.id, list_lookup_insert_eq by (by eapply lookup_lt_Some).
      pose proof (q_read_le q (ro_queue _ _ _ _ _ Rr)). pose proof (ro_room _ _ _ _ _ Rr).
      destruct (ro_queue _ _ _ _ _ Rr) as [Hq1 _]. unfold q_read in *.
      split_and!; [done..| |].
      * rewrite Hh. f_equal. symmetry. cbn. rewrite H3 by (destruct (q_ctx q); lia). f_equal. lia.
      * rewrite Ht. f_equal. symmetry. rewrite length_drop. rewrite H3 by lia. f_equal. lia.
  - cbn. eapply heap_ok_perm; [symmetry; apply P2|]. done.
  - rewrite length_insert. lia.
  - intros [a' cl''] (G1 & G2 & G3). cbn in G3. revert G1 G2.
    destruct (take_done qs i (q_clean q) ltac:(lia)) as [-> ->]. rewrite (drop_S qs q i Hq). cbn.
    rewrite <- !app_assoc. done.
Qed.

(** ** Registers *)

Lemma write_head reg v a k :
  hw_head (write_reg reg v a) !! k = (fun h => if reg =? E1000_TDH (Z.of_nat k) then v else h) <$> hw_head a !! k.
Proof. cbn. by rewrite list_lookup_imap. Qed.
Lemma write_tail reg v a k :
  hw_tail (write_reg reg v a) !! k = (fun h => if reg =? E1000_TDT (Z.of_nat k) then v else h) <$> hw_tail a !! k.
Proof. cbn. by rewrite list_lookup_imap. Qed.

Lemma tail_not_head i k : (i < 4)%nat -> (E1000_TDT (Z.of_nat i) =? E1000_TDH (Z.of_nat k)) = false.
Proof. intros Hi. apply Z.eqb_neq. regs. repeat btest; lia. Qed.
Lemma tail_same i k : (i < 4)%nat -> (k < 4)%nat -> (E1000_TDT (Z.of_nat i) =? E1000_TDT (Z.of_nat k)) = bool_decide (i = k).
Proof.
  intros Hi Hk. case_bool_decide as E; [subst; apply Z.eqb_refl|]. apply Z.eqb_neq. regs. repeat btest; lia.
Qed.

End Heap.

(** ** Sequences of operations *)

Inductive igb_op :=
| Xmit (q : Z) (p : option positive)
| Hardware (q : nat) (time status : Z)
| Clean.
Inductive igb_out :=
| Code (rc : Z)
| Fetched (d : option tx_desc)
| Cleaned (l : list (positive * Z)).

(** The descriptor the hardware reads next. *)
Definition hw_fetch (q : nat) (a : adapter) : option tx_desc :=
  r ← tx_rings a !! q; h ← hw_head a !! q; t ← hw_tail a !! q;
  if h =? t then None else tx_base r !! Z.to_nat h.

(** The list a caller of [igb_clean] walks: packets and times. *)
Fixpoint walk (fuel : nat) (h : gmap positive igb_packet) (o : option positive) : list (positive * Z) :=
  match fuel, o with
  | S fuel, Some p => match h !! p with Some x => (p, p_dmatime x) :: walk fuel h (p_next x) | None => [] end
  | _, _ => []
  end.

Section Run.
Context {ie : IgbEnv}.

Definition igb_step (a : adapter) (op : igb_op) : res (igb_out * adapter) :=
  match op with
  | Xmit q p => '(rc, a) ← igb_xmit q p a; Ret (Code rc, a)
  | Hardware q t s => Ret (Fetched (hw_fetch q a), hw_step q t s a)
  | Clean => '(o, a) ← igb_clean a; Ret (Cleaned (walk (size (ad_packets a)) (ad_packets a) o), a)
  end.
Fixpoint igb_run (a : adapter) (ops : list igb_op) : res (list igb_out * adapter) :=
  match ops with
  | [] => Ret ([], a)
  | op :: ops => '(o, a) ← igb_step a op; '(os, a) ← igb_run a ops; Ret (o :: os, a)
  end.

(** *** The same as queues *)

Section Spec.
Variable M : gmap positive igb_packet.
Variable n : Z.

(** The number of calls on the semaphore so far, and the queues. *)
Definition astate : Type := nat * list aqueue.

Definition spec_step (s : astate) (op : igb_op) : igb_out * astate :=
  let '(c, qs) := s in
  match op with
  | Xmit q None => (Code EINVAL, s)
  | Xmit q (Some p) =>
      match qs !! Z.to_nat q with
      | None => (Code EINVAL, s)
      | Some aq =>
          if negb (ie_sem c =? 0) then (Code (ie_sem c), (S c, qs))
          else
            let '(rc, qs) := if n - 2 * Z.of_nat (length (q_pend aq)) <=? 2 then (ENOSPC, qs)
                             else (0, <[Z.to_nat q := q_push p aq]> qs) in
            (Code (if negb (ie_sem (S c) =? 0) then ie_sem (S c) else rc), (S (S c), qs))
      end
  | Hardware q t _ => 
      (Fetched (qs !! q ≫= q_next M), (c, match qs !! q with Some aq => <[q := q_hw t aq]> qs | None => qs end))
  | Clean =>
      if negb (ie_sem c =? 0) then (Cleaned [], (S c, qs))
      else (Cleaned (concat (q_sent <$> qs)), (S (S c), q_clean <$> qs))
  end.
Fixpoint spec_run (s : astate) (ops : list igb_op) : list igb_out * astate :=
  match ops with
  | [] => ([], s)
  | op :: ops => let '(o, s) := spec_step s op in let '(os, s) := spec_run s ops in (o :: os, s)
  end.

(** What a caller owes: the index is not the number of queues (which [igb_xmit]
    should refuse and does not), and the packet exists and is not outstanding. *)
Definition may (s : astate) (op : igb_op) : Prop :=
  match op with
  | Xmit q (Some p) => 0 <= q /\ q <> Z.of_nat (length s.2) /\ is_Some (M !! p) /\ p ∉ pending s.2
  | _ => True
  end.
Fixpoint may_all (s : astate) (ops : list igb_op) : Prop :=
  match ops with [] => True | op :: ops => may s op /\ may_all (spec_step s op).2 ops end.

Definition holds (s : astate) (a : adapter) : Prop :=
  ad_calls a = s.1 /\ rings_ok M n a s.2 /\ heap_ok M (ad_packets a) (pending s.2) [] (None, None).

(** *** Each operation *)

Lemma rings_same a a' qs :
  num_queues a' = num_queues a -> num_tx_desc a' = num_tx_desc a -> tx_rings a' = tx_rings a ->
  hw_head a' = hw_head a -> hw_tail a' = hw_tail a -> rings_ok M n a qs -> rings_ok M n a' qs.
Proof.
  intros E1 E2 E3 E4 E5 [H1 H2 H3 H4 H5 H6 H7]. split; rewrite ?E1, ?E2, ?E3, ?E4, ?E5; try done.
  intros i q Hq. destruct (H7 i q Hq) as (r & ?). exists r. by rewrite E3, E4, E5.
Qed.

Lemma holds_tick c qs a : holds (c, qs) a -> holds (S c, qs) (ad_tick a).
Proof. intros (H1 & H2 & H3). split_and!; [cbn; by rewrite H1|by eapply rings_same; [..|exact H2]|done]. Qed.

Lemma heap_clear h p y out :
  heap_ok M h out [] (None, None) -> p ∉ out -> h !! p = Some y ->
  heap_ok M (<[p := with_next None y]> h) (p :: out) [] (None, None).
Proof.
  intros [H1 H2 H3 _ _ _] Hp Hy. rewrite app_nil_r in H2. apply heap_start.
  - rewrite <- H1, fmap_insert. apply insert_id. by rewrite lookup_fmap, Hy.
  - by constructor.
  - intros q Hq. apply elem_of_cons in Hq as [->|Hq]; [rewrite lookup_insert_eq; by eexists|].
    rewrite lookup_insert_ne by (by intros ->). by apply H3.
Qed.

Lemma heap_less h p out l cl : heap_ok M h (p :: out) l cl -> heap_ok M h out l cl.
Proof.
  intros [H1 H2 H3 H4 H5 H6]. split; [done|by apply NoDup_cons in H2 as []| |done..].
  intros q Hq. apply H3. by right.
Qed.

Lemma heap_lookup h out l cl p : heap_ok M h out l cl -> is_Some (M !! p) -> is_Some (h !! p).
Proof. intros [<- _ _ _ _ _]. rewrite lookup_fmap. by destruct (h !! p); [eauto|intros []]. Qed.

(** Queueing under the lock. *)
Lemma xmit_locked_ok c qs a i p aq :
  holds (c, qs) a -> qs !! i = Some aq -> is_Some (M !! p) -> p ∉ pending qs ->
  returns (xmit_locked (Z.of_nat i) p a) (fun '(rc, a') =>
    if n - 2 * Z.of_nat (length (q_pend aq)) <=? 2 then rc = ENOSPC /\ holds (c, qs) a'
    else rc = 0 /\ holds (c, <[i := q_push p aq]> qs) a').
Proof.
  intros (Hc & R & H) Hi HM Hp. destruct (heap_lookup _ _ _ _ _ H HM) as [y Hy].
  unfold xmit_locked, get_packet. rewrite Hy. cbn -[write_reg queue_packet].
  destruct (rs_held _ _ _ _ R i aq Hi) as (r & Hr & Rr & Hh & Ht). rewrite (slot_nat _ _ _ Hr). cbn -[write_reg queue_packet].
  pose proof (heap_clear _ _ _ _ H Hp Hy) as H'. rewrite (ro_avail _ _ _ _ _ Rr).
  destruct (Z.leb_spec (n - 2 * Zlen (q_pend aq)) 2) as [|Hroom].
  { cbn. split; [done|]. split_and!; [done|by eapply rings_same; [..|exact R]|exact (heap_less _ _ _ _ _ H')]. }
  rewrite (rs_desc _ _ _ _ R). change (queue_packet n p (with_next None y)) with (queue_packet n p (still y)).
  eapply returns_bind.
  { eapply (queue_packet_ok M n _ r aq p (still y) Rr); [by rewrite (ro_avail _ _ _ _ _ Rr)|exact (heap_static _ _ _ _ _ _ _ H Hy)]. }
  intros r' [R' E]. cbn -[write_reg]. split; [done|]. split_and!; [done| |].
  - pose proof (lookup_lt_Some _ _ _ Hi) as Hlt. pose proof (rs_few _ _ _ _ R) as Hfew. cbn in R, Hfew.
    eapply (rings_update M n a); [done|done|done|done|cbn; by rewrite length_insert|cbn; by rewrite length_imap..| |].
    + intros k Hk. split_and!.
      * cbn. by rewrite list_lookup_insert_ne by lia.
      * rewrite write_head, tail_not_head by lia. cbn. by destruct (hw_head a !! k).
      * destruct (decide (k < length qs)%nat).
        -- rewrite write_tail, tail_same, bool_decide_eq_false_2 by lia. cbn. by destruct (hw_tail a !! k).
        -- rewrite write_tail. cbn. by rewrite (lookup_ge_None_2 (hw_tail a)) by (rewrite (rs_tails _ _ _ _ R); lia).
    + exists r'. rewrite E in *. rewrite write_head, write_tail, tail_not_head, tail_same, bool_decide_eq_true_2 by lia.
      cbn -[Nat.mul]. rewrite Nat2Z.id, list_lookup_insert_eq by (by rewrite (rs_rings _ _ _ _ R)).
      split_and!; [done|done|by rewrite Hh|]. rewrite Ht. cbn -[Nat.mul]. f_equal.
      by rewrite (ro_next _ _ _ _ _ R').
  - cbn. destruct (pending_at qs i aq Hi) as [P1 P2]. eapply heap_ok_perm; [|exact H'].
    change (p :: pending qs ≡ₚ pending (<[i := q_push p aq]> qs)). rewrite (P2 (q_push p aq)), P1. cbn. solve_Permutation.
Qed.

Lemma xmit_ok s a q p :
  holds s a -> may s (Xmit q (Some p)) ->
  returns (igb_xmit q (Some p) a) (fun '(rc, a') =>
    Code rc = (spec_step s (Xmit q (Some p))).1 /\ holds (spec_step s (Xmit q (Some p))).2 a').
Proof.
  destruct s as [c qs]. intros Hs (Hq & Hne & HM & Hp). destruct (Hs) as (Hc & R & H). cbn in *.
  unfold igb_xmit. rewrite (rs_num _ _ _ _ R). destruct (qs !! Z.to_nat q) as [aq|] eqn:Eq; cycle 1.
  { apply lookup_ge_None in Eq. rewrite (proj2 (Z.ltb_lt _ _)) by lia. done. }
  pose proof (lookup_lt_Some _ _ _ Eq). rewrite (proj2 (Z.ltb_ge _ _)) by lia. unfold locked, sem_call. rewrite Hc.
  destruct (ie_sem c =? 0); cbn; [|split; [done|by apply holds_tick]].
  eapply returns_bind.
  { pose proof (xmit_locked_ok (S c) qs (ad_tick a) (Z.to_nat q) p aq (holds_tick _ _ _ Hs) Eq HM Hp) as X.
    rewrite Z2Nat.id in X by done. exact X. }
  intros [rc a']. cbn. destruct (_ <=? 2); intros [-> Ha']; cbn; destruct (Ha') as (-> & _); cbn;
    split; try done; by apply holds_tick.
Qed.

#[local] Arguments q_read : simpl never.

(** A step of the hardware. *)
Lemma hw_ok s a q t st :
  holds s a -> let o := spec_step s (Hardware q t st) in
  Fetched (hw_fetch q a) = o.1 /\ holds o.2 (hw_step q t st a).
Proof.
  destruct s as [c qs]. intros (Hc & R & H). cbn. unfold hw_fetch, hw_step. cbn in *.
  destruct (qs !! q) as [aq|] eqn:Eq; cbn; cycle 1.
  { rewrite (lookup_ge_None_2 (tx_rings a)) by (rewrite (rs_rings _ _ _ _ R); by apply lookup_ge_None). done. }
  destruct (rs_held _ _ _ _ R q aq Eq) as (r & Hr & Rr & Hh & Ht). rewrite Hr, Hh, Ht. cbn.
  destruct (ro_queue _ _ _ _ _ Rr) as [Hq1 Hq2]. pose proof (ro_h _ _ _ _ _ Rr) as Hh0. pose proof (ro_room _ _ _ _ _ Rr) as Hroom.
  unfold q_next, q_hw. destruct (q_pend aq !! length (q_times aq)) as [p|] eqn:Ep; cbn; cycle 1.
  { apply lookup_ge_None in Ep. assert (q_read aq = 2 * length (q_pend aq))%nat as ->.
    { unfold q_read. destruct (q_ctx aq); [specialize (Hq2 eq_refl)|]; lia. }
    rewrite Z.eqb_refl. split; [done|]. by rewrite (list_insert_id qs) by done. }
  assert (is_Some (M !! p)) as [x Hx].
  { eapply heap_known; [exact H|]. destruct (pending_at qs q aq Eq) as [-> _]. apply elem_of_app. left.
    by eapply list_elem_of_lookup_2. }
  pose proof (lookup_lt_Some _ _ _ Ep) as Hlt.
  assert (q_read aq < 2 * length (q_pend aq))%nat as Hrd by (unfold q_read; destruct (q_ctx aq); lia).
  rewrite (proj2 (Z.eqb_neq _ _)) by (apply pos_ne; lia). rewrite Hx. cbn.
  pose proof (hw_read_ok M n _ r aq p x Rr Ep Hx) as Hd. unfold look in Hd. rewrite Hd. split; [done|].
  rewrite (rs_desc _ _ _ _ R), pos_S by lia.
  set (d := if q_ctx aq then data_desc x else ctx_desc x) in *.
  assert (reports d = q_ctx aq) as Hrep by (subst d; destruct (q_ctx aq); [apply data_reports|done]).
  unfold reports in Hrep. destruct (Z.land (d_lower d) E1000_ADVTXD_DCMD_RS =? 0); cbn in Hrep; rewrite <- Hrep; cbn.
  - split_and!; [done| |].
    + eapply (rings_update M n a); [done|by eapply lookup_lt_Some|done|done|cbn; by rewrite length_insert..|done| |].
      * intros k Hk. cbn. by rewrite !list_lookup_insert_ne by lia.
      * exists r. cbn -[Nat.mul]. rewrite Nat2Z.id, !list_lookup_insert_eq by (by eapply lookup_lt_Some).
        split_and!; [done|by eapply hw_context_ok|f_equal; f_equal; unfold q_read; cbn -[Nat.mul]; rewrite <- Hrep; lia|done].
    + destruct (pending_at qs q aq Eq) as [P1 P2]. eapply heap_ok_perm; [|exact H]. rewrite P1. symmetry. exact (P2 _).
  - split_and!; [done| |].
    + eapply (rings_update M n a); [done|by eapply lookup_lt_Some|done|done|cbn; by rewrite length_insert..|done| |].
      * intros k Hk. cbn. by rewrite !list_lookup_insert_ne by lia.
      * exists (write_back (pos n (next_to_clean r) (q_read aq)) t st d r).
        cbn -[Nat.mul]. rewrite Nat2Z.id, !list_lookup_insert_eq by (by eapply lookup_lt_Some).
        split_and!; [done|by eapply hw_report_ok| |done].
        f_equal. f_equal. unfold q_read. cbn -[Nat.mul]. rewrite <- Hrep, length_app. cbn -[Nat.mul]. lia.
    + destruct (pending_at qs q aq Eq) as [P1 P2]. eapply heap_ok_perm; [|exact H]. rewrite P1. symmetry. exact (P2 _).
Qed.

(** The list that [igb_clean] hands out. *)
Lemma walk_chain h out l cl fuel : forall k,
  heap_ok M h out l cl -> (length l <= fuel + k)%nat -> walk fuel h (fst <$> l !! k) = drop k l.
Proof.
  induction fuel as [|fuel IH]; intros k H Hf; [by rewrite drop_ge by lia|].
  destruct (l !! k) as [[p t]|] eqn:E; cbn; [|by rewrite drop_ge by (by apply lookup_ge_None)].
  destruct (ho_chain _ _ _ _ _ H k p t E) as (y & Hy & Ht & Hn). rewrite Hy, Hn, Ht, (drop_S l (p, t) k E).
  f_equal. apply IH; [done|lia].
Qed.

Lemma chain_size h out l cl : heap_ok M h out l cl -> (length l <= size h)%nat.
Proof.
  intros H. rewrite <- (length_fmap fst l). pose proof (ho_nodup _ _ _ _ _ H) as Hn. apply NoDup_app in Hn as (_ & _ & Hn).
  rewrite <- (size_list_to_set (C := gset positive) _ Hn), <- size_dom. apply subseteq_size.
  intros p Hp. apply elem_of_list_to_set, list_elem_of_fmap in Hp as ([p' t] & -> & Hp).
  apply list_elem_of_lookup in Hp as [i Hi]. destruct (ho_chain _ _ _ _ _ H i p' t Hi) as (y & Hy & _).
  cbn. by eapply elem_of_dom_2.
Qed.

Lemma heap_forget h out l cl : heap_ok M h out l cl -> heap_ok M h out [] (None, None).
Proof. intros [H1 H2 H3 _ _ _]. apply heap_start; [done|by apply NoDup_app in H2 as []|done]. Qed.

Lemma clean_ok s a :
  holds s a ->
  returns (igb_clean a) (fun '(o, a') =>
    Cleaned (walk (size (ad_packets a')) (ad_packets a') o) = (spec_step s Clean).1 /\ holds (spec_step s Clean).2 a').
Proof.
  destruct s as [c qs]. intros Hs. destruct (Hs) as (Hc & R & H). cbn in *.
  unfold igb_clean, sem_call. rewrite Hc. destruct (ie_sem c =? 0); cbn; cycle 1.
  { split; [|by apply holds_tick]. by destruct (size _). }
  rewrite (rs_num _ _ _ _ R), Nat2Z.id. eapply returns_bind.
  { apply (clean_queues_ok M n _ 0 _ qs [] (None, None)); [by eapply rings_same; [..|exact R]|done|lia]. }
  intros [a' [o1 o2]] (G1 & G2 & G3). cbn in *. split.
  - f_equal. pose proof (ho_first _ _ _ _ _ G2) as Ef. cbn in Ef. rewrite Ef, head_lookup.
    pose proof (chain_size _ _ _ _ G2). rewrite (walk_chain _ _ _ _ _ 0 G2) by lia. by rewrite drop_0.
  - split_and!; [cbn; by rewrite G3, Hc|by eapply rings_same; [..|exact G1]|by eapply heap_forget].
Qed.

(** *** Start *)

(** An adapter with its rings allocated. *)
Record allocated (k : nat) (a : adapter) : Prop := {
  al_few : (k <= 4)%nat;
  al_num : num_queues a = Z.of_nat k;
  al_desc : num_tx_desc a = n;
  al_rings : length (tx_rings a) = k;
  al_heads : length (hw_head a) = k;
  al_tails : length (hw_tail a) = k
}.

Definition kept (k c : nat) (h : gmap positive igb_packet) (a : adapter) : Prop :=
  allocated k a /\ ad_packets a = h /\ ad_calls a = c.

Lemma kept_write k c h reg v a : kept k c h a -> kept k c h (write_reg reg v a).
Proof. intros ([H1 H2 H3 H4 H5 H6] & H7 & H8). split_and!; [split; cbn; rewrite ?length_imap; done|done|done]. Qed.
Lemma kept_ring k c h i r a : kept k c h a -> kept k c h (with_ring i r a).
Proof. intros ([H1 H2 H3 H4 H5 H6] & H7 & H8). split_and!; [split; cbn; rewrite ?length_insert; done|done|done]. Qed.

(** A loop over the rings, with what holds when [i] of them are done. *)
Lemma all_rings_ok (P : nat -> adapter -> Prop) f k c h a :
  (forall i a r, (i < k)%nat -> kept k c h a -> P i a -> tx_rings a !! i = Some r ->
     let '(r', a') := f (Z.of_nat i) r a in
     kept k c h (with_ring (Z.of_nat i) r' a') /\ P (S i) (with_ring (Z.of_nat i) r' a')) ->
  kept k c h a -> P 0%nat a -> returns (all_rings f a) (fun a' => kept k c h a' /\ P k a').
Proof.
  intros Hstep Hk HP. unfold all_rings. rewrite (al_num _ _ (proj1 Hk)), Nat2Z.id.
  enough (forall m i a, (i + m = k)%nat -> kept k c h a -> P i a ->
    returns (each_ring f m (Z.of_nat i) a) (fun a' => kept k c h a' /\ P k a')) as X by (by apply (X k 0%nat)).
  clear a Hk HP. intros m. induction m as [|m IH]; intros i a Hi Hk HP.
  { assert (i = k) as -> by lia. done. }
  cbn. destruct (lookup_lt_is_Some_2 (tx_rings a) i) as [r Hr].
  { rewrite (al_rings _ _ (proj1 Hk)). lia. }
  rewrite (slot_nat _ _ _ Hr). cbn. pose proof (Hstep i a r ltac:(lia) Hk HP Hr) as Hs.
  destruct (f (Z.of_nat i) r a) as [r' a']. destruct Hs as [Hk' HP'].
  replace (Z.of_nat i + 1) with (Z.of_nat (S i)) by lia. apply IH; [lia|done|done].
Qed.

Lemma reset_ok k c h a : kept k c h a -> returns (igb_reset a) (kept k c h).
Proof.
  intros Hk. eapply returns_mono; [eapply (all_rings_ok (fun _ _ => True)); [|done|done]|by intros a' []].
  intros i a' r _ Hk' _ _. split; [|done]. by apply kept_ring; repeat apply kept_write.
Qed.

(** A ring is empty. *)
Definition empty_ring (a : adapter) (j : nat) : Prop :=
  exists r, tx_rings a !! j = Some r /\ next_to_clean r = 0 /\ ring_ok M n 0 r (AQueue [] [] false).

Lemma setup_ok k c h a : 2 < n < 65536 -> kept k c h a ->
  returns (igb_setup_transmit_structures a) (fun a' => kept k c h a' /\ forall j, (j < k)%nat -> empty_ring a' j).
Proof.
  intros Hn Hk. apply (all_rings_ok (fun i a => forall j, (j < i)%nat -> empty_ring a j)); [|done|lia].
  intros i a' r Hi Hk' HP Hr. split; [by apply kept_ring|]. rewrite (al_desc _ _ (proj1 Hk')).
  intros j Hj. destruct (decide (j = i)) as [->|Hne].
  - eexists. cbn. rewrite Nat2Z.id, list_lookup_insert_eq by (by eapply lookup_lt_Some).
    split_and!; [done|done|by apply fresh_ring_ok].
  - destruct (HP j ltac:(lia)) as (r0 & H1 & H2). exists r0. cbn. by rewrite list_lookup_insert_ne by lia.
Qed.

Lemma units_ok k c h a : kept k c h a -> (forall j, (j < k)%nat -> empty_ring a j) ->
  returns (igb_initialize_transmit_units a) (fun a' => kept k c h a' /\ forall j, (j < k)%nat ->
    empty_ring a' j /\ hw_head a' !! j = Some 0 /\ hw_tail a' !! j = Some 0).
Proof.
  intros Hk He. pose proof (al_few _ _ (proj1 Hk)) as Hfew.
  eapply returns_mono; [apply (all_rings_ok (fun i a => (forall j, (j < k)%nat -> empty_ring a j) /\
    forall j, (j < i)%nat -> hw_head a !! j = Some 0 /\ hw_tail a !! j = Some 0) _ k c h); [|done|split; [done|lia]]|].
  2:{ intros a' (H1 & H2 & H3). split; [done|]. intros j Hj. split; [by apply H2|by apply H3]. }
  intros i a' r Hi Hk' [HP1 HP2] Hr. split; [by apply kept_ring; repeat apply kept_write|]. split.
  - intros j Hj. destruct (HP1 j Hj) as (r0 & H1 & H2 & H3). destruct (decide (j = i)) as [->|Hne].
    + exists (with_status IGB_QUEUE_IDLE r). assert (r0 = r) as -> by congruence.
      split_and!; [|done|by eapply ring_ok_ext; [..|exact H3]].
      cbn. rewrite Nat2Z.id. apply list_lookup_insert_eq. by eapply lookup_lt_Some.
    + exists r0. split_and!; [|done|done]. cbn. by rewrite list_lookup_insert_ne by lia.
  - intros j Hj. destruct (lookup_lt_is_Some_2 (hw_head a') j) as [hd Hhd]; [rewrite (al_heads _ _ (proj1 Hk')); lia|].
    destruct (lookup_lt_is_Some_2 (hw_tail a') j) as [tl Htl]; [rewrite (al_tails _ _ (proj1 Hk')); lia|].
    change (hw_head (write_reg (E1000_TXDCTL (Z.of_nat i)) (txdctl_run 0) (write_reg (E1000_TDH (Z.of_nat i)) 0
      (write_reg (E1000_TDT (Z.of_nat i)) 0 (write_reg (E1000_TXDCTL (Z.of_nat i)) 0 a')))) !! j = Some 0 /\
      hw_tail (write_reg (E1000_TXDCTL (Z.of_nat i)) (txdctl_run 0) (write_reg (E1000_TDH (Z.of_nat i)) 0
      (write_reg (E1000_TDT (Z.of_nat i)) 0 (write_reg (E1000_TXDCTL (Z.of_nat i)) 0 a')))) !! j = Some 0).
    rewrite !write_head, !write_tail, Hhd, Htl. cbn [fmap option_fmap option_map].
    assert ((j < i)%nat -> hd = 0 /\ tl = 0) as Hold.
    { intros Hji. destruct (HP2 j Hji) as [E1 E2]. split; congruence. }
    regs. split; f_equal; repeat btest; lia.
Qed.

Lemma igb_init_ok k a : 2 < n < 65536 -> allocated k a -> still <$> ad_packets a = M ->
  ie_sem (ad_calls a) = 0 -> ie_sem (S (ad_calls a)) = 0 ->
  returns (igb_init a) (fun '(rc, a') => rc = 0 /\ holds (S (S (ad_calls a)), replicate k (AQueue [] [] false)) a').
Proof.
  intros Hn Ha HM E1 E2. unfold igb_init, locked, sem_call. rewrite E1. cbn.
  assert (kept k (S (ad_calls a)) (ad_packets a) (ad_tick a)) as Hk by (by destruct Ha).
  eapply returns_bind; [eapply returns_bind; [by apply reset_ok|]|].
  { intros a1 H1. eapply returns_bind; [by apply setup_ok|]. intros a2 [H2 H2'].
    eapply returns_bind; [by apply units_ok|]. intros a3 H3.
    exact (conj eq_refl H3 : (fun '(rc, a3) => rc = 0 /\ _) (0, a3)). }
  intros [rc a3] (-> & (Ha3 & Hp & Hc) & H3). cbn in Ha3, Hp, Hc |- *. rewrite Hc, E2. cbn.
  split; [done|]. split_and!; [cbn; by rewrite Hc| |].
  - apply (rings_same a3); [done..|]. destruct Ha3 as [G1 G2 G3 G4 G5 G6].
    split; cbn; rewrite ?length_replicate; try done.
    intros i q Hq. apply lookup_replicate in Hq as [-> Hi]. destruct (H3 i Hi) as ((r & F1 & F2 & F3) & F4 & F5).
    assert (0 = pos n 0 0) as E0 by (symmetry; apply pos_0; lia).
    exists r. rewrite F2, F4, F5. split_and!; [done|done|exact (f_equal Some E0)..].
  - change (heap_ok M (ad_packets a3) (pending (replicate k (AQueue [] [] false))) [] (None, None)).
    rewrite Hp. assert (pending (replicate k (AQueue [] [] false)) = []) as -> by (clear; unfold pending; by induction k).
    apply heap_start; [done|constructor|]. intros p Hp'. by apply not_elem_of_nil in Hp'.
Qed.

Lemma step_ok s a op : holds s a -> may s op ->
  returns (igb_step a op) (fun '(o, a') => o = (spec_step s op).1 /\ holds (spec_step s op).2 a').
Proof.
  intros Hs Hm. destruct op as [q [p|]|q t st|]; unfold igb_step.
  - eapply returns_bind; [by apply (xmit_ok s)|]. by intros [rc a'].
  - unfold igb_xmit. destruct s. by destruct (_ <? _).
  - by apply (hw_ok s a q t st).
  - eapply returns_bind; [by apply (clean_ok s)|]. by intros [o a'].
Qed.

Lemma run_ok ops : forall s a, holds s a -> may_all s ops ->
  returns (igb_run a ops) (fun '(os, a') => os = (spec_run s ops).1 /\ holds (spec_run s ops).2 a').
Proof.
  induction ops as [|op ops IH]; intros s a Hs Hm; [done|]. destruct Hm as [Hm Hms]. cbn.
  eapply returns_bind; [by apply (step_ok s)|]. intros [o a'] [-> Ha']. cbn.
  eapply returns_bind; [by apply (IH _ _ Ha')|]. intros [os a''] [-> Ha''].
  destruct (spec_step s op) as [o s']. cbn in *. by destruct (spec_run s' ops).
Qed.

End Spec.
End Run.

(** ** Properties *)

Section Properties.
Context {ie : IgbEnv}.

(** C23: after an [igb_init] whose semaphore calls succeed, on up to four queues of [n]
    descriptors (more than 2, fewer than 65536), every sequence of
    [igb_xmit], hardware steps and [igb_clean] in which each packet given to
    [igb_xmit] exists and is not outstanding, and the queue index is not equal to the
    number of queues (smaller ones are queues, larger ones are refused; with the
    number itself [igb_xmit] reads past the rings, [xmit_past_last_queue]), runs without a fault and behaves as first-in
    first-out queues.  [igb_xmit] accepts a packet unless at most two descriptors
    are free ([ENOSPC]); the hardware is given for each accepted packet its launch
    time and its buffer, in order; [igb_clean] returns, as a linked list, exactly
    the packets the hardware has reported since the last call, each once, queue by
    queue and in order, with the time reported for it. *)
Theorem igb_refines_queues n k a ops :
  2 < n < 65536 -> allocated n k a -> ie_sem (ad_calls a) = 0 -> ie_sem (S (ad_calls a)) = 0 ->
  let M := still <$> ad_packets a in
  let s := (S (S (ad_calls a)), replicate k (AQueue [] [] false)) in
  may_all M n s ops ->
  returns (igb_init a) (fun '(rc, a1) =>
    rc = 0 /\ returns (igb_run a1 ops) (fun '(os, _) => os = (spec_run M n s ops).1)).
Proof.
  intros Hn Ha E1 E2 M s Hm. eapply returns_mono; [by apply (igb_init_ok M n k)|]. intros [rc a1] [-> H1].
  split; [done|]. eapply returns_mono; [by apply (run_ok M n ops s a1)|]. by intros [os a2] [-> _].
Qed.

(** C36: a packet that [igb_xmit] refuses is not queued.  When the call returns an
    error and the semaphore could be released, the rings, the tails and the
    registers are as before, and the error says why: a bad index or no packet, a
    semaphore that could not be taken, or a ring with at most two free
    descriptors. *)
Theorem igb_xmit_refused q p a rc a' :
  igb_xmit q p a = Ret (rc, a') -> rc <> 0 -> ie_sem (S (ad_calls a)) = 0 ->
  tx_rings a' = tx_rings a /\ hw_tail a' = hw_tail a /\ ad_written a' = ad_written a /\
  (rc = EINVAL /\ (num_queues a < q \/ p = None) \/
   rc = ie_sem (ad_calls a) \/
   rc = ENOSPC /\ exists r, slot (tx_rings a) q = Ret r /\ tx_avail r <= 2).
Proof.
  intros Hx Hrc Hs. unfold igb_xmit in Hx. destruct (Z.ltb_spec (num_queues a) q).
  { simplify_eq/=. split_and!; [done..|]. left. auto. }
  destruct p as [p|]; [|simplify_eq/=; split_and!; [done..|]; left; auto].
  unfold locked, sem_call in Hx. destruct (ie_sem (ad_calls a) =? 0); cbn -[xmit_locked] in Hx;
    [|simplify_eq/=; split_and!; [done..|]; right; by left].
  destruct (xmit_locked q p (ad_tick a)) as [[rc1 a1]|] eqn:E; [|done]. cbn in Hx.
  unfold xmit_locked in E. destruct (get_packet _ _); [|done]. cbn -[write_reg queue_packet] in E.
  destruct (slot (tx_rings a) q) as [r|] eqn:Er; [|done]. cbn -[write_reg queue_packet] in E.
  destruct (Z.leb_spec (tx_avail r) 2).
  - simplify_eq/=. rewrite Hs in *. cbn. split_and!; [done..|]. right. right. split; [done|]. by exists r.
  - destruct (queue_packet _ _ _ _); [|done]. simplify_eq/=. rewrite Hs in Hrc. done.
Qed.

End Properties.

(** ** Witnesses and defects *)

Definition demo_ring : tx_ring := TxRing 0 [] [] 0 0 0 0 0 0 0.
Definition demo_packet (addr at_ : Z) : igb_packet := IgbPacket addr 64 100 at_ 0 None.
Definition demo_adapter : adapter :=
  Adapter 2 6 [demo_ring; demo_ring] [0; 0] [0; 0] [] 0 []
    {[1%positive := demo_packet 4096 32; 2%positive := demo_packet 8192 64; 3%positive := demo_packet 12288 96]}.
#[local] Instance demo_sem : IgbEnv := {| ie_sem _ := 0; ie_read _ _ := 0 |}.

(** Two packets fill a ring of six; the third goes to the other queue; two reports
    are read, and the ring takes a packet again. *)
Definition demo_ops : list igb_op :=
  [Xmit 0 (Some 1%positive); Xmit 0 (Some 2%positive); Xmit 0 (Some 3%positive); Xmit 1 (Some 3%positive);
   Hardware 0 7 0; Hardware 0 70 0; Hardware 1 8 0; Hardware 1 80 0; Clean; Xmit 0 (Some 1%positive); Clean].

Lemma igb_refines_queues_witness :
  returns (igb_init demo_adapter) (fun '(rc, a1) =>
    rc = 0 /\ returns (igb_run a1 demo_ops) (fun '(os, _) =>
      os = [Code 0; Code 0; Code ENOSPC; Code 0;
            Fetched (Some (ctx_desc (demo_packet 4096 32))); Fetched (Some (data_desc (demo_packet 4096 32)));
            Fetched (Some (ctx_desc (demo_packet 12288 96))); Fetched (Some (data_desc (demo_packet 12288 96)));
            Cleaned [(1%positive, 70); (3%positive, 80)]; Code 0; Cleaned []])).
Proof.
  eapply returns_mono.
  - apply (igb_refines_queues 6 2 demo_adapter demo_ops); [lia|by split; cbn; lia|done|done|].
    cbn. split_and!; try done; try (by eexists); intros H; vm_compute in H; set_solver.
  - intros [rc a1] [-> H]. split; [done|]. eapply returns_mono; [exact H|]. intros [os a2] ->. vm_compute. done.
Defined.

(** The adapter with two packets in the first queue. *)
Definition demo_full : adapter :=
  match igb_init demo_adapter with
  | Ret (_, a) => match igb_run a (take 2 demo_ops) with Ret (_, a) => a | Fault _ => demo_adapter end
  | Fault _ => demo_adapter
  end.

Lemma igb_xmit_refused_witness :
  exists a', igb_xmit 0 (Some 3%positive) demo_full = Ret (ENOSPC, a') /\
    tx_rings a' = tx_rings demo_full /\ hw_tail a' = [4; 0] /\ ad_written a' = ad_written demo_full.
Proof.
  destruct (igb_xmit 0 (Some 3%positive) demo_full) as [[rc a']|] eqn:E; [|by vm_compute in E].
  assert (rc = ENOSPC) as -> by (vm_compute in E; by injection E as <- _).
  destruct (igb_xmit_refused 0 (Some 3%positive) demo_full ENOSPC a' E) as (H1 & H2 & H3 & _); [done|done|].
  exists a'. split_and!; [done|done|by rewrite H2|done].
Defined.

(** The index is compared with [>]: the number of queues itself is accepted, and
    [tx_rings] is read past its end. *)
Lemma xmit_past_last_queue : igb_xmit 2 (Some 3%positive) demo_full = Fault (OobRead 2).
Proof. by vm_compute. Qed.

(** When only the release of the semaphore fails, the packet is queued although the
    caller is told an error. *)
Definition failing_post : IgbEnv := {| ie_sem k := if (k =? 7)%nat then EINVAL else 0; ie_read _ _ := 0 |}.
Lemma xmit_error_queued :
  exists a', igb_xmit (ie := failing_post) 1 (Some 3%positive) demo_full = Ret (EINVAL, a') /\ hw_tail a' = [4; 2].
Proof. eexists. by vm_compute. Qed.
