(* ===== verification/MapMpeg2ts.v ===== *)
(** * The MPEG2-TS mapping (lib/avtp_pipeline/map_mpeg2ts/openavb_map_mpeg2ts.c)

    The talker cuts the bytes of the media queue items into transport stream
    packets, also across items, and sends several of them per frame, each with a
    time of its own; it looks for the synchronisation byte when a packet does not
    start with it.  The listener appends the packets of a frame to one item. *)

From S2P Require Import Prelude AvtpTime MediaQ AvtpMap MapPipe.
From Stdlib Require Import ZArith Lia Ascii.
From stdpp Require Import base tactics list strings option.
Open Scope Z_scope.

Definition MPEG2_TS_PKT_SIZE : Z := 188.
Definition MPEG2_TS_SYNC_BYTE : Z := 0x47.
Definition MPEG2TS_MQITEM_SIZE : Z := 9024.
Definition MPEG2TS_MQITEM_COUNT : Z := 20.
Definition MPEGTS_SRC_PKT_HDR_SIZE : Z := 4.
Definition MPEGTS_SRC_PKT_SIZE : Z := MPEG2_TS_PKT_SIZE + MPEGTS_SRC_PKT_HDR_SIZE.
Definition AVTP_DFLT_SRC_PKTS : Z := 7.
Definition CIP_HEADER_SIZE : Z := 8.
Definition TS_TOTAL_HEADER_SIZE : Z := AVTP_V0_HEADER_SIZE + MAP_HEADER_SIZE + CIP_HEADER_SIZE.
Definition BLOCKS_PER_SRC_PKT : Z := 8.
Definition HIDX_GATEWAY32 : Z := 16.
Definition HIDX_DATALEN16 : Z := 20.
Definition HIDX_TAG2_CHANNEL6 : Z := 22.
Definition HIDX_TCODE4_SY4 : Z := 23.
Definition HIDX_CIP2_SID6 : Z := 24.
Definition HIDX_DBS8 : Z := 25.
Definition HIDX_FN2_QPC3_SPH1_RSV2 : Z := 26.
Definition HIDX_DBC8 : Z := 27.
Definition HIDX_CIP2_FMT6 : Z := 28.
Definition HIDX_TSF1_RESA7 : Z := 29.
Definition HIDX_RESB8 : Z := 30.
Definition HIDX_RESC8 : Z := 31.

(** [pvt_data_t]; [savedBytes] is the array of 200 bytes. *)
Record ts_data := TsData {
  ts_itemCount : Z;
  ts_itemSize : Z;
  tsPacketSize : Z;
  numSourcePackets : Z;
  ts_txRate : Z;
  ts_maxTransitUsec : Z;
  DBC : Z;
  savedBytes : list Z;
  nSavedBytes : Z;
  unsynched : bool;
  srcBitrate : Z
}.

Definition ts_defaults (inMaxTransitUsec : Z) : ts_data :=
  TsData MPEG2TS_MQITEM_COUNT MPEG2TS_MQITEM_SIZE MPEG2_TS_PKT_SIZE AVTP_DFLT_SRC_PKTS 0 inMaxTransitUsec 0
    (replicate 200 0) 0 false 0.

Definition with_dbc v p :=
  TsData (ts_itemCount p) (ts_itemSize p) (tsPacketSize p) (numSourcePackets p) (ts_txRate p) (ts_maxTransitUsec p) v
    (savedBytes p) (nSavedBytes p) (unsynched p) (srcBitrate p).
Definition with_saved l v p :=
  TsData (ts_itemCount p) (ts_itemSize p) (tsPacketSize p) (numSourcePackets p) (ts_txRate p) (ts_maxTransitUsec p) (DBC p)
    l v (unsynched p) (srcBitrate p).
Definition with_unsynched b p :=
  TsData (ts_itemCount p) (ts_itemSize p) (tsPacketSize p) (numSourcePackets p) (ts_txRate p) (ts_maxTransitUsec p) (DBC p)
    (savedBytes p) (nSavedBytes p) b (srcBitrate p).
Definition with_sourcePackets v p :=
  TsData (ts_itemCount p) (ts_itemSize p) (tsPacketSize p) v (ts_txRate p) (ts_maxTransitUsec p) (DBC p)
    (savedBytes p) (nSavedBytes p) (unsynched p) (srcBitrate p).
Definition with_bitrate v p :=
  TsData (ts_itemCount p) (ts_itemSize p) (tsPacketSize p) (numSourcePackets p) (ts_txRate p) (ts_maxTransitUsec p) (DBC p)
    (savedBytes p) (nSavedBytes p) (unsynched p) v.

(** ** Configuration *)

(** [strtoul(s, &end, 10)]: a negative number wraps, one that is too large gives the
    largest. *)
Definition strtoul (s : string) : Z * string :=
  let t := skip_space s in
  let '(neg, t) :=
    match t with
    | String "-" r => (true, r)
    | String "+" r => (false, r)
    | _ => (false, t)
    end%char in
  let '(v, seen, e) := scan_dec t 0 false in
  if negb seen then (0, s)
  else (if 18446744073709551615 <? v then 18446744073709551615 else if neg : bool then u64 (- v) else v, e).

(** A value that is one number from start to end. *)
Definition whole_number (value : string) : option Z :=
  let '(v, e) := strtoul value in
  if decide (e = EmptyString) then if decide (value = EmptyString) then None else Some v else None.

Definition openavbMapMpeg2tsCfgCB (p : ts_data) (name value : string) : ts_data :=
  let set f := match whole_number value with Some v => f v | None => p end in
  if decide (name = "map_nv_item_count"%string) then
    set (fun v => TsData (u32 v) (ts_itemSize p) (tsPacketSize p) (numSourcePackets p) (ts_txRate p) (ts_maxTransitUsec p)
                    (DBC p) (savedBytes p) (nSavedBytes p) (unsynched p) (srcBitrate p))
  else if decide (name = "map_nv_item_size"%string) then
    set (fun v => TsData (ts_itemCount p) (u32 v) (tsPacketSize p) (numSourcePackets p) (ts_txRate p) (ts_maxTransitUsec p)
                    (DBC p) (savedBytes p) (nSavedBytes p) (unsynched p) (srcBitrate p))
  else if decide (name = "map_nv_ts_packet_size"%string) then
    set (fun v => if (v =? 188) || (v =? 192)
                  then TsData (ts_itemCount p) (ts_itemSize p) v (numSourcePackets p) (ts_txRate p) (ts_maxTransitUsec p)
                         (DBC p) (savedBytes p) (nSavedBytes p) (unsynched p) (srcBitrate p)
                  else p)
  else if decide (name = "map_nv_num_source_packets"%string) then set (fun v => with_sourcePackets (u32 v) p)
  else if decide (name = "map_nv_tx_rate"%string \/ name = "map_nv_tx_interval"%string) then
    set (fun v => TsData (ts_itemCount p) (ts_itemSize p) (tsPacketSize p) (numSourcePackets p) (u32 v) (ts_maxTransitUsec p)
                    (DBC p) (savedBytes p) (nSavedBytes p) (unsynched p) (srcBitrate p))
  else p.

Definition openavbMapMpeg2tsMaxDataSizeCB (P : option ts_data) : Z :=
  match P with Some p => u16 (MPEGTS_SRC_PKT_SIZE * numSourcePackets p + TS_TOTAL_HEADER_SIZE) | None => 0 end.
Definition openavbMapMpeg2tsTransmitIntervalCB (P : option ts_data) : Z :=
  match P with Some p => ts_txRate p | None => 0 end.

(** The rate of the source packets for a rate of the stream: the division of
    doubles, cut to an integer, is the integer quotient, since a multiple of 1/47
    that is no integer is far from one. *)
Definition openavbMapMpeg2tsSetSrcBitrateCB (p : ts_data) (bitrate : Z) : ts_data :=
  with_bitrate (bitrate * MPEGTS_SRC_PKT_SIZE / MPEG2_TS_PKT_SIZE) p.

(** The product is computed in int, where an overflow is undefined, and converted.
    The partial products of the positive factors are below the whole one. *)
Definition calculateBitrate (intervalsPerSecond num_source_packets number_of_frames : Z) : res Z :=
  let bitrate := intervalsPerSecond * num_source_packets * number_of_frames * MPEGTS_SRC_PKT_SIZE * 8 in
  if bitrate <? 2 ^ 31 then Ret (u32 bitrate) else Fault IntOverflow.

(** The loop: one packet more, and from the eighth on one frame more. *)
Fixpoint frames_loop (fuel : nat) (classRate frames : Z) (p : ts_data) : res (Z * ts_data) :=
  rate ← calculateBitrate classRate (numSourcePackets p) frames;
  if rate <? srcBitrate p then
    match fuel with
    | O => Fault OutOfFuel
    | S fuel =>
        let m := numSourcePackets p + 1 in
        if 7 <? m then frames_loop fuel classRate (frames + 1) (with_sourcePackets 1 p)
        else frames_loop fuel classRate frames (with_sourcePackets m p)
    end
  else Ret (frames, p).
Definition openavbMapMpeg2tsGetMaxIntervalFramesCB (fuel : nat) (classRate : Z) (p : ts_data) : res (Z * ts_data) :=
  frames_loop fuel classRate 1 (with_sourcePackets 1 p).

(** ** Talker *)

(** [syncScan]: the first synchronisation byte from [off] on, or -1. *)
Fixpoint sync_from (n : nat) (d : list Z) (off : Z) : res Z :=
  match n with
  | O => Ret (-1)
  | S n => b ← rd d off; if b =? MPEG2_TS_SYNC_BYTE then Ret off else sync_from n d (off + 1)
  end.
Definition syncScan (a : media_q_item) (startIdx : Z) : res Z :=
  match pPubData a with
  | None => if startIdx <? dataLen a then Fault (OobRead startIdx) else Ret (-1)
  | Some d => sync_from (Z.to_nat (dataLen a - startIdx)) d startIdx
  end.

Definition ts_header (pData : list Z) : res (list Z) :=
  buf ← wr_list pData HIDX_GATEWAY32 [0; 0; 0; 0];
  buf ← wr buf HIDX_TAG2_CHANNEL6 (Z.lor (Z.shiftl 1 6) 0x1f);
  buf ← wr buf HIDX_TCODE4_SY4 (Z.shiftl 0x0a 4);
  buf ← wr buf HIDX_CIP2_SID6 0x3f;
  buf ← wr buf HIDX_DBS8 6;
  buf ← wr buf HIDX_FN2_QPC3_SPH1_RSV2 (Z.lor (Z.shiftl 3 6) (Z.shiftl 1 2));
  buf ← wr buf HIDX_CIP2_FMT6 (Z.lor (Z.shiftl 2 6) 0xa0);
  buf ← wr buf HIDX_TSF1_RESA7 (Z.shiftl 1 7);
  buf ← wr buf HIDX_RESB8 0;
  wr buf HIDX_RESC8 0.

Section Callbacks.
Context {pf : Platform}.

(** Move to the next synchronisation byte; an item without one is given up and the
    stream counts as out of step. *)
Definition ts_resync (k startIdx : Z) (p : ts_data) : mqM ts_data :=
  a ← item_read k;
  offset ← mq_lift (syncScan a startIdx);
  if 0 <=? offset then _ ← item_write k (with_read offset); mret p
  else _ ← item_write k (fun a => with_read 0 (with_len 0 a)); mret (with_unsynched true p).

(** The talker's progress: its data, the frame, where the next source packet goes,
    and how many were added. *)
Record ts_progress := TsProgress { tp_p : ts_data; tp_buf : list Z; tp_at : Z; tp_added : Z }.

(** One packet, from the saved bytes and the item. *)
Definition ts_packet (k : Z) (t : ts_progress) : mqM ts_progress :=
  let '(TsProgress p buf at_ added) := t in
  a ← item_read k;
  _ ← (if readIdx a =? 0
       then item_write k (fun a => with_time (openavbAvtpTimeAddUSec (pAvtpTime a) (ts_maxTransitUsec p)) a)
       else mret tt);
  a ← item_read k;
  let timestamp := openavbAvtpTimeGetAvtpTimestamp (pAvtpTime a) in
  buf ← mq_lift (set_bits buf HIDX_AVTP_HIDE7_TV1 1 (openavbAvtpTimeTimestampIsValid (pAvtpTime a)));
  buf ← mq_lift (set_bits buf HIDX_AVTP_HIDE7_TU1 1 (openavbAvtpTimeTimestampIsUncertain (pAvtpTime a)));
  buf ← mq_lift (if added =? 0 then wr_list buf HIDX_AVTP_TIMESPAMP32 (be32 timestamp) else Ret buf);
  '(buf, offset) ← mq_lift (if tsPacketSize p =? MPEG2_TS_PKT_SIZE
                            then buf ← wr_list buf at_ (be32 timestamp); Ret (buf, MPEGTS_SRC_PKT_HDR_SIZE)
                            else Ret (buf, 0));
  saved ← mq_lift (rd_list (savedBytes p) 0 (Z.to_nat (nSavedBytes p)));
  buf ← mq_lift (wr_list buf (at_ + offset) saved);
  let bytesNeeded := tsPacketSize p - nSavedBytes p in
  let offset := offset + nSavedBytes p in
  let p := with_saved (savedBytes p) 0 p in
  bs ← mq_lift (item_bytes a (readIdx a) bytesNeeded);
  buf ← mq_lift (wr_list buf (at_ + offset) bs);
  sync ← mq_lift (rd buf (at_ + 4));
  if sync =? MPEG2_TS_SYNC_BYTE then
    _ ← item_write k (fun a => with_read (u32 (readIdx a + bytesNeeded)) a);
    mret (TsProgress p buf (at_ + MPEGTS_SRC_PKT_SIZE) (added + 1))
  else
    p ← ts_resync k (readIdx a + (tsPacketSize p - MPEG2_TS_PKT_SIZE) + 1) p;
    mret (TsProgress p buf at_ added).

(** The rest of an item is less than a packet. *)
Definition ts_partial (k nItemBytes : Z) (t : ts_progress) : mqM ts_progress :=
  let '(TsProgress p buf at_ added) := t in
  if MPEG2_TS_PKT_SIZE <? nSavedBytes p + nItemBytes then mq_lift (Fault AssertFailed)
  else
    a ← item_read k;
    bs ← mq_lift (item_bytes a (readIdx a) nItemBytes);
    saved ← mq_lift (wr_list (savedBytes p) (nSavedBytes p) bs);
    _ ← item_write k (fun a => with_read 0 (with_len 0 a));
    mret (TsProgress (with_saved saved (nSavedBytes p + nItemBytes) p) buf at_ added).

(** One turn of the loop: the item to go on with, and whether packets are wanted. *)
Definition ts_turn (k : Z) (t : ts_progress) : mqM (option Z * bool * ts_progress) :=
  p ← (if unsynched (tp_p t) then ts_resync k 0 (tp_p t) else mret (tp_p t));
  let t := TsProgress p (tp_buf t) (tp_at t) (tp_added t) in
  a ← item_read k;
  let nItemBytes := s32 (u32 (dataLen a - readIdx a)) in
  let nAvailBytes := nItemBytes + nSavedBytes p in
  t ← (if nItemBytes =? 0 then mret t
       else if tsPacketSize p <=? u32 nAvailBytes then ts_packet k t
       else ts_partial k nItemBytes t);
  let more := negb (numSourcePackets (tp_p t) <=? tp_added t) in
  a ← item_read k;
  item ← (if dataLen a =? readIdx a
          then _ ← openavbMediaQTailPull;
               (if more then openavbMediaQTailLock true else mret None)
          else mret (Some k));
  mret (item, more, t).

(** [while (pMediaQItem && moreSourcePackets)] *)
Fixpoint ts_loop (fuel : nat) (item : option Z) (more : bool) (t : ts_progress) : mqM (option Z * ts_progress) :=
  match item, more with
  | Some k, true =>
      match fuel with
      | O => mq_lift (Fault OutOfFuel)
      | S fuel => '(item, more, t) ← ts_turn k t; ts_loop fuel item more t
      end
  | _, _ => mret (item, t)
  end.

Definition openavbMapMpeg2tsTxCB (fuel : nat) (P : option ts_data) (pData : list Z) (len : Z)
  : mqM (tx_cb_ret_t * list Z * Z * option ts_data) :=
  match P with
  | None => mret (TX_CB_RET_PACKET_NOT_READY, pData, len, P)
  | Some p =>
      buf ← mq_lift (ts_header pData);
      item ← openavbMediaQTailLock true;
      '(item, t) ← ts_loop fuel item true (TsProgress p buf TS_TOTAL_HEADER_SIZE 0);
      _ ← (match item with Some _ => openavbMediaQTailUnlock | None => mret tt end);
      let '(TsProgress p buf _ added) := t in
      if 0 <? added then
        buf ← mq_lift (wr buf HIDX_DBC8 (DBC p));
        let p := with_dbc (Z.land (DBC p + added * BLOCKS_PER_SRC_PKT) 0xff) p in
        buf ← mq_lift (wr_list buf HIDX_DATALEN16 (be16 (u16 (added * MPEGTS_SRC_PKT_SIZE + CIP_HEADER_SIZE))));
        mret (TX_CB_RET_PACKET_READY, buf, added * MPEGTS_SRC_PKT_SIZE + TS_TOTAL_HEADER_SIZE, Some p)
      else mret (TX_CB_RET_PACKET_NOT_READY, buf, len, Some p)
  end.

(** ** Listener *)

(** The loop over the source packets of a frame. *)
Fixpoint ts_store (n : nat) (size : Z) (pData : list Z) (at_ : Z) (a : media_q_item) : res media_q_item :=
  match n with
  | O => Ret a
  | S n =>
      if size <=? u32 (itemSize a - dataLen a) then
        bs ← rd_list pData (at_ + MPEGTS_SRC_PKT_SIZE - size) (Z.to_nat size);
        d ← put_bytes a (dataLen a) bs;
        ts_store n size pData (at_ + MPEGTS_SRC_PKT_SIZE) (with_data d (dataLen a + size) a)
      else Ret (with_len 0 a)
  end.

(** The answer is [FALSE] also when the packets were stored. *)
Definition openavbMapMpeg2tsRxCB (P : option ts_data) (pData : list Z) (len : Z) : mqM (bool * option ts_data) :=
  match P with
  | None => mret (false, P)
  | Some p =>
      dbc ← mq_lift (rd pData HIDX_DBC8);
      if 0 <? dbc mod 8 then mret (false, P)
      else
        datalen ← mq_lift (get16 pData HIDX_DATALEN16);
        let sourcePacketCount := u8 (Z.quot (datalen - CIP_HEADER_SIZE) MPEGTS_SRC_PKT_SIZE) in
        if 0 <? sourcePacketCount then
          k ← openavbMediaQHeadLock;
          match k with
          | None => mret (false, P)
          | Some k =>
              a ← item_read k;
              _ ← (if dataLen a =? 0
                   then n ← mq_call; t ← mq_lift (rx_time pData n (pAvtpTime a)); item_write k (with_time t)
                   else mret tt);
              a ← item_read k;
              a ← mq_lift (ts_store (Z.to_nat sourcePacketCount) (tsPacketSize p) pData TS_TOTAL_HEADER_SIZE a);
              _ ← item_write k (fun _ => a);
              _ ← openavbMediaQHeadPush;
              mret (false, P)
          end
        else mret (false, P)
  end.

(** ** The module *)

Definition openavbMapMpeg2tsInitialize (inMaxTransitUsec : Z) : mqM (bool * option ts_data) :=
  c1 ← mq_call; c2 ← mq_call;
  if negb (calloc_ok c1) || negb (calloc_ok c2) then mret (false, None)
  else _ ← openavbMediaQSetMaxLatency inMaxTransitUsec; mret (true, Some (ts_defaults inMaxTransitUsec)).

Definition openavbMapMpeg2tsGenInitCB (P : option ts_data) : mqM unit :=
  match P with
  | None => mret tt
  | Some p => _ ← openavbMediaQSetSize (s32 (ts_itemCount p)) (s32 (ts_itemSize p)); mret tt
  end.

(** The callbacks, with a bound on the rounds of the talker's loop. *)
Definition ts_cb (fuel : nat) : map_cb (option ts_data) :=
  MapCB 0 0 openavbMapMpeg2tsMaxDataSizeCB openavbMapMpeg2tsTransmitIntervalCB
    mret (openavbMapMpeg2tsTxCB fuel) mret openavbMapMpeg2tsRxCB.

End Callbacks.
