(* ===== verification/MapMpeg2tsProps.v ===== *)
(** * The MPEG2-TS mapping: what a frame carries

    The bytes the talker has still to send are those it saved and those unread in
    the queue.  When every 188th of them is a synchronisation byte, a call takes as
    many packets off their front as fit into the frame, wherever the items were
    cut; the listener puts the same bytes into one item. *)

From S2P Require Import Prelude AvtpTime MediaQ MediaQProps AvtpMap MapPipe MapMpeg2ts.
From Stdlib Require Import ZArith Lia.
From stdpp Require Import base tactics list option.
Open Scope Z_scope.

#[local] Arguments Nat.mul : simpl never.

(** ** Streams *)

Definition unread (a : media_q_item) : list Z :=
  take (Z.to_nat (dataLen a - readIdx a)) (drop (Z.to_nat (readIdx a)) (default [] (pPubData a))).

Definition ts_item (a : media_q_item) : Prop :=
  exists d, pPubData a = Some d /\ bytes_ok d /\ 0 <= readIdx a <= dataLen a /\ dataLen a <= Zlen d /\
    dataLen a < 2147483648.

Record ts_wf (p : ts_data) : Prop := {
  tw_size : tsPacketSize p = 188;
  tw_sync : unsynched p = false;
  tw_saved : 0 <= nSavedBytes p < 188;
  tw_area : length (savedBytes p) = 200%nat;
  tw_bytes : bytes_ok (savedBytes p);
  tw_count : 1 <= numSourcePackets p
}.

Definition ts_saved (p : ts_data) : list Z := take (Z.to_nat (nSavedBytes p)) (savedBytes p).
Definition ts_stream (p : ts_data) (held : list media_q_item) : list Z := ts_saved p ++ concat (unread <$> held).

(** Every packet starts with the synchronisation byte. *)
Definition aligned (l : list Z) : Prop :=
  forall i, (188 * i < length l)%nat -> l !! (188 * i)%nat = Some MPEG2_TS_SYNC_BYTE.

Fixpoint ts_cut (k : nat) (l : list Z) : list (list Z) :=
  match k with O => [] | S k => take 188 l :: ts_cut k (drop 188 l) end.

Lemma ts_cut_snoc k : forall l, ts_cut (S k) l = ts_cut k l ++ [take 188 (drop (188 * k) l)].
Proof.
  induction k as [|k IH]; intros l; [by rewrite Nat.mul_0_r|].
  change (ts_cut (S (S k)) l) with (take 188 l :: ts_cut (S k) (drop 188 l)). rewrite IH, drop_drop. cbn [ts_cut app].
  by replace (188 + 188 * k)%nat with (188 * S k)%nat by lia.
Qed.

Lemma aligned_drop k l : aligned l -> aligned (drop (188 * k) l).
Proof.
  intros H i Hi. rewrite length_drop in Hi. rewrite lookup_drop.
  replace (188 * k + 188 * i)%nat with (188 * (k + i))%nat by lia. apply H. lia.
Qed.

Lemma concat_cut k : forall l, concat (ts_cut k l) = take (188 * k) l.
Proof.
  induction k as [|k IH]; intros l; [by rewrite Nat.mul_0_r|]. cbn [ts_cut concat]. rewrite IH.
  replace (188 * S k)%nat with (188 + 188 * k)%nat by lia. by rewrite <- take_take_drop.
Qed.

Lemma unread_len a : ts_item a -> length (unread a) = Z.to_nat (dataLen a - readIdx a).
Proof. intros (d & Hd & Hb & Hr & Hl & _). unfold unread. rewrite Hd. cbn. rewrite length_take, length_drop. lia. Qed.

Lemma unread_bytes a : ts_item a -> bytes_ok (unread a).
Proof. intros (d & Hd & Hb & _). unfold unread. rewrite Hd. cbn. by apply Forall_take, Forall_drop. Qed.

Lemma saved_len p : ts_wf p -> length (ts_saved p) = Z.to_nat (nSavedBytes p).
Proof. intros [_ _ H1 H2 _ _]. unfold ts_saved. rewrite length_take, H2. lia. Qed.

Lemma item_bytes_unread a n : ts_item a -> 0 <= n <= dataLen a - readIdx a ->
  item_bytes a (readIdx a) n = Ret (take (Z.to_nat n) (unread a)).
Proof.
  intros (d & Hd & Hb & Hr & Hl & _) Hn. unfold item_bytes, unread. rewrite Hd. cbn.
  rewrite rd_list_slice by lia. rewrite take_take. by replace (Z.to_nat n `min` Z.to_nat (dataLen a - readIdx a))%nat with (Z.to_nat n) by lia.
Qed.

(** ** Writes into the header *)

Lemma wr_list_prefix h x i bs : 0 <= i -> i + Zlen bs <= Zlen h -> bytes_ok bs ->
  exists h', wr_list (h ++ x) i bs = Ret (h' ++ x) /\ length h' = length h /\
    (forall j, (j < Z.to_nat i \/ Z.to_nat i + length bs <= j)%nat -> h' !! j = h !! j) /\
    h' = take (Z.to_nat i) h ++ bs ++ drop (Z.to_nat i + length bs) h.
Proof.
  intros Hi Hl Hb. exists (take (Z.to_nat i) h ++ bs ++ drop (Z.to_nat i + length bs) h). split_and!; [| | |done].
  - rewrite wr_list_slice; [|lia|rewrite length_app; lia|done].
    rewrite take_app_le, drop_app_le by lia. by rewrite <- !app_assoc.
  - rewrite !length_app, length_take, length_drop. lia.
  - intros j [Hj|Hj].
    + rewrite lookup_app_l by (rewrite length_take; lia). by rewrite lookup_take_lt.
    + rewrite lookup_app_r by (rewrite length_take; lia). rewrite length_take, lookup_app_r by lia.
      rewrite lookup_drop. f_equal. lia.
Qed.

Lemma wr_prefix h x i b : 0 <= i < Zlen h ->
  wr (h ++ x) i b = Ret (<[Z.to_nat i := u8 b]> h ++ x).
Proof. intros Hi. rewrite wr_ok by (rewrite length_app; lia). by rewrite insert_app_l by lia. Qed.

Lemma set_bits_prefix h x i on : 0 <= i < Zlen h ->
  exists b, set_bits (h ++ x) i 1 on = Ret (<[Z.to_nat i := b]> h ++ x).
Proof.
  intros Hi. destruct (lookup_lt_is_Some_2 h (Z.to_nat i) ltac:(lia)) as [b Hb]. unfold set_bits.
  rewrite (rd_lookup _ _ b) by (lia || by rewrite lookup_app_l by lia). rewrite res_bind_ret, wr_prefix by done. by eexists.
Qed.

(** The block count and the length of the data. *)
Lemma dbc_len_written hdr x dbc n :
  length hdr = 32%nat -> 0 <= dbc < 256 -> 0 <= n < 65536 ->
  exists hdr', (buf ← wr (hdr ++ x) HIDX_DBC8 dbc; wr_list buf HIDX_DATALEN16 (be16 n)) = Ret (hdr' ++ x) /\
    length hdr' = 32%nat /\ hdr' !! 27%nat = Some dbc /\ drop 20 (take 22 hdr') = be16 n.
Proof.
  intros Hh Hd Hn. rewrite wr_prefix by (rewrite Hh; done). rewrite res_bind_ret.
  set (h1 := <[Z.to_nat HIDX_DBC8 := u8 dbc]> hdr). assert (length h1 = 32%nat) as Hh1 by (subst h1; by rewrite length_insert).
  destruct (wr_list_prefix h1 x HIDX_DATALEN16 (be16 n)) as (h2 & E & Hl & Hlook & Heq);
    [done|rewrite Hh1; done|apply be16_ok|].
  exists h2. split_and!; [done|lia| |].
  - rewrite Hlook by (right; unfold HIDX_DATALEN16; rewrite be16_len; lia). subst h1. change (Z.to_nat HIDX_DBC8) with 27%nat.
    rewrite list_lookup_insert_eq by lia. f_equal. apply u8_id. lia.
  - rewrite Heq. change (Z.to_nat HIDX_DATALEN16) with 20%nat. rewrite !be16_len.
    assert (length (take 20 h1) = 20%nat) as Ht by (rewrite length_take; lia).
    rewrite take_app, Ht, take_take. cbn [Nat.min Nat.sub]. rewrite take_app_le by done. rewrite drop_app, Ht.
    rewrite drop_ge by lia. by rewrite Nat.sub_diag, drop_0.
Qed.

(** ** One packet *)

(** The queue with another oldest item. *)
Definition retail (x : media_q_item) (a : fifo) : fifo := fifo_write_tail (fun _ => x) a.

Lemma retail_held x a y c : f_held a = y :: c -> f_held (retail x a) = x :: c.
Proof. intros H. unfold retail, fifo_write_tail. by rewrite H. Qed.
Lemma retail_twice x y a : retail x (retail y a) = retail x a.
Proof. unfold retail, fifo_write_tail. destruct (f_held a) eqn:E; cbn; [by rewrite E|done]. Qed.

(** The source packets of a frame: a time and a transport stream packet each. *)
Definition src_packets (ts : list Z) (pkts : list (list Z)) : list Z := concat (zip_with (fun t p => be32 t ++ p) ts pkts).

Section Specs.
Context {pf : Platform}.

Lemma mq_bind_regroup {A B C} (m : mqM A) (k : A -> mqM B) (k' : B -> mqM C) s (Q : C -> mq_st -> Prop) :
  mq_returns ((m ≫= k) ≫= k') s Q -> mq_returns (m ≫= fun x => k x ≫= k') s Q.
Proof. unfold mq_returns, mbind, mqM_bind. by destruct (m s) as [[x s']|]. Qed.

Lemma write_tail_as s a k g x c :
  mq_refines s a -> f_held a = x :: c -> taken (g x) = taken x -> at_index q_tail s k ->
  mq_returns (item_write k g) s (fun _ s' => mq_refines s' (retail (g x) a) /\ at_index q_tail s' k).
Proof.
  intros H Hc Ht Hk. eapply mq_mono; [by eapply tail_write_spec|]. intros [] s' [H1 H2]. split; [|done].
  revert H1. unfold retail, fifo_write_tail. by rewrite Hc.
Qed.

(** Three pieces written one after the other. *)
Lemma write_pieces pre r0 r1 r2 rest t b1 b2 i :
  i = Zlen pre -> length r0 = 4%nat -> length r1 = length b1 -> length r2 = length b2 -> bytes_ok b1 -> bytes_ok b2 ->
  (buf ← wr_list (pre ++ r0 ++ r1 ++ r2 ++ rest) i (be32 t);
   buf ← wr_list buf (i + 4) b1;
   wr_list buf (i + (4 + Zlen b1)) b2) = Ret (pre ++ be32 t ++ b1 ++ b2 ++ rest).
Proof.
  intros -> H0 H1 H2 Hb1 Hb2. rewrite wr_list_app by (done || apply be32_ok). rewrite res_bind_ret.
  replace (pre ++ be32 t ++ r1 ++ r2 ++ rest) with ((pre ++ be32 t) ++ r1 ++ r2 ++ rest) by (by rewrite <- app_assoc).
  rewrite wr_list_app by (done || rewrite length_app; cbn; lia). rewrite res_bind_ret.
  replace ((pre ++ be32 t) ++ b1 ++ r2 ++ rest) with (((pre ++ be32 t) ++ b1) ++ r2 ++ rest) by (by rewrite <- !app_assoc).
  rewrite wr_list_app by (done || rewrite !length_app; cbn; lia). by rewrite <- !app_assoc.
Qed.

Lemma ts_packet_spec s a k x c p hdr body rest added :
  mq_refines s a -> f_held a = x :: c -> at_index q_tail s k -> ts_wf p -> ts_item x ->
  188 <= nSavedBytes p + (dataLen x - readIdx x) ->
  length hdr = 32%nat -> 192 <= Zlen rest ->
  head (ts_saved p ++ unread x) = Some MPEG2_TS_SYNC_BYTE ->
  mq_returns (ts_packet k (TsProgress p (hdr ++ body ++ rest) (32 + Zlen body) added)) s (fun t' s' =>
    exists hdr' t x', length hdr' = 32%nat /\
      t' = TsProgress (with_saved (savedBytes p) 0 p)
             (hdr' ++ (body ++ be32 t ++ take 188 (ts_saved p ++ unread x)) ++ drop 192 rest) (32 + Zlen body + 192) (added + 1) /\
      mq_refines s' (retail x' a) /\ at_index q_tail s' k /\ ts_item x' /\
      unread x' = drop (188 - Z.to_nat (nSavedBytes p)) (unread x)).
Proof.
  intros H Hc Hk Hp Hx Hn Hh Hrest Hsync. pose proof (saved_len p Hp) as Hsl. pose proof (unread_len x Hx) as Hul.
  destruct Hp as [Hsz Hs1 Hsv Har Hby Hct]. unfold ts_packet.
  eapply mq_bind; [by eapply tail_read_spec|]. intros y s0 [-> ->].
  set (x1 := if readIdx x =? 0 then with_time (openavbAvtpTimeAddUSec (pAvtpTime x) (ts_maxTransitUsec p)) x else x).
  eapply (mq_bind _ _ _ (fun _ s1 => mq_refines s1 (retail x1 a) /\ at_index q_tail s1 k)).
  { subst x1. destruct (readIdx x =? 0).
    { by apply (write_tail_as s a k (fun a0 => with_time (openavbAvtpTimeAddUSec (pAvtpTime a0) (ts_maxTransitUsec p)) a0) x c). }
    apply mq_ret. split; [|done].
    revert H. unfold retail, fifo_write_tail. rewrite Hc. destruct a; cbn in *; by subst. }
  intros [] s1 [H1 Hk1]. pose proof (retail_held x1 a x c Hc) as Hc1.
  assert (ts_item x1) as Hx1 by (subst x1; by destruct (_ =? _)).
  assert (unread x1 = unread x) as Hu1 by (subst x1; by destruct (_ =? _)).
  assert (readIdx x1 = readIdx x /\ dataLen x1 = dataLen x) as [Hr1 Hd1] by (subst x1; by destruct (_ =? _)).
  eapply mq_bind; [by eapply tail_read_spec|]. intros y s2 [-> ->].
  set (t := openavbAvtpTimeGetAvtpTimestamp (pAvtpTime x1)).
  destruct (set_bits_prefix hdr (body ++ rest) 1 (openavbAvtpTimeTimestampIsValid (pAvtpTime x1)) ltac:(lia)) as [b1 E1].
  eapply mq_bind_lift; [exact E1|].
  destruct (set_bits_prefix (<[Z.to_nat 1 := b1]> hdr) (body ++ rest) 3 (openavbAvtpTimeTimestampIsUncertain (pAvtpTime x1)))
    as [b2 E2]; [rewrite length_insert; lia|].
  eapply mq_bind_lift; [exact E2|]. set (hdr2 := <[Z.to_nat 3 := b2]> _).
  assert (length hdr2 = 32%nat) as Hh2 by (subst hdr2; by rewrite !length_insert).
  assert (exists hdr3, (if added =? 0 then wr_list (hdr2 ++ body ++ rest) HIDX_AVTP_TIMESPAMP32 (be32 t) else Ret (hdr2 ++ body ++ rest))
    = Ret (hdr3 ++ body ++ rest) /\ length hdr3 = 32%nat) as (hdr3 & E3 & Hh3).
  { destruct (added =? 0); [|by exists hdr2].
    destruct (wr_list_prefix hdr2 (body ++ rest) HIDX_AVTP_TIMESPAMP32 (be32 t)) as (h' & Ew & Hl & _);
      [done|rewrite Hh2; done|apply be32_ok|]. exists h'. split; [done|lia]. }
  eapply mq_bind_lift; [exact E3|]. rewrite Hsz. change (188 =? MPEG2_TS_PKT_SIZE) with true. cbv iota.
  (* the three pieces *)
  set (sv := ts_saved p) in *. set (bs := take (Z.to_nat (188 - nSavedBytes p)) (unread x)).
  assert (Hbl : Zlen bs = 188 - nSavedBytes p) by (subst bs; rewrite length_take; lia).
  set (r0 := take 4 rest). set (r1 := take (length sv) (drop 4 rest)).
  set (r2 := take (length bs) (drop (4 + length sv) rest)). set (rr := drop 192 rest).
  assert (Hrest' : rest = r0 ++ r1 ++ r2 ++ rr).
  { subst r0 r1 r2 rr. rewrite <- (take_drop 4 rest) at 1. f_equal.
    rewrite <- (take_drop (length sv) (drop 4 rest)) at 1. f_equal. rewrite drop_drop.
    rewrite <- (take_drop (length bs) (drop (4 + length sv) rest)) at 1. f_equal. rewrite drop_drop. f_equal. lia. }
  assert (Hl0 : length r0 = 4%nat) by (subst r0; rewrite length_take; lia).
  assert (Hl1 : length r1 = length sv) by (subst r1; rewrite length_take, length_drop; lia).
  assert (Hl2 : length r2 = length bs) by (subst r2; rewrite length_take, length_drop; lia).
  assert (Hbsv : bytes_ok sv) by (by apply Forall_take).
  assert (Hbbs : bytes_ok bs) by (apply Forall_take, unread_bytes, Hx).
  pose proof (write_pieces (hdr3 ++ body) r0 r1 r2 rr t sv bs (32 + Zlen body)) as W.
  rewrite <- !app_assoc, <- Hrest' in W. specialize (W ltac:(rewrite length_app; lia) Hl0 Hl1 Hl2 Hbsv Hbbs).
  destruct (wr_list (hdr3 ++ body ++ rest) (32 + Zlen body) (be32 t)) as [w1|] eqn:W1; [|done]. rewrite res_bind_ret in W.
  destruct (wr_list w1 (32 + Zlen body + 4) sv) as [w2|] eqn:W2; [|done]. rewrite res_bind_ret in W.
  eapply mq_bind_lift; [by rewrite res_bind_ret|]. cbv beta iota.
  eapply (mq_bind_lift _ _ _ sv).
  { rewrite rd_list_slice by (rewrite ?Har; lia). done. }
  eapply mq_bind_lift; [exact W2|]. cbv zeta.
  eapply (mq_bind_lift _ _ _ bs).
  { rewrite Hr1. rewrite <- Hr1. rewrite (item_bytes_unread x1) by (done || lia). by rewrite Hu1. }
  eapply mq_bind_lift.
  { replace (32 + Zlen body + (MPEGTS_SRC_PKT_HDR_SIZE + nSavedBytes p)) with (32 + Zlen body + (4 + Zlen sv))
      by (unfold MPEGTS_SRC_PKT_HDR_SIZE; lia). exact W. }
  assert (Hjoin : take 188 (sv ++ unread x) = sv ++ bs).
  { rewrite take_app, take_ge by lia. f_equal. subst bs. f_equal. lia. }
  assert (Hfirst : head (sv ++ bs) = Some MPEG2_TS_SYNC_BYTE).
  { rewrite <- Hjoin. rewrite <- Hsync, !head_lookup. rewrite lookup_take_lt by lia. done. }
  eapply (mq_bind_lift _ _ _ MPEG2_TS_SYNC_BYTE).
  { apply rd_lookup; [lia|]. replace (Z.to_nat (32 + Zlen body + 4)) with (length (hdr3 ++ body ++ be32 t)) by (rewrite !length_app; cbn; lia).
    replace (hdr3 ++ body ++ be32 t ++ sv ++ bs ++ rr) with ((hdr3 ++ body ++ be32 t) ++ (sv ++ bs) ++ rr) by (by rewrite <- !app_assoc).
    rewrite lookup_app_r, Nat.sub_diag by lia. rewrite lookup_app_l by (rewrite length_app; lia). by rewrite <- head_lookup. }
  rewrite Z.eqb_refl.
  eapply mq_bind; [eapply (write_tail_as s1 (retail x1 a) k (fun a0 => with_read (u32 (readIdx a0 + (188 - nSavedBytes p))) a0) x1 c); [done|done|done|done]|].
  intros [] s2 [H2 Hk2]. apply mq_ret. rewrite retail_twice in H2.
  exists hdr3, t, (with_read (u32 (readIdx x1 + (188 - nSavedBytes p))) x1).
  destruct Hx1 as (d & Hd & Hbd & Hrd & Hdl & Hdm). rewrite u32_id in * by lia.
  split_and!; [done| |done|done| |].
  - f_equal. rewrite Hjoin. by rewrite <- !app_assoc.
  - exists d. cbn. split_and!; [done|done|lia..].
  - rewrite <- Hu1. unfold unread. cbn. rewrite Hd. cbn. rewrite skipn_firstn_comm, drop_drop. f_equal; [lia|f_equal; lia].
Qed.

(** The rest of an item is kept for the next one. *)
Lemma ts_partial_spec s a k x c p buf at_ added :
  mq_refines s a -> f_held a = x :: c -> at_index q_tail s k -> ts_wf p -> ts_item x ->
  nSavedBytes p + (dataLen x - readIdx x) < 188 ->
  mq_returns (ts_partial k (dataLen x - readIdx x) (TsProgress p buf at_ added)) s (fun t' s' =>
    exists p', t' = TsProgress p' buf at_ added /\ ts_wf p' /\ DBC p' = DBC p /\ numSourcePackets p' = numSourcePackets p /\
      ts_saved p' = ts_saved p ++ unread x /\
      mq_refines s' (retail (with_read 0 (with_len 0 x)) a) /\ at_index q_tail s' k).
Proof.
  intros H Hc Hk Hp Hx Hn. pose proof (saved_len p Hp) as Hsl. pose proof (unread_len x Hx) as Hul.
  pose proof (unread_bytes x Hx) as Hub. destruct Hp as [Hsz Hs1 Hsv Har Hby Hct]. destruct (Hx) as (d & _ & _ & Hr & Hl & _).
  unfold ts_partial. rewrite (proj2 (Z.ltb_ge _ _)) by (unfold MPEG2_TS_PKT_SIZE; lia).
  eapply mq_bind; [by eapply tail_read_spec|]. intros y s0 [-> ->].
  eapply mq_bind_lift; [apply item_bytes_unread; [done|lia]|]. rewrite take_ge by lia.
  eapply mq_bind_lift; [apply wr_list_slice; [lia|lia|done]|].
  eapply mq_bind; [by apply (write_tail_as s a k (fun a0 => with_read 0 (with_len 0 a0)) x c)|].
  intros [] s1 [H1 Hk1]. apply mq_ret. eexists. split; [done|].
  set (sv' := take _ _ ++ _). assert (length sv' = 200%nat) as Hl' by (subst sv'; rewrite !length_app, length_take, length_drop; lia).
  split_and!; [split; cbn; try done; try lia|done|done| |done|done].
  - subst sv'. apply Forall_app. split; [by apply Forall_take|]. apply Forall_app. split; [done|by apply Forall_drop].
  - unfold ts_saved at 1. cbn. subst sv'. rewrite app_assoc. fold (ts_saved p).
    rewrite take_app_length' by (rewrite length_app; lia). done.
Qed.

(** ** The loop *)

Record ts_inv (l : list Z) (dbc : Z) (num : nat) (a : fifo) (t : ts_progress) (k : nat) : Prop := {
  ti_wf : ts_wf (tp_p t);
  ti_items : Forall ts_item (f_held a);
  ti_num : numSourcePackets (tp_p t) = Z.of_nat num;
  ti_dbc : DBC (tp_p t) = dbc;
  ti_k : (k <= num)%nat;
  ti_added : tp_added t = Z.of_nat k;
  ti_at : tp_at t = 32 + 192 * Z.of_nat k;
  ti_stream : ts_stream (tp_p t) (f_held a) = drop (188 * k) l;
  ti_enough : (188 * k <= length l)%nat;
  ti_buf : exists hdr ts rest, tp_buf t = hdr ++ src_packets ts (ts_cut k l) ++ rest /\ length hdr = 32%nat /\
             length ts = k /\ (192 * (num - k) <= length rest)%nat
}.

(** The item the loop goes on with. *)
Definition ts_at (s : mq_st) (a : fifo) (more : bool) (item : option Z) : Prop :=
  match item with
  | Some i => f_held a <> [] /\ at_index q_tail s i
  | None => f_held a = [] \/ more = false
  end.

Lemma lock_spec s a more :
  mq_refines s a ->
  mq_returns (if more : bool then openavbMediaQTailLock true else mret None) s (fun item s' =>
    mq_refines s' a /\ ts_at s' a more item).
Proof.
  intros H. destruct more; [|split; [done|by right]].
  eapply mq_mono; [by apply (tail_lock_spec true)|]. intros item s'. unfold fifo_lock_tail.
  destruct (f_held a) as [|x c] eqn:E; intros [H1 Hk].
  - subst item. split; [done|by left].
  - destruct Hk as (n & -> & Hn & _). split; [done|]. split; [by rewrite E|done].
Qed.

(** A used-up item is given back. *)
Lemma advance_spec s a k x c more :
  mq_refines s a -> f_held a = x :: c -> Forall ts_item (x :: c) -> at_index q_tail s k ->
  mq_returns (a ← item_read k;
              if dataLen a =? readIdx a
              then _ ← openavbMediaQTailPull; (if more : bool then openavbMediaQTailLock true else mret None)
              else mret (Some k)) s (fun item s' => exists a', mq_refines s' a' /\ ts_at s' a' more item /\
    Forall ts_item (f_held a') /\ concat (unread <$> f_held a') = unread x ++ concat (unread <$> c) /\
    (length (f_held a') <= S (length c))%nat /\ (dataLen x = readIdx x -> length (f_held a') = length c)).
Proof.
  intros H Hc Hi Hk. eapply mq_bind; [by eapply tail_read_spec|]. intros y s0 [-> ->].
  destruct (Z.eqb_spec (dataLen x) (readIdx x)) as [E|E].
  - eapply mq_bind; [by apply tail_pull_spec|]. intros ok s1 [_ H1].
    eapply mq_mono; [by apply lock_spec|]. intros item s2 [H2 Ha]. exists (fifo_pull a).
    apply Forall_cons_1 in Hi as [Hx Hi]. unfold fifo_pull in *. rewrite Hc in *. cbn.
    split_and!; [done|done|done| |lia|done]. unfold unread. rewrite E, Z.sub_diag. done.
  - apply mq_ret. exists a. rewrite Hc. split_and!; [done|split; [by rewrite Hc|done]|done|done|done|done].
Qed.

Lemma src_packets_len ts l k : length ts = k -> (188 * k <= length l)%nat -> length (src_packets ts (ts_cut k l)) = (192 * k)%nat.
Proof.
  revert ts l. induction k as [|k IH]; intros [|t ts] l Ht Hl; try done. cbn [ts_cut]. unfold src_packets in *. cbn [zip_with concat].
  rewrite !length_app, IH, length_take; [cbn [be32 length]; lia|by injection Ht|rewrite length_drop; lia].
Qed.

Lemma src_packets_snoc ts pkts t p :
  length ts = length pkts -> src_packets (ts ++ [t]) (pkts ++ [p]) = src_packets ts pkts ++ be32 t ++ p.
Proof. intros H. unfold src_packets. rewrite zip_with_app by done. rewrite concat_app. cbn [zip_with concat]. by rewrite app_nil_r. Qed.

Lemma ts_cut_len k : forall l, length (ts_cut k l) = k.
Proof. induction k as [|k IH]; intros l; [done|]. cbn. by rewrite IH. Qed.

Lemma stream_first l p x c :
  aligned l -> ts_wf p -> ts_item x -> ts_stream p (x :: c) = l -> 188 <= nSavedBytes p + (dataLen x - readIdx x) ->
  head (ts_saved p ++ unread x) = Some MPEG2_TS_SYNC_BYTE /\ take 188 (ts_saved p ++ unread x) = take 188 l.
Proof.
  intros Ha Hp Hx <- Hn. pose proof (saved_len p Hp) as Hsl. pose proof (unread_len x Hx) as Hul.
  destruct (Hx) as (d & _ & _ & Hr & _). pose proof (tw_saved _ Hp).
  unfold ts_stream in *. cbn [fmap list_fmap concat] in *. fold (unread <$> c) in *. rewrite app_assoc in *. split.
  - specialize (Ha 0%nat). rewrite Nat.mul_0_r in Ha. rewrite <- Ha by (rewrite !length_app; lia).
    rewrite head_lookup. symmetry. apply lookup_app_l. rewrite length_app. lia.
  - rewrite (take_app_le (ts_saved p ++ unread x)); [done|rewrite length_app; lia].
Qed.

Lemma ts_step_spec l dbc num a t k s x c i :
  ts_inv l dbc num a t k -> mq_refines s a -> f_held a = x :: c -> at_index q_tail s i -> (k < num)%nat -> aligned l ->
  mq_returns (if dataLen x - readIdx x =? 0 then mret t
              else if tsPacketSize (tp_p t) <=? u32 (dataLen x - readIdx x + nSavedBytes (tp_p t))
                   then ts_packet i t else ts_partial i (dataLen x - readIdx x) t) s (fun t' s' =>
    exists x' k', mq_refines s' (retail x' a) /\ at_index q_tail s' i /\ ts_inv l dbc num (retail x' a) t' k' /\
      (k' = S k \/ k' = k /\ dataLen x' = readIdx x')).
Proof.
  intros [Hwf Hit Hnum Hdbc Hk Had Hat Hst Hen (hdr & ts & rest & Hbuf & Hh & Hts & Hrl)] H Hc Hi Hlt Hal.
  rewrite Hc in Hit, Hst. pose proof Hit as Hit2. apply Forall_cons_1 in Hit2 as [Hx Hit2]. destruct (Hx) as (d & _ & _ & Hr & Hdl & Hdm).
  pose proof (tw_saved _ Hwf) as Hsv. pose proof (saved_len _ Hwf) as Hsl. pose proof (unread_len x Hx) as Hul.
  destruct t as [p buf at_ added]. cbn [tp_p tp_buf tp_at tp_added] in *. subst buf at_ added.
  destruct (Z.eqb_spec (dataLen x - readIdx x) 0) as [E0|E0].
  { apply mq_ret. exists x, k. assert (retail x a = a) as Ea.
    { unfold retail, fifo_write_tail. rewrite Hc. destruct a; cbn in *; by subst. }
    rewrite Ea. split_and!; [done|done| |right; split; [done|lia]].
    split; cbn; try done; [by rewrite Hc|by rewrite Hc|]. by exists hdr, ts, rest. }
  rewrite (tw_size _ Hwf), u32_id by lia. pose proof (src_packets_len ts l k Hts Hen) as Hbl.
  destruct (Z.leb_spec 188 (dataLen x - readIdx x + nSavedBytes p)) as [Hfull|Hpart].
  - destruct (stream_first (drop (188 * k) l) p x c (aligned_drop k l Hal) Hwf Hx Hst ltac:(lia)) as [Hhd Htk].
    replace (32 + 192 * Z.of_nat k) with (32 + Zlen (src_packets ts (ts_cut k l))) by lia.
    eapply mq_mono; [apply (ts_packet_spec s a i x c p hdr (src_packets ts (ts_cut k l)) rest (Z.of_nat k));
      [exact H|exact Hc|exact Hi|exact Hwf|exact Hx|lia|exact Hh|lia|exact Hhd]|].
    intros t' s' (hdr' & tm & x' & Hh' & -> & H' & Hi' & Hx' & Hu'). exists x', (S k).
    assert (188 * S k <= length l)%nat as Hen'.
    { apply (f_equal length) in Hst. unfold ts_stream in Hst. cbn in Hst. rewrite !length_app, length_drop in Hst. lia. }
    split_and!; [done|done| |by left]. split; cbn [tp_p tp_added tp_at tp_buf].
    + destruct Hwf. split; cbn; try done; lia.
    + rewrite (retail_held x' a x c Hc). by constructor.
    + done.
    + done.
    + lia.
    + lia.
    + lia.
    + rewrite (retail_held x' a x c Hc). unfold ts_stream at 1. change (ts_saved (with_saved _ 0 p)) with (@nil Z).
      replace (188 * S k)%nat with (188 * k + 188)%nat by lia. rewrite <- drop_drop, <- Hst. unfold ts_stream.
      cbn [fmap list_fmap concat app]. rewrite Hu', drop_app, (drop_ge (ts_saved p)), Hsl, (drop_app_le (unread x)) by lia. done.
    + done.
    + exists hdr', (ts ++ [tm]), (drop 192 rest). split_and!; [|done|rewrite length_app; cbn; lia|rewrite length_drop; lia].
      rewrite ts_cut_snoc, src_packets_snoc by (by rewrite ts_cut_len). by rewrite Htk.
  - eapply mq_mono; [apply (ts_partial_spec s a i x c p); [exact H|exact Hc|exact Hi|exact Hwf|exact Hx|lia]|].
    intros t' s' (p' & -> & Hwf' & Hd' & Hn' & Hs' & H' & Hi'). exists (with_read 0 (with_len 0 x)), k.
    split_and!; [done|done| |by right].
    assert (ts_item (with_read 0 (with_len 0 x))) as Hx'.
    { destruct Hx as (d' & ? & ? & _). exists d'. cbn. split_and!; [done|done|lia..]. }
    split; cbn [tp_p tp_added tp_at tp_buf]; try done; try congruence.
    + rewrite (retail_held _ a x c Hc). by constructor.
    + rewrite (retail_held _ a x c Hc), <- Hst. unfold ts_stream. rewrite Hs'. cbn. by rewrite <- app_assoc.
    + by exists hdr, ts, rest.
Qed.

Lemma ts_turn_spec l dbc num a t k s x c i :
  ts_inv l dbc num a t k -> mq_refines s a -> f_held a = x :: c -> at_index q_tail s i -> (k < num)%nat -> aligned l ->
  mq_returns (ts_turn i t) s (fun '(item, more, t') s' => exists a' k',
    mq_refines s' a' /\ ts_inv l dbc num a' t' k' /\ more = (k' <? num)%nat /\ ts_at s' a' more item /\
    (num - k' + length (f_held a') < num - k + length (f_held a))%nat /\ (length (f_held a') <= length (f_held a))%nat).
Proof.
  intros Hinv H Hc Hi Hlt Hal. unfold ts_turn. rewrite (tw_sync _ (ti_wf _ _ _ _ _ _ Hinv)). apply mq_bind_ret. cbv zeta.
  eapply mq_bind; [by eapply tail_read_spec|]. intros y s0 [-> ->].
  pose proof (ti_items _ _ _ _ _ _ Hinv) as Hit. rewrite Hc in Hit. apply Forall_cons_1 in Hit as [Hx Hit].
  destruct (Hx) as (d & _ & _ & Hr & Hdl & Hdm). rewrite u32_id, s32_id by lia.
  destruct t as [p buf at_ added]. cbn [tp_p tp_buf tp_at tp_added].
  eapply mq_bind; [by eapply (ts_step_spec l dbc num a (TsProgress p buf at_ added) k)|].
  intros t' s1 (x' & k' & H1 & Hi1 & Hinv1 & Hk'). pose proof (retail_held x' a x c Hc) as Hc1.
  pose proof (ti_items _ _ _ _ _ _ Hinv1) as Hit1. rewrite Hc1 in Hit1.
  rewrite (ti_num _ _ _ _ _ _ Hinv1), (ti_added _ _ _ _ _ _ Hinv1).
  assert (negb (Z.of_nat num <=? Z.of_nat k') = (k' <? num)%nat) as ->
    by (destruct (Nat.ltb_spec k' num), (Z.leb_spec (Z.of_nat num) (Z.of_nat k')); lia || done).
  apply (mq_bind_regroup (item_read i) (fun a =>
    if dataLen a =? readIdx a
    then _ ← openavbMediaQTailPull; (if (k' <? num)%nat then openavbMediaQTailLock true else mret None)
    else mret (Some i)) (fun item => mret (item, (k' <? num)%nat, t'))).
  eapply mq_bind; [by eapply (advance_spec s1 (retail x' a) i x' c)|].
  intros item s2 (a2 & H2 & Hat2 & Hit3 & Hst & Hl1 & Hl2). apply mq_ret. exists a2, k'. rewrite Hc. cbn [length].
  split_and!; [done| |done|done| |lia].
  - destruct Hinv1 as [? ? ? ? ? ? ? Hst1 ? ?]. split; try done. rewrite <- Hst1. unfold ts_stream. by rewrite Hst, Hc1.
  - destruct Hk' as [->|[-> E]]; [lia|]. specialize (Hl2 E). lia.
Qed.

Lemma ts_loop_spec l dbc num fuel : forall a s t k item more,
  ts_inv l dbc num a t k -> aligned l -> mq_refines s a -> more = (k <? num)%nat -> ts_at s a more item ->
  (num - k + length (f_held a) < fuel)%nat ->
  mq_returns (ts_loop fuel item more t) s (fun '(item', t') s' => exists a' k',
    mq_refines s' a' /\ ts_inv l dbc num a' t' k' /\ (k' = num \/ f_held a' = []) /\
    (length (f_held a') <= length (f_held a))%nat).
Proof.
  induction fuel as [|fuel IH]; intros a s t k item more Hinv Hal H -> Hat Hf; [lia|].
  pose proof (ti_k _ _ _ _ _ _ Hinv) as Hk.
  destruct item as [i|]; cycle 1.
  { cbn. exists a, k. split_and!; [done|done| |done]. destruct Hat as [E|E]; [by right|]. apply Nat.ltb_ge in E. left. lia. }
  destruct (Nat.ltb_spec k num) as [Hlt|Hge]; cycle 1.
  { cbn. exists a, k. split_and!; [done|done|left; lia|done]. }
  destruct Hat as [Hne Hi]. destruct (f_held a) as [|x c] eqn:Hc; [done|]. clear Hne. cbn [ts_loop].
  eapply mq_bind; [by eapply (ts_turn_spec l dbc num a t k)|]. rewrite Hc.
  intros [[item more] t'] s1 (a1 & k1 & H1 & Hinv1 & Hm & Hat1 & Hmes & Hlen).
  eapply mq_mono; [apply (IH a1 s1 t' k1); [done|done|done|done|done|lia]|].
  intros [item' t''] s3 (a3 & k3 & G1 & G2 & G3 & G4). exists a3, k3. split_and!; [done..|lia].
Qed.

End Specs.
