(* ===== verification/MapMpeg2tsTheorems.v ===== *)
(** * The MPEG2-TS mapping: transport streams arrive whole

    The callbacks of talker and listener on well-formed streams, their composition
    over any number of frames, and what happens to streams that are not. *)

From S2P Require Import Prelude AvtpTime MediaQ MediaQProps MediaQTheorems AvtpMap MapPipe MapMpeg2ts MapMpeg2tsProps.
From Stdlib Require Import ZArith Lia.
From stdpp Require Import base tactics list option.
Open Scope Z_scope.

#[local] Arguments Nat.mul : simpl never.

(** ** The talker *)

Lemma ts_header_spec hdr rest : length hdr = 32%nat ->
  exists hdr', ts_header (hdr ++ rest) = Ret (hdr' ++ rest) /\ length hdr' = 32%nat.
Proof.
  intros Hh. unfold ts_header.
  destruct (wr_list_prefix hdr rest HIDX_GATEWAY32 [0; 0; 0; 0]) as (h1 & E & Hl & _);
    [done|rewrite Hh; done|unfold bytes_ok; repeat constructor; lia|].
  rewrite E, res_bind_ret.
  repeat (rewrite wr_prefix by (rewrite ?length_insert, Hl, Hh; done); rewrite ?res_bind_ret).
  eexists. split; [done|]. by rewrite !length_insert, Hl, Hh.
Qed.

Definition dbc_ok (p : ts_data) : Prop := 0 <= DBC p < 256 /\ DBC p mod 8 = 0.

Lemma dbc_next p k : dbc_ok p -> dbc_ok (with_dbc (Z.land (DBC p + Z.of_nat k * BLOCKS_PER_SRC_PKT) 0xff) p).
Proof.
  intros [H1 H2]. unfold dbc_ok. cbn [DBC with_dbc]. change 0xff with (Z.ones 8). rewrite Z.land_ones by lia.
  unfold BLOCKS_PER_SRC_PKT. change (2 ^ 8) with 256. split; [apply Z.mod_pos_bound; lia|]. zdm.
Qed.

(** What a talker and its queue look like between calls. *)
Definition talker_ok (num : nat) (p : ts_data) (a : fifo) (l : list Z) : Prop :=
  ts_wf p /\ dbc_ok p /\ numSourcePackets p = Z.of_nat num /\ Forall ts_item (f_held a) /\
  ts_stream p (f_held a) = l /\ aligned l /\ (num <= 255)%nat.

(** A frame with the first [k] packets of a stream. *)
Definition ts_frame (k : nat) (l buf : list Z) : Prop :=
  exists hdr ts rest dbc, buf = hdr ++ src_packets ts (ts_cut k l) ++ rest /\ length hdr = 32%nat /\ length ts = k /\
    hdr !! 27%nat = Some dbc /\ dbc mod 8 = 0 /\ drop 20 (take 22 hdr) = be16 (Z.of_nat k * 192 + 8).

(** How many packets a call sends. *)
Definition ts_fits (num : nat) (l : list Z) : nat := Nat.min num (length l / 188).

Section Theorems.
Context {pf : Platform}.

Lemma loop_end l dbc num a t k :
  ts_inv l dbc num a t k -> k = num \/ f_held a = [] -> k = ts_fits num l.
Proof.
  intros [Hwf _ _ _ Hk _ _ Hst Hen _] Hend. unfold ts_fits.
  assert (k <= length l / 188)%nat by (apply Nat.div_le_lower_bound; lia).
  destruct Hend as [->|E]; [lia|]. rewrite E in Hst. unfold ts_stream in Hst. cbn in Hst. rewrite app_nil_r in Hst.
  apply (f_equal length) in Hst. rewrite (saved_len _ Hwf), length_drop in Hst. pose proof (tw_saved _ Hwf).
  assert (length l / 188 <= k)%nat; [|lia]. assert (length l < 188 * S k)%nat as Hlt by lia.
  apply Nat.Div0.div_lt_upper_bound in Hlt. lia.
Qed.

(** The last two fields of the header. *)
Lemma finish_header hdr x dbc k :
  length hdr = 32%nat -> 0 <= dbc < 256 -> dbc mod 8 = 0 -> (k <= 255)%nat ->
  exists hdr', (buf ← wr (hdr ++ x) HIDX_DBC8 dbc;
                wr_list buf HIDX_DATALEN16 (be16 (u16 (Z.of_nat k * MPEGTS_SRC_PKT_SIZE + CIP_HEADER_SIZE)))) = Ret (hdr' ++ x) /\
    length hdr' = 32%nat /\ hdr' !! 27%nat = Some dbc /\ drop 20 (take 22 hdr') = be16 (Z.of_nat k * 192 + 8).
Proof.
  intros Hh Hd Hm Hk.
  assert (u16 (Z.of_nat k * MPEGTS_SRC_PKT_SIZE + CIP_HEADER_SIZE) = Z.of_nat k * 192 + 8) as ->.
  { unfold u16, MPEGTS_SRC_PKT_SIZE, MPEG2_TS_PKT_SIZE, MPEGTS_SRC_PKT_HDR_SIZE, CIP_HEADER_SIZE. rewrite Z.mod_small; lia. }
  apply dbc_len_written; [done|done|lia].
Qed.

Lemma ts_tx_spec num p a l s hdr rest len fuel :
  talker_ok num p a l -> mq_refines s a -> length hdr = 32%nat -> (192 * num <= length rest)%nat ->
  (num + length (f_held a) < fuel)%nat ->
  mq_returns (openavbMapMpeg2tsTxCB fuel (Some p) (hdr ++ rest) len) s (fun '(rc, buf, len', P') s' =>
    exists a' p', P' = Some p' /\ mq_refines s' a' /\ talker_ok num p' a' (drop (188 * ts_fits num l) l) /\
      (length (f_held a') <= length (f_held a))%nat /\
      if (0 <? ts_fits num l)%nat
      then rc = TX_CB_RET_PACKET_READY /\ len' = Z.of_nat (ts_fits num l) * 192 + 32 /\ ts_frame (ts_fits num l) l buf
      else rc = TX_CB_RET_PACKET_NOT_READY /\ len' = len).
Proof.
  intros (Hwf & Hdb & Hnum & Hit & Hst & Hal & H255) H Hh Hrl Hf. cbn [openavbMapMpeg2tsTxCB].
  destruct (ts_header_spec hdr rest Hh) as (hdr1 & E1 & Hh1). eapply mq_bind_lift; [exact E1|].
  eapply mq_bind; [by apply (lock_spec s a true)|]. intros item s1 [H1 Hat].
  assert (ts_inv l (DBC p) num a (TsProgress p (hdr1 ++ rest) TS_TOTAL_HEADER_SIZE 0) 0) as Hinv.
  { split; cbn; try done; try lia. exists hdr1, [], rest. split_and!; [done..|lia]. }
  pose proof (tw_count _ Hwf).
  eapply mq_bind; [eapply (ts_loop_spec l (DBC p) num fuel a s1 _ 0 item true Hinv Hal H1); [|done|lia]|].
  { symmetry. apply Nat.ltb_lt. lia. }
  intros [item' t] s2 (a' & k & H2 & Hinv2 & Hend & Hlen). pose proof (loop_end _ _ _ _ _ _ Hinv2 Hend) as ->.
  eapply (mq_bind _ _ _ (fun _ s3 => mq_refines s3 a')).
  { destruct item'; [by apply tail_unlock_spec|done]. }
  intros [] s3 H3. destruct Hinv2 as [Gwf Git Gnum Gdbc Gk Gad Gat Gst Gen (hdr2 & ts & rest2 & Gbuf & Gh & Gts & Grl)].
  destruct t as [p2 buf at_ added]. cbn [tp_p tp_buf tp_at tp_added] in *. subst added buf.
  assert (dbc_ok p2) as Hdb2 by (by destruct Hdb; split; rewrite Gdbc).
  destruct (Nat.ltb_spec 0 (ts_fits num l)) as [Hpos|Hzero].
  - rewrite (proj2 (Z.ltb_lt _ _)) by lia.
    destruct (finish_header hdr2 (src_packets ts (ts_cut (ts_fits num l) l) ++ rest2) (DBC p2) (ts_fits num l))
      as (hdr3 & E3 & Hh3 & H27 & H20); [done|apply Hdb2|apply Hdb2|lia|].
    destruct (wr (hdr2 ++ src_packets ts (ts_cut (ts_fits num l) l) ++ rest2) HIDX_DBC8 (DBC p2)) as [w|] eqn:W; [|done].
    eapply mq_bind_lift; [done|]. cbv zeta. rewrite res_bind_ret in E3. eapply mq_bind_lift; [exact E3|]. apply mq_ret.
    eexists a', _. split; [done|]. split; [done|]. split; [|split; [done|]].
    + split_and!; [destruct Gwf; by split|by apply dbc_next|done|done|done|by apply aligned_drop|done].
    + split_and!; [done|done|]. exists hdr3, ts, rest2, (DBC p2). split_and!; [done..|apply Hdb2|done].
  - rewrite (proj2 (Z.ltb_ge _ _)) by lia. apply mq_ret. exists a', p2.
    split; [done|]. split; [done|]. split; [|by split_and!]. split_and!; [done..|by apply aligned_drop|done].
Qed.

(** ** The listener *)

Lemma ts_store_spec pkts : forall ts pre rest a d,
  length ts = length pkts -> Forall (fun b => length b = 188%nat /\ bytes_ok b) pkts ->
  pPubData a = Some d -> 0 <= dataLen a -> dataLen a + 188 * Zlen pkts <= itemSize a -> itemSize a <= Zlen d ->
  itemSize a < 4294967296 ->
  ts_store (length pkts) 188 (pre ++ src_packets ts pkts ++ rest) (Zlen pre) a =
    Ret (with_data (take (Z.to_nat (dataLen a)) d ++ concat pkts ++ drop (Z.to_nat (dataLen a) + 188 * length pkts) d)
           (dataLen a + 188 * Zlen pkts) a).
Proof.
  induction pkts as [|b pkts IH]; intros ts pre rest a d Hts Hb Hd H0 Hroom Hsz H32.
  { cbn. rewrite Nat.mul_0_r, Nat.add_0_r, take_drop. f_equal. destruct a. cbn in *. unfold with_data. cbn. f_equal; [done|lia]. }
  destruct ts as [|t ts]; [done|]. injection Hts as Hts. apply Forall_cons_1 in Hb as [[Hbl Hbb] Hb]. cbn [length ts_store] in *.
  rewrite u32_id, (proj2 (Z.leb_le _ _)) by lia.
  change (src_packets (t :: ts) (b :: pkts)) with ((be32 t ++ b) ++ src_packets ts pkts).
  replace (pre ++ ((be32 t ++ b) ++ src_packets ts pkts) ++ rest) with ((pre ++ be32 t) ++ b ++ src_packets ts pkts ++ rest)
    by (by rewrite <- !app_assoc).
  assert (rd_list ((pre ++ be32 t) ++ b ++ src_packets ts pkts ++ rest) (Zlen pre + MPEGTS_SRC_PKT_SIZE - 188) (Z.to_nat 188) = Ret b) as ->.
  { replace (Z.to_nat 188) with (length b) by (rewrite Hbl; done). apply rd_list_app. rewrite length_app.
    change (length (be32 t)) with 4%nat. unfold MPEGTS_SRC_PKT_SIZE, MPEG2_TS_PKT_SIZE, MPEGTS_SRC_PKT_HDR_SIZE. lia. }
  rewrite res_bind_ret. unfold put_bytes. rewrite Hd, wr_list_slice by (done || lia). rewrite res_bind_ret.
  set (d1 := take (Z.to_nat (dataLen a)) d ++ b ++ drop (Z.to_nat (dataLen a) + length b) d).
  assert (length d1 = length d) as Hl1 by (subst d1; rewrite !length_app, length_take, length_drop; lia).
  replace ((pre ++ be32 t) ++ b ++ src_packets ts pkts ++ rest) with ((pre ++ be32 t ++ b) ++ src_packets ts pkts ++ rest)
    by (by rewrite <- !app_assoc).
  replace (Zlen pre + MPEGTS_SRC_PKT_SIZE) with (Zlen (pre ++ be32 t ++ b)).
  2:{ rewrite !length_app, Hbl. change (length (be32 t)) with 4%nat. unfold MPEGTS_SRC_PKT_SIZE, MPEG2_TS_PKT_SIZE, MPEGTS_SRC_PKT_HDR_SIZE. lia. }
  rewrite (IH ts _ rest (with_data d1 (dataLen a + 188) a) d1 Hts Hb eq_refl); cbn [dataLen itemSize with_data]; [|lia..].
  f_equal. unfold with_data. cbn [pAvtpTime readIdx itemSize taken pPubMapData pPvtMapData pPvtIntfData]. f_equal; [|lia]. f_equal.
  assert (length (take (Z.to_nat (dataLen a)) d) = Z.to_nat (dataLen a)) as Htl by (rewrite length_take; lia).
  replace (take (Z.to_nat (dataLen a + 188)) d1) with (take (Z.to_nat (dataLen a)) d ++ b).
  2:{ subst d1. rewrite app_assoc, take_app_length'; [done|rewrite length_app; lia]. }
  cbn [concat]. rewrite <- !app_assoc. do 3 f_equal. subst d1. rewrite app_assoc, drop_app, length_app, Htl, Hbl.
  rewrite drop_ge by (rewrite length_app; lia). cbn [app]. rewrite drop_drop. f_equal. lia.
Qed.

(** An empty item with room for a frame. *)
Definition rx_item (num : nat) (h : media_q_item) : Prop :=
  exists d, pPubData h = Some d /\ dataLen h = 0 /\ 188 * Z.of_nat num <= itemSize h /\ itemSize h <= Zlen d /\
    itemSize h < 4294967296.
Definition received (y : media_q_item) : list Z := take (Z.to_nat (dataLen y)) (default [] (pPubData y)).

Lemma rx_time_some pData n t0 : 16 <= Zlen pData -> exists t, rx_time pData n t0 = Ret t.
Proof.
  intros Hl. unfold rx_time, get32, HIDX_AVTP_TIMESPAMP32, HIDX_AVTP_HIDE7_TV1, HIDX_AVTP_HIDE7_TU1.
  rewrite rd_list_slice by lia. rewrite !res_bind_ret.
  destruct (lookup_lt_is_Some_2 pData 1 ltac:(lia)) as [b1 H1]. destruct (lookup_lt_is_Some_2 pData 3 ltac:(lia)) as [b3 H3].
  rewrite (rd_lookup pData 1 b1), res_bind_ret by (done || lia). rewrite (rd_lookup pData 3 b3), res_bind_ret by (done || lia).
  by eexists.
Qed.

Lemma cut_ok k : forall l, (188 * k <= length l)%nat -> bytes_ok l ->
  Forall (fun b => length b = 188%nat /\ bytes_ok b) (ts_cut k l).
Proof.
  induction k as [|k IH]; intros l Hl Hb; [constructor|]. cbn [ts_cut]. constructor.
  - split; [rewrite length_take; lia|by apply Forall_take].
  - apply IH; [rewrite length_drop; lia|by apply Forall_drop].
Qed.

Lemma ts_rx_spec num k l pl s a h f buf len :
  mq_refines s a -> f_free a = h :: f -> rx_item num h -> tsPacketSize pl = 188 ->
  (0 < k <= num)%nat -> (k <= 255)%nat -> (188 * k <= length l)%nat -> bytes_ok l -> ts_frame k l buf ->
  mq_returns (openavbMapMpeg2tsRxCB (Some pl) buf len) s (fun r s' => exists a' y,
    r = (false, Some pl) /\ mq_refines s' a' /\ f_free a' = f /\ f_held a' = f_held a ++ [y] /\ received y = take (188 * k) l).
Proof.
  intros H Hfree (d & Hd & H0 & Hsz1 & Hsz2 & Hsz3) Hps Hk Hk8 Hl Hbl (hdr & ts & rest & dbc & -> & Hh & Hts & H27 & Hd8 & H20).
  cbn [openavbMapMpeg2tsRxCB]. set (buf := hdr ++ _).
  assert (Hb : 32 <= Zlen buf) by (subst buf; rewrite length_app; lia).
  eapply (mq_bind_lift _ _ _ dbc). { apply rd_lookup; [done|]. subst buf.
    change (Z.to_nat HIDX_DBC8) with 27%nat. rewrite lookup_app_l by lia. exact H27. }
  rewrite Hd8. cbn [Z.ltb Z.compare].
  eapply (mq_bind_lift _ _ _ (Z.of_nat k * 192 + 8)).
  { unfold get16. rewrite rd_list_slice by (unfold HIDX_DATALEN16; lia). rewrite res_bind_ret. subst buf.
    change (Z.to_nat HIDX_DATALEN16) with 20%nat. rewrite drop_app_le, take_app_le by (rewrite ?length_drop; lia).
    replace (take 2 (drop 20 hdr)) with (drop 20 (take 22 hdr)) by (by rewrite skipn_firstn_comm).
    rewrite H20, of_be16. f_equal. unfold u16. rewrite Z.mod_small; lia. }
  assert (u8 (Z.quot (Z.of_nat k * 192 + 8 - CIP_HEADER_SIZE) MPEGTS_SRC_PKT_SIZE) = Z.of_nat k) as ->.
  { unfold CIP_HEADER_SIZE, MPEGTS_SRC_PKT_SIZE, MPEG2_TS_PKT_SIZE, MPEGTS_SRC_PKT_HDR_SIZE.
    rewrite Z.quot_div_nonneg by lia. replace (Z.of_nat k * 192 + 8 - 8) with (Z.of_nat k * 192) by lia.
    change (188 + 4) with 192. rewrite Z.div_mul by done. apply u8_id. lia. }
  rewrite (proj2 (Z.ltb_lt 0 (Z.of_nat k))) by lia.
  eapply mq_bind; [by apply head_lock_spec|]. rewrite Hfree. intros i s1 [H1 (j & -> & Hj)].
  eapply mq_bind; [by eapply head_read_spec|]. intros y s2 [-> ->]. rewrite H0, Z.eqb_refl.
  destruct (rx_time_some buf (mq_tick s1) (pAvtpTime h) ltac:(lia)) as [t Ht].
  eapply (mq_bind _ _ _ (fun _ s2 => mq_refines s2 (fifo_write_head (with_time t) (fifo_call a)) /\ at_index q_head s2 j)).
  { apply mq_bind_call. pose proof (proj1 H1) as Htick. pose proof (refines_call _ _ H1) as H2.
    eapply mq_bind_lift; [exact Ht|]. by eapply (head_write_spec _ (fifo_call a)). }
  intros [] s2 [H2 Hj2]. assert (f_free (fifo_write_head (with_time t) (fifo_call a)) = with_time t h :: f) as Hf2.
  { unfold fifo_write_head. cbn. by rewrite Hfree. }
  eapply mq_bind; [by eapply head_read_spec|]. intros y s3 [-> ->].
  eapply mq_bind_lift.
  { rewrite Hps, Nat2Z.id, <- (ts_cut_len k l) at 1. change TS_TOTAL_HEADER_SIZE with 32.
    replace 32 with (Zlen hdr) by lia. subst buf. apply ts_store_spec with (d := d); cbn; rewrite ?ts_cut_len; try done; try lia.
    by apply cut_ok. }
  eapply mq_bind; [eapply (head_write_spec _ _ H2); [exact Hf2|done|exact Hj2]|]. intros [] s3 [H3 _].
  eapply mq_bind; [by apply head_push_spec|]. intros ok s4 [_ H4]. apply mq_ret.
  eexists _, _. split; [done|]. split; [exact H4|]. unfold fifo_push, fifo_write_head. cbn. rewrite Hfree. cbn.
  split_and!; [done|done|]. unfold received. cbn. rewrite H0, ts_cut_len. cbn [Z.to_nat take app].
  rewrite concat_cut, take_0, app_nil_l. apply take_app_length'. rewrite length_take. lia.
Qed.

(** ** Frames one after the other *)

(** The talker fills a frame buffer; a frame that is ready goes to the listener. *)
Definition ts_round (fuel : nat) (frame : list Z) (pl P : option ts_data) (s sl : mq_st) : res (option ts_data * mq_st * mq_st) :=
  '((rc, buf, len, P), s) ← openavbMapMpeg2tsTxCB fuel P frame 0 s;
  if decide (rc = TX_CB_RET_PACKET_READY)
  then '(_, sl) ← openavbMapMpeg2tsRxCB pl (take (Z.to_nat len) buf) len sl; Ret (P, s, sl)
  else Ret (P, s, sl).
Fixpoint ts_rounds (n fuel : nat) (frame : list Z) (pl P : option ts_data) (s sl : mq_st) : res (option ts_data * mq_st * mq_st) :=
  match n with
  | O => Ret (P, s, sl)
  | S n => '(P, s, sl) ← ts_round fuel frame pl P s sl; ts_rounds n fuel frame pl P s sl
  end.

Lemma stream_bytes p a : ts_wf p -> Forall ts_item (f_held a) -> bytes_ok (ts_stream p (f_held a)).
Proof.
  intros Hp Hi. apply Forall_app. split; [apply Forall_take, Hp|]. apply Forall_concat, Forall_fmap.
  revert Hi. apply Forall_impl. intros x. apply unread_bytes.
Qed.

Lemma frame_cut k l buf : (188 * k <= length l)%nat -> ts_frame k l buf -> ts_frame k l (take (Z.to_nat (Z.of_nat k * 192 + 32)) buf).
Proof.
  intros Hl (hdr & ts & rest & dbc & -> & Hh & Hts & H). exists hdr, ts, [], dbc. split; [|done].
  rewrite app_assoc, app_nil_r. apply take_app_length'. rewrite length_app, src_packets_len by done. lia.
Qed.

Lemma fits_le num l : (ts_fits num l <= num)%nat /\ (188 * ts_fits num l <= length l)%nat.
Proof. unfold ts_fits. pose proof (Nat.Div0.mul_div_le (length l) 188). lia. Qed.

Lemma fits_rest num n l :
  (ts_fits num l + Nat.min (n * num) (length (drop (188 * ts_fits num l) l) / 188))%nat = Nat.min (S n * num) (length l / 188).
Proof.
  rewrite length_drop. destruct (fits_le num l) as [H1 H2].
  assert ((length l - 188 * ts_fits num l) / 188 = length l / 188 - ts_fits num l)%nat as ->.
  { symmetry. apply Nat.div_unique with (r := (length l mod 188)%nat); [apply Nat.mod_upper_bound; lia|].
    pose proof (Nat.div_mod_eq (length l) 188). unfold ts_fits in *. lia. }
  rewrite Nat.mul_succ_l. unfold ts_fits in *. lia.
Qed.

Lemma ts_round_ok num p a l s pl sl al frame fuel :
  talker_ok num p a l -> mq_refines s a -> length frame = (32 + 192 * num)%nat -> (num + length (f_held a) < fuel)%nat ->
  tsPacketSize pl = 188 -> mq_refines sl al -> Forall (rx_item num) (f_free al) -> (1 <= length (f_free al))%nat ->
  returns (ts_round fuel frame (Some pl) (Some p) s sl) (fun '(P', s', sl') => exists p' a' al',
    P' = Some p' /\ talker_ok num p' a' (drop (188 * ts_fits num l) l) /\ mq_refines s' a' /\
    (length (f_held a') <= length (f_held a))%nat /\ mq_refines sl' al' /\ Forall (rx_item num) (f_free al') /\
    (length (f_free al) <= S (length (f_free al')))%nat /\
    concat (received <$> f_held al') = concat (received <$> f_held al) ++ take (188 * ts_fits num l) l).
Proof.
  intros Ht Hs Hfr Hf Hps Hsl Hrx Hfree. unfold ts_round.
  rewrite <- (take_drop 32 frame). destruct (fits_le num l) as [Hk1 Hk2].
  eapply returns_bind.
  { apply (ts_tx_spec num p a l s (take 32 frame) (drop 32 frame) 0 fuel); [done|done|rewrite length_take; lia|rewrite length_drop; lia|done]. }
  intros [[[[rc buf] len] P'] s'] (a' & p' & -> & Hs' & Ht' & Hlen & Hrc). cbn beta iota.
  destruct (Nat.ltb_spec 0 (ts_fits num l)) as [Hpos|Hz]; cycle 1.
  { destruct Hrc as [-> _]. rewrite decide_False by done. exists p', a', al.
    split_and!; [done..|lia|]. replace (ts_fits num l) with 0%nat by lia. by rewrite Nat.mul_0_r, take_0, app_nil_r. }
  destruct Hrc as (-> & -> & Hfm). rewrite decide_True by done.
  destruct (f_free al) as [|h f] eqn:Efree; [cbn in Hfree; lia|]. apply Forall_cons_1 in Hrx as [Hh Hrx].
  destruct Ht as (Hwf & _ & _ & Hit & Hst & _ & H255).
  eapply returns_bind.
  { eapply (ts_rx_spec num (ts_fits num l) l pl sl al h f); [done|done|done|done|lia|lia|done| |by apply frame_cut].
    rewrite <- Hst. by apply stream_bytes. }
  intros [r sl'] (al' & y & _ & Hsl' & Hf' & Hh' & Hy). exists p', a', al'. rewrite Hf', Hh', fmap_app, concat_app. cbn.
  rewrite app_nil_r, Hy. split_and!; done || lia.
Qed.

(** C15: a transport stream arrives as it was, however it is cut.  The talker's media
    queue holds a stream in items of any sizes, with a synchronisation byte at
    every 188th position; the listener's has empty items with room for a frame.
    After [n] rounds of transmitting a frame and receiving it, the listener's items
    hold, in order, the first [n * num] packets of the stream, or all whole packets
    when there are fewer; the talker has kept exactly the rest, and neither side
    leaves its buffers. *)
Theorem ts_stream_carried num p a l s pl sl al frame fuel n :
  talker_ok num p a l -> mq_refines s a -> length frame = (32 + 192 * num)%nat -> (num + length (f_held a) < fuel)%nat ->
  tsPacketSize pl = 188 -> mq_refines sl al -> Forall (rx_item num) (f_free al) -> (n <= length (f_free al))%nat ->
  returns (ts_rounds n fuel frame (Some pl) (Some p) s sl) (fun '(P', s', sl') => exists p' a' al',
    P' = Some p' /\ mq_refines s' a' /\ mq_refines sl' al' /\
    let sent := (188 * Nat.min (n * num) (length l / 188))%nat in
    concat (received <$> f_held al') = concat (received <$> f_held al) ++ take sent l /\
    ts_stream p' (f_held a') = drop sent l).
Proof.
  revert p a l s sl al. induction n as [|n IH]; intros p a l s sl al Ht Hs Hfr Hf Hps Hsl Hrx Hn.
  { cbn. exists p, a, al. cbn. rewrite Nat.mul_0_r, take_0, app_nil_r, drop_0. split_and!; try done. apply Ht. }
  cbn [ts_rounds]. eapply returns_bind; [by apply (ts_round_ok num p a l s pl sl al); lia || done|].
  intros [[P1 s1] sl1] (p1 & a1 & al1 & -> & Ht1 & Hs1 & Hlen & Hsl1 & Hrx1 & Hl1 & Hc1).
  eapply returns_mono; [apply (IH p1 a1 _ s1 sl1 al1 Ht1); done || lia|].
  intros [[P2 s2] sl2] (p2 & a2 & al2 & -> & Hs2 & Hsl2 & Hc2 & Hst2). exists p2, a2, al2. cbv zeta.
  rewrite <- (fits_rest num n l), Nat.mul_add_distr_l. split_and!; [done..| |].
  - rewrite Hc2, Hc1, <- app_assoc. f_equal. by rewrite take_take_drop.
  - by rewrite Hst2, drop_drop.
Qed.

End Theorems.

(** ** Frames per interval *)

Lemma rate_of_packets u n f : 0 <= n -> 0 <= f -> 0 <= u -> n * f <= 168 -> u * (168 * 1536) < 2147483648 ->
  calculateBitrate u n f = Ret (u * n * f * 1536).
Proof.
  intros Hn Hf Hu Hnf Hb. unfold calculateBitrate, MPEGTS_SRC_PKT_SIZE, MPEG2_TS_PKT_SIZE, MPEGTS_SRC_PKT_HDR_SIZE.
  change (188 + 4) with 192. assert (u * n * f * 192 * 8 <= u * (168 * 1536)) by nia.
  rewrite (proj2 (Z.ltb_lt _ _)) by (change (2 ^ 31) with 2147483648; lia). rewrite u32_id; [f_equal; lia | nia].
Qed.

Lemma frames_loop_ok u fuel : forall f p,
  0 < u -> u * (168 * 1536) < 2147483648 -> srcBitrate p <= u * (168 * 1536) -> 1 <= f <= 24 -> 1 <= numSourcePackets p <= 7 ->
  (forall f', 1 <= f' < f -> u * 7 * f' * 1536 < srcBitrate p) ->
  (forall m, 1 <= m < numSourcePackets p -> u * m * f * 1536 < srcBitrate p) ->
  (Z.to_nat (7 * (24 - f) + (7 - numSourcePackets p)) < fuel)%nat ->
  returns (frames_loop fuel u f p) (fun '(f', p') => exists m, p' = with_sourcePackets m p /\
    1 <= f' <= 24 /\ 1 <= m <= 7 /\ srcBitrate p <= u * m * f' * 1536 /\
    (forall g, 1 <= g < f' -> u * 7 * g * 1536 < srcBitrate p) /\ (forall j, 1 <= j < m -> u * j * f' * 1536 < srcBitrate p)).
Proof.
  induction fuel as [|fuel IH]; intros f p Hu Hb Hr Hf Hn Hlow Hlow' Hfu; [lia|]. cbn [frames_loop].
  rewrite rate_of_packets, res_bind_ret by (nia || lia). destruct (Z.ltb_spec (u * numSourcePackets p * f * 1536) (srcBitrate p)) as [Hlt|Hge].
  2:{ exists (numSourcePackets p). split; [by destruct p|]. done. }
  cbv zeta. destruct (Z.ltb_spec 7 (numSourcePackets p + 1)).
  - assert (numSourcePackets p = 7) as E by lia. rewrite E in Hlt. assert (f < 24) by nia.
    eapply returns_mono; [apply (IH (f + 1) (with_sourcePackets 1 p)); cbn; try lia|by intros [f' p']].
    intros g Hg. destruct (decide (g = f)) as [->|]; [lia|]. apply Hlow. lia.
  - eapply returns_mono; [apply (IH f (with_sourcePackets (numSourcePackets p + 1) p)); cbn; try lia; try done|by intros [f' p']].
    intros m Hm. destruct (decide (m = numSourcePackets p)) as [->|]; [lia|]. apply Hlow'. lia.
Qed.

(** The number of times a capacity is needed for a load, but at least once. *)
Definition times_needed (load capacity : Z) : Z := Z.max 1 ((load + capacity - 1) / capacity).

Lemma times_needed_least load capacity k :
  0 < capacity -> 1 <= k -> load <= capacity * k -> (forall g, 1 <= g < k -> capacity * g < load) -> k = times_needed load capacity.
Proof.
  intros Hc Hk Hl Hg. unfold times_needed. destruct (decide (k = 1)) as [->|Hne].
  - enough ((load + capacity - 1) / capacity <= 1) by lia. apply Z.lt_succ_r. apply Z.div_lt_upper_bound; lia.
  - specialize (Hg (k - 1) ltac:(lia)).
    assert ((load + capacity - 1) / capacity = k) as ->; [|lia]. symmetry. apply Z.div_unique with (r := load + capacity - 1 - capacity * k); nia.
Qed.

(** C38: the search for the frames per interval computes a quotient.  For classes A and
    B and a source of up to 168 packets per interval, for which the products of the
    rates stay inside an int, the loop of
    [openavbMapMpeg2tsGetMaxIntervalFramesCB] ends, and what it finds by counting is
    the number of frames of seven packets that carry the source, rounded up, and
    then the least number of packets per frame. *)
Theorem ts_interval_frames_quotient classRate p :
  classRate = 8000 \/ classRate = 4000 -> srcBitrate p <= classRate * (168 * 1536) ->
  let frames := times_needed (srcBitrate p) (classRate * 7 * 1536) in
  let packets := times_needed (srcBitrate p) (classRate * frames * 1536) in
  openavbMapMpeg2tsGetMaxIntervalFramesCB 302 classRate p = Ret (frames, with_sourcePackets packets p).
Proof.
  intros Hc Hr. cbv zeta.
  assert (returns (openavbMapMpeg2tsGetMaxIntervalFramesCB 302 classRate p) (fun '(f', p') => exists m,
    p' = with_sourcePackets m (with_sourcePackets 1 p) /\ 1 <= f' <= 24 /\ 1 <= m <= 7 /\ srcBitrate p <= classRate * m * f' * 1536 /\
    (forall g, 1 <= g < f' -> classRate * 7 * g * 1536 < srcBitrate p) /\
    (forall j, 1 <= j < m -> classRate * j * f' * 1536 < srcBitrate p))) as H.
  { apply (frames_loop_ok classRate 302 1 (with_sourcePackets 1 p)); cbn; lia. }
  apply returns_inv in H as ([f p'] & -> & m & -> & H1 & H2 & H3 & H4 & H5).
  assert (f = times_needed (srcBitrate p) (classRate * 7 * 1536)) as <-.
  { apply times_needed_least; [lia|lia|nia|]. intros g Hg. specialize (H4 g Hg). lia. }
  assert (m = times_needed (srcBitrate p) (classRate * f * 1536)) as <-; [|done].
  apply times_needed_least; [nia|lia|lia|]. intros j Hj. specialize (H5 j Hj). lia.
Qed.

(** ** A stream of three packets in two items *)

Definition demo_packet_of (c : Z) : list Z := MPEG2_TS_SYNC_BYTE :: replicate 187 c.
Definition demo_ts : list Z := demo_packet_of 1 ++ demo_packet_of 2 ++ demo_packet_of 3.
Definition demo_ts_item (d : list Z) : media_q_item :=
  MediaQItem (Some (AvtpTime 5000000000 2000000 true false)) (Some d) 0 (Zlen d) (Zlen d) false None None None.
Definition demo_ts_items : list media_q_item := [demo_ts_item (take 100 demo_ts); demo_ts_item (drop 100 demo_ts)].
Definition demo_ts_q (items : list media_q_item) : mq_st :=
  MqSt (Some (MediaQInfo (1 + Zlen items) 600 (items ++ [fresh_item 2000 600]) (Zlen items) false 0 false true 2000 false
                MICROSECONDS_PER_SECOND)) 0 [].
Definition demo_ts_p : ts_data := with_sourcePackets 2 (ts_defaults 2000).
Definition demo_rx_q : mq_st :=
  MqSt (Some (MediaQInfo 2 400 [fresh_item 2000 400; fresh_item 2000 400] 0 false (-1) false true 2000 false
                MICROSECONDS_PER_SECOND)) 0 [].

Lemma demo_ts_talker :
  talker_ok 2 demo_ts_p (Fifo demo_ts_items [fresh_item 2000 600] 0 MICROSECONDS_PER_SECOND) demo_ts.
Proof.
  assert (bytes_ok demo_ts) as Hb by (apply (bool_decide_unpack _); by vm_compute).
  split_and!; [split; try done|split; [cbn; lia|done]|done| |by vm_compute| |lia].
  - apply (bool_decide_unpack _). by vm_compute.
  - repeat constructor; (eexists; split_and!; [done|by apply Forall_take || by apply Forall_drop|done|done|done|done]).
  - intros [|[|[|i]]] Hi; [done..|]. exfalso. revert Hi. change (length demo_ts) with 564%nat. lia.
Qed.

Lemma demo_rx_item : rx_item 2 (fresh_item 2000 400).
Proof. eexists. split_and!; [done|done|vm_compute; done..]. Qed.

Lemma ts_stream_carried_witness :
  returns (ts_rounds (pf := demo_platform) 2 10 (replicate 416 0) (Some (ts_defaults 2000)) (Some demo_ts_p)
             (demo_ts_q demo_ts_items) demo_rx_q)
    (fun '(P', s', sl') => exists al', mq_refines sl' al' /\ concat (received <$> f_held al') = demo_ts).
Proof.
  eapply returns_mono.
  - apply (ts_stream_carried (pf := demo_platform) 2 demo_ts_p _ demo_ts (demo_ts_q demo_ts_items) (ts_defaults 2000) demo_rx_q
      (Fifo [] [fresh_item 2000 400; fresh_item 2000 400] 0 MICROSECONDS_PER_SECOND) (replicate 416 0) 10 2 demo_ts_talker).
    + split; [done|]. eexists _, 0%nat. split; [done|]. split; [|done].
      split; [vm_compute; lia|done..|by repeat constructor].
    + done.
    + cbn. lia.
    + done.
    + split; [done|]. eexists _, 0%nat. split; [done|]. split; [|done].
      split; [vm_compute; lia|done..|by repeat constructor].
    + apply Forall_cons_2; [apply demo_rx_item|]. apply Forall_cons_2; [apply demo_rx_item|apply Forall_nil_2].
    + done.
  - intros [[P' s'] sl'] (p' & a' & al' & _ & _ & Hsl & H & _). exists al'. split; [done|]. rewrite H. by vm_compute.
Defined.

(** 50 Mbit/s in class B: one frame of seven packets carries 43 Mbit/s, two frames of
    five carry more than the 51 of the source packets. *)
Lemma ts_interval_frames_quotient_witness :
  openavbMapMpeg2tsGetMaxIntervalFramesCB 302 4000 (openavbMapMpeg2tsSetSrcBitrateCB (ts_defaults 2000) 50000000)
  = Ret (2, with_sourcePackets 5 (openavbMapMpeg2tsSetSrcBitrateCB (ts_defaults 2000) 50000000)).
Proof.
  rewrite (ts_interval_frames_quotient 4000 (openavbMapMpeg2tsSetSrcBitrateCB (ts_defaults 2000) 50000000)); [done|by right|by vm_compute].
Defined.

(** ** Streams out of step *)

#[local] Existing Instance demo_platform.

(** [unsynched] is set when an item has no synchronisation byte and never cleared:
    from then on every round starts again at the first one of the item, and the
    same packet is sent each time. *)
Lemma ts_repeats_after_loss :
  exists s' sl' al', ts_rounds 2 10 (replicate 224 0) (Some (ts_defaults 2000)) (Some (with_sourcePackets 1 demo_ts_p))
      (demo_ts_q [demo_ts_item (replicate 200 0); demo_ts_item demo_ts]) demo_rx_q = Ret (Some al', s', sl')
    /\ unsynched al' = true
    /\ (received <$> match mq sl' with Some i => pItems i | None => [] end) = [demo_packet_of 1; demo_packet_of 1].
Proof. eexists _, _, _. split; [by vm_compute|]. by vm_compute. Qed.

(** With packets of 192 bytes, out of step, an item whose first synchronisation byte
    has no other four bytes after it sends the loop around for ever: the search
    moves on, and the next turn moves back. *)
Definition wide_ts_p : ts_data := TsData 20 9024 192 7 0 2000 0 (replicate 200 0) 0 true 0.
Definition stuck_q : mq_st :=
  demo_ts_q [demo_ts_item (0 :: MPEG2_TS_SYNC_BYTE :: replicate 9 0 ++ MPEG2_TS_SYNC_BYTE :: replicate 300 0)].
Definition stuck_start : ts_progress * mq_st :=
  match ts_header (replicate 1376 0), openavbMediaQTailLock true stuck_q with
  | Ret buf, Ret (_, s) => (TsProgress wide_ts_p buf TS_TOTAL_HEADER_SIZE 0, s)
  | _, _ => (TsProgress wide_ts_p [] 0 0, stuck_q)
  end.
Definition stuck_turn : ts_progress * mq_st :=
  Eval vm_compute in
  match ts_turn 0 stuck_start.1 stuck_start.2 with Ret ((_, _, t), s) => (t, s) | Fault _ => stuck_start end.

Lemma stuck_again : ts_turn 0 stuck_turn.1 stuck_turn.2 = Ret ((Some 0, true, stuck_turn.1), stuck_turn.2).
Proof. by vm_compute. Qed.
Lemma stuck_first : ts_turn 0 stuck_start.1 stuck_start.2 = Ret ((Some 0, true, stuck_turn.1), stuck_turn.2).
Proof. by vm_compute. Qed.

Lemma ts_loop_hangs fuel : openavbMapMpeg2tsTxCB fuel (Some wide_ts_p) (replicate 1376 0) 0 stuck_q = Fault OutOfFuel.
Proof.
  assert (forall f, ts_loop f (Some 0) true stuck_turn.1 stuck_turn.2 = Fault OutOfFuel) as L.
  { intros f. induction f as [|f IH]; [done|]. cbn [ts_loop]. unfold mbind, mqM_bind. rewrite stuck_again. exact IH. }
  assert (forall f, ts_loop f (Some 0) true stuck_start.1 stuck_start.2 = Fault OutOfFuel) as L0.
  { intros [|f]; [done|]. cbn [ts_loop]. unfold mbind, mqM_bind. rewrite stuck_first. apply L. }
  assert (ts_header (replicate 1376 0) = Ret (tp_buf stuck_start.1)) as E1 by (by vm_compute).
  assert (openavbMediaQTailLock true stuck_q = Ret (Some 0, stuck_start.2)) as E2 by (by vm_compute).
  assert (TsProgress wide_ts_p (tp_buf stuck_start.1) TS_TOTAL_HEADER_SIZE 0 = stuck_start.1) as E3 by (by vm_compute).
  cbn [openavbMapMpeg2tsTxCB]. unfold mbind, mqM_bind, mq_lift. rewrite E1. unfold mbind, res_bind. rewrite E2, E3, L0. done.
Qed.

(** The assertion on the saved bytes allows for 188 of them, but 191 may be left of a
    packet of 192. *)
Lemma ts_partial_aborts :
  openavbMapMpeg2tsTxCB 5 (Some (with_unsynched false wide_ts_p)) (replicate 1376 0) 0
    (demo_ts_q [demo_ts_item (replicate 190 0)]) = Fault AssertFailed.
Proof. by vm_compute. Qed.
