(* ===== verification/ItemMap.v ===== *)
(** * Mapping modules that send one item per frame: their contract

    What a talker and a listener with such a module promise each other, as a class
    over the callback table, and what follows for any number of frames: the items
    that leave one media queue enter the other in order, each with the content its
    frame says. *)

From S2P Require Import Prelude AvtpTime MediaQ MediaQProps AvtpMap.
From Stdlib Require Import ZArith Lia.
From stdpp Require Import base tactics list option.
Open Scope Z_scope.

(** What a frame says: the AVTP timestamp with its flags, the marker and the data. *)
Record frame_view := FrameView {
  fv_stamp : Z;
  fv_valid : bool;
  fv_uncertain : bool;
  fv_last : bool;
  fv_bytes : list Z
}.

(** The time that a listener's item gets, with the clock reading [n]. *)
Definition arrival_time {pf : Platform} (n : nat) (v : frame_view) (h : option avtp_time) : option avtp_time :=
  openavbAvtpTimeSetTimestampUncertain
    (openavbAvtpTimeSetTimestampValid (openavbAvtpTimeSetToTimestamp h (fv_stamp v) n) (fv_valid v)) (fv_uncertain v).

(** The contract.  [im_send] gives the content of the frame for an item and the
    talker's next state; [im_store] is the item that a listener makes of a free one;
    [im_frame] relates frames to their content, and is all that the two sides share. *)
Class ItemMap {pf : Platform} {P : Type} (cb : map_cb P) := {
  im_room : P -> Z;
  im_ready : P -> media_q_item -> Prop;
  im_send : P -> media_q_item -> frame_view * P;
  im_frame : list Z -> frame_view -> Prop;
  im_listens : P -> Prop;
  im_fits : frame_view -> media_q_item -> Prop;
  im_store : nat -> frame_view -> media_q_item -> media_q_item;
  im_ready_send p x y : im_ready p y -> im_ready (im_send p x).2 y;
  im_room_send p x : im_room (im_send p x).2 = im_room p;
  im_tx p s a x c buf len :
    mq_refines s a -> f_held a = x :: c -> im_ready p x -> im_room p <= Zlen buf ->
    mq_returns (map_tx_cb cb p buf len) s (fun '(r, buf', len', p') s' =>
      r = TX_CB_RET_PACKET_READY /\ p' = (im_send p x).2 /\ 0 <= len' <= Zlen buf'
      /\ im_frame (take (Z.to_nat len') buf') (im_send p x).1
      /\ exists x', mq_refines s' (Fifo c (f_free a ++ [x']) (f_tick a) (f_stale a)));
  im_rx p s a h f fr v :
    mq_refines s a -> f_free a = h :: f -> im_listens p -> im_fits v h -> im_frame fr v ->
    mq_returns (map_rx_cb cb p fr (Zlen fr)) s (fun r s' =>
      r = (true, p)
      /\ mq_refines s' (Fifo (f_held a ++ [clear_read (im_store (f_tick a) v h)]) f (S (f_tick a)) (f_stale a)))
}.

(** Rounds: the talker fills the frame buffer, and a frame that is ready goes to the
    listener. *)
Definition map_round {P} (cb : map_cb P) (buf : list Z) (pl p : P) (s sl : mq_st) : res (P * P * mq_st * mq_st) :=
  '((r, buf, len, p), s) ← map_tx_cb cb p buf (Zlen buf) s;
  if decide (r = TX_CB_RET_PACKET_READY)
  then '((_, pl), sl) ← map_rx_cb cb pl (take (Z.to_nat len) buf) len sl; Ret (pl, p, s, sl)
  else Ret (pl, p, s, sl).
Fixpoint map_rounds {P} (n : nat) (cb : map_cb P) (buf : list Z) (pl p : P) (s sl : mq_st) : res (P * P * mq_st * mq_st) :=
  match n with
  | O => Ret (pl, p, s, sl)
  | S n => '(pl, p, s, sl) ← map_round cb buf pl p s sl; map_rounds n cb buf pl p s sl
  end.

(** The contents of the frames for a list of items, and the state after them. *)
Fixpoint sent {P} (send : P -> media_q_item -> frame_view * P) (p : P) (xs : list media_q_item) : list frame_view * P :=
  match xs with
  | [] => ([], p)
  | x :: xs => let '(v, p) := send p x in let '(vs, p) := sent send p xs in (v :: vs, p)
  end.

(** The items that arrive, from the clock reading [n] on. *)
Fixpoint arrivals (store : nat -> frame_view -> media_q_item -> media_q_item) (n : nat) (vs : list frame_view)
  (hs : list media_q_item) : list media_q_item :=
  match vs, hs with
  | v :: vs, h :: hs => clear_read (store n v h) :: arrivals store (S n) vs hs
  | _, _ => []
  end.

Section Rounds.
Context {pf : Platform} {P : Type} (cb : map_cb P) `{!ItemMap cb}.

Lemma sent_ready xs : forall p y, im_ready p y -> im_ready (sent im_send p xs).2 y.
Proof.
  induction xs as [|x xs IH]; intros p y H; [done|]. cbn [sent]. destruct (im_send p x) as [v p1] eqn:E.
  specialize (IH p1 y). destruct (sent im_send p1 xs). apply IH. pose proof (im_ready_send p x y H) as H1. by rewrite E in H1.
Qed.

Lemma map_round_ok p pl s sl a al x c h f buf :
  mq_refines s a -> f_held a = x :: c -> im_ready p x -> im_room p <= Zlen buf ->
  mq_refines sl al -> f_free al = h :: f -> im_listens pl -> im_fits (im_send p x).1 h ->
  returns (map_round cb buf pl p s sl) (fun '(pl', p', s', sl') =>
    pl' = pl /\ p' = (im_send p x).2
    /\ (exists x', mq_refines s' (Fifo c (f_free a ++ [x']) (f_tick a) (f_stale a)))
    /\ mq_refines sl' (Fifo (f_held al ++ [clear_read (im_store (f_tick al) (im_send p x).1 h)]) f
                         (S (f_tick al)) (f_stale al))).
Proof.
  intros Hs Hh Hr Hb Hsl Hf Hl Hfit. unfold map_round.
  eapply returns_bind; [by apply (im_tx p s a x c)|].
  intros [[[[r buf'] len'] p'] s'] (-> & -> & Hlen & Hfr & Hs'). rewrite decide_True by done.
  replace len' with (Zlen (take (Z.to_nat len') buf')) at 2 by (rewrite length_take; lia).
  eapply returns_bind; [by apply (im_rx pl sl al h f _ _ Hsl Hf Hl Hfit Hfr)|].
  by intros [[b pl'] sl'] [[= -> ->] Hsl'].
Qed.

Lemma map_rounds_ok xs : forall p pl s sl a al c hs f buf,
  mq_refines s a -> f_held a = xs ++ c -> Forall (im_ready p) xs -> im_room p <= Zlen buf ->
  mq_refines sl al -> f_free al = hs ++ f -> im_listens pl -> Forall2 im_fits (sent im_send p xs).1 hs ->
  returns (map_rounds (length xs) cb buf pl p s sl) (fun '(pl', p', s', sl') =>
    pl' = pl /\ p' = (sent im_send p xs).2
    /\ (exists f', mq_refines s' (Fifo c f' (f_tick a) (f_stale a)))
    /\ mq_refines sl' (Fifo (f_held al ++ arrivals im_store (f_tick al) (sent im_send p xs).1 hs) f
                         (f_tick al + length xs) (f_stale al))).
Proof.
  induction xs as [|x xs IH]; intros p pl s sl a al c hs f buf Hs Hh Hr Hb Hsl Hf Hl Hfit.
  { cbn in *. apply Forall2_nil_inv_l in Hfit as ->. cbn in Hf. rewrite app_nil_r, Nat.add_0_r. subst.
    split_and!; try done. exists (f_free a). by destruct a. }
  apply Forall_cons_1 in Hr as [Hx Hr]. cbn [sent] in *.
  pose proof (im_ready_send p x) as Hkeep. pose proof (im_room_send p x) as Hroom.
  destruct (im_send p x) as [v p1] eqn:E. destruct (sent im_send p1 xs) as [vs p2] eqn:Es.
  apply Forall2_cons_inv_l in Hfit as (h & hs' & Hv & Hvs & ->). cbn [length map_rounds app] in *.
  eapply returns_bind; [eapply (map_round_ok p pl s sl a al x (xs ++ c) h (hs' ++ f)); try done; by rewrite E|].
  intros [[[pl1 p1'] s1] sl1] (-> & -> & (x' & Hs1) & Hsl1). rewrite E in *. cbn [snd fst] in *.
  eapply returns_mono; [apply (IH p1 pl s1 sl1 _ _ c hs' f buf Hs1 eq_refl ltac:(by eapply Forall_impl)
    ltac:(by rewrite Hroom) Hsl1 eq_refl Hl); by rewrite Es|].
  intros [[[pl2 p2'] s2] sl2] (-> & -> & Hs2 & Hsl2). rewrite Es in *. cbn [snd fst f_held f_tick f_stale] in *.
  split_and!; try done. cbn [arrivals]. rewrite <- app_assoc in Hsl2. cbn [app] in Hsl2.
  by rewrite Nat.add_succ_l in Hsl2; rewrite Nat.add_succ_r.
Qed.

End Rounds.
