(* ===== verification/MapVideo.v ===== *)
(** * The video mappings (lib/avtp_pipeline/map_h264, map_mjpeg)

    Mapping modules that send one media queue item per frame.  The two video
    mappings carry in a marker bit whether the item is the last of a picture; the
    interface modules see that as a flag in the public map data of the item. *)

From S2P Require Import Prelude AvtpTime MediaQ AvtpMap MapPipe.
From Stdlib Require Import ZArith Lia.
From stdpp Require Import base tactics list strings option.
Open Scope Z_scope.

Definition MAX_PAYLOAD_SIZE : Z := 1412.
Definition HIDX_FORMAT8 : Z := 16.
Definition HIDX_FORMAT_SUBTYPE8 : Z := 17.
Definition HIDX_RESV16 : Z := 18.
Definition HIDX_STREAM_DATA_LEN16 : Z := 20.
Definition HIDX_M31_M21_M11_M01_EVT2_RESV2 : Z := 22.
Definition HIDX_RESV8 : Z := 23.

(** ** The flag of an item *)

(** [((media_q_item_map_h264_pub_data_t * )pPubMapData)->lastPacket], a structure of
    one [bool]. *)
Definition get_last (a : media_q_item) : res bool :=
  match pPubMapData a with
  | None => Fault (OobRead 0)
  | Some m => b ← rd m 0; Ret (negb (b =? 0))
  end.
Definition with_pubmap (m : list Z) (a : media_q_item) : media_q_item :=
  MediaQItem (pAvtpTime a) (pPubData a) (readIdx a) (dataLen a) (itemSize a) (taken a)
    (Some m) (pPvtMapData a) (pPvtIntfData a).
Definition put_last (last : bool) (a : media_q_item) : res media_q_item :=
  match pPubMapData a with
  | None => Fault (OobWrite 0)
  | Some m => m ← wr m 0 (if last then 1 else 0); Ret (with_pubmap m a)
  end.

(** The flags and the timestamp, for the time of an item. *)
Definition stamp_flags (t : option avtp_time) (buf : list Z) : res (list Z) :=
  buf ← set_bits buf HIDX_AVTP_HIDE7_TV1 1 (openavbAvtpTimeTimestampIsValid t);
  set_bits buf HIDX_AVTP_HIDE7_TU1 1 (openavbAvtpTimeTimestampIsUncertain t).

(** What both video listeners do with a payload. *)
Definition store_payload (pData : list Z) (at_ payloadLen : Z) (a : media_q_item) : res media_q_item :=
  bs ← rd_list pData at_ (Z.to_nat payloadLen); d ← put_bytes a 0 bs; Ret (with_data d payloadLen a).

(** ** H.264 *)

Record h264_data := H264Data {
  h_itemCount : Z;
  h_txInterval : Z;
  h_maxPayloadSize : Z;
  h_maxTransitUsec : Z;
  h_maxDataSize : Z;
  h_itemSize : Z
}.

Definition h264_defaults (inMaxTransitUsec : Z) : h264_data :=
  H264Data 20 0 MAX_PAYLOAD_SIZE inMaxTransitUsec (MAX_PAYLOAD_SIZE + TOTAL_HEADER_SIZE) MAX_PAYLOAD_SIZE.

Definition openavbMapH264CfgCB (p : h264_data) (name value : string) : h264_data :=
  if decide (name = "map_nv_item_count"%string) then
    H264Data (u32 (strtol value).1) (h_txInterval p) (h_maxPayloadSize p) (h_maxTransitUsec p) (h_maxDataSize p) (h_itemSize p)
  else if decide (name = "map_nv_tx_rate"%string \/ name = "map_nv_tx_interval"%string) then
    H264Data (h_itemCount p) (u32 (strtol value).1) (h_maxPayloadSize p) (h_maxTransitUsec p) (h_maxDataSize p) (h_itemSize p)
  else if decide (name = "map_nv_max_payload_size"%string) then
    let size := u32 (strtol value).1 in
    let size := if MAX_PAYLOAD_SIZE <? size then MAX_PAYLOAD_SIZE else size in
    H264Data (h_itemCount p) (h_txInterval p) size (h_maxTransitUsec p) (size + TOTAL_HEADER_SIZE) size
  else p.

Definition openavbMapH264MaxDataSizeCB (P : option h264_data) : Z :=
  match P with Some p => u16 (h_maxDataSize p) | None => 0 end.
Definition openavbMapH264TransmitIntervalCB (P : option h264_data) : Z :=
  match P with Some p => h_txInterval p | None => 0 end.

(** Before an item is looked for. *)
Definition h264_header (pData : list Z) : res (list Z) :=
  buf ← wr pData HIDX_FORMAT8 2;
  buf ← wr buf HIDX_FORMAT_SUBTYPE8 1;
  buf ← wr buf HIDX_RESV16 0;
  wr buf HIDX_RESV8 0.

(** The frame of an item, in the order of the code. *)
Definition h264_frame (a : media_q_item) (buf : list Z) : res (list Z) :=
  buf ← stamp_flags (pAvtpTime a) buf;
  buf ← wr_list buf HIDX_AVTP_TIMESPAMP32 (be32 (openavbAvtpTimeGetAvtpTimestamp (pAvtpTime a)));
  lastPacket ← get_last a;
  buf ← wr buf HIDX_M31_M21_M11_M01_EVT2_RESV2 (if lastPacket : bool then 0x10 else 0);
  bs ← item_bytes a 0 (dataLen a);
  buf ← wr_list buf TOTAL_HEADER_SIZE bs;
  wr_list buf HIDX_STREAM_DATA_LEN16 (be16 (u16 (dataLen a))).

Section H264.
Context {pf : Platform}.

Definition openavbMapH264Initialize (inMaxTransitUsec : Z) : mqM (bool * option h264_data) :=
  c1 ← mq_call; c2 ← mq_call;
  if negb (calloc_ok c1) || negb (calloc_ok c2) then mret (false, None)
  else _ ← openavbMediaQSetMaxLatency inMaxTransitUsec; mret (true, Some (h264_defaults inMaxTransitUsec)).

Definition openavbMapH264GenInitCB (P : option h264_data) : mqM unit :=
  match P with
  | None => mret tt
  | Some p =>
      _ ← openavbMediaQSetSize (s32 (h_itemCount p)) (s32 (h_itemSize p));
      _ ← openavbMediaQAllocItemMapData 1 0; mret tt
  end.

Definition openavbMapH264TxCB (P : option h264_data) (pData : list Z) (len : Z)
  : mqM (tx_cb_ret_t * list Z * Z * option h264_data) :=
  match P with
  | None => mret (TX_CB_RET_PACKET_NOT_READY, pData, len, P)
  | Some p =>
      buf ← mq_lift (h264_header pData);
      k ← openavbMediaQTailLock true;
      match k with
      | None => mret (TX_CB_RET_PACKET_NOT_READY, buf, 0, P)
      | Some k =>
          a ← item_read k;
          if 0 <? dataLen a then
            if h_itemSize p <? dataLen a
            then _ ← openavbMediaQTailPull; mret (TX_CB_RET_PACKET_NOT_READY, buf, len, P)
            else
              _ ← item_write k (fun a => with_time (openavbAvtpTimeAddUSec (pAvtpTime a) (h_maxTransitUsec p)) a);
              a ← item_read k;
              buf ← mq_lift (h264_frame a buf);
              _ ← openavbMediaQTailPull;
              mret (TX_CB_RET_PACKET_READY, buf, u32 (dataLen a + TOTAL_HEADER_SIZE), P)
          else _ ← openavbMediaQTailPull; mret (TX_CB_RET_PACKET_NOT_READY, buf, 0, P)
      end
  end.

(** The listener does not look at the module's data. *)
Definition openavbMapH264RxCB (P : option h264_data) (pData : list Z) (len : Z) : mqM (bool * option h264_data) :=
  payloadLen ← mq_lift (get16 pData HIDX_STREAM_DATA_LEN16);
  if u32 (len - TOTAL_HEADER_SIZE) <? payloadLen then mret (false, P)
  else
    k ← openavbMediaQHeadLock;
    match k with
    | None => mret (false, P)
    | Some k =>
        n ← mq_call;
        a ← item_read k;
        t ← mq_lift (rx_time pData n (pAvtpTime a));
        _ ← item_write k (with_time t);
        marker ← mq_lift (rd pData HIDX_M31_M21_M11_M01_EVT2_RESV2);
        a ← mq_lift (put_last (Z.testbit marker 4) (with_time t a));
        _ ← item_write k (fun _ => a);
        a ← mq_lift (if payloadLen <=? itemSize a then store_payload pData TOTAL_HEADER_SIZE payloadLen a
                     else Ret (with_len 0 a));
        _ ← item_write k (fun _ => a);
        _ ← openavbMediaQHeadPush;
        mret (true, P)
    end.

Definition h264_cb : map_cb (option h264_data) :=
  MapCB 3 0 openavbMapH264MaxDataSizeCB openavbMapH264TransmitIntervalCB mret openavbMapH264TxCB mret openavbMapH264RxCB.

End H264.

(** ** Motion JPEG *)

Definition MAX_JPEG_PAYLOAD_SIZE : Z := 1412.
Definition MAX_DATA_SIZE : Z := MAX_JPEG_PAYLOAD_SIZE + TOTAL_HEADER_SIZE.
Definition ITEM_SIZE : Z := MAX_JPEG_PAYLOAD_SIZE.
Definition HIDX_M11_M01_EVT2_RESV2 : Z := 22.

(** [pvt_data_t]; [mj_timestamp] is the time of the picture being sent, once
    [mj_tsvalid]. *)
Record mjpeg_data := MjpegData {
  mj_itemCount : Z;
  mj_txInterval : Z;
  mj_maxTransitUsec : Z;
  mj_timestamp : Z;
  mj_tsvalid : bool
}.

Definition with_stamp (ts : Z) (v : bool) (p : mjpeg_data) : mjpeg_data :=
  MjpegData (mj_itemCount p) (mj_txInterval p) (mj_maxTransitUsec p) ts v.

Definition mjpeg_defaults (inMaxTransitUsec : Z) : mjpeg_data := MjpegData 20 0 inMaxTransitUsec 0 false.

Definition openavbMapMjpegCfgCB (p : mjpeg_data) (name value : string) : mjpeg_data :=
  if decide (name = "map_nv_item_count"%string) then
    MjpegData (u32 (strtol value).1) (mj_txInterval p) (mj_maxTransitUsec p) (mj_timestamp p) (mj_tsvalid p)
  else if decide (name = "map_nv_tx_rate"%string \/ name = "map_nv_tx_interval"%string) then
    MjpegData (mj_itemCount p) (u32 (strtol value).1) (mj_maxTransitUsec p) (mj_timestamp p) (mj_tsvalid p)
  else p.

Definition openavbMapMjpegMaxDataSizeCB (P : option mjpeg_data) : Z := u16 MAX_DATA_SIZE.
Definition openavbMapMjpegTransmitIntervalCB (P : option mjpeg_data) : Z :=
  match P with Some p => mj_txInterval p | None => 0 end.

(** A 16-bit store and load without [htons], on a little-endian host. *)
Definition le16 (v : Z) : list Z := [u8 v; u8 (Z.shiftr v 8)].
Definition get16_host (buf : list Z) (i : Z) : res Z := l ← rd_list buf i 2; Ret (of_be (reverse l)).

Definition mjpeg_header (pData : list Z) : res (list Z) :=
  buf ← wr pData HIDX_FORMAT8 2;
  buf ← wr_list buf HIDX_FORMAT_SUBTYPE8 [0; 0];
  buf ← wr buf HIDX_RESV16 0;
  buf ← wr buf (HIDX_RESV16 + 1) 0;
  buf ← wr buf HIDX_M11_M01_EVT2_RESV2 0;
  wr buf HIDX_RESV8 0.

(** The time of the first fragment of a picture is kept for the others. *)
Definition mjpeg_stamp (a : media_q_item) (p : mjpeg_data) : mjpeg_data :=
  if mj_tsvalid p then p else with_stamp (openavbAvtpTimeGetAvtpTimestamp (pAvtpTime a)) true p.

Definition mjpeg_frame (a : media_q_item) (p : mjpeg_data) (buf : list Z) : res (list Z * mjpeg_data) :=
  buf ← stamp_flags (pAvtpTime a) buf;
  let p := mjpeg_stamp a p in
  buf ← wr_list buf HIDX_AVTP_TIMESPAMP32 (be32 (mj_timestamp p));
  lastFragment ← get_last a;
  buf ← wr buf HIDX_M11_M01_EVT2_RESV2 (if lastFragment : bool then Z.shiftl 1 4 else 0);
  let p := if lastFragment : bool then with_stamp (mj_timestamp p) false p else p in
  bs ← item_bytes a 0 (dataLen a);
  buf ← wr_list buf TOTAL_HEADER_SIZE bs;
  buf ← wr_list buf HIDX_STREAM_DATA_LEN16 (le16 (u16 (dataLen a)));
  Ret (buf, p).

Section Mjpeg.
Context {pf : Platform}.

Definition openavbMapMjpegInitialize (inMaxTransitUsec : Z) : mqM (bool * option mjpeg_data) :=
  c1 ← mq_call; c2 ← mq_call;
  if negb (calloc_ok c1) || negb (calloc_ok c2) then mret (false, None)
  else _ ← openavbMediaQSetMaxLatency inMaxTransitUsec; mret (true, Some (mjpeg_defaults inMaxTransitUsec)).

Definition openavbMapMjpegGenInitCB (P : option mjpeg_data) : mqM (option mjpeg_data) :=
  match P with
  | None => mret None
  | Some p =>
      let p := with_stamp 0 false p in
      _ ← openavbMediaQSetSize (s32 (mj_itemCount p)) ITEM_SIZE;
      _ ← openavbMediaQAllocItemMapData 1 0; mret (Some p)
  end.

Definition openavbMapMjpegTxCB (P : option mjpeg_data) (pData : list Z) (len : Z)
  : mqM (tx_cb_ret_t * list Z * Z * option mjpeg_data) :=
  match P with
  | None => mret (TX_CB_RET_PACKET_NOT_READY, pData, len, P)
  | Some p =>
      buf ← mq_lift (mjpeg_header pData);
      k ← openavbMediaQTailLock true;
      match k with
      | None => mret (TX_CB_RET_PACKET_NOT_READY, buf, 0, P)
      | Some k =>
          a ← item_read k;
          if 0 <? dataLen a then
            if ITEM_SIZE <? dataLen a
            then _ ← openavbMediaQTailPull; mret (TX_CB_RET_PACKET_NOT_READY, buf, len, P)
            else
              _ ← item_write k (fun a => with_time (openavbAvtpTimeAddUSec (pAvtpTime a) (mj_maxTransitUsec p)) a);
              a ← item_read k;
              '(buf, p) ← mq_lift (mjpeg_frame a p buf);
              _ ← openavbMediaQTailPull;
              mret (TX_CB_RET_PACKET_READY, buf, u32 (dataLen a + TOTAL_HEADER_SIZE), Some p)
          else _ ← openavbMediaQTailPull; mret (TX_CB_RET_PACKET_NOT_READY, buf, 0, P)
      end
  end.

(** The length that is checked is that of the frame, the one that is copied is that
    of the header. *)
Definition openavbMapMjpegRxCB (P : option mjpeg_data) (pData : list Z) (len : Z) : mqM (bool * option mjpeg_data) :=
  payloadLen ← mq_lift (get16_host pData HIDX_STREAM_DATA_LEN16);
  k ← openavbMediaQHeadLock;
  match k with
  | None => mret (false, P)
  | Some k =>
      n ← mq_call;
      a ← item_read k;
      t ← mq_lift (rx_time pData n (pAvtpTime a));
      _ ← item_write k (with_time t);
      marker ← mq_lift (rd pData HIDX_M11_M01_EVT2_RESV2);
      a ← mq_lift (put_last (Z.testbit marker 4) (with_time t a));
      _ ← item_write k (fun _ => a);
      a ← mq_lift (if u32 (len - TOTAL_HEADER_SIZE) <=? itemSize a then store_payload pData TOTAL_HEADER_SIZE payloadLen a
                   else Ret (with_len 0 a));
      _ ← item_write k (fun _ => a);
      _ ← openavbMediaQHeadPush;
      mret (true, P)
  end.

Definition mjpeg_cb : map_cb (option mjpeg_data) :=
  MapCB 3 0 openavbMapMjpegMaxDataSizeCB openavbMapMjpegTransmitIntervalCB mret openavbMapMjpegTxCB mret openavbMapMjpegRxCB.

End Mjpeg.
