(* ===== verification/MapCtrl.v ===== *)
(** * The control and null mappings (lib/avtp_pipeline/map_ctrl, map_null)

    The control mapping sends one message per frame behind a header of 28 bytes; the
    null mapping sends the time of each item and none of its data. *)

From S2P Require Import Prelude AvtpTime MediaQ AvtpMap MapPipe MapVideo.
From Stdlib Require Import ZArith Lia.
From stdpp Require Import base tactics list strings option.
Open Scope Z_scope.

(** ** Control *)

Definition SUBTYPE_HEADER_SIZE : Z := 12.
Definition OPENAVB_FORMAT_HEADER_SIZE : Z := 4.
Definition AVTP_HEADER_SIZE : Z := AVTP_V0_HEADER_SIZE + SUBTYPE_HEADER_SIZE.
Definition CTRL_TOTAL_HEADER_SIZE : Z := AVTP_HEADER_SIZE + OPENAVB_FORMAT_HEADER_SIZE.
Definition HIDX_AVTP_FORMAT_INFO32 : Z := 16.
Definition HIDX_AVTP_DATA_LENGTH16 : Z := 20.
Definition HIDX_PROTO4_RESERVED4 : Z := 22.
Definition HIDX_NUMMESS8 : Z := 23.
Definition HIDX_OPENAVB_CTRL_FORMAT8 : Z := 24.
Definition HIDX_OPENAVB_CTRL_DATALEN16 : Z := 25.
Definition HIDX_OPENAVB_RESERVEDA8 : Z := 27.
Definition MAP_CTRL_OPENAVB_FORMAT : Z := 0.

Record ctrl_data := CtrlData {
  c_itemCount : Z;
  c_txInterval : Z;
  c_maxPayloadSize : Z;
  c_maxDataSize : Z;
  c_itemSize : Z;
  c_maxTransitUsec : Z
}.

Definition ctrl_defaults (inMaxTransitUsec : Z) : ctrl_data :=
  CtrlData 20 0 1024 (1024 + CTRL_TOTAL_HEADER_SIZE) (1024 + CTRL_TOTAL_HEADER_SIZE) inMaxTransitUsec.

Definition openavbMapCtrlCfgCB (p : ctrl_data) (name value : string) : ctrl_data :=
  if decide (name = "map_nv_item_count"%string) then
    CtrlData (u32 (strtol value).1) (c_txInterval p) (c_maxPayloadSize p) (c_maxDataSize p) (c_itemSize p) (c_maxTransitUsec p)
  else if decide (name = "map_nv_tx_rate"%string \/ name = "map_nv_tx_interval"%string) then
    CtrlData (c_itemCount p) (u32 (strtol value).1) (c_maxPayloadSize p) (c_maxDataSize p) (c_itemSize p) (c_maxTransitUsec p)
  else if decide (name = "map_nv_max_payload_size"%string) then
    let payload := u32 (strtol value).1 in
    let size := u32 (payload + CTRL_TOTAL_HEADER_SIZE) in
    CtrlData (c_itemCount p) (c_txInterval p) payload size size (c_maxTransitUsec p)
  else p.

Definition openavbMapCtrlMaxDataSizeCB (P : option ctrl_data) : Z :=
  match P with Some p => u16 (c_maxDataSize p) | None => 0 end.
Definition openavbMapCtrlTransmitIntervalCB (P : option ctrl_data) : Z :=
  match P with Some p => c_txInterval p | None => 0 end.

Definition ctrl_frame (a : media_q_item) (buf : list Z) : res (list Z) :=
  buf ← stamp_flags (pAvtpTime a) buf;
  buf ← wr_list buf HIDX_AVTP_TIMESPAMP32 (be32 (openavbAvtpTimeGetAvtpTimestamp (pAvtpTime a)));
  buf ← wr_list buf HIDX_AVTP_FORMAT_INFO32 [0; 0; 0; 0];
  buf ← wr_list buf HIDX_AVTP_DATA_LENGTH16 (be16 (u16 (dataLen a + OPENAVB_FORMAT_HEADER_SIZE)));
  buf ← wr buf HIDX_PROTO4_RESERVED4 0xF0;
  buf ← wr buf HIDX_NUMMESS8 1;
  buf ← wr buf HIDX_OPENAVB_CTRL_FORMAT8 MAP_CTRL_OPENAVB_FORMAT;
  buf ← wr_list buf HIDX_OPENAVB_CTRL_DATALEN16 (be16 (u16 (dataLen a)));
  buf ← wr buf HIDX_OPENAVB_RESERVEDA8 0;
  bs ← item_bytes a 0 (dataLen a);
  wr_list buf CTRL_TOTAL_HEADER_SIZE bs.

(** What the listener stores; a message of another format leaves an empty item. *)
Definition ctrl_store (pData : list Z) (a : media_q_item) : res media_q_item :=
  format ← rd pData HIDX_OPENAVB_CTRL_FORMAT8;
  if format =? MAP_CTRL_OPENAVB_FORMAT then
    payloadLen ← get16 pData HIDX_OPENAVB_CTRL_DATALEN16;
    if payloadLen <=? itemSize a then store_payload pData CTRL_TOTAL_HEADER_SIZE payloadLen a else Ret (with_len 0 a)
  else Ret (with_len 0 a).

Section Ctrl.
Context {pf : Platform}.

Definition openavbMapCtrlInitialize (inMaxTransitUsec : Z) : mqM (bool * option ctrl_data) :=
  c1 ← mq_call; c2 ← mq_call;
  if negb (calloc_ok c1) || negb (calloc_ok c2) then mret (false, None)
  else _ ← openavbMediaQSetMaxLatency inMaxTransitUsec; mret (true, Some (ctrl_defaults inMaxTransitUsec)).

Definition openavbMapCtrlGenInitCB (P : option ctrl_data) : mqM unit :=
  match P with
  | None => mret tt
  | Some p => _ ← openavbMediaQSetSize (s32 (c_itemCount p)) (s32 (c_itemSize p)); mret tt
  end.

Definition openavbMapCtrlTxCB (P : option ctrl_data) (pData : list Z) (len : Z)
  : mqM (tx_cb_ret_t * list Z * Z * option ctrl_data) :=
  let not_ready := (TX_CB_RET_PACKET_NOT_READY, pData, len, P) in
  match P with
  | None => mret not_ready
  | Some p =>
      k ← openavbMediaQTailLock true;
      match k with
      | None => mret not_ready
      | Some k =>
          a ← item_read k;
          if 0 <? dataLen a then
            if c_maxPayloadSize p <? dataLen a
            then _ ← openavbMediaQTailPull; mret not_ready
            else
              _ ← item_write k (fun a => with_time (openavbAvtpTimeAddUSec (pAvtpTime a) (c_maxTransitUsec p)) a);
              a ← item_read k;
              buf ← mq_lift (ctrl_frame a pData);
              _ ← openavbMediaQTailPull;
              mret (TX_CB_RET_PACKET_READY, buf, u32 (dataLen a + CTRL_TOTAL_HEADER_SIZE), P)
          else _ ← openavbMediaQTailPull; mret not_ready
      end
  end.

Definition openavbMapCtrlRxCB (P : option ctrl_data) (pData : list Z) (len : Z) : mqM (bool * option ctrl_data) :=
  match P with
  | None => mret (false, P)
  | Some p =>
      k ← openavbMediaQHeadLock;
      match k with
      | None => mret (false, P)
      | Some k =>
          n ← mq_call;
          a ← item_read k;
          t ← mq_lift (rx_time pData n (pAvtpTime a));
          _ ← item_write k (with_time t);
          a ← mq_lift (ctrl_store pData (with_time t a));
          _ ← item_write k (fun _ => a);
          _ ← openavbMediaQHeadPush;
          mret (true, P)
      end
  end.

Definition ctrl_cb : map_cb (option ctrl_data) :=
  MapCB 4 0 openavbMapCtrlMaxDataSizeCB openavbMapCtrlTransmitIntervalCB mret openavbMapCtrlTxCB mret openavbMapCtrlRxCB.

End Ctrl.

(** ** Null *)

Definition NULL_MAX_PAYLOAD_SIZE : Z := 14.
Definition NULL_MAX_DATA_SIZE : Z := NULL_MAX_PAYLOAD_SIZE + TOTAL_HEADER_SIZE.
Definition NULL_ITEM_SIZE : Z := NULL_MAX_DATA_SIZE.
Definition NULL_HIDX_OPENAVB_RESERVEDA8 : Z := 17.
Definition HIDX_OPENAVB_RESERVEDB8 : Z := 18.
Definition HIDX_OPENAVB_RESERVEDC8 : Z := 19.
Definition HIDX_OPENAVB_FORMAT_SPEC32 : Z := 20.
Definition MAP_NULL_OPENAVB_FORMAT : Z := 0.

Record null_data := NullData {
  n_itemCount : Z;
  n_txInterval : Z;
  n_maxTransitUsec : Z
}.

Definition null_defaults (inMaxTransitUsec : Z) : null_data := NullData 20 0 inMaxTransitUsec.

Definition openavbMapNullCfgCB (p : null_data) (name value : string) : null_data :=
  if decide (name = "map_nv_item_count"%string) then NullData (u32 (strtol value).1) (n_txInterval p) (n_maxTransitUsec p)
  else if decide (name = "map_nv_tx_rate"%string \/ name = "map_nv_tx_interval"%string)
  then NullData (n_itemCount p) (u32 (strtol value).1) (n_maxTransitUsec p)
  else p.

Definition openavbMapNullMaxDataSizeCB (P : option null_data) : Z := u16 NULL_MAX_DATA_SIZE.
Definition openavbMapNullTransmitIntervalCB (P : option null_data) : Z :=
  match P with Some p => n_txInterval p | None => 0 end.

Definition null_frame (a : media_q_item) (buf : list Z) : res (list Z) :=
  buf ← stamp_flags (pAvtpTime a) buf;
  buf ← wr_list buf HIDX_AVTP_TIMESPAMP32 (be32 (openavbAvtpTimeGetAvtpTimestamp (pAvtpTime a)));
  buf ← wr buf HIDX_OPENAVB_FORMAT8 MAP_NULL_OPENAVB_FORMAT;
  buf ← wr buf NULL_HIDX_OPENAVB_RESERVEDA8 0;
  buf ← wr buf HIDX_OPENAVB_RESERVEDB8 0;
  buf ← wr buf HIDX_OPENAVB_RESERVEDC8 0;
  wr_list buf HIDX_OPENAVB_FORMAT_SPEC32 [0; 0; 0; 0].

Section Null.
Context {pf : Platform}.

Definition openavbMapNullInitialize (inMaxTransitUsec : Z) : mqM (bool * option null_data) :=
  c1 ← mq_call; c2 ← mq_call;
  if negb (calloc_ok c1) || negb (calloc_ok c2) then mret (false, None)
  else _ ← openavbMediaQSetMaxLatency inMaxTransitUsec; mret (true, Some (null_defaults inMaxTransitUsec)).

Definition openavbMapNullGenInitCB (P : option null_data) : mqM unit :=
  match P with
  | None => mret tt
  | Some p => _ ← openavbMediaQSetSize (s32 (n_itemCount p)) NULL_ITEM_SIZE; mret tt
  end.

Definition openavbMapNullTxCB (P : option null_data) (pData : list Z) (len : Z)
  : mqM (tx_cb_ret_t * list Z * Z * option null_data) :=
  match P with
  | None => mret (TX_CB_RET_PACKET_NOT_READY, pData, len, P)
  | Some p =>
      k ← openavbMediaQTailLock true;
      match k with
      | None => mret (TX_CB_RET_PACKET_NOT_READY, pData, len, P)
      | Some k =>
          _ ← item_write k (fun a => with_time (openavbAvtpTimeAddUSec (pAvtpTime a) (n_maxTransitUsec p)) a);
          a ← item_read k;
          buf ← mq_lift (null_frame a pData);
          _ ← openavbMediaQTailPull;
          mret (TX_CB_RET_PACKET_READY, buf, TOTAL_HEADER_SIZE, P)
      end
  end.

(** The listener does not look at the module's data. *)
Definition openavbMapNullRxCB (P : option null_data) (pData : list Z) (len : Z) : mqM (bool * option null_data) :=
  k ← openavbMediaQHeadLock;
  match k with
  | None => mret (false, P)
  | Some k =>
      n ← mq_call;
      a ← item_read k;
      t ← mq_lift (rx_time pData n (pAvtpTime a));
      _ ← item_write k (with_time t);
      _ ← item_write k (with_len 0);
      _ ← openavbMediaQHeadPush;
      mret (true, P)
  end.

Definition null_cb : map_cb (option null_data) :=
  MapCB 0x7F 0 openavbMapNullMaxDataSizeCB openavbMapNullTransmitIntervalCB mret openavbMapNullTxCB mret openavbMapNullRxCB.

End Null.
