(* ===== verification/MapVideoProps.v ===== *)
(** * The video mappings: frames and items

    The bytes of a frame and what they say, the exact effect of the callbacks of both
    modules, and their instances of the contract of [ItemMap]. *)

From S2P Require Import Prelude AvtpTime MediaQ MediaQProps AvtpMap MapPipe ItemMap MapVideo.
From Stdlib Require Import ZArith Lia.
From stdpp Require Import base tactics list option.
Open Scope Z_scope.

(** ** Items *)

Definition item_data (x : media_q_item) : list Z := take (Z.to_nat (dataLen x)) (default [] (pPubData x)).
Definition last_of (x : media_q_item) : bool :=
  match pPubMapData x with Some (b :: _) => negb (b =? 0) | _ => false end.

(** An item that a talker can send: data of at most [max] bytes and a flag. *)
Definition video_item (max : Z) (x : media_q_item) : Prop :=
  exists d m0 m, pPubData x = Some d /\ bytes_ok d /\ 0 < dataLen x <= max /\ dataLen x <= Zlen d
    /\ pPubMapData x = Some (m0 :: m).

(** A free item with room for what a frame carries. *)
Definition video_room (n : Z) (h : media_q_item) : Prop :=
  exists d m0 m, pPubData h = Some d /\ n <= itemSize h <= Zlen d /\ pPubMapData h = Some (m0 :: m).
Definition video_fits (v : frame_view) (h : media_q_item) : Prop := video_room (Zlen (fv_bytes v)) h.

(** What the talker does to the time of an item. *)
Definition stamped (usec : Z) (x : media_q_item) : media_q_item :=
  with_time (openavbAvtpTimeAddUSec (pAvtpTime x) usec) x.

(** What an item says in a frame with the timestamp [ts]. *)
Definition view_of (ts : Z) (x : media_q_item) : frame_view :=
  FrameView ts (openavbAvtpTimeTimestampIsValid (pAvtpTime x)) (openavbAvtpTimeTimestampIsUncertain (pAvtpTime x))
    (last_of x) (item_data x).

(** The item that a listener makes of the free item [h]. *)
Definition video_store {pf : Platform} (n : nat) (v : frame_view) (h : media_q_item) : media_q_item :=
  with_data (fv_bytes v ++ drop (length (fv_bytes v)) (default [] (pPubData h))) (Zlen (fv_bytes v))
    (with_pubmap ((if fv_last v then 1 else 0) :: tail (default [] (pPubMapData h)))
       (with_time (arrival_time n v (pAvtpTime h)) h)).

(** ** Frames *)

(** A frame of 24 bytes of header and the data; [len16] is how the length is written. *)
Definition video_frame (len16 : Z -> list Z) (f : list Z) (v : frame_view) : Prop :=
  exists b0 b1 b2 b3 sid fmt m r,
    f = [b0; flag_byte b1 (fv_valid v); b2; flag_byte b3 (fv_uncertain v)] ++ sid ++ be32 (fv_stamp v) ++ fmt
          ++ len16 (Zlen (fv_bytes v)) ++ [m; r] ++ fv_bytes v
    /\ length sid = 8%nat /\ length fmt = 4%nat /\ Z.testbit m 4 = fv_last v
    /\ 0 <= fv_stamp v < 4294967296 /\ Zlen (fv_bytes v) < 65536 /\ bytes_ok (fv_bytes v).

(** The header in front of the rest of a buffer. *)
Definition video_hdr (len16 : Z -> list Z) b0 b1 b2 b3 (sid fmt : list Z) (m r : Z) (v : frame_view) : list Z :=
  [b0; flag_byte b1 (fv_valid v); b2; flag_byte b3 (fv_uncertain v)] ++ sid ++ be32 (fv_stamp v) ++ fmt
    ++ len16 (Zlen (fv_bytes v)) ++ [m; r].

Lemma le16_len v : length (le16 v) = 2%nat. Proof. done. Qed.
Lemma le16_ok v : bytes_ok (le16 v).
Proof. unfold le16. repeat constructor; apply u8_range. Qed.
Lemma of_le16 v : of_be (reverse (le16 v)) = u16 v.
Proof. change (reverse (le16 v)) with (be16 v). apply of_be16. Qed.

Lemma avtp_stamp_range t : 0 <= openavbAvtpTimeGetAvtpTimestamp t < 4294967296.
Proof. destruct t as [t|]; [|done]. cbn [openavbAvtpTimeGetAvtpTimestamp]. rewrite x_getTimestamp_mod. apply u32_range. Qed.

Lemma get_last_ok x m0 m : pPubMapData x = Some (m0 :: m) -> get_last x = Ret (last_of x).
Proof. intros H. unfold get_last, last_of. by rewrite H. Qed.

Lemma item_data_len x d : pPubData x = Some d -> 0 <= dataLen x <= Zlen d -> Zlen (item_data x) = dataLen x.
Proof. intros Hd Hl. unfold item_data. rewrite Hd. cbn. rewrite length_take. unfold id. lia. Qed.

Lemma item_bytes_all x d : pPubData x = Some d -> 0 <= dataLen x <= Zlen d -> item_bytes x 0 (dataLen x) = Ret (item_data x).
Proof. intros Hd Hl. unfold item_bytes, item_data. rewrite Hd. by rewrite rd_list_slice by lia. Qed.

Lemma item_data_ok x d : pPubData x = Some d -> bytes_ok d -> bytes_ok (item_data x).
Proof. intros Hd Hb. unfold item_data. rewrite Hd. by apply Forall_take. Qed.

(** The first 24 bytes of a buffer, one by one. *)
Lemma buf_split (f : list Z) : 24 <= Zlen f ->
  exists b0 b1 b2 b3 sid ts fmt ln m r rest, f = [b0; b1; b2; b3] ++ sid ++ ts ++ fmt ++ ln ++ [m; r] ++ rest
    /\ length sid = 8%nat /\ length ts = 4%nat /\ length fmt = 4%nat /\ length ln = 2%nat /\ Zlen rest = Zlen f - 24.
Proof.
  intros Hl. do 24 (destruct f as [|? f]; [cbn in Hl; lia|]).
  eexists _, _, _, _, [_; _; _; _; _; _; _; _], [_; _; _; _], [_; _; _; _], [_; _], _, _, f.
  split; [reflexivity|]. cbn in *. lia.
Qed.

(** One more write, to known bytes in front of a tail. *)
Ltac hdr_wr := rewrite wr_ok by buf_len; rewrite ?res_bind_ret; buf_nat; cbn [insert list_insert].

(** The header, written before the data; [len16] is written after it. *)
Lemma payload_write pre x d v buf :
  pPubData x = Some d -> bytes_ok d -> 0 <= dataLen x <= Zlen d -> dataLen x <= Zlen buf -> v = Zlen pre ->
  (bs ← item_bytes x 0 (dataLen x); wr_list (pre ++ buf) v bs) = Ret (pre ++ item_data x ++ drop (length (item_data x)) buf).
Proof.
  intros Hd Hb Hl Hbuf ->. rewrite (item_bytes_all x d), res_bind_ret by done.
  pose proof (item_data_len x d Hd Hl) as Hn. rewrite <- (take_drop (length (item_data x)) buf) at 1.
  apply wr_list_app; [done|rewrite length_take; lia|by eapply item_data_ok].
Qed.

(** Header proofs of a buffer opened into its first 24 bytes. *)
Ltac hdr_open f Hl :=
  do 24 (destruct f as [|? f]; [cbn [length] in Hl; lia|]).
Ltac hdr_payload x d Hd Hb :=
  rewrite (item_bytes_all x d), res_bind_ret by (done || lia);
  rewrite wr_list_slice; [|done|rewrite (item_data_len x d) by (done || lia); cbn [length] in *; lia|by eapply item_data_ok];
  rewrite ?res_bind_ret; buf_nat; cbn [Nat.add take drop app length be32 be16].

Lemma hdr_take (pre data rest : list Z) (n : Z) : Zlen pre + Zlen data = n -> take (Z.to_nat n) (pre ++ data ++ rest) = pre ++ data.
Proof. intros H. rewrite app_assoc. apply take_app_length'. rewrite length_app. lia. Qed.

(** Such a buffer, cut to the length that is reported, is a frame of the item. *)
Lemma hdr_frame len16 b0 b1 b2 b3 sid fmt m r x max ts rest :
  video_item max x -> max < 65536 -> (forall v, length (len16 v) = 2%nat) -> length sid = 8%nat -> length fmt = 4%nat ->
  Z.testbit m 4 = last_of x -> 0 <= ts < 4294967296 ->
  video_frame len16 (take (Z.to_nat (dataLen x + 24))
    (([b0; flag_byte b1 (openavbAvtpTimeTimestampIsValid (pAvtpTime x)); b2;
       flag_byte b3 (openavbAvtpTimeTimestampIsUncertain (pAvtpTime x))] ++ sid ++ be32 ts ++ fmt
      ++ len16 (dataLen x) ++ [m; r]) ++ item_data x ++ rest)) (view_of ts x).
Proof.
  intros (d & m0 & m' & Hd & Hb & Hn & Hdl & Hm) Hmax Hlen Hs Hf Hbit Hts.
  pose proof (item_data_len x d Hd ltac:(lia)) as Hdat. rewrite hdr_take.
  - exists b0, b1, b2, b3, sid, fmt, m, r. cbn [view_of fv_valid fv_uncertain fv_stamp fv_bytes fv_last].
    rewrite Hdat, <- !app_assoc. split_and!; try done; try lia. by eapply item_data_ok.
  - rewrite !length_app, Hs, Hf, Hlen. cbn [length be32]. lia.
Qed.

Lemma h264_frame_spec x max buf :
  video_item max x -> max < 65536 -> 24 + dataLen x <= Zlen buf ->
  exists buf1 buf', h264_header buf = Ret buf1 /\ h264_frame x buf1 = Ret buf' /\ length buf' = length buf
    /\ video_frame be16 (take (Z.to_nat (dataLen x + 24)) buf') (view_of (openavbAvtpTimeGetAvtpTimestamp (pAvtpTime x)) x).
Proof.
  intros (d & m0 & m & Hd & Hb & Hn & Hdl & Hm) Hmax Hl. hdr_open buf Hl.
  unfold h264_header, HIDX_FORMAT8, HIDX_FORMAT_SUBTYPE8, HIDX_RESV16, HIDX_RESV8.
  do 4 hdr_wr. eexists _. unfold h264_frame, stamp_flags, HIDX_AVTP_HIDE7_TV1, HIDX_AVTP_HIDE7_TU1,
    HIDX_AVTP_TIMESPAMP32, HIDX_M31_M21_M11_M01_EVT2_RESV2, HIDX_STREAM_DATA_LEN16.
  eexists. split; [reflexivity|]. rewrite res_bind_assoc. do 2 buf_flag. buf_write.
  rewrite (get_last_ok x m0 m), res_bind_ret by done. hdr_wr.
  change TOTAL_HEADER_SIZE with 24. buf_nat. hdr_payload x d Hd Hb.
  rewrite wr_list_slice; [|lia|buf_len|apply be16_ok]. buf_nat. cbn [Nat.add take drop app length be16].
  split; [reflexivity|]. rewrite u16_id by lia. split.
  - pose proof (item_data_len x d Hd ltac:(lia)). cbn [length] in *. rewrite take_0, !length_app, length_drop. cbn [length]. lia.
  - apply (hdr_frame be16 z z0 z1 z2 [z3; z4; z5; z6; z7; z8; z9; z10] [u8 2; u8 1; u8 0; z18] (u8 (if last_of x then 16 else 0)) (u8 0)
      x max); try done; [by exists d, m0, m|by destruct (last_of x)|apply avtp_stamp_range].
Qed.

(** The state of the Motion JPEG talker after an item, and the timestamp it sends. *)
Definition picture_time (p : mjpeg_data) (x : media_q_item) : Z :=
  if mj_tsvalid p then mj_timestamp p else openavbAvtpTimeGetAvtpTimestamp (pAvtpTime x).
Definition mjpeg_next (p : mjpeg_data) (x : media_q_item) : mjpeg_data :=
  with_stamp (picture_time p x) (negb (last_of x)) p.

Lemma mjpeg_stamp_time x p : mj_timestamp (mjpeg_stamp x p) = picture_time p x.
Proof. unfold mjpeg_stamp, picture_time. by destruct (mj_tsvalid p). Qed.
Lemma mjpeg_stamp_next x p :
  (if last_of x then with_stamp (mj_timestamp (mjpeg_stamp x p)) false (mjpeg_stamp x p) else mjpeg_stamp x p) = mjpeg_next p x.
Proof.
  unfold mjpeg_stamp, mjpeg_next, picture_time, with_stamp. destruct p as [? ? ? ? tv]. cbn. by destruct tv, (last_of x).
Qed.

Lemma mjpeg_frame_spec x max p buf :
  video_item max x -> max < 65536 -> 24 + dataLen x <= Zlen buf -> 0 <= picture_time p x < 4294967296 ->
  exists buf1 buf', mjpeg_header buf = Ret buf1 /\ mjpeg_frame x p buf1 = Ret (buf', mjpeg_next p x) /\ length buf' = length buf
    /\ video_frame le16 (take (Z.to_nat (dataLen x + 24)) buf') (view_of (picture_time p x) x).
Proof.
  intros (d & m0 & m & Hd & Hb & Hn & Hdl & Hm) Hmax Hl Hts. hdr_open buf Hl.
  unfold mjpeg_header, HIDX_FORMAT8, HIDX_FORMAT_SUBTYPE8, HIDX_RESV16, HIDX_RESV8, HIDX_M11_M01_EVT2_RESV2.
  change (18 + 1) with 19. hdr_wr. buf_write. do 4 hdr_wr. eexists _. unfold mjpeg_frame, stamp_flags, HIDX_AVTP_HIDE7_TV1, HIDX_AVTP_HIDE7_TU1,
    HIDX_AVTP_TIMESPAMP32, HIDX_M11_M01_EVT2_RESV2, HIDX_STREAM_DATA_LEN16. cbv zeta.
  eexists. split; [reflexivity|]. rewrite res_bind_assoc. do 2 buf_flag. rewrite mjpeg_stamp_time. buf_write.
  rewrite (get_last_ok x m0 m), res_bind_ret by done. hdr_wr.
  change TOTAL_HEADER_SIZE with 24. buf_nat. hdr_payload x d Hd Hb.
  rewrite wr_list_slice; [|lia|unfold le16; buf_len|apply le16_ok]. rewrite res_bind_ret. buf_nat.
  cbn [Nat.add take drop app length le16]. rewrite <- mjpeg_stamp_time, mjpeg_stamp_next, mjpeg_stamp_time.
  split; [reflexivity|]. rewrite u16_id by lia. split.
  - pose proof (item_data_len x d Hd ltac:(lia)). cbn [length] in *. rewrite take_0, !length_app, length_drop. cbn [length]. lia.
  - apply (hdr_frame le16 z z0 z1 z2 [z3; z4; z5; z6; z7; z8; z9; z10] [u8 2; u8 0; u8 0; u8 0]
      (u8 (if last_of x then Z.shiftl 1 4 else 0)) (u8 0) x max); try done; [by exists d, m0, m|by destruct (last_of x)].
Qed.

(** ** The steps that the modules share *)

Section Steps.
Context {pf : Platform}.

(** A talker that finds an item with data of at most [max] bytes sets its time and
    goes on with it. *)
Lemma tx_item_steps {R} usec max (F : media_q_item -> mqM R) (E0 E1 E2 : mqM R) s a x c (Q : R -> mq_st -> Prop) :
  mq_refines s a -> f_held a = x :: c -> 0 < dataLen x <= max ->
  (forall s1, mq_refines s1 (Fifo (stamped usec x :: c) (f_free a) (f_tick a) (f_stale a)) ->
     mq_returns (F (stamped usec x)) s1 Q) ->
  mq_returns (k ← openavbMediaQTailLock true;
    match k with
    | None => E0
    | Some k =>
        a ← item_read k;
        if 0 <? dataLen a then
          if max <? dataLen a then E1
          else _ ← item_write k (fun a => with_time (openavbAvtpTimeAddUSec (pAvtpTime a) usec) a);
               a ← item_read k; F a
        else E2
    end) s Q.
Proof.
  intros Hs Hh Hn HF. eapply mq_bind; [by apply tail_lock_spec|]. intros k s1. unfold fifo_lock_tail. rewrite Hh.
  intros [H1 (n & -> & Hn1 & _)].
  eapply mq_bind; [by eapply tail_read_spec|]. intros y s2 [-> ->].
  rewrite (proj2 (Z.ltb_lt _ _)), (proj2 (Z.ltb_ge _ _)) by lia.
  eapply mq_bind; [by eapply (tail_write_spec _ _ H1 _ (stamped usec))|]. intros [] s2 [H2 Hn2].
  unfold fifo_write_tail in H2. rewrite Hh in H2.
  eapply mq_bind; [by eapply (tail_read_spec _ _ H2 n (stamped usec x) c)|]. intros y s3 [-> ->]. by apply HF.
Qed.

(** It then fills the frame and gives the item back. *)
Lemma tx_pull_steps {R} (r : R) s x c f n st (Q : R -> mq_st -> Prop) :
  mq_refines s (Fifo (x :: c) f n st) ->
  (forall s', mq_refines s' (Fifo c (f ++ [clear_data x]) n st) -> Q r s') ->
  mq_returns (_ ← openavbMediaQTailPull; mret r) s Q.
Proof. intros Hs HQ. eapply mq_bind; [by apply tail_pull_spec|]. intros ok s' [_ H']. by apply mq_ret, HQ. Qed.

(** A listener with a free item sets its time and flag, stores into it and pushes it. *)
Lemma rx_item_steps {P} (p : P) pData mk (store : media_q_item -> res media_q_item) s a h f t b m0 m y :
  mq_refines s a -> f_free a = h :: f -> pPubMapData h = Some (m0 :: m) ->
  rx_time pData (f_tick a) (pAvtpTime h) = Ret t -> rd pData mk = Ret b ->
  store (with_pubmap ((if Z.testbit b 4 then 1 else 0) :: m) (with_time t h)) = Ret y -> taken y = taken h ->
  mq_returns (k ← openavbMediaQHeadLock;
    match k with
    | None => mret (false, p)
    | Some k =>
        n ← mq_call;
        a ← item_read k;
        t ← mq_lift (rx_time pData n (pAvtpTime a));
        _ ← item_write k (with_time t);
        marker ← mq_lift (rd pData mk);
        a ← mq_lift (put_last (Z.testbit marker 4) (with_time t a));
        _ ← item_write k (fun _ => a);
        a ← mq_lift (store a);
        _ ← item_write k (fun _ => a);
        _ ← openavbMediaQHeadPush;
        mret (true, p)
    end) s (fun r s' => r = (true, p)
      /\ mq_refines s' (Fifo (f_held a ++ [clear_read y]) f (S (f_tick a)) (f_stale a))).
Proof.
  intros Hs Hf Hm Ht Hb Hst Htk. eapply mq_bind; [by apply head_lock_spec|]. rewrite Hf. intros k s1 [H1 (n & -> & Hn)].
  apply mq_bind_call. pose proof (proj1 H1) as Htick. rewrite Htick.
  pose proof (refines_call _ _ H1) as H2. rewrite Htick in H2. unfold fifo_call in H2. rewrite Hf in H2.
  eapply mq_bind; [by eapply (head_read_spec _ _ H2)|]. intros z s3 [-> ->].
  eapply mq_bind_lift; [exact Ht|].
  eapply mq_bind; [by eapply (head_write_spec _ _ H2)|]. intros [] s3 [H3 Hn3]. cbn [fifo_write_head f_free] in H3.
  eapply mq_bind_lift; [exact Hb|]. set (h1 := with_pubmap _ _) in *.
  eapply (mq_bind_lift _ _ _ h1). { unfold put_last. cbn [pPubMapData with_time]. rewrite Hm. by destruct (Z.testbit b 4). }
  eapply mq_bind; [by eapply (head_write_spec _ _ H3)|]. intros [] s4 [H4 Hn4]. cbn [fifo_write_head f_free] in H4.
  eapply mq_bind_lift; [exact Hst|].
  eapply mq_bind; [by eapply (head_write_spec _ _ H4)|]. intros [] s5 [H5 Hn5]. cbn [fifo_write_head f_free] in H5.
  eapply mq_bind; [by apply (head_push_spec _ _ H5)|]. intros ok s6 [_ H6]. by apply mq_ret.
Qed.

(** What the listener reads of a frame. *)
Lemma video_frame_reads len16 f v :
  video_frame len16 f v -> (forall n, length (len16 n) = 2%nat) ->
  (forall n t, rx_time f n t = Ret (arrival_time n v t)) /\ (exists m, rd f 22 = Ret m /\ Z.testbit m 4 = fv_last v)
  /\ rd_list f 20 2 = Ret (len16 (Zlen (fv_bytes v))) /\ rd_list f 24 (length (fv_bytes v)) = Ret (fv_bytes v)
  /\ Zlen f = 24 + Zlen (fv_bytes v).
Proof.
  intros (b0 & b1 & b2 & b3 & sid & fmt & m & r & -> & Hs & Hf & Hm & Ht & Hb & _) Hlen.
  do 8 (destruct sid as [|? sid]; [done|]). destruct sid; [|done].
  do 4 (destruct fmt as [|? fmt]; [done|]). destruct fmt; [|done].
  specialize (Hlen (Zlen (fv_bytes v))). destruct (len16 (Zlen (fv_bytes v))) as [|l0 [|l1 [|]]]; try done.
  split_and!.
  - intros n t. unfold rx_time. rewrite (app_assoc [_; _; _; _] [_; _; _; _; _; _; _; _]).
    rewrite get32_at, res_bind_ret, u32_id by done. cbn [app].
    rewrite (rd_lookup _ HIDX_AVTP_HIDE7_TV1 (flag_byte b1 (fv_valid v))), res_bind_ret by done.
    rewrite (rd_lookup _ HIDX_AVTP_HIDE7_TU1 (flag_byte b3 (fv_uncertain v))), res_bind_ret by done.
    by rewrite !flag_byte_bit.
  - exists m. split; [|done]. by apply rd_lookup.
  - rewrite rd_list_slice; [done|done|cbn [length app be32]; lia].
  - rewrite !app_assoc. rewrite <- (app_nil_r (fv_bytes v)) at 1. rewrite app_assoc, <- (app_assoc _ (fv_bytes v)). by apply rd_list_app.
  - cbn [length app be32]. lia.
Qed.

Lemma store_payload_spec f v h d :
  rd_list f 24 (length (fv_bytes v)) = Ret (fv_bytes v) -> bytes_ok (fv_bytes v) -> pPubData h = Some d ->
  Zlen (fv_bytes v) <= Zlen d ->
  store_payload f TOTAL_HEADER_SIZE (Zlen (fv_bytes v)) h
  = Ret (with_data (fv_bytes v ++ drop (length (fv_bytes v)) (default [] (pPubData h))) (Zlen (fv_bytes v)) h).
Proof.
  intros Hr Hb Hd Hl. unfold store_payload. rewrite Nat2Z.id. change TOTAL_HEADER_SIZE with 24. rewrite Hr, res_bind_ret.
  unfold put_bytes. rewrite Hd. cbn [from_option]. by rewrite wr_list_slice, res_bind_ret by (done || lia).
Qed.

End Steps.

(** ** The contract *)

Definition h264_send (P : option h264_data) (x : media_q_item) : frame_view * option h264_data :=
  let y := stamped (match P with Some p => h_maxTransitUsec p | None => 0 end) x in
  (view_of (openavbAvtpTimeGetAvtpTimestamp (pAvtpTime y)) y, P).
Definition h264_room (P : option h264_data) : Z := match P with Some p => 24 + h_itemSize p | None => 24 end.
Definition h264_ready (P : option h264_data) (x : media_q_item) : Prop :=
  exists p, P = Some p /\ h_itemSize p < 65536 /\ video_item (h_itemSize p) x.

Definition mjpeg_send (P : option mjpeg_data) (x : media_q_item) : frame_view * option mjpeg_data :=
  match P with
  | None => (view_of 0 x, P)
  | Some p => let y := stamped (mj_maxTransitUsec p) x in (view_of (picture_time p y) y, Some (mjpeg_next p y))
  end.
Definition mjpeg_ready (P : option mjpeg_data) (x : media_q_item) : Prop :=
  exists p, P = Some p /\ 0 <= mj_timestamp p < 4294967296 /\ video_item ITEM_SIZE x.

Lemma picture_time_range p x : 0 <= mj_timestamp p < 4294967296 -> 0 <= picture_time p x < 4294967296.
Proof. intros H. unfold picture_time. destruct (mj_tsvalid p); [done|apply avtp_stamp_range]. Qed.

Lemma item_stamped max usec x : video_item max x -> video_item max (stamped usec x).
Proof. done. Qed.

Lemma item_bounds max x : video_item max x -> 0 < dataLen x <= max.
Proof. by intros (? & ? & ? & ? & ? & ? & _). Qed.

Section Contract.
Context {pf : Platform}.

Lemma h264_tx_item P s a x c buf len :
  mq_refines s a -> f_held a = x :: c -> h264_ready P x -> h264_room P <= Zlen buf ->
  mq_returns (openavbMapH264TxCB P buf len) s (fun '(r, buf', len', P') s' =>
    r = TX_CB_RET_PACKET_READY /\ P' = P /\ len' = dataLen x + 24 /\ length buf' = length buf
    /\ video_frame be16 (take (Z.to_nat len') buf') (h264_send P x).1
    /\ exists x', mq_refines s' (Fifo c (f_free a ++ [x']) (f_tick a) (f_stale a))).
Proof.
  intros Hs Hh (p & -> & H16 & Hx) Hb. pose proof (item_bounds _ _ Hx) as Hn. cbn [openavbMapH264TxCB h264_room] in *.
  destruct (h264_frame_spec (stamped (h_maxTransitUsec p) x) (h_itemSize p) buf) as (buf1 & buf' & E1 & E2 & Hl & Hf); [done|done|cbn; lia|].
  eapply mq_bind_lift; [exact E1|]. eapply tx_item_steps; [done..|]. intros s1 H1.
  eapply mq_bind_lift; [exact E2|]. eapply tx_pull_steps; [exact H1|]. intros s2 H2. cbn [dataLen stamped with_time] in *.
  assert (u32 (dataLen x + TOTAL_HEADER_SIZE) = dataLen x + 24) as ->. { change TOTAL_HEADER_SIZE with 24. apply u32_id. lia. }
  split_and!; try done. by eexists.
Qed.

Lemma mjpeg_tx_item p s a x c buf len :
  mq_refines s a -> f_held a = x :: c -> mjpeg_ready (Some p) x -> 24 + ITEM_SIZE <= Zlen buf ->
  mq_returns (openavbMapMjpegTxCB (Some p) buf len) s (fun '(r, buf', len', P') s' =>
    r = TX_CB_RET_PACKET_READY /\ P' = (mjpeg_send (Some p) x).2 /\ len' = dataLen x + 24 /\ length buf' = length buf
    /\ video_frame le16 (take (Z.to_nat len') buf') (mjpeg_send (Some p) x).1
    /\ exists x', mq_refines s' (Fifo c (f_free a ++ [x']) (f_tick a) (f_stale a))).
Proof.
  intros Hs Hh (p' & [= <-] & Hts & Hx) Hb. pose proof (item_bounds _ _ Hx) as Hn. cbn [openavbMapMjpegTxCB].
  unfold ITEM_SIZE, MAX_JPEG_PAYLOAD_SIZE in *.
  destruct (mjpeg_frame_spec (stamped (mj_maxTransitUsec p) x) 1412 p buf) as (buf1 & buf' & E1 & E2 & Hl & Hf);
    [done|done|cbn; lia|by apply picture_time_range|].
  eapply mq_bind_lift; [exact E1|]. eapply tx_item_steps; [done..|]. intros s1 H1.
  eapply mq_bind_lift; [exact E2|]. eapply tx_pull_steps; [exact H1|]. intros s2 H2. cbn [dataLen stamped with_time] in *.
  assert (u32 (dataLen x + TOTAL_HEADER_SIZE) = dataLen x + 24) as ->. { change TOTAL_HEADER_SIZE with 24. apply u32_id. lia. }
  split_and!; try done. by eexists.
Qed.

Lemma h264_rx_item P s a h f fr v :
  mq_refines s a -> f_free a = h :: f -> video_fits v h -> video_frame be16 fr v ->
  mq_returns (openavbMapH264RxCB P fr (Zlen fr)) s (fun r s' => r = (true, P)
    /\ mq_refines s' (Fifo (f_held a ++ [clear_read (video_store (f_tick a) v h)]) f (S (f_tick a)) (f_stale a))).
Proof.
  intros Hs Hf (d & m0 & m & Hd & Hsz & Hm) Hfr. pose proof Hfr as (_ & _ & _ & _ & _ & _ & _ & _ & _ & _ & _ & _ & _ & H16 & Hb).
  destruct (video_frame_reads _ _ _ Hfr be16_len) as (Ht & (b & Hb22 & Hbit) & Hlen & Hdat & Hl). unfold openavbMapH264RxCB.
  eapply mq_bind_lift. { unfold get16, HIDX_STREAM_DATA_LEN16. by rewrite Hlen, res_bind_ret, of_be16, u16_id by lia. }
  change TOTAL_HEADER_SIZE with 24. rewrite Hl, u32_id, (proj2 (Z.ltb_ge _ _)) by lia.
  eapply (rx_item_steps P fr 22 (fun a => if Zlen (fv_bytes v) <=? itemSize a then store_payload fr 24 (Zlen (fv_bytes v)) a else Ret (with_len 0 a)));
    [done..|apply Ht|done| |done].
  cbn [itemSize with_pubmap with_time]. rewrite (proj2 (Z.leb_le _ _)) by lia.
  rewrite (store_payload_spec fr v _ d) by (done || lia). unfold video_store. by rewrite Hbit, Hm.
Qed.

Lemma mjpeg_rx_item P s a h f fr v :
  mq_refines s a -> f_free a = h :: f -> video_fits v h -> video_frame le16 fr v ->
  mq_returns (openavbMapMjpegRxCB P fr (Zlen fr)) s (fun r s' => r = (true, P)
    /\ mq_refines s' (Fifo (f_held a ++ [clear_read (video_store (f_tick a) v h)]) f (S (f_tick a)) (f_stale a))).
Proof.
  intros Hs Hf (d & m0 & m & Hd & Hsz & Hm) Hfr. pose proof Hfr as (_ & _ & _ & _ & _ & _ & _ & _ & _ & _ & _ & _ & _ & H16 & Hb).
  destruct (video_frame_reads _ _ _ Hfr le16_len) as (Ht & (b & Hb22 & Hbit) & Hlen & Hdat & Hl). unfold openavbMapMjpegRxCB.
  eapply mq_bind_lift. { unfold get16_host, HIDX_STREAM_DATA_LEN16. by rewrite Hlen, res_bind_ret, of_le16, u16_id by lia. }
  change TOTAL_HEADER_SIZE with 24. rewrite Hl, u32_id by lia.
  eapply (rx_item_steps P fr 22 (fun a => if 24 + Zlen (fv_bytes v) - 24 <=? itemSize a then store_payload fr 24 (Zlen (fv_bytes v)) a else Ret (with_len 0 a)));
    [done..|apply Ht|done| |done].
  cbn [itemSize with_pubmap with_time]. rewrite (proj2 (Z.leb_le _ _)) by lia.
  rewrite (store_payload_spec fr v _ d) by (done || lia). unfold video_store. by rewrite Hbit, Hm.
Qed.

#[export] Program Instance h264_items : ItemMap h264_cb := {
  im_room := h264_room;
  im_ready := h264_ready;
  im_send := h264_send;
  im_frame := video_frame be16;
  im_listens _ := True;
  im_fits := video_fits;
  im_store := video_store
}.
Next Obligation. done. Qed.
Next Obligation. done. Qed.
Next Obligation.
  intros p s a x c buf len Hs Hh Hr Hb. cbn [h264_cb map_tx_cb]. pose proof Hr as (q & -> & _ & Hn%item_bounds). cbn [h264_room] in Hb.
  eapply mq_mono; [by eapply h264_tx_item|]. intros [[[r buf'] len'] p'] s' (-> & -> & -> & Hl & Hf & Hs').
  split_and!; try done; lia.
Qed.
Next Obligation. intros p s a h f fr v Hs Hf _ Hfit Hfr. by eapply h264_rx_item. Qed.

#[export] Program Instance mjpeg_items : ItemMap mjpeg_cb := {
  im_room _ := 24 + ITEM_SIZE;
  im_ready := mjpeg_ready;
  im_send := mjpeg_send;
  im_frame := video_frame le16;
  im_listens _ := True;
  im_fits := video_fits;
  im_store := video_store
}.
Next Obligation. intros p x y (q & -> & Ht & Hy). eexists. split; [done|]. split; [by apply picture_time_range|done]. Qed.
Next Obligation. done. Qed.
Next Obligation.
  intros p s a x c buf len Hs Hh Hr Hb. cbn [mjpeg_cb map_tx_cb]. pose proof Hr as (q & -> & _ & Hn%item_bounds). cbn [h264_room] in Hb.
  eapply mq_mono; [by eapply mjpeg_tx_item|]. intros [[[r buf'] len'] p'] s' (-> & -> & -> & Hl & Hf & Hs').
  split_and!; try done; lia.
Qed.
Next Obligation. intros p s a h f fr v Hs Hf _ Hfit Hfr. by eapply mjpeg_rx_item. Qed.

End Contract.
