(* ===== verification/MapVideoTheorems.v ===== *)
(** * The video mappings: pictures arrive whole, frames cannot do harm

    Pictures that a Motion JPEG talker sends in fragments reach the listener's queue
    with their data and markers, all fragments of a picture with one presentation
    time; the H.264 listener is safe on every frame with a header.  Then the frames
    on which the listeners are not safe. *)

From S2P Require Import Prelude AvtpTime MediaQ MediaQProps MediaQTheorems AvtpMap MapPipe ItemMap MapVideo MapVideoProps.
From Stdlib Require Import ZArith Lia.
From stdpp Require Import base tactics list option.
Open Scope Z_scope.

(** ** Motion JPEG: pictures *)

(** The fragments of a picture: the last one, and only it, carries the flag. *)
Definition whole_picture (pic : list media_q_item) : Prop :=
  exists frs z, pic = frs ++ [z] /\ Forall (fun x => last_of x = false) frs /\ last_of z = true.

(** What the frames of a picture say: the timestamp is that of its first fragment. *)
Definition picture_views (usec : Z) (pic : list media_q_item) : list frame_view :=
  match pic with
  | [] => []
  | x0 :: _ =>
      (fun x => view_of (openavbAvtpTimeGetAvtpTimestamp (pAvtpTime (stamped usec x0))) (stamped usec x)) <$> pic
  end.

(** The rest of a picture whose time is kept. *)
Lemma sent_fragments frs : forall p z,
  mj_tsvalid p = true -> Forall (fun x => last_of x = false) frs -> last_of z = true ->
  sent mjpeg_send (Some p) (frs ++ [z])
  = ((fun x => view_of (mj_timestamp p) (stamped (mj_maxTransitUsec p) x)) <$> frs ++ [z], Some (with_stamp (mj_timestamp p) false p)).
Proof.
  induction frs as [|x frs IH]; intros p z Hv Hf Hz; cbn [app sent mjpeg_send fmap list_fmap].
  - unfold mjpeg_next, picture_time. rewrite Hv. change (last_of (stamped _ z)) with (last_of z). by rewrite Hz.
  - apply Forall_cons_1 in Hf as [Hx Hf]. unfold mjpeg_next, picture_time. rewrite Hv.
    change (last_of (stamped _ x)) with (last_of x). rewrite Hx. cbn [negb].
    by rewrite (IH (with_stamp (mj_timestamp p) true p) z) by done.
Qed.

Lemma sent_picture p pic : mj_tsvalid p = false -> whole_picture pic ->
  exists ts, sent mjpeg_send (Some p) pic = (picture_views (mj_maxTransitUsec p) pic, Some (with_stamp ts false p)).
Proof.
  intros Hv (frs & z & -> & Hf & Hz). destruct frs as [|x frs]; cbn [app sent mjpeg_send picture_views fmap list_fmap].
  - unfold mjpeg_next, picture_time. rewrite Hv. change (last_of (stamped _ z)) with (last_of z). rewrite Hz. by eexists.
  - apply Forall_cons_1 in Hf as [Hx Hf]. unfold mjpeg_next, picture_time. rewrite Hv.
    change (last_of (stamped _ x)) with (last_of x). rewrite Hx. cbn [negb].
    rewrite (sent_fragments frs _ z) by done. by eexists.
Qed.

Lemma sent_app {P} (send : P -> media_q_item -> frame_view * P) xs : forall p ys,
  sent send p (xs ++ ys) = let '(vs, p1) := sent send p xs in let '(ws, p2) := sent send p1 ys in (vs ++ ws, p2).
Proof.
  induction xs as [|x xs IH]; intros p ys; cbn [app sent]; [by destruct (sent send p ys)|].
  destruct (send p x) as [v p0]. rewrite IH. destruct (sent send p0 xs) as [vs p1]. by destruct (sent send p1 ys).
Qed.

Lemma sent_pictures pictures : forall p, mj_tsvalid p = false -> Forall whole_picture pictures ->
  exists ts, sent mjpeg_send (Some p) (concat pictures)
    = (concat (picture_views (mj_maxTransitUsec p) <$> pictures), Some (with_stamp ts false p)).
Proof.
  induction pictures as [|pic pics IH]; intros p Hv Hp; cbn [concat fmap list_fmap].
  { exists (mj_timestamp p). destruct p. cbn in Hv. by subst. }
  apply Forall_cons_1 in Hp as [Hpic Hpics]. destruct (sent_picture p pic Hv Hpic) as [ts E]. rewrite sent_app, E.
  destruct (IH (with_stamp ts false p) eq_refl Hpics) as [ts' ->]. by exists ts'.
Qed.

Section Carried.
Context {pf : Platform}.

Definition content (x : media_q_item) : list Z * bool := (item_data x, last_of x).
Definition content_of (v : frame_view) : list Z * bool := (fv_bytes v, fv_last v).

Lemma arrivals_content vs : forall n hs, length hs = length vs ->
  content <$> arrivals video_store n vs hs = content_of <$> vs.
Proof.
  induction vs as [|v vs IH]; intros n [|h hs] Hl; try done. cbn [arrivals fmap list_fmap]. f_equal; [|apply IH; by injection Hl].
  unfold content, content_of. f_equal.
  - unfold item_data, video_store. cbn. rewrite Nat2Z.id. by apply take_app_length'.
  - unfold last_of, video_store. cbn. by destruct (fv_last v).
Qed.

Lemma picture_content usec pic : content_of <$> picture_views usec pic = content <$> pic.
Proof. destruct pic as [|x0 pic]; [done|]. unfold picture_views. by rewrite <- list_fmap_compose. Qed.

Lemma pictures_content usec pics : content_of <$> concat (picture_views usec <$> pics) = content <$> concat pics.
Proof. induction pics as [|pic pics IH]; [done|]. cbn. by rewrite !fmap_app, picture_content, IH. Qed.

Lemma room_fits max vs : forall hs, length hs = length vs -> Forall (video_room max) hs ->
  Forall (fun v => Zlen (fv_bytes v) <= max) vs -> Forall2 video_fits vs hs.
Proof.
  induction vs as [|v vs IH]; intros [|h hs] Hl Hr Hv; try done. apply Forall_cons_1 in Hr as [Hh Hr], Hv as [Hv Hvs].
  constructor; [|apply IH; by injection Hl || done]. destruct Hh as (d & m0 & m & Hd & Hs & Hm).
  exists d, m0, m. split_and!; try done; lia.
Qed.

Lemma content_room max vs xs : content_of <$> vs = content <$> xs -> Forall (video_item max) xs ->
  Forall (fun v => Zlen (fv_bytes v) <= max) vs.
Proof.
  revert xs. induction vs as [|v vs IH]; intros [|x xs] He Hx; try done. injection He as Hb Hl He.
  apply Forall_cons_1 in Hx as [(d & m0 & m & Hd & _ & Hn & Hdl & _) Hx]. constructor; [|by eapply IH].
  rewrite Hb. erewrite item_data_len; [|done|]; lia.
Qed.

(** C17: pictures arrive whole and with one time.  The queue of a Motion JPEG talker
    that is between two pictures starts with the fragments of some pictures, the
    last fragment of each flagged; the listener has a free item for each
    fragment.  After one round per fragment the listener's queue has received, in
    order, items with the data and the flags of the fragments; their presentation
    times are rebuilt from the timestamp of the first fragment of their
    picture, whatever the times of the others; and the talker is between pictures
    again, with the rest of its queue as it was. *)
Theorem mjpeg_pictures_carried p pl s a c pictures buf sl al hs f :
  mq_refines s a -> f_held a = concat pictures ++ c -> Forall whole_picture pictures ->
  Forall (video_item ITEM_SIZE) (concat pictures) -> mj_tsvalid p = false -> 0 <= mj_timestamp p < 4294967296 ->
  24 + ITEM_SIZE <= Zlen buf ->
  mq_refines sl al -> f_free al = hs ++ f -> length hs = length (concat pictures) -> Forall (video_room ITEM_SIZE) hs ->
  returns (map_rounds (length hs) mjpeg_cb buf pl (Some p) s sl) (fun '(pl', P', s', sl') => exists p' f' ys,
    P' = Some p' /\ mj_tsvalid p' = false
    /\ mq_refines s' (Fifo c f' (f_tick a) (f_stale a))
    /\ mq_refines sl' (Fifo (f_held al ++ ys) f (f_tick al + length hs) (f_stale al))
    /\ content <$> ys = content <$> concat pictures
    /\ ys = arrivals video_store (f_tick al) (concat (picture_views (mj_maxTransitUsec p) <$> pictures)) hs).
Proof.
  intros Hs Hh Hpic Hit Hv Hts Hb Hsl Hf Hlen Hroom.
  destruct (sent_pictures pictures p Hv Hpic) as [ts E].
  pose proof (pictures_content (mj_maxTransitUsec p) pictures) as Hc.
  assert (Hn : length hs = length (concat (picture_views (mj_maxTransitUsec p) <$> pictures))).
  { apply (f_equal length) in Hc. rewrite !length_fmap in Hc. by rewrite Hc. }
  rewrite Hlen. eapply returns_mono.
  - eapply (map_rounds_ok mjpeg_cb (concat pictures) (Some p) pl s sl a al c hs f buf); try done.
    + revert Hit. apply Forall_impl. intros x Hx. by exists p.
    + cbn [im_send mjpeg_items]. rewrite E. cbn [fst]. eapply room_fits; [done|done|by eapply content_room].
  - intros [[[pl' P'] s'] sl'] (-> & HP & (f' & Hs') & Hsl'). cbn [im_send im_store mjpeg_items] in *. rewrite E in *.
    cbn [fst snd] in *. eexists _, f', _. split; [exact HP|]. split; [done|]. split; [exact Hs'|]. split; [exact Hsl'|].
    split; [|done]. by rewrite arrivals_content, Hc.
Qed.

(** The same for H.264, where every packet has its own time. *)
Lemma h264_items_carried p pl s a c xs buf sl al hs f :
  mq_refines s a -> f_held a = xs ++ c -> Forall (video_item (h_itemSize p)) xs -> h_itemSize p < 65536 ->
  24 + h_itemSize p <= Zlen buf ->
  mq_refines sl al -> f_free al = hs ++ f -> length hs = length xs -> Forall (video_room (h_itemSize p)) hs ->
  returns (map_rounds (length hs) h264_cb buf pl (Some p) s sl) (fun '(pl', P', s', sl') => exists f' ys,
    P' = Some p /\ mq_refines s' (Fifo c f' (f_tick a) (f_stale a))
    /\ mq_refines sl' (Fifo (f_held al ++ ys) f (f_tick al + length hs) (f_stale al))
    /\ content <$> ys = content <$> xs
    /\ ys = arrivals video_store (f_tick al) ((fun x => (h264_send (Some p) x).1) <$> xs) hs).
Proof.
  intros Hs Hh Hit H16 Hb Hsl Hf Hlen Hroom.
  assert (E : sent h264_send (Some p) xs = ((fun x => (h264_send (Some p) x).1) <$> xs, Some p)).
  { clear. induction xs as [|x xs IH]; [done|]. cbn [sent fmap list_fmap]. unfold h264_send at 1. by rewrite IH. }
  assert (Hc : content_of <$> ((fun x => (h264_send (Some p) x).1) <$> xs) = content <$> xs).
  { by rewrite <- list_fmap_compose. }
  rewrite Hlen. eapply returns_mono.
  - eapply (map_rounds_ok h264_cb xs (Some p) pl s sl a al c hs f buf); try done.
    + revert Hit. apply Forall_impl. intros x Hx. by exists p.
    + cbn [im_send h264_items]. rewrite E. cbn [fst]. eapply room_fits; [by rewrite length_fmap|done|by eapply content_room].
  - intros [[[pl' P'] s'] sl'] (-> & HP & (f' & Hs') & Hsl'). cbn [im_send im_store h264_items] in *. rewrite E in *.
    cbn [fst snd] in *. eexists f', _. split; [exact HP|]. split; [exact Hs'|]. split; [exact Hsl'|].
    split; [|done]. by rewrite arrivals_content by (by rewrite length_fmap).
Qed.

End Carried.

(** ** H.264: any frame *)

Section AnyFrame.
Context {pf : Platform}.

(** A free item with its memory. *)
Definition allocated (h : media_q_item) : Prop := video_room 0 h.

Definition frame_length (f : list Z) : Z := of_be (take 2 (drop 20 f)).
Definition frame_marker (f : list Z) : bool := match f !! 22%nat with Some m => Z.testbit m 4 | None => false end.

Lemma frame_length_ok f : bytes_ok f -> 24 <= Zlen f -> get16 f HIDX_STREAM_DATA_LEN16 = Ret (frame_length f) /\ 0 <= frame_length f.
Proof.
  intros Hb Hl. unfold get16, HIDX_STREAM_DATA_LEN16. rewrite rd_list_slice, res_bind_ret by lia. split; [done|].
  unfold frame_length, of_be. apply fold_be_nonneg; [done|]. by apply Forall_take, Forall_drop.
Qed.

Lemma rx_time_any f n t0 : 16 <= Zlen f -> exists t, rx_time f n t0 = Ret t.
Proof.
  intros Hl. unfold rx_time, get32, HIDX_AVTP_TIMESPAMP32, HIDX_AVTP_HIDE7_TV1, HIDX_AVTP_HIDE7_TU1.
  rewrite rd_list_slice, !res_bind_ret by lia.
  destruct (returns_inv _ _ (rd_ok f 1 ltac:(lia))) as (tv & -> & _).
  destruct (returns_inv _ _ (rd_ok f 3 ltac:(lia))) as (tu & -> & _). by eexists.
Qed.

Lemma store_any f n h d : bytes_ok f -> 0 <= n -> 24 + n <= Zlen f -> pPubData h = Some d -> n <= Zlen d ->
  exists y, store_payload f 24 n h = Ret y /\ item_data y = take (Z.to_nat n) (drop 24 f)
    /\ taken y = taken h /\ pAvtpTime y = pAvtpTime h /\ pPubMapData y = pPubMapData h.
Proof.
  intros Hb Hn Hl Hd Hdl. unfold store_payload, put_bytes. rewrite rd_list_slice, res_bind_ret by lia.
  assert (Hlen : length (take (Z.to_nat n) (drop 24 f)) = Z.to_nat n) by (rewrite length_take, length_drop; lia).
  rewrite Hd, wr_list_slice, res_bind_ret; [|done|change (Z.to_nat 24) with 24%nat; lia|by apply Forall_take, Forall_drop].
  eexists. split; [done|]. split_and!; [|done..]. unfold item_data. cbn [pPubData dataLen with_data from_option]. rewrite take_0, app_nil_l. by apply take_app_length'.
Qed.

(** C37: the H.264 listener is safe on every frame with a header.  For a frame of at
    least 24 bytes, whatever they are, the callback returns: a frame whose length
    field is larger than the frame is rejected, and so is any frame when the queue is
    full, both without a change to the queue; otherwise one item is queued
    whose data are the bytes that the length field names, or none when they do not
    fit the item, with the marker of the frame and its time. *)
Theorem h264_rx_exact P f s a :
  mq_refines s a -> Forall allocated (f_free a) -> bytes_ok f -> 24 <= Zlen f < 65536 ->
  mq_returns (openavbMapH264RxCB P f (Zlen f)) s (fun '(ok, P') s' => P' = P /\
    match f_free a with
    | h :: fr =>
        if frame_length f <=? Zlen f - 24
        then ok = true /\ exists y, mq_refines s' (Fifo (f_held a ++ [y]) fr (S (f_tick a)) (f_stale a))
               /\ content y = (if frame_length f <=? itemSize h then take (Z.to_nat (frame_length f)) (drop 24 f) else [], frame_marker f)
               /\ rx_time f (f_tick a) (pAvtpTime h) = Ret (pAvtpTime y)
        else ok = false /\ mq_refines s' a
    | [] => ok = false /\ mq_refines s' a
    end).
Proof.
  intros Hs Hfree Hb Hl. unfold openavbMapH264RxCB. destruct (frame_length_ok f Hb ltac:(lia)) as [Hlen Hn].
  eapply mq_bind_lift; [exact Hlen|]. change TOTAL_HEADER_SIZE with 24. rewrite u32_id by lia.
  destruct (Z.ltb_spec (Zlen f - 24) (frame_length f)) as [Hbad|Hok].
  { apply mq_ret. split; [done|]. rewrite (proj2 (Z.leb_gt _ _)) by lia. by destruct (f_free a). }
  rewrite (proj2 (Z.leb_le (frame_length f) (Zlen f - 24))) by lia. destruct (f_free a) as [|h fr] eqn:Ef.
  { eapply mq_bind; [by apply head_lock_spec|]. rewrite Ef. intros k s1 [H1 ->]. by apply mq_ret. }
  apply Forall_cons_1 in Hfree as [(d & m0 & m & Hd & Hsz & Hm) _].
  destruct (rx_time_any f (f_tick a) (pAvtpTime h) ltac:(lia)) as [t Ht].
  destruct (lookup_lt_is_Some_2 f 22 ltac:(lia)) as [b Hb22]. unfold frame_marker. rewrite Hb22.
  set (h1 := with_pubmap ((if Z.testbit b 4 then 1 else 0) :: m) (with_time t h)).
  assert (exists y, (if frame_length f <=? itemSize h1 then store_payload f 24 (frame_length f) h1 else Ret (with_len 0 h1)) = Ret y
    /\ item_data y = (if frame_length f <=? itemSize h then take (Z.to_nat (frame_length f)) (drop 24 f) else [])
    /\ taken y = taken h1 /\ pAvtpTime y = pAvtpTime h1 /\ pPubMapData y = pPubMapData h1) as (y & Hst & Hy & Htk & Hyt & Hym).
  { change (itemSize h1) with (itemSize h). destruct (Z.leb_spec (frame_length f) (itemSize h)).
    - apply (store_any f _ h1 d); done || lia.
    - exists (with_len 0 h1). done. }
  eapply mq_mono; [eapply (rx_item_steps P f 22 (fun a => if frame_length f <=? itemSize a then store_payload f 24 (frame_length f) a
      else Ret (with_len 0 a)) s a h fr t b m0 m y Hs Ef Hm Ht); [by apply rd_lookup|exact Hst|exact Htk]|].
  intros r s' [-> Hs']. split; [done|]. split; [done|]. exists (clear_read y). split; [exact Hs'|].
  split; [|by change (pAvtpTime (clear_read y)) with (pAvtpTime y); rewrite Hyt].
  unfold content. f_equal; [exact Hy|]. unfold last_of. change (pPubMapData (clear_read y)) with (pPubMapData y). rewrite Hym. subst h1. cbn [pPubMapData with_pubmap].
  by destruct (Z.testbit b 4).
Qed.

End AnyFrame.

(** ** Two pictures in three fragments *)

Definition fragment (ns : Z) (last : bool) (d : list Z) : media_q_item :=
  MediaQItem (Some (AvtpTime ns 2000000 true false)) (Some d) 0 (Zlen d) (Zlen d) false (Some [if last then 1 else 0]) None None.
Definition free_fragment : media_q_item := with_pubmap [0] (fresh_item 2000 1412).
Definition demo_pictures : list (list media_q_item) :=
  [[fragment 5000000000 false [1; 2]; fragment 6000000000 true [3]]; [fragment 7000000000 true [4; 5]]].
Definition demo_video_q (items : list media_q_item) (head tail : Z) : mq_st :=
  MqSt (Some (MediaQInfo (Zlen items) 1412 items head false tail false true 2000 false MICROSECONDS_PER_SECOND)) 0 [].
Definition demo_video_talk : mq_st := demo_video_q (concat demo_pictures ++ [free_fragment]) 3 0.
Definition demo_video_listen : mq_st := demo_video_q (replicate 3 free_fragment) 0 (-1).

Lemma demo_video_talks : mq_refines demo_video_talk (Fifo (concat demo_pictures) [free_fragment] 0 MICROSECONDS_PER_SECOND).
Proof.
  split; [done|]. eexists _, 0%nat. split; [done|]. split; [|done]. split; [vm_compute; lia|done..|by repeat constructor].
Qed.
Lemma demo_video_listens : mq_refines demo_video_listen (Fifo [] (replicate 3 free_fragment) 0 MICROSECONDS_PER_SECOND).
Proof.
  split; [done|]. eexists _, 0%nat. split; [done|]. split; [|done]. split; [vm_compute; lia|done..|by repeat constructor].
Qed.
Lemma free_fragment_room n : n <= 1412 -> video_room n free_fragment.
Proof. intros Hn. eexists _, _, _. split; [reflexivity|]. split; [|reflexivity]. by change (itemSize free_fragment) with 1412. Qed.

Lemma mjpeg_pictures_carried_witness :
  returns (map_rounds 3 (mjpeg_cb (pf := demo_platform)) (replicate 1436 0) None (Some (mjpeg_defaults 2000)) demo_video_talk demo_video_listen)
    (fun '(_, _, _, sl') => exists ys, mq_refines sl' (Fifo ys [] 3 MICROSECONDS_PER_SECOND)
       /\ content <$> ys = [([1; 2], false); ([3], true); ([4; 5], true)]
       /\ exists t1 t2, pAvtpTime <$> ys = [t1; t1; t2] /\ t1 <> t2).
Proof.
  eapply returns_mono.
  - apply (mjpeg_pictures_carried (pf := demo_platform) (mjpeg_defaults 2000) None demo_video_talk _ [] demo_pictures (replicate 1436 0)
      demo_video_listen (Fifo [] (replicate 3 free_fragment) 0 MICROSECONDS_PER_SECOND) (replicate 3 free_fragment) [] demo_video_talks); try done.
    + repeat constructor; [by exists [fragment 5000000000 false [1; 2]], (fragment 6000000000 true [3]); repeat constructor
                          |by exists [], (fragment 7000000000 true [4; 5])].
    + repeat constructor; eexists _, _, _; (split_and!; [done|unfold bytes_ok; repeat constructor; lia|done..]).
    + apply demo_video_listens.
    + apply Forall_replicate. by apply free_fragment_room.
  - intros [[[pl' P'] s'] sl'] (p' & f' & ys & _ & _ & _ & Hsl & Hc & ->). eexists. split; [exact Hsl|]. split; [exact Hc|].
    eexists _, _. split; [vm_compute; reflexivity|done].
Defined.

Definition demo_h264_frame : list Z := replicate 20 0 ++ [0; 2; 16; 0; 7; 8; 9].

Lemma h264_rx_exact_witness :
  mq_returns (openavbMapH264RxCB (pf := demo_platform) None demo_h264_frame (Zlen demo_h264_frame)) demo_video_listen (fun '(ok, _) s' =>
    ok = true /\ exists y, mq_refines s' (Fifo [y] (replicate 2 free_fragment) 1 MICROSECONDS_PER_SECOND) /\ content y = ([7; 8], true)).
Proof.
  assert (Hr : Forall allocated (f_free (Fifo [] (replicate 3 free_fragment) 0 MICROSECONDS_PER_SECOND))).
  { apply Forall_replicate. by apply free_fragment_room. }
  assert (Hb : bytes_ok demo_h264_frame) by (unfold bytes_ok; cbn; repeat constructor; lia).
  pose proof (h264_rx_exact (pf := demo_platform) None demo_h264_frame _ _ demo_video_listens Hr Hb ltac:(done)) as H.
  eapply mq_mono; [exact H|]. intros [ok P'] s' [_ H']. cbn in H'. destruct H' as [-> (y & Hs & Hc & _)].
  split; [done|]. by exists y.
Defined.

(** ** Frames that do harm *)

#[local] Existing Instance demo_platform.

(** The Motion JPEG listener compares the size of the item with the length of the
    frame, but copies as many bytes as the header says: past the end of the frame, *)
Lemma mjpeg_rx_reads_past :
  openavbMapMjpegRxCB None (replicate 20 0 ++ [200; 0; 0; 0] ++ replicate 100 7) 124 demo_video_listen = Fault (OobRead 124).
Proof. by vm_compute. Qed.
(** and past the end of the item, when the receive buffer is larger than the frame. *)
Lemma mjpeg_rx_writes_past :
  openavbMapMjpegRxCB None (replicate 20 0 ++ [220; 5; 0; 0] ++ replicate 1500 7) 124 demo_video_listen = Fault (OobWrite 1412).
Proof. by vm_compute. Qed.

(** In the H.264 listener the length of a frame without a whole header wraps around
    in the check of its length field. *)
Lemma h264_rx_short_frame :
  openavbMapH264RxCB None (replicate 20 0 ++ [255; 255]) 22 demo_video_listen = Fault (OobRead 22).
Proof. by vm_compute. Qed.
