(* ===== verification/MapCtrlTheorems.v ===== *)
(** * The control and null mappings: messages arrive

    Both modules meet the contract of [ItemMap], so messages that a control talker
    queues reach the listener's queue in order, and items of a null talker arrive
    with their times and without data. *)

From S2P Require Import Prelude AvtpTime MediaQ MediaQProps MediaQTheorems AvtpMap MapPipe ItemMap MapVideo MapVideoProps MapCtrl.
From Stdlib Require Import ZArith Lia.
From stdpp Require Import base tactics list option.
Open Scope Z_scope.

(** ** Frames and items *)

(** A message that can be sent, and a free item with room for [n] bytes. *)
Definition message (max : Z) (x : media_q_item) : Prop :=
  exists d, pPubData x = Some d /\ bytes_ok d /\ 0 < dataLen x <= max /\ dataLen x <= Zlen d.
Definition message_room (n : Z) (h : media_q_item) : Prop :=
  exists d, pPubData h = Some d /\ n <= itemSize h <= Zlen d.

Definition plain_view (bytes : list Z) (x : media_q_item) : frame_view :=
  FrameView (openavbAvtpTimeGetAvtpTimestamp (pAvtpTime x)) (openavbAvtpTimeTimestampIsValid (pAvtpTime x))
    (openavbAvtpTimeTimestampIsUncertain (pAvtpTime x)) false bytes.

(** A header of 16 bytes with the time of a view. *)
Definition timed_hdr (b0 b1 b2 b3 : Z) (sid : list Z) (v : frame_view) : list Z :=
  [b0; flag_byte b1 (fv_valid v); b2; flag_byte b3 (fv_uncertain v)] ++ sid ++ be32 (fv_stamp v).

Definition ctrl_message (f : list Z) (v : frame_view) : Prop :=
  exists b0 b1 b2 b3 sid fmt r,
    f = timed_hdr b0 b1 b2 b3 sid v ++ fmt ++ [MAP_CTRL_OPENAVB_FORMAT] ++ be16 (Zlen (fv_bytes v)) ++ [r] ++ fv_bytes v
    /\ length sid = 8%nat /\ length fmt = 8%nat /\ 0 <= fv_stamp v < 4294967296 /\ Zlen (fv_bytes v) < 65536 /\ bytes_ok (fv_bytes v).
Definition null_message (f : list Z) (v : frame_view) : Prop :=
  exists b0 b1 b2 b3 sid fmt, f = timed_hdr b0 b1 b2 b3 sid v ++ fmt
    /\ length sid = 8%nat /\ length fmt = 8%nat /\ 0 <= fv_stamp v < 4294967296.

Lemma timed_hdr_time b0 b1 b2 b3 sid v rest n {pf : Platform} t :
  length sid = 8%nat -> 0 <= fv_stamp v < 4294967296 -> rx_time (timed_hdr b0 b1 b2 b3 sid v ++ rest) n t = Ret (arrival_time n v t).
Proof.
  intros Hs Hv. unfold timed_hdr. rewrite <- !app_assoc. do 8 (destruct sid as [|? sid]; [done|]). destruct sid; [|done].
  unfold rx_time. rewrite (app_assoc [_; _; _; _] [_; _; _; _; _; _; _; _]).
  rewrite get32_at, res_bind_ret, u32_id by done. cbn [app].
  rewrite (rd_lookup _ HIDX_AVTP_HIDE7_TV1 (flag_byte b1 (fv_valid v))), res_bind_ret by done.
  rewrite (rd_lookup _ HIDX_AVTP_HIDE7_TU1 (flag_byte b3 (fv_uncertain v))), res_bind_ret by done.
  by rewrite !flag_byte_bit.
Qed.

Lemma ctrl_hdr b0 b1 b2 b3 sid fmt r x max rest :
  message max x -> max < 65536 -> length sid = 8%nat -> length fmt = 8%nat ->
  ctrl_message (take (Z.to_nat (dataLen x + 28)) ((timed_hdr b0 b1 b2 b3 sid (plain_view (item_data x) x) ++ fmt
    ++ [MAP_CTRL_OPENAVB_FORMAT] ++ be16 (dataLen x) ++ [r]) ++ item_data x ++ rest)) (plain_view (item_data x) x).
Proof.
  intros (d & Hd & Hb & Hn & Hdl) Hmax Hs Hf. pose proof (item_data_len x d Hd ltac:(lia)) as Hlen. rewrite hdr_take.
  - exists b0, b1, b2, b3, sid, fmt, r. cbn [plain_view fv_bytes fv_stamp]. rewrite Hlen, <- !app_assoc.
    split_and!; try done; try lia; [apply avtp_stamp_range..|by eapply item_data_ok].
  - unfold timed_hdr. rewrite !length_app, Hs, Hf. cbn [length be32 be16]. lia.
Qed.

Lemma ctrl_frame_spec x max buf :
  message max x -> max < 65536 -> 28 + dataLen x <= Zlen buf ->
  exists buf', ctrl_frame x buf = Ret buf' /\ length buf' = length buf
    /\ ctrl_message (take (Z.to_nat (dataLen x + 28)) buf') (plain_view (item_data x) x).
Proof.
  intros (d & Hd & Hb & Hn & Hdl) Hmax Hl. pose proof (item_data_len x d Hd ltac:(lia)) as Hlen.
  do 28 (destruct buf as [|? buf]; [cbn [length] in Hl; lia|]).
  unfold ctrl_frame, stamp_flags, HIDX_AVTP_HIDE7_TV1, HIDX_AVTP_HIDE7_TU1, HIDX_AVTP_TIMESPAMP32, HIDX_AVTP_FORMAT_INFO32,
    HIDX_AVTP_DATA_LENGTH16, HIDX_PROTO4_RESERVED4, HIDX_NUMMESS8, HIDX_OPENAVB_CTRL_FORMAT8, HIDX_OPENAVB_CTRL_DATALEN16,
    HIDX_OPENAVB_RESERVEDA8.
  rewrite res_bind_assoc. do 2 buf_flag. do 3 buf_write. do 3 hdr_wr. buf_write. hdr_wr.
  change CTRL_TOTAL_HEADER_SIZE with 28. hdr_payload x d Hd Hb. rewrite (u16_id (dataLen x)) by lia.
  eexists. split; [reflexivity|]. split.
  - cbn [length] in *. rewrite take_0, !length_app, length_drop. cbn [length]. lia.
  - apply (ctrl_hdr z z0 z1 z2 [z3; z4; z5; z6; z7; z8; z9; z10]
      ([0; 0; 0; 0] ++ be16 (u16 (dataLen x + OPENAVB_FORMAT_HEADER_SIZE)) ++ [u8 0xF0; u8 1]) (u8 0) x max); try done. by exists d.
Qed.

Lemma null_frame_spec x buf : 24 <= Zlen buf ->
  exists buf', null_frame x buf = Ret buf' /\ length buf' = length buf /\ null_message (take 24 buf') (plain_view [] x).
Proof.
  intros Hl. hdr_open buf Hl.
  unfold null_frame, stamp_flags, HIDX_AVTP_HIDE7_TV1, HIDX_AVTP_HIDE7_TU1, HIDX_AVTP_TIMESPAMP32, HIDX_OPENAVB_FORMAT8,
    NULL_HIDX_OPENAVB_RESERVEDA8, HIDX_OPENAVB_RESERVEDB8, HIDX_OPENAVB_RESERVEDC8, HIDX_OPENAVB_FORMAT_SPEC32.
  rewrite res_bind_assoc. do 2 buf_flag. buf_write. do 4 hdr_wr. buf_write.
  eexists. split; [reflexivity|]. split; [done|].
  exists z, z0, z1, z2, [z3; z4; z5; z6; z7; z8; z9; z10], [u8 MAP_NULL_OPENAVB_FORMAT; u8 0; u8 0; u8 0; 0; 0; 0; 0].
  split_and!; try done; apply avtp_stamp_range.
Qed.

(** ** The callbacks *)

Section Steps.
Context {pf : Platform}.

(** A listener with a free item sets its time, stores into it and pushes it. *)
Lemma rx_plain_steps {P} (p : P) pData (store : media_q_item -> res media_q_item) s a h f t y :
  mq_refines s a -> f_free a = h :: f -> rx_time pData (f_tick a) (pAvtpTime h) = Ret t ->
  store (with_time t h) = Ret y -> taken y = taken h ->
  mq_returns (k ← openavbMediaQHeadLock;
    match k with
    | None => mret (false, p)
    | Some k =>
        n ← mq_call;
        a ← item_read k;
        t ← mq_lift (rx_time pData n (pAvtpTime a));
        _ ← item_write k (with_time t);
        a ← mq_lift (store (with_time t a));
        _ ← item_write k (fun _ => a);
        _ ← openavbMediaQHeadPush;
        mret (true, p)
    end) s (fun r s' => r = (true, p)
      /\ mq_refines s' (Fifo (f_held a ++ [clear_read y]) f (S (f_tick a)) (f_stale a))).
Proof.
  intros Hs Hf Ht Hst Htk. eapply mq_bind; [by apply head_lock_spec|]. rewrite Hf. intros k s1 [H1 (n & -> & Hn)].
  apply mq_bind_call. pose proof (proj1 H1) as Htick. rewrite Htick.
  pose proof (refines_call _ _ H1) as H2. rewrite Htick in H2. unfold fifo_call in H2. rewrite Hf in H2.
  eapply mq_bind; [by eapply (head_read_spec _ _ H2)|]. intros z s3 [-> ->].
  eapply mq_bind_lift; [exact Ht|].
  eapply mq_bind; [by eapply (head_write_spec _ _ H2)|]. intros [] s3 [H3 Hn3]. cbn [fifo_write_head f_free] in H3.
  eapply mq_bind_lift; [exact Hst|].
  eapply mq_bind; [by eapply (head_write_spec _ _ H3)|]. intros [] s4 [H4 Hn4]. cbn [fifo_write_head f_free] in H4.
  eapply mq_bind; [by apply (head_push_spec _ _ H4)|]. intros ok s6 [_ H6]. by apply mq_ret.
Qed.

Definition ctrl_send (P : option ctrl_data) (x : media_q_item) : frame_view * option ctrl_data :=
  let y := stamped (match P with Some p => c_maxTransitUsec p | None => 0 end) x in (plain_view (item_data x) y, P).
Definition ctrl_ready (P : option ctrl_data) (x : media_q_item) : Prop :=
  exists p, P = Some p /\ c_maxPayloadSize p < 65536 /\ message (c_maxPayloadSize p) x.
Definition ctrl_room (P : option ctrl_data) : Z := match P with Some p => 28 + c_maxPayloadSize p | None => 28 end.
Definition message_store (n : nat) (v : frame_view) (h : media_q_item) : media_q_item :=
  with_data (fv_bytes v ++ drop (length (fv_bytes v)) (default [] (pPubData h))) (Zlen (fv_bytes v))
    (with_time (arrival_time n v (pAvtpTime h)) h).

Lemma ctrl_tx_item p s a x c buf len :
  mq_refines s a -> f_held a = x :: c -> ctrl_ready (Some p) x -> 28 + c_maxPayloadSize p <= Zlen buf ->
  mq_returns (openavbMapCtrlTxCB (Some p) buf len) s (fun '(r, buf', len', P') s' =>
    r = TX_CB_RET_PACKET_READY /\ P' = Some p /\ 0 <= len' <= Zlen buf'
    /\ ctrl_message (take (Z.to_nat len') buf') (ctrl_send (Some p) x).1
    /\ exists x', mq_refines s' (Fifo c (f_free a ++ [x']) (f_tick a) (f_stale a))).
Proof.
  intros Hs Hh (p' & [= <-] & H16 & Hx) Hb. pose proof Hx as (_ & _ & _ & Hn & _). cbn [openavbMapCtrlTxCB].
  destruct (ctrl_frame_spec (stamped (c_maxTransitUsec p) x) (c_maxPayloadSize p) buf) as (buf' & E & Hl & Hf); [done|done|cbn; lia|].
  eapply tx_item_steps; [done..|]. intros s1 H1.
  eapply mq_bind_lift; [exact E|]. eapply tx_pull_steps; [exact H1|]. intros s2 H2. cbn [dataLen stamped with_time] in *.
  assert (u32 (dataLen x + CTRL_TOTAL_HEADER_SIZE) = dataLen x + 28) as ->. { change CTRL_TOTAL_HEADER_SIZE with 28. apply u32_id. lia. }
  split_and!; try done; [lia..|by eexists].
Qed.

Lemma ctrl_rx_item p s a h f fr v :
  mq_refines s a -> f_free a = h :: f -> message_room (Zlen (fv_bytes v)) h -> ctrl_message fr v ->
  mq_returns (openavbMapCtrlRxCB (Some p) fr (Zlen fr)) s (fun r s' => r = (true, Some p)
    /\ mq_refines s' (Fifo (f_held a ++ [clear_read (message_store (f_tick a) v h)]) f (S (f_tick a)) (f_stale a))).
Proof.
  intros Hs Hf (d & Hd & Hsz) (b0 & b1 & b2 & b3 & sid & fmt & r & -> & Hsid & Hfmt & Hts & H16 & Hb). cbn [openavbMapCtrlRxCB].
  assert (Hlen : length (timed_hdr b0 b1 b2 b3 sid v ++ fmt) = 24%nat) by (unfold timed_hdr; rewrite !length_app, Hsid, Hfmt; done).
  eapply rx_plain_steps; [done|done|by apply timed_hdr_time| |done].
  rewrite app_assoc. set (pre := _ ++ fmt) in *. unfold ctrl_store.
  rewrite (rd_lookup _ _ MAP_CTRL_OPENAVB_FORMAT), res_bind_ret
    by (done || by change (Z.to_nat _) with 24%nat; rewrite lookup_app_r, Hlen by lia). cbn [Z.eqb MAP_CTRL_OPENAVB_FORMAT].
  rewrite (app_assoc pre [_]). rewrite get16_at, res_bind_ret, u16_id by (rewrite ?length_app, ?Hlen; done || lia).
  cbn [itemSize with_time]. rewrite (proj2 (Z.leb_le _ _)) by lia. unfold store_payload. rewrite Nat2Z.id.
  replace ((pre ++ _) ++ _) with (((pre ++ [MAP_CTRL_OPENAVB_FORMAT]) ++ be16 (Zlen (fv_bytes v)) ++ [r]) ++ fv_bytes v ++ [])
    by (by rewrite app_nil_r, <- !app_assoc).
  rewrite rd_list_app, res_bind_ret by (rewrite !length_app, Hlen; done).
  unfold put_bytes. cbn [pPubData with_time]. rewrite Hd, wr_list_slice, res_bind_ret by (done || lia).
  unfold message_store. by rewrite Hd.
Qed.

#[export] Program Instance ctrl_items : ItemMap ctrl_cb := {
  im_room := ctrl_room;
  im_ready := ctrl_ready;
  im_send := ctrl_send;
  im_frame := ctrl_message;
  im_listens P := P <> None;
  im_fits v h := message_room (Zlen (fv_bytes v)) h;
  im_store := message_store
}.
Next Obligation. done. Qed.
Next Obligation. done. Qed.
Next Obligation. intros p s a x c buf len Hs Hh Hr Hb. pose proof Hr as (q & -> & _). by apply ctrl_tx_item. Qed.
Next Obligation. intros [p|] s a h f fr v Hs Hf Hl Hfit Hfr; [|done]. by eapply ctrl_rx_item. Qed.

(** The null mapping, with any item. *)
Definition null_send (P : option null_data) (x : media_q_item) : frame_view * option null_data :=
  (plain_view [] (stamped (match P with Some p => n_maxTransitUsec p | None => 0 end) x), P).

#[export] Program Instance null_items : ItemMap null_cb := {
  im_room _ := 24;
  im_ready P x := P <> None;
  im_send := null_send;
  im_frame := null_message;
  im_listens P := True;
  im_fits v h := True;
  im_store n v h := with_len 0 (with_time (arrival_time n v (pAvtpTime h)) h)
}.
Next Obligation. done. Qed.
Next Obligation. done. Qed.
Next Obligation.
  intros [p|] s a x c buf len Hs Hh Hr Hb; [|done]. cbn [null_cb map_tx_cb openavbMapNullTxCB].
  destruct (null_frame_spec (stamped (n_maxTransitUsec p) x) buf Hb) as (buf' & E & Hl & Hf).
  eapply mq_bind; [by apply tail_lock_spec|]. intros k s1. unfold fifo_lock_tail. rewrite Hh. intros [H1 (n & -> & Hn1 & _)].
  eapply mq_bind; [by eapply (tail_write_spec _ _ H1 _ (stamped (n_maxTransitUsec p)))|]. intros [] s2 [H2 Hn2].
  unfold fifo_write_tail in H2. rewrite Hh in H2.
  eapply mq_bind; [by eapply (tail_read_spec _ _ H2 n)|]. intros y s3 [-> ->].
  eapply mq_bind_lift; [exact E|]. eapply tx_pull_steps; [exact H2|]. intros s3 H3.
  split_and!; try done; [change TOTAL_HEADER_SIZE with 24; lia|by eexists].
Qed.
Next Obligation.
  intros P s a h f fr v Hs Hf _ _ (b0 & b1 & b2 & b3 & sid & fmt & -> & Hsid & _ & Hts). cbn [null_cb map_rx_cb openavbMapNullRxCB].
  eapply mq_bind; [by apply head_lock_spec|]. rewrite Hf. intros k s1 [H1 (n & -> & Hn)].
  apply mq_bind_call. pose proof (proj1 H1) as Htick. rewrite Htick.
  pose proof (refines_call _ _ H1) as H2. rewrite Htick in H2. unfold fifo_call in H2. rewrite Hf in H2.
  eapply mq_bind; [by eapply (head_read_spec _ _ H2)|]. intros z s3 [-> ->].
  eapply mq_bind_lift; [by apply timed_hdr_time|].
  eapply mq_bind; [by eapply (head_write_spec _ _ H2)|]. intros [] s3 [H3 Hn3]. cbn [fifo_write_head f_free] in H3.
  eapply mq_bind; [by eapply (head_write_spec _ _ H3)|]. intros [] s4 [H4 Hn4]. cbn [fifo_write_head f_free] in H4.
  eapply mq_bind; [by apply (head_push_spec _ _ H4)|]. intros ok s6 [_ H6]. by apply mq_ret.
Qed.

End Steps.

(** ** Messages one after the other *)

Section Carried.
Context {pf : Platform}.

Lemma ctrl_arrivals vs : forall n hs, length hs = length vs -> item_data <$> arrivals message_store n vs hs = fv_bytes <$> vs.
Proof.
  induction vs as [|v vs IH]; intros n [|h hs] Hl; try done. cbn [arrivals fmap list_fmap]. f_equal; [|apply IH; by injection Hl].
  unfold item_data, message_store. cbn. rewrite Nat2Z.id. by apply take_app_length'.
Qed.

(** Control messages arrive in order and as they were, each with the time it had. *)
Lemma ctrl_messages_carried p pl s a c xs buf sl al hs f :
  mq_refines s a -> f_held a = xs ++ c -> Forall (message (c_maxPayloadSize p)) xs -> c_maxPayloadSize p < 65536 ->
  28 + c_maxPayloadSize p <= Zlen buf -> mq_refines sl al -> f_free al = hs ++ f ->
  Forall2 (fun x h => message_room (dataLen x) h) xs hs ->
  returns (map_rounds (length xs) ctrl_cb buf (Some pl) (Some p) s sl) (fun '(_, _, s', sl') => exists f' ys,
    mq_refines s' (Fifo c f' (f_tick a) (f_stale a))
    /\ mq_refines sl' (Fifo (f_held al ++ ys) f (f_tick al + length xs) (f_stale al))
    /\ item_data <$> ys = item_data <$> xs
    /\ ys = arrivals message_store (f_tick al) ((fun x => (ctrl_send (Some p) x).1) <$> xs) hs).
Proof.
  intros Hs Hh Hit H16 Hb Hsl Hf Hroom.
  assert (E : sent ctrl_send (Some p) xs = ((fun x => (ctrl_send (Some p) x).1) <$> xs, Some p)).
  { clear. induction xs as [|x xs IH]; [done|]. cbn [sent fmap list_fmap]. unfold ctrl_send at 1. by rewrite IH. }
  eapply returns_mono.
  - eapply (map_rounds_ok ctrl_cb xs (Some p) (Some pl) s sl a al c hs f buf); try done.
    + revert Hit. apply Forall_impl. intros x Hx. by exists p.
    + cbn [im_send im_fits ctrl_items]. rewrite E. cbn [fst]. apply Forall2_fmap_l. clear - Hroom Hit.
      induction Hroom as [|x h xs hs Hr Hrs IH]; [constructor|]. apply Forall_cons_1 in Hit as [(d & Hd & _ & Hn & Hl) Hit].
      constructor; [|by apply IH]. cbn. by rewrite (item_data_len x d) by (done || lia).
  - intros [[[pl' P'] s'] sl'] (-> & HP & (f' & Hs') & Hsl'). cbn [im_send im_store ctrl_items] in *. rewrite E in *.
    cbn [fst snd] in *. eexists f', _. split; [exact Hs'|]. split; [exact Hsl'|]. split; [|done].
    rewrite ctrl_arrivals by (rewrite length_fmap; symmetry; by eapply Forall2_length). by rewrite <- list_fmap_compose.
Qed.

End Carried.

(** The control listener does not compare the length in the header with the frame:
    with a short frame it queues what the receive buffer holds behind it. *)
Definition demo_ctrl_listen : mq_st :=
  MqSt (Some (MediaQInfo 1 64 [fresh_item 2000 64] 0 false (-1) false true 2000 false MICROSECONDS_PER_SECOND)) 0 [].
Lemma ctrl_rx_reads_past :
  openavbMapCtrlRxCB (pf := demo_platform) (Some (ctrl_defaults 2000)) (replicate 25 0 ++ [0; 40; 0; 1; 2; 3]) 31 demo_ctrl_listen
  = Fault (OobRead 31).
Proof. by vm_compute. Qed.
