(* ===== verification/MapUncmp.v ===== *)
(** * The uncompressed audio mapping
    (lib/avtp_pipeline/map_uncmp_audio/openavb_map_uncmp_audio.c)

    IEC 61883-6: audio frames in packets of 32 bytes of header and four bytes per
    sample, a label and 24 bits.  The talker takes the frames of a packet from as
    many media queue items as it needs; the listener fills one item from a
    packet. *)

From S2P Require Import Prelude AvtpTime MediaQ AvtpMap AudioMap MapPipe MapAaf MapMpeg2ts MapVideo.
From Stdlib Require Import ZArith Lia.
From stdpp Require Import base tactics list strings option.
Open Scope Z_scope.

Definition UNCMP_TOTAL_HEADER_SIZE : Z := AVTP_V0_HEADER_SIZE + MAP_HEADER_SIZE + CIP_HEADER_SIZE.
Definition HIDX_FDF5_SFC3 : Z := 29.
Definition HIDX_SYT16 : Z := 30.
Definition MAX_U8 : Z := 256.

Record uncmp_pvt := UncmpPvt {
  um_itemCount : Z;
  um_txInterval : Z;
  um_packingFactor : Z;
  um_maxTransitUsec : Z;
  cip_sfc : Z;
  AM824_label : Z;
  um_maxPayloadSize : Z;
  um_DBC : Z;
  um_audioMcr : Z;
  um_genClockTick : Z;
  um_framesReceived : Z;
  um_lastSequenceNumber : Z
}.

(** The module's data: private, shared with the interface module (with its field
    [packetAudioDataSizeBytes], which only this module uses), the clock ticks that
    it signalled and the timestamps that it gave to media clock recovery. *)
Record uncmp_map := UncmpMap {
  um_pvt : uncmp_pvt;
  um_pub : audio_info;
  packetAudioDataSizeBytes : Z;
  um_ticks : list clk_tick;
  um_pushed : list Z
}.

Definition on_pvt (v : uncmp_pvt) (m : uncmp_map) : uncmp_map :=
  UncmpMap v (um_pub m) (packetAudioDataSizeBytes m) (um_ticks m) (um_pushed m).
Definition with_DBC (n : Z) (v : uncmp_pvt) : uncmp_pvt :=
  UncmpPvt (um_itemCount v) (um_txInterval v) (um_packingFactor v) (um_maxTransitUsec v) (cip_sfc v) (AM824_label v)
    (um_maxPayloadSize v) n (um_audioMcr v) (um_genClockTick v) (um_framesReceived v) (um_lastSequenceNumber v).
Definition with_received (n seq : Z) (v : uncmp_pvt) : uncmp_pvt :=
  UncmpPvt (um_itemCount v) (um_txInterval v) (um_packingFactor v) (um_maxTransitUsec v) (cip_sfc v) (AM824_label v)
    (um_maxPayloadSize v) (um_DBC v) (um_audioMcr v) (um_genClockTick v) n seq.

(** ** Sizes *)

(** The code of a rate in the CIP header and its SYT interval. *)
Definition sfc_of (audioRate : Z) : Z * Z :=
  if audioRate =? 32000 then (0, 8)
  else if audioRate =? 44100 then (1, 8)
  else if audioRate =? 48000 then (2, 8)
  else if audioRate =? 88200 then (3, 16)
  else if audioRate =? 96000 then (4, 16)
  else if audioRate =? 176400 then (5, 32)
  else if audioRate =? 192000 then (6, 32)
  else (2, 8).

Definition uncmp_calculateSizes (m : uncmp_map) : res uncmp_map :=
  let v := um_pvt m in
  let u := um_pub m in
  let '(sfc, syt) := sfc_of (audioRate u) in
  if um_txInterval v =? 0 then Fault DivByZero
  else
    let fpp := audioRate u / um_txInterval v in
    let fpp := if fpp <? 1 then 1 else fpp in
    let fpp := if audioRate u mod um_txInterval v =? 0 then fpp else u32 (fpp + 1) in
    let fpi := if 1 <? um_packingFactor v then u32 (fpp * um_packingFactor v) else syt in
    let fpi := if fpi <? 1 then 1 else fpi in
    let isz := if (audioBitDepth u =? 16) || (audioBitDepth u =? 20) then 2 else if audioBitDepth u =? 24 then 3 else 1 in
    let pframe := u32 (4 * audioChannels u) in
    let data := u32 (fpp * pframe) in
    let iframe := u32 (isz * audioChannels u) in
    let label := if (audioBitDepth u =? 16) || (audioBitDepth u =? 20) then 0x42000000 else 0x40000000 in
    Ret (UncmpMap
      (UncmpPvt (um_itemCount v) (um_txInterval v) (um_packingFactor v) (um_maxTransitUsec v) sfc label
         (u32 (data + UNCMP_TOTAL_HEADER_SIZE)) (um_DBC v) (um_audioMcr v) (um_genClockTick v) (um_framesReceived v)
         (um_lastSequenceNumber v))
      (AudioInfo (audioRate u) (audioType u) (audioBitDepth u) (audioEndian u) (audioChannels u) (au_sparseMode u)
         fpp 4 pframe (um_packingFactor v) fpi isz iframe (u32 (iframe * fpi)) syt (intf_rx_translate u)
         (presentationLatencyUSec u) (timestampInterval u))
      data (um_ticks m) (um_pushed m)).

(** ** Configuration *)

Definition openavbMapUncmpAudioCfgCB (v : uncmp_pvt) (name value : string) : uncmp_pvt :=
  let n := (strtol value).1 in
  let put ic tx pk mcr gen :=
    UncmpPvt ic tx pk (um_maxTransitUsec v) (cip_sfc v) (AM824_label v) (um_maxPayloadSize v) (um_DBC v) mcr gen
      (um_framesReceived v) (um_lastSequenceNumber v) in
  let 'UncmpPvt ic tx pk _ _ _ _ _ mcr gen _ _ := v in
  if decide (name = "map_nv_item_count"%string) then put (u32 n) tx pk mcr gen
  else if decide (name = "map_nv_tx_rate"%string \/ name = "map_nv_tx_interval"%string) then put ic (u32 n) pk mcr gen
  else if decide (name = "map_nv_packing_factor"%string) then put ic tx (u32 n) mcr gen
  else if decide (name = "map_nv_audio_mcr"%string) then put ic tx pk (u32 n) gen
  else if decide (name = "map_nv_gen_clock_tick_on_receive_audio"%string) then put ic tx pk mcr (u16 n)
  else v.

Definition uncmp_defaults (inMaxTransitUsec : Z) : uncmp_pvt := UncmpPvt 20 0 1 inMaxTransitUsec 0 0 0 0 0 0 0 0.

Definition openavbMapUncmpAudioMaxDataSizeCB (P : option uncmp_map) : Z :=
  match P with Some m => u16 (um_maxPayloadSize (um_pvt m)) | None => 0 end.
Definition openavbMapUncmpAudioTransmitIntervalCB (P : option uncmp_map) : Z :=
  match P with Some m => um_txInterval (um_pvt m) | None => 0 end.

(** ** Samples *)

Definition of_le (l : list Z) : Z := of_be (reverse l).
Definition le32 (v : Z) : list Z := reverse (be32 v).

(** The size of a sample in an item; every size but 2 is treated as 3. *)
Definition sample_step (u : audio_info) : Z := if itemSampleSizeBytes u =? 2 then 2 else 3.

(** A sample of an item, as it goes into a packet.  A sample of three bytes is read as
    an int of four. *)
Definition sample_out (u : audio_info) (label : Z) (d : list Z) (off : Z) : res (list Z) :=
  if itemSampleSizeBytes u =? 2 then
    bs ← rd_list d off 2; Ret (be32 (Z.lor (Z.shiftl (of_le bs) 8) label))
  else
    bs ← rd_list d off 4; Ret (be32 (Z.lor (Z.land (of_le bs) 0x00ffffff) label)).

(** A sample of a packet, into an item.  One of three bytes is written as an int of
    four. *)
Definition sample_in (u : audio_info) (pData : list Z) (at_ : Z) (d : list Z) (off : Z) : res (list Z) :=
  v ← get32 pData at_;
  if itemSampleSizeBytes u =? 2 then wr_list d off (le16 (u16 (Z.shiftr (Z.land v 0x00ffffff) 8)))
  else wr_list d off (le32 (Z.land v 0x00ffffff)).

(** The loops over the channels of a frame. *)
Fixpoint channels_out (n : nat) (u : audio_info) (label : Z) (d : list Z) (off : Z) (buf : list Z) (at_ : Z) : res (list Z) :=
  match n with
  | O => Ret buf
  | S n =>
      bs ← sample_out u label d off;
      buf ← wr_list buf at_ bs;
      channels_out n u label d (off + sample_step u) buf (at_ + 4)
  end.
Fixpoint channels_in (n : nat) (u : audio_info) (pData : list Z) (at_ : Z) (d : list Z) (off : Z) : res (list Z) :=
  match n with
  | O => Ret d
  | S n => d ← sample_in u pData at_ d off; channels_in n u pData (at_ + 4) d (off + sample_step u)
  end.

(** Where the loops over frames are: the buffer, the next offsets in the packet and in
    the item, and the item's own index. *)
Definition nchannels (u : audio_info) : nat := Z.to_nat (audioChannels u).

(** [n] frames at most, while the item has data: the frames left to do, [readIdx], the
    buffer and the place in it. *)
Fixpoint frames_out (n : nat) (u : audio_info) (label : Z) (a : media_q_item) (readIdx_ off : Z) (buf : list Z) (at_ : Z)
  : res (nat * Z * list Z * Z) :=
  match n with
  | O => Ret (O, readIdx_, buf, at_)
  | S n =>
      if readIdx_ <? dataLen a then
        d ← (match pPubData a with Some d => Ret d | None => Fault (OobRead 0) end);
        buf ← channels_out (nchannels u) u label d off buf at_;
        frames_out n u label a (u32 (readIdx_ + itemFrameSizeBytes u)) (off + Z.of_nat (nchannels u) * sample_step u)
          buf (at_ + 4 * Z.of_nat (nchannels u))
      else Ret (S n, readIdx_, buf, at_)
  end.

(** While the packet and the item have room for a frame: the bytes written and the
    data of the item. *)
Fixpoint frames_in (fuel : nat) (u : audio_info) (pData : list Z) (at_ end_ : Z) (a : media_q_item) (d : list Z) (off written : Z)
  : res (list Z * Z) :=
  if (at_ + packetFrameSizeBytes u <=? end_) && (off + itemFrameSizeBytes u <=? itemSize a) then
    match fuel with
    | O => Fault OutOfFuel
    | S fuel =>
        d ← channels_in (nchannels u) u pData at_ d off;
        let n := Z.of_nat (nchannels u) * sample_step u in
        frames_in fuel u pData (at_ + 4 * Z.of_nat (nchannels u)) end_ a d (off + n) (u32 (written + n))
    end
  else Ret (d, written).

(** ** Talker *)

Definition uncmp_header (m : uncmp_map) (pData : list Z) : res (list Z) :=
  buf ← wr_list pData HIDX_GATEWAY32 [0; 0; 0; 0];
  buf ← wr buf HIDX_TAG2_CHANNEL6 (Z.lor (Z.shiftl 1 6) 0x1f);
  buf ← wr buf HIDX_TCODE4_SY4 (Z.shiftl 0x0a 4);
  buf ← wr buf HIDX_CIP2_SID6 0x3f;
  buf ← wr buf HIDX_DBS8 (audioChannels (um_pub m));
  buf ← wr buf HIDX_FN2_QPC3_SPH1_RSV2 0;
  buf ← wr buf HIDX_CIP2_FMT6 (Z.lor (Z.shiftl 2 6) 0x10);
  buf ← wr buf HIDX_FDF5_SFC3 (cip_sfc (um_pvt m));
  wr_list buf HIDX_SYT16 [0xff; 0xff].

Section Callbacks.
Context {pf : Platform}.

Definition openavbMapUncmpAudioInitialize (inMaxTransitUsec : Z) : mqM (bool * option uncmp_map) :=
  c0 ← mq_call; c1 ← mq_call; c2 ← mq_call;
  if negb (calloc_ok c0) || negb (calloc_ok c1) || negb (calloc_ok c2) then mret (false, None)
  else _ ← openavbMediaQSetMaxLatency inMaxTransitUsec;
       mret (true, Some (UncmpMap (uncmp_defaults inMaxTransitUsec) zero_info 0 [] [])).

Definition openavbMapUncmpAudioGenInitCB (P : option uncmp_map) : mqM (option uncmp_map) :=
  match P with
  | None => mret None
  | Some m =>
      m ← mq_lift (uncmp_calculateSizes m);
      _ ← openavbMediaQSetSize (s32 (um_itemCount (um_pvt m))) (s32 (au_itemSize (um_pub m)));
      mret (Some m)
  end.

(** An item that is at its start gives the packet its time. *)
Definition uncmp_stamp (m : uncmp_map) (k : Z) (a : media_q_item) (buf : list Z) (set : bool) : mqM (list Z * bool) :=
  if readIdx a =? 0 then
    let t := openavbAvtpTimeAddUSec (pAvtpTime a) (um_maxTransitUsec (um_pvt m)) in
    _ ← item_write k (with_time t);
    buf ← mq_lift (stamp_flags t buf);
    buf ← mq_lift (wr_list buf HIDX_AVTP_TIMESPAMP32 (be32 (openavbAvtpTimeGetAvtpTimestamp t)));
    mret (buf, true)
  else mret (buf, set).

(** One turn: the frames that the oldest item has for the packet. *)
Definition uncmp_turn (m : uncmp_map) (n : nat) (buf : list Z) (at_ : Z) (set : bool) : mqM (nat * list Z * Z * bool) :=
  item ← openavbMediaQTailLock true;
  match item with
  | None => _ ← openavbMediaQTailPull; mret (n, buf, at_, set)
  | Some k =>
      a ← item_read k;
      if 0 <? dataLen a then
        '(buf, set) ← uncmp_stamp m k a buf set;
        '(n, r, buf, at_) ← mq_lift (frames_out n (um_pub m) (AM824_label (um_pvt m)) a (readIdx a) (readIdx a) buf at_);
        _ ← item_write k (with_read r);
        _ ← (if dataLen a <=? r then _ ← openavbMediaQTailPull; mret tt else openavbMediaQTailUnlock);
        mret (n, buf, at_, set)
      else _ ← openavbMediaQTailPull; mret (n, buf, at_, set)
  end.

(** [while (framesProcessed < framesPerPacket)], with the frames that are left. *)
Fixpoint uncmp_loop (fuel : nat) (m : uncmp_map) (n : nat) (buf : list Z) (at_ : Z) (set : bool) : mqM (list Z * bool) :=
  match n with
  | O => mret (buf, set)
  | S _ =>
      match fuel with
      | O => mq_lift (Fault OutOfFuel)
      | S fuel => '(n, buf, at_, set) ← uncmp_turn m n buf at_ set; uncmp_loop fuel m n buf at_ set
      end
  end.

Definition openavbMapUncmpAudioTxCB (fuel : nat) (P : option uncmp_map) (pData : list Z) (len : Z)
  : mqM (tx_cb_ret_t * list Z * Z * option uncmp_map) :=
  match P with
  | None => mq_lift (Fault (OobRead 0))
  | Some m =>
      let u := um_pub m in
      let v := um_pvt m in
      if u32 (len - UNCMP_TOTAL_HEADER_SIZE) <? packetAudioDataSizeBytes m
      then mret (TX_CB_RET_PACKET_NOT_READY, pData, len, P)
      else
        ok ← openavbMediaQIsAvailableBytes (u32 (itemFrameSizeBytes u * framesPerPacket u)) true;
        if ok : bool then
          buf ← mq_lift (uncmp_header m pData);
          '(buf, set) ← uncmp_loop fuel m (Z.to_nat (framesPerPacket u)) buf UNCMP_TOTAL_HEADER_SIZE false;
          buf ← mq_lift (if set : bool then Ret buf else set_bits buf HIDX_AVTP_HIDE7_TV1 1 false);
          buf ← mq_lift (wr buf HIDX_DBC8 (um_DBC v));
          let m := on_pvt (with_DBC (u8 (um_DBC v + framesPerPacket u)) v) m in
          buf ← mq_lift (wr_list buf HIDX_DATALEN16 (be16 (u16 (framesPerPacket u * packetFrameSizeBytes u + CIP_HEADER_SIZE))));
          mret (TX_CB_RET_PACKET_READY, buf, u32 (framesPerPacket u * packetFrameSizeBytes u + UNCMP_TOTAL_HEADER_SIZE), Some m)
        else mret (TX_CB_RET_PACKET_NOT_READY, pData, len, P)
  end.

(** ** Listener *)

(** Where the listener is the clock source: a tick with the time of the clock. *)
Definition clock_wanted (m : uncmp_map) : bool :=
  negb (um_genClockTick (um_pvt m) =? 0) && negb (timestampInterval (um_pub m) =? 0).
Definition add_ticks (ts : list clk_tick) (v : uncmp_pvt) (m : uncmp_map) : uncmp_map :=
  UncmpMap v (um_pub m) (packetAudioDataSizeBytes m) (um_ticks m ++ ts) (um_pushed m).

Definition openavbMapUncmpAudioRxInitCB (P : option uncmp_map) : mqM (option uncmp_map) :=
  match P with
  | None => mret None
  | Some m =>
      if clock_wanted m
      then ts ← aaf_clock 0 (timestampInterval (um_pub m)) true; mret (Some (add_ticks ts (um_pvt m) m))
      else mret (Some m)
  end.

(** Clock generation: [size] is what the header says of the audio data. *)
Definition uncmp_gen_clock (m : uncmp_map) (seq size : Z) : mqM uncmp_map :=
  let v := um_pvt m in
  let interval := timestampInterval (um_pub m) in
  if clock_wanted m then
    if negb (seq =? (um_lastSequenceNumber v + 1) mod MAX_U8) then
      ts ← aaf_clock 0 interval true; mret (add_ticks ts (with_received 0 seq v) m)
    else if packetFrameSizeBytes (um_pub m) =? 0 then mq_lift (Fault DivByZero)
    else
      let frames := u32 (um_framesReceived v + Z.quot size (packetFrameSizeBytes (um_pub m))) in
      '(frames, ts) ← aaf_tick_loop (S (Z.to_nat frames)) frames interval;
      mret (add_ticks ts (with_received frames seq v) m)
  else mret m.

(** A timestamp that is valid and certain goes to media clock recovery, when it is on. *)
Definition push_mcr (m : uncmp_map) (a : media_q_item) (timestamp : Z) (tv tu : bool) : uncmp_map :=
  if negb (um_audioMcr (um_pvt m) =? 0) && tv && negb tu && bool_decide (pAvtpTime a <> None)
  then UncmpMap (um_pvt m) (um_pub m) (packetAudioDataSizeBytes m) (um_ticks m) (um_pushed m ++ [timestamp])
  else m.

(** The frames of the packet, into the item from [dataLen] on. *)
Definition uncmp_store (u : audio_info) (pData : list Z) (end_ : Z) (a : media_q_item) : res media_q_item :=
  d ← (match pPubData a with Some d => Ret d | None => Fault (OobWrite 0) end);
  '(d, written) ← frames_in (S (Z.to_nat end_)) u pData UNCMP_TOTAL_HEADER_SIZE end_ a d (dataLen a) 0;
  Ret (with_data d (u32 (dataLen a + written)) a).

Definition openavbMapUncmpAudioRxCB (P : option uncmp_map) (pData : list Z) (len : Z) : mqM (bool * option uncmp_map) :=
  match P with
  | None => mq_lift (Fault (OobRead 0))
  | Some m =>
      let u := um_pub m in
      payloadLen ← mq_lift (get16 pData HIDX_DATALEN16);
      dbc ← mq_lift (rd pData HIDX_DBC8);
      tv ← mq_lift (rd pData HIDX_AVTP_HIDE7_TV1);
      tu ← mq_lift (rd pData HIDX_AVTP_HIDE7_TU1);
      seq ← mq_lift (rd pData HIDX_AVTP_SEQ_NUM8);
      if sytInterval u =? 0 then mq_lift (Fault DivByZero)
      else
        let dbcIdx := u8 (dbc mod sytInterval u) in
        let end_ := AVTP_V0_HEADER_SIZE + MAP_HEADER_SIZE + payloadLen in
        m ← uncmp_gen_clock m seq (end_ - UNCMP_TOTAL_HEADER_SIZE);
        if UNCMP_TOTAL_HEADER_SIZE + packetFrameSizeBytes u <=? end_ then
          k ← openavbMediaQHeadLock;
          match k with
          | None => mret (false, Some m)
          | Some k =>
              a ← item_read k;
              timestamp ← mq_lift (get32 pData HIDX_AVTP_TIMESPAMP32);
              let m := push_mcr m a timestamp (Z.testbit tv 0) (Z.testbit tu 0) in
              if (dataLen a =? 0) && (0 <? dbcIdx) then _ ← openavbMediaQHeadUnlock; mret (true, Some m)
              else
                _ ← (if dataLen a =? 0
                     then n ← mq_call; t ← mq_lift (rx_time pData n (pAvtpTime a)); item_write k (with_time t)
                     else mret tt);
                a ← item_read k;
                a ← mq_lift (uncmp_store u pData end_ a);
                _ ← item_write k (fun _ => a);
                _ ← (if dataLen a <? itemSize a
                     then _ ← openavbMediaQHeadUnlock; mret tt
                     else _ ← openavbMediaQHeadPush; mret tt);
                mret (true, Some m)
          end
        else mret (true, Some m)
  end.

(** The callbacks, with a bound on the turns of the talker's loop. *)
Definition uncmp_cb (fuel : nat) : map_cb (option uncmp_map) :=
  MapCB 0 0 openavbMapUncmpAudioMaxDataSizeCB openavbMapUncmpAudioTransmitIntervalCB
    mret (openavbMapUncmpAudioTxCB fuel) openavbMapUncmpAudioRxInitCB openavbMapUncmpAudioRxCB.

End Callbacks.
