(* ===== verification/MapUncmpProps.v ===== *)
(** * The uncompressed audio mapping: samples, items and packets

    The loops of both callbacks on 16-bit audio, as functions on the bytes of the
    samples, and the effect of one turn of the talker on the media queue. *)

From S2P Require Import Prelude AvtpTime MediaQ MediaQProps AvtpMap AudioMap MapPipe MapAaf MapAafProps MapMpeg2ts MapMpeg2tsProps MapVideo MapVideoProps MapUncmp.
From Stdlib Require Import ZArith Lia.
From stdpp Require Import base tactics list option.
Open Scope Z_scope.

#[local] Arguments Nat.mul : simpl never.

(** ** Samples *)

(** 16-bit samples as they are in a packet: the label, the sample and a zero byte. *)
Fixpoint am824 (l : list Z) : list Z :=
  match l with b0 :: b1 :: l => 0x42 :: b1 :: b0 :: 0 :: am824 l | _ => [] end.

Lemma am824_len n : forall l, length l = (2 * n)%nat -> length (am824 l) = (4 * n)%nat.
Proof.
  induction n as [|n IH]; intros l Hl; [by destruct l|]. destruct l as [|b0 [|b1 l]]; cbn [length] in Hl; try lia.
  cbn [am824 length]. rewrite IH by lia. lia.
Qed.
Lemma am824_app n l l' : length l = (2 * n)%nat -> am824 (l ++ l') = am824 l ++ am824 l'.
Proof.
  revert l. induction n as [|n IH]; intros l Hl; [by destruct l|]. destruct l as [|b0 [|b1 l]]; cbn [length] in Hl; try lia.
  cbn [app am824]. by rewrite IH by lia.
Qed.
Lemma am824_ok l : bytes_ok l -> bytes_ok (am824 l).
Proof.
  induction l as [l IH] using (induction_ltof1 _ length); intros Hl.
  destruct l as [|b0 [|b1 l]]; [constructor..|]. apply Forall_cons_1 in Hl as [H0 [H1 Hl]%Forall_cons_1].
  cbn [am824]. repeat (apply Forall_cons_2; [done || lia|]). apply IH; [unfold ltof; cbn; lia|done].
Qed.

Lemma sample_out_16 u d b0 b1 off :
  itemSampleSizeBytes u = 2 -> bytes_ok [b0; b1] -> rd_list d off 2 = Ret [b0; b1] ->
  sample_out u 0x42000000 d off = Ret (am824 [b0; b1]).
Proof.
  intros Hu Hb Hr. unfold sample_out. rewrite Hu, Hr. cbn [Z.eqb Pos.eqb]. rewrite res_bind_ret. f_equal.
  apply Forall_cons_1 in Hb as [H0 [H1 _]%Forall_cons_1].
  unfold of_le. change (of_be (reverse [b0; b1])) with (b1 * 256 + b0).
  rewrite Z.lor_comm. change 0x42000000 with (Z.shiftl 0x42 24). rewrite lor_low; [|lia|rewrite Z.shiftl_mul_pow2; lia].
  rewrite Z.shiftl_mul_pow2 by lia. unfold be32, am824, u8. rewrite !Z.shiftr_div_pow2 by lia.
  repeat f_equal; zdm.
Qed.

Lemma sample_in_16 u pData d b0 b1 at_ off :
  itemSampleSizeBytes u = 2 -> bytes_ok [b0; b1] -> rd_list pData at_ 4 = Ret (am824 [b0; b1]) ->
  sample_in u pData at_ d off = wr_list d off [b0; b1].
Proof.
  intros Hu Hb Hr. unfold sample_in, get32. rewrite Hu, Hr. cbn [Z.eqb Pos.eqb]. rewrite !res_bind_ret. f_equal.
  apply Forall_cons_1 in Hb as [H0 [H1 _]%Forall_cons_1].
  change (of_be (am824 [b0; b1])) with ((((0 * 256 + 66) * 256 + b1) * 256 + b0) * 256 + 0).
  change 0x00ffffff with (Z.ones 24). rewrite Z.land_ones by lia. rewrite Z.shiftr_div_pow2 by lia.
  unfold le16, u8, u16. rewrite Z.shiftr_div_pow2 by lia. repeat f_equal; zdm.
Qed.

Lemma take_two (n : nat) (l : list Z) : (2 * S n <= length l)%nat ->
  exists b0 b1 r, l = b0 :: b1 :: r /\ take (2 * S n) l = b0 :: b1 :: take (2 * n) r.
Proof.
  intros Hl. destruct l as [|b0 [|b1 r]]; cbn [length] in Hl; try lia. exists b0, b1, r. split; [done|].
  by replace (2 * S n)%nat with (S (S (2 * n))) by lia.
Qed.

Lemma drop_cons_two (d : list Z) (off : Z) b0 b1 r : 0 <= off -> drop (Z.to_nat off) d = b0 :: b1 :: r ->
  rd_list d off 2 = Ret [b0; b1] /\ drop (Z.to_nat (off + 2)) d = r.
Proof.
  intros Ho Hd. pose proof (f_equal length Hd) as Hl. rewrite length_drop in Hl. cbn [length] in Hl. split.
  - rewrite rd_list_slice by lia. by rewrite Hd.
  - replace (Z.to_nat (off + 2)) with (Z.to_nat off + 2)%nat by lia. by rewrite <- drop_drop, Hd.
Qed.

Section Frames.
Context (u : audio_info) (Hsz : itemSampleSizeBytes u = 2).

Lemma step_16 : sample_step u = 2.
Proof. unfold sample_step. by rewrite Hsz. Qed.

Lemma channels_out_spec d n : forall off pre old rest,
  bytes_ok d -> 0 <= off -> off + 2 * Z.of_nat n <= Zlen d -> length old = (4 * n)%nat ->
  channels_out n u 0x42000000 d off (pre ++ old ++ rest) (Zlen pre)
  = Ret (pre ++ am824 (take (2 * n) (drop (Z.to_nat off) d)) ++ rest).
Proof.
  induction n as [|n IH]; intros off pre old rest Hb Ho Hl Hold.
  { destruct old; [|cbn in Hold; lia]. by rewrite Nat.mul_0_r, take_0. }
  destruct (take_two n (drop (Z.to_nat off) d)) as (b0 & b1 & r & Hd & Ht); [rewrite length_drop; lia|].
  destruct (drop_cons_two d off b0 b1 r Ho Hd) as [Hr Hr'].
  assert (Hbb : bytes_ok [b0; b1]). { eapply rd_list_bytes_ok; [exact Hb|exact Hr]. }
  cbn [channels_out]. rewrite (sample_out_16 u d b0 b1 off Hsz Hbb Hr), res_bind_ret, step_16.
  rewrite <- (take_drop 4 old), <- app_assoc. rewrite wr_list_app, res_bind_ret;
    [|done|rewrite length_take, Hold; change (length (am824 [b0; b1])) with 4%nat; lia|by apply am824_ok].
  replace (Zlen pre + 4) with (Zlen (pre ++ am824 [b0; b1])) by (rewrite length_app; change (length (am824 [b0; b1])) with 4%nat; lia).
  rewrite app_assoc, IH; [|done|lia|lia|rewrite length_drop; lia].
  rewrite Hr', Ht. cbn [am824]. by rewrite <- !app_assoc.
Qed.

Lemma channels_in_spec pData n : forall at_ l off pre old rest,
  bytes_ok l -> length l = (2 * n)%nat -> off = Zlen pre -> rd_list pData at_ (4 * n) = Ret (am824 l) -> length old = (2 * n)%nat ->
  channels_in n u pData at_ (pre ++ old ++ rest) off = Ret (pre ++ l ++ rest).
Proof.
  induction n as [|n IH]; intros at_ l off pre old rest Hb Hl Hoff Hr Hold.
  { destruct l; [|cbn in Hl; lia]. by destruct old; [|cbn in Hold; lia]. }
  destruct l as [|b0 [|b1 l]]; cbn [length] in Hl; try lia.
  pose proof Hb as [H0 [H1 Hb']%Forall_cons_1]%Forall_cons_1. assert (Hbb : bytes_ok [b0; b1]) by (unfold bytes_ok; forall_done).
  replace (4 * S n)%nat with (4 + 4 * n)%nat in Hr by lia. cbn [am824] in Hr.
  change (0x42 :: b1 :: b0 :: 0 :: am824 l) with (am824 [b0; b1] ++ am824 l) in Hr.
  assert (rd_list pData at_ 4 = Ret (am824 [b0; b1]) /\ rd_list pData (at_ + 4) (4 * n) = Ret (am824 l)) as [E1 E2].
  { revert Hr. cbn [rd_list Nat.add am824 app]. replace (at_ + 1 + 1 + 1 + 1) with (at_ + 4) by lia.
    destruct (rd pData at_); [|done]. rewrite !res_bind_ret. destruct (rd pData (at_ + 1)); [|done]. rewrite !res_bind_ret.
    destruct (rd pData (at_ + 1 + 1)); [|done]. rewrite !res_bind_ret. destruct (rd pData (at_ + 1 + 1 + 1)); [|done].
    rewrite !res_bind_ret. destruct (rd_list pData (at_ + 4) (4 * n)); [|done]. intros [= -> -> -> -> ->]. done. }
  cbn [channels_in]. rewrite (sample_in_16 u pData _ b0 b1) by done. rewrite step_16.
  rewrite <- (take_drop 2 old), <- app_assoc. rewrite wr_list_app, res_bind_ret;
    [|done|rewrite length_take, Hold; change (length [b0; b1]) with 2%nat; lia|done].
  rewrite app_assoc. rewrite (IH (at_ + 4) l); [|done|lia|rewrite length_app; change (length [b0; b1]) with 2%nat; lia|done|rewrite length_drop; lia].
  by rewrite <- !app_assoc.
Qed.

End Frames.

(** ** Frames *)

(** A module whose sizes were calculated for 16-bit audio, with [ch] channels and [F]
    frames per packet. *)
Record uncmp_ok (m : uncmp_map) (ch F : nat) : Prop := {
  uo_isz : itemSampleSizeBytes (um_pub m) = 2;
  uo_ch : audioChannels (um_pub m) = Z.of_nat ch;
  uo_iframe : itemFrameSizeBytes (um_pub m) = 2 * Z.of_nat ch;
  uo_pframe : packetFrameSizeBytes (um_pub m) = 4 * Z.of_nat ch;
  uo_fpp : framesPerPacket (um_pub m) = Z.of_nat F;
  uo_data : packetAudioDataSizeBytes m = Z.of_nat (4 * ch * F);
  uo_label : AM824_label (um_pvt m) = 0x42000000;
  uo_pos : (0 < ch)%nat /\ (0 < F)%nat;
  uo_small : Z.of_nat (4 * ch * F) + 32 < 65536;
  uo_syt : 1 <= sytInterval (um_pub m) < 256
}.

Section Module.
Context (m : uncmp_map) (ch F : nat) (Hm : uncmp_ok m ch F).

Lemma nchannels_ch : nchannels (um_pub m) = ch.
Proof. unfold nchannels. rewrite (uo_ch _ _ _ Hm). apply Nat2Z.id. Qed.

(** The frames that start in the data of an item; a last one may end behind it. *)
Definition frames_from (a : media_q_item) (r : Z) (fr : nat) : Prop :=
  dataLen a <= r + Z.of_nat (2 * ch * fr) /\ forall i, (i < fr)%nat -> r + Z.of_nat (2 * ch * i) < dataLen a.

Lemma frames_whole a r fr : dataLen a = r + Z.of_nat (2 * ch * fr) -> frames_from a r fr.
Proof. destruct (uo_pos _ _ _ Hm) as [Hc _]. intros E. split; [lia|]. intros i Hi. rewrite E. nia. Qed.

Lemma frames_from_next a r fr : frames_from a r (S fr) -> frames_from a (r + 2 * Z.of_nat ch) fr.
Proof. intros [H1 H2]. split; [lia|]. intros i Hi. specialize (H2 (S i) ltac:(lia)). lia. Qed.

Lemma frames_out_spec a d n : forall fr r pre old rest,
  pPubData a = Some d -> bytes_ok d -> 0 <= r -> frames_from a r fr -> r + Z.of_nat (2 * ch * fr) <= Zlen d ->
  r + Z.of_nat (2 * ch * fr) < 4294967296 -> length old = (4 * ch * n)%nat ->
  frames_out n (um_pub m) 0x42000000 a r r (pre ++ old ++ rest) (Zlen pre)
  = Ret ((n - Nat.min n fr)%nat, r + Z.of_nat (2 * ch * Nat.min n fr),
         pre ++ am824 (take (2 * ch * Nat.min n fr) (drop (Z.to_nat r) d)) ++ drop (4 * ch * Nat.min n fr) old ++ rest,
         Zlen pre + Z.of_nat (4 * ch * Nat.min n fr)).
Proof.
  induction n as [|n IH]; intros fr r pre old rest Hd Hb Hr Hfrom Hl H31 Hold.
  { cbn [frames_out Nat.min Nat.sub]. rewrite !Nat.mul_0_r, take_0, drop_0. cbn [Z.of_nat am824 app]. by rewrite !Z.add_0_r. }
  cbn [frames_out]. destruct fr as [|fr].
  { destruct Hfrom as [Hge _]. rewrite (proj2 (Z.ltb_ge _ _)) by lia. cbn [Nat.min]. rewrite !Nat.mul_0_r, take_0, drop_0. cbn [Z.of_nat am824 app].
    by rewrite !Z.add_0_r. }
  destruct (uo_pos _ _ _ Hm) as [Hc _]. rewrite (proj2 (Z.ltb_lt _ _)) by (pose proof (proj2 Hfrom 0%nat ltac:(lia)); lia).
  rewrite Hd, res_bind_ret, nchannels_ch, (uo_iframe _ _ _ Hm), (step_16 _ (uo_isz _ _ _ Hm)).
  rewrite <- (take_drop (4 * ch) old), <- app_assoc.
  rewrite (channels_out_spec _ (uo_isz _ _ _ Hm)), res_bind_ret; [|done|done|lia|rewrite length_take; lia].
  rewrite u32_id, (app_assoc pre) by lia. set (pre' := pre ++ am824 _).
  assert (Hp : Zlen pre' = Zlen pre + 4 * Z.of_nat ch).
  { subst pre'. rewrite length_app, (am824_len ch) by (rewrite length_take, length_drop; lia). lia. }
  replace (r + Z.of_nat ch * 2) with (r + 2 * Z.of_nat ch) by lia. rewrite <- Hp.
  rewrite (IH fr); [|done|done|lia|by apply frames_from_next|lia|lia|rewrite length_drop; lia].
  cbn [Nat.min Nat.sub]. set (k := Nat.min n fr). assert (Hk : (k <= fr)%nat) by lia.
  f_equal. f_equal; [f_equal; [f_equal; lia|]|lia]. rewrite take_drop, drop_drop. subst pre'. rewrite <- app_assoc. f_equal.
  rewrite app_assoc. f_equal; [|by replace (4 * ch + 4 * ch * k)%nat with (4 * ch * S k)%nat by lia].
  rewrite <- (am824_app ch) by (rewrite length_take, length_drop; lia).
  replace (Z.to_nat (r + 2 * Z.of_nat ch)) with (Z.to_nat r + 2 * ch)%nat by lia.
  rewrite <- (drop_drop _ (2 * ch) (Z.to_nat r)), take_take_drop. by replace (2 * ch + 2 * ch * k)%nat with (2 * ch * S k)%nat by lia.
Qed.

(** The frames of a packet go into an item that has room for them. *)
Lemma frames_in_spec a n : forall fuel P l R pre old rest written,
  bytes_ok l -> length l = (2 * ch * n)%nat -> length old = (2 * ch * n)%nat -> Zlen pre + Z.of_nat (2 * ch * n) <= itemSize a ->
  (n < fuel)%nat -> 0 <= written -> written + Z.of_nat (2 * ch * n) < 4294967296 ->
  frames_in fuel (um_pub m) (P ++ am824 l ++ R) (Zlen P) (Zlen P + Z.of_nat (4 * ch * n)) a (pre ++ old ++ rest) (Zlen pre) written
  = Ret (pre ++ l ++ rest, written + Z.of_nat (2 * ch * n)).
Proof.
  destruct (uo_pos _ _ _ Hm) as [Hc _].
  induction n as [|n IH]; intros fuel P l R pre old rest written Hb Hl Hold Hroom Hf Hw Hw'; (destruct fuel as [|fuel]; [lia|]);
    cbn [frames_in]; rewrite (uo_pframe _ _ _ Hm), (uo_iframe _ _ _ Hm).
  { rewrite (proj2 (Z.leb_gt _ _)) by lia. cbn [andb]. rewrite Nat.mul_0_r in *. destruct l, old; try done. cbn. f_equal. f_equal. lia. }
  rewrite !(proj2 (Z.leb_le _ _)) by nia. cbn [andb]. rewrite nchannels_ch, (step_16 _ (uo_isz _ _ _ Hm)).
  assert (El : am824 l ++ R = am824 (take (2 * ch) l) ++ am824 (drop (2 * ch) l) ++ R).
  { by rewrite app_assoc, <- (am824_app ch), take_drop by (rewrite length_take; lia). }
  rewrite El. rewrite <- (take_drop (2 * ch) old), <- (app_assoc (take _ old)).
  assert (Hal : length (am824 (take (2 * ch) l)) = (4 * ch)%nat) by (apply am824_len; rewrite length_take; lia).
  rewrite (channels_in_spec _ (uo_isz _ _ _ Hm) _ _ _ (take (2 * ch) l)), res_bind_ret;
    [|by apply Forall_take|rewrite length_take; lia|done|rewrite <- Hal; by apply rd_list_app|rewrite length_take; lia].
  cbv zeta. rewrite (app_assoc P (am824 _)), (app_assoc pre (take _ _)).
  replace (Zlen P + 4 * Z.of_nat ch) with (Zlen (P ++ am824 (take (2 * ch) l))) by (rewrite length_app; lia).
  replace (Zlen pre + Z.of_nat ch * 2) with (Zlen (pre ++ take (2 * ch) l)) by (rewrite length_app, length_take; lia).
  replace (Zlen P + Z.of_nat (4 * ch * S n)) with (Zlen (P ++ am824 (take (2 * ch) l)) + Z.of_nat (4 * ch * n))
    by (rewrite length_app; lia).
  rewrite u32_id by lia. rewrite IH; [|by apply Forall_drop|rewrite length_drop; lia|rewrite length_drop; lia| |lia|lia|lia].
  - rewrite <- app_assoc, (app_assoc (take _ _)), take_drop. f_equal. f_equal. lia.
  - rewrite length_app, length_take. lia.
Qed.

(** ** Items *)

(** An item with whole frames left to read. *)
Definition uncmp_item (a : media_q_item) : Prop :=
  ts_item a /\ exists fr, dataLen a = readIdx a + Z.of_nat (2 * ch * fr).

Lemma uncmp_unread a d fr : ts_item a -> pPubData a = Some d -> dataLen a = readIdx a + Z.of_nat (2 * ch * fr) ->
  unread a = take (2 * ch * fr) (drop (Z.to_nat (readIdx a)) d).
Proof. intros (d' & Hd' & _ & Hr & _) Hd Hl. unfold unread. rewrite Hd. cbn. f_equal. unfold id. lia. Qed.

(** ** One turn of the talker *)

Section Turn.
Context {pf : Platform}.

(** Only the header and the time of the item change. *)
Lemma uncmp_stamp_spec s a x c k hdr y set :
  mq_refines s a -> f_held a = x :: c -> at_index q_tail s k -> length hdr = 32%nat ->
  mq_returns (uncmp_stamp m k x (hdr ++ y) set) s (fun '(buf', _) s' => exists hdr' t,
    buf' = hdr' ++ y /\ length hdr' = 32%nat /\ mq_refines s' (retail (with_time t x) a) /\ at_index q_tail s' k).
Proof.
  intros Hs Hh Hk Hhdr. unfold uncmp_stamp. destruct (readIdx x =? 0).
  - set (t := openavbAvtpTimeAddUSec _ _).
    eapply mq_bind; [eapply (write_tail_as s a k (with_time t) x c); done|]. intros [] s1 [H1 Hk1].
    destruct (set_bits_prefix hdr y HIDX_AVTP_HIDE7_TV1 (openavbAvtpTimeTimestampIsValid t)) as [b1 E1]; [rewrite Hhdr; done|].
    destruct (set_bits_prefix (<[Z.to_nat HIDX_AVTP_HIDE7_TV1:=b1]> hdr) y HIDX_AVTP_HIDE7_TU1 (openavbAvtpTimeTimestampIsUncertain t))
      as [b2 E2]; [rewrite length_insert, Hhdr; done|].
    eapply mq_bind_lift. { unfold stamp_flags. rewrite E1, res_bind_ret. exact E2. }
    destruct (wr_list_prefix (<[Z.to_nat HIDX_AVTP_HIDE7_TU1:=b2]> (<[Z.to_nat HIDX_AVTP_HIDE7_TV1:=b1]> hdr)) y HIDX_AVTP_TIMESPAMP32
      (be32 (openavbAvtpTimeGetAvtpTimestamp t))) as (h & E3 & Hl & _); [done|rewrite !length_insert, Hhdr; done|apply be32_ok|].
    eapply mq_bind_lift; [exact E3|]. apply mq_ret. exists h, t. split_and!; try done. by rewrite Hl, !length_insert.
  - apply mq_ret. exists hdr, (pAvtpTime x). split_and!; try done. unfold retail, fifo_write_tail. rewrite Hh. destruct a, x. cbn in *. by subst.
Qed.

(** What is left of an item of which [k] frames were taken. *)
Lemma uncmp_taken x d fr k t : ts_item x -> pPubData x = Some d -> dataLen x = readIdx x + Z.of_nat (2 * ch * fr) -> (k <= fr)%nat ->
  let x' := with_read (readIdx x + Z.of_nat (2 * ch * k)) (with_time t x) in
  uncmp_item x' /\ unread x' = drop (2 * ch * k) (unread x).
Proof.
  intros Hx Hd Hl Hk. pose proof Hx as (d' & Hd' & Hb & Hr & Hdl & H31). rewrite Hd in Hd'. injection Hd' as <-.
  set (x' := with_read _ _). assert (Hx' : ts_item x'). { exists d. cbn. split_and!; try done; nia. }
  assert (Hl' : dataLen x' = readIdx x' + Z.of_nat (2 * ch * (fr - k))) by (cbn; nia).
  split; [by split; [|eexists]|]. rewrite (uncmp_unread x' d (fr - k)), (uncmp_unread x d fr) by done. cbn [readIdx x' with_read].
  replace (Z.to_nat (readIdx x + Z.of_nat (2 * ch * k))) with (Z.to_nat (readIdx x) + 2 * ch * k)%nat by lia.
  rewrite skipn_firstn_comm, drop_drop. f_equal. nia.
Qed.

(** [k] frames went from the front of the stream into the packet; the turn ends with a
    full packet or with the oldest item used up. *)
Definition uncmp_moved (n : nat) (c : list media_q_item) (stream pre old rest : list Z) (n' : nat) (buf' : list Z) (at' : Z)
    (s' : mq_st) : Prop :=
  exists k hdr' a', n' = (n - k)%nat /\ (k <= n)%nat /\ (2 * ch * k <= length stream)%nat
    /\ buf' = hdr' ++ (pre ++ am824 (take (2 * ch * k) stream)) ++ drop (4 * ch * k) old ++ rest /\ length hdr' = 32%nat
    /\ at' = 32 + Zlen (pre ++ am824 (take (2 * ch * k) stream))
    /\ mq_refines s' a' /\ concat (unread <$> f_held a') = drop (2 * ch * k) stream
    /\ Forall uncmp_item (f_held a') /\ (length (f_held a') <= S (length c))%nat /\ (n' = O \/ f_held a' = c).

Lemma pull_held a x c : f_held a = x :: c -> f_held (fifo_pull a) = c.
Proof. intros H. unfold fifo_pull. by rewrite H. Qed.

(** The frames that the oldest item has for the packet, and what is left of the queue. *)
Lemma uncmp_turn_frames s a x c d fr n hdr pre old rest set :
  mq_refines s a -> f_held a = x :: c -> pPubData x = Some d -> bytes_ok d -> 0 <= readIdx x -> frames_from x (readIdx x) fr ->
  readIdx x + Z.of_nat (2 * ch * fr) <= Zlen d -> readIdx x + Z.of_nat (2 * ch * fr) < 4294967296 ->
  length hdr = 32%nat -> length old = (4 * ch * n)%nat ->
  let k := Nat.min n fr in
  let out := am824 (take (2 * ch * k) (drop (Z.to_nat (readIdx x)) d)) in
  mq_returns (uncmp_turn m n (hdr ++ pre ++ old ++ rest) (32 + Zlen pre) set) s (fun '(n', buf', at', _) s' => exists hdr' a' t,
    n' = (n - k)%nat /\ buf' = hdr' ++ (pre ++ out) ++ drop (4 * ch * k) old ++ rest /\ length hdr' = 32%nat /\ at' = 32 + Zlen (pre ++ out)
    /\ mq_refines s' a'
    /\ (k = fr /\ f_held a' = c
        \/ n' = O /\ (k < fr)%nat /\ f_held a' = with_read (readIdx x + Z.of_nat (2 * ch * k)) (with_time t x) :: c)).
Proof.
  intros Hs Hh Hd Hb Hr Hfrom Hl H32 Hhdr Hold k out. destruct (uo_pos _ _ _ Hm) as [Hch _]. unfold uncmp_turn.
  eapply mq_bind; [by apply (tail_lock_spec true)|]. unfold fifo_lock_tail. rewrite Hh. intros i s1 [H1 (j & -> & Hj & _)].
  eapply mq_bind; [by eapply tail_read_spec|]. intros y s2 [-> ->].
  destruct (Z.ltb_spec 0 (dataLen x)) as [Hpos|Hz]; cycle 1.
  { assert (fr = O) as ->. { destruct fr as [|fr]; [done|]. pose proof (proj2 Hfrom 0%nat ltac:(lia)). lia. }
    subst out k. rewrite Nat.min_0_r, !Nat.mul_0_r, take_0, drop_0. cbn [am824].
    eapply mq_bind; [by apply tail_pull_spec|]. intros ok s2 [_ H2]. apply mq_ret. exists hdr, (fifo_pull a), (pAvtpTime x).
    rewrite (pull_held a x c Hh), app_nil_r, Nat.sub_0_r. split_and!; try done. by left. }
  eapply mq_bind; [by eapply (uncmp_stamp_spec s1 a x c j hdr)|].
  intros [buf' set'] s2 (hdr' & t & -> & Hhdr' & H2 & Hj2).
  eapply mq_bind_lift.
  { rewrite (uo_label _ _ _ Hm), (app_assoc hdr' pre). replace (32 + Zlen pre) with (Zlen (hdr' ++ pre)) by (rewrite length_app; lia).
    by apply (frames_out_spec x d n fr). }
  fold k. fold out. set (x' := with_read (readIdx x + Z.of_nat (2 * ch * k)) (with_time t x)).
  eapply mq_bind; [by eapply (write_tail_as s2 _ j (with_read (readIdx x + Z.of_nat (2 * ch * k))) (with_time t x) c H2 (retail_held _ a x c Hh))|].
  intros [] s3 [H3 Hj3]. rewrite retail_twice in H3. fold x' in H3. pose proof (retail_held x' a x c Hh) as Hh3.
  eapply (mq_bind _ _ _ (fun _ s' => exists a', mq_refines s' a'
    /\ (k = fr /\ f_held a' = c \/ (n - k)%nat = O /\ (k < fr)%nat /\ f_held a' = x' :: c))).
  - destruct Hfrom as [Hge Hlt]. destruct (Z.leb_spec (dataLen x) (readIdx x + Z.of_nat (2 * ch * k))) as [He|He].
    + eapply mq_bind; [by apply tail_pull_spec|]. intros ok s4 [_ H4]. apply mq_ret. eexists. split; [exact H4|].
      left. split; [|by apply (pull_held _ x')]. destruct (decide (k < fr)%nat) as [Hk|]; [|lia]. specialize (Hlt k Hk). lia.
    + eapply mq_mono; [by apply tail_unlock_spec|]. intros [] s4 H4. eexists. split; [exact H4|]. right.
      assert (k < fr)%nat by nia. split_and!; done || lia.
  - intros [] s4 (a' & H4 & Hend). apply mq_ret. exists hdr', a', t. split_and!; try done; [by rewrite <- !app_assoc|].
    subst out. rewrite !length_app, (am824_len (ch * k)); [lia|]. rewrite length_take, length_drop. nia.
Qed.

Lemma uncmp_turn_spec s a x c n hdr pre old rest set :
  mq_refines s a -> f_held a = x :: c -> Forall uncmp_item (x :: c) -> length hdr = 32%nat -> length old = (4 * ch * n)%nat ->
  mq_returns (uncmp_turn m n (hdr ++ pre ++ old ++ rest) (32 + Zlen pre) set) s (fun '(n', buf', at', _) s' =>
    uncmp_moved n c (concat (unread <$> x :: c)) pre old rest n' buf' at' s').
Proof.
  intros Hs Hh Hxc Hhdr Hold. apply Forall_cons_1 in Hxc as [[Hx [fr Hfr]] Hc].
  pose proof (unread_len x Hx) as Hul. pose proof Hx as (d & Hd & Hb & Hr & Hdl & H31). pose proof (uncmp_unread x d fr Hx Hd Hfr) as Hu.
  eapply mq_mono; [eapply (uncmp_turn_frames s a x c d fr n hdr pre old rest set); try done; try lia; by apply frames_whole|].
  intros [[[n' buf'] at'] set'] s' (hdr' & a' & t & -> & -> & Hhdr' & -> & Hs' & Hend). set (k := Nat.min n fr) in *.
  assert (Hk : (2 * ch * k <= 2 * ch * fr)%nat) by nia. exists k, hdr', a'. rewrite fmap_cons. cbn [concat].
  rewrite take_app_le, Hu, take_take, <- Hu by lia. rewrite (Nat.min_l _ _ Hk).
  rewrite drop_app_le by lia. split_and!; try done; [lia|rewrite length_app; lia|..].
  - destruct Hend as [[E ->]|(_ & _ & ->)]; [by rewrite drop_ge by nia|]. rewrite fmap_cons. cbn [concat].
    by rewrite (proj2 (uncmp_taken x d fr k t Hx Hd Hfr ltac:(lia))).
  - destruct Hend as [[_ ->]|(_ & Hkf & ->)]; [done|]. constructor; [|done].
    by apply (uncmp_taken x d fr k t Hx Hd Hfr ltac:(lia)).
  - destruct Hend as [[_ ->]|(_ & _ & ->)]; cbn; lia.
  - destruct Hend as [[_ ->]|(-> & _)]; [by right|by left].
Qed.

(** ** The loop *)

(** With [n] frames in the queue a packet gets exactly these, in at most a turn per
    item. *)
Lemma uncmp_loop_spec fuel : forall s a n hdr pre old rest set,
  mq_refines s a -> Forall uncmp_item (f_held a) -> length hdr = 32%nat -> length old = (4 * ch * n)%nat ->
  (2 * ch * n <= length (concat (unread <$> f_held a)))%nat -> (length (f_held a) <= fuel)%nat ->
  mq_returns (uncmp_loop fuel m n (hdr ++ pre ++ old ++ rest) (32 + Zlen pre) set) s (fun '(buf', _) s' => exists hdr' a',
    buf' = hdr' ++ (pre ++ am824 (take (2 * ch * n) (concat (unread <$> f_held a)))) ++ rest /\ length hdr' = 32%nat
    /\ mq_refines s' a' /\ Forall uncmp_item (f_held a') /\ (length (f_held a') <= length (f_held a))%nat
    /\ concat (unread <$> f_held a') = drop (2 * ch * n) (concat (unread <$> f_held a))).
Proof.
  destruct (uo_pos _ _ _ Hm) as [Hch _].
  induction fuel as [|fuel IH]; intros s a n hdr pre old rest set Hs Hit Hhdr Hold Hen Hf; destruct n as [|n].
  2: { destruct (f_held a); cbn in *; lia. }
  1,2: cbn [uncmp_loop]; apply mq_ret; exists hdr, a; rewrite Nat.mul_0_r in Hold |- *; destruct old; [|done];
    cbn [am824 take app]; rewrite take_0, drop_0; by rewrite app_nil_r.
  destruct (f_held a) as [|x c] eqn:Hh; [cbn in Hen; lia|]. cbn [uncmp_loop].
  eapply mq_bind; [by eapply (uncmp_turn_spec s a x c (S n))|].
  intros [[[n' buf'] at'] set'] s1 (k & hdr1 & a1 & -> & Hk & Hks & -> & Hhdr1 & -> & H1 & Hst & Hit1 & Hlen & Hend).
  set (stream := concat (unread <$> x :: c)) in *.
  assert (Hf1 : (length (f_held a1) <= fuel)%nat \/ (S n - k = 0)%nat) by (destruct Hend as [?| ->]; [by right|left; cbn in Hf; lia]).
  destruct (decide (S n - k = 0)%nat) as [E|E].
  - rewrite E. assert (k = S n) as -> by lia. rewrite drop_ge by lia.
    replace (uncmp_loop fuel m 0 (hdr1 ++ (pre ++ am824 (take (2 * ch * S n) stream)) ++ [] ++ rest)
      (32 + Zlen (pre ++ am824 (take (2 * ch * S n) stream))) set')
      with (mret (M := mqM) (hdr1 ++ (pre ++ am824 (take (2 * ch * S n) stream)) ++ rest, set')) by (by destruct fuel).
    apply mq_ret. exists hdr1, a1. by split_and!.
  - destruct Hf1 as [Hf1|]; [|done].
    eapply mq_mono; [apply (IH s1 a1 (S n - k)%nat hdr1 _ (drop (4 * ch * k) old) rest set'); try done;
      [rewrite length_drop, Hold; nia|rewrite Hst, length_drop; nia]|].
    rewrite Hst. intros [buf2 set2] s2 (hdr2 & a2 & -> & Hhdr2 & H2 & Hit2 & Hlen2 & Hst2).
    exists hdr2, a2. replace (2 * ch * S n)%nat with (2 * ch * k + 2 * ch * (S n - k))%nat by nia.
    rewrite <- take_take_drop, (am824_app (ch * k)), <- drop_drop by (rewrite length_take; nia).
    split_and!; try done; [|cbn [length]; lia]. by rewrite <- !app_assoc.
Qed.

End Turn.
End Module.
