(* ===== verification/MapUncmpTheorems.v ===== *)
(** * The uncompressed audio mapping: audio arrives as it was

    One packet sent and received, any number of them, and configurations in which
    audio is lost or memory outside the items is used. *)

From S2P Require Import Prelude AvtpTime MediaQ MediaQProps MediaQTheorems AvtpMap AudioMap MapPipe MapAaf MapAafProps MapMpeg2ts MapMpeg2tsProps MapMpeg2tsTheorems MapVideo MapVideoProps ItemMap MapUncmp MapUncmpProps.
From Stdlib Require Import ZArith Lia.
From stdpp Require Import base tactics list option.
Open Scope Z_scope.

#[local] Arguments Nat.mul : simpl never.

(** ** The talker *)

(** The samples that wait in a queue. *)
Definition waiting (a : fifo) : list Z := concat (MapMpeg2tsProps.unread <$> f_held a).

Lemma waiting_len l : Forall ts_item l -> MediaQProps.unread l = Zlen (concat (MapMpeg2tsProps.unread <$> l)).
Proof.
  induction 1 as [|x l Hx _ IH]; [done|]. rewrite fmap_cons. cbn [concat].
  change (MediaQProps.unread (x :: l)) with (dataLen x - readIdx x + MediaQProps.unread l).
  rewrite length_app, unread_len by done. destruct Hx as (d & _ & _ & Hr & _). lia.
Qed.

Lemma uncmp_header_spec m hdr rest : length hdr = 32%nat ->
  exists hdr', uncmp_header m (hdr ++ rest) = Ret (hdr' ++ rest) /\ length hdr' = 32%nat.
Proof.
  intros Hh. unfold uncmp_header.
  destruct (wr_list_prefix hdr rest HIDX_GATEWAY32 [0; 0; 0; 0]) as (h1 & E & Hl & _);
    [done|rewrite Hh; done|unfold bytes_ok; repeat constructor; lia|].
  rewrite E, res_bind_ret.
  repeat (rewrite wr_prefix by (rewrite ?length_insert, Hl, Hh; done); rewrite ?res_bind_ret).
  match goal with |- context [wr_list (?h ++ rest)] => set (h2 := h) end.
  assert (Hl2 : length h2 = 32%nat) by (subst h2; by rewrite !length_insert, Hl, Hh).
  destruct (wr_list_prefix h2 rest HIDX_SYT16 [0xff; 0xff]) as (h3 & E3 & Hl3 & _);
    [done|rewrite Hl2; done|unfold bytes_ok; repeat constructor; lia|].
  exists h3. by rewrite E3, Hl3.
Qed.

(** A packet with the samples [l]. *)
Definition uncmp_frame (dbc : Z) (l buf : list Z) : Prop :=
  exists hdr rest, buf = hdr ++ am824 l ++ rest /\ length hdr = 32%nat /\ hdr !! 27%nat = Some dbc
    /\ drop 20 (take 22 hdr) = be16 (2 * Zlen l + 8).

(** What a talker and its queue look like between calls. *)
Record uncmp_talker (ch F : nat) (m : uncmp_map) (a : fifo) : Prop := {
  ut_ok : uncmp_ok m ch F;
  ut_items : Forall (uncmp_item ch) (f_held a);
  ut_small : Zlen (waiting a) < 2147483648;
  ut_dbc : 0 <= um_DBC (um_pvt m) < 256
}.

Definition next_DBC (m : uncmp_map) : uncmp_map :=
  on_pvt (with_DBC (u8 (um_DBC (um_pvt m) + framesPerPacket (um_pub m))) (um_pvt m)) m.

Lemma uncmp_ok_ext m m' ch F : um_pub m' = um_pub m -> AM824_label (um_pvt m') = AM824_label (um_pvt m) ->
  packetAudioDataSizeBytes m' = packetAudioDataSizeBytes m -> uncmp_ok m ch F -> uncmp_ok m' ch F.
Proof. intros E1 E2 E3 []. split; rewrite ?E1, ?E2, ?E3; done. Qed.

(** ** The listener *)

(** An item of [q] packets that has [j] of them. *)
Definition uncmp_part (ch F q j : nat) (h : media_q_item) : Prop :=
  exists d, pPubData h = Some d /\ dataLen h = Z.of_nat (2 * ch * F * j) /\ itemSize h = Z.of_nat (2 * ch * F * q)
    /\ itemSize h <= Zlen d /\ itemSize h < 4294967296.

(** The samples of an item are followed by those of a packet. *)
Lemma uncmp_store_spec m ch F q j h hdr l rest :
  uncmp_ok m ch F -> uncmp_part ch F q j h -> (j < q)%nat -> length hdr = 32%nat -> bytes_ok l -> length l = (2 * ch * F)%nat ->
  exists y, uncmp_store (um_pub m) (hdr ++ am824 l ++ rest) (32 + Z.of_nat (4 * ch * F)) h = Ret y
    /\ uncmp_part ch F q (S j) y /\ received y = received h ++ l /\ taken y = taken h.
Proof.
  intros Hok (d & Hd & Hdl & Hsz & Hszd & H32) Hj Hhdr Hb Hl. pose proof (uo_pos _ _ _ Hok) as [Hch HF].
  assert (Hjq : (2 * ch * F * S j <= 2 * ch * F * q)%nat) by nia. pose proof (uo_small _ _ _ Hok).
  unfold uncmp_store. rewrite Hd, res_bind_ret. change UNCMP_TOTAL_HEADER_SIZE with 32.
  set (n := (2 * ch * F * j)%nat) in *. assert (HnS : (2 * ch * F * S j)%nat = (n + 2 * ch * F)%nat) by (subst n; nia).
  assert (exists pre old r, d = pre ++ old ++ r /\ length pre = n /\ length old = (2 * ch * F)%nat) as (pre & old & r & -> & Hpre & Hold).
  { exists (take n d), (take (2 * ch * F) (drop n d)), (drop (2 * ch * F) (drop n d)).
    rewrite !take_drop, !length_take, length_drop. split_and!; [done|lia..]. }
  rewrite !length_app in Hszd. rewrite Hdl. replace (Z.of_nat n) with (Zlen pre) by lia.
  replace 32 with (Zlen hdr) by lia.
  rewrite (frames_in_spec m ch F Hok), res_bind_ret; [|done|done|done|lia|nia|done|lia].
  eexists. split; [done|]. rewrite u32_id by lia. split_and!; [|unfold received; cbn [pPubData dataLen with_data]|done].
  - exists (pre ++ l ++ r). cbn. rewrite !length_app. split_and!; try done; lia.
  - rewrite Hd, Hdl, Nat2Z.id. cbn. unfold id. rewrite (take_app_length' pre (old ++ r) n) by done. rewrite app_assoc. apply take_app_length'.
    rewrite length_app. lia.
Qed.

(** A listener that generates no clock, with [j] packets in the item it fills. *)
Record uncmp_listener (ch F q j : nat) (m : uncmp_map) (a : fifo) : Prop := {
  ul_ok : uncmp_ok m ch F;
  ul_clock : clock_wanted m = false;
  ul_j : (j < q)%nat;
  ul_free : match f_free a with [] => j = O | h :: f => uncmp_part ch F q j h /\ Forall (uncmp_part ch F q 0) f end
}.
Definition next_part (q j : nat) : nat := if decide (S j = q) then O else S j.

(** The samples that a listener has stored: those of the items it pushed and those of the
    item that it fills. *)
Definition stored (a : fifo) : list Z :=
  concat (received <$> f_held a) ++ match f_free a with h :: _ => received h | [] => [] end.

Lemma push_mcr_same m a t tv tu :
  um_pub (push_mcr m a t tv tu) = um_pub m /\ um_pvt (push_mcr m a t tv tu) = um_pvt m
  /\ packetAudioDataSizeBytes (push_mcr m a t tv tu) = packetAudioDataSizeBytes m.
Proof. unfold push_mcr. by destruct (_ && _). Qed.

Lemma part_empty ch F q h : uncmp_part ch F q 0 h -> received h = [].
Proof. intros (d & _ & E & _). unfold received. by rewrite E, Nat.mul_0_r. Qed.

Section Theorems.
Context {pf : Platform}.

Lemma query_all a : fifo_query true a = (f_held a, a).
Proof.
  unfold fifo_query. destruct (f_held a) as [|x c]; [done|]. f_equal. generalize (x :: c). intros l.
  induction l as [|y l IH]; [done|]. cbn in *. by rewrite IH.
Qed.

(** What the talker does around its loop: it looks for enough bytes in the queue,
    writes the header and completes it.  [K] is what the loop leaves behind the header
    and in the queue. *)
Lemma uncmp_tx_steps ch F m a s fuel buf (K : list Z -> mq_st -> Prop) :
  uncmp_ok m ch F -> Forall read_ok (f_held a) -> MediaQProps.unread (f_held a) < 2147483648 -> 0 <= um_DBC (um_pvt m) < 256 ->
  mq_refines s a -> (32 + 4 * ch * F <= length buf)%nat -> Zlen buf < 4294967296 ->
  (forall hdr s1, Z.of_nat (2 * ch * F) <= MediaQProps.unread (f_held a) -> mq_refines s1 a -> length hdr = 32%nat ->
    mq_returns (uncmp_loop fuel m F (hdr ++ drop 32 buf) 32 false) s1 (fun '(buf', _) s2 =>
      exists hdr' y, buf' = hdr' ++ y /\ length hdr' = 32%nat /\ K y s2)) ->
  mq_returns (openavbMapUncmpAudioTxCB fuel (Some m) buf (Zlen buf)) s (fun '(rc, buf', len', P') s' =>
    if Z.of_nat (2 * ch * F) <=? MediaQProps.unread (f_held a)
    then rc = TX_CB_RET_PACKET_READY /\ P' = Some (next_DBC m) /\ len' = Z.of_nat (4 * ch * F) + 32
      /\ exists hdr y, buf' = hdr ++ y /\ length hdr = 32%nat /\ hdr !! 27%nat = Some (um_DBC (um_pvt m))
           /\ drop 20 (take 22 hdr) = be16 (Z.of_nat (4 * ch * F) + 8) /\ K y s'
    else rc = TX_CB_RET_PACKET_NOT_READY /\ P' = Some m /\ mq_refines s' a).
Proof.
  intros Hok Hro Hsm Hdb Hs Hb Hb32 Hloop. pose proof Hok as [? ? Hif Hpf Hfpp Hdt ? [Hch HF] H16 _].
  cbn [openavbMapUncmpAudioTxCB]. rewrite Hdt, Hif, Hfpp, Hpf. change UNCMP_TOTAL_HEADER_SIZE with 32.
  rewrite (u32_id (Zlen buf - 32)), (proj2 (Z.ltb_ge _ _)) by lia.
  eapply mq_bind; [apply (available_spec _ true s a Hs); [rewrite u32_id; nia|done|done]|].
  rewrite query_all, u32_id by nia. intros ok s1 [-> H1].
  replace (2 * Z.of_nat ch * Z.of_nat F) with (Z.of_nat (2 * ch * F)) by lia.
  destruct (Z.leb_spec (Z.of_nat (2 * ch * F)) (MediaQProps.unread (f_held a))) as [Hen|Hen]; cycle 1.
  { rewrite andb_false_r. by apply mq_ret. }
  rewrite bool_decide_eq_true_2 by (intros E; rewrite E in Hen; cbn in Hen; nia). cbn [andb].
  destruct (uncmp_header_spec m (take 32 buf) (drop 32 buf)) as (hdr1 & E1 & Hh1); [rewrite length_take; lia|].
  rewrite take_drop in E1. eapply mq_bind_lift; [exact E1|]. rewrite Nat2Z.id.
  eapply mq_bind; [by apply Hloop|]. intros [buf2 set] s2 (hdr2 & y & -> & Hh2 & HK).
  eapply (mq_bind _ _ _ (fun b s3 => s3 = s2 /\ exists hdr3, b = hdr3 ++ y /\ length hdr3 = 32%nat)).
  { destruct set; [split; [done|by exists hdr2]|].
    destruct (set_bits_prefix hdr2 y HIDX_AVTP_HIDE7_TV1 false) as [b Eb]; [by rewrite Hh2|].
    unfold mq_returns, mq_lift. rewrite Eb. split; [done|]. eexists. split; [done|]. by rewrite length_insert. }
  intros b s3 [-> (hdr3 & -> & Hh3)].
  destruct (dbc_len_written hdr3 y (um_DBC (um_pvt m)) (Z.of_nat (4 * ch * F) + 8)) as (hdr4 & E4 & Hh4 & H27 & H20); [done|done|lia|].
  destruct (wr (hdr3 ++ y) HIDX_DBC8 (um_DBC (um_pvt m))) as [w|] eqn:W; [|done].
  eapply mq_bind_lift; [done|]. cbv zeta. rewrite res_bind_ret in E4.
  eapply mq_bind_lift. { rewrite <- E4. do 2 f_equal. unfold CIP_HEADER_SIZE. rewrite u16_id; lia. }
  apply mq_ret. unfold next_DBC. rewrite Hfpp. split_and!; [done|done|rewrite u32_id; lia|]. by exists hdr4, y.
Qed.

Lemma items_read_ok ch l : Forall (uncmp_item ch) l -> Forall ts_item l /\ Forall read_ok l.
Proof.
  intros H. split; revert H; apply Forall_impl; [by intros x []|]. intros x [(d & _ & _ & Hr & _) _]. exact Hr.
Qed.

Lemma uncmp_tx_spec ch F m a s fuel buf :
  uncmp_talker ch F m a -> mq_refines s a -> (length (f_held a) <= fuel)%nat -> (32 + 4 * ch * F <= length buf)%nat ->
  Zlen buf < 4294967296 ->
  mq_returns (openavbMapUncmpAudioTxCB fuel (Some m) buf (Zlen buf)) s (fun '(rc, buf', len', P') s' =>
    if decide (2 * ch * F <= length (waiting a))%nat
    then rc = TX_CB_RET_PACKET_READY /\ P' = Some (next_DBC m) /\ len' = Z.of_nat (4 * ch * F) + 32
      /\ uncmp_frame (um_DBC (um_pvt m)) (take (2 * ch * F) (waiting a)) (take (Z.to_nat len') buf')
      /\ exists a', mq_refines s' a' /\ uncmp_talker ch F (next_DBC m) a' /\ (length (f_held a') <= length (f_held a))%nat
           /\ waiting a' = drop (2 * ch * F) (waiting a)
    else rc = TX_CB_RET_PACKET_NOT_READY /\ P' = Some m /\ mq_refines s' a).
Proof.
  intros [Hok Hit Hsm Hdb] Hs Hf Hb Hb32. destruct (items_read_ok ch _ Hit) as [Hts Hro].
  pose proof (waiting_len _ Hts) as Hwl. fold (waiting a) in Hwl. set (l := take (2 * ch * F) (waiting a)).
  set (rest := drop (4 * ch * F) (drop 32 buf)).
  eapply mq_mono; [apply (uncmp_tx_steps ch F m a s fuel buf (fun y s2 => y = am824 l ++ rest /\ exists a', mq_refines s2 a'
    /\ Forall (uncmp_item ch) (f_held a') /\ (length (f_held a') <= length (f_held a))%nat
    /\ waiting a' = drop (2 * ch * F) (waiting a))); try done; [lia|]|].
  { intros hdr s1 Hen H1 Hh. rewrite <- (take_drop (4 * ch * F) (drop 32 buf)). fold rest.
    eapply mq_mono; [apply (uncmp_loop_spec m ch F Hok fuel s1 a F hdr [] (take (4 * ch * F) (drop 32 buf)) rest false); try done;
      [rewrite length_take, length_drop; lia|fold (waiting a); lia]|].
    intros [buf' set] s2 (hdr' & a' & -> & Hh' & H2 & Hit' & Hlen & Hst). exists hdr', (am824 l ++ rest). split_and!; try done. by exists a'. }
  intros [[[rc buf'] len'] P'] s' H. case_decide as Hen; cycle 1. { by rewrite (proj2 (Z.leb_gt _ _)) in H by lia. }
  rewrite (proj2 (Z.leb_le _ _)) in H by lia. destruct H as (-> & -> & -> & hdr & y & -> & Hh & H27 & H20 & -> & a' & Hs' & Hit' & Hlen & Hw).
  assert (Hll : length l = (2 * ch * F)%nat) by (subst l; rewrite length_take; lia). pose proof (am824_len (ch * F) l ltac:(lia)) as Hal.
  split_and!; try done.
  - exists hdr, []. split_and!; try done; [|rewrite H20; do 2 f_equal; lia].
    rewrite app_assoc, app_nil_r. apply take_app_length'. rewrite length_app. lia.
  - exists a'. split_and!; try done. split; [by apply uncmp_ok_ext with m|done| |cbn; apply Z.mod_pos_bound; lia].
    rewrite Hw, length_drop. lia.
Qed.

(** ** The talker's loop ends *)

(** An item that may end within a frame, in a buffer that has the rest of the frame. *)
Definition uncmp_any_item (ch : nat) (x : media_q_item) : Prop :=
  exists d fr, pPubData x = Some d /\ bytes_ok d /\ 0 <= readIdx x <= dataLen x /\ frames_from ch x (readIdx x) fr
    /\ readIdx x + Z.of_nat (2 * ch * fr) <= Zlen d /\ Zlen d < 4294967296.

Lemma uncmp_loop_ends ch F m fuel : uncmp_ok m ch F -> forall s a n hdr pre old rest set,
  mq_refines s a -> Forall (uncmp_any_item ch) (f_held a) -> length hdr = 32%nat -> length old = (4 * ch * n)%nat ->
  Z.of_nat (2 * ch * n) <= MediaQProps.unread (f_held a) -> (length (f_held a) <= fuel)%nat ->
  mq_returns (uncmp_loop fuel m n (hdr ++ pre ++ old ++ rest) (32 + Zlen pre) set) s (fun '(buf', _) s' => exists hdr' y a',
    buf' = hdr' ++ y /\ length hdr' = 32%nat /\ length y = length (pre ++ old ++ rest) /\ mq_refines s' a'
    /\ (length (f_held a') <= length (f_held a))%nat).
Proof.
  intros Hok. destruct (uo_pos _ _ _ Hok) as [Hch _].
  induction fuel as [|fuel IH]; intros s a n hdr pre old rest set Hs Hit Hhdr Hold Hen Hf; destruct n as [|n].
  2: { destruct (f_held a); cbn in *; lia. }
  1,2: cbn [uncmp_loop]; apply mq_ret; by exists hdr, (pre ++ old ++ rest), a.
  destruct (f_held a) as [|x c] eqn:Hh; [cbn in Hen; lia|]. apply Forall_cons_1 in Hit as [(d & fr & Hd & Hb & Hr & Hfrom & Hl & H32) Hit].
  cbn [uncmp_loop]. eapply mq_bind; [eapply (uncmp_turn_frames m ch F Hok s a x c d fr (S n)); done || lia|].
  intros [[[n' buf'] at'] set'] s1 (hdr1 & a1 & t & -> & -> & Hhdr1 & -> & H1 & Hend). set (k := Nat.min (S n) fr) in *.
  set (out := am824 _). assert (Hout : length out = (4 * (ch * k))%nat).
  { apply am824_len. rewrite length_take, length_drop. assert (2 * ch * k <= 2 * ch * fr)%nat by nia. lia. }
  destruct Hend as [[Ek Hc1]|(-> & _ & Hc1)].
  - change (MediaQProps.unread (x :: c)) with (dataLen x - readIdx x + MediaQProps.unread c) in Hen.
    assert (Hen1 : Z.of_nat (2 * ch * (S n - k)) <= MediaQProps.unread c).
    { assert (0 <= MediaQProps.unread c).
      { apply unread_nonneg. revert Hit. apply Forall_impl. intros y (? & ? & _ & _ & Hy & _). exact Hy. }
      destruct Hfrom as [Hge _]. destruct (decide (S n <= fr)%nat); [replace (S n - k)%nat with O by lia; lia|]. nia. }
    eapply mq_mono; [apply (IH s1 a1 (S n - k)%nat hdr1 (pre ++ out) (drop (4 * ch * k) old) rest set'); rewrite ?Hc1; try done;
      [rewrite length_drop, Hold; nia|cbn in Hf; lia]|].
    intros [buf2 set2] s2 (hdr2 & y & a2 & -> & Hhdr2 & Hy & H2 & Hlen). exists hdr2, y, a2. rewrite Hc1 in Hlen. split_and!; try done; [|cbn; lia].
    rewrite Hy, !length_app, length_drop. nia.
  - replace (uncmp_loop fuel m 0 (hdr1 ++ (pre ++ out) ++ drop (4 * ch * k) old ++ rest) (32 + Zlen (pre ++ out)) set')
      with (mret (M := mqM) (hdr1 ++ (pre ++ out) ++ drop (4 * ch * k) old ++ rest, set')) by (by destruct fuel).
    apply mq_ret. eexists hdr1, _, a1. split_and!; try done; [|by rewrite Hc1]. rewrite !length_app, length_drop.
    destruct (decide (4 * ch * k <= length old)%nat); nia.
Qed.

(** C39: the talker's loop ends, for audio with 16-bit (2-byte) samples.
    [while (framesProcessed < framesPerPacket)] has no other exit, and goes on for
    ever on an empty queue; it is entered only with the bytes of a packet in the
    queue.  However these are cut into items, also within frames, the callback then
    returns a packet after at most one turn per item; with fewer bytes it returns
    without one and leaves the queue as it is.  The packet buffer keeps its length.
    The parameters are those [uncmp_ok] describes, the sizes calculated for 2-byte
    samples; with 24-bit samples the same callback reads past an item
    ([uncmp_24bit_past_item]). *)
Theorem uncmp_tx_ends ch F m a s buf :
  uncmp_ok m ch F -> Forall (uncmp_any_item ch) (f_held a) -> MediaQProps.unread (f_held a) < 2147483648 ->
  0 <= um_DBC (um_pvt m) < 256 -> mq_refines s a -> (32 + 4 * ch * F <= length buf)%nat -> Zlen buf < 4294967296 ->
  mq_returns (openavbMapUncmpAudioTxCB (length (f_held a)) (Some m) buf (Zlen buf)) s (fun '(rc, buf', _, _) s' =>
    if Z.of_nat (2 * ch * F) <=? MediaQProps.unread (f_held a)
    then rc = TX_CB_RET_PACKET_READY /\ length buf' = length buf
      /\ exists a', mq_refines s' a' /\ (length (f_held a') <= length (f_held a))%nat
    else rc = TX_CB_RET_PACKET_NOT_READY /\ mq_refines s' a).
Proof.
  intros Hok Hit Hsm Hdb Hs Hb Hb32.
  eapply mq_mono; [apply (uncmp_tx_steps ch F m a s _ buf (fun y s2 => length y = length (drop 32 buf) /\ exists a', mq_refines s2 a'
    /\ (length (f_held a') <= length (f_held a))%nat)); try done|].
  - revert Hit. apply Forall_impl. intros x (? & ? & _ & _ & Hx & _). exact Hx.
  - intros hdr s1 Hen H1 Hh. rewrite <- (take_drop (4 * ch * F) (drop 32 buf)) at 1.
    eapply mq_mono; [apply (uncmp_loop_ends ch F m _ Hok s1 a F hdr [] (take (4 * ch * F) (drop 32 buf)) (drop (4 * ch * F) (drop 32 buf)) false);
      try done; rewrite length_take, length_drop; lia|].
    intros [buf' set] s2 (hdr' & y & a' & -> & Hh' & Hy & H2 & Hlen). exists hdr', y. split_and!; try done; [|by exists a'].
    rewrite Hy. cbn [app]. by rewrite take_drop.
  - intros [[[rc buf'] len'] P'] s'. destruct (_ <=? _).
    + intros (-> & _ & _ & hdr & y & -> & Hh & _ & _ & Hy & a' & Hs' & Hlen). split; [done|]. split; [|by exists a'].
      rewrite length_app, Hy, length_drop. lia.
    + by intros (-> & _ & Hs').
Qed.

(** The item a packet goes into has its time when the samples are stored. *)
Lemma uncmp_begin s a h f k pData :
  mq_refines s a -> f_free a = h :: f -> at_index q_head s k -> 16 <= Zlen pData ->
  mq_returns (if dataLen h =? 0
              then n ← mq_call; t ← mq_lift (rx_time pData n (pAvtpTime h)); item_write k (with_time t)
              else mret tt) s (fun _ s' => exists t a', mq_refines s' a' /\ at_index q_head s' k /\ f_held a' = f_held a
    /\ f_free a' = with_time t h :: f).
Proof.
  intros Hs Hf Hk Hl. destruct (dataLen h =? 0).
  - destruct (rx_time_some pData (mq_tick s) (pAvtpTime h) Hl) as [t Ht]. apply mq_bind_call.
    pose proof (refines_call _ _ Hs) as H1. eapply mq_bind_lift; [exact Ht|].
    eapply mq_mono; [by eapply (head_write_spec _ (fifo_call a) H1)|]. intros [] s' [H2 Hk2].
    eexists t, _. split; [exact H2|]. split; [done|]. unfold fifo_write_head. cbn. by rewrite Hf.
  - apply mq_ret. exists (pAvtpTime h), a. split_and!; try done. rewrite Hf. by destruct h.
Qed.

(** A full item is pushed. *)
Lemma uncmp_end ch F q j s a y f k :
  mq_refines s a -> f_free a = y :: f -> at_index q_head s k -> uncmp_part ch F q (S j) y -> (j < q)%nat -> (0 < 2 * ch * F)%nat ->
  Forall (uncmp_part ch F q 0) f ->
  mq_returns (if dataLen y <? itemSize y then _ ← openavbMediaQHeadUnlock; mret tt else _ ← openavbMediaQHeadPush; mret tt) s
    (fun _ s' => exists a', mq_refines s' a' /\ stored a' = concat (received <$> f_held a) ++ received y
      /\ length (f_free a') = (length f + if decide (S j = q) then 0 else 1)%nat
      /\ match f_free a' with [] => next_part q j = O | h :: f => uncmp_part ch F q (next_part q j) h /\ Forall (uncmp_part ch F q 0) f end).
Proof.
  intros Hs Hf Hk Hy Hj H0 Hr. pose proof Hy as (d & _ & Hdl & Hsz & _). unfold next_part. destruct (decide (S j = q)) as [E|E].
  - rewrite (proj2 (Z.ltb_ge _ _)) by nia. eapply mq_bind; [by apply head_push_spec|]. intros ok s1 [_ H1]. apply mq_ret.
    eexists. split; [exact H1|]. unfold fifo_push, stored. rewrite Hf. cbn [f_held f_free]. rewrite fmap_app, concat_app. cbn [fmap list_fmap concat].
    rewrite app_nil_r. change (received (clear_read y)) with (received y). split_and!; [|lia|].
    + rewrite <- (app_nil_r (_ ++ received y)) at 2. f_equal. destruct f as [|h f]; [done|]. apply Forall_cons_1 in Hr as [Hh _].
      by apply (part_empty ch F q).
    + destruct f as [|h f]; [done|]. by apply Forall_cons_1 in Hr.
  - rewrite (proj2 (Z.ltb_lt _ _)) by nia. eapply mq_bind; [by apply head_unlock_spec|]. intros ok s1 H1. apply mq_ret.
    eexists. split; [exact H1|]. unfold stored. rewrite Hf. cbn [length]. split_and!; done || lia.
Qed.

Lemma uncmp_rx_spec ch F q j m a s h f dbc l buf len :
  uncmp_listener ch F q j m a -> mq_refines s a -> f_free a = h :: f -> uncmp_frame dbc l buf -> bytes_ok l ->
  length l = (2 * ch * F)%nat -> (j = O -> dbc mod sytInterval (um_pub m) = 0) ->
  mq_returns (openavbMapUncmpAudioRxCB (Some m) buf len) s (fun r s' => exists m' a',
    r = (true, Some m') /\ um_pub m' = um_pub m /\ mq_refines s' a' /\ uncmp_listener ch F q (next_part q j) m' a'
    /\ stored a' = stored a ++ l /\ length (f_free a') = (length f + if decide (S j = q) then 0 else 1)%nat).
Proof.
  intros [Hok Hck Hj Hfr] Hs Hf (hdr & rest & -> & Hhdr & H27 & H20) Hb Hl Hdbc. rewrite Hf in Hfr. destruct Hfr as [Hh Hfr].
  pose proof (uo_pos _ _ _ Hok) as [Hch HF]. pose proof (uo_small _ _ _ Hok) as H16. pose proof (uo_syt _ _ _ Hok) as Hsyt.
  cbn [openavbMapUncmpAudioRxCB]. set (buf := hdr ++ _).
  assert (Hbuf : 32 <= Zlen buf) by (subst buf; rewrite length_app; lia).
  assert (Hrd : forall i, 0 <= i < 32 -> exists b, rd buf i = Ret b).
  { intros i Hi. destruct (lookup_lt_is_Some_2 buf (Z.to_nat i) ltac:(lia)) as [b Hlk]. exists b. apply rd_lookup; [lia|done]. }
  eapply (mq_bind_lift _ _ _ (2 * Zlen l + 8)).
  { unfold get16. rewrite rd_list_slice by (unfold HIDX_DATALEN16; lia). rewrite res_bind_ret. subst buf.
    change (Z.to_nat HIDX_DATALEN16) with 20%nat. rewrite drop_app_le, take_app_le by (rewrite ?length_drop; lia).
    replace (take 2 (drop 20 hdr)) with (drop 20 (take 22 hdr)) by (by rewrite skipn_firstn_comm).
    rewrite H20, of_be16. f_equal. apply u16_id. lia. }
  eapply (mq_bind_lift _ _ _ dbc). { apply rd_lookup; [done|]. subst buf. change (Z.to_nat HIDX_DBC8) with 27%nat. by rewrite lookup_app_l by lia. }
  destruct (Hrd HIDX_AVTP_HIDE7_TV1) as [tv Htv]; [done|]. eapply mq_bind_lift; [exact Htv|].
  destruct (Hrd HIDX_AVTP_HIDE7_TU1) as [tu Htu]; [done|]. eapply mq_bind_lift; [exact Htu|].
  destruct (Hrd HIDX_AVTP_SEQ_NUM8) as [sq Hsq]; [done|]. eapply mq_bind_lift; [exact Hsq|].
  rewrite (proj2 (Z.eqb_neq _ _)) by lia. cbv zeta. unfold uncmp_gen_clock. rewrite Hck. apply mq_bind_ret.
  rewrite (uo_pframe _ _ _ Hok). change (AVTP_V0_HEADER_SIZE + MAP_HEADER_SIZE) with 24. change UNCMP_TOTAL_HEADER_SIZE with 32.
  rewrite (proj2 (Z.leb_le _ _)) by nia. replace (24 + (2 * Zlen l + 8)) with (32 + Z.of_nat (4 * ch * F)) by lia.
  eapply mq_bind; [by apply head_lock_spec|]. rewrite Hf. intros i s1 [H1 (k & -> & Hk)].
  eapply mq_bind; [by eapply head_read_spec|]. intros y s2 [-> ->].
  eapply mq_bind_lift. { unfold get32, HIDX_AVTP_TIMESPAMP32. rewrite rd_list_slice by lia. by rewrite res_bind_ret. }
  set (m' := push_mcr m h _ _ _). destruct (push_mcr_same m h (of_be (take 4 (drop (Z.to_nat 12) buf))) (Z.testbit tv 0) (Z.testbit tu 0))
    as (Epub & Epvt & Epk). fold m' in Epub, Epvt, Epk. clearbody m'.
  assert (((dataLen h =? 0) && (0 <? u8 (dbc mod sytInterval (um_pub m))))%bool = false) as ->.
  { destruct Hh as (d & _ & -> & _). destruct (decide (j = O)) as [E|E]; [rewrite (Hdbc E); apply andb_false_r|].
    rewrite (proj2 (Z.eqb_neq _ _)) by nia. done. }
  eapply mq_bind; [eapply (uncmp_begin s1 a h f k buf); done || lia|]. intros [] s2 (t & a2 & H2 & Hk2 & Hh2 & Hf2).
  eapply mq_bind; [by eapply (head_read_spec _ _ H2)|]. intros y s3 [-> ->].
  destruct (uncmp_store_spec m ch F q j (with_time t h) hdr l rest) as (y & Ey & Hy & Hry & Hty); try done.
  eapply mq_bind_lift; [exact Ey|].
  eapply mq_bind; [eapply (head_write_spec _ _ H2); [exact Hf2|done|exact Hk2]|]. intros [] s3 [H3 Hk3].
  set (a3 := fifo_write_head (fun _ => y) a2) in *.
  assert (Hf3 : f_free a3 = y :: f) by (subst a3; unfold fifo_write_head; by rewrite Hf2).
  assert (Hh3 : f_held a3 = f_held a) by (subst a3; unfold fifo_write_head; rewrite Hf2; cbn; done).
  eapply mq_bind; [eapply (uncmp_end ch F q j s3 a3 y f k); try done; nia|].
  intros [] s4 (a4 & H4 & Hst & Hlen & Hfr4). apply mq_ret. exists m', a4. split_and!; try done.
  - split; [apply uncmp_ok_ext with m; by rewrite ?Epvt|unfold clock_wanted; by rewrite Epub, Epvt| |done].
    unfold next_part. case_decide; lia.
  - rewrite Hst, Hry, Hh3. unfold stored. rewrite Hf. change (received (with_time t h)) with (received h). by rewrite app_assoc.
Qed.

(** ** Packets one after the other *)

(** The block count says where in an item the listener is: items are whole
    multiples of the SYT interval. *)
Definition uncmp_synced (F q j : nat) (m ml : uncmp_map) : Prop :=
  256 mod sytInterval (um_pub ml) = 0 /\ Z.of_nat (q * F) mod sytInterval (um_pub ml) = 0
  /\ (um_DBC (um_pvt m) - Z.of_nat (j * F)) mod sytInterval (um_pub ml) = 0.

Lemma synced_next ch F q j m ml ml' : uncmp_ok m ch F -> 1 <= sytInterval (um_pub ml) -> um_pub ml' = um_pub ml -> (j < q)%nat ->
  uncmp_synced F q j m ml -> uncmp_synced F q (next_part q j) (next_DBC m) ml'.
Proof.
  intros Hok Hs E Hj (H256 & Hq & Hd). unfold uncmp_synced. rewrite E. split; [done|]. split; [done|].
  unfold next_DBC. cbn [um_pvt on_pvt um_DBC with_DBC]. rewrite (uo_fpp _ _ _ Hok). unfold u8.
  rewrite Z.mod_divide in H256, Hq, Hd |- * by lia.
  assert (Hw : (sytInterval (um_pub ml) | (um_DBC (um_pvt m) + Z.of_nat F) mod 256 - (um_DBC (um_pvt m) + Z.of_nat F))).
  { rewrite Z.mod_eq by lia. replace (_ - _ - _) with (- ((um_DBC (um_pvt m) + Z.of_nat F) / 256) * 256) by lia.
    by apply Z.divide_mul_r. }
  pose proof (Z.divide_add_r _ _ _ Hw Hd) as Hsum. unfold next_part. case_decide as Ej.
  - destruct (Z.divide_add_r _ _ _ Hsum Hq) as [z Hz]. exists z. rewrite <- Hz, <- Ej. lia.
  - destruct Hsum as [z Hz]. exists z. rewrite <- Hz. lia.
Qed.

Lemma waiting_bytes ch a : Forall (uncmp_item ch) (f_held a) -> bytes_ok (waiting a).
Proof. intros H. apply Forall_concat, Forall_fmap. revert H. apply Forall_impl. intros x [Hx _]. by apply unread_bytes. Qed.

Lemma uncmp_round_ok ch F q j m ml a al s sl fuel buf :
  uncmp_talker ch F m a -> mq_refines s a -> (length (f_held a) <= fuel)%nat -> (32 + 4 * ch * F <= length buf)%nat ->
  Zlen buf < 4294967296 -> uncmp_listener ch F q j ml al -> mq_refines sl al -> (1 <= length (f_free al))%nat ->
  uncmp_synced F q j m ml ->
  returns (map_round (uncmp_cb fuel) buf (Some ml) (Some m) s sl) (fun '(pl', p', s', sl') => exists m' ml' a' al' j',
    p' = Some m' /\ pl' = Some ml' /\ mq_refines s' a' /\ mq_refines sl' al' /\ uncmp_talker ch F m' a' /\ uncmp_listener ch F q j' ml' al'
    /\ uncmp_synced F q j' m' ml' /\ (length (f_held a') <= length (f_held a))%nat
    /\ (q * length (f_free al) + j' <= S (q * length (f_free al') + j))%nat
    /\ let k := (if decide (2 * ch * F <= length (waiting a)) then 2 * ch * F else 0)%nat in
       stored al' = stored al ++ take k (waiting a) /\ waiting a' = drop k (waiting a)).
Proof.
  intros Ht Hs Hf Hb Hb32 Hl Hsl Hfree Hsy. unfold map_round. cbn [map_tx_cb map_rx_cb uncmp_cb].
  eapply returns_bind; [by apply (uncmp_tx_spec ch F m a s fuel buf)|].
  intros [[[[rc buf'] len'] P'] s']. case_decide as Hen.
  - intros (-> & -> & _ & Hfm & a' & Hs' & Ht' & Hlen & Hw). rewrite decide_True by done.
    destruct (f_free al) as [|h f] eqn:Efree; [cbn in Hfree; lia|]. pose proof (ut_ok _ _ _ _ Ht) as Hok.
    pose proof (ul_j _ _ _ _ _ _ Hl) as Hj. pose proof (uo_syt _ _ _ (ul_ok _ _ _ _ _ _ Hl)) as Hsyt.
    eapply returns_bind.
    { eapply (uncmp_rx_spec ch F q j ml al sl h f _ _ _ _ Hl Hsl Efree Hfm).
      - apply Forall_take, (waiting_bytes ch), Ht.
      - rewrite length_take. lia.
      - intros ->. destruct Hsy as (_ & _ & Hd). by rewrite Nat.mul_0_l, Z.sub_0_r in Hd. }
    intros [r sl'] (ml' & al' & -> & Epub & Hsl' & Hl' & Hst & Hfl). exists (next_DBC m), ml', a', al', (next_part q j).
    split_and!; try done; [by apply (synced_next ch F q j m ml); lia || done|].
    rewrite Hfl. unfold next_part. cbn [length]. case_decide; nia.
  - intros (-> & -> & Hs'). rewrite decide_False by done. exists m, ml, a, al, j.
    rewrite take_0, drop_0, app_nil_r. split_and!; done || lia.
Qed.

Lemma packets_left (n k len : nat) : (0 < k)%nat ->
  (k * Nat.min (S n) (len / k) = (if decide (k <= len) then k else 0) + k * Nat.min n ((len - if decide (k <= len) then k else 0) / k))%nat.
Proof.
  intros Hk. case_decide as E.
  - replace len with ((len - k) + 1 * k)%nat at 1 by lia. rewrite Nat.div_add by lia.
    replace (Nat.min (S n) ((len - k) / k + 1)) with (S (Nat.min n ((len - k) / k))) by lia. lia.
  - rewrite Nat.div_small by lia. rewrite Nat.sub_0_r, Nat.div_small by lia. lia.
Qed.

(** C16: audio arrives as it was.  The talker's media queue holds 16-bit frames in
    items of any sizes; the listener's has items of [q] packets each, a multiple of
    the SYT interval, and may be in the middle of one.  After [n] rounds of
    transmitting a packet and receiving it the listener has stored, in order, the
    samples of the first [n] packets, or of all whole packets when there are fewer;
    the talker's queue has exactly the rest; the bound on the talker's loop is
    never reached when it is at least the number of items. *)
Theorem uncmp_stream_carried ch F q j m ml a al s sl fuel buf n :
  uncmp_talker ch F m a -> mq_refines s a -> (length (f_held a) <= fuel)%nat -> (32 + 4 * ch * F <= length buf)%nat ->
  Zlen buf < 4294967296 -> uncmp_listener ch F q j ml al -> mq_refines sl al -> (n + j <= q * length (f_free al))%nat ->
  uncmp_synced F q j m ml ->
  returns (map_rounds n (uncmp_cb fuel) buf (Some ml) (Some m) s sl) (fun '(_, _, s', sl') => exists a' al',
    mq_refines s' a' /\ mq_refines sl' al'
    /\ let sent := (2 * ch * F * Nat.min n (length (waiting a) / (2 * ch * F)))%nat in
       stored al' = stored al ++ take sent (waiting a) /\ waiting a' = drop sent (waiting a)).
Proof.
  intros Ht Hs Hf Hb Hb32. revert m ml a al j s sl Ht Hs Hf. induction n as [|n IH]; intros m ml a al j s sl Ht Hs Hf Hl Hsl Hn Hsy.
  { cbn. exists a, al. cbn. rewrite Nat.mul_0_r, take_0, drop_0, app_nil_r. by split_and!. }
  pose proof (uo_pos _ _ _ (ut_ok _ _ _ _ Ht)) as [Hch HF].
  cbn [map_rounds]. eapply returns_bind; [apply (uncmp_round_ok ch F q j m ml a al); done || nia|].
  intros [[[pl1 p1] s1] sl1] (m1 & ml1 & a1 & al1 & j1 & -> & -> & Hs1 & Hsl1 & Ht1 & Hl1 & Hsy1 & Hlen & Hroom & Hst & Hw).
  eapply returns_mono; [apply (IH m1 ml1 a1 al1 j1); done || lia|].
  intros [[[pl2 p2] s2] sl2] (a2 & al2 & Hs2 & Hsl2 & Hst2 & Hw2). exists a2, al2. split; [done|]. split; [done|].
  cbv zeta. rewrite packets_left by nia. rewrite Hst2, Hst, Hw2, Hw, !length_drop, drop_drop. split; [|done].
  by rewrite <- app_assoc, take_take_drop.
Qed.

End Theorems.

(** ** Sizes *)

(** The sizes for 16-bit audio are those the callbacks rely on. *)
Lemma uncmp_sizes_ok m m' ch :
  uncmp_calculateSizes m = Ret m' -> audioBitDepth (um_pub m) = 16 -> audioChannels (um_pub m) = Z.of_nat ch -> (0 < ch)%nat ->
  0 <= audioRate (um_pub m) < 4294967295 -> 0 < um_txInterval (um_pvt m) ->
  Z.of_nat (4 * ch) * (audioRate (um_pub m) / um_txInterval (um_pvt m) + 2) + 32 < 65536 ->
  uncmp_ok m' ch (Z.to_nat (framesPerPacket (um_pub m'))) /\ um_DBC (um_pvt m') = um_DBC (um_pvt m)
  /\ 256 mod sytInterval (um_pub m') = 0.
Proof.
  intros E Hd Hch Hpos Hr Ht Hs. revert E. unfold uncmp_calculateSizes. rewrite Hd, Hch.
  assert (Hsyt : In (sfc_of (audioRate (um_pub m))).2 [8; 16; 32]).
  { unfold sfc_of. repeat match goal with |- context [if ?b then _ else _] => destruct b end; cbn; auto. }
  destruct (sfc_of (audioRate (um_pub m))) as [sfc syt]. cbn [snd] in Hsyt. rewrite (proj2 (Z.eqb_neq _ _)) by lia.
  set (q := audioRate (um_pub m) / um_txInterval (um_pvt m)) in *.
  assert (Hq : 0 <= q <= audioRate (um_pub m)) by (subst q; split; [apply Z.div_pos; lia|apply Z.div_le_upper_bound; nia]).
  set (fpp := if audioRate (um_pub m) mod _ =? 0 then _ else _).
  assert (Hf : 1 <= fpp <= q + 2).
  { subst fpp. destruct (Z.ltb_spec q 1), (audioRate (um_pub m) mod um_txInterval (um_pvt m) =? 0); rewrite ?u32_id; lia. }
  clearbody fpp. cbn [Z.eqb Pos.eqb orb]. intros [= <-]. cbn.
  assert (4 * Z.of_nat ch * fpp + 32 < 65536) by nia. assert (4 * Z.of_nat ch < 65536) by nia.
  split; [split; cbn; rewrite ?(u32_id (4 * Z.of_nat ch)), ?(u32_id (2 * Z.of_nat ch)); rewrite ?u32_id; try done; try lia; try nia|].
  - destruct Hsyt as [<-|[<-|[<-|[]]]]; lia.
  - split; [done|]. by destruct Hsyt as [<-|[<-|[<-|[]]]].
Qed.

(** ** Five packets *)

(** 48 kHz, mono, two frames per packet and four packets per item. *)
Definition demo_audio (depth ch : Z) : audio_info :=
  AudioInfo 48000 AVB_AUDIO_TYPE_INT depth AVB_AUDIO_ENDIAN_LITTLE ch 0 0 0 0 0 0 0 0 0 0 None 0 0.
Definition demo_uncmp (tx pack depth ch : Z) : uncmp_map :=
  let v := UncmpPvt 20 tx pack 2000 0 0 0 0 0 0 0 0 in
  let m := UncmpMap v (demo_audio depth ch) 0 [] [] in
  match uncmp_calculateSizes m with Ret m => m | Fault _ => m end.
Definition demo_samples : list Z := [1; 2; 3; 4; 5; 6; 7; 8; 9; 10; 11; 12; 13; 14; 15; 16; 17; 18; 19; 20].
Definition demo_audio_items : list media_q_item := [demo_ts_item (take 6 demo_samples); demo_ts_item (drop 6 demo_samples)].
Definition demo_audio_rx (items : nat) (size : Z) : mq_st :=
  MqSt (Some (MediaQInfo (Z.of_nat items) size (replicate items (fresh_item 2000 size)) 0 false (-1) false true 2000 false
                MICROSECONDS_PER_SECOND)) 0 [].

Lemma demo_uncmp_ok : uncmp_ok (demo_uncmp 24000 4 16 1) 1 2.
Proof. split; vm_compute; (done || lia). Qed.

Lemma uncmp_stream_carried_witness :
  returns (map_rounds 5 (uncmp_cb (pf := demo_platform) 2) (replicate 40 0) (Some (demo_uncmp 24000 4 16 1)) (Some (demo_uncmp 24000 4 16 1))
             (demo_ts_q demo_audio_items) (demo_audio_rx 2 16))
    (fun '(_, _, s', sl') => exists a' al', mq_refines s' a' /\ waiting a' = [] /\ mq_refines sl' al' /\ stored al' = demo_samples).
Proof.
  eapply returns_mono.
  - apply (uncmp_stream_carried (pf := demo_platform) 1 2 4 0 (demo_uncmp 24000 4 16 1) (demo_uncmp 24000 4 16 1)
      (Fifo demo_audio_items [fresh_item 2000 600] 0 MICROSECONDS_PER_SECOND)
      (Fifo [] (replicate 2 (fresh_item 2000 16)) 0 MICROSECONDS_PER_SECOND) (demo_ts_q demo_audio_items) (demo_audio_rx 2 16) 2 (replicate 40 0) 5).
    + split; [apply demo_uncmp_ok| |done|by vm_compute].
      repeat constructor; (eexists; split_and!; [done|unfold bytes_ok; cbn; repeat constructor; lia|done..]) || eexists.
      * instantiate (1 := 3%nat). done.
      * instantiate (1 := 7%nat). done.
    + split; [done|]. eexists _, 0%nat. split; [done|]. split; [|done]. split; [vm_compute; lia|done..|by repeat constructor].
    + done.
    + cbn. lia.
    + done.
    + split; [apply demo_uncmp_ok|done|lia|]. cbn. split; [|repeat constructor]; eexists; split_and!; done.
    + split; [done|]. eexists _, 0%nat. split; [done|]. split; [|done]. split; [vm_compute; lia|done..|by repeat constructor].
    + cbn. lia.
    + by vm_compute.
  - intros [[[pl p] s'] sl'] (a' & al' & Hs & Hsl & Hst & Hw). exists a', al'. rewrite Hst, Hw. by vm_compute.
Defined.

(** Three items, one that ends within a frame, give a packet of two frames. *)
Lemma uncmp_tx_ends_witness :
  let items := [demo_ts_item []; MediaQItem None (Some [1; 2]) 0 1 2 false None None None; demo_ts_item [3; 4; 5; 6]] in
  mq_returns (openavbMapUncmpAudioTxCB (pf := demo_platform) 3 (Some (demo_uncmp 24000 4 16 1)) (replicate 40 0) 40) (demo_ts_q items)
    (fun '(rc, buf', _, _) _ => rc = TX_CB_RET_PACKET_READY /\ length buf' = 40%nat).
Proof.
  intros items. eapply mq_mono.
  - apply (uncmp_tx_ends (pf := demo_platform) 1 2 (demo_uncmp 24000 4 16 1) (Fifo items [fresh_item 2000 600] 0 MICROSECONDS_PER_SECOND)
      (demo_ts_q items) (replicate 40 0) demo_uncmp_ok); [| |by vm_compute| |cbn; lia|done].
    + repeat constructor; [exists [], 0%nat|exists [1; 2], 1%nat|exists [3; 4; 5; 6], 2%nat];
        (split_and!; [done|unfold bytes_ok; repeat constructor; lia|done|cbn; lia|split; [cbn; lia|intros [|[|i]] Hi; cbn; lia]|done..]).
    + done.
    + split; [done|]. eexists _, 0%nat. split; [done|]. split; [|done]. split; [vm_compute; lia|done..|by repeat constructor].
  - intros [[[rc buf'] len'] P'] s'. cbn. by intros (-> & Hl & _).
Defined.

(** ** Configurations that do harm *)

#[local] Existing Instance demo_platform.

(** 24-bit samples are handled as ints of four bytes: the talker reads the byte behind
    the last sample of an item, the listener writes it. *)
Theorem uncmp_24bit_past_item :
  openavbMapUncmpAudioTxCB 5 (Some (demo_uncmp 48000 1 24 1)) (replicate 36 0) 36 (demo_ts_q [demo_ts_item [1; 2; 3]]) = Fault (OobRead 3)
  /\ openavbMapUncmpAudioRxCB (Some (demo_uncmp 48000 1 24 1)) (replicate 20 0 ++ be16 40 ++ replicate 42 0) 64 (demo_audio_rx 2 24)
     = Fault (OobWrite 24).
Proof. split; vm_compute; reflexivity. Qed.

(** Without packing an item has the SYT interval of eight frames, but a packet six at
    48 kHz and 8000 packets a second.  The rest of the packet that fills an item is
    dropped, and so are packets until one is aligned: of 36 frames, 16 arrive. *)
Theorem uncmp_default_drops :
  exists pl p s sl, map_rounds 6 (uncmp_cb 5) (replicate 56 0) (Some (demo_uncmp 8000 1 16 1)) (Some (demo_uncmp 8000 1 16 1))
      (demo_ts_q [demo_ts_item (flat_map (fun n => [Z.of_nat n; 0]) (seq 1 36))]) (demo_audio_rx 4 16) = Ret (pl, p, s, sl)
    /\ (received <$> match mq sl with Some i => pItems i | None => [] end)
       = [flat_map (fun n => [Z.of_nat n; 0]) (seq 1 8); flat_map (fun n => [Z.of_nat n; 0]) (seq 25 8); []; []].
Proof. eexists _, _, _, _. split; vm_compute; reflexivity. Qed.

(** The listener takes the length of the audio from the header alone. *)
Theorem uncmp_rx_reads_past :
  openavbMapUncmpAudioRxCB (Some (demo_uncmp 8000 1 16 1)) (replicate 20 0 ++ be16 12 ++ replicate 10 0) 32 (demo_audio_rx 2 16)
  = Fault (OobRead 32).
Proof. vm_compute. reflexivity. Qed.

(** Without a configured interval the sizes are divided by zero. *)
Theorem uncmp_default_interval : uncmp_calculateSizes (UncmpMap (uncmp_defaults 2000) (demo_audio 16 2) 0 [] []) = Fault DivByZero.
Proof. reflexivity. Qed.

(** A rate below the packet rate gives two frames a packet, not one. *)
Theorem uncmp_slow_rate : framesPerPacket (um_pub (demo_uncmp 96000 1 16 1)) = 2.
Proof. vm_compute. reflexivity. Qed.
